(* ===== verification/_CoqProject ===== *)
-Q . S2P
Prelude.v
SchedSpec.v
SchedDS.v
SchedRepr.v
SchedPut.v
SchedExtract.v
SchedRefine.v
SchedImpl.v
SchedCorrect.v
Moddi3.v
Spinlock.v
Proc.v
ProcHw.v
ProcInv.v
ProcSwitch.v
ProcCalls.v
ProcExit.v
ProcFork.v
ProcDispatch.v
ProcSys.v
ProcDemo.v
ProcCorrect.v
CString.v
Printf.v
Sync.v
Kalloc.v
Pipe.v
Sleeplock.v
CacheSpec.v
Bio.v
BioRefine.v
Log.v
LogRefine.v
LogTxn.v
BlockSpec.v
Fs.v
FsLayout.v
FsInv.v
FsBlocks.v
FsFile.v
FsRw.v
FsInode.v
FsCorrect.v
FsNames.v
FsDir.v
FsPath.v
FsLog.v
FsTheorems.v
File.v
Syscall.v
Sysfile.v
FsTriple.v
FsTree.v
FileCorrect.v
SysTriple.v
SysNames.v
FsConsistent.v
FsPreserve.v
SysCalls.v
SysInv.v
SysTheorems.v
Console.v
ConsoleCorrect.v
Grep.v
Shell.v
ShellCorrect.v
ShellPrint.v
Umalloc.v
UmallocCorrect.v
UmallocClient.v
Vm.v
VmTable.v
VmSpace.v
VmUser.v
VmCopy.v
VmCorrect.v
Mkfs.v
MkfsCorrect.v
