(* ===== verification/Prelude.v ===== *)
(** * xv6 with a priority scheduler: a verification library

    The program is the xv6 teaching kernel for the x86, its user library and a
    few of its programs, extended with pluggable scheduling (a priority queue
    and a round-robin queue written in C++), an exit status for [exit] and
    [wait], [detach], process priorities and a shell search path.

    ** The parts and the files that model them

    - _This file_: the outcome monad every call is written in, loops, weakest
      preconditions and their tactics, machine integers at their widths.
    - _Scheduling data structures_ (ass1ds.cpp, ass1ds.hpp,
      schedulinginterface.h).  [SchedSpec] says what the three queues are:
      lists and a list of classes sorted by key.  [SchedDS] is the code: links
      and tree nodes as heap cells, their free lists, every method.
      [SchedRepr], [SchedPut], [SchedExtract], [SchedRefine] and [SchedImpl]
      relate the two; [SchedCorrect] has the theorems: any sequence of calls
      behaves as the abstract queues ([interface_simulation]), what is put
      comes out by priority, and [initSchedDS] lays its objects out in pages.
      [Moddi3] is the 64-bit remainder routine.
    - _Spin locks_ (spinlock.c, parts of proc.c and x86.h): [Spinlock], on a
      machine of CPUs with interrupt flags; also [acquire] and [release] as
      single memory accesses of interleaving CPUs.  [Sync] turns them into the
      interfaces [Lock] and [Locks] the other components are written against.
    - _Processes and scheduling_ (proc.c, proc.h): [Proc] has every function,
      with memory, files and the file system behind the class [Services] and
      the queues behind [Queues] (discharged by [SchedImpl]).  [ProcHw] to
      [ProcSys] prove that every call keeps the invariant [ProcInv.Inv];
      [ProcDemo] boots a concrete machine; [ProcCorrect] has the theorems:
      safety of any interleaving of calls and scheduler rounds on any CPUs,
      what each call does on every branch, that runnable processes are queued,
      and that they are lost once the pool of links is used up.
    - _Strings and output_: [CString] (string.c, ulib.c, the string
      instructions of x86.h) on a byte memory, [Printf] (printf.c), [Console]
      and [ConsoleCorrect] (console.c, part of uart.c): screen, serial port and
      the line discipline of the input.
    - _Memory_: [Kalloc] (kalloc.c), the page allocator over a byte memory.
      [Vm] (vm.c) has the page tables as words of that memory; [VmTable] (one
      directory and its tables), [VmSpace], [VmUser], [VmCopy] (what
      each function does) and [VmCorrect]: the functions together give every
      process a private memory.  The addresses [data] and [end] come from the
      linker script and are variables, [data] page-aligned between KERNLINK
      and PHYSTOP, [end] above KERNBASE.
    - _Pipes_: [Pipe] (pipe.c), against a bounded queue.
    - _Disk_: [Sleeplock] (sleeplock.c), [Bio] (bio.c, memide.c) and
      [BioRefine], which discharges the class [CacheSpec.Cache]; [Log]
      (log.c, and the integers in a block) and [LogRefine], [LogTxn]:
      transactions over any cache are atomic under crashes.
    - _Files_: [Fs] (fs.c) on any log that keeps the promises of the class
      [BlockSpec.Blocks]; [FsLayout] (inodes, bitmap and file contents in
      blocks), [FsInv] (every block has one owner), [FsBlocks], [FsFile],
      [FsRw] and [FsInode] (what each function does), [FsCorrect] (the inode
      calls against a set of files), [FsNames], [FsDir] and [FsPath]
      (directories and path names), [FsLog] (the log is an instance of
      [Blocks]) and [FsTheorems], also on a small disk: inodes are files,
      paths lead where their elements say, and a crash leaves the files of
      before a transaction or those of after it.
    - _System calls on files_: [Syscall] (syscall.c) fetches the arguments from
      the memory of the process; [File] is the table of open files (file.c,
      pipealloc), over any pipes (class [File.Pipes]); [Sysfile] has every call
      of sysfile.c.  [FileCorrect] shows what reads and writes through an open
      file do.  [FsTriple] and [SysTriple] are rules for the kernel's functions
      on a world of files, references, open files and descriptors, with a step
      per function; [FsTree] says what the calls do to the files, [SysNames]
      and [SysCalls] prove it of the code.  [FsConsistent] is the invariant of
      a whole file system (a tree with dots, every inode counting its links);
      [FsPreserve] shows that the calls keep it, and that names lead to what
      was made and not to what was removed; [SysInv] that every call keeps all
      of it.  [SysTheorems] has the theorems, among them that [link] on a dot
      never returns, and a process on the small disk.
    - _Programs_: [Shell], [ShellCorrect], [ShellPrint] (the parser of sh.c),
      [Grep] (grep.c), [Umalloc] (umalloc.c) with [UmallocCorrect] (the ring
      of free blocks) and [UmallocClient] (what a program may rely on).

    ** How code becomes definitions

    A C function is a value of [M S A]: it takes the state of its component
    and returns a value and a new state ([Ok]), or panics, faults on a pointer
    or index outside its object, leaves the CPU ([Blocked]), or runs out of
    fuel.  Names follow the source.  Pointers are indices into arrays or pools
    ([None] is null), addresses in a byte memory, or offsets into a string;
    [int], [uint] and [long long] are integers wrapped where the code may
    overflow.  Loops over an array are [foreach] or [scan]; other loops take
    fuel, and the theorems show that the fuel is enough: the number of links
    and nodes for the queues, the number of buffers for the cache, four units
    per character for the shell's parser, 33 digits for a 32-bit number, twice
    the units of memory for the user's allocator, the number of pages in a
    range for the page tables, the blocks a read or write touches, the entries
    of a directory and the length of a path for the file system.  A call that
    sleeps ends there; what it does when woken up is a further step.

    Components meet at classes whose laws the implementation proves: [Queues],
    [Services], [Lock], [Locks], [Cache], [Blocks]; [Pipes] has only operations,
    pipe.c being verified on its own.  [Services] stands for the
    file system, the memory manager and the trap return as proc.c sees them.

    ** What is not modelled

    Port and device drivers (ide.c, lapic.c, ioapic.c, picirq.c, mp.c, most of
    uart.c, kbd.c), the boot and assembly code, and the start-up in main.c:
    they are accesses to hardware whose behaviour is outside the sources.
    The segment registers (seginit and switchuvm of vm.c), loaduvm, exec.c, the
    wrappers of the process calls and the traps (sysproc.c but for sbrk,
    trap.c), mkfs.c and the smaller programs are not modelled yet.  Memory is sequentially consistent; code between two lock
    operations of one CPU is atomic to the others. *)

From stdpp Require Import base gmap list strings sets.
From Stdlib Require Import ZArith Lia.

Declare Scope kernel_scope.
Delimit Scope kernel_scope with kernel.
Open Scope kernel_scope.

(** ** Outcomes of a C call

    A call over a state of type [S] returns a value and a new state, or it
    ends in one of the ways C code of the kernel can end otherwise:
    [panic(msg)] (the message without its newline), a dereference of a null or dangling pointer, a call
    that has not returned yet because the calling thread left the CPU (it
    sleeps, yields or exits), or a loop that has not left after the fuel it
    was given. *)
Inductive outcome (S A : Type) : Type :=
| Ok (a : A) (s : S)
| Panic (msg : string)
| Fault
| Blocked (s : S)
| OutOfFuel.
Arguments Ok {S A} a s.
Arguments Panic {S A} msg.
Arguments Fault {S A}.
Arguments Blocked {S A} s.
Arguments OutOfFuel {S A}.

Definition M (S A : Type) : Type := S -> outcome S A.

Definition ret {S A : Type} (a : A) : M S A := fun s => Ok a s.

Definition bind {S A B : Type} (m : M S A) (f : A -> M S B) : M S B :=
  fun s =>
    match m s with
    | Ok a s' => f a s'
    | Panic msg => Panic msg
    | Fault => Fault
    | Blocked s' => Blocked s'
    | OutOfFuel => OutOfFuel
    end.

Definition panic {S A : Type} (msg : string) : M S A := fun _ => Panic msg.
Definition fault {S A : Type} : M S A := fun _ => Fault.
Definition nofuel {S A : Type} : M S A := fun _ => OutOfFuel.
Definition gets {S A : Type} (f : S -> A) : M S A := fun s => Ok (f s) s.
Definition modify {S : Type} (f : S -> S) : M S unit := fun s => Ok tt (f s).

(** [deref o]: the object a pointer lookup found, or a fault. *)
Definition deref {S A : Type} (o : option A) : M S A :=
  match o with Some a => ret a | None => fault end.

(** Run a call of a component on its part of a larger state. *)
Definition zoom {S T A : Type} (get : S -> T) (set : T -> S -> S) (m : M T A) : M S A :=
  fun s =>
    match m (get s) with
    | Ok a t => Ok a (set t s)
    | Panic msg => Panic msg
    | Fault => Fault
    | Blocked t => Blocked (set t s)
    | OutOfFuel => OutOfFuel
    end.

Notation "'let!' x := m 'in' k" := (bind m (fun x => k))
  (at level 10, x pattern, m at level 100, k at level 200) : kernel_scope.
Notation "m ;;; k" := (bind m (fun _ => k))
  (at level 199, k at level 200, right associativity) : kernel_scope.

(** ** Machine integers

    A C integer of width [w] is a [Z]; unsigned arithmetic is modulo [2^w],
    signed arithmetic wraps in two's complement. *)
Definition u8 (z : Z) : Z := (z mod 2 ^ 8)%Z.
Definition u16 (z : Z) : Z := (z mod 2 ^ 16)%Z.
Definition u32 (z : Z) : Z := (z mod 2 ^ 32)%Z.
Definition s32 (z : Z) : Z := ((z + 2 ^ 31) mod 2 ^ 32 - 2 ^ 31)%Z.
Definition s64 (z : Z) : Z := ((z + 2 ^ 63) mod 2 ^ 64 - 2 ^ 63)%Z.

Definition int32 (z : Z) : Prop := (- 2 ^ 31 <= z < 2 ^ 31)%Z.
Definition int64 (z : Z) : Prop := (- 2 ^ 63 <= z < 2 ^ 63)%Z.
Definition uint32 (z : Z) : Prop := (0 <= z < 2 ^ 32)%Z.

(** ** Loops

    [foreach l f] is a [for] loop over [l]; [scan l f] is one
    whose body may return early. *)
Fixpoint foreach {S X : Type} (l : list X) (f : X -> M S unit) : M S unit :=
  match l with
  | [] => ret tt
  | i :: l' => f i ;;; foreach l' f
  end.

Fixpoint scan {S A : Type} (l : list nat) (f : nat -> M S (option A)) : M S (option A) :=
  match l with
  | [] => ret None
  | i :: l' =>
      let! r := f i in
      match r with Some a => ret (Some a) | None => scan l' f end
  end.

(** ** Laws of the call monad *)

Lemma bind_Ok {S A B} (m : M S A) (f : A -> M S B) s a s' :
  m s = Ok a s' -> bind m f s = f a s'.
Proof. unfold bind. by intros ->. Qed.

Lemma bind_ret {S A B} (a : A) (f : A -> M S B) s : bind (ret a) f s = f a s.
Proof. done. Qed.

Lemma bind_gets {S A B} (g : S -> A) (f : A -> M S B) s :
  bind (gets g) f s = f (g s) s.
Proof. done. Qed.

Lemma bind_modify {S B} (g : S -> S) (f : unit -> M S B) s :
  bind (modify g) f s = f tt (g s).
Proof. done. Qed.

Lemma bind_assoc {S A B C} (m : M S A) (f : A -> M S B) (g : B -> M S C) s :
  bind (bind m f) g s = bind m (fun a => bind (f a) g) s.
Proof. unfold bind. by destruct (m s). Qed.

Lemma bind_inv {S A B} (m : M S A) (f : A -> M S B) s b s'' :
  bind m f s = Ok b s'' -> exists a s', m s = Ok a s' /\ f a s' = Ok b s''.
Proof. unfold bind. destruct (m s); naive_solver. Qed.

Lemma zoom_Ok {S T A} (get : S -> T) (set : T -> S -> S) (m : M T A) s a t :
  m (get s) = Ok a t -> zoom get set m s = Ok a (set t s).
Proof. unfold zoom. by intros ->. Qed.

Lemma deref_Some {S A B} (o : option A) (a : A) (f : A -> M S B) s :
  o = Some a -> bind (deref o) f s = f a s.
Proof. by intros ->. Qed.

(** ** Total correctness

    [wp m s Post Left]: run from [s], the call [m] returns a value and a state
    that satisfy [Post], or its thread leaves the CPU in a state that
    satisfies [Left]; it does not panic, fault or run out of fuel. *)
Definition wp {S A : Type} (m : M S A) (s : S) (Post : A -> S -> Prop) (Left : S -> Prop) : Prop :=
  match m s with
  | Ok a s' => Post a s'
  | Blocked s' => Left s'
  | _ => False
  end.

Lemma wp_bind {S A B} (m : M S A) (f : A -> M S B) s Post Left :
  wp m s (fun a s' => wp (f a) s' Post Left) Left -> wp (bind m f) s Post Left.
Proof. unfold wp, bind. by destruct (m s). Qed.

Lemma wp_mono {S A} (m : M S A) s (P1 P2 : A -> S -> Prop) (L1 L2 : S -> Prop) :
  wp m s P1 L1 -> (forall a s', P1 a s' -> P2 a s') -> (forall s', L1 s' -> L2 s') -> wp m s P2 L2.
Proof. unfold wp. destruct (m s); naive_solver. Qed.

Lemma wp_Ok {S A} (m : M S A) s a s' (Post : A -> S -> Prop) Left :
  m s = Ok a s' -> Post a s' -> wp m s Post Left.
Proof. unfold wp. by intros ->. Qed.

Lemma wp_foreach {S} (I : S -> Prop) l (f : nat -> M S unit) s Left :
  I s -> (forall i s, i ∈ l -> I s -> wp (f i) s (fun _ => I) Left) ->
  wp (foreach l f) s (fun _ => I) Left.
Proof.
  revert s. induction l as [|i l IH]; intros s Hs Hf; [done|]. simpl. apply wp_bind.
  eapply wp_mono; [apply Hf; [by left|done]| |done]. intros [] s' Hs'. apply IH; [done|].
  intros j s1 Hj. apply Hf. by right.
Qed.

Lemma wp_scan {S A} (I : S -> Prop) (Post : option A -> S -> Prop) l (f : nat -> M S (option A)) s Left :
  I s -> (forall s, I s -> Post None s) ->
  (forall i s, i ∈ l -> I s ->
     wp (f i) s (fun r s' => match r with Some a => Post (Some a) s' | None => I s' end) Left) ->
  wp (scan l f) s Post Left.
Proof.
  revert s. induction l as [|i l IH]; intros s Hs Hnone Hf; [by apply Hnone|]. simpl. apply wp_bind.
  eapply wp_mono; [apply Hf; [by left|done]| |done]. intros [a|] s' Hs'; [done|].
  apply IH; [done..|]. intros j s1 Hj. apply Hf. by right.
Qed.

Lemma wp_foreach_seq {S} (I : nat -> S -> Prop) n : forall a (f : nat -> M S unit) s Left,
  I a s -> (forall i s, a <= i < a + n -> I i s -> wp (f i) s (fun _ => I (Datatypes.S i)) Left) ->
  wp (foreach (seq a n) f) s (fun _ => I (a + n)) Left.
Proof.
  induction n as [|n IH]; intros a f s Left Hs Hf; simpl.
  - by rewrite Nat.add_0_r.
  - apply wp_bind. eapply wp_mono; [apply Hf; [lia|done]| |done]. intros [] s' Hs'. simpl in Hs'.
    replace (a + Datatypes.S n) with (Datatypes.S a + n) by lia. apply IH; [done|].
    intros i s1 Hi. apply Hf. lia.
Qed.

Lemma wp_scan_seq {S A} (I : nat -> S -> Prop) (Post : option A -> S -> Prop) n :
  forall a (f : nat -> M S (option A)) s Left,
  I a s -> (forall s, I (a + n) s -> Post None s) ->
  (forall i s, a <= i < a + n -> I i s ->
     wp (f i) s (fun r s' => match r with Some x => Post (Some x) s' | None => I (Datatypes.S i) s' end) Left) ->
  wp (scan (seq a n) f) s Post Left.
Proof.
  induction n as [|n IH]; intros a f s Left Hs Hnone Hf; simpl.
  - apply Hnone. by rewrite Nat.add_0_r.
  - apply wp_bind. eapply wp_mono; [apply Hf; [lia|done]| |done]. intros [x|] s' Hs'; [done|].
    apply IH; [done| |].
    + intros s1. replace (Datatypes.S a + n) with (a + Datatypes.S n) by lia. apply Hnone.
    + intros i s1 Hi. apply Hf. lia.
Qed.

(** ** Laws of the machine integers *)

Lemma s64_id z : int64 z -> s64 z = z.
Proof. unfold int64, s64. intros H. rewrite Z.mod_small; lia. Qed.

Lemma s32_id z : int32 z -> s32 z = z.
Proof. unfold int32, s32. intros H. rewrite Z.mod_small; lia. Qed.

Lemma u32_id z : uint32 z -> u32 z = z.
Proof. unfold uint32, u32. intros H. rewrite Z.mod_small; lia. Qed.

Lemma u32_range z : uint32 (u32 z).
Proof. unfold uint32, u32. apply Z.mod_pos_bound. lia. Qed.

Lemma s64_range z : int64 (s64 z).
Proof.
  unfold int64, s64. pose proof (Z.mod_pos_bound (z + 2 ^ 63) (2 ^ 64)). lia.
Qed.

(** ** Permutations of lists of indices

    [perm_solve] decides equations between concatenations up to order by
    counting occurrences, with the permutations in the context. *)
Definition occ1 (x z : nat) : nat := if Nat.eq_dec x z then 1 else 0.

Lemma count_occ_cons_occ1 x l z :
  count_occ Nat.eq_dec (x :: l) z = occ1 x z + count_occ Nat.eq_dec l z.
Proof. simpl. unfold occ1. by destruct (Nat.eq_dec x z). Qed.

Ltac perm_counts z :=
  repeat match goal with
  | H : ?a ≡ₚ ?b |- _ =>
      let H' := fresh "Hcount" in
      pose proof (proj1 (Permutation_count_occ Nat.eq_dec a b) H z) as H'; clear H
  end.

Ltac perm_solve :=
  apply (Permutation_count_occ Nat.eq_dec);
  let z := fresh "z" in intros z; perm_counts z;
  repeat (progress rewrite ?fmap_app, ?fmap_cons, ?fmap_nil, ?count_occ_app,
    ?count_occ_cons_occ1, ?count_occ_nil in * );
  simpl in *; rewrite ?count_occ_nil in *; lia.

(** ** Automation

    [steps] runs the pure prefix of a call: returns, reads and writes of the
    state, and dereferences whose lookup is a hypothesis. *)
Create HintDb kernel.

Ltac run_step :=
  first
    [ rewrite bind_assoc
    | rewrite bind_ret
    | rewrite bind_gets
    | rewrite bind_modify
    | erewrite deref_Some by eassumption
    | erewrite bind_Ok by eassumption ].

Ltac steps := repeat (run_step; cbn beta iota).

(** [call lem] steps over the first call of a sequence with its specification
    [lem], an equation [m s = Ok a s'] whose side conditions automation finds. *)
Tactic Notation "call" uconstr(lem) :=
  rewrite ?bind_assoc; erewrite bind_Ok;
  [ | solve [eapply lem; simpl; eauto with kernel] ]; cbn beta iota.
Tactic Notation "call" uconstr(lem) "by" tactic3(tac) :=
  rewrite ?bind_assoc; erewrite bind_Ok;
  [ | solve [eapply lem; simpl; tac] ]; cbn beta iota.

(** ** Constants of several components: param.h, fcntl.h *)

Definition MAXARG : nat := 32.
Definition O_RDONLY : Z := 0.
Definition O_WRONLY : Z := 1.
Definition O_RDWR : Z := 2.
Definition O_CREATE : Z := 0x200.
