(* ===== verification/SchedSpec.v ===== *)
(** * What the scheduling structures promise

    The abstract view of the three structures of schedulinginterface.h: the
    priority queue is a list of (accumulator, FIFO of processes) with
    strictly increasing accumulators, the round-robin queue and the holder
    of running processes are FIFO lists, and all three draw from a pool of
    free links and a pool of free map nodes.  The class [Queues] is the
    interface the process component is written against. *)

From stdpp Require Import base gmap list sorting.
From Stdlib Require Import ZArith Lia.
From S2P Require Import Prelude.

Abbreviation procp := (option nat).
Abbreviation pqueue := (list (Z * list procp)).

Record queues := mkQueues {
  q_pq : pqueue;
  q_rr : list procp;
  q_rp : list procp;
  q_links : nat;   (** free links *)
  q_nodes : nat    (** free map nodes *)
}.

(** ** Operations on a priority queue *)

Fixpoint pq_insert (k : Z) (p : procp) (q : pqueue) : pqueue :=
  match q with
  | [] => [(k, [p])]
  | (k', l) :: q' =>
      if (k <? k')%Z then (k, [p]) :: q
      else if (k =? k')%Z then (k', l ++ [p]) :: q'
      else (k', l) :: pq_insert k p q'
  end.

Definition pq_has (k : Z) (q : pqueue) : bool := existsb (fun e => (e.1 =? k)%Z) q.

(** All processes in scheduling order: by accumulator, FIFO within one. *)
Definition pq_procs (q : pqueue) : list procp := concat q.*2.

Definition pq_pop (q : pqueue) : procp * pqueue :=
  match q with
  | (k, p :: l) :: q' => (p, match l with [] => q' | _ => (k, l) :: q' end)
  | _ => (None, q)
  end.

Definition pq_ok (q : pqueue) : Prop :=
  StronglySorted Z.lt q.*1 /\ Forall (fun e => e.2 <> []) q.

(** Remove the first occurrence. *)
Fixpoint list_remove_first (p : procp) (l : list procp) : list procp :=
  match l with
  | [] => []
  | x :: l' => if decide (x = p) then l' else x :: list_remove_first p l'
  end.

(** The least accumulator of a list of processes. *)
Definition min_acc (acc : nat -> Z) (l : list procp) : option Z :=
  match l with
  | Some i :: l' =>
      Some (fold_left (fun m p => match p with Some j => Z.min m (acc j) | None => m end)
              l' (acc i))
  | _ => None
  end.

(** ** Operations on the queues *)

(** A put needs a link, and a map node when the accumulator is new. *)
Definition put_fits (k : Z) (q : queues) : bool :=
  (0 <? q_links q)%nat && (pq_has k (q_pq q) || (0 <? q_nodes q)%nat).

Definition pq_put (k : Z) (p : procp) (q : queues) : bool * queues :=
  if put_fits k q then
    (true, mkQueues (pq_insert k p (q_pq q)) (q_rr q) (q_rp q) (q_links q - 1)
             (if pq_has k (q_pq q) then q_nodes q else q_nodes q - 1))
  else (false, q).

Definition pq_min (q : queues) : option Z := fst <$> head (q_pq q).

Definition pq_extract (q : queues) : procp * queues :=
  match q_pq q with
  | [] => (None, q)
  | _ =>
      let '(p, pq') := pq_pop (q_pq q) in
      (p, mkQueues pq' (q_rr q) (q_rp q) (S (q_links q))
            (q_nodes q + (length (q_pq q) - length pq')))
  end.

Definition rr_put (p : procp) (q : queues) : bool * queues :=
  if (0 <? q_links q)%nat then
    (true, mkQueues (q_pq q) (q_rr q ++ [p]) (q_rp q) (q_links q - 1) (q_nodes q))
  else (false, q).

Definition rr_get (q : queues) : procp * queues :=
  match q_rr q with
  | [] => (None, q)
  | p :: l => (p, mkQueues (q_pq q) l (q_rp q) (S (q_links q)) (q_nodes q))
  end.

Definition rp_add (p : procp) (q : queues) : bool * queues :=
  if (0 <? q_links q)%nat then
    (true, mkQueues (q_pq q) (q_rr q) (q_rp q ++ [p]) (q_links q - 1) (q_nodes q))
  else (false, q).

Definition rp_remove (p : procp) (q : queues) : bool * queues :=
  if decide (p ∈ q_rp q) then
    (true, mkQueues (q_pq q) (q_rr q) (list_remove_first p (q_rp q)) (S (q_links q)) (q_nodes q))
  else (false, q).

(** Priority policy to round robin: everything moves, in scheduling order. *)
Definition pq_to_rr (q : queues) : bool * queues :=
  match q_rr q with
  | [] => (true, mkQueues [] (pq_procs (q_pq q)) (q_rp q) (q_links q)
                   (q_nodes q + length (q_pq q)))
  | _ => (false, q)
  end.

(** Round robin to priority policy: everything moves to accumulator 0. *)
Definition rr_to_pq (q : queues) : bool * queues :=
  match q_pq q, q_rr q with
  | _ :: _, _ => (false, q)
  | [], [] => (true, q)
  | [], l =>
      if (0 <? q_nodes q)%nat then
        (true, mkQueues [(0%Z, l)] [] (q_rp q) (q_links q) (q_nodes q - 1))
      else (false, q)
  end.

(** The entries of a priority queue with their accumulators, in scheduling
    order, and the queue built by putting entries one after the other. *)
Fixpoint pq_flat (q : pqueue) : list (Z * procp) :=
  match q with
  | [] => []
  | (k, l) :: q' => (pair k <$> l) ++ pq_flat q'
  end.
Definition pq_build (q : pqueue) (es : list (Z * procp)) : pqueue :=
  foldl (fun t e => pq_insert e.1 e.2 t) q es.

(** [extractProc]: every entry of [p] goes, the others stay where they are.
    It refuses to work when there is no free map node. *)
Definition pq_remove (p : procp) (q : pqueue) : pqueue :=
  pq_build [] (filter (fun e => e.2 <> p) (pq_flat q)).

Definition pq_extract_proc (p : procp) (q : queues) : bool * queues :=
  if (0 <? q_nodes q)%nat then
    let q' := pq_remove p (q_pq q) in
    (bool_decide (p ∈ pq_procs (q_pq q)),
     mkQueues q' (q_rr q) (q_rp q)
       (q_links q + (length (pq_procs (q_pq q)) - length (pq_procs q')))
       (q_nodes q + length (q_pq q) - length q'))
  else (false, q).

(** The accumulators under which processes are queued are their current ones. *)
Definition keyed (acc : nat -> Z) (q : pqueue) : Prop :=
  Forall (fun e => match e.2 with Some i => e.1 = acc i | None => False end) (pq_flat q).

(** ** The interface

    [refines op aop]: from a concrete state that represents [q], the call
    [op] returns, with the result and the queues that [aop] computes. *)
Definition refines {Q A : Type} (repr : Q -> queues -> Prop) (pre : queues -> Prop)
    (op : M Q A) (aop : queues -> A * queues) : Prop :=
  forall d q, repr d q -> pre q ->
  exists d', op d = Ok (aop q).1 d' /\ repr d' (aop q).2.

(** An observer leaves the queues as they are. *)
Definition observe {A : Type} (f : queues -> A) (q : queues) : A * queues := (f q, q).

(** What every represented value satisfies: the queue is ordered, no entry is
    a null pointer, and the pools account for every link and every node. *)
Record queues_wf (nlinks nnodes : nat) (q : queues) : Prop := {
  wf_pq : pq_ok (q_pq q);
  wf_some : Forall is_Some (pq_procs (q_pq q) ++ q_rr q ++ q_rp q);
  wf_links : q_links q + length (pq_procs (q_pq q)) + length (q_rr q) + length (q_rp q) = nlinks;
  wf_nodes : q_nodes q + length (q_pq q) = nnodes
}.

(** The function pointers of [PriorityQueue], [RoundRobinQueue] and
    [RunningProcessesHolder], and the laws they obey.  [acc] stands for the
    accumulators of the processes, which the functions read by
    [getAccumulator]. *)
Class Queues (Q : Type) := {
  repr : Q -> queues -> Prop;
  pool_links : nat;
  pool_nodes : nat;
  pool_le : pool_links <= pool_nodes;
  pq_isEmpty_op : M Q bool;
  pq_put_op : (nat -> Z) -> procp -> M Q bool;
  pq_getMinAccumulator_op : M Q (option Z);
  pq_extractMin_op : M Q procp;
  pq_switchToRoundRobinPolicy_op : M Q bool;
  pq_extractProc_op : (nat -> Z) -> procp -> M Q bool;
  rrq_isEmpty_op : M Q bool;
  rrq_enqueue_op : procp -> M Q bool;
  rrq_dequeue_op : M Q procp;
  rrq_switchToPriorityQueuePolicy_op : M Q bool;
  rpholder_isEmpty_op : M Q bool;
  rpholder_add_op : procp -> M Q bool;
  rpholder_remove_op : procp -> M Q bool;
  rpholder_getMinAccumulator_op : (nat -> Z) -> M Q (option Z);
  repr_wf d q : repr d q -> queues_wf pool_links pool_nodes q;
  pq_isEmpty_ok : refines repr (fun _ => True) pq_isEmpty_op
    (observe (fun q => bool_decide (q_pq q = [])));
  pq_put_ok acc i : refines repr (fun _ => True) (pq_put_op acc (Some i))
    (pq_put (acc i) (Some i));
  pq_getMinAccumulator_ok : refines repr (fun _ => True) pq_getMinAccumulator_op (observe pq_min);
  pq_extractMin_ok : refines repr (fun _ => True) pq_extractMin_op pq_extract;
  pq_switchToRoundRobinPolicy_ok :
    refines repr (fun _ => True) pq_switchToRoundRobinPolicy_op pq_to_rr;
  pq_extractProc_ok acc i :
    refines repr (fun q => keyed acc (q_pq q)) (pq_extractProc_op acc (Some i))
      (pq_extract_proc (Some i));
  rrq_isEmpty_ok : refines repr (fun _ => True) rrq_isEmpty_op
    (observe (fun q => bool_decide (q_rr q = [])));
  rrq_enqueue_ok i : refines repr (fun _ => True) (rrq_enqueue_op (Some i)) (rr_put (Some i));
  rrq_dequeue_ok : refines repr (fun _ => True) rrq_dequeue_op rr_get;
  rrq_switchToPriorityQueuePolicy_ok :
    refines repr (fun _ => True) rrq_switchToPriorityQueuePolicy_op rr_to_pq;
  rpholder_isEmpty_ok : refines repr (fun _ => True) rpholder_isEmpty_op
    (observe (fun q => bool_decide (q_rp q = [])));
  rpholder_add_ok i : refines repr (fun _ => True) (rpholder_add_op (Some i)) (rp_add (Some i));
  rpholder_remove_ok i :
    refines repr (fun _ => True) (rpholder_remove_op (Some i)) (rp_remove (Some i));
  rpholder_getMinAccumulator_ok acc :
    refines repr (fun _ => True) (rpholder_getMinAccumulator_op acc)
      (observe (fun q => min_acc acc (q_rp q)))
}.

(** ** Lemmas *)

Lemma pq_has_spec k q : pq_has k q = true <-> k ∈ q.*1.
Proof.
  unfold pq_has. rewrite existsb_exists, list_elem_of_fmap. split.
  - intros ([k' l] & Hin & Heq). exists (k', l). simpl in *. split; [lia|].
    by apply list_elem_of_In.
  - intros ([k' l] & Heq & Hin). exists (k', l). simpl in *. split; [|lia].
    by apply list_elem_of_In.
Qed.

Lemma pq_insert_keys k p q : forall x, x ∈ (pq_insert k p q).*1 <-> x = k \/ x ∈ q.*1.
Proof.
  induction q as [|[k' l] q IH]; intros x; simpl.
  - set_solver.
  - destruct (Z.ltb_spec k k'); [set_solver|].
    destruct (Z.eqb_spec k k'); simpl; set_solver.
Qed.

Lemma StronglySorted_cons_iff (x : Z) l :
  StronglySorted Z.lt (x :: l) <-> Forall (Z.lt x) l /\ StronglySorted Z.lt l.
Proof. split; [intros H; inversion H; auto | intros []; by constructor]. Qed.

Lemma StronglySorted_app_iff (l1 l2 : list Z) :
  StronglySorted Z.lt (l1 ++ l2) <->
  StronglySorted Z.lt l1 /\ StronglySorted Z.lt l2 /\
  (forall x y, x ∈ l1 -> y ∈ l2 -> (x < y)%Z).
Proof.
  induction l1 as [|a l1 IH]; simpl.
  - split; [intros; repeat split; [constructor|done|set_solver] | tauto].
  - rewrite !StronglySorted_cons_iff, IH, Forall_app, !Forall_forall. set_solver.
Qed.

Lemma pq_insert_ok k p q : pq_ok q -> pq_ok (pq_insert k p q).
Proof.
  intros [Hs Hn]. split.
  - clear Hn. induction q as [|[k' l] q IH]; simpl.
    { repeat constructor. }
    simpl in Hs. apply StronglySorted_cons_iff in Hs as [Hk Hs].
    destruct (Z.ltb_spec k k').
    { simpl. apply StronglySorted_cons_iff. split; [|by apply StronglySorted_cons_iff].
      constructor; [done|]. eapply Forall_impl; [exact Hk|]. simpl. lia. }
    destruct (Z.eqb_spec k k'); simpl.
    { subst. by apply StronglySorted_cons_iff. }
    apply StronglySorted_cons_iff. split; [|auto].
    rewrite Forall_forall in *. intros x Hx%pq_insert_keys. destruct Hx as [->|Hx]; [lia|].
    by apply Hk.
  - clear Hs. induction q as [|[k' l] q IH]; simpl.
    { by repeat constructor. }
    inversion Hn; subst. destruct (Z.ltb_spec k k'); [by repeat constructor|].
    destruct (Z.eqb_spec k k'); constructor; auto. simpl. by destruct l.
Qed.

Lemma pq_insert_app_lt k p q1 k' l q2 :
  (k < k')%Z -> pq_insert k p (q1 ++ (k', l) :: q2) = pq_insert k p q1 ++ (k', l) :: q2.
Proof.
  intros Hk. induction q1 as [|[k1 l1] q1 IH]; simpl.
  - by destruct (Z.ltb_spec k k'); [|lia].
  - destruct (k <? k1)%Z; [done|]. destruct (k =? k1)%Z; [done|]. by rewrite IH.
Qed.

Lemma pq_insert_app_ge k p q1 q2 :
  (forall x, x ∈ q1.*1 -> (x < k)%Z) -> pq_insert k p (q1 ++ q2) = q1 ++ pq_insert k p q2.
Proof.
  intros Hk. induction q1 as [|[k1 l1] q1 IH]; simpl; [done|].
  assert (k1 < k)%Z by (apply Hk; set_solver).
  destruct (Z.ltb_spec k k1); [lia|]. destruct (Z.eqb_spec k k1); [lia|].
  rewrite IH; [done|]. intros x Hx. apply Hk. set_solver.
Qed.

Lemma pq_has_app k q1 q2 : pq_has k (q1 ++ q2) = pq_has k q1 || pq_has k q2.
Proof. unfold pq_has. apply existsb_app. Qed.

Lemma pq_has_false k q : (forall x, x ∈ q.*1 -> x <> k) -> pq_has k q = false.
Proof.
  intros H. destruct (pq_has k q) eqn:E; [|done]. apply pq_has_spec in E. naive_solver.
Qed.

Lemma pq_insert_length k p q :
  pq_ok q -> length (pq_insert k p q) = length q + (if pq_has k q then 0 else 1).
Proof.
  intros [Hs _]. induction q as [|[k' l] q IH]; csimpl in *; [done|].
  apply StronglySorted_cons_iff in Hs as [Hk Hs]. rewrite Forall_forall in Hk.
  destruct (Z.ltb_spec k k'); simpl.
  - destruct (Z.eqb_spec k' k); [lia|]. simpl. rewrite pq_has_false; [simpl; lia|].
    intros x Hx. apply Hk in Hx. lia.
  - destruct (Z.eqb_spec k k') as [->|]; simpl.
    + rewrite Z.eqb_refl. simpl. lia.
    + destruct (Z.eqb_spec k' k); [lia|]. simpl. rewrite IH by done. unfold pq_has. lia.
Qed.

Lemma pair_fmap_snd (k : Z) (l : list procp) : (pair k <$> l).*2 = l.
Proof. rewrite <- list_fmap_compose. induction l; csimpl; congruence. Qed.

Lemma pq_procs_flat q : pq_procs q = (pq_flat q).*2.
Proof.
  unfold pq_procs. induction q as [|[k l] q IH]; csimpl; [done|].
  by rewrite fmap_app, <- IH, pair_fmap_snd.
Qed.

Lemma pq_flat_sorted q : StronglySorted Z.lt q.*1 ->
  StronglySorted Z.le (pq_flat q).*1 /\ forall x, x ∈ (pq_flat q).*1 -> x ∈ q.*1.
Proof.
  induction q as [|[k l] q IH]; csimpl; [split; [constructor|done]|].
  intros [Hk Hs]%StronglySorted_cons_iff. destruct (IH Hs) as [IH1 IH2]. rewrite fmap_app.
  assert (forall x, x ∈ (pair k <$> l).*1 -> x = k) as Hl.
  { intros x Hx. rewrite <- list_fmap_compose in Hx. by apply list_elem_of_fmap in Hx as (? & -> & _). }
  rewrite Forall_forall in Hk. split; [|set_solver]. apply StronglySorted_app. split_and!; [|clear -Hl|done].
  - intros x y ->%Hl Hy. apply IH2, Hk in Hy. lia.
  - induction l; csimpl in *; constructor; [apply IHl; set_solver|]. apply Forall_forall.
    intros x Hx. rewrite (Hl x) by set_solver. lia.
Qed.

(** An entry whose accumulator is largest goes to the end. *)
Lemma pq_flat_insert_last k p q :
  (forall x, x ∈ q.*1 -> (x <= k)%Z) -> StronglySorted Z.lt q.*1 ->
  pq_flat (pq_insert k p q) = pq_flat q ++ [(k, p)].
Proof.
  induction q as [|[k' l] q IH]; intros Hk Hs; csimpl in *; [done|].
  apply StronglySorted_cons_iff in Hs as [Hk' Hs]. rewrite Forall_forall in Hk'.
  pose proof (Hk k' ltac:(set_solver)). destruct (Z.ltb_spec k k'); [lia|].
  destruct (Z.eqb_spec k k') as [->|]; csimpl.
  - destruct q as [|[k1 l1] q]; csimpl.
    + by rewrite !app_nil_r, fmap_app.
    + pose proof (Hk' k1 ltac:(csimpl; set_solver)). pose proof (Hk k1 ltac:(csimpl; set_solver)). lia.
  - rewrite IH; [by rewrite (assoc_L (++))|set_solver|done].
Qed.

Lemma pq_build_flat es : forall q,
  pq_ok q -> StronglySorted Z.le (q.*1 ++ es.*1) ->
  pq_flat (pq_build q es) = pq_flat q ++ es /\ pq_ok (pq_build q es).
Proof.
  induction es as [|[k p] es IH]; intros q Hok Hs; simpl; [by rewrite app_nil_r|].
  assert (forall x, x ∈ q.*1 -> (x <= k)%Z) as Hle.
  { intros x Hx. apply StronglySorted_app in Hs as (Hx' & _ & _). eapply Hx'; [done|]. csimpl. set_solver. }
  pose proof (pq_insert_ok k p q Hok) as Hok'. destruct (IH (pq_insert k p q) Hok') as [-> Hok''].
  - apply StronglySorted_app in Hs as (Hx & _ & Hs2). csimpl in *. apply StronglySorted_cons in Hs2 as [Hk Hs2].
    apply StronglySorted_app. split_and!; [| |done].
    + intros x y [->|Hx1]%pq_insert_keys Hy; [|apply Hx; set_solver]. rewrite Forall_forall in Hk. by apply Hk.
    + destruct Hok' as [Hlt _]. clear -Hlt. induction Hlt; constructor; [done|].
      eapply Forall_impl; [done|]. simpl. lia.
  - split; [|done]. rewrite pq_flat_insert_last; [by rewrite <- (assoc_L (++))|done|apply Hok].
Qed.

Lemma StronglySorted_filter (P : Z * procp -> Prop) `{forall e, Decision (P e)} (es : list (Z * procp)) :
  StronglySorted Z.le es.*1 -> StronglySorted Z.le (filter P es).*1.
Proof.
  induction es as [|e es IH]; csimpl; [done|]. intros [He Hs]%StronglySorted_cons.
  rewrite filter_cons. case_decide; [|auto]. csimpl. constructor; [auto|].
  rewrite Forall_forall in *. intros x (e' & -> & Hin)%list_elem_of_fmap.
  apply list_elem_of_filter in Hin as [_ Hin]. apply He. by apply list_elem_of_fmap_2.
Qed.

Lemma pq_remove_flat p q :
  pq_ok q -> pq_flat (pq_remove p q) = filter (fun e => e.2 <> p) (pq_flat q) /\ pq_ok (pq_remove p q).
Proof.
  intros [Hs _]. apply (pq_build_flat (filter (fun e => e.2 <> p) (pq_flat q)) []).
  - split; constructor.
  - apply StronglySorted_filter. by apply pq_flat_sorted.
Qed.

Lemma pq_insert_procs k p q : pq_procs (pq_insert k p q) ≡ₚ p :: pq_procs q.
Proof.
  unfold pq_procs. induction q as [|[k' l] q IH]; csimpl; [done|].
  destruct (k <? k')%Z; csimpl; [done|]. destruct (k =? k')%Z; csimpl.
  - rewrite <- (assoc_L (++)). csimpl. by rewrite <- Permutation_middle.
  - rewrite IH. by rewrite <- Permutation_middle.
Qed.

(** Popping the minimum. *)
Lemma pq_pop_spec q p q' :
  pq_ok q -> q <> [] -> pq_pop q = (p, q') -> pq_ok q' /\ pq_procs q = p :: pq_procs q'.
Proof.
  intros [Hs Hne] Hq. destruct q as [|[k [|x l]] q]; [done|by inversion Hne|]. simpl.
  intros Heq. simplify_eq. csimpl in Hs. apply StronglySorted_cons_iff in Hs as [Hk Hs].
  inversion Hne; subst. destruct l as [|y l]; split; try done.
  split; [|by constructor]. csimpl. by constructor.
Qed.

Lemma pq_pop_length q : pq_ok q -> q <> [] -> length (pq_pop q).2 <= length q <= S (length (pq_pop q).2).
Proof. intros [_ Hne] Hq. destruct q as [|[k [|x [|y l]]] q]; simpl; try done; lia. Qed.

Lemma pq_extract_cons q rr rp nl nn :
  q <> [] ->
  pq_extract (mkQueues q rr rp nl nn) =
    ((pq_pop q).1, mkQueues (pq_pop q).2 rr rp (S nl) (nn + (length q - length (pq_pop q).2))).
Proof. destruct q as [|e q]; [done|]. unfold pq_extract. cbn -[pq_pop]. by destruct (pq_pop (e :: q)). Qed.
