(* ===== verification/SchedDS.v ===== *)
(** * The scheduling data structures of ass1ds.cpp

    The pointer-level model of the C++ classes [Link], [LinkedList],
    [MapNode] and [Map], the two free pools they share and the functions
    behind the [pq], [rrq] and [rpholder] tables of schedulinginterface.h.
    Objects live in two finite maps (the 128 links and the 128 map nodes the
    initialisation carves out of kernel pages); a pointer is an index or
    null; a dereference of anything else is a [Fault].  Loops over pointers
    take fuel. *)

From stdpp Require Import base gmap list strings.
From Stdlib Require Import ZArith Lia.
From S2P Require Import Prelude.

(** Pointers to links and map nodes, and to entries of the process table. *)
Abbreviation ptr := (option nat).
Abbreviation procp := (option nat).
Abbreviation null := (@None nat).

(** ** Objects *)

Record Link := mkLink { link_p : procp; link_next : ptr }.

Record LinkedList := mkLinkedList { ll_first : ptr; ll_last : ptr }.

Record MapNode := mkMapNode {
  key : Z;
  listOfProcs : LinkedList;
  node_next : ptr;
  parent : ptr;
  left : ptr;
  right : ptr
}.

(** The globals of ass1ds.cpp: the pools, and the three structures.  A [Map]
    object is its root pointer; [tempMap] is the local [Map] of
    [Map::extractProc], null outside of it. *)
Record sched_ds := mkSchedDS {
  links : gmap nat Link;
  nodes : gmap nat MapNode;
  freeLinks : ptr;
  freeNodes : ptr;
  priorityQ : ptr;
  tempMap : ptr;
  roundRobinQ : LinkedList;
  runningProcHolder : LinkedList
}.

Definition NPROC : nat := 64.
Definition NPROCLIST : nat := 2 * NPROC.
Definition NPROCMAP : nat := 2 * NPROC.

(** Constructors of the classes. *)
Definition Link_new : Link := mkLink null null.
Definition LinkedList_new : LinkedList := mkLinkedList null null.
Definition MapNode_new (k : Z) : MapNode := mkMapNode k LinkedList_new null null null null.

(** ** Field updates *)

Definition set_link_next (n : ptr) (l : Link) : Link := mkLink (link_p l) n.
Definition set_link_p (p : procp) (l : Link) : Link := mkLink p (link_next l).
Definition set_key (k : Z) (n : MapNode) : MapNode :=
  mkMapNode k (listOfProcs n) (node_next n) (parent n) (left n) (right n).
Definition set_list (l : LinkedList) (n : MapNode) : MapNode :=
  mkMapNode (key n) l (node_next n) (parent n) (left n) (right n).
Definition set_node_next (x : ptr) (n : MapNode) : MapNode :=
  mkMapNode (key n) (listOfProcs n) x (parent n) (left n) (right n).
Definition set_parent (x : ptr) (n : MapNode) : MapNode :=
  mkMapNode (key n) (listOfProcs n) (node_next n) x (left n) (right n).
Definition set_left (x : ptr) (n : MapNode) : MapNode :=
  mkMapNode (key n) (listOfProcs n) (node_next n) (parent n) x (right n).
Definition set_right (x : ptr) (n : MapNode) : MapNode :=
  mkMapNode (key n) (listOfProcs n) (node_next n) (parent n) (left n) x.

Definition put_links (h : gmap nat Link) (d : sched_ds) : sched_ds :=
  mkSchedDS h (nodes d) (freeLinks d) (freeNodes d) (priorityQ d) (tempMap d) (roundRobinQ d)
    (runningProcHolder d).
Definition put_nodes (h : gmap nat MapNode) (d : sched_ds) : sched_ds :=
  mkSchedDS (links d) h (freeLinks d) (freeNodes d) (priorityQ d) (tempMap d) (roundRobinQ d)
    (runningProcHolder d).
Definition put_freeLinks (x : ptr) (d : sched_ds) : sched_ds :=
  mkSchedDS (links d) (nodes d) x (freeNodes d) (priorityQ d) (tempMap d) (roundRobinQ d)
    (runningProcHolder d).
Definition put_freeNodes (x : ptr) (d : sched_ds) : sched_ds :=
  mkSchedDS (links d) (nodes d) (freeLinks d) x (priorityQ d) (tempMap d) (roundRobinQ d)
    (runningProcHolder d).
Definition put_priorityQ (x : ptr) (d : sched_ds) : sched_ds :=
  mkSchedDS (links d) (nodes d) (freeLinks d) (freeNodes d) x (tempMap d) (roundRobinQ d)
    (runningProcHolder d).
Definition put_tempMap (x : ptr) (d : sched_ds) : sched_ds :=
  mkSchedDS (links d) (nodes d) (freeLinks d) (freeNodes d) (priorityQ d) x (roundRobinQ d)
    (runningProcHolder d).
Definition put_roundRobinQ (x : LinkedList) (d : sched_ds) : sched_ds :=
  mkSchedDS (links d) (nodes d) (freeLinks d) (freeNodes d) (priorityQ d) (tempMap d) x
    (runningProcHolder d).
Definition put_runningProcHolder (x : LinkedList) (d : sched_ds) : sched_ds :=
  mkSchedDS (links d) (nodes d) (freeLinks d) (freeNodes d) (priorityQ d)
    (tempMap d) (roundRobinQ d) x.

(** Reading and writing through a pointer. *)
Definition deref_link (x : ptr) : M sched_ds Link :=
  let! d := gets id in deref (x ≫= fun i => links d !! i).
Definition deref_node (x : ptr) : M sched_ds MapNode :=
  let! d := gets id in deref (x ≫= fun i => nodes d !! i).
Definition upd_link (x : ptr) (f : Link -> Link) : M sched_ds unit :=
  let! l := deref_link x in
  let! i := deref x in
  modify (fun d => put_links (<[i := f l]> (links d)) d).
Definition upd_node (x : ptr) (f : MapNode -> MapNode) : M sched_ds unit :=
  let! n := deref_node x in
  let! i := deref x in
  modify (fun d => put_nodes (<[i := f n]> (nodes d)) d).

(** ** Pools *)

Definition allocLink (p : procp) : M sched_ds ptr :=
  let! fl := gets freeLinks in
  if bool_decide (fl = null) then ret null else
  let ans := fl in
  let! l := deref_link fl in
  modify (put_freeLinks (link_next l)) ;;;
  upd_link ans (set_link_next null) ;;;
  upd_link ans (set_link_p p) ;;;
  ret ans.

Definition deallocLink (link : ptr) : M sched_ds unit :=
  let! fl := gets freeLinks in
  upd_link link (set_link_next fl) ;;;
  modify (put_freeLinks link).

Definition deallocNode (node : ptr) : M sched_ds unit :=
  upd_node node (set_right null) ;;;
  upd_node node (set_left null) ;;;
  upd_node node (set_parent null) ;;;
  let! fn := gets freeNodes in
  upd_node node (set_node_next fn) ;;;
  modify (put_freeNodes node).

Definition allocNode (k : Z) : M sched_ds ptr :=
  let! fn := gets freeNodes in
  if bool_decide (fn = null) then ret null else
  let ans := fn in
  let! n := deref_node fn in
  modify (put_freeNodes (node_next n)) ;;;
  upd_node ans (set_node_next null) ;;;
  upd_node ans (set_key k) ;;;
  ret ans.

(** ** Linked lists

    The receiver of a [LinkedList] method: one of the two global lists, or
    the list embedded in a map node. *)
Inductive lref := RRQ | RPH | NodeList (n : ptr).

Definition get_this (this : lref) : M sched_ds LinkedList :=
  match this with
  | RRQ => gets roundRobinQ
  | RPH => gets runningProcHolder
  | NodeList n => let! nd := deref_node n in ret (listOfProcs nd)
  end.

Definition set_this (this : lref) (l : LinkedList) : M sched_ds unit :=
  match this with
  | RRQ => modify (put_roundRobinQ l)
  | RPH => modify (put_runningProcHolder l)
  | NodeList n => upd_node n (set_list l)
  end.

Definition set_first (this : lref) (x : ptr) : M sched_ds unit :=
  let! l := get_this this in set_this this (mkLinkedList x (ll_last l)).
Definition set_last (this : lref) (x : ptr) : M sched_ds unit :=
  let! l := get_this this in set_this this (mkLinkedList (ll_first l) x).

(** Fuel of the loops that follow [next] pointers: one more than the number
    of links there are. *)
Definition link_fuel : nat := S NPROCLIST.
(** Fuel of the loops that follow [left] and [right]. *)
Definition node_fuel : nat := S NPROCMAP.
Lemma link_fuel_eq : link_fuel = S NPROCLIST.
Proof. reflexivity. Qed.
Lemma node_fuel_eq : node_fuel = S NPROCMAP.
Proof. reflexivity. Qed.
#[global] Opaque link_fuel node_fuel.

Fixpoint Link_getLast_loop (fuel : nat) (ans : ptr) : M sched_ds ptr :=
  match fuel with
  | 0 => nofuel
  | S fuel' =>
      let! l := deref_link ans in
      if bool_decide (link_next l = null) then ret ans
      else Link_getLast_loop fuel' (link_next l)
  end.
Definition Link_getLast (this : ptr) : M sched_ds ptr := Link_getLast_loop link_fuel this.

Definition LinkedList_isEmpty (this : lref) : M sched_ds bool :=
  let! l := get_this this in ret (bool_decide (ll_first l = null)).

Definition LinkedList_append (this : lref) (link : ptr) : M sched_ds unit :=
  if bool_decide (link = null) then ret tt else
  let! e := LinkedList_isEmpty this in
  (if (e : bool) then set_first this link
   else let! l := get_this this in upd_link (ll_last l) (set_link_next link)) ;;;
  let! x := Link_getLast link in
  set_last this x.

Definition LinkedList_enqueue (this : lref) (p : procp) : M sched_ds bool :=
  let! link := allocLink p in
  if bool_decide (link = null) then ret false else
  LinkedList_append this link ;;;
  ret true.

Definition LinkedList_dequeue (this : lref) : M sched_ds procp :=
  let! e := LinkedList_isEmpty this in
  if (e : bool) then ret null else
  let! l := get_this this in
  let! fl := deref_link (ll_first l) in
  let p := link_p fl in
  let next := link_next fl in
  deallocLink (ll_first l) ;;;
  set_first this next ;;;
  let! e' := LinkedList_isEmpty this in
  (if (e' : bool) then set_last this null else ret tt) ;;;
  ret p.

Fixpoint LinkedList_remove_loop (fuel : nat) (this : lref) (p : procp) (prev cur : ptr)
  : M sched_ds bool :=
  match fuel with
  | 0 => nofuel
  | S fuel' =>
      if bool_decide (cur = null) then ret false else
      let! c := deref_link cur in
      if bool_decide (link_p c = p) then
        upd_link prev (set_link_next (link_next c)) ;;;
        (if bool_decide (link_next c = null) then set_last this prev else ret tt) ;;;
        deallocLink cur ;;;
        ret true
      else LinkedList_remove_loop fuel' this p cur (link_next c)
  end.

Definition LinkedList_remove (this : lref) (p : procp) : M sched_ds bool :=
  let! e := LinkedList_isEmpty this in
  if (e : bool) then ret false else
  let! l := get_this this in
  let! f := deref_link (ll_first l) in
  if bool_decide (link_p f = p) then LinkedList_dequeue this ;;; ret true
  else LinkedList_remove_loop link_fuel this p (ll_first l) (link_next f).

(** The two-argument overload of [allocNode]. *)
Definition allocNode_proc (p : procp) (k : Z) : M sched_ds ptr :=
  let! fn := gets freeNodes in
  if bool_decide (fn = null) then ret null else
  let! ans := allocNode k in
  if bool_decide (ans = null) then ret null else
  let! ok := LinkedList_enqueue (NodeList ans) p in
  if negb ok then deallocNode ans ;;; ret null else
  ret ans.

(** ** Map nodes and maps

    [getAccumulator] reads the process table; [acc] is that field of it. *)
Section Accumulators.
Variable acc : nat -> Z.

Definition getAccumulator (p : procp) : M sched_ds Z :=
  match p with Some i => ret (acc i) | None => fault end.

(** The lambda [forEach] applies in [LinkedList::getMinKey]. *)
Fixpoint LinkedList_getMinKey_loop (fuel : nat) (link : ptr) (minKey : Z) : M sched_ds Z :=
  match fuel with
  | 0 => nofuel
  | S fuel' =>
      if bool_decide (link = null) then ret minKey else
      let! l := deref_link link in
      let! k := getAccumulator (link_p l) in
      LinkedList_getMinKey_loop fuel' (link_next l) (if (k <? minKey)%Z then k else minKey)
  end.

(** Returns the key stored through [pkey], or [None] for [false]. *)
Definition LinkedList_getMinKey (this : lref) : M sched_ds (option Z) :=
  let! e := LinkedList_isEmpty this in
  if (e : bool) then ret None else
  let! l := get_this this in
  let! f := deref_link (ll_first l) in
  let! minKey := getAccumulator (link_p f) in
  let! r := LinkedList_getMinKey_loop link_fuel (ll_first l) minKey in
  ret (Some r).

Definition MapNode_isEmpty (this : ptr) : M sched_ds bool := LinkedList_isEmpty (NodeList this).

Fixpoint MapNode_put_loop (fuel : nat) (node : ptr) (p : procp) (k : Z) : M sched_ds bool :=
  match fuel with
  | 0 => nofuel
  | S fuel' =>
      let! n := deref_node node in
      if (k =? key n)%Z then LinkedList_enqueue (NodeList node) p
      else if (k <? key n)%Z then
        if bool_decide (left n = null) then
          let! x := allocNode_proc p k in
          upd_node node (set_left x) ;;;
          let! n' := deref_node node in
          if bool_decide (left n' = null) then ret false
          else upd_node (left n') (set_parent node) ;;; ret true
        else MapNode_put_loop fuel' (left n) p k
      else
        if bool_decide (right n = null) then
          let! x := allocNode_proc p k in
          upd_node node (set_right x) ;;;
          let! n' := deref_node node in
          if bool_decide (right n' = null) then ret false
          else upd_node (right n') (set_parent node) ;;; ret true
        else MapNode_put_loop fuel' (right n) p k
  end.

Definition MapNode_put (this : ptr) (p : procp) : M sched_ds bool :=
  let! k := getAccumulator p in MapNode_put_loop node_fuel this p k.

Fixpoint MapNode_getMinNode_loop (fuel : nat) (minNode : ptr) : M sched_ds ptr :=
  match fuel with
  | 0 => nofuel
  | S fuel' =>
      let! n := deref_node minNode in
      if bool_decide (left n = null) then ret minNode
      else MapNode_getMinNode_loop fuel' (left n)
  end.
Definition MapNode_getMinNode (this : ptr) : M sched_ds ptr :=
  MapNode_getMinNode_loop node_fuel this.

Definition MapNode_getMinKey (this : ptr) : M sched_ds Z :=
  let! m := MapNode_getMinNode this in
  let! n := deref_node m in
  ret (key n).

Definition MapNode_dequeue (this : ptr) : M sched_ds procp := LinkedList_dequeue (NodeList this).

(** The receiver of a [Map] method: the global priority queue, or the local
    map of [extractProc]. *)
Inductive mref := PQ | TEMP.

Definition get_root (this : mref) : M sched_ds ptr :=
  match this with PQ => gets priorityQ | TEMP => gets tempMap end.
Definition set_root (this : mref) (x : ptr) : M sched_ds unit :=
  match this with PQ => modify (put_priorityQ x) | TEMP => modify (put_tempMap x) end.

Definition Map_isEmpty (this : mref) : M sched_ds bool :=
  let! r := get_root this in ret (bool_decide (r = null)).

Definition Map_put (this : mref) (p : procp) : M sched_ds bool :=
  let! k := getAccumulator p in
  let! e := Map_isEmpty this in
  if (e : bool) then
    let! x := allocNode_proc p k in
    set_root this x ;;;
    let! e' := Map_isEmpty this in
    ret (negb e')
  else
    let! r := get_root this in
    MapNode_put r p.

Definition Map_getMinKey (this : mref) : M sched_ds (option Z) :=
  let! e := Map_isEmpty this in
  if (e : bool) then ret None else
  let! r := get_root this in
  let! k := MapNode_getMinKey r in
  ret (Some k).

Definition Map_extractMin (this : mref) : M sched_ds procp :=
  let! e := Map_isEmpty this in
  if (e : bool) then ret null else
  let! r := get_root this in
  let! minNode := MapNode_getMinNode r in
  let! p := MapNode_dequeue minNode in
  let! e' := MapNode_isEmpty minNode in
  (if (e' : bool) then
     let! r' := get_root this in
     (if bool_decide (minNode = r') then
        let! m := deref_node minNode in
        set_root this (right m) ;;;
        let! e'' := Map_isEmpty this in
        (if (e'' : bool) then ret tt
         else let! r'' := get_root this in upd_node r'' (set_parent null))
      else
        let! m := deref_node minNode in
        let par := parent m in
        upd_node par (set_left (right m)) ;;;
        let! m' := deref_node minNode in
        (if bool_decide (right m' = null) then ret tt
         else upd_node (right m') (set_parent par))) ;;;
     deallocNode minNode
   else ret tt) ;;;
  ret p.

(** Fuel of the loops that empty a map: one more than the number of links. *)
Fixpoint Map_transfer_loop (fuel : nat) (this : mref) : M sched_ds bool :=
  match fuel with
  | 0 => nofuel
  | S fuel' =>
      let! e := Map_isEmpty this in
      if (e : bool) then ret true else
      let! p := Map_extractMin this in
      LinkedList_enqueue RRQ p ;;;
      Map_transfer_loop fuel' this
  end.

Definition Map_transfer (this : mref) : M sched_ds bool :=
  let! e := LinkedList_isEmpty RRQ in
  if negb e then ret false else
  Map_transfer_loop link_fuel this.

Fixpoint Map_extractProc_loop (fuel : nat) (this : mref) (p : procp) (ans : bool)
  : M sched_ds bool :=
  match fuel with
  | 0 => nofuel
  | S fuel' =>
      let! e := Map_isEmpty this in
      if (e : bool) then ret ans else
      let! otherP := Map_extractMin this in
      let! ans' :=
        (if bool_decide (otherP = p) then ret true
         else Map_put TEMP otherP ;;; ret ans) in
      Map_extractProc_loop fuel' this p ans'
  end.

Definition Map_extractProc (this : mref) (p : procp) : M sched_ds bool :=
  let! fn := gets freeNodes in
  if bool_decide (fn = null) then ret false else
  set_root TEMP null ;;;
  let! ans := Map_extractProc_loop link_fuel this p false in
  let! t := get_root TEMP in
  set_root this t ;;;
  set_root TEMP null ;;;
  ret ans.

Definition LinkedList_transfer (this : lref) : M sched_ds bool :=
  let! e := Map_isEmpty PQ in
  if negb e then ret false else
  let! e' := LinkedList_isEmpty this in
  if (e' : bool) then ret true else
  let! node := allocNode 0 in
  if bool_decide (node = null) then ret false else
  let! l := get_this this in
  set_first (NodeList node) (ll_first l) ;;;
  set_last (NodeList node) (ll_last l) ;;;
  set_this this (mkLinkedList null null) ;;;
  set_root PQ node ;;;
  ret true.

(** ** The functions behind [pq], [rrq] and [rpholder] *)

Definition isEmptyPriorityQueue : M sched_ds bool := Map_isEmpty PQ.
Definition putPriorityQueue (p : procp) : M sched_ds bool := Map_put PQ p.
Definition getMinAccumulatorPriorityQueue : M sched_ds (option Z) := Map_getMinKey PQ.
Definition extractMinPriorityQueue : M sched_ds procp := Map_extractMin PQ.
Definition switchToRoundRobinPolicyPriorityQueue : M sched_ds bool := Map_transfer PQ.
Definition extractProcPriorityQueue (p : procp) : M sched_ds bool := Map_extractProc PQ p.

Definition isEmptyRoundRobinQueue : M sched_ds bool := LinkedList_isEmpty RRQ.
Definition enqueueRoundRobinQueue (p : procp) : M sched_ds bool := LinkedList_enqueue RRQ p.
Definition dequeueRoundRobinQueue : M sched_ds procp := LinkedList_dequeue RRQ.
Definition switchToPriorityQueuePolicyRoundRobinQueue : M sched_ds bool :=
  LinkedList_transfer RRQ.

Definition isEmptyRunningProcessHolder : M sched_ds bool := LinkedList_isEmpty RPH.
Definition addRunningProcessHolder (p : procp) : M sched_ds bool := LinkedList_enqueue RPH p.
Definition removeRunningProcessHolder (p : procp) : M sched_ds bool := LinkedList_remove RPH p.
Definition getMinAccumulatorRunningProcessHolder : M sched_ds (option Z) :=
  LinkedList_getMinKey RPH.

End Accumulators.

(** ** Initialisation

    [mymalloc] carves objects out of pages of [kalloc]; its state is the
    current page position, the space left in it and the pages [kalloc] will
    hand out (in order).  A null page faults in [memset]. *)
Record arena := mkArena { data : Z; spaceLeft : Z; pages : list Z }.

Definition PGSIZE : Z := 4096.
Definition sizeof_Map : Z := 4.
Definition sizeof_LinkedList : Z := 8.
Definition sizeof_Link : Z := 8.
Definition sizeof_MapNode : Z := 32.

Definition mymalloc (size : Z) : M arena Z :=
  let! a := gets id in
  (if (spaceLeft a <? size)%Z then
     match pages a with
     | pg :: rest => modify (fun _ => mkArena pg PGSIZE rest)
     | [] => fault
     end
   else ret tt) ;;;
  let! a' := gets id in
  let ans := data a' in
  modify (fun a => mkArena (data a + size)%Z (spaceLeft a - size)%Z (pages a)) ;;;
  ret ans.

(** The loop that threads the links, and the one that threads the nodes:
    object [i] is the [i]-th one allocated. *)
Fixpoint init_links (n : nat) : gmap nat Link * ptr :=
  match n with
  | 0 => (∅, null)
  | S i =>
      let '(h, free) := init_links i in
      (<[i := set_link_next free Link_new]> h, Some i)
  end.

Fixpoint init_nodes (n : nat) : gmap nat MapNode * ptr :=
  match n with
  | 0 => (∅, null)
  | S i =>
      let '(h, free) := init_nodes i in
      (<[i := set_node_next free (MapNode_new 0)]> h, Some i)
  end.

(** Addresses of the objects in allocation order, one [mymalloc] each. *)
Fixpoint mymalloc_all (sizes : list Z) : M arena (list Z) :=
  match sizes with
  | [] => ret []
  | sz :: rest =>
      let! x := mymalloc sz in
      let! xs := mymalloc_all rest in
      ret (x :: xs)
  end.

Definition init_sizes : list Z :=
  [sizeof_Map; sizeof_LinkedList; sizeof_LinkedList] ++
  replicate NPROCLIST sizeof_Link ++ replicate NPROCMAP sizeof_MapNode.

(** [initSchedDS]: the objects' addresses and the initial structures. *)
Definition initSchedDS (pgs : list Z) : outcome arena (list Z * sched_ds) :=
  match mymalloc_all init_sizes (mkArena 0 0 pgs) with
  | Ok addrs a =>
      let '(ls, fl) := init_links NPROCLIST in
      let '(ns, fn) := init_nodes NPROCMAP in
      Ok (addrs, mkSchedDS ls ns fl fn null null LinkedList_new LinkedList_new) a
  | Panic m => Panic m
  | Fault => Fault
  | Blocked a => Blocked a
  | OutOfFuel => OutOfFuel
  end.

(** The structures right after [initSchedDS]. *)
Definition init_ds : sched_ds :=
  mkSchedDS (init_links NPROCLIST).1 (init_nodes NPROCMAP).1 (init_links NPROCLIST).2
    (init_nodes NPROCMAP).2 null null LinkedList_new LinkedList_new.
