(* ===== verification/SchedRepr.v ===== *)
(** * Representation of the scheduling structures

    Predicates that say which lists, trees and pools the pointer structures
    of [SchedDS] hold (list segments, binary search trees with parent
    pointers, disjointness of all of them), and the behaviour of the link
    and node pools and of every [LinkedList] method under them. *)

From stdpp Require Import base gmap list sets sorting.
From Stdlib Require Import ZArith Lia.
From S2P Require Import Prelude SchedSpec SchedDS.

(** ** Representation predicates *)

(** A cell of a linked list: the index of the link and the process in it. *)
Abbreviation cell := (nat * procp)%type.

(** [lseg h p cs q]: following [next] from [p] visits [cs] and reaches [q]. *)
Fixpoint lseg (h : gmap nat Link) (p : ptr) (cs : list cell) (q : ptr) : Prop :=
  match cs with
  | [] => p = q
  | (x, v) :: cs' => p = Some x /\ exists nx, h !! x = Some (mkLink v nx) /\ lseg h nx cs' q
  end.

Definition chain (h : gmap nat Link) (p : ptr) (cs : list cell) : Prop := lseg h p cs null.

Definition list_at (h : gmap nat Link) (L : LinkedList) (cs : list cell) : Prop :=
  chain h (ll_first L) cs /\ ll_last L = fst <$> last cs.

(** The chain of free map nodes: every one has been cleared. *)
Fixpoint nchain (g : gmap nat MapNode) (p : ptr) (xs : list nat) : Prop :=
  match xs with
  | [] => p = null
  | x :: xs' =>
      p = Some x /\
      exists k nx, g !! x = Some (mkMapNode k LinkedList_new nx null null null) /\ nchain g nx xs'
  end.

(** The shape of a map: node index, key, its list, and the two subtrees. *)
Inductive tree :=
| Leaf
| Node (n : nat) (k : Z) (cs : list cell) (l r : tree).

Fixpoint tree_at (h : gmap nat Link) (g : gmap nat MapNode) (par p : ptr) (t : tree) : Prop :=
  match t with
  | Leaf => p = null
  | Node n k cs l r =>
      p = Some n /\ cs <> [] /\
      exists L pl pr,
        g !! n = Some (mkMapNode k L null par pl pr) /\ list_at h L cs /\
        tree_at h g (Some n) pl l /\ tree_at h g (Some n) pr r
  end.

Fixpoint inorder (t : tree) : pqueue :=
  match t with
  | Leaf => []
  | Node _ k cs l r => inorder l ++ (k, cs.*2) :: inorder r
  end.

Fixpoint tlinks (t : tree) : list nat :=
  match t with
  | Leaf => []
  | Node _ _ cs l r => tlinks l ++ cs.*1 ++ tlinks r
  end.

Fixpoint tnodes (t : tree) : list nat :=
  match t with
  | Leaf => []
  | Node n _ _ l r => tnodes l ++ n :: tnodes r
  end.

Definition sorted_tree (t : tree) : Prop := StronglySorted Z.lt (inorder t).*1.

(** The state [d] consists of these disjoint pieces. *)
Record layout (d : sched_ds) (fl : list cell) (fn : list nat) (T Tt : tree)
    (rr rp : list cell) : Prop := {
  lay_fl : chain (links d) (freeLinks d) fl;
  lay_fn : nchain (nodes d) (freeNodes d) fn;
  lay_T : tree_at (links d) (nodes d) null (priorityQ d) T;
  lay_Tt : tree_at (links d) (nodes d) null (tempMap d) Tt;
  lay_rr : list_at (links d) (roundRobinQ d) rr;
  lay_rp : list_at (links d) (runningProcHolder d) rp;
  lay_links : NoDup (fl.*1 ++ tlinks T ++ tlinks Tt ++ rr.*1 ++ rp.*1);
  lay_nodes : NoDup (fn ++ tnodes T ++ tnodes Tt);
  lay_nlinks : length (fl.*1 ++ tlinks T ++ tlinks Tt ++ rr.*1 ++ rp.*1) = NPROCLIST;
  lay_nnodes : length (fn ++ tnodes T ++ tnodes Tt) = NPROCMAP;
  lay_sorted : sorted_tree T;
  lay_sorted_t : sorted_tree Tt
}.

(** ** List segments *)

Lemma lseg_app h cs1 : forall p cs2 q,
  lseg h p (cs1 ++ cs2) q <-> exists m, lseg h p cs1 m /\ lseg h m cs2 q.
Proof.
  induction cs1 as [|[x v] cs1 IH]; intros p cs2 q; simpl.
  - naive_solver.
  - setoid_rewrite IH. naive_solver.
Qed.

Lemma lseg_frame h h' cs : forall p q,
  (forall i, i ∈ cs.*1 -> h' !! i = h !! i) -> lseg h p cs q -> lseg h' p cs q.
Proof.
  induction cs as [|[x v] cs IH]; intros p q Hf; simpl; [done|].
  intros [-> (nx & Hx & Hseg)]. split; [done|]. exists nx. split.
  - rewrite Hf; [done | set_solver].
  - apply IH; [|done]. intros i Hi. apply Hf. set_solver.
Qed.

Lemma chain_frame h h' cs p :
  (forall i, i ∈ cs.*1 -> h' !! i = h !! i) -> chain h p cs -> chain h' p cs.
Proof. apply lseg_frame. Qed.

Lemma list_at_frame h h' L cs :
  (forall i, i ∈ cs.*1 -> h' !! i = h !! i) -> list_at h L cs -> list_at h' L cs.
Proof. intros Hf [Hc Hl]. split; [by eapply chain_frame|done]. Qed.

Lemma chain_null h cs : chain h null cs -> cs = [].
Proof. destruct cs as [|[x v] cs]; [done|]. intros [? _]. done. Qed.

Lemma chain_nonnull h p cs : chain h p cs -> cs <> [] -> p <> null.
Proof. destruct cs as [|[x v] cs]; [done|]. intros [-> _] _. done. Qed.

Lemma list_at_empty h L cs : list_at h L cs -> ll_first L = null <-> cs = [].
Proof.
  intros [Hc _]. split.
  - intros E. rewrite E in Hc. by eapply chain_null.
  - intros ->. exact Hc.
Qed.

Lemma list_at_nil h : list_at h LinkedList_new [].
Proof. done. Qed.

Lemma list_at_nil_inv h L : list_at h L [] -> L = LinkedList_new.
Proof. intros [Hc Hl]. destruct L as [f l]. unfold chain in Hc. simpl in *. by subst. Qed.

(** Redirecting the [next] pointer of the last cell of a segment. *)
Lemma lseg_snoc_upd h p cs x v q q' :
  x ∉ cs.*1 -> lseg h p (cs ++ [(x, v)]) q ->
  lseg (<[x := mkLink v q']> h) p (cs ++ [(x, v)]) q'.
Proof.
  intros Hx. rewrite !lseg_app. intros (m & Hseg & -> & nx & Hlk & _).
  exists (Some x). split.
  - eapply lseg_frame; [|exact Hseg]. intros i Hi. apply lookup_insert_ne. set_solver.
  - split; [done|]. exists q'. split; [apply lookup_insert_eq|done].
Qed.

Lemma nchain_frame g g' xs : forall p,
  (forall i, i ∈ xs -> g' !! i = g !! i) -> nchain g p xs -> nchain g' p xs.
Proof.
  induction xs as [|x xs IH]; intros p Hf; simpl; [done|].
  intros [-> (k & nx & Hx & Hc)]. split; [done|]. exists k, nx. split.
  - rewrite Hf; [done|set_solver].
  - apply IH; [|done]. intros i Hi. apply Hf. set_solver.
Qed.

Lemma tree_at_frame h h' g g' t : forall par p,
  (forall i, i ∈ tlinks t -> h' !! i = h !! i) ->
  (forall i, i ∈ tnodes t -> g' !! i = g !! i) ->
  tree_at h g par p t -> tree_at h' g' par p t.
Proof.
  induction t as [|n k cs l IHl r IHr]; intros par p Hh Hg; simpl; [done|].
  intros (-> & Hne & L & pl & pr & Hn & HL & Hl & Hr).
  simpl in Hh, Hg. split_and!; [done..|]. exists L, pl, pr. split_and!.
  - rewrite Hg; [done|set_solver].
  - eapply list_at_frame; [|done]. intros i Hi. apply Hh. set_solver.
  - eapply IHl; [| |done]; intros i Hi; [apply Hh|apply Hg]; set_solver.
  - eapply IHr; [| |done]; intros i Hi; [apply Hh|apply Hg]; set_solver.
Qed.

(** ** Reads and writes through pointers *)

Lemma deref_link_Ok d i l : links d !! i = Some l -> deref_link (Some i) d = Ok l d.
Proof. intros H. unfold deref_link. steps. simpl. by rewrite H. Qed.

Lemma deref_node_Ok d i n : nodes d !! i = Some n -> deref_node (Some i) d = Ok n d.
Proof. intros H. unfold deref_node. steps. simpl. by rewrite H. Qed.

Lemma upd_link_Ok d i l f :
  links d !! i = Some l -> upd_link (Some i) f d = Ok tt (put_links (<[i := f l]> (links d)) d).
Proof. intros H. unfold upd_link. by rewrite (bind_Ok _ _ _ _ _ (deref_link_Ok _ _ _ H)). Qed.

Lemma upd_node_Ok d i n f :
  nodes d !! i = Some n -> upd_node (Some i) f d = Ok tt (put_nodes (<[i := f n]> (nodes d)) d).
Proof. intros H. unfold upd_node. by rewrite (bind_Ok _ _ _ _ _ (deref_node_Ok _ _ _ H)). Qed.

(** The receiver of a list method, as a pure read and a pure update. *)
Definition this_is (d : sched_ds) (this : lref) (L : LinkedList) : Prop :=
  match this with
  | RRQ => roundRobinQ d = L
  | RPH => runningProcHolder d = L
  | NodeList x => exists n nd, x = Some n /\ nodes d !! n = Some nd /\ listOfProcs nd = L
  end.

Definition upd_this (this : lref) (L : LinkedList) (d : sched_ds) : sched_ds :=
  match this with
  | RRQ => put_roundRobinQ L d
  | RPH => put_runningProcHolder L d
  | NodeList (Some n) => put_nodes (alter (set_list L) n (nodes d)) d
  | NodeList None => d
  end.

Lemma get_this_Ok d this L : this_is d this L -> get_this this d = Ok L d.
Proof.
  destruct this; simpl; [by intros <- | by intros <- |].
  intros (m & nd & -> & Hn & <-). by rewrite (bind_Ok _ _ _ _ _ (deref_node_Ok _ _ _ Hn)).
Qed.

Lemma set_this_Ok d this L L' : this_is d this L -> set_this this L' d = Ok tt (upd_this this L' d).
Proof.
  destruct this; simpl; [done..|]. intros (m & nd & -> & Hn & <-).
  rewrite (upd_node_Ok _ _ _ _ Hn). do 2 f_equal. apply map_eq; intros j.
  destruct (decide (m = j)) as [->|].
  - by rewrite lookup_alter_eq, Hn, lookup_insert_eq.
  - by rewrite lookup_alter_ne, lookup_insert_ne.
Qed.

Lemma this_is_upd d this L L' : this_is d this L -> this_is (upd_this this L' d) this L'.
Proof.
  destruct this; simpl; [done..|]. intros (m & nd & -> & Hn & <-).
  exists m, (set_list L' nd). split_and!; [done| |done].
  simpl. by rewrite lookup_alter_eq, Hn.
Qed.

Lemma upd_this_upd this L1 L2 d : upd_this this L2 (upd_this this L1 d) = upd_this this L2 d.
Proof.
  destruct this as [| |[m|]]; simpl; [done..| |done]. unfold put_nodes. simpl. f_equal.
  apply map_eq; intros j. rewrite !lookup_alter. repeat case_decide; try done.
  by destruct (nodes d !! m).
Qed.

Lemma put_links_upd_this this L h d : put_links h (upd_this this L d) = upd_this this L (put_links h d).
Proof. by destruct this as [| |[m|]]. Qed.
Lemma put_freeLinks_upd_this this L h d :
  put_freeLinks h (upd_this this L d) = upd_this this L (put_freeLinks h d).
Proof. by destruct this as [| |[m|]]. Qed.
Lemma links_upd_this this L d : links (upd_this this L d) = links d.
Proof. by destruct this as [| |[m|]]. Qed.
Lemma freeLinks_upd_this this L d : freeLinks (upd_this this L d) = freeLinks d.
Proof. by destruct this as [| |[m|]]. Qed.
Lemma this_is_put_links d this L h : this_is d this L -> this_is (put_links h d) this L.
Proof. by destruct this. Qed.
Lemma this_is_put_freeLinks d this L h : this_is d this L -> this_is (put_freeLinks h d) this L.
Proof. by destruct this. Qed.

#[export] Hint Resolve this_is_upd this_is_put_links this_is_put_freeLinks : kernel.

(** ** The link pool *)

Lemma allocLink_nil d p : freeLinks d = null -> allocLink p d = Ok null d.
Proof. intros H. unfold allocLink. steps. by rewrite H. Qed.

Lemma allocLink_cons d p x v nx :
  freeLinks d = Some x -> links d !! x = Some (mkLink v nx) ->
  allocLink p d =
    Ok (Some x) (put_freeLinks nx (put_links (<[x := mkLink p null]> (links d)) d)).
Proof.
  intros Hf Hx. unfold allocLink. steps. rewrite Hf. simpl.
  rewrite (bind_Ok _ _ _ _ _ (deref_link_Ok _ _ _ Hx)). steps.
  erewrite bind_Ok; [|by apply upd_link_Ok].
  erewrite bind_Ok; [|by apply upd_link_Ok; simpl; rewrite lookup_insert_eq].
  unfold ret. do 3 f_equal. simpl. by rewrite insert_insert_eq.
Qed.

Lemma deallocLink_Ok d x l :
  links d !! x = Some l ->
  deallocLink (Some x) d =
    Ok tt (put_freeLinks (Some x)
             (put_links (<[x := mkLink (link_p l) (freeLinks d)]> (links d)) d)).
Proof.
  intros Hx. unfold deallocLink. steps. by erewrite bind_Ok; [|by apply upd_link_Ok].
Qed.

(** ** List methods *)

Lemma isEmpty_Ok d this L :
  this_is d this L -> LinkedList_isEmpty this d = Ok (bool_decide (ll_first L = null)) d.
Proof. intros H. unfold LinkedList_isEmpty. by erewrite bind_Ok; [|by apply get_this_Ok]. Qed.

Lemma set_first_Ok d this L x :
  this_is d this L -> set_first this x d = Ok tt (upd_this this (mkLinkedList x (ll_last L)) d).
Proof.
  intros H. unfold set_first. erewrite bind_Ok; [|by apply get_this_Ok].
  by eapply set_this_Ok.
Qed.

Lemma set_last_Ok d this L x :
  this_is d this L -> set_last this x d = Ok tt (upd_this this (mkLinkedList (ll_first L) x) d).
Proof.
  intros H. unfold set_last. erewrite bind_Ok; [|by apply get_this_Ok].
  by eapply set_this_Ok.
Qed.

Lemma getLast_one d x p : links d !! x = Some (mkLink p null) -> Link_getLast (Some x) d = Ok (Some x) d.
Proof.
  intros H. unfold Link_getLast. rewrite link_fuel_eq. simpl. by rewrite (bind_Ok _ _ _ _ _ (deref_link_Ok _ _ _ H)).
Qed.

(** The effect of appending a fresh link [x] to the list [cs]. *)
Definition append_heap (h : gmap nat Link) (cs : list cell) (x : nat) : gmap nat Link :=
  match last cs with
  | Some (z, v) => <[z := mkLink v (Some x)]> h
  | None => h
  end.
Definition append_list (L : LinkedList) (x : nat) : LinkedList :=
  mkLinkedList (if decide (ll_first L = null) then Some x else ll_first L) (Some x).

Lemma append_Ok d this L cs x p :
  this_is d this L -> list_at (links d) L cs -> x ∉ cs.*1 ->
  links d !! x = Some (mkLink p null) ->
  LinkedList_append this (Some x) d =
    Ok tt (upd_this this (append_list L x) (put_links (append_heap (links d) cs x) d)).
Proof.
  intros Ht HL Hx Hlk. unfold LinkedList_append. simpl.
  erewrite bind_Ok; [|by apply isEmpty_Ok].
  unfold append_list, append_heap. destruct HL as [Hc Hlast].
  destruct cs as [|c cs'] using rev_ind; simpl.
  - unfold chain in Hc. simpl in Hc. rewrite Hc. simpl.
    erewrite bind_Ok; [|by eapply set_first_Ok].
    erewrite bind_Ok; [|eapply getLast_one; by rewrite links_upd_this].
    erewrite set_last_Ok; [|eauto with kernel]. simpl. rewrite upd_this_upd.
    do 2 f_equal. by destruct d.
  - clear IHcs'. destruct c as [z v]. rewrite last_snoc in *. simpl in *.
    rewrite fmap_app in Hx. simpl in Hx.
    assert (ll_first L <> null) as Hnn.
    { eapply chain_nonnull; [done|]. by destruct cs'. }
    rewrite bool_decide_eq_false_2 by done. rewrite decide_False by done.
    apply lseg_app in Hc as (m & Hseg & Hm & nx & Hz & Hnx).
    call get_this_Ok. rewrite Hlast. call upd_link_Ok.
    call getLast_one by (by rewrite lookup_insert_ne by set_solver).
    by erewrite set_last_Ok by eauto with kernel.
Qed.

Lemma append_list_at h L cs x p :
  list_at h L cs -> NoDup cs.*1 -> x ∉ cs.*1 -> h !! x = Some (mkLink p null) ->
  list_at (append_heap h cs x) (append_list L x) (cs ++ [(x, p)]).
Proof.
  intros [Hc Hlast] Hnd Hx Hlk. split; [|by rewrite last_snoc].
  unfold append_heap, append_list. destruct cs as [|c cs' _] using rev_ind; simpl.
  - unfold chain in Hc. simpl in Hc. rewrite decide_True by done. split; [done|].
    by exists null.
  - destruct c as [z v]. rewrite last_snoc. rewrite fmap_app in Hx, Hnd. simpl in Hx, Hnd.
    assert (ll_first L <> null) by (eapply chain_nonnull; [done|by destruct cs']).
    rewrite decide_False by done. unfold chain. apply lseg_app. exists (Some x). split.
    + eapply lseg_snoc_upd; [|exact Hc]. apply NoDup_app in Hnd. set_solver.
    + split; [done|]. exists null. split; [|done]. rewrite lookup_insert_ne by set_solver. done.
Qed.

Lemma append_heap_frame h cs x i : i ∉ cs.*1 -> append_heap h cs x !! i = h !! i.
Proof.
  unfold append_heap. destruct (last cs) as [[z v]|] eqn:E; [|done].
  intros Hi. apply lookup_insert_ne. intros ->. apply Hi.
  apply last_Some in E as [cs' ->]. rewrite fmap_app. set_solver.
Qed.

(** [enqueue]: fails without a link, appends otherwise. *)
Lemma enqueue_nil d this p : freeLinks d = null -> LinkedList_enqueue this p d = Ok false d.
Proof. intros H. unfold LinkedList_enqueue. by call allocLink_nil. Qed.

Definition enqueue_heap (h : gmap nat Link) (cs : list cell) (x : nat) (p : procp) : gmap nat Link :=
  append_heap (<[x := mkLink p null]> h) cs x.

Lemma enqueue_cons d this L cs p x v nx :
  this_is d this L -> list_at (links d) L cs -> x ∉ cs.*1 ->
  freeLinks d = Some x -> links d !! x = Some (mkLink v nx) ->
  LinkedList_enqueue this p d =
    Ok true (upd_this this (append_list L x)
      (put_freeLinks nx (put_links (enqueue_heap (links d) cs x p) d))).
Proof.
  intros Ht HL Hx Hf Hlk. unfold LinkedList_enqueue.
  call allocLink_cons. simpl.
  call append_Ok by first
    [ by eauto with kernel
    | by rewrite lookup_insert_eq
    | by eapply list_at_frame; [|done]; intros i Hi; apply lookup_insert_ne; set_solver
    | done ].
  done.
Qed.

Lemma enqueue_list_at h L cs x p :
  list_at h L cs -> NoDup cs.*1 -> x ∉ cs.*1 ->
  list_at (enqueue_heap h cs x p) (append_list L x) (cs ++ [(x, p)]).
Proof.
  intros HL Hnd Hx. apply append_list_at; [|done..|by rewrite lookup_insert_eq].
  eapply list_at_frame; [|done]. intros i Hi. apply lookup_insert_ne. set_solver.
Qed.

Lemma enqueue_heap_frame h cs x p i :
  i ∉ cs.*1 -> i <> x -> enqueue_heap h cs x p !! i = h !! i.
Proof.
  intros. unfold enqueue_heap. rewrite append_heap_frame by done. by apply lookup_insert_ne.
Qed.

(** [dequeue]: the first cell goes back to the pool. *)
Lemma dequeue_nil d this : this_is d this LinkedList_new -> LinkedList_dequeue this d = Ok null d.
Proof. intros H. unfold LinkedList_dequeue. by call isEmpty_Ok. Qed.

Definition tail_list (L : LinkedList) (nx : ptr) : LinkedList :=
  mkLinkedList nx (if decide (nx = null) then null else ll_last L).

Lemma dequeue_cons d this L x p nx :
  this_is d this L -> ll_first L = Some x -> links d !! x = Some (mkLink p nx) ->
  LinkedList_dequeue this d =
    Ok p (upd_this this (tail_list L nx)
      (put_freeLinks (Some x)
        (put_links (<[x := mkLink p (freeLinks d)]> (links d)) d))).
Proof.
  intros Ht Hf Hlk. unfold LinkedList_dequeue.
  call isEmpty_Ok. rewrite Hf. simpl. call get_this_Ok. rewrite Hf.
  call deref_link_Ok. simpl. call deallocLink_Ok. simpl.
  call set_first_Ok. call isEmpty_Ok. simpl. unfold tail_list.
  destruct (decide (nx = null)) as [->|Hnx].
  - simpl. call set_last_Ok. simpl. by rewrite upd_this_upd.
  - rewrite bool_decide_eq_false_2 by done. done.
Qed.

Lemma dequeue_list_at h L x p cs nx :
  list_at h L ((x, p) :: cs) -> h !! x = Some (mkLink p nx) -> list_at h (tail_list L nx) cs.
Proof.
  intros [[_ (nx' & Hx & Hc)] Hl] Hlk. simplify_eq. split; [done|].
  unfold tail_list. destruct cs as [|[y w] cs]; simpl.
  - unfold chain in Hc. simpl in Hc. by rewrite decide_True by done.
  - destruct Hc as [-> _]. rewrite decide_False by done. simpl. rewrite Hl. done.
Qed.

Lemma upd_this_id d this L : this_is d this L -> upd_this this L d = d.
Proof.
  destruct this as [| |x]; simpl; [intros <-; by destruct d..|].
  intros (m & nd & -> & Hm & <-). destruct d as [ls ns]. unfold put_nodes. simpl in *. f_equal.
  apply map_eq. intros j. rewrite lookup_alter. case_decide; [subst|done].
  rewrite Hm. simpl. by destruct nd.
Qed.

(** [remove]: unlinking the cell after [(z, w)]. *)
Definition unlink_heap (h : gmap nat Link) (fl : ptr) (z : nat) (w : procp) (x : nat) (p : procp)
    (nx : ptr) : gmap nat Link :=
  <[x := mkLink p fl]> (<[z := mkLink w nx]> h).
Definition unlink_list (L : LinkedList) (z : nat) (nx : ptr) : LinkedList :=
  if decide (nx = null) then mkLinkedList (ll_first L) (Some z) else L.

Lemma remove_loop_miss : forall cs fuel d this p prev cur,
  chain (links d) cur cs -> p ∉ cs.*2 -> length cs < fuel ->
  LinkedList_remove_loop fuel this p prev cur d = Ok false d.
Proof.
  induction cs as [|[x v] cs IH]; intros [|fuel] d this p prev cur Hc Hp Hf; simpl in *; try lia.
  - unfold chain in Hc. simpl in Hc. by subst.
  - destruct Hc as [-> (nx & Hx & Hc)]. simpl. call deref_link_Ok. simpl.
    rewrite bool_decide_eq_false_2 by set_solver. apply IH; [done|set_solver|lia].
Qed.

Lemma remove_loop_hit : forall a fuel d this L p y vy x b nx cur,
  this_is d this L ->
  chain (links d) cur (a ++ (x, p) :: b) -> p ∉ a.*2 -> length a < fuel ->
  links d !! y = Some (mkLink vy cur) -> NoDup (y :: a.*1 ++ [x]) ->
  links d !! x = Some (mkLink p nx) ->
  exists z w, last ((y, vy) :: a) = Some (z, w) /\
    LinkedList_remove_loop fuel this p (Some y) cur d =
      Ok true (upd_this this (unlink_list L z nx)
        (put_freeLinks (Some x) (put_links (unlink_heap (links d) (freeLinks d) z w x p nx) d))).
Proof.
  induction a as [|[x' v'] a IH]; intros [|fuel] d this L p y vy x b nx cur Ht Hc Hp Hf Hy Hnd Hx;
    simpl in *; try lia.
  - destruct Hc as [-> _]. exists y, vy. split; [done|]. simpl.
    assert (y <> x) by (apply NoDup_cons in Hnd; set_solver).
    call deref_link_Ok. simpl. rewrite bool_decide_eq_true_2 by done.
    call upd_link_Ok. simpl. unfold unlink_list, unlink_heap, set_link_next. simpl.
    destruct (decide (nx = null)) as [->|Hnx].
    + rewrite bool_decide_eq_true_2 by done. call set_last_Ok.
      call deallocLink_Ok by (rewrite links_upd_this; simpl; by rewrite lookup_insert_ne).
      rewrite freeLinks_upd_this, links_upd_this, put_links_upd_this, put_freeLinks_upd_this. done.
    + rewrite bool_decide_eq_false_2 by done. steps.
      call deallocLink_Ok by (by rewrite lookup_insert_ne).
      unfold ret. f_equal. symmetry. eapply upd_this_id. eauto with kernel.
  - destruct Hc as [-> (nx' & Hx' & Hc)]. simpl. call deref_link_Ok. simpl.
    rewrite bool_decide_eq_false_2 by set_solver.
    edestruct (IH fuel d this L p x' v' x b nx nx') as (z & w & Hl & Heq);
      [done|done|set_solver|lia|done| |done|].
    { by inversion Hnd. }
    exists z, w. split; [done|exact Heq].
Qed.

Lemma unlink_list_at h fl L a z w x p b nx :
  list_at h L (a ++ (z, w) :: (x, p) :: b) -> h !! x = Some (mkLink p nx) ->
  NoDup (a ++ (z, w) :: (x, p) :: b).*1 ->
  list_at (unlink_heap h fl z w x p nx) (unlink_list L z nx) (a ++ (z, w) :: b).
Proof.
  intros [Hc Hl] Hx Hnd. rewrite fmap_app in Hnd. simpl in Hnd.
  apply NoDup_app in Hnd as (Hna & Hdj & Hnd).
  apply NoDup_cons in Hnd as [Hz Hnd]. apply NoDup_cons in Hnd as [Hxb Hnb].
  unfold chain in Hc. apply lseg_app in Hc as (m & Ha & -> & nx' & Hz' & -> & nx'' & Hx' & Hb).
  assert (nx'' = nx) by congruence. subst nx''. clear Hx'. unfold unlink_heap, unlink_list. split.
  - assert (chain (<[x:=mkLink p fl]> (<[z:=mkLink w nx]> h)) (ll_first L) (a ++ (z, w) :: b)).
    { apply lseg_app. exists (Some z). split.
      - eapply lseg_frame; [|exact Ha]. intros i Hi.
        rewrite !lookup_insert_ne; [done| |]; set_solver.
      - split; [done|]. exists nx. split.
        + rewrite lookup_insert_ne by set_solver. by rewrite lookup_insert_eq.
        + eapply lseg_frame; [|exact Hb]. intros i Hi.
          rewrite !lookup_insert_ne; [done| |]; set_solver. }
    by destruct (decide (nx = null)).
  - destruct b as [|[y v] b]; simpl in Hb.
    + subst. rewrite decide_True by done. simpl. by rewrite last_snoc.
    + destruct Hb as [-> _]. rewrite decide_False by done. rewrite Hl.
      rewrite !last_app. done.
Qed.

Lemma unlink_heap_frame h fl z w x p nx i :
  i <> z -> i <> x -> unlink_heap h fl z w x p nx !! i = h !! i.
Proof. intros. unfold unlink_heap. by rewrite !lookup_insert_ne. Qed.

Lemma remove_miss d this L cs p :
  this_is d this L -> list_at (links d) L cs -> length cs < link_fuel -> p ∉ cs.*2 ->
  LinkedList_remove this p d = Ok false d.
Proof.
  intros Ht [Hc Hl] Hf Hp. unfold LinkedList_remove. call isEmpty_Ok.
  destruct cs as [|[x v] cs].
  - unfold chain in Hc. simpl in Hc. by rewrite Hc.
  - destruct Hc as [Hfst (nx & Hx & Hc)]. rewrite Hfst. simpl.
    call get_this_Ok. rewrite Hfst. call deref_link_Ok. simpl.
    rewrite bool_decide_eq_false_2 by set_solver.
    eapply remove_loop_miss; [done|set_solver|]. simpl in Hf. lia.
Qed.

Lemma remove_hit d this L a x p b :
  this_is d this L -> list_at (links d) L (a ++ (x, p) :: b) ->
  NoDup (a ++ (x, p) :: b).*1 -> length a < link_fuel -> p ∉ a.*2 ->
  exists h' L',
    LinkedList_remove this p d =
      Ok true (upd_this this L' (put_freeLinks (Some x) (put_links h' d))) /\
    list_at h' L' (a ++ b) /\ h' !! x = Some (mkLink p (freeLinks d)) /\
    (forall i, i ∉ (a ++ (x, p) :: b).*1 -> h' !! i = links d !! i).
Proof.
  intros Ht HL Hnd Hf Hp. unfold LinkedList_remove. call isEmpty_Ok.
  pose proof HL as [Hc Hl]. destruct a as [|[y v] a].
  - destruct Hc as [Hfst (nx & Hx & Hc)]. rewrite Hfst. simpl. call get_this_Ok.
    rewrite Hfst. call deref_link_Ok. simpl. rewrite bool_decide_eq_true_2 by done.
    call dequeue_cons. eexists _, _. split_and!; [done| | |].
    + eapply list_at_frame; [|by eapply dequeue_list_at].
      intros i Hi. apply lookup_insert_ne. inversion Hnd. set_solver.
    + apply lookup_insert_eq.
    + intros i Hi. apply lookup_insert_ne. set_solver.
  - destruct Hc as [Hfst (nx & Hy & Hc)]. rewrite Hfst. simpl. call get_this_Ok.
    rewrite Hfst. call deref_link_Ok. simpl. rewrite bool_decide_eq_false_2 by set_solver.
    pose proof Hc as (m & _ & _ & nx' & Hx & _)%lseg_app.
    simpl in Hf, Hp. edestruct (remove_loop_hit a link_fuel d this L p y v x b nx' nx)
      as (z & w & Hlast & Heq); [done|done|set_solver|lia|done| |done|].
    { rewrite fmap_app, fmap_cons in Hnd. simpl in Hnd.
      change (NoDup ((y :: a.*1) ++ x :: b.*1)) in Hnd.
      rewrite cons_middle, (assoc_L (++)) in Hnd. by apply NoDup_app in Hnd as [? _]. }
    apply last_Some in Hlast as [a' Ha'].
    assert (((y, v) :: a) ++ (x, p) :: b = a' ++ (z, w) :: (x, p) :: b) as E
      by (by rewrite Ha', <- (assoc_L (++))).
    eexists _, _. split_and!; [exact Heq| | |].
    + rewrite (app_comm_cons a b), Ha', <- (assoc_L (++)). rewrite E in HL, Hnd. by eapply unlink_list_at.
    + apply lookup_insert_eq.
    + intros i Hi. assert (i ∉ (a' ++ (z, w) :: (x, p) :: b).*1) as Hi' by (by rewrite <- E).
      rewrite fmap_app in Hi'. clear Hi. apply unlink_heap_frame; set_solver.
Qed.

(** ** The node pool *)

Lemma allocNode_nil d k : freeNodes d = null -> allocNode k d = Ok null d.
Proof. intros H. unfold allocNode. steps. by rewrite H. Qed.

Lemma allocNode_cons d k x k0 nx :
  freeNodes d = Some x ->
  nodes d !! x = Some (mkMapNode k0 LinkedList_new nx null null null) ->
  allocNode k d = Ok (Some x)
    (put_freeNodes nx (put_nodes (<[x := MapNode_new k]> (nodes d)) d)).
Proof.
  intros Hf Hx. unfold allocNode. steps. rewrite Hf. simpl.
  call deref_node_Ok. steps. call upd_node_Ok.
  call upd_node_Ok by (by rewrite lookup_insert_eq).
  unfold ret. do 3 f_equal. simpl. by rewrite insert_insert_eq.
Qed.

Lemma deallocNode_Ok d x nd :
  nodes d !! x = Some nd ->
  deallocNode (Some x) d =
    Ok tt (put_freeNodes (Some x)
      (put_nodes (<[x := mkMapNode (key nd) (listOfProcs nd) (freeNodes d) null null null]>
                    (nodes d)) d)).
Proof.
  intros Hx. unfold deallocNode.
  do 3 (call upd_node_Ok by (rewrite ?lookup_insert_eq; done)).
  steps. call upd_node_Ok by (rewrite ?lookup_insert_eq; done).
  unfold modify, put_freeNodes, put_nodes. simpl. by rewrite !insert_insert_eq.
Qed.

(** Everything outside the links [A] and nodes [B] is unchanged, and so are
    the four structures' roots. *)
Definition same_roots (d d' : sched_ds) : Prop :=
  priorityQ d' = priorityQ d /\ tempMap d' = tempMap d /\
  roundRobinQ d' = roundRobinQ d /\ runningProcHolder d' = runningProcHolder d.
Definition framed (A B : list nat) (d d' : sched_ds) : Prop :=
  (forall i, i ∉ A -> links d' !! i = links d !! i) /\
  (forall i, i ∉ B -> nodes d' !! i = nodes d !! i).

Definition pools (d : sched_ds) (fl : list cell) (fn : list nat) : Prop :=
  chain (links d) (freeLinks d) fl /\ nchain (nodes d) (freeNodes d) fn.

Lemma chain_cons_inv h p x v cs :
  chain h p ((x, v) :: cs) -> p = Some x /\ exists nx, h !! x = Some (mkLink v nx) /\ chain h nx cs.
Proof. done. Qed.

Lemma allocNode_proc_Ok d p k fl fn :
  pools d fl fn -> NoDup fl.*1 -> NoDup fn ->
  exists r d' fl' fn',
    allocNode_proc p k d = Ok r d' /\ pools d' fl' fn' /\ same_roots d d' /\
    framed fl.*1 fn d d' /\
    match fl, fn with
    | (y, _) :: fl0, x :: fn0 =>
        r = Some x /\ fl' = fl0 /\ fn' = fn0 /\
        nodes d' !! x = Some (mkMapNode k (mkLinkedList (Some y) (Some y)) null null null null) /\
        links d' !! y = Some (mkLink p null)
    | _, _ => r = null /\ fl' = fl /\ fn' = fn
    end.
Proof.
  intros [Hfl Hfn] Hndl Hndn. unfold allocNode_proc. steps.
  destruct fn as [|x fn0].
  { simpl in Hfn. rewrite Hfn. simpl. exists null, d, fl, []. by destruct fl as [|[] ?]. }
  destruct Hfn as [Hfn (k0 & nx & Hx & Hc)]. rewrite Hfn. simpl.
  call allocNode_cons. simpl. apply NoDup_cons in Hndn as [Hxn Hndn].
  destruct fl as [|[y v] fl0].
  - unfold chain in Hfl. simpl in Hfl. call enqueue_nil. simpl.
    call deallocNode_Ok by (by rewrite lookup_insert_eq).
    eexists null, _, [], (x :: fn0). split; [done|]. split_and!; try done.
    + split; [done|]. split; [done|]. simpl. exists k, nx. rewrite lookup_insert_eq.
      split; [done|]. eapply nchain_frame; [|exact Hc].
      intros i Hi. rewrite !lookup_insert_ne; [done|set_solver..].
    + split; [done|]. intros i Hi. simpl. rewrite !lookup_insert_ne; [done|set_solver..].
  - apply chain_cons_inv in Hfl as [Hfl (ny & Hy & Hfl0)]. csimpl in Hndl.
    apply NoDup_cons in Hndl as [Hyn Hndl].
    erewrite bind_Ok; [|eapply (enqueue_cons _ _ LinkedList_new [] _ y v ny)]; simpl;
      [ |eexists _, _; split_and!; [done|by rewrite lookup_insert_eq|done]
        |done|set_solver|done|done].
    eexists (Some x), _, fl0, fn0. split; [done|]. split_and!; try done; simpl.
    + split; simpl.
      * eapply chain_frame; [|exact Hfl0]. intros i Hi. apply lookup_insert_ne. set_solver.
      * eapply nchain_frame; [|exact Hc]. intros i Hi.
        rewrite lookup_alter_ne, lookup_insert_ne; [done|set_solver..].
    + split; simpl; intros i Hi.
      * apply lookup_insert_ne. set_solver.
      * rewrite lookup_alter_ne, lookup_insert_ne; [done|set_solver..].
    + by rewrite alter_insert_eq, lookup_insert_eq.
    + apply lookup_insert_eq.
Qed.
