(* ===== verification/SchedPut.v ===== *)
(** * Putting a process into a map

    [MapNode::put] under the representation predicates of [SchedRepr]: the
    iterative descent finds the list of the process's accumulator or the
    place of a new node, and the tree stays a search tree over the same
    links and nodes. *)

From stdpp Require Import base gmap list sets sorting.
From Stdlib Require Import ZArith Lia.
From S2P Require Import Prelude SchedSpec SchedDS SchedRepr.

(** ** Putting a process into a map *)

(** What a put did to the abstract queue and to the pools. *)
Definition put_post (k : Z) (p : procp) (b : bool) (q q' : pqueue) (fl fl' : list cell)
    (fn fn' : list nat) : Prop :=
  b = ((0 <? length fl)%nat && (pq_has k q || (0 <? length fn)%nat)) /\
  q' = (if b then pq_insert k p q else q) /\
  length fl' = length fl - (if b then 1 else 0) /\
  length fn' = length fn - (if b && negb (pq_has k q) then 1 else 0).

Lemma tree_at_null h g par t : tree_at h g par null t -> t = Leaf.
Proof. destruct t; [done|]. by intros (? & _). Qed.

Lemma tree_at_Some h g par n t :
  tree_at h g par (Some n) t -> exists k cs l r, t = Node n k cs l r.
Proof. destruct t; [done|]. intros (? & _). simplify_eq. eauto. Qed.

Definition put_spec (d : sched_ds) (par : ptr) (n : nat) (t : tree) (fl : list cell)
    (fn : list nat) (k : Z) (p : procp) (o : outcome sched_ds bool) : Prop :=
  exists b d' t' fl' fn',
    o = Ok b d' /\ tree_at (links d') (nodes d') par (Some n) t' /\ pools d' fl' fn' /\
    same_roots d d' /\ framed (fl.*1 ++ tlinks t) (fn ++ tnodes t) d d' /\
    fl'.*1 ++ tlinks t' ≡ₚ fl.*1 ++ tlinks t /\ fn' ++ tnodes t' ≡ₚ fn ++ tnodes t /\
    put_post k p b (inorder t) (inorder t') fl fl' fn fn'.

(** The key is that of the node: the process joins its list. *)
Lemma put_here d par n k cs l r fl fn p :
  tree_at (links d) (nodes d) par (Some n) (Node n k cs l r) -> pools d fl fn ->
  NoDup (fl.*1 ++ tlinks (Node n k cs l r)) -> NoDup (fn ++ tnodes (Node n k cs l r)) ->
  sorted_tree (Node n k cs l r) ->
  put_spec d par n (Node n k cs l r) fl fn k p (LinkedList_enqueue (NodeList (Some n)) p d).
Proof.
  intros (_ & Hne & L & pl & pr & Hn & HL & Hl & Hr) [Hfl Hfn] Hndl Hndn Hs. csimpl in *.
  unfold sorted_tree in Hs. csimpl in Hs. rewrite fmap_app, fmap_cons in Hs. csimpl in Hs.
  apply StronglySorted_app_iff in Hs as (_ & _ & Hs).
  assert (pq_has k (inorder l ++ (k, cs.*2) :: inorder r) = true) as Hhas.
  { apply pq_has_spec. rewrite fmap_app. set_solver. }
  destruct fl as [|[x v] fl0].
  - unfold chain in Hfl. simpl in Hfl. rewrite enqueue_nil by done.
    eexists false, d, (Node n k cs l r), [], fn. split_and!; try done.
    + csimpl. split_and!; [done..|]. by exists L, pl, pr.
    + unfold put_post. simpl. split_and!; [done..|lia].
  - apply chain_cons_inv in Hfl as [Hfl (nx & Hx & Hfl0)].
    csimpl in Hndl. apply NoDup_cons in Hndl as [Hxn Hndl].
    apply NoDup_app in Hndl as (Hnd0 & Hdj & Hndl).
    apply NoDup_app in Hndl as (Hndtl & Hdj1 & Hndl). apply NoDup_app in Hndl as (Hndc & Hdj2 & Hndr).
    apply NoDup_app in Hndn as (_ & Hdjn & Hndn). apply NoDup_app in Hndn as (_ & Hdjn1 & Hndn).
    apply NoDup_cons in Hndn as [Hnr _].
    erewrite (enqueue_cons _ _ L cs _ x v nx);
      [|by eexists _, _|done|set_solver|done|done].
    assert (forall i, i ∉ cs.*1 -> i <> x -> enqueue_heap (links d) cs x p !! i = links d !! i)
      as Hfr by (intros; by apply enqueue_heap_frame).
    eexists true, _, (Node n k (cs ++ [(x, p)]) l r), fl0, fn. split; [done|]. split_and!; try done.
    + csimpl. split_and!; [done|by destruct cs|]. exists (append_list L x), pl, pr.
      rewrite lookup_alter_eq, Hn. split_and!; [done| | |].
      * apply enqueue_list_at; [done..|]. set_solver.
      * eapply tree_at_frame; [| |exact Hl]; intros i Hi.
        -- apply Hfr; set_solver.
        -- apply lookup_alter_ne. set_solver.
      * eapply tree_at_frame; [| |exact Hr]; intros i Hi.
        -- apply Hfr; set_solver.
        -- apply lookup_alter_ne. set_solver.
    + split; csimpl.
      * eapply chain_frame; [|exact Hfl0]. intros i Hi. apply Hfr; set_solver.
      * eapply nchain_frame; [|exact Hfn]. intros i Hi. apply lookup_alter_ne. set_solver.
    + split; csimpl; intros i Hi; [apply Hfr; set_solver | apply lookup_alter_ne; set_solver].
    + csimpl. perm_solve.
    + unfold put_post. csimpl. rewrite Hhas. simpl. split_and!; [done| |lia|lia].
      rewrite fmap_app, pq_insert_app_ge by set_solver. simpl.
      by rewrite Z.ltb_irrefl, Z.eqb_refl.
Qed.

(** A put into the left (right) subtree is a put into the tree. *)
Lemma put_post_left k p b ql ql' k0 ps qr fl fl' fn fn' :
  (k < k0)%Z -> StronglySorted Z.lt (ql ++ (k0, ps) :: qr).*1 ->
  put_post k p b ql ql' fl fl' fn fn' ->
  put_post k p b (ql ++ (k0, ps) :: qr) (ql' ++ (k0, ps) :: qr) fl fl' fn fn'.
Proof.
  intros Hk Hs (Hb & -> & Hfl & Hfn). rewrite fmap_app, fmap_cons in Hs.
  apply StronglySorted_app_iff in Hs as (_ & Hs & _). csimpl in Hs.
  apply StronglySorted_cons_iff in Hs as [Hs _]. rewrite Forall_forall in Hs.
  assert (pq_has k (ql ++ (k0, ps) :: qr) = pq_has k ql) as Hhas.
  { rewrite pq_has_app. rewrite (pq_has_false k (_ :: _)); [apply orb_false_r|].
    intros x. csimpl. rewrite elem_of_cons. intros [->|Hx]; [lia|]. specialize (Hs x Hx). lia. }
  unfold put_post. rewrite Hhas. split_and!; [done| |done..].
  destruct b; [|done]. by rewrite pq_insert_app_lt.
Qed.

Lemma put_post_right k p b ql k0 ps qr qr' fl fl' fn fn' :
  (k0 < k)%Z -> StronglySorted Z.lt (ql ++ (k0, ps) :: qr).*1 ->
  put_post k p b qr qr' fl fl' fn fn' ->
  put_post k p b (ql ++ (k0, ps) :: qr) (ql ++ (k0, ps) :: qr') fl fl' fn fn'.
Proof.
  intros Hk Hs (Hb & -> & Hfl & Hfn). rewrite fmap_app, fmap_cons in Hs. csimpl in Hs.
  apply StronglySorted_app_iff in Hs as (_ & _ & Hs).
  assert (forall x, x ∈ (ql ++ [(k0, ps)]).*1 -> (x < k)%Z) as Hlt.
  { intros x. rewrite fmap_app, elem_of_app. csimpl. rewrite list_elem_of_singleton.
    intros [Hx| ->]; [|lia]. specialize (Hs x k0 Hx). set_solver by lia. }
  assert (pq_has k (ql ++ (k0, ps) :: qr) = pq_has k qr) as Hhas.
  { rewrite (cons_middle (k0, ps)), (assoc_L (++)), pq_has_app.
    rewrite (pq_has_false k (ql ++ _)); [done|]. intros x Hx. specialize (Hlt x Hx). lia. }
  unfold put_post. rewrite Hhas. split_and!; [done| |done..].
  destruct b; [|done]. rewrite pq_insert_app_ge.
  - simpl. destruct (Z.ltb_spec k k0); [lia|]. by destruct (Z.eqb_spec k k0); [lia|].
  - intros x Hx. apply Hlt. rewrite fmap_app. set_solver.
Qed.

(** The node [n] of [d'] has its left child replaced, the rest of its subtree
    is untouched. *)
Lemma lift_left d d' par n k0 L pr pl' cs l r l' fl fl' fn fn' b k p :
  list_at (links d) L cs -> cs <> [] -> tree_at (links d) (nodes d) (Some n) pr r ->
  nodes d' !! n = Some (mkMapNode k0 L null par pl' pr) ->
  tree_at (links d') (nodes d') (Some n) pl' l' ->
  NoDup (fl.*1 ++ tlinks (Node n k0 cs l r)) -> NoDup (fn ++ tnodes (Node n k0 cs l r)) ->
  sorted_tree (Node n k0 cs l r) -> (k < k0)%Z ->
  pools d' fl' fn' -> same_roots d d' ->
  framed (fl.*1 ++ tlinks l) (n :: fn ++ tnodes l) d d' ->
  fl'.*1 ++ tlinks l' ≡ₚ fl.*1 ++ tlinks l -> fn' ++ tnodes l' ≡ₚ fn ++ tnodes l ->
  put_post k p b (inorder l) (inorder l') fl fl' fn fn' ->
  put_spec d par n (Node n k0 cs l r) fl fn k p (Ok b d').
Proof.
  intros HL Hne Hr Hn Hl' Hndl Hndn Hs Hk Hp Hroots [Hfl Hfn] Hpl Hpn Hpost. csimpl in *.
  apply NoDup_app in Hndl as (_ & Hdj & Hndl). apply NoDup_app in Hndl as (_ & Hdj1 & Hndl).
  apply NoDup_app in Hndl as (_ & Hdj2 & _).
  apply NoDup_app in Hndn as (_ & Hdjn & Hndn). apply NoDup_app in Hndn as (_ & Hdjn1 & Hndn).
  apply NoDup_cons in Hndn as [Hnr _].
  exists b, d', (Node n k0 cs l' r), fl', fn'. split; [done|]. split_and!; try done.
  - csimpl. split_and!; [done..|]. exists L, pl', pr. split_and!; [done| |done|].
    + eapply list_at_frame; [|done]. intros i Hi. apply Hfl. set_solver.
    + eapply tree_at_frame; [| |done]; intros i Hi; [apply Hfl|apply Hfn]; set_solver.
  - split; intros i Hi; [apply Hfl|apply Hfn]; set_solver.
  - csimpl. perm_solve.
  - csimpl. perm_solve.
  - apply put_post_left; [done..|]. exact Hpost.
Qed.

Lemma lift_right d d' par n k0 L pl pr' cs l r r' fl fl' fn fn' b k p :
  list_at (links d) L cs -> cs <> [] -> tree_at (links d) (nodes d) (Some n) pl l ->
  nodes d' !! n = Some (mkMapNode k0 L null par pl pr') ->
  tree_at (links d') (nodes d') (Some n) pr' r' ->
  NoDup (fl.*1 ++ tlinks (Node n k0 cs l r)) -> NoDup (fn ++ tnodes (Node n k0 cs l r)) ->
  sorted_tree (Node n k0 cs l r) -> (k0 < k)%Z ->
  pools d' fl' fn' -> same_roots d d' ->
  framed (fl.*1 ++ tlinks r) (n :: fn ++ tnodes r) d d' ->
  fl'.*1 ++ tlinks r' ≡ₚ fl.*1 ++ tlinks r -> fn' ++ tnodes r' ≡ₚ fn ++ tnodes r ->
  put_post k p b (inorder r) (inorder r') fl fl' fn fn' ->
  put_spec d par n (Node n k0 cs l r) fl fn k p (Ok b d').
Proof.
  intros HL Hne Hl Hn Hr' Hndl Hndn Hs Hk Hp Hroots [Hfl Hfn] Hpl Hpn Hpost. csimpl in *.
  apply NoDup_app in Hndl as (_ & Hdj & Hndl). apply NoDup_app in Hndl as (_ & Hdj1 & Hndl).
  apply NoDup_app in Hndl as (_ & Hdj2 & _).
  apply NoDup_app in Hndn as (_ & Hdjn & Hndn). apply NoDup_app in Hndn as (_ & Hdjn1 & Hndn).
  apply NoDup_cons in Hndn as [Hnr _].
  exists b, d', (Node n k0 cs l r'), fl', fn'. split; [done|]. split_and!; try done.
  - csimpl. split_and!; [done..|]. exists L, pl, pr'. split_and!; [done| | |done].
    + eapply list_at_frame; [|done]. intros i Hi. apply Hfl. set_solver.
    + eapply tree_at_frame; [| |done]; intros i Hi; [apply Hfl|apply Hfn]; set_solver.
  - split; intros i Hi; [apply Hfl|apply Hfn]; set_solver.
  - csimpl. perm_solve.
  - csimpl. perm_solve.
  - apply put_post_right; [done..|]. exact Hpost.
Qed.

(** A put into an empty subtree: the child that [allocNode] returns. *)
Lemma put_post_Leaf_fail k p fl fn :
  fl = [] \/ fn = [] -> put_post k p false [] [] fl fl fn fn.
Proof.
  intros H. unfold put_post. simpl. split_and!; [|done|lia|lia].
  destruct H as [-> | ->]; [done|]. simpl. by rewrite andb_false_r.
Qed.

(** The node of [put] once its new child pointer [x] is in place. *)
Lemma new_child d p k fl fn n nd (upd : ptr -> MapNode -> MapNode) (sel : MapNode -> ptr) :
  pools d fl fn -> NoDup fl.*1 -> NoDup fn -> n ∉ fn -> nodes d !! n = Some nd ->
  (forall x m, sel (upd x m) = x) ->
  exists b d' x' t' fl' fn',
    (let! x := allocNode_proc p k in
     upd_node (Some n) (upd x) ;;;
     let! n' := deref_node (Some n) in
     if bool_decide (sel n' = null) then ret false
     else upd_node (sel n') (set_parent (Some n)) ;;; ret true) d = Ok b d' /\
    nodes d' !! n = Some (upd x' nd) /\
    tree_at (links d') (nodes d') (Some n) x' t' /\ pools d' fl' fn' /\ same_roots d d' /\
    framed fl.*1 (n :: fn) d d' /\ fl'.*1 ++ tlinks t' ≡ₚ fl.*1 /\ fn' ++ tnodes t' ≡ₚ fn /\
    put_post k p b [] (inorder t') fl fl' fn fn'.
Proof.
  intros Hp Hndl Hndn Hnfn Hn Hsel.
  destruct (allocNode_proc_Ok d p k fl fn Hp Hndl Hndn)
    as (rr & d1 & fl' & fn' & Heq & [Hp1 Hp2] & Hroots & [Hfrl Hfrn] & Hcase).
  call Heq. clear Heq.
  assert (nodes d1 !! n = Some nd) as Hn1 by (rewrite Hfrn; set_solver).
  call upd_node_Ok. call deref_node_Ok by (by rewrite lookup_insert_eq). rewrite Hsel.
  assert ((fl = [] \/ fn = []) \/ exists y v fl0 x fn0, fl = (y, v) :: fl0 /\ fn = x :: fn0) as Hsplit.
  { destruct fl as [|[y v] ?]; [by do 2 left|]. destruct fn; [by left; right|]. right. eauto 10. }
  destruct Hsplit as [Hnone | (y & v & fl0 & x & fn0 & -> & ->)].
  - assert (rr = null /\ fl' = fl /\ fn' = fn) as (-> & -> & ->).
    { destruct Hnone as [-> | ->]; [done|]. by destruct fl as [|[] ?]. }
    eexists false, _, null, Leaf, fl, fn. split; [done|]. split_and!; try done; csimpl.
    + by rewrite lookup_insert_eq.
    + split; [done|]. csimpl. eapply nchain_frame; [|exact Hp2].
      intros i Hi. apply lookup_insert_ne. set_solver.
    + split; csimpl; intros i Hi; [apply Hfrl; set_solver|].
      rewrite lookup_insert_ne; [apply Hfrn|]; set_solver.
    + by rewrite app_nil_r.
    + by rewrite app_nil_r.
    + by apply put_post_Leaf_fail.
  - destruct Hcase as (-> & -> & -> & Hx & Hy). simpl.
    assert (n <> x) as Hnx by set_solver.
    apply NoDup_cons in Hndn as [Hxn Hndn].
    call upd_node_Ok by (by rewrite lookup_insert_ne).
    eexists true, _, (Some x), (Node x k [(y, p)] Leaf Leaf), fl0, fn0.
    split; [done|]. split_and!; try done; csimpl.
    + by rewrite lookup_insert_ne, lookup_insert_eq.
    + split_and!; [done..|]. eexists _, null, null. rewrite lookup_insert_eq. split_and!; [done| |done..].
      split; [|done]. simpl. split; [done|]. exists null. by rewrite Hy.
    + split; [done|]. csimpl. eapply nchain_frame; [|exact Hp2].
      intros i Hi. rewrite !lookup_insert_ne; set_solver.
    + split; csimpl; intros i Hi; [apply Hfrl; set_solver|].
      rewrite !lookup_insert_ne; [apply Hfrn| |]; set_solver.
    + perm_solve.
    + perm_solve.
    + unfold put_post. simpl. split_and!; try done; lia.
Qed.

Lemma put_loop_Ok p k t : forall fuel d par n fl fn,
  tree_at (links d) (nodes d) par (Some n) t -> pools d fl fn ->
  NoDup (fl.*1 ++ tlinks t) -> NoDup (fn ++ tnodes t) ->
  sorted_tree t -> length (tnodes t) < fuel ->
  put_spec d par n t fl fn k p (MapNode_put_loop fuel (Some n) p k d).
Proof.
  induction t as [|n0 k0 cs l IHl r IHr]; intros [|fuel] d par n fl fn Ht Hp Hndl Hndn Hs Hf;
    try (simpl in Hf; lia); [done|].
  assert (n0 = n) as -> by (destruct Ht; congruence).
  pose proof Ht as (_ & Hne & L & pl & pr & Hn & HL & Hl & Hr). simpl. call deref_node_Ok. simpl.
  destruct (Z.eqb_spec k k0) as [->|Hk]; [by apply put_here|].
  pose proof Hndl as Hndl'. pose proof Hndn as Hndn'. csimpl in Hndl'. csimpl in Hndn'.
  apply NoDup_app in Hndl' as (Hnd0 & Hdj & Hndl'). apply NoDup_app in Hndl' as (Hnd2 & Hdj1 & Hndl').
  apply NoDup_app in Hndl' as (_ & Hdj2 & Hnd3).
  apply NoDup_app in Hndn' as (Hnd1 & Hdjn & Hndn'). apply NoDup_app in Hndn' as (Hnd4 & Hdjn1 & Hndn').
  apply NoDup_cons in Hndn' as [Hnr Hnd5].
  simpl in Hf. rewrite length_app in Hf. simpl in Hf.
  pose proof Hs as Hs'. unfold sorted_tree in Hs'. csimpl in Hs'. rewrite fmap_app, fmap_cons in Hs'.
  apply StronglySorted_app_iff in Hs' as (Hsl & Hsr & _). apply StronglySorted_cons_iff in Hsr as [_ Hsr].
  destruct (Z.ltb_spec k k0) as [Hlt|Hge]; case_bool_decide as Hnull.
  - subst pl. apply tree_at_null in Hl as ->.
    assert (n ∉ fn) as Hnfn by set_solver.
    destruct (new_child d p k fl fn n _ set_left left Hp Hnd0 Hnd1 Hnfn Hn (fun _ _ => eq_refl)) as
      (b & d' & x' & t' & fl' & fn' & -> & Hn' & Ht' & Hp' & Hroots & Hfr & Hpl & Hpn & Hpost).
    eapply lift_left; try done; csimpl; by rewrite ?app_nil_r.
  - destruct pl as [pl|]; [|done].
    destruct (IHl fuel d (Some n) pl fl fn) as
      (b & d' & t' & fl' & fn' & -> & Ht' & Hp' & Hroots & [Hf1 Hf2] & Hpl & Hpn & Hpost);
      [done|done| | |done|lia|].
    { apply NoDup_app. split_and!; [done|set_solver|done]. }
    { apply NoDup_app. split_and!; [done|set_solver|done]. }
    eapply (lift_left _ _ _ _ _ L pr (Some pl)); try done.
    + rewrite Hf2; [exact Hn|set_solver].
    + split; [done|]. intros i Hi. apply Hf2. set_solver.
  - subst pr. apply tree_at_null in Hr as ->.
    assert (n ∉ fn) as Hnfn by set_solver.
    destruct (new_child d p k fl fn n _ set_right right Hp Hnd0 Hnd1 Hnfn Hn (fun _ _ => eq_refl)) as
      (b & d' & x' & t' & fl' & fn' & -> & Hn' & Ht' & Hp' & Hroots & Hfr & Hpl & Hpn & Hpost).
    eapply lift_right; try done; csimpl; rewrite ?app_nil_r; try done. lia.
  - destruct pr as [pr|]; [|done].
    destruct (IHr fuel d (Some n) pr fl fn) as
      (b & d' & t' & fl' & fn' & -> & Ht' & Hp' & Hroots & [Hf1 Hf2] & Hpl & Hpn & Hpost);
      [done|done| | |done|lia|].
    { apply NoDup_app. split_and!; [done|set_solver|done]. }
    { apply NoDup_app. split_and!; [done|set_solver|done]. }
    eapply (lift_right _ _ _ _ _ L pl (Some pr)); try done.
    + rewrite Hf2; [exact Hn|set_solver].
    + lia.
    + split; [done|]. intros i Hi. apply Hf2. set_solver.
Qed.
