(* ===== verification/SchedExtract.v ===== *)
(** * Taking the minimum out of a map

    [Map::extractMin] under the representation predicates of [SchedRepr]:
    the leftmost node gives up the first process of its list and, when that
    empties it, is spliced out of the tree and returned to the node pool. *)

From stdpp Require Import base gmap list sets sorting.
From Stdlib Require Import ZArith Lia.
From S2P Require Import Prelude SchedSpec SchedDS SchedRepr SchedPut.

(** ** Taking the minimum out of a map *)

Definition pop_post (p : procp) (q q' : pqueue) (fl fl' : list cell) (fn fn' : list nat) : Prop :=
  pq_pop q = (p, q') /\ length fl' = S (length fl) /\
  length fn' = length fn + (length q - length q').

Lemma pq_pop_app q1 q2 p q1' :
  q1 <> [] -> Forall (fun e => e.2 <> []) q1 ->
  pq_pop q1 = (p, q1') -> pq_pop (q1 ++ q2) = (p, q1' ++ q2).
Proof.
  destruct q1 as [|[k [|x [|y l]]] q1]; simpl; [done| | |]; intros _ Hne Heq.
  - by inversion Hne.
  - by simplify_eq.
  - by simplify_eq.
Qed.

Lemma inorder_nonempty t h g par p :
  tree_at h g par p t -> Forall (fun e : Z * list procp => e.2 <> []) (inorder t).
Proof.
  revert par p. induction t as [|n k cs l IHl r IHr]; intros par p; simpl; [constructor|].
  intros (_ & Hne & L & pl & pr & _ & _ & Hl & Hr). apply Forall_app. split; [eauto|].
  constructor; [|eauto]. simpl. by destruct cs.
Qed.

Lemma pop_post_app p q1 q1' k ps q2 fl fl' fn fn' :
  q1 <> [] -> Forall (fun e => e.2 <> []) q1 ->
  pop_post p q1 q1' fl fl' fn fn' ->
  pop_post p (q1 ++ (k, ps) :: q2) (q1' ++ (k, ps) :: q2) fl fl' fn fn'.
Proof.
  intros Hne Hf (Hpop & Hfl & Hfn). split_and!; [|done|].
  - by apply pq_pop_app.
  - rewrite !length_app. simpl. lia.
Qed.

(** Changing the parent pointer of the root of a subtree. *)
Lemma tree_at_reparent h g g' par par' c t :
  tree_at h g par (Some c) t -> NoDup (tnodes t) ->
  (forall i, i ∈ tnodes t -> i <> c -> g' !! i = g !! i) ->
  (forall nd, g !! c = Some nd -> g' !! c = Some (set_parent par' nd)) ->
  tree_at h g' par' (Some c) t.
Proof.
  destruct t as [|n k cs l r]; csimpl; [done|].
  intros (Heq & Hne & L & pl & pr & Hn & HL & Hl & Hr) Hnd Hg Hc. simplify_eq.
  apply NoDup_app in Hnd as (_ & Hdj & Hnd). apply NoDup_cons in Hnd as [Hnr _].
  split_and!; [done..|]. exists L, pl, pr. split_and!; [by apply Hc in Hn|done| |].
  - eapply tree_at_frame; [done| |done]. intros i Hi. apply Hg; set_solver.
  - eapply tree_at_frame; [done| |done]. intros i Hi. apply Hg; set_solver.
Qed.

(** The part of [Map::extractMin] after the minimum node is known. *)
Definition extract_at (this : mref) (minNode : ptr) : M sched_ds procp :=
  let! p := MapNode_dequeue minNode in
  let! e' := MapNode_isEmpty minNode in
  (if (e' : bool) then
     let! r' := get_root this in
     (if bool_decide (minNode = r') then
        let! m := deref_node minNode in
        set_root this (right m) ;;;
        let! e'' := Map_isEmpty this in
        (if (e'' : bool) then ret tt
         else let! r'' := get_root this in upd_node r'' (set_parent null))
      else
        let! m := deref_node minNode in
        let par := parent m in
        upd_node par (set_left (right m)) ;;;
        let! m' := deref_node minNode in
        (if bool_decide (right m' = null) then ret tt
         else upd_node (right m') (set_parent par))) ;;;
     deallocNode minNode
   else ret tt) ;;;
  ret p.

Lemma Map_extractMin_unfold this d :
  Map_extractMin this d =
    (let! e := Map_isEmpty this in
     if (e : bool) then ret null else
     let! r := get_root this in
     let! minNode := MapNode_getMinNode r in
     extract_at this minNode) d.
Proof. done. Qed.

(** The list of the leftmost node [m] loses its first process. *)
Lemma node_dequeue d par m k x p cs L pl pr fl :
  nodes d !! m = Some (mkMapNode k L null par pl pr) -> list_at (links d) L ((x, p) :: cs) ->
  x ∉ cs.*1 -> chain (links d) (freeLinks d) fl -> x ∉ fl.*1 ->
  exists d' v nx,
    MapNode_dequeue (Some m) d = Ok p d' /\
    MapNode_isEmpty (Some m) d' = Ok (bool_decide (cs = [])) d' /\
    same_roots d d' /\ freeNodes d' = freeNodes d /\ framed [x] [m] d d' /\
    nodes d' !! m = Some (mkMapNode k (tail_list L nx) null par pl pr) /\
    list_at (links d') (tail_list L nx) cs /\
    chain (links d') (freeLinks d') ((x, v) :: fl).
Proof.
  intros Hm HL Hx Hfl Hxfl. pose proof HL as [[Hfst (nx & Hlk & Hcs)] _].
  unfold MapNode_dequeue. erewrite (dequeue_cons _ _ L); [|by eexists _, _|done|done].
  eexists _, p, nx. split; [done|].
  assert (list_at (<[x:=mkLink p (freeLinks d)]> (links d)) (tail_list L nx) cs) as HL'.
  { eapply list_at_frame; [|by eapply dequeue_list_at]. intros i Hi. apply lookup_insert_ne. set_solver. }
  split_and!; simpl.
  - unfold MapNode_isEmpty. erewrite isEmpty_Ok.
    + f_equal. apply bool_decide_ext. by eapply list_at_empty.
    + eexists m, _. split; [done|]. split; [|].
      * simpl. by rewrite lookup_alter_eq, Hm.
      * done.
  - done.
  - done.
  - split; simpl; intros i Hi; [apply lookup_insert_ne|apply lookup_alter_ne]; set_solver.
  - by rewrite lookup_alter_eq, Hm.
  - done.
  - split; [done|]. exists (freeLinks d). rewrite lookup_insert_eq. split; [done|].
    eapply chain_frame; [|exact Hfl]. intros i Hi. apply lookup_insert_ne. set_solver.
Qed.

Lemma get_root_Ok d this :
  get_root this d = Ok (match this with PQ => priorityQ d | TEMP => tempMap d end) d.
Proof. by destruct this. Qed.

Definition root_of (this : mref) (d : sched_ds) : ptr :=
  match this with PQ => priorityQ d | TEMP => tempMap d end.
Definition put_root (this : mref) (x : ptr) (d : sched_ds) : sched_ds :=
  match this with PQ => put_priorityQ x d | TEMP => put_tempMap x d end.

Lemma root_of_same this d d' : same_roots d d' -> root_of this d' = root_of this d.
Proof. intros (H1 & H2 & _). by destruct this. Qed.

Lemma reparent_Ok d par0 par pr r :
  tree_at (links d) (nodes d) par0 pr r -> NoDup (tnodes r) ->
  exists g',
    (if bool_decide (pr = null) then ret tt else upd_node pr (set_parent par)) d =
      Ok tt (put_nodes g' d) /\
    tree_at (links d) g' par pr r /\ (forall i, i ∉ tnodes r -> g' !! i = nodes d !! i).
Proof.
  intros Hr Hnd. destruct pr as [c|]; simpl.
  - pose proof Hr as (k & cs & l & r' & ->)%tree_at_Some.
    pose proof Hr as (_ & _ & L & pl & pr & Hc & _).
    erewrite upd_node_Ok by done. eexists. split; [done|]. split.
    + eapply tree_at_reparent; [exact Hr|done|..].
      * intros i Hi Hic. by apply lookup_insert_ne.
      * intros nd Hnd'. simplify_eq. by rewrite lookup_insert_eq.
    + intros i Hi. apply lookup_insert_ne. set_solver.
  - apply tree_at_null in Hr as ->. exists (nodes d). split; [|done]. by destruct d.
Qed.

(** Extraction from a subtree that hangs to the left of node [q]. *)
Definition sub_extract_spec (this : mref) (d : sched_ds) (q : nat) (ndq : MapNode) (t : tree)
    (fl : list cell) (fn : list nat) (o : outcome sched_ds procp) : Prop :=
  exists p d' pl' t' fl' fn',
    o = Ok p d' /\ nodes d' !! q = Some (set_left pl' ndq) /\
    tree_at (links d') (nodes d') (Some q) pl' t' /\ pools d' fl' fn' /\ same_roots d d' /\
    framed (fl.*1 ++ tlinks t) (q :: fn ++ tnodes t) d d' /\
    fl'.*1 ++ tlinks t' ≡ₚ fl.*1 ++ tlinks t /\ fn' ++ tnodes t' ≡ₚ fn ++ tnodes t /\
    pop_post p (inorder t) (inorder t') fl fl' fn fn'.

Lemma extract_leftmost this d q ndq m k cs r fl fn :
  nodes d !! q = Some ndq -> left ndq = Some m ->
  tree_at (links d) (nodes d) (Some q) (Some m) (Node m k cs Leaf r) -> pools d fl fn ->
  NoDup (fl.*1 ++ tlinks (Node m k cs Leaf r)) ->
  NoDup (q :: fn ++ tnodes (Node m k cs Leaf r)) ->
  root_of this d <> Some m ->
  sub_extract_spec this d q ndq (Node m k cs Leaf r) fl fn (extract_at this (Some m) d).
Proof.
  intros Hq Hql (_ & Hne & L & pl & pr & Hm & HL & Hl & Hr) [Hfl Hfn] Hndl Hndn Hroot.
  destruct cs as [|[x p] cs]; [done|]. csimpl in *. subst pl.
  apply NoDup_app in Hndl as (Hnd0 & Hdj & Hndl). apply NoDup_cons in Hndl as [Hx Hndl].
  apply NoDup_app in Hndl as (Hndc & Hdj1 & Hndr).
  apply NoDup_cons in Hndn as [Hqn Hndn]. apply NoDup_app in Hndn as (Hndf & Hdjn & Hndn).
  apply NoDup_cons in Hndn as [Hmr Hndn].
  destruct (node_dequeue d (Some q) m k x p cs L null pr fl) as
    (d1 & v & nx & Hdq & Hemp & Hroots & Hfn1 & [Hf1 Hf2] & Hm1 & HL1 & Hfl1);
    [done|done|set_solver|done|set_solver|].
  unfold extract_at. call Hdq. call Hemp.
  assert (tree_at (links d1) (nodes d1) (Some m) pr r) as Hr1.
  { eapply tree_at_frame; [| |exact Hr]; intros i Hi; [apply Hf1|apply Hf2]; set_solver. }
  assert (nchain (nodes d1) (freeNodes d1) fn) as Hfn1'.
  { rewrite Hfn1. eapply nchain_frame; [|exact Hfn]. intros i Hi. apply Hf2. set_solver. }
  assert (nodes d1 !! q = Some ndq) as Hq1 by (rewrite Hf2; set_solver).
  case_bool_decide as Hcs; cycle 1.
  - (* the list is not empty yet *)
    steps. eexists p, d1, (Some m), (Node m k cs Leaf r), _, fn.
    split; [done|]. split_and!; try done.
    + rewrite Hq1. f_equal. destruct ndq. simpl in *. by subst.
    + csimpl. split_and!; [done..|]. by exists (tail_list L nx), null, pr.
    + split; intros i Hi; [apply Hf1|apply Hf2]; set_solver.
    + csimpl. perm_solve.
    + unfold pop_post. destruct cs as [|[y w] cs]; [done|]. simpl. split_and!; [done..|lia].
  - subst cs. rewrite ?bind_assoc.
    assert (nx = null) as ->.
    { destruct HL1 as [HL1 _]. exact HL1. }
    erewrite bind_Ok; [|apply get_root_Ok]. fold (root_of this d1).
    rewrite (root_of_same _ _ _ Hroots). rewrite bool_decide_eq_false_2 by congruence.
    call deref_node_Ok. simpl. call upd_node_Ok.
    assert (q <> m) by set_solver.
    call deref_node_Ok by (by rewrite lookup_insert_ne). simpl.
    destruct (reparent_Ok (put_nodes (<[q:=set_left pr ndq]> (nodes d1)) d1) (Some m) (Some q) pr r)
      as (g' & Heq & Hr2 & Hg'); [|done|].
    { eapply tree_at_frame; [done| |exact Hr1]. intros i Hi. apply lookup_insert_ne. set_solver. }
    call Heq. simpl in Hg'.
    assert (g' !! m = nodes d1 !! m) as Hgm.
    { rewrite Hg' by done. by apply lookup_insert_ne. }
    rewrite Hm1 in Hgm. call deallocNode_Ok. simpl in Hr2. simpl.
    eexists p, _, pr, r, ((x, v) :: fl), (m :: fn). split; [done|]. split_and!; try done; csimpl.
    + rewrite lookup_insert_ne, Hg', lookup_insert_eq by set_solver. done.
    + eapply tree_at_frame; [done| |exact Hr2]. intros i Hi. apply lookup_insert_ne. set_solver.
    + split; [done|]. csimpl. split; [done|]. rewrite lookup_insert_eq. eexists _, _. split; [done|].
      eapply nchain_frame; [|exact Hfn1']. intros i Hi.
      by rewrite lookup_insert_ne, Hg', lookup_insert_ne by set_solver.
    + split; csimpl; intros i Hi; [apply Hf1; set_solver|].
      by rewrite lookup_insert_ne, Hg', lookup_insert_ne, Hf2 by set_solver.
    + perm_solve.
    + perm_solve.
    + unfold pop_post. simpl. split_and!; [done..|]. lia.
Qed.

Lemma getMinNode_loop_S fuel n d nd :
  nodes d !! n = Some nd ->
  MapNode_getMinNode_loop (S fuel) (Some n) d =
    if bool_decide (left nd = null) then Ok (Some n) d
    else MapNode_getMinNode_loop fuel (left nd) d.
Proof. intros H. simpl. call deref_node_Ok. by case_bool_decide. Qed.

Lemma sub_extract this t : forall fuel d q ndq n fl fn,
  nodes d !! q = Some ndq -> left ndq = Some n ->
  tree_at (links d) (nodes d) (Some q) (Some n) t -> pools d fl fn ->
  NoDup (fl.*1 ++ tlinks t) -> NoDup (q :: fn ++ tnodes t) ->
  (forall i, root_of this d = Some i -> i ∉ tnodes t) -> length (tnodes t) < fuel ->
  exists m, MapNode_getMinNode_loop fuel (Some n) d = Ok (Some m) d /\
    sub_extract_spec this d q ndq t fl fn (extract_at this (Some m) d).
Proof.
  induction t as [|n0 k cs l IHl r _]; intros [|fuel] d q ndq n fl fn Hq Hql Ht Hp Hndl Hndn Hroot Hf;
    try (simpl in Hf; lia); [done|].
  assert (n0 = n) as -> by (destruct Ht; congruence).
  pose proof Ht as (_ & Hne & L & pl & pr & Hn & HL & Hl & Hr).
  erewrite getMinNode_loop_S by done. simpl. case_bool_decide as Hpl.
  - subst pl. apply tree_at_null in Hl as ->. exists n. split; [done|].
    apply extract_leftmost; try done. intros Heq. eapply Hroot; [done|]. set_solver.
  - destruct pl as [pl|]; [|done]. csimpl in *. rewrite length_app in Hf. simpl in Hf.
    apply NoDup_app in Hndl as (Hnd0 & Hdj & Hndl). apply NoDup_app in Hndl as (Hnd2 & Hdj1 & Hndl).
    apply NoDup_app in Hndl as (_ & Hdj2 & _).
    apply NoDup_cons in Hndn as [Hqn Hndn]. apply NoDup_app in Hndn as (Hnd1 & Hdjn & Hndn).
    apply NoDup_app in Hndn as (Hnd4 & Hdjn1 & Hndn). apply NoDup_cons in Hndn as [Hnr Hnd5].
    destruct (IHl fuel d n _ pl fl fn Hn) as
      (m & Hmin & p & d' & pl' & t' & fl' & fn' & Heq & Hn' & Ht' & Hp' & Hroots & [Hf1 Hf2] & Hpl' & Hpn & Hpost);
      [done|done|done| | | |lia|].
    { apply NoDup_app. split_and!; [done|set_solver|done]. }
    { constructor; [set_solver|]. apply NoDup_app. split_and!; [done|set_solver|done]. }
    { intros i Hi. specialize (Hroot i Hi). set_solver. }
    exists m. split; [done|]. rewrite Heq.
    exists p, d', (Some n), (Node n k cs t' r), fl', fn'. split; [done|]. split_and!; try done; csimpl.
    + rewrite Hf2 by set_solver. rewrite Hq. destruct ndq. simpl in *. by subst.
    + split_and!; [done..|]. exists L, pl', pr. split_and!; [done| |done|].
      * eapply list_at_frame; [|done]. intros i Hi. apply Hf1. set_solver.
      * eapply tree_at_frame; [| |done]; intros i Hi; [apply Hf1|apply Hf2]; set_solver.
    + split; intros i Hi; [apply Hf1|apply Hf2]; set_solver.
    + perm_solve.
    + perm_solve.
    + apply pop_post_app; [|by eapply inorder_nonempty|done].
      apply tree_at_Some in Hl as (? & ? & ? & ? & ->). simpl. by intros [_ ?]%app_nil.
Qed.

(** ** Extraction and insertion at the root *)

(** A map operation on [this] at the tree [T] of it and the pools. *)
Definition root_frame (this : mref) (d d' : sched_ds) : Prop :=
  match this with
  | PQ => tempMap d' = tempMap d
  | TEMP => priorityQ d' = priorityQ d
  end /\ roundRobinQ d' = roundRobinQ d /\ runningProcHolder d' = runningProcHolder d.

Lemma same_roots_frame this d d' : same_roots d d' -> root_frame this d d'.
Proof. intros (? & ? & ? & ?). by destruct this. Qed.

Definition extract_spec (this : mref) (d : sched_ds) (T : tree) (fl : list cell) (fn : list nat)
    (o : outcome sched_ds procp) : Prop :=
  exists p d' T' fl' fn',
    o = Ok p d' /\ tree_at (links d') (nodes d') null (root_of this d') T' /\ pools d' fl' fn' /\
    root_frame this d d' /\ framed (fl.*1 ++ tlinks T) (fn ++ tnodes T) d d' /\
    fl'.*1 ++ tlinks T' ≡ₚ fl.*1 ++ tlinks T /\ fn' ++ tnodes T' ≡ₚ fn ++ tnodes T /\
    pop_post p (inorder T) (inorder T') fl fl' fn fn'.

Lemma Map_isEmpty_Ok this d : Map_isEmpty this d = Ok (bool_decide (root_of this d = null)) d.
Proof. by destruct this. Qed.

Lemma set_root_Ok this x d : set_root this x d = Ok tt (put_root this x d).
Proof. by destruct this. Qed.

Lemma root_of_put this x d : root_of this (put_root this x d) = x.
Proof. by destruct this. Qed.
Lemma links_put_root this x d : links (put_root this x d) = links d.
Proof. by destruct this. Qed.
Lemma nodes_put_root this x d : nodes (put_root this x d) = nodes d.
Proof. by destruct this. Qed.
Lemma freeNodes_put_root this x d : freeNodes (put_root this x d) = freeNodes d.
Proof. by destruct this. Qed.
Lemma freeLinks_put_root this x d : freeLinks (put_root this x d) = freeLinks d.
Proof. by destruct this. Qed.
Lemma root_frame_put this x d : root_frame this d (put_root this x d).
Proof. by destruct this. Qed.
Lemma root_of_put_nodes this g d : root_of this (put_nodes g d) = root_of this d.
Proof. by destruct this. Qed.
Lemma root_of_put_freeNodes this x d : root_of this (put_freeNodes x d) = root_of this d.
Proof. by destruct this. Qed.

Lemma extract_root this d n k cs r fl fn :
  root_of this d = Some n ->
  tree_at (links d) (nodes d) null (Some n) (Node n k cs Leaf r) -> pools d fl fn ->
  NoDup (fl.*1 ++ tlinks (Node n k cs Leaf r)) ->
  NoDup (fn ++ tnodes (Node n k cs Leaf r)) ->
  extract_spec this d (Node n k cs Leaf r) fl fn (extract_at this (Some n) d).
Proof.
  intros Hroot (_ & Hne & L & pl & pr & Hm & HL & Hl & Hr) [Hfl Hfn] Hndl Hndn.
  destruct cs as [|[x p] cs]; [done|]. csimpl in *. subst pl.
  apply NoDup_app in Hndl as (Hnd0 & Hdj & Hndl). apply NoDup_cons in Hndl as [Hx Hndl].
  apply NoDup_app in Hndl as (Hndc & Hdj1 & Hndr).
  apply NoDup_app in Hndn as (Hndf & Hdjn & Hndn). apply NoDup_cons in Hndn as [Hmr Hndn].
  destruct (node_dequeue d null n k x p cs L null pr fl) as
    (d1 & v & nx & Hdq & Hemp & Hroots & Hfn1 & [Hf1 Hf2] & Hm1 & HL1 & Hfl1);
    [done|done|set_solver|done|set_solver|].
  unfold extract_at. call Hdq. call Hemp.
  assert (tree_at (links d1) (nodes d1) (Some n) pr r) as Hr1.
  { eapply tree_at_frame; [| |exact Hr]; intros i Hi; [apply Hf1|apply Hf2]; set_solver. }
  assert (nchain (nodes d1) (freeNodes d1) fn) as Hfn1'.
  { rewrite Hfn1. eapply nchain_frame; [|exact Hfn]. intros i Hi. apply Hf2. set_solver. }
  case_bool_decide as Hcs; cycle 1.
  - steps. eexists p, d1, (Node n k cs Leaf r), _, fn.
    split; [done|]. split_and!; try done.
    + rewrite (root_of_same _ _ _ Hroots), Hroot.
      csimpl. split_and!; [done..|]. by exists (tail_list L nx), null, pr.
    + by apply same_roots_frame.
    + split; intros i Hi; [apply Hf1|apply Hf2]; set_solver.
    + csimpl. perm_solve.
    + unfold pop_post. destruct cs as [|[y w] cs]; [done|]. simpl. split_and!; [done..|lia].
  - subst cs. rewrite ?bind_assoc.
    assert (nx = null) as -> by (destruct HL1 as [HL1 _]; exact HL1).
    erewrite bind_Ok; [|apply get_root_Ok]. fold (root_of this d1).
    rewrite (root_of_same _ _ _ Hroots), Hroot. rewrite bool_decide_eq_true_2 by done.
    call deref_node_Ok. simpl. call set_root_Ok. call Map_isEmpty_Ok. rewrite root_of_put.
    destruct (reparent_Ok (put_root this pr d1) (Some n) null pr r) as (g' & Heq & Hr2 & Hg');
      [by rewrite links_put_root, nodes_put_root|done|].
    rewrite nodes_put_root in Hg'. rewrite links_put_root in Hr2.
    assert ((if bool_decide (pr = null) then ret ()
             else let! r'' := get_root this in upd_node r'' (set_parent null)) (put_root this pr d1)
            = Ok tt (put_nodes g' (put_root this pr d1))) as Heq'.
    { rewrite <- Heq. case_bool_decide; [done|]. erewrite bind_Ok; [|apply get_root_Ok].
      by destruct this. }
    call Heq'.
    assert (g' !! n = nodes d1 !! n) as Hgm by (by rewrite Hg').
    rewrite Hm1 in Hgm. call deallocNode_Ok. simpl.
    eexists p, _, r, ((x, v) :: fl), (n :: fn). split; [done|]. split_and!; csimpl.
    + rewrite root_of_put_freeNodes, !root_of_put_nodes, root_of_put, links_put_root.
      eapply tree_at_frame; [done| |exact Hr2]. intros i Hi. apply lookup_insert_ne. set_solver.
    + split; csimpl; rewrite ?links_put_root, ?freeLinks_put_root, ?freeNodes_put_root; [done|].
      split; [done|]. rewrite lookup_insert_eq. eexists _, _. split; [done|].
      eapply nchain_frame; [|exact Hfn1']. intros i Hi.
      by rewrite lookup_insert_ne, Hg' by set_solver.
    + destruct Hroots as (? & ? & ? & ?). by destruct this.
    + split; csimpl; intros i Hi; rewrite ?links_put_root; [apply Hf1; set_solver|].
      by rewrite lookup_insert_ne, Hg', Hf2 by set_solver.
    + perm_solve.
    + perm_solve.
    + unfold pop_post. simpl. split_and!; [done..|]. lia.
Qed.
