(* ===== verification/SchedRefine.v ===== *)
(** * ass1ds.cpp implements its abstract specification

    The specification of every [MapNode] and [Map] method and of the
    functions behind [pq], [rrq] and [rpholder] under the representation
    predicates of [SchedRepr]: each implements the operation of [SchedSpec]
    on the abstract queues. *)

From stdpp Require Import base gmap list sets sorting.
From Stdlib Require Import ZArith Lia.
From S2P Require Import Prelude SchedSpec SchedDS SchedRepr SchedPut SchedExtract.

(** ** Maps *)

Lemma Map_extractMin_null this d : root_of this d = null -> Map_extractMin this d = Ok null d.
Proof. intros H. rewrite Map_extractMin_unfold. call Map_isEmpty_Ok. by rewrite H. Qed.

Lemma Map_extractMin_Ok this d T fl fn :
  tree_at (links d) (nodes d) null (root_of this d) T -> T <> Leaf -> pools d fl fn ->
  NoDup (fl.*1 ++ tlinks T) -> NoDup (fn ++ tnodes T) -> length (tnodes T) <= NPROCMAP ->
  extract_spec this d T fl fn (Map_extractMin this d).
Proof.
  intros HT Hne Hp Hndl Hndn Hlen. destruct T as [|n k cs l r]; [done|].
  pose proof HT as (Hroot & Hcs & L & pl & pr & Hn & HL & Hl & Hr).
  rewrite Map_extractMin_unfold. call Map_isEmpty_Ok. rewrite Hroot. simpl.
  erewrite bind_Ok; [|apply get_root_Ok]. fold (root_of this d). rewrite Hroot.
  unfold MapNode_getMinNode.
  destruct (decide (pl = null)) as [->|Hpl].
  - apply tree_at_null in Hl as ->. erewrite bind_Ok; [|rewrite node_fuel_eq; erewrite getMinNode_loop_S by done; reflexivity].
    apply extract_root; try done. by rewrite <- Hroot.
  - destruct pl as [pl|]; [|done]. csimpl in *. rewrite length_app in Hlen. simpl in Hlen.
    apply NoDup_app in Hndl as (Hnd0 & Hdj & Hndl). apply NoDup_app in Hndl as (Hnd2 & Hdj1 & Hndl).
    apply NoDup_app in Hndl as (_ & Hdj2 & _).
    apply NoDup_app in Hndn as (Hnd1 & Hdjn & Hndn).
    apply NoDup_app in Hndn as (Hnd4 & Hdjn1 & Hndn). apply NoDup_cons in Hndn as [Hnr Hnd5].
    destruct (sub_extract this l NPROCMAP d n _ pl fl fn Hn) as
      (m & Hmin & p & d' & pl' & t' & fl' & fn' & Heq & Hn' & Ht' & Hp' & Hroots & [Hf1 Hf2] & Hpl' & Hpn & Hpost);
      [done|done|done| | | |lia|].
    { apply NoDup_app. split_and!; [done|set_solver|done]. }
    { constructor; [set_solver|]. apply NoDup_app. split_and!; [done|set_solver|done]. }
    { intros i Hi. rewrite Hroot in Hi. simplify_eq. set_solver. }
    erewrite bind_Ok; [|rewrite node_fuel_eq; erewrite getMinNode_loop_S by done; exact Hmin]. rewrite Heq.
    exists p, d', (Node n k cs t' r), fl', fn'. split; [done|]. split_and!; try done; csimpl.
    + rewrite (root_of_same _ _ _ Hroots), Hroot.
      split_and!; [done..|]. exists L, pl', pr. split_and!; [done| |done|].
      * eapply list_at_frame; [|done]. intros i Hi. apply Hf1. set_solver.
      * eapply tree_at_frame; [| |done]; intros i Hi; [apply Hf1|apply Hf2]; set_solver.
    + by apply same_roots_frame.
    + split; intros i Hi; [apply Hf1|apply Hf2]; set_solver.
    + perm_solve.
    + perm_solve.
    + apply pop_post_app; [|by eapply inorder_nonempty|done].
      apply tree_at_Some in Hl as (? & ? & ? & ? & ->). simpl. by intros [_ ?]%app_nil.
Qed.

Definition map_put_spec (this : mref) (d : sched_ds) (T : tree) (fl : list cell) (fn : list nat)
    (k : Z) (p : procp) (o : outcome sched_ds bool) : Prop :=
  exists b d' T' fl' fn',
    o = Ok b d' /\ tree_at (links d') (nodes d') null (root_of this d') T' /\ pools d' fl' fn' /\
    root_frame this d d' /\ framed (fl.*1 ++ tlinks T) (fn ++ tnodes T) d d' /\
    fl'.*1 ++ tlinks T' ≡ₚ fl.*1 ++ tlinks T /\ fn' ++ tnodes T' ≡ₚ fn ++ tnodes T /\
    put_post k p b (inorder T) (inorder T') fl fl' fn fn'.

Lemma Map_put_Ok acc this d i T fl fn :
  tree_at (links d) (nodes d) null (root_of this d) T -> pools d fl fn ->
  NoDup (fl.*1 ++ tlinks T) -> NoDup (fn ++ tnodes T) -> sorted_tree T ->
  length (tnodes T) <= NPROCMAP ->
  map_put_spec this d T fl fn (acc i) (Some i) (Map_put acc this (Some i) d).
Proof.
  intros HT Hp Hndl Hndn Hs Hlen. unfold Map_put, getAccumulator. steps.
  call Map_isEmpty_Ok. case_bool_decide as Hroot.
  - rewrite Hroot in HT. apply tree_at_null in HT as ->. csimpl in *. rewrite app_nil_r in *.
    destruct (allocNode_proc_Ok d (Some i) (acc i) fl fn Hp Hndl Hndn)
      as (rr & d1 & fl' & fn' & Heq & Hp1 & Hroots & [Hfrl Hfrn] & Hcase).
    call Heq. clear Heq. call set_root_Ok. call Map_isEmpty_Ok. rewrite root_of_put.
    assert (pools (put_root this rr d1) fl' fn') as Hp2 by (by destruct this).
    assert (root_frame this d (put_root this rr d1)) as Hrf.
    { destruct Hroots as (? & ? & ? & ?). by destruct this. }
    assert (framed (fl.*1 ++ []) (fn ++ []) d (put_root this rr d1)) as Hfr.
    { rewrite !app_nil_r. by destruct this. }
    destruct fl as [|[y v] fl0]; [|destruct fn as [|x fn0]].
    + destruct Hcase as (-> & -> & ->).
      exists false, (put_root this null d1), Leaf, [], fn. split; [done|]. split_and!; try done.
      all: first [by csimpl; rewrite root_of_put | apply put_post_Leaf_fail; auto].
    + destruct Hcase as (-> & -> & ->).
      exists false, (put_root this null d1), Leaf, ((y, v) :: fl0), []. split; [done|]. split_and!; try done.
      all: first [by csimpl; rewrite root_of_put | apply put_post_Leaf_fail; auto].
    + destruct Hcase as (-> & -> & -> & Hx & Hy).
      exists true, (put_root this (Some x) d1), (Node x (acc i) [(y, Some i)] Leaf Leaf), fl0, fn0.
      split; [done|]. split_and!; try done; csimpl.
      * rewrite root_of_put, links_put_root, nodes_put_root. split_and!; [done..|].
        eexists _, null, null. split_and!; [done| |done..]. split; [|done]. simpl.
        split; [done|]. by exists null.
      * perm_solve.
      * perm_solve.
      * unfold put_post. simpl. split_and!; try done; lia.
  - destruct (root_of this d) as [n|] eqn:Hr; [|done].
    erewrite bind_Ok; [|apply get_root_Ok]. fold (root_of this d). rewrite Hr.
    unfold MapNode_put. simpl. steps.
    destruct (put_loop_Ok (Some i) (acc i) T node_fuel d null n fl fn) as
      (b & d' & t' & fl' & fn' & -> & Ht' & Hp' & Hroots & Hfr & Hpl & Hpn & Hpost);
      [done..|rewrite node_fuel_eq; lia|].
    exists b, d', t', fl', fn'. split; [done|]. split_and!; try done.
    + by rewrite (root_of_same _ _ _ Hroots), Hr.
    + by apply same_roots_frame.
Qed.

(** ** The whole state *)

Lemma layout_map this d d' fl fn T Tt rr rp fl' fn' T' :
  layout d fl fn T Tt rr rp ->
  let S := match this with PQ => T | TEMP => Tt end in
  tree_at (links d') (nodes d') null (root_of this d') T' -> pools d' fl' fn' ->
  root_frame this d d' -> framed (fl.*1 ++ tlinks S) (fn ++ tnodes S) d d' ->
  fl'.*1 ++ tlinks T' ≡ₚ fl.*1 ++ tlinks S -> fn' ++ tnodes T' ≡ₚ fn ++ tnodes S ->
  sorted_tree T' ->
  layout d' fl' fn' (match this with PQ => T' | TEMP => T end)
    (match this with PQ => Tt | TEMP => T' end) rr rp.
Proof.
  intros HL S HT' [Hfl' Hfn'] (Hr1 & Hr2 & Hr3) [Hf1 Hf2] Hpl Hpn Hs.
  destruct HL as [Hfl Hfn HT HTt Hrr Hrp Hndl Hndn Hcl Hcn Hs1 Hs2].
  assert (forall x, x ∈ fl.*1 ++ tlinks S -> x ∉ rr.*1 ++ rp.*1 ++ match this with PQ => tlinks Tt | TEMP => tlinks T end) as Hdl.
  { intros x Hx. clear -Hndl Hx. apply NoDup_app in Hndl as (_ & H1 & Hndl).
    apply NoDup_app in Hndl as (_ & H2 & Hndl). apply NoDup_app in Hndl as (_ & H3 & Hndl).
    apply NoDup_app in Hndl as (_ & H4 & _). subst S. destruct this; set_solver. }
  assert (forall x, x ∈ fn ++ tnodes S -> x ∉ match this with PQ => tnodes Tt | TEMP => tnodes T end) as Hdn.
  { intros x Hx. clear -Hndn Hx. apply NoDup_app in Hndn as (_ & H1 & Hndn).
    apply NoDup_app in Hndn as (_ & H2 & Hndn). subst S. destruct this; set_solver. }
  assert (list_at (links d') (roundRobinQ d') rr).
  { rewrite Hr2. eapply list_at_frame; [|exact Hrr]. intros i Hi. apply Hf1. set_solver. }
  assert (list_at (links d') (runningProcHolder d') rp).
  { rewrite Hr3. eapply list_at_frame; [|exact Hrp]. intros i Hi. apply Hf1. set_solver. }
  destruct this; subst S; simpl in *.
  - split; try done.
    + rewrite Hr1. eapply tree_at_frame; [| |exact HTt]; intros i Hi; [apply Hf1|apply Hf2]; set_solver.
    + rewrite !(assoc_L (++)), Hpl. by rewrite <- !(assoc_L (++)).
    + rewrite !(assoc_L (++)), Hpn. by rewrite <- !(assoc_L (++)).
    + rewrite !(assoc_L (++)), Hpl. by rewrite <- !(assoc_L (++)).
    + rewrite !(assoc_L (++)), Hpn. by rewrite <- !(assoc_L (++)).
  - split; try done.
    + rewrite Hr1. eapply tree_at_frame; [| |exact HT]; intros i Hi; [apply Hf1|apply Hf2]; set_solver.
    + assert (fl'.*1 ++ tlinks T ++ tlinks T' ++ rr.*1 ++ rp.*1 ≡ₚ
              fl.*1 ++ tlinks T ++ tlinks Tt ++ rr.*1 ++ rp.*1) as -> by perm_solve. done.
    + assert (fn' ++ tnodes T ++ tnodes T' ≡ₚ fn ++ tnodes T ++ tnodes Tt) as -> by perm_solve. done.
    + assert (fl'.*1 ++ tlinks T ++ tlinks T' ++ rr.*1 ++ rp.*1 ≡ₚ
              fl.*1 ++ tlinks T ++ tlinks Tt ++ rr.*1 ++ rp.*1) as -> by perm_solve. done.
    + assert (fn' ++ tnodes T ++ tnodes T' ≡ₚ fn ++ tnodes T ++ tnodes Tt) as -> by perm_solve. done.
Qed.

(** The global list a receiver names, among the cells of a layout. *)
Definition list_frame (this : lref) (d d' : sched_ds) : Prop :=
  nodes d' = nodes d /\ freeNodes d' = freeNodes d /\ priorityQ d' = priorityQ d /\
  tempMap d' = tempMap d /\
  match this with
  | RRQ => runningProcHolder d' = runningProcHolder d
  | RPH => roundRobinQ d' = roundRobinQ d
  | NodeList _ => False
  end.

Definition pick {A} (this : lref) (rr rp : A) : A := match this with RRQ => rr | _ => rp end.
Definition pick_other {A} (this : lref) (x' rr rp : A) : A * A :=
  match this with RRQ => (x', rp) | _ => (rr, x') end.

Lemma layout_list this d d' fl fn T Tt rr rp fl' cs' :
  layout d fl fn T Tt rr rp -> list_frame this d d' ->
  list_at (links d') (pick this (roundRobinQ d') (runningProcHolder d')) cs' ->
  chain (links d') (freeLinks d') fl' ->
  (forall i, i ∉ fl.*1 ++ (pick this rr rp).*1 -> links d' !! i = links d !! i) ->
  fl'.*1 ++ cs'.*1 ≡ₚ fl.*1 ++ (pick this rr rp).*1 ->
  layout d' fl' fn T Tt (pick_other this cs' rr rp).1 (pick_other this cs' rr rp).2.
Proof.
  intros [Hfl Hfn HT HTt Hrr Hrp Hndl Hndn Hcl Hcn Hs1 Hs2] (Hn & Hf & Hr1 & Hr2 & Hr3) HL' Hfl' Hfr Hp.
  assert (forall x, x ∈ fl.*1 ++ (pick this rr rp).*1 ->
            x ∉ tlinks T ++ tlinks Tt ++ (pick this rp rr).*1) as Hdl.
  { intros x Hx. clear -Hndl Hx. apply NoDup_app in Hndl as (_ & H1 & Hndl).
    apply NoDup_app in Hndl as (_ & H2 & Hndl). apply NoDup_app in Hndl as (_ & H3 & Hndl).
    apply NoDup_app in Hndl as (_ & H4 & _). destruct this; simpl in *; set_solver. }
  assert (fl'.*1 ++ tlinks T ++ tlinks Tt ++ (pick_other this cs' rr rp).1.*1 ++ (pick_other this cs' rr rp).2.*1
     ≡ₚ fl.*1 ++ tlinks T ++ tlinks Tt ++ rr.*1 ++ rp.*1) as Hperm.
  { destruct this; simpl in *; perm_solve. }
  split; try done.
  - by rewrite Hn, Hf.
  - rewrite Hr1, Hn. eapply tree_at_frame; [|done|exact HT]. intros i Hi. apply Hfr. set_solver.
  - rewrite Hr2, Hn. eapply tree_at_frame; [|done|exact HTt]. intros i Hi. apply Hfr. set_solver.
  - destruct this; simpl in *; [done| |done]. rewrite Hr3. eapply list_at_frame; [|exact Hrr].
    intros i Hi. apply Hfr. set_solver.
  - destruct this; simpl in *; [|done|done]. rewrite Hr3. eapply list_at_frame; [|exact Hrp].
    intros i Hi. apply Hfr. set_solver.
  - by rewrite Hperm.
  - by rewrite Hperm.
Qed.

(** ** The refinement

    [absm d pq t rr rp nl nn]: the pointer structures [d] hold the priority
    queue [pq], the local map [t] of [extractProc], the lists [rr] and [rp],
    and [nl] free links and [nn] free nodes.  [abs d q]: they hold the
    abstract queues [q]. *)
Definition absm (d : sched_ds) (pq t : pqueue) (rr rp : list procp) (nl nn : nat) : Prop :=
  exists fl fn T Tt crr crp,
    layout d fl fn T Tt crr crp /\
    Forall is_Some (pq_procs pq ++ pq_procs t ++ rr ++ rp) /\
    pq = inorder T /\ t = inorder Tt /\ rr = crr.*2 /\ rp = crp.*2 /\
    nl = length fl /\ nn = length fn.

Definition abs (d : sched_ds) (q : queues) : Prop :=
  absm d (q_pq q) [] (q_rr q) (q_rp q) (q_links q) (q_nodes q).

Definition mpick {A} (this : mref) (x t : A) : A := match this with PQ => x | TEMP => t end.

Lemma layout_disjoint_map d fl fn T Tt rr rp this :
  layout d fl fn T Tt rr rp ->
  NoDup (fl.*1 ++ tlinks (mpick this T Tt)) /\ NoDup (fn ++ tnodes (mpick this T Tt)) /\
  length (tnodes (mpick this T Tt)) <= NPROCMAP.
Proof.
  intros [Hfl Hfn HT HTt Hrr Hrp Hndl Hndn Hcl Hcn Hs1 Hs2].
  apply NoDup_app in Hndl as (? & Hd1 & Hndl).
  apply NoDup_app in Hndl as (? & Hd2 & Hndl). apply NoDup_app in Hndl as (? & _ & Hndl).
  apply NoDup_app in Hndn as (? & Hd3 & Hndn). apply NoDup_app in Hndn as (? & _ & ?).
  rewrite !length_app in Hcn.
  split_and!; [apply NoDup_app; split_and!| apply NoDup_app; split_and!|];
    destruct this; simpl; first [done|set_solver|lia].
Qed.

Lemma layout_tree_at d fl fn T Tt rr rp this :
  layout d fl fn T Tt rr rp ->
  tree_at (links d) (nodes d) null (root_of this d) (mpick this T Tt) /\
  sorted_tree (mpick this T Tt) /\ pools d fl fn.
Proof. intros []. by destruct this. Qed.

Lemma layout_disjoint_list d fl fn T Tt rr rp this :
  layout d fl fn T Tt rr rp ->
  NoDup fl.*1 /\ NoDup (pick this rr rp).*1 /\ (forall x, x ∈ fl.*1 -> x ∉ (pick this rr rp).*1) /\
  length (pick this rr rp) < link_fuel.
Proof.
  intros [Hfl Hfn HT HTt Hrr Hrp Hndl Hndn Hcl Hcn Hs1 Hs2].
  apply NoDup_app in Hndl as (? & H1 & Hndl).
  apply NoDup_app in Hndl as (_ & _ & Hndl). apply NoDup_app in Hndl as (_ & _ & Hndl).
  apply NoDup_app in Hndl as (? & H4 & ?). rewrite !length_app, !length_fmap in Hcl.
  rewrite link_fuel_eq. split_and!; [done| | |]; destruct this; simpl; first [done|set_solver|lia].
Qed.

Lemma put_absm acc this i d pq t rr rp nl nn :
  absm d pq t rr rp nl nn ->
  let r := pq_put (acc i) (Some i) (mkQueues (mpick this pq t) rr rp nl nn) in
  exists d', Map_put acc this (Some i) d = Ok r.1 d' /\
    absm d' (mpick this (q_pq r.2) pq) (mpick this t (q_pq r.2)) rr rp (q_links r.2) (q_nodes r.2).
Proof.
  intros (fl & fn & T & Tt & crr & crp & HL & Hsome & -> & -> & -> & -> & -> & ->).
  destruct (layout_disjoint_map _ _ _ _ _ _ _ this HL) as (Hn1 & Hn2 & Hn3).
  destruct (layout_tree_at _ _ _ _ _ _ _ this HL) as (HT & Hst & Hpool).
  destruct (Map_put_Ok acc this d i (mpick this T Tt) fl fn) as
    (b & d' & T' & fl' & fn' & -> & HT' & Hp' & Hrf & Hfr & Hpl & Hpn & Hb & Hq & Hlf & Hln); [done..|].
  assert (mpick this (inorder T) (inorder Tt) = inorder (mpick this T Tt)) as Hmp by (by destruct this).
  unfold pq_put, put_fits. simpl. rewrite Hmp, <- Hb.
  assert (sorted_tree T') as Hs.
  { unfold sorted_tree. rewrite Hq. destruct b; [|done].
    apply (pq_insert_ok _ _ (inorder (mpick this T Tt))). split; [done|]. by eapply inorder_nonempty. }
  exists d'. split; [by destruct b|].
  assert (absm d' (mpick this (inorder T') (inorder T)) (mpick this (inorder Tt) (inorder T'))
    crr.*2 crp.*2 (length fl') (length fn')) as Habs.
  { exists fl', fn', (mpick this T' T), (mpick this Tt T'), crr, crp. split_and!; try by destruct this.
    - by apply (layout_map this d d' fl fn T Tt crr crp).
    - destruct b; rewrite Hq; [|by destruct this].
      destruct this; simpl; rewrite pq_insert_procs; simpl; [by constructor|].
      rewrite <- Permutation_middle. by constructor. }
  rewrite Hq, Hlf, Hln in Habs. destruct b; simpl in *.
  - destruct (pq_has _ _); simpl in Habs; rewrite ?Nat.sub_0_r in Habs; done.
  - rewrite !Nat.sub_0_r in Habs. done.
Qed.

Lemma extract_absm this d pq t rr rp nl nn :
  absm d pq t rr rp nl nn ->
  let r := pq_extract (mkQueues (mpick this pq t) rr rp nl nn) in
  exists d', Map_extractMin this d = Ok r.1 d' /\
    absm d' (mpick this (q_pq r.2) pq) (mpick this t (q_pq r.2)) rr rp (q_links r.2) (q_nodes r.2).
Proof.
  intros Habs. pose proof Habs as (fl & fn & T & Tt & crr & crp & HL & Hsome & -> & -> & -> & -> & -> & ->).
  destruct (layout_disjoint_map _ _ _ _ _ _ _ this HL) as (Hn1 & Hn2 & Hn3).
  destruct (layout_tree_at _ _ _ _ _ _ _ this HL) as (HT & Hst & Hpool).
  assert (mpick this (inorder T) (inorder Tt) = inorder (mpick this T Tt)) as Hmp by (by destruct this).
  unfold pq_extract. simpl. rewrite Hmp.
  assert (mpick this T Tt = Leaf \/ mpick this T Tt <> Leaf) as [HLeaf|HnLeaf]
    by (destruct (mpick this T Tt); [by left|by right]).
  { rewrite HLeaf in *. simpl in *. exists d. rewrite Map_extractMin_null by done. split; [done|].
    simpl. rewrite <- Hmp. by destruct this. }
  destruct (Map_extractMin_Ok this d (mpick this T Tt) fl fn) as
    (p & d' & T' & fl' & fn' & -> & HT' & Hp' & Hrf & Hfr & Hpl & Hpn & Hpop & Hlf & Hln); [done..|].
  assert (inorder (mpick this T Tt) <> []) as Hnil.
  { destruct (mpick this T Tt); [done|]. simpl. by intros [_ ?]%app_nil. }
  destruct (inorder (mpick this T Tt)) as [|e q0] eqn:Hino; [done|]. rewrite <- Hino in *. clear e q0 Hino.
  assert (pq_ok (inorder (mpick this T Tt))) as Hok by (split; [done|by eapply inorder_nonempty]).
  destruct (pq_pop_spec _ _ _ Hok Hnil Hpop) as [[Hs' _] Hprocs].
  rewrite Hpop. simpl. exists d'. split; [done|].
  exists fl', fn', (mpick this T' T), (mpick this Tt T'), crr, crp. split_and!; try by destruct this.
  - by apply (layout_map this d d' fl fn T Tt crr crp).
  - destruct this; simpl in *.
    + rewrite Hprocs in Hsome. by inversion Hsome.
    + rewrite Hprocs in Hsome. simpl in Hsome. rewrite <- Permutation_middle in Hsome. by inversion Hsome.
Qed.
