(* ===== verification/SchedImpl.v ===== *)
(** * The functions of schedulinginterface.h

    Every function behind [pq], [rrq] and [rpholder] refines its abstract
    operation, and the pointer implementation is an instance of [Queues]. *)

From stdpp Require Import base gmap list sets sorting.
From Stdlib Require Import ZArith Lia.
From S2P Require Import Prelude SchedSpec SchedDS SchedRepr SchedPut SchedExtract SchedRefine.

(** ** The two lists *)

Definition queue_of (this : lref) (d : sched_ds) : LinkedList :=
  pick this (roundRobinQ d) (runningProcHolder d).

Definition is_global (this : lref) : Prop := this = RRQ \/ this = RPH.

Lemma this_is_global this d : is_global this -> this_is d this (queue_of this d).
Proof. by intros [-> | ->]. Qed.

Lemma queue_of_upd this L d : is_global this -> queue_of this (upd_this this L d) = L.
Proof. by intros [-> | ->]. Qed.

Lemma list_frame_upd this L h x d :
  is_global this -> list_frame this d (upd_this this L (put_freeLinks x (put_links h d))).
Proof. by intros [-> | ->]. Qed.

Lemma layout_list_at d fl fn T Tt rr rp this :
  layout d fl fn T Tt rr rp -> list_at (links d) (queue_of this d) (pick this rr rp).
Proof. intros []. by destruct this. Qed.

(** Adding at the end of a global list. *)
Lemma enqueue_absm this i d pq t rr rp nl nn :
  is_global this -> absm d pq t rr rp nl nn ->
  exists d', LinkedList_enqueue this (Some i) d = Ok (0 <? nl)%nat d' /\
    (if (0 <? nl)%nat then
       absm d' pq t (pick_other this (pick this rr rp ++ [Some i]) rr rp).1
         (pick_other this (pick this rr rp ++ [Some i]) rr rp).2 (nl - 1) nn
     else d' = d).
Proof.
  intros Hg Habs. pose proof Habs as (fl & fn & T & Tt & crr & crp & HL & Hsome & -> & -> & -> & -> & -> & ->).
  destruct (layout_disjoint_list _ _ _ _ _ _ _ this HL) as (Hn1 & Hn2 & Hn3 & _).
  pose proof (layout_list_at _ _ _ _ _ _ _ this HL) as HLs.
  pose proof (lay_fl _ _ _ _ _ _ _ HL) as Hfl.
  destruct fl as [|[x v] fl0].
  { exists d. rewrite enqueue_nil by exact Hfl. done. }
  apply chain_cons_inv in Hfl as [Hf (nx & Hx & Hfl0)]. csimpl in Hn1.
  apply NoDup_cons in Hn1 as [Hx0 Hn1].
  erewrite (enqueue_cons d this (queue_of this d) (pick this crr crp) _ x v nx);
    [|by apply this_is_global|done|set_solver|done|done].
  eexists. split; [done|]. simpl.
  exists fl0, fn, T, Tt, (pick_other this (pick this crr crp ++ [(x, Some i)]) crr crp).1,
    (pick_other this (pick this crr crp ++ [(x, Some i)]) crr crp).2.
  split_and!; try done.
  - eapply layout_list; [exact HL|by apply list_frame_upd| | | |].
    + fold (queue_of this (upd_this this (append_list (queue_of this d) x)
        (put_freeLinks nx (put_links (enqueue_heap (links d) (pick this crr crp) x (Some i)) d)))).
      rewrite queue_of_upd, links_upd_this by done. simpl. apply enqueue_list_at; [done..|set_solver].
    + rewrite links_upd_this, freeLinks_upd_this. simpl. eapply chain_frame; [|exact Hfl0].
      intros j Hj. apply enqueue_heap_frame; set_solver.
    + intros j Hj. rewrite links_upd_this. simpl. apply enqueue_heap_frame; set_solver.
    + csimpl. perm_solve.
  - rewrite (assoc_L (++)) in Hsome |- *. apply Forall_app in Hsome as [H1 H2].
    apply Forall_app. split; [done|]. apply Forall_app in H2 as [H2 H3].
    destruct Hg as [-> | ->]; simpl; repeat (apply Forall_app; split); try done; by constructor.
  - destruct Hg as [-> | ->]; simpl; by rewrite ?fmap_app.
  - destruct Hg as [-> | ->]; simpl; by rewrite ?fmap_app.
  - simpl. lia.
Qed.

(** Taking the head of a global list. *)
Lemma dequeue_absm this d pq t rr rp nl nn :
  is_global this -> absm d pq t rr rp nl nn ->
  match pick this rr rp with
  | [] => LinkedList_dequeue this d = Ok null d
  | p :: l =>
      exists d', LinkedList_dequeue this d = Ok p d' /\
        absm d' pq t (pick_other this l rr rp).1 (pick_other this l rr rp).2 (S nl) nn
  end.
Proof.
  intros Hg (fl & fn & T & Tt & crr & crp & HL & Hsome & -> & -> & -> & -> & -> & ->).
  destruct (layout_disjoint_list _ _ _ _ _ _ _ this HL) as (Hn1 & Hn2 & Hn3 & _).
  pose proof (layout_list_at _ _ _ _ _ _ _ this HL) as HLs.
  assert (pick this crr.*2 crp.*2 = (pick this crr crp).*2) as -> by (by destruct this).
  destruct (pick this crr crp) as [|[x p] cs] eqn:Hpick; csimpl.
  { apply dequeue_nil. apply list_at_nil_inv in HLs. rewrite <- HLs. by apply this_is_global. }
  pose proof HLs as [[Hfst (nx & Hx & _)] _].
  csimpl in Hn2. apply NoDup_cons in Hn2 as [Hxc Hn2].
  erewrite (dequeue_cons d this (queue_of this d) x p nx); [|by apply this_is_global|done|done].
  eexists. split; [done|].
  exists ((x, p) :: fl), fn, T, Tt, (pick_other this cs crr crp).1, (pick_other this cs crr crp).2.
  split_and!; try done.
  - eapply layout_list; [exact HL|by apply list_frame_upd| | | |]; rewrite ?Hpick.
    + fold (queue_of this (upd_this this (tail_list (queue_of this d) nx)
        (put_freeLinks (Some x) (put_links (<[x:=mkLink p (freeLinks d)]> (links d)) d)))).
      rewrite queue_of_upd, links_upd_this by done. simpl.
      eapply list_at_frame; [|by eapply dequeue_list_at]. intros j Hj. apply lookup_insert_ne. set_solver.
    + rewrite links_upd_this, freeLinks_upd_this. simpl. split; [done|]. exists (freeLinks d).
      rewrite lookup_insert_eq. split; [done|]. eapply chain_frame; [|apply (lay_fl _ _ _ _ _ _ _ HL)].
      intros j Hj. apply lookup_insert_ne. set_solver.
    + intros j Hj. rewrite links_upd_this. simpl. apply lookup_insert_ne. set_solver.
    + csimpl. perm_solve.
  - rewrite (assoc_L (++)) in Hsome |- *. apply Forall_app in Hsome as [H1 H2].
    apply Forall_app. split; [done|].
    destruct Hg as [-> | ->]; simpl in *; subst; simpl in *.
    + by inversion H2.
    + rewrite <- Permutation_middle in H2. by inversion H2.
  - by destruct Hg as [-> | ->].
  - by destruct Hg as [-> | ->].
Qed.

(** Removing the first occurrence from a global list. *)
Lemma list_split_first (p : procp) (cs : list cell) :
  p ∈ cs.*2 -> exists a x b, cs = a ++ (x, p) :: b /\ p ∉ a.*2.
Proof.
  induction cs as [|[x v] cs IH]; csimpl; [set_solver|]. intros Hp.
  destruct (decide (v = p)) as [->|Hne].
  - exists [], x, cs. split; [done|]. set_solver.
  - destruct IH as (a & y & b & -> & Ha); [set_solver|]. exists ((x, v) :: a), y, b. split; [done|].
    csimpl. set_solver.
Qed.

Lemma list_remove_first_app p l1 l2 :
  p ∉ l1 -> list_remove_first p (l1 ++ p :: l2) = l1 ++ l2.
Proof.
  induction l1 as [|x l1 IH]; simpl; intros Hp.
  - by rewrite decide_True.
  - rewrite decide_False by set_solver. f_equal. apply IH. set_solver.
Qed.

Lemma remove_absm p d pq t rr rp nl nn :
  absm d pq t rr rp nl nn ->
  exists d', LinkedList_remove RPH p d = Ok (bool_decide (p ∈ rp)) d' /\
    (if decide (p ∈ rp) then absm d' pq t rr (list_remove_first p rp) (S nl) nn else d' = d).
Proof.
  intros (fl & fn & T & Tt & crr & crp & HL & Hsome & -> & -> & -> & -> & -> & ->).
  destruct (layout_disjoint_list _ _ _ _ _ _ _ RPH HL) as (Hn1 & Hn2 & Hn3 & Hn4). cbn [pick] in *.
  pose proof (layout_list_at _ _ _ _ _ _ _ RPH HL) as HLs. simpl in HLs.
  destruct (decide (p ∈ crp.*2)) as [Hin|Hin].
  2:{ exists d. rewrite bool_decide_false by done. split; [|done]. by eapply remove_miss. }
  apply list_split_first in Hin as (a & x & b & -> & Ha).
  destruct (remove_hit d RPH (runningProcHolder d) a x p b) as
    (h' & L' & Heq & HL' & Hx & Hfr); [done..| |done|].
  { rewrite length_app in Hn4. lia. }
  rewrite Heq, bool_decide_true by (rewrite fmap_app; set_solver). eexists. split; [done|].
  exists ((x, p) :: fl), fn, T, Tt, crr, (a ++ b). 
  rewrite fmap_app in Hn2. rewrite fmap_app in Hn3. rewrite fmap_app in Hfr.
  rewrite (fmap_app snd a ((x, p) :: b)) in Hsome |- *. csimpl in *.
  apply NoDup_app in Hn2 as (Ha1 & Hab & Hb). apply NoDup_cons in Hb as [Hxb Hb].
  split_and!; try done.
  - apply (layout_list RPH d _ fl fn T Tt crr (a ++ (x, p) :: b) ((x, p) :: fl) (a ++ b)); [exact HL|done|done| | |].
    + simpl. split; [done|]. exists (freeLinks d). split; [done|].
      eapply chain_frame; [|apply (lay_fl _ _ _ _ _ _ _ HL)]. intros j Hj. apply Hfr. set_solver.
    + simpl. intros j Hj. apply Hfr. rewrite fmap_app in Hj. csimpl in Hj. set_solver.
    + cbn [pick]. rewrite !fmap_app. csimpl. perm_solve.
  - rewrite list_remove_first_app by done. revert Hsome. rewrite !Forall_app, Forall_cons. tauto.
  - rewrite list_remove_first_app by done. by rewrite fmap_app.
Qed.

(** ** Observers *)

Lemma list_isEmpty_absm this d pq t rr rp nl nn :
  is_global this -> absm d pq t rr rp nl nn ->
  LinkedList_isEmpty this d = Ok (bool_decide (pick this rr rp = [])) d.
Proof.
  intros Hg (fl & fn & T & Tt & crr & crp & HL & Hsome & -> & -> & -> & -> & -> & ->).
  rewrite (isEmpty_Ok _ _ _ (this_is_global this d Hg)). f_equal. apply bool_decide_ext.
  rewrite (list_at_empty _ _ _ (layout_list_at _ _ _ _ _ _ _ this HL)).
  destruct Hg as [-> | ->]; simpl; split; intros H; by first [by rewrite H | apply fmap_nil_inv in H].
Qed.

Lemma map_isEmpty_absm this d pq t rr rp nl nn :
  absm d pq t rr rp nl nn -> Map_isEmpty this d = Ok (bool_decide (mpick this pq t = [])) d.
Proof.
  intros (fl & fn & T & Tt & crr & crp & HL & Hsome & -> & -> & -> & -> & -> & ->).
  destruct (layout_tree_at _ _ _ _ _ _ _ this HL) as (HT & _ & _).
  rewrite Map_isEmpty_Ok. f_equal. apply bool_decide_ext.
  assert (mpick this (inorder T) (inorder Tt) = inorder (mpick this T Tt)) as -> by (by destruct this).
  destruct (mpick this T Tt); simpl in *; [done|]. destruct HT as [-> _].
  split; [done|]. by intros [_ ?]%app_nil.
Qed.

Lemma min_loop_Ok acc : forall cs fuel d x m,
  chain (links d) x cs -> Forall is_Some cs.*2 -> length cs < fuel ->
  LinkedList_getMinKey_loop acc fuel x m d =
    Ok (fold_left (fun m p => match p with Some j => Z.min m (acc j) | None => m end) cs.*2 m) d.
Proof.
  induction cs as [|[y v] cs IH]; intros [|fuel] d x m Hc Hs Hf; csimpl in *; try lia.
  - unfold chain in Hc. simpl in Hc. by subst.
  - destruct Hc as [-> (nx & Hy & Hc)]. inversion Hs as [|? ? [j ->] Hs']; subst. simpl.
    call deref_link_Ok. simpl. rewrite bind_ret, IH; [|done|done|lia]. do 2 f_equal.
    destruct (Z.ltb_spec (acc j) m); lia.
Qed.

Lemma rp_min_absm acc d pq t rr rp nl nn :
  absm d pq t rr rp nl nn -> LinkedList_getMinKey acc RPH d = Ok (min_acc acc rp) d.
Proof.
  intros Habs. pose proof Habs as (fl & fn & T & Tt & crr & crp & HL & Hsome & -> & -> & -> & -> & -> & ->).
  destruct (layout_disjoint_list _ _ _ _ _ _ _ RPH HL) as (_ & _ & _ & Hn4). simpl in *.
  destruct (layout_list_at _ _ _ _ _ _ _ RPH HL) as [Hc _]. simpl in Hc.
  assert (Forall is_Some crp.*2) as Hs by (revert Hsome; rewrite !Forall_app; tauto).
  unfold LinkedList_getMinKey. rewrite (bind_Ok _ _ _ _ _ (list_isEmpty_absm RPH _ _ _ _ _ _ _ (or_intror eq_refl) Habs)).
  simpl. destruct crp as [|[x v] cs]; [done|]. csimpl in *.
  pose proof Hs as Hs0. inversion Hs as [|? ? [j ->] Hs']; subst. simpl.
  pose proof Hc as [Hf (nx & Hx & Hc')]. rewrite bind_gets. simpl in Hf. rewrite Hf.
  call deref_link_Ok. simpl. rewrite bind_ret.
  erewrite bind_Ok; [|apply (min_loop_Ok acc ((x, Some j) :: cs)); [split; [done|]; by exists nx|done|simpl in *; lia]].
  unfold ret. simpl. by rewrite Z.min_id.
Qed.

Lemma getMinNode_Ok : forall t fuel h g par d n,
  h = links d -> g = nodes d ->
  tree_at h g par (Some n) t -> length (tnodes t) < fuel ->
  exists m nd, MapNode_getMinNode_loop fuel (Some n) d = Ok (Some m) d /\
    g !! m = Some nd /\ fst <$> head (inorder t) = Some (key nd).
Proof.
  induction t as [|n0 k cs l IHl r IHr]; intros [|fuel] h g par d n -> -> Ht Hf; [done|done|lia|].
  destruct Ht as (Hn & Hne & L & pl & pr & Hnd & HL & Hl & Hr). simplify_eq. simpl.
  call deref_node_Ok. simpl. destruct pl as [pl|]; simpl.
  - destruct (IHl fuel _ _ _ d pl eq_refl eq_refl Hl) as (m & nd & -> & Hm & Hk).
    { simpl in Hf. rewrite length_app in Hf. simpl in Hf. lia. }
    exists m, nd. split_and!; [done..|]. 
    destruct (inorder l); simpl in *; [done|]. congruence.
  - apply tree_at_null in Hl as ->. exists n0. eexists. split_and!; [done..|]. done.
Qed.

Lemma pq_min_absm this d pq t rr rp nl nn :
  absm d pq t rr rp nl nn -> Map_getMinKey this d = Ok (fst <$> head (mpick this pq t)) d.
Proof.
  intros Habs. pose proof Habs as (fl & fn & T & Tt & crr & crp & HL & Hsome & -> & -> & -> & -> & -> & ->).
  destruct (layout_disjoint_map _ _ _ _ _ _ _ this HL) as (Hn1 & Hn2 & Hn3).
  destruct (layout_tree_at _ _ _ _ _ _ _ this HL) as (HT & Hst & Hpool).
  unfold Map_getMinKey. rewrite (bind_Ok _ _ _ _ _ (map_isEmpty_absm this _ _ _ _ _ _ _ Habs)).
  assert (mpick this (inorder T) (inorder Tt) = inorder (mpick this T Tt)) as -> by (by destruct this).
  case_bool_decide as He; [by rewrite He|].
  erewrite bind_Ok; [|apply get_root_Ok]. fold (root_of this d).
  destruct (mpick this T Tt) as [|n k cs l r] eqn:HTT; [done|]. pose proof HT as [Hr _]. rewrite Hr in *.
  destruct (getMinNode_Ok _ node_fuel _ _ _ d n eq_refl eq_refl HT) as (m & nd & Hmin & Hm & Hk).
  { rewrite node_fuel_eq. lia. }
  unfold MapNode_getMinKey, MapNode_getMinNode. rewrite bind_assoc, (bind_Ok _ _ _ _ _ Hmin).
  call deref_node_Ok. rewrite bind_ret. by rewrite Hk.
Qed.

(** ** Accounting *)

Lemma pq_procs_app q1 q2 : pq_procs (q1 ++ q2) = pq_procs q1 ++ pq_procs q2.
Proof. unfold pq_procs. by rewrite fmap_app, concat_app. Qed.

Lemma tlinks_length T : length (tlinks T) = length (pq_procs (inorder T)).
Proof.
  induction T as [|n k cs l IHl r IHr]; [done|]. cbn [tlinks inorder]. rewrite pq_procs_app.
  unfold pq_procs at 2. csimpl. fold (pq_procs (inorder r)).
  rewrite !length_app, !length_fmap. lia.
Qed.

Lemma tnodes_length T : length (tnodes T) = length (inorder T).
Proof. induction T as [|n k cs l IHl r IHr]; [done|]. simpl. rewrite !length_app. simpl. lia. Qed.

Lemma absm_wf d pq t rr rp nl nn :
  absm d pq t rr rp nl nn ->
  pq_ok pq /\ pq_ok t /\ Forall is_Some (pq_procs pq ++ pq_procs t ++ rr ++ rp) /\
  nl + length (pq_procs pq) + length (pq_procs t) + length rr + length rp = NPROCLIST /\
  nn + length pq + length t = NPROCMAP.
Proof.
  intros (fl & fn & T & Tt & crr & crp & [] & Hsome & -> & -> & -> & -> & -> & ->).
  rewrite !length_app, ?length_fmap, !tlinks_length in lay_nlinks.
  rewrite !length_app, !tnodes_length in lay_nnodes.
  rewrite !length_fmap. split_and!; [| |done|lia|lia].
  - split; [done|]. by eapply inorder_nonempty.
  - split; [done|]. by eapply inorder_nonempty.
Qed.

(** ** Changes of policy *)

Lemma transfer_loop_absm : forall fuel d pq rr rp nl nn,
  absm d pq [] rr rp nl nn -> length (pq_procs pq) < fuel ->
  exists d', Map_transfer_loop fuel PQ d = Ok true d' /\
    absm d' [] [] (rr ++ pq_procs pq) rp nl (nn + length pq).
Proof.
  induction fuel as [|fuel IH]; intros d pq rr rp nl nn Habs Hf; [lia|]. cbn [Map_transfer_loop].
  rewrite (bind_Ok _ _ _ _ _ (map_isEmpty_absm PQ _ _ _ _ _ _ _ Habs)). cbn [mpick].
  case_bool_decide as Hpq.
  { subst. exists d. split; [done|]. csimpl. by rewrite app_nil_r, Nat.add_0_r. }
  destruct (absm_wf _ _ _ _ _ _ _ Habs) as (Hok & _ & Hsome & _ & _).
  destruct (extract_absm PQ _ _ _ _ _ _ _ Habs) as (d1 & Heq & Habs1).
  cbn [mpick] in *. rewrite pq_extract_cons in Heq, Habs1 by done.
  pose proof (pq_pop_length _ Hok Hpq) as Hlen.
  destruct (pq_pop pq) as [p pq'] eqn:Hpop. simpl in Heq, Habs1, Hlen.
  destruct (pq_pop_spec _ _ _ Hok Hpq Hpop) as [_ Hprocs]. rewrite Hprocs in *.
  rewrite (bind_Ok _ _ _ _ _ Heq).
  inversion Hsome as [|? ? [i ->] _]; subst.
  destruct (enqueue_absm RRQ i _ _ _ _ _ _ _ (or_introl eq_refl) Habs1) as (d2 & Heq2 & Habs2).
  rewrite (bind_Ok _ _ _ _ _ Heq2). simpl in Habs2, Hf. rewrite Nat.sub_0_r in Habs2.
  destruct (IH _ _ _ _ _ _ Habs2) as (d' & -> & Habs'); [lia|]. exists d'. split; [done|].
  rewrite <- (assoc_L (++)) in Habs'. simpl in Habs'.
  by replace (nn + (length pq - length pq') + length pq') with (nn + length pq) in Habs' by lia.
Qed.

Lemma to_rr_absm d q : abs d q ->
  exists d', Map_transfer PQ d = Ok (pq_to_rr q).1 d' /\ abs d' (pq_to_rr q).2.
Proof.
  intros Habs. unfold Map_transfer, pq_to_rr.
  rewrite (bind_Ok _ _ _ _ _ (list_isEmpty_absm RRQ _ _ _ _ _ _ _ (or_introl eq_refl) Habs)).
  destruct q as [pq rr rp nl nn]. unfold abs in *. simpl in *.
  destruct rr as [|p rr]; simpl; [|by exists d].
  destruct (absm_wf _ _ _ _ _ _ _ Habs) as (_ & _ & _ & Hn & _).
  apply (transfer_loop_absm link_fuel) in Habs as (d' & -> & Habs); [by exists d'|].
  rewrite link_fuel_eq. lia.
Qed.

Lemma NoDup_perm (l l' : list nat) : l ≡ₚ l' -> NoDup l' -> NoDup l.
Proof. by intros ->. Qed.

(** The list becomes the list of a single map node with key 0. *)
Lemma to_pq_absm d q : abs d q ->
  exists d', LinkedList_transfer RRQ d = Ok (rr_to_pq q).1 d' /\ abs d' (rr_to_pq q).2.
Proof.
  intros Habs. unfold LinkedList_transfer, rr_to_pq.
  rewrite (bind_Ok _ _ _ _ _ (map_isEmpty_absm PQ _ _ _ _ _ _ _ Habs)). simpl.
  destruct q as [pq rr rp nl nn]. unfold abs in *. simpl in *.
  destruct pq as [|e pq]; simpl; [|by exists d].
  rewrite (bind_Ok _ _ _ _ _ (list_isEmpty_absm RRQ _ _ _ _ _ _ _ (or_introl eq_refl) Habs)). simpl.
  destruct Habs as (fl & fn & T & Tt & crr & crp & HL & Hsome & HT & HTt & -> & -> & -> & ->).
  pose proof HL as [Hfl Hfn HTa HTta Hrr Hrp Hndl Hndn Hcl Hcn Hs1 Hs2].
  destruct T as [|n k cs l r]; [|simpl in HT; by apply eq_sym, app_nil in HT as [_ ?]].
  destruct (decide (crr = [])) as [->|Hne].
  { exists d. split; [done|]. by exists fl, fn, Leaf, Tt, [], crp. }
  destruct crr as [|[y v] crr]; [done|]. cbn [fmap list_fmap].
  destruct fn as [|x fn]; simpl in Hfn |- *.
  { call allocNode_nil. exists d. split; [done|]. by exists fl, [], Leaf, Tt, ((y, v) :: crr), crp. }
  destruct Hfn as [Hf (k & nx & Hx & Hfn)]. call allocNode_cons. simpl. rewrite bind_gets. simpl.
  erewrite bind_Ok; [|apply (set_first_Ok _ (NodeList (Some x)) LinkedList_new);
    eexists _, _; split_and!; [done|by simpl; rewrite lookup_insert_eq|done]].
  erewrite bind_Ok; [|eapply (set_last_Ok _ (NodeList (Some x)));
    eexists _, _; split_and!; [done|by simpl; rewrite alter_insert_eq, lookup_insert_eq|done]].
  rewrite !bind_modify. simpl. eexists. split; [done|].
  exists fl, fn, (Node x 0 ((y, v) :: crr) Leaf Leaf), Tt, [], crp. csimpl in *.
  apply NoDup_cons in Hndn as [Hxn Hndn]. unfold put_nodes. simpl. rewrite !alter_insert_eq. simpl.
  split_and!; try done.
  - split; csimpl; try done.
    + eapply nchain_frame; [|done]. intros i Hi. apply lookup_insert_ne. set_solver.
    + split_and!; [done..|]. eexists _, null, null. rewrite lookup_insert_eq. split_and!; [done| |done..].
      simpl. by destruct (roundRobinQ d).
    + eapply tree_at_frame; [done| |done]. intros i Hi. apply lookup_insert_ne. set_solver.
    + eapply NoDup_perm; [|exact Hndl]. rewrite app_nil_r. perm_solve.
    + eapply (NoDup_perm _ (x :: fn ++ tnodes Tt)); [perm_solve|]. by apply NoDup_cons.
    + rewrite <- Hcl. apply Permutation_length. rewrite app_nil_r. perm_solve.
    + rewrite <- Hcn. apply (Permutation_length (l' := x :: fn ++ tnodes Tt)). perm_solve.
    + repeat constructor.
  - unfold pq_procs. csimpl. by rewrite ?app_nil_r.
  - simpl. lia.
Qed.

(** ** Removing a process *)

Lemma pq_pop_flat q p q' :
  pq_ok q -> q <> [] -> pq_pop q = (p, q') ->
  exists k, fst <$> head q = Some k /\ pq_flat q = (k, p) :: pq_flat q' /\
    (fst <$> head q' = Some k /\ length q' = length q \/ length q = S (length q')).
Proof.
  intros [_ Hne] Hq. destruct q as [|[k [|x l]] q]; [done|by inversion Hne|].
  intros Heq. simpl in Heq. simplify_eq. exists k. destruct l as [|y l]; simpl; auto.
Qed.

(** There is room for the next entry of [pq] in the map [t]. *)
Definition room (pq t : pqueue) (nn : nat) : Prop :=
  pq <> [] -> 0 < nn \/ exists k, fst <$> head pq = Some k /\ pq_has k t = true.

Lemma pq_insert_has k p q : pq_has k (pq_insert k p q) = true.
Proof. apply pq_has_spec, pq_insert_keys. by left. Qed.

Lemma extractProc_loop_absm acc p : forall fuel d pq t rr rp nl nn ans,
  absm d pq t rr rp nl nn -> keyed acc pq -> room pq t nn -> length (pq_procs pq) < fuel ->
  exists d' nl' nn',
    Map_extractProc_loop acc fuel PQ p ans d = Ok (ans || bool_decide (p ∈ pq_procs pq)) d' /\
    absm d' [] (pq_build t (filter (fun e => e.2 <> p) (pq_flat pq))) rr rp nl' nn'.
Proof.
  induction fuel as [|fuel IH]; intros d pq t rr rp nl nn ans Habs Hkey Hroom Hf; [lia|].
  cbn [Map_extractProc_loop].
  rewrite (bind_Ok _ _ _ _ _ (map_isEmpty_absm PQ _ _ _ _ _ _ _ Habs)). cbn [mpick].
  case_bool_decide as Hpq.
  { subst. exists d, nl, nn. split; [|done]. rewrite bool_decide_false by set_solver. by rewrite orb_false_r. }
  destruct (absm_wf _ _ _ _ _ _ _ Habs) as (Hok & _ & _ & _ & _).
  destruct (extract_absm PQ _ _ _ _ _ _ _ Habs) as (d1 & Heq & Habs1).
  cbn [mpick] in *. rewrite pq_extract_cons in Heq, Habs1 by done.
  destruct (pq_pop pq) as [o pq'] eqn:Hpop. simpl in Heq, Habs1.
  destruct (pq_pop_spec _ _ _ Hok Hpq Hpop) as [_ Hprocs].
  destruct (pq_pop_flat _ _ _ Hok Hpq Hpop) as (k & Hk & Hflat & Hlev).
  unfold keyed in Hkey. rewrite Hflat in *. apply Forall_cons in Hkey as [Ho Hkey]. simpl in Ho.
  destruct o as [i|]; [subst k|done]. specialize (Hroom Hpq). rewrite Hk in Hroom.
  rewrite (bind_Ok _ _ _ _ _ Heq). rewrite Hprocs in *. simpl in Hf. rewrite filter_cons. simpl.
  destruct (decide (Some i = p)) as [<-|Hip].
  - rewrite bool_decide_true by done. rewrite decide_False by naive_solver. rewrite bind_ret.
    destruct (IH d1 pq' t rr rp (S nl) (nn + (length pq - length pq')) true) as (d' & nl' & nn' & -> & Habs');
      [done|done| |lia|].
    { intros _. destruct Hlev as [[-> ->]|Hlev]; [|left; lia]. destruct Hroom as [?|Hr]; [left; lia|by right]. }
    exists d', nl', nn'. split; [|done]. 
    rewrite (bool_decide_true (Some i ∈ Some i :: _)) by (by left). by rewrite orb_true_r.
  - rewrite bool_decide_false by done. rewrite decide_True by done.
    destruct (put_absm acc TEMP i _ _ _ _ _ _ _ Habs1) as (d2 & Heq2 & Habs2). cbn [mpick] in *.
    set (nn1 := nn + (length pq - length pq')) in *.
    assert (put_fits (acc i) (mkQueues t rr rp (S nl) nn1) = true) as Hfit.
    { unfold put_fits. simpl. destruct Hroom as [?|(? & [= <-] & ->)]; [|done].
      destruct (pq_has (acc i) t); [done|]. simpl. destruct nn1 eqn:E; [lia|done]. }
    unfold pq_put in Heq2, Habs2. rewrite Hfit in Heq2, Habs2. simpl in Heq2, Habs2.
    rewrite bind_assoc, (bind_Ok _ _ _ _ _ Heq2), bind_ret.
    destruct (IH _ _ _ _ _ _ _ ans Habs2) as (d' & nl' & nn' & -> & Habs'); [done| |lia|].
    { intros _. destruct Hlev as [[-> Hlen]|Hlev].
      - right. exists (acc i). split; [done|]. apply pq_insert_has.
      - left. destruct Hroom as [?|(? & [= <-] & ->)]; [|lia]. destruct (pq_has (acc i) t); lia. }
    exists d', nl', nn'. split; [|done]. do 2 f_equal. apply bool_decide_ext. set_solver.
Qed.

Lemma extractProc_absm acc i d q :
  abs d q -> keyed acc (q_pq q) ->
  exists d', Map_extractProc acc PQ (Some i) d = Ok (pq_extract_proc (Some i) q).1 d' /\
    abs d' (pq_extract_proc (Some i) q).2.
Proof.
  destruct q as [pq rr rp nl nn]. unfold abs, pq_extract_proc. simpl. intros Habs Hkey.
  pose proof Habs as (fl & fn & T & Tt & crr & crp & HL & Hsome & -> & HTt & -> & -> & -> & ->).
  pose proof (lay_fn _ _ _ _ _ _ _ HL) as Hfn. unfold Map_extractProc. rewrite bind_gets.
  destruct fn as [|x fn]; simpl in Hfn |- *.
  { rewrite Hfn. simpl. by exists d. }
  destruct Hfn as [-> _]. simpl. rewrite bind_modify.
  assert (put_tempMap null d = d) as ->.
  { destruct Tt; [|simpl in HTt; by apply eq_sym, app_nil in HTt as [_ ?]].
    pose proof (lay_Tt _ _ _ _ _ _ _ HL) as Ht. simpl in Ht. rewrite <- Ht. by destruct d. }
  destruct (absm_wf _ _ _ _ _ _ _ Habs) as (Hok & _ & _ & Hnl & Hnn).
  destruct (extractProc_loop_absm acc (Some i) link_fuel d _ _ _ _ _ _ false Habs Hkey)
    as (d' & nl' & nn' & Heq & Habs'); [left; simpl; lia|rewrite link_fuel_eq; lia|].
  rewrite (bind_Ok _ _ _ _ _ Heq), bind_gets, !bind_modify. eexists. split; [done|].
  fold (pq_remove (Some i) (inorder T)) in Habs'.
  destruct (absm_wf _ _ _ _ _ _ _ Habs') as (_ & _ & _ & Hnl' & Hnn').
  destruct (pq_remove_flat (Some i) _ Hok) as [Hflat _].
  assert (length (pq_procs (pq_remove (Some i) (inorder T))) <= length (pq_procs (inorder T))).
  { rewrite !pq_procs_flat, Hflat, !length_fmap. apply length_filter. }
  unfold pq_procs at 1 in Hnl'. unfold pq_procs at 2 in Hnl. simpl in *.
  destruct Habs' as (fl' & fn' & T' & Tt' & crr' & crp' & HL' & Hsome' & HT' & Htt' & Hr1 & Hr2 & Hn1 & Hn2).
  destruct T'; [|simpl in HT'; by apply eq_sym, app_nil in HT' as [_ ?]].
  exists fl', fn', Tt', Leaf, crr', crp'. split_and!; try done; [|lia|lia].
  destruct HL'. split; simpl; rewrite ?app_nil_r; done.
Qed.

(** ** Initial structures *)

Lemma init_links_chain n :
  chain (init_links n).1 (init_links n).2 ((fun i => (i, null)) <$> reverse (seq 0 n)).
Proof.
  induction n as [|n IH]; [done|]. rewrite seq_S, reverse_snoc. csimpl.
  destruct (init_links n) as [h free]. simpl in *. split; [done|]. exists free.
  rewrite lookup_insert_eq. split; [done|]. eapply chain_frame; [|exact IH].
  intros i Hi. rewrite <- list_fmap_compose in Hi. apply list_elem_of_fmap in Hi as (j & -> & Hj).
  rewrite elem_of_reverse, elem_of_seq in Hj. apply lookup_insert_ne. simpl. lia.
Qed.

Lemma init_nodes_chain n : nchain (init_nodes n).1 (init_nodes n).2 (reverse (seq 0 n)).
Proof.
  induction n as [|n IH]; [done|]. rewrite seq_S, reverse_snoc. csimpl.
  destruct (init_nodes n) as [h free]. simpl in *. split; [done|]. exists 0%Z, free.
  rewrite lookup_insert_eq. split; [done|]. eapply nchain_frame; [|exact IH].
  intros i Hi. rewrite elem_of_reverse, elem_of_seq in Hi. apply lookup_insert_ne. lia.
Qed.

Definition init_queues : queues := mkQueues [] [] [] NPROCLIST NPROCMAP.

Lemma empty_abs ls ns fl fn (cells : list cell) (xs : list nat) :
  chain ls fl cells -> nchain ns fn xs -> NoDup cells.*1 -> NoDup xs ->
  length cells = NPROCLIST -> length xs = NPROCMAP ->
  abs (mkSchedDS ls ns fl fn null null LinkedList_new LinkedList_new) init_queues.
Proof.
  intros Hc Hn Hnd1 Hnd2 Hl1 Hl2. exists cells, xs, Leaf, Leaf, [], [].
  split_and!; [|constructor|reflexivity..|by rewrite Hl1|by rewrite Hl2].
  split; simpl; rewrite ?app_nil_r, ?length_fmap; try assumption; try constructor; try done; constructor.
Qed.

Lemma init_abs : abs init_ds init_queues.
Proof.
  apply (empty_abs _ _ _ _ _ _ (init_links_chain NPROCLIST) (init_nodes_chain NPROCMAP)).
  - rewrite <- list_fmap_compose. apply NoDup_fmap_2; [by intros i j ?|].
    rewrite reverse_Permutation. apply NoDup_seq.
  - rewrite reverse_Permutation. apply NoDup_seq.
  - by rewrite length_fmap, length_reverse, length_seq.
  - by rewrite length_reverse, length_seq.
Qed.

(** ** The implementation satisfies the interface *)

Lemma put_refines acc i : refines abs (fun _ => True) (putPriorityQueue acc (Some i)) (pq_put (acc i) (Some i)).
Proof.
  intros d [pq rr rp nl nn] Habs _. destruct (put_absm acc PQ i _ _ _ _ _ _ _ Habs) as (d' & Heq & Habs').
  exists d'. split; [exact Heq|]. unfold abs, pq_put in *. simpl in *. by destruct (put_fits _ _).
Qed.

Lemma extract_refines : refines abs (fun _ => True) extractMinPriorityQueue pq_extract.
Proof.
  intros d [pq rr rp nl nn] Habs _. destruct (extract_absm PQ _ _ _ _ _ _ _ Habs) as (d' & Heq & Habs').
  exists d'. split; [exact Heq|]. unfold abs, pq_extract in *. simpl in *.
  destruct pq; [done|]. by destruct (pq_pop _).
Qed.

Lemma enqueue_refines i : refines abs (fun _ => True) (enqueueRoundRobinQueue (Some i)) (rr_put (Some i)).
Proof.
  intros d q Habs _. destruct (enqueue_absm RRQ i _ _ _ _ _ _ _ (or_introl eq_refl) Habs) as (d' & Heq & Hd').
  exists d'. unfold rr_put. destruct (0 <? q_links q); [done|]. by subst.
Qed.

Lemma add_refines i : refines abs (fun _ => True) (addRunningProcessHolder (Some i)) (rp_add (Some i)).
Proof.
  intros d q Habs _. destruct (enqueue_absm RPH i _ _ _ _ _ _ _ (or_intror eq_refl) Habs) as (d' & Heq & Hd').
  exists d'. unfold rp_add. destruct (0 <? q_links q); [done|]. by subst.
Qed.

Lemma dequeue_refines : refines abs (fun _ => True) dequeueRoundRobinQueue rr_get.
Proof.
  intros d q Habs _. pose proof (dequeue_absm RRQ _ _ _ _ _ _ _ (or_introl eq_refl) Habs) as Hd.
  unfold rr_get. simpl in Hd. destruct (q_rr q); [by exists d|done].
Qed.

Lemma remove_refines i : refines abs (fun _ => True) (removeRunningProcessHolder (Some i)) (rp_remove (Some i)).
Proof.
  intros d q Habs _. destruct (remove_absm (Some i) _ _ _ _ _ _ _ Habs) as (d' & Heq & Hd').
  exists d'. unfold rp_remove, removeRunningProcessHolder. rewrite Heq.
  destruct (decide _); [by rewrite bool_decide_true|]. rewrite bool_decide_false by done. by subst.
Qed.

Lemma observe_refines {A} (op : M sched_ds A) f :
  (forall d q, abs d q -> op d = Ok (f q) d) -> refines abs (fun _ => True) op (observe f).
Proof. intros H d q Habs _. exists d. split; [by apply H|done]. Qed.

Lemma abs_wf d q : abs d q -> queues_wf NPROCLIST NPROCMAP q.
Proof.
  intros Habs. destruct (absm_wf _ _ _ _ _ _ _ Habs) as (H1 & _ & H3 & H4 & H5).
  split; [done|done| |]; unfold pq_procs at 2 in H4; simpl in *; lia.
Qed.

#[export, refine] Instance ass1ds_queues : Queues sched_ds := {
  repr := abs;
  pool_links := NPROCLIST;
  pool_nodes := NPROCMAP;
  pool_le := le_n _;
  pq_isEmpty_op := isEmptyPriorityQueue;
  pq_put_op := putPriorityQueue;
  pq_getMinAccumulator_op := getMinAccumulatorPriorityQueue;
  pq_extractMin_op := extractMinPriorityQueue;
  pq_switchToRoundRobinPolicy_op := switchToRoundRobinPolicyPriorityQueue;
  pq_extractProc_op := extractProcPriorityQueue;
  rrq_isEmpty_op := isEmptyRoundRobinQueue;
  rrq_enqueue_op := enqueueRoundRobinQueue;
  rrq_dequeue_op := dequeueRoundRobinQueue;
  rrq_switchToPriorityQueuePolicy_op := switchToPriorityQueuePolicyRoundRobinQueue;
  rpholder_isEmpty_op := isEmptyRunningProcessHolder;
  rpholder_add_op := addRunningProcessHolder;
  rpholder_remove_op := removeRunningProcessHolder;
  rpholder_getMinAccumulator_op := getMinAccumulatorRunningProcessHolder;
  repr_wf := abs_wf;
  pq_put_ok := put_refines;
  pq_extractMin_ok := extract_refines;
  rrq_enqueue_ok := enqueue_refines;
  rrq_dequeue_ok := dequeue_refines;
  rpholder_add_ok := add_refines;
  rpholder_remove_ok := remove_refines
}.
Proof.
  - apply observe_refines. intros d q H. apply (map_isEmpty_absm PQ _ _ _ _ _ _ _ H).
  - apply observe_refines. intros d q H. apply (pq_min_absm PQ _ _ _ _ _ _ _ H).
  - intros d q H _. by apply to_rr_absm.
  - intros acc i d q H Hk. by apply extractProc_absm.
  - apply observe_refines. intros d q H.
    apply (list_isEmpty_absm RRQ _ _ _ _ _ _ _ (or_introl eq_refl) H).
  - intros d q H _. by apply to_pq_absm.
  - apply observe_refines. intros d q H.
    apply (list_isEmpty_absm RPH _ _ _ _ _ _ _ (or_intror eq_refl) H).
  - intros acc. apply observe_refines. intros d q H. by eapply rp_min_absm.
Defined.
