(* ===== verification/SchedCorrect.v ===== *)
(** * Correctness of the scheduling structures

    Arbitrary sequences of calls through the interface of
    schedulinginterface.h, on any implementation of [Queues] and on the one
    of ass1ds.cpp from its initial state; the order in which the priority
    queue hands out processes; the memory [initSchedDS] lays the objects
    out in. *)

From stdpp Require Import base gmap list sets sorting.
From Stdlib Require Import ZArith Lia.
From S2P Require Import Prelude SchedSpec SchedDS SchedRepr SchedRefine SchedImpl.

(** ** Sequences of calls *)

Inductive qcall :=
| PqIsEmpty | PqPut (acc : nat -> Z) (i : nat) | PqGetMinAccumulator | PqExtractMin
| PqSwitchToRoundRobinPolicy | PqExtractProc (acc : nat -> Z) (i : nat)
| RrqIsEmpty | RrqEnqueue (i : nat) | RrqDequeue | RrqSwitchToPriorityQueuePolicy
| RpIsEmpty | RpAdd (i : nat) | RpRemove (i : nat) | RpGetMinAccumulator (acc : nat -> Z).

Inductive qres := RBool (b : bool) | RKey (k : option Z) | RProc (p : procp).

Definition mfmap {S A B} (f : A -> B) (m : M S A) : M S B := let! a := m in ret (f a).

Definition run_call {Q} `{Queues Q} (c : qcall) : M Q qres :=
  match c with
  | PqIsEmpty => mfmap RBool pq_isEmpty_op
  | PqPut acc i => mfmap RBool (pq_put_op acc (Some i))
  | PqGetMinAccumulator => mfmap RKey pq_getMinAccumulator_op
  | PqExtractMin => mfmap RProc pq_extractMin_op
  | PqSwitchToRoundRobinPolicy => mfmap RBool pq_switchToRoundRobinPolicy_op
  | PqExtractProc acc i => mfmap RBool (pq_extractProc_op acc (Some i))
  | RrqIsEmpty => mfmap RBool rrq_isEmpty_op
  | RrqEnqueue i => mfmap RBool (rrq_enqueue_op (Some i))
  | RrqDequeue => mfmap RProc rrq_dequeue_op
  | RrqSwitchToPriorityQueuePolicy => mfmap RBool rrq_switchToPriorityQueuePolicy_op
  | RpIsEmpty => mfmap RBool rpholder_isEmpty_op
  | RpAdd i => mfmap RBool (rpholder_add_op (Some i))
  | RpRemove i => mfmap RBool (rpholder_remove_op (Some i))
  | RpGetMinAccumulator acc => mfmap RKey (rpholder_getMinAccumulator_op acc)
  end.

Definition lift {A B C} (f : A -> B) (r : A * C) : B * C := (f r.1, r.2).

Definition spec_call (c : qcall) (q : queues) : qres * queues :=
  match c with
  | PqIsEmpty => lift RBool (observe (fun q => bool_decide (q_pq q = [])) q)
  | PqPut acc i => lift RBool (pq_put (acc i) (Some i) q)
  | PqGetMinAccumulator => lift RKey (observe pq_min q)
  | PqExtractMin => lift RProc (pq_extract q)
  | PqSwitchToRoundRobinPolicy => lift RBool (pq_to_rr q)
  | PqExtractProc acc i => lift RBool (pq_extract_proc (Some i) q)
  | RrqIsEmpty => lift RBool (observe (fun q => bool_decide (q_rr q = [])) q)
  | RrqEnqueue i => lift RBool (rr_put (Some i) q)
  | RrqDequeue => lift RProc (rr_get q)
  | RrqSwitchToPriorityQueuePolicy => lift RBool (rr_to_pq q)
  | RpIsEmpty => lift RBool (observe (fun q => bool_decide (q_rp q = [])) q)
  | RpAdd i => lift RBool (rp_add (Some i) q)
  | RpRemove i => lift RBool (rp_remove (Some i) q)
  | RpGetMinAccumulator acc => lift RKey (observe (fun q => min_acc acc (q_rp q)) q)
  end.

(** [extractProc] re-inserts every process under its current accumulator; the
    others need nothing. *)
Definition call_pre (c : qcall) (q : queues) : Prop :=
  match c with PqExtractProc acc _ => keyed acc (q_pq q) | _ => True end.

Fixpoint run_calls {Q} `{Queues Q} (cs : list qcall) : M Q (list qres) :=
  match cs with
  | [] => ret []
  | c :: cs' => let! r := run_call c in let! rs := run_calls cs' in ret (r :: rs)
  end.

Fixpoint spec_calls (cs : list qcall) (q : queues) : list qres * queues :=
  match cs with
  | [] => ([], q)
  | c :: cs' => let r := spec_call c q in let rs := spec_calls cs' r.2 in (r.1 :: rs.1, rs.2)
  end.

Fixpoint pre_calls (cs : list qcall) (q : queues) : Prop :=
  match cs with
  | [] => True
  | c :: cs' => call_pre c q /\ pre_calls cs' (spec_call c q).2
  end.

(** Put every process, then extract until the queue is empty. *)
Fixpoint put_all {Q} `{Queues Q} (acc : nat -> Z) (ps : list nat) : M Q bool :=
  match ps with
  | [] => ret true
  | i :: ps' => let! b := pq_put_op acc (Some i) in let! b' := put_all acc ps' in ret (b && b')
  end.

Fixpoint drain {Q} `{Queues Q} (fuel : nat) : M Q (list procp) :=
  match fuel with
  | 0 => nofuel
  | S fuel' =>
      let! p := pq_extractMin_op in
      match p with
      | None => ret []
      | Some _ => let! ps := drain fuel' in ret (p :: ps)
      end
  end.

Definition put_then_drain {Q} `{Queues Q} (acc : nat -> Z) (ps : list nat) : M Q (bool * list procp) :=
  let! b := put_all acc ps in
  let! l := drain (S (length ps)) in
  ret (b, l).

(** Two objects of an arena do not overlap; an object lies in a region. *)
Definition apart (o1 o2 : Z * Z) : Prop := (o1.1 + o1.2 <= o2.1 \/ o2.1 + o2.2 <= o1.1)%Z.
Definition inside (o r : Z * Z) : Prop := (r.1 <= o.1 /\ o.1 + o.2 <= r.1 + r.2)%Z.

(** The regions an arena can still hand out: the rest of the current page
    and the pages to come. *)
Definition regions (a : arena) : list (Z * Z) :=
  (data a, spaceLeft a) :: ((fun pg => (pg, PGSIZE)) <$> pages a).

Section Interface.
Context {Q : Type} `{HQ : !Queues Q}.

Lemma mfmap_refines {A B} (f : A -> B) pre (op : M Q A) aop :
  refines repr pre op aop -> refines repr pre (mfmap f op) (fun q => lift f (aop q)).
Proof.
  intros H d q Hr Hp. destruct (H d q Hr Hp) as (d' & Heq & Hr'). exists d'.
  unfold mfmap. by rewrite (bind_Ok _ _ _ _ _ Heq).
Qed.

Lemma refines_weaken {A} pre (op : M Q A) aop :
  refines repr (fun _ => True) op aop -> refines repr pre op aop.
Proof. intros H d q Hr _. by apply H. Qed.

Lemma run_call_refines c : refines repr (call_pre c) (run_call c) (spec_call c).
Proof.
  destruct c; simpl; apply mfmap_refines;
    first [ apply pq_extractProc_ok | apply refines_weaken ];
    auto using pq_isEmpty_ok, pq_put_ok, pq_getMinAccumulator_ok, pq_extractMin_ok,
      pq_switchToRoundRobinPolicy_ok, rrq_isEmpty_ok, rrq_enqueue_ok, rrq_dequeue_ok,
      rrq_switchToPriorityQueuePolicy_ok, rpholder_isEmpty_ok, rpholder_add_ok,
      rpholder_remove_ok, rpholder_getMinAccumulator_ok.
Qed.

Lemma run_calls_refines cs : refines repr (pre_calls cs) (run_calls cs) (spec_calls cs).
Proof.
  induction cs as [|c cs IH]; intros d q Hr Hp; [by exists d|]. destruct Hp as [Hp Hps]. simpl.
  destruct (run_call_refines c d q Hr Hp) as (d1 & Heq & Hr1). rewrite (bind_Ok _ _ _ _ _ Heq).
  destruct (IH d1 _ Hr1 Hps) as (d' & Heq' & Hr'). rewrite (bind_Ok _ _ _ _ _ Heq'). by exists d'.
Qed.

Lemma put_all_refines acc ps : forall d q,
  repr d q -> length ps <= q_links q -> length ps <= q_nodes q ->
  exists d' q', put_all acc ps d = Ok true d' /\ repr d' q' /\
    q_pq q' = pq_build (q_pq q) ((fun i => (acc i, Some i)) <$> ps).
Proof.
  induction ps as [|i ps IH]; intros d q Hr Hl Hn; [by exists d, q|]. csimpl in *.
  destruct (pq_put_ok acc i d q Hr I) as (d1 & Heq & Hr1). revert Heq Hr1. unfold pq_put, put_fits.
  destruct (Nat.ltb_spec 0 (q_links q)); [|lia]. destruct (Nat.ltb_spec 0 (q_nodes q)); [|lia].
  rewrite orb_true_r. intros Heq Hr1. rewrite (bind_Ok _ _ _ _ _ Heq).
  destruct (IH d1 _ Hr1) as (d' & q' & Heq' & Hr' & Hq'); simpl in *; [lia|destruct (pq_has _ _); lia|].
  rewrite (bind_Ok _ _ _ _ _ Heq'). by exists d', q'.
Qed.

Lemma drain_refines fuel : forall d q,
  repr d q -> length (pq_procs (q_pq q)) < fuel ->
  exists d', drain fuel d = Ok (pq_procs (q_pq q)) d'.
Proof.
  induction fuel as [|fuel IH]; intros d q Hr Hf; [lia|]. simpl.
  destruct (pq_extractMin_ok d q Hr I) as (d1 & Heq & Hr1). rewrite (bind_Ok _ _ _ _ _ Heq).
  destruct (repr_wf _ _ Hr) as [Hok Hsome _ _].
  destruct q as [pq rr rp nl nn]. simpl in *. destruct (decide (pq = [])) as [->|Hne]; [by exists d1|].
  rewrite pq_extract_cons in Heq, Hr1 |- * by done. simpl in *.
  destruct (pq_pop pq) as [p pq'] eqn:Hpop. destruct (pq_pop_spec _ _ _ Hok Hne Hpop) as [_ Hprocs].
  rewrite Hprocs in *. simpl in *. inversion Hsome as [|? ? [i ->] _]; subst.
  destruct (IH d1 _ Hr1) as (d' & Heq'); [simpl; lia|]. exists d'. by rewrite (bind_Ok _ _ _ _ _ Heq').
Qed.
End Interface.

(** ** The order of service *)

Definition entry (acc : nat -> Z) (i : nat) : Z * procp := (acc i, Some i).

Lemma pq_build_procs es : forall q, pq_procs (pq_build q es) ≡ₚ pq_procs q ++ es.*2.
Proof.
  induction es as [|[k p] es IH]; intros q; csimpl; [by rewrite app_nil_r|].
  unfold pq_build in IH |- *. simpl. rewrite IH, pq_insert_procs. simpl.
  by rewrite <- Permutation_middle.
Qed.

Lemma pq_build_ok es : forall q, pq_ok q -> pq_ok (pq_build q es).
Proof. induction es as [|e es IH]; intros q Hq; [done|]. apply IH. by apply pq_insert_ok. Qed.

Lemma filter_pair_eq (k k' : Z) (l : list procp) :
  filter (fun e => e.1 = k) (pair k' <$> l) = if decide (k' = k) then pair k' <$> l else [].
Proof.
  induction l as [|x l IH]; csimpl; [by case_decide|]. rewrite filter_cons, IH. simpl.
  by repeat case_decide.
Qed.

Lemma filter_flat_none k q :
  k ∉ q.*1 -> filter (fun e : Z * procp => e.1 = k) (pq_flat q) = [].
Proof.
  induction q as [|[k' l] q IH]; csimpl; [done|]. intros Hk.
  rewrite filter_app, filter_pair_eq, IH by set_solver. rewrite decide_False by set_solver. done.
Qed.

(** Among the entries of one accumulator, a new one is last. *)
Lemma pq_insert_filter k p q k0 :
  StronglySorted Z.lt q.*1 ->
  filter (fun e : Z * procp => e.1 = k0) (pq_flat (pq_insert k p q)) =
  filter (fun e : Z * procp => e.1 = k0) (pq_flat q ++ [(k, p)]).
Proof.
  rewrite filter_app. induction q as [|[k' l] q IH]; csimpl; intros Hs; [done|].
  apply StronglySorted_cons_iff in Hs as [Hk Hs]. rewrite Forall_forall in Hk.
  assert (k < k' \/ k = k' -> k ∉ q.*1)%Z as Hnotin by (intros ? Hin%Hk; lia).
  destruct (Z.ltb_spec k k'); [|destruct (Z.eqb_spec k k') as [->|]]; csimpl;
    rewrite ?filter_cons, ?filter_app, ?filter_pair_eq, ?filter_nil; simpl.
  - destruct (decide (k = k0)) as [<-|]; [|by rewrite app_nil_r].
    rewrite decide_False by lia. rewrite filter_flat_none by auto. done.
  - destruct (decide (k' = k0)) as [<-|]; [|by rewrite app_nil_r].
    rewrite filter_flat_none by auto. by rewrite fmap_app, !app_nil_r.
  - rewrite IH by done. rewrite filter_cons, filter_nil. simpl. by rewrite (assoc_L (++)).
Qed.

Lemma pq_build_filter es k0 : forall q,
  pq_ok q ->
  filter (fun e : Z * procp => e.1 = k0) (pq_flat (pq_build q es)) =
  filter (fun e : Z * procp => e.1 = k0) (pq_flat q ++ es).
Proof.
  induction es as [|[k p] es IH]; intros q Hq; simpl; [by rewrite app_nil_r|].
  unfold pq_build in IH |- *. simpl. rewrite IH by (by apply pq_insert_ok).
  rewrite !filter_app, (pq_insert_filter _ _ _ _ (proj1 Hq)), filter_app, <- (assoc_L (++)).
  f_equal. by rewrite <- filter_app.
Qed.

Lemma build_flat acc ps :
  pq_flat (pq_build [] (entry acc <$> ps)) ≡ₚ entry acc <$> ps.
Proof.
  assert (forall es q, pq_flat (pq_build q es) ≡ₚ pq_flat q ++ es) as H.
  { intros es. induction es as [|[k p] es IH]; intros q; [by rewrite app_nil_r|].
    unfold pq_build in IH |- *. simpl. rewrite IH. clear IH.
    rewrite <- Permutation_middle. rewrite (app_comm_cons (pq_flat q)). f_equiv.
    induction q as [|[k' l] q IH]; simpl; [done|].
    destruct (k <? k')%Z; [done|]. destruct (Z.eqb_spec k k') as [->|]; simpl.
    - rewrite fmap_app, <- (assoc_L (++)). simpl. by rewrite <- Permutation_middle.
    - rewrite IH. by rewrite <- Permutation_middle. }
  apply (H _ []).
Qed.

Lemma flat_entries acc (q : pqueue) ps :
  pq_flat q ≡ₚ entry acc <$> ps ->
  exists l, pq_procs q = Some <$> l /\ pq_flat q = entry acc <$> l /\ l ≡ₚ ps.
Proof.
  intros Hp. apply Permutation_map_inv in Hp as (l & Hl & Hperm).
  exists l. rewrite pq_procs_flat. change (map (entry acc) l) with (entry acc <$> l) in Hl.
  rewrite Hl, <- list_fmap_compose. by split_and!.
Qed.

Lemma list_filter_fmap_entry acc k (l : list nat) :
  entry acc <$> filter (fun i => acc i = k) l =
  filter (fun e : Z * procp => e.1 = k) (entry acc <$> l).
Proof.
  induction l as [|i l IH]; csimpl; [done|]. rewrite !filter_cons. simpl.
  case_decide; csimpl; by rewrite IH.
Qed.

#[export] Instance entry_inj acc : Inj (=) (=) (entry acc).
Proof. intros i j H. by inversion H. Qed.

Lemma put_then_drain_order {Q} `{HQ : !Queues Q} acc ps (d : Q) q :
  repr d q -> q_pq q = [] -> length ps <= q_links q -> length ps <= q_nodes q ->
  exists l d', put_then_drain acc ps d = Ok (true, Some <$> l) d' /\
    l ≡ₚ ps /\ StronglySorted Z.le (acc <$> l) /\
    forall k, filter (fun i => acc i = k) l = filter (fun i => acc i = k) ps.
Proof.
  intros Hr0 Hnil Hl0 Hn0. unfold put_then_drain.
  destruct (put_all_refines acc ps d q Hr0 Hl0 Hn0) as (d1 & q1 & Heq & Hr & Hq).
  rewrite (bind_Ok _ _ _ _ _ Heq). rewrite Hnil in Hq.
  destruct (flat_entries acc (q_pq q1) ps) as (l & Hl & Hf & Hperm); [rewrite Hq; apply build_flat|].
  destruct (drain_refines (S (length ps)) d1 q1 Hr) as (d2 & Hd).
  { rewrite Hl, length_fmap, Hperm. lia. }
  rewrite (bind_Ok _ _ _ _ _ Hd). exists l, d2. rewrite Hl. split_and!; [done|done| |].
  - destruct (pq_flat_sorted (q_pq q1)) as [Hs _]; [apply (repr_wf _ _ Hr)|].
    rewrite Hf, <- list_fmap_compose in Hs. exact Hs.
  - intros k. apply (inj (fmap (entry acc))).
    rewrite !list_filter_fmap_entry, <- Hf, Hq. apply (pq_build_filter _ k []). split; constructor.
Qed.

(** ** The arena *)

Lemma inside_apart o1 r1 o2 r2 : inside o1 r1 -> inside o2 r2 -> apart r1 r2 -> apart o1 o2.
Proof. unfold inside, apart. lia. Qed.

Lemma mymalloc_Ok sz a x a' :
  (0 < sz <= PGSIZE)%Z -> ForallOrdPairs apart (regions a) -> mymalloc sz a = Ok x a' ->
  Exists (inside (x, sz)) (regions a) /\ ForallOrdPairs apart (regions a') /\
  Forall (fun r' => apart (x, sz) r' /\ Exists (inside r') (regions a)) (regions a').
Proof.
  intros Hsz Hap. unfold mymalloc. rewrite bind_gets. destruct a as [dt left pgs]. unfold regions in *. simpl in *.
  inversion Hap as [|? ? Hap1 Hap2]; subst.
  destruct (Z.ltb_spec left sz).
  - destruct pgs as [|pg pgs]; [done|]. rewrite bind_modify. unfold id. simpl. intros [= <- <-]. csimpl in *.
    inversion Hap2 as [|? ? Hap3 Hap4]; subst. split; [|split].
    + right. left. unfold inside. simpl. lia.
    + constructor; [|done]. eapply Forall_impl; [exact Hap3|]. unfold apart. simpl. lia.
    + constructor.
      * split; [unfold apart; simpl; lia|]. right. left. unfold inside. simpl. lia.
      * apply Forall_forall. intros r Hr. rewrite Forall_forall in Hap3. split.
        -- specialize (Hap3 r Hr). unfold apart in *. simpl in *. lia.
        -- right. right. apply Exists_exists. exists r. split; [done|]. unfold inside. lia.
  - rewrite bind_ret. unfold id. simpl. intros [= <- <-]. csimpl in *. split; [|split].
    + left. unfold inside. simpl. lia.
    + constructor; [|done]. eapply Forall_impl; [exact Hap1|]. unfold apart. simpl. lia.
    + constructor.
      * split; [unfold apart; simpl; lia|]. left. unfold inside. simpl. lia.
      * apply Forall_forall. intros r Hr. rewrite Forall_forall in Hap1. split.
        -- specialize (Hap1 r Hr). unfold apart in *. simpl in *. lia.
        -- right. apply Exists_exists. exists r. split; [done|]. unfold inside. lia.
Qed.

Lemma inside_trans o r rs : Exists (inside o) [r] -> Exists (inside r) rs -> Exists (inside o) rs.
Proof.
  rewrite !Exists_exists. intros (r' & Hr' & Ho) (r'' & Hr'' & Hrr). exists r''. split; [done|].
  apply list_elem_of_singleton in Hr' as ->. unfold inside in *. lia.
Qed.

Lemma mymalloc_all_apart sizes : forall a xs a',
  Forall (fun sz => 0 < sz <= PGSIZE)%Z sizes -> ForallOrdPairs apart (regions a) ->
  mymalloc_all sizes a = Ok xs a' ->
  length xs = length sizes /\ ForallOrdPairs apart (zip xs sizes) /\
  Forall (fun o => Exists (inside o) (regions a)) (zip xs sizes).
Proof.
  induction sizes as [|sz sizes IH]; intros a xs a' Hsz Hap Heq; simpl in Heq.
  { injection Heq as <- <-. split_and!; [done|constructor|constructor]. }
  apply bind_inv in Heq as (x & a1 & Hm & Heq). apply bind_inv in Heq as (ys & a2 & Hall & Heq).
  injection Heq as <- <-. inversion Hsz; subst.
  destruct (mymalloc_Ok sz a x a1) as (Hin & Hap1 & Hreg); [done..|].
  destruct (IH a1 ys a2) as (Hlen & Hpair & Hins); [done..|]. rewrite Forall_forall in Hreg, Hins. simpl.
  split_and!; [lia| |].
  - constructor; [|done]. apply Forall_forall. intros o Ho. apply Hins in Ho.
    apply Exists_exists in Ho as (r & Hr & Hor). apply Hreg in Hr as [Hr _]. unfold apart, inside in *. simpl in *. lia.
  - constructor; [done|]. apply Forall_forall. intros o Ho. apply Hins in Ho.
    apply Exists_exists in Ho as (r & Hr & Hor). apply Hreg in Hr as [_ Hr].
    eapply inside_trans; [|exact Hr]. by left.
Qed.

Lemma mymalloc_all_app s1 s2 a :
  mymalloc_all (s1 ++ s2) a =
  (let! xs := mymalloc_all s1 in let! ys := mymalloc_all s2 in ret (xs ++ ys)) a.
Proof.
  revert a. induction s1 as [|sz s1 IH]; intros a; simpl.
  - rewrite bind_ret. unfold bind. by destruct (mymalloc_all s2 a).
  - unfold bind in *. destruct (mymalloc sz a) as [x a1| | | |]; try done. rewrite IH.
    destruct (mymalloc_all s1 a1) as [xs a2| | | |]; try done. simpl. by destruct (mymalloc_all s2 a2).
Qed.

Definition sum_sizes (sizes : list Z) : Z := foldr Z.add 0%Z sizes.

(** Objects that fit in the current page take no new one. *)
Lemma mymalloc_all_fits sizes : forall dt left pgs,
  Forall (Z.lt 0) sizes -> (sum_sizes sizes <= left)%Z ->
  exists xs, mymalloc_all sizes (mkArena dt left pgs) =
    Ok xs (mkArena (dt + sum_sizes sizes) (left - sum_sizes sizes) pgs).
Proof.
  induction sizes as [|sz sizes IH]; intros dt left pgs Hpos Hsum; simpl in *.
  { exists []. unfold ret. do 2 f_equal; lia. }
  inversion Hpos; subst. assert (0 <= sum_sizes sizes)%Z.
  { clear -H2. induction H2; simpl; lia. }
  destruct (IH (dt + sz)%Z (left - sz)%Z pgs) as (xs & Heq); [done|lia|]. exists (dt :: xs).
  unfold mymalloc. rewrite !bind_assoc, bind_gets. unfold id. simpl.
  destruct (Z.ltb_spec left sz); [lia|]. rewrite !bind_assoc, bind_ret, !bind_assoc, bind_gets. simpl.
  rewrite !bind_assoc, bind_modify, bind_ret. simpl. rewrite (bind_Ok _ _ _ _ _ Heq). unfold ret.
  do 2 f_equal; lia.
Qed.

Lemma mymalloc_new_page sz sizes dt left pgs :
  (left < sz <= PGSIZE)%Z ->
  mymalloc_all (sz :: sizes) (mkArena dt left pgs) =
  match pgs with
  | pg :: pgs' => mymalloc_all (sz :: sizes) (mkArena pg PGSIZE pgs')
  | [] => Fault
  end.
Proof.
  intros Hsz. simpl. unfold mymalloc, bind, gets, id. simpl.
  destruct (Z.ltb_spec left sz); [|lia]. destruct pgs as [|pg pgs]; [done|]. simpl.
  by destruct (Z.ltb_spec PGSIZE sz); [lia|].
Qed.

(** The first page holds everything up to the 95th node, the second the rest. *)
Lemma init_sizes_pages pgs :
  match pgs with
  | pg0 :: pg1 :: rest =>
      exists xs, mymalloc_all init_sizes (mkArena 0 0 pgs) =
        Ok xs (mkArena (pg1 + 33 * 32) (PGSIZE - 33 * 32) rest)
  | _ => mymalloc_all init_sizes (mkArena 0 0 pgs) = Fault
  end.
Proof.
  assert (init_sizes = take 226 init_sizes ++ drop 226 init_sizes) as E by (symmetry; apply take_drop).
  assert (exists sz tl, take 226 init_sizes = sz :: tl /\ (0 < sz <= PGSIZE)%Z) as (s1 & t1 & E1 & Hs1)
    by (eexists _, _; split; [reflexivity|done]).
  assert (exists sz tl, drop 226 init_sizes = sz :: tl /\ (12 < sz <= PGSIZE)%Z) as (s2 & t2 & E2 & Hs2)
    by (eexists _, _; split; [reflexivity|done]).
  assert (sum_sizes (s1 :: t1) = 4084 /\ Forall (Z.lt 0) (s1 :: t1))%Z as [Hsum1 Hpos1].
  { rewrite <- E1. split; [reflexivity|]. apply (bool_decide_unpack _). vm_compute. exact I. }
  assert (sum_sizes (s2 :: t2) = 33 * 32 /\ Forall (Z.lt 0) (s2 :: t2))%Z as [Hsum2 Hpos2].
  { rewrite <- E2. split; [reflexivity|]. apply (bool_decide_unpack _). vm_compute. exact I. }
  rewrite E1, E2 in E. clear E1 E2. rewrite E. clear E.
  destruct pgs as [|pg0 pgs].
  { rewrite mymalloc_all_app. unfold bind. by rewrite mymalloc_new_page by lia. }
  destruct (mymalloc_all_fits (s1 :: t1) pg0 PGSIZE pgs) as (xs & Hxs); [done|unfold PGSIZE; lia|].
  rewrite Hsum1 in Hxs. unfold PGSIZE in Hxs at 2.
  assert (mymalloc_all (s1 :: t1) (mkArena 0 0 (pg0 :: pgs)) = Ok xs (mkArena (pg0 + 4084) 12 pgs)) as Heq.
  { rewrite mymalloc_new_page by lia. exact Hxs. }
  destruct pgs as [|pg1 rest].
  { rewrite mymalloc_all_app, (bind_Ok _ _ _ _ _ Heq). unfold bind. by rewrite mymalloc_new_page by lia. }
  destruct (mymalloc_all_fits (s2 :: t2) pg1 PGSIZE rest) as (ys & Hys); [done|unfold PGSIZE; lia|].
  exists (xs ++ ys). rewrite mymalloc_all_app, (bind_Ok _ _ _ _ _ Heq).
  assert (mymalloc_all (s2 :: t2) (mkArena (pg0 + 4084) 12 (pg1 :: rest)) =
    Ok ys (mkArena (pg1 + 33 * 32) (PGSIZE - 33 * 32) rest)) as Heq2.
  { rewrite mymalloc_new_page, Hys, Hsum2 by lia. done. }
  by rewrite (bind_Ok _ _ _ _ _ Heq2).
Qed.

Lemma init_sizes_bound : Forall (fun sz => 0 < sz <= PGSIZE)%Z init_sizes.
Proof. apply (bool_decide_unpack _). vm_compute. exact I. Qed.

Lemma regions_start pgs :
  Forall (Z.le 0) pgs -> ForallOrdPairs apart ((fun pg => (pg, PGSIZE)) <$> pgs) ->
  ForallOrdPairs apart (regions (mkArena 0 0 pgs)).
Proof.
  intros Hpos Hpg. constructor; [|done]. apply Forall_fmap. eapply Forall_impl; [exact Hpos|].
  unfold apart. simpl. lia.
Qed.

Lemma initSchedDS_eq pgs xs a :
  mymalloc_all init_sizes (mkArena 0 0 pgs) = Ok xs a -> initSchedDS pgs = Ok (xs, init_ds) a.
Proof.
  unfold initSchedDS, init_ds. intros ->.
  destruct (init_links NPROCLIST), (init_nodes NPROCMAP). reflexivity.
Qed.

(** ** Claims *)


Definition demo_calls : list qcall :=
  [PqPut (fun i => Z.of_nat i) 5; PqPut (fun i => Z.of_nat i) 3; RpAdd 7; PqGetMinAccumulator;
   PqExtractProc (fun i => Z.of_nat i) 5; PqExtractMin; RpRemove 7; PqIsEmpty].


(** C9 Put up to 128 processes (the size of the pools) and extract them all:
    every put succeeds, and the processes come out in increasing order of
    accumulator, those with equal accumulators in the order they were put,
    each exactly as often as it was put. *)
Theorem priority_order acc ps :
  length ps <= NPROCMAP ->
  exists l d, put_then_drain acc ps init_ds = Ok (true, Some <$> l) d /\
    l ≡ₚ ps /\ StronglySorted Z.le (acc <$> l) /\
    forall k, filter (fun i => acc i = k) l = filter (fun i => acc i = k) ps.
Proof.
  intros Hps. exact (put_then_drain_order (HQ := ass1ds_queues) acc ps init_ds init_queues
    init_abs eq_refl Hps Hps).
Qed.

Lemma priority_order_witness :
  exists l d, put_then_drain (fun i => if (i <? 2)%nat then 4 else 1)%Z [0; 5; 1; 6] init_ds
    = Ok (true, Some <$> l) d /\ l ≡ₚ [0; 5; 1; 6].
Proof.
  destruct (priority_order (fun i => if (i <? 2)%nat then 4 else 1)%Z [0; 5; 1; 6]) as (l & d & H1 & H2 & _).
  - apply Nat.leb_le. reflexivity.
  - exists l, d. exact (conj H1 H2).
Defined.

(** [initSchedDS] takes exactly two of the pages [kalloc] hands out; each
    of the map, lists, links and nodes it allocates lies inside a page, and no
    two of them overlap.  With a single page it faults. *)
Theorem initSchedDS_layout pg0 pg1 rest :
  let pgs := pg0 :: pg1 :: rest in
  Forall (Z.le 0) pgs -> ForallOrdPairs apart ((fun pg => (pg, PGSIZE)) <$> pgs) ->
  (exists xs a, initSchedDS pgs = Ok (xs, init_ds) a /\ pages a = rest /\
    length xs = length init_sizes /\ ForallOrdPairs apart (zip xs init_sizes) /\
    Forall (fun o => Exists (fun pg => inside o (pg, PGSIZE)) pgs) (zip xs init_sizes)) /\
  initSchedDS [pg0] = Fault.
Proof.
  intros pgs Hpos Hpg. pose proof (init_sizes_pages pgs) as (xs & Heq).
  split; [|unfold initSchedDS; by rewrite (init_sizes_pages [pg0])].
  destruct (mymalloc_all_apart _ _ _ _ init_sizes_bound (regions_start _ Hpos Hpg) Heq) as (Hlen & Hap & Hin).
  exists xs. eexists. rewrite (initSchedDS_eq _ _ _ Heq). split_and!; [reflexivity..|done|done|].
  apply Forall_forall. intros [x sz] Ho. rewrite Forall_forall in Hin. specialize (Hin _ Ho).
  apply elem_of_zip_r in Ho. pose proof init_sizes_bound as Hb. rewrite Forall_forall in Hb. apply Hb in Ho.
  apply Exists_cons in Hin as [Hin|Hin]; [unfold inside in Hin; simpl in Hin; lia|].
  by apply (Exists_fmap (fun pg => (pg, PGSIZE))) in Hin.
Qed.

Lemma initSchedDS_layout_witness :
  (exists xs a, initSchedDS [8192; 4096; 12288]%Z = Ok (xs, init_ds) a /\ pages a = [12288%Z]) /\
  initSchedDS [8192%Z] = Fault.
Proof.
  destruct (initSchedDS_layout 8192 4096 [12288%Z]) as [(xs & a & H1 & H2 & _) H3].
  - repeat constructor; lia.
  - repeat constructor; unfold apart, PGSIZE; simpl; lia.
  - split; [exists xs, a; exact (conj H1 H2)|exact H3].
Defined.
