(* ===== verification/Moddi3.v ===== *)
(** * The 64-bit remainder of ass1ds.cpp

    The kernel is linked without libgcc, so ass1ds.cpp supplies [__moddi3],
    which the compiler calls for [%] on [long long].  The model keeps every
    intermediate value at its width (a 64-bit signed integer wraps), and the
    theorem says when the function returns the C remainder. *)

From stdpp Require Import base list strings.
From Stdlib Require Import ZArith Lia.
From S2P Require Import Prelude.

Local Open Scope Z_scope.

(** [while (number >= divisor2) { number -= divisor2; if (divisor2 + divisor2 > 0) ... }] *)
Fixpoint moddi3_decay (fuel : nat) (number divisor2 : Z) : option Z :=
  match fuel with
  | O => None
  | S fuel' =>
      if number <? divisor2 then Some number
      else
        moddi3_decay fuel' (s64 (number - divisor2))
          (if 0 <? s64 (divisor2 + divisor2) then s64 (divisor2 + divisor2) else divisor2)
  end.

(** The [for (;;)]: restart with the divisor until the rest is below it. *)
Fixpoint moddi3_loop (fuel : nat) (number divisor : Z) : option Z :=
  match fuel with
  | O => None
  | S fuel' =>
      match moddi3_decay 66 number divisor with
      | Some number' => if number' <? divisor then Some number' else moddi3_loop fuel' number' divisor
      | None => None
      end
  end.

(** [None] in the result stands for fuel that ran out; 66 iterations inside
    and 65 outside are enough for 64-bit arguments. *)
Definition moddi3 (number divisor : Z) : outcome unit (option Z) :=
  if divisor =? 0 then Panic "divide by zero!!!"
  else
    let isNumberNegative := number <? 0 in
    let number := if number <? 0 then s64 (- number) else number in
    let divisor := if divisor <? 0 then s64 (- divisor) else divisor in
    match moddi3_loop 65 number divisor with
    | Some n => Ok (Some (if isNumberNegative then s64 (- n) else n)) tt
    | None => OutOfFuel
    end.

(** ** The loops *)

Lemma pow_mul_bound i d m : 0 < d -> 0 <= m <= i -> 2 ^ m <= d * 2 ^ i.
Proof.
  intros Hd Hm. assert (2 ^ m <= 2 ^ i) by (apply Z.pow_le_mono_r; lia).
  assert (0 < 2 ^ m) by (apply Z.pow_pos_nonneg; lia). nia.
Qed.

(** One pass: with [d2 = d * 2^i] and [N = n + d * 2^i - d] the number the
    pass started with. *)
Lemma decay_Ok fuel : forall i n d,
  0 < d -> 0 <= n -> 0 <= i -> n + d * 2 ^ i - d < 2 ^ 63 -> d * 2 ^ i < 2 ^ 63 ->
  65 <= Z.of_nat fuel + i ->
  exists n', moddi3_decay fuel n (d * 2 ^ i) = Some n' /\ 0 <= n' /\ n' mod d = n mod d /\
    (n' < d \/ exists k, 0 <= k /\ n' < d * 2 ^ k /\ n' + d * 2 ^ k = n + d * 2 ^ i).
Proof.
  induction fuel as [|fuel IH]; intros i n d Hd Hn Hi HN Hd2 Hf.
  - pose proof (pow_mul_bound i d 65 Hd ltac:(lia)). lia.
  - cbn [moddi3_decay]. destruct (Z.ltb_spec n (d * 2 ^ i)).
    { exists n. split_and!; [done..|]. right. exists i. lia. }
    assert (d * 2 ^ i + d * 2 ^ i = d * 2 ^ (i + 1)) as Hdbl by (rewrite Z.pow_add_r by lia; lia).
    assert (d <= d * 2 ^ i) as Hge1.
    { assert (0 < 2 ^ i) by (apply Z.pow_pos_nonneg; lia). nia. }
    assert ((n - d * 2 ^ i) mod d = n mod d) as Hmod.
    { replace (n - d * 2 ^ i) with (n + (- 2 ^ i) * d) by lia. apply Z.mod_add. lia. }
    rewrite (s64_id (n - d * 2 ^ i)) by (unfold int64; lia). rewrite Hdbl.
    destruct (Z.lt_ge_cases (d * 2 ^ (i + 1)) (2 ^ 63)) as [Hlt|Hge].
    + rewrite s64_id by (unfold int64; lia). destruct (Z.ltb_spec 0 (d * 2 ^ (i + 1))); [|lia].
      destruct (IH (i + 1) (n - d * 2 ^ i) d) as (n' & -> & Hn' & Hm & Hcase); [lia..|].
      exists n'. split_and!; [done|done|congruence|].
      destruct Hcase as [?|(k & Hk)]; [by left|right; exists k; lia].
    + assert (s64 (d * 2 ^ (i + 1)) <= 0) as Hneg.
      { unfold s64. rewrite <- (Z_mod_plus_full _ (-1)), Z.mod_small by lia. lia. }
      destruct (Z.ltb_spec 0 (s64 (d * 2 ^ (i + 1)))); [lia|].
      assert (1 < Z.of_nat (S fuel))
        by (destruct (Z.le_gt_cases 64 i); [pose proof (pow_mul_bound i d 64 Hd ltac:(lia))|]; lia).
      exists (n - d * 2 ^ i). destruct fuel as [|fuel]; [lia|]. cbn [moddi3_decay].
      destruct (Z.ltb_spec (n - d * 2 ^ i) (d * 2 ^ i)); [|lia].
      split_and!; [done|lia|done|left; lia].
Qed.

Lemma loop_Ok fuel : forall (j : nat) n d,
  0 < d < 2 ^ 63 -> 0 <= n < 2 ^ 63 -> n < d * 2 ^ Z.of_nat j -> (j < fuel)%nat ->
  moddi3_loop fuel n d = Some (n mod d).
Proof.
  induction fuel as [|fuel IH]; intros j n d Hd Hn Hj Hf; [lia|]. cbn [moddi3_loop].
  destruct (decay_Ok 66 0 n d) as (n' & Hdec & Hn' & Hm & Hcase); [lia..|].
  rewrite Z.pow_0_r, Z.mul_1_r in Hdec. rewrite Hdec. destruct (Z.ltb_spec n' d).
  { by rewrite <- Hm, Z.mod_small by lia. }
  destruct Hcase as [?|(k & Hk & Hlt & Heq)]; [lia|].
  pose proof (pow_mul_bound k d 0 ltac:(lia) ltac:(lia)) as Hk0.
  assert (d <= d * 2 ^ k) as Hdk by (assert (0 < 2 ^ k) by (apply Z.pow_pos_nonneg; lia); nia).
  destruct j as [|j]; [rewrite Z.pow_0_r in *; lia|].
  rewrite (IH j n' d); [by rewrite Hm|lia|lia| |lia].
  rewrite Nat2Z.inj_succ, Z.pow_succ_r in Hj by lia.
  destruct (Z.le_gt_cases k (Z.of_nat j)) as [Hkj|Hkj].
  - assert (2 ^ k <= 2 ^ Z.of_nat j) by (apply Z.pow_le_mono_r; lia). nia.
  - assert (2 ^ Z.succ (Z.of_nat j) <= 2 ^ k) as H1 by (apply Z.pow_le_mono_r; lia).
    rewrite Z.pow_succ_r in H1 by lia. assert (0 < 2 ^ Z.of_nat j) by (apply Z.pow_pos_nonneg; lia). nia.
Qed.

(** ** Correctness *)

(** [__moddi3] terminates and computes the C remainder, with the sign of
    the dividend, for all 64-bit arguments except a zero divisor and the most
    negative number. *)
Theorem moddi3_rem number divisor :
  - 2 ^ 63 < number < 2 ^ 63 -> - 2 ^ 63 < divisor < 2 ^ 63 -> divisor <> 0 ->
  moddi3 number divisor = Ok (Some (Z.rem number divisor)) tt.
Proof.
  intros Hn Hd Hz. unfold moddi3. destruct (Z.eqb_spec divisor 0); [lia|].
  assert ((if number <? 0 then s64 (- number) else number) = Z.abs number) as ->
    by (destruct (Z.ltb_spec number 0); [rewrite s64_id by (unfold int64; lia)|]; lia).
  assert ((if divisor <? 0 then s64 (- divisor) else divisor) = Z.abs divisor) as ->
    by (destruct (Z.ltb_spec divisor 0); [rewrite s64_id by (unfold int64; lia)|]; lia).
  rewrite (loop_Ok 65 63) by lia. do 2 f_equal.
  pose proof (Z.mod_pos_bound (Z.abs number) (Z.abs divisor) ltac:(lia)).
  rewrite <- Z.rem_mod_nonneg in * by lia.
  rewrite Z.rem_abs_r, Z.rem_abs_l in * by lia.
  destruct (Z.ltb_spec number 0).
  - pose proof (Z.rem_nonpos number divisor Hz ltac:(lia)). rewrite s64_id by (unfold int64; lia). lia.
  - pose proof (Z.rem_nonneg number divisor Hz ltac:(lia)). lia.
Qed.

Lemma moddi3_rem_witness : moddi3 (-1007) 100 = Ok (Some (-7)) tt.
Proof. apply (moddi3_rem (-1007) 100); lia. Defined.

(** For the most negative dividend the negation overflows and the number is
    returned unreduced, so the result is not a remainder. *)
Theorem moddi3_min_number :
  moddi3 (- 2 ^ 63) 100 = Ok (Some (- 2 ^ 63)) tt /\ Z.rem (- 2 ^ 63) 100 = -8.
Proof. split; vm_compute; reflexivity. Qed.
