(* ===== verification/Spinlock.v ===== *)
(** * Spin locks and interrupt nesting

    The model of spinlock.c, of [mycpu] and [cpuid] of proc.c and of the
    per-CPU state they use.  A [machine] is what the code executing on one
    CPU sees: the array [cpus], the identity of the executing CPU's local
    APIC, and the stack memory that [getcallerpcs] walks.  The atomic [xchg]
    is one step; a spin on a lock that is held does not return in a
    sequential run, and the interleaving of several CPUs is the step relation
    [lock_step]. *)

From stdpp Require Import base gmap list strings relations.
From Stdlib Require Import ZArith Lia.
From S2P Require Import Prelude.

(** ** State *)

(** What [cpu->scheduler] resumes: the scheduler function that called
    [swtch]. *)
Inductive sched_frame := InPriority | InRoundRobin.

(** [struct cpu], with the interrupt flag of the CPU's eflags register. *)
Record cpu := mkCpu {
  apicid : Z;
  scheduler : sched_frame;
  started : Z;
  ncli : Z;
  intena : bool;
  cproc : option nat;   (** index in [ptable.proc] *)
  IF : bool
}.

Record machine := mkMachine {
  cpus : list cpu;
  lapicid : Z;          (** what the local APIC of the executing CPU reports *)
  stack : Z -> Z;       (** words of the executing stack *)
  frame : Z             (** address of the argument [acquire] passes on *)
}.

Record spinlock := mkSpinlock {
  locked : bool;
  lname : string;
  lcpu : option nat;    (** index in [cpus] *)
  pcs : list Z
}.

Definition put_cpus (cs : list cpu) (h : machine) : machine :=
  mkMachine cs (lapicid h) (stack h) (frame h).
Definition set_ncli (n : Z) (c : cpu) : cpu :=
  mkCpu (apicid c) (scheduler c) (started c) n (intena c) (cproc c) (IF c).
Definition set_intena (b : bool) (c : cpu) : cpu :=
  mkCpu (apicid c) (scheduler c) (started c) (ncli c) b (cproc c) (IF c).
Definition set_cproc (p : option nat) (c : cpu) : cpu :=
  mkCpu (apicid c) (scheduler c) (started c) (ncli c) (intena c) p (IF c).
Definition set_IF (b : bool) (c : cpu) : cpu :=
  mkCpu (apicid c) (scheduler c) (started c) (ncli c) (intena c) (cproc c) b.

Definition set_scheduler (k : sched_frame) (c : cpu) : cpu :=
  mkCpu (apicid c) k (started c) (ncli c) (intena c) (cproc c) (IF c).

(** ** The executing CPU *)

(** The hardware knows which CPU executes: the one with this APIC id. *)
Fixpoint find_apic (i : nat) (cs : list cpu) (id : Z) : option nat :=
  match cs with
  | [] => None
  | c :: cs' => if (apicid c =? id)%Z then Some i else find_apic (S i) cs' id
  end.

Definition self (h : machine) : option nat := find_apic 0 (cpus h) (lapicid h).

Definition with_self {A : Type} (f : cpu -> A) : M machine A :=
  let! h := gets id in
  let! c := deref (self h ≫= fun i => cpus h !! i) in
  ret (f c).

Definition upd_self (f : cpu -> cpu) : M machine unit :=
  let! h := gets id in
  let! i := deref (self h) in
  modify (fun h => put_cpus (alter f i (cpus h)) h).

(** Instructions. *)
Definition readeflags_IF : M machine bool := with_self IF.
Definition cli : M machine unit := upd_self (set_IF false).
Definition sti : M machine unit := upd_self (set_IF true).

(** [mycpu] searches [cpus] for the APIC id it reads. *)
Definition mycpu : M machine nat :=
  let! b := readeflags_IF in
  if (b : bool) then panic "mycpu called with interrupts enabled" else
  let! h := gets id in
  match find_apic 0 (cpus h) (lapicid h) with
  | Some i => ret i
  | None => panic "unknown apicid"
  end.

(** A pointer difference of array elements: the index. *)
Definition cpuid : M machine nat := mycpu.

(** Reading and writing through the pointer [mycpu()] returns. *)
Definition mycpu_get {A : Type} (f : cpu -> A) : M machine A :=
  let! i := mycpu in
  let! h := gets id in
  let! c := deref (cpus h !! i) in
  ret (f c).

Definition mycpu_upd (f : cpu -> cpu) : M machine unit :=
  let! i := mycpu in
  modify (fun h => put_cpus (alter f i (cpus h)) h).

(** ** spinlock.c *)

Definition pushcli : M machine unit :=
  let! eflags := readeflags_IF in
  cli ;;;
  let! n := mycpu_get ncli in
  (if (n =? 0)%Z then mycpu_upd (set_intena eflags) else ret tt) ;;;
  let! n' := mycpu_get ncli in
  mycpu_upd (set_ncli (s32 (n' + 1))).

Definition popcli : M machine unit :=
  let! b := readeflags_IF in
  if (b : bool) then panic "popcli - interruptible" else
  let! n := mycpu_get ncli in
  mycpu_upd (set_ncli (s32 (n - 1))) ;;;
  if (s32 (n - 1) <? 0)%Z then panic "popcli" else
  let! n' := mycpu_get ncli in
  let! e := mycpu_get intena in
  if ((n' =? 0)%Z && e) then sti else ret tt.

Definition KERNBASE : Z := 0x80000000.

(** Walks the chain of saved frame pointers; the frame at [ebp] holds the
    caller's [ebp] and then its return address. *)
Fixpoint callerpcs (n : nat) (mem : Z -> Z) (ebp : Z) : list Z :=
  match n with
  | 0 => []
  | S n' =>
      if (ebp =? 0)%Z || (ebp <? KERNBASE)%Z || (ebp =? 0xffffffff)%Z
      then replicate n 0%Z
      else mem (u32 (ebp + 4)) :: callerpcs n' mem (mem ebp)
  end.
Definition getcallerpcs (mem : Z -> Z) (v : Z) : list Z := callerpcs 10 mem (u32 (v - 8)).

Definition initlock (name : string) (lk : spinlock) : spinlock :=
  mkSpinlock false name None (pcs lk).

(** Calls on a lock see the machine and the lock. *)
Definition on_machine {A : Type} (m : M machine A) : M (machine * spinlock) A :=
  zoom fst (fun h s => (h, s.2)) m.
Definition get_lock : M (machine * spinlock) spinlock := gets snd.
Definition upd_lock (f : spinlock -> spinlock) : M (machine * spinlock) unit :=
  modify (fun s => (s.1, f s.2)).

Definition holding : M (machine * spinlock) bool :=
  on_machine pushcli ;;;
  let! lk := get_lock in
  let! r := (if locked lk then
               let! i := on_machine mycpu in ret (bool_decide (lcpu lk = Some i))
             else ret false) in
  on_machine popcli ;;;
  ret r.

Definition acquire : M (machine * spinlock) unit :=
  on_machine pushcli ;;;
  let! h := holding in
  if (h : bool) then panic "acquire" else
  let! lk := get_lock in
  (* while (xchg(&lk->locked, 1) != 0) ; *)
  if locked lk then nofuel else
  upd_lock (fun lk => mkSpinlock true (lname lk) (lcpu lk) (pcs lk)) ;;;
  let! i := on_machine mycpu in
  upd_lock (fun lk => mkSpinlock (locked lk) (lname lk) (Some i) (pcs lk)) ;;;
  let! m := gets fst in
  upd_lock (fun lk => mkSpinlock (locked lk) (lname lk) (lcpu lk) (getcallerpcs (stack m) (frame m))).

Definition release : M (machine * spinlock) unit :=
  let! h := holding in
  if negb h then panic "release" else
  upd_lock (fun lk => mkSpinlock (locked lk) (lname lk) (lcpu lk) (<[0 := 0%Z]> (pcs lk))) ;;;
  upd_lock (fun lk => mkSpinlock (locked lk) (lname lk) None (pcs lk)) ;;;
  upd_lock (fun lk => mkSpinlock false (lname lk) (lcpu lk) (pcs lk)) ;;;
  on_machine popcli.

(** ** Several CPUs

    Where a CPU is in [acquire(&lk) ... release(&lk)], interrupts aside:
    outside, spinning on the [xchg], past it but before [lk->cpu] is written,
    in the critical section, and in [release] after [lk->cpu] is cleared. *)
Inductive lock_pc := Outside | Spinning | Acquired | Critical | Releasing.

Record lock_sys := mkLockSys {
  ls_lock : spinlock;
  ls_pc : nat -> lock_pc
}.

Definition go (i : nat) (pc : lock_pc) (f : nat -> lock_pc) : nat -> lock_pc :=
  fun j => if decide (i = j) then pc else f j.

Inductive lock_step : lock_sys -> lock_sys -> Prop :=
| L_enter i s :
    ls_pc s i = Outside ->
    lock_step s (mkLockSys (ls_lock s) (go i Spinning (ls_pc s)))
| L_xchg i s :   (* xchg stores 1 and returns the old value *)
    ls_pc s i = Spinning ->
    lock_step s (mkLockSys (mkSpinlock true (lname (ls_lock s)) (lcpu (ls_lock s)) (pcs (ls_lock s)))
                   (go i (if locked (ls_lock s) then Spinning else Acquired) (ls_pc s)))
| L_record i s p :
    ls_pc s i = Acquired ->
    lock_step s (mkLockSys (mkSpinlock (locked (ls_lock s)) (lname (ls_lock s)) (Some i) p)
                   (go i Critical (ls_pc s)))
| L_clear i s :
    ls_pc s i = Critical ->
    lock_step s (mkLockSys (mkSpinlock (locked (ls_lock s)) (lname (ls_lock s)) None
                              (<[0 := 0%Z]> (pcs (ls_lock s))))
                   (go i Releasing (ls_pc s)))
| L_store i s :
    ls_pc s i = Releasing ->
    lock_step s (mkLockSys (mkSpinlock false (lname (ls_lock s)) (lcpu (ls_lock s)) (pcs (ls_lock s)))
                   (go i Outside (ls_pc s))).

Definition owns (pc : lock_pc) : bool :=
  match pc with Acquired | Critical | Releasing => true | _ => false end.

(** Words of [pushcli] and [popcli], and the balanced ones. *)
Inductive cliop := Push | Pop.

Fixpoint run_cli (ops : list cliop) : M machine unit :=
  match ops with
  | [] => ret tt
  | Push :: ops' => pushcli ;;; run_cli ops'
  | Pop :: ops' => popcli ;;; run_cli ops'
  end.

Inductive balanced : list cliop -> Prop :=
| Bal_nil : balanced []
| Bal_wrap w : balanced w -> balanced (Push :: w ++ [Pop])
| Bal_app w1 w2 : balanced w1 -> balanced w2 -> balanced (w1 ++ w2).

(** ** Lemmas *)

Definition on_cpu (h : machine) (i : nat) (c : cpu) : Prop :=
  self h = Some i /\ cpus h !! i = Some c.
Definition set_cpu (i : nat) (c : cpu) (h : machine) : machine :=
  put_cpus (<[i := c]> (cpus h)) h.

(** The nesting depth is in range, and interrupts are off inside [pushcli]. *)
Definition cpu_wf (c : cpu) : Prop :=
  (0 <= ncli c < 2 ^ 30)%Z /\ ((0 < ncli c)%Z -> IF c = false).

Definition pushed (c : cpu) : cpu :=
  mkCpu (apicid c) (scheduler c) (started c) (ncli c + 1) (if (ncli c =? 0)%Z then IF c else intena c) (cproc c) false.
Definition popped (c : cpu) : cpu :=
  mkCpu (apicid c) (scheduler c) (started c) (ncli c - 1) (intena c) (cproc c) ((ncli c - 1 =? 0)%Z && intena c).
(** What a [pushcli] and its [popcli] leave behind. *)
Definition touch (c : cpu) : cpu := if (ncli c =? 0)%Z then set_intena (IF c) c else c.

Lemma find_apic_insert cs : forall i k c c' id,
  cs !! k = Some c -> apicid c' = apicid c -> find_apic i (<[k := c']> cs) id = find_apic i cs id.
Proof.
  induction cs as [|x cs IH]; intros i [|k] c c' id Hk Ha; simpl in *; [done..| |].
  - simplify_eq. by rewrite Ha.
  - destruct (apicid x =? id)%Z; [done|]. by eapply IH.
Qed.

Lemma set_cpu_set i c1 c2 h : set_cpu i c1 (set_cpu i c2 h) = set_cpu i c1 h.
Proof. unfold set_cpu, put_cpus. simpl. by rewrite list_insert_insert_eq. Qed.

Lemma set_cpu_same h i c : on_cpu h i c -> set_cpu i c h = h.
Proof. intros [_ Hc]. unfold set_cpu, put_cpus. rewrite list_insert_id by done. by destruct h. Qed.

Lemma on_cpu_set h i c c' : on_cpu h i c -> apicid c' = apicid c -> on_cpu (set_cpu i c' h) i c'.
Proof.
  intros [Hs Hc] Ha. split.
  - unfold self, set_cpu. simpl. rewrite (find_apic_insert _ _ _ c) by done. exact Hs.
  - simpl. apply list_lookup_insert_eq. by eapply lookup_lt_Some.
Qed.

Lemma alter_cpus h i c f :
  on_cpu h i c -> put_cpus (alter f i (cpus h)) h = set_cpu i (f c) h.
Proof.
  intros [_ Hc]. unfold set_cpu, put_cpus. f_equal. apply list_eq. intros j.
  destruct (decide (i = j)) as [<-|].
  - rewrite list_lookup_alter_eq, Hc, list_lookup_insert_eq; [done|]. by eapply lookup_lt_Some.
  - by rewrite list_lookup_alter_ne, list_lookup_insert_ne.
Qed.

Section OneCpu.
Context (h : machine) (i : nat) (c : cpu).
Context (Hon : on_cpu h i c).

Lemma with_self_Ok {A} (f : cpu -> A) : with_self f h = Ok (f c) h.
Proof. destruct Hon as [Hs Hc]. unfold with_self, bind, gets, id. by rewrite Hs; simpl; rewrite Hc. Qed.

Lemma upd_self_Ok f : upd_self f h = Ok tt (set_cpu i (f c) h).
Proof.
  rewrite <- (alter_cpus h i c f Hon). destruct Hon as [Hs _].
  unfold upd_self, bind, gets, id. by rewrite Hs.
Qed.

Lemma mycpu_Ok : IF c = false -> mycpu h = Ok i h.
Proof.
  intros HIF. unfold mycpu, readeflags_IF. rewrite (bind_Ok _ _ _ _ _ (with_self_Ok IF)), HIF.
  destruct Hon as [Hs _]. unfold self in Hs. rewrite bind_gets. unfold id. by rewrite Hs.
Qed.

Lemma mycpu_panic : IF c = true -> mycpu h = Panic "mycpu called with interrupts enabled".
Proof.
  intros HIF. unfold mycpu, readeflags_IF. by rewrite (bind_Ok _ _ _ _ _ (with_self_Ok IF)), HIF.
Qed.

Lemma mycpu_get_Ok {A} (f : cpu -> A) : IF c = false -> mycpu_get f h = Ok (f c) h.
Proof.
  intros HIF. unfold mycpu_get. rewrite (bind_Ok _ _ _ _ _ (mycpu_Ok HIF)), bind_gets.
  destruct Hon as [_ Hc]. unfold id. by rewrite Hc.
Qed.

Lemma mycpu_upd_Ok f : IF c = false -> mycpu_upd f h = Ok tt (set_cpu i (f c) h).
Proof.
  intros HIF. unfold mycpu_upd. rewrite (bind_Ok _ _ _ _ _ (mycpu_Ok HIF)).
  unfold modify. by rewrite (alter_cpus h i c f Hon).
Qed.
End OneCpu.

Lemma pushcli_Ok h i c :
  on_cpu h i c -> cpu_wf c -> pushcli h = Ok tt (set_cpu i (pushed c) h).
Proof.
  intros Hon [Hn _]. unfold pushcli, readeflags_IF, cli.
  rewrite (bind_Ok _ _ _ _ _ (with_self_Ok _ _ _ Hon IF)).
  rewrite (bind_Ok _ _ _ _ _ (upd_self_Ok _ _ _ Hon _)).
  pose proof (on_cpu_set _ _ _ (set_IF false c) Hon eq_refl) as Hon1.
  rewrite (bind_Ok _ _ _ _ _ (mycpu_get_Ok _ _ _ Hon1 ncli eq_refl)). simpl.
  assert ((if (ncli c =? 0)%Z then mycpu_upd (set_intena (IF c)) else ret ())
            (set_cpu i (set_IF false c) h) =
          Ok tt (set_cpu i (set_IF false (touch c)) h)) as Heq.
  { unfold touch. destruct (ncli c =? 0)%Z; [|done].
    by rewrite (mycpu_upd_Ok _ _ _ Hon1 _ eq_refl), set_cpu_set. }
  rewrite (bind_Ok _ _ _ _ _ Heq).
  assert (on_cpu (set_cpu i (set_IF false (touch c)) h) i (set_IF false (touch c))) as Hon2
    by (apply (on_cpu_set _ _ _ _ Hon); unfold touch; by destruct (ncli c =? 0)%Z).
  rewrite (bind_Ok _ _ _ _ _ (mycpu_get_Ok _ _ _ Hon2 ncli eq_refl)).
  rewrite (mycpu_upd_Ok _ _ _ Hon2 _ eq_refl), set_cpu_set. do 2 f_equal.
  rewrite s32_id by (unfold int32, touch; destruct (ncli c =? 0)%Z; simpl; lia).
  unfold touch, pushed, set_ncli. by destruct (ncli c =? 0)%Z.
Qed.

Lemma popcli_Ok h i c :
  on_cpu h i c -> cpu_wf c -> (0 < ncli c)%Z -> popcli h = Ok tt (set_cpu i (popped c) h).
Proof.
  intros Hon [Hn HIF] Hpos. specialize (HIF Hpos). unfold popcli, readeflags_IF.
  rewrite (bind_Ok _ _ _ _ _ (with_self_Ok _ _ _ Hon IF)), HIF.
  rewrite (bind_Ok _ _ _ _ _ (mycpu_get_Ok _ _ _ Hon ncli HIF)).
  rewrite (bind_Ok _ _ _ _ _ (mycpu_upd_Ok _ _ _ Hon _ HIF)).
  rewrite s32_id by (unfold int32; lia). destruct (Z.ltb_spec (ncli c - 1) 0); [lia|].
  set (c1 := set_ncli (ncli c - 1) c).
  assert (on_cpu (set_cpu i c1 h) i c1) as Hon1 by (by apply (on_cpu_set _ _ _ _ Hon)).
  rewrite (bind_Ok _ _ _ _ _ (mycpu_get_Ok _ _ _ Hon1 ncli HIF)).
  rewrite (bind_Ok _ _ _ _ _ (mycpu_get_Ok _ _ _ Hon1 intena HIF)). unfold popped. simpl.
  destruct ((ncli c - 1 =? 0)%Z && intena c).
  - unfold sti. by rewrite (upd_self_Ok _ _ _ Hon1), set_cpu_set.
  - unfold ret, c1, set_ncli. by rewrite HIF.
Qed.

(** A [popcli] without its [pushcli]. *)
Lemma popcli_panic h i c :
  on_cpu h i c -> ncli c = 0%Z -> IF c = false -> popcli h = Panic "popcli".
Proof.
  intros Hon Hn HIF. unfold popcli, readeflags_IF.
  rewrite (bind_Ok _ _ _ _ _ (with_self_Ok _ _ _ Hon IF)), HIF.
  rewrite (bind_Ok _ _ _ _ _ (mycpu_get_Ok _ _ _ Hon ncli HIF)).
  rewrite (bind_Ok _ _ _ _ _ (mycpu_upd_Ok _ _ _ Hon _ HIF)). by rewrite Hn.
Qed.

Lemma pushed_wf c : cpu_wf c -> (ncli c + 1 < 2 ^ 30)%Z -> cpu_wf (pushed c).
Proof. intros [Hn _] Hlt. split; simpl; [lia|done]. Qed.

Lemma popped_wf c : cpu_wf c -> (0 < ncli c)%Z -> cpu_wf (popped c).
Proof.
  intros [Hn HIF] Hpos. split; simpl; [lia|]. intros H. by destruct (Z.eqb_spec (ncli c - 1) 0); [lia|].
Qed.

Lemma popped_pushed c : cpu_wf c -> popped (pushed c) = touch c.
Proof.
  intros [Hn HIF]. unfold popped, pushed, touch. simpl. destruct c as [a k s n e p f]. simpl in *.
  replace (n + 1 - 1)%Z with n by lia. destruct (Z.eqb_spec n 0); simpl; [done|].
  rewrite HIF by lia. by rewrite andb_false_l || done.
Qed.

Lemma touch_idem c : touch (touch c) = touch c.
Proof. unfold touch. destruct (ncli c =? 0)%Z eqn:E; simpl; by rewrite ?E. Qed.

Lemma touch_pushed c : cpu_wf c -> touch (pushed c) = pushed c.
Proof. intros [Hn _]. unfold touch. simpl. by destruct (Z.eqb_spec (ncli c + 1) 0); [lia|]. Qed.

Lemma apicid_touch c : apicid (touch c) = apicid c.
Proof. unfold touch. by destruct (ncli c =? 0)%Z. Qed.

Lemma cpu_wf_touch c : cpu_wf c -> cpu_wf (touch c).
Proof. unfold cpu_wf, touch. destruct (ncli c =? 0)%Z; done. Qed.

Lemma on_machine_Ok {A} (m : M machine A) h lk a h' :
  m h = Ok a h' -> on_machine m (h, lk) = Ok a (h', lk).
Proof. intros H. unfold on_machine, zoom. simpl. by rewrite H. Qed.

Lemma holding_Ok h lk i c :
  on_cpu h i c -> cpu_wf c -> (ncli c + 1 < 2 ^ 30)%Z ->
  holding (h, lk) =
    Ok (locked lk && bool_decide (lcpu lk = Some i)) (set_cpu i (touch c) h, lk).
Proof.
  intros Hon Hwf Hlt. unfold holding.
  rewrite (bind_Ok _ _ _ _ _ (on_machine_Ok _ _ lk _ _ (pushcli_Ok _ _ _ Hon Hwf))).
  pose proof (on_cpu_set _ _ _ (pushed c) Hon eq_refl) as Hon1. unfold get_lock. rewrite bind_gets. simpl.
  assert ((if locked lk then let! j := on_machine mycpu in ret (bool_decide (lcpu lk = Some j)) else ret false)
    (set_cpu i (pushed c) h, lk) = Ok (locked lk && bool_decide (lcpu lk = Some i)) (set_cpu i (pushed c) h, lk)) as Heq.
  { destruct (locked lk); [|done].
    by rewrite (bind_Ok _ _ _ _ _ (on_machine_Ok _ _ lk _ _ (mycpu_Ok _ _ _ Hon1 eq_refl))). }
  rewrite (bind_Ok _ _ _ _ _ Heq).
  rewrite (bind_Ok _ _ _ _ _ (on_machine_Ok _ _ lk _ _ (popcli_Ok _ _ _ Hon1 (pushed_wf _ Hwf Hlt)
    ltac:(destruct Hwf; simpl; lia)))).
  by rewrite set_cpu_set, popped_pushed.
Qed.

(** The lock once taken by CPU [i]. *)
Definition held (h : machine) (i : nat) (lk : spinlock) : spinlock :=
  mkSpinlock true (lname lk) (Some i) (getcallerpcs (stack h) (frame h)).
Definition freed (lk : spinlock) : spinlock :=
  mkSpinlock false (lname lk) None (<[0 := 0%Z]> (pcs lk)).

Lemma acquire_Ok h lk i c :
  on_cpu h i c -> cpu_wf c -> (ncli c + 2 < 2 ^ 30)%Z -> locked lk = false ->
  acquire (h, lk) = Ok tt (set_cpu i (pushed c) h, held h i lk).
Proof.
  intros Hon Hwf Hlt Hlk. unfold acquire.
  rewrite (bind_Ok _ _ _ _ _ (on_machine_Ok _ _ lk _ _ (pushcli_Ok _ _ _ Hon Hwf))).
  pose proof (on_cpu_set _ _ _ (pushed c) Hon eq_refl) as Hon1.
  assert (cpu_wf (pushed c)) as Hwf1 by (apply pushed_wf; [done|lia]).
  rewrite (bind_Ok _ _ _ _ _ (holding_Ok _ lk _ _ Hon1 Hwf1 ltac:(simpl; lia))).
  rewrite Hlk, touch_pushed, set_cpu_set by done. simpl. unfold get_lock. rewrite bind_gets. simpl.
  rewrite Hlk. unfold upd_lock. rewrite bind_modify. simpl.
  erewrite bind_Ok; [|apply on_machine_Ok; by apply (mycpu_Ok _ _ _ Hon1)].
  by rewrite bind_modify, bind_gets.
Qed.

Lemma acquire_again h lk i c :
  on_cpu h i c -> cpu_wf c -> (ncli c + 2 < 2 ^ 30)%Z -> locked lk = true ->
  acquire (h, lk) = if bool_decide (lcpu lk = Some i) then Panic "acquire" else OutOfFuel.
Proof.
  intros Hon Hwf Hlt Hlk. unfold acquire.
  rewrite (bind_Ok _ _ _ _ _ (on_machine_Ok _ _ lk _ _ (pushcli_Ok _ _ _ Hon Hwf))).
  pose proof (on_cpu_set _ _ _ (pushed c) Hon eq_refl) as Hon1.
  assert (cpu_wf (pushed c)) as Hwf1 by (apply pushed_wf; [done|lia]).
  rewrite (bind_Ok _ _ _ _ _ (holding_Ok _ lk _ _ Hon1 Hwf1 ltac:(simpl; lia))).
  rewrite Hlk. simpl. case_bool_decide; [done|]. unfold get_lock. rewrite bind_gets. simpl. by rewrite Hlk.
Qed.

Lemma release_Ok h lk i c :
  on_cpu h i c -> cpu_wf c -> (0 < ncli c)%Z -> (ncli c + 1 < 2 ^ 30)%Z ->
  locked lk = true -> lcpu lk = Some i ->
  release (h, lk) = Ok tt (set_cpu i (popped c) h, freed lk).
Proof.
  intros Hon Hwf Hpos Hlt Hlk Hcpu. unfold release.
  rewrite (bind_Ok _ _ _ _ _ (holding_Ok _ lk _ _ Hon Hwf Hlt)), Hlk, Hcpu.
  rewrite bool_decide_true by done. simpl. unfold upd_lock. rewrite !bind_modify. simpl.
  assert (touch c = c) as Htouch by (unfold touch; destruct (Z.eqb_spec (ncli c) 0); [lia|done]).
  rewrite Htouch, (set_cpu_same _ _ _ Hon).
  by erewrite on_machine_Ok; [|by apply popcli_Ok].
Qed.

Lemma release_panic h lk i c :
  on_cpu h i c -> cpu_wf c -> (ncli c + 1 < 2 ^ 30)%Z ->
  locked lk && bool_decide (lcpu lk = Some i) = false -> release (h, lk) = Panic "release".
Proof.
  intros Hon Hwf Hlt Hlk. unfold release.
  rewrite (bind_Ok _ _ _ _ _ (holding_Ok _ lk _ _ Hon Hwf Hlt)), Hlk. done.
Qed.

(** ** Balanced words *)

Lemma run_cli_app w1 w2 h : run_cli (w1 ++ w2) h = (run_cli w1 ;;; run_cli w2) h.
Proof.
  revert h. induction w1 as [|o w1 IH]; intros h; [done|]. simpl.
  unfold bind in *. destruct o; [destruct (pushcli h)|destruct (popcli h)]; try done; by rewrite IH.
Qed.

Definition settled (w : list cliop) (c : cpu) : cpu := match w with [] => c | _ => touch c end.

Lemma settled_app w1 w2 c : settled w2 (settled w1 c) = settled (w1 ++ w2) c.
Proof. destruct w1, w2; simpl; rewrite ?app_nil_r; by rewrite ?touch_idem. Qed.

Lemma apicid_settled w c : apicid (settled w c) = apicid c.
Proof. destruct w; [done|]. apply apicid_touch. Qed.

Lemma ncli_settled w c : ncli (settled w c) = ncli c.
Proof. destruct w; [done|]. simpl. unfold touch. by destruct (ncli c =? 0)%Z. Qed.

Lemma cpu_wf_settled w c : cpu_wf c -> cpu_wf (settled w c).
Proof. destruct w; [done|]. apply cpu_wf_touch. Qed.

Lemma run_cli_balanced w : balanced w -> forall h i c,
  on_cpu h i c -> cpu_wf c -> (ncli c + Z.of_nat (length w) < 2 ^ 30)%Z ->
  run_cli w h = Ok tt (set_cpu i (settled w c) h).
Proof.
  induction 1 as [|w Hw IH|w1 w2 _ IH1 _ IH2]; intros h i c Hon Hwf Hlen.
  - simpl. by rewrite (set_cpu_same _ _ _ Hon).
  - simpl in *. rewrite length_app in Hlen. simpl in Hlen.
    rewrite (bind_Ok _ _ _ _ _ (pushcli_Ok _ _ _ Hon Hwf)).
    assert (cpu_wf (pushed c)) as Hwf1 by (apply pushed_wf; [done|lia]).
    rewrite run_cli_app. pose proof (on_cpu_set _ _ _ (pushed c) Hon eq_refl) as Hon1.
    rewrite (bind_Ok _ _ _ _ _ (IH _ _ _ Hon1 Hwf1 ltac:(simpl; lia))), set_cpu_set. simpl.
    assert (settled w (pushed c) = pushed c) as -> by (destruct w; [done|by apply touch_pushed]).
    rewrite (bind_Ok _ _ _ _ _ (popcli_Ok _ _ _ Hon1 Hwf1 ltac:(destruct Hwf; simpl; lia))).
    by rewrite set_cpu_set, popped_pushed.
  - rewrite run_cli_app. rewrite length_app in Hlen.
    rewrite (bind_Ok _ _ _ _ _ (IH1 _ _ _ Hon Hwf ltac:(lia))).
    rewrite (IH2 _ i (settled w1 c)).
    + by rewrite set_cpu_set, settled_app.
    + apply (on_cpu_set _ _ _ _ Hon), apicid_settled.
    + by apply cpu_wf_settled.
    + rewrite ncli_settled. lia.
Qed.

(** ** Mutual exclusion *)

Record lock_inv (s : lock_sys) : Prop := {
  li_one : forall i j, owns (ls_pc s i) = true -> owns (ls_pc s j) = true -> i = j;
  li_locked : locked (ls_lock s) = true <-> exists i, owns (ls_pc s i) = true
}.

Lemma lock_inv_step s s' : lock_inv s -> lock_step s s' -> lock_inv s'.
Proof.
  intros [Hone Hlk] Hstep. inversion Hstep as [i s0 Hpc|i s0 Hpc|i s0 p Hpc|i s0 Hpc|i s0 Hpc]; subst; simpl in *.
  - split; simpl.
    + intros j k. unfold go. repeat case_decide; subst; simpl; auto; done.
    + rewrite Hlk. split; intros [j Hj]; exists j; unfold go in *; case_decide; subst; simpl in *; try done.
      by rewrite Hpc in Hj.
  - destruct (locked (ls_lock s)) eqn:El; split; simpl.
    + intros j k. unfold go. repeat case_decide; subst; simpl; auto; done.
    + split; [intros _|done]. destruct (proj1 Hlk eq_refl) as [j Hj]. exists j. unfold go.
      case_decide; [|done]. subst. by rewrite Hpc in Hj.
    + assert (forall j, owns (ls_pc s j) = false) as Hno.
      { intros j. destruct (owns (ls_pc s j)) eqn:E; [|done]. by pose proof (proj2 Hlk (ex_intro _ j E)). }
      intros j k. unfold go. repeat case_decide; subst; simpl; auto; by rewrite Hno.
    + split; [intros _|done]. exists i. unfold go. by rewrite decide_True.
  - split; simpl.
    + intros j k. unfold go. repeat case_decide; subst; simpl; auto; intros; apply Hone; rewrite ?Hpc; done.
    + rewrite Hlk. split; intros [j Hj]; [exists j|exists j]; unfold go in *; case_decide; subst; simpl in *; rewrite ?Hpc; done.
  - split; simpl.
    + intros j k. unfold go. repeat case_decide; subst; simpl; auto; intros; apply Hone; rewrite ?Hpc; done.
    + rewrite Hlk. split; intros [j Hj]; exists j; unfold go in *; case_decide; subst; simpl in *; rewrite ?Hpc; done.
  - split; simpl.
    + intros j k. unfold go. repeat case_decide; subst; simpl; auto; done.
    + split; [done|]. intros [j Hj]. unfold go in Hj. case_decide; [done|].
      exfalso. assert (i = j) by (apply Hone; by rewrite ?Hpc). done.
Qed.

Definition lock_init (name : string) (p : list Z) : lock_sys :=
  mkLockSys (mkSpinlock false name None p) (fun _ => Outside).

Lemma lock_inv_reach s s' : lock_inv s -> rtc lock_step s s' -> lock_inv s'.
Proof. intros Hs Hr. induction Hr; eauto using lock_inv_step. Qed.

(** ** Claims *)

(** A balanced word of [pushcli] and [popcli] runs to its end without a
    panic and leaves the nesting depth and the interrupt flag as they were;
    after a further [pushcli] interrupts are off. *)
Theorem cli_nesting w h i c :
  balanced w -> on_cpu h i c -> cpu_wf c -> (ncli c + Z.of_nat (length w) + 1 < 2 ^ 30)%Z ->
  (exists c', run_cli w h = Ok tt (set_cpu i c' h) /\ ncli c' = ncli c /\ IF c' = IF c /\ cproc c' = cproc c) /\
  (exists c', run_cli (w ++ [Push]) h = Ok tt (set_cpu i c' h) /\ IF c' = false /\ ncli c' = (ncli c + 1)%Z).
Proof.
  intros Hw Hon Hwf Hlen. pose proof (run_cli_balanced _ Hw _ _ _ Hon Hwf ltac:(lia)) as Heq. split.
  - exists (settled w c). split; [done|]. split; [apply ncli_settled|].
    destruct w; [done|]. simpl. unfold touch. by destruct (ncli c =? 0)%Z.
  - exists (pushed (settled w c)). rewrite run_cli_app, (bind_Ok _ _ _ _ _ Heq). simpl.
    assert (on_cpu (set_cpu i (settled w c) h) i (settled w c)) as Hon1
      by (apply (on_cpu_set _ _ _ _ Hon), apicid_settled).
    rewrite (bind_Ok _ _ _ _ _ (pushcli_Ok _ _ _ Hon1 (cpu_wf_settled _ _ Hwf))), set_cpu_set.
    rewrite ncli_settled. done.
Qed.

Definition demo_machine : machine :=
  mkMachine [mkCpu 0 InPriority 1 0 false None true; mkCpu 4 InPriority 1 0 false (Some 3) true] 4 (fun _ => 0%Z) 0.

Lemma cli_nesting_witness :
  exists c', run_cli ([Push; Push; Pop; Pop] ++ [Push]) demo_machine = Ok tt (set_cpu 1 c' demo_machine) /\
    IF c' = false /\ ncli c' = 1%Z.
Proof.
  destruct (cli_nesting [Push; Push; Pop; Pop] demo_machine 1 (mkCpu 4 InPriority 1 0 false (Some 3) true)) as [_ H].
  - apply (Bal_wrap [Push; Pop]), (Bal_wrap []), Bal_nil.
  - split; reflexivity.
  - split; simpl; lia.
  - simpl. lia.
  - exact H.
Defined.

(** The contract of a spin lock on one CPU: a free lock is acquired and
    released with interrupts off in between and restored after; acquiring it
    twice or releasing it unheld is caught by a panic; a lock another CPU
    holds makes the caller spin. *)
Theorem lock_discipline h lk i c :
  on_cpu h i c -> cpu_wf c -> (ncli c + 4 < 2 ^ 30)%Z -> locked lk = false ->
  (exists h1 lk1, acquire (h, lk) = Ok tt (h1, lk1) /\ locked lk1 = true /\ lcpu lk1 = Some i /\
     (exists c1, on_cpu h1 i c1 /\ IF c1 = false)) /\
  (exists c' lk', (acquire ;;; release) (h, lk) = Ok tt (set_cpu i c' h, lk') /\
     locked lk' = false /\ ncli c' = ncli c /\ IF c' = IF c) /\
  (acquire ;;; acquire) (h, lk) = Panic "acquire" /\
  release (h, lk) = Panic "release" /\
  (forall j lk1, locked lk1 = true -> lcpu lk1 = Some j -> j <> i -> acquire (h, lk1) = OutOfFuel).
Proof.
  intros Hon Hwf Hlt Hlk. pose proof (acquire_Ok h lk i c Hon Hwf ltac:(lia) Hlk) as Hacq.
  pose proof (on_cpu_set _ _ _ (pushed c) Hon eq_refl) as Hon1.
  assert (cpu_wf (pushed c)) as Hwf1 by (apply pushed_wf; [done|lia]).
  split_and!.
  - eexists _, _. split_and!; [done..|]. by exists (pushed c).
  - rewrite (bind_Ok _ _ _ _ _ Hacq).
    rewrite (release_Ok _ (held h i lk) _ _ Hon1 Hwf1) by (destruct Hwf; simpl; first [done|lia]).
    rewrite set_cpu_set, popped_pushed by done. eexists _, _. split_and!; [done..| |];
    unfold touch; by destruct (ncli c =? 0)%Z.
  - rewrite (bind_Ok _ _ _ _ _ Hacq).
    rewrite (acquire_again _ (held h i lk) _ _ Hon1 Hwf1) by (simpl; first [done|lia]).
    by rewrite bool_decide_true.
  - apply (release_panic _ _ _ _ Hon Hwf); [lia|]. by rewrite Hlk.
  - intros j lk1 Hl1 Hc1 Hj. rewrite (acquire_again _ lk1 _ _ Hon Hwf) by (first [done|lia]).
    rewrite bool_decide_false by congruence. done.
Qed.

Lemma lock_discipline_witness :
  (acquire ;;; acquire) (demo_machine, mkSpinlock false "ptable" None (replicate 10 0%Z)) = Panic "acquire".
Proof.
  destruct (lock_discipline demo_machine (mkSpinlock false "ptable" None (replicate 10 0%Z)) 1
    (mkCpu 4 InPriority 1 0 false (Some 3) true)) as (_ & _ & H & _).
  - split; reflexivity.
  - split; simpl; lia.
  - simpl. lia.
  - reflexivity.
  - exact H.
Defined.

(** C28 Mutual exclusion: however the CPUs interleave, at most one of them is
    between its successful [xchg] and the store that frees the lock, and the
    lock word is set exactly when one is. *)
Theorem lock_mutual_exclusion name p s :
  rtc lock_step (lock_init name p) s ->
  (forall i j, ls_pc s i = Critical -> ls_pc s j = Critical -> i = j) /\
  (locked (ls_lock s) = false <-> forall i, owns (ls_pc s i) = false).
Proof.
  intros Hr. destruct (lock_inv_reach (lock_init name p) s) as [Hone Hlk]; [split; simpl; [done|]|done|].
  { split; [done|]. by intros [? ?]. }
  split.
  - intros i j Hi Hj. apply Hone; [by rewrite Hi|by rewrite Hj].
  - destruct (locked (ls_lock s)).
    + split; [done|]. intros H. destruct (proj1 Hlk eq_refl) as [i Hi]. by rewrite H in Hi.
    + split; [|done]. intros _ i. destruct (owns (ls_pc s i)) eqn:E; [|done].
      by pose proof (proj2 Hlk (ex_intro _ i E)).
Qed.

Lemma lock_mutual_exclusion_witness :
  exists s, rtc lock_step (lock_init "ptable" []) s /\ ls_pc s 1 = Critical /\
    (forall j, ls_pc s j = Critical -> 1 = j).
Proof.
  assert (exists s, rtc lock_step (lock_init "ptable" []) s /\ ls_pc s 1 = Critical) as (s & Hr & Hs).
  { eexists. split.
    - eapply rtc_l; [apply (L_enter 1); reflexivity|]. eapply rtc_l; [apply (L_xchg 1); reflexivity|].
      eapply rtc_l; [apply (L_record 1 _ []); reflexivity|]. apply rtc_refl.
    - reflexivity. }
  exists s. split; [exact Hr|]. split; [exact Hs|]. intros j Hj.
  exact (proj1 (lock_mutual_exclusion "ptable" [] s Hr) 1 j Hs Hj).
Defined.
