(* ===== verification/Proc.v ===== *)
(** * Processes

    The model of proc.c: the process table, fork, exit, wait, kill, detach,
    priority, sleep and wakeup, the two schedulers and the switches between
    a process and the scheduler of its CPU.

    [swtch] is where control passes between kernel threads.  A process that
    calls [sched] saves where it will resume (its [context]) and the CPU goes
    on in its scheduler, after the [swtch] there, until the scheduler has
    released [ptable.lock]; the call itself has then not returned ([Blocked]).
    The scheduler's [swtch] runs the saved continuation of the process it
    picked.  The queues are any implementation of [Queues], the services of
    memory, files and log any implementation of [Services]. *)

From stdpp Require Import base gmap list strings.
From Stdlib Require Import ZArith Lia.
From S2P Require Import Prelude SchedSpec Spinlock.

(** ** Data *)

Inductive procstate := UNUSED | EMBRYO | SLEEPING | RUNNABLE | RUNNING | ZOMBIE.
#[export] Instance procstate_eq_dec : EqDecision procstate.
Proof. solve_decision. Defined.

(** A sleep channel: nothing, the address of a process, another address. *)
Inductive channel := NoChan | ProcChan (p : nat) | AddrChan (a : Z).
#[export] Instance channel_eq_dec : EqDecision channel.
Proof. solve_decision. Defined.

Definition chan_of (p : procp) : channel :=
  match p with Some i => ProcChan i | None => NoChan end.

(** [struct trapframe], without its padding. *)
Record trapframe := mkTrapframe {
  tf_edi : Z; tf_esi : Z; tf_ebp : Z; tf_oesp : Z; tf_ebx : Z; tf_edx : Z; tf_ecx : Z; tf_eax : Z;
  tf_gs : Z; tf_fs : Z; tf_es : Z; tf_ds : Z; tf_trapno : Z;
  tf_err : Z; tf_eip : Z; tf_cs : Z; tf_eflags : Z;
  tf_esp : Z; tf_ss : Z
}.
Definition tf_zero : trapframe := mkTrapframe 0 0 0 0 0 0 0 0 0 0 0 0 0 0 0 0 0 0 0.
Definition set_eax (v : Z) (t : trapframe) : trapframe :=
  mkTrapframe (tf_edi t) (tf_esi t) (tf_ebp t) (tf_oesp t) (tf_ebx t) (tf_edx t) (tf_ecx t) v
    (tf_gs t) (tf_fs t) (tf_es t) (tf_ds t) (tf_trapno t)
    (tf_err t) (tf_eip t) (tf_cs t) (tf_eflags t) (tf_esp t) (tf_ss t).

(** The lock argument of [sleep]. *)
Inductive lockp := NullLock | PtableLock | OtherLock (n : nat).

(** Where a process that was switched away from resumes.  [AfterWait] is the
    loop of [wait] (with a status pointer or a null one), [AfterCall] the code
    of another caller of [sleep]. *)
Inductive after_sleep := AfterWait (status : bool) | AfterCall.
Inductive resume_at :=
| AtForkret
| AtYield
| AtSleep (lk : lockp) (k : after_sleep)
| AtExit.

(** A saved kernel context; [cx_intena] is the local of [sched]. *)
Record context := mkContext { cx_at : resume_at; cx_intena : bool }.

Record proc := mkProc {
  sz : Z;
  pgdir : Z;
  kstack : Z;
  state : procstate;
  pid : Z;
  parent : procp;
  tfp : Z;                       (** the pointer [tf] *)
  tf : trapframe;                (** and what it points to *)
  ctxp : Z;                      (** the pointer [context] *)
  ctx : context;                 (** and what it points to *)
  chan : channel;
  killed : bool;
  ofile : list (option nat);
  cwd : option nat;
  name : string;
  status : Z;
  priority : Z;
  accumulator : Z;
  counter : Z
}.

Definition NOFILE : nat := 16.
Definition KSTACKSIZE : Z := 4096.
Definition sizeof_trapframe : Z := 76.
Definition sizeof_context : Z := 20.

(** The table before the first process: the zeroed .bss. *)
Definition proc_zero : proc :=
  mkProc 0 0 0 UNUSED 0 None 0 tf_zero 0 (mkContext AtForkret false) NoChan false
    (replicate NOFILE None) None "" 0 0 0 0.

Definition set_sz (x : Z) (p : proc) : proc :=
  mkProc x (pgdir p) (kstack p) (state p) (pid p) (parent p) (tfp p) (tf p) (ctxp p) (ctx p) (chan p)
    (killed p) (ofile p) (cwd p) (name p) (status p) (priority p) (accumulator p) (counter p).
Definition set_pgdir (x : Z) (p : proc) : proc :=
  mkProc (sz p) x (kstack p) (state p) (pid p) (parent p) (tfp p) (tf p) (ctxp p) (ctx p) (chan p)
    (killed p) (ofile p) (cwd p) (name p) (status p) (priority p) (accumulator p) (counter p).
Definition set_kstack (x : Z) (p : proc) : proc :=
  mkProc (sz p) (pgdir p) x (state p) (pid p) (parent p) (tfp p) (tf p) (ctxp p) (ctx p) (chan p)
    (killed p) (ofile p) (cwd p) (name p) (status p) (priority p) (accumulator p) (counter p).
Definition set_state (x : procstate) (p : proc) : proc :=
  mkProc (sz p) (pgdir p) (kstack p) x (pid p) (parent p) (tfp p) (tf p) (ctxp p) (ctx p) (chan p)
    (killed p) (ofile p) (cwd p) (name p) (status p) (priority p) (accumulator p) (counter p).
Definition set_pid (x : Z) (p : proc) : proc :=
  mkProc (sz p) (pgdir p) (kstack p) (state p) x (parent p) (tfp p) (tf p) (ctxp p) (ctx p) (chan p)
    (killed p) (ofile p) (cwd p) (name p) (status p) (priority p) (accumulator p) (counter p).
Definition set_pparent (x : procp) (p : proc) : proc :=
  mkProc (sz p) (pgdir p) (kstack p) (state p) (pid p) x (tfp p) (tf p) (ctxp p) (ctx p) (chan p)
    (killed p) (ofile p) (cwd p) (name p) (status p) (priority p) (accumulator p) (counter p).
Definition set_tfp (x : Z) (p : proc) : proc :=
  mkProc (sz p) (pgdir p) (kstack p) (state p) (pid p) (parent p) x (tf p) (ctxp p) (ctx p) (chan p)
    (killed p) (ofile p) (cwd p) (name p) (status p) (priority p) (accumulator p) (counter p).
Definition set_tf (x : trapframe) (p : proc) : proc :=
  mkProc (sz p) (pgdir p) (kstack p) (state p) (pid p) (parent p) (tfp p) x (ctxp p) (ctx p) (chan p)
    (killed p) (ofile p) (cwd p) (name p) (status p) (priority p) (accumulator p) (counter p).
Definition set_ctxp (x : Z) (p : proc) : proc :=
  mkProc (sz p) (pgdir p) (kstack p) (state p) (pid p) (parent p) (tfp p) (tf p) x (ctx p) (chan p)
    (killed p) (ofile p) (cwd p) (name p) (status p) (priority p) (accumulator p) (counter p).
Definition set_ctx (x : context) (p : proc) : proc :=
  mkProc (sz p) (pgdir p) (kstack p) (state p) (pid p) (parent p) (tfp p) (tf p) (ctxp p) x (chan p)
    (killed p) (ofile p) (cwd p) (name p) (status p) (priority p) (accumulator p) (counter p).
Definition set_chan (x : channel) (p : proc) : proc :=
  mkProc (sz p) (pgdir p) (kstack p) (state p) (pid p) (parent p) (tfp p) (tf p) (ctxp p) (ctx p) x
    (killed p) (ofile p) (cwd p) (name p) (status p) (priority p) (accumulator p) (counter p).
Definition set_killed (x : bool) (p : proc) : proc :=
  mkProc (sz p) (pgdir p) (kstack p) (state p) (pid p) (parent p) (tfp p) (tf p) (ctxp p) (ctx p) (chan p)
    x (ofile p) (cwd p) (name p) (status p) (priority p) (accumulator p) (counter p).
Definition set_ofile (x : list (option nat)) (p : proc) : proc :=
  mkProc (sz p) (pgdir p) (kstack p) (state p) (pid p) (parent p) (tfp p) (tf p) (ctxp p) (ctx p) (chan p)
    (killed p) x (cwd p) (name p) (status p) (priority p) (accumulator p) (counter p).
Definition set_cwd (x : option nat) (p : proc) : proc :=
  mkProc (sz p) (pgdir p) (kstack p) (state p) (pid p) (parent p) (tfp p) (tf p) (ctxp p) (ctx p) (chan p)
    (killed p) (ofile p) x (name p) (status p) (priority p) (accumulator p) (counter p).
Definition set_name (x : string) (p : proc) : proc :=
  mkProc (sz p) (pgdir p) (kstack p) (state p) (pid p) (parent p) (tfp p) (tf p) (ctxp p) (ctx p) (chan p)
    (killed p) (ofile p) (cwd p) x (status p) (priority p) (accumulator p) (counter p).
Definition set_status (x : Z) (p : proc) : proc :=
  mkProc (sz p) (pgdir p) (kstack p) (state p) (pid p) (parent p) (tfp p) (tf p) (ctxp p) (ctx p) (chan p)
    (killed p) (ofile p) (cwd p) (name p) x (priority p) (accumulator p) (counter p).
Definition set_prio (x : Z) (p : proc) : proc :=
  mkProc (sz p) (pgdir p) (kstack p) (state p) (pid p) (parent p) (tfp p) (tf p) (ctxp p) (ctx p) (chan p)
    (killed p) (ofile p) (cwd p) (name p) (status p) x (accumulator p) (counter p).
Definition set_acc (x : Z) (p : proc) : proc :=
  mkProc (sz p) (pgdir p) (kstack p) (state p) (pid p) (parent p) (tfp p) (tf p) (ctxp p) (ctx p) (chan p)
    (killed p) (ofile p) (cwd p) (name p) (status p) (priority p) x (counter p).

(** ** Services of the other components *)
Class Services (R : Type) := {
  svc_kalloc : M R Z;                         (** 0 when there is no page *)
  svc_kfree : Z -> M R unit;
  svc_setupkvm : M R Z;                       (** 0 when out of memory *)
  svc_inituvm : Z -> M R unit;                (** loads initcode *)
  svc_copyuvm : Z -> Z -> M R Z;              (** 0 when out of memory *)
  svc_freevm : Z -> M R unit;
  svc_allocuvm : Z -> Z -> Z -> M R Z;
  svc_deallocuvm : Z -> Z -> Z -> M R Z;
  svc_switchuvm : Z -> Z -> M R unit;         (** kstack and pgdir of the process *)
  svc_switchkvm : M R unit;
  svc_filedup : nat -> M R nat;
  svc_fileclose : nat -> M R unit;
  svc_idup : option nat -> M R (option nat);
  svc_iput : option nat -> M R unit;
  svc_namei_root : M R (option nat);
  svc_begin_op : M R unit;
  svc_end_op : M R unit;
  svc_iinit : Z -> M R unit;
  svc_initlog : Z -> M R unit
}.

Section Kernel.
Context {Q R : Type} `{HQ : Queues Q} `{HR : Services R}.

Record kernel := mkKernel {
  hw : machine;
  ptable_lock : spinlock;
  ptable : list proc;
  nextpid : Z;
  initproc : procp;
  first : bool;                  (** the static of [forkret] *)
  locks : list spinlock;         (** the locks other callers of [sleep] hold *)
  qs : Q;
  rest : R
}.

Definition put_hw (x : machine) (s : kernel) : kernel :=
  mkKernel x (ptable_lock s) (ptable s) (nextpid s) (initproc s) (first s) (locks s) (qs s) (rest s).
Definition put_hwl (x : machine * spinlock) (s : kernel) : kernel :=
  mkKernel x.1 x.2 (ptable s) (nextpid s) (initproc s) (first s) (locks s) (qs s) (rest s).
Definition put_ptable (x : list proc) (s : kernel) : kernel :=
  mkKernel (hw s) (ptable_lock s) x (nextpid s) (initproc s) (first s) (locks s) (qs s) (rest s).
Definition put_nextpid (x : Z) (s : kernel) : kernel :=
  mkKernel (hw s) (ptable_lock s) (ptable s) x (initproc s) (first s) (locks s) (qs s) (rest s).
Definition put_initproc (x : procp) (s : kernel) : kernel :=
  mkKernel (hw s) (ptable_lock s) (ptable s) (nextpid s) x (first s) (locks s) (qs s) (rest s).
Definition put_first (x : bool) (s : kernel) : kernel :=
  mkKernel (hw s) (ptable_lock s) (ptable s) (nextpid s) (initproc s) x (locks s) (qs s) (rest s).
Definition put_locks (x : list spinlock) (s : kernel) : kernel :=
  mkKernel (hw s) (ptable_lock s) (ptable s) (nextpid s) (initproc s) (first s) x (qs s) (rest s).
Definition put_qs (x : Q) (s : kernel) : kernel :=
  mkKernel (hw s) (ptable_lock s) (ptable s) (nextpid s) (initproc s) (first s) (locks s) x (rest s).
Definition put_rest (x : R) (s : kernel) : kernel :=
  mkKernel (hw s) (ptable_lock s) (ptable s) (nextpid s) (initproc s) (first s) (locks s) (qs s) x.

(** *** Access to the parts of the state *)

Definition on_hw {A} (m : M machine A) : M kernel A := zoom hw put_hw m.
Definition on_rest {A} (m : M R A) : M kernel A := zoom rest put_rest m.

Definition acc_of (t : list proc) (i : nat) : Z :=
  match t !! i with Some p => accumulator p | None => 0%Z end.

(** The queues read accumulators through [getAccumulator]. *)
Definition on_queue {A} (m : (nat -> Z) -> M Q A) : M kernel A :=
  fun s => zoom qs put_qs (m (acc_of (ptable s))) s.

Definition acquire_ptable : M kernel unit := zoom (fun s => (hw s, ptable_lock s)) put_hwl acquire.
Definition release_ptable : M kernel unit := zoom (fun s => (hw s, ptable_lock s)) put_hwl release.
Definition holding_ptable : M kernel bool := zoom (fun s => (hw s, ptable_lock s)) put_hwl holding.

(** A lock of another component. *)
Definition on_lock {A} (n : nat) (m : M (machine * spinlock) A) : M kernel A :=
  fun s =>
    match locks s !! n with
    | Some lk =>
        zoom (fun s => (hw s, lk)) (fun x s => put_hw x.1 (put_locks (<[n := x.2]> (locks s)) s)) m s
    | None => Fault
    end.

Definition get_proc {A} (p : procp) (f : proc -> A) : M kernel A :=
  let! s := gets id in
  let! x := deref (p ≫= fun i => ptable s !! i) in
  ret (f x).
Definition upd_proc (p : procp) (f : proc -> proc) : M kernel unit :=
  let! x := get_proc p id in
  let! i := deref p in
  modify (fun s => put_ptable (<[i := f x]> (ptable s)) s).

Definition procs : list nat := seq 0 64.

(** ** proc.c *)

Definition getAccumulator (p : procp) : M kernel Z := get_proc p accumulator.

Definition get_min : M kernel Z :=
  let! e := on_queue (fun _ => pq_isEmpty_op) in
  if (e : bool) then ret 0%Z else
  let! e' := on_queue (fun _ => rpholder_isEmpty_op) in
  if (e' : bool) then
    let! k := on_queue (fun _ => pq_getMinAccumulator_op) in
    ret (default 0%Z k)
  else
    let! k1 := on_queue (fun _ => pq_getMinAccumulator_op) in
    let! k2 := on_queue rpholder_getMinAccumulator_op in
    if (default 0 k1 <? default 0 k2)%Z then ret (default 0%Z k1) else ret (default 0%Z k2).

Definition pinit : M kernel unit :=
  modify (fun s => put_hwl (hw s, initlock "ptable" (ptable_lock s)) s).

Definition myproc : M kernel procp :=
  on_hw pushcli ;;;
  let! p := on_hw (mycpu_get cproc) in
  on_hw popcli ;;;
  ret p.

(** [pq.put(p)], its result ignored. *)
Definition pq_put_proc (p : procp) : M kernel unit :=
  on_queue (fun acc => pq_put_op acc p) ;;; ret tt.

Definition allocproc : M kernel procp :=
  acquire_ptable ;;;
  let! r := scan procs (fun i =>
    let! st := get_proc (Some i) state in
    ret (if decide (st = UNUSED) then Some i else None)) in
  match r with
  | None => release_ptable ;;; ret None
  | Some i =>
      let p := Some i in
      upd_proc p (set_state EMBRYO) ;;;
      let! n := gets nextpid in
      upd_proc p (set_pid n) ;;;
      modify (put_nextpid (s32 (n + 1))) ;;;
      release_ptable ;;;
      let! ks := on_rest svc_kalloc in
      upd_proc p (set_kstack ks) ;;;
      if (ks =? 0)%Z then upd_proc p (set_state UNUSED) ;;; ret None
      else
        let sp := (ks + KSTACKSIZE - sizeof_trapframe)%Z in
        upd_proc p (set_tfp sp) ;;;
        (* the word below the trap frame is the return address trapret *)
        let sp := (sp - 4 - sizeof_context)%Z in
        upd_proc p (set_ctxp sp) ;;;
        upd_proc p (set_ctx (mkContext AtForkret false)) ;;;
        ret p
  end.

Definition PGSIZE : Z := 4096.
Definition FL_IF : Z := 0x200.
Definition SEG_UCODE : Z := 3.
Definition SEG_UDATA : Z := 4.
Definition DPL_USER : Z := 3.

(** [memset] and the assignments to [tf] in [userinit]. *)
Definition user_tf : trapframe :=
  let ds := Z.lor (Z.shiftl SEG_UDATA 3) DPL_USER in
  mkTrapframe 0 0 0 0 0 0 0 0 0 0 ds ds 0 0 0 (Z.lor (Z.shiftl SEG_UCODE 3) DPL_USER) FL_IF PGSIZE ds.

(** [safestrcpy(dst, src, 16)] on the string the bytes spell. *)
Definition safestrcpy16 (s : string) : string := String.substring 0 15 s.

Definition userinit : M kernel unit :=
  let! p := allocproc in
  modify (put_initproc p) ;;;
  let! pg := on_rest svc_setupkvm in
  upd_proc p (set_pgdir pg) ;;;
  if (pg =? 0)%Z then panic "userinit: out of memory?" else
  on_rest (svc_inituvm pg) ;;;
  upd_proc p (set_sz PGSIZE) ;;;
  upd_proc p (set_tf user_tf) ;;;
  upd_proc p (set_name (safestrcpy16 "initcode")) ;;;
  let! root := on_rest svc_namei_root in
  upd_proc p (set_cwd root) ;;;
  acquire_ptable ;;;
  upd_proc p (set_state RUNNABLE) ;;;
  upd_proc p (set_prio 5) ;;;
  let! k := get_min in
  upd_proc p (set_acc k) ;;;
  pq_put_proc p ;;;
  release_ptable.

Definition growproc (n : Z) : M kernel Z :=
  let! curproc := myproc in
  let! sz0 := get_proc curproc sz in
  let! pg := get_proc curproc pgdir in
  let! r :=
    (if (0 <? n)%Z then on_rest (svc_allocuvm pg sz0 (u32 (sz0 + n)))
     else if (n <? 0)%Z then on_rest (svc_deallocuvm pg sz0 (u32 (sz0 + n)))
     else ret sz0) in
  if negb (n =? 0)%Z && (r =? 0)%Z then ret (-1)%Z else
  upd_proc curproc (set_sz r) ;;;
  let! ks := get_proc curproc kstack in
  on_rest (svc_switchuvm ks pg) ;;;
  ret 0%Z.

Definition files : list nat := seq 0 16.

Definition fork : M kernel Z :=
  let! curproc := myproc in
  let! np := allocproc in
  if bool_decide (np = None) then ret (-1)%Z else
  let! pg := get_proc curproc pgdir in
  let! size := get_proc curproc sz in
  let! npg := on_rest (svc_copyuvm pg size) in
  upd_proc np (set_pgdir npg) ;;;
  if (npg =? 0)%Z then
    let! ks := get_proc np kstack in
    on_rest (svc_kfree ks) ;;;
    upd_proc np (set_kstack 0) ;;;
    upd_proc np (set_state UNUSED) ;;;
    ret (-1)%Z
  else
  upd_proc np (set_sz size) ;;;
  upd_proc np (set_pparent curproc) ;;;
  let! t := get_proc curproc tf in
  upd_proc np (set_tf t) ;;;
  upd_proc np (fun p => set_tf (set_eax 0 (tf p)) p) ;;;
  foreach files (fun i =>
    let! f := get_proc curproc (fun p => ofile p !! i) in
    match f with
    | Some (Some f) =>
        let! f' := on_rest (svc_filedup f) in
        upd_proc np (fun p => set_ofile (<[i := Some f']> (ofile p)) p)
    | _ => ret tt
    end) ;;;
  let! c := get_proc curproc cwd in
  let! c' := on_rest (svc_idup c) in
  upd_proc np (set_cwd c') ;;;
  let! nm := get_proc curproc name in
  upd_proc np (set_name (safestrcpy16 nm)) ;;;
  let! n := get_proc np pid in
  acquire_ptable ;;;
  upd_proc np (set_state RUNNABLE) ;;;
  upd_proc np (set_prio 5) ;;;
  let! k := get_min in
  upd_proc np (set_acc k) ;;;
  pq_put_proc np ;;;
  release_ptable ;;;
  ret n.

Definition wakeup1 (c : channel) : M kernel unit :=
  foreach procs (fun i =>
    let p := Some i in
    let! st := get_proc p state in
    let! ch := get_proc p chan in
    if decide (st = SLEEPING) then
      if decide (ch = c) then
        upd_proc p (set_state RUNNABLE) ;;;
        let! k := get_min in
        upd_proc p (set_acc k) ;;;
        pq_put_proc p
      else ret tt
    else ret tt).

Definition wakeup (c : channel) : M kernel unit :=
  acquire_ptable ;;; wakeup1 c ;;; release_ptable.

(** *** Switching *)

(** [Priority_Scheduler] after its [swtch], with its local [p]. *)
Definition Priority_Scheduler_tail (p : procp) : M kernel unit :=
  on_rest svc_switchkvm ;;;
  on_hw (mycpu_upd (set_cproc None)) ;;;
  on_queue (fun _ => rpholder_remove_op p) ;;;
  let! st := get_proc p state in
  (if decide (st = RUNNABLE) then
     upd_proc p (fun x => set_acc (s64 (accumulator x + priority x)) x) ;;;
     pq_put_proc p
   else ret tt) ;;;
  release_ptable.

(** [Round_Robin_Scheduler] after its [swtch]. *)
Definition Round_Robin_Scheduler_tail (p : procp) : M kernel unit :=
  on_rest svc_switchkvm ;;;
  let! st := get_proc p state in
  (if decide (st = RUNNABLE) then on_queue (fun _ => rrq_enqueue_op p) ;;; ret tt else ret tt) ;;;
  on_hw (mycpu_upd (set_cproc None)) ;;;
  release_ptable.

(** The thread leaves the CPU: the call has not returned. *)
Definition leave {A} : M kernel A := fun s => Blocked s.

(** [sched], with the place where the caller resumes.  The [swtch] saves the
    context of the process and continues in the scheduler of this CPU. *)
Definition sched {A} (k : resume_at) : M kernel A :=
  let! p := myproc in
  let! h := holding_ptable in
  if negb h then panic "sched ptable.lock" else
  let! n := on_hw (mycpu_get ncli) in
  if negb (n =? 1)%Z then panic "sched locks" else
  let! st := get_proc p state in
  if decide (st = RUNNING) then panic "sched running" else
  let! fl := on_hw readeflags_IF in
  if (fl : bool) then panic "sched interruptible" else
  let! ie := on_hw (mycpu_get intena) in
  upd_proc p (set_ctx (mkContext k ie)) ;;;
  let! fr := on_hw (mycpu_get scheduler) in
  match fr with
  | InPriority => Priority_Scheduler_tail p
  | InRoundRobin => Round_Robin_Scheduler_tail p
  end ;;;
  leave.

Definition yield {A} : M kernel A :=
  acquire_ptable ;;;
  let! p := myproc in
  upd_proc p (set_state RUNNABLE) ;;;
  let! p1 := myproc in
  on_queue (fun _ => rpholder_remove_op p1) ;;;
  let! p2 := myproc in
  pq_put_proc p2 ;;;
  sched AtYield.

(** [sleep]; [k] is what its caller does when it returns. *)
Definition sleep {A} (c : channel) (lk : lockp) (k : after_sleep) : M kernel A :=
  let! p := myproc in
  if bool_decide (p = None) then panic "sleep" else
  match lk with
  | NullLock => panic "sleep without lk"
  | PtableLock => ret tt
  | OtherLock n => acquire_ptable ;;; on_lock n release
  end ;;;
  upd_proc p (set_chan c) ;;;
  upd_proc p (set_state SLEEPING) ;;;
  on_queue (fun _ => rpholder_remove_op p) ;;;
  sched (AtSleep lk k).

Definition exit {A} (st : Z) : M kernel A :=
  let! curproc := myproc in
  upd_proc curproc (set_status st) ;;;
  let! ip := gets initproc in
  if bool_decide (curproc = ip) then panic "init exiting" else
  foreach files (fun fd =>
    let! f := get_proc curproc (fun p => ofile p !! fd) in
    match f with
    | Some (Some f) =>
        on_rest (svc_fileclose f) ;;;
        upd_proc curproc (fun p => set_ofile (<[fd := None]> (ofile p)) p)
    | _ => ret tt
    end) ;;;
  on_rest svc_begin_op ;;;
  let! c := get_proc curproc cwd in
  on_rest (svc_iput c) ;;;
  on_rest svc_end_op ;;;
  upd_proc curproc (set_cwd None) ;;;
  acquire_ptable ;;;
  let! par := get_proc curproc parent in
  wakeup1 (chan_of par) ;;;
  foreach procs (fun i =>
    let! pp := get_proc (Some i) parent in
    if bool_decide (pp = curproc) then
      let! ip := gets initproc in
      upd_proc (Some i) (set_pparent ip) ;;;
      let! st' := get_proc (Some i) state in
      if decide (st' = ZOMBIE) then wakeup1 (chan_of ip) else ret tt
    else ret tt) ;;;
  upd_proc curproc (set_state ZOMBIE) ;;;
  sched AtExit.

(** The body of the loop of [wait], from holding [ptable.lock]: [status] says
    whether the pointer argument is not null; the result is the return value
    and what is stored through the pointer. *)
Definition wait_loop (status_ptr : bool) : M kernel (Z * option Z) :=
  let! curproc := myproc in
  let! r := scan procs (fun i =>
    let p := Some i in
    let! pp := get_proc p parent in
    if bool_decide (pp = curproc) then
      let! st := get_proc p state in
      if decide (st = ZOMBIE) then
        let! n := get_proc p pid in
        let! ks := get_proc p kstack in
        on_rest (svc_kfree ks) ;;;
        upd_proc p (set_kstack 0) ;;;
        let! pg := get_proc p pgdir in
        on_rest (svc_freevm pg) ;;;
        upd_proc p (set_pid 0) ;;;
        upd_proc p (set_pparent None) ;;;
        upd_proc p (set_name "") ;;;
        upd_proc p (set_killed false) ;;;
        upd_proc p (set_state UNUSED) ;;;
        let! v := get_proc p status in
        ret (Some (n, if status_ptr then Some v else None))
      else ret None
    else ret None) in
  match r with
  | Some res => release_ptable ;;; ret res
  | None =>
      let! s := gets id in
      let havekids := existsb (fun p => bool_decide (parent p = curproc)) (ptable s) in
      let! k := get_proc curproc killed in
      if negb havekids || k then release_ptable ;;; ret ((-1)%Z, None)
      else sleep (chan_of curproc) PtableLock (AfterWait status_ptr)
  end.

Definition wait (status_ptr : bool) : M kernel (Z * option Z) :=
  acquire_ptable ;;; wait_loop status_ptr.

Definition ROOTDEV : Z := 1.

Definition forkret : M kernel unit :=
  release_ptable ;;;
  let! f := gets first in
  if (f : bool) then
    modify (put_first false) ;;;
    on_rest (svc_iinit ROOTDEV) ;;;
    on_rest (svc_initlog ROOTDEV)
  else ret tt.

(** What a process is doing once the scheduler has switched to it and the
    code after its own [swtch] has run. *)
Inductive resumed := RForked | RYielded | RSlept | RWaited (r : Z * option Z).

(** The code after [swtch] in [sched], and then after [sched] in its caller. *)
Definition resume (p : procp) : M kernel resumed :=
  let! cx := get_proc p ctx in
  match cx_at cx with
  | AtForkret => forkret ;;; ret RForked
  | AtYield =>
      on_hw (mycpu_upd (set_intena (cx_intena cx))) ;;;
      release_ptable ;;;
      ret RYielded
  | AtSleep lk k =>
      on_hw (mycpu_upd (set_intena (cx_intena cx))) ;;;
      upd_proc p (set_chan NoChan) ;;;
      match lk with
      | OtherLock n => release_ptable ;;; on_lock n acquire
      | _ => ret tt
      end ;;;
      match k with
      | AfterWait st => let! r := wait_loop st in ret (RWaited r)
      | AfterCall => ret RSlept
      end
  | AtExit =>
      on_hw (mycpu_upd (set_intena (cx_intena cx))) ;;;
      panic "zombie exit"
  end.

(** [Priority_Scheduler] up to its [swtch] and on into the process it picks. *)
Definition Priority_Scheduler : M kernel (option (nat * resumed)) :=
  acquire_ptable ;;;
  let! e := on_queue (fun _ => pq_isEmpty_op) in
  if (e : bool) then release_ptable ;;; ret None else
  let! p := on_queue (fun _ => pq_extractMin_op) in
  let! st := get_proc p state in
  if decide (st = RUNNABLE) then
    on_hw (mycpu_upd (set_cproc p)) ;;;
    let! ks := get_proc p kstack in
    let! pg := get_proc p pgdir in
    on_rest (svc_switchuvm ks pg) ;;;
    upd_proc p (set_state RUNNING) ;;;
    on_queue (fun _ => rpholder_add_op p) ;;;
    on_hw (mycpu_upd (set_scheduler InPriority)) ;;;
    let! r := resume p in
    let! i := deref p in
    ret (Some (i, r))
  else release_ptable ;;; ret None.

Definition Round_Robin_Scheduler : M kernel (option (nat * resumed)) :=
  on_hw sti ;;;
  let! e := on_queue (fun _ => rrq_isEmpty_op) in
  if (e : bool) then ret None else
  acquire_ptable ;;;
  let! p := on_queue (fun _ => rrq_dequeue_op) in
  let! st := get_proc p state in
  if decide (st = RUNNABLE) then
    on_hw (mycpu_upd (set_cproc p)) ;;;
    let! ks := get_proc p kstack in
    let! pg := get_proc p pgdir in
    on_rest (svc_switchuvm ks pg) ;;;
    upd_proc p (set_state RUNNING) ;;;
    on_queue (fun _ => rpholder_add_op p) ;;;
    on_hw (mycpu_upd (set_scheduler InRoundRobin)) ;;;
    let! r := resume p in
    let! i := deref p in
    ret (Some (i, r))
  else release_ptable ;;; ret None.

(** [scheduler] before its loop, and one round of the loop. *)
Definition scheduler_start : M kernel unit := on_hw (mycpu_upd (set_cproc None)).
Definition scheduler_round : M kernel (option (nat * resumed)) :=
  on_hw sti ;;; Priority_Scheduler.

Definition kill (n : Z) : M kernel Z :=
  acquire_ptable ;;;
  let! r := scan procs (fun i =>
    let p := Some i in
    let! m := get_proc p pid in
    if (m =? n)%Z then
      upd_proc p (set_killed true) ;;;
      let! st := get_proc p state in
      (if decide (st = SLEEPING) then
         upd_proc p (set_state RUNNABLE) ;;;
         let! k := get_min in
         upd_proc p (set_acc k) ;;;
         pq_put_proc p
       else ret tt) ;;;
      ret (Some tt)
    else ret None) in
  release_ptable ;;;
  ret (match r with Some _ => 0 | None => -1 end)%Z.

Definition detach (n : Z) : M kernel Z :=
  let! curproc := myproc in
  acquire_ptable ;;;
  let! r := scan procs (fun i =>
    let p := Some i in
    let! m := get_proc p pid in
    let! pp := get_proc p parent in
    if (m =? n)%Z && bool_decide (pp = curproc) then
      let! ip := gets initproc in
      upd_proc p (set_pparent ip) ;;;
      ret (Some tt)
    else ret None) in
  release_ptable ;;;
  ret (match r with Some _ => 0 | None => -1 end)%Z.

Definition set_priority (prio : Z) : M kernel unit :=
  acquire_ptable ;;;
  let! p := myproc in
  upd_proc p (set_prio prio) ;;;
  release_ptable.

(** What [procdump] prints for a process, the call stack of a sleeper aside. *)
Definition state_name (st : procstate) : string :=
  match st with
  | UNUSED => "unused" | EMBRYO => "embryo" | SLEEPING => "sleep " | RUNNABLE => "runble"
  | RUNNING => "run " | ZOMBIE => "zombie"
  end.
Definition procdump (s : kernel) : list (Z * string * string) :=
  (fun p => (pid p, state_name (state p), name p)) <$> filter (fun p => state p <> UNUSED) (ptable s).

End Kernel.
Arguments kernel Q R : clear implicits.
