(* ===== verification/ProcHw.v ===== *)
(** * The process component and the CPU it runs on

    Specifications of the primitives of [Proc]: interrupts and [ptable.lock],
    access to the process table, to the queues and to the services. *)

From stdpp Require Import base gmap list strings.
From Stdlib Require Import ZArith Lia.
From S2P Require Import Prelude SchedSpec Spinlock Proc.

(** The services return: a failure of the memory allocator is a null result,
    and a panic inside a service is that service's matter.  [filedup] and
    [idup] return the object whose reference they count. *)
Class ServicesReturn (R : Type) `{Services R} : Prop := {
  ret_kalloc : forall r, exists a r', svc_kalloc r = Ok a r';
  ret_kfree : forall a r, exists r', svc_kfree a r = Ok tt r';
  ret_setupkvm : forall r, exists a r', svc_setupkvm r = Ok a r';
  ret_inituvm : forall a r, exists r', svc_inituvm a r = Ok tt r';
  ret_namei_root : forall r, exists i r', svc_namei_root r = Ok i r';
  ret_copyuvm : forall a b r, exists x r', svc_copyuvm a b r = Ok x r';
  ret_freevm : forall a r, exists r', svc_freevm a r = Ok tt r';
  ret_switchuvm : forall a b r, exists r', svc_switchuvm a b r = Ok tt r';
  ret_switchkvm : forall r, exists r', svc_switchkvm r = Ok tt r';
  ret_filedup : forall f r, exists r', svc_filedup f r = Ok f r';
  ret_fileclose : forall f r, exists r', svc_fileclose f r = Ok tt r';
  ret_idup : forall i r, exists r', svc_idup i r = Ok i r';
  ret_iput : forall i r, exists r', svc_iput i r = Ok tt r';
  ret_begin_op : forall r, exists r', svc_begin_op r = Ok tt r';
  ret_end_op : forall r, exists r', svc_end_op r = Ok tt r';
  ret_iinit : forall d r, exists r', svc_iinit d r = Ok tt r';
  ret_initlog : forall d r, exists r', svc_initlog d r = Ok tt r'
}.

Section Hw.
Context {Q R : Type} `{HQ : Queues Q} `{HR : Services R}.
Implicit Types s : kernel Q R.

(** CPU [i] executes, with its state [c]: outside every lock, or holding
    [ptable.lock] and nothing else. *)
Record quiet (i : nat) (c : cpu) s : Prop := {
  qu_on : on_cpu (hw s) i c;
  qu_ncli : ncli c = 0%Z;
  qu_lock : locked (ptable_lock s) = false
}.
Record inlock (i : nat) (c : cpu) s : Prop := {
  il_on : on_cpu (hw s) i c;
  il_ncli : ncli c = 1%Z;
  il_IF : IF c = false;
  il_locked : locked (ptable_lock s) = true;
  il_lcpu : lcpu (ptable_lock s) = Some i
}.

Lemma quiet_wf i c s : quiet i c s -> cpu_wf c.
Proof. intros [_ Hn _]. split; lia. Qed.

Lemma inlock_wf i c s : inlock i c s -> cpu_wf c.
Proof. intros [_ Hn HIF _ _]. split; [lia|done]. Qed.

Lemma put_hw_same s : put_hw (hw s) s = s.
Proof. by destruct s. Qed.
Lemma put_hwl_same s : put_hwl (hw s, ptable_lock s) s = s.
Proof. by destruct s. Qed.

Lemma on_hw_Ok {A} (m : M machine A) s a h' : m (hw s) = Ok a h' -> on_hw m s = Ok a (put_hw h' s).
Proof. intros H. unfold on_hw. by apply zoom_Ok. Qed.

Lemma on_hw_get {A} (m : M machine A) s a : m (hw s) = Ok a (hw s) -> on_hw m s = Ok a s.
Proof. intros H. rewrite (on_hw_Ok _ _ _ _ H). by rewrite put_hw_same. Qed.

(** *** [myproc] *)

Lemma myproc_Ok i c s :
  on_cpu (hw s) i c -> cpu_wf c -> (ncli c < 100)%Z ->
  myproc s = Ok (cproc c) (put_hw (set_cpu i (touch c) (hw s)) s).
Proof.
  intros Hon Hwf Hlt. unfold myproc.
  rewrite (bind_Ok _ _ _ _ _ (on_hw_Ok _ _ _ _ (pushcli_Ok _ _ _ Hon Hwf))).
  pose proof (on_cpu_set _ _ _ (pushed c) Hon eq_refl) as Hon1.
  rewrite (bind_Ok _ _ _ _ _ (on_hw_Ok _ (put_hw _ s) _ _ (mycpu_get_Ok _ _ _ Hon1 cproc eq_refl))).
  assert (cpu_wf (pushed c)) as Hwf1 by (apply pushed_wf; [done|lia]).
  rewrite (bind_Ok _ _ _ _ _ (on_hw_Ok _ (put_hw _ (put_hw _ s)) _ _
    (popcli_Ok _ _ _ Hon1 Hwf1 ltac:(destruct Hwf; simpl; lia)))).
  by rewrite set_cpu_set, popped_pushed.
Qed.

Lemma myproc_inlock i c s : inlock i c s -> myproc s = Ok (cproc c) s.
Proof.
  intros Hin. pose proof (inlock_wf _ _ _ Hin) as Hwf. destruct Hin as [Hon Hn HIF _ _].
  rewrite (myproc_Ok _ _ _ Hon Hwf) by lia. unfold touch. rewrite Hn. simpl.
  by rewrite (set_cpu_same _ _ _ Hon), put_hw_same.
Qed.

(** *** [ptable.lock] *)

Lemma acquire_ptable_Ok i c s :
  quiet i c s ->
  exists lk, acquire_ptable s = Ok tt (put_hwl (set_cpu i (pushed c) (hw s), lk) s) /\
    locked lk = true /\ lcpu lk = Some i.
Proof.
  intros Hq. pose proof (quiet_wf _ _ _ Hq) as Hwf. destruct Hq as [Hon Hn Hlk].
  exists (held (hw s) i (ptable_lock s)). split; [|done]. unfold acquire_ptable.
  by erewrite zoom_Ok; [|apply (acquire_Ok _ _ _ _ Hon Hwf); [lia|done]].
Qed.

Lemma inlock_acquired i c s lk :
  quiet i c s -> locked lk = true -> lcpu lk = Some i ->
  inlock i (pushed c) (put_hwl (set_cpu i (pushed c) (hw s), lk) s).
Proof.
  intros [Hon Hn _] Hl Hc. split; simpl; try done.
  - by apply (on_cpu_set _ _ _ _ Hon).
  - lia.
Qed.

Lemma release_ptable_Ok i c s :
  inlock i c s ->
  exists lk, release_ptable s = Ok tt (put_hwl (set_cpu i (popped c) (hw s), lk) s) /\ locked lk = false.
Proof.
  intros Hin. pose proof (inlock_wf _ _ _ Hin) as Hwf. destruct Hin as [Hon Hn HIF Hl Hc].
  exists (freed (ptable_lock s)). split; [|done]. unfold release_ptable.
  by erewrite zoom_Ok; [|apply (release_Ok _ _ _ _ Hon Hwf); [lia|lia|done|done]].
Qed.

Lemma holding_ptable_Ok i c s : inlock i c s -> holding_ptable s = Ok true s.
Proof.
  intros Hin. pose proof (inlock_wf _ _ _ Hin) as Hwf. destruct Hin as [Hon Hn HIF Hl Hc].
  unfold holding_ptable. erewrite zoom_Ok; [|apply (holding_Ok _ _ _ _ Hon Hwf); lia].
  rewrite Hl, Hc, bool_decide_true by done. unfold touch. rewrite Hn. simpl.
  by rewrite (set_cpu_same _ _ _ Hon), put_hwl_same.
Qed.

(** *** All CPUs *)

(** The processes on the CPUs. *)
Definition run_of (h : machine) : list nat := omap cproc (cpus h).

Lemma run_of_set h i c c' :
  on_cpu h i c -> cproc c' = cproc c -> run_of (set_cpu i c' h) = run_of h.
Proof.
  intros [_ Hc] Hp. unfold run_of, set_cpu. simpl. rewrite insert_take_drop by (by eapply lookup_lt_Some).
  rewrite <- (take_drop_middle _ _ _ Hc) at 3. rewrite !omap_app. csimpl. by rewrite Hp.
Qed.

Lemma run_of_put h i c c' :
  on_cpu h i c -> cproc c = None ->
  run_of (set_cpu i c' h) ≡ₚ option_list (cproc c') ++ run_of h.
Proof.
  intros [_ Hc] Hp. unfold run_of, set_cpu. simpl. rewrite insert_take_drop by (by eapply lookup_lt_Some).
  rewrite <- (take_drop_middle _ _ _ Hc) at 3. rewrite !omap_app. csimpl. rewrite Hp.
  destruct (cproc c'); simpl; [|done]. by rewrite <- Permutation_middle.
Qed.

Lemma run_of_clear h i c j :
  on_cpu h i c -> cproc c = Some j ->
  exists run', run_of h ≡ₚ j :: run' /\
    forall c', cproc c' = None -> run_of (set_cpu i c' h) ≡ₚ run'.
Proof.
  intros [_ Hc] Hp. exists (omap cproc (take i (cpus h)) ++ omap cproc (drop (S i) (cpus h))).
  unfold run_of, set_cpu. simpl. split.
  - rewrite <- (take_drop_middle _ _ _ Hc) at 1. rewrite omap_app. csimpl. rewrite Hp.
    by rewrite <- Permutation_middle.
  - intros c' Hc'. rewrite insert_take_drop by (by eapply lookup_lt_Some). rewrite omap_app. csimpl. by rewrite Hc'.
Qed.

(** No CPU is inside a lock. *)
Record calm s : Prop := {
  ca_cpus : forall j c, cpus (hw s) !! j = Some c -> ncli c = 0%Z /\ scheduler c = InPriority;
  ca_lock : locked (ptable_lock s) = false;
  ca_locks : Forall (fun lk => locked lk = false) (locks s)
}.

(** CPU [i] holds [ptable.lock], the others are outside. *)
Record busy (i : nat) (c : cpu) s : Prop := {
  bu_in : inlock i c s;
  bu_sched : scheduler c = InPriority;
  bu_others : forall j c', j <> i -> cpus (hw s) !! j = Some c' -> ncli c' = 0%Z /\ scheduler c' = InPriority;
  bu_locks : Forall (fun lk => locked lk = false) (locks s)
}.

Lemma calm_quiet i c s : calm s -> on_cpu (hw s) i c -> quiet i c s.
Proof. intros [Hc Hl _] Hon. split; [done| |done]. apply (Hc i). apply Hon. Qed.

Lemma wp_acquire i c s (Post : unit -> kernel Q R -> Prop) Left :
  calm s -> on_cpu (hw s) i c ->
  (forall h lk c1, busy i c1 (put_hwl (h, lk) s) -> cproc c1 = cproc c -> run_of h = run_of (hw s) ->
     Post tt (put_hwl (h, lk) s)) ->
  wp acquire_ptable s Post Left.
Proof.
  intros Hcalm Hon HP. pose proof (calm_quiet _ _ _ Hcalm Hon) as Hq.
  destruct (acquire_ptable_Ok _ _ _ Hq) as (lk & Heq & Hl & Hc). eapply wp_Ok; [exact Heq|].
  apply (HP _ _ (pushed c)); [|done|by eapply run_of_set]. destruct Hcalm as [Hcp _ Hlks]. split; [| | |done].
  - by apply inlock_acquired.
  - apply (Hcp i c). apply Hon.
  - intros j c' Hj. simpl. rewrite list_lookup_insert_ne by done. apply Hcp.
Qed.

Lemma wp_release i c s (Post : unit -> kernel Q R -> Prop) Left :
  busy i c s ->
  (forall h lk c1, calm (put_hwl (h, lk) s) -> on_cpu h i c1 -> cproc c1 = cproc c ->
     run_of h = run_of (hw s) -> Post tt (put_hwl (h, lk) s)) ->
  wp release_ptable s Post Left.
Proof.
  intros [Hin Hs Hoth Hlks] HP. destruct (release_ptable_Ok _ _ _ Hin) as (lk & Heq & Hl).
  eapply wp_Ok; [exact Heq|]. destruct Hin as [Hon Hn _ _ _].
  apply (HP _ _ (popped c)); [|by apply (on_cpu_set _ _ _ _ Hon)|done|by eapply run_of_set].
  split; [|done|done]. intros j c'. simpl. destruct (decide (i = j)) as [<-|Hne].
  - rewrite list_lookup_insert_eq by (destruct Hon as [_ Hc]; by eapply lookup_lt_Some).
    intros [= <-]. simpl. split; [lia|done].
  - rewrite list_lookup_insert_ne by done. by apply Hoth.
Qed.

Lemma calm_set i c c' s :
  calm s -> on_cpu (hw s) i c -> ncli c' = 0%Z -> scheduler c' = InPriority ->
  calm (put_hw (set_cpu i c' (hw s)) s).
Proof.
  intros [Hcp Hl Hlks] [_ Hc] Hn Hs. split; [|done|done]. intros j c1. simpl.
  destruct (decide (i = j)) as [<-|Hne].
  - rewrite list_lookup_insert_eq by (by eapply lookup_lt_Some). by intros [= <-].
  - rewrite list_lookup_insert_ne by done. apply Hcp.
Qed.

Lemma wp_myproc_calm i c s (Post : procp -> kernel Q R -> Prop) Left :
  calm s -> on_cpu (hw s) i c ->
  (forall h c', calm (put_hw h s) -> on_cpu h i c' -> cproc c' = cproc c -> run_of h = run_of (hw s) ->
     Post (cproc c) (put_hw h s)) ->
  wp myproc s Post Left.
Proof.
  intros Hcalm Hon HP. destruct (ca_cpus _ Hcalm i c) as [Hn Hs]; [apply Hon|].
  eapply wp_Ok; [apply (myproc_Ok _ _ _ Hon); [|lia]|].
  { by eapply quiet_wf, calm_quiet. }
  assert (touch c = set_intena (IF c) c) as -> by (unfold touch; by rewrite Hn).
  apply (HP _ (set_intena (IF c) c)); [by eapply calm_set|by apply (on_cpu_set _ _ _ _ Hon)|done|by eapply run_of_set].
Qed.

(** Writing through [mycpu()] while holding [ptable.lock]. *)
Lemma wp_mycpu_upd i c s f (Post : unit -> kernel Q R -> Prop) Left :
  busy i c s -> apicid (f c) = apicid c -> ncli (f c) = ncli c -> IF (f c) = IF c ->
  scheduler (f c) = InPriority ->
  (busy i (f c) (put_hw (set_cpu i (f c) (hw s)) s) -> Post tt (put_hw (set_cpu i (f c) (hw s)) s)) ->
  wp (on_hw (mycpu_upd f)) s Post Left.
Proof.
  intros [[Hon Hn HIF Hl Hc] Hs Hoth Hlks] Ha Hnc Hf Hsc HP.
  eapply wp_Ok; [apply on_hw_Ok; by apply (mycpu_upd_Ok _ _ _ Hon)|]. apply HP.
  split; [split|done| |done]; simpl; try done; try congruence.
  - by apply (on_cpu_set _ _ _ _ Hon).
  - intros j c' Hj. rewrite list_lookup_insert_ne by done. by apply Hoth.
Qed.

(** *** Table, queues and services *)

Lemma get_proc_Ok {A} (f : proc -> A) i p s :
  ptable s !! i = Some p -> get_proc (Some i) f s = Ok (f p) s.
Proof. intros H. unfold get_proc, bind, gets, id. simpl. by rewrite H. Qed.

Lemma upd_proc_Ok f i p s :
  ptable s !! i = Some p ->
  upd_proc (Some i) f s = Ok tt (put_ptable (<[i := f p]> (ptable s)) s).
Proof. intros H. unfold upd_proc. by rewrite (bind_Ok _ _ _ _ _ (get_proc_Ok id _ _ _ H)). Qed.

Lemma on_queue_Ok {A} (m : (nat -> Z) -> M Q A) s a d :
  m (acc_of (ptable s)) (qs s) = Ok a d -> on_queue m s = Ok a (put_qs d s).
Proof. intros H. unfold on_queue. by apply zoom_Ok. Qed.

Lemma wp_queue {A} (m : (nat -> Z) -> M Q A) aop s q (Post : A -> kernel Q R -> Prop) Left :
  refines repr (fun _ => True) (m (acc_of (ptable s))) aop -> repr (qs s) q ->
  (forall d, repr d (aop q).2 -> Post (aop q).1 (put_qs d s)) ->
  wp (on_queue m) s Post Left.
Proof.
  intros Href Hr Hpost. destruct (Href _ _ Hr I) as (d & Heq & Hd).
  eapply wp_Ok; [by apply on_queue_Ok|]. by apply Hpost.
Qed.

Lemma on_rest_Ok {A} (m : M R A) s a r : m (rest s) = Ok a r -> on_rest m s = Ok a (put_rest r s).
Proof. intros H. unfold on_rest. by apply zoom_Ok. Qed.

Lemma wp_rest {A} (m : M R A) s (Post : A -> kernel Q R -> Prop) Left :
  (exists a r, m (rest s) = Ok a r) -> (forall a r, Post a (put_rest r s)) ->
  wp (on_rest m) s Post Left.
Proof. intros (a & r & H) HP. eapply wp_Ok; [by apply on_rest_Ok|]. apply HP. Qed.

Lemma wp_rest_val {A} (m : M R A) s a (Post : A -> kernel Q R -> Prop) Left :
  (exists r, m (rest s) = Ok a r) -> (forall r, Post a (put_rest r s)) ->
  wp (on_rest m) s Post Left.
Proof. intros (r & H) HP. eapply wp_Ok; [by apply on_rest_Ok|]. apply HP. Qed.

Lemma wp_rest_unit (m : M R unit) s (Post : unit -> kernel Q R -> Prop) Left :
  (exists r, m (rest s) = Ok tt r) -> (forall r, Post tt (put_rest r s)) ->
  wp (on_rest m) s Post Left.
Proof. apply wp_rest_val. Qed.

Lemma wp_get {A} (f : proc -> A) i p s (Post : A -> kernel Q R -> Prop) Left :
  ptable s !! i = Some p -> Post (f p) s -> wp (get_proc (Some i) f) s Post Left.
Proof. intros H HP. eapply wp_Ok; [by apply get_proc_Ok|done]. Qed.

Lemma wp_upd f i p s (Post : unit -> kernel Q R -> Prop) Left :
  ptable s !! i = Some p -> Post tt (put_ptable (<[i := f p]> (ptable s)) s) ->
  wp (upd_proc (Some i) f) s Post Left.
Proof. intros H HP. eapply wp_Ok; [by apply upd_proc_Ok|done]. Qed.
End Hw.
