(* ===== verification/ProcInv.v ===== *)
(** * Invariant of the process table and the queues

    [pt need run s]: the processes [run] are exactly the RUNNING ones and
    exactly the ones in [rpholder], pids are distinct, a process that is not
    running resumes somewhere sensible, and (when [need] is [Some k]) every
    RUNNABLE process is in the priority queue and there are [k] free links
    more than sleeping processes.  The operations that change the table under
    [ptable.lock] preserve it. *)

From stdpp Require Import base gmap list strings sorting.
From Stdlib Require Import ZArith Lia.
From S2P Require Import Prelude SchedSpec Spinlock Proc ProcHw.

Definition sleepers (t : list proc) : nat := length (filter (fun p => state p = SLEEPING) t).

(** Positive pids are distinct and below [nextpid]; used slots have one. *)
Record pids_ok (t : list proc) (n : Z) : Prop := {
  pids_range : forall j p, t !! j = Some p -> (0 <= pid p < n)%Z;
  pids_used : forall j p, t !! j = Some p -> state p <> UNUSED -> pid p <> 0%Z;
  pids_inj : forall j j' p p', t !! j = Some p -> t !! j' = Some p' ->
    pid p = pid p' -> pid p <> 0%Z -> j = j';
  pids_next : (1 <= n < 2 ^ 31)%Z
}.

Definition ctx_ok (nlocks : nat) (p : proc) : Prop :=
  state p = RUNNABLE \/ state p = SLEEPING ->
  match cx_at (ctx p) with
  | AtForkret | AtYield => True
  | AtSleep NullLock _ | AtExit => False
  | AtSleep PtableLock k => exists b, k = AfterWait b
  | AtSleep (OtherLock n) k => n < nlocks /\ k = AfterCall
  end.

Definition queued (t : list proc) (q : queues) : Prop :=
  forall j p, t !! j = Some p -> state p = RUNNABLE -> Some j ∈ pq_procs (q_pq q).

Record qok (need : option nat) (run : list nat) (t : list proc) (q : queues) : Prop := {
  qok_rr : q_rr q = [];
  qok_rp : q_rp q ≡ₚ Some <$> run;
  qok_range : forall x, x ∈ pq_procs (q_pq q) -> exists j, x = Some j /\ j < 64;
  qok_need : match need with
             | None => True
             | Some k => queued t q /\ sleepers t + k <= q_links q
             end
}.

Lemma lookup_insert_cases (t : list proc) j j1 p' p1 :
  <[j := p']> t !! j1 = Some p1 -> (j1 = j /\ p1 = p') \/ (j1 <> j /\ t !! j1 = Some p1).
Proof.
  destruct (decide (j = j1)) as [<-|Hne].
  - intros H. left. split; [done|]. pose proof (lookup_lt_Some _ _ _ H) as Hlt. rewrite length_insert in Hlt.
    rewrite list_lookup_insert_eq in H by done. congruence.
  - rewrite list_lookup_insert_ne by done. auto.
Qed.

Lemma sleepers_insert t j p p' :
  t !! j = Some p ->
  sleepers (<[j := p']> t) + (if decide (state p = SLEEPING) then 1 else 0) =
  sleepers t + (if decide (state p' = SLEEPING) then 1 else 0).
Proof.
  intros Hj. unfold sleepers. rewrite insert_take_drop by (by eapply lookup_lt_Some).
  rewrite <- (take_drop_middle t j p Hj) at 3.
  rewrite !filter_app, !filter_cons, !length_app. repeat case_decide; simpl; lia.
Qed.

Lemma pq_levels q : pq_ok q -> length q <= length (pq_procs q).
Proof.
  intros [_ Hne]. unfold pq_procs. induction Hne as [|[k l] q Hl _ IH]; csimpl in *; [lia|].
  rewrite length_app. destruct l; [done|]. simpl. lia.
Qed.

(** A put succeeds exactly when there is a free link. *)
Lemma pq_put_cases {Q} `{Queues Q} (d : Q) q k p :
  repr d q ->
  let q' := (pq_put k p q).2 in
  q_rr q' = q_rr q /\ q_rp q' = q_rp q /\
  ((0 < q_links q /\ pq_procs (q_pq q') ≡ₚ p :: pq_procs (q_pq q) /\ S (q_links q') = q_links q) \/
   (q_links q = 0 /\ q' = q)).
Proof.
  intros Hr. pose proof (repr_wf _ _ Hr) as [Hok _ Hl Hn]. pose proof pool_le as Hle.
  pose proof (pq_levels _ Hok). unfold pq_put, put_fits.
  destruct (Nat.ltb_spec 0 (q_links q)); simpl.
  - destruct (Nat.ltb_spec 0 (q_nodes q)); [|lia]. rewrite orb_true_r. simpl.
    split_and!; [done..|]. left. split_and!; [done| |lia]. apply pq_insert_procs.
  - split_and!; [done..|]. right. split; [lia|done].
Qed.

Lemma list_remove_first_perm p l : p ∈ l -> p :: list_remove_first p l ≡ₚ l.
Proof.
  induction l as [|x l IH]; intros Hp; [by apply not_elem_of_nil in Hp|]. simpl.
  destruct (decide (x = p)) as [->|Hne]; [done|]. apply elem_of_cons in Hp as [->|Hp]; [done|].
  rewrite perm_swap. by rewrite IH.
Qed.

Definition gain (need : option nat) : option nat := S <$> need.
(** One free link less. *)
Definition spend (need : option nat) : option nat :=
  match need with Some (S k) => Some k | _ => None end.

Lemma spend_gain need : spend (gain need) = need.
Proof. by destruct need. Qed.

(** [rpholder.remove(j)], when [j] is in it and when it is not. *)
Lemma qok_remove need run t q j :
  qok need (j :: run) t q -> qok (gain need) run t (rp_remove (Some j) q).2.
Proof.
  intros [Hrr Hrp Hrange Hneed]. assert (Some j ∈ q_rp q) as Hin by (rewrite Hrp; csimpl; by left).
  unfold rp_remove. rewrite decide_True by done. split; simpl; try done.
  - apply (Permutation_cons_inv (a := Some j)). rewrite list_remove_first_perm by done. by rewrite Hrp.
  - destruct need as [k|]; [|done]. destruct Hneed as [Hq Hl]. split; [exact Hq|simpl; lia].
Qed.

Lemma qok_gain need run t q : qok (gain need) run t q -> qok need run t q.
Proof.
  intros [Hrr Hrp Hrange Hneed]. split; [done..|]. destruct need as [k|]; [|done]. simpl in Hneed.
  destruct Hneed. split; [done|lia].
Qed.

(** A running process goes to sleep. *)
Lemma qok_sleep need run t q j p p' :
  qok (gain need) run t q -> t !! j = Some p -> state p' = SLEEPING -> qok need run (<[j := p']> t) q.
Proof.
  intros [Hrr Hrp Hrange Hneed] Hj Hst. split; [done..|]. destruct need as [k|]; [|done]. simpl in Hneed.
  destruct Hneed as [Hqd Hroom]. split.
  - intros j1 p1 [[-> ->]|[_ H1]]%lookup_insert_cases Hrn; [congruence|by eapply Hqd].
  - pose proof (sleepers_insert _ _ _ p' Hj). repeat case_decide; lia.
Qed.

Lemma qok_remove_absent need run t q j :
  qok need run t q -> j ∉ run -> (rp_remove (Some j) q).2 = q.
Proof.
  intros [_ Hrp _ _] Hj. unfold rp_remove. rewrite decide_False; [done|]. rewrite Hrp.
  intros (x & [= ->] & Hx)%list_elem_of_fmap. done.
Qed.

Section Inv.
Context {Q R : Type} `{HQ : Queues Q} `{HR : Services R}.
Implicit Types s : kernel Q R.

Record ptt (run : list nat) s : Prop := {
  pt_len : length (ptable s) = 64;
  pt_nodup : NoDup run;
  pt_bound : forall j, j ∈ run -> j < 64;
  pt_run : forall j p, ptable s !! j = Some p -> state p = RUNNING <-> j ∈ run;
  pt_pids : pids_ok (ptable s) (nextpid s);
  pt_ctx : forall j p, ptable s !! j = Some p -> ctx_ok (length (locks s)) p
}.

Definition pt (need : option nat) (run : list nat) s : Prop :=
  ptt run s /\ exists q, repr (qs s) q /\ qok need run (ptable s) q.

(** What a call leaves alone. *)
Record same_env s s' : Prop := {
  se_hw : hw s' = hw s;
  se_lock : ptable_lock s' = ptable_lock s;
  se_locks : locks s' = locks s;
  se_init : initproc s' = initproc s;
  se_first : first s' = first s;
  se_next : nextpid s' = nextpid s
}.

#[export] Instance same_env_refl : Reflexive same_env.
Proof. by intros s. Qed.
#[export] Instance same_env_trans : Transitive same_env.
Proof. intros s1 s2 s3 [] []. split; congruence. Qed.

Lemma same_env_put_ptable x s : same_env s (put_ptable x s).
Proof. done. Qed.
Lemma same_env_put_qs x s : same_env s (put_qs x s).
Proof. done. Qed.
Lemma same_env_put_rest x s : same_env s (put_rest x s).
Proof. done. Qed.

Lemma inlock_env i c s s' : same_env s s' -> inlock i c s -> inlock i c s'.
Proof. intros [Hh Hl _ _ _ _] []. split; by rewrite ?Hh, ?Hl. Qed.

Lemma ptt_env run s s' :
  ptt run s -> ptable s' = ptable s -> nextpid s' = nextpid s -> locks s' = locks s -> ptt run s'.
Proof. intros [] Et En El. split; rewrite ?Et, ?En, ?El; done. Qed.

Lemma pt_env need run s s' :
  pt need run s -> ptable s' = ptable s -> nextpid s' = nextpid s -> locks s' = locks s -> qs s' = qs s ->
  pt need run s'.
Proof.
  intros [Ht Hq] Et En El Eq. split; [by eapply ptt_env|]. by rewrite Et, Eq.
Qed.

Lemma ptt_lookup run s j : ptt run s -> j < 64 -> exists p, ptable s !! j = Some p.
Proof. intros [Hlen _ _ _ _ _] Hj. apply lookup_lt_is_Some_2. lia. Qed.

(** *** Updates of one process *)

Lemma pids_update t n j p p' :
  pids_ok t n -> t !! j = Some p -> pid p' = pid p \/ pid p' = 0%Z ->
  (state p' <> UNUSED -> pid p' <> 0%Z) -> pids_ok (<[j := p']> t) n.
Proof.
  intros [Hr Hu Hi Hn] Hj Hpid Hused.
  assert (forall j1 p1, <[j := p']> t !! j1 = Some p1 ->
    exists p0, t !! j1 = Some p0 /\ (pid p1 = pid p0 \/ pid p1 = 0%Z) /\ (p1 = p0 \/ p1 = p')) as Hold.
  { intros j1 p1 [[-> ->]|[_ H1]]%lookup_insert_cases; [exists p|exists p1]; auto. }
  split; [| | |done].
  - intros j1 p1 (p0 & H0 & [-> | ->] & _)%Hold; [by eapply Hr|lia].
  - intros j1 p1 (p0 & H0 & Hp & [-> | ->])%Hold; eauto.
  - intros j1 j2 p1 p2 (p3 & H3 & E3 & _)%Hold (p4 & H4 & E4 & _)%Hold Heq Hz.
    apply (Hi _ _ _ _ H3 H4); destruct E3, E4; congruence.
Qed.

(** A new pid. *)
Lemma pids_alloc t n j p p' :
  pids_ok t n -> t !! j = Some p -> pid p' = n -> (n + 1 < 2 ^ 31)%Z -> pids_ok (<[j := p']> t) (n + 1).
Proof.
  intros [Hr Hu Hi Hn] Hj Hpid Hlt. split; [| | |lia].
  - intros j1 p1 [[-> ->]|[_ H1]]%lookup_insert_cases; [lia|]. specialize (Hr _ _ H1). lia.
  - intros j1 p1 [[-> ->]|[_ H1]]%lookup_insert_cases; [lia|]. by eapply Hu.
  - intros j1 j2 p1 p2 [[-> ->]|[_ H1]]%lookup_insert_cases [[-> ->]|[_ H2]]%lookup_insert_cases Heq Hz; try done.
    + specialize (Hr _ _ H2). lia.
    + specialize (Hr _ _ H1). lia.
    + by eapply Hi.
Qed.

Lemma ptt_update_gen run s j p p' :
  ptt run s -> ptable s !! j = Some p -> pid p' = pid p \/ pid p' = 0%Z ->
  (state p' <> UNUSED -> pid p' <> 0%Z) ->
  (state p' = RUNNING <-> state p = RUNNING) -> ctx_ok (length (locks s)) p' ->
  ptt run (put_ptable (<[j := p']> (ptable s)) s).
Proof.
  intros [Hlen Hnd Hb Hrun Hpids Hctx] Hj Hpid Hused HR' Hctx'. split; simpl; try done.
  - by rewrite length_insert.
  - intros j1 p1 [[-> ->]|[_ H1]]%lookup_insert_cases; [rewrite HR'|]; by apply Hrun.
  - by eapply pids_update.
  - intros j1 p1 [[-> ->]|[_ H1]]%lookup_insert_cases; [done|]. by eapply Hctx.
Qed.

Lemma ptt_update run s j p p' :
  ptt run s -> ptable s !! j = Some p -> pid p' = pid p ->
  (state p' <> UNUSED -> pid p' <> 0%Z) ->
  (state p' = RUNNING <-> state p = RUNNING) -> ctx_ok (length (locks s)) p' ->
  ptt run (put_ptable (<[j := p']> (ptable s)) s).
Proof. intros. eapply ptt_update_gen; eauto. Qed.

(** An update that makes nothing RUNNABLE or SLEEPING. *)
Lemma qok_update need run t q j p p' :
  qok need run t q -> t !! j = Some p ->
  (state p' = RUNNABLE -> state p = RUNNABLE) -> (state p' = SLEEPING -> state p = SLEEPING) ->
  qok need run (<[j := p']> t) q.
Proof.
  intros [Hrr Hrp Hrange Hneed] Hj Hrn Hsl. split; [done..|].
  destruct need as [k|]; [|done]. destruct Hneed as [Hqd Hroom]. split.
  - intros j1 p1 [[-> ->]|[_ H1]]%lookup_insert_cases ?; eapply Hqd; eauto.
  - pose proof (sleepers_insert _ _ _ p' Hj). repeat case_decide; naive_solver lia.
Qed.

Lemma pt_update need run s j p p' :
  pt need run s -> ptable s !! j = Some p -> pid p' = pid p ->
  (state p' <> UNUSED -> pid p' <> 0%Z) ->
  (state p' = RUNNING <-> state p = RUNNING) -> ctx_ok (length (locks s)) p' ->
  (state p' = RUNNABLE -> state p = RUNNABLE) -> (state p' = SLEEPING -> state p = SLEEPING) ->
  pt need run (put_ptable (<[j := p']> (ptable s)) s).
Proof.
  intros [Ht (q & Hq & Hqok)] **. split; [by eapply ptt_update|]. exists q. split; [done|].
  by eapply qok_update.
Qed.

Lemma qok_perm need run run' t q : qok need run t q -> run ≡ₚ run' -> qok need run' t q.
Proof. intros [] Hp. split; [done| |done..]. by rewrite <- Hp. Qed.

Lemma ptt_perm run run' s : ptt run s -> run ≡ₚ run' -> ptt run' s.
Proof.
  intros [Hlen Hnd Hb Hrun Hpids Hctx] Hp. split; try done.
  - by rewrite <- Hp.
  - intros j. rewrite <- Hp. apply Hb.
  - intros j p Hj. rewrite <- Hp. by apply Hrun.
Qed.

Lemma pt_perm need run run' s : pt need run s -> run ≡ₚ run' -> pt need run' s.
Proof.
  intros [Ht (q & Hr & Hq)] Hp. split; [by eapply ptt_perm|]. exists q. split; [done|]. by eapply qok_perm.
Qed.

(** A process becomes RUNNABLE and is put into the queue. *)
Lemma qok_put (d : Q) need need' run t q j p p' k :
  repr d q -> qok need run t q -> t !! j = Some p -> j < 64 -> state p' = RUNNABLE ->
  (state p = SLEEPING /\ need' = need \/ state p <> SLEEPING /\ need' = spend need) ->
  qok need' run (<[j := p']> t) (pq_put k (Some j) q).2.
Proof.
  intros Hr [Hrr Hrp Hrange Hneed] Hj Hj64 Hst Hcase.
  destruct (pq_put_cases d q k (Some j) Hr) as (Err & Erp & Hput).
  split.
  - by rewrite Err.
  - by rewrite Erp.
  - intros x Hx. destruct Hput as [(_ & Hp & _)|[_ Hp]]; [|rewrite Hp in Hx; by apply Hrange].
    rewrite Hp in Hx. apply list_elem_of_In in Hx as [<-|Hx]; [by exists j|].
    apply Hrange. by apply list_elem_of_In.
  - pose proof (sleepers_insert _ _ _ p' Hj) as Hsl. rewrite Hst in Hsl.
    rewrite (decide_False (P := RUNNABLE = SLEEPING)) in Hsl by done.
    assert (need' = None \/ exists m, need = Some m /\ need' = Some (if decide (state p = SLEEPING) then m else m - 1)
      /\ (state p <> SLEEPING -> 0 < m)) as [->|(m & -> & -> & Hm)].
    { destruct Hcase as [[E ->]|[E ->]]; destruct need as [[|m]|]; simpl; auto; right;
        eexists; (split; [done|]); case_decide; try congruence; (split; [f_equal; lia|intros; first [congruence|lia]]). }
    { done. }
    destruct Hneed as [Hqd Hroom].
    assert (sleepers (<[j:=p']> t) + (if decide (state p = SLEEPING) then m else m - 1) < q_links q) as Hlt.
    { destruct (decide (state p = SLEEPING)) as [|Hn]; [|specialize (Hm Hn)]; lia. }
    destruct Hput as [(Hpos & Hp & Hl)|[Hz _]].
    + split.
      * intros j1 p1 [[-> ->]|[_ H1]]%lookup_insert_cases Hrn; rewrite Hp; [by left|right; by eapply Hqd].
      * lia.
    + lia.
Qed.
End Inv.

(** * Operations under [ptable.lock] *)

(** The accumulator a process gets when it becomes RUNNABLE. *)
Definition min_of (acc : nat -> Z) (q : queues) : Z :=
  if decide (q_pq q = []) then 0%Z
  else if decide (q_rp q = []) then default 0%Z (pq_min q)
  else
    let k1 := default 0%Z (pq_min q) in
    let k2 := default 0%Z (min_acc acc (q_rp q)) in
    if (k1 <? k2)%Z then k1 else k2.

Section Ops.
Context {Q R : Type} `{HQ : Queues Q} `{HR : Services R}.
Implicit Types s : kernel Q R.

Lemma wp_observe {A} (m : (nat -> Z) -> M Q A) f s q (Post : A -> kernel Q R -> Prop) Left :
  refines repr (fun _ => True) (m (acc_of (ptable s))) (observe f) -> repr (qs s) q ->
  (forall d, repr d q -> Post (f q) (put_qs d s)) ->
  wp (on_queue m) s Post Left.
Proof. intros Href Hr HP. by eapply (wp_queue m (observe f)). Qed.

Lemma wp_get_min s q (Post : Z -> kernel Q R -> Prop) Left :
  repr (qs s) q -> (forall d, repr d q -> Post (min_of (acc_of (ptable s)) q) (put_qs d s)) ->
  wp get_min s Post Left.
Proof.
  intros Hr HP. unfold get_min, min_of in *. apply wp_bind.
  eapply wp_observe; [apply pq_isEmpty_ok|exact Hr|]. intros d1 Hr1.
  destruct (decide (q_pq q = [])) as [E|E].
  { rewrite bool_decide_true by done. by apply HP. }
  rewrite bool_decide_false by done. apply wp_bind.
  eapply wp_observe; [apply rpholder_isEmpty_ok|exact Hr1|]. intros d2 Hr2.
  destruct (decide (q_rp q = [])) as [E'|E'].
  - rewrite bool_decide_true by done. apply wp_bind.
    eapply wp_observe; [apply pq_getMinAccumulator_ok|exact Hr2|]. intros d3 Hr3. by apply HP.
  - rewrite bool_decide_false by done. apply wp_bind.
    eapply wp_observe; [apply pq_getMinAccumulator_ok|exact Hr2|]. intros d3 Hr3. apply wp_bind.
    eapply wp_observe; [apply rpholder_getMinAccumulator_ok|exact Hr3|]. intros d4 Hr4. simpl.
    specialize (HP d4 Hr4). simpl in HP. by destruct (_ <? _)%Z.
Qed.

Lemma wp_pq_put s q j (Post : unit -> kernel Q R -> Prop) Left :
  repr (qs s) q ->
  (forall d, repr d (pq_put (acc_of (ptable s) j) (Some j) q).2 -> Post tt (put_qs d s)) ->
  wp (pq_put_proc (Some j)) s Post Left.
Proof.
  intros Hr HP. unfold pq_put_proc. apply wp_bind.
  eapply wp_queue; [apply pq_put_ok|exact Hr|]. intros d Hd. by apply HP.
Qed.

(** [p->state = RUNNABLE; p->accumulator = get_min(); pq.put(p);] *)
Definition wake (j : nat) : M (kernel Q R) unit :=
  upd_proc (Some j) (set_state RUNNABLE) ;;;
  let! k := get_min in
  upd_proc (Some j) (set_acc k) ;;;
  pq_put_proc (Some j).

Lemma pt_lt need run s j p : pt need run s -> ptable s !! j = Some p -> j < 64.
Proof. intros [[Hlen _ _ _ _ _] _] Hj. apply lookup_lt_Some in Hj. lia. Qed.

Lemma pt_pid_used need run s j p :
  pt need run s -> ptable s !! j = Some p -> state p <> UNUSED -> pid p <> 0%Z.
Proof. intros [[_ _ _ _ [_ Hu _ _] _] _] Hj. by eapply Hu. Qed.

Lemma wp_wake need run s j p (Post : unit -> kernel Q R -> Prop) Left :
  pt need run s -> ptable s !! j = Some p -> state p = SLEEPING ->
  (forall s' k, pt need run s' -> same_env s s' -> rest s' = rest s ->
     ptable s' = <[j := set_acc k (set_state RUNNABLE p)]> (ptable s) -> Post tt s') ->
  wp (wake j) s Post Left.
Proof.
  intros Hpt Hj Hst HP. pose proof (pt_lt _ _ _ _ _ Hpt Hj) as Hlt.
  pose proof (pt_pid_used _ _ _ _ _ Hpt Hj ltac:(congruence)) as Hpid.
  destruct Hpt as [Ht (q & Hr & Hqok)].
  unfold wake. apply wp_bind. eapply wp_upd; [exact Hj|]. apply wp_bind.
  eapply wp_get_min; [exact Hr|]. intros d1 Hr1. set (k := min_of _ q). apply wp_bind.
  eapply wp_upd; [simpl; apply list_lookup_insert_eq; by eapply lookup_lt_Some|].
  eapply wp_pq_put; [exact Hr1|]. intros d2 Hr2. simpl in Hr2 |- *. rewrite list_insert_insert_eq in Hr2 |- *.
  apply (HP _ k); [|done..]. split; simpl.
  - apply (ptt_env run (put_ptable (<[j := set_acc k (set_state RUNNABLE p)]> (ptable s)) s)); [|done..].
    apply (ptt_update run s j p); [done..| |].
    + simpl. by rewrite Hst.
    + pose proof (pt_ctx _ _ Ht _ _ Hj) as Hc. intros _. apply Hc. by right.
  - eexists. split; [exact Hr2|]. eapply qok_put; [exact Hr|exact Hqok|exact Hj|lia|done|by left].
Qed.

(** What [wakeup1(c)] does to one process. *)
Definition woken (c : channel) (p p' : proc) : Prop :=
  if decide (state p = SLEEPING /\ chan p = c)
  then exists k, p' = set_acc k (set_state RUNNABLE p)
  else p' = p.

Lemma wp_wakeup1 need run s c (Post : unit -> kernel Q R -> Prop) Left :
  pt need run s ->
  (forall s', pt need run s' -> same_env s s' -> rest s' = rest s ->
     Forall2 (woken c) (ptable s) (ptable s') -> Post tt s') ->
  wp (wakeup1 c) s Post Left.
Proof.
  intros Hpt HP. unfold wakeup1, procs.
  eapply wp_mono; [apply (wp_foreach_seq (fun i s' => pt need run s' /\ same_env s s' /\ rest s' = rest s /\
    forall j, (j < i -> forall p, ptable s !! j = Some p -> exists p', ptable s' !! j = Some p' /\ woken c p p') /\
              (i <= j -> ptable s' !! j = ptable s !! j)))| |].
  - split_and!; [done..|]. intros j. split; [lia|done].
  - intros i s' Hi (Hpt' & He & Hres & Htab).
    destruct (ptt_lookup run s' i (proj1 Hpt') ltac:(lia)) as (p & Hp). pose proof (proj2 (Htab i) ltac:(lia)) as Hsame.
    rewrite Hp in Hsame. apply wp_bind. eapply wp_get; [exact Hp|]. apply wp_bind. eapply wp_get; [exact Hp|].
    assert (forall s'', pt need run s'' -> same_env s' s'' -> rest s'' = rest s' ->
      (exists p', woken c p p' /\ ptable s'' = <[i := p']> (ptable s')) ->
      pt need run s'' /\ same_env s s'' /\ rest s'' = rest s /\
      forall j, (j < S i -> forall p, ptable s !! j = Some p -> exists p', ptable s'' !! j = Some p' /\ woken c p p') /\
              (S i <= j -> ptable s'' !! j = ptable s !! j)) as Hnext.
    { intros s'' Hpt'' He'' Hres'' (p' & Hw & Htab''). split_and!; [done|by etrans|congruence|].
      intros j. rewrite Htab''. split.
      - intros Hj p0 Hp0. destruct (decide (i = j)) as [<-|Hne].
        + rewrite list_lookup_insert_eq by (by eapply lookup_lt_Some). exists p'. split; [done|]. rewrite Hp0 in Hsame. by simplify_eq.
        + rewrite list_lookup_insert_ne by done. apply Htab; [lia|done].
      - intros Hj. rewrite list_lookup_insert_ne by lia. apply Htab. lia. }
    destruct (decide (state p = SLEEPING)) as [Hsl|Hsl]; [destruct (decide (chan p = c)) as [Hc|Hc]|].
    + eapply wp_wake; [exact Hpt'|exact Hp|exact Hsl|]. intros s'' k H1 H2 H3 H4. apply Hnext; [done..|].
      eexists. split; [|exact H4]. unfold woken. rewrite decide_True by done. by exists k.
    + apply (Hnext s'); [done..|]. exists p. unfold woken. rewrite decide_False by naive_solver.
      split; [done|]. by rewrite list_insert_id.
    + apply (Hnext s'); [done..|]. exists p. unfold woken. rewrite decide_False by naive_solver.
      split; [done|]. by rewrite list_insert_id.
  - intros [] s' (Hpt' & He & Hres & Htab). apply HP; [done..|]. apply Forall2_same_length_lookup_2.
    { by rewrite (pt_len _ _ (proj1 Hpt)), (pt_len _ _ (proj1 Hpt')). }
    intros j p p' Hj Hj'. pose proof (pt_lt _ _ _ _ _ Hpt Hj).
    destruct (proj1 (Htab j) ltac:(lia) _ Hj) as (p0 & Hp0 & Hw). by simplify_eq.
  - done.
Qed.
End Ops.
