(* ===== verification/ProcSwitch.v ===== *)
(** * Leaving and entering a process

    [sched] and the rest of the scheduler it switches to, and with it
    [yield], [sleep] and [exit]; the scheduler's own switch into a process. *)

From stdpp Require Import base gmap list strings sorting.
From Stdlib Require Import ZArith Lia.
From S2P Require Import Prelude SchedSpec Spinlock Proc ProcHw ProcInv.

Section Switch.
Context {Q R : Type} `{HQ : Queues Q} `{HR : Services R} `{!ServicesReturn R}.
Implicit Types s : kernel Q R.

(** The invariant between kernel calls. *)
Definition Inv (need : option nat) s : Prop := calm s /\ pt need (run_of (hw s)) s.

Lemma busy_env i c s s' : same_env s s' -> busy i c s -> busy i c s'.
Proof.
  intros He [Hin Hs Ho Hl]. split; [by eapply inlock_env|done| |].
  - rewrite (se_hw _ _ He). done.
  - rewrite (se_locks _ _ He). done.
Qed.

Lemma wp_myproc i c s (Post : procp -> kernel Q R -> Prop) Left :
  busy i c s -> Post (cproc c) s -> wp myproc s Post Left.
Proof. intros Hb HP. eapply wp_Ok; [by apply (myproc_inlock i c), bu_in|done]. Qed.

(** What the tail of the scheduler does to the process that left. *)
Definition requeued (p : proc) : proc :=
  if decide (state p = RUNNABLE) then set_acc (s64 (accumulator p + priority p)) p else p.

Lemma wp_tail need run run' i c j p s q (Post : unit -> kernel Q R -> Prop) Left :
  busy i c s -> cproc c = Some j -> run_of (hw s) ≡ₚ j :: run' -> j ∉ run' ->
  ptable s !! j = Some p -> ptt run' s -> repr (qs s) q -> qok need run (ptable s) q ->
  run = run' \/ run = j :: run' ->
  (forall s', Inv (if decide (state p = RUNNABLE) then spend need else need) s' ->
     run_of (hw s') ≡ₚ run' -> ptable s' = <[j := requeued p]> (ptable s) ->
     initproc s' = initproc s -> locks s' = locks s -> nextpid s' = nextpid s -> Post tt s') ->
  wp (Priority_Scheduler_tail (Some j)) s Post Left.
Proof.
  intros Hb Hc Hrun Hj Hp Ht Hr Hq Hcase HP. unfold Priority_Scheduler_tail.
  apply wp_bind. apply wp_rest_unit; [apply ret_switchkvm|]. intros r.
  pose proof (busy_env _ _ _ _ (same_env_put_rest r s) Hb) as Hb1.
  apply wp_bind. eapply (wp_mycpu_upd i c); [exact Hb1|done..|apply Hb|]. intros Hb2.
  destruct (run_of_clear (hw s) i c j) as (run1 & Hrun1 & Hclr); [apply Hb|done|].
  assert (run1 ≡ₚ run') as Hrr by (apply (Permutation_cons_inv (a := j)); by rewrite <- Hrun1, Hrun).
  specialize (Hclr (set_cproc None c) eq_refl). rewrite Hrr in Hclr. clear run1 Hrun1 Hrr.
  set (s2 := put_hw _ _) in *.
  apply wp_bind. eapply wp_queue; [apply rpholder_remove_ok|exact Hr|]. intros d3 Hr3.
  assert (qok need run' (ptable s) (rp_remove (Some j) q).2) as Hq3.
  { destruct Hcase as [-> | ->]; [|by apply qok_gain, qok_remove]. by rewrite (qok_remove_absent _ _ _ _ _ Hq Hj). }
  set (q3 := (rp_remove (Some j) q).2) in *. apply wp_bind. eapply wp_get; [exact Hp|].
  assert (forall s4, busy i (set_cproc None c) s4 -> hw s4 = hw s2 ->
    ptable s4 = <[j := requeued p]> (ptable s) -> initproc s4 = initproc s -> locks s4 = locks s ->
    nextpid s4 = nextpid s -> pt (if decide (state p = RUNNABLE) then spend need else need) run' s4 ->
    wp release_ptable s4 Post Left) as Hfin.
  { intros s4 Hb4 Hh4 Ht4 Hi4 Hl4 Hn4 Hpt4. eapply wp_release; [exact Hb4|].
    intros h lk c1 Hcalm _ _ Hro. rewrite Hh4 in Hro. apply HP; simpl; try done.
    - split; [done|]. simpl. rewrite Hro. eapply pt_env; [by eapply pt_perm|done..].
    - by rewrite Hro. }
  assert (ptt run' (put_ptable (<[j := requeued p]> (ptable s)) s)) as Htq.
  { pose proof (pt_ctx _ _ Ht _ _ Hp) as Hcx. pose proof (pids_used _ _ (pt_pids _ _ Ht) _ _ Hp) as Hu.
    unfold requeued. destruct (decide (state p = RUNNABLE)); by apply (ptt_update run' s j p). }
  destruct (decide (state p = RUNNABLE)) as [Hst|Hst].
  - apply wp_bind. apply wp_bind. eapply wp_upd; [exact Hp|].
    eapply wp_pq_put; [exact Hr3|]. intros d4 Hr4. simpl in Hr4. apply Hfin.
    + by eapply busy_env; [|exact Hb2].
    + done.
    + simpl. unfold requeued. by rewrite decide_True.
    + done.
    + done.
    + done.
    + split; [by eapply ptt_env; [exact Htq|..]; simpl; unfold requeued; rewrite ?decide_True|].
      eexists. split; [exact Hr4|]. simpl.
      eapply qok_put; [exact Hr3|exact Hq3|exact Hp| |done|right; split; congruence].
      apply lookup_lt_Some in Hp. rewrite (pt_len _ _ Ht) in Hp. done.
  - apply wp_bind. eapply wp_Ok; [reflexivity|]. apply Hfin.
    + by eapply busy_env; [|exact Hb2].
    + done.
    + unfold requeued. rewrite decide_False by done. simpl. by rewrite list_insert_id.
    + done.
    + done.
    + done.
    + split; [by apply (ptt_env run' s)|]. by exists q3.
Qed.

(** [sched]: the process is off its CPU when the call leaves. *)
Lemma wp_sched {A} need run run' i c j p s q k (Post : A -> kernel Q R -> Prop) Left :
  busy i c s -> cproc c = Some j -> run_of (hw s) ≡ₚ j :: run' -> j ∉ run' ->
  ptable s !! j = Some p -> state p <> RUNNING ->
  (forall ie, ptt run' (put_ptable (<[j := set_ctx (mkContext k ie) p]> (ptable s)) s)) ->
  repr (qs s) q -> qok need run (ptable s) q -> run = run' \/ run = j :: run' ->
  (forall s' ie, Inv (if decide (state p = RUNNABLE) then spend need else need) s' ->
     run_of (hw s') ≡ₚ run' -> ptable s' = <[j := requeued (set_ctx (mkContext k ie) p)]> (ptable s) ->
     initproc s' = initproc s -> locks s' = locks s -> nextpid s' = nextpid s -> Left s') ->
  wp (sched k) s Post Left.
Proof.
  intros Hb Hc Hrun Hj Hp Hst Ht Hr Hq Hcase HP. pose proof (bu_in _ _ _ Hb) as Hin.
  destruct (il_on _ _ _ Hin) as [Hself Hcpu]. unfold sched.
  apply wp_bind. eapply wp_myproc; [exact Hb|]. rewrite Hc.
  apply wp_bind. eapply wp_Ok; [by eapply holding_ptable_Ok|]. simpl.
  apply wp_bind. eapply wp_Ok; [apply on_hw_get; apply (mycpu_get_Ok _ _ _ (il_on _ _ _ Hin) ncli), Hin|].
  rewrite (il_ncli _ _ _ Hin). simpl.
  apply wp_bind. eapply wp_get; [exact Hp|]. rewrite decide_False by done.
  apply wp_bind. eapply wp_Ok; [apply on_hw_get; apply (with_self_Ok _ _ _ (il_on _ _ _ Hin) IF)|].
  rewrite (il_IF _ _ _ Hin).
  apply wp_bind. eapply wp_Ok; [apply on_hw_get; apply (mycpu_get_Ok _ _ _ (il_on _ _ _ Hin) intena), Hin|].
  apply wp_bind. eapply wp_upd; [exact Hp|]. set (p1 := set_ctx _ p). set (s1 := put_ptable _ s).
  apply wp_bind. eapply wp_Ok; [apply (on_hw_get _ s1); apply (mycpu_get_Ok _ _ _ (il_on _ _ _ Hin) scheduler), Hin|].
  rewrite (bu_sched _ _ _ Hb). apply wp_bind.
  eapply (wp_tail need run run' i c j p1 s1 q); try done.
  - by eapply busy_env; [|exact Hb].
  - apply list_lookup_insert_eq. by eapply lookup_lt_Some.
  - apply Ht.
  - simpl. by eapply qok_update.
  - intros s' Hinv Hrun' Ht' Hi Hl Hn. unfold wp, leave. apply (HP _ (intena c)); try done.
    rewrite Ht'. simpl. by rewrite list_insert_insert_eq.
Qed.

(** *** yield, sleep and exit *)

Lemma Inv_running need s i c j :
  Inv need s -> on_cpu (hw s) i c -> cproc c = Some j ->
  exists run' p, run_of (hw s) ≡ₚ j :: run' /\ j ∉ run' /\ j < 64 /\
    ptable s !! j = Some p /\ state p = RUNNING.
Proof.
  intros [_ [Ht _]] Hon Hc. destruct (run_of_clear _ _ _ _ Hon Hc) as (run' & Hrun & _).
  pose proof (pt_nodup _ _ Ht) as Hnd. rewrite Hrun in Hnd. apply NoDup_cons in Hnd as [Hj _].
  assert (j ∈ run_of (hw s)) as Hin by (rewrite Hrun; by left).
  pose proof (pt_bound _ _ Ht _ Hin) as Hlt. destruct (ptt_lookup _ _ _ Ht Hlt) as (p & Hp).
  exists run', p. split_and!; [done..|]. by apply (pt_run _ _ Ht _ _ Hp).
Qed.

(** The table part when the running process [j] changes to another state. *)
Lemma ptt_stop run run' s j p p' :
  ptt run s -> run ≡ₚ j :: run' -> ptable s !! j = Some p -> pid p' = pid p -> state p' <> UNUSED ->
  state p = RUNNING -> state p' <> RUNNING -> ctx_ok (length (locks s)) p' ->
  ptt run' (put_ptable (<[j := p']> (ptable s)) s).
Proof.
  intros [Hlen Hnd Hb Hrun Hpids Hctx] Hperm Hj Hpid Hu Hr Hr' Hcx. rewrite Hperm in Hnd.
  apply NoDup_cons in Hnd as [Hnj Hnd]. split; simpl; try done.
  - by rewrite length_insert.
  - intros j1 Hj1. apply Hb. rewrite Hperm. by right.
  - intros j1 p1 [[-> ->]|[Hne H1]]%lookup_insert_cases.
    + split; [done|]. intros Hin. done.
    + rewrite (Hrun _ _ H1), Hperm. set_solver.
  - eapply pids_update; [done|done|by left|]. intros _. rewrite Hpid. eapply (pids_used _ _ Hpids); [done|congruence].
  - intros j1 p1 [[-> ->]|[_ H1]]%lookup_insert_cases; [done|]. by eapply Hctx.
Qed.

Lemma wp_yield {A} need s i c j (Post : A -> kernel Q R -> Prop) Left :
  Inv need s -> on_cpu (hw s) i c -> cproc c = Some j ->
  (forall s' p ie, Inv (spend need) s' -> ptable s !! j = Some p ->
     ptable s' = <[j := set_acc (s64 (accumulator p + priority p))
                          (set_ctx (mkContext AtYield ie) (set_state RUNNABLE p))]> (ptable s) ->
     j :: run_of (hw s') ≡ₚ run_of (hw s) -> initproc s' = initproc s -> Left s') ->
  wp yield s Post Left.
Proof.
  intros Hinv Hon Hc HP. destruct (Inv_running _ _ _ _ _ Hinv Hon Hc) as (run' & p & Hrun & Hj & Hj64 & Hp & Hst).
  destruct Hinv as [Hcalm [Ht (q & Hr & Hq)]]. unfold yield. apply wp_bind.
  eapply wp_acquire; [done|exact Hon|]. intros h lk c1 Hb Hc1 Hro. rewrite Hc in Hc1.
  set (s1 := put_hwl (h, lk) s) in *.
  apply wp_bind. eapply wp_myproc; [exact Hb|]. rewrite Hc1.
  apply wp_bind. eapply wp_upd; [exact Hp|]. set (p2 := set_state RUNNABLE p). set (s2 := put_ptable _ s1).
  assert (busy i c1 s2) as Hb2 by (by eapply busy_env; [|exact Hb]).
  apply wp_bind. eapply wp_myproc; [exact Hb2|]. rewrite Hc1.
  apply wp_bind. eapply wp_queue; [apply rpholder_remove_ok|exact Hr|]. intros d3 Hr3.
  assert (busy i c1 (put_qs d3 s2)) as Hb3 by (by eapply busy_env; [|exact Hb2]).
  apply wp_bind. eapply wp_myproc; [exact Hb3|]. rewrite Hc1.
  apply wp_bind. eapply wp_pq_put; [exact Hr3|]. intros d4 Hr4.
  eapply qok_perm in Hq; [|exact Hrun]. apply qok_remove in Hq.
  eapply (wp_sched need run' run' i c1 j p2); try done.
  - by eapply busy_env; [|exact Hb3].
  - simpl. by rewrite Hro, Hrun.
  - simpl. apply list_lookup_insert_eq. by eapply lookup_lt_Some.
  - intros ie. simpl. rewrite list_insert_insert_eq.
    eapply ptt_env; [eapply (ptt_stop _ run' s j p (set_ctx (mkContext AtYield ie) p2)); done|done..].
  - eapply (qok_put d3) in Hq; [exact Hq|exact Hr3|exact Hp|done|done|].
    right. split; [congruence|]. by rewrite spend_gain.
  - by left.
  - intros s' ie Hinv' Hrun' Ht' Hi' _ _. rewrite decide_True in Hinv' by done.
    apply (HP s' p ie); try done.
    + rewrite Ht'. simpl. rewrite list_insert_insert_eq. done.
    + by rewrite Hrun', Hrun.
Qed.

(** The end of [sleep], once [ptable.lock] is the only lock held. *)
Lemma wp_sleep_core {A} need s i c j ch lk k (Post : A -> kernel Q R -> Prop) Left :
  busy i c s -> cproc c = Some j -> pt need (run_of (hw s)) s ->
  match lk with
  | NullLock => False
  | PtableLock => exists b, k = AfterWait b
  | OtherLock n => n < length (locks s) /\ k = AfterCall
  end ->
  (forall s' p ie, Inv need s' -> ptable s !! j = Some p ->
     ptable s' = <[j := set_ctx (mkContext (AtSleep lk k) ie) (set_state SLEEPING (set_chan ch p))]> (ptable s) ->
     j :: run_of (hw s') ≡ₚ run_of (hw s) -> initproc s' = initproc s -> locks s' = locks s -> Left s') ->
  wp (upd_proc (Some j) (set_chan ch) ;;;
      upd_proc (Some j) (set_state SLEEPING) ;;;
      on_queue (fun _ => rpholder_remove_op (Some j)) ;;;
      sched (AtSleep lk k)) s Post Left.
Proof.
  intros Hb Hc [Ht (q & Hr & Hq)] Hk HP. pose proof (il_on _ _ _ (bu_in _ _ _ Hb)) as Hon.
  destruct (run_of_clear _ _ _ _ Hon Hc) as (run' & Hrun & _).
  pose proof (pt_nodup _ _ Ht) as Hnd. rewrite Hrun in Hnd. apply NoDup_cons in Hnd as [Hj _].
  assert (j ∈ run_of (hw s)) as Hin by (rewrite Hrun; by left).
  destruct (ptt_lookup _ _ _ Ht (pt_bound _ _ Ht _ Hin)) as (p & Hp).
  pose proof (proj2 (pt_run _ _ Ht _ _ Hp) Hin) as Hst. pose proof (lookup_lt_Some _ _ _ Hp) as Hlt.
  apply wp_bind. eapply wp_upd; [exact Hp|].
  apply wp_bind. eapply wp_upd; [simpl; by apply list_lookup_insert_eq|].
  apply wp_bind. eapply wp_queue; [apply rpholder_remove_ok|exact Hr|]. intros d Hr3.
  eapply qok_perm in Hq; [|exact Hrun]. apply qok_remove in Hq.
  set (p2 := set_state SLEEPING (set_chan ch p)).
  eapply (wp_sched need run' run' i c j p2); try done.
  - by eapply busy_env; [|exact Hb].
  - simpl. rewrite list_lookup_insert_eq by (by rewrite length_insert). done.
  - intros ie. simpl. rewrite !list_insert_insert_eq.
    apply (ptt_env run' (put_ptable (<[j:=set_ctx (mkContext (AtSleep lk k) ie) p2]> (ptable s)) s)); [|done..].
    apply (ptt_stop (run_of (hw s)) run' s j p); try done. intros _. simpl. by destruct lk.
  - simpl. rewrite list_insert_insert_eq. by eapply qok_sleep.
  - by left.
  - intros s' ie Hinv' Hrun' Ht' Hi' Hl' _. rewrite decide_False in Hinv' by done.
    apply (HP s' p ie); try done.
    + rewrite Ht'. simpl. rewrite !list_insert_insert_eq. done.
    + by rewrite Hrun', Hrun.
Qed.

Lemma wp_sleep_ptable {A} need s i c j ch b (Post : A -> kernel Q R -> Prop) Left :
  busy i c s -> cproc c = Some j -> pt need (run_of (hw s)) s ->
  (forall s' p ie, Inv need s' -> ptable s !! j = Some p ->
     ptable s' = <[j := set_ctx (mkContext (AtSleep PtableLock (AfterWait b)) ie)
                          (set_state SLEEPING (set_chan ch p))]> (ptable s) ->
     j :: run_of (hw s') ≡ₚ run_of (hw s) -> initproc s' = initproc s -> Left s') ->
  wp (sleep ch PtableLock (AfterWait b)) s Post Left.
Proof.
  intros Hb Hc Hpt HP. unfold sleep. apply wp_bind. eapply wp_myproc; [exact Hb|]. rewrite Hc. simpl.
  apply wp_bind. eapply wp_Ok; [reflexivity|]. eapply wp_sleep_core; [done..|by exists b|].
  intros s' p ie H1 H2 H3 H4 H5 _. by apply (HP s' p ie).
Qed.

(** *** Sleeping on another lock *)

Lemma on_lock_Ok {A} n (m : M (machine * spinlock) A) s lk a h lk' :
  locks s !! n = Some lk -> m (hw s, lk) = Ok a (h, lk') ->
  on_lock n m s = Ok a (put_hw h (put_locks (<[n := lk']> (locks s)) s)).
Proof. intros Hn Hm. unfold on_lock. rewrite Hn. unfold zoom. by rewrite Hm. Qed.

(** Taking a free lock outside every other: what is left afterwards, and that
    releasing it restores the invariant. *)
Definition grabbed (n : nat) (lk : spinlock) (i : nat) (c : cpu) s : kernel Q R :=
  put_hw (set_cpu i (pushed c) (hw s)) (put_locks (<[n := held (hw s) i lk]> (locks s)) s).

Lemma calm_lock s n : calm s -> n < length (locks s) ->
  exists lk, locks s !! n = Some lk /\ locked lk = false.
Proof.
  intros [_ _ Hl] Hn. destruct (lookup_lt_is_Some_2 _ _ Hn) as [lk Hlk]. exists lk. split; [done|].
  by eapply (Forall_lookup_1 _ _ _ _ Hl).
Qed.

Lemma grab_Ok s i c n lk :
  calm s -> on_cpu (hw s) i c -> locks s !! n = Some lk -> locked lk = false ->
  on_lock n acquire s = Ok tt (grabbed n lk i c s).
Proof.
  intros Hcalm Hon Hn Hl. pose proof (calm_quiet _ _ _ Hcalm Hon) as Hq.
  eapply on_lock_Ok; [exact Hn|]. apply acquire_Ok; [done|by eapply quiet_wf| |done].
  rewrite (qu_ncli _ _ _ Hq). lia.
Qed.

Lemma drop_Ok need s i c n lk :
  Inv need s -> on_cpu (hw s) i c -> locks s !! n = Some lk -> locked lk = false ->
  exists s', on_lock n release (grabbed n lk i c s) = Ok tt s' /\ Inv need s' /\
    ptable s' = ptable s /\ run_of (hw s') = run_of (hw s) /\ initproc s' = initproc s.
Proof.
  intros [Hcalm Hpt] Hon Hn Hl. pose proof (calm_quiet _ _ _ Hcalm Hon) as Hq.
  pose proof (quiet_wf _ _ _ Hq) as Hwf. pose proof (qu_ncli _ _ _ Hq) as Hnc.
  pose proof (on_cpu_set _ _ _ (pushed c) Hon eq_refl) as Hon1.
  assert (cpu_wf (pushed c)) as Hwf1 by (apply pushed_wf; [done|lia]).
  eexists. split.
  { eapply on_lock_Ok; [simpl; apply list_lookup_insert_eq; by eapply lookup_lt_Some|].
    apply (release_Ok _ _ _ _ Hon1 Hwf1); simpl; first [done|lia]. }
  simpl. rewrite set_cpu_set, popped_pushed, list_insert_insert_eq by done.
  assert (touch c = set_intena (IF c) c) as -> by (unfold touch; by rewrite Hnc).
  assert (run_of (set_cpu i (set_intena (IF c) c) (hw s)) = run_of (hw s)) as Hro by (by eapply run_of_set).
  destruct (ca_cpus _ Hcalm i c) as [_ Hsc]; [apply Hon|].
  split_and!; [split|done|done|done].
  - destruct (calm_set _ _ (set_intena (IF c) c) _ Hcalm Hon Hnc Hsc) as [H1 H2 H3]. split; [done|done|].
    simpl. apply Forall_insert; [apply Hcalm|done].
  - simpl. rewrite Hro. destruct Hpt as [[] Hqq]. split; [split; try done|done]. simpl. by rewrite length_insert.
Qed.

(** [acquire(lk); ... sleep(chan, lk)] *)
Definition sleep_on (ch : channel) (n : nat) : M (kernel Q R) unit :=
  on_lock n acquire ;;; sleep ch (OtherLock n) AfterCall.

Lemma wp_sleep_on need s i c j ch n (Post : unit -> kernel Q R -> Prop) Left :
  Inv need s -> on_cpu (hw s) i c -> cproc c = Some j -> n < length (locks s) ->
  (forall s' p ie, Inv need s' -> ptable s !! j = Some p ->
     ptable s' = <[j := set_ctx (mkContext (AtSleep (OtherLock n) AfterCall) ie)
                          (set_state SLEEPING (set_chan ch p))]> (ptable s) ->
     j :: run_of (hw s') ≡ₚ run_of (hw s) -> initproc s' = initproc s -> Left s') ->
  wp (sleep_on ch n) s Post Left.
Proof.
  intros [Hcalm Hpt] Hon Hc Hn HP. pose proof (calm_quiet _ _ _ Hcalm Hon) as Hq.
  pose proof (quiet_wf _ _ _ Hq) as Hwf. pose proof (qu_ncli _ _ _ Hq) as Hnc.
  destruct (calm_lock _ _ Hcalm Hn) as (lk & Hlk & Hl).
  unfold sleep_on. apply wp_bind. eapply wp_Ok; [by eapply grab_Ok|]. unfold sleep.
  set (s1 := grabbed n lk i c s).
  pose proof (on_cpu_set _ _ _ (pushed c) Hon eq_refl) as Hon1.
  assert (cpu_wf (pushed c)) as Hwf1 by (apply pushed_wf; [done|lia]).
  assert (myproc s1 = Ok (cproc c) s1) as Hmy.
  { rewrite (myproc_Ok i (pushed c)) by (first [done|simpl; lia]). rewrite touch_pushed by done.
    by rewrite (set_cpu_same (hw s1) _ _ Hon1), put_hw_same. }
  apply wp_bind. eapply wp_Ok; [exact Hmy|]. rewrite Hc. simpl.
  assert (exists h lkp lk', (acquire_ptable ;;; on_lock n release) s1 =
      Ok tt (put_hwl (h, lkp) (put_locks (<[n := lk']> (locks s)) s)) /\ h = set_cpu i (pushed c) (hw s) /\
      locked lkp = true /\ lcpu lkp = Some i /\ locked lk' = false)
    as (h & lkp & lk' & Heq & -> & Hlkp & Hcp & Hlk').
  { pose proof (on_cpu_set _ _ _ (pushed (pushed c)) Hon1 eq_refl) as Hon2.
    assert (cpu_wf (pushed (pushed c))) as Hwf2 by (apply pushed_wf; [done|simpl; lia]).
    exists (set_cpu i (pushed c) (hw s)), (held (hw s1) i (ptable_lock s)), (freed (held (hw s) i lk)).
    unfold acquire_ptable. erewrite bind_Ok.
    2:{ eapply zoom_Ok. apply (acquire_Ok _ _ _ _ Hon1 Hwf1); [simpl; lia|apply Hcalm]. }
    erewrite on_lock_Ok; [|simpl; apply list_lookup_insert_eq; by eapply lookup_lt_Some|
      apply (release_Ok _ _ _ _ Hon2 Hwf2); simpl; first [done|lia]].
    simpl. rewrite !set_cpu_set, popped_pushed, touch_pushed, list_insert_insert_eq by done.
    split; [reflexivity|]. done. }
  apply wp_bind. eapply wp_Ok; [exact Heq|].
  eapply (wp_sleep_core need _ i (pushed c)); [|done| | |].
  - destruct Hcalm as [Hcp2 _ Hlks]. split; [split; simpl; try done; lia| | |].
    + apply (Hcp2 i c). apply Hon.
    + intros j' c' Hj'. simpl. rewrite list_lookup_insert_ne by done. apply Hcp2.
    + simpl. by apply Forall_insert.
  - simpl. rewrite (run_of_set _ _ _ _ Hon) by done. destruct Hpt as [[] Hqq].
    split; [split; try done|done]. simpl. by rewrite length_insert.
  - simpl. by rewrite length_insert.
  - intros s' p ie H1 H2 H3 H4 H5 H6. apply (HP s' p ie); try done.
    simpl in H4. by rewrite (run_of_set _ _ _ _ Hon) in H4.
Qed.
End Switch.
