(* ===== verification/ProcCalls.v ===== *)
(** * The kernel calls of a running process

    [wait], [exit], [kill], [detach], [wakeup], [priority] and [fork]: what each
    does to the process table, its result, and that it preserves the
    invariant. *)

From stdpp Require Import base gmap list strings sorting.
From Stdlib Require Import ZArith Lia.
From S2P Require Import Prelude SchedSpec Spinlock Proc ProcHw ProcInv ProcSwitch.

(** What [wait] leaves of a reaped child. *)
Definition reaped (z : proc) : proc :=
  set_state UNUSED (set_killed false (set_name "" (set_pparent None (set_pid 0 (set_kstack 0 z))))).

(** The first index of a table that satisfies a predicate. *)
Definition first_at (P : proc -> Prop) (t : list proc) (k : nat) (z : proc) : Prop :=
  t !! k = Some z /\ P z /\ forall j p, j < k -> t !! j = Some p -> ~ P p.
Definition none_at (P : proc -> Prop) (t : list proc) : Prop :=
  forall j p, t !! j = Some p -> ~ P p.

Definition zombie_child (me : procp) (p : proc) : Prop := parent p = me /\ state p = ZOMBIE.

(** The two ways [wait] returns. *)
Inductive wait_result (me : nat) (b : bool) (t : list proc) : Z * option Z -> list proc -> Prop :=
| W_reap k z :
    first_at (zombie_child (Some me)) t k z ->
    wait_result me b t (pid z, if b then Some (status z) else None) (<[k := reaped z]> t)
| W_none p :
    none_at (zombie_child (Some me)) t -> t !! me = Some p ->
    killed p = true \/ none_at (fun p => parent p = Some me) t ->
    wait_result me b t ((-1)%Z, None) t.

(** What [kill] does to the process it finds. *)
Definition killed_by (z z' : proc) : Prop :=
  if decide (state z = SLEEPING)
  then exists k, z' = set_acc k (set_state RUNNABLE (set_killed true z))
  else z' = set_killed true z.

Inductive kill_result (n : Z) (t : list proc) : Z -> list proc -> Prop :=
| Kill_found k z z' :
    first_at (fun p => pid p = n) t k z -> killed_by z z' -> kill_result n t 0 (<[k := z']> t)
| Kill_none : none_at (fun p => pid p = n) t -> kill_result n t (-1) t.

Inductive detach_result (me : nat) (ip : procp) (n : Z) (t : list proc) : Z -> list proc -> Prop :=
| Detach_found k z :
    first_at (fun p => pid p = n /\ parent p = Some me) t k z ->
    detach_result me ip n t 0 (<[k := set_pparent ip z]> t)
| Detach_none :
    none_at (fun p => pid p = n /\ parent p = Some me) t -> detach_result me ip n t (-1) t.

Section Calls.
Context {Q R : Type} `{HQ : Queues Q} `{HR : Services R} `{!ServicesReturn R}.
Implicit Types s : kernel Q R.

(** The process [j] runs on CPU [i] between calls. *)
Definition runs_on (i j : nat) s : Prop := exists c, on_cpu (hw s) i c /\ cproc c = Some j.

Lemma none_at_bool me t :
  existsb (fun p => bool_decide (parent p = me)) t = false -> none_at (fun p => parent p = me) t.
Proof.
  intros H j p Hj Hp. assert (existsb (fun p => bool_decide (parent p = me)) t = true) as Ht; [|congruence].
  apply existsb_exists. exists p. split; [|by apply bool_decide_eq_true].
  apply list_elem_of_In. by eapply list_elem_of_lookup_2.
Qed.

Lemma wp_release_Inv_rest need run i c s (Post : unit -> kernel Q R -> Prop) Left :
  busy i c s -> pt need run s -> run ≡ₚ run_of (hw s) ->
  (forall s', Inv need s' -> (exists c1, on_cpu (hw s') i c1 /\ cproc c1 = cproc c) ->
     ptable s' = ptable s -> run_of (hw s') = run_of (hw s) -> initproc s' = initproc s ->
     rest s' = rest s -> Post tt s') ->
  wp release_ptable s Post Left.
Proof.
  intros Hb Hpt Hp HP. eapply wp_release; [exact Hb|]. intros h lk c1 Hcalm Hon Hc Hro.
  apply HP; try done; [|by exists c1]. split; [done|]. simpl. rewrite Hro.
  eapply pt_env; [by eapply pt_perm|done..].
Qed.

Lemma wp_release_Inv need run i c s (Post : unit -> kernel Q R -> Prop) Left :
  busy i c s -> pt need run s -> run ≡ₚ run_of (hw s) ->
  (forall s', Inv need s' -> (exists c1, on_cpu (hw s') i c1 /\ cproc c1 = cproc c) ->
     ptable s' = ptable s -> run_of (hw s') = run_of (hw s) -> initproc s' = initproc s -> Post tt s') ->
  wp release_ptable s Post Left.
Proof. intros Hb Hpt Hp HP. eapply wp_release_Inv_rest; [exact Hb|done..|]. intros s' H1 H2 H3 H4 H5 _. by apply HP. Qed.

Lemma pt_reap need run s k z :
  pt need run s -> ptable s !! k = Some z -> state z = ZOMBIE ->
  pt need run (put_ptable (<[k := reaped z]> (ptable s)) s).
Proof.
  intros [Ht (q & Hr & Hq)] Hk Hst. split.
  - apply (ptt_update_gen run s k z); simpl; try done; [by right|by rewrite Hst|]. by intros [? | ?].
  - exists q. split; [done|]. by eapply qok_update.
Qed.

Lemma wp_wait_loop need s i c j b (Post : Z * option Z -> kernel Q R -> Prop) Left :
  busy i c s -> cproc c = Some j -> pt need (run_of (hw s)) s ->
  (forall r s', Inv need s' -> runs_on i j s' -> run_of (hw s') = run_of (hw s) ->
     initproc s' = initproc s -> wait_result j b (ptable s) r (ptable s') -> Post r s') ->
  (forall s' p ie, Inv need s' -> ptable s !! j = Some p ->
     none_at (zombie_child (Some j)) (ptable s) -> killed p = false ->
     ptable s' = <[j := set_ctx (mkContext (AtSleep PtableLock (AfterWait b)) ie)
                          (set_state SLEEPING (set_chan (ProcChan j) p))]> (ptable s) ->
     j :: run_of (hw s') ≡ₚ run_of (hw s) -> initproc s' = initproc s -> Left s') ->
  wp (wait_loop b) s Post Left.
Proof.
  intros Hb Hc Hpt HP HL. unfold wait_loop. apply wp_bind. eapply wp_myproc; [exact Hb|]. rewrite Hc.
  apply wp_bind. unfold procs.
  apply (wp_scan_seq (fun n s' => s' = s /\ forall k p, k < n -> ptable s !! k = Some p -> ~ zombie_child (Some j) p)).
  - split; [done|lia].
  - (* no zombie child *)
    intros s' [-> Hno]. assert (none_at (zombie_child (Some j)) (ptable s)) as Hnone.
    { intros k p Hk. apply (Hno k); [|done]. by eapply pt_lt. }
    pose proof (il_on _ _ _ (bu_in _ _ _ Hb)) as Hon.
    assert (j ∈ run_of (hw s)) as Hin.
    { destruct (run_of_clear _ _ _ _ Hon Hc) as (run' & -> & _). by left. }
    destruct (ptt_lookup _ _ j (proj1 Hpt)) as (p & Hp); [by eapply pt_bound; [apply Hpt|]|].
    apply wp_bind. eapply wp_Ok; [reflexivity|]. apply wp_bind. eapply wp_get; [exact Hp|]. unfold id.
    destruct (existsb (fun p0 => bool_decide (parent p0 = Some j)) (ptable s)) eqn:Ekids; simpl.
    + destruct (killed p) eqn:Ek.
      * apply wp_bind. eapply wp_release_Inv; [exact Hb|exact Hpt|done|].
        intros s' Hinv (c1 & Hon1 & Hc1) Ht' Hro Hi. eapply wp_Ok; [reflexivity|]. apply HP; [done| |done..|].
        { exists c1. split; [done|congruence]. }
        rewrite Ht'. by apply (W_none _ _ _ p); [|done|left].
      * eapply (wp_sleep_ptable need s i c j); [done..|].
        intros s' p' ie H1 H2 H3 H4 H5. simplify_eq. by apply (HL s' p ie).
    + apply wp_bind. eapply wp_release_Inv; [exact Hb|exact Hpt|done|].
      intros s' Hinv (c1 & Hon1 & Hc1) Ht' Hro Hi. eapply wp_Ok; [reflexivity|]. apply HP; [done| |done..|].
      { exists c1. split; [done|congruence]. }
      rewrite Ht'. apply (W_none _ _ _ p); [done|done|right]. by apply none_at_bool.
  - (* the body of the scan *)
    intros k s' Hk [-> Hno]. destruct (ptt_lookup _ _ k (proj1 Hpt) ltac:(lia)) as (z & Hz).
    pose proof (lookup_lt_Some _ _ _ Hz) as Hlt.
    assert (~ zombie_child (Some j) z -> s = s /\ forall k0 p, k0 < S k -> ptable s !! k0 = Some p -> ~ zombie_child (Some j) p) as Hnext.
    { intros Hnz. split; [done|]. intros k0 p Hk0 Hp. destruct (decide (k0 = k)) as [->|]; [by simplify_eq|].
      apply (Hno k0); [lia|done]. }
    apply wp_bind. eapply wp_get; [exact Hz|]. case_bool_decide as Hpar.
    2:{ eapply wp_Ok; [reflexivity|]. apply Hnext. by intros []. }
    apply wp_bind. eapply wp_get; [exact Hz|]. destruct (decide (state z = ZOMBIE)) as [Hst|Hst].
    2:{ eapply wp_Ok; [reflexivity|]. apply Hnext. by intros []. }
    apply wp_bind. eapply wp_get; [exact Hz|]. apply wp_bind. eapply wp_get; [exact Hz|].
    apply wp_bind. apply wp_rest_unit; [apply ret_kfree|]. intros r1.
    apply wp_bind. eapply wp_upd; [exact Hz|]. apply wp_bind.
    eapply wp_get; [simpl; by apply list_lookup_insert_eq|].
    apply wp_bind. apply wp_rest_unit; [apply ret_freevm|]. intros r2.
    do 5 (apply wp_bind; eapply wp_upd; [simpl; apply list_lookup_insert_eq; by rewrite ?length_insert|]).
    apply wp_bind. eapply wp_get; [simpl; apply list_lookup_insert_eq; by rewrite ?length_insert|].
    eapply wp_Ok; [reflexivity|]. apply wp_bind.
    eapply (wp_release_Inv need (run_of (hw s)) i c); [by eapply busy_env; [|exact Hb]| |done|].
    + eapply pt_env; [apply (pt_reap need (run_of (hw s)) s k z); done|simpl|done..].
      by rewrite !list_insert_insert_eq.
    + intros s' Hinv (c1 & Hon1 & Hc1) Ht' Hro Hi. eapply wp_Ok; [reflexivity|]. apply HP; [done| |done..|].
      { exists c1. split; [done|congruence]. }
      rewrite Ht'. simpl. rewrite !list_insert_insert_eq. apply W_reap. by split_and!.
Qed.

(** *** Calls that take [ptable.lock] once *)

Lemma wp_wait need s i c j b (Post : Z * option Z -> kernel Q R -> Prop) Left :
  Inv need s -> on_cpu (hw s) i c -> cproc c = Some j ->
  (forall r s', Inv need s' -> runs_on i j s' -> run_of (hw s') = run_of (hw s) ->
     initproc s' = initproc s -> wait_result j b (ptable s) r (ptable s') -> Post r s') ->
  (forall s' p ie, Inv need s' -> ptable s !! j = Some p ->
     none_at (zombie_child (Some j)) (ptable s) -> killed p = false ->
     ptable s' = <[j := set_ctx (mkContext (AtSleep PtableLock (AfterWait b)) ie)
                          (set_state SLEEPING (set_chan (ProcChan j) p))]> (ptable s) ->
     j :: run_of (hw s') ≡ₚ run_of (hw s) -> initproc s' = initproc s -> Left s') ->
  wp (wait b) s Post Left.
Proof.
  intros [Hcalm Hpt] Hon Hc HP HL. unfold wait. apply wp_bind.
  eapply wp_acquire; [done|exact Hon|]. intros h lk c1 Hb Hc1 Hro.
  eapply (wp_wait_loop need _ i c1 j); [exact Hb|congruence| | |]; simpl; rewrite ?Hro.
  - by eapply pt_env.
  - done.
  - intros. by eapply HL.
Qed.

Lemma wp_kill need s i c n (Post : Z -> kernel Q R -> Prop) Left :
  Inv need s -> on_cpu (hw s) i c ->
  (forall r s', Inv need s' -> (exists c', on_cpu (hw s') i c' /\ cproc c' = cproc c) ->
     run_of (hw s') = run_of (hw s) -> initproc s' = initproc s ->
     kill_result n (ptable s) r (ptable s') -> Post r s') ->
  wp (kill n) s Post Left.
Proof.
  intros [Hcalm Hpt] Hon HP. unfold kill. apply wp_bind.
  eapply wp_acquire; [done|exact Hon|]. intros h lk c1 Hb Hc1 Hro. set (s1 := put_hwl (h, lk) s) in *.
  assert (pt need (run_of (hw s1)) s1) as Hpt1 by (simpl; rewrite Hro; by eapply pt_env).
  apply wp_bind. unfold procs.
  apply (wp_scan_seq (fun m s' => s' = s1 /\ forall k p, k < m -> ptable s !! k = Some p -> pid p <> n)).
  - split; [done|lia].
  - intros s' [-> Hno]. apply wp_bind. eapply wp_release_Inv; [exact Hb|exact Hpt1|done|].
    intros s' Hinv (c2 & Hon2 & Hc2) Ht' Hro' Hi'. eapply wp_Ok; [reflexivity|]. apply HP; [done| | |done|].
    + exists c2. split; [done|congruence].
    + by rewrite Hro'.
    + rewrite Ht'. apply Kill_none. intros k p Hk. apply (Hno k); [|done]. by eapply pt_lt.
  - intros k s' Hk [-> Hno]. destruct (ptt_lookup _ _ k (proj1 Hpt1) ltac:(lia)) as (z & Hz).
    change (ptable s !! k = Some z) in Hz. pose proof (lookup_lt_Some _ _ _ Hz) as Hlt.
    apply wp_bind. eapply wp_get; [exact Hz|]. destruct (Z.eqb_spec (pid z) n) as [Hpid|Hpid].
    2:{ eapply wp_Ok; [reflexivity|]. split; [done|]. intros k0 p Hk0 Hp.
        destruct (decide (k0 = k)) as [->|]; [by simplify_eq|]. apply (Hno k0); [lia|done]. }
    apply wp_bind. eapply wp_upd; [exact Hz|]. set (s2 := put_ptable _ s1). set (z1 := set_killed true z).
    assert (busy i c1 s2) as Hb2 by (by eapply busy_env; [|exact Hb]).
    assert (pt need (run_of (hw s1)) s2) as Hpt2.
    { apply (pt_update need _ s1 k z); try done.
      - exact (pt_pid_used _ _ _ k z Hpt1 Hz).
      - apply (pt_ctx _ _ (proj1 Hpt1) _ _ Hz). }
    assert (ptable s2 !! k = Some z1) as Hz1 by (by apply list_lookup_insert_eq).
    apply wp_bind. eapply wp_get; [exact Hz1|].
    assert (forall s3 z', pt need (run_of (hw s1)) s3 -> same_env s2 s3 -> killed_by z z' ->
      ptable s3 = <[k := z']> (ptable s1) ->
      wp (release_ptable ;;; ret (match Some tt with Some _ => 0 | None => -1 end)%Z) s3 Post Left) as Hfin.
    { intros s3 z' Hpt3 He3 Hkb Ht3. apply wp_bind.
      eapply (wp_release_Inv need (run_of (hw s1)) i c1); [by eapply busy_env|done|by rewrite (se_hw _ _ He3)|].
      intros s' Hinv (c2 & Hon2 & Hc2) Ht' Hro' Hi'. eapply wp_Ok; [reflexivity|].
      rewrite (se_hw _ _ He3) in Hro'. rewrite (se_init _ _ He3) in Hi'. apply HP; [done| | |done|].
      - exists c2. split; [done|congruence].
      - by rewrite Hro'.
      - rewrite Ht', Ht3. apply (Kill_found _ _ k z); [|done]. split_and!; [done..|].
        intros k0 p Hk0 Hp. by apply (Hno k0). }
    apply wp_bind. destruct (decide (state z = SLEEPING)) as [Hst|Hst].
    + rewrite decide_True by done. eapply wp_wake; [exact Hpt2|exact Hz1|done|].
      intros s3 k3 Hpt3 He3 _ Ht3. eapply wp_Ok; [reflexivity|]. eapply (Hfin s3 (set_acc k3 (set_state RUNNABLE z1))); try done.
      * unfold killed_by. rewrite decide_True by done. by exists k3.
      * rewrite Ht3. simpl. by rewrite list_insert_insert_eq.
    + rewrite decide_False by done. eapply wp_Ok; [reflexivity|]. eapply wp_Ok; [reflexivity|].
      apply (Hfin s2 z1); try done. unfold killed_by. by rewrite decide_False.
Qed.

(** An update of fields that the invariant does not mention. *)
Lemma pt_fields need run s k z z' :
  pt need run s -> ptable s !! k = Some z -> pid z' = pid z -> state z' = state z -> ctx z' = ctx z ->
  pt need run (put_ptable (<[k := z']> (ptable s)) s).
Proof.
  intros Hpt Hz Hp Hs Hc. apply (pt_update need run s k z); rewrite ?Hs; try done.
  - rewrite Hp. exact (pt_pid_used _ _ _ k z Hpt Hz).
  - unfold ctx_ok. rewrite Hs, Hc. apply (pt_ctx _ _ (proj1 Hpt) _ _ Hz).
Qed.

Lemma wp_detach need s i c j n (Post : Z -> kernel Q R -> Prop) Left :
  Inv need s -> on_cpu (hw s) i c -> cproc c = Some j ->
  (forall r s', Inv need s' -> runs_on i j s' -> run_of (hw s') = run_of (hw s) ->
     initproc s' = initproc s -> detach_result j (initproc s) n (ptable s) r (ptable s') -> Post r s') ->
  wp (detach n) s Post Left.
Proof.
  intros [Hcalm Hpt] Hon Hc HP. unfold detach. apply wp_bind.
  eapply wp_myproc_calm; [done|exact Hon|]. intros h0 c0 Hcalm0 Hon0 Hc0 Hro0. rewrite Hc in Hc0 |- *. apply wp_bind.
  eapply wp_acquire; [exact Hcalm0|exact Hon0|]. intros h lk c1 Hb Hc1 Hro.
  set (s1 := put_hwl (h, lk) (put_hw h0 s)) in *. simpl in Hro.
  assert (pt need (run_of (hw s1)) s1) as Hpt1 by (simpl; rewrite Hro, Hro0; by eapply pt_env).
  apply wp_bind. unfold procs.
  apply (wp_scan_seq (fun m s' => s' = s1 /\ forall k p, k < m -> ptable s !! k = Some p ->
    ~ (pid p = n /\ parent p = Some j))).
  - split; [done|lia].
  - intros s' [-> Hno]. apply wp_bind. eapply wp_release_Inv; [exact Hb|exact Hpt1|done|].
    intros s' Hinv (c2 & Hon2 & Hc2) Ht' Hro' Hi'. eapply wp_Ok; [reflexivity|]. apply HP; [done| | |done|].
    + exists c2. split; [done|congruence].
    + rewrite Hro'. simpl. by rewrite Hro, Hro0.
    + rewrite Ht'. apply Detach_none. intros k p Hk. apply (Hno k); [|done]. by eapply pt_lt.
  - intros k s' Hk [-> Hno]. destruct (ptt_lookup _ _ k (proj1 Hpt1) ltac:(lia)) as (z & Hz).
    change (ptable s !! k = Some z) in Hz.
    apply wp_bind. eapply wp_get; [exact Hz|]. apply wp_bind. eapply wp_get; [exact Hz|].
    destruct (decide (pid z = n /\ parent z = Some j)) as [[Hpid Hpar]|Hnz].
    2:{ assert ((pid z =? n)%Z && bool_decide (parent z = Some j) = false) as ->.
        { destruct (Z.eqb_spec (pid z) n); [|done]. simpl. apply bool_decide_eq_false_2. tauto. }
        eapply wp_Ok; [reflexivity|]. split; [done|]. intros k0 p Hk0 Hp.
        destruct (decide (k0 = k)) as [->|]; [by simplify_eq|]. apply (Hno k0); [lia|done]. }
    rewrite Hpid, Z.eqb_refl, bool_decide_true by done. simpl.
    apply wp_bind. eapply wp_Ok; [reflexivity|]. apply wp_bind. eapply wp_upd; [exact Hz|].
    eapply wp_Ok; [reflexivity|]. apply wp_bind.
    eapply (wp_release_Inv need (run_of (hw s1)) i c1); [by eapply busy_env; [|exact Hb]| |done|].
    { apply (pt_fields need _ s1 k z); done. }
    intros s' Hinv (c2 & Hon2 & Hc2) Ht' Hro' Hi'. eapply wp_Ok; [reflexivity|]. apply HP; [done| | |done|].
    + exists c2. split; [done|congruence].
    + simpl in Hro'. by rewrite Hro', Hro, Hro0.
    + rewrite Ht'. apply Detach_found. split_and!; [done..|]. intros k0 p Hk0 Hp. by apply (Hno k0).
Qed.

Lemma wp_wakeup need s i c ch (Post : unit -> kernel Q R -> Prop) Left :
  Inv need s -> on_cpu (hw s) i c ->
  (forall s', Inv need s' -> (exists c', on_cpu (hw s') i c' /\ cproc c' = cproc c) ->
     run_of (hw s') = run_of (hw s) -> initproc s' = initproc s ->
     Forall2 (woken ch) (ptable s) (ptable s') -> Post tt s') ->
  wp (wakeup ch) s Post Left.
Proof.
  intros [Hcalm Hpt] Hon HP. unfold wakeup. apply wp_bind.
  eapply wp_acquire; [done|exact Hon|]. intros h lk c1 Hb Hc1 Hro. apply wp_bind.
  eapply (wp_wakeup1 need (run_of h)); [simpl; rewrite Hro; by eapply pt_env|].
  intros s2 Hpt2 He2 _ Hw. eapply (wp_release_Inv need (run_of h) i c1); [by eapply busy_env|done|by rewrite (se_hw _ _ He2)|].
  intros s' Hinv (c2 & Hon2 & Hc2) Ht' Hro' Hi'. rewrite (se_hw _ _ He2) in Hro'. rewrite (se_init _ _ He2) in Hi'.
  apply HP; [done| | |done|by rewrite Ht'].
  - exists c2. split; [done|congruence].
  - by rewrite Hro'.
Qed.

Lemma wp_set_priority need s i c j n (Post : unit -> kernel Q R -> Prop) Left :
  Inv need s -> on_cpu (hw s) i c -> cproc c = Some j ->
  (forall s' p, Inv need s' -> runs_on i j s' -> run_of (hw s') = run_of (hw s) ->
     initproc s' = initproc s -> ptable s !! j = Some p -> ptable s' = <[j := set_prio n p]> (ptable s) ->
     Post tt s') ->
  wp (set_priority n) s Post Left.
Proof.
  intros Hinv Hon Hc HP. destruct (Inv_running _ _ _ _ _ Hinv Hon Hc) as (run' & p & _ & _ & _ & Hp & _).
  destruct Hinv as [Hcalm Hpt]. unfold set_priority. apply wp_bind.
  eapply wp_acquire; [done|exact Hon|]. intros h lk c1 Hb Hc1 Hro. rewrite Hc in Hc1.
  apply wp_bind. eapply wp_myproc; [exact Hb|]. rewrite Hc1. apply wp_bind. eapply wp_upd; [exact Hp|].
  eapply (wp_release_Inv need (run_of h) i c1); [by eapply busy_env; [|exact Hb]| |done|].
  { apply (pt_fields need _ (put_hwl (h, lk) s) j p); try done. rewrite Hro. by eapply pt_env. }
  intros s' Hinv' (c2 & Hon2 & Hc2) Ht' Hro' Hi'. apply (HP s' p); try done.
  - exists c2. split; [done|congruence].
  - by rewrite Hro'.
Qed.
End Calls.
