(* ===== verification/ProcExit.v ===== *)
(** * exit

    [exit] closes the files, wakes the parent, hands the children to init and
    leaves the CPU as a ZOMBIE. *)

From stdpp Require Import base gmap list strings sorting.
From Stdlib Require Import ZArith Lia.
From S2P Require Import Prelude SchedSpec Spinlock Proc ProcHw ProcInv ProcSwitch ProcCalls.

(** The fields of a process that other processes' exits leave alone, and the
    change of state they may cause. *)
Record same_core (p p' : proc) : Prop := {
  sc_pid : pid p' = pid p;
  sc_status : status p' = status p;
  sc_killed : killed p' = killed p;
  sc_chan : chan p' = chan p;
  sc_ctx : ctx p' = ctx p;
  sc_state : state p' = state p \/ (state p = SLEEPING /\ state p' = RUNNABLE)
}.

#[export] Instance same_core_refl : Reflexive same_core.
Proof. intros p. split; auto. Qed.
#[export] Instance same_core_trans : Transitive same_core.
Proof.
  intros p1 p2 p3 [A1 A2 A3 A4 A5 A6] [B1 B2 B3 B4 B5 B6]. split; try congruence.
  destruct A6 as [A6|[A6 A7]], B6 as [B6|[B6 B7]]; rewrite ?B6, ?A6; auto; right; split; congruence.
Qed.

Lemma woken_core c p p' : woken c p p' -> same_core p p' /\ parent p' = parent p.
Proof.
  unfold woken. destruct (decide _) as [[Hs _]|_].
  - intros [k ->]. split; [|done]. split; simpl; auto.
  - by intros ->.
Qed.

(** The new parent of a process when [j] exits. *)
Definition adopt (j : nat) (ip : procp) (pp : procp) : procp := if decide (pp = Some j) then ip else pp.

Record exit_result (j : nat) (st : Z) (ip : procp) (t t' : list proc) : Prop := {
  er_self : forall p, t !! j = Some p -> exists p', t' !! j = Some p' /\ state p' = ZOMBIE /\
    status p' = st /\ pid p' = pid p /\ parent p' = adopt j ip (parent p);
  er_other : forall k p, k <> j -> t !! k = Some p -> exists p', t' !! k = Some p' /\
    same_core p p' /\ parent p' = adopt j ip (parent p);
  er_wake : forall k p me, k <> j -> t !! k = Some p -> t !! j = Some me ->
    state p = SLEEPING -> chan p = chan_of (parent me) ->
    exists p', t' !! k = Some p' /\ state p' = RUNNABLE
}.

Section Exit.
Context {Q R : Type} `{HQ : Queues Q} `{HR : Services R} `{!ServicesReturn R}.
Implicit Types s : kernel Q R.

(** The loop that closes the files. *)
Definition close_files (j : nat) : M (kernel Q R) unit :=
  foreach files (fun fd =>
    let! f := get_proc (Some j) (fun p => ofile p !! fd) in
    match f with
    | Some (Some f) =>
        on_rest (svc_fileclose f) ;;;
        upd_proc (Some j) (fun p => set_ofile (<[fd := None]> (ofile p)) p)
    | _ => ret tt
    end).

Definition only_files (j : nat) (p : proc) s s' : Prop :=
  same_env s s' /\ qs s' = qs s /\ exists o, ptable s' = <[j := set_ofile o p]> (ptable s).

Lemma wp_close_files j p s (Post : unit -> kernel Q R -> Prop) Left :
  ptable s !! j = Some p -> (forall s', only_files j p s s' -> Post tt s') ->
  wp (close_files j) s Post Left.
Proof.
  intros Hp HP. pose proof (lookup_lt_Some _ _ _ Hp) as Hlt.
  eapply wp_mono; [apply (wp_foreach (only_files j p s))|intros [] s'; apply HP|done].
  - split_and!; [done..|]. exists (ofile p). rewrite list_insert_id; [done|]. rewrite Hp. by destruct p.
  - intros fd s1 _ (He & Hq & o & Ht).
    assert (ptable s1 !! j = Some (set_ofile o p)) as Hp1 by (rewrite Ht; by apply list_lookup_insert_eq).
    apply wp_bind. eapply wp_get; [exact Hp1|].
    destruct (ofile (set_ofile o p) !! fd) as [[f|]|]; [|by split_and!; [..|exists o]..].
    apply wp_bind. apply wp_rest_unit; [apply ret_fileclose|]. intros r. eapply wp_upd; [exact Hp1|].
    split_and!; [by etrans|done|]. eexists. simpl. rewrite Ht, list_insert_insert_eq. reflexivity.
Qed.

(** The loop that gives the children to init. *)
Definition reparent (j : nat) : M (kernel Q R) unit :=
  foreach procs (fun i =>
    let! pp := get_proc (Some i) parent in
    if bool_decide (pp = Some j) then
      let! ip := gets initproc in
      upd_proc (Some i) (set_pparent ip) ;;;
      let! st' := get_proc (Some i) state in
      if decide (st' = ZOMBIE) then wakeup1 (chan_of ip) else ret tt
    else ret tt).

Lemma Forall2_woken_lookup c t t' k p :
  Forall2 (woken c) t t' -> t !! k = Some p -> exists p', t' !! k = Some p' /\ woken c p p'.
Proof. intros H Hk. by apply (Forall2_lookup_l _ _ _ _ _ H) in Hk. Qed.

Lemma wp_reparent need run j s (Post : unit -> kernel Q R -> Prop) Left :
  pt need run s ->
  (forall s', pt need run s' -> same_env s s' ->
     (forall k p, ptable s !! k = Some p -> exists p', ptable s' !! k = Some p' /\
        same_core p p' /\ parent p' = adopt j (initproc s) (parent p)) -> Post tt s') ->
  wp (reparent j) s Post Left.
Proof.
  intros Hpt HP. unfold reparent, procs.
  eapply wp_mono; [apply (wp_foreach_seq (fun n s' => pt need run s' /\ same_env s s' /\
    forall k p, ptable s !! k = Some p -> exists p', ptable s' !! k = Some p' /\ same_core p p' /\
      parent p' = if decide (k < n) then adopt j (initproc s) (parent p) else parent p))| |done].
  - split_and!; [done..|]. intros k p Hk. exists p. split_and!; [done..|]. by rewrite decide_False by lia.
  - intros i s1 Hi (Hpt1 & He1 & Htab).
    destruct (ptt_lookup _ _ i (proj1 Hpt) ltac:(lia)) as (p & Hp).
    destruct (Htab i p Hp) as (p1 & Hp1 & Hcore & Hpar). rewrite decide_False in Hpar by lia.
    assert (forall s2, pt need run s2 -> same_env s1 s2 ->
      (forall k q1, ptable s1 !! k = Some q1 -> exists q2, ptable s2 !! k = Some q2 /\ same_core q1 q2 /\
         parent q2 = if decide (k = i) then adopt j (initproc s) (parent q1) else parent q1) ->
      pt need run s2 /\ same_env s s2 /\
      forall k p, ptable s !! k = Some p -> exists p', ptable s2 !! k = Some p' /\ same_core p p' /\
        parent p' = if decide (k < S i) then adopt j (initproc s) (parent p) else parent p) as Hnext.
    { intros s2 Hpt2 He2 Htab2. split_and!; [done|by etrans|]. intros k q0 Hk.
      destruct (Htab k q0 Hk) as (q1 & Hq1 & Hc1 & Hpar1). destruct (Htab2 k q1 Hq1) as (q2 & Hq2 & Hc2 & Hpar2).
      exists q2. split_and!; [done|by etrans|]. rewrite Hpar2, Hpar1.
      repeat case_decide; subst; try lia; done. }
    apply wp_bind. eapply wp_get; [exact Hp1|]. case_bool_decide as Hch.
    + apply wp_bind. eapply wp_Ok; [reflexivity|]. apply wp_bind. eapply wp_upd; [exact Hp1|].
      set (p2 := set_pparent (initproc s1) p1). set (s2 := put_ptable _ s1).
      pose proof (lookup_lt_Some _ _ _ Hp1) as Hlt.
      assert (ptable s2 !! i = Some p2) as Hp2 by (by apply list_lookup_insert_eq).
      assert (pt need run s2) as Hpt2 by (by apply (pt_fields need run s1 i p1)).
      assert (forall k q1, ptable s1 !! k = Some q1 -> exists q2, ptable s2 !! k = Some q2 /\ same_core q1 q2 /\
        parent q2 = if decide (k = i) then adopt j (initproc s) (parent q1) else parent q1) as Htab2.
      { intros k q1 Hk. destruct (decide (k = i)) as [->|Hne].
        - exists p2. simplify_eq. split_and!; [done|by split; auto|]. unfold adopt. rewrite Hch, decide_True by done.
          apply He1.
        - exists q1. simpl. by rewrite list_lookup_insert_ne. }
      apply wp_bind. eapply wp_get; [exact Hp2|]. destruct (decide (state p2 = ZOMBIE)).
      * eapply (wp_wakeup1 need run); [exact Hpt2|]. intros s3 Hpt3 He3 _ Hw. apply Hnext; [done|by etrans; [|exact He3]|].
        intros k q1 Hk. destruct (Htab2 k q1 Hk) as (q2 & Hq2 & Hc2 & Hpar2).
        destruct (Forall2_woken_lookup _ _ _ _ _ Hw Hq2) as (q3 & Hq3 & [Hc3 Hpar3]%woken_core).
        exists q3. split_and!; [done|by etrans|congruence].
      * eapply wp_Ok; [reflexivity|]. by apply Hnext.
    + eapply wp_Ok; [reflexivity|]. apply Hnext; [done..|]. intros k q1 Hk. exists q1. split_and!; [done..|].
      case_decide; [|done]. subst. simplify_eq. unfold adopt. by rewrite decide_False.
  - intros [] s' (H1 & H2 & H3). apply HP; [done..|]. intros k p Hk. destruct (H3 k p Hk) as (p' & Hp' & Hc & Hpar).
    exists p'. split_and!; [done..|]. rewrite Hpar, decide_True; [done|]. simpl. by eapply pt_lt.
Qed.

Lemma wp_exit {A} need s i c j st (Post : A -> kernel Q R -> Prop) Left :
  Inv need s -> on_cpu (hw s) i c -> cproc c = Some j -> initproc s <> Some j ->
  (forall s', Inv need s' -> j :: run_of (hw s') ≡ₚ run_of (hw s) -> initproc s' = initproc s ->
     exit_result j st (initproc s) (ptable s) (ptable s') -> Left s') ->
  wp (exit st) s Post Left.
Proof.
  intros Hinv Hon Hc Hip HP. destruct (Inv_running _ _ _ _ _ Hinv Hon Hc) as (run' & p & Hrun & Hj & Hj64 & Hp & Hst).
  destruct Hinv as [Hcalm Hpt]. unfold exit. apply wp_bind.
  eapply wp_myproc_calm; [done|exact Hon|]. intros h0 c0 Hcalm0 Hon0 Hc0 Hro0. rewrite Hc in Hc0 |- *.
  apply wp_bind. eapply wp_upd; [exact Hp|]. set (p1 := set_status st p). set (s1 := put_ptable _ (put_hw h0 s)).
  apply wp_bind. eapply wp_Ok; [reflexivity|]. rewrite bool_decide_false by (simpl; congruence).
  pose proof (lookup_lt_Some _ _ _ Hp) as Hlt.
  apply wp_bind. apply (wp_close_files j p1 s1); [by apply list_lookup_insert_eq|]. intros s2 (He2 & Hq2 & o & Ht2).
  simpl in Ht2. rewrite list_insert_insert_eq in Ht2. set (p2 := set_ofile o p1) in *.
  assert (ptable s2 !! j = Some p2) as Hp2 by (rewrite Ht2; by apply list_lookup_insert_eq).
  apply wp_bind. apply wp_rest_unit; [apply ret_begin_op|]. intros r3.
  apply wp_bind. eapply wp_get; [exact Hp2|].
  apply wp_bind. apply wp_rest_unit; [apply ret_iput|]. intros r4.
  apply wp_bind. apply wp_rest_unit; [apply ret_end_op|]. intros r5.
  apply wp_bind. eapply wp_upd; [exact Hp2|]. set (p3 := set_cwd None p2).
  set (s3 := put_ptable _ _). simpl in s3.
  assert (same_env (put_hw h0 s) s3) as He3 by (by etrans; [|by etrans; [exact He2|]]).
  assert (ptable s3 = <[j := p3]> (ptable s)) as Ht3 by (unfold s3; simpl; by rewrite Ht2, list_insert_insert_eq).
  assert (pt need (run_of h0) s3) as Hpt3.
  { eapply pt_env; [apply (pt_fields need (run_of h0) (put_hw h0 s) j p p3); [rewrite Hro0; by eapply pt_env|done..]| |apply He3|apply He3|exact Hq2].
    exact Ht3. }
  assert (calm s3) as Hcalm3.
  { destruct Hcalm0 as [H1 H2 H3]. split; rewrite ?(se_hw _ _ He3), ?(se_lock _ _ He3), ?(se_locks _ _ He3); done. }
  assert (on_cpu (hw s3) i c0) as Hon3 by (by rewrite (se_hw _ _ He3)).
  apply wp_bind. eapply wp_acquire; [exact Hcalm3|exact Hon3|]. intros h lk c1 Hb Hc1 Hro.
  assert (run_of h = run_of h0) as Hro1 by (rewrite Hro, (se_hw _ _ He3); done).
  set (s4 := put_hwl (h, lk) s3) in *.
  assert (pt need (run_of h) s4) as Hpt4 by (rewrite Hro1; by eapply pt_env).
  assert (ptable s4 !! j = Some p3) as Hp4 by (change (ptable s3 !! j = Some p3); rewrite Ht3; by apply list_lookup_insert_eq).
  apply wp_bind. eapply wp_get; [exact Hp4|].
  apply wp_bind. eapply (wp_wakeup1 need (run_of h)); [exact Hpt4|]. intros s5 Hpt5 He5 _ Hw5.
  apply wp_bind. apply (wp_reparent need (run_of h) j s5); [exact Hpt5|]. intros s6 Hpt6 He6 Htab6.
  assert (same_env s4 s6) as He46 by (by etrans).
  assert (forall k q, ptable s4 !! k = Some q -> exists q', ptable s6 !! k = Some q' /\ same_core q q' /\
    parent q' = adopt j (initproc s) (parent q) /\
    (state q = SLEEPING -> chan q = chan_of (parent p) -> state q' = RUNNABLE)) as Htab.
  { intros k q Hk. destruct (Forall2_woken_lookup _ _ _ _ _ Hw5 Hk) as (q5 & Hq5 & Hwk).
    pose proof (woken_core _ _ _ Hwk) as [Hc5 Hpar5]. destruct (Htab6 k q5 Hq5) as (q6 & Hq6 & Hc6 & Hpar6).
    exists q6. split_and!; [done|by etrans| |].
    - rewrite Hpar6, Hpar5. f_equal. rewrite (se_init _ _ He5). apply He3.
    - intros Hsl Hch. unfold woken in Hwk. rewrite decide_True in Hwk by done. destruct Hwk as [kk ->].
      destruct (sc_state _ _ Hc6) as [-> |[? _]]; done. }
  destruct (Htab j p3 Hp4) as (p6 & Hp6 & Hc6 & Hpar6 & _).
  assert (state p6 = RUNNING) as Hst6.
  { apply (pt_run _ _ (proj1 Hpt6) _ _ Hp6). rewrite Hro1, Hro0, Hrun. by left. }
  apply wp_bind. eapply wp_upd; [exact Hp6|]. set (p7 := set_state ZOMBIE p6). set (s7 := put_ptable _ s6).
  assert (run_of (hw s7) ≡ₚ j :: run') as Hrun7 by (change (run_of (hw s6) ≡ₚ j :: run'); rewrite (se_hw _ _ He46); simpl; by rewrite Hro1, Hro0).
  destruct Hpt6 as [Ht6 (q6 & Hr6 & Hq6)].
  assert (run_of h ≡ₚ j :: run') as Hrunh by (by rewrite Hro1, Hro0).
  eapply (wp_sched need (j :: run') run' i c1 j p7 s7 q6); try done.
  - eapply busy_env; [|exact Hb]. by etrans; [exact He46|].
  - by rewrite Hc1.
  - simpl. apply list_lookup_insert_eq. by eapply lookup_lt_Some.
  - intros ie. simpl. rewrite list_insert_insert_eq.
    apply (ptt_env run' (put_ptable (<[j := set_ctx (mkContext AtExit ie) p7]> (ptable s6)) s6)); [|done..].
    apply (ptt_stop (run_of h) run' s6 j p6); try done. by intros [? | ?].
  - simpl. eapply qok_update; [by eapply qok_perm|exact Hp6|done..].
  - by right.
  - intros s' ie Hinv' Hrun' Ht' Hi' _ _. rewrite decide_False in Hinv' by done. apply HP; [done| | |].
    + by rewrite Hrun', Hrun.
    + rewrite Hi'. simpl. rewrite (se_init _ _ He46). exact (se_init _ _ He3).
    + unfold requeued in Ht'. simpl in Ht'. rewrite list_insert_insert_eq in Ht'.
      assert (forall k, k <> j -> ptable s !! k = ptable s4 !! k) as Hk4.
      { intros k Hne. change (ptable s4) with (ptable s3). rewrite Ht3. by rewrite list_lookup_insert_ne. }
      assert (forall k, k <> j -> ptable s' !! k = ptable s6 !! k) as Hk6.
      { intros k Hne. rewrite Ht'. by rewrite list_lookup_insert_ne. }
      split.
      * intros p0 Hp0. simplify_eq. eexists. split; [rewrite Ht'; apply list_lookup_insert_eq; by eapply lookup_lt_Some|].
        simpl. rewrite (sc_status _ _ Hc6), (sc_pid _ _ Hc6), Hpar6. done.
      * intros k q Hne Hk. rewrite (Hk4 _ Hne) in Hk. destruct (Htab k q Hk) as (q' & Hq' & H1 & H2 & _).
        exists q'. by rewrite (Hk6 _ Hne).
      * intros k q me Hne Hk Hme Hsl Hch. simplify_eq. rewrite (Hk4 _ Hne) in Hk.
        destruct (Htab k q Hk) as (q' & Hq' & _ & _ & Hwk). exists q'. rewrite (Hk6 _ Hne). auto.
Qed.
End Exit.
