(* ===== verification/ProcFork.v ===== *)
(** * allocproc and fork *)

From stdpp Require Import base gmap list strings sorting.
From Stdlib Require Import ZArith Lia.
From S2P Require Import Prelude SchedSpec Spinlock Proc ProcHw ProcInv ProcSwitch ProcCalls.

(** A slot right after [allocproc]. *)
Definition embryo (n ks : Z) (z : proc) : proc :=
  set_ctx (mkContext AtForkret false)
    (set_ctxp (ks + KSTACKSIZE - sizeof_trapframe - 4 - sizeof_context)%Z
      (set_tfp (ks + KSTACKSIZE - sizeof_trapframe)%Z
        (set_kstack ks (set_pid n (set_state EMBRYO z))))).

(** The open files of the child: those of the parent, over what the slot held. *)
Definition inherit1 (po o : list (option nat)) (i : nat) : list (option nat) :=
  match po !! i with Some (Some f) => <[i := Some f]> o | _ => o end.
Definition inherit (po o : list (option nat)) : list (option nat) := foldl (inherit1 po) o files.

Lemma inherit_eq po o : inherit po o = foldl (inherit1 po) o (seq 0 16).
Proof. reflexivity. Qed.
#[global] Opaque inherit.

(** The child of [p] in slot [z]. *)
Definition child_of (j : nat) (p z : proc) (n ks pg k : Z) : proc :=
  set_acc k (set_prio 5 (set_state RUNNABLE
    (set_name (safestrcpy16 (name p)) (set_cwd (cwd p) (set_ofile (inherit (ofile p) (ofile z))
      (set_tf (set_eax 0 (tf p)) (set_pparent (Some j) (set_sz (sz p) (set_pgdir pg (embryo n ks z)))))))))).

Inductive fork_result (j : nat) (n : Z) (t : list proc) : Z -> list proc -> Prop :=
| Fork_full : none_at (fun p => state p = UNUSED) t -> fork_result j n t (-1) t
| Fork_nomem k z z' :
    first_at (fun p => state p = UNUSED) t k z -> state z' = UNUSED -> pid z' = n ->
    fork_result j n t (-1) (<[k := z']> t)
| Fork_child k z p ks pg acc :
    first_at (fun p => state p = UNUSED) t k z -> t !! j = Some p -> ks <> 0%Z -> pg <> 0%Z ->
    fork_result j n t n (<[k := child_of j p z n ks pg acc]> t).

Section Fork.
Context {Q R : Type} `{HQ : Queues Q} `{HR : Services R} `{!ServicesReturn R}.
Implicit Types s : kernel Q R.

Lemma pt_alloc need run s k z z' :
  pt need run s -> ptable s !! k = Some z -> state z = UNUSED -> state z' = EMBRYO \/ state z' = UNUSED ->
  pid z' = nextpid s -> (nextpid s + 1 < 2 ^ 31)%Z ->
  pt need run (put_nextpid (nextpid s + 1) (put_ptable (<[k := z']> (ptable s)) s)).
Proof.
  intros [[Hlen Hnd Hb Hrun Hpids Hctx] (q & Hr & Hq)] Hz Hst Hst' Hpid Hlt. split.
  - split; simpl; try done.
    + by rewrite length_insert.
    + intros j1 p1 [[-> ->]|[_ H1]]%lookup_insert_cases; [|by apply Hrun].
      rewrite <- (Hrun _ _ Hz), Hst. destruct Hst' as [-> | ->]; done.
    + by eapply pids_alloc.
    + intros j1 p1 [[-> ->]|[_ H1]]%lookup_insert_cases; [|by eapply Hctx].
      intros [E|E]; destruct Hst'; congruence.
  - exists q. split; [done|]. eapply qok_update; [done|done|..]; intros E; destruct Hst'; congruence.
Qed.

(** The unlocked part of a call: the CPU state and the queues do not change. *)
Definition unlocked s s' : Prop :=
  hw s' = hw s /\ ptable_lock s' = ptable_lock s /\ locks s' = locks s /\ initproc s' = initproc s /\
  qs s' = qs s.

Lemma calm_unlocked s s' : unlocked s s' -> calm s -> calm s'.
Proof. intros (Hh & Hl & Hls & _) []. split; by rewrite ?Hh, ?Hl, ?Hls. Qed.

Lemma wp_allocproc need s i c (Post : procp -> kernel Q R -> Prop) Left :
  Inv need s -> on_cpu (hw s) i c -> (nextpid s + 1 < 2 ^ 31)%Z ->
  (forall s', Inv need s' -> (exists c', on_cpu (hw s') i c' /\ cproc c' = cproc c) ->
     run_of (hw s') = run_of (hw s) -> initproc s' = initproc s ->
     none_at (fun p => state p = UNUSED) (ptable s) -> ptable s' = ptable s -> Post None s') ->
  (forall s' k z z', Inv need s' -> (exists c', on_cpu (hw s') i c' /\ cproc c' = cproc c) ->
     run_of (hw s') = run_of (hw s) -> initproc s' = initproc s ->
     first_at (fun p => state p = UNUSED) (ptable s) k z -> state z' = UNUSED -> pid z' = nextpid s ->
     (exists r, svc_kalloc (rest s) = Ok 0%Z r) -> ptable s' = <[k := z']> (ptable s) -> Post None s') ->
  (forall s' k z ks, Inv need s' -> (exists c', on_cpu (hw s') i c' /\ cproc c' = cproc c) ->
     run_of (hw s') = run_of (hw s) -> initproc s' = initproc s -> ks <> 0%Z -> svc_kalloc (rest s) = Ok ks (rest s') ->
     first_at (fun p => state p = UNUSED) (ptable s) k z ->
     ptable s' = <[k := embryo (nextpid s) ks z]> (ptable s) -> Post (Some k) s') ->
  wp allocproc s Post Left.
Proof.
  intros [Hcalm Hpt] Hon Hlt HP1 HP2 HP3. unfold allocproc. apply wp_bind.
  eapply wp_acquire; [done|exact Hon|]. intros h lk c1 Hb Hc1 Hro. set (s1 := put_hwl (h, lk) s) in *.
  assert (pt need (run_of (hw s1)) s1) as Hpt1 by (simpl; rewrite Hro; by eapply pt_env).
  apply wp_bind. unfold procs.
  apply (wp_scan_seq (fun m s' => s' = s1 /\ forall k p, k < m -> ptable s !! k = Some p -> state p <> UNUSED)).
  - split; [done|lia].
  - intros s' [-> Hno]. apply wp_bind. eapply wp_release_Inv; [exact Hb|exact Hpt1|done|].
    intros s' Hinv (c2 & Hon2 & Hc2) Ht' Hro' Hi'. eapply wp_Ok; [reflexivity|]. apply HP1; [done| | |done| |done].
    + exists c2. split; [done|congruence].
    + by rewrite Hro'.
    + intros k p Hk. apply (Hno k); [|done]. by eapply pt_lt.
  - intros k s' Hk [-> Hno]. destruct (ptt_lookup _ _ k (proj1 Hpt1) ltac:(lia)) as (z & Hz).
    change (ptable s !! k = Some z) in Hz. pose proof (lookup_lt_Some _ _ _ Hz) as Hlk.
    apply wp_bind. eapply wp_get; [exact Hz|]. eapply wp_Ok; [reflexivity|].
    destruct (decide (state z = UNUSED)) as [Hst|Hst].
    2:{ split; [done|]. intros k0 p Hk0 Hp. destruct (decide (k0 = k)) as [->|]; [by simplify_eq|].
        apply (Hno k0); [lia|done]. }
    assert (first_at (fun p => state p = UNUSED) (ptable s) k z) as Hfirst.
    { split_and!; [done..|]. intros k0 p Hk0 Hp. by apply (Hno k0). }
    apply wp_bind. eapply wp_upd; [exact Hz|]. apply wp_bind. eapply wp_Ok; [reflexivity|].
    apply wp_bind. eapply wp_upd; [simpl; by apply list_lookup_insert_eq|].
    apply wp_bind. eapply wp_Ok; [reflexivity|]. simpl. rewrite list_insert_insert_eq.
    set (z1 := set_pid (nextpid s) (set_state EMBRYO z)).
    rewrite s32_id by (pose proof (pids_next _ _ (pt_pids _ _ (proj1 Hpt))); unfold int32; lia).
    set (s2 := put_nextpid _ _).
    assert (pt need (run_of (hw s1)) s2) as Hpt2.
    { eapply pt_env; [apply (pt_alloc need _ s1 k z z1); try done; by left|done..]. }
    apply wp_bind. eapply (wp_release_Inv_rest need (run_of (hw s1)) i c1); [by destruct Hb as [[] ]; split; [split|..]|done|done|].
    intros s3 Hinv3 (c3 & Hon3 & Hc3) Ht3 Hro3 Hi3 Hre3. simpl in Ht3, Hro3, Hi3, Hre3.
    assert (ptable s3 !! k = Some z1) as Hz3 by (rewrite Ht3; by apply list_lookup_insert_eq).
    destruct (ret_kalloc (rest s3)) as (ks & r & Hka). apply wp_bind. eapply wp_Ok; [by apply on_rest_Ok|].
    rewrite Hre3 in Hka. apply wp_bind. eapply wp_upd; [exact Hz3|].
    assert (forall z4, state z4 = EMBRYO \/ state z4 = UNUSED -> pid z4 = nextpid s -> forall r4,
      Inv need (put_ptable (<[k := z4]> (ptable s)) (put_rest r4 s3))) as Hinv4.
    { intros z4 Hst4 Hpid4 r4. destruct Hinv3 as [Hcalm3 Hpt3]. split; [by eapply calm_unlocked; [|exact Hcalm3]|].
      eapply pt_env; [apply (pt_update need (run_of (hw s3)) s3 k z1 z4); try done|..]; simpl; try done.
      - intros _. rewrite Hpid4. pose proof (pids_next _ _ (pt_pids _ _ (proj1 Hpt))). lia.
      - destruct Hst4 as [-> | ->]; done.
      - intros [E|E]; destruct Hst4; congruence.
      - intros E. destruct Hst4; congruence.
      - intros E. destruct Hst4; congruence.
      - by rewrite Ht3, list_insert_insert_eq. }
    assert (exists c', on_cpu (hw s3) i c' /\ cproc c' = cproc c) as Hcp by (exists c3; split; [done|congruence]).
    destruct (Z.eqb_spec ks 0) as [->|Hks].
    + apply wp_bind. eapply wp_upd; [simpl; apply list_lookup_insert_eq; by eapply lookup_lt_Some|].
      eapply wp_Ok; [reflexivity|]. simpl. rewrite Ht3, !list_insert_insert_eq.
      apply (HP2 _ k z (set_state UNUSED (set_kstack 0 z1))); simpl; try done; [|by rewrite Hro3|by exists r]. apply Hinv4; [by right|done].
    + do 3 (apply wp_bind; eapply wp_upd; [simpl; apply list_lookup_insert_eq; rewrite ?length_insert; by eapply lookup_lt_Some|]).
      eapply wp_Ok; [reflexivity|]. simpl. rewrite Ht3, !list_insert_insert_eq.
      apply (HP3 _ k z ks); simpl; try done; [|by rewrite Hro3]. apply Hinv4; [by left|done].
Qed.

(** The loop that copies the open files. *)
Definition dup_files (j k : nat) : M (kernel Q R) unit :=
  foreach files (fun i =>
    let! f := get_proc (Some j) (fun p => ofile p !! i) in
    match f with
    | Some (Some f) =>
        let! f' := on_rest (svc_filedup f) in
        upd_proc (Some k) (fun p => set_ofile (<[i := Some f']> (ofile p)) p)
    | _ => ret tt
    end).

Lemma wp_dup_files j k p np s (Post : unit -> kernel Q R -> Prop) Left :
  j <> k -> ptable s !! j = Some p -> ptable s !! k = Some np ->
  (forall r, Post tt (put_ptable (<[k := set_ofile (inherit (ofile p) (ofile np)) np]> (ptable s)) (put_rest r s))) ->
  wp (dup_files j k) s Post Left.
Proof.
  intros Hjk Hp Hnp HP. pose proof (lookup_lt_Some _ _ _ Hnp) as Hlt. unfold dup_files, files.
  eapply wp_mono; [apply (wp_foreach_seq (fun n s' => exists r, s' = put_ptable
    (<[k := set_ofile (foldl (inherit1 (ofile p)) (ofile np) (seq 0 n)) np]> (ptable s)) (put_rest r s)))| |done].
  - exists (rest s). simpl. rewrite list_insert_id; [by destruct s|]. rewrite Hnp. by destruct np.
  - intros i s' Hi [r ->]. apply wp_bind.
    eapply wp_get; [simpl; rewrite list_lookup_insert_ne by done; exact Hp|].
    rewrite seq_S, foldl_app. simpl. set (o := foldl _ _ (seq 0 i)). unfold inherit1.
    destruct (ofile p !! i) as [[f|]|]; [|by exists r..].
    apply wp_bind. apply (wp_rest_val _ _ f); [apply ret_filedup|]. intros r'.
    eapply wp_upd; [simpl; by apply list_lookup_insert_eq|]. exists r'. simpl. by rewrite list_insert_insert_eq.
  - intros [] s' [r ->]. rewrite Nat.add_0_l, <- inherit_eq. apply HP.
Qed.

Lemma wp_launch_seq {A S} (a b : M S unit) (m : M S A) (f : A -> M S unit) (g : M S unit) {B} (r : M S B) (x0 : S) Post Left :
  wp (a ;;; b ;;; let! x := m in f x ;;; g) x0 (fun _ x1 => wp r x1 Post Left) Left ->
  wp (a ;;; b ;;; let! x := m in f x ;;; g ;;; r) x0 Post Left.
Proof.
  unfold wp, bind. destruct (a x0) as [? x1| | | |]; [|done..]. destruct (b x1) as [? x2| | | |]; [|done..].
  destruct (m x2) as [y x3| | | |]; [|done..]. destruct (f y x3) as [? x4| | | |]; [|done..]. by destruct (g x4).
Qed.

(** A new process becomes RUNNABLE. *)
Lemma wp_launch need run s k np (Post : unit -> kernel Q R -> Prop) Left :
  pt need run s -> ptable s !! k = Some np -> state np = EMBRYO -> cx_at (ctx np) = AtForkret ->
  (forall s' acc, pt (spend need) run s' -> same_env s s' ->
     ptable s' = <[k := set_acc acc (set_prio 5 (set_state RUNNABLE np))]> (ptable s) -> Post tt s') ->
  wp (upd_proc (Some k) (set_state RUNNABLE) ;;;
      upd_proc (Some k) (set_prio 5) ;;;
      let! a := get_min in
      upd_proc (Some k) (set_acc a) ;;;
      pq_put_proc (Some k)) s Post Left.
Proof.
  intros Hpt Hk Hst Hcx HP. pose proof (pt_lt _ _ _ _ _ Hpt Hk) as Hlt.
  pose proof (pt_pid_used _ _ _ _ _ Hpt Hk ltac:(congruence)) as Hpid. pose proof (lookup_lt_Some _ _ _ Hk) as Hlk.
  destruct Hpt as [Ht (q & Hr & Hqok)].
  apply wp_bind. eapply wp_upd; [exact Hk|].
  apply wp_bind. eapply wp_upd; [simpl; by apply list_lookup_insert_eq|].
  apply wp_bind. eapply wp_get_min; [exact Hr|]. intros d1 Hr1. set (a := min_of _ q).
  apply wp_bind. eapply wp_upd; [simpl; apply list_lookup_insert_eq; by rewrite length_insert|].
  eapply wp_pq_put; [exact Hr1|]. intros d2 Hr2. simpl in Hr2 |- *. rewrite !list_insert_insert_eq in Hr2 |- *.
  apply (HP _ a); [|done..]. set (np' := set_acc a _). split; simpl.
  - apply (ptt_env run (put_ptable (<[k := np']> (ptable s)) s)); [|done..].
    apply (ptt_update run s k np); [done..| |].
    + simpl. by rewrite Hst.
    + intros _. simpl. by rewrite Hcx.
  - eexists. split; [exact Hr2|]. eapply qok_put; [exact Hr|exact Hqok|exact Hk|lia|done|].
    right. split; [congruence|done].
Qed.

(** The critical section at the end of [fork] and [userinit]. *)
Lemma wp_launch_locked {A} need s i c k np (K : M (kernel Q R) A) (Post : A -> kernel Q R -> Prop) Left :
  Inv need s -> on_cpu (hw s) i c -> ptable s !! k = Some np -> state np = EMBRYO ->
  cx_at (ctx np) = AtForkret ->
  (forall s' acc c', busy i c' s' -> cproc c' = cproc c -> pt (spend need) (run_of (hw s')) s' ->
     run_of (hw s') = run_of (hw s) -> initproc s' = initproc s ->
     ptable s' = <[k := set_acc acc (set_prio 5 (set_state RUNNABLE np))]> (ptable s) -> wp K s' Post Left) ->
  wp (acquire_ptable ;;;
      upd_proc (Some k) (set_state RUNNABLE) ;;;
      upd_proc (Some k) (set_prio 5) ;;;
      let! a := get_min in
      upd_proc (Some k) (set_acc a) ;;;
      pq_put_proc (Some k) ;;;
      K) s Post Left.
Proof.
  intros [Hcalm Hpt] Hon Hk Hst Hcx HP.
  apply wp_bind. eapply (wp_acquire i c); [exact Hcalm|exact Hon|]. intros h lk c2 Hb Hc2 Hro2.
  set (s3 := put_hwl (h, lk) s) in *.
  assert (pt need (run_of h) s3) as Hpt3 by (rewrite Hro2; by eapply pt_env).
  apply (wp_launch_seq _ _ get_min).
  eapply (wp_launch need (run_of h) s3 k np); [exact Hpt3|done..|].
  intros s4 acc Hpt4 He4 Ht4. pose proof (se_hw _ _ He4) as Hhw. simpl in Hhw.
  apply (HP s4 acc c2); [by eapply busy_env|done|by rewrite Hhw|by rewrite Hhw| |done].
  by rewrite (se_init _ _ He4).
Qed.

(** The end of [fork]. *)
Lemma wp_fork_finish need s i c k np n (Post : Z -> kernel Q R -> Prop) Left :
  Inv need s -> on_cpu (hw s) i c -> ptable s !! k = Some np -> state np = EMBRYO ->
  cx_at (ctx np) = AtForkret ->
  (forall s' acc, Inv (spend need) s' -> (exists c', on_cpu (hw s') i c' /\ cproc c' = cproc c) ->
     run_of (hw s') = run_of (hw s) -> initproc s' = initproc s ->
     ptable s' = <[k := set_acc acc (set_prio 5 (set_state RUNNABLE np))]> (ptable s) -> Post n s') ->
  wp (acquire_ptable ;;;
      upd_proc (Some k) (set_state RUNNABLE) ;;;
      upd_proc (Some k) (set_prio 5) ;;;
      let! a := get_min in
      upd_proc (Some k) (set_acc a) ;;;
      pq_put_proc (Some k) ;;;
      release_ptable ;;;
      ret n) s Post Left.
Proof.
  intros Hinv Hon Hk Hst Hcx HP. eapply wp_launch_locked; [exact Hinv|exact Hon|exact Hk|done..|].
  intros s4 acc c2 Hb Hc2 Hpt4 Hro4 Hi4 Ht4. apply wp_bind.
  eapply (wp_release_Inv (spend need) (run_of (hw s4)) i c2); [done..|].
  intros s5 Hinv5 (c5 & Hon5 & Hc5) Ht5 Hro5 Hi5. eapply wp_Ok; [reflexivity|].
  apply (HP s5 acc); [done| |congruence|congruence|congruence]. exists c5. split; [done|congruence].
Qed.

Lemma wp_fork need s i c j (Post : Z -> kernel Q R -> Prop) Left :
  Inv need s -> on_cpu (hw s) i c -> cproc c = Some j -> (nextpid s + 1 < 2 ^ 31)%Z ->
  (forall r s', Inv (if (r =? -1)%Z then need else spend need) s' -> runs_on i j s' ->
     run_of (hw s') = run_of (hw s) -> initproc s' = initproc s ->
     fork_result j (nextpid s) (ptable s) r (ptable s') -> Post r s') ->
  wp fork s Post Left.
Proof.
  intros Hinv Hon Hc Hlt HP. destruct (Inv_running _ _ _ _ _ Hinv Hon Hc) as (run' & p & _ & _ & _ & Hp & Hst).
  destruct Hinv as [Hcalm Hpt]. unfold fork. apply wp_bind.
  eapply wp_myproc_calm; [done|exact Hon|]. intros h0 c0 Hcalm0 Hon0 Hc0 Hro0. rewrite Hc in Hc0 |- *.
  assert (Inv need (put_hw h0 s)) as Hinv0 by (split; [done|]; simpl; rewrite Hro0; by eapply pt_env).
  apply wp_bind. eapply (wp_allocproc need _ i c0); [exact Hinv0|exact Hon0|exact Hlt|..].
  { intros s' Hinv' (c' & Hon' & Hc') Hro' Hi' Hnone Ht'. eapply wp_Ok; [reflexivity|]. apply HP; simpl; try done.
    - exists c'. split; [done|congruence].
    - rewrite Hro'. done.
    - rewrite Ht'. by apply Fork_full. }
  { intros s' k z z' Hinv' (c' & Hon' & Hc') Hro' Hi' Hf Hz' Hpid' _ Ht'. eapply wp_Ok; [reflexivity|].
    apply HP; simpl; try done.
    - exists c'. split; [done|congruence].
    - rewrite Hro'. done.
    - rewrite Ht'. by eapply Fork_nomem. }
  intros s1 k z ks Hinv1 (c1 & Hon1 & Hc1) Hro1 Hi1 Hks _ Hf Ht1. simpl in Hf, Ht1, Hro1, Hi1. rewrite bool_decide_false by done.
  set (e := embryo (nextpid s) ks z) in *. pose proof Hf as (Hz & Hzst & _). pose proof (lookup_lt_Some _ _ _ Hz) as Hlk.
  assert (j <> k) as Hjk by (intros ->; congruence).
  assert (ptable s1 !! j = Some p) as Hp1 by (rewrite Ht1, list_lookup_insert_ne by done; done).
  assert (ptable s1 !! k = Some e) as Hk1 by (rewrite Ht1; by apply list_lookup_insert_eq).
  assert (pid e <> 0%Z) as Hpe by (pose proof (pids_next _ _ (pt_pids _ _ (proj1 Hpt))); simpl; lia).
  apply wp_bind. eapply wp_get; [exact Hp1|]. apply wp_bind. eapply wp_get; [exact Hp1|].
  apply wp_bind. apply wp_rest; [apply ret_copyuvm|]. intros pg r2.
  apply wp_bind. eapply wp_upd; [exact Hk1|]. simpl. rewrite Ht1, list_insert_insert_eq.
  destruct Hinv1 as [Hcalm1 Hpt1].
  assert (forall e' r', pid e' = pid e -> state e' = EMBRYO \/ state e' = UNUSED ->
    Inv need (put_ptable (<[k := e']> (ptable s)) (put_rest r' s1))) as Hinv2.
  { intros e' r' Hpid' Hst'. split; [by eapply calm_unlocked; [|exact Hcalm1]|].
    eapply pt_env; [apply (pt_update need (run_of (hw s1)) s1 k e e'); try done|..]; simpl; try done.
    - intros _. by rewrite Hpid'.
    - destruct Hst' as [-> | ->]; done.
    - intros [E|E]; destruct Hst'; congruence.
    - intros E. destruct Hst'; congruence.
    - intros E. destruct Hst'; congruence.
    - by rewrite Ht1, list_insert_insert_eq. }
  destruct (Z.eqb_spec pg 0) as [->|Hpg].
  { apply wp_bind. eapply wp_get; [simpl; by apply list_lookup_insert_eq|].
    apply wp_bind. apply wp_rest_unit; [apply ret_kfree|]. intros r3.
    do 2 (apply wp_bind; eapply wp_upd; [simpl; apply list_lookup_insert_eq; by rewrite ?length_insert|]).
    eapply wp_Ok; [reflexivity|]. simpl. rewrite !list_insert_insert_eq. apply HP; simpl.
    - refine (Hinv2 (set_state UNUSED (set_kstack 0 (set_pgdir 0 e))) r3 _ _); [done|by right].
    - exists c1. split; [done|congruence].
    - congruence.
    - done.
    - by eapply Fork_nomem. }
  do 2 (apply wp_bind; eapply wp_upd; [simpl; apply list_lookup_insert_eq; by rewrite ?length_insert|]).
  apply wp_bind. eapply wp_get; [simpl; rewrite !list_lookup_insert_ne by done; exact Hp|].
  do 2 (apply wp_bind; eapply wp_upd; [simpl; apply list_lookup_insert_eq; by rewrite ?length_insert|]).
  simpl. rewrite !list_insert_insert_eq.
  apply wp_bind. eapply (wp_dup_files j k p); [done|simpl; rewrite list_lookup_insert_ne by done; exact Hp|
    simpl; by apply list_lookup_insert_eq|]. intros r3. simpl. rewrite list_insert_insert_eq.
  apply wp_bind. eapply wp_get; [simpl; rewrite list_lookup_insert_ne by done; exact Hp|].
  apply wp_bind. apply (wp_rest_val _ _ (cwd p)); [apply ret_idup|]. intros r4.
  apply wp_bind. eapply wp_upd; [simpl; by apply list_lookup_insert_eq|]. simpl. rewrite list_insert_insert_eq.
  apply wp_bind. eapply wp_get; [simpl; rewrite list_lookup_insert_ne by done; exact Hp|].
  apply wp_bind. eapply wp_upd; [simpl; by apply list_lookup_insert_eq|]. simpl. rewrite list_insert_insert_eq.
  apply wp_bind. eapply wp_get; [simpl; by apply list_lookup_insert_eq|]. simpl.
  match goal with |- wp _ (put_ptable (<[k := ?e']> _) _) _ _ => set (np := e') end.
  set (s2 := put_ptable _ _).
  assert (Inv need s2) as Hinv3 by (apply (Hinv2 np r4); [done|by left]).
  assert (nextpid s <> (-1)%Z) as Hn1 by (pose proof (pids_next _ _ (pt_pids _ _ (proj1 Hpt))); lia).
  eapply (wp_fork_finish need s2 i c1 k np); [exact Hinv3|exact Hon1|simpl; by apply list_lookup_insert_eq|done|done|].
  intros s5 acc Hinv5 (c5 & Hon5 & Hc5) Hro5 Hi5 Ht5. apply HP.
  - by destruct (Z.eqb_spec (nextpid s) (-1)).
  - exists c5. split; [done|congruence].
  - rewrite Hro5. simpl. congruence.
  - rewrite Hi5. done.
  - rewrite Ht5. simpl. rewrite list_insert_insert_eq. by apply (Fork_child j (nextpid s) (ptable s) k z p ks pg acc).
Qed.
End Fork.
