(* ===== verification/ProcDispatch.v ===== *)
(** * The scheduler's switch into a process *)

From stdpp Require Import base gmap list strings sorting.
From Stdlib Require Import ZArith Lia.
From S2P Require Import Prelude SchedSpec Spinlock Proc ProcHw ProcInv ProcSwitch ProcCalls.

(** Taking the first entry [j] out of the queue, when [j] is not RUNNABLE in
    the table that goes with the result. *)
Lemma qok_extract need run t t' q j q' :
  qok need run t q -> q_pq q <> [] -> pq_ok (q_pq q) -> pq_extract q = (Some j, q') ->
  (forall k p, t' !! k = Some p -> state p = RUNNABLE -> k <> j /\ t !! k = Some p) ->
  sleepers t' <= sleepers t -> qok (gain need) run t' q'.
Proof.
  intros [Hrr Hrp Hrange Hneed] Hne Hok Hex Hsub Hsl. destruct q as [pq rr rp nl nn]. simpl in *.
  rewrite pq_extract_cons in Hex by done. destruct (pq_pop pq) as [x pq'] eqn:Hpop. simplify_eq. simpl in *.
  destruct (pq_pop_spec _ _ _ Hok Hne Hpop) as [_ Hprocs]. rewrite Hprocs in *. split; simpl; try done.
  - intros y Hy. apply Hrange. by right.
  - destruct need as [k|]; [|done]. destruct Hneed as [Hqd Hroom]. simpl in *. split; [|lia].
    intros j1 p1 H1 H2. destruct (Hsub _ _ H1 H2) as [Hne1 Ht]. specialize (Hqd _ _ Ht H2). simpl in Hqd |- *.
    rewrite Hprocs in Hqd. subst x. apply elem_of_cons in Hqd as [[= ->]|?]; done.
Qed.

(** [rpholder.add(j)] with a link to spare. *)
Lemma qok_add need run t q j :
  qok (gain need) run t q -> 0 < q_links q -> qok need (j :: run) t (rp_add (Some j) q).2.
Proof.
  intros [Hrr Hrp Hrange Hneed] Hl. unfold rp_add. destruct (Nat.ltb_spec 0 (q_links q)); [|lia].
  split; simpl; try done.
  - rewrite Hrp. by rewrite <- Permutation_cons_append.
  - destruct need as [k|]; [|done]. simpl in Hneed. destruct Hneed. split; [done|lia].
Qed.

Section Dispatch.
Context {Q R : Type} `{HQ : Queues Q} `{HR : Services R} `{!ServicesReturn R}.
Implicit Types s : kernel Q R.

(** After a round of the scheduler on CPU [i]: nothing was run, or process [j]
    is running; if it comes from a [sleep] it holds the lock it slept with. *)
Definition round_post (i : nat) (need : option nat) (r : option (nat * resumed)) s : Prop :=
  match r with
  | None => Inv need s
  | Some (j, RSlept) =>
      exists n lk c0 s0 p, Inv need s0 /\ on_cpu (hw s0) i c0 /\ cproc c0 = Some j /\
        locks s0 !! n = Some lk /\ locked lk = false /\ s = grabbed n lk i c0 s0 /\
        ptable s0 !! j = Some p /\ cx_at (ctx p) = AtSleep (OtherLock n) AfterCall
  | Some (j, _) => Inv need s /\ runs_on i j s
  end.

Lemma wp_resume need s i c j p (Post : resumed -> kernel Q R -> Prop) Left :
  busy i c s -> cproc c = Some j -> pt need (run_of (hw s)) s -> ptable s !! j = Some p ->
  ctx_ok (length (locks s)) (set_state RUNNABLE p) ->
  (forall r s', round_post i need (Some (j, r)) s' -> Post r s') ->
  (forall s', Inv need s' -> Left s') ->
  wp (resume (Some j)) s Post Left.
Proof.
  intros Hb Hc Hpt Hp Hcx HP HL. specialize (Hcx ltac:(by left)). simpl in Hcx.
  unfold resume. apply wp_bind. eapply wp_get; [exact Hp|].
  assert (forall ie (m : M (kernel Q R) resumed),
    (forall c1 s1, busy i c1 s1 -> cproc c1 = Some j -> pt need (run_of (hw s1)) s1 ->
       ptable s1 = ptable s -> locks s1 = locks s -> wp m s1 Post Left) ->
    wp (on_hw (mycpu_upd (set_intena ie)) ;;; m) s Post Left) as Hie.
  { intros ie m Hm. apply wp_bind. eapply (wp_mycpu_upd i c); [exact Hb|done..|apply Hb|]. intros Hb1.
    eapply Hm; [exact Hb1|done| |done..]. simpl. rewrite (run_of_set _ _ c) by (first [apply Hb|done]).
    by eapply pt_env. }
  destruct (cx_at (ctx p)) as [| |lk k|] eqn:Hat.
  - (* forkret *)
    apply wp_bind. unfold forkret. apply wp_bind. eapply wp_release_Inv; [exact Hb|exact Hpt|done|].
    intros s1 Hinv (c1 & Hon1 & Hc1) _ _ _. apply wp_bind. eapply wp_Ok; [reflexivity|].
    assert (forall r, Inv need (put_rest r (put_first false s1)) /\ runs_on i j (put_rest r (put_first false s1))) as Hf.
    { intros r. destruct Hinv as [Hca Hpt1]. split; [split; [by destruct Hca|by eapply pt_env]|].
      exists c1. split; [done|congruence]. }
    destruct (first s1).
    + apply wp_bind. eapply wp_Ok; [reflexivity|]. apply wp_bind. apply wp_rest_unit; [apply ret_iinit|]. intros r1.
      apply wp_rest_unit; [apply ret_initlog|]. intros r2. eapply wp_Ok; [reflexivity|]. apply HP. exact (Hf r2).
    + eapply wp_Ok; [reflexivity|]. eapply wp_Ok; [reflexivity|]. apply HP. split; [done|].
      exists c1. split; [done|congruence].
  - (* yield *)
    apply Hie. intros c1 s1 Hb1 Hc1 Hpt1 _ _. apply wp_bind. eapply wp_release_Inv; [exact Hb1|exact Hpt1|done|].
    intros s2 Hinv (c2 & Hon2 & Hc2) _ _ _. eapply wp_Ok; [reflexivity|]. apply HP. split; [done|].
    exists c2. split; [done|congruence].
  - (* sleep *)
    apply Hie. intros c1 s1 Hb1 Hc1 Hpt1 Ht1 Hl1. apply wp_bind. eapply wp_upd; [rewrite Ht1; exact Hp|].
    set (s2 := put_ptable _ s1).
    assert (busy i c1 s2) as Hb2 by (by eapply busy_env; [|exact Hb1]).
    assert (pt need (run_of (hw s2)) s2) as Hpt2 by (apply (pt_fields need _ s1 j p); [done|by rewrite Ht1|done..]).
    destruct lk as [| |n]; [done| |].
    + destruct Hcx as [b ->]. apply wp_bind. eapply wp_Ok; [reflexivity|]. apply wp_bind.
      eapply (wp_wait_loop need s2 i c1 j); [exact Hb2|done|done| |].
      * intros r s' Hinv Hruns _ _ _. eapply wp_Ok; [reflexivity|]. by apply HP.
      * intros s' p' ie Hinv _ _ _ _ _ _. by apply HL.
    + destruct Hcx as [Hn ->]. apply wp_bind. apply wp_bind. eapply wp_release; [exact Hb2|].
      intros h lk c3 Hcalm3 Hon3 Hc3 Hro3. set (s3 := put_hwl (h, lk) s2) in *.
      assert (Inv need s3) as Hinv3 by (split; [done|]; simpl; rewrite Hro3; by eapply pt_env).
      destruct (calm_lock s3 n Hcalm3) as (lkn & Hlkn & Hfree); [simpl; by rewrite Hl1|].
      eapply wp_Ok; [by apply (grab_Ok s3 i c3 n lkn)|]. eapply wp_Ok; [reflexivity|]. apply HP.
      exists n, lkn, c3, s3, (set_chan NoChan p). split_and!; [done|done|congruence|done..| |done].
      simpl. rewrite Ht1. apply list_lookup_insert_eq. by eapply lookup_lt_Some.
  - done.
Qed.

(** The table part when a RUNNABLE process starts to run. *)
Lemma ptt_start run s j p :
  ptt run s -> ptable s !! j = Some p -> state p = RUNNABLE -> j ∉ run ->
  ptt (j :: run) (put_ptable (<[j := set_state RUNNING p]> (ptable s)) s).
Proof.
  intros [Hlen Hnd Hb Hrun Hpids Hctx] Hj Hst Hnin. pose proof (lookup_lt_Some _ _ _ Hj) as Hlt.
  split; simpl; try done.
  - by rewrite length_insert.
  - by constructor.
  - intros k [->|Hk]%elem_of_cons; [lia|]. by apply Hb.
  - intros j1 p1 [[-> ->]|[Hne H1]]%lookup_insert_cases.
    + split; [intros _; by left|done].
    + rewrite (Hrun _ _ H1), elem_of_cons. naive_solver.
  - eapply pids_update; [done|done|by left|]. intros _. change (pid p <> 0%Z). eapply (pids_used _ _ Hpids); [exact Hj|congruence].
  - intros j1 p1 [[-> ->]|[Hne H1]]%lookup_insert_cases; [|by eapply Hctx]. by intros [? | ?].
Qed.

(** What the scheduler picks: the first entry of the queue, when it is RUNNABLE. *)
Definition picked (j : nat) s : Prop :=
  exists q p, repr (qs s) q /\ head (pq_procs (q_pq q)) = Some (Some j) /\
    ptable s !! j = Some p /\ state p = RUNNABLE.

Lemma wp_Priority_Scheduler need s i c (Post : option (nat * resumed) -> kernel Q R -> Prop) Left :
  Inv need s -> on_cpu (hw s) i c -> cproc c = None ->
  (forall s', Inv need s' -> run_of (hw s') = run_of (hw s) -> ptable s' = ptable s -> Post None s') ->
  (forall j r s', picked j s -> round_post i need (Some (j, r)) s' -> Post (Some (j, r)) s') ->
  (forall j s', picked j s -> Inv need s' -> Left s') ->
  wp Priority_Scheduler s Post Left.
Proof.
  intros [Hcalm Hpt] Hon Hc HPN HP HL. unfold Priority_Scheduler. apply wp_bind.
  eapply wp_acquire; [done|exact Hon|]. intros h lk c1 Hb Hc1 Hro. rewrite Hc in Hc1.
  set (s1 := put_hwl (h, lk) s) in *.
  assert (pt need (run_of h) s1) as Hpt1 by (rewrite Hro; by eapply pt_env).
  destruct Hpt1 as [Ht (q & Hr & Hq)]. apply wp_bind.
  eapply wp_observe; [apply pq_isEmpty_ok|exact Hr|]. intros d2 Hr2. cbv beta. case_bool_decide as Hemp.
  { apply wp_bind. eapply (wp_release_Inv need (run_of h) i c1 (put_qs d2 s1)); [by eapply busy_env; [|exact Hb]| |done|].
    - split; [by eapply ptt_env|by exists q].
    - intros s' Hinv _ Ht' Hro' _. eapply wp_Ok; [reflexivity|]. apply HPN; [done|by rewrite Hro'|done]. }
  apply wp_bind. eapply wp_queue; [apply pq_extractMin_ok|exact Hr2|]. intros d3 Hr3.
  pose proof (repr_wf _ _ Hr) as [Hok _ _ _].
  destruct (pq_extract q) as [x q3] eqn:Hex.
  assert (x = (pq_pop (q_pq q)).1 /\ q_links q3 = S (q_links q)) as [-> Hl3].
  { destruct q as [pq rr rp nl nn]. rewrite pq_extract_cons in Hex by done. by simplify_eq. }
  destruct (pq_pop (q_pq q)) as [x pq'] eqn:Hpop. destruct (pq_pop_spec _ _ _ Hok Hemp Hpop) as [_ Hprocs].
  destruct (qok_range _ _ _ _ Hq x) as (j & -> & Hj64); [rewrite Hprocs; by left|].
  destruct (ptt_lookup _ _ _ Ht Hj64) as (p & Hp). simpl in Hr3. simpl fst in Hex |- *.
  apply wp_bind. eapply wp_get; [exact Hp|]. destruct (decide (state p = RUNNABLE)) as [Hst|Hst].
  2:{ apply wp_bind. eapply (wp_release_Inv need (run_of h) i c1); [by eapply busy_env; [|exact Hb]| |done|].
      - split; [by eapply ptt_env|]. exists q3. split; [exact Hr3|]. apply qok_gain.
        eapply (qok_extract need _ (ptable s1)); [exact Hq|done|done|exact Hex| |done].
        intros k p1 Hk Hrn. split; [|done]. intros ->. simpl in Hk, Hp. congruence.
      - intros s' Hinv _ Ht' Hro' _. eapply wp_Ok; [reflexivity|]. apply HPN; [done|by rewrite Hro'|done]. }
  assert (picked j s) as Hpick by (exists q, p; rewrite Hprocs; by split_and!).
  set (s3 := put_qs d3 (put_qs d2 s1)) in *.
  assert (busy i c1 s3) as Hb3 by (by eapply busy_env; [|exact Hb]).
  apply wp_bind. eapply (wp_mycpu_upd i c1); [exact Hb3|done..|apply Hb|]. intros Hb4.
  apply wp_bind. eapply wp_get; [exact Hp|]. apply wp_bind. eapply wp_get; [exact Hp|].
  apply wp_bind. apply wp_rest_unit; [apply ret_switchuvm|]. intros r5.
  apply wp_bind. eapply wp_upd; [exact Hp|]. set (p6 := set_state RUNNING p).
  apply wp_bind. eapply wp_queue; [apply rpholder_add_ok|exact Hr3|]. intros d7 Hr7.
  set (c4 := set_cproc (Some j) c1) in *. set (s7 := put_qs d7 _).
  assert (busy i c4 s7) as Hb7 by (by eapply busy_env; [|exact Hb4]).
  assert (j ∉ run_of h) as Hjn.
  { intros Hin. apply (pt_run _ _ Ht _ _ Hp) in Hin. congruence. }
  assert (pt need (j :: run_of h) s7) as Hpt7.
  { split.
    - apply (ptt_env _ (put_ptable (<[j := p6]> (ptable s1)) s1)); [|done..]. by apply (ptt_start _ s1 j p).
    - exists (rp_add (Some j) q3).2. split; [exact Hr7|]. apply qok_add; [|lia].
      eapply (qok_extract need _ (ptable s1) (<[j := p6]> (ptable s1))); [exact Hq|done|done|exact Hex| |].
      + intros k p1 [[-> ->]|[Hne Hk]]%lookup_insert_cases Hrn; done.
      + pose proof (sleepers_insert _ _ _ p6 Hp) as Hsl. simpl in Hsl. rewrite Hst in Hsl. simpl in *. lia. }
  apply wp_bind. eapply (wp_mycpu_upd i c4); [exact Hb7|done..|]. intros Hb8.
  set (c8 := set_scheduler InPriority c4) in *. set (s8 := put_hw _ s7) in *.
  assert (run_of (hw s8) ≡ₚ j :: run_of h) as Hrun8.
  { simpl. rewrite set_cpu_set. exact (run_of_put h i c1 c8 (il_on _ _ _ (bu_in _ _ _ Hb)) Hc1). }
  apply wp_bind. eapply (wp_resume need s8 i c8 j p6); [exact Hb8|done| | | | |].
  - eapply pt_perm; [eapply (pt_env _ _ s7); [exact Hpt7|done..]|by rewrite Hrun8].
  - simpl. apply list_lookup_insert_eq. by eapply lookup_lt_Some.
  - intros _. apply (pt_ctx _ _ Ht _ _ Hp). by left.
  - intros r s' Hpost. apply wp_bind. eapply wp_Ok; [reflexivity|]. eapply wp_Ok; [reflexivity|]. by apply HP.
  - intros s' Hinv. by eapply HL.
Qed.

Lemma wp_scheduler_round need s i c (Post : option (nat * resumed) -> kernel Q R -> Prop) Left :
  Inv need s -> on_cpu (hw s) i c -> cproc c = None ->
  (forall s', Inv need s' -> run_of (hw s') = run_of (hw s) -> ptable s' = ptable s -> Post None s') ->
  (forall j r s', picked j s -> round_post i need (Some (j, r)) s' -> Post (Some (j, r)) s') ->
  (forall j s', picked j s -> Inv need s' -> Left s') ->
  wp scheduler_round s Post Left.
Proof.
  intros [Hcalm Hpt] Hon Hc HPN HP HL. unfold scheduler_round. apply wp_bind.
  eapply wp_Ok; [apply on_hw_Ok; apply (upd_self_Ok _ _ _ Hon)|].
  destruct (ca_cpus _ Hcalm i c) as [Hn Hsc]; [apply Hon|].
  assert (run_of (set_cpu i (set_IF true c) (hw s)) = run_of (hw s)) as Hro by (by eapply run_of_set).
  eapply (wp_Priority_Scheduler need _ i (set_IF true c)).
  - split; [by eapply calm_set|]. simpl. rewrite Hro. by eapply pt_env.
  - by apply (on_cpu_set _ _ _ _ Hon).
  - done.
  - simpl. intros s'. rewrite Hro. apply HPN.
  - intros j r s' Hpick. by apply HP.
  - intros j s' Hpick. by apply (HL j).
Qed.
End Dispatch.
