(* ===== verification/ProcSys.v ===== *)
(** * The kernel as a transition system

    A step is one kernel call of the process on some CPU, a wakeup by an
    interrupt handler, or a round of the scheduler on an idle CPU.  The CPUs
    interleave at this grain: every one of these holds [ptable.lock] while it
    works on the table.  From [userinit] on, no step panics or faults, the
    table invariant holds, and no RUNNABLE process is lost as long as fewer
    than [pool_links] steps are a [yield] or a [fork]. *)

From stdpp Require Import base gmap list strings sorting.
From Stdlib Require Import ZArith Lia.
From S2P Require Import Prelude SchedSpec Spinlock Proc ProcHw ProcInv ProcSwitch ProcCalls ProcExit ProcFork ProcDispatch.

Section Boot.
Context {Q R : Type} `{HQ : Queues Q} `{HR : Services R} `{!ServicesReturn R}.
Implicit Types s : kernel Q R.

(** The statics of the kernel, [pinit] and [initSchedDS] done, no process yet. *)
Record fresh s : Prop := {
  fr_calm : calm s;
  fr_idle : run_of (hw s) = [];
  fr_table : ptable s = replicate 64 proc_zero;
  fr_next : nextpid s = 1%Z;
  fr_queues : repr (qs s) (mkQueues [] [] [] pool_links pool_nodes)
}.

(** The memory [userinit] needs is there. *)
Definition memory_for_init (r : R) : Prop :=
  exists ks r1 pg r2, svc_kalloc r = Ok ks r1 /\ ks <> 0%Z /\ svc_setupkvm r1 = Ok pg r2 /\ pg <> 0%Z.

Lemma fresh_Inv s : fresh s -> Inv (Some pool_links) s.
Proof.
  intros [Hcalm Hrun Ht Hn Hq]. split; [done|]. rewrite Hrun.
  assert (forall j p, ptable s !! j = Some p -> p = proc_zero) as Hz.
  { intros j p. rewrite Ht. intros [-> _]%lookup_replicate. done. }
  split.
  - split.
    + by rewrite Ht, length_replicate.
    + constructor.
    + intros j []%not_elem_of_nil.
    + intros j p ->%Hz. split; [done|]. intros []%not_elem_of_nil.
    + rewrite Hn. split; [intros j p ->%Hz; simpl; lia|by intros j p ->%Hz|by intros j j' p p' ->%Hz|lia].
    + intros j p ->%Hz [?|?]; done.
  - eexists. split; [exact Hq|]. split; [done|done|intros x []%not_elem_of_nil|]. split.
    + by intros j p ->%Hz.
    + rewrite Ht. reflexivity.
Qed.

(** A RUNNABLE first process, that [initproc] points to. *)
Definition first_process (s0 s : kernel Q R) : Prop :=
  exists p, ptable s = <[0 := p]> (ptable s0) /\ state p = RUNNABLE /\ pid p = 1%Z /\ priority p = 5%Z /\
    cx_at (ctx p) = AtForkret /\ tf p = user_tf.

Lemma wp_userinit s i c (Post : unit -> kernel Q R -> Prop) Left :
  fresh s -> on_cpu (hw s) i c -> memory_for_init (rest s) ->
  (forall s', Inv (spend (Some pool_links)) s' -> (exists c', on_cpu (hw s') i c' /\ cproc c' = cproc c) ->
     initproc s' = Some 0 -> run_of (hw s') = [] -> first_process s s' -> Post tt s') ->
  wp userinit s Post Left.
Proof.
  intros Hf Hon (ks & r1 & pg & r2 & Hka & Hks & Hsk & Hpg) HP.
  pose proof (fresh_Inv _ Hf) as Hinv. destruct Hf as [_ Hrun Ht0 Hn0 _].
  assert (ptable s !! 0 = Some proc_zero) as Hz0 by (by rewrite Ht0).
  unfold userinit. apply wp_bind. eapply wp_allocproc; [exact Hinv|exact Hon|rewrite Hn0; lia|..].
  { intros s' _ _ _ _ Hno. by destruct (Hno _ _ Hz0). }
  { intros s' k z z' _ _ _ _ _ _ _ (r & E). congruence. }
  intros s1 k z ks' Hinv1 (c1 & Hon1 & Hc1) Hro1 Hi1 _ Hka1 (Hz & Hun & Hlow) Ht1.
  assert (k = 0) as ->. { destruct k as [|k]; [done|]. by destruct (Hlow 0 _ ltac:(lia) Hz0). }
  rewrite Hka in Hka1. injection Hka1 as <- Hre1. rewrite Hn0 in Ht1. set (e := embryo 1 ks z) in *.
  assert (ptable s1 !! 0 = Some e) as He by (by rewrite Ht1, Ht0).
  apply wp_bind. eapply wp_Ok; [reflexivity|]. apply wp_bind.
  eapply wp_Ok; [apply on_rest_Ok; simpl; rewrite <- Hre1; exact Hsk|].
  apply wp_bind. eapply wp_upd; [exact He|]. destruct (Z.eqb_spec pg 0) as [|_]; [done|].
  apply wp_bind. apply wp_rest_unit; [apply ret_inituvm|]. intros r3. simpl.
  do 3 (apply wp_bind; eapply wp_upd; [simpl; rewrite Ht1, Ht0; reflexivity|]).
  apply wp_bind. apply wp_rest; [apply ret_namei_root|]. intros root r4.
  apply wp_bind; eapply wp_upd; [simpl; rewrite Ht1, Ht0; reflexivity|]. simpl. rewrite !list_insert_insert_eq.
  set (np := set_cwd root _). set (s2 := put_ptable _ _).
  assert (Inv (Some pool_links) s2) as Hinv2.
  { destruct Hinv1 as [Hcalm1 Hpt1]. split; [by destruct Hcalm1|].
    eapply pt_env; [apply (pt_fields _ _ s1 0 e np); done|done..]. }
  assert (ptable s2 !! 0 = Some np) as Hnp by (simpl; by rewrite Ht1, Ht0).
  eapply (wp_launch_locked (Some pool_links) s2 i c1 0 np); [exact Hinv2|exact Hon1|exact Hnp|done..|].
  intros s4 acc c2 Hb Hc2 Hpt4 Hro4 Hi4 Ht4.
  eapply (wp_release_Inv _ (run_of (hw s4)) i c2); [exact Hb|exact Hpt4|done|].
  intros s5 Hinv5 (c5 & Hon5 & Hc5) Ht5 Hro5 Hi5. apply HP; [done| |by rewrite Hi5, Hi4| |].
  - exists c5. split; [done|congruence].
  - rewrite Hro5, Hro4, <- Hrun. exact Hro1.
  - eexists. split; [|shelve]. rewrite Ht5, Ht4. simpl. by rewrite Ht1, !list_insert_insert_eq.
  Unshelve. done.
Qed.
End Boot.

(** * The kernel as a transition system *)

Inductive event :=
| EFork | EExit (st : Z) | EWait (b : bool) | EKill (n : Z) | EDetach (n : Z) | EPriority (n : Z)
| EYield | ESleepOn (c : channel) (n : nat) | EWakeup (c : channel) | ESchedule.

(** The links of the queue's pool a step may use up. *)
Definition event_cost (e : event) : nat := match e with EYield | EFork => 1 | _ => 0 end.
Definition trace_cost (l : list (nat * event)) : nat := sum_list ((fun x => event_cost x.2) <$> l).

Section Sys.
Context {Q R : Type} `{HQ : Queues Q} `{HR : Services R} `{!ServicesReturn R}.
Implicit Types s : kernel Q R.

(** The end of a critical section whose [sleep] has returned. *)
Definition release_slept (j : nat) : M (kernel Q R) unit :=
  let! cx := get_proc (Some j) ctx in
  match cx_at cx with AtSleep (OtherLock n) _ => on_lock n release | _ => ret tt end.

Definition exec (e : event) : M (kernel Q R) unit :=
  match e with
  | EFork => fork ;;; ret tt
  | EExit st => exit st
  | EWait b => wait b ;;; ret tt
  | EKill n => kill n ;;; ret tt
  | EDetach n => detach n ;;; ret tt
  | EPriority n => set_priority n
  | EYield => yield
  | ESleepOn c n => sleep_on c n
  | EWakeup c => wakeup c
  | ESchedule =>
      let! r := scheduler_round in
      match r with Some (j, RSlept) => release_slept j | _ => ret tt end
  end.

(** CPU [i] is the one that executes. *)
Definition as_cpu (i : nat) s : kernel Q R :=
  match cpus (hw s) !! i with
  | Some c => put_hw (mkMachine (cpus (hw s)) (apicid c) (stack (hw s)) (frame (hw s))) s
  | None => s
  end.

(** The steps of a process need one; [init] does not exit, there are pids
    left, and [sleep] is called with a lock of the kernel. *)
Definition enabled (p : procp) (e : event) s : Prop :=
  match e with
  | EWakeup _ => True
  | ESchedule => p = None
  | EFork => is_Some p /\ (nextpid s + 1 < 2 ^ 31)%Z
  | EExit _ => is_Some p /\ p <> initproc s
  | ESleepOn _ n => is_Some p /\ n < length (locks s)
  | _ => is_Some p
  end.

Definition ended {A : Type} (o : outcome (kernel Q R) A) : option (kernel Q R) :=
  match o with Ok _ s | Blocked s => Some s | _ => None end.

Inductive kstep s : nat * event -> kernel Q R -> Prop :=
| KStep i e c s' :
    on_cpu (hw (as_cpu i s)) i c -> enabled (cproc c) e s -> ended (exec e (as_cpu i s)) = Some s' ->
    kstep s (i, e) s'.

Inductive ktrace s : list (nat * event) -> kernel Q R -> Prop :=
| KNil : ktrace s [] s
| KSnoc l x s' s'' : ktrace s l s' -> kstep s' x s'' -> ktrace s (l ++ [x]) s''.

(** What holds between steps. *)
Record table_ok s : Prop := {
  to_unlocked : locked (ptable_lock s) = false;
  to_once : NoDup (run_of (hw s));
  to_running : forall j p, ptable s !! j = Some p -> state p = RUNNING <-> j ∈ run_of (hw s);
  to_pids : forall j j' p p', ptable s !! j = Some p -> ptable s !! j' = Some p' ->
    state p <> UNUSED -> pid p = pid p' -> j = j'
}.

Lemma Inv_table need s : Inv need s -> table_ok s.
Proof.
  intros [[_ Hl _] [[_ Hnd _ Hrun Hpids _] _]]. split; [done..|].
  intros j j' p p' Hj Hj' Hu He. eapply (pids_inj _ _ Hpids); [done..|]. by eapply (pids_used _ _ Hpids).
Qed.

Lemma Inv_spend need s : Inv need s -> Inv (spend need) s.
Proof.
  intros [Hc [Ht (q & Hr & Hq)]]. split; [done|]. split; [done|]. exists q. split; [done|].
  destruct Hq as [H1 H2 H3 H4]. split; [done..|]. destruct need as [[|k]|]; simpl; [done| |done].
  destruct H4. split; [done|lia].
Qed.

Lemma Inv_as_cpu need i s : Inv need s -> Inv need (as_cpu i s).
Proof.
  intros [Hc Hpt]. unfold as_cpu. destruct (cpus (hw s) !! i); [|done]. split; [by destruct Hc|by eapply pt_env].
Qed.

Lemma as_cpu_eq i s :
  ptable (as_cpu i s) = ptable s /\ nextpid (as_cpu i s) = nextpid s /\ initproc (as_cpu i s) = initproc s /\
  locks (as_cpu i s) = locks s /\ run_of (hw (as_cpu i s)) = run_of (hw s) /\ qs (as_cpu i s) = qs s /\
  rest (as_cpu i s) = rest s.
Proof. unfold as_cpu. by destruct (cpus (hw s) !! i). Qed.

Definition pay (e : event) (need : option nat) : option nat :=
  if event_cost e =? 0 then need else spend need.

Lemma wp_release_slept need i s j r :
  round_post i need (Some (j, r)) s ->
  wp (match r with RSlept => release_slept j | _ => ret tt end) s (fun _ => Inv need) (Inv need).
Proof.
  destruct r as [| | |x]; simpl.
  1,2,4: intros [Hinv _]; by eapply wp_Ok; [reflexivity|].
  intros (n & lk & c0 & s0 & p & Hinv & Hon & Hc & Hlk & Hfree & -> & Hp & Hat).
  unfold release_slept. apply wp_bind. eapply wp_get; [exact Hp|]. rewrite Hat.
  destruct (drop_Ok need s0 i c0 n lk Hinv Hon Hlk Hfree) as (s' & Hs' & Hinv' & _).
  by eapply wp_Ok; [exact Hs'|].
Qed.

Lemma wp_exec need i c e s :
  Inv need s -> on_cpu (hw s) i c -> enabled (cproc c) e s ->
  wp (exec e) s (fun _ => Inv (pay e need)) (Inv (pay e need)).
Proof.
  intros Hinv Hon He. destruct e as [|st|b|n|n|n| |ch n|ch|]; simpl in He |- *; unfold pay; simpl.
  - destruct He as [[j Hj] Hn]. apply wp_bind. eapply wp_fork; [done..|].
    intros r s' Hinv' _ _ _ _. eapply wp_Ok; [reflexivity|]. destruct (r =? -1)%Z; [by apply Inv_spend|done].
  - destruct He as [[j Hj] Hn]. eapply (wp_exit need); [done|exact Hon|exact Hj|congruence|]. done.
  - destruct He as [j Hj]. apply wp_bind. eapply wp_wait; [done..| |done].
    intros r s' Hinv' _ _ _ _. by eapply wp_Ok; [reflexivity|].
  - apply wp_bind. eapply wp_kill; [done..|]. intros r s' Hinv' _ _ _ _. by eapply wp_Ok; [reflexivity|].
  - destruct He as [j Hj]. apply wp_bind. eapply wp_detach; [done..|].
    intros r s' Hinv' _ _ _ _. by eapply wp_Ok; [reflexivity|].
  - destruct He as [j Hj]. by eapply wp_set_priority.
  - destruct He as [j Hj]. by eapply wp_yield.
  - destruct He as [[j Hj] Hn]. by eapply wp_sleep_on.
  - by eapply wp_wakeup.
  - apply wp_bind. eapply wp_scheduler_round; [done..| | |done].
    + intros s' Hinv' _ _. by eapply wp_Ok; [reflexivity|].
    + intros j r s' _ Hpost. by eapply wp_release_slept.
Qed.

Lemma step_Inv need x s s' : Inv need s -> kstep s x s' -> Inv (pay x.2 need) s'.
Proof.
  intros Hinv [i e c s'' Hon He Hend]. apply (Inv_as_cpu _ i) in Hinv.
  assert (enabled (cproc c) e (as_cpu i s)) as He'.
  { destruct (as_cpu_eq i s) as (_ & H1 & H2 & H3 & _). destruct e; simpl in *; by rewrite ?H1, ?H2, ?H3. }
  pose proof (wp_exec _ _ _ _ _ Hinv Hon He') as Hwp. unfold wp, ended in *.
  by destruct (exec e (as_cpu i s)) as [? ?| | |?|]; simplify_eq.
Qed.

Lemma trace_cost_snoc l x : trace_cost (l ++ [x]) = trace_cost l + event_cost x.2.
Proof. unfold trace_cost. rewrite fmap_app, sum_list_with_app. simpl. lia. Qed.

Lemma trace_Inv k s l s' :
  Inv (Some k) s -> ktrace s l s' ->
  Inv (if decide (trace_cost l <= k) then Some (k - trace_cost l) else None) s'.
Proof.
  intros Hinv. induction 1 as [|l x s1 s2 _ IH Hstep].
  - change (trace_cost []) with 0. rewrite decide_True by lia. by rewrite Nat.sub_0_r.
  - apply (step_Inv _ _ _ _ IH) in Hstep. rewrite trace_cost_snoc. unfold pay in Hstep.
    destruct (Nat.eqb_spec (event_cost x.2) 0) as [->|Hne]; [by rewrite Nat.add_0_r|].
    assert (event_cost x.2 = 1) as -> by (destruct x.2; done || lia).
    repeat case_decide; simpl in Hstep; try done; try lia.
    + destruct (k - trace_cost l) eqn:E; [lia|]. simpl in Hstep. by replace (k - (trace_cost l + 1)) with n by lia.
    + by replace (k - trace_cost l) with 0 in Hstep by lia.
Qed.
End Sys.
