(* ===== verification/ProcDemo.v ===== *)
(** * Runs of the kernel

    A kernel with two CPUs over the scheduling structures of [ass1ds.c] and
    the simplest services, and the states that sequences of steps lead it to. *)

From stdpp Require Import base gmap list strings sorting.
From Stdlib Require Import ZArith Lia.
From S2P Require Import Prelude SchedSpec SchedDS SchedImpl Spinlock Proc ProcHw ProcInv.
From S2P Require Import ProcInv ProcSwitch ProcCalls ProcExit ProcFork ProcDispatch ProcSys.

(** Memory is never exhausted, and the file system does nothing. *)
#[export] Instance demo_services : Services Z := {
  svc_kalloc := fun n => Ok n (n + 4096)%Z;
  svc_kfree := fun _ => ret tt;
  svc_setupkvm := fun n => Ok n (n + 4096)%Z;
  svc_inituvm := fun _ => ret tt;
  svc_copyuvm := fun _ _ n => Ok n (n + 4096)%Z;
  svc_freevm := fun _ => ret tt;
  svc_allocuvm := fun _ _ n => ret n;
  svc_deallocuvm := fun _ _ n => ret n;
  svc_switchuvm := fun _ _ => ret tt;
  svc_switchkvm := ret tt;
  svc_filedup := fun f => ret f;
  svc_fileclose := fun _ => ret tt;
  svc_idup := fun i => ret i;
  svc_iput := fun _ => ret tt;
  svc_namei_root := ret (Some 0%nat);
  svc_begin_op := ret tt;
  svc_end_op := ret tt;
  svc_iinit := fun _ => ret tt;
  svc_initlog := fun _ => ret tt
}.

#[export] Instance demo_services_return : ServicesReturn Z.
Proof. split; intros; repeat eexists. Qed.

Definition demo_cpu (n : Z) : cpu := mkCpu n InPriority 1 0 false None false.
Definition demo_lock (n : string) : spinlock := mkSpinlock false n None (replicate 10 0%Z).
Definition demo_boot : kernel sched_ds Z :=
  mkKernel (mkMachine [demo_cpu 0; demo_cpu 1] 0 (fun _ => 0%Z) 0) (demo_lock "ptable")
    (replicate 64 proc_zero) 1 None true [demo_lock "time"] init_ds 0x1000%Z.

Lemma demo_fresh : fresh demo_boot.
Proof.
  split; [split| | | |].
  - intros j c. destruct j as [|[|j]]; simpl; intros [= <-]; done.
  - done.
  - by repeat constructor.
  - done.
  - done.
  - done.
  - exact init_abs.
Qed.

Lemma demo_memory : memory_for_init (rest demo_boot).
Proof. by repeat eexists. Qed.

(** *** Executing steps *)

Section Run.
Context {Q R : Type} `{HQ : Queues Q} `{HR : Services R}.
Implicit Types s : kernel Q R.

#[export] Instance enabled_dec p e s : Decision (enabled p e s).
Proof. destruct e; simpl; apply _. Defined.

Definition kexec s (x : nat * event) : option (kernel Q R) :=
  match cpus (hw (as_cpu x.1 s)) !! x.1 with
  | Some c =>
      if bool_decide (self (hw (as_cpu x.1 s)) = Some x.1) && bool_decide (enabled (cproc c) x.2 s)
      then ended (exec x.2 (as_cpu x.1 s)) else None
  | None => None
  end.
Fixpoint krun (l : list (nat * event)) s : option (kernel Q R) :=
  match l with [] => Some s | x :: l' => kexec s x ≫= krun l' end.

Lemma kexec_step s x s' : kexec s x = Some s' -> kstep s x s'.
Proof.
  destruct x as [i e]. unfold kexec. simpl. destruct (cpus _ !! i) as [c|] eqn:Hc; [|done].
  destruct (bool_decide _) eqn:H1; [|done]. destruct (bool_decide (enabled _ _ _)) eqn:H2; [|done].
  apply bool_decide_eq_true in H1, H2. simpl. intros H. by apply (KStep s i e c).
Qed.

Lemma krun_trace l : forall s l0 s1 s2, ktrace s l0 s1 -> krun l s1 = Some s2 -> ktrace s (l0 ++ l) s2.
Proof.
  induction l as [|x l IH]; intros s l0 s1 s2 Ht; csimpl.
  - intros [= <-]. by rewrite app_nil_r.
  - destruct (kexec s1 x) as [s3|] eqn:Hx; [|done]. csimpl. intros Hr.
    rewrite (cons_middle x l0 l), (assoc_L (++) l0 [x] l). eapply IH; [|exact Hr]. econstructor; [exact Ht|]. by apply kexec_step.
Qed.
End Run.

Lemma wp_result {S A : Type} (m : M S A) (s : S) Post Left a s' : wp m s Post Left -> m s = Ok a s' -> Post a s'.
Proof. unfold wp. intros H E. by rewrite E in H. Qed.

Definition after (o : option (kernel sched_ds Z)) : kernel sched_ds Z := default demo_boot o.
Definition reached (o : option (kernel sched_ds Z)) : bool := if o is Some _ then true else false.
Definition booted : kernel sched_ds Z := after (ended (userinit demo_boot)).

Lemma booted_eq : userinit demo_boot = Ok tt booted.
Proof.
  assert (match userinit demo_boot with Ok _ _ => true | _ => false end = true) as H by (vm_compute; reflexivity).
  unfold booted. destruct (userinit demo_boot) as [[] s| | | |]; done.
Qed.

Lemma booted_Inv : Inv (spend (Some pool_links)) booted.
Proof.
  refine (wp_result userinit demo_boot (fun _ s => Inv (spend (Some pool_links)) s) (fun _ => False) tt booted _ booted_eq).
  apply (wp_userinit demo_boot 0 (demo_cpu 0)); [exact demo_fresh|split; reflexivity|exact demo_memory|].
  intros s' H _ _ _ _. exact H.
Qed.

Definition demo (l : list (nat * event)) : kernel sched_ds Z := after (krun l booted).

Lemma demo_trace l : reached (krun l booted) = true -> ktrace booted l (demo l).
Proof.
  unfold demo. destruct (krun l booted) as [s|] eqn:H; [|done]. intros _.
  apply (krun_trace l booted [] booted s); [constructor|done].
Qed.

Lemma demo_Inv l :
  reached (krun l booted) = true -> trace_cost l <= 127 -> Inv (Some (127 - trace_cost l)) (demo l).
Proof.
  intros H Hc. pose proof (trace_Inv 127 _ _ _ booted_Inv (demo_trace _ H)) as Hi. by rewrite decide_True in Hi by done.
Qed.
