(* ===== verification/ProcCorrect.v ===== *)
(** * Correctness of the process component

    The theorems about [proc.c]: safety of every interleaving of steps, when a
    RUNNABLE process stays in the queue and a run that loses one, and the
    functional behaviour of the calls. *)

From stdpp Require Import base gmap list strings sorting.
From Stdlib Require Import ZArith Lia.
From S2P Require Import Prelude SchedSpec SchedDS SchedImpl Spinlock Proc ProcHw ProcInv.
From S2P Require Import ProcInv ProcSwitch ProcCalls ProcExit ProcFork ProcDispatch ProcSys.
From S2P Require Import ProcDemo.

(** *** Lemmas *)

(** The first entry of the queue has the least key. *)
Lemma pq_head_min q x :
  pq_ok q -> head (pq_procs q) = Some x ->
  exists k l q', q = (k, x :: l) :: q' /\ Forall (fun e => (k < e.1)%Z) q'.
Proof.
  intros [Hs Hne] Hx. destruct q as [|[k [|y l]] q']; [done| |].
  - by inversion_clear Hne.
  - csimpl in Hx. simplify_eq. exists k, l, q'. split; [done|]. rewrite fmap_cons in Hs.
    apply StronglySorted_inv in Hs as [_ Hall]. rewrite Forall_fmap in Hall. exact Hall.
Qed.

Lemma no_zombie t : forallb (fun p => bool_decide (state p <> ZOMBIE)) t = true ->
  forall k z, t !! k = Some z -> state z <> ZOMBIE.
Proof.
  intros Hall k z Hz. rewrite forallb_forall in Hall. apply list_elem_of_lookup_2, list_elem_of_In in Hz.
  by specialize (Hall _ Hz); apply bool_decide_eq_true in Hall.
Qed.

Section Claims.
Context {Q R : Type} `{HQ : Queues Q} `{HR : Services R} `{!ServicesReturn R}.
Implicit Types s : kernel Q R.

Lemma booted_trace s0 i c s1 l s :
  fresh s0 -> on_cpu (hw s0) i c -> memory_for_init (rest s0) -> userinit s0 = Ok tt s1 -> ktrace s1 l s ->
  Inv (if decide (trace_cost l < pool_links) then Some (pool_links - 1 - trace_cost l) else None) s.
Proof.
  intros Hf Hon Hm Hu Htr.
  assert (Inv (spend (Some pool_links)) s1) as Hinv.
  { refine (wp_result userinit s0 (fun _ s => Inv (spend (Some pool_links)) s) (fun _ => False) tt s1 _ Hu).
    eapply (wp_userinit s0 i c); [done..|]. intros s' H _ _ _ _. exact H. }
  destruct pool_links as [|n] eqn:Hn; simpl in Hinv.
  - destruct (decide _); [lia|]. clear -Hinv Htr HR ServicesReturn0.
    induction Htr as [|l x s2 s3 _ IH Hst]; [done|]. apply (step_Inv _ _ _ _ IH) in Hst.
    unfold pay in Hst. by destruct (_ =? 0).
  - apply (trace_Inv _ _ _ _ Hinv) in Htr. repeat case_decide; try lia; [|done].
    by replace (S n - 1 - trace_cost l) with (n - trace_cost l) by lia.
Qed.


(** C7 No process is lost, with a bound.  As long as fewer than [pool_links]
    steps since boot were a [yield] or a [fork] (128 with the pool of
    [ass1ds.c]), every RUNNABLE process is an entry of the priority queue, so
    the scheduler can find it. *)
Theorem runnable_queued s0 i c s1 l s :
  fresh s0 -> on_cpu (hw s0) i c -> memory_for_init (rest s0) -> userinit s0 = Ok tt s1 -> ktrace s1 l s ->
  trace_cost l < pool_links ->
  exists q, repr (qs s) q /\
    forall j p, ptable s !! j = Some p -> state p = RUNNABLE -> Some j ∈ pq_procs (q_pq q).
Proof.
  intros Hf Hon Hm Hu Htr Hc. pose proof (booted_trace _ _ _ _ _ _ Hf Hon Hm Hu Htr) as Hinv.
  rewrite decide_True in Hinv by done. destruct Hinv as (_ & _ & q & Hr & Hq). exists q. split; [done|].
  apply (qok_need _ _ _ _ Hq).
Qed.

(** C29 [fork].  With a process [j] on the CPU the call returns; it returns -1
    and leaves the table as it was when no slot is free, -1 with the slot
    still UNUSED when there is no memory, and otherwise the next pid, with
    the first free slot holding a RUNNABLE copy of [j] whose [fork] returns
    0, whose priority is 5 and whose parent is [j]. *)
Theorem fork_ok need s i c j :
  Inv need s -> on_cpu (hw s) i c -> cproc c = Some j -> (nextpid s + 1 < 2 ^ 31)%Z ->
  wp fork s (fun r s' => table_ok s' /\ runs_on i j s' /\ fork_result j (nextpid s) (ptable s) r (ptable s'))
    (fun _ => False).
Proof.
  intros Hinv Hon Hc Hn. eapply wp_fork; [done..|]. intros r s' Hi Hr _ _ Hres.
  split_and!; [by eapply Inv_table|done..].
Qed.




(** [kill].  It finds the first slot with the pid, marks it killed, makes a
    sleeper RUNNABLE so that it can notice, and returns 0; without such a slot
    it returns -1 and changes nothing. *)
Theorem kill_ok need s i c n :
  Inv need s -> on_cpu (hw s) i c ->
  wp (kill n) s (fun r s' => table_ok s' /\ run_of (hw s') = run_of (hw s) /\
    kill_result n (ptable s) r (ptable s')) (fun _ => False).
Proof.
  intros Hinv Hon. eapply wp_kill; [done..|]. intros r s' Hi _ Hro _ Hres. split_and!; [by eapply Inv_table|done..].
Qed.

(** C32 [detach].  A child with the pid gets [initproc] as its parent and
    nothing else of the table changes; without such a child of the caller the
    result is -1 and the table is as before. *)
Theorem detach_ok need s i c j n :
  Inv need s -> on_cpu (hw s) i c -> cproc c = Some j ->
  wp (detach n) s (fun r s' => table_ok s' /\ runs_on i j s' /\
    detach_result j (initproc s) n (ptable s) r (ptable s')) (fun _ => False).
Proof.
  intros Hinv Hon Hc. eapply wp_detach; [done..|]. intros r s' Hi Hr _ _ Hres. split_and!; [by eapply Inv_table|done..].
Qed.

(** [wakeup].  Every process that sleeps on the channel becomes RUNNABLE and
    no other process changes; while there is a free link for every sleeper,
    everything RUNNABLE afterwards is in the priority queue. *)
Theorem wakeup_ok k s i c ch :
  Inv (Some k) s -> on_cpu (hw s) i c ->
  wp (wakeup ch) s (fun _ s' => table_ok s' /\ Forall2 (woken ch) (ptable s) (ptable s') /\
    exists q, repr (qs s') q /\ queued (ptable s') q) (fun _ => False).
Proof.
  intros Hinv Hon. eapply wp_wakeup; [done..|]. intros s' Hi _ _ _ Hw. split_and!; [by eapply Inv_table|done|].
  destruct Hi as (_ & _ & q & Hr & Hq). exists q. split; [done|]. apply (qok_need _ _ _ _ Hq).
Qed.

(** [yield].  The process leaves the CPU RUNNABLE, to continue after
    [yield], with its priority added (at 64 bits) to its accumulator, and with
    a free link left it is in the queue again. *)
Theorem yield_ok k s i c j :
  Inv (Some (S k)) s -> on_cpu (hw s) i c -> cproc c = Some j ->
  wp (yield (A := unit)) s (fun _ _ => False) (fun s' => table_ok s' /\
    j :: run_of (hw s') ≡ₚ run_of (hw s) /\
    (exists p ie, ptable s !! j = Some p /\
      ptable s' = <[j := set_acc (s64 (accumulator p + priority p))
                           (set_ctx (mkContext AtYield ie) (set_state RUNNABLE p))]> (ptable s)) /\
    exists q, repr (qs s') q /\ Some j ∈ pq_procs (q_pq q)).
Proof.
  intros Hinv Hon Hc. eapply wp_yield; [done..|]. intros s' p ie Hi Hp Ht Hro _.
  split_and!; [by eapply Inv_table|done|by exists p, ie|].
  destruct Hi as (_ & _ & q & Hr & Hq). exists q. split; [done|].
  destruct (qok_need _ _ _ _ Hq) as [Hqd _]. eapply Hqd; [|shelve].
  rewrite Ht. apply list_lookup_insert_eq. by eapply lookup_lt_Some.
  Unshelve. done.
Qed.

End Claims.

(** ** Concrete runs *)

(** [init] runs on CPU 0; then it has forked a child that runs on CPU 1. *)
Definition run_init : list (nat * event) := [(0, ESchedule)].
Definition run_child : list (nat * event) := [(0, ESchedule); (0, EFork); (1, ESchedule)].

Definition at_init : kernel sched_ds Z := as_cpu 0 (demo run_init).
Definition at_child : kernel sched_ds Z := as_cpu 1 (demo run_child).
Definition at_booted : kernel sched_ds Z := as_cpu 0 booted.

Definition cpu_of (i : nat) (s : kernel sched_ds Z) : cpu := default (demo_cpu 9) (cpus (hw s) !! i).

Lemma at_init_Inv : Inv (Some 127) at_init.
Proof. apply Inv_as_cpu. apply (demo_Inv run_init); [vm_compute; reflexivity|apply Nat.le_0_l]. Qed.
Lemma at_child_Inv : Inv (Some 126) at_child.
Proof. apply Inv_as_cpu. apply (demo_Inv run_child); [vm_compute; reflexivity|apply le_n_S, Nat.le_0_l]. Qed.
Lemma at_booted_Inv : Inv (Some 127) at_booted.
Proof. apply Inv_as_cpu. exact booted_Inv. Qed.

Lemma at_init_cpu : on_cpu (hw at_init) 0 (cpu_of 0 at_init) /\ cproc (cpu_of 0 at_init) = Some 0 /\
  nextpid at_init = 2%Z.
Proof. by vm_compute. Qed.
Lemma at_child_cpu : on_cpu (hw at_child) 1 (cpu_of 1 at_child) /\ cproc (cpu_of 1 at_child) = Some 1 /\
  initproc at_child = Some 0.
Proof. by vm_compute. Qed.
Lemma at_booted_cpu : on_cpu (hw at_booted) 0 (cpu_of 0 at_booted) /\ cproc (cpu_of 0 at_booted) = None.
Proof. by vm_compute. Qed.

Definition child_proc : proc := default proc_zero (ptable at_child !! 1).
Lemma at_child_proc : ptable at_child !! 1 = Some child_proc /\ parent child_proc = Some 0.
Proof. by vm_compute. Qed.
Lemma at_child_no_zombie : forallb (fun p => bool_decide (state p <> ZOMBIE)) (ptable at_child) = true.
Proof. by vm_compute. Qed.

#[global] Opaque at_init at_child at_booted.


Lemma runnable_queued_witness :
  exists q, repr (qs (demo run_child)) q /\
    forall j p, ptable (demo run_child) !! j = Some p -> state p = RUNNABLE -> Some j ∈ pq_procs (q_pq q).
Proof.
  refine (runnable_queued demo_boot 0 (demo_cpu 0) booted run_child (demo run_child) demo_fresh
    (conj eq_refl eq_refl) demo_memory booted_eq (demo_trace run_child ltac:(vm_compute; reflexivity)) _).
  apply Nat.ltb_lt. vm_compute. reflexivity.
Defined.

Lemma fork_ok_witness :
  wp fork at_init (fun r s' => table_ok s' /\ runs_on 0 0 s' /\
    fork_result 0 (nextpid at_init) (ptable at_init) r (ptable s')) (fun _ => False).
Proof.
  destruct at_init_cpu as (Hon & Hc & Hn). refine (fork_ok _ _ _ _ _ at_init_Inv Hon Hc _). rewrite Hn. reflexivity.
Defined.




Lemma kill_ok_witness :
  wp (kill 1) at_child (fun r s' => table_ok s' /\ run_of (hw s') = run_of (hw at_child) /\
    kill_result 1 (ptable at_child) r (ptable s')) (fun _ => False).
Proof. destruct at_child_cpu as (Hon & Hc & _). exact (kill_ok _ _ _ _ 1 at_child_Inv Hon). Defined.

Lemma detach_ok_witness :
  wp (detach 3) at_child (fun r s' => table_ok s' /\ runs_on 1 1 s' /\
    detach_result 1 (initproc at_child) 3 (ptable at_child) r (ptable s')) (fun _ => False).
Proof. destruct at_child_cpu as (Hon & Hc & _). exact (detach_ok _ _ _ _ _ 3 at_child_Inv Hon Hc). Defined.

Lemma wakeup_ok_witness :
  wp (wakeup (ProcChan 0)) at_child (fun _ s' => table_ok s' /\
    Forall2 (woken (ProcChan 0)) (ptable at_child) (ptable s') /\
    exists q, repr (qs s') q /\ queued (ptable s') q) (fun _ => False).
Proof. destruct at_child_cpu as (Hon & Hc & _). exact (wakeup_ok _ _ _ _ (ProcChan 0) at_child_Inv Hon). Defined.

Lemma yield_ok_witness :
  wp (yield (A := unit)) at_child (fun _ _ => False) (fun s' => table_ok s' /\
    1 :: run_of (hw s') ≡ₚ run_of (hw at_child) /\
    (exists p ie, ptable at_child !! 1 = Some p /\
      ptable s' = <[1 := set_acc (s64 (accumulator p + priority p))
                           (set_ctx (mkContext AtYield ie) (set_state RUNNABLE p))]> (ptable at_child)) /\
    exists q, repr (qs s') q /\ Some 1 ∈ pq_procs (q_pq q)).
Proof. destruct at_child_cpu as (Hon & Hc & _). exact (yield_ok _ _ _ _ _ at_child_Inv Hon Hc). Defined.


(** ** Runs that go wrong *)

(** Two states, one for each CPU that may have run last, that scheduler rounds
    and wakeups lead back to. *)
Section Hung.
Context {Q R : Type} `{HQ : Queues Q} `{HR : Services R} (k0 k1 : kernel Q R).
Definition last_ran (i : nat) : kernel Q R := if i =? 0 then k0 else k1.
Hypothesis Hrounds : forall i j, i < 2 -> j < 2 -> ended (exec ESchedule (as_cpu i (last_ran j))) = Some (last_ran i).
Hypothesis Hwakeups : forall ch i j, i < 2 -> j < 2 ->
  ended (exec (EWakeup ch) (as_cpu i (last_ran j))) = Some (last_ran i).
Hypothesis Hcpus : forall j, j < 2 -> length (cpus (hw (last_ran j))) = 2 /\ run_of (hw (last_ran j)) = [].

Lemma hung_step j x s : j < 2 -> kstep (last_ran j) x s -> exists i, i < 2 /\ s = last_ran i.
Proof.
  intros Hj [i e c s' Hon He Hend]. destruct (Hcpus j Hj) as [Hlen Hrun].
  destruct Hon as [_ Hc]. unfold as_cpu in Hc. destruct (cpus (hw (last_ran j)) !! i) as [c0|] eqn:Hi; [|congruence].
  simpl in Hc. assert (c0 = c) as -> by congruence. pose proof (lookup_lt_Some _ _ _ Hi) as Hlt. rewrite Hlen in Hlt.
  assert (cproc c = None) as Hnone.
  { destruct (cproc c) as [p|] eqn:Hp; [|done]. assert (p ∈ run_of (hw (last_ran j))) as Hin.
    - apply list_elem_of_omap. exists c. split; [by eapply list_elem_of_lookup_2|done].
    - rewrite Hrun in Hin. by apply not_elem_of_nil in Hin. }
  rewrite Hnone in He. exists i. split; [done|].
  destruct e; simpl in He; try (by destruct He as [[? ?] ?]); try by destruct He.
  - rewrite Hwakeups in Hend by done. congruence.
  - rewrite Hrounds in Hend by done. congruence.
Qed.

Lemma hung_trace l s : ktrace k1 l s -> exists i, i < 2 /\ s = last_ran i.
Proof.
  induction 1 as [|l x s1 s2 _ (j & Hj & ->) Hst]; [by exists 1; split; [lia|]|by eapply hung_step].
Qed.
End Hung.

(** [init] forks and waits; the child is interrupted 127 times and exits. *)
Definition lost_trace : list (nat * event) :=
  [(0, ESchedule); (0, EFork); (0, EWait true); (0, ESchedule)] ++
  concat (replicate 127 [(0, EYield); (0, ESchedule)]) ++ [(0, EExit 7)].
(** The scheduler takes the entries of the dead child out of the queue. *)
Definition drained : list (nat * event) := lost_trace ++ replicate 127 (0, ESchedule) ++ [(1, ESchedule)].
Definition idle1 : kernel sched_ds Z := demo drained.
Definition idle0 : kernel sched_ds Z := after (kexec idle1 (0, ESchedule)).

Lemma idle_rounds : forall i j, i < 2 -> j < 2 ->
  ended (exec ESchedule (as_cpu i (last_ran idle0 idle1 j))) = Some (last_ran idle0 idle1 i).
Proof. intros i j Hi Hj. destruct i as [|[|i]], j as [|[|j]]; try lia; vm_compute; reflexivity. Qed.
Lemma idle_wakeups : forall ch i j, i < 2 -> j < 2 ->
  ended (exec (EWakeup ch) (as_cpu i (last_ran idle0 idle1 j))) = Some (last_ran idle0 idle1 i).
Proof. intros ch i j Hi Hj. destruct i as [|[|i]], j as [|[|j]]; try lia; vm_compute; reflexivity. Qed.
Lemma idle_cpus : forall j, j < 2 ->
  length (cpus (hw (last_ran idle0 idle1 j))) = 2 /\ run_of (hw (last_ran idle0 idle1 j)) = [].
Proof. intros j Hj. destruct j as [|[|j]]; try lia; vm_compute; split; reflexivity. Qed.
Lemma idle_runnable : forall j, j < 2 -> (state <$> ptable (last_ran idle0 idle1 j) !! 0) = Some RUNNABLE.
Proof. intros j Hj. destruct j as [|[|j]]; try lia; vm_compute; reflexivity. Qed.
Lemma drained_runs : reached (krun drained booted) = true.
Proof. vm_compute. reflexivity. Qed.

(** C8 The bound of [runnable_queued] is sharp, and losing a process is final.
    [yield] puts the process into the queue and the scheduler, back on its
    stack, puts it there again, so that each timer tick leaves one entry too
    many.  [init] forks a child and waits; after 127 ticks of the child the
    pool of links is empty, the [pq.put] of [exit]'s wakeup fails unnoticed,
    and from then on, whatever the interrupts and the CPUs do, [init] is
    RUNNABLE and no process ever runs again. *)
Theorem runnable_lost :
  trace_cost drained = pool_links /\ ktrace booted drained idle1 /\
  forall l s, ktrace idle1 l s -> run_of (hw s) = [] /\ exists p, ptable s !! 0 = Some p /\ state p = RUNNABLE.
Proof.
  split; [vm_compute; reflexivity|]. split; [exact (demo_trace _ drained_runs)|]. intros l s Htr.
  destruct (hung_trace _ _ idle_rounds idle_wakeups idle_cpus l s Htr) as (i & Hi & Hs). rewrite Hs.
  split; [exact (proj2 (idle_cpus i Hi))|]. destruct (fmap_Some_1 _ _ _ (idle_runnable i Hi)) as (p & Hp & Hst).
  exact (ex_intro _ p (conj Hp (eq_sym Hst))).
Qed.

(** The shell is forked by [init], forks a child on CPU 0, the child exits on
    CPU 1 and the shell detaches it. *)
Definition detach_trace : list (nat * event) :=
  [(0, ESchedule); (0, EFork); (0, EWait true); (0, ESchedule); (0, EFork); (1, ESchedule); (1, EExit 0);
   (0, EDetach 3)].

(** [detach] of a child that is already a ZOMBIE hands it to [initproc]
    without waking it up, as [exit] does for the same hand-over: [init] stays
    asleep in [wait] while a ZOMBIE child waits for it. *)
Theorem detach_zombie_unnoticed :
  ktrace booted detach_trace (demo detach_trace) /\
  exists z p, ptable (demo detach_trace) !! 2 = Some z /\ state z = ZOMBIE /\ parent z = initproc (demo detach_trace) /\
    initproc (demo detach_trace) = Some 0 /\ ptable (demo detach_trace) !! 0 = Some p /\
    state p = SLEEPING /\ chan p = ProcChan 0.
Proof.
  split; [apply demo_trace; vm_compute; reflexivity|]. vm_compute. do 2 eexists. split_and!; reflexivity.
Qed.

(** [kill] does not look at the state of a slot, and UNUSED slots have pid
    0: [kill(0)] succeeds, and the next process forked into the slot starts
    out killed. *)
Theorem kill_zero_kills_next :
  let t := [(0, ESchedule); (0, EKill 0); (0, EFork)] in
  ktrace booted t (demo t) /\
  exists p, ptable (demo t) !! 1 = Some p /\ state p = RUNNABLE /\ pid p = 2%Z /\ killed p = true.
Proof.
  split; [apply demo_trace; vm_compute; reflexivity|]. vm_compute. eexists. split_and!; reflexivity.
Qed.
