(* ===== verification/CString.v ===== *)
(** * Bytes and strings: string.c and ulib.c

    Memory is a total map from addresses to bytes in 0..255, pointers are
    addresses that do not wrap around.  The user library's versions of functions
    that the kernel has too begin with [u].  A loop bounded by a count recurses
    on it; a loop that runs to a terminator has fuel. *)

From stdpp Require Import base list strings sets.
From Stdlib Require Import ZArith Lia.
From S2P Require Import Prelude.
Local Open Scope Z_scope.

Definition mem : Type := Z -> Z.

Definition upd (m : mem) (a v : Z) : mem := fun x => if x =? a then v else m x.
Definition load (a : Z) : M mem Z := gets (fun m => m a).
Definition store (a v : Z) : M mem unit := modify (fun m => upd m a (u8 v)).

(** A 32-bit word, little endian. *)
Definition word_at (m : mem) (a : Z) : Z :=
  m a + 256 * m (a + 1) + 65536 * m (a + 2) + 16777216 * m (a + 3).
Definition load4 (a : Z) : M mem Z := gets (fun m => word_at m a).
Definition store4 (a v : Z) : M mem unit :=
  store a v ;;; store (a + 1) (Z.shiftr v 8) ;;; store (a + 2) (Z.shiftr v 16) ;;; store (a + 3) (Z.shiftr v 24).

(** Bytes stored from [a] on, and those of a half word and of a word. *)
Fixpoint store_bytes (m : mem) (a : Z) (l : list Z) : mem :=
  match l with [] => m | c :: l' => store_bytes (upd m a c) (a + 1) l' end.
Definition half_bytes (v : Z) : list Z := [v mod 256; v / 2 ^ 8 mod 256].
Definition word_bytes (v : Z) : list Z := [v mod 256; v / 2 ^ 8 mod 256; v / 2 ^ 16 mod 256; v / 2 ^ 24 mod 256].

(** The string instructions of x86.h. *)
Fixpoint stosb (addr data : Z) (cnt : nat) : M mem unit :=
  match cnt with
  | O => ret tt
  | S k => store addr data ;;; stosb (addr + 1) data k
  end.
Fixpoint stosl (addr data : Z) (cnt : nat) : M mem unit :=
  match cnt with
  | O => ret tt
  | S k => store4 addr data ;;; stosl (addr + 4) data k
  end.

(** A loop that copies upwards. *)
Fixpoint copy_up (d s : Z) (n : nat) : M mem unit :=
  match n with
  | O => ret tt
  | S k => let! c := load s in store d c ;;; copy_up (d + 1) (s + 1) k
  end.

(** ** string.c *)

Definition memset (dst c n : Z) : M mem Z :=
  (if (dst mod 4 =? 0) && (n mod 4 =? 0) then
     let c := Z.land c 0xFF in
     stosl dst (u32 (Z.lor (Z.lor (Z.lor (Z.shiftl c 24) (Z.shiftl c 16)) (Z.shiftl c 8)) c)) (Z.to_nat (n / 4))
   else stosb dst c (Z.to_nat n)) ;;;
  ret dst.

Fixpoint memcmp (s1 s2 : Z) (n : nat) : M mem Z :=
  match n with
  | O => ret 0
  | S k =>
      let! a := load s1 in
      let! b := load s2 in
      if negb (a =? b) then ret (a - b) else memcmp (s1 + 1) (s2 + 1) k
  end.

(** [*--d = *--s] *)
Fixpoint copy_down (d s : Z) (n : nat) : M mem unit :=
  match n with
  | O => ret tt
  | S k => let! c := load (s - 1) in store (d - 1) c ;;; copy_down (d - 1) (s - 1) k
  end.

Definition memmove (dst src n : Z) : M mem Z :=
  (if (src <? dst) && (dst <? src + n) then copy_down (dst + n) (src + n) (Z.to_nat n)
   else copy_up dst src (Z.to_nat n)) ;;;
  ret dst.

Definition memcpy (dst src n : Z) : M mem Z := memmove dst src n.

Fixpoint strncmp (p q : Z) (n : nat) : M mem Z :=
  match n with
  | O => ret 0
  | S k =>
      let! a := load p in
      let! b := load q in
      if negb (a =? 0) && (a =? b) then strncmp (p + 1) (q + 1) k else ret (a - b)
  end.

(** The copying loop; the result is [s] and [n] when it ends. *)
Fixpoint strncpy_loop (s t : Z) (n : nat) : M mem (Z * nat) :=
  match n with
  | O => ret (s, O)
  | S k =>
      let! c := load t in
      store s c ;;;
      if c =? 0 then ret (s + 1, k) else strncpy_loop (s + 1) (t + 1) k
  end.
Definition strncpy (s t n : Z) : M mem Z :=
  let! r := strncpy_loop s t (Z.to_nat n) in
  stosb r.1 0 r.2 ;;;
  ret s.

(** [while(--n > 0 && ...)] makes at most [n - 1] rounds. *)
Fixpoint safestrcpy_loop (s t : Z) (n : nat) : M mem Z :=
  match n with
  | O => ret s
  | S k =>
      let! c := load t in
      store s c ;;;
      if c =? 0 then ret (s + 1) else safestrcpy_loop (s + 1) (t + 1) k
  end.
Definition safestrcpy (s t n : Z) : M mem Z :=
  if n <=? 0 then ret s else
  let! s' := safestrcpy_loop s t (Z.to_nat (n - 1)) in
  store s' 0 ;;;
  ret s.

Fixpoint strlen_loop (fuel : nat) (s n : Z) : M mem Z :=
  match fuel with
  | O => nofuel
  | S f => let! c := load (s + n) in if c =? 0 then ret n else strlen_loop f s (n + 1)
  end.
Definition strlen (fuel : nat) (s : Z) : M mem Z := strlen_loop fuel s 0.

(** ** ulib.c *)

Fixpoint strcpy_loop (fuel : nat) (s t : Z) : M mem unit :=
  match fuel with
  | O => nofuel
  | S f =>
      let! c := load t in
      store s c ;;;
      if c =? 0 then ret tt else strcpy_loop f (s + 1) (t + 1)
  end.
Definition strcpy (fuel : nat) (s t : Z) : M mem Z := strcpy_loop fuel s t ;;; ret s.

Fixpoint strcmp (fuel : nat) (p q : Z) : M mem Z :=
  match fuel with
  | O => nofuel
  | S f =>
      let! a := load p in
      let! b := load q in
      if negb (a =? 0) && (a =? b) then strcmp f (p + 1) (q + 1) else ret (a - b)
  end.

Definition ustrlen (fuel : nat) (s : Z) : M mem Z := strlen_loop fuel s 0.

Definition umemset (dst c n : Z) : M mem Z := stosb dst c (Z.to_nat n) ;;; ret dst.

(** 0 is the null pointer. *)
Fixpoint strchr (fuel : nat) (s c : Z) : M mem Z :=
  match fuel with
  | O => nofuel
  | S f =>
      let! a := load s in
      if a =? 0 then ret 0 else if a =? c then ret s else strchr f (s + 1) c
  end.

(** [*s - '0'] for a digit; the sum wraps at 32 bits. *)
Fixpoint atoi_loop (fuel : nat) (s n : Z) : M mem Z :=
  match fuel with
  | O => nofuel
  | S f =>
      let! c := load s in
      if (48 <=? c) && (c <=? 57) then atoi_loop f (s + 1) (s32 (n * 10 + c - 48)) else ret n
  end.
Definition atoi (fuel : nat) (s : Z) : M mem Z := atoi_loop fuel s 0.

Definition umemmove (dst src n : Z) : M mem Z := copy_up dst src (Z.to_nat n) ;;; ret dst.

(** [gets] of the user library: [inp] is what successive calls of [read(0, &c, 1)] deliver, [None]
    being a result below 1.  The result is the number of bytes stored, and the
    input left. *)
Fixpoint ugets_loop (fuel : nat) (buf i max : Z) (inp : list (option Z)) : M mem (Z * list (option Z)) :=
  match fuel with
  | O => nofuel
  | S f =>
      if i + 1 <? max then
        match inp with
        | Some c :: inp' =>
            store (buf + i) c ;;;
            if (c =? 10) || (c =? 13) then ret (i + 1, inp') else ugets_loop f buf (i + 1) max inp'
        | None :: inp' => ret (i, inp')
        | [] => ret (i, [])
        end
      else ret (i, inp)
  end.
Definition ugets (buf max : Z) (inp : list (option Z)) : M mem (list (option Z)) :=
  let! r := ugets_loop (S (Z.to_nat max)) buf 0 max inp in
  store (buf + r.1) 0 ;;;
  ret r.2.

(** ** What they compute *)

(** The bytes [l] are at [a]. *)
Fixpoint bytes_at (m : mem) (a : Z) (l : list Z) : Prop :=
  match l with [] => True | c :: l' => m a = c /\ bytes_at m (a + 1) l' end.

Definition byte (c : Z) : Prop := 0 <= c < 256.
Definition char_ok (c : Z) : Prop := 0 < c < 256.

(** The C string [l] is at [a]. *)
Definition cstr (m : mem) (a : Z) (l : list Z) : Prop := bytes_at m a (l ++ [0]) /\ Forall char_ok l.

Definition mem_ok (m : mem) : Prop := forall a, byte (m a).

(** [m'] is [m] outside [n] bytes at [a]. *)
Definition same_outside (a n : Z) (m m' : mem) : Prop := forall x, ~ (a <= x < a + n) -> m' x = m x.

(** [n] bytes from [src] of [m] are at [dst] of [m']. *)
Definition copied (dst src n : Z) (m m' : mem) : Prop :=
  (forall i, 0 <= i < n -> m' (dst + i) = m (src + i)) /\ same_outside dst n m m'.

(** *** Copying *)

Lemma upd_eq m a v : upd m a v a = v.
Proof. unfold upd. by rewrite Z.eqb_refl. Qed.
Lemma upd_ne m a v x : x <> a -> upd m a v x = m x.
Proof. intros Hx. unfold upd. by destruct (Z.eqb_spec x a). Qed.
Ltac mem_simpl :=
  unfold upd; repeat (match goal with |- context [?x =? ?y] => destruct (Z.eqb_spec x y); try lia end); try done.
Lemma u8_byte c : byte c -> u8 c = c.
Proof. unfold byte, u8. intros H. rewrite Z.mod_small; lia. Qed.
Lemma byte_u8 c : byte (u8 c).
Proof. unfold byte, u8. apply Z.mod_pos_bound. lia. Qed.
Lemma mem_ok_upd m a v : mem_ok m -> mem_ok (upd m a (u8 v)).
Proof. intros Hm x. unfold upd. destruct (x =? a); [apply byte_u8|apply Hm]. Qed.
#[export] Hint Resolve mem_ok_upd byte_u8 : kernel.

Lemma copy_up_Ok n : forall d s m, mem_ok m -> d <= s \/ s + Z.of_nat n <= d ->
  exists m', copy_up d s n m = Ok tt m' /\ copied d s (Z.of_nat n) m m' /\ mem_ok m'.
Proof.
  induction n as [|n IH]; intros d s m Hm Hd.
  - exists m. split; [done|]. split; [|done]. split; [lia|done].
  - destruct (IH (d + 1) (s + 1) (upd m d (u8 (m s)))) as (m' & Hrun & [Hc Ho] & Hm'); [auto with kernel|lia|].
    exists m'. split; [exact Hrun|]. split; [|done]. rewrite u8_byte in Hc, Ho by apply Hm. split.
    + intros i Hi. destruct (decide (i = 0)) as [->|Hne].
      * rewrite !Z.add_0_r, Ho by lia. apply upd_eq.
      * replace (d + i) with (d + 1 + (i - 1)) by lia. rewrite Hc, upd_ne by lia. f_equal. lia.
    + intros x Hx. rewrite Ho by lia. apply upd_ne. lia.
Qed.

Lemma copy_down_Ok n : forall d s m, mem_ok m -> s <= d ->
  exists m', copy_down d s n m = Ok tt m' /\ copied (d - Z.of_nat n) (s - Z.of_nat n) (Z.of_nat n) m m' /\ mem_ok m'.
Proof.
  induction n as [|n IH]; intros d s m Hm Hd.
  - exists m. split; [done|]. split; [|done]. split; [lia|done].
  - destruct (IH (d - 1) (s - 1) (upd m (d - 1) (u8 (m (s - 1))))) as (m' & Hrun & [Hc Ho] & Hm'); [auto with kernel|lia|].
    exists m'. split; [exact Hrun|]. split; [|done]. rewrite u8_byte in Hc, Ho by apply Hm.
    replace (d - 1 - Z.of_nat n) with (d - Z.of_nat (S n)) in * by lia.
    replace (s - 1 - Z.of_nat n) with (s - Z.of_nat (S n)) in * by lia. split.
    + intros i Hi. destruct (decide (i = Z.of_nat n)) as [->|Hne].
      * replace (d - Z.of_nat (S n) + Z.of_nat n) with (d - 1) by lia. rewrite Ho by lia. rewrite upd_eq. f_equal. lia.
      * rewrite Hc, upd_ne by lia. done.
    + intros x Hx. rewrite Ho by lia. apply upd_ne. lia.
Qed.

Lemma memmove_Ok dst src n m : mem_ok m -> 0 <= n ->
  exists m', memmove dst src n m = Ok dst m' /\ copied dst src n m m' /\ mem_ok m'.
Proof.
  intros Hm Hn. unfold memmove. destruct (Z.ltb_spec src dst), (Z.ltb_spec dst (src + n)); simpl;
    [destruct (copy_down_Ok (Z.to_nat n) (dst + n) (src + n) m Hm ltac:(lia)) as (m' & Hr & Hc & Hm')
    |destruct (copy_up_Ok (Z.to_nat n) dst src m Hm ltac:(lia)) as (m' & Hr & Hc & Hm')..];
    exists m'; (split; [by erewrite bind_Ok by exact Hr|]); rewrite Z2Nat.id in Hc by done;
    (split; [|done]); [|exact Hc..].
  by replace (dst + n - n) with dst in Hc by lia; replace (src + n - n) with src in Hc by lia.
Qed.

(** *** Filling *)

Definition filled (dst c n : Z) (m m' : mem) : Prop :=
  (forall x, dst <= x < dst + n -> m' x = u8 c) /\ same_outside dst n m m'.

Lemma stosb_Ok n : forall d c m, mem_ok m ->
  exists m', stosb d c n m = Ok tt m' /\ filled d c (Z.of_nat n) m m' /\ mem_ok m'.
Proof.
  induction n as [|n IH]; intros d c m Hm.
  - exists m. split; [done|]. split; [|done]. split; [lia|done].
  - destruct (IH (d + 1) c (upd m d (u8 c))) as (m' & Hrun & [Hc Ho] & Hm'); [auto with kernel|].
    exists m'. split; [exact Hrun|]. split; [|done]. split.
    + intros x Hx. destruct (decide (x = d)) as [->|]; [rewrite Ho by lia; apply upd_eq|apply Hc; lia].
    + intros x Hx. rewrite Ho by lia. apply upd_ne. lia.
Qed.

(** The word [memset] stores has four equal bytes. *)
Definition fill_word (c : Z) : Z :=
  u32 (Z.lor (Z.lor (Z.lor (Z.shiftl c 24) (Z.shiftl c 16)) (Z.shiftl c 8)) c).
Definition fill_word_bytes (c : Z) : bool :=
  forallb (fun k => u8 (Z.shiftr (fill_word c) k) =? c) [0; 8; 16; 24].

(** A property of bytes that holds of all 256. *)
Lemma byte_ind (P : Z -> bool) : forallb P (Z.of_nat <$> seq 0 256) = true -> forall c, byte c -> P c = true.
Proof.
  intros H c Hc. rewrite forallb_forall in H. apply H. apply list_elem_of_In, list_elem_of_fmap.
  exists (Z.to_nat c). unfold byte in Hc. split; [lia|]. apply elem_of_seq. lia.
Qed.

Lemma fill_word_ok c : byte c -> forall k, k ∈ [0; 8; 16; 24] -> u8 (Z.shiftr (fill_word c) k) = c.
Proof.
  intros Hc k Hk. pose proof (byte_ind fill_word_bytes eq_refl c Hc) as H. unfold fill_word_bytes in H.
  rewrite forallb_forall in H. apply Z.eqb_eq. apply (H k). by apply list_elem_of_In.
Qed.

Lemma store4_Ok a v m : mem_ok m ->
  exists m', store4 a v m = Ok tt m' /\ m' a = u8 v /\ m' (a + 1) = u8 (Z.shiftr v 8) /\
    m' (a + 2) = u8 (Z.shiftr v 16) /\ m' (a + 3) = u8 (Z.shiftr v 24) /\ same_outside a 4 m m' /\ mem_ok m'.
Proof.
  intros Hm. eexists. split; [reflexivity|].
  split_and!; [mem_simpl..| |by auto with kernel]. intros x Hx. mem_simpl.
Qed.

Lemma stosl_fill n : forall d c m, mem_ok m -> byte c ->
  exists m', stosl d (fill_word c) n m = Ok tt m' /\ filled d c (4 * Z.of_nat n) m m' /\ mem_ok m'.
Proof.
  induction n as [|n IH]; intros d c m Hm Hc.
  - exists m. split; [done|]. split; [|done]. split; [lia|done].
  - destruct (store4_Ok d (fill_word c) m Hm) as (m1 & Hs & H0 & H1 & H2 & H3 & Ho1 & Hm1).
    assert (forall k, k ∈ [0; 8; 16; 24] -> u8 (Z.shiftr (fill_word c) k) = u8 c) as Hw.
    { intros k Hk. by rewrite fill_word_ok, u8_byte. }
    rewrite <- (Z.shiftr_0_r (fill_word c)) in H0. rewrite Hw in H0, H1, H2, H3 by set_solver.
    destruct (IH (d + 4) c m1 Hm1 Hc) as (m' & Hrun & [Hf Ho] & Hm').
    exists m'. split; [simpl; by erewrite bind_Ok by exact Hs|]. split; [|done]. split.
    + intros x Hx. destruct (decide (d + 4 <= x)); [apply Hf; lia|]. rewrite Ho by lia.
      assert (x = d \/ x = d + 1 \/ x = d + 2 \/ x = d + 3) as [->|[->|[->| ->]]] by lia; done.
    + intros x Hx. rewrite Ho by lia. apply Ho1. lia.
Qed.

Lemma land_255 c : Z.land c 0xFF = u8 c.
Proof. change 0xFF with (Z.ones 8). by rewrite Z.land_ones. Qed.

Lemma memset_Ok dst c n m : mem_ok m -> 0 <= n ->
  exists m', memset dst c n m = Ok dst m' /\ filled dst c n m m' /\ mem_ok m'.
Proof.
  intros Hm Hn. unfold memset. rewrite land_255. fold (fill_word (u8 c)).
  destruct (Z.eqb_spec (dst mod 4) 0), (Z.eqb_spec (n mod 4) 0) as [Hmod|]; simpl;
    [destruct (stosl_fill (Z.to_nat (n / 4)) dst (u8 c) m Hm (byte_u8 c)) as (m' & Hr & [Hf Ho] & Hm')
    |destruct (stosb_Ok (Z.to_nat n) dst c m Hm) as (m' & Hr & [Hf Ho] & Hm')..];
    exists m'; (split; [by erewrite bind_Ok by exact Hr|]); (split; [|done]).
  2-4: rewrite Z2Nat.id in Hf, Ho by done; by split.
  rewrite Z2Nat.id in Hf, Ho by (apply Z.div_pos; lia). rewrite (u8_byte (u8 c)) in Hf by apply byte_u8.
  pose proof (Z.div_mod n 4 ltac:(lia)). replace (4 * (n / 4)) with n in * by lia. by split.
Qed.

(** *** Strings *)

Lemma cstr_nil m a : cstr m a [] -> m a = 0.
Proof. by intros [[H _] _]. Qed.
Lemma cstr_cons m a c l : cstr m a (c :: l) -> m a = c /\ char_ok c /\ cstr m (a + 1) l.
Proof. intros [[H Hl] Hall]. inversion_clear Hall. by split_and!. Qed.

Lemma strlen_Ok fuel m a l : forall n, cstr m (a + n) l -> (length l < fuel)%nat ->
  strlen_loop fuel a n m = Ok (n + Z.of_nat (length l)) m.
Proof.
  revert l. induction fuel as [|f IH]; intros l n Hl Hf; [lia|]. simpl. unfold load. rewrite bind_gets.
  destruct l as [|c l].
  - rewrite (cstr_nil _ _ Hl). simpl. by rewrite Z.add_0_r.
  - apply cstr_cons in Hl as (-> & Hc & Hl). unfold char_ok in Hc. destruct (Z.eqb_spec c 0); [lia|].
    rewrite <- Z.add_assoc in Hl. rewrite (IH l) by (simpl in Hf; first [done|lia]). simpl. f_equal. lia.
Qed.

(** The first difference of two strings, counting the terminator. *)
Fixpoint str_diff (l1 l2 : list Z) : Z :=
  match l1, l2 with
  | [], [] => 0
  | [], b :: _ => - b
  | a :: _, [] => a
  | a :: l1', b :: l2' => if a =? b then str_diff l1' l2' else a - b
  end.

(** Dictionary order. *)
Inductive lex_lt : list Z -> list Z -> Prop :=
| lex_nil b l : lex_lt [] (b :: l)
| lex_head a b l1 l2 : a < b -> lex_lt (a :: l1) (b :: l2)
| lex_tail a l1 l2 : lex_lt l1 l2 -> lex_lt (a :: l1) (a :: l2).

Lemma str_diff_spec l1 l2 : Forall char_ok l1 -> Forall char_ok l2 ->
  (str_diff l1 l2 = 0 <-> l1 = l2) /\ (str_diff l1 l2 < 0 <-> lex_lt l1 l2).
Proof.
  intros H1. revert l2. induction H1 as [|a l1 Ha H1 IH]; intros l2 H2; inversion H2 as [|b l2' Hb H2']; subst; simpl.
  - split; [done|]. split; [lia|by inversion 1].
  - unfold char_ok in Hb. split; [split; [lia|done]|]. split; [intros _; constructor|lia].
  - unfold char_ok in Ha. split; [split; [lia|done]|]. split; [lia|by inversion 1].
  - destruct (Z.eqb_spec a b) as [->|Hne].
    + destruct (IH _ H2') as [IH1 IH2]. split.
      * rewrite IH1. split; [by intros ->|by intros [= ->]].
      * rewrite IH2. split; [by constructor|]. inversion 1; subst; [lia|done].
    + split; [split; [lia|congruence]|]. split; [intros; apply lex_head; lia|]. inversion 1; subst; [lia|done].
Qed.

Lemma strcmp_Ok fuel : forall m p q l1 l2, cstr m p l1 -> cstr m q l2 -> (length l1 < fuel)%nat ->
  strcmp fuel p q m = Ok (str_diff l1 l2) m.
Proof.
  induction fuel as [|f IH]; intros m p q l1 l2 H1 H2 Hf; [lia|]. simpl. unfold load. rewrite !bind_gets.
  destruct l1 as [|a l1]; [rewrite (cstr_nil _ _ H1)|apply cstr_cons in H1 as (-> & Ha & H1); unfold char_ok in Ha];
    (destruct l2 as [|b l2]; [rewrite (cstr_nil _ _ H2)|apply cstr_cons in H2 as (-> & Hb & H2)]); simpl in *.
  - done.
  - by destruct b.
  - destruct (Z.eqb_spec a 0); [lia|]. simpl. by rewrite Z.sub_0_r.
  - destruct (Z.eqb_spec a 0); [lia|]. destruct (Z.eqb_spec a b) as [->|]; simpl; [|done]. apply IH; first [done|lia].
Qed.

Lemma strncmp_Ok n : forall m p q l1 l2, cstr m p l1 -> cstr m q l2 ->
  strncmp p q n m = Ok (str_diff (take n l1) (take n l2)) m.
Proof.
  induction n as [|n IH]; intros m p q l1 l2 H1 H2; [done|]. simpl. unfold load. rewrite !bind_gets.
  destruct l1 as [|a l1]; [rewrite (cstr_nil _ _ H1)|apply cstr_cons in H1 as (-> & Ha & H1); unfold char_ok in Ha];
    (destruct l2 as [|b l2]; [rewrite (cstr_nil _ _ H2)|apply cstr_cons in H2 as (-> & Hb & H2)]); simpl in *.
  - done.
  - by destruct b.
  - destruct (Z.eqb_spec a 0); [lia|]. simpl. by rewrite Z.sub_0_r.
  - destruct (Z.eqb_spec a 0); [lia|]. destruct (Z.eqb_spec a b) as [->|]; simpl; [|done]. by apply IH.
Qed.

(** [l] without its terminator copied to [s]: what both bounded copies do. *)
Lemma bytes_at_same m m' l : forall a,
  bytes_at m a l -> (forall x, a <= x < a + Z.of_nat (length l) -> m' x = m x) -> bytes_at m' a l.
Proof.
  induction l as [|c l IH]; intros a; simpl; [done|]. intros [<- Hl] Hs. split; [apply Hs; lia|].
  apply (IH (a + 1)); [done|]. intros x Hx. apply Hs. lia.
Qed.

Lemma cstr_same m m' a l :
  cstr m a l -> (forall x, a <= x <= a + Z.of_nat (length l) -> m' x = m x) -> cstr m' a l.
Proof.
  intros [Hb Hc] Hs. split; [|done]. eapply bytes_at_same; [done|]. intros x Hx. apply Hs.
  rewrite length_app in Hx. simpl in Hx. lia.
Qed.

Lemma safestrcpy_loop_Ok k : forall s t l m, mem_ok m -> cstr m t l ->
  (t + Z.of_nat (length l) < s \/ s + Z.of_nat k <= t) ->
  exists m' s', safestrcpy_loop s t k m = Ok s' m' /\ bytes_at m' s (take k l) /\ mem_ok m' /\
    same_outside s (Z.of_nat k) m m' /\ s + Z.of_nat (length (take k l)) <= s' <= s + Z.of_nat k /\
    (s' <> s + Z.of_nat (length (take k l)) -> m' (s + Z.of_nat (length (take k l))) = 0).
Proof.
  induction k as [|k IH]; intros s t l m Hm Hl Hd.
  - exists m, s. split_and!; try done; simpl; lia.
  - simpl. unfold load, store. rewrite bind_gets, bind_modify. rewrite (u8_byte (m t)) by apply Hm.
    destruct l as [|c l].
    + rewrite (cstr_nil _ _ Hl). simpl. eexists _, _. split; [reflexivity|]. split_and!; [done| | | | |].
      * change 0 with (u8 0). auto with kernel.
      * intros x Hx. mem_simpl.
      * simpl. lia.
      * simpl. lia.
      * intros _. simpl. rewrite Z.add_0_r. apply upd_eq.
    + apply cstr_cons in Hl as (Hc & Hco & Hl). unfold char_ok in Hco. simpl in Hd. rewrite Hc.
      destruct (Z.eqb_spec c 0); [lia|].
      destruct (IH (s + 1) (t + 1) l (upd m s c)) as (m' & s' & Hrun & Hb & Hm' & Ho & Hs' & Hz); [| |lia|].
      * rewrite <- (u8_byte c) by (unfold byte; lia). auto with kernel.
      * eapply cstr_same; [exact Hl|]. intros x Hx. apply upd_ne. lia.
      * exists m', s'. split; [exact Hrun|]. simpl. split_and!; [| |done| | |lia| ].
        -- rewrite Ho by lia. apply upd_eq.
        -- exact Hb.
        -- intros x Hx. rewrite Ho by lia. apply upd_ne. lia.
        -- lia.
        -- intros Hne. replace (s + Z.of_nat (S (length (take k l)))) with (s + 1 + Z.of_nat (length (take k l))) by lia.
           apply Hz. lia.
Qed.

Lemma bytes_at_app m l1 : forall a l2,
  bytes_at m a (l1 ++ l2) <-> bytes_at m a l1 /\ bytes_at m (a + Z.of_nat (length l1)) l2.
Proof.
  induction l1 as [|c l1 IH]; intros a l2; simpl.
  - rewrite Z.add_0_r. tauto.
  - rewrite IH. replace (a + 1 + Z.of_nat (length l1)) with (a + Z.of_nat (S (length l1))) by lia. tauto.
Qed.

(** ** Theorems *)

(** The kernel's [memmove] copies [n] bytes from where they were before the
    call, whether the two areas overlap or not and in either direction, and
    changes nothing else. *)
Theorem memmove_overlap dst src n m :
  mem_ok m -> 0 <= n ->
  exists m', memmove dst src n m = Ok dst m' /\
    (forall i, 0 <= i < n -> m' (dst + i) = m (src + i)) /\ same_outside dst n m m'.
Proof. intros Hm Hn. destruct (memmove_Ok dst src n m Hm Hn) as (m' & Hr & [Hc Ho] & _). by exists m'. Qed.

(** Bytes 0, 1, 2, ... at the addresses from 0 on. *)
Definition ramp : mem := fun a => u8 a.
Lemma ramp_ok : mem_ok ramp.
Proof. intros a. apply byte_u8. Qed.

Lemma memmove_overlap_witness :
  exists m', memmove 2 0 5 ramp = Ok 2 m' /\
    (forall i, 0 <= i < 5 -> m' (2 + i) = ramp (0 + i)) /\ same_outside 2 5 ramp m'.
Proof. exact (memmove_overlap 2 0 5 ramp ramp_ok ltac:(discriminate)). Defined.

(** The user library's [memmove] always copies upwards: when the target
    starts inside the source it spreads the first bytes instead of moving the
    area. *)
Theorem umemmove_spreads :
  exists m', umemmove 2 0 5 ramp = Ok 2 m' /\ map m' [2; 3; 4; 5; 6] = [0; 1; 0; 1; 0] /\
    map ramp [0; 1; 2; 3; 4] = [0; 1; 2; 3; 4].
Proof. eexists. split; [reflexivity|]. by vm_compute. Qed.

(** [strcmp] and [strncmp] order strings as a dictionary does, over unsigned
    bytes: the result is 0 for equal strings only, negative exactly when the
    first comes earlier; [strncmp] does the same for the first [n] characters,
    also when the strings end before. *)
Theorem string_compare m p q l1 l2 fuel n :
  cstr m p l1 -> cstr m q l2 -> (length l1 < fuel)%nat ->
  (exists d, strcmp fuel p q m = Ok d m /\ (d = 0 <-> l1 = l2) /\ (d < 0 <-> lex_lt l1 l2)) /\
  (exists d, strncmp p q n m = Ok d m /\ (d = 0 <-> take n l1 = take n l2) /\
     (d < 0 <-> lex_lt (take n l1) (take n l2))).
Proof.
  intros H1 H2 Hf. split; eexists; (split; [by first [apply strcmp_Ok|apply strncmp_Ok]|]); apply str_diff_spec;
    first [apply H1|apply H2|apply Forall_take, H1|apply Forall_take, H2].
Qed.

(** "ab" at 10 and "abc" at 20. *)
Definition two_strings : mem := fun a =>
  if a =? 10 then 97 else if a =? 11 then 98 else
  if a =? 20 then 97 else if a =? 21 then 98 else if a =? 22 then 99 else 0.
Lemma string_compare_witness :
  (exists d, strcmp 9 10 20 two_strings = Ok d two_strings /\ (d = 0 <-> [97; 98] = [97; 98; 99]) /\
     (d < 0 <-> lex_lt [97; 98] [97; 98; 99])) /\
  (exists d, strncmp 10 20 2 two_strings = Ok d two_strings /\ (d = 0 <-> [97; 98] = [97; 98]) /\
     (d < 0 <-> lex_lt [97; 98] [97; 98])).
Proof.
  refine (string_compare two_strings 10 20 [97; 98] [97; 98; 99] 9 2 _ _ _).
  - split; [by vm_compute|]. by repeat constructor.
  - split; [by vm_compute|]. by repeat constructor.
  - simpl. lia.
Defined.

(** [safestrcpy] leaves a terminated string, the first [n - 1] characters of
    the source, whatever its length, and writes to no byte outside the [n]
    bytes of the target. *)
Theorem safestrcpy_terminates m s t n l :
  mem_ok m -> cstr m t l -> 0 < n -> (t + Z.of_nat (length l) < s \/ s + n <= t) ->
  exists m', safestrcpy s t n m = Ok s m' /\ cstr m' s (take (Z.to_nat (n - 1)) l) /\ same_outside s n m m'.
Proof.
  intros Hm Hl Hn Hd. unfold safestrcpy. destruct (Z.leb_spec n 0); [lia|].
  destruct (safestrcpy_loop_Ok (Z.to_nat (n - 1)) s t l m Hm Hl ltac:(lia)) as (m' & s' & Hrun & Hb & Hm' & Ho & Hs' & Hz).
  exists (upd m' s' 0). split; [by erewrite bind_Ok by exact Hrun|]. set (l' := take _ l) in *. rewrite Z2Nat.id in Ho, Hs' by lia.
  split; [split|].
  - apply bytes_at_app. split.
    + eapply bytes_at_same; [done|]. intros x Hx. apply upd_ne. lia.
    + split; [|done]. unfold upd. destruct (Z.eqb_spec (s + Z.of_nat (length l')) s') as [|Hne]; [done|]. apply Hz. lia.
  - apply Forall_take, Hl.
  - intros x Hx. rewrite upd_ne by lia. apply Ho. lia.
Qed.

Lemma two_strings_ok : mem_ok two_strings.
Proof. intros a. unfold two_strings, byte. by repeat (destruct (_ =? _); [lia|]). Qed.
Lemma safestrcpy_terminates_witness :
  exists m', safestrcpy 40 20 3 two_strings = Ok 40 m' /\ cstr m' 40 [97; 98] /\ same_outside 40 3 two_strings m'.
Proof.
  refine (safestrcpy_terminates two_strings 40 20 3 [97; 98; 99] two_strings_ok _ _ _).
  - split; [by vm_compute|]. by repeat constructor.
  - lia.
  - left. simpl. lia.
Defined.
