(* ===== verification/Printf.v ===== *)
(** * Formatted output: printf.c

    [putc] appends to the stream of a file descriptor.  [printf] takes its
    variable arguments as a list of words and reads strings from memory. *)

From stdpp Require Import base list strings.
From Stdlib Require Import ZArith Lia.
From Stdlib Require String Ascii.
From S2P Require Import Prelude CString.
Local Open Scope Z_scope.

(** What has been written, the descriptor with each byte. *)
Definition output : Type := list (Z * Z).

Definition putc (fd c : Z) : M output unit := modify (fun o => o ++ [(fd, u8 c)]).

(** The bytes of a string constant. *)
Definition chars (s : string) : list Z := (fun a => Z.of_N (Ascii.N_of_ascii a)) <$> String.list_ascii_of_string s.

Definition upper_digits : list Z := chars "0123456789ABCDEF".
Definition lower_digits : list Z := chars "0123456789abcdef".

(** A write to [buf[16]]. *)
Definition set_buf {S : Type} (buf : list Z) (i : nat) (c : Z) : M S (list Z) :=
  if (i <? 16)%nat then ret (<[i := c]> buf) else fault.

(** [do buf[i++] = digits[x % base]; while((x /= base) != 0)] *)
Fixpoint digit_loop {S : Type} (fuel : nat) (digits : list Z) (x base : Z) (buf : list Z) (i : nat) :
    M S (list Z * nat) :=
  match fuel with
  | O => nofuel
  | Datatypes.S f =>
      let! d := deref (digits !! Z.to_nat (x mod base)) in
      let! buf := set_buf buf i d in
      let x := x / base in
      if x =? 0 then ret (buf, Datatypes.S i) else digit_loop f digits x base buf (Datatypes.S i)
  end.

(** [while(--i >= 0) putc(buf[i])] *)
Fixpoint put_reverse {S : Type} (put : Z -> M S unit) (buf : list Z) (i : nat) : M S unit :=
  match i with
  | O => ret tt
  | Datatypes.S k => let! c := deref (buf !! k) in put c ;;; put_reverse put buf k
  end.

Definition printint (fd xx base : Z) (sgn : bool) : M output unit :=
  let neg := sgn && (xx <? 0) in
  let x := if neg then u32 (- xx) else u32 xx in
  let! r := digit_loop 33 upper_digits x base (replicate 16 0) 0 in
  let! b := (if neg then let! b := set_buf r.1 r.2 45 in ret (b, S r.2) else ret r) in
  put_reverse (putc fd) b.1 b.2.

Fixpoint puts (fuel : nat) (fd : Z) (m : mem) (s : Z) : M output unit :=
  match fuel with
  | O => nofuel
  | S f => if m s =? 0 then ret tt else putc fd (m s) ;;; puts f fd m (s + 1)
  end.

Fixpoint put_all {S : Type} (put : Z -> M S unit) (l : list Z) : M S unit :=
  match l with [] => ret tt | c :: l' => put c ;;; put_all put l' end.

(** [i] runs over the format; [pct] says that the state is ['%']. *)
Fixpoint printf_loop (fuel : nat) (m : mem) (fd fmt : Z) (pct : bool) (ap : list Z) : M output unit :=
  match fuel with
  | O => nofuel
  | S f =>
      let c := m fmt in
      if c =? 0 then ret tt else
      if negb pct then
        if c =? 37 then printf_loop f m fd (fmt + 1) true ap
        else putc fd c ;;; printf_loop f m fd (fmt + 1) false ap
      else if c =? 100 then
        let! a := deref (head ap) in
        printint fd (s32 a) 10 true ;;; printf_loop f m fd (fmt + 1) false (tail ap)
      else if (c =? 120) || (c =? 112) then
        let! a := deref (head ap) in
        printint fd (s32 a) 16 false ;;; printf_loop f m fd (fmt + 1) false (tail ap)
      else if c =? 115 then
        let! s := deref (head ap) in
        (if s =? 0 then put_all (putc fd) (chars "(null)") else puts f fd m s) ;;;
        printf_loop f m fd (fmt + 1) false (tail ap)
      else if c =? 99 then
        let! a := deref (head ap) in
        putc fd a ;;; printf_loop f m fd (fmt + 1) false (tail ap)
      else if c =? 37 then putc fd c ;;; printf_loop f m fd (fmt + 1) false ap
      else putc fd 37 ;;; putc fd c ;;; printf_loop f m fd (fmt + 1) false ap
  end.
Definition printf (fuel : nat) (m : mem) (fd fmt : Z) (args : list Z) : M output unit :=
  printf_loop fuel m fd fmt false args.

(** ** What [printint] prints *)

(** The digits of [x], least significant first. *)
Fixpoint lsd (k : nat) (x base : Z) : list Z :=
  match k with
  | O => []
  | S k' => x mod base :: (if x / base =? 0 then [] else lsd k' (x / base) base)
  end.

Definition digit_char (digits : list Z) (d : Z) : Z := default 0 (digits !! Z.to_nat d).

Lemma digit_loop_Ok {S} k : forall fuel digits x base buf i (s : S),
  length digits = 16%nat -> length buf = 16%nat -> 2 <= base <= 16 -> 0 <= x < base ^ Z.of_nat k ->
  (0 < k <= fuel)%nat -> (i + k <= 16)%nat ->
  exists buf', length buf' = 16%nat /\
    digit_loop fuel digits x base buf i s = Ok (buf', (i + length (lsd k x base))%nat) s /\
    take (i + length (lsd k x base)) buf' = take i buf ++ (digit_char digits <$> lsd k x base).
Proof.
  induction k as [|k IH]; intros fuel digits x base buf i s Hd Hb Hbase Hx Hk Hi; [lia|].
  destruct fuel as [|f]; [lia|]. simpl.
  pose proof (Z.mod_pos_bound x base ltac:(lia)) as Hm.
  destruct (lookup_lt_is_Some_2 digits (Z.to_nat (x mod base))) as [c Hc]; [lia|].
  erewrite deref_Some by exact Hc. unfold set_buf. destruct (Nat.ltb_spec i 16); [|lia]. rewrite bind_ret.
  assert (digit_char digits (x mod base) = c) as Hdc by (unfold digit_char; by rewrite Hc).
  assert (take (Datatypes.S i) (<[i := c]> buf) = take i buf ++ [c]) as Htake.
  { rewrite (take_S_r _ i c) by (apply list_lookup_insert_eq; lia). by rewrite take_insert_ge by lia. }
  destruct (Z.eqb_spec (x / base) 0) as [E|E]; simpl.
  - exists (<[i := c]> buf). rewrite length_insert. split_and!; [done|by rewrite Nat.add_1_r|].
    by rewrite Nat.add_1_r, Htake, Hdc.
  - assert (0 < x / base < base ^ Z.of_nat k) as Hx'.
    { pose proof (Z.div_pos x base). split; [lia|]. apply Z.div_lt_upper_bound; [lia|].
      rewrite Nat2Z.inj_succ, Z.pow_succ_r in Hx by lia. lia. }
    assert (0 < k)%nat. { destruct k; [|lia]. simpl in Hx'. lia. }
    destruct (IH f digits (x / base) base (<[i := c]> buf) (Datatypes.S i) s) as (buf' & Hl' & Hrun & Ht);
      [done|by rewrite length_insert|done|lia|lia|lia|].
    exists buf'. split; [done|]. rewrite Nat.add_succ_r. split; [exact Hrun|].
    rewrite <- Nat.add_succ_l, Ht, Htake, Hdc. by rewrite <- (assoc_L (++)).
Qed.

Lemma put_reverse_Ok fd buf : forall i o, (i <= length buf)%nat ->
  put_reverse (putc fd) buf i o = Ok tt (o ++ ((fun c => (fd, u8 c)) <$> reverse (take i buf))).
Proof.
  induction i as [|i IH]; intros o Hi; simpl.
  - by rewrite app_nil_r.
  - destruct (lookup_lt_is_Some_2 buf i) as [c Hc]; [lia|]. erewrite deref_Some by exact Hc.
    unfold putc at 1. rewrite bind_modify, IH by lia. rewrite (take_S_r _ _ _ Hc), reverse_app. csimpl.
    by rewrite <- (assoc_L (++)).
Qed.

(** The value of decimal digits, most significant first. *)
Definition value (base : Z) (l : list Z) : Z := foldl (fun n d => n * base + d) 0 l.

Lemma value_snoc base l d : value base (l ++ [d]) = value base l * base + d.
Proof. unfold value. by rewrite foldl_app. Qed.

Lemma value_lsd base k : forall x, 2 <= base -> 0 <= x < base ^ Z.of_nat k -> value base (reverse (lsd k x base)) = x.
Proof.
  induction k as [|k IH]; intros x Hb Hx; simpl.
  - unfold value. simpl in *. lia.
  - rewrite reverse_cons, value_snoc. pose proof (Z.div_mod x base ltac:(lia)).
    destruct (Z.eqb_spec (x / base) 0) as [E|E]; [unfold value; simpl; lia|]. rewrite IH; [lia|done|].
    rewrite Nat2Z.inj_succ, Z.pow_succ_r in Hx by lia. pose proof (Z.div_pos x base). split; [lia|].
    apply Z.div_lt_upper_bound; lia.
Qed.

Lemma lsd_range base k : 0 < base -> forall x, Forall (fun d => 0 <= d < base) (lsd k x base).
Proof.
  intros Hb. induction k as [|k IH]; intros x; simpl; constructor; [apply Z.mod_pos_bound; lia|].
  by destruct (_ =? 0).
Qed.

Lemma lsd_length base k x : (length (lsd k x base) <= k)%nat.
Proof. revert x. induction k as [|k IH]; intros x; simpl; [lia|]. destruct (_ =? 0); simpl; [lia|]. specialize (IH (x / base)). lia. Qed.

Lemma s32_mul_add n c : s32 (s32 n * 10 + c) = s32 (n * 10 + c).
Proof.
  unfold s32. f_equal. pose proof (Z.div_mod (n + 2 ^ 31) (2 ^ 32) ltac:(lia)) as H.
  replace (((n + 2 ^ 31) mod 2 ^ 32 - 2 ^ 31) * 10 + c + 2 ^ 31)
    with (n * 10 + c + 2 ^ 31 + (- (10 * ((n + 2 ^ 31) / 2 ^ 32))) * 2 ^ 32) by lia.
  apply Z.mod_add. lia.
Qed.

(** [atoi] on a string of decimal digits. *)
Lemma atoi_digits fuel : forall m a ds n, cstr m a ((fun d => d + 48) <$> ds) ->
  Forall (fun d => 0 <= d < 10) ds -> (length ds < fuel)%nat ->
  atoi_loop fuel a (s32 n) m = Ok (s32 (foldl (fun n d => n * 10 + d) n ds)) m.
Proof.
  induction fuel as [|f IH]; intros m a ds n Hs Hds Hf; [lia|]. simpl. unfold load. rewrite bind_gets.
  destruct ds as [|d ds]; csimpl in *.
  - by rewrite (cstr_nil _ _ Hs).
  - apply cstr_cons in Hs as (-> & _ & Hs). apply Forall_cons in Hds as [Hd Hds].
    destruct (Z.leb_spec 48 (d + 48)); [|lia]. destruct (Z.leb_spec (d + 48) 57); [|lia]. simpl.
    replace (s32 n * 10 + (d + 48) - 48) with (s32 n * 10 + d) by lia. rewrite s32_mul_add. apply IH; first [done|lia].
Qed.

Lemma upper_digit d : 0 <= d < 10 -> digit_char upper_digits d = d + 48.
Proof.
  intros H. assert (d = 0 \/ d = 1 \/ d = 2 \/ d = 3 \/ d = 4 \/ d = 5 \/ d = 6 \/ d = 7 \/ d = 8 \/ d = 9) as Hd by lia.
  by repeat (destruct Hd as [->|Hd]; [reflexivity|]); subst.
Qed.

Definition on_fd (fd : Z) (l : list Z) : output := (fun c => (fd, u8 c)) <$> l.

Lemma printint_Ok fd xx base sgn k o :
  2 <= base <= 16 -> 2 ^ 32 <= base ^ Z.of_nat k -> (0 < k <= 15)%nat ->
  let neg := sgn && (xx <? 0) in
  let x := if neg then u32 (- xx) else u32 xx in
  printint fd xx base sgn o =
    Ok tt (o ++ on_fd fd ((if neg then [45] else []) ++ reverse (digit_char upper_digits <$> lsd k x base))).
Proof.
  intros Hb Hk Hk' neg x.
  assert (0 <= x < base ^ Z.of_nat k) as Hx.
  { unfold x. pose proof (u32_range (- xx)) as H1. pose proof (u32_range xx) as H2. unfold uint32 in H1, H2.
    destruct neg; lia. }
  destruct (digit_loop_Ok k 33 upper_digits x base (replicate 16 0) 0 o) as (buf & Hl & Hrun & Ht);
    [done|done|done|done|lia|lia|].
  rewrite Nat.add_0_l in Hrun, Ht. rewrite take_0, app_nil_l in Ht.
  unfold printint. fold neg x. erewrite bind_Ok by exact Hrun. cbn [fst snd].
  pose proof (lsd_length base k x) as Hlen. set (n := length (lsd k x base)) in *.
  destruct neg.
  - unfold set_buf. destruct (Nat.ltb_spec n 16); [|lia]. steps. cbn [fst snd].
    assert (take (S n) (<[n := 45]> buf) = (digit_char upper_digits <$> lsd k x base) ++ [45]) as Htn.
    { rewrite (take_S_r _ n 45) by (apply list_lookup_insert_eq; lia). by rewrite take_insert_ge, Ht by lia. }
    rewrite put_reverse_Ok by (rewrite length_insert; lia). by rewrite Htn, reverse_app.
  - rewrite bind_ret. cbn [fst snd]. rewrite put_reverse_Ok by lia. by rewrite Ht.
Qed.

(** Printing and parsing agree.  For every 32-bit [xx], [printint(fd, xx, 10,
    1)] writes an optional minus sign and at most ten decimal digits, within
    its buffer of 16, and [atoi] on those digits gives the absolute value back
    (the wrapped one for the least integer, whose absolute value an [int]
    cannot hold). *)
Theorem printint_atoi fd xx o :
  int32 xx ->
  exists ds, Forall (fun d => 0 <= d < 10) ds /\ (0 < length ds <= 10)%nat /\
    printint fd xx 10 true o = Ok tt (o ++ on_fd fd ((if xx <? 0 then [45] else []) ++ ((fun d => d + 48) <$> ds))) /\
    forall m a fuel, cstr m a ((fun d => d + 48) <$> ds) -> (length ds < fuel)%nat ->
      atoi fuel a m = Ok (s32 (Z.abs xx)) m.
Proof.
  intros Hxx. pose proof (printint_Ok fd xx 10 true 10 o ltac:(lia) ltac:(lia) ltac:(lia)) as Hp. cbn [andb] in Hp.
  set (x := if xx <? 0 then u32 (- xx) else u32 xx) in *.
  assert (x = Z.abs xx) as Hx.
  { unfold x, int32 in *. destruct (Z.ltb_spec xx 0); rewrite u32_id; unfold uint32; lia. }
  exists (reverse (lsd 10 x 10)).
  assert (Forall (fun d => 0 <= d < 10) (reverse (lsd 10 x 10))) as Hds by (apply Forall_reverse, lsd_range; lia).
  assert (0 <= x < 10 ^ Z.of_nat 10) as Hr by (unfold int32 in Hxx; simpl; lia).
  split_and!; [done| | | |].
  - rewrite length_reverse. simpl. lia.
  - rewrite length_reverse. apply lsd_length.
  - rewrite Hp. do 4 f_equal. rewrite <- fmap_reverse. apply list_fmap_ext. intros i d Hd. apply upper_digit.
    by apply (Forall_lookup_1 _ _ _ _ Hds Hd).
  - intros m a fuel Hs Hf. pose proof (atoi_digits fuel m a _ 0 Hs Hds Hf) as Ha. change (s32 0) with 0 in Ha.
    fold (value 10 (reverse (lsd 10 x 10))) in Ha. rewrite value_lsd in Ha by first [lia|done]. by rewrite Hx in Ha.
Qed.

Lemma printint_atoi_witness :
  exists ds, Forall (fun d => 0 <= d < 10) ds /\ (0 < length ds <= 10)%nat /\
    printint 1 (-307) 10 true [] = Ok tt ([] ++ on_fd 1 ((if -307 <? 0 then [45] else []) ++ ((fun d => d + 48) <$> ds))) /\
    forall m a fuel, cstr m a ((fun d => d + 48) <$> ds) -> (length ds < fuel)%nat ->
      atoi fuel a m = Ok (s32 (Z.abs (-307))) m.
Proof. refine (printint_atoi 1 (-307) [] _). unfold int32. lia. Defined.
