(* ===== verification/Sync.v ===== *)
(** * Locks as an interface

    What the components with a lock of their own rely on: a free lock can be
    acquired, and a held one released.  [Spinlock] implements it, from the
    point of view of the code one CPU executes. *)

From stdpp Require Import base list strings.
From Stdlib Require Import ZArith Lia.
From S2P Require Import Prelude Spinlock.

Class Lock (L : Type) := {
  lk_acquire : M L unit;
  lk_release : M L unit;
  lk_free : L -> Prop;
  lk_held : L -> Prop;
  lk_acquire_ok l : lk_free l -> exists l', lk_acquire l = Ok tt l' /\ lk_held l';
  lk_release_ok l : lk_held l -> exists l', lk_release l = Ok tt l' /\ lk_free l'
}.

(** The lock and the CPUs; the nesting of [pushcli] stays far below overflow. *)
Definition spin_free (x : machine * spinlock) : Prop :=
  exists i c, on_cpu x.1 i c /\ cpu_wf c /\ (ncli c + 4 < 2 ^ 30)%Z /\ locked x.2 = false.
Definition spin_held (x : machine * spinlock) : Prop :=
  exists i c, on_cpu x.1 i c /\ cpu_wf c /\ (0 < ncli c)%Z /\ (ncli c + 3 < 2 ^ 30)%Z /\
    locked x.2 = true /\ lcpu x.2 = Some i.

Lemma spin_acquire_ok x : spin_free x -> exists x', acquire x = Ok tt x' /\ spin_held x'.
Proof.
  destruct x as [h lk]. intros (i & c & Hon & Hwf & Hn & Hl). simpl in *. eexists. split.
  - apply (acquire_Ok h lk i c); [done|done|lia|done].
  - exists i, (pushed c). simpl. pose proof Hwf as [? _].
    split_and!; [by apply (on_cpu_set _ _ _ _ Hon)|apply pushed_wf; [done|lia]|lia..|done|done].
Qed.

Lemma spin_release_ok x : spin_held x -> exists x', release x = Ok tt x' /\ spin_free x'.
Proof.
  destruct x as [h lk]. intros (i & c & Hon & Hwf & H0 & Hn & Hl & Hc). simpl in *. eexists. split.
  - apply (release_Ok h lk i c); [done|done|lia..|done|done].
  - exists i, (popped c). simpl. split_and!; [by apply (on_cpu_set _ _ _ _ Hon)|by apply popped_wf|lia|done].
Qed.

#[export] Instance spin_lock : Lock (machine * spinlock) := {|
  lk_acquire := acquire;
  lk_release := release;
  lk_free := spin_free;
  lk_held := spin_held;
  lk_acquire_ok := spin_acquire_ok;
  lk_release_ok := spin_release_ok
|}.

(** One CPU and a lock. *)
Definition demo_lock_state (n : string) : machine * spinlock :=
  (mkMachine [mkCpu 0 InPriority 1 0 false None false] 0 (fun _ => 0%Z) 0, mkSpinlock false n None (replicate 10 0%Z)).
Lemma demo_lock_free n : lk_free (demo_lock_state n).
Proof. eexists 0, _. split_and!; [split; reflexivity|split; simpl; [lia|done]|simpl; lia|done]. Qed.

(** ** Several locks

    [lk_owned hs l]: the executing CPU holds exactly the locks [hs], and the
    others are free. *)
Class Locks (L : Type) := {
  lk_count : nat;
  lock_n : nat -> M L unit;
  unlock_n : nat -> M L unit;
  lk_owned : list nat -> L -> Prop;
  lock_n_ok n hs l : lk_owned hs l -> n < lk_count -> n ∉ hs ->
    exists l', lock_n n l = Ok tt l' /\ lk_owned (n :: hs) l';
  unlock_n_ok n hs l : lk_owned (n :: hs) l -> exists l', unlock_n n l = Ok tt l' /\ lk_owned hs l'
}.

(** Spin locks of one machine. *)
Definition on_nth {A : Type} (n : nat) (m : M (machine * spinlock) A) : M (machine * list spinlock) A :=
  fun s =>
    match s.2 !! n with
    | Some lk => zoom (fun s => (s.1, lk)) (fun x s => (x.1, <[n := x.2]> s.2)) m s
    | None => Fault
    end.

Record spin_owned (count : nat) (hs : list nat) (s : machine * list spinlock) : Prop := {
  so_count : length s.2 = count;
  so_free : forall n lk, s.2 !! n = Some lk -> n ∉ hs -> locked lk = false;
  so_cpu : exists i c, on_cpu s.1 i c /\ cpu_wf c /\ (Z.of_nat (length hs) <= ncli c)%Z /\
    (ncli c - Z.of_nat (length hs) + Z.of_nat count + 4 < 2 ^ 30)%Z /\
    forall n, n ∈ hs -> exists lk, s.2 !! n = Some lk /\ locked lk = true /\ lcpu lk = Some i;
  so_nodup : NoDup hs;
  so_bound : forall n, n ∈ hs -> n < count
}.

Lemma spin_lock_n count n hs s : spin_owned count hs s -> n < count -> n ∉ hs ->
  exists s', on_nth n acquire s = Ok tt s' /\ spin_owned count (n :: hs) s'.
Proof.
  destruct s as [h lks]. intros [Hcnt Hfree (i & c & Hon & Hwf & Hlo & Hhi & Hh) Hnd Hb] Hn Hni. simpl in *.
  destruct (lookup_lt_is_Some_2 lks n) as [lk Hlk]; [lia|]. pose proof (Hfree _ _ Hlk Hni) as Hl.
  assert (length hs <= count) as Hle.
  { rewrite <- (length_seq count 0). apply submseteq_length, NoDup_submseteq; [done|]. intros k Hk.
    apply elem_of_seq. specialize (Hb _ Hk). lia. }
  eexists. split.
  { unfold on_nth. simpl. rewrite Hlk. apply zoom_Ok. simpl. apply (acquire_Ok h lk i c); [done|done|lia|done]. }
  simpl. split; simpl.
  - by rewrite length_insert.
  - intros k lk' Hk Hnk. rewrite list_lookup_insert_ne in Hk by (intros ->; apply Hnk; by left).
    eapply Hfree; [exact Hk|]. intros Hin. apply Hnk. by right.
  - exists i, (pushed c). pose proof Hwf as [? _]. simpl.
    split_and!; [by apply (on_cpu_set _ _ _ _ Hon)|apply pushed_wf; [done|lia]|lia|lia|].
    intros k [->|Hk]%elem_of_cons.
    + eexists. split; [apply list_lookup_insert_eq; lia|done].
    + destruct (Hh _ Hk) as (lk' & ? & ?). exists lk'. rewrite list_lookup_insert_ne by (by intros ->). done.
  - by constructor.
  - intros k [->|Hk]%elem_of_cons; [done|by apply Hb].
Qed.

Lemma spin_unlock_n count n hs s : spin_owned count (n :: hs) s ->
  exists s', on_nth n release s = Ok tt s' /\ spin_owned count hs s'.
Proof.
  destruct s as [h lks]. intros [Hcnt Hfree (i & c & Hon & Hwf & Hlo & Hhi & Hh) Hnd Hb]. simpl in *.
  apply NoDup_cons in Hnd as [Hni Hnd]. destruct (Hh n) as (lk & Hlk & Hl & Hc); [by left|].
  assert (n < count) as Hn by (apply Hb; by left).
  assert (length hs <= count) as Hle.
  { rewrite <- (length_seq count 0). apply submseteq_length, NoDup_submseteq; [done|]. intros k Hk.
    apply elem_of_seq. specialize (Hb k ltac:(by right)). lia. }
  eexists. split.
  { unfold on_nth. simpl. rewrite Hlk. apply zoom_Ok. simpl. apply (release_Ok h lk i c); [done|done|lia|lia|done|done]. }
  simpl. split; simpl.
  - by rewrite length_insert.
  - intros k lk' Hk Hnk. destruct (decide (k = n)) as [->|Hne].
    + rewrite list_lookup_insert_eq in Hk by lia. by simplify_eq.
    + rewrite list_lookup_insert_ne in Hk by done. eapply Hfree; [exact Hk|]. by intros [->|?]%elem_of_cons.
  - exists i, (popped c). simpl. split_and!; [by apply (on_cpu_set _ _ _ _ Hon)|apply popped_wf; [done|lia]|lia|lia|].
    intros k Hk. destruct (Hh k) as (lk' & ? & ?); [by right|]. exists lk'.
    rewrite list_lookup_insert_ne by (by intros ->). done.
  - done.
  - intros k Hk. apply Hb. by right.
Qed.

Definition spin_locks (count : nat) : Locks (machine * list spinlock) := {|
  lk_count := count;
  lock_n := fun n => on_nth n acquire;
  unlock_n := fun n => on_nth n release;
  lk_owned := spin_owned count;
  lock_n_ok := spin_lock_n count;
  unlock_n_ok := spin_unlock_n count
|}.

Definition demo_locks (count : nat) : machine * list spinlock :=
  ((demo_lock_state "").1, replicate count (demo_lock_state "").2).
Lemma demo_locks_owned count : (Z.of_nat count < 2 ^ 20)%Z -> spin_owned count [] (demo_locks count).
Proof.
  intros Hc. split; simpl.
  - by rewrite length_replicate.
  - intros n lk [-> _]%lookup_replicate _. done.
  - eexists 0, _. split_and!; [split; reflexivity|split; simpl; [lia|done]|simpl; lia|simpl; lia|].
    intros n []%not_elem_of_nil.
  - constructor.
  - intros n []%not_elem_of_nil.
Qed.
