(* ===== verification/Kalloc.v ===== *)
(** * The physical page allocator: kalloc.c

    The free list is threaded through the pages themselves, in memory.  It
    refines a stack of distinct pages, as long as callers free pages they were
    given and do not write to free ones. *)

From stdpp Require Import base list strings.
From Stdlib Require Import ZArith Lia.
From S2P Require Import Prelude Spinlock CString Sync.
Local Open Scope Z_scope.

Definition PGSIZE : Z := 4096.
Definition PHYSTOP : Z := 0xE000000.
Definition V2P (a : Z) : Z := u32 (a - KERNBASE).
Definition PGROUNDUP (sz : Z) : Z := Z.land (u32 (sz + PGSIZE - 1)) (Z.lnot (PGSIZE - 1)).

Section Kalloc.
Context {L : Type} `{Lock L} (kend : Z).

Record kmem := mkKmem {
  k_lock : L;
  use_lock : bool;
  freelist : Z;
  k_mem : CString.mem
}.
Definition put_klock (x : L) (s : kmem) : kmem := mkKmem x (use_lock s) (freelist s) (k_mem s).
Definition put_use_lock (x : bool) (s : kmem) : kmem := mkKmem (k_lock s) x (freelist s) (k_mem s).
Definition put_freelist (x : Z) (s : kmem) : kmem := mkKmem (k_lock s) (use_lock s) x (k_mem s).
Definition put_kmem (x : CString.mem) (s : kmem) : kmem := mkKmem (k_lock s) (use_lock s) (freelist s) x.

Definition in_mem {A : Type} (m : M CString.mem A) : M kmem A := zoom k_mem put_kmem m.
Definition when_locking (m : M L unit) : M kmem unit :=
  let! u := gets use_lock in
  if (u : bool) then zoom k_lock put_klock m else ret tt.

Definition kfree (v : Z) : M kmem unit :=
  if negb (v mod PGSIZE =? 0) || (v <? kend) || (PHYSTOP <=? V2P v) then panic "kfree" else
  in_mem (memset v 1 PGSIZE) ;;;
  when_locking lk_acquire ;;;
  let! fl := gets freelist in
  in_mem (store4 v fl) ;;;
  modify (put_freelist v) ;;;
  when_locking lk_release.

Definition kalloc : M kmem Z :=
  when_locking lk_acquire ;;;
  let! r := gets freelist in
  (if r =? 0 then ret tt
   else let! n := in_mem (load4 r) in modify (put_freelist n)) ;;;
  when_locking lk_release ;;;
  ret r.

(** [for(; p + PGSIZE <= vend; p += PGSIZE) kfree(p)] *)
Fixpoint freerange_loop (fuel : nat) (p vend : Z) : M kmem unit :=
  match fuel with
  | O => nofuel
  | S f => if p + PGSIZE <=? vend then kfree p ;;; freerange_loop f (p + PGSIZE) vend else ret tt
  end.
Definition freerange (vstart vend : Z) : M kmem unit :=
  freerange_loop (S (Z.to_nat (vend / PGSIZE))) (PGROUNDUP vstart) vend.

(** [initlock] has made the lock free. *)
Definition kinit1 (lk : L) (vstart vend : Z) : M kmem unit :=
  modify (put_klock lk) ;;;
  modify (put_use_lock false) ;;;
  freerange vstart vend.
Definition kinit2 (vstart vend : Z) : M kmem unit :=
  freerange vstart vend ;;;
  modify (put_use_lock true).

(** ** The free list *)

Fixpoint chain (m : CString.mem) (p : Z) (l : list Z) : Prop :=
  match l with [] => p = 0 | x :: l' => p = x /\ chain m (word_at m x) l' end.

Definition page_ok (v : Z) : Prop :=
  v mod PGSIZE = 0 /\ kend <= v /\ KERNBASE <= v /\ v < KERNBASE + PHYSTOP.

#[local] Instance page_ok_dec v : Decision (page_ok v).
Proof. unfold page_ok. apply _. Defined.

Record kinv (l : list Z) (s : kmem) : Prop := {
  kv_chain : chain (k_mem s) (freelist s) l;
  kv_nodup : NoDup l;
  kv_pages : Forall page_ok l;
  kv_mem : mem_ok (k_mem s);
  kv_lock : lk_free (k_lock s)
}.

(** Distinct pages do not overlap. *)
Lemma pages_apart u v x : u mod PGSIZE = 0 -> v mod PGSIZE = 0 -> u <> v ->
  u <= x < u + PGSIZE -> ~ (v <= x < v + PGSIZE).
Proof.
  unfold PGSIZE. intros Hu Hv Hne Hx Hx'. pose proof (Z.div_mod u 4096 ltac:(lia)).
  pose proof (Z.div_mod v 4096 ltac:(lia)). assert (u / 4096 = v / 4096) by lia. lia.
Qed.

Lemma page_chain_frame (m m' : CString.mem) l : forall p,
  chain m p l -> (forall v x, v ∈ l -> v <= x < v + 4 -> m' x = m x) -> chain m' p l.
Proof.
  induction l as [|v l IH]; intros p; simpl; [done|]. intros [-> Hc] Hs. split; [done|].
  assert (word_at m' v = word_at m v) as ->.
  { unfold word_at. rewrite !(Hs v) by (first [by left|lia]). done. }
  apply IH; [done|]. intros v' x Hv'. apply Hs. by right.
Qed.

Lemma word_store4 (m' : CString.mem) a v : 0 <= v < 2 ^ 32 -> m' a = u8 v -> m' (a + 1) = u8 (Z.shiftr v 8) ->
  m' (a + 2) = u8 (Z.shiftr v 16) -> m' (a + 3) = u8 (Z.shiftr v 24) -> word_at m' a = v.
Proof.
  intros Hv H0 H1 H2 H3. unfold word_at. rewrite H0, H1, H2, H3. unfold u8. rewrite !Z.shiftr_div_pow2 by lia.
  change (2 ^ 8) with 256. change (2 ^ 16) with 65536. change (2 ^ 24) with 16777216. change (2 ^ 32) with 4294967296 in Hv.
  Z.to_euclidean_division_equations. lia.
Qed.

(** The lock around a critical section: held if locking is on. *)
Definition guarded (u : bool) (l : L) : Prop := if u then lk_held l else lk_free l.

Lemma enter_Ok s : lk_free (k_lock s) ->
  exists l', when_locking lk_acquire s = Ok tt (put_klock l' s) /\ guarded (use_lock s) l'.
Proof.
  intros Hf. unfold when_locking, guarded. rewrite bind_gets. destruct (use_lock s) eqn:Hu.
  - destruct (lk_acquire_ok _ Hf) as (l' & Hr & Hl). exists l'. split; [|done]. unfold zoom. by rewrite Hr.
  - exists (k_lock s). split; [by destruct s|done].
Qed.

Lemma leave_Ok s : guarded (use_lock s) (k_lock s) ->
  exists l', when_locking lk_release s = Ok tt (put_klock l' s) /\ lk_free l'.
Proof.
  intros Hf. unfold when_locking, guarded in *. rewrite bind_gets. destruct (use_lock s) eqn:Hu.
  - destruct (lk_release_ok _ Hf) as (l' & Hr & Hl). exists l'. split; [|done]. unfold zoom. by rewrite Hr.
  - exists (k_lock s). split; [by destruct s|done].
Qed.

Context (Hend : 0 < kend).

Lemma kalloc_Ok l s : kinv l s ->
  exists s', kalloc s = Ok (default 0 (head l)) s' /\ kinv (tail l) s' /\ k_mem s' = k_mem s /\ use_lock s' = use_lock s.
Proof.
  intros [Hc Hnd Hp Hm Hf]. unfold kalloc. destruct (enter_Ok s Hf) as (l1 & Hr1 & Hg).
  erewrite bind_Ok by exact Hr1. rewrite bind_gets. simpl.
  destruct l as [|p l]; simpl in Hc; [rewrite Hc|destruct Hc as [Hfl Hc]; rewrite Hfl]; simpl.
  - rewrite bind_ret. destruct (leave_Ok (put_klock l1 s) Hg) as (l2 & Hr2 & Hf2).
    erewrite bind_Ok by exact Hr2. eexists. split; [reflexivity|]. split; [|done]. by split.
  - apply Forall_cons in Hp as [Hpp Hp]. apply NoDup_cons in Hnd as [_ Hnd].
    destruct (Z.eqb_spec p 0) as [->|_]; [unfold page_ok in Hpp; lia|].
    rewrite bind_assoc. erewrite bind_Ok by reflexivity. rewrite bind_modify.
    destruct (leave_Ok (put_freelist (word_at (k_mem s) p) (put_klock l1 s)) Hg) as (l2 & Hr2 & Hf2).
    erewrite bind_Ok by exact Hr2. eexists. split; [reflexivity|]. split; [|done]. by split.
Qed.

Lemma kfree_ok_arg v : uint32 v -> page_ok v <->
  negb (v mod PGSIZE =? 0) || (v <? kend) || (PHYSTOP <=? V2P v) = false.
Proof.
  unfold uint32, page_ok, V2P, u32, KERNBASE, PHYSTOP. intros Hv.
  rewrite !orb_false_iff, negb_false_iff, Z.eqb_eq, Z.ltb_ge, Z.leb_gt.
  assert (v < 2147483648 -> (v - 2147483648) mod 2 ^ 32 = v - 2147483648 + 2 ^ 32) as H1.
  { intros. rewrite <- (Z.mod_add _ 1) by lia. apply Z.mod_small. lia. }
  assert (2147483648 <= v -> (v - 2147483648) mod 2 ^ 32 = v - 2147483648) as H2.
  { intros. apply Z.mod_small. lia. }
  destruct (Z.le_gt_cases 2147483648 v) as [Hle|Hlt]; [rewrite H2 by done|rewrite H1 by done]; lia.
Qed.

Lemma kfree_Ok l s v : kinv l s -> page_ok v -> v ∉ l ->
  exists s', kfree v s = Ok tt s' /\ kinv (v :: l) s' /\ same_outside v PGSIZE (k_mem s) (k_mem s') /\
    use_lock s' = use_lock s.
Proof.
  intros [Hc Hnd Hp Hm Hf] Hv Hn. unfold kfree.
  assert (uint32 v) as Hu by (unfold page_ok, KERNBASE, PHYSTOP, uint32 in *; lia).
  rewrite (proj1 (kfree_ok_arg v Hu) Hv).
  destruct (memset_Ok v 1 PGSIZE (k_mem s) Hm ltac:(done)) as (m1 & Hr1 & [_ Ho1] & Hm1).
  erewrite bind_Ok by (apply zoom_Ok; exact Hr1).
  destruct (enter_Ok (put_kmem m1 s) Hf) as (l1 & Hr2 & Hg). erewrite bind_Ok by exact Hr2. rewrite bind_gets. simpl.
  destruct (store4_Ok v (freelist s) m1 Hm1) as (m2 & Hr3 & H0 & H1 & H2 & H3 & Ho2 & Hm2).
  erewrite bind_Ok by (apply zoom_Ok; exact Hr3). rewrite bind_modify. simpl.
  edestruct (leave_Ok (put_freelist v (put_kmem m2 (put_klock l1 (put_kmem m1 s))))) as (l2 & Hr4 & Hf2); [exact Hg|].
  eexists. split; [exact Hr4|].
  assert (0 <= freelist s < 2 ^ 32) as Hfl.
  { destruct l as [|p l]; simpl in Hc; [lia|]. destruct Hc as [-> _]. apply Forall_cons in Hp as [Hpp _].
    unfold page_ok, KERNBASE, PHYSTOP in Hpp. lia. }
  assert (same_outside v PGSIZE (k_mem s) m2) as Ho.
  { intros x Hx. rewrite Ho2 by (unfold PGSIZE in Hx; lia). by apply Ho1. }
  split_and!; [split|exact Ho|done]; simpl.
  - split; [done|]. rewrite (word_store4 m2 v (freelist s)) by done. eapply page_chain_frame; [exact Hc|].
    intros p x Hpl Hx. apply Ho. apply (pages_apart p v x); [|apply Hv| |unfold PGSIZE; lia].
    + by apply (Forall_forall _ _) with (1 := Hp) in Hpl as [? _].
    + by intros ->.
  - by constructor.
  - by constructor.
  - done.
  - done.
Qed.

Lemma kfree_panics s v : uint32 v -> ~ page_ok v -> kfree v s = Panic "kfree".
Proof.
  intros Hu Hv. unfold kfree. destruct (_ || _) eqn:E; [done|]. destruct Hv. by apply kfree_ok_arg.
Qed.

(** ** Sequences of calls *)

(** What callers do: allocate, free, and write a byte. *)
Inductive kop := KAlloc | KFree (v : Z) | KWrite (a b : Z).

Definition run_kop (o : kop) : M kmem Z :=
  match o with
  | KAlloc => kalloc
  | KFree v => kfree v ;;; ret 0
  | KWrite a b => in_mem (store a b) ;;; ret 0
  end.
Fixpoint run_kops (os : list kop) : M kmem (list Z) :=
  match os with
  | [] => ret []
  | o :: os' => let! r := run_kop o in let! rs := run_kops os' in ret (r :: rs)
  end.

(** The specification: a stack of free pages.  Freeing a page that is free, or
    writing into one, is outside it. *)
Definition in_pages (a : Z) (l : list Z) : bool := existsb (fun v => (v <=? a) && (a <? v + PGSIZE)) l.
Definition abs_kop (o : kop) (l : list Z) : option (Z * list Z) :=
  match o with
  | KAlloc => Some (default 0 (head l), tail l)
  | KFree v => if bool_decide (page_ok v) && negb (bool_decide (v ∈ l)) then Some (0, v :: l) else None
  | KWrite a _ => if in_pages a l then None else Some (0, l)
  end.
Fixpoint abs_kops (os : list kop) (l : list Z) : option (list Z * list Z) :=
  match os with
  | [] => Some ([], l)
  | o :: os' =>
      match abs_kop o l with
      | Some (r, l1) => match abs_kops os' l1 with Some (rs, l2) => Some (r :: rs, l2) | None => None end
      | None => None
      end
  end.

Lemma in_pages_false a l v : in_pages a l = false -> v ∈ l -> ~ (v <= a < v + PGSIZE).
Proof.
  intros Ha Hv Hx. assert (in_pages a l = true) as E; [|congruence]. apply existsb_exists. exists v.
  split; [by apply list_elem_of_In|]. lia.
Qed.

Lemma kop_Ok o l s r l' : kinv l s -> abs_kop o l = Some (r, l') ->
  exists s', run_kop o s = Ok r s' /\ kinv l' s'.
Proof.
  intros Hk. destruct o as [|v|a b]; simpl.
  - intros [= <- <-]. destruct (kalloc_Ok l s Hk) as (s' & Hr & Hk' & _). by exists s'.
  - destruct (bool_decide (page_ok v)) eqn:E1; [|done]. destruct (bool_decide (v ∈ l)) eqn:E2; [done|].
    intros [= <- <-]. apply bool_decide_eq_true in E1. apply bool_decide_eq_false in E2.
    destruct (kfree_Ok l s v Hk E1 E2) as (s' & Hr & Hk' & _). exists s'. split; [by erewrite bind_Ok by exact Hr|done].
  - destruct (in_pages a l) eqn:E; [done|]. intros [= <- <-]. eexists. split; [reflexivity|].
    destruct Hk as [Hc Hnd Hp Hm Hf]. split; simpl; try done; [|by auto with kernel].
    eapply page_chain_frame; [exact Hc|]. intros v x Hv Hx. apply upd_ne. intros ->.
    apply (in_pages_false a l v E Hv). unfold PGSIZE. lia.
Qed.

Lemma kops_Ok os : forall l s rs l', kinv l s -> abs_kops os l = Some (rs, l') ->
  exists s', run_kops os s = Ok rs s' /\ kinv l' s'.
Proof.
  induction os as [|o os IH]; intros l s rs l' Hk; simpl.
  - intros [= <- <-]. by exists s.
  - destruct (abs_kop o l) as [[r l1]|] eqn:E; [|done]. destruct (abs_kops os l1) as [[rs1 l2]|] eqn:E1; [|done].
    intros [= <- <-]. destruct (kop_Ok _ _ _ _ _ Hk E) as (s1 & Hr & Hk1).
    destruct (IH _ _ _ _ Hk1 E1) as (s2 & Hr2 & Hk2). exists s2. split; [|done].
    erewrite bind_Ok by exact Hr. by erewrite bind_Ok by exact Hr2.
Qed.

(** *** Initialisation *)

(** The pages of a range, the last one first, as they are on the free list. *)
Definition range_pages (p : Z) (n : nat) : list Z := reverse ((fun i => p + PGSIZE * Z.of_nat i) <$> seq 0 n).

Lemma range_pages_S p n : range_pages p (S n) = range_pages (p + PGSIZE) n ++ [p].
Proof.
  unfold range_pages. cbn [seq]. rewrite <- fmap_S_seq, fmap_cons, reverse_cons, <- list_fmap_compose.
  f_equal; [|f_equal; unfold PGSIZE; lia]. f_equal. apply list_fmap_ext. intros i x _. simpl. unfold PGSIZE. lia.
Qed.

Lemma freerange_loop_Ok n : forall fuel p vend l s, (n < fuel)%nat ->
  p mod PGSIZE = 0 -> kend <= p -> KERNBASE <= p -> vend <= KERNBASE + PHYSTOP ->
  p + PGSIZE * Z.of_nat n <= vend < p + PGSIZE * (Z.of_nat n + 1) ->
  (forall v, v ∈ l -> v < p) -> kinv l s ->
  exists s', freerange_loop fuel p vend s = Ok tt s' /\ kinv (range_pages p n ++ l) s' /\ use_lock s' = use_lock s.
Proof.
  induction n as [|n IH]; intros fuel p vend l s Hfu Hmod Hp Hb Htop Hv Hl Hk; destruct fuel as [|f]; try lia; simpl.
  - destruct (Z.leb_spec (p + PGSIZE) vend); [unfold PGSIZE in *; lia|]. by exists s.
  - destruct (Z.leb_spec (p + PGSIZE) vend); [|unfold PGSIZE in *; lia].
    destruct (kfree_Ok l s p Hk) as (s1 & Hr1 & Hk1 & _ & Hu1).
    + unfold page_ok. unfold PGSIZE in *. split_and!; [done|lia..].
    + intros Hin. specialize (Hl _ Hin). lia.
    + destruct (IH f (p + PGSIZE) vend (p :: l) s1) as (s2 & Hr2 & Hk2 & Hu2); [lia| |unfold PGSIZE in *; lia..| | |].
      * unfold PGSIZE in *. rewrite <- Z.add_mod_idemp_l, Hmod by lia. done.
      * intros v [->|Hin]%elem_of_cons; [unfold PGSIZE; lia|]. specialize (Hl _ Hin). unfold PGSIZE. lia.
      * done.
      * exists s2. split; [by erewrite bind_Ok by exact Hr1|]. split; [|congruence].
        rewrite range_pages_S, <- (assoc_L (++)). exact Hk2.
Qed.

Lemma PGROUNDUP_eq v : 0 <= v -> v + PGSIZE - 1 < 2 ^ 32 -> PGROUNDUP v = PGSIZE * ((v + PGSIZE - 1) / PGSIZE).
Proof.
  intros H0 H1. unfold PGROUNDUP. rewrite u32_id by (unfold uint32, PGSIZE in *; lia).
  change (PGSIZE - 1) with (Z.ones 12). rewrite <- Z.ldiff_land, Z.ldiff_ones_r by lia.
  rewrite Z.shiftl_mul_pow2, Z.shiftr_div_pow2 by lia. unfold PGSIZE. change (2 ^ 12) with 4096. lia.
Qed.

Lemma range_pages_spec p n v : v ∈ range_pages p n <-> exists i, (i < n)%nat /\ v = p + PGSIZE * Z.of_nat i.
Proof.
  unfold range_pages. rewrite elem_of_reverse, list_elem_of_fmap. split; intros (i & H1 & H2); exists i.
  - rewrite elem_of_seq in H2. split; [lia|done].
  - rewrite elem_of_seq. split; [done|lia].
Qed.

Lemma kinit1_Ok lk vstart vend s : lk_free lk -> mem_ok (k_mem s) -> freelist s = 0 ->
  kend <= vstart -> KERNBASE <= vstart -> vstart + 2 * PGSIZE <= vend -> vend <= KERNBASE + PHYSTOP ->
  exists s' l, kinit1 lk vstart vend s = Ok tt s' /\ kinv l s' /\
    forall v, v ∈ l <-> v mod PGSIZE = 0 /\ vstart <= v /\ v + PGSIZE <= vend.
Proof.
  intros Hlk Hm Hfl Hke Hkb Hv Htop.
  assert (0 <= vstart /\ vstart + PGSIZE - 1 < 2 ^ 32) as [H0 H1] by (unfold KERNBASE, PHYSTOP, PGSIZE in *; lia).
  unfold kinit1. rewrite !bind_modify. unfold freerange. set (p := PGROUNDUP vstart).
  assert (p mod PGSIZE = 0 /\ vstart <= p < vstart + PGSIZE) as [Hmod Hp].
  { unfold p. rewrite (PGROUNDUP_eq _ H0 H1). unfold PGSIZE. split; [rewrite Z.mul_comm; by apply Z.mod_mul|].
    pose proof (Z.div_mod (vstart + 4096 - 1) 4096 ltac:(lia)). pose proof (Z.mod_pos_bound (vstart + 4096 - 1) 4096). lia. }
  set (n := Z.to_nat ((vend - p) / PGSIZE)).
  assert (p + PGSIZE * Z.of_nat n <= vend < p + PGSIZE * (Z.of_nat n + 1)) as Hn.
  { unfold n, PGSIZE in *. rewrite Z2Nat.id by (apply Z.div_pos; lia). Z.to_euclidean_division_equations. lia. }
  destruct (freerange_loop_Ok n (S (Z.to_nat (vend / PGSIZE))) p vend [] (put_use_lock false (put_klock lk s)))
    as (s' & Hr & Hk & _); [|done|lia|lia|lia|exact Hn| | |].
  - unfold n. apply Nat.lt_succ_r, Z2Nat.inj_le; unfold PGSIZE, KERNBASE in *; [apply Z.div_pos; lia..|].
    apply Z.div_le_mono; lia.
  - intros v []%not_elem_of_nil.
  - split; simpl; [by rewrite Hfl|by constructor|constructor|done|done].
  - exists s', (range_pages p n ++ []). split; [exact Hr|]. split; [done|]. intros v.
    rewrite app_nil_r, range_pages_spec. unfold PGSIZE in *. split.
    + intros (i & Hi & ->). rewrite Z.mul_comm, Z.mod_add by lia. split_and!; [done|lia..].
    + intros (Hvm & Hv1 & Hv2). exists (Z.to_nat ((v - p) / 4096)).
      pose proof (Z.div_mod v 4096 ltac:(lia)). pose proof (Z.div_mod p 4096 ltac:(lia)).
      assert ((v - p) / 4096 = v / 4096 - p / 4096) as E.
      { replace (v - p) with ((v / 4096 - p / 4096) * 4096) by lia. by apply Z.div_mul. }
      rewrite E. split; [lia|]. rewrite Z2Nat.id by lia. lia.
Qed.

(** C21 The allocator refines a stack of distinct pages.  After
    [kinit1(vstart, vend)] the free pages are exactly the aligned pages inside
    the range.  From then on any sequence of allocations, frees of pages that
    are not free and writes outside free pages returns what the stack returns:
    a page that is free, each only once until it is freed again, and 0 exactly
    when none is left; no free page is lost. *)
Theorem kalloc_refines lk vstart vend s :
  lk_free lk -> mem_ok (k_mem s) -> freelist s = 0 ->
  kend <= vstart -> KERNBASE <= vstart -> vstart + 2 * PGSIZE <= vend -> vend <= KERNBASE + PHYSTOP ->
  exists s1 pages, kinit1 lk vstart vend s = Ok tt s1 /\ NoDup pages /\
    (forall v, v ∈ pages <-> v mod PGSIZE = 0 /\ vstart <= v /\ v + PGSIZE <= vend) /\
    forall os rs l, abs_kops os pages = Some (rs, l) ->
      exists s2, run_kops os s1 = Ok rs s2 /\ NoDup l.
Proof.
  intros Hlk Hm Hfl Hke Hkb Hv Htop.
  destruct (kinit1_Ok lk vstart vend s Hlk Hm Hfl Hke Hkb Hv Htop) as (s1 & l & Hr & Hk & Hl).
  exists s1, l. split_and!; [done|apply Hk|done|]. intros os rs l' Ha.
  destruct (kops_Ok os l s1 rs l' Hk Ha) as (s2 & Hr2 & Hk2). exists s2. split; [done|apply Hk2].
Qed.

(** [kfree] refuses, by a panic, an address that is not a page of physical
    memory above the kernel. *)
Theorem kfree_rejects v s :
  uint32 v -> v mod PGSIZE <> 0 \/ v < kend \/ v < KERNBASE \/ KERNBASE + PHYSTOP <= v -> kfree v s = Panic "kfree".
Proof. intros Hu Hv. apply kfree_panics; [done|]. unfold page_ok. lia. Qed.
End Kalloc.

Definition demo_kmem : kmem := mkKmem (demo_lock_state "kmem") false 0 ramp.

Lemma kalloc_refines_witness :
  exists s1 pages, kinit1 0x80100000 (demo_lock_state "kmem") 0x80200001 0x80204000 demo_kmem = Ok tt s1 /\ NoDup pages /\
    (forall v, v ∈ pages <-> v mod PGSIZE = 0 /\ 0x80200001 <= v /\ v + PGSIZE <= 0x80204000) /\
    forall os rs l, abs_kops 0x80100000 os pages = Some (rs, l) ->
      exists s2, run_kops 0x80100000 os s1 = Ok rs s2 /\ NoDup l.
Proof.
  refine (kalloc_refines 0x80100000 _ (demo_lock_state "kmem") 0x80200001 0x80204000 demo_kmem
    (demo_lock_free "kmem") ramp_ok eq_refl _ _ _ _); unfold KERNBASE, PHYSTOP, PGSIZE; lia.
Defined.

Lemma kfree_rejects_witness : kfree 0x80100000 0x80200010 demo_kmem = Panic "kfree".
Proof.
  refine (kfree_rejects 0x80100000 0x80200010 demo_kmem _ _); [unfold uint32; lia|left; discriminate].
Defined.
