(* ===== verification/Pipe.v ===== *)
(** * Pipes: pipe.c

    The ring buffer with its two 32-bit counters, and the calls on it.  A call
    that sleeps ends its segment with the lock released; when it is woken up
    it continues with a segment that starts by taking the lock again.  The
    state counts the processes asleep on [&p->nread] and [&p->nwrite]. *)

From stdpp Require Import base list strings.
From Stdlib Require Import ZArith Lia.
From S2P Require Import Prelude Spinlock Sync.
Local Open Scope Z_scope.

Definition PIPESIZE : Z := 512.

Section Pipe.
Context {L : Type} `{Lock L}.

Record pipe := mkPipe {
  p_lock : L;
  data : list Z;
  nread : Z;
  nwrite : Z;
  readopen : bool;
  writeopen : bool;
  freed : bool;        (** the page was given back by [kfree] *)
  asleep_r : nat;      (** processes asleep on [&p->nread] *)
  asleep_w : nat       (** processes asleep on [&p->nwrite] *)
}.
Definition put_plock (x : L) (p : pipe) : pipe :=
  mkPipe x (data p) (nread p) (nwrite p) (readopen p) (writeopen p) (freed p) (asleep_r p) (asleep_w p).
Definition put_data (x : list Z) (p : pipe) : pipe :=
  mkPipe (p_lock p) x (nread p) (nwrite p) (readopen p) (writeopen p) (freed p) (asleep_r p) (asleep_w p).
Definition put_nread (x : Z) (p : pipe) : pipe :=
  mkPipe (p_lock p) (data p) x (nwrite p) (readopen p) (writeopen p) (freed p) (asleep_r p) (asleep_w p).
Definition put_nwrite (x : Z) (p : pipe) : pipe :=
  mkPipe (p_lock p) (data p) (nread p) x (readopen p) (writeopen p) (freed p) (asleep_r p) (asleep_w p).
Definition put_open (r w : bool) (p : pipe) : pipe :=
  mkPipe (p_lock p) (data p) (nread p) (nwrite p) r w (freed p) (asleep_r p) (asleep_w p).
Definition put_freed (x : bool) (p : pipe) : pipe :=
  mkPipe (p_lock p) (data p) (nread p) (nwrite p) (readopen p) (writeopen p) x (asleep_r p) (asleep_w p).
Definition put_asleep (r w : nat) (p : pipe) : pipe :=
  mkPipe (p_lock p) (data p) (nread p) (nwrite p) (readopen p) (writeopen p) (freed p) r w.

Definition p_acquire : M pipe unit := zoom p_lock put_plock lk_acquire.
Definition p_release : M pipe unit := zoom p_lock put_plock lk_release.
Definition wakeup_r : M pipe unit := modify (fun p => put_asleep 0 (asleep_w p) p).
Definition wakeup_w : M pipe unit := modify (fun p => put_asleep (asleep_r p) 0 p).
Definition sleep_r : M pipe unit := modify (fun p => put_asleep (S (asleep_r p)) (asleep_w p) p) ;;; p_release.
Definition sleep_w : M pipe unit := modify (fun p => put_asleep (asleep_r p) (S (asleep_w p)) p) ;;; p_release.

(** The pipe as [pipealloc] initialises it. *)
Definition pipe_new (lk : L) (junk : list Z) : pipe := mkPipe lk junk 0 0 true true false 0 0.

(** How a segment ends: the call returns, or sleeps with [rest] to write. *)
Inductive write_end := Wrote (r : Z) | WriteSleeps (rest : list Z).
Inductive read_end := ReadBytes (l : list Z) | ReadFails | ReadSleeps.

(** From holding the lock; [n] is the argument, [rest] what is left of [addr]. *)
Fixpoint pipewrite_loop (killed : bool) (n : Z) (rest : list Z) : M pipe write_end :=
  match rest with
  | [] => wakeup_r ;;; p_release ;;; ret (Wrote n)
  | c :: rest' =>
      let! p := gets id in
      if nwrite p =? u32 (nread p + PIPESIZE) then
        if negb (readopen p) || killed then p_release ;;; ret (Wrote (-1))
        else wakeup_r ;;; sleep_w ;;; ret (WriteSleeps rest)
      else
        modify (fun p => put_data (<[Z.to_nat (nwrite p mod PIPESIZE) := c]> (data p)) p) ;;;
        modify (fun p => put_nwrite (u32 (nwrite p + 1)) p) ;;;
        pipewrite_loop killed n rest'
  end.
Definition pipewrite (killed : bool) (n : Z) (rest : list Z) : M pipe write_end :=
  p_acquire ;;; pipewrite_loop killed n rest.

(** [piperead-copy] *)
Fixpoint piperead_copy (n : nat) : M pipe (list Z) :=
  match n with
  | O => ret []
  | S k =>
      let! p := gets id in
      if nread p =? nwrite p then ret [] else
      let! c := deref (data p !! Z.to_nat (nread p mod PIPESIZE)) in
      modify (fun p => put_nread (u32 (nread p + 1)) p) ;;;
      let! l := piperead_copy k in
      ret (c :: l)
  end.
Definition piperead (killed : bool) (n : nat) : M pipe read_end :=
  p_acquire ;;;
  let! p := gets id in
  if (nread p =? nwrite p) && writeopen p then
    if killed then p_release ;;; ret ReadFails else sleep_r ;;; ret ReadSleeps
  else
    let! l := piperead_copy n in
    wakeup_w ;;;
    p_release ;;;
    ret (ReadBytes l).

Definition pipeclose (writable : bool) : M pipe unit :=
  p_acquire ;;;
  (if writable then modify (fun p => put_open (readopen p) false p) ;;; wakeup_r
   else modify (fun p => put_open false (writeopen p) p) ;;; wakeup_w) ;;;
  let! p := gets id in
  if negb (readopen p) && negb (writeopen p) then p_release ;;; modify (put_freed true) else p_release.

(** ** The bytes in the pipe *)

(** [l] is what has been written and not read. *)
Record holds (l : list Z) (p : pipe) : Prop := {
  ho_data : length (data p) = 512%nat;
  ho_len : Z.of_nat (length l) <= PIPESIZE;
  ho_nread : uint32 (nread p);
  ho_nwrite : nwrite p = u32 (nread p + Z.of_nat (length l));
  ho_bytes : forall k c, l !! k = Some c -> data p !! Z.to_nat ((nread p + Z.of_nat k) mod PIPESIZE) = Some c
}.

Lemma full_iff l p : holds l p -> nwrite p = u32 (nread p + PIPESIZE) <-> Z.of_nat (length l) = PIPESIZE.
Proof.
  intros [_ Hl Hr -> _]. unfold u32, uint32, PIPESIZE in *. split; [|by intros ->]. intros E.
  Z.to_euclidean_division_equations. lia.
Qed.
Lemma empty_iff l p : holds l p -> nread p = nwrite p <-> l = [].
Proof.
  intros [_ Hl Hr -> _]. unfold u32, uint32, PIPESIZE in *. split.
  - intros E. destruct l as [|c l]; [done|]. cbn [length] in *. exfalso. Z.to_euclidean_division_equations. lia.
  - intros ->. simpl. rewrite Z.add_0_r, Z.mod_small by lia. done.
Qed.

Lemma u32_mod_pipe z : u32 z mod PIPESIZE = z mod PIPESIZE.
Proof. unfold u32, PIPESIZE. Z.to_euclidean_division_equations. lia. Qed.

Lemma holds_write l p c : holds l p -> Z.of_nat (length l) < PIPESIZE ->
  holds (l ++ [c]) (put_nwrite (u32 (nwrite p + 1)) (put_data (<[Z.to_nat (nwrite p mod PIPESIZE) := c]> (data p)) p)).
Proof.
  intros [Hd Hl Hr Hw Hb] Hlt. rewrite Hw, u32_mod_pipe. split; simpl.
  - by rewrite length_insert.
  - rewrite length_app. simpl. lia.
  - done.
  - rewrite length_app. simpl. unfold u32. rewrite Z.add_mod_idemp_l by lia. f_equal. lia.
  - intros k x Hk. unfold PIPESIZE in *. apply lookup_app_Some in Hk as [Hk|[Hk1 Hk2]].
    + pose proof (lookup_lt_Some _ _ _ Hk). rewrite list_lookup_insert_ne; [by apply Hb|].
      Z.to_euclidean_division_equations. lia.
    + apply list_lookup_singleton_Some in Hk2 as [Hk2 <-]. replace k with (length l) by lia.
      apply list_lookup_insert_eq. rewrite Hd. Z.to_euclidean_division_equations. lia.
Qed.

Lemma holds_read l p c : holds (c :: l) p ->
  data p !! Z.to_nat (nread p mod PIPESIZE) = Some c /\ holds l (put_nread (u32 (nread p + 1)) p).
Proof.
  intros [Hd Hl Hr Hw Hb]. cbn [length] in *. split.
  - specialize (Hb 0%nat c eq_refl). by rewrite Z.add_0_r in Hb.
  - split; simpl.
    + done.
    + lia.
    + apply u32_range.
    + rewrite Hw. unfold u32. rewrite Z.add_mod_idemp_l by lia. f_equal. lia.
    + intros k x Hk. rewrite <- (Hb (S k) x) by done. f_equal. f_equal.
      replace ((nread p + Z.of_nat (S k)) mod PIPESIZE) with ((nread p + 1 + Z.of_nat k) mod PIPESIZE) by (f_equal; lia).
      unfold u32, PIPESIZE. Z.to_euclidean_division_equations. lia.
Qed.

(** ** The specification: a bounded queue *)

Record aqueue := mkAqueue { a_q : list Z; a_ro : bool; a_wo : bool }.

Inductive pipe_event := PWrite (killed : bool) (n : Z) (rest : list Z) | PRead (killed : bool) (n : nat) | PClose (w : bool).
Inductive pipe_result := RWrite (r : write_end) | RRead (r : read_end) | RClose.

Definition run_event (e : pipe_event) : M pipe pipe_result :=
  match e with
  | PWrite killed n rest => let! r := pipewrite killed n rest in ret (RWrite r)
  | PRead killed n => let! r := piperead killed n in ret (RRead r)
  | PClose w => pipeclose w ;;; ret RClose
  end.

Definition abs_event (e : pipe_event) (a : aqueue) : pipe_result * aqueue :=
  match e with
  | PWrite killed n rest =>
      let room := (512 - length (a_q a))%nat in
      let a' := mkAqueue (a_q a ++ take room rest) (a_ro a) (a_wo a) in
      (RWrite (match drop room rest with
               | [] => Wrote n
               | rest' => if negb (a_ro a) || killed then Wrote (-1) else WriteSleeps rest'
               end), a')
  | PRead killed n =>
      match a_q a with
      | [] => (RRead (if a_wo a then if killed then ReadFails else ReadSleeps else ReadBytes []), a)
      | _ => (RRead (ReadBytes (take n (a_q a))), mkAqueue (drop n (a_q a)) (a_ro a) (a_wo a))
      end
  | PClose true => (RClose, mkAqueue (a_q a) (a_ro a) false)
  | PClose false => (RClose, mkAqueue (a_q a) false (a_wo a))
  end.

(** The abstract queue of a pipe between segments. *)
Record pipe_abs (a : aqueue) (p : pipe) : Prop := {
  pa_holds : holds (a_q a) p;
  pa_ro : readopen p = a_ro a;
  pa_wo : writeopen p = a_wo a;
  pa_lock : lk_free (p_lock p)
}.

Lemma p_acquire_Ok p : lk_free (p_lock p) -> exists l, p_acquire p = Ok tt (put_plock l p) /\ lk_held l.
Proof. intros Hf. destruct (lk_acquire_ok _ Hf) as (l & Hr & Hh). exists l. split; [by apply zoom_Ok|done]. Qed.
Lemma p_release_Ok p : lk_held (p_lock p) -> exists l, p_release p = Ok tt (put_plock l p) /\ lk_free l.
Proof. intros Hf. destruct (lk_release_ok _ Hf) as (l & Hr & Hh). exists l. split; [by apply zoom_Ok|done]. Qed.

(** Only the lock and the sleepers differ. *)
Lemma holds_env l p p' : holds l p -> data p' = data p -> nread p' = nread p -> nwrite p' = nwrite p -> holds l p'.
Proof. intros [] E1 E2 E3. split; rewrite ?E1, ?E2, ?E3; done. Qed.

(** What a write segment does: it fills the room there is; with bytes left over
    it fails when the reader is gone or the process was killed, and sleeps
    otherwise.  It wakes the readers unless it fails. *)
Definition write_stuck (l rest : list Z) : bool := match drop (512 - length l) rest with [] => false | _ => true end.
Definition write_result (l : list Z) (ro killed : bool) (n : Z) (rest : list Z) : write_end :=
  match drop (512 - length l) rest with
  | [] => Wrote n
  | rest' => if negb ro || killed then Wrote (-1) else WriteSleeps rest'
  end.

Record write_post (l : list Z) (killed : bool) (rest : list Z) (p p' : pipe) : Prop := {
  wp_holds : holds (l ++ take (512 - length l) rest) p';
  wp_lock : lk_free (p_lock p');
  wp_ro : readopen p' = readopen p;
  wp_wo : writeopen p' = writeopen p;
  wp_r : asleep_r p' = if write_stuck l rest && (negb (readopen p) || killed) then asleep_r p else 0%nat;
  wp_w : asleep_w p' = if write_stuck l rest && negb (negb (readopen p) || killed) then S (asleep_w p) else asleep_w p
}.

Lemma pipewrite_loop_Ok killed n rest : forall l p, holds l p -> lk_held (p_lock p) ->
  exists p', pipewrite_loop killed n rest p = Ok (write_result l (readopen p) killed n rest) p' /\
    write_post l killed rest p p'.
Proof.
  induction rest as [|c rest IH]; intros l p Hh Hl.
  - simpl. unfold wakeup_r. rewrite bind_modify.
    destruct (p_release_Ok (put_asleep 0 (asleep_w p) p) Hl) as (lk & Hr & Hf). erewrite bind_Ok by exact Hr.
    eexists. split; [unfold write_result; rewrite drop_nil; reflexivity|].
    split; simpl; unfold write_stuck; rewrite ?drop_nil, ?take_nil; try done. rewrite app_nil_r. by eapply holds_env.
  - cbn [pipewrite_loop]. rewrite bind_gets. unfold id. pose proof (ho_len _ _ Hh) as Hlen. unfold PIPESIZE in Hlen.
    destruct (Z.eqb_spec (nwrite p) (u32 (nread p + PIPESIZE))) as [E|E].
    + apply (full_iff l p Hh) in E. unfold PIPESIZE in E. assert (512 - length l = 0)%nat as Hroom by lia.
      unfold write_result. rewrite Hroom. cbn [drop].
      destruct (negb (readopen p) || killed) eqn:Hfail.
      * destruct (p_release_Ok p Hl) as (lk & Hr & Hf). erewrite bind_Ok by exact Hr. eexists. split; [reflexivity|].
        split; simpl; unfold write_stuck; rewrite ?Hroom, ?Hfail; simpl; try done.
        rewrite app_nil_r. by eapply holds_env.
      * unfold wakeup_r, sleep_w. steps.
        match goal with |- context [bind p_release _ ?q] => destruct (p_release_Ok q Hl) as (lk & Hr & Hf) end.
        erewrite bind_Ok by exact Hr. eexists. split; [reflexivity|].
        split; simpl; unfold write_stuck; rewrite ?Hroom, ?Hfail; simpl; try done.
        rewrite app_nil_r. by eapply holds_env.
    + assert (Z.of_nat (length l) <> 512) as Hne by (intros E'; apply E; by apply (full_iff l p Hh)).
      rewrite !bind_modify. set (p1 := put_nwrite _ _).
      destruct (IH (l ++ [c]) p1) as (p' & Hr & [W1 W2 W3 W4 W5 W6]); [exact (holds_write l p c Hh ltac:(unfold PIPESIZE; lia))|done|].
      assert (512 - length l = S (512 - length (l ++ [c])))%nat as Hroom by (rewrite length_app; simpl; lia).
      exists p'. unfold write_result, write_stuck in *. rewrite Hroom. cbn [drop]. split; [exact Hr|].
      split; unfold write_stuck in *; rewrite ?Hroom; cbn [take drop]; try done.
      by rewrite <- (assoc_L (++)) in W1.
Qed.

Lemma piperead_copy_Ok n : forall l p, holds l p ->
  exists p', piperead_copy n p = Ok (take n l) p' /\ holds (drop n l) p' /\ p_lock p' = p_lock p /\
    readopen p' = readopen p /\ writeopen p' = writeopen p /\ asleep_r p' = asleep_r p /\ asleep_w p' = asleep_w p.
Proof.
  induction n as [|n IH]; intros l p Hh; [by exists p|]. cbn [piperead_copy]. rewrite bind_gets. unfold id.
  destruct (Z.eqb_spec (nread p) (nwrite p)) as [E|E].
  - apply (empty_iff l p Hh) in E as ->. by exists p.
  - destruct l as [|c l]; [destruct E; by apply (empty_iff [] p Hh)|].
    destruct (holds_read l p c Hh) as [Hc Hh1]. erewrite deref_Some by exact Hc. rewrite bind_modify.
    destruct (IH l _ Hh1) as (p' & Hr & Hh' & E1 & E2 & E3 & E4 & E5). erewrite bind_Ok by exact Hr. by exists p'.
Qed.

(** What a read segment does to the sleepers: it wakes the writers, or joins
    the readers when the pipe is empty and open. *)
Lemma piperead_Ok (killed : bool) n l p : holds l p -> lk_free (p_lock p) ->
  let r := match l with
           | [] => if writeopen p then if killed then ReadFails else ReadSleeps else ReadBytes []
           | _ => ReadBytes (take n l)
           end in
  exists p', piperead killed n p = Ok r p' /\ holds (match r with ReadBytes _ => drop n l | _ => l end) p' /\
    lk_free (p_lock p') /\ readopen p' = readopen p /\ writeopen p' = writeopen p /\
    asleep_r p' = (match r with ReadSleeps => S (asleep_r p) | _ => asleep_r p end) /\
    asleep_w p' = (match r with ReadBytes _ => 0%nat | _ => asleep_w p end).
Proof.
  intros Hh Hf. unfold piperead. destruct (p_acquire_Ok p Hf) as (lk & Hr & Hl). erewrite bind_Ok by exact Hr.
  rewrite bind_gets. unfold id. cbn [nread nwrite writeopen put_plock].
  assert (exists p', (let! l0 := piperead_copy n in wakeup_w ;;; p_release ;;; ret (ReadBytes l0)) (put_plock lk p) =
      Ok (ReadBytes (take n l)) p' /\ holds (drop n l) p' /\ lk_free (p_lock p') /\ readopen p' = readopen p /\
      writeopen p' = writeopen p /\ asleep_r p' = asleep_r p /\ asleep_w p' = 0%nat) as Hcopy.
  { destruct (piperead_copy_Ok n l (put_plock lk p)) as (p1 & Hr1 & Hh1 & E1 & E2 & E3 & E4 & E5); [by eapply holds_env|].
    erewrite bind_Ok by exact Hr1. unfold wakeup_w. rewrite bind_modify.
    destruct (p_release_Ok (put_asleep (asleep_r p1) 0 p1)) as (lk2 & Hr2 & Hf2); [simpl; by rewrite E1|].
    erewrite bind_Ok by exact Hr2. eexists. split; [reflexivity|]. split_and!; try done. by eapply holds_env. }
  destruct (Z.eqb_spec (nread p) (nwrite p)) as [E|E].
  - apply (empty_iff l p Hh) in E as ->. destruct (writeopen p) eqn:Hw; cbn [andb negb].
    + destruct killed.
      * destruct (p_release_Ok (put_plock lk p) Hl) as (lk2 & Hr2 & Hf2). erewrite bind_Ok by exact Hr2.
        eexists. split; [reflexivity|]. split_and!; try done. by eapply holds_env.
      * unfold sleep_r. steps.
        match goal with |- context [bind p_release _ ?q] => destruct (p_release_Ok q Hl) as (lk2 & Hr2 & Hf2) end.
        erewrite bind_Ok by exact Hr2. eexists. split; [reflexivity|]. split_and!; try done. by eapply holds_env.
    + by rewrite take_nil in Hcopy.
  - destruct l as [|c l]; [destruct E; by apply (empty_iff [] p Hh)|]. exact Hcopy.
Qed.

Lemma pipeclose_Ok (w : bool) p l : holds l p -> lk_free (p_lock p) ->
  exists p', pipeclose w p = Ok tt p' /\ holds l p' /\ lk_free (p_lock p') /\
    readopen p' = (if w then readopen p else false) /\ writeopen p' = (if w then false else writeopen p) /\
    asleep_r p' = (if w then 0%nat else asleep_r p) /\ asleep_w p' = (if w then asleep_w p else 0%nat).
Proof.
  intros Hh Hf. unfold pipeclose. destruct (p_acquire_Ok p Hf) as (lk & Hr & Hl). erewrite bind_Ok by exact Hr.
  assert (forall q, lk_held (p_lock q) -> exists p',
    (let! p := gets id in
     if negb (readopen p) && negb (writeopen p) then p_release ;;; modify (put_freed true) else p_release) q = Ok tt p' /\
    lk_free (p_lock p') /\ data p' = data q /\ nread p' = nread q /\ nwrite p' = nwrite q /\ readopen p' = readopen q /\
    writeopen p' = writeopen q /\ asleep_r p' = asleep_r q /\ asleep_w p' = asleep_w q) as Hend.
  { intros q Hq. rewrite bind_gets. unfold id. destruct (p_release_Ok q Hq) as (lk2 & Hr2 & Hf2).
    destruct (negb (readopen q) && negb (writeopen q)).
    - erewrite bind_Ok by exact Hr2. eexists. split; [reflexivity|done].
    - eexists. split; [exact Hr2|done]. }
  destruct w; unfold wakeup_r, wakeup_w; rewrite bind_assoc, !bind_modify;
    match goal with |- context [_ ?q = Ok tt _] =>
      destruct (Hend q Hl) as (p' & Hr2 & Hf2 & E1 & E2 & E3 & E4 & E5 & E6 & E7) end;
    exists p'; (split; [exact Hr2|]); (split; [by eapply (holds_env l p)|by split_and!]).
Qed.

(** *** The refinement *)

Lemma run_event_abs e a p : pipe_abs a p ->
  exists p', run_event e p = Ok (abs_event e a).1 p' /\ pipe_abs (abs_event e a).2 p'.
Proof.
  intros [Hh Hro Hwo Hl]. destruct e as [killed n rest|killed n|w].
  - unfold run_event, pipewrite. rewrite bind_assoc. destruct (p_acquire_Ok p Hl) as (lk & Hr & Hk).
    erewrite bind_Ok by exact Hr.
    destruct (pipewrite_loop_Ok killed n rest (a_q a) (put_plock lk p)) as (p' & Hr' & [W1 W2 W3 W4 _ _]);
      [by eapply holds_env|done|]. erewrite bind_Ok by exact Hr'. exists p'. simpl.
    rewrite <- Hro. split; [done|]. by split; simpl; rewrite ?W3, ?W4.
  - destruct (piperead_Ok killed n (a_q a) p Hh Hl) as (p' & Hr & H1 & H2 & H3 & H4 & _).
    unfold run_event. erewrite bind_Ok by exact Hr. exists p'. rewrite Hwo in *. simpl.
    destruct (a_q a) as [|c l] eqn:Hq.
    + split; [done|]. split; simpl; [|congruence|congruence|done]. rewrite Hq.
      destruct (a_wo a); [by destruct killed|]. by rewrite drop_nil in H1.
    + split; [done|]. by split; simpl; rewrite ?H3, ?H4.
  - destruct (pipeclose_Ok w p (a_q a) Hh Hl) as (p' & Hr & H1 & H2 & H3 & H4 & _).
    unfold run_event. erewrite bind_Ok by exact Hr. exists p'.
    destruct w; (split; [done|]); split; simpl; by rewrite ?H3, ?H4.
Qed.

Fixpoint run_events (es : list pipe_event) : M pipe (list pipe_result) :=
  match es with
  | [] => ret []
  | e :: es' => let! r := run_event e in let! rs := run_events es' in ret (r :: rs)
  end.
Fixpoint abs_events (es : list pipe_event) (a : aqueue) : list pipe_result * aqueue :=
  match es with
  | [] => ([], a)
  | e :: es' => let '(r, a1) := abs_event e a in let '(rs, a2) := abs_events es' a1 in (r :: rs, a2)
  end.

Lemma run_events_abs es : forall a p, pipe_abs a p ->
  exists p', run_events es p = Ok (abs_events es a).1 p' /\ pipe_abs (abs_events es a).2 p'.
Proof.
  induction es as [|e es IH]; intros a p Ha; [by exists p|]. simpl.
  destruct (run_event_abs e a p Ha) as (p1 & Hr1 & Ha1). destruct (abs_event e a) as [r a1].
  destruct (IH a1 p1 Ha1) as (p2 & Hr2 & Ha2). destruct (abs_events es a1) as [rs a2]. exists p2.
  erewrite bind_Ok by exact Hr1. by erewrite bind_Ok by exact Hr2.
Qed.

Lemma pipe_new_abs lk junk : lk_free lk -> length junk = 512%nat -> pipe_abs (mkAqueue [] true true) (pipe_new lk junk).
Proof. intros Hl Hj. split; [split|..]; simpl; try done; unfold PIPESIZE, uint32; lia. Qed.

(** *** Sleepers *)

(** Whoever sleeps on the pipe has a reason to: a writer sleeps on a full pipe,
    a reader on an empty one that is open for writing. *)
Definition sleep_ok (l : list Z) (p : pipe) : Prop :=
  (asleep_w p <> 0%nat -> length l = 512%nat) /\ (asleep_r p <> 0%nat -> l = [] /\ writeopen p = true).

(** A write that fails. *)
Definition failed (r : pipe_result) : bool := match r with RWrite (Wrote (-1)) => true | _ => false end.

Lemma run_event_sleepers e a p r p' :
  pipe_abs a p -> sleep_ok (a_q a) p -> run_event e p = Ok r p' -> failed r = false ->
  sleep_ok (a_q (abs_event e a).2) p'.
Proof.
  intros [Hh Hro Hwo Hl] [Sw Sr] Hrun Hfail. destruct e as [killed n rest|killed n|w].
  - unfold run_event, pipewrite in Hrun. rewrite bind_assoc in Hrun. destruct (p_acquire_Ok p Hl) as (lk & Hr & Hk).
    erewrite bind_Ok in Hrun by exact Hr.
    destruct (pipewrite_loop_Ok killed n rest (a_q a) (put_plock lk p)) as (p1 & Hr' & [W1 W2 W3 W4 W5 W6]);
      [by eapply holds_env|done|]. erewrite bind_Ok in Hrun by exact Hr'. injection Hrun as <- <-. simpl in *.
    pose proof (ho_len _ _ Hh) as Hlen. unfold PIPESIZE in Hlen.
    assert (write_stuck (a_q a) rest = true -> length (a_q a ++ take (512 - length (a_q a)) rest) = 512%nat) as Hfull.
    { unfold write_stuck. destruct (drop _ rest) eqn:E; [done|]. intros _.
      assert (512 - length (a_q a) < length rest)%nat.
      { destruct (decide (length rest <= 512 - length (a_q a))%nat) as [Hle|]; [|lia]. by rewrite drop_ge in E. }
      rewrite length_app, length_take. lia. }
    assert (write_stuck (a_q a) rest && (negb (readopen p) || killed) = false) as Hns.
    { unfold write_stuck, write_result in *. destruct (drop _ rest); [done|]. by destruct (negb (readopen p) || killed). }
    split; [|rewrite W5, Hns; done]. rewrite W6. intros Hz.
    destruct (write_stuck (a_q a) rest) eqn:Hst; [by apply Hfull|]. simpl in Hz. specialize (Sw Hz).
    rewrite Sw, Nat.sub_diag, take_0, app_nil_r. done.
  - destruct (piperead_Ok killed n (a_q a) p Hh Hl) as (p1 & Hr & H1 & H2 & H3 & H4 & H5 & H6).
    unfold run_event in Hrun. erewrite bind_Ok in Hrun by exact Hr. injection Hrun as <- <-. simpl.
    destruct (a_q a) as [|c l] eqn:Hq; simpl in *; rewrite ?Hq.
    + destruct (writeopen p) eqn:Hw; [|split; [by rewrite H6|rewrite H5, H4; intros Hz; by destruct (Sr Hz)]].
      destruct killed; (split; [rewrite H6; exact Sw|rewrite H4; done]).
    + split; [by rewrite H6|]. rewrite H5. intros Hz. by destruct (Sr Hz).
  - destruct (pipeclose_Ok w p (a_q a) Hh Hl) as (p1 & Hr & H1 & H2 & H3 & H4 & H5 & H6).
    unfold run_event in Hrun. erewrite bind_Ok in Hrun by exact Hr. injection Hrun as <- <-.
    unfold sleep_ok. rewrite H4, H5, H6. destruct w; simpl; (split; [try done|try done]).
Qed.

Lemma run_events_sleepers es : forall a p rs p', pipe_abs a p -> sleep_ok (a_q a) p ->
  run_events es p = Ok rs p' -> Forall (fun r => failed r = false) rs -> sleep_ok (a_q (abs_events es a).2) p'.
Proof.
  induction es as [|e es IH]; intros a p rs p' Ha Hs Hrun Hall; simpl in *.
  - by injection Hrun as <- <-.
  - apply bind_inv in Hrun as (r & p1 & Hr & Hrun). apply bind_inv in Hrun as (rs1 & p2 & Hrs & Hrun).
    injection Hrun as <- <-. apply Forall_cons in Hall as [Hf Hall].
    destruct (run_event_abs e a p Ha) as (p1' & Hr' & Ha1). rewrite Hr in Hr'. injection Hr' as -> <-.
    pose proof (run_event_sleepers e a p _ p1 Ha Hs Hr Hf) as Hs1. destruct (abs_event e a) as [r a1]. simpl in *.
    pose proof (IH a1 p1 rs1 p2 Ha1 Hs1 Hrs Hall) as Hs2. by destruct (abs_events es a1).
Qed.

(** C22 A pipe is a queue of at most 512 bytes.  Whatever segments of reads,
    writes and closes run, in any order, each returns what it returns on the
    queue: bytes come out in the order they went in, none lost, repeated or
    made up, also when the 32-bit counters wrap around; a write accepts what
    there is room for and then sleeps, or fails if the read end is closed or
    the process was killed; a read of an empty pipe sleeps until the write end
    is closed, and then returns nothing. *)
Theorem pipe_fifo lk junk es :
  lk_free lk -> length junk = 512%nat ->
  exists p, run_events es (pipe_new lk junk) = Ok (abs_events es (mkAqueue [] true true)).1 p /\
    holds (a_q (abs_events es (mkAqueue [] true true)).2) p /\
    (length (a_q (abs_events es (mkAqueue [] true true)).2) <= 512)%nat.
Proof.
  intros Hl Hj. destruct (run_events_abs es _ _ (pipe_new_abs lk junk Hl Hj)) as (p & Hr & Ha).
  exists p. split_and!; [done|apply Ha|]. pose proof (ho_len _ _ (pa_holds _ _ Ha)) as Hlen. unfold PIPESIZE in Hlen. lia.
Qed.

(** No wakeup is lost while no write fails: between segments a process
    asleep in [pipewrite] faces a full pipe, and one asleep in [piperead] an
    empty pipe whose write end is open. *)
Theorem pipe_sleepers lk junk es rs p :
  lk_free lk -> length junk = 512%nat -> run_events es (pipe_new lk junk) = Ok rs p ->
  Forall (fun r => failed r = false) rs ->
  sleep_ok (a_q (abs_events es (mkAqueue [] true true)).2) p.
Proof.
  intros Hl Hj Hrun Hall. eapply run_events_sleepers; [by apply pipe_new_abs|by split|exact Hrun|done].
Qed.
End Pipe.

Definition demo_events : list pipe_event :=
  [PRead false 3; PWrite false 4 [104; 105; 33; 10]; PRead false 3; PClose true; PRead false 3; PRead false 1].

Lemma pipe_fifo_witness :
  exists p, run_events demo_events (pipe_new (demo_lock_state "pipe") (replicate 512 0)) =
      Ok (abs_events demo_events (mkAqueue [] true true)).1 p /\
    holds (a_q (abs_events demo_events (mkAqueue [] true true)).2) p /\
    (length (a_q (abs_events demo_events (mkAqueue [] true true)).2) <= 512)%nat.
Proof. exact (pipe_fifo (demo_lock_state "pipe") (replicate 512 0) demo_events (demo_lock_free "pipe") eq_refl). Defined.

Definition demo_pipe : pipe :=
  match run_events demo_events (pipe_new (demo_lock_state "pipe") (replicate 512 0)) with
  | Ok _ p => p
  | _ => pipe_new (demo_lock_state "pipe") []
  end.
Lemma demo_pipe_run : run_events demo_events (pipe_new (demo_lock_state "pipe") (replicate 512 0)) =
  Ok [RRead ReadSleeps; RWrite (Wrote 4); RRead (ReadBytes [104; 105; 33]); RClose; RRead (ReadBytes [10]);
      RRead (ReadBytes [])] demo_pipe.
Proof. vm_compute. reflexivity. Qed.
Lemma pipe_sleepers_witness : sleep_ok (a_q (abs_events demo_events (mkAqueue [] true true)).2) demo_pipe.
Proof.
  refine (pipe_sleepers (demo_lock_state "pipe") (replicate 512 0) demo_events _ demo_pipe
    (demo_lock_free "pipe") eq_refl demo_pipe_run _). repeat constructor.
Defined.

