(* ===== verification/Sleeplock.v ===== *)
(** * Sleep locks: sleeplock.c

    A lock a process may hold while it sleeps.  Its own spin lock is number
    [n] of the locks; [me] is the pid of the calling process.  A call that has
    to wait releases the spin lock and leaves the CPU; it starts over when it
    is woken up. *)

From stdpp Require Import base list strings.
From Stdlib Require Import ZArith Lia.
From S2P Require Import Prelude Spinlock Sync.
Local Open Scope Z_scope.

Record sleeplock := mkSleeplock {
  slocked : bool;
  sname : string;
  spid : Z;
  waiting : nat      (** processes asleep on it *)
}.

Section Sleeplock.
Context {L : Type} `{Locks L} (n : nat) (me : Z).

Definition sl_lock : M (L * sleeplock) unit := zoom fst (fun l s => (l, s.2)) (lock_n n).
Definition sl_unlock : M (L * sleeplock) unit := zoom fst (fun l s => (l, s.2)) (unlock_n n).
Definition sl_put (x : sleeplock) : M (L * sleeplock) unit := modify (fun s => (s.1, x)).

Definition initsleeplock (name : string) (lk : sleeplock) : sleeplock := mkSleeplock false name 0 (waiting lk).

Definition acquiresleep : M (L * sleeplock) unit :=
  sl_lock ;;;
  let! lk := gets snd in
  if slocked lk then
    sl_put (mkSleeplock true (sname lk) (spid lk) (S (waiting lk))) ;;;
    sl_unlock ;;;
    (fun s => Blocked s)
  else
    sl_put (mkSleeplock true (sname lk) me (waiting lk)) ;;;
    sl_unlock.

Definition releasesleep : M (L * sleeplock) unit :=
  sl_lock ;;;
  let! lk := gets snd in
  sl_put (mkSleeplock false (sname lk) 0 0) ;;;
  sl_unlock.

Definition holdingsleep : M (L * sleeplock) bool :=
  sl_lock ;;;
  let! lk := gets snd in
  sl_unlock ;;;
  ret (slocked lk && (spid lk =? me)).

(** ** What they do, with no spin lock held *)

Definition sl_ok (s : L * sleeplock) : Prop := lk_owned [] s.1 /\ (n < lk_count)%nat.

Lemma sl_enter s : sl_ok s -> exists l, sl_lock s = Ok tt (l, s.2) /\ lk_owned [n] l.
Proof.
  intros [Ho Hn]. destruct (lock_n_ok n [] s.1 Ho Hn) as (l & Hr & Hl); [apply not_elem_of_nil|].
  exists l. split; [exact (zoom_Ok fst (fun l s => (l, s.2)) (lock_n n) s tt l Hr)|done].
Qed.
Lemma sl_leave l x : lk_owned [n] l -> exists l', sl_unlock (l, x) = Ok tt (l', x) /\ lk_owned [] l'.
Proof.
  intros Ho. destruct (unlock_n_ok n [] l Ho) as (l' & Hr & Hl). exists l'.
  split; [exact (zoom_Ok fst (fun l s => (l, s.2)) (unlock_n n) (l, x) tt l' Hr)|done].
Qed.

Lemma acquiresleep_Ok s : sl_ok s -> slocked s.2 = false ->
  exists l, acquiresleep s = Ok tt (l, mkSleeplock true (sname s.2) me (waiting s.2)) /\ lk_owned [] l.
Proof.
  intros Hs Hf. unfold acquiresleep. destruct (sl_enter s Hs) as (l & Hr & Hl). erewrite bind_Ok by exact Hr.
  rewrite bind_gets. simpl. rewrite Hf. unfold sl_put. rewrite bind_modify. by apply sl_leave.
Qed.

Lemma acquiresleep_waits s : sl_ok s -> slocked s.2 = true ->
  exists l, acquiresleep s = Blocked (l, mkSleeplock true (sname s.2) (spid s.2) (S (waiting s.2))) /\ lk_owned [] l.
Proof.
  intros Hs Hf. unfold acquiresleep. destruct (sl_enter s Hs) as (l & Hr & Hl). erewrite bind_Ok by exact Hr.
  rewrite bind_gets. simpl. rewrite Hf. unfold sl_put. rewrite bind_modify. simpl.
  edestruct (sl_leave l) as (l' & Hr' & Hl'); [exact Hl|]. exists l'. split; [|done]. by erewrite bind_Ok by exact Hr'.
Qed.

Lemma releasesleep_Ok s : sl_ok s ->
  exists l, releasesleep s = Ok tt (l, mkSleeplock false (sname s.2) 0 0) /\ lk_owned [] l.
Proof.
  intros Hs. unfold releasesleep. destruct (sl_enter s Hs) as (l & Hr & Hl). erewrite bind_Ok by exact Hr.
  rewrite bind_gets. unfold sl_put. rewrite bind_modify. by apply sl_leave.
Qed.

Lemma holdingsleep_Ok s : sl_ok s ->
  exists l, holdingsleep s = Ok (slocked s.2 && (spid s.2 =? me)) (l, s.2) /\ lk_owned [] l.
Proof.
  intros Hs. unfold holdingsleep. destruct (sl_enter s Hs) as (l & Hr & Hl). erewrite bind_Ok by exact Hr.
  rewrite bind_gets. simpl. destruct (sl_leave l s.2 Hl) as (l' & Hr' & Hl'). exists l'.
  split; [|done]. by erewrite bind_Ok by exact Hr'.
Qed.
End Sleeplock.
