(* ===== verification/CacheSpec.v ===== *)
(** * What the buffer cache promises

    The cache shows every block of the disk through [a_view]; blocks that are
    neither pinned ([B_DIRTY], set by [log_write]) nor held by the caller are
    as on the disk.  Writes reach the disk only through [bwrite], one block at
    a time, in order. *)

From stdpp Require Import base list strings.
From Stdlib Require Import ZArith Lia.
From S2P Require Import Prelude.
Local Open Scope Z_scope.

Notation block := (list Z) (only parsing).

(** The contents of the disk: the last write to a block, or the image. *)
Definition disk_after (img : Z -> block) (ws : list (Z * block)) (n : Z) : block :=
  foldl (fun b w => if w.1 =? n then w.2 else b) (img n) ws.

Definition vput (n : Z) (x : block) (v : Z -> block) : Z -> block := fun k => if k =? n then x else v k.

Record acache := mkAcache {
  a_view : Z -> block;
  a_image : Z -> block;
  a_writes : list (Z * block);
  a_pinned : list Z;
  a_held : list (nat * Z)        (** buffers the caller has locked, with their block *)
}.
Definition a_disk (a : acache) : Z -> block := disk_after (a_image a) (a_writes a).
Definition with_view (v : Z -> block) (a : acache) : acache :=
  mkAcache v (a_image a) (a_writes a) (a_pinned a) (a_held a).
Definition with_writes (w : list (Z * block)) (a : acache) : acache :=
  mkAcache (a_view a) (a_image a) w (a_pinned a) (a_held a).
Definition with_pinned (p : list Z) (a : acache) : acache :=
  mkAcache (a_view a) (a_image a) (a_writes a) p (a_held a).
Definition with_held (h : list (nat * Z)) (a : acache) : acache :=
  mkAcache (a_view a) (a_image a) (a_writes a) (a_pinned a) h.

Definition pin (n : Z) (l : list Z) : list Z := if decide (n ∈ l) then l else n :: l.
Definition unpin (n : Z) (l : list Z) : list Z := filter (fun k => k <> n) l.
Definition unhold (i : nat) (l : list (nat * Z)) : list (nat * Z) := filter (fun x => x.1 <> i) l.

Record acache_wf (a : acache) : Prop := {
  aw_clean : forall n, n ∉ a_pinned a -> n ∉ (a_held a).*2 -> a_view a n = a_disk a n;
  aw_pinned : NoDup (a_pinned a);
  aw_held : NoDup (a_held a).*1;
  aw_blocks : NoDup (a_held a).*2
}.

Class Cache (S : Type) := {
  cache_cap : nat;                              (** buffers *)
  cache_size : Z;                               (** blocks on the disk *)
  cread : Z -> Z -> M S nat;
  cwrite : nat -> M S unit;
  crelse : nat -> M S unit;
  cget : nat -> M S block;                      (** [b->data] *)
  cset : nat -> block -> M S unit;
  cblockno : nat -> M S Z;
  cpin : nat -> M S unit;                       (** [b->flags |= B_DIRTY] *)
  crepr : S -> acache -> Prop;
  crepr_wf s a : crepr s a -> acache_wf a;
  cread_ok s a n : crepr s a -> 0 <= n < cache_size -> n ∉ (a_held a).*2 ->
    (n ∈ a_pinned a \/ (length (a_pinned a) + length (a_held a) < cache_cap)%nat) ->
    exists i s', cread 1 n s = Ok i s' /\ i ∉ (a_held a).*1 /\ crepr s' (with_held ((i, n) :: a_held a) a);
  cwrite_ok s a i n : crepr s a -> (i, n) ∈ a_held a ->
    exists s', cwrite i s = Ok tt s' /\
      crepr s' (with_pinned (unpin n (a_pinned a)) (with_writes (a_writes a ++ [(n, a_view a n)]) a));
  crelse_ok s a i n : crepr s a -> (i, n) ∈ a_held a -> (n ∈ a_pinned a \/ a_view a n = a_disk a n) ->
    exists s', crelse i s = Ok tt s' /\ crepr s' (with_held (unhold i (a_held a)) a);
  cget_ok s a i n : crepr s a -> (i, n) ∈ a_held a -> cget i s = Ok (a_view a n) s;
  cblockno_ok s a i n : crepr s a -> (i, n) ∈ a_held a -> cblockno i s = Ok n s;
  cset_ok s a i n x : crepr s a -> (i, n) ∈ a_held a ->
    exists s', cset i x s = Ok tt s' /\ crepr s' (with_view (vput n x (a_view a)) a);
  cpin_ok s a i n : crepr s a -> (i, n) ∈ a_held a ->
    exists s', cpin i s = Ok tt s' /\ crepr s' (with_pinned (pin n (a_pinned a)) a)
}.

Lemma vput_eq n x v : vput n x v n = x.
Proof. unfold vput. by rewrite Z.eqb_refl. Qed.
Lemma vput_ne n x v k : k <> n -> vput n x v k = v k.
Proof. unfold vput. by destruct (Z.eqb_spec k n). Qed.

Lemma disk_after_app img ws1 ws2 n : disk_after img (ws1 ++ ws2) n = disk_after (disk_after img ws1) ws2 n.
Proof. unfold disk_after. by rewrite foldl_app. Qed.
Lemma disk_after_nil img n : disk_after img [] n = img n.
Proof. done. Qed.
Lemma disk_after_snoc img ws k b n : disk_after img (ws ++ [(k, b)]) n = if k =? n then b else disk_after img ws n.
Proof. unfold disk_after. by rewrite foldl_app. Qed.
Lemma disk_after_ext img1 img2 ws n : img1 n = img2 n -> disk_after img1 ws n = disk_after img2 ws n.
Proof. unfold disk_after. by intros ->. Qed.

Lemma disk_after_cons img k b ws n :
  disk_after img ((k, b) :: ws) n = disk_after (vput k b img) ws n.
Proof. unfold disk_after, vput. simpl. by rewrite Z.eqb_sym. Qed.

Lemma disk_after_notin img ws n : n ∉ ws.*1 -> disk_after img ws n = img n.
Proof.
  revert img. induction ws as [|[k b] ws IH]; intros img Hn; [done|]. csimpl in Hn. apply not_elem_of_cons in Hn as [Hk Hn].
  rewrite disk_after_cons, IH by done. unfold vput. by destruct (Z.eqb_spec n k).
Qed.

Lemma disk_after_lookup img ws k x : NoDup ws.*1 -> (k, x) ∈ ws -> disk_after img ws k = x.
Proof.
  revert img. induction ws as [|[n y] ws IH]; intros img Hnd Hin; [by apply not_elem_of_nil in Hin|].
  csimpl in Hnd. apply NoDup_cons in Hnd as [Hn Hnd]. rewrite disk_after_cons. apply elem_of_cons in Hin as [[= -> ->]|Hin].
  - rewrite disk_after_notin by done. apply vput_eq.
  - by apply IH.
Qed.

(** ** The specified operations keep well-formedness *)

Lemma elem_of_unpin k n l : k ∈ unpin n l <-> k <> n /\ k ∈ l.
Proof. unfold unpin. by rewrite list_elem_of_filter. Qed.
Lemma elem_of_pin k n l : k ∈ pin n l <-> k = n \/ k ∈ l.
Proof. unfold pin. destruct (decide (n ∈ l)); [|apply elem_of_cons]. split; [tauto|]. by intros [->|]. Qed.
Lemma elem_of_unhold k n i l : (k, n) ∈ unhold i l <-> k <> i /\ (k, n) ∈ l.
Proof. unfold unhold. by rewrite list_elem_of_filter. Qed.
Lemma held_blocks k n (l : list (nat * Z)) : (k, n) ∈ l -> n ∈ l.*2.
Proof. intros H. apply list_elem_of_fmap. by exists (k, n). Qed.
Lemma held_bufs k n (l : list (nat * Z)) : (k, n) ∈ l -> k ∈ l.*1.
Proof. intros H. apply list_elem_of_fmap. by exists (k, n). Qed.

Lemma unhold_sublist i l : unhold i l `sublist_of` l.
Proof. apply sublist_filter. Qed.
Lemma NoDup_unhold {A} (f : nat * Z -> A) i l : NoDup (f <$> l) -> NoDup (f <$> unhold i l).
Proof. intros H. eapply sublist_NoDup; [exact H|]. apply fmap_sublist, unhold_sublist. Qed.

Lemma wf_hold i n a : acache_wf a -> i ∉ (a_held a).*1 -> n ∉ (a_held a).*2 -> acache_wf (with_held ((i, n) :: a_held a) a).
Proof.
  intros [Hc Hp Hh Hb] Hi Hn. split; simpl; [|done|by constructor..].
  intros k Hk1 Hk2. apply Hc; [done|]. apply not_elem_of_cons in Hk2. tauto.
Qed.
Lemma wf_unhold i n a : acache_wf a -> (i, n) ∈ a_held a -> n ∈ a_pinned a \/ a_view a n = a_disk a n ->
  acache_wf (with_held (unhold i (a_held a)) a).
Proof.
  intros [Hc Hp Hh Hb] Hi Hn. split; simpl; [|done|by apply NoDup_unhold..].
  intros k Hk1 Hk2. destruct (decide (k = n)) as [->|Hne]; [by destruct Hn|]. apply Hc; [done|]. intros Hk.
  apply Hk2. apply list_elem_of_fmap in Hk as ([j m] & -> & Hj). apply list_elem_of_fmap. exists (j, m).
  split; [done|]. apply elem_of_unhold. split; [|done]. intros ->. simpl in *.
  apply list_elem_of_lookup in Hi as [x Hx]. apply list_elem_of_lookup in Hj as [y Hy].
  assert (x = y) as ->; [|congruence].
  eapply (NoDup_lookup (a_held a).*1); [done|rewrite list_lookup_fmap, Hx; done|by rewrite list_lookup_fmap, Hy].
Qed.
Lemma wf_write i n a : acache_wf a -> (i, n) ∈ a_held a ->
  acache_wf (with_pinned (unpin n (a_pinned a)) (with_writes (a_writes a ++ [(n, a_view a n)]) a)).
Proof.
  intros [Hc Hp Hh Hb] Hi. split; simpl; [|by apply NoDup_filter|done..]. intros k Hk1 Hk2. unfold a_disk. simpl.
  rewrite disk_after_snoc. destruct (Z.eqb_spec n k) as [->|Hne]; [done|]. apply Hc; [|done]. intros Hk. apply Hk1.
  by apply elem_of_unpin.
Qed.
Lemma wf_set i n x a : acache_wf a -> (i, n) ∈ a_held a -> acache_wf (with_view (vput n x (a_view a)) a).
Proof.
  intros [Hc Hp Hh Hb] Hi. split; simpl; [|done..]. intros k Hk1 Hk2. unfold vput, a_disk. simpl.
  destruct (Z.eqb_spec k n) as [->|Hne]; [|by apply Hc]. destruct Hk2. by eapply held_blocks.
Qed.
Lemma wf_pin n a : acache_wf a -> acache_wf (with_pinned (pin n (a_pinned a)) a).
Proof.
  intros [Hc Hp Hh Hb]. split; simpl; [|unfold pin; destruct (decide _); [done|by constructor]|done..].
  intros k Hk1 Hk2. apply Hc; [|done]. intros Hk. apply Hk1, elem_of_pin. by right.
Qed.

Lemma unhold_cons i n h : i ∉ h.*1 -> unhold i ((i, n) :: h) = h.
Proof.
  intros Hi. unfold unhold. rewrite filter_cons_False by (simpl; tauto). induction h as [|[k m] h IH]; [done|].
  csimpl in Hi. apply not_elem_of_cons in Hi as [Hk Hi]. rewrite filter_cons_True by (simpl; congruence). by rewrite IH.
Qed.

(** A cache just started on a disk. *)
Definition clean (img : Z -> block) : acache := mkAcache img img [] [] [].
Lemma clean_wf img : acache_wf (clean img).
Proof. split; simpl; [done|constructor..]. Qed.

(** ** A client

    Reading and replacing whole blocks, one after the other, as the file
    system does outside of transactions. *)
Inductive request := Fetch (n : Z) | Update (n : Z) (x : block).
Definition target (r : request) : Z := match r with Fetch n => n | Update n _ => n end.

Section Client.
Context {S : Type} `{HC : Cache S}.

Definition serve (r : request) : M S block :=
  match r with
  | Fetch n =>
      let! i := cread 1 n in
      let! x := cget i in
      crelse i ;;;
      ret x
  | Update n x =>
      let! i := cread 1 n in
      let! old := cget i in
      cset i x ;;;
      cwrite i ;;;
      crelse i ;;;
      ret old
  end.

Fixpoint serve_all (rs : list request) : M S (list block) :=
  match rs with
  | [] => ret []
  | r :: rs' =>
      let! x := serve r in
      let! xs := serve_all rs' in
      ret (x :: xs)
  end.

(** The same on an array of blocks: what is read, and the array afterwards. *)
Fixpoint on_array (v : Z -> block) (rs : list request) : list block * (Z -> block) :=
  match rs with
  | [] => ([], v)
  | Fetch n :: rs' => let (xs, v') := on_array v rs' in (v n :: xs, v')
  | Update n x :: rs' => let (xs, v') := on_array (vput n x v) rs' in (v n :: xs, v')
  end.

Definition idle (a : acache) : Prop := a_pinned a = [] /\ a_held a = [].

Lemma serve_ok s a r : crepr s a -> idle a -> (0 < cache_cap)%nat -> 0 <= target r < cache_size ->
  exists s' a', serve r s = Ok (a_view a (target r)) s' /\ crepr s' a' /\ idle a' /\ a_image a' = a_image a /\
    a_view a' = match r with Fetch _ => a_view a | Update n x => vput n x (a_view a) end.
Proof.
  intros R [Hp Hh] Hc Hn.
  destruct (cread_ok s a (target r) R Hn) as (i & s1 & E1 & Hi & R1); [rewrite Hh; apply not_elem_of_nil|right; by rewrite Hp, Hh|].
  pose proof (cget_ok _ _ i (target r) R1 (list_elem_of_here _ _)) as E2. destruct r as [n|n x]; simpl in *.
  - destruct (crelse_ok _ _ i n R1 (list_elem_of_here _ _)) as (s2 & E3 & R2).
    { right. apply (crepr_wf _ _ R); rewrite ?Hp, ?Hh; apply not_elem_of_nil. }
    simpl in R2. rewrite Hh, unhold_cons in R2 by apply not_elem_of_nil.
    eexists s2, _. split_and!; [|exact R2|split; done|done|done].
    erewrite bind_Ok by exact E1. erewrite bind_Ok by exact E2. by erewrite bind_Ok by exact E3.
  - destruct (cset_ok _ _ i n x R1 (list_elem_of_here _ _)) as (s2 & E3 & R2).
    destruct (cwrite_ok _ _ i n R2 (list_elem_of_here _ _)) as (s3 & E4 & R3).
    destruct (crelse_ok _ _ i n R3 (list_elem_of_here _ _)) as (s4 & E5 & R4).
    { right. unfold a_disk. simpl. by rewrite disk_after_snoc, Z.eqb_refl. }
    simpl in R4. rewrite Hh, unhold_cons in R4 by apply not_elem_of_nil.
    eexists s4, _. split_and!; [|exact R4|split; simpl; [by rewrite Hp|done]|done|done].
    erewrite bind_Ok by exact E1. erewrite bind_Ok by exact E2. erewrite bind_Ok by exact E3.
    erewrite bind_Ok by exact E4. by erewrite bind_Ok by exact E5.
Qed.

Lemma serve_all_ok rs : forall s a, crepr s a -> idle a -> (0 < cache_cap)%nat ->
  Forall (fun r => 0 <= target r < cache_size) rs ->
  exists s' a', serve_all rs s = Ok (on_array (a_view a) rs).1 s' /\ crepr s' a' /\ idle a' /\
    forall n, a_disk a' n = (on_array (a_view a) rs).2 n.
Proof.
  induction rs as [|r rs IH]; intros s a R Hidle Hc Hall; simpl.
  - exists s, a. split_and!; [done..|]. intros n. symmetry. destruct Hidle as [Hp Hh].
    apply (crepr_wf _ _ R); rewrite ?Hp, ?Hh; apply not_elem_of_nil.
  - apply Forall_cons in Hall as [Hr Hall]. destruct (serve_ok s a r R Hidle Hc Hr) as (s1 & a1 & E1 & R1 & Hi1 & _ & Hv).
    destruct (IH s1 a1 R1 Hi1 Hc Hall) as (s2 & a2 & E2 & R2 & Hi2 & Hd). exists s2, a2. rewrite Hv in E2, Hd.
    erewrite bind_Ok by exact E1. erewrite bind_Ok by exact E2.
    destruct r as [n|n x]; simpl; by destruct (on_array _ rs).
Qed.
End Client.
