(* ===== verification/Bio.v ===== *)
(** * The buffer cache: bio.c, over the disk of memide.c

    Thirty buffers on a circular doubly linked list through [prev] and [next],
    whose head is a buffer too (index [NBUF]).  The disk is an image and the
    writes made to it, in order; a block is a list of bytes. *)

From stdpp Require Import base list strings.
From Stdlib Require Import ZArith Lia.
From S2P Require Import Prelude Spinlock Sync Sleeplock CacheSpec.
Local Open Scope Z_scope.

Definition NBUF : nat := 30.
Definition B_VALID : Z := 0x2.
Definition B_DIRTY : Z := 0x4.

Record buf := mkBuf {
  flags : Z;
  dev : Z;
  blockno : Z;
  block_lock : sleeplock;
  refcnt : Z;
  prev : nat;
  next : nat;
  bdata : block
}.
Definition set_flags (x : Z) (b : buf) : buf :=
  mkBuf x (dev b) (blockno b) (block_lock b) (refcnt b) (prev b) (next b) (bdata b).
Definition set_ident (d n : Z) (b : buf) : buf :=
  mkBuf (flags b) d n (block_lock b) (refcnt b) (prev b) (next b) (bdata b).
Definition set_block_lock (x : sleeplock) (b : buf) : buf :=
  mkBuf (flags b) (dev b) (blockno b) x (refcnt b) (prev b) (next b) (bdata b).
Definition set_refcnt (x : Z) (b : buf) : buf :=
  mkBuf (flags b) (dev b) (blockno b) (block_lock b) x (prev b) (next b) (bdata b).
Definition set_prev (x : nat) (b : buf) : buf :=
  mkBuf (flags b) (dev b) (blockno b) (block_lock b) (refcnt b) x (next b) (bdata b).
Definition set_next (x : nat) (b : buf) : buf :=
  mkBuf (flags b) (dev b) (blockno b) (block_lock b) (refcnt b) (prev b) x (bdata b).
Definition set_data (x : block) (b : buf) : buf :=
  mkBuf (flags b) (dev b) (blockno b) (block_lock b) (refcnt b) (prev b) (next b) x.

Section Bio.
Context {L : Type} `{HL : Locks L} (disksize : Z) (me : Z).

Record bcache := mkBcache {
  b_locks : L;                     (** lock 0 is [bcache.lock], [i + 1] that of buffer [i] *)
  bufs : list buf;                 (** the buffers, then the head *)
  image : Z -> block;              (** the disk at first *)
  writes : list (Z * block)        (** the blocks written since *)
}.
Definition put_locks (x : L) (s : bcache) : bcache := mkBcache x (bufs s) (image s) (writes s).
Definition put_bufs (x : list buf) (s : bcache) : bcache := mkBcache (b_locks s) x (image s) (writes s).
Definition put_writes (x : list (Z * block)) (s : bcache) : bcache := mkBcache (b_locks s) (bufs s) (image s) x.

Definition disk (s : bcache) (n : Z) : block := disk_after (image s) (writes s) n.

Definition getb {A : Type} (i : nat) (f : buf -> A) : M bcache A :=
  let! s := gets bufs in
  let! b := deref (s !! i) in
  ret (f b).
Definition updb (i : nat) (f : buf -> buf) : M bcache unit :=
  let! b := getb i id in
  modify (fun s => put_bufs (<[i := f b]> (bufs s)) s).

Definition c_acquire : M bcache unit := zoom b_locks put_locks (lock_n 0).
Definition c_release : M bcache unit := zoom b_locks put_locks (unlock_n 0).

(** A call on the sleep lock of buffer [i]. *)
Definition on_block_lock {A : Type} (i : nat) (m : M (L * sleeplock) A) : M bcache A :=
  let! b := getb i id in
  zoom (fun s => (b_locks s, block_lock b))
    (fun x s => put_locks x.1 (put_bufs (<[i := set_block_lock x.2 b]> (bufs s)) s)) m.
Definition lock_buf (i : nat) : M bcache unit := on_block_lock i (acquiresleep (S i) me).
Definition unlock_buf (i : nat) : M bcache unit := on_block_lock i (releasesleep (S i)).
Definition holding_buf (i : nat) : M bcache bool := on_block_lock i (holdingsleep (S i) me).

Definition has (f bit : Z) : bool := negb (Z.land f bit =? 0).

(** ** memide.c *)

Definition iderw (i : nat) : M bcache unit :=
  let! h := holding_buf i in
  if negb h then panic "iderw: buf not locked" else
  let! b := getb i id in
  if Z.land (flags b) (Z.lor B_VALID B_DIRTY) =? B_VALID then panic "iderw: nothing to do" else
  if negb (dev b =? 1) then panic "iderw: request not for disk 1" else
  if disksize <=? blockno b then panic "iderw: block out of range" else
  (if has (flags b) B_DIRTY then
     updb i (fun b => set_flags (Z.land (flags b) (Z.lnot B_DIRTY)) b) ;;;
     modify (fun s => put_writes (writes s ++ [(blockno b, bdata b)]) s)
   else
     let! s := gets id in
     updb i (set_data (disk s (blockno b)))) ;;;
  updb i (fun b => set_flags (Z.lor (flags b) B_VALID) b).

(** ** bio.c *)

Definition head : nat := NBUF.

Definition binit : M bcache unit :=
  updb head (set_prev head) ;;;
  updb head (set_next head) ;;;
  foreach (seq 0 NBUF) (fun b =>
    let! n := getb head next in
    updb b (set_next n) ;;;
    updb b (set_prev head) ;;;
    updb b (fun x => set_block_lock (initsleeplock "buffer" (block_lock x)) x) ;;;
    let! n := getb head next in
    updb n (set_prev b) ;;;
    updb head (set_next b)).

(** [for(b = ...; b != &bcache.head; b = step(b)) if(found(b)) ...] *)
Fixpoint search (fuel i : nat) (step : buf -> nat) (found : buf -> bool) : M bcache (option nat) :=
  match fuel with
  | O => nofuel
  | S f =>
      if (i =? head)%nat then ret None else
      let! b := getb i id in
      if found b then ret (Some i) else search f (step b) step found
  end.

Definition bget (d n : Z) : M bcache nat :=
  c_acquire ;;;
  let! i := getb head next in
  let! r := search (S (S NBUF)) i next (fun b => (dev b =? d) && (blockno b =? n)) in
  match r with
  | Some i =>
      updb i (fun b => set_refcnt (u32 (refcnt b + 1)) b) ;;;
      c_release ;;;
      lock_buf i ;;;
      ret i
  | None =>
      let! i := getb head prev in
      let! r := search (S (S NBUF)) i prev (fun b => (refcnt b =? 0) && negb (has (flags b) B_DIRTY)) in
      match r with
      | Some i =>
          updb i (set_ident d n) ;;;
          updb i (set_flags 0) ;;;
          updb i (set_refcnt 1) ;;;
          c_release ;;;
          lock_buf i ;;;
          ret i
      | None => panic "bget: no buffers"
      end
  end.

Definition bread (d n : Z) : M bcache nat :=
  let! i := bget d n in
  let! f := getb i flags in
  (if negb (has f B_VALID) then iderw i else ret tt) ;;;
  ret i.

Definition bwrite (i : nat) : M bcache unit :=
  let! h := holding_buf i in
  if negb h then panic "bwrite" else
  updb i (fun b => set_flags (Z.lor (flags b) B_DIRTY) b) ;;;
  iderw i.

Definition brelse (i : nat) : M bcache unit :=
  let! h := holding_buf i in
  if negb h then panic "brelse" else
  unlock_buf i ;;;
  c_acquire ;;;
  updb i (fun b => set_refcnt (u32 (refcnt b - 1)) b) ;;;
  let! r := getb i refcnt in
  (if r =? 0 then
     let! n := getb i next in
     let! p := getb i prev in
     updb n (set_prev p) ;;;
     updb p (set_next n) ;;;
     let! n := getb head next in
     updb i (set_next n) ;;;
     updb i (set_prev head) ;;;
     let! n := getb head next in
     updb n (set_prev i) ;;;
     updb head (set_next i)
   else ret tt) ;;;
  c_release.
End Bio.
