(* ===== verification/BioRefine.v ===== *)
(** * The buffer cache implements its specification

    The circular list of buffers as a list of indices, the searches of [bget]
    on it, and the laws of [Cache] for [bread], [bwrite] and [brelse]. *)

From stdpp Require Import base list sets strings.
From Stdlib Require Import ZArith Lia.
From S2P Require Import Prelude Spinlock Sync Sleeplock CacheSpec Bio.
Local Open Scope Z_scope.

(** ** Doubly linked segments

    [seg nx pv x l y]: from [x] through [l] to [y], both ways. *)
Fixpoint seg (nx pv : nat -> nat) (x : nat) (l : list nat) (y : nat) : Prop :=
  match l with
  | [] => nx x = y /\ pv y = x
  | z :: l' => (nx x = z /\ pv z = x) /\ seg nx pv z l' y
  end.

Definition fupd (f : nat -> nat) (i v : nat) : nat -> nat := fun k => if decide (k = i) then v else f k.
Lemma fupd_eq f i v : fupd f i v i = v.
Proof. unfold fupd. by rewrite decide_True. Qed.
Lemma fupd_ne f i v k : k <> i -> fupd f i v k = f k.
Proof. intros Hk. unfold fupd. by rewrite decide_False. Qed.

Lemma seg_frame nx pv nx' pv' l : forall x y,
  seg nx pv x l y -> (forall z, z ∈ x :: l -> nx' z = nx z) -> (forall z, z ∈ l ++ [y] -> pv' z = pv z) ->
  seg nx' pv' x l y.
Proof.
  induction l as [|z l IH]; intros x y; simpl.
  - intros [H1 H2] Hn Hp. rewrite Hn, Hp by (by left). done.
  - intros [[H1 H2] Hs] Hn Hp. rewrite Hn, Hp by (by left). split; [done|]. apply IH; [done| |].
    + intros k Hk. apply Hn. by right.
    + intros k Hk. apply Hp. by right.
Qed.

Lemma seg_app nx pv l1 : forall x z l2 y,
  seg nx pv x (l1 ++ z :: l2) y <-> seg nx pv x l1 z /\ seg nx pv z l2 y.
Proof.
  induction l1 as [|w l1 IH]; intros x z l2 y; simpl; [tauto|]. rewrite IH. tauto.
Qed.

Lemma seg_pv nx pv l : forall x y, seg nx pv x l y -> pv y ∈ x :: l.
Proof.
  induction l as [|z l IH]; intros x y; simpl.
  - intros [_ ->]. by left.
  - intros [_ Hs]. right. by apply IH.
Qed.
Lemma seg_nx nx pv l x y : seg nx pv x l y -> nx x ∈ l ++ [y].
Proof. destruct l as [|z l]; simpl; [intros [-> _]|intros [[-> _] _]]; by left. Qed.

Lemma seg_reverse nx pv l : forall x y, seg nx pv x l y -> seg pv nx y (reverse l) x.
Proof.
  induction l as [|z l IH]; intros x y; simpl; [tauto|]. intros [[H1 H2] Hs]. rewrite reverse_cons.
  apply seg_app. split; [by apply IH|done].
Qed.

(** Taking [i] out. *)
Lemma seg_unlink nx pv i l2 y l1 : forall x,
  seg nx pv x (l1 ++ i :: l2) y -> NoDup (x :: l1 ++ i :: l2) -> y ∉ l1 ++ i :: l2 ->
  seg (fupd nx (pv i) (nx i)) (fupd pv (nx i) (pv i)) x (l1 ++ l2) y.
Proof.
  induction l1 as [|z l1 IH]; intros x Hs Hnd Hy; simpl in *.
  - destruct Hs as [[H1 H2] Hs]. rewrite H2. apply NoDup_cons in Hnd as [Hx Hnd]. apply NoDup_cons in Hnd as [Hi Hnd].
    apply not_elem_of_cons in Hy as [Hyi Hy]. destruct l2 as [|n l2]; simpl in *.
    + destruct Hs as [-> _]. by rewrite !fupd_eq.
    + destruct Hs as [[-> Hpn] Hs]. rewrite !fupd_eq. split; [done|]. apply NoDup_cons in Hnd as [Hn _].
      eapply seg_frame; [exact Hs| |].
      * intros k Hk. apply fupd_ne. intros ->. apply Hx. by right.
      * intros k Hk. apply fupd_ne. intros ->. apply elem_of_app in Hk as [Hk|Hk]; [done|].
        apply list_elem_of_singleton in Hk as ->. apply Hy. by left.
  - destruct Hs as [[H1 H2] Hs]. apply NoDup_cons in Hnd as [Hx Hnd]. apply not_elem_of_cons in Hy as [Hyz Hy].
    pose proof Hs as Hs'. apply seg_app in Hs' as [Hs1 Hs2]. pose proof (seg_pv _ _ _ _ _ Hs1) as Hpi.
    pose proof (seg_nx _ _ _ _ _ Hs2) as Hni. split; [|by apply IH]. split; rewrite fupd_ne; try done.
    + intros ->. apply Hx. apply elem_of_cons in Hpi as [->|Hpi]; [by left|]. right. apply elem_of_app. by left.
    + intros ->. apply NoDup_cons in Hnd as [Hz _]. apply Hz. apply elem_of_app in Hni as [Hni|Hni].
      * apply elem_of_app. right. by right.
      * apply list_elem_of_singleton in Hni as E. congruence.
Qed.

(** Putting [i] in front. *)
Lemma seg_push nx pv h l i :
  seg nx pv h l h -> i ∉ h :: l -> NoDup (h :: l) ->
  seg (fupd (fupd nx i (nx h)) h i) (fupd (fupd pv i h) (nx h) i) h (i :: l) h.
Proof.
  intros Hs Hi Hnd. apply not_elem_of_cons in Hi as [Hih Hil]. apply NoDup_cons in Hnd as [Hh Hnd].
  pose proof (seg_nx _ _ _ _ _ Hs) as Hn.
  assert (nx h <> i) as Hnhi.
  { intros E. rewrite E in Hn. apply elem_of_app in Hn as [?|Hn]; [done|]. by apply list_elem_of_singleton in Hn. }
  split; [split; [by rewrite fupd_eq|by rewrite fupd_ne, fupd_eq by done]|].
  destruct l as [|z l]; simpl in *.
  - destruct Hs as [E1 E2]. rewrite E1. rewrite fupd_eq, fupd_ne, fupd_eq by done. done.
  - destruct Hs as [[E1 E2] Hs]. rewrite E1. split.
    + rewrite fupd_ne, fupd_eq, fupd_eq by done. done.
    + apply NoDup_cons in Hnd as [Hz Hnd]. eapply seg_frame; [exact Hs| |].
      * intros k Hk. rewrite !fupd_ne; [done| |]; intros ->; [by apply Hil|by apply Hh].
      * intros k Hk. assert (k <> z /\ k <> i) as [Hkz Hki].
        { apply elem_of_app in Hk as [Hk|Hk]; [split; intros ->; [done|apply Hil; by right]|].
          apply list_elem_of_singleton in Hk as ->. split; [|done]. intros ->. apply Hh. by left. }
        by rewrite !fupd_ne.
Qed.

(** The links of the buffers. *)
Definition nx_of (B : list buf) (i : nat) : nat := from_option next 0%nat (B !! i).
Definition pv_of (B : list buf) (i : nat) : nat := from_option prev 0%nat (B !! i).

Lemma nx_insert B i b k : (i < length B)%nat ->
  nx_of (<[i := b]> B) k = fupd (nx_of B) i (next b) k.
Proof.
  intros Hi. unfold nx_of, fupd. destruct (decide (k = i)) as [->|Hne].
  - by rewrite list_lookup_insert_eq.
  - by rewrite list_lookup_insert_ne.
Qed.
Lemma pv_insert B i b k : (i < length B)%nat ->
  pv_of (<[i := b]> B) k = fupd (pv_of B) i (prev b) k.
Proof.
  intros Hi. unfold pv_of, fupd. destruct (decide (k = i)) as [->|Hne].
  - by rewrite list_lookup_insert_eq.
  - by rewrite list_lookup_insert_ne.
Qed.

(** An update that keeps the links. *)
Lemma links_keep B i b b' k : B !! i = Some b -> next b' = next b -> prev b' = prev b ->
  nx_of (<[i := b']> B) k = nx_of B k /\ pv_of (<[i := b']> B) k = pv_of B k.
Proof.
  intros Hi Hn Hp. pose proof (lookup_lt_Some _ _ _ Hi). rewrite nx_insert, pv_insert by done. unfold fupd, nx_of, pv_of.
  destruct (decide (k = i)) as [->|]; [|done]. by rewrite Hi.
Qed.

Section Refine.
Context {L : Type} `{HL : Locks L} (disksize me : Z) (Hcount : (NBUF < lk_count)%nat).
Notation bcache := (bcache (L := L)).
Implicit Types (s : bcache) (lk : L).

(** ** The parts of the calls *)

Lemma getb_Ok {A} i (f : buf -> A) s b : bufs s !! i = Some b -> getb i f s = Ok (f b) s.
Proof. intros Hb. unfold getb. rewrite bind_gets. by erewrite deref_Some by exact Hb. Qed.
Lemma updb_Ok i f s b : bufs s !! i = Some b -> updb i f s = Ok tt (put_bufs (<[i := f b]> (bufs s)) s).
Proof. intros Hb. unfold updb. erewrite bind_Ok by (by apply getb_Ok). done. Qed.

Lemma c_acquire_Ok s : lk_owned [] (b_locks s) -> exists l, c_acquire s = Ok tt (put_locks l s) /\ lk_owned [0%nat] l.
Proof.
  intros Ho. destruct (lock_n_ok 0 [] (b_locks s) Ho) as (l & Hr & Hl); [lia|apply not_elem_of_nil|].
  exists l. split; [by apply zoom_Ok|done].
Qed.
Lemma c_release_Ok s : lk_owned [0%nat] (b_locks s) -> exists l, c_release s = Ok tt (put_locks l s) /\ lk_owned [] l.
Proof.
  intros Ho. destruct (unlock_n_ok 0 [] (b_locks s) Ho) as (l & Hr & Hl). exists l. split; [by apply zoom_Ok|done].
Qed.

Lemma on_block_lock_Ok {A} i (m : M (L * sleeplock) A) s b a l x :
  bufs s !! i = Some b -> m (b_locks s, block_lock b) = Ok a (l, x) ->
  on_block_lock i m s = Ok a (put_locks l (put_bufs (<[i := set_block_lock x b]> (bufs s)) s)).
Proof.
  intros Hb Hm. unfold on_block_lock. erewrite bind_Ok by (by apply getb_Ok). unfold zoom, id. by rewrite Hm.
Qed.

Definition taken (b : buf) : buf := set_block_lock (mkSleeplock true (sname (block_lock b)) me (waiting (block_lock b))) b.
Definition dropped (b : buf) : buf := set_block_lock (mkSleeplock false (sname (block_lock b)) 0 0) b.

Lemma lock_buf_Ok i s b : bufs s !! i = Some b -> (i < NBUF)%nat -> lk_owned [] (b_locks s) ->
  slocked (block_lock b) = false ->
  exists l, lock_buf me i s = Ok tt (put_locks l (put_bufs (<[i := taken b]> (bufs s)) s)) /\ lk_owned [] l.
Proof.
  intros Hb Hi Ho Hf.
  destruct (acquiresleep_Ok (S i) me (b_locks s, block_lock b)) as (l & Hr & Hl); [split; [done|lia]|done|].
  exists l. split; [|done]. unfold lock_buf. by rewrite (on_block_lock_Ok _ _ _ _ _ _ _ Hb Hr).
Qed.
Lemma unlock_buf_Ok i s b : bufs s !! i = Some b -> (i < NBUF)%nat -> lk_owned [] (b_locks s) ->
  exists l, unlock_buf i s = Ok tt (put_locks l (put_bufs (<[i := dropped b]> (bufs s)) s)) /\ lk_owned [] l.
Proof.
  intros Hb Hi Ho. destruct (releasesleep_Ok (S i) (b_locks s, block_lock b)) as (l & Hr & Hl); [split; [done|lia]|].
  exists l. split; [|done]. unfold unlock_buf. by rewrite (on_block_lock_Ok _ _ _ _ _ _ _ Hb Hr).
Qed.
Lemma holding_buf_Ok i s b : bufs s !! i = Some b -> (i < NBUF)%nat -> lk_owned [] (b_locks s) ->
  slocked (block_lock b) = true -> spid (block_lock b) = me ->
  exists l, holding_buf me i s = Ok true (put_locks l s) /\ lk_owned [] l.
Proof.
  intros Hb Hi Ho Hlk Hp. destruct (holdingsleep_Ok (S i) me (b_locks s, block_lock b)) as (l & Hr & Hl); [split; [done|lia]|].
  exists l. split; [|done]. unfold holding_buf. rewrite (on_block_lock_Ok _ _ _ _ _ _ _ Hb Hr). simpl.
  rewrite Hlk, Hp, Z.eqb_refl. simpl. unfold put_locks, put_bufs. simpl. do 2 f_equal.
  rewrite list_insert_id; [done|]. rewrite Hb. by destruct b.
Qed.

(** Following one kind of link. *)
Fixpoint path (st : nat -> nat) (x : nat) (l : list nat) (y : nat) : Prop :=
  match l with [] => st x = y | z :: l' => st x = z /\ path st z l' y end.
Lemma seg_path nx pv l : forall x y, seg nx pv x l y -> path nx x l y.
Proof. induction l as [|z l IH]; intros x y; simpl; [tauto|]. intros [[H _] Hs]. split; [done|]. by apply IH. Qed.

Lemma search_Ok (step : buf -> nat) found s l : forall fuel x,
  path (fun i => from_option step 0%nat (bufs s !! i)) x l head -> head ∉ l ->
  (forall i, i ∈ l -> is_Some (bufs s !! i)) -> (length l < fuel)%nat ->
  exists r, search fuel (from_option step 0%nat (bufs s !! x)) step found s = Ok r s /\
    match r with
    | Some i => i ∈ l /\ exists b, bufs s !! i = Some b /\ found b = true
    | None => forall i b, i ∈ l -> bufs s !! i = Some b -> found b = false
    end.
Proof.
  induction l as [|z l IH]; intros fuel x Hp Hh Hsome Hf; destruct fuel as [|f]; try (simpl in Hf; lia); cbn [search].
  - simpl in Hp. rewrite Hp, Nat.eqb_refl. exists None. split; [done|]. intros i b []%not_elem_of_nil.
  - destruct Hp as [-> Hp]. apply not_elem_of_cons in Hh as [Hhz Hh].
    destruct (Nat.eqb_spec z head) as [|_]; [congruence|]. destruct (Hsome z) as [b Hb]; [by left|].
    erewrite bind_Ok by (by apply getb_Ok). unfold id. destruct (found b) eqn:Hfb.
    + exists (Some z). split; [done|]. split; [by left|]. by exists b.
    + destruct (IH f z Hp Hh) as (r & Hr & Hspec); [intros i Hi; apply Hsome; by right|simpl in Hf; lia|].
      rewrite Hb in Hr. simpl in Hr. exists r. split; [exact Hr|]. destruct r as [i|].
      * destruct Hspec as [Hi ?]. split; [by right|done].
      * intros i c [->|Hi]%elem_of_cons Hc; [congruence|by eapply Hspec].
Qed.

(** ** The abstraction *)

Definition bstate (a : acache) (i : nat) (b : buf) : Prop :=
  if decide (dev b = 1) then
    flags b = (if decide (blockno b ∈ a_pinned a) then 6 else 2) /\ bdata b = a_view a (blockno b) /\
    0 <= blockno b < disksize /\
    (if decide ((i, blockno b) ∈ a_held a)
     then refcnt b = 1 /\ slocked (block_lock b) = true /\ spid (block_lock b) = me
     else refcnt b = 0 /\ slocked (block_lock b) = false)
  else flags b = 0 /\ refcnt b = 0 /\ slocked (block_lock b) = false.

Definition on_list (B : list buf) : Prop :=
  exists l, seg (nx_of B) (pv_of B) head l head /\ l ≡ₚ seq 0 NBUF.

Record brepr s (a : acache) : Prop := {
  br_len : length (bufs s) = S NBUF;
  br_list : on_list (bufs s);
  br_locks : lk_owned [] (b_locks s);
  br_buf : forall i b, (i < NBUF)%nat -> bufs s !! i = Some b -> bstate a i b;
  br_uniq : forall i j b c, (i < NBUF)%nat -> (j < NBUF)%nat -> bufs s !! i = Some b -> bufs s !! j = Some c ->
    dev b = 1 -> dev c = 1 -> blockno b = blockno c -> i = j;
  br_held : forall i n, (i, n) ∈ a_held a -> (i < NBUF)%nat /\ exists b, bufs s !! i = Some b /\ dev b = 1 /\ blockno b = n;
  br_pinned : forall n, n ∈ a_pinned a -> exists i b, (i < NBUF)%nat /\ bufs s !! i = Some b /\ dev b = 1 /\ blockno b = n;
  br_wf : acache_wf a;
  br_image : image s = a_image a;
  br_writes : writes s = a_writes a
}.

Lemma on_list_keep B i b b' : on_list B -> B !! i = Some b -> next b' = next b -> prev b' = prev b ->
  on_list (<[i := b']> B).
Proof.
  intros (l & Hs & Hp) Hi Hn Hv. exists l. split; [|done].
  eapply seg_frame; [exact Hs|..]; intros z _; by destruct (links_keep B i b b' z Hi Hn Hv).
Qed.

(** One buffer and the abstract state change together. *)
Lemma brepr_update s a i b b' a' lk :
  brepr s a -> bufs s !! i = Some b -> (i < NBUF)%nat -> next b' = next b -> prev b' = prev b ->
  lk_owned [] lk -> dev b' = 1 -> bstate a' i b' ->
  (forall j c, j <> i -> (j < NBUF)%nat -> bufs s !! j = Some c -> bstate a j c -> bstate a' j c) ->
  (forall j c, j <> i -> (j < NBUF)%nat -> bufs s !! j = Some c -> dev c = 1 -> blockno c <> blockno b') ->
  (forall k n, (k, n) ∈ a_held a' -> k = i /\ n = blockno b' \/ k <> i /\ (k, n) ∈ a_held a) ->
  (forall n, n ∈ a_pinned a' -> n = blockno b' \/ n ∈ a_pinned a /\ (dev b = 1 -> blockno b <> n)) ->
  acache_wf a' -> a_image a' = a_image a ->
  brepr (mkBcache lk (<[i := b']> (bufs s)) (a_image a') (a_writes a')) a'.
Proof.
  intros [Hlen Hlist _ Hbuf Huq Hheld Hpin _ Him Hw] Hb Hi Hn Hp Hlk Hd Hb' Hothers Hfresh Hh' Hp' Hwf Hima.
  assert (forall j c, <[i := b']> (bufs s) !! j = Some c -> j = i /\ c = b' \/ j <> i /\ bufs s !! j = Some c) as Hcases.
  { intros j c. destruct (decide (j = i)) as [->|Hne].
    - rewrite list_lookup_insert_eq by (rewrite Hlen; lia). intros [= <-]. by left.
    - rewrite list_lookup_insert_ne by done. by right. }
  split; simpl.
  - by rewrite length_insert.
  - by eapply on_list_keep.
  - done.
  - intros j c Hj [[-> ->]|[Hne Hc]]%Hcases; [done|]. apply Hothers; [done..|]. by apply Hbuf.
  - intros j k c d Hj Hk [[-> ->]|[Hne Hc]]%Hcases [[-> ->]|[Hne' Hd']]%Hcases Hdc Hdd E; try done.
    + by destruct (Hfresh k d Hne' Hk Hd').
    + by destruct (Hfresh j c Hne Hj Hc).
    + by eapply (Huq j k).
  - intros k n [[-> ->]|[Hne Hk]]%Hh'.
    + split; [done|]. exists b'. split; [|done]. apply list_lookup_insert_eq. rewrite Hlen. lia.
    + destruct (Hheld _ _ Hk) as (Hk' & c & Hc & ?). split; [done|]. exists c. by rewrite list_lookup_insert_ne.
  - intros n [->|[Hk Hne]]%Hp'.
    + exists i, b'. split; [done|]. split; [|done]. apply list_lookup_insert_eq. rewrite Hlen. lia.
    + destruct (Hpin _ Hk) as (j & c & Hj & Hc & Hd1 & Hn1). exists j, c. split; [done|]. split; [|done].
      rewrite list_lookup_insert_ne; [done|]. intros ->. simplify_eq. by apply Hne.
  - done.
  - done.
  - done.
Qed.

(** ** The calls on one buffer *)

Section At.
Context (i : nat) (B : list buf) (Hi : (i < NBUF)%nat) (HB : length B = S NBUF).

Lemma at_i b : <[i := b]> B !! i = Some b.
Proof. apply list_lookup_insert_eq. lia. Qed.
Lemma getb_at {A} (f : buf -> A) lk b im w :
  getb i f (mkBcache lk (<[i := b]> B) im w) = Ok (f b) (mkBcache lk (<[i := b]> B) im w).
Proof. apply getb_Ok, at_i. Qed.
Lemma updb_at f lk b im w :
  updb i f (mkBcache lk (<[i := b]> B) im w) = Ok tt (mkBcache lk (<[i := f b]> B) im w).
Proof. rewrite (updb_Ok i f _ b); [|apply at_i]. unfold put_bufs. simpl. by rewrite list_insert_insert_eq. Qed.
Lemma lock_at lk b im w : lk_owned [] lk -> slocked (block_lock b) = false ->
  exists l, lock_buf me i (mkBcache lk (<[i := b]> B) im w) = Ok tt (mkBcache l (<[i := taken b]> B) im w) /\ lk_owned [] l.
Proof.
  intros Ho Hf. edestruct (lock_buf_Ok i (mkBcache lk (<[i := b]> B) im w) b) as (l & Hr & Hl); [apply at_i|done..|].
  exists l. split; [|done]. rewrite Hr. unfold put_locks, put_bufs. simpl. by rewrite list_insert_insert_eq.
Qed.
Lemma holding_at lk b im w : lk_owned [] lk -> slocked (block_lock b) = true -> spid (block_lock b) = me ->
  exists l, holding_buf me i (mkBcache lk (<[i := b]> B) im w) = Ok true (mkBcache l (<[i := b]> B) im w) /\ lk_owned [] l.
Proof. intros Ho Hf Hp. apply (holding_buf_Ok i (mkBcache lk (<[i := b]> B) im w) b); [apply at_i|done..]. Qed.

Lemma iderw_read lk b im w : lk_owned [] lk -> slocked (block_lock b) = true -> spid (block_lock b) = me ->
  flags b = 0 -> dev b = 1 -> blockno b < disksize ->
  exists l, iderw disksize me i (mkBcache lk (<[i := b]> B) im w) =
    Ok tt (mkBcache l (<[i := set_flags 2 (set_data (disk_after im w (blockno b)) b)]> B) im w) /\ lk_owned [] l.
Proof.
  intros Ho Hl Hp Hf Hd Hn. destruct (holding_at lk b im w Ho Hl Hp) as (l & Hr & Hl'). exists l. split; [|done].
  unfold iderw. erewrite bind_Ok by exact Hr. cbn [negb]. erewrite bind_Ok by apply getb_at. unfold id.
  rewrite Hf, Hd. change (Z.land 0 _ =? _) with false. change (has 0 _) with false. cbn [negb Z.eqb Pos.eqb].
  destruct (Z.leb_spec disksize (blockno b)); [lia|]. rewrite bind_assoc, bind_gets.
  erewrite bind_Ok by apply updb_at. rewrite updb_at. unfold set_data. simpl. by rewrite Hf.
Qed.
Lemma iderw_write lk b im w : lk_owned [] lk -> slocked (block_lock b) = true -> spid (block_lock b) = me ->
  flags b = 6 -> dev b = 1 -> blockno b < disksize ->
  exists l, iderw disksize me i (mkBcache lk (<[i := b]> B) im w) =
    Ok tt (mkBcache l (<[i := set_flags 2 b]> B) im (w ++ [(blockno b, bdata b)])) /\ lk_owned [] l.
Proof.
  intros Ho Hl Hp Hf Hd Hn. destruct (holding_at lk b im w Ho Hl Hp) as (l & Hr & Hl'). exists l. split; [|done].
  unfold iderw. erewrite bind_Ok by exact Hr. cbn [negb]. erewrite bind_Ok by apply getb_at. unfold id.
  rewrite Hf, Hd. change (Z.land 6 _ =? _) with false. change (has 6 _) with true. cbn [negb Z.eqb Pos.eqb].
  destruct (Z.leb_spec disksize (blockno b)); [lia|]. rewrite bind_assoc.
  erewrite bind_Ok by apply updb_at. rewrite bind_modify. unfold put_writes. simpl. rewrite updb_at. simpl. by rewrite Hf.
Qed.
End At.

(** A buffer in use: what the abstraction says of it. *)
Lemma held_buf s a i n : brepr s a -> (i, n) ∈ a_held a ->
  exists b, bufs s !! i = Some b /\ (i < NBUF)%nat /\ dev b = 1 /\ blockno b = n /\
    flags b = (if decide (n ∈ a_pinned a) then 6 else 2) /\ bdata b = a_view a n /\ 0 <= n < disksize /\
    refcnt b = 1 /\ slocked (block_lock b) = true /\ spid (block_lock b) = me.
Proof.
  intros R H. destruct (br_held _ _ R _ _ H) as (Hi & b & Hb & Hd & <-). exists b. split; [done|].
  pose proof (br_buf _ _ R i b Hi Hb) as Hs. unfold bstate in Hs. rewrite (decide_True _ _ Hd) in Hs.
  destruct Hs as (Hf & Hdat & Hrg & Hs). rewrite decide_True in Hs by done. tauto.
Qed.

(** Every other buffer is untouched when only block [n], in buffer [i], changes. *)
Lemma bstate_other a a' j c n :
  (blockno c <> n) -> (forall m, m <> n -> a_view a' m = a_view a m) ->
  (forall m, m <> n -> m ∈ a_pinned a' <-> m ∈ a_pinned a) ->
  ((j, blockno c) ∈ a_held a' <-> (j, blockno c) ∈ a_held a) ->
  bstate a j c -> bstate a' j c.
Proof.
  intros Hn Hv Hp Hh. unfold bstate. destruct (decide (dev c = 1)); [|done]. rewrite Hv by done. specialize (Hp _ Hn).
  intros (Hf & Hd & Hr & Hrest). rewrite Hf. split_and!; [|done|lia..|].
  - by destruct (decide (blockno c ∈ a_pinned a)), (decide (blockno c ∈ a_pinned a')); try tauto.
  - by destruct (decide ((j, blockno c) ∈ a_held a)), (decide ((j, blockno c) ∈ a_held a')); try tauto.
Qed.

(** ** The laws *)

Lemma other_block s a i b j c : brepr s a -> (i < NBUF)%nat -> bufs s !! i = Some b -> dev b = 1 ->
  j <> i -> (j < NBUF)%nat -> bufs s !! j = Some c -> dev c = 1 -> blockno c <> blockno b.
Proof. intros R Hi Hb Hd Hne Hj Hc Hdc E. apply Hne. by eapply (br_uniq _ _ R j i). Qed.

Lemma bstate_dev a a' j c : dev c <> 1 -> bstate a j c -> bstate a' j c.
Proof. intros Hd. unfold bstate. by rewrite !(decide_False _ _ Hd). Qed.

(** A change to the block of a held buffer that keeps what is held. *)
Lemma brepr_held s a i b b' a' lk w :
  brepr s a -> bufs s !! i = Some b -> (i, blockno b) ∈ a_held a ->
  dev b' = dev b -> blockno b' = blockno b -> refcnt b' = refcnt b -> block_lock b' = block_lock b ->
  next b' = next b -> prev b' = prev b -> lk_owned [] lk ->
  a_held a' = a_held a -> a_image a' = a_image a -> acache_wf a' -> w = a_writes a' ->
  flags b' = (if decide (blockno b ∈ a_pinned a') then 6 else 2) -> bdata b' = a_view a' (blockno b) ->
  (forall m, m <> blockno b -> a_view a' m = a_view a m) ->
  (forall m, m <> blockno b -> m ∈ a_pinned a' <-> m ∈ a_pinned a) ->
  brepr (mkBcache lk (<[i := b']> (bufs s)) (image s) w) a'.
Proof.
  intros R Hb Hh Ed En Er El Enx Epv Hlk Eh Ei Hwf -> Ef Edt Hv Hp.
  destruct (held_buf _ _ _ _ R Hh) as (b0 & Hb0 & Hi & Hd & _ & _ & _ & Hrg & Hr & Hl & Hpd). simplify_eq.
  rewrite (br_image _ _ R), <- Ei.
  assert (forall j c, j <> i -> (j < NBUF)%nat -> bufs s !! j = Some c -> dev c = 1 -> blockno c <> blockno b) as Hoth.
  { intros j c. by apply (other_block s a i). }
  eapply brepr_update; [exact R|exact Hb|done|done|done|done|congruence| | | | | |done|done].
  - unfold bstate. rewrite decide_True by congruence. rewrite En, Ef, Edt, Er, El. split_and!; [done|done|lia..|].
    rewrite decide_True by congruence. done.
  - intros j c Hne Hj Hc. destruct (decide (dev c = 1)) as [Hdc|]; [|by apply bstate_dev].
    apply (bstate_other _ _ _ _ (blockno b)); [by eapply Hoth|done..|by rewrite Eh].
  - intros j c. rewrite En. apply Hoth.
  - intros k n. rewrite Eh, En. intros Hk. destruct (decide (k = i)) as [->|]; [|by right].
    destruct (br_held _ _ R _ _ Hk) as (_ & b1 & Hb1 & _ & <-). left. by simplify_eq.
  - intros n Hn. rewrite En. destruct (decide (n = blockno b)) as [->|Hne]; [by left|]. right. split; [by apply Hp|]. congruence.
Qed.

Lemma bwrite_ok s a i n : brepr s a -> (i, n) ∈ a_held a ->
  exists s', bwrite disksize me i s = Ok tt s' /\
    brepr s' (with_pinned (unpin n (a_pinned a)) (with_writes (a_writes a ++ [(n, a_view a n)]) a)).
Proof.
  intros R H. destruct (held_buf _ _ _ _ R H) as (b & Hb & Hi & Hd & Hn & Hf & Hdt & Hrg & Hr & Hl & Hp).
  destruct (holding_buf_Ok i s b Hb Hi (br_locks _ _ R) Hl Hp) as (l & Hh & Ho).
  edestruct (iderw_write i (bufs s) Hi (br_len _ _ R) l (set_flags 6 b) (image s) (writes s)) as (l' & Hw & Ho'); [done..|simpl; lia|].
  eexists. split.
  - unfold bwrite. erewrite bind_Ok by exact Hh. cbn [negb].
    erewrite bind_Ok by (apply updb_Ok; exact Hb).
    unfold put_bufs. simpl.
    replace (Z.lor (flags b) B_DIRTY) with 6 by (rewrite Hf; by destruct (decide _)). exact Hw.
  - simpl. rewrite Hdt, (br_writes _ _ R), Hn. subst n.
    eapply brepr_held; simpl; try done.
    + by eapply wf_write; [apply R|].
    + rewrite decide_False; [done|]. by rewrite elem_of_unpin; intros [].
    + intros m Hm. rewrite elem_of_unpin. tauto.
Qed.

Lemma bset_ok s a i n x : brepr s a -> (i, n) ∈ a_held a ->
  exists s', updb i (set_data x) s = Ok tt s' /\ brepr s' (with_view (vput n x (a_view a)) a).
Proof.
  intros R H. destruct (held_buf _ _ _ _ R H) as (b & Hb & Hi & Hd & <- & Hf & Hdt & Hrg & Hr & Hl & Hp).
  eexists. split; [by apply updb_Ok|]. eapply brepr_held; simpl; try done.
  - apply R.
  - by eapply wf_set; [apply R|].
  - apply R.
  - unfold vput. by rewrite Z.eqb_refl.
  - intros m Hm. unfold vput. by destruct (Z.eqb_spec m (blockno b)).
Qed.

Lemma bpin_ok s a i n : brepr s a -> (i, n) ∈ a_held a ->
  exists s', updb i (fun b => set_flags (Z.lor (flags b) B_DIRTY) b) s = Ok tt s' /\
    brepr s' (with_pinned (pin n (a_pinned a)) a).
Proof.
  intros R H. destruct (held_buf _ _ _ _ R H) as (b & Hb & Hi & Hd & <- & Hf & Hdt & Hrg & Hr & Hl & Hp).
  eexists. split; [by apply updb_Ok|]. eapply brepr_held; simpl; try done.
  - apply R.
  - by apply wf_pin, R.
  - apply R.
  - rewrite Hf, (decide_True _ _ (proj2 (elem_of_pin _ _ _) (or_introl eq_refl))). by destruct (decide _).
  - intros m Hm. rewrite elem_of_pin. tauto.
Qed.

Lemma bdata_ok s a i n : brepr s a -> (i, n) ∈ a_held a -> getb i bdata s = Ok (a_view a n) s.
Proof.
  intros R H. destruct (held_buf _ _ _ _ R H) as (b & Hb & _ & _ & _ & _ & <- & _). by apply getb_Ok.
Qed.
Lemma bblockno_ok s a i n : brepr s a -> (i, n) ∈ a_held a -> getb i blockno s = Ok n s.
Proof. intros R H. destruct (held_buf _ _ _ _ R H) as (b & Hb & _ & _ & <- & _). by apply getb_Ok. Qed.

(** The order of the list, and the searches along it. *)
Lemma list_facts s a : brepr s a -> exists l, seg (nx_of (bufs s)) (pv_of (bufs s)) head l head /\
  NoDup (head :: l) /\ length l = NBUF /\ (forall i, i ∈ l <-> (i < NBUF)%nat).
Proof.
  intros R. destruct (br_list _ _ R) as (l & Hs & Hp). exists l. split; [done|].
  assert (forall i, i ∈ l <-> (i < NBUF)%nat) as Hl. { intros i. rewrite Hp, elem_of_seq. lia. }
  split_and!; [|by rewrite Hp, length_seq|done]. constructor; [rewrite Hl; unfold head; lia|].
  rewrite Hp. apply NoDup_seq.
Qed.

Lemma search_list (step : buf -> nat) found s l :
  path (fun i => from_option step 0%nat (bufs s !! i)) head l head -> head ∉ l -> length l = NBUF ->
  (forall i, i ∈ l <-> (i < NBUF)%nat) -> length (bufs s) = S NBUF ->
  exists r, (let! i := getb head step in search (S (S NBUF)) i step found) s = Ok r s /\
    match r with
    | Some i => (i < NBUF)%nat /\ exists b, bufs s !! i = Some b /\ found b = true
    | None => forall i b, (i < NBUF)%nat -> bufs s !! i = Some b -> found b = false
    end.
Proof.
  intros Hp Hh Hlen Hl HB. destruct (lookup_lt_is_Some_2 (bufs s) head) as [h Hhd]; [unfold head; lia|].
  destruct (search_Ok step found s l (S (S NBUF)) head Hp Hh) as (r & Hr & Hspec); [|lia|].
  - intros i Hi%Hl. apply lookup_lt_is_Some_2. lia.
  - exists r. rewrite Hhd in Hr. simpl in Hr. split.
    + erewrite bind_Ok by (by apply getb_Ok). exact Hr.
    + destruct r as [i|].
      * rewrite <- Hl. done.
      * intros i b Hi. apply Hspec. by apply Hl.
Qed.

Lemma search_next s a found : brepr s a -> forall lk,
  exists r, (let! i := getb head next in search (S (S NBUF)) i next found) (put_locks lk s) = Ok r (put_locks lk s) /\
    match r with
    | Some i => (i < NBUF)%nat /\ exists b, bufs s !! i = Some b /\ found b = true
    | None => forall i b, (i < NBUF)%nat -> bufs s !! i = Some b -> found b = false
    end.
Proof.
  intros R lk. destruct (list_facts s a R) as (l & Hs & Hnd & Hlen & Hl). apply NoDup_cons in Hnd as [Hh _].
  apply (search_list next found (put_locks lk s) l); [by eapply seg_path|done..|apply R].
Qed.
Lemma search_prev s a found : brepr s a -> forall lk,
  exists r, (let! i := getb head prev in search (S (S NBUF)) i prev found) (put_locks lk s) = Ok r (put_locks lk s) /\
    match r with
    | Some i => (i < NBUF)%nat /\ exists b, bufs s !! i = Some b /\ found b = true
    | None => forall i b, (i < NBUF)%nat -> bufs s !! i = Some b -> found b = false
    end.
Proof.
  intros R lk. destruct (list_facts s a R) as (l & Hs & Hnd & Hlen & Hl). apply NoDup_cons in Hnd as [Hh _].
  apply (search_list prev found (put_locks lk s) (reverse l)).
  - by eapply seg_path, seg_reverse.
  - by rewrite elem_of_reverse.
  - by rewrite length_reverse.
  - intros i. by rewrite elem_of_reverse.
  - apply R.
Qed.

(** A buffer that can be recycled exists unless as many blocks are in use. *)
Lemma recyclable s a : brepr s a -> (length (a_pinned a) + length (a_held a) < NBUF)%nat ->
  exists i b, (i < NBUF)%nat /\ bufs s !! i = Some b /\ (refcnt b =? 0) && negb (has (flags b) B_DIRTY) = true.
Proof.
  intros R Hlt. set (free := fun i => match bufs s !! i with
    | Some b => (refcnt b =? 0) && negb (has (flags b) B_DIRTY) | None => false end).
  destruct (decide (Exists (fun i => free i = true) (seq 0 NBUF))) as [He|He].
  { apply Exists_exists in He as (i & Hi%elem_of_seq & Hf). unfold free in Hf.
    destruct (bufs s !! i) as [b|] eqn:Hb; [|done]. exists i, b. split; [lia|done]. }
  exfalso. set (bl := fun i => from_option blockno 0 (bufs s !! i)).
  assert (forall i, (i < NBUF)%nat -> i ∉ (a_held a).*1 -> exists b, bufs s !! i = Some b /\ dev b = 1 /\ bl i = blockno b /\ blockno b ∈ a_pinned a) as Hpin.
  { intros i Hi Hnh. destruct (lookup_lt_is_Some_2 (bufs s) i) as [b Hb]; [rewrite (br_len _ _ R); lia|].
    exists b. split; [done|]. pose proof (br_buf _ _ R i b Hi Hb) as Hs. unfold bstate in Hs.
    assert (free i <> true) as Hnf. { intros Hf. apply He, Exists_exists. exists i. split; [apply elem_of_seq; lia|done]. }
    unfold free in Hnf. rewrite Hb in Hnf. destruct (decide (dev b = 1)) as [Hd|].
    - destruct Hs as (Hf & _ & _ & Hs). rewrite decide_False in Hs by (intros H; apply Hnh; by eapply held_bufs).
      destruct Hs as [Hr _]. rewrite Hf, Hr in Hnf. split_and!; [done|unfold bl; by rewrite Hb|]. by destruct (decide _).
    - destruct Hs as (Hf & Hr & _). rewrite Hf, Hr in Hnf. done. }
  assert (length (filter (fun i => i ∈ (a_held a).*1) (seq 0 NBUF)) <= length (a_held a).*1)%nat as H1.
  { apply submseteq_length, NoDup_submseteq; [apply NoDup_filter, NoDup_seq|]. intros i. rewrite list_elem_of_filter. tauto. }
  assert (length (bl <$> filter (fun i => i ∉ (a_held a).*1) (seq 0 NBUF)) <= length (a_pinned a))%nat as H2.
  { apply submseteq_length, NoDup_submseteq.
    - apply NoDup_fmap_2_strong; [|apply NoDup_filter, NoDup_seq]. intros i j [Hi Hi']%list_elem_of_filter [Hj Hj']%list_elem_of_filter E.
      apply elem_of_seq in Hi', Hj'. destruct (Hpin i) as (b & Hb & Hdb & Eb & _); [lia|done|].
      destruct (Hpin j) as (c & Hc & Hdc & Ec & _); [lia|done|]. eapply (br_uniq _ _ R i j b c); [lia|lia|done..|congruence].
    - intros n (i & -> & [Hi Hi']%list_elem_of_filter)%list_elem_of_fmap. apply elem_of_seq in Hi'.
      destruct (Hpin i) as (b & _ & _ & -> & ?); [lia|done..]. }
  rewrite length_fmap in H1. rewrite length_fmap in H2. pose proof (Permutation_length (filter_app_complement (fun i => i ∈ (a_held a).*1) (seq 0 NBUF))) as H3.
  rewrite length_app, length_seq in H3. lia.
Qed.

Section Bread.
Context s a n (R : brepr s a) (Hn : 0 <= n < disksize) (Hnh : n ∉ (a_held a).*2).

Lemma held_other k m i b : (k, m) ∈ a_held a -> bufs s !! i = Some b -> refcnt b = 0 -> k <> i.
Proof.
  intros Hk Hb Hr ->. destruct (held_buf _ _ _ _ R Hk) as (c & Hc & _ & _ & _ & _ & _ & _ & Hrc & _).
  simplify_eq. lia.
Qed.

(** Both outcomes of [bget] take a buffer nobody holds and make it that of
    block [n], held. *)
Lemma brepr_hold i b b' lk :
  bufs s !! i = Some b -> (i < NBUF)%nat -> refcnt b = 0 -> next b' = next b -> prev b' = prev b -> lk_owned [] lk ->
  (forall j c, j <> i -> (j < NBUF)%nat -> bufs s !! j = Some c -> dev c = 1 -> blockno c <> n) ->
  (dev b = 1 -> blockno b <> n -> blockno b ∉ a_pinned a) ->
  dev b' = 1 -> blockno b' = n -> refcnt b' = 1 -> slocked (block_lock b') = true -> spid (block_lock b') = me ->
  flags b' = (if decide (n ∈ a_pinned a) then 6 else 2) -> bdata b' = a_view a n ->
  i ∉ (a_held a).*1 /\ brepr (mkBcache lk (<[i := b']> (bufs s)) (image s) (writes s)) (with_held ((i, n) :: a_held a) a).
Proof.
  intros Hb Hi Hr Hnx Hpv Hlk Hoth Hvict Hd Hbn Hr' Hl Hp Hf Hdt.
  assert (i ∉ (a_held a).*1) as Hih.
  { intros ([k m] & -> & Hk)%list_elem_of_fmap. by eapply held_other. }
  split; [done|]. rewrite (br_image _ _ R), (br_writes _ _ R).
  eapply (brepr_update s a i b b' (with_held ((i, n) :: a_held a) a)); try done.
  - unfold bstate. rewrite decide_True by done. rewrite Hbn. simpl. split_and!; [done|done|lia..|].
    rewrite decide_True by left. done.
  - intros j c Hne Hj Hc. destruct (decide (dev c = 1)) as [Hdc|]; [|by apply bstate_dev].
    apply (bstate_other _ _ _ _ n); simpl; [by eapply Hoth|done..|]. rewrite elem_of_cons. split; [|by right].
    intros [[= -> _]|]; done.
  - rewrite Hbn. done.
  - intros k m [[= -> ->]|Hk]%elem_of_cons; [left; done|]. right. split; [|done]. by eapply held_other.
  - simpl. intros m Hm. rewrite Hbn. destruct (decide (m = n)) as [->|Hne]; [by left|]. right. split; [done|].
    intros Hdb E. rewrite <- E in Hm, Hne. by apply Hvict.
  - by apply wf_hold; [apply R|..].
Qed.

Lemma bget_hit i b : bufs s !! i = Some b -> (i < NBUF)%nat -> dev b = 1 -> blockno b = n ->
  exists lk, bget me 1 n s = Ok i (mkBcache lk (<[i := taken (set_refcnt 1 b)]> (bufs s)) (image s) (writes s)) /\
    lk_owned [] lk.
Proof.
  intros Hb Hi Hd Hbn. destruct (c_acquire_Ok s (br_locks _ _ R)) as (l & Ha & Hl).
  destruct (search_next s a (fun b => (dev b =? 1) && (blockno b =? n)) R l) as (r & Hs & Hr).
  assert (r = Some i) as ->.
  { destruct r as [j|].
    - destruct Hr as (Hj & c & Hc & [Hdc%Z.eqb_eq Hbc%Z.eqb_eq]%andb_prop).
      f_equal. eapply (br_uniq _ _ R j i c b); [done..|congruence].
    - specialize (Hr i b Hi Hb). rewrite Hd, Hbn, !Z.eqb_refl in Hr. done. }
  pose proof (br_buf _ _ R i b Hi Hb) as Hst. unfold bstate in Hst. rewrite decide_True in Hst by done.
  destruct Hst as (_ & _ & _ & Hst). rewrite decide_False in Hst by (rewrite Hbn; intros H; apply Hnh; by eapply held_blocks).
  destruct Hst as [Hr0 Hfree].
  destruct (c_release_Ok (put_bufs (<[i := set_refcnt 1 b]> (bufs s)) (put_locks l s)) Hl) as (l' & Hrl & Hl').
  destruct (lock_at i (bufs s) Hi (br_len _ _ R) l' (set_refcnt 1 b) (image s) (writes s) Hl' Hfree) as (l'' & Hlk & Hl'').
  exists l''. split; [|done]. unfold bget. erewrite bind_Ok by exact Ha. rewrite <- bind_assoc. erewrite bind_Ok by exact Hs.
  cbv beta iota. erewrite bind_Ok by (by apply updb_Ok). cbv beta. rewrite Hr0. change (u32 (0 + 1)) with 1.
  erewrite bind_Ok by exact Hrl. erewrite bind_Ok by exact Hlk. done.
Qed.

Lemma bget_miss : (forall i b, (i < NBUF)%nat -> bufs s !! i = Some b -> dev b = 1 -> blockno b <> n) ->
  (length (a_pinned a) + length (a_held a) < NBUF)%nat ->
  exists lk i b, bufs s !! i = Some b /\ (i < NBUF)%nat /\ refcnt b = 0 /\ (dev b = 1 -> blockno b ∉ a_pinned a) /\
    bget me 1 n s = Ok i (mkBcache lk (<[i := taken (set_refcnt 1 (set_flags 0 (set_ident 1 n b)))]> (bufs s)) (image s) (writes s)) /\
    lk_owned [] lk.
Proof.
  intros Hmiss Hcap. destruct (c_acquire_Ok s (br_locks _ _ R)) as (l & Ha & Hl).
  destruct (search_next s a (fun b => (dev b =? 1) && (blockno b =? n)) R l) as (r & Hs & Hr).
  assert (r = None) as ->.
  { destruct r as [j|]; [|done]. destruct Hr as (Hj & c & Hc & [Hdc%Z.eqb_eq Hbc%Z.eqb_eq]%andb_prop).
    by destruct (Hmiss j c Hj Hc Hdc). }
  destruct (search_prev s a (fun b => (refcnt b =? 0) && negb (has (flags b) B_DIRTY)) R l) as (r & Hs' & Hr').
  destruct r as [i|]; [|destruct (recyclable s a R Hcap) as (i & b & Hi & Hb & Hf); by rewrite (Hr' i b Hi Hb) in Hf].
  destruct Hr' as (Hi & b & Hb & [Hr0%Z.eqb_eq Hndirty]%andb_prop).
  pose proof (br_buf _ _ R i b Hi Hb) as Hst. unfold bstate in Hst.
  assert (slocked (block_lock b) = false /\ (dev b = 1 -> blockno b ∉ a_pinned a)) as [Hfree Hnp].
  { destruct (decide (dev b = 1)) as [Hd|]; [|tauto]. destruct Hst as (Hf & _ & _ & Hst).
    destruct (decide ((i, blockno b) ∈ a_held a)) as [Hh|]; [by destruct (held_other _ _ _ _ Hh Hb Hr0)|].
    split; [tauto|]. intros _ Hp. rewrite decide_True in Hf by done. by rewrite Hf in Hndirty. }
  set (b' := set_refcnt 1 (set_flags 0 (set_ident 1 n b))).
  destruct (c_release_Ok (put_bufs (<[i := b']> (bufs s)) (put_locks l s)) Hl) as (l' & Hrl & Hl').
  destruct (lock_at i (bufs s) Hi (br_len _ _ R) l' b' (image s) (writes s) Hl' Hfree) as (l'' & Hlk & Hl'').
  exists l'', i, b. split_and!; [done..| |done]. unfold bget. erewrite bind_Ok by exact Ha. rewrite <- bind_assoc.
  erewrite bind_Ok by exact Hs. cbv beta iota. rewrite <- bind_assoc. erewrite bind_Ok by exact Hs'. cbv beta iota.
  erewrite bind_Ok by (by apply updb_Ok). unfold put_bufs, put_locks. cbn [b_locks bufs image writes].
  erewrite bind_Ok by (apply updb_at; [done|apply R]). erewrite bind_Ok by (apply updb_at; [done|apply R]).
  erewrite bind_Ok by exact Hrl. erewrite bind_Ok by exact Hlk. done.
Qed.
End Bread.

(** Whether block [n] is in the cache. *)
Lemma cached s a n : brepr s a -> (exists i b, bufs s !! i = Some b /\ (i < NBUF)%nat /\ dev b = 1 /\ blockno b = n) \/
  (forall i b, (i < NBUF)%nat -> bufs s !! i = Some b -> dev b = 1 -> blockno b <> n).
Proof.
  intros R. destruct (search_next s a (fun b => (dev b =? 1) && (blockno b =? n)) R (b_locks s)) as ([i|] & _ & Hr).
  - left. destruct Hr as (Hi & b & Hb & [Hd%Z.eqb_eq Hn%Z.eqb_eq]%andb_prop). by exists i, b.
  - right. intros i b Hi Hb Hd Hn. specialize (Hr i b Hi Hb). by rewrite Hd, Hn, !Z.eqb_refl in Hr.
Qed.

Lemma bread_ok s a n : brepr s a -> 0 <= n < disksize -> n ∉ (a_held a).*2 ->
  (n ∈ a_pinned a \/ (length (a_pinned a) + length (a_held a) < NBUF)%nat) ->
  exists i s', bread disksize me 1 n s = Ok i s' /\ i ∉ (a_held a).*1 /\ brepr s' (with_held ((i, n) :: a_held a) a).
Proof.
  intros R Hn Hnh Hcap. pose proof (br_len _ _ R) as HB. destruct (cached s a n R) as [(i & b & Hb & Hi & Hd & Hbn)|Hmiss].
  - destruct (bget_hit s a n R Hnh i b Hb Hi Hd Hbn) as (lk & Hg & Hlk). exists i. eexists.
    pose proof (br_buf _ _ R i b Hi Hb) as Hst. unfold bstate in Hst. rewrite decide_True in Hst by done.
    destruct Hst as (Hf & Hdt & _ & Hst). rewrite Hbn in *.
    rewrite decide_False in Hst by (intros H; apply Hnh; by eapply held_blocks). destruct Hst as [Hr0 Hfree]. split.
    + unfold bread. erewrite bind_Ok by exact Hg. erewrite bind_Ok by (by apply getb_at). simpl. rewrite Hf.
      replace (has _ B_VALID) with true by (by destruct (decide _)). cbn [negb]. by rewrite bind_ret.
    + apply (brepr_hold s a n R Hn Hnh i b); try done. intros j c Hne Hj Hc Hdc. rewrite <- Hbn. by apply (other_block s a i b j c).
  - assert (n ∉ a_pinned a) as Hnp. { intros (i & b & Hi & Hb & Hd & Hbn)%(br_pinned _ _ R). by eapply Hmiss. }
    destruct Hcap as [?|Hcap]; [done|].
    destruct (bget_miss s a n R Hn Hmiss Hcap) as (lk & i & b & Hb & Hi & Hr0 & Hvict & Hg & Hlk).
    set (b' := taken (set_refcnt 1 (set_flags 0 (set_ident 1 n b)))) in *.
    destruct (iderw_read i (bufs s) Hi HB lk b' (image s) (writes s)) as (lk' & Hrd & Hlk'); [done..|simpl; lia|].
    exists i. eexists. split.
    + unfold bread. erewrite bind_Ok by exact Hg. erewrite bind_Ok by (by apply getb_at). simpl.
      erewrite bind_Ok by exact Hrd. done.
    + apply (brepr_hold s a n R Hn Hnh i b); try done; [by intros j c _; apply Hmiss|tauto|by rewrite decide_False|].
      simpl. rewrite (br_image _ _ R), (br_writes _ _ R). symmetry. by apply (aw_clean _ (br_wf _ _ R)).
Qed.

(** ** Giving a buffer back

    [body] is a buffer without its links: moving it to the front of the list
    changes nothing else. *)
Definition body (b : buf) : buf := set_prev 0 (set_next 0 b).

Lemma brepr_relink s a B lk : brepr s a -> lk_owned [] lk -> body <$> B = body <$> bufs s -> on_list B ->
  brepr (mkBcache lk B (image s) (writes s)) a.
Proof.
  intros R Hlk HB Hl.
  assert (forall j c, B !! j = Some c -> exists d, bufs s !! j = Some d /\ body d = body c) as Hto.
  { intros j c Hc. assert ((body <$> bufs s) !! j = Some (body c)) as H by (rewrite <- HB, list_lookup_fmap, Hc; done).
    rewrite list_lookup_fmap in H. destruct (bufs s !! j) as [d|]; [|done]. exists d. simpl in H. split; [done|congruence]. }
  assert (forall j c, bufs s !! j = Some c -> exists d, B !! j = Some d /\ body d = body c) as Hfrom.
  { intros j c Hc. assert ((body <$> B) !! j = Some (body c)) as H by (rewrite HB, list_lookup_fmap, Hc; done).
    rewrite list_lookup_fmap in H. destruct (B !! j) as [d|]; [|done]. exists d. simpl in H. split; [done|congruence]. }
  split; simpl.
  - rewrite <- (length_fmap body B), HB, length_fmap. apply R.
  - done.
  - done.
  - intros i b Hi (d & Hd & E)%Hto. change (bstate a i (body b)). rewrite <- E. change (bstate a i d). by apply (br_buf _ _ R).
  - intros i j b c Hi Hj (b' & Hb & Eb)%Hto (c' & Hc & Ec)%Hto Hdb Hdc E.
    apply (f_equal dev) in Eb as Eb1. apply (f_equal dev) in Ec as Ec1. apply (f_equal blockno) in Eb, Ec. simpl in *.
    eapply (br_uniq _ _ R i j b' c'); [done..|congruence|congruence|congruence].
  - intros i n (Hi & b & (d & Hd & E)%Hfrom & Hdb & Hbn)%(br_held _ _ R). split; [done|]. exists d.
    apply (f_equal dev) in E as E1. apply (f_equal blockno) in E. simpl in *. split_and!; [done|congruence..].
  - intros n (i & b & Hi & (d & Hd & E)%Hfrom & Hdb & Hbn)%(br_pinned _ _ R). exists i, d.
    apply (f_equal dev) in E as E1. apply (f_equal blockno) in E. simpl in *. split_and!; [done|done|congruence..].
  - apply R.
  - apply R.
  - apply R.
Qed.

Lemma relink_next i v s : (i < length (bufs s))%nat -> exists B, updb i (set_next v) s = Ok tt (put_bufs B s) /\
  body <$> B = body <$> bufs s /\ (forall k, nx_of B k = fupd (nx_of (bufs s)) i v k) /\ (forall k, pv_of B k = pv_of (bufs s) k).
Proof.
  intros Hi. destruct (lookup_lt_is_Some_2 _ _ Hi) as [b Hb]. eexists. split; [by apply updb_Ok|]. split_and!.
  - rewrite list_fmap_insert. apply list_insert_id. by rewrite list_lookup_fmap, Hb.
  - intros k. by apply nx_insert.
  - intros k. rewrite pv_insert by done. unfold fupd, pv_of. destruct (decide (k = i)) as [->|]; [|done]. by rewrite Hb.
Qed.
Lemma relink_prev i v s : (i < length (bufs s))%nat -> exists B, updb i (set_prev v) s = Ok tt (put_bufs B s) /\
  body <$> B = body <$> bufs s /\ (forall k, nx_of B k = nx_of (bufs s) k) /\ (forall k, pv_of B k = fupd (pv_of (bufs s)) i v k).
Proof.
  intros Hi. destruct (lookup_lt_is_Some_2 _ _ Hi) as [b Hb]. eexists. split; [by apply updb_Ok|]. split_and!.
  - rewrite list_fmap_insert. apply list_insert_id. by rewrite list_lookup_fmap, Hb.
  - intros k. rewrite nx_insert by done. unfold fupd, nx_of. destruct (decide (k = i)) as [->|]; [|done]. by rewrite Hb.
  - intros k. by apply pv_insert.
Qed.

Lemma getb_next i s : (i < length (bufs s))%nat -> getb i next s = Ok (nx_of (bufs s) i) s.
Proof. intros Hi. destruct (lookup_lt_is_Some_2 _ _ Hi) as [b Hb]. unfold nx_of. rewrite Hb. exact (getb_Ok i next s b Hb). Qed.
Lemma getb_prev i s : (i < length (bufs s))%nat -> getb i prev s = Ok (pv_of (bufs s) i) s.
Proof. intros Hi. destruct (lookup_lt_is_Some_2 _ _ Hi) as [b Hb]. unfold pv_of. rewrite Hb. exact (getb_Ok i prev s b Hb). Qed.

Definition order (B : list buf) (l : list nat) : Prop := seg (nx_of B) (pv_of B) head l head.

(** The six assignments at the end of [brelse]. *)
Definition to_front (i : nat) : M bcache unit :=
  let! n := getb i next in
  let! p := getb i prev in
  updb n (set_prev p) ;;;
  updb p (set_next n) ;;;
  let! n := getb head next in
  updb i (set_next n) ;;;
  updb i (set_prev head) ;;;
  let! n := getb head next in
  updb n (set_prev i) ;;;
  updb head (set_next i).

Lemma to_front_Ok i s l1 l2 : length (bufs s) = S NBUF -> order (bufs s) (l1 ++ i :: l2) ->
  (l1 ++ i :: l2) ≡ₚ seq 0 NBUF ->
  exists B, to_front i s = Ok tt (put_bufs B s) /\ body <$> B = body <$> bufs s /\ order B (i :: l1 ++ l2).
Proof.
  intros HB Hs Hp. set (l := l1 ++ i :: l2) in *.
  assert (forall k, k ∈ head :: l -> (k < S NBUF)%nat) as Hlt.
  { intros k [->|Hk]%elem_of_cons; [unfold head; lia|]. rewrite Hp in Hk. apply elem_of_seq in Hk. lia. }
  assert (i ∈ l) as Hil by (unfold l; apply elem_of_app; right; left).
  assert (NoDup (head :: l)) as Hnd.
  { constructor; [rewrite Hp; intros Hk%elem_of_seq; unfold head in Hk; lia|]. rewrite Hp. apply NoDup_seq. }
  pose proof Hs as Hs'. unfold l in Hs'. apply seg_app in Hs' as [Hs1 Hs2].
  pose proof (seg_pv _ _ _ _ _ Hs1) as Hpi. pose proof (seg_nx _ _ _ _ _ Hs2) as Hni.
  assert (forall k, k ∈ head :: l1 -> k ∈ head :: l) as Hsub1 by (intros k; unfold l; set_solver).
  assert (forall k, k ∈ l2 ++ [head] -> k ∈ head :: l) as Hsub2 by (intros k; unfold l; set_solver).
  assert (head <> i) as Hhi by (intros E; apply NoDup_cons in Hnd as [Hh _]; by rewrite E in Hh).
  set (nx := nx_of (bufs s)) in *. set (pv := pv_of (bufs s)) in *.
  assert (forall B', body <$> B' = body <$> bufs s -> length B' = S NBUF) as Hlen.
  { intros B' E. by rewrite <- (length_fmap body), E, length_fmap. }
  destruct (relink_prev (nx i) (pv i) s) as (B1 & E1 & Hb1 & Hn1 & Hp1); [rewrite HB; auto|].
  destruct (relink_next (pv i) (nx i) (put_bufs B1 s)) as (B2 & E2 & Hb2 & Hn2 & Hp2); [simpl; rewrite Hlen; auto|]. simpl in *.
  assert (seg (nx_of B2) (pv_of B2) head (l1 ++ l2) head) as Hs'.
  { eapply seg_frame; [apply (seg_unlink nx pv i l2 head l1 head); [exact Hs|done|by inversion Hnd]|..]; intros z _.
    - rewrite Hn2. unfold fupd. by rewrite Hn1.
    - by rewrite Hp2, Hp1. }
  pose proof (seg_nx _ _ _ _ _ Hs') as Hnh. set (n := nx_of B2 head) in *.
  assert (n < S NBUF)%nat as Hnlt by (apply Hlt; unfold l; set_solver).
  assert (i < S NBUF)%nat as Hilt by (apply Hlt; by right).
  destruct (relink_next i n (put_bufs B2 (put_bufs B1 s))) as (B3 & E3 & Hb3 & Hn3 & Hp3); [simpl; rewrite Hlen; congruence|]. simpl in *.
  destruct (relink_prev i head (put_bufs B3 s)) as (B4 & E4 & Hb4 & Hn4 & Hp4); [simpl; rewrite Hlen; congruence|]. simpl in *.
  assert (nx_of B4 head = n) as En by (rewrite Hn4, Hn3, fupd_ne by done; done).
  destruct (relink_prev n i (put_bufs B4 s)) as (B5 & E5 & Hb5 & Hn5 & Hp5); [simpl; rewrite Hlen; congruence|]. simpl in *.
  destruct (relink_next head i (put_bufs B5 s)) as (B6 & E6 & Hb6 & Hn6 & Hp6); [simpl; rewrite Hlen; [unfold head; lia|congruence]|]. simpl in *.
  exists B6. split_and!.
  - unfold to_front. erewrite bind_Ok by (apply getb_next; lia). erewrite bind_Ok by (apply getb_prev; lia).
    erewrite bind_Ok by exact E1. erewrite bind_Ok by exact E2.
    erewrite bind_Ok by (apply getb_next; simpl; rewrite Hlen; [unfold head; lia|congruence]). cbn [bufs put_bufs]. fold n.
    erewrite bind_Ok by exact E3. erewrite bind_Ok by exact E4.
    erewrite bind_Ok by (apply getb_next; simpl; rewrite Hlen; [unfold head; lia|congruence]). cbn [bufs put_bufs]. rewrite En.
    erewrite bind_Ok by exact E5. exact E6.
  - congruence.
  - unfold order. eapply seg_frame; [apply (seg_push (nx_of B2) (pv_of B2) head (l1 ++ l2) i Hs')|..].
    + intros [E|Hk]%elem_of_cons; [done|]. unfold l in Hnd. apply NoDup_cons in Hnd as [_ Hnd].
      apply NoDup_app in Hnd as (_ & Hd & Hnd). apply NoDup_cons in Hnd as [Hni2 _]. specialize (Hd i). set_solver.
    + eapply sublist_NoDup; [exact Hnd|]. unfold l. apply sublist_skip, sublist_app; [done|by apply sublist_cons].
    + intros z _. rewrite Hn6. unfold fupd. destruct (decide (z = head)); [done|]. rewrite Hn5, Hn4, Hn3. done.
    + intros z _. rewrite Hp6, Hp5. unfold fupd. fold n. destruct (decide (z = n)); [done|]. rewrite Hp4. unfold fupd.
      destruct (decide (z = i)); [done|]. by rewrite Hp3.
Qed.

Lemma brelse_order s a i n l1 l2 : brepr s a -> (i, n) ∈ a_held a -> (n ∈ a_pinned a \/ a_view a n = a_disk a n) ->
  order (bufs s) (l1 ++ i :: l2) -> (l1 ++ i :: l2) ≡ₚ seq 0 NBUF ->
  exists s', brelse me i s = Ok tt s' /\ brepr s' (with_held (unhold i (a_held a)) a) /\ order (bufs s') (i :: l1 ++ l2).
Proof.
  intros R H Hcl Hord Hpm. destruct (held_buf _ _ _ _ R H) as (b & Hb & Hi & Hd & Hbn & Hf & Hdt & Hrg & Hr & Hl & Hp).
  pose proof (br_len _ _ R) as HB.
  destruct (holding_buf_Ok i s b Hb Hi (br_locks _ _ R) Hl Hp) as (k1 & Hh & Ho1).
  destruct (unlock_buf_Ok i (put_locks k1 s) b Hb Hi Ho1) as (k2 & Hu & Ho2).
  destruct (c_acquire_Ok (mkBcache k2 (<[i := dropped b]> (bufs s)) (image s) (writes s)) Ho2) as (k3 & Ha & Ho3).
  set (b' := set_refcnt 0 (dropped b)).
  assert (brepr (mkBcache k2 (<[i := b']> (bufs s)) (image s) (writes s)) (with_held (unhold i (a_held a)) a)) as R'.
  { rewrite (br_image _ _ R), (br_writes _ _ R). subst n.
    eapply (brepr_update s a i b b' (with_held (unhold i (a_held a)) a)); simpl; try done.
    - unfold bstate. rewrite decide_True by done. simpl. split_and!; [done|done|lia..|].
      rewrite decide_False; [done|]. by rewrite elem_of_unhold; intros [].
    - intros j c Hne Hj Hc. destruct (decide (dev c = 1)) as [Hdc|]; [|by apply bstate_dev].
      apply (bstate_other _ _ _ _ (blockno b)); simpl; [by apply (other_block s a i b j c)|done..|].
      rewrite elem_of_unhold. tauto.
    - intros j c. by apply (other_block s a i b j c).
    - intros k m. rewrite elem_of_unhold. by right.
    - intros m Hm. destruct (decide (m = blockno b)); [by left|right; by split].
    - by eapply wf_unhold; [apply R|..]. }
  destruct (to_front_Ok i (mkBcache k3 (<[i := b']> (bufs s)) (image s) (writes s)) l1 l2) as (B & Hfr & HbB & Hor).
  { simpl. by rewrite length_insert. }
  { unfold order. eapply seg_frame; [exact Hord|..]; intros z _; by destruct (links_keep (bufs s) i b b' z Hb). }
  { done. }
  destruct (c_release_Ok (mkBcache k3 B (image s) (writes s)) Ho3) as (k4 & Hre & Ho4).
  exists (mkBcache k4 B (image s) (writes s)). split_and!.
  - unfold brelse. erewrite bind_Ok by exact Hh. cbn [negb]. erewrite bind_Ok by exact Hu.
    erewrite bind_Ok by exact Ha. cbn [put_locks bufs image writes].
    erewrite bind_Ok by (apply updb_at; [done..]). cbv beta. simpl refcnt. rewrite Hr. change (u32 (1 - 1)) with 0. fold b'.
    erewrite bind_Ok by (by apply getb_at). cbn [refcnt set_refcnt b' Z.eqb]. change (refcnt b' =? 0) with true. cbv iota.
    erewrite bind_Ok by exact Hfr. exact Hre.
  - apply (brepr_relink _ _ B k4 R' Ho4); [done|]. exists (i :: l1 ++ l2). split; [done|].
    rewrite <- Hpm. apply Permutation_middle.
  - done.
Qed.

Lemma brelse_ok s a i n : brepr s a -> (i, n) ∈ a_held a -> (n ∈ a_pinned a \/ a_view a n = a_disk a n) ->
  exists s', brelse me i s = Ok tt s' /\ brepr s' (with_held (unhold i (a_held a)) a).
Proof.
  intros R H Hcl. destruct (br_list _ _ R) as (l & Hs & Hp). destruct (br_held _ _ R _ _ H) as (Hi & _).
  assert (i ∈ l) as (l1 & l2 & ->)%list_elem_of_split by (rewrite Hp; apply elem_of_seq; lia).
  destruct (brelse_order s a i n l1 l2) as (s' & ? & ? & _); [done..|]. by exists s'.
Qed.

Definition bio_cache : Cache bcache := {|
  cache_cap := NBUF;
  cache_size := disksize;
  cread := bread disksize me;
  cwrite := bwrite disksize me;
  crelse := brelse me;
  cget := fun i => getb i bdata;
  cset := fun i x => updb i (set_data x);
  cblockno := fun i => getb i blockno;
  cpin := fun i => updb i (fun b => set_flags (Z.lor (flags b) B_DIRTY) b);
  crepr := brepr;
  crepr_wf := br_wf;
  cread_ok := bread_ok;
  cwrite_ok := bwrite_ok;
  crelse_ok := brelse_ok;
  cget_ok := bdata_ok;
  cblockno_ok := bblockno_ok;
  cset_ok := bset_ok;
  cpin_ok := bpin_ok
|}.

(** ** The start

    The cache is zero when the kernel starts; [binit] puts every buffer on the
    list. *)
Definition zero_buf : buf := mkBuf 0 0 0 (mkSleeplock false "" 0 0) 0 0 0 [].
Definition zero_cache lk (img : Z -> block) : bcache := mkBcache lk (replicate (S NBUF) zero_buf) img [].

Lemma binit_ok lk img : lk_owned [] lk -> exists s, binit (zero_cache lk img) = Ok tt s /\ brepr s (clean img).
Proof.
  intros Ho. eexists. split; [vm_compute; reflexivity|]. split; simpl.
  - done.
  - exists (reverse (seq 0 NBUF)). split; [repeat (split; [done|]); done|]. apply reverse_Permutation.
  - done.
  - intros i b Hi Hb. apply list_elem_of_lookup_2 in Hb. revert Hb. repeat (rewrite elem_of_cons; intros [->|Hb]; [by repeat split|revert Hb]).
    by intros []%not_elem_of_nil.
  - intros i j b c _ _ Hb _ Hd. exfalso. apply list_elem_of_lookup_2 in Hb. revert Hb.
    repeat (rewrite elem_of_cons; intros [->|Hb]; [done|revert Hb]). by intros []%not_elem_of_nil.
  - intros i n []%not_elem_of_nil.
  - intros n []%not_elem_of_nil.
  - apply clean_wf.
  - done.
  - done.
Qed.
End Refine.

(** C20 The buffer cache is transparent: after [binit], any sequence of block
    reads and block updates through [bread], [bwrite] and [brelse] succeeds,
    each returns what an array of blocks would hold at that point, and at the
    end the disk itself holds the array's contents, however many more blocks
    than buffers were used. *)
Theorem bio_transparent {L} `{HL : Locks L} (Hc : (NBUF < lk_count)%nat) disksize me lk img rs s :
  lk_owned [] lk -> binit (zero_cache lk img) = Ok tt s -> Forall (fun r => 0 <= target r < disksize) rs ->
  exists s', serve_all (HC := bio_cache disksize me Hc) rs s = Ok (on_array img rs).1 s' /\
    forall n, disk s' n = (on_array img rs).2 n.
Proof.
  intros Hl Hb Hall. destruct (binit_ok disksize me lk img Hl) as (s0 & E & R). rewrite E in Hb. injection Hb as <-. clear E.
  destruct (serve_all_ok (HC := bio_cache disksize me Hc) rs s0 (clean img) R) as (s' & a' & Hs & R' & _ & Hd); [done|simpl; unfold NBUF; lia|done|].
  exists s'. split; [exact Hs|]. intros n. rewrite <- Hd. unfold disk, a_disk. by rewrite (br_image _ _ _ _ R'), (br_writes _ _ _ _ R').
Qed.

Lemma bio_transparent_witness :
  let rs := map (fun k => Update (Z.of_nat k) [Z.of_nat k + 1]) (seq 0 40) ++ map (fun k => Fetch (Z.of_nat k)) (seq 0 41) in
  exists Hc s s', serve_all (HC := bio_cache (HL := spin_locks 31) 100 1 Hc) rs s = Ok (on_array (fun _ => [0]) rs).1 s' /\
    disk s' 7 = [8] /\ disk s' 50 = [0].
Proof.
  intros rs. assert ((NBUF < lk_count (Locks := spin_locks 31))%nat) as Hc by (unfold NBUF; simpl; lia).
  assert (lk_owned (Locks := spin_locks 31) [] (demo_locks 31)) as Ho by (apply demo_locks_owned; lia).
  destruct (binit_ok (HL := spin_locks 31) 100 1 (demo_locks 31) (fun _ => [0]) Ho) as (s & E & _).
  assert (Forall (fun r => 0 <= target r < 100) rs) as Hr by (by apply (bool_decide_unpack _)).
  destruct (bio_transparent (HL := spin_locks 31) Hc 100 1 (demo_locks 31) (fun _ => [0]) rs s Ho E Hr) as (s' & Hs & Hd).
  exists Hc, s, s'. split; [exact Hs|]. rewrite !Hd. split; reflexivity.
Defined.
