(* ===== verification/Log.v ===== *)
(** * The log: log.c

    The write-ahead log of the file system, over any buffer cache that keeps
    the promises of [Cache].  A call that has to wait leaves the lock and the
    CPU ([Blocked]), counted in [lwaiting]; it starts over when woken up.
    Before it, the integers in a disk block: a block is a list of bytes; an
    [int] or [uint] of a structure that a buffer's [data] is cast to lies at its
    offset, least significant byte first. *)

From stdpp Require Import base list strings.
From Stdlib Require Import ZArith Lia.
From S2P Require Import Prelude Spinlock Sync CacheSpec.
Local Open Scope Z_scope.

Definition BSIZE : nat := 512.

Definition byte_at (b : block) (k : nat) : Z := nth k b 0.
Definition word (b : block) (k : nat) : Z :=
  byte_at b k + 2 ^ 8 * byte_at b (k + 1) + 2 ^ 16 * byte_at b (k + 2) + 2 ^ 24 * byte_at b (k + 3).
Definition put_word (k : nat) (v : Z) (b : block) : block :=
  <[(k + 3)%nat := v / 2 ^ 24 mod 256]> (<[(k + 2)%nat := v / 2 ^ 16 mod 256]>
    (<[(k + 1)%nat := v / 2 ^ 8 mod 256]> (<[k := v mod 256]> b))).

(** [memmove(to->data, from->data, BSIZE)]. *)
Definition copy_block (from to : block) : block := take BSIZE from ++ drop BSIZE to.

Lemma byte_insert b i k v : (i < length b)%nat -> byte_at (<[i := v]> b) k = if decide (k = i) then v else byte_at b k.
Proof.
  intros Hi. unfold byte_at. rewrite !nth_lookup. destruct (decide (k = i)) as [->|Hne].
  - by rewrite list_lookup_insert_eq.
  - by rewrite list_lookup_insert_ne.
Qed.

Lemma length_put_word k v b : length (put_word k v b) = length b.
Proof. unfold put_word. by rewrite !length_insert. Qed.

Lemma byte_put_word k v b j : (k + 4 <= length b)%nat -> byte_at (put_word k v b) j =
  if decide (j = k + 3)%nat then v / 2 ^ 24 mod 256 else if decide (j = k + 2)%nat then v / 2 ^ 16 mod 256 else
  if decide (j = k + 1)%nat then v / 2 ^ 8 mod 256 else if decide (j = k) then v mod 256 else byte_at b j.
Proof. intros Hk. unfold put_word. rewrite !byte_insert by (rewrite ?length_insert; lia). done. Qed.

Lemma word_put_eq k v b : (k + 4 <= length b)%nat -> word (put_word k v b) k = u32 v.
Proof.
  intros Hk. unfold word, u32. rewrite !byte_put_word by done. repeat (rewrite ?decide_True by done; rewrite ?decide_False by lia).
  Z.to_euclidean_division_equations. lia.
Qed.
Lemma word_put_ne k v b j : (k + 4 <= length b)%nat -> (k + 4 <= j \/ j + 4 <= k)%nat -> word (put_word k v b) j = word b j.
Proof.
  intros Hk Hj. unfold word. rewrite !byte_put_word by done. by rewrite !decide_False by lia.
Qed.

Lemma copy_block_full from to : length from = BSIZE -> length to = BSIZE -> copy_block from to = from.
Proof. intros H1 H2. unfold copy_block. rewrite take_ge by lia. rewrite drop_ge by lia. apply app_nil_r. Qed.

Lemma s32_small v : 0 <= v < 2 ^ 31 -> s32 v = v.
Proof. intros H. unfold s32. rewrite Z.mod_small by lia. lia. Qed.
Lemma u32_small v : 0 <= v < 2 ^ 32 -> u32 v = v.
Proof. intros H. unfold u32. by rewrite Z.mod_small by lia. Qed.

(** * The log: log.c *)

Definition MAXOPBLOCKS : Z := 10.
Definition LOGSIZE : Z := MAXOPBLOCKS * 3.
Definition sizeof_logheader : Z := 4 + 4 * LOGSIZE.

Record log := mkLog {
  start : Z;
  lsize : Z;
  outstanding : Z;
  committing : bool;
  ldev : Z;
  lh_n : Z;
  lh_block : list Z;      (** [LOGSIZE] entries *)
  lwaiting : nat          (** processes asleep on [&log] *)
}.
Definition set_area (st sz dv : Z) (x : log) : log :=
  mkLog st sz (outstanding x) (committing x) dv (lh_n x) (lh_block x) (lwaiting x).
Definition set_outstanding (v : Z) (x : log) : log :=
  mkLog (start x) (lsize x) v (committing x) (ldev x) (lh_n x) (lh_block x) (lwaiting x).
Definition set_committing (v : bool) (x : log) : log :=
  mkLog (start x) (lsize x) (outstanding x) v (ldev x) (lh_n x) (lh_block x) (lwaiting x).
Definition set_n (v : Z) (x : log) : log :=
  mkLog (start x) (lsize x) (outstanding x) (committing x) (ldev x) v (lh_block x) (lwaiting x).
Definition set_lh_block (v : list Z) (x : log) : log :=
  mkLog (start x) (lsize x) (outstanding x) (committing x) (ldev x) (lh_n x) v (lwaiting x).
Definition set_lwaiting (v : nat) (x : log) : log :=
  mkLog (start x) (lsize x) (outstanding x) (committing x) (ldev x) (lh_n x) (lh_block x) v.

(** [struct logheader] in a block: [n] at offset 0, [block[i]] at [4 + 4 * i]. *)
Definition hd_n (b : block) : Z := s32 (word b 0).
Definition hd_block (b : block) (i : nat) : Z := s32 (word b (4 + 4 * i)).

Record superblock := mkSuperblock {
  sb_size : Z; sb_nblocks : Z; sb_ninodes : Z; sb_nlog : Z; sb_logstart : Z; sb_inodestart : Z; sb_bmapstart : Z
}.
Definition read_superblock (b : block) : superblock :=
  mkSuperblock (word b 0) (word b 4) (word b 8) (word b 12) (word b 16) (word b 20) (word b 24).

Section Log.
Context {K S : Type} `{HK : Lock K} `{HC : Cache S}.

Record fs_state := mkFs { l_lock : K; lg : log; l_cache : S }.
Definition put_llock (x : K) (s : fs_state) : fs_state := mkFs x (lg s) (l_cache s).
Definition put_lg (x : log) (s : fs_state) : fs_state := mkFs (l_lock s) x (l_cache s).
Definition put_cache (x : S) (s : fs_state) : fs_state := mkFs (l_lock s) (lg s) x.

Definition l_acquire : M fs_state unit := zoom l_lock put_llock lk_acquire.
Definition l_release : M fs_state unit := zoom l_lock put_llock lk_release.
Definition upd_lg (f : log -> log) : M fs_state unit := modify (fun s => put_lg (f (lg s)) s).
Definition on_cache {A : Type} (m : M S A) : M fs_state A := zoom l_cache put_cache m.

(** fs.c *)
Definition readsb (dev : Z) : M fs_state superblock :=
  let! bp := on_cache (cread dev 1) in
  let! data := on_cache (cget bp) in
  on_cache (crelse bp) ;;;
  ret (read_superblock data).

Definition install_trans : M fs_state unit :=
  let! l := gets lg in
  foreach (seq 0 (Z.to_nat (lh_n l))) (fun tail =>
    let! lbuf := on_cache (cread (ldev l) (start l + Z.of_nat tail + 1)) in
    let! home := deref (lh_block l !! tail) in
    let! dbuf := on_cache (cread (ldev l) home) in
    let! from := on_cache (cget lbuf) in
    let! to := on_cache (cget dbuf) in
    on_cache (cset dbuf (copy_block from to)) ;;;
    on_cache (cwrite dbuf) ;;;
    on_cache (crelse lbuf) ;;;
    on_cache (crelse dbuf)).

Definition read_head : M fs_state unit :=
  let! l := gets lg in
  let! buf := on_cache (cread (ldev l) (start l)) in
  let! lh := on_cache (cget buf) in
  upd_lg (set_n (hd_n lh)) ;;;
  foreach (seq 0 (Z.to_nat (hd_n lh))) (fun i =>
    let! l := gets lg in
    deref (lh_block l !! i) ;;;
    upd_lg (fun l => set_lh_block (<[i := hd_block lh i]> (lh_block l)) l)) ;;;
  on_cache (crelse buf).

Definition write_head : M fs_state unit :=
  let! l := gets lg in
  let! buf := on_cache (cread (ldev l) (start l)) in
  let! hb := on_cache (cget buf) in
  on_cache (cset buf (put_word 0 (lh_n l) hb)) ;;;
  foreach (seq 0 (Z.to_nat (lh_n l))) (fun i =>
    let! home := deref (lh_block l !! i) in
    let! hb := on_cache (cget buf) in
    on_cache (cset buf (put_word (4 + 4 * i) home hb))) ;;;
  on_cache (cwrite buf) ;;;
  on_cache (crelse buf).

Definition recover_from_log : M fs_state unit :=
  read_head ;;;
  install_trans ;;;
  upd_lg (set_n 0) ;;;
  write_head.

Definition initlog (dev : Z) : M fs_state unit :=
  if Z.of_nat BSIZE <=? sizeof_logheader then panic "initlog: too big logheader" else
  let! sb := readsb dev in
  upd_lg (set_area (sb_logstart sb) (sb_nlog sb) dev) ;;;
  recover_from_log.

Definition begin_op : M fs_state unit :=
  l_acquire ;;;
  let! l := gets lg in
  if committing l || (LOGSIZE <? lh_n l + (outstanding l + 1) * MAXOPBLOCKS) then
    upd_lg (set_lwaiting (Datatypes.S (lwaiting l))) ;;;
    l_release ;;;
    (fun s => Blocked s)
  else
    upd_lg (set_outstanding (outstanding l + 1)) ;;;
    l_release.

Definition write_log : M fs_state unit :=
  let! l := gets lg in
  foreach (seq 0 (Z.to_nat (lh_n l))) (fun tail =>
    let! to := on_cache (cread (ldev l) (start l + Z.of_nat tail + 1)) in
    let! home := deref (lh_block l !! tail) in
    let! from := on_cache (cread (ldev l) home) in
    let! x := on_cache (cget from) in
    let! y := on_cache (cget to) in
    on_cache (cset to (copy_block x y)) ;;;
    on_cache (cwrite to) ;;;
    on_cache (crelse from) ;;;
    on_cache (crelse to)).

Definition commit : M fs_state unit :=
  let! l := gets lg in
  if 0 <? lh_n l then
    write_log ;;;
    write_head ;;;
    install_trans ;;;
    upd_lg (set_n 0) ;;;
    write_head
  else ret tt.

Definition end_op : M fs_state unit :=
  l_acquire ;;;
  let! l := gets lg in
  upd_lg (set_outstanding (outstanding l - 1)) ;;;
  if committing l then panic "log.committing" else
  let do_commit := outstanding l - 1 =? 0 in
  (if do_commit then upd_lg (set_committing true) else upd_lg (set_lwaiting 0)) ;;;
  l_release ;;;
  if do_commit then
    commit ;;;
    l_acquire ;;;
    upd_lg (fun l => set_lwaiting 0 (set_committing false l)) ;;;
    l_release
  else ret tt.

(** The index at which the loop of [log_write] stops. *)
Definition absorb (l : log) (n : Z) : nat :=
  match list_find (fun k => k = n) (take (Z.to_nat (lh_n l)) (lh_block l)) with
  | Some (i, _) => i
  | None => Z.to_nat (lh_n l)
  end.

Definition log_write (b : nat) : M fs_state unit :=
  let! l := gets lg in
  if (LOGSIZE <=? lh_n l) || (lsize l - 1 <=? lh_n l) then panic "too big a transaction" else
  if outstanding l <? 1 then panic "log_write outside of trans" else
  l_acquire ;;;
  let! n := on_cache (cblockno b) in
  let i := absorb l n in
  deref (lh_block l !! i) ;;;
  upd_lg (set_lh_block (<[i := n]> (lh_block l))) ;;;
  (if Z.of_nat i =? lh_n l then upd_lg (set_n (lh_n l + 1)) else ret tt) ;;;
  on_cache (cpin b) ;;;
  l_release.
End Log.
