(* ===== verification/LogRefine.v ===== *)
(** * What the calls of the log do to the cache and the disk

    The writes of [install_trans], [write_log] and [write_head], in order,
    for any cache that keeps the promises of [Cache]. *)

From stdpp Require Import base list strings.
From Stdlib Require Import ZArith Lia.
From S2P Require Import Prelude Spinlock Sync CacheSpec Log.
Local Open Scope Z_scope.

Lemma foreach_Ok {S} (I : nat -> S -> Prop) n : forall a (f : nat -> M S unit) s,
  I a s -> (forall i s, (a <= i < a + n)%nat -> I i s -> exists s', f i s = Ok tt s' /\ I (Datatypes.S i) s') ->
  exists s', foreach (seq a n) f s = Ok tt s' /\ I (a + n)%nat s'.
Proof.
  induction n as [|n IH]; intros a f s Hs Hf; simpl.
  - exists s. by rewrite Nat.add_0_r.
  - destruct (Hf a s) as (s1 & E & H1); [lia|done|].
    destruct (IH (Datatypes.S a) f s1 H1) as (s2 & E2 & H2); [intros i s' Hi; apply Hf; lia|].
    exists s2. erewrite bind_Ok by exact E. by rewrite Nat.add_succ_r.
Qed.

(** ** The header *)

Definition log_blocks (b : block) : list Z := map (hd_block b) (seq 0 (Z.to_nat (hd_n b))).

(** What [write_head] makes of the block: [n] and then the numbers. *)
Definition put_head (bl : list Z) (b : block) : block :=
  foldl (fun b i => put_word (4 + 4 * i) (nth i bl 0) b) (put_word 0 (Z.of_nat (length bl)) b) (seq 0 (length bl)).

Definition is_block (k : Z) : Prop := 0 <= k < 2 ^ 31.

Lemma put_words_length bl n : forall k b, length (foldl (fun b i => put_word (4 + 4 * i) (nth i bl 0) b) b (seq k n)) = length b.
Proof. induction n as [|n IH]; intros k b; [done|]. simpl. rewrite IH. apply length_put_word. Qed.
Lemma length_put_head bl b : length (put_head bl b) = length b.
Proof. unfold put_head. rewrite put_words_length. apply length_put_word. Qed.

Lemma put_words_low bl n : forall k b j, (4 + 4 * (k + n) <= length b)%nat -> (j + 4 <= 4 + 4 * k)%nat ->
  word (foldl (fun b i => put_word (4 + 4 * i) (nth i bl 0) b) b (seq k n)) j = word b j.
Proof.
  induction n as [|n IH]; intros k b j Hb Hj; [done|]. simpl. rewrite IH by (rewrite ?length_put_word; lia).
  apply word_put_ne; lia.
Qed.
Lemma put_words_at bl n : forall k b i, (4 + 4 * (k + n) <= length b)%nat -> (k <= i < k + n)%nat ->
  word (foldl (fun b i => put_word (4 + 4 * i) (nth i bl 0) b) b (seq k n)) (4 + 4 * i) = u32 (nth i bl 0).
Proof.
  induction n as [|n IH]; intros k b i Hb Hi; [lia|]. cbn [seq foldl]. destruct (decide (i = k)) as [->|Hne].
  - rewrite put_words_low by (rewrite ?length_put_word; lia). apply word_put_eq. lia.
  - apply IH; rewrite ?length_put_word; lia.
Qed.

Lemma put_head_n bl b : length b = BSIZE -> (length bl <= 30)%nat -> hd_n (put_head bl b) = Z.of_nat (length bl).
Proof.
  intros Hb Hl. unfold hd_n, put_head, BSIZE in *. rewrite put_words_low by (rewrite ?length_put_word; lia).
  rewrite word_put_eq by lia. rewrite u32_small, s32_small by lia. done.
Qed.
Lemma log_blocks_put_head bl b : length b = BSIZE -> (length bl <= 30)%nat -> Forall is_block bl ->
  log_blocks (put_head bl b) = bl.
Proof.
  intros Hb Hl Hbl. unfold log_blocks. rewrite put_head_n, Nat2Z.id by done.
  apply list_eq. intros i. rewrite list_lookup_fmap. destruct (decide (i < length bl)%nat) as [Hi|Hi].
  - rewrite lookup_seq_lt by done. simpl. unfold hd_block, put_head, BSIZE in *.
    destruct (lookup_lt_is_Some_2 bl i Hi) as [k Hk].
    rewrite put_words_at by (rewrite ?length_put_word; lia). rewrite (nth_lookup_Some _ _ _ _ Hk).
    pose proof (Forall_lookup_1 _ _ _ _ Hbl Hk) as [? ?]. by rewrite u32_small, s32_small, Hk by lia.
  - rewrite lookup_seq_ge, lookup_ge_None_2 by lia. done.
Qed.

Section Refine.
Context {K S : Type} `{HK : Lock K} `{HC : Cache S}.
Notation fs_state := (fs_state (K := K) (S := S)).
Implicit Types (k : K) (l : log) (c : S).

Lemma on_cache_Ok {A} (m : M S A) k l c x c' :
  m c = Ok x c' -> on_cache m (mkFs k l c) = Ok x (mkFs k l c').
Proof. intros E. unfold on_cache. by erewrite zoom_Ok by exact E. Qed.

Lemma in_two {A} (x y z : A) : z ∈ [x; y] -> z = y \/ z = x.
Proof. intros [->|[->|[]%not_elem_of_nil]%elem_of_cons]%elem_of_cons; auto. Qed.

(** ** Copying one block to another *)

Definition copied_block (from to : Z) (a : acache) : acache :=
  mkAcache (vput to (a_view a from) (a_view a)) (a_image a) (a_writes a ++ [(to, a_view a from)])
    (unpin to (a_pinned a)) [].

Lemma copy_tail k l c a bf bt nf nt : crepr c a -> (bf, nf) ∈ a_held a -> (bt, nt) ∈ a_held a -> nf <> nt -> bf <> bt ->
  (forall x, x ∈ a_held a -> x = (bf, nf) \/ x = (bt, nt)) ->
  length (a_view a nf) = BSIZE -> length (a_view a nt) = BSIZE -> (nf ∈ a_pinned a \/ a_view a nf = a_disk a nf) ->
  exists c', (let! x := on_cache (cget bf) in
    let! y := on_cache (cget bt) in
    on_cache (cset bt (copy_block x y)) ;;;
    on_cache (cwrite bt) ;;;
    on_cache (crelse bf) ;;;
    on_cache (crelse bt)) (mkFs k l c) = Ok tt (mkFs k l c') /\ crepr c' (copied_block nf nt a).
Proof.
  intros R Hf Ht Hne Hbe Hall Hlf Hlt Hcl.
  pose proof (cget_ok _ _ bf nf R Hf) as E1. pose proof (cget_ok _ _ bt nt R Ht) as E2.
  destruct (cset_ok _ _ bt nt (copy_block (a_view a nf) (a_view a nt)) R Ht) as (c1 & E3 & R1).
  rewrite copy_block_full in R1 by done.
  destruct (cwrite_ok _ _ bt nt R1 Ht) as (c2 & E4 & R2). simpl in R2. rewrite vput_eq in R2.
  destruct (crelse_ok _ _ bf nf R2 Hf) as (c3 & E5 & R3).
  { simpl. unfold a_disk. simpl. rewrite elem_of_unpin, disk_after_snoc, vput_ne by done.
    destruct (Z.eqb_spec nt nf); [congruence|]. destruct Hcl; [by left|by right]. }
  destruct (crelse_ok _ _ bt nt R3) as (c4 & E6 & R4).
  { simpl. apply elem_of_unhold. by split. }
  { simpl. right. unfold a_disk. simpl. by rewrite disk_after_snoc, Z.eqb_refl, vput_eq. }
  exists c4. split.
  - erewrite bind_Ok by (apply on_cache_Ok; exact E1). erewrite bind_Ok by (apply on_cache_Ok; exact E2).
    erewrite bind_Ok by (apply on_cache_Ok; exact E3). erewrite bind_Ok by (apply on_cache_Ok; exact E4).
    erewrite bind_Ok by (apply on_cache_Ok; exact E5). by apply on_cache_Ok.
  - simpl in R4. assert (unhold bt (unhold bf (a_held a)) = []) as Hnil.
    { apply elem_of_nil_inv. intros [x n]. rewrite !elem_of_unhold. intros (H1 & H2 & H3).
      destruct (Hall _ H3) as [[= -> ->]|[= -> ->]]; done. }
    rewrite Hnil in R4. exact R4.
Qed.

(** Two blocks read one after the other. *)
Lemma two_reads k l c a n1 n2 : crepr c a -> a_held a = [] -> n1 <> n2 -> 0 <= n1 < cache_size -> 0 <= n2 < cache_size ->
  (n1 ∈ a_pinned a \/ (length (a_pinned a) < cache_cap)%nat) ->
  (n2 ∈ a_pinned a \/ (Datatypes.S (length (a_pinned a)) < cache_cap)%nat) ->
  exists b1 b2 c1 c2, on_cache (cread 1 n1) (mkFs k l c) = Ok b1 (mkFs k l c1) /\
    on_cache (cread 1 n2) (mkFs k l c1) = Ok b2 (mkFs k l c2) /\ b1 <> b2 /\
    crepr c2 (with_held [(b2, n2); (b1, n1)] a).
Proof.
  intros R Hh Hne H1 H2 Hp1 Hp2.
  destruct (cread_ok c a n1 R H1) as (b1 & c1 & E1 & Hb1 & R1); [rewrite Hh; apply not_elem_of_nil| |].
  { rewrite Hh. simpl. destruct Hp1; [by left|right; lia]. }
  rewrite Hh in R1.
  destruct (cread_ok c1 _ n2 R1 H2) as (b2 & c2 & E2 & Hb2 & R2); simpl.
  { intros Hin. apply list_elem_of_singleton in Hin. congruence. }
  { destruct Hp2; [by left|right; lia]. }
  exists b1, b2, c1, c2. simpl in Hb2. apply not_elem_of_cons in Hb2 as [Hb2 _].
  split_and!; [by apply on_cache_Ok|by apply on_cache_Ok|done|exact R2].
Qed.

(** ** The copying loops *)

Section Area.
Context (st sz : Z) (Hst : 0 <= st) (Hsz : st + sz <= cache_size).

Definition in_area (n : Z) : Prop := st <= n < st + sz.
Definition home (n : Z) : Prop := 0 <= n < cache_size /\ ~ in_area n.

(** The header in memory lists the blocks [bl]. *)
Record log_mem l (bl : list Z) : Prop := {
  lm_start : start l = st;
  lm_dev : ldev l = 1;
  lm_n : lh_n l = Z.of_nat (length bl);
  lm_bl : take (length bl) (lh_block l) = bl;
  lm_len : length (lh_block l) = 30%nat;
  lm_home : Forall home bl;
  lm_fits : Z.of_nat (length bl) < sz
}.

(** Nothing is held, blocks are whole, and the log's are clean. *)
Record between (a : acache) : Prop := {
  bt_held : a_held a = [];
  bt_len : forall n, length (a_view a n) = BSIZE;
  bt_area : forall n, n ∈ a_pinned a -> ~ in_area n;
  bt_cap : (length (a_pinned a) < cache_cap)%nat
}.

Lemma log_mem_lookup l bl i : log_mem l bl -> (i < length bl)%nat ->
  exists n, bl !! i = Some n /\ lh_block l !! i = Some n /\ home n /\ in_area (st + Z.of_nat i + 1).
Proof.
  intros [_ _ _ Hbl _ Hh Hf] Hi. destruct (lookup_lt_is_Some_2 bl i Hi) as [n Hn]. exists n. split; [done|].
  split_and!; [|by eapply Forall_lookup_1|unfold in_area; lia].
  rewrite <- Hbl in Hn. by apply lookup_take_Some in Hn as [? _].
Qed.

Lemma view_clean c a n : crepr c a -> between a -> n ∉ a_pinned a -> a_view a n = a_disk a n.
Proof. intros R [Hh _ _ _] Hn. apply (crepr_wf _ _ R); [done|]. rewrite Hh. apply not_elem_of_nil. Qed.

Lemma length_unpin n p : (length (unpin n p) <= length p)%nat.
Proof. apply length_filter. Qed.
Lemma length_unpin_lt n p : n ∈ p -> (length (unpin n p) < length p)%nat.
Proof. intros Hn. apply (length_filter_lt _ _ n); [done|]. intros H. by apply H. Qed.

Lemma between_copied from to a : between a -> between (copied_block from to a).
Proof.
  intros [Hh Hl Ha Hc]. split; simpl; [done| | |].
  - intros n. unfold vput. by destruct (n =? to).
  - intros n [_ Hn]%elem_of_unpin. by apply Ha.
  - pose proof (length_unpin to (a_pinned a)). lia.
Qed.

Definition roomy (bl : list Z) (a : acache) : Prop :=
  forall n, n ∈ bl -> n ∈ a_pinned a \/ (Datatypes.S (length (a_pinned a)) < cache_cap)%nat.

Definition install_list (v : Z -> block) (bl : list Z) : list (Z * block) :=
  imap (fun i n => (n, v (st + Z.of_nat i + 1))) bl.
Definition backup_list (v : Z -> block) (bl : list Z) : list (Z * block) :=
  imap (fun i n => (st + Z.of_nat i + 1, v n)) bl.

Lemma take_imap_S {A B} (f : nat -> A -> B) (l : list A) i x : l !! i = Some x ->
  take (Datatypes.S i) (imap f l) = take i (imap f l) ++ [f i x].
Proof. intros Hx. apply take_S_r. by rewrite list_lookup_imap, Hx. Qed.

Lemma home_ne n (k : Z) : home n -> in_area k -> n <> k.
Proof. intros [_ Hn] Hk ->. done. Qed.

(** What a loop has done after [i] rounds that wrote [W]. *)
Record progress (a : acache) (W : list (Z * block)) (a' : acache) : Prop := {
  pg_between : between a';
  pg_image : a_image a' = a_image a;
  pg_writes : a_writes a' = a_writes a ++ W;
  pg_view : forall n, a_view a' n = disk_after (a_view a) W n;
  pg_pinned : forall n, n ∈ a_pinned a' <-> n ∈ a_pinned a /\ n ∉ W.*1
}.

Lemma progress_nil a : between a -> progress a [] a.
Proof. intros Hb. split; [done..|by rewrite app_nil_r|done|]. intros n. split; [|tauto]. intros Hn. split; [done|apply not_elem_of_nil]. Qed.

Lemma progress_copied a W a' from to x : progress a W a' -> x = a_view a' from ->
  progress a (W ++ [(to, x)]) (copied_block from to a').
Proof.
  intros [Hb Hi Hw Hv Hp] ->. split; simpl.
  - by apply between_copied.
  - done.
  - by rewrite Hw, app_assoc.
  - intros n. rewrite disk_after_snoc, <- Hv. unfold vput. rewrite (Z.eqb_sym n). done.
  - intros n. rewrite elem_of_unpin, Hp, fmap_app, not_elem_of_app. simpl. rewrite not_elem_of_cons.
    pose proof (not_elem_of_nil n). tauto.
Qed.

Lemma disk_after_home v bl i (k : Z) : Forall home bl -> in_area k -> disk_after v (take i (install_list v bl)) k = v k.
Proof.
  intros Hh Hk. apply disk_after_notin. intros ([n x] & -> & Hx)%list_elem_of_fmap. simpl in Hk.
  apply list_elem_of_lookup in Hx as [j Hj]. apply lookup_take_Some in Hj as [Hj _].
  unfold install_list in Hj. rewrite list_lookup_imap in Hj. destruct (bl !! j) as [m|] eqn:Hm; [|done].
  simpl in Hj. injection Hj as -> _. by destruct (Forall_lookup_1 _ _ _ _ Hh Hm).
Qed.
Lemma disk_after_area v bl i (k : Z) : Z.of_nat (length bl) < sz -> ~ in_area k -> disk_after v (take i (backup_list v bl)) k = v k.
Proof.
  intros Hf Hk. apply disk_after_notin. intros ([n x] & -> & Hx)%list_elem_of_fmap. simpl in Hk.
  apply list_elem_of_lookup in Hx as [j Hj]. apply lookup_take_Some in Hj as [Hj _].
  unfold backup_list in Hj. rewrite list_lookup_imap in Hj. destruct (bl !! j) as [m|] eqn:Hm; [|done].
  simpl in Hj. injection Hj as <- _. apply Hk. apply lookup_lt_Some in Hm. unfold in_area. lia.
Qed.

Lemma roomy_copied bl from to a : roomy bl a -> (to ∈ bl \/ to ∉ a_pinned a) -> between a -> roomy bl (copied_block from to a).
Proof.
  intros Hr Hto [_ _ _ Hc] n Hn. simpl. rewrite elem_of_unpin. pose proof (length_unpin to (a_pinned a)).
  destruct (Hr n Hn) as [Hp|Hl]; [|right; lia]. destruct (decide (n = to)) as [->|]; [|tauto].
  right. pose proof (length_unpin_lt to (a_pinned a) Hp). lia.
Qed.

Lemma install_trans_ok k l c a bl : crepr c a -> between a -> log_mem l bl -> roomy bl a ->
  exists c' a', install_trans (mkFs k l c) = Ok tt (mkFs k l c') /\ crepr c' a' /\ progress a (install_list (a_view a) bl) a'.
Proof.
  intros R Hb Hl Hr. set (W := install_list (a_view a) bl).
  assert (length W = length bl) as HW by (apply length_imap).
  unfold install_trans. rewrite bind_gets. cbn [lg]. rewrite (lm_n _ _ Hl), Nat2Z.id, (lm_start _ _ Hl), (lm_dev _ _ Hl).
  match goal with |- context [foreach _ ?f] => set (F := f) end.
  destruct (foreach_Ok (fun i s => exists c' a', s = mkFs k l c' /\ crepr c' a' /\ progress a (take i W) a' /\ roomy bl a')
    (length bl) 0 F (mkFs k l c)) as (s' & E & c' & a' & -> & R' & P' & _).
  - exists c, a. split_and!; [done|done|by apply progress_nil|done].
  - intros i s Hi (c1 & a1 & -> & R1 & P1 & Hr1). destruct (log_mem_lookup l bl i Hl) as (n & Hn & Hln & Hhome & Harea); [lia|].
    pose proof (pg_between _ _ _ P1) as Hb1. pose proof Hb1 as [Hh1 Hlen1 Ha1 Hc1].
    assert (st + Z.of_nat i + 1 <> n) as Hne by (symmetry; by apply home_ne).
    destruct (two_reads k l c1 a1 (st + Z.of_nat i + 1) n R1 Hh1 Hne) as (b1 & b2 & c2 & c3 & E1 & E2 & Hbe & R2);
      [unfold in_area in Harea; lia|by destruct Hhome|by right|by apply Hr1; eapply list_elem_of_lookup_2|].
    destruct (copy_tail k l c3 _ b1 b2 (st + Z.of_nat i + 1) n R2) as (c4 & E3 & R3);
      [by right; left|by left|done|done|by intros x ?%in_two|apply Hlen1|apply Hlen1| |].
    { right. apply (view_clean c1 a1); [done..|]. intros Hp. by apply (Ha1 _ Hp). }
    eexists. split.
    { unfold F. erewrite bind_Ok by exact E1. rewrite deref_Some with (a := n) by exact Hln. erewrite bind_Ok by exact E2. exact E3. }
    exists c4, (copied_block (st + Z.of_nat i + 1) n a1). split_and!; [done|exact R3| |].
    + unfold W, install_list. rewrite (take_imap_S _ _ i n Hn). apply progress_copied; [exact P1|].
      rewrite (pg_view _ _ _ P1). symmetry. by apply disk_after_home; [apply Hl|].
    + apply roomy_copied; [done|left; by eapply list_elem_of_lookup_2|done].
  - exists c', a'. split_and!; [exact E|done|]. rewrite firstn_all2 in P' by (rewrite HW; lia). done.
Qed.

Lemma write_log_ok k l c a bl : crepr c a -> between a -> log_mem l bl -> roomy bl a ->
  exists c' a', write_log (mkFs k l c) = Ok tt (mkFs k l c') /\ crepr c' a' /\ progress a (backup_list (a_view a) bl) a' /\
    roomy bl a'.
Proof.
  intros R Hb Hl Hr. set (W := backup_list (a_view a) bl).
  assert (length W = length bl) as HW by (apply length_imap).
  unfold write_log. rewrite bind_gets. cbn [lg]. rewrite (lm_n _ _ Hl), Nat2Z.id, (lm_start _ _ Hl), (lm_dev _ _ Hl).
  match goal with |- context [foreach _ ?f] => set (F := f) end.
  destruct (foreach_Ok (fun i s => exists c' a', s = mkFs k l c' /\ crepr c' a' /\ progress a (take i W) a' /\ roomy bl a')
    (length bl) 0 F (mkFs k l c)) as (s' & E & c' & a' & -> & R' & P' & Hr').
  - exists c, a. split_and!; [done|done|by apply progress_nil|done].
  - intros i s Hi (c1 & a1 & -> & R1 & P1 & Hr1). destruct (log_mem_lookup l bl i Hl) as (n & Hn & Hln & Hhome & Harea); [lia|].
    pose proof (pg_between _ _ _ P1) as Hb1. pose proof Hb1 as [Hh1 Hlen1 Ha1 Hc1].
    assert (n <> st + Z.of_nat i + 1) as Hne by (by apply home_ne).
    assert (st + Z.of_nat i + 1 ∉ a_pinned a1) as Hnp by (intros Hp; by apply (Ha1 _ Hp)).
    destruct (two_reads k l c1 a1 (st + Z.of_nat i + 1) n R1 Hh1) as (b1 & b2 & c2 & c3 & E1 & E2 & Hbe & R2);
      [done|unfold in_area in Harea; lia|by destruct Hhome|by right|by apply Hr1; eapply list_elem_of_lookup_2|].
    destruct (copy_tail k l c3 _ b2 b1 n (st + Z.of_nat i + 1) R2) as (c4 & E3 & R3);
      [by left|by right; left|done|done|by intros x [->| ->]%in_two; [right|left]|apply Hlen1|apply Hlen1| |].
    { destruct (decide (n ∈ a_pinned a1)); [by left|right]. by apply (view_clean c1 a1). }
    eexists. split.
    { unfold F. erewrite bind_Ok by exact E1. rewrite deref_Some with (a := n) by exact Hln. erewrite bind_Ok by exact E2. exact E3. }
    exists c4, (copied_block n (st + Z.of_nat i + 1) a1). split_and!; [done|exact R3| |].
    + unfold W, backup_list. rewrite (take_imap_S _ _ i n Hn). apply progress_copied; [exact P1|].
      rewrite (pg_view _ _ _ P1). symmetry. apply disk_after_area; [apply Hl|apply Hhome].
    + apply roomy_copied; [done|by right|done].
  - exists c', a'. split_and!; [exact E|done| |done]. rewrite firstn_all2 in P' by (rewrite HW; lia). done.
Qed.

(** ** The header block *)

Lemma read_one k l c a n : crepr c a -> between a -> 0 <= n < cache_size ->
  exists b c', on_cache (cread 1 n) (mkFs k l c) = Ok b (mkFs k l c') /\ crepr c' (with_held [(b, n)] a).
Proof.
  intros R [Hh _ _ Hc] Hn. destruct (cread_ok c a n R Hn) as (b & c' & E & _ & R').
  { rewrite Hh. apply not_elem_of_nil. } { rewrite Hh. simpl. right. lia. }
  rewrite Hh in R'. exists b, c'. split; [by apply on_cache_Ok|done].
Qed.

Lemma write_head_ok k l c a bl : crepr c a -> between a -> log_mem l bl ->
  exists c' a', write_head (mkFs k l c) = Ok tt (mkFs k l c') /\ crepr c' a' /\
    progress a [(st, put_head bl (a_view a st))] a' /\ a_pinned a' = a_pinned a.
Proof.
  intros R Hb Hl. pose proof (lm_fits _ _ Hl) as Hf. pose proof Hb as [Hh Hlen Ha Hc].
  destruct (read_one k l c a st R Hb) as (b & c1 & E1 & R1); [lia|]. set (x0 := put_word 0 (Z.of_nat (length bl)) (a_view a st)).
  set (step := fun b i => put_word (4 + 4 * i) (nth i bl 0) b).
  destruct (cset_ok _ _ b st x0 R1) as (c2 & E2 & R2); [by left|].
  unfold write_head. rewrite bind_gets. cbn [lg]. rewrite (lm_n _ _ Hl), Nat2Z.id, (lm_start _ _ Hl), (lm_dev _ _ Hl).
  set (F := (fun i => let! n := deref (lh_block l !! i) in let! hb := on_cache (cget b) in
    on_cache (cset b (put_word (4 + 4 * i) n hb))) : nat -> M fs_state unit).
  destruct (foreach_Ok (fun i s => exists c' v, s = mkFs k l c' /\ crepr c' (with_view v (with_held [(b, st)] a)) /\
    v st = foldl step x0 (seq 0 i) /\ forall n, n <> st -> v n = a_view a n) (length bl) 0 F (mkFs k l c2)) as (s' & E3 & c3 & v & -> & R3 & Hv & Hvn).
  - exists c2. eexists. split_and!; [done|exact R2|by rewrite vput_eq|]. intros n Hn. by apply vput_ne.
  - intros i s Hi (c' & v & -> & R' & Hv & Hvn). destruct (log_mem_lookup l bl i Hl) as (n & Hn & Hln & _); [lia|].
    pose proof (cget_ok _ _ b st R' ltac:(by left)) as E3. simpl in E3.
    destruct (cset_ok _ _ b st (put_word (4 + 4 * i) n (v st)) R') as (c4 & E4 & R4); [by left|].
    eexists. split.
    + unfold F. rewrite deref_Some with (a := n) by exact Hln. erewrite bind_Ok by (apply on_cache_Ok; exact E3).
      apply on_cache_Ok. exact E4.
    + exists c4. eexists. split_and!; [done|exact R4| |].
      * rewrite vput_eq, seq_S, foldl_app, <- Hv. simpl. unfold step. by rewrite (nth_lookup_Some _ _ _ _ Hn).
      * intros m Hm. simpl. rewrite vput_ne by done. by apply Hvn.
  - destruct (cwrite_ok _ _ b st R3) as (c4 & E4 & R4); [by left|].
    destruct (crelse_ok _ _ b st R4) as (c5 & E5 & R5).
    { by left. } { right. unfold a_disk. simpl. by rewrite disk_after_snoc, Z.eqb_refl. }
    simpl in R5. rewrite unhold_cons in R5 by apply not_elem_of_nil.
    assert (st ∉ a_pinned a) as Hsp. { intros Hp%Ha. apply Hp. unfold in_area. lia. }
    assert (unpin st (a_pinned a) = a_pinned a) as Hun.
    { unfold unpin. clear - Hsp. induction (a_pinned a) as [|n p IH]; [done|]. apply not_elem_of_cons in Hsp as [? ?].
      rewrite filter_cons_True by congruence. by rewrite IH. }
    exists c5. eexists. split; [|split; [exact R5|]].
    + erewrite bind_Ok by exact E1. erewrite bind_Ok by (apply on_cache_Ok, (cget_ok _ _ b st R1); by left).
      erewrite bind_Ok by (apply on_cache_Ok; exact E2). erewrite bind_Ok by exact E3.
      erewrite bind_Ok by (apply on_cache_Ok; exact E4). by apply on_cache_Ok.
    + split; [|exact Hun]. assert (v st = put_head bl (a_view a st)) as Hvs by exact Hv.
      split; simpl; [split; simpl|done|by rewrite Hvs| |].
      * done.
      * intros n. destruct (decide (n = st)) as [->|Hn]; [rewrite Hvs, length_put_head|rewrite Hvn by done]; apply Hlen.
      * rewrite Hun. exact Ha.
      * rewrite Hun. exact Hc.
      * intros n. rewrite disk_after_cons, disk_after_nil. unfold vput. destruct (Z.eqb_spec n st) as [->|Hn]; [done|by apply Hvn].
      * intros n. rewrite Hun, not_elem_of_cons. split; [|tauto]. intros Hn. split_and!; [done| |apply not_elem_of_nil].
        intros ->. done.
Qed.

Lemma progress_trans a1 a2 a3 W1 W2 : progress a1 W1 a2 -> progress a2 W2 a3 -> progress a1 (W1 ++ W2) a3.
Proof.
  intros [H1 H2 H3 H4 H5] [G1 G2 G3 G4 G5]. split; [done|congruence|by rewrite G3, H3, app_assoc| |].
  - intros n. rewrite G4, disk_after_app. apply disk_after_ext. apply H4.
  - intros n. rewrite G5, H5, fmap_app, not_elem_of_app. tauto.
Qed.

(** The log is set up for the area; nothing is said of its list. *)
Definition log_for l : Prop := start l = st /\ ldev l = 1 /\ length (lh_block l) = 30%nat.
Definition with_head (bl : list Z) l : log :=
  set_lh_block (bl ++ drop (length bl) (lh_block l)) (set_n (Z.of_nat (length bl)) l).

Lemma log_mem_with_head bl l : log_for l -> (length bl <= 30)%nat -> Forall home bl -> Z.of_nat (length bl) < sz ->
  log_mem (with_head bl l) bl.
Proof.
  intros (H1 & H2 & H3) Hn Hh Hf. split; simpl; try done.
  - by rewrite take_app_length.
  - rewrite length_app, length_drop. lia.
Qed.
Lemma log_mem_nil l : log_for l -> 0 < sz -> log_mem (set_n 0 l) [].
Proof. intros (H1 & H2 & H3) Hz. split; simpl; try done; lia. Qed.
Lemma log_mem_for l bl : log_mem l bl -> log_for l.
Proof. by intros []. Qed.

Lemma read_head_ok k l c a : crepr c a -> between a -> 0 < sz -> log_for l -> 0 <= hd_n (a_view a st) <= 30 ->
  exists c', read_head (mkFs k l c) = Ok tt (mkFs k (with_head (log_blocks (a_view a st)) l) c') /\ crepr c' a.
Proof.
  intros R Hb Hz (Hl1 & Hl2 & Hl3) Hn. destruct (read_one k l c a st R Hb) as (b & c1 & E1 & R1); [lia|].
  set (h := a_view a st) in *. set (m := Z.to_nat (hd_n h)).
  assert (length (log_blocks h) = m) as Hm by (unfold log_blocks; by rewrite length_fmap, length_seq).
  destruct (crelse_ok _ _ b st R1) as (c2 & E2 & R2); [by left| |].
  { right. apply (view_clean c a _ R Hb). intros Hp%(bt_area _ Hb). apply Hp. unfold in_area. lia. }
  simpl in R2. rewrite unhold_cons in R2 by apply not_elem_of_nil. exists c2. split.
  2: { pose proof (bt_held _ Hb) as Hh. destruct a. simpl in *. subst. exact R2. }
  unfold read_head. rewrite bind_gets. cbn [lg]. rewrite Hl1, Hl2. erewrite bind_Ok by exact E1.
  erewrite bind_Ok by (apply on_cache_Ok, (cget_ok _ _ b st R1); by left). cbn [a_view with_held]. fold h. fold m.
  unfold upd_lg at 1. rewrite bind_modify. cbn [lg put_lg l_lock l_cache].
  match goal with |- context [foreach _ ?f] => set (F := f) end.
  destruct (foreach_Ok (fun i s => s = mkFs k (set_lh_block (take i (log_blocks h) ++ drop i (lh_block l)) (set_n (hd_n h) l)) c1)
    m 0 F (mkFs k (set_n (hd_n h) l) c1)) as (s' & E3 & ->).
  - by destruct l.
  - intros i s Hi ->. eexists. split; [|reflexivity].
    assert (exists x, lh_block l !! i = Some x) as [x Hx] by (apply lookup_lt_is_Some_2; lia).
    assert (log_blocks h !! i = Some (hd_block h i)) as Hk.
    { unfold log_blocks. rewrite list_lookup_fmap, lookup_seq_lt by (fold m; lia). done. }
    assert (length (take i (log_blocks h)) = i) as Hti by (rewrite length_take; lia).
    assert ((take i (log_blocks h) ++ drop i (lh_block l)) !! i = Some x) as Hlk.
    { rewrite lookup_app_r by lia. rewrite Hti, Nat.sub_diag, lookup_drop, Nat.add_0_r. done. }
    unfold F. rewrite bind_gets. simpl. rewrite deref_Some with (a := x) by exact Hlk. unfold upd_lg, modify. simpl. do 2 f_equal.
    unfold put_lg, set_lh_block. simpl. f_equal. f_equal. rewrite (drop_S _ x) by done.
    rewrite insert_app_r_alt by lia. rewrite Hti, Nat.sub_diag. simpl.
    rewrite (take_S_r _ _ (hd_block h i)) by done. by rewrite <- app_assoc.
  - erewrite bind_Ok by exact E3. simpl. erewrite on_cache_Ok by exact E2. do 2 f_equal. unfold with_head.
    rewrite Hm. rewrite firstn_all2 by lia. unfold m. rewrite Z2Nat.id by lia. done.
Qed.

Lemma log_for_with_head bl l : log_for l -> (length bl <= 30)%nat -> log_for (with_head bl l).
Proof. intros (H1 & H2 & H3) Hn. split_and!; simpl; [done..|]. rewrite length_app, length_drop. lia. Qed.

Lemma disk_after_area_all v bl : Forall home bl -> in_area st -> disk_after v (install_list v bl) st = v st.
Proof. intros Hh Ha. rewrite <- (firstn_all (install_list v bl)). by apply disk_after_home. Qed.

(** ** Recovery *)

Definition recovery_writes (d : Z -> block) : list (Z * block) :=
  install_list d (log_blocks (d st)) ++ [(st, put_head [] (d st))].

Lemma recover_ok k l c a : crepr c a -> between a -> 0 < sz -> log_for l -> a_pinned a = [] -> (1 < cache_cap)%nat ->
  0 <= hd_n (a_view a st) <= 30 -> hd_n (a_view a st) < sz -> Forall home (log_blocks (a_view a st)) ->
  exists c' a', recover_from_log (mkFs k l c) = Ok tt (mkFs k (set_n 0 (with_head (log_blocks (a_view a st)) l)) c') /\
    crepr c' a' /\ progress a (recovery_writes (a_view a)) a'.
Proof.
  intros R Hb Hz Hl Hp Hc Hn Hf Hh. set (bl := log_blocks (a_view a st)).
  assert (length bl = Z.to_nat (hd_n (a_view a st))) as Hbl by (unfold bl, log_blocks; by rewrite length_fmap, length_seq).
  destruct (read_head_ok k l c a R Hb Hz Hl Hn) as (c1 & E1 & R1). fold bl in E1.
  assert (log_mem (with_head bl l) bl) as Hm by (apply log_mem_with_head; [done|lia|done|lia]).
  destruct (install_trans_ok k (with_head bl l) c1 a bl R1 Hb Hm) as (c2 & a2 & E2 & R2 & P2).
  { intros n _. right. rewrite Hp. simpl. lia. }
  destruct (write_head_ok k (set_n 0 (with_head bl l)) c2 a2 [] R2 (pg_between _ _ _ P2)) as (c3 & a3 & E3 & R3 & P3 & _).
  { apply log_mem_nil; [|done]. by eapply log_mem_for. }
  exists c3, a3. split_and!; [|done|].
  - unfold recover_from_log. erewrite bind_Ok by exact E1. erewrite bind_Ok by exact E2. unfold upd_lg. rewrite bind_modify. exact E3.
  - rewrite (pg_view _ _ _ P2), disk_after_area_all in P3 by (done || (unfold in_area; lia)).
    by eapply progress_trans.
Qed.

(** ** Commit *)

Definition commit_writes (v d : Z -> block) (bl : list Z) : list (Z * block) :=
  backup_list v bl ++ [(st, put_head bl (d st))] ++ map (fun n => (n, v n)) bl ++ [(st, put_head [] (put_head bl (d st)))].

Lemma backup_keys v bl : NoDup (backup_list v bl).*1.
Proof.
  apply NoDup_alt. intros i j k Hi Hj. unfold backup_list in *. rewrite list_lookup_fmap, list_lookup_imap in Hi, Hj.
  destruct (bl !! i), (bl !! j); simpl in *; simplify_eq. lia.
Qed.
Lemma disk_after_backup v bl i n : bl !! i = Some n -> disk_after v (backup_list v bl) (st + Z.of_nat i + 1) = v n.
Proof.
  intros Hi. apply disk_after_lookup; [apply backup_keys|]. apply (list_elem_of_lookup_2 _ i).
  unfold backup_list. by rewrite list_lookup_imap, Hi.
Qed.
Lemma backup_below v bl : st ∉ (backup_list v bl).*1.
Proof.
  clear Hst Hsz. intros ([k x] & E & Hx)%list_elem_of_fmap. apply list_elem_of_lookup in Hx as [i Hi]. unfold backup_list in Hi.
  rewrite list_lookup_imap in Hi. destruct (bl !! i); simpl in *; simplify_eq. lia.
Qed.

Lemma install_backed v w bl :
  (forall i n, bl !! i = Some n -> w (st + Z.of_nat i + 1) = v n) -> install_list w bl = map (fun n => (n, v n)) bl.
Proof.
  intros H. apply list_eq. intros i. unfold install_list. rewrite list_lookup_imap, list_lookup_fmap.
  destruct (bl !! i) as [n|] eqn:Hn; [|done]. simpl. by rewrite (H i n).
Qed.

Lemma commit_ok k l c a bl : crepr c a -> between a -> log_mem l bl -> roomy bl a -> bl <> [] ->
  exists c' a', commit (mkFs k l c) = Ok tt (mkFs k (set_n 0 l) c') /\ crepr c' a' /\
    progress a (commit_writes (a_view a) (a_view a) bl) a'.
Proof.
  intros R Hb Hm Hr Hne. set (v := a_view a).
  destruct (write_log_ok k l c a bl R Hb Hm Hr) as (c1 & a1 & E1 & R1 & P1 & Hr1).
  destruct (write_head_ok k l c1 a1 bl R1 (pg_between _ _ _ P1) Hm) as (c2 & a2 & E2 & R2 & P2 & Hp2).
  destruct (install_trans_ok k l c2 a2 bl R2 (pg_between _ _ _ P2) Hm) as (c3 & a3 & E3 & R3 & P3).
  { unfold roomy. by rewrite Hp2. }
  destruct (write_head_ok k (set_n 0 l) c3 a3 [] R3 (pg_between _ _ _ P3)) as (c4 & a4 & E4 & R4 & P4 & _).
  { apply log_mem_nil; [by eapply log_mem_for|]. pose proof (lm_fits _ _ Hm). lia. }
  exists c4, a4. split_and!; [|done|].
  - unfold commit. rewrite bind_gets. cbn [lg]. rewrite (lm_n _ _ Hm).
    destruct (Z.ltb_spec 0 (Z.of_nat (length bl))) as [_|Hz]; [|destruct bl; [done|simpl in Hz; lia]].
    erewrite bind_Ok by exact E1. erewrite bind_Ok by exact E2. erewrite bind_Ok by exact E3. unfold upd_lg. rewrite bind_modify. exact E4.
  - assert (a_view a1 st = v st) as Hv1 by (rewrite (pg_view _ _ _ P1); apply disk_after_notin, backup_below).
    assert (a_view a2 st = put_head bl (v st)) as Hv2 by (rewrite (pg_view _ _ _ P2), Hv1, disk_after_cons; apply vput_eq).
    assert (install_list (a_view a2) bl = map (fun n => (n, v n)) bl) as HI.
    { apply install_backed. intros i n Hi. rewrite (pg_view _ _ _ P2), disk_after_cons, disk_after_nil, vput_ne by lia.
      rewrite (pg_view _ _ _ P1). by apply disk_after_backup. }
    assert (a_view a3 st = a_view a2 st) as Hv3.
    { rewrite (pg_view _ _ _ P3). pose proof (lm_fits _ _ Hm). apply disk_after_area_all; [apply Hm|unfold in_area; lia]. }
    rewrite Hv3, Hv2 in P4. rewrite Hv1 in P2. rewrite HI in P3. unfold commit_writes.
    eapply progress_trans; [exact P1|]. eapply progress_trans; [exact P2|]. eapply progress_trans; [exact P3|exact P4].
Qed.
End Area.
End Refine.
