(* ===== verification/LogTxn.v ===== *)
(** * Transactions and crashes

    [contents d] is the file system a disk [d] stands for: the home blocks,
    with the blocks of a committed transaction in their place.  No prefix of
    the writes of a recovery changes it, and a prefix of the writes of a commit
    leaves either the old or the new one.  A file system call brackets its
    updates with [begin_op] and [end_op] and hands every changed buffer to
    [log_write]; whatever the point of a crash, and however often the recovery
    is interrupted too, the disk comes back with all of the updates or with
    none. *)

From stdpp Require Import base list strings.
From Stdlib Require Import ZArith Lia.
From S2P Require Import Prelude Spinlock Sync CacheSpec Log LogRefine Sleeplock Bio BioRefine.
Local Open Scope Z_scope.

Lemma disk_after_in img1 img2 ws n : n ∈ ws.*1 -> disk_after img1 ws n = disk_after img2 ws n.
Proof.
  revert img1 img2. induction ws as [|[k x] ws IH]; intros img1 img2 Hn; [by apply not_elem_of_nil in Hn|].
  rewrite !disk_after_cons. destruct (decide (n ∈ ws.*1)) as [Hin|Hin]; [by apply IH|].
  csimpl in Hn. apply elem_of_cons in Hn as [->|?]; [|done]. rewrite !disk_after_notin by done. by rewrite !vput_eq.
Qed.

(** Doing some of the writes first changes nothing once all are done. *)
Lemma disk_after_redo img ws i n : disk_after (disk_after img (take i ws)) ws n = disk_after img ws n.
Proof.
  destruct (decide (n ∈ ws.*1)) as [Hin|Hin]; [by apply disk_after_in|]. rewrite !disk_after_notin; try done.
  intros Hn. apply Hin. rewrite fmap_take in Hn. eapply elem_of_take in Hn as (j & Hj & _). by eapply list_elem_of_lookup_2.
Qed.

Lemma disk_after_forall (P : block -> Prop) img ws n : P (img n) -> Forall (fun w => P w.2) ws -> P (disk_after img ws n).
Proof.
  revert img. induction ws as [|[k x] ws IH]; intros img Hi Hw; [done|]. apply Forall_cons in Hw as [Hx Hw].
  rewrite disk_after_cons. apply IH; [|done]. unfold vput. by destruct (n =? k).
Qed.

Lemma fst_map_pair (v : Z -> block) bl : (map (fun n => (n, v n)) bl).*1 = bl.
Proof. induction bl as [|n bl IH]; [done|]. csimpl. by rewrite IH. Qed.
Lemma disk_after_map img (v : Z -> block) bl n : n ∈ bl -> disk_after img (map (fun n => (n, v n)) bl) n = v n.
Proof.
  revert img. induction bl as [|k bl IH]; intros img Hn; [by apply not_elem_of_nil in Hn|]. cbn [map]. rewrite disk_after_cons.
  destruct (decide (n ∈ bl)) as [Hin|Hin]; [by apply IH|]. apply elem_of_cons in Hn as [->|?]; [|done].
  rewrite disk_after_notin by (by rewrite fst_map_pair). apply vput_eq.
Qed.

Section Crash.
Context {S : Type} `{HC : Cache S} (st sz : Z) (Hst : 0 <= st) (Hsz : st + sz <= cache_size) (Hz : 0 < sz <= 31).
Notation in_area := (in_area st sz).
Notation home := (home st sz).

Definition contents (d : Z -> block) : Z -> block := disk_after d (install_list st d (log_blocks (d st))).

Record log_ok (d : Z -> block) : Prop := {
  lo_n : 0 <= hd_n (d st) < sz;
  lo_home : Forall home (log_blocks (d st));
  lo_len : forall n, length (d n) = BSIZE
}.

Lemma log_ok_ext d d' : (forall n, d' n = d n) -> log_ok d -> log_ok d'.
Proof. intros E [H1 H2 H3]. split; intros *; rewrite E; auto. Qed.
Lemma contents_ext d d' : (forall n, d' n = d n) -> forall n, contents d' n = contents d n.
Proof.
  intros E n. unfold contents. rewrite E. replace (install_list st d' _) with (install_list st d (log_blocks (d st))).
  - by apply disk_after_ext.
  - unfold install_list. apply imap_ext. intros i k _. by rewrite E.
Qed.

Lemma length_log_blocks b : length (log_blocks b) = Z.to_nat (hd_n b).
Proof. unfold log_blocks. by rewrite length_fmap, length_seq. Qed.
Lemma area_st : in_area st.
Proof. unfold LogRefine.in_area. lia. Qed.
Lemma put_head_nil b : length b = BSIZE -> log_blocks (put_head [] b) = [] /\ hd_n (put_head [] b) = 0.
Proof. intros Hb. split; [apply log_blocks_put_head; [done|simpl; lia|constructor]|apply put_head_n; [done|simpl; lia]]. Qed.

Lemma install_list_ext d d' bl : Z.of_nat (length bl) < sz -> (forall n, in_area n -> d' n = d n) ->
  install_list st d' bl = install_list st d bl.
Proof.
  intros Hf H. apply list_eq. intros i. unfold install_list. rewrite !list_lookup_imap. destruct (bl !! i) eqn:Hi; [|done].
  simpl. do 2 f_equal. apply H. apply lookup_lt_Some in Hi. unfold LogRefine.in_area. lia.
Qed.

Lemma install_len d bl : (forall n, length (d n) = BSIZE) -> Forall (fun w => length w.2 = BSIZE) (install_list st d bl).
Proof.
  intros H. apply Forall_forall. intros [n x] Hx. apply list_elem_of_lookup in Hx as [i Hi]. unfold install_list in Hi.
  rewrite list_lookup_imap in Hi. destruct (bl !! i); [|done]. simpl in Hi. injection Hi as _ <-. apply H.
Qed.
Lemma backup_len v bl : (forall n, length (v n) = BSIZE) -> Forall (fun w => length w.2 = BSIZE) (backup_list st v bl).
Proof.
  intros H. apply Forall_forall. intros [n x] Hx. apply list_elem_of_lookup in Hx as [i Hi]. unfold backup_list in Hi.
  rewrite list_lookup_imap in Hi. destruct (bl !! i); [|done]. simpl in Hi. injection Hi as _ <-. apply H.
Qed.

Lemma disk_after_out d v bl i n : Z.of_nat (length bl) < sz -> ~ in_area n -> disk_after d (take i (backup_list st v bl)) n = d n.
Proof.
  intros Hf Hn. apply disk_after_notin. intros ([k x] & -> & Hx)%list_elem_of_fmap. simpl in Hn.
  apply list_elem_of_lookup in Hx as [j Hj]. apply lookup_take_Some in Hj as [Hj _].
  unfold backup_list in Hj. rewrite list_lookup_imap in Hj. destruct (bl !! j) as [m|] eqn:Hm; [|done].
  simpl in Hj. injection Hj as <- _. apply Hn. apply lookup_lt_Some in Hm. unfold LogRefine.in_area. lia.
Qed.
Lemma disk_after_out_all d v bl n : Z.of_nat (length bl) < sz -> ~ in_area n -> disk_after d (backup_list st v bl) n = d n.
Proof. intros Hf Hn. rewrite <- (firstn_all (backup_list st v bl)). by apply disk_after_out. Qed.

(** ** An interrupted recovery *)

Lemma crash_recovery d i : log_ok d -> let d' := disk_after d (take i (recovery_writes st d)) in
  log_ok d' /\ forall n, ~ in_area n -> contents d' n = contents d n.
Proof.
  intros Hd. pose proof Hd as [Hn Hh Hl]. simpl. unfold recovery_writes. set (bl := log_blocks (d st)). set (I := install_list st d bl).
  assert (Z.of_nat (length bl) < sz) as Hf by (unfold bl; rewrite length_log_blocks; lia).
  rewrite take_app. destruct (decide (i <= length I)%nat) as [Hi|Hi].
  - replace (i - length I)%nat with 0%nat by lia. rewrite take_0. rewrite app_nil_r. set (d' := disk_after d (take i I)).
    assert (forall n, in_area n -> d' n = d n) as Harea by (intros n; by apply disk_after_home).
    pose proof (Harea _ area_st) as Est. split.
    + split; rewrite ?Est; [done|done|]. intros n. apply disk_after_forall with (P := fun b => length b = BSIZE); [apply Hl|].
      apply Forall_take, install_len, Hl.
    + intros n Hna. unfold contents. rewrite Est. fold bl. rewrite (install_list_ext d d') by done. apply disk_after_redo.
  - rewrite firstn_all2 by lia. rewrite (firstn_all2 [_]) by (simpl; lia). set (d' := disk_after d _).
    assert (d' st = put_head [] (d st)) as Est by (unfold d'; by rewrite disk_after_snoc, Z.eqb_refl).
    destruct (put_head_nil (d st) (Hl st)) as [Hb0 Hn0]. split.
    + split; rewrite ?Est, ?Hb0, ?Hn0; [lia|constructor|]. intros n. apply disk_after_forall with (P := fun b => length b = BSIZE); [apply Hl|].
      apply Forall_app. split; [apply install_len, Hl|]. constructor; [|constructor]. simpl. rewrite length_put_head. apply Hl.
    + intros n Hna. unfold contents at 1. rewrite Est, Hb0. unfold d'. rewrite disk_after_nil, disk_after_snoc.
      destruct (Z.eqb_spec st n) as [<-|]; [by destruct Hna; apply area_st|done].
Qed.

(** ** An interrupted commit *)

Lemma crash_commit d v bl i : log_ok d -> hd_n (d st) = 0 -> (forall n, length (v n) = BSIZE) ->
  Forall home bl -> Forall is_block bl -> Z.of_nat (length bl) < sz ->
  let d' := disk_after d (take i (commit_writes st v d bl)) in
  log_ok d' /\ ((forall n, ~ in_area n -> contents d' n = d n) \/
                (forall n, ~ in_area n -> contents d' n = if decide (n ∈ bl) then v n else d n)).
Proof.
  intros Hd Hn0 Hlv Hh Hib Hf. pose proof Hd as [Hn _ Hl]. simpl. unfold commit_writes. set (A := backup_list st v bl).
  assert (length A = length bl) as HA by apply length_imap.
  assert (Forall (fun w => length w.2 = BSIZE) A) as HlA by (by apply backup_len).
  destruct (decide (i <= length A)%nat) as [Hi|Hi].
  - rewrite take_app_le by done. set (d' := disk_after d (take i A)).
    assert (d' st = d st) as Est.
    { apply disk_after_notin. intros Hk. apply (backup_below st v bl). fold A. rewrite fmap_take in Hk.
      eapply elem_of_take in Hk as (j & Hj & _). by eapply list_elem_of_lookup_2. }
    assert (log_blocks (d st) = []) as Hb0 by (unfold log_blocks; by rewrite Hn0).
    split; [split; rewrite ?Est, ?Hb0; [lia|constructor|]|left].
    + intros n. apply disk_after_forall with (P := fun b => length b = BSIZE); [apply Hl|]. by apply Forall_take.
    + intros n Hna. unfold contents. rewrite Est, Hb0. unfold d', A. rewrite disk_after_nil. by apply disk_after_out.
  - rewrite app_assoc, take_app_ge by (rewrite length_app; simpl; lia).
    set (d2 := disk_after d (A ++ [(st, put_head bl (d st))])).
    assert (d2 st = put_head bl (d st)) as Est by (unfold d2; by rewrite disk_after_snoc, Z.eqb_refl).
    assert (log_blocks (d2 st) = bl) as Hb2 by (rewrite Est; apply log_blocks_put_head; [apply Hl|lia|done]).
    assert (install_list st d2 bl = map (fun n => (n, v n)) bl) as HI.
    { apply install_backed. intros j n Hj. unfold d2. rewrite disk_after_snoc. destruct (Z.eqb_spec st (st + Z.of_nat j + 1)); [lia|].
      apply disk_after_lookup; [apply backup_keys|]. apply (list_elem_of_lookup_2 _ j). unfold A, backup_list. by rewrite list_lookup_imap, Hj. }
    assert (log_ok d2) as Hd2.
    { split; rewrite ?Hb2; [rewrite Est, put_head_n; [lia|apply Hl|lia]|done|]. intros n.
      apply disk_after_forall with (P := fun b => length b = BSIZE); [apply Hl|]. apply Forall_app. split; [done|].
      constructor; [|constructor]. simpl. rewrite length_put_head. apply Hl. }
    replace (map (fun n => (n, v n)) bl ++ [(st, put_head [] (put_head bl (d st)))]) with (recovery_writes st d2)
      by (unfold recovery_writes; by rewrite Hb2, HI, Est).
    destruct (crash_recovery d2 (i - length (A ++ [(st, put_head bl (d st))])) Hd2) as [Hok Hc].
    assert (forall W n, disk_after d ((A ++ [(st, put_head bl (d st))]) ++ W) n = disk_after d2 W n) as Happ
      by (intros W n; apply disk_after_app).
    split; [by eapply log_ok_ext; [|exact Hok]|right].
    intros n Hna. rewrite (contents_ext _ _ (Happ _)), Hc by done. unfold contents. rewrite Hb2, HI. destruct (decide (n ∈ bl)) as [Hin|Hin].
    + by apply disk_after_map.
    + rewrite disk_after_notin by (rewrite fst_map_pair; done). unfold d2. rewrite disk_after_snoc.
      destruct (Z.eqb_spec st n) as [<-|]; [by destruct Hna; apply area_st|]. unfold A. by apply disk_after_out_all.
Qed.
End Crash.

(** * Transactions *)

Section Txn.
Context {K S : Type} `{HK : Lock K} `{HC : Cache S}.
Notation fs_state := (fs_state (K := K) (S := S)).
Implicit Types (k : K) (l : log) (c : S).

(** [bp = bread(n); modify bp->data[]; log_write(bp); brelse(bp)] *)
Definition log_update (w : Z * block) : M fs_state unit :=
  let! b := on_cache (cread 1 w.1) in
  on_cache (cset b w.2) ;;;
  log_write b ;;;
  on_cache (crelse b).

Fixpoint log_updates (ws : list (Z * block)) : M fs_state unit :=
  match ws with
  | [] => ret tt
  | w :: ws' => log_update w ;;; log_updates ws'
  end.

Definition transaction (ws : list (Z * block)) : M fs_state unit :=
  begin_op ;;; log_updates ws ;;; end_op.

Context (st sz : Z) (Hst : 0 <= st) (Hsz : st + sz <= cache_size) (Hz : 1 < sz <= 30) (Hcap : sz <= Z.of_nat cache_cap)
  (Hdisk : cache_size <= 2 ^ 31).
Notation in_area := (in_area st sz).
Notation home := (home st sz).
Notation log_mem := (log_mem st sz).
Notation between := (between st sz).
Notation log_ok := (log_ok st sz).
Notation contents := (contents st).

(** Within a transaction that has changed the blocks [bl]. *)
Record in_op (a0 : acache) (bl : list Z) l (a : acache) : Prop := {
  io_mem : log_mem l bl;
  io_size : lsize l = sz;
  io_out : 1 <= outstanding l;
  io_com : committing l = false;
  io_between : between a;
  io_nodup : NoDup bl;
  io_pinned : forall n, n ∈ a_pinned a <-> n ∈ bl;
  io_image : a_image a = a_image a0;
  io_writes : a_writes a = a_writes a0
}.

Lemma pinned_length a bl : NoDup (a_pinned a) -> NoDup bl -> (forall n, n ∈ a_pinned a <-> n ∈ bl) ->
  length (a_pinned a) = length bl.
Proof. intros H1 H2 H. apply Permutation_length, NoDup_Permutation; done. Qed.

Lemma absorb_spec l bl n : log_mem l bl -> NoDup bl ->
  (n ∈ bl /\ exists i, absorb l n = i /\ bl !! i = Some n) \/ (n ∉ bl /\ absorb l n = length bl).
Proof.
  intros Hm Hnd. unfold absorb. rewrite (lm_n _ _ _ _ Hm), Nat2Z.id, (lm_bl _ _ _ _ Hm).
  destruct (list_find _ bl) as [[i x]|] eqn:E.
  - apply list_find_Some in E as (Hi & -> & _). left. split; [by eapply list_elem_of_lookup_2|]. by exists i.
  - right. split; [|done]. intros Hn. apply list_find_None in E. rewrite Forall_forall in E. by apply (E n Hn).
Qed.

Definition logged (n : Z) (bl : list Z) : list Z := if decide (n ∈ bl) then bl else bl ++ [n].
Lemma elem_of_logged (k : Z) n bl : k ∈ logged n bl <-> k = n \/ k ∈ bl.
Proof.
  unfold logged. destruct (decide (n ∈ bl)).
  - split; [tauto|]. by intros [->|].
  - rewrite elem_of_app, list_elem_of_singleton. tauto.
Qed.
Lemma NoDup_logged n bl : NoDup bl -> NoDup (logged n bl).
Proof.
  intros H. unfold logged. destruct (decide (n ∈ bl)); [done|]. apply NoDup_app. split_and!; [done| |apply NoDup_singleton].
  intros k Hk ->%list_elem_of_singleton. done.
Qed.
Lemma length_logged n bl : (length bl <= length (logged n bl) <= Datatypes.S (length bl))%nat.
Proof. unfold logged. destruct (decide (n ∈ bl)); rewrite ?length_app; simpl; lia. Qed.

(** The list in memory after [log_write] of block [n]. *)
Definition relogged (n : Z) l : log :=
  let i := absorb l n in
  (if Z.of_nat i =? lh_n l then set_n (lh_n l + 1) else id) (set_lh_block (<[i := n]> (lh_block l)) l).

Lemma relogged_mem l bl n : log_mem l bl -> NoDup bl -> home n -> Z.of_nat (length bl) + 1 < sz -> log_mem (relogged n l) (logged n bl).
Proof.
  intros Hm Hnd Hn Hf. pose proof Hm as [H1 H2 H3 H4 H5 H6 H7]. unfold relogged, logged.
  destruct (absorb_spec l bl n Hm Hnd) as [[Hin (i & -> & Hi)]|[Hin ->]].
  - rewrite decide_True by done. pose proof (lookup_lt_Some _ _ _ Hi) as Hil.
    destruct (Z.eqb_spec (Z.of_nat i) (lh_n l)); [lia|]. split; simpl; try done; [|by rewrite length_insert].
    rewrite list_insert_id; [done|]. rewrite <- H4 in Hi. by apply lookup_take_Some in Hi as [? _].
  - rewrite decide_False by done. rewrite H3, Z.eqb_refl.
    split; simpl; rewrite ?length_app; simpl; rewrite ?length_insert; try done; try lia.
    + rewrite Nat.add_1_r. rewrite (take_S_r _ _ n) by (apply list_lookup_insert_eq; lia). by rewrite take_insert_ge, H4 by lia.
    + apply Forall_app. split; [done|by constructor].
Qed.

Lemma log_write_ok k l c a b n bl : lk_free k -> log_mem l bl -> lsize l = sz -> 1 <= outstanding l -> NoDup bl ->
  Z.of_nat (length bl) + 1 < sz -> crepr c a -> (b, n) ∈ a_held a -> home n ->
  exists k' c', log_write b (mkFs k l c) = Ok tt (mkFs k' (relogged n l) c') /\ lk_free k' /\
    crepr c' (with_pinned (pin n (a_pinned a)) a).
Proof.
  intros Hk Hm Hs Ho Hnd Hf R Hb Hn. destruct (lk_acquire_ok k Hk) as (k1 & E1 & Hk1). destruct (lk_release_ok k1 Hk1) as (k2 & E2 & Hk2).
  pose proof (cblockno_ok _ _ b n R Hb) as E3. destruct (cpin_ok _ _ b n R Hb) as (c1 & E4 & R1).
  exists k2, c1. split_and!; [|done|done]. unfold log_write. rewrite bind_gets. cbn [lg].
  rewrite (lm_n _ _ _ _ Hm), Hs. replace ((LOGSIZE <=? _) || _) with false by (unfold LOGSIZE, MAXOPBLOCKS; symmetry; apply orb_false_iff; lia).
  replace (outstanding l <? 1) with false by lia.
  assert (l_acquire (mkFs k l c) = Ok tt (mkFs k1 l c)) as Ea by (unfold l_acquire; by erewrite zoom_Ok by exact E1).
  erewrite bind_Ok by exact Ea. erewrite bind_Ok by (apply on_cache_Ok; exact E3).
  assert (is_Some (lh_block l !! absorb l n)) as [x Hx].
  { apply lookup_lt_is_Some_2. rewrite (lm_len _ _ _ _ Hm).
    destruct (absorb_spec l bl n Hm Hnd) as [[_ (i & -> & Hi%lookup_lt_Some)]|[_ ->]]; lia. }
  rewrite deref_Some with (a := x) by exact Hx. unfold upd_lg. rewrite bind_modify. simpl.
  unfold relogged. rewrite (lm_n _ _ _ _ Hm).
  destruct (Z.of_nat (absorb l n) =? Z.of_nat (length bl)); [rewrite bind_modify|rewrite bind_ret]; simpl;
    (erewrite bind_Ok by (apply on_cache_Ok; exact E4)); unfold l_release; by erewrite zoom_Ok by exact E2.
Qed.

Lemma relogged_same n l : outstanding (relogged n l) = outstanding l /\ committing (relogged n l) = committing l /\
  lsize (relogged n l) = lsize l.
Proof. unfold relogged. by destruct (Z.of_nat (absorb l n) =? lh_n l). Qed.

Lemma log_update_ok k l c a a0 bl n x : lk_free k -> crepr c a -> in_op a0 bl l a -> home n -> length x = BSIZE ->
  Z.of_nat (length bl) + 1 < sz ->
  exists k' l' c' a', log_update (n, x) (mkFs k l c) = Ok tt (mkFs k' l' c') /\ lk_free k' /\ crepr c' a' /\
    in_op a0 (logged n bl) l' a' /\ outstanding l' = outstanding l /\ a_view a' = vput n x (a_view a).
Proof.
  intros Hk R [Hm Hs Ho Hc Hb Hnd Hp Hi Hw] Hn Hx Hf. pose proof (crepr_wf _ _ R) as Hwf.
  assert (length (a_pinned a) = length bl) as Hlen by (apply pinned_length; [apply Hwf|done..]).
  destruct (read_one st sz k l c a n R Hb) as (b & c1 & E1 & R1); [by destruct Hn|].
  destruct (cset_ok _ _ b n x R1) as (c2 & E2 & R2); [by left|].
  destruct (log_write_ok k l c2 _ b n bl Hk Hm Hs Ho Hnd Hf R2) as (k' & c3 & E3 & Hk' & R3); [by left|done|].
  destruct (crelse_ok _ _ b n R3) as (c4 & E4 & R4); [by left|left; simpl; apply elem_of_pin; by left|].
  simpl in R4. rewrite unhold_cons in R4 by apply not_elem_of_nil. destruct (relogged_same n l) as (S1 & S2 & S3).
  assert (forall m, m ∈ pin n (a_pinned a) <-> m ∈ logged n bl) as Hpin.
  { intros m. rewrite elem_of_pin, elem_of_logged, Hp. done. }
  pose proof (crepr_wf _ _ R4) as Hwf'.
  exists k', (relogged n l), c4. eexists. split_and!; [|done|exact R4| |done|done].
  - unfold log_update. simpl. erewrite bind_Ok by exact E1. erewrite bind_Ok by (apply on_cache_Ok; exact E2).
    erewrite bind_Ok by exact E3. by apply on_cache_Ok.
  - split; simpl; try congruence.
    + by apply relogged_mem.
    + split; simpl.
      * done.
      * intros m. unfold vput. destruct (m =? n); [done|]. apply Hb.
      * intros m Hmp%Hpin%elem_of_logged. destruct Hmp as [->|Hmb]; [by destruct Hn|]. by apply (bt_area _ _ _ Hb), Hp.
      * pose proof (length_logged n bl). pose proof (pinned_length _ (logged n bl) (aw_pinned _ Hwf') (NoDup_logged _ _ Hnd) Hpin) as Hpl.
        simpl in Hpl. lia.
    + by apply NoDup_logged.
    + done.
Qed.

Definition good (w : Z * block) : Prop := home w.1 /\ length w.2 = BSIZE.

Lemma log_updates_ok ws : forall k l c a a0 bl, lk_free k -> crepr c a -> in_op a0 bl l a -> Forall good ws ->
  Z.of_nat (length bl + length ws) < sz ->
  exists k' l' c' a' bl', log_updates ws (mkFs k l c) = Ok tt (mkFs k' l' c') /\ lk_free k' /\ crepr c' a' /\
    in_op a0 bl' l' a' /\ outstanding l' = outstanding l /\ (forall n, a_view a' n = disk_after (a_view a) ws n).
Proof.
  induction ws as [|[n x] ws IH]; intros k l c a a0 bl Hk R Hop Hg Hf; simpl.
  - exists k, l, c, a, bl. done.
  - apply Forall_cons in Hg as [[Hn Hx] Hg]. cbn [length] in Hf.
    destruct (log_update_ok k l c a a0 bl n x Hk R Hop Hn Hx) as (k1 & l1 & c1 & a1 & E1 & Hk1 & R1 & Hop1 & Ho1 & Hv1); [lia|].
    pose proof (length_logged n bl).
    destruct (IH k1 l1 c1 a1 a0 (logged n bl) Hk1 R1 Hop1 Hg) as (k2 & l2 & c2 & a2 & bl2 & E2 & Hk2 & R2 & Hop2 & Ho2 & Hv2); [lia|].
    exists k2, l2, c2, a2, bl2. split_and!; [|done|done|done|congruence|].
    + by erewrite bind_Ok by exact E1.
    + intros m. by rewrite Hv2, Hv1, disk_after_cons.
Qed.

(** Between transactions: no operation is active and the log is empty. *)
Record quiet l (a : acache) : Prop := {
  qt_mem : log_mem l [];
  qt_size : lsize l = sz;
  qt_out : outstanding l = 0;
  qt_com : committing l = false;
  qt_between : between a;
  qt_pinned : a_pinned a = [];
  qt_head : hd_n (a_view a st) = 0
}.

Lemma l_acquire_Ok k l c : lk_free k -> exists k', l_acquire (mkFs k l c) = Ok tt (mkFs k' l c) /\ lk_held k'.
Proof.
  intros Hk. destruct (lk_acquire_ok k Hk) as (k1 & E & Hh). exists k1. split; [|done].
  unfold l_acquire. by erewrite zoom_Ok by exact E.
Qed.
Lemma l_release_Ok k l c : lk_held k -> exists k', l_release (mkFs k l c) = Ok tt (mkFs k' l c) /\ lk_free k'.
Proof.
  intros Hk. destruct (lk_release_ok k Hk) as (k1 & E & Hh). exists k1. split; [|done].
  unfold l_release. by erewrite zoom_Ok by exact E.
Qed.

Lemma begin_op_ok k l c a : lk_free k -> crepr c a -> quiet l a ->
  exists k', begin_op (mkFs k l c) = Ok tt (mkFs k' (set_outstanding 1 l) c) /\ lk_free k' /\ in_op a [] (set_outstanding 1 l) a.
Proof.
  intros Hk R [Hm Hs Ho Hc Hb Hp Hh]. destruct (l_acquire_Ok k l c Hk) as (k1 & E1 & Hk1).
  destruct (l_release_Ok k1 (set_outstanding 1 l) c Hk1) as (k2 & E2 & Hk2). exists k2. split_and!; [|done|].
  - unfold begin_op. erewrite bind_Ok by exact E1. rewrite bind_gets. cbn [lg]. rewrite Hc, Ho, (lm_n _ _ _ _ Hm). simpl.
    unfold upd_lg. rewrite bind_modify. exact E2.
  - split; simpl; try done; [by destruct Hm|constructor|]. intros n. by rewrite Hp.
Qed.

Lemma disk_same a a0 n : a_image a = a_image a0 -> a_writes a = a_writes a0 -> a_disk a n = a_disk a0 n.
Proof. unfold a_disk. by intros -> ->. Qed.

Definition final_writes (a : acache) (bl : list Z) : list (Z * block) :=
  match bl with [] => [] | _ => commit_writes st (a_view a) (a_view a) bl end.

Lemma in_op_clean a0 bl l c a n : crepr c a -> in_op a0 bl l a -> n ∉ bl -> a_view a n = a_disk a0 n.
Proof.
  intros R [_ _ _ _ Hb _ Hp Hi Hw] Hn. rewrite <- (disk_same a a0) by done.
  eapply view_clean; [done..|]. by rewrite Hp.
Qed.

Lemma in_op_home a0 bl l a n : in_op a0 bl l a -> n ∈ bl -> home n.
Proof. intros Hop Hn. pose proof (lm_home _ _ _ _ (io_mem _ _ _ _ Hop)) as H. rewrite Forall_forall in H. by apply H. Qed.
Lemma st_not_logged a0 bl l a : in_op a0 bl l a -> st ∉ bl.
Proof. intros Hop Hin. destruct (in_op_home _ _ _ _ _ Hop Hin) as [_ Ha]. apply Ha. unfold LogRefine.in_area. lia. Qed.

Lemma roomy_pinned bl a : (forall n, n ∈ a_pinned a <-> n ∈ bl) -> roomy bl a.
Proof. intros Hp n Hn. left. by apply Hp. Qed.

(** The writes of a commit put every block at home and leave the log empty. *)
Lemma commit_view v bl n : Forall home bl -> Z.of_nat (length bl) < sz -> ~ in_area n -> disk_after v (commit_writes st v v bl) n = v n.
Proof.
  intros Hh Hf Hn. unfold commit_writes. rewrite !app_assoc, disk_after_snoc.
  destruct (Z.eqb_spec st n) as [<-|_]; [by destruct Hn; apply (area_st st sz); lia|].
  rewrite disk_after_app. destruct (decide (n ∈ bl)) as [Hin|Hin]; [by apply disk_after_map|].
  rewrite disk_after_notin by (by rewrite fst_map_pair). rewrite disk_after_snoc.
  destruct (Z.eqb_spec st n) as [<-|_]; [by destruct Hn; apply (area_st st sz); lia|]. by apply (disk_after_out_all st sz).
Qed.
Lemma commit_head v bl : disk_after v (commit_writes st v v bl) st = put_head [] (put_head bl (v st)).
Proof. unfold commit_writes. by rewrite !app_assoc, disk_after_snoc, Z.eqb_refl. Qed.

Lemma end_op_ok k l c a a0 bl : lk_free k -> crepr c a -> in_op a0 bl l a -> outstanding l = 1 -> hd_n (a_view a st) = 0 ->
  exists k' l' c' a', end_op (mkFs k l c) = Ok tt (mkFs k' l' c') /\ lk_free k' /\ crepr c' a' /\ quiet l' a' /\
    a_image a' = a_image a /\ a_writes a' = a_writes a ++ final_writes a bl /\
    (forall n, ~ in_area n -> a_view a' n = a_view a n).
Proof.
  intros Hk R Hop Ho Hn0. pose proof Hop as [Hm Hs _ Hc Hb Hnd Hp Hi Hw].
  destruct (l_acquire_Ok k l c Hk) as (k1 & E1 & Hk1). set (l1 := set_committing true (set_outstanding 0 l)).
  destruct (l_release_Ok k1 l1 c Hk1) as (k2 & E2 & Hk2).
  assert (log_mem l1 bl) as Hm1 by (by destruct Hm).
  assert (exists c' a', commit (mkFs k2 l1 c) = Ok tt (mkFs k2 (set_n 0 l1) c') /\ crepr c' a' /\ between a' /\ a_pinned a' = [] /\
    hd_n (a_view a' st) = 0 /\ a_image a' = a_image a /\ a_writes a' = a_writes a ++ final_writes a bl /\
    (forall n, ~ in_area n -> a_view a' n = a_view a n)) as (c3 & a3 & E3 & R3 & Hb3 & Hp3 & Hh3 & Hi3 & Hw3 & Hv3).
  { destruct (decide (bl = [])) as [->|Hne].
    - exists c, a. split_and!; try done.
      + unfold commit. rewrite bind_gets. cbn [lg]. pose proof (lm_n _ _ _ _ Hm1) as Hn. simpl in Hn. simpl. rewrite Hn. simpl.
        unfold l1, set_n, set_committing, set_outstanding in *. simpl in *. by rewrite Hn.
      + apply elem_of_nil_inv. intros n Hn%Hp. by apply not_elem_of_nil in Hn.
      + simpl. by rewrite app_nil_r.
    - destruct (commit_ok st sz Hst Hsz k2 l1 c a bl R Hb Hm1) as (c' & a' & E & R' & [P1 P2 P3 P4 P5]);
        [by apply roomy_pinned|done|]. exists c', a'. split_and!; [done..| | |done| |].
      + apply elem_of_nil_inv. intros n Hn%P5. destruct Hn as [Hn%Hp Hnw]. apply Hnw. unfold commit_writes.
        rewrite !fmap_app, !elem_of_app, fst_map_pair. tauto.
      + rewrite P4, commit_head. apply (put_head_nil). rewrite length_put_head. apply Hb.
      + rewrite P3. by destruct bl.
      + intros n Hna. rewrite P4. apply commit_view; [apply Hm|apply Hm|done]. }
  destruct (l_acquire_Ok k2 (set_n 0 l1) c3 Hk2) as (k4 & E4 & Hk4).
  destruct (l_release_Ok k4 (set_lwaiting 0 (set_committing false (set_n 0 l1))) c3 Hk4) as (k5 & E5 & Hk5).
  exists k5. eexists _, c3, a3. split_and!; [|done|done| |done|done|done].
  - unfold end_op. erewrite bind_Ok by exact E1. rewrite bind_gets. cbn [lg]. unfold upd_lg. rewrite bind_modify. cbn [lg put_lg l_lock l_cache].
    rewrite Hc, Ho. change (1 - 1 =? 0) with true. cbv zeta iota. rewrite bind_modify. cbn [lg put_lg l_lock l_cache].
    erewrite bind_Ok by exact E2. erewrite bind_Ok by exact E3. erewrite bind_Ok by exact E4. rewrite bind_modify. exact E5.
  - split; simpl; try done. pose proof (lm_fits _ _ _ _ Hm). destruct Hm. split; simpl; try done; lia.
Qed.

(** Any number of recoveries that do not finish. *)
Inductive crashes (d : Z -> block) : (Z -> block) -> Prop :=
| Crash_none : crashes d d
| Crash_again d' i : crashes d d' -> crashes d (disk_after d' (take i (recovery_writes st d'))).

Lemma crashes_ok d d' : log_ok d -> crashes d d' -> log_ok d' /\ forall n, ~ in_area n -> contents d' n = contents d n.
Proof.
  intros Hd. induction 1 as [|d' i Hc [IH1 IH2]]; [done|].
  destruct (crash_recovery st sz ltac:(lia) d' i IH1) as [H1 H2]. split; [done|].
  intros n Hn. by rewrite H2, IH2.
Qed.

(** A machine that starts on the disk [d] with a working log finds [contents d]. *)
Lemma reboot_ok k l c d : crepr c (clean d) -> log_for st l -> log_ok d ->
  exists l' c' a', recover_from_log (mkFs k l c) = Ok tt (mkFs k l' c') /\ crepr c' a' /\
    forall n, ~ in_area n -> a_disk a' n = contents d n.
Proof.
  intros R Hl [Hn Hh Hlen].
  destruct (recover_ok st sz Hst Hsz k l c (clean d) R) as (c' & a' & E & R' & P); simpl; try done; try lia.
  { split; simpl; [done|done|intros n []%not_elem_of_nil|lia]. }
  eexists _, c', a'. split_and!; [exact E|done|]. intros n Hna.
  unfold a_disk. rewrite (pg_image _ _ _ _ _ P), (pg_writes _ _ _ _ _ P). simpl. unfold recovery_writes. rewrite disk_after_snoc.
  destruct (Z.eqb_spec st n) as [<-|_]; [by destruct Hna; apply (area_st st sz); lia|done].
Qed.

Lemma quiet_log_ok l c a : crepr c a -> quiet l a -> log_ok (a_view a).
Proof.
  intros R [Hm Hs Ho Hc Hb Hp Hh]. split; [lia| |apply Hb]. unfold log_blocks. rewrite Hh. constructor.
Qed.

Lemma final_writes_crash l c a a0 bl i : crepr c a -> in_op a0 bl l a -> hd_n (a_view a st) = 0 -> log_ok (a_disk a) ->
  let d := disk_after (a_disk a) (take i (final_writes a bl)) in
  log_ok d /\ ((forall n, ~ in_area n -> contents d n = a_disk a n) \/ (forall n, ~ in_area n -> contents d n = a_view a n)).
Proof.
  intros R Hop Hh Hok. pose proof (st_not_logged _ _ _ _ Hop) as Hst'. pose proof Hop as [Hm _ _ _ Hb _ Hp Hi Hw].
  assert (forall n, n ∉ bl -> a_view a n = a_disk a n) as Hcl.
  { intros n Hn. rewrite (in_op_clean _ _ _ _ _ _ R Hop Hn). symmetry. by apply disk_same. }
  assert (hd_n (a_disk a st) = 0) as Hh' by (by rewrite <- Hcl).
  destruct bl as [|m bl']; [|set (bl := m :: bl') in *].
  - simpl. rewrite take_nil. split; [done|left]. intros n Hn. change (contents (a_disk a) n = a_disk a n). unfold LogTxn.contents, log_blocks. by rewrite Hh'.
  - assert (final_writes a bl = commit_writes st (a_view a) (a_disk a) bl) as -> by (unfold bl, final_writes, commit_writes; by rewrite Hcl).
    destruct (crash_commit st sz ltac:(lia) (a_disk a) (a_view a) bl i) as [H1 H2]; try done.
    + apply Hb.
    + apply Hm.
    + eapply Forall_impl; [apply Hm|]. intros n [Hn _]. unfold is_block. lia.
    + apply Hm.
    + split; [done|]. destruct H2 as [H2|H2]; [by left|right]. intros n Hn. rewrite H2 by done.
      destruct (decide (n ∈ bl)); [done|]. by rewrite Hcl.
Qed.

Lemma transaction_ok k l c a ws : lk_free k -> crepr c a -> quiet l a -> Forall good ws -> Z.of_nat (length ws) < sz ->
  exists k' l' c' a' W, transaction ws (mkFs k l c) = Ok tt (mkFs k' l' c') /\ lk_free k' /\ crepr c' a' /\ quiet l' a' /\
    a_image a' = a_image a /\ a_writes a' = a_writes a ++ W /\
    (forall n, ~ in_area n -> a_view a' n = disk_after (a_view a) ws n) /\
    forall i, let d := disk_after (a_disk a) (take i W) in
      log_ok d /\ ((forall n, ~ in_area n -> contents d n = a_view a n) \/
                   (forall n, ~ in_area n -> contents d n = disk_after (a_view a) ws n)).
Proof.
  intros Hk R Hq Hg Hf. destruct (begin_op_ok k l c a Hk R Hq) as (k1 & E1 & Hk1 & Hop1).
  destruct (log_updates_ok ws k1 _ c a a [] Hk1 R Hop1 Hg Hf) as (k2 & l2 & c2 & a2 & bl & E2 & Hk2 & R2 & Hop2 & Ho2 & Hv2).
  assert (forall n, a_view a n = a_disk a n) as Hcl.
  { intros n. eapply view_clean; [exact R|apply Hq|]. rewrite (qt_pinned _ _ Hq). apply not_elem_of_nil. }
  assert (a_view a2 st = a_view a st) as Hst2.
  { rewrite (in_op_clean _ _ _ _ _ _ R2 Hop2), Hcl; [done|]. by eapply st_not_logged. }
  assert (forall n, a_disk a2 n = a_disk a n) as Hd2 by (intros n; apply disk_same; apply Hop2).
  assert (hd_n (a_view a2 st) = 0) as Hh2 by (rewrite Hst2; apply Hq).
  destruct (end_op_ok k2 l2 c2 a2 a bl Hk2 R2 Hop2 Ho2 Hh2) as (k3 & l3 & c3 & a3 & E3 & Hk3 & R3 & Hq3 & Hi3 & Hw3 & Hv3).
  exists k3, l3, c3, a3, (final_writes a2 bl). split_and!; [|done..| | | |].
  - unfold transaction. erewrite bind_Ok by exact E1. by erewrite bind_Ok by exact E2.
  - rewrite Hi3. apply Hop2.
  - rewrite Hw3. by rewrite (io_writes _ _ _ _ Hop2).
  - intros n Hn. by rewrite Hv3, Hv2.
  - intros i. simpl.
    assert (log_ok (a_disk a2)) as Hok2.
    { eapply (log_ok_ext st sz (a_view a)); [|by eapply quiet_log_ok]. intros n. by rewrite Hd2, Hcl. }
    destruct (final_writes_crash l2 c2 a2 a bl i R2 Hop2 Hh2 Hok2) as [H1 H2].
    assert (forall n, disk_after (a_disk a) (take i (final_writes a2 bl)) n = disk_after (a_disk a2) (take i (final_writes a2 bl)) n) as Hex.
    { intros n. apply disk_after_ext. by rewrite Hd2. }
    split; [by eapply log_ok_ext|]. destruct H2 as [H2|H2]; [left|right]; intros n Hn; rewrite (contents_ext st _ _ Hex), H2 by done.
    + by rewrite Hd2, Hcl.
    + apply Hv2.
Qed.

(** C6 Crash atomicity.  A transaction of block updates through [log_write]
    succeeds and its updates are what the file system reads afterwards.  If
    the machine crashes after any of the disk writes it made, and then during
    any number of recoveries, a machine that starts on that disk recovers with
    success and finds on the disk, outside the log, all of the updates or none
    of them. *)
Theorem crash_atomic k l c a ws :
  lk_free k -> crepr c a -> quiet l a -> Forall good ws -> Z.of_nat (length ws) < sz ->
  exists k' l' c' a' W, transaction ws (mkFs k l c) = Ok tt (mkFs k' l' c') /\ crepr c' a' /\ quiet l' a' /\
    a_writes a' = a_writes a ++ W /\
    (forall n, ~ in_area n -> a_view a' n = disk_after (a_view a) ws n) /\
    forall i d k0 l0 c0, crashes (disk_after (a_disk a) (take i W)) d -> crepr c0 (clean d) -> log_for st l0 ->
      exists l1 c1 a1, recover_from_log (mkFs k0 l0 c0) = Ok tt (mkFs k0 l1 c1) /\ crepr c1 a1 /\
        ((forall n, ~ in_area n -> a_disk a1 n = a_view a n) \/
         (forall n, ~ in_area n -> a_disk a1 n = disk_after (a_view a) ws n)).
Proof.
  intros Hk R Hq Hg Hf. destruct (transaction_ok k l c a ws Hk R Hq Hg Hf) as (k' & l' & c' & a' & W & E & Hk' & R' & Hq' & _ & Hw & Hv & Hcr).
  exists k', l', c', a', W. split_and!; [done..|]. intros i d k0 l0 c0 Hd R0 Hl0. destruct (Hcr i) as [Hok Hcont].
  destruct (crashes_ok _ _ Hok Hd) as [Hokd Hcd]. destruct (reboot_ok k0 l0 c0 d R0 Hl0 Hokd) as (l1 & c1 & a1 & E1 & R1 & Hd1).
  exists l1, c1, a1. split_and!; [done..|]. destruct Hcont as [Hcont|Hcont]; [left|right]; intros n Hn; by rewrite Hd1, Hcd, Hcont.
Qed.
End Txn.

(** ** On the buffer cache of bio.c

    The layout of mkfs: the log starts at block 2 and has [LOGSIZE] blocks. *)
Section OnBio.
Local Instance bio_locks : Locks (machine * list spinlock) := spin_locks 31.
Lemma enough_locks : (NBUF < lk_count)%nat.
Proof. unfold NBUF. simpl. lia. Qed.
Local Instance bio : Cache (bcache (L := machine * list spinlock)) := bio_cache 1000 1 enough_locks.

Definition mkfs_log : log := mkLog 2 30 0 false 1 0 (replicate 30 0) 0.

Lemma crash_atomic_witness : exists c k' l' c' a', crepr c (clean (fun _ => replicate 512 0)) /\
  transaction [(100, replicate 512 1); (200, replicate 512 2)] (mkFs (demo_lock_state "log") mkfs_log c) = Ok tt (mkFs k' l' c') /\
  crepr c' a' /\ a_view a' 100 = replicate 512 1 /\ a_view a' 101 = replicate 512 0.
Proof.
  assert (2 + 30 <= cache_size) as H1 by (vm_compute; discriminate).
  assert (30 <= Z.of_nat cache_cap) as H2 by (vm_compute; discriminate).
  assert (cache_size <= 2 ^ 31) as H3 by (vm_compute; discriminate).
  assert (lk_owned [] (demo_locks 31)) as Ho by (apply demo_locks_owned; lia).
  destruct (binit_ok 1000 1 (demo_locks 31) (fun _ => replicate 512 0) Ho) as (c & _ & R).
  destruct (crash_atomic 2 30 ltac:(lia) H1 ltac:(lia) H2 H3
    (demo_lock_state "log") mkfs_log c (clean (fun _ => replicate 512 0)) [(100, replicate 512 1); (200, replicate 512 2)])
    as (k' & l' & c' & a' & W & E & R' & _ & _ & Hv & _).
  - apply demo_lock_free.
  - exact R.
  - split; [split|..|split|reflexivity|reflexivity]; try reflexivity.
    + constructor.
    + intros n []%not_elem_of_nil.
    + by apply Nat.ltb_lt.
  - repeat constructor; unfold in_area; simpl; lia.
  - simpl. lia.
  - exists c, k', l', c', a'. split_and!; [exact R|exact E|exact R'|..];
      rewrite Hv by (unfold in_area; lia); reflexivity.
Defined.

End OnBio.
