(* ===== verification/BlockSpec.v ===== *)
(** * What the log promises to the file system

    The file system reads blocks into buffers and releases them; inside a
    transaction ([t_open]) it may change them and hand them to [log_write].
    [t_view] is what it sees, [t_disk] what is on the disk until the
    transaction commits.  A transaction may log [bk_room] blocks, and the cache
    then still has buffers for three more.  The blocks of the log itself are
    not for the file system ([bk_fs]). *)

From stdpp Require Import base gmap list strings.
From Stdlib Require Import ZArith Lia.
From S2P Require Import Prelude CacheSpec Log.
Local Open Scope Z_scope.

(** A disk as it was at the start, and the writes to it since. *)
Record history := mkHistory { hs_image : Z -> block; hs_writes : list (Z * block) }.
Definition disk_of (d : history) : Z -> block := disk_after (hs_image d) (hs_writes d).
Coercion disk_of : history >-> Funclass.
Definition then_writes (d : history) (ws : list (Z * block)) : history := mkHistory (hs_image d) (hs_writes d ++ ws).

Record txn := mkTxn {
  t_open : bool;
  t_view : Z -> block;
  t_disk : history;
  t_logged : gset Z;
  t_held : list (nat * Z)
}.
Definition t_with_view (v : Z -> block) (t : txn) : txn := mkTxn (t_open t) v (t_disk t) (t_logged t) (t_held t).
Definition t_with_logged (g : gset Z) (t : txn) : txn := mkTxn (t_open t) (t_view t) (t_disk t) g (t_held t).
Definition t_with_held (h : list (nat * Z)) (t : txn) : txn := mkTxn (t_open t) (t_view t) (t_disk t) (t_logged t) h.

Class Blocks (S : Type) := {
  bk_room : nat;
  bk_fs : Z -> Prop;
  bk_read : Z -> Z -> M S nat;                  (** [bread] *)
  bk_relse : nat -> M S unit;                   (** [brelse] *)
  bk_data : nat -> M S block;                   (** [bp->data] *)
  bk_set : nat -> block -> M S unit;
  bk_log : nat -> M S unit;                     (** [log_write] *)
  bk_begin : M S unit;                          (** [begin_op] *)
  bk_end : M S unit;                            (** [end_op] *)
  bk_repr : S -> txn -> Prop;
  bk_recovers : (Z -> block) -> (Z -> block) -> Prop;
                (** a machine that starts on the first disk finds the second *)
  bk_recovers_ext x x' y : (forall n, x' n = x n) -> bk_recovers x y -> bk_recovers x' y;
  bk_size s t : bk_repr s t -> (size (t_logged t) <= bk_room)%nat;
  bk_held s t : bk_repr s t -> NoDup (t_held t).*1 /\ NoDup (t_held t).*2;
  bk_len s t n : bk_repr s t -> bk_fs n -> length (t_view t n) = BSIZE;
  bk_clean s t n : bk_repr s t -> bk_fs n -> n ∉ t_logged t -> n ∉ (t_held t).*2 -> t_view t n = t_disk t n;
  bk_read_ok s t n : bk_repr s t -> bk_fs n -> n ∉ (t_held t).*2 ->
    (length (t_held t) <= 2)%nat ->
    exists i s', bk_read 1 n s = Ok i s' /\ i ∉ (t_held t).*1 /\ bk_repr s' (t_with_held ((i, n) :: t_held t) t);
  bk_relse_ok s t i n : bk_repr s t -> (i, n) ∈ t_held t -> (n ∈ t_logged t \/ t_view t n = t_disk t n) ->
    exists s', bk_relse i s = Ok tt s' /\ bk_repr s' (t_with_held (unhold i (t_held t)) t);
  bk_data_ok s t i n : bk_repr s t -> (i, n) ∈ t_held t -> bk_data i s = Ok (t_view t n) s;
  bk_set_ok s t i n x : bk_repr s t -> (i, n) ∈ t_held t -> length x = BSIZE ->
    exists s', bk_set i x s = Ok tt s' /\ bk_repr s' (t_with_view (vput n x (t_view t)) t);
  bk_log_ok s t i n : bk_repr s t -> (i, n) ∈ t_held t -> (n ∈ t_logged t \/ (size (t_logged t) < bk_room)%nat) ->
    t_open t = true -> exists s', bk_log i s = Ok tt s' /\ bk_repr s' (t_with_logged ({[n]} ∪ t_logged t) t);
  bk_begin_ok s v d : bk_repr s (mkTxn false v d ∅ []) -> exists s', bk_begin s = Ok tt s' /\ bk_repr s' (mkTxn true v d ∅ []);
  (** A crash during the writes of [end_op] leaves the disk as before the
      transaction or as after it. *)
  bk_end_ok s v d g : bk_repr s (mkTxn true v d g []) ->
    exists s' ws, bk_end s = Ok tt s' /\ bk_repr s' (mkTxn false v (then_writes d ws) ∅ []) /\
      forall i, (forall y, (forall n, bk_fs n -> y n = d n) -> bk_recovers (disk_after d (take i ws)) y) \/
                bk_recovers (disk_after d (take i ws)) v
}.
