(* ===== verification/Fs.v ===== *)
(** * The file system: fs.c

    Blocks, inodes, their contents, directories and paths, over any log that
    keeps the promises of [Blocks].  An inode pointer is an index into the
    inode cache; a null pointer is [None] where a function may return one.
    [readi] returns the bytes it stores at [dst] and [writei] takes those it
    finds at [src]; names and paths are lists of characters, up to the
    terminating null.  [me] is the pid of the calling process. *)

From stdpp Require Import base gmap list strings.
From Stdlib Require Import ZArith Lia.
From S2P Require Import Prelude Spinlock CString Sync Sleeplock CacheSpec Log BlockSpec.
Local Open Scope Z_scope.

(** ** param.h, stat.h, fs.h *)

Definition NINODE : nat := 50.
Definition NDEV : Z := 10.
Definition ROOTDEV : Z := 1.
Definition T_DIR : Z := 1.
Definition T_FILE : Z := 2.
Definition T_DEV : Z := 3.
Definition ROOTINO : Z := 1.
Definition NDIRECT : nat := 12.
Definition NINDIRECT : nat := 128.
Definition MAXFILE : Z := Z.of_nat (NDIRECT + NINDIRECT).
Definition sizeof_dinode : nat := 64.
Definition IPB : Z := 8.
Definition IBLOCK (i : Z) (sb : superblock) : Z := i / IPB + sb_inodestart sb.
Definition BPB : Z := 4096.
Definition BBLOCK (b : Z) (sb : superblock) : Z := b / BPB + sb_bmapstart sb.
Definition DIRSIZ : nat := 14.
Definition sizeof_dirent : Z := 16.

(** A [short] in a block, and a whole [struct dinode] at offset [k]. *)
Definition s16 (z : Z) : Z := (z + 2 ^ 15) mod 2 ^ 16 - 2 ^ 15.
Definition half (b : block) (k : nat) : Z := byte_at b k + 2 ^ 8 * byte_at b (k + 1).
Definition put_half (k : nat) (v : Z) (b : block) : block :=
  <[(k + 1)%nat := v / 2 ^ 8 mod 256]> (<[k := v mod 256]> b).

Record dinode := mkDinode {
  d_type : Z; d_major : Z; d_minor : Z; d_nlink : Z; d_size : Z;
  d_addrs : list Z        (** [NDIRECT + 1] block numbers *)
}.
Definition get_addrs (b : block) (k : nat) : list Z := map (fun i => word b (k + 4 * i)) (seq 0 (NDIRECT + 1)).
Definition get_dinode (b : block) (k : nat) : dinode :=
  mkDinode (s16 (half b k)) (s16 (half b (k + 2))) (s16 (half b (k + 4))) (s16 (half b (k + 6))) (word b (k + 8))
    (get_addrs b (k + 12)).
Fixpoint put_words (k : nat) (l : list Z) (b : block) : block :=
  match l with [] => b | v :: l' => put_words (k + 4) l' (put_word k v b) end.
Definition put_dinode (k : nat) (d : dinode) (b : block) : block :=
  put_words (k + 12) (d_addrs d) (put_word (k + 8) (d_size d) (put_half (k + 6) (d_nlink d)
    (put_half (k + 4) (d_minor d) (put_half (k + 2) (d_major d) (put_half k (d_type d) b))))).

(** [memset(p, 0, n)] and [memmove(p, src, length src)] at offset [k] of a block. *)
Definition splice (k : nat) (l b : block) : block := take k b ++ l ++ drop (k + length l) b.
Definition slot (inum : Z) : nat := sizeof_dinode * Z.to_nat (inum mod IPB).

(** [struct dirent] as bytes *)
Definition de_inum (de : list Z) : Z := half de 0.
Definition de_name (de : list Z) : list Z := drop 2 de.
Definition mk_dirent (inum : Z) (name : list Z) : list Z := [inum mod 256; inum / 2 ^ 8 mod 256] ++ name.

(** Two strings in a memory, for the functions of string.c. *)
Definition strings (s t : list Z) : mem :=
  fun a => if a <? 2 ^ 10 then nth (Z.to_nat a) s 0 else nth (Z.to_nat (a - 2 ^ 10)) t 0.
Definition namecmp (s t : list Z) : Z :=
  match strncmp 0 (2 ^ 10) DIRSIZ (strings s t) with Ok r _ => r | _ => 0 end.
(** The bytes of [de.name] after [strncpy(de.name, name, DIRSIZ)]. *)
Definition name_field (name : list Z) : list Z :=
  match strncpy 0 (2 ^ 10) (Z.of_nat DIRSIZ) (strings [] name) with
  | Ok _ m => map (fun i => m (Z.of_nat i)) (seq 0 DIRSIZ)
  | _ => []
  end.

(** Path elements: what [*path] reads, and the two loops of [skipelem]. *)
Definition peek (p : list Z) : Z := nth 0 p 0.
Fixpoint skip_slashes (p : list Z) : list Z :=
  match p with c :: p' => if c =? 47 then skip_slashes p' else p | [] => [] end.
Fixpoint element (p : list Z) : list Z * list Z :=
  match p with
  | c :: p' => if (c =? 47) || (c =? 0) then ([], p) else let (e, r) := element p' in (c :: e, r)
  | [] => ([], [])
  end.
(** The rest of the path and the buffer [name] afterwards. *)
Definition skipelem (path name : list Z) : option (list Z * list Z) :=
  let path := skip_slashes path in
  if peek path =? 0 then None else
  let (s, path) := element path in
  let name :=
    if (DIRSIZ <=? length s)%nat then splice 0 (take DIRSIZ s) name
    else <[length s := 0]> (splice 0 s name) in
  Some (skip_slashes path, name).

(** ** file.h: the inode cache *)

Record inode := mkInode {
  i_dev : Z; i_inum : Z; i_ref : Z; i_lock : sleeplock; i_valid : bool;
  i_d : dinode           (** the copy of the disk inode *)
}.
Definition set_iident (d n r : Z) (x : inode) : inode := mkInode d n r (i_lock x) false (i_d x).
Definition set_iref (r : Z) (x : inode) : inode := mkInode (i_dev x) (i_inum x) r (i_lock x) (i_valid x) (i_d x).
Definition set_ilock (l : sleeplock) (x : inode) : inode := mkInode (i_dev x) (i_inum x) (i_ref x) l (i_valid x) (i_d x).
Definition set_ivalid (v : bool) (x : inode) : inode := mkInode (i_dev x) (i_inum x) (i_ref x) (i_lock x) v (i_d x).
Definition set_id (d : dinode) (x : inode) : inode := mkInode (i_dev x) (i_inum x) (i_ref x) (i_lock x) (i_valid x) d.
Definition set_type (v : Z) (d : dinode) : dinode := mkDinode v (d_major d) (d_minor d) (d_nlink d) (d_size d) (d_addrs d).
Definition set_nlink (v : Z) (d : dinode) : dinode := mkDinode (d_type d) (d_major d) (d_minor d) v (d_size d) (d_addrs d).
Definition set_size (v : Z) (d : dinode) : dinode := mkDinode (d_type d) (d_major d) (d_minor d) (d_nlink d) v (d_addrs d).
Definition set_addr (i : nat) (v : Z) (d : dinode) : dinode :=
  mkDinode (d_type d) (d_major d) (d_minor d) (d_nlink d) (d_size d) (<[i := v]> (d_addrs d)).

Record stat := mkStat { st_type : Z; st_dev : Z; st_ino : Z; st_nlink : Z; st_size : Z }.

Section Fs.
Context {L S : Type} `{HL : Locks L} `{HB : Blocks S} (me : Z).

Record fs := mkFsys {
  f_locks : L;            (** lock 0 is [icache.lock], [i + 1] that of inode [i] *)
  f_blocks : S;
  f_sb : superblock;
  icache : list inode     (** [NINODE] entries *)
}.
Definition put_flocks (x : L) (s : fs) : fs := mkFsys x (f_blocks s) (f_sb s) (icache s).
Definition put_fblocks (x : S) (s : fs) : fs := mkFsys (f_locks s) x (f_sb s) (icache s).
Definition put_sb (x : superblock) (s : fs) : fs := mkFsys (f_locks s) (f_blocks s) x (icache s).
Definition put_icache (x : list inode) (s : fs) : fs := mkFsys (f_locks s) (f_blocks s) (f_sb s) x.

(** Device functions, by major number; [None] is an empty entry of [devsw]. *)
Context (devsw_read : Z -> option (nat -> Z -> M fs (Z * list Z)))
        (devsw_write : Z -> option (nat -> list Z -> M fs Z)).

Definition on_blocks {A : Type} (m : M S A) : M fs A := zoom f_blocks put_fblocks m.
Definition bread (dev n : Z) : M fs nat := on_blocks (bk_read dev n).
Definition brelse (bp : nat) : M fs unit := on_blocks (bk_relse bp).
Definition data (bp : nat) : M fs block := on_blocks (bk_data bp).
Definition set_data (bp : nat) (x : block) : M fs unit := on_blocks (bk_set bp x).
Definition log_write (bp : nat) : M fs unit := on_blocks (bk_log bp).

Definition geti (ip : nat) : M fs inode :=
  let! l := gets icache in
  deref (l !! ip).
Definition updi (ip : nat) (f : inode -> inode) : M fs unit :=
  let! x := geti ip in
  modify (fun s => put_icache (<[ip := f x]> (icache s)) s).
Definition updd (ip : nat) (f : dinode -> dinode) : M fs unit := updi ip (fun x => set_id (f (i_d x)) x).

Definition i_acquire : M fs unit := zoom f_locks put_flocks (lock_n 0).
Definition i_release : M fs unit := zoom f_locks put_flocks (unlock_n 0).
(** A call on the sleep lock of inode [ip]. *)
Definition on_ilock {A : Type} (ip : nat) (m : M (L * sleeplock) A) : M fs A :=
  let! x := geti ip in
  zoom (fun s => (f_locks s, i_lock x))
    (fun y s => put_flocks y.1 (put_icache (<[ip := set_ilock y.2 x]> (icache s)) s)) m.
Definition acquire_inode (ip : nat) : M fs unit := on_ilock ip (acquiresleep (Datatypes.S ip) me).
Definition release_inode (ip : nat) : M fs unit := on_ilock ip (releasesleep (Datatypes.S ip)).
Definition holding_inode (ip : nat) : M fs bool := on_ilock ip (holdingsleep (Datatypes.S ip) me).

(** ** Blocks *)

Definition readsb (dev : Z) : M fs unit :=
  let! bp := bread dev 1 in
  let! b := data bp in
  modify (put_sb (read_superblock b)) ;;;
  brelse bp.

Definition bzero (dev bno : Z) : M fs unit :=
  let! bp := bread dev bno in
  let! b := data bp in
  set_data bp (splice 0 (replicate BSIZE 0) b) ;;;
  log_write bp ;;;
  brelse bp.

(** The bit of block [b] in a block of the bitmap. *)
Definition bit_mask (bi : Z) : Z := Z.shiftl 1 (bi mod 8).
Definition map_byte (x : block) (bi : Z) : Z := byte_at x (Z.to_nat (bi / 8)).
Definition set_map_byte (x : block) (bi v : Z) : block := <[Z.to_nat (bi / 8) := u8 v]> x.

Definition balloc (dev : Z) : M fs Z :=
  let! sb := gets f_sb in
  let! r := scan (seq 0 (Z.to_nat ((sb_size sb + BPB - 1) / BPB))) (fun k =>
    let b := Z.of_nat k * BPB in
    let! bp := bread dev (BBLOCK b sb) in
    let! r := scan (seq 0 (Z.to_nat (Z.min BPB (sb_size sb - b)))) (fun i =>
      let bi := Z.of_nat i in
      let m := bit_mask bi in
      let! x := data bp in
      if Z.land (map_byte x bi) m =? 0 then
        set_data bp (set_map_byte x bi (Z.lor (map_byte x bi) m)) ;;;
        log_write bp ;;;
        brelse bp ;;;
        bzero dev (b + bi) ;;;
        ret (Some (b + bi))
      else ret None) in
    match r with
    | Some x => ret (Some x)
    | None => brelse bp ;;; ret None
    end) in
  match r with
  | Some x => ret x
  | None => panic "balloc: out of blocks"
  end.

Definition bfree (dev b : Z) : M fs unit :=
  readsb dev ;;;
  let! sb := gets f_sb in
  let! bp := bread dev (BBLOCK b sb) in
  let bi := b mod BPB in
  let m := bit_mask bi in
  let! x := data bp in
  if Z.land (map_byte x bi) m =? 0 then panic "freeing free block" else
  set_data bp (set_map_byte x bi (Z.land (map_byte x bi) (Z.lnot m))) ;;;
  log_write bp ;;;
  brelse bp.

(** ** Inodes *)

Definition iinit (dev : Z) : M fs unit :=
  foreach (seq 0 NINODE) (fun i => updi i (fun x => set_ilock (initsleeplock "inode" (i_lock x)) x)) ;;;
  readsb dev.

(** The search of [iget]; [empty] is the first free entry seen. *)
Fixpoint iget_loop (l : list nat) (dev inum : Z) (empty : option nat) : M fs (nat + option nat) :=
  match l with
  | [] => ret (inr empty)
  | ip :: l' =>
      let! x := geti ip in
      if (0 <? i_ref x) && (i_dev x =? dev) && (i_inum x =? inum) then ret (inl ip) else
      iget_loop l' dev inum
        (match empty with None => if i_ref x =? 0 then Some ip else None | Some _ => empty end)
  end.
Definition iget (dev inum : Z) : M fs nat :=
  i_acquire ;;;
  let! r := iget_loop (seq 0 NINODE) dev inum None in
  match r with
  | inl ip =>
      updi ip (fun x => set_iref (i_ref x + 1) x) ;;;
      i_release ;;;
      ret ip
  | inr None => panic "iget: no inodes"
  | inr (Some ip) =>
      updi ip (set_iident dev inum 1) ;;;
      i_release ;;;
      ret ip
  end.

Definition ialloc (dev type : Z) : M fs nat :=
  let! sb := gets f_sb in
  let! r := scan (seq 1 (Z.to_nat (sb_ninodes sb - 1))) (fun i =>
    let inum := Z.of_nat i in
    let! bp := bread dev (IBLOCK inum sb) in
    let! b := data bp in
    if d_type (get_dinode b (slot inum)) =? 0 then
      set_data bp (put_half (slot inum) type (splice (slot inum) (replicate sizeof_dinode 0) b)) ;;;
      log_write bp ;;;
      brelse bp ;;;
      let! ip := iget dev inum in
      ret (Some ip)
    else
      brelse bp ;;;
      ret None) in
  match r with
  | Some ip => ret ip
  | None => panic "ialloc: no inodes"
  end.

Definition iupdate (ip : nat) : M fs unit :=
  let! x := geti ip in
  let! sb := gets f_sb in
  let! bp := bread (i_dev x) (IBLOCK (i_inum x) sb) in
  let! b := data bp in
  set_data bp (put_dinode (slot (i_inum x)) (i_d x) b) ;;;
  log_write bp ;;;
  brelse bp.

Definition idup (ip : nat) : M fs nat :=
  i_acquire ;;;
  updi ip (fun x => set_iref (i_ref x + 1) x) ;;;
  i_release ;;;
  ret ip.

Definition ilock (ip : nat) : M fs unit :=
  let! x := geti ip in
  if i_ref x <? 1 then panic "ilock" else
  acquire_inode ip ;;;
  let! x := geti ip in
  if negb (i_valid x) then
    let! sb := gets f_sb in
    let! bp := bread (i_dev x) (IBLOCK (i_inum x) sb) in
    let! b := data bp in
    updi ip (set_id (get_dinode b (slot (i_inum x)))) ;;;
    brelse bp ;;;
    updi ip (set_ivalid true) ;;;
    let! x := geti ip in
    if d_type (i_d x) =? 0 then panic "ilock: no type" else ret tt
  else ret tt.

Definition iunlock (ip : nat) : M fs unit :=
  let! h := holding_inode ip in
  let! x := geti ip in
  if negb h || (i_ref x <? 1) then panic "iunlock" else
  release_inode ip.

(** [if(ip->addrs[i]) bfree(...)] for a direct block, and for entry [j] of
    the indirect block [a]. *)
Definition itrunc_direct (ip i : nat) : M fs unit :=
  let! x := geti ip in
  let! a := deref (d_addrs (i_d x) !! i) in
  if negb (a =? 0) then
    bfree (i_dev x) a ;;;
    updd ip (set_addr i 0)
  else ret tt.
Definition itrunc_indirect (dev : Z) (bp j : nat) : M fs unit :=
  let! b := data bp in
  let a := word b (4 * j) in
  if negb (a =? 0) then bfree dev a else ret tt.
Definition itrunc (ip : nat) : M fs unit :=
  foreach (seq 0 NDIRECT) (itrunc_direct ip) ;;;
  let! x := geti ip in
  let! a := deref (d_addrs (i_d x) !! NDIRECT) in
  (if negb (a =? 0) then
     let! bp := bread (i_dev x) a in
     foreach (seq 0 NINDIRECT) (itrunc_indirect (i_dev x) bp) ;;;
     brelse bp ;;;
     bfree (i_dev x) a ;;;
     updd ip (set_addr NDIRECT 0)
   else ret tt) ;;;
  updd ip (set_size 0) ;;;
  iupdate ip.

Definition iput (ip : nat) : M fs unit :=
  acquire_inode ip ;;;
  let! x := geti ip in
  (if i_valid x && (d_nlink (i_d x) =? 0) then
     i_acquire ;;;
     let! x := geti ip in
     let r := i_ref x in
     i_release ;;;
     if r =? 1 then
       itrunc ip ;;;
       updd ip (set_type 0) ;;;
       iupdate ip ;;;
       updi ip (set_ivalid false)
     else ret tt
   else ret tt) ;;;
  release_inode ip ;;;
  i_acquire ;;;
  updi ip (fun x => set_iref (i_ref x - 1) x) ;;;
  i_release.

Definition iunlockput (ip : nat) : M fs unit :=
  iunlock ip ;;;
  iput ip.

(** ** Contents *)

Definition bmap (ip : nat) (bn : Z) : M fs Z :=
  let! x := geti ip in
  if bn <? Z.of_nat NDIRECT then
    let! addr := deref (d_addrs (i_d x) !! Z.to_nat bn) in
    if addr =? 0 then
      let! addr := balloc (i_dev x) in
      updd ip (set_addr (Z.to_nat bn) addr) ;;;
      ret addr
    else ret addr
  else
  let bn := bn - Z.of_nat NDIRECT in
  if bn <? Z.of_nat NINDIRECT then
    let! addr := deref (d_addrs (i_d x) !! NDIRECT) in
    let! addr :=
      (if addr =? 0 then
         let! addr := balloc (i_dev x) in
         updd ip (set_addr NDIRECT addr) ;;;
         ret addr
       else ret addr) in
    let! bp := bread (i_dev x) addr in
    let! a := data bp in
    let addr := word a (4 * Z.to_nat bn) in
    let! addr :=
      (if addr =? 0 then
         let! addr := balloc (i_dev x) in
         let! a := data bp in
         set_data bp (put_word (4 * Z.to_nat bn) addr a) ;;;
         log_write bp ;;;
         ret addr
       else ret addr) in
    brelse bp ;;;
    ret addr
  else panic "bmap: out of range".

Definition stati (ip : nat) : M fs stat :=
  let! x := geti ip in
  ret (mkStat (d_type (i_d x)) (i_dev x) (i_inum x) (d_nlink (i_d x)) (d_size (i_d x))).

(** Every round but the first and the last copies a whole block. *)
Definition rw_fuel (n : Z) : nat := Z.to_nat (n / Z.of_nat BSIZE) + 3.

Fixpoint readi_loop (fuel ip : nat) (tot n off : Z) : M fs (list Z) :=
  match fuel with
  | O => nofuel
  | Datatypes.S f =>
      if tot <? n then
        let! x := geti ip in
        let! addr := bmap ip (off / Z.of_nat BSIZE) in
        let! bp := bread (i_dev x) addr in
        let m := Z.min (n - tot) (Z.of_nat BSIZE - off mod Z.of_nat BSIZE) in
        let! b := data bp in
        brelse bp ;;;
        let! rest := readi_loop f ip (tot + m) n (off + m) in
        ret (take (Z.to_nat m) (drop (Z.to_nat (off mod Z.of_nat BSIZE)) b) ++ rest)
      else ret []
  end.
Definition readi (ip : nat) (off n : Z) : M fs (Z * list Z) :=
  let! x := geti ip in
  if d_type (i_d x) =? T_DEV then
    let major := d_major (i_d x) in
    if (major <? 0) || (NDEV <=? major) then ret (-1, []) else
    match devsw_read major with None => ret (-1, []) | Some f => f ip n end
  else
  let size := d_size (i_d x) in
  if (size <? off) || (u32 (off + n) <? off) then ret (-1, []) else
  let n := if size <? off + n then size - off else n in
  let! l := readi_loop (rw_fuel n) ip 0 n off in
  ret (n, l).

Fixpoint writei_loop (fuel ip : nat) (tot n off : Z) (src : list Z) : M fs Z :=
  match fuel with
  | O => nofuel
  | Datatypes.S f =>
      if tot <? n then
        let! x := geti ip in
        let! addr := bmap ip (off / Z.of_nat BSIZE) in
        let! bp := bread (i_dev x) addr in
        let m := Z.min (n - tot) (Z.of_nat BSIZE - off mod Z.of_nat BSIZE) in
        let! b := data bp in
        set_data bp (splice (Z.to_nat (off mod Z.of_nat BSIZE)) (take (Z.to_nat m) src) b) ;;;
        log_write bp ;;;
        brelse bp ;;;
        writei_loop f ip (tot + m) n (off + m) (drop (Z.to_nat m) src)
      else ret off
  end.
(** [src] has [n] bytes. *)
Definition writei (ip : nat) (src : list Z) (off n : Z) : M fs Z :=
  let! x := geti ip in
  if d_type (i_d x) =? T_DEV then
    let major := d_major (i_d x) in
    if (major <? 0) || (NDEV <=? major) then ret (-1) else
    match devsw_write major with None => ret (-1) | Some f => f ip src end
  else
  if (d_size (i_d x) <? off) || (u32 (off + n) <? off) then ret (-1) else
  if MAXFILE * Z.of_nat BSIZE <? off + n then ret (-1) else
  let! off := writei_loop (rw_fuel n) ip 0 n off src in
  let! x := geti ip in
  (if (0 <? n) && (d_size (i_d x) <? off) then
     updd ip (set_size off) ;;;
     iupdate ip
   else ret tt) ;;;
  ret n.

(** ** Directories *)

Fixpoint dirlookup_loop (fuel dp : nat) (name : list Z) (off : Z) : M fs (option (nat * Z)) :=
  match fuel with
  | O => nofuel
  | Datatypes.S f =>
      let! x := geti dp in
      if off <? d_size (i_d x) then
        let! r := readi dp off sizeof_dirent in
        if negb (r.1 =? sizeof_dirent) then panic "dirlookup read" else
        let de := r.2 in
        if de_inum de =? 0 then dirlookup_loop f dp name (off + sizeof_dirent) else
        if namecmp name (de_name de) =? 0 then
          let! ip := iget (i_dev x) (de_inum de) in
          ret (Some (ip, off))
        else dirlookup_loop f dp name (off + sizeof_dirent)
      else ret None
  end.
Definition dir_fuel (size : Z) : nat := Z.to_nat (size / sizeof_dirent) + 2.
(** The inode and [*poff]. *)
Definition dirlookup (dp : nat) (name : list Z) : M fs (option (nat * Z)) :=
  let! x := geti dp in
  if negb (d_type (i_d x) =? T_DIR) then panic "dirlookup not DIR" else
  dirlookup_loop (dir_fuel (d_size (i_d x))) dp name 0.

(** The offset of the first free entry, or of the end. *)
Fixpoint free_entry (fuel dp : nat) (off : Z) : M fs Z :=
  match fuel with
  | O => nofuel
  | Datatypes.S f =>
      let! x := geti dp in
      if off <? d_size (i_d x) then
        let! r := readi dp off sizeof_dirent in
        if negb (r.1 =? sizeof_dirent) then panic "dirlink read" else
        if de_inum r.2 =? 0 then ret off else free_entry f dp (off + sizeof_dirent)
      else ret off
  end.
Definition dirlink (dp : nat) (name : list Z) (inum : Z) : M fs Z :=
  let! r := dirlookup dp name in
  match r with
  | Some (ip, _) =>
      iput ip ;;;
      ret (-1)
  | None =>
      let! x := geti dp in
      let! off := free_entry (dir_fuel (d_size (i_d x))) dp 0 in
      let! n := writei dp (mk_dirent inum (name_field name)) off sizeof_dirent in
      if negb (n =? sizeof_dirent) then panic "dirlink" else ret 0
  end.

(** ** Paths *)

(** The loop of [namex]: the inode, or null, and the buffer [name]. *)
Fixpoint namex_loop (fuel ip : nat) (path : list Z) (parent : bool) (name : list Z) : M fs (option nat * list Z) :=
  match fuel with
  | O => nofuel
  | Datatypes.S f =>
      match skipelem path name with
      | None =>
          if parent then
            iput ip ;;;
            ret (None, name)
          else ret (Some ip, name)
      | Some (path, name) =>
          ilock ip ;;;
          let! x := geti ip in
          if negb (d_type (i_d x) =? T_DIR) then
            iunlockput ip ;;;
            ret (None, name)
          else if parent && (peek path =? 0) then
            iunlock ip ;;;
            ret (Some ip, name)
          else
          let! r := dirlookup ip name in
          match r with
          | None =>
              iunlockput ip ;;;
              ret (None, name)
          | Some (next, _) =>
              iunlockput ip ;;;
              namex_loop f next path parent name
          end
      end
  end.
(** [cwd] is the current directory of the calling process. *)
Definition namex (cwd : nat) (path : list Z) (parent : bool) (name : list Z) : M fs (option nat * list Z) :=
  let! ip := (if peek path =? 47 then iget ROOTDEV ROOTINO else idup cwd) in
  namex_loop (Datatypes.S (length path)) ip path parent name.
(** The contents of the local [name] are not defined at first. *)
Definition namei (cwd : nat) (path name : list Z) : M fs (option nat) :=
  let! r := namex cwd path false name in
  ret r.1.
Definition nameiparent (cwd : nat) (path name : list Z) : M fs (option nat * list Z) := namex cwd path true name.
End Fs.
