(* ===== verification/FsLayout.v ===== *)
(** * The layout of the file system on the disk

    Where the bits of the free map and the inodes are, what an inode's block
    pointers and bytes are, and how these change when a block is written. *)

From stdpp Require Import base gmap list strings.
From Stdlib Require Import ZArith Lia.
From S2P Require Import Prelude CString CacheSpec Log Fs.
Local Open Scope Z_scope.

(** ** Bytes, shorts and words of a block *)

Lemma length_put_half k v b : length (put_half k v b) = length b.
Proof. unfold put_half. by rewrite !length_insert. Qed.
Lemma byte_put_half k v b j : (k + 2 <= length b)%nat -> byte_at (put_half k v b) j =
  if decide (j = k + 1)%nat then v / 2 ^ 8 mod 256 else if decide (j = k) then v mod 256 else byte_at b j.
Proof. intros Hk. unfold put_half. by rewrite !byte_insert by (rewrite ?length_insert; lia). Qed.
Lemma half_put_eq k v b : (k + 2 <= length b)%nat -> half (put_half k v b) k = u16 v.
Proof.
  intros Hk. unfold half, u16. rewrite !byte_put_half by done. repeat (rewrite ?decide_True by done; rewrite ?decide_False by lia).
  Z.to_euclidean_division_equations. lia.
Qed.
Lemma s16_u16 v : s16 (u16 v) = s16 v.
Proof. unfold s16, u16. f_equal. Z.to_euclidean_division_equations. lia. Qed.
Lemma s16_id v : - 2 ^ 15 <= v < 2 ^ 15 -> s16 v = v.
Proof. intros Hv. unfold s16. rewrite Z.mod_small by lia. lia. Qed.
Lemma s16_range v : - 2 ^ 15 <= s16 v < 2 ^ 15.
Proof. unfold s16. pose proof (Z.mod_pos_bound (v + 2 ^ 15) (2 ^ 16)). lia. Qed.

(** [eqoff k n b b']: the blocks differ at most in the [n] bytes from [k]. *)
Definition eqoff (k n : nat) (b b' : block) : Prop :=
  length b' = length b /\ forall j, (j < k \/ k + n <= j)%nat -> byte_at b' j = byte_at b j.

Lemma eqoff_refl k n b : eqoff k n b b.
Proof. done. Qed.
Lemma eqoff_trans k n b1 b2 b3 : eqoff k n b1 b2 -> eqoff k n b2 b3 -> eqoff k n b1 b3.
Proof. intros [H1 H2] [H3 H4]. split; [congruence|]. intros j Hj. by rewrite H4, H2. Qed.
Lemma eqoff_weaken k n k' n' b b' : (k' <= k)%nat -> (k + n <= k' + n')%nat -> eqoff k n b b' -> eqoff k' n' b b'.
Proof. intros Hk Hn [H1 H2]. split; [done|]. intros j Hj. apply H2. lia. Qed.
Lemma eqoff_put_half k v b : (k + 2 <= length b)%nat -> eqoff k 2 b (put_half k v b).
Proof. intros Hk. split; [apply length_put_half|]. intros j Hj. rewrite byte_put_half by done. by rewrite !decide_False by lia. Qed.
Lemma eqoff_put_word k v b : (k + 4 <= length b)%nat -> eqoff k 4 b (put_word k v b).
Proof. intros Hk. split; [apply length_put_word|]. intros j Hj. rewrite byte_put_word by done. by rewrite !decide_False by lia. Qed.
Lemma eqoff_put_words l : forall k b, (k + 4 * length l <= length b)%nat -> eqoff k (4 * length l) b (put_words k l b).
Proof.
  induction l as [|v l IH]; intros k b Hk; simpl in *; [done|]. eapply eqoff_trans.
  - apply (eqoff_weaken k 4); [lia..|]. apply eqoff_put_word. lia.
  - apply (eqoff_weaken (k + 4) (4 * length l)); [lia..|]. apply IH. rewrite length_put_word. lia.
Qed.
Lemma half_eqoff k n b b' j : eqoff k n b b' -> (j + 2 <= k \/ k + n <= j)%nat -> half b' j = half b j.
Proof. intros [_ H] Hj. unfold half. by rewrite !H by lia. Qed.
Lemma word_eqoff k n b b' j : eqoff k n b b' -> (j + 4 <= k \/ k + n <= j)%nat -> word b' j = word b j.
Proof. intros [_ H] Hj. unfold word. by rewrite !H by lia. Qed.

Lemma byte_splice k l b j : (k + length l <= length b)%nat ->
  byte_at (splice k l b) j = if decide (k <= j < k + length l)%nat then nth (j - k) l 0 else byte_at b j.
Proof.
  intros Hk. unfold byte_at, splice. rewrite !nth_lookup. destruct (decide _) as [Hj|Hj].
  - rewrite lookup_app_r, length_take_le by (rewrite ?length_take; lia). by rewrite lookup_app_l by lia.
  - destruct (decide (j < k)%nat).
    + rewrite lookup_app_l by (rewrite length_take; lia). by rewrite lookup_take_lt by lia.
    + rewrite lookup_app_r, length_take_le by (rewrite ?length_take; lia). rewrite lookup_app_r by lia.
      rewrite lookup_drop. by replace (k + length l + (j - k - length l))%nat with j by lia.
Qed.
Lemma length_splice k l b : (k + length l <= length b)%nat -> length (splice k l b) = length b.
Proof. intros Hk. unfold splice. rewrite !length_app, length_take, length_drop. lia. Qed.
Lemma eqoff_splice k l b : (k + length l <= length b)%nat -> eqoff k (length l) b (splice k l b).
Proof. intros Hk. split; [by apply length_splice|]. intros j Hj. rewrite byte_splice by done. by rewrite decide_False by lia. Qed.

Lemma word_put_words l : forall k b i, (k + 4 * length l <= length b)%nat -> (i < length l)%nat ->
  word (put_words k l b) (k + 4 * i) = u32 (nth i l 0).
Proof.
  induction l as [|v l IH]; intros k b i Hk Hi; cbn [put_words length] in *; [lia|]. destruct i as [|i].
  - replace (k + 4 * 0)%nat with k by lia. erewrite word_eqoff; [|apply eqoff_put_words; rewrite length_put_word; lia|lia].
    apply word_put_eq. lia.
  - replace (k + 4 * S i)%nat with (k + 4 + 4 * i)%nat by lia. apply IH; [rewrite length_put_word|]; lia.
Qed.

(** ** Inodes in a block *)

Definition dinode_ok (d : dinode) : Prop :=
  Forall (fun v => - 2 ^ 15 <= v < 2 ^ 15) [d_type d; d_major d; d_minor d; d_nlink d] /\ uint32 (d_size d) /\
  length (d_addrs d) = (NDIRECT + 1)%nat /\ Forall uint32 (d_addrs d).

Lemma length_put_words l : forall k b, length (put_words k l b) = length b.
Proof. induction l as [|v l IH]; intros k b; simpl; [done|]. by rewrite IH, length_put_word. Qed.
Lemma length_put_dinode k d b : length (put_dinode k d b) = length b.
Proof. unfold put_dinode. by rewrite length_put_words, length_put_word, !length_put_half. Qed.

Ltac frame_word := first
  [ rewrite half_put_eq by (rewrite ?length_put_word, ?length_put_half; lia)
  | rewrite word_put_eq by (rewrite ?length_put_word, ?length_put_half; lia)
  | erewrite half_eqoff; [|apply eqoff_put_half; rewrite ?length_put_word, ?length_put_half; lia|lia]
  | erewrite half_eqoff; [|apply eqoff_put_word; rewrite ?length_put_word, ?length_put_half; lia|lia]
  | erewrite half_eqoff; [|apply eqoff_put_words; rewrite ?length_put_word, ?length_put_half; lia|lia]
  | erewrite word_eqoff; [|apply eqoff_put_words; rewrite ?length_put_word, ?length_put_half; lia|lia] ].

Lemma get_put_dinode k d b : (k + 64 <= length b)%nat -> dinode_ok d -> get_dinode (put_dinode k d b) k = d.
Proof.
  intros Hk ([Ht [Hma [Hmi [Hn _]%Forall_cons]%Forall_cons]%Forall_cons]%Forall_cons & Hs & Hl & Ha). unfold get_dinode, put_dinode, NDIRECT in *.
  destruct d as [ty ma mi nl sz ad]. simpl in *. f_equal.
  1-4: repeat frame_word; rewrite s16_u16; by apply s16_id.
  - repeat frame_word. by apply u32_id.
  - unfold get_addrs. apply list_eq. intros i. rewrite list_lookup_fmap. unfold NDIRECT. destruct (decide (i < 13)%nat) as [Hi|Hi].
    + rewrite lookup_seq_lt by lia. cbn [fmap option_fmap option_map]. rewrite Nat.add_0_l, word_put_words by (rewrite ?length_put_word, ?length_put_half; lia).
      destruct (lookup_lt_is_Some_2 ad i) as [v Hv]; [lia|]. rewrite Hv, nth_lookup, Hv. simpl. f_equal. apply u32_id.
      by eapply (Forall_lookup_1 _ _ _ _ Ha).
    + rewrite lookup_seq_ge by lia. symmetry. apply lookup_ge_None_2. lia.
Qed.

Lemma get_dinode_eqoff k n b b' j : eqoff k n b b' -> (j + 64 <= k \/ k + n <= j)%nat -> get_dinode b' j = get_dinode b j.
Proof.
  intros He Hj. unfold get_dinode, get_addrs. f_equal.
  1-4: f_equal; eapply half_eqoff; [done|lia].
  - eapply word_eqoff; [done|lia].
  - apply list_fmap_ext. intros i x Hx. apply lookup_seq in Hx as [-> Hx]. unfold NDIRECT in Hx. eapply word_eqoff; [done|lia].
Qed.
Lemma eqoff_put_dinode k d b : (k + 64 <= length b)%nat -> length (d_addrs d) = (NDIRECT + 1)%nat -> eqoff k 64 b (put_dinode k d b).
Proof.
  intros Hk Hl. unfold put_dinode, NDIRECT in *.
  assert (forall c c' n m, eqoff k 64 b c -> (length c = length b -> eqoff (k + m) n c c') -> (m + n <= 64)%nat -> eqoff k 64 b c') as Hstep.
  { intros c c' n m Hc Hc' Hm. eapply eqoff_trans; [exact Hc|]. eapply (eqoff_weaken (k + m) n); [lia..|]. apply Hc', Hc. }
  eapply (Hstep _ _ 52%nat 12%nat); [|intros Hlen; replace 52%nat with (4 * length (d_addrs d))%nat by lia; apply eqoff_put_words; lia|lia].
  eapply (Hstep _ _ 4%nat 8%nat); [|intros Hlen; apply eqoff_put_word; lia|lia].
  eapply (Hstep _ _ 2%nat 6%nat); [|intros Hlen; apply eqoff_put_half; lia|lia].
  eapply (Hstep _ _ 2%nat 4%nat); [|intros Hlen; apply eqoff_put_half; lia|lia].
  eapply (Hstep _ _ 2%nat 2%nat); [|intros Hlen; apply eqoff_put_half; lia|lia].
  apply (eqoff_weaken k 2); [lia..|]. apply eqoff_put_half. lia.
Qed.


(** ** The free map *)

Lemma mask_testbit bi k : 0 <= k -> Z.testbit (bit_mask bi) k = bool_decide (k = bi mod 8).
Proof.
  intros Hk. unfold bit_mask. pose proof (Z.mod_pos_bound bi 8). rewrite Z.shiftl_spec by lia. destruct (Z.ltb_spec (k - bi mod 8) 0).
  - rewrite Z.testbit_neg_r by lia. rewrite bool_decide_false; [done|lia].
  - destruct (decide (k = bi mod 8)) as [->|Hne]; [rewrite Z.sub_diag, bool_decide_true by done; done|].
    rewrite bool_decide_false by done. change 1 with (2 ^ 0). rewrite Z.pow2_bits_eqb by lia. lia.
Qed.
Lemma mask_test x bi : (Z.land x (bit_mask bi) =? 0) = negb (Z.testbit x (bi mod 8)).
Proof.
  pose proof (Z.mod_pos_bound bi 8). destruct (Z.testbit x (bi mod 8)) eqn:E; simpl.
  - apply Z.eqb_neq. intros Hz. apply (f_equal (fun z => Z.testbit z (bi mod 8))) in Hz.
    rewrite Z.land_spec, E, mask_testbit, bool_decide_true, Z.bits_0 in Hz by (done || lia). done.
  - apply Z.eqb_eq. apply Z.bits_inj'. intros n Hn. rewrite Z.land_spec, mask_testbit, Z.bits_0 by lia.
    destruct (decide (n = bi mod 8)) as [->|]; [by rewrite E|]. by rewrite bool_decide_false, andb_false_r.
Qed.
Lemma u8_testbit x k : 0 <= k < 8 -> Z.testbit (u8 x) k = Z.testbit x k.
Proof. intros Hk. unfold u8. by rewrite Z.mod_pow2_bits_low by lia. Qed.

Lemma map_byte_set x bi v bj : (0 <= bi < BPB)%Z -> 0 <= bj -> length x = BSIZE ->
  map_byte (set_map_byte x bi v) bj = if decide (bj / 8 = bi / 8) then u8 v else map_byte x bj.
Proof.
  intros Hi Hj Hl. unfold map_byte, set_map_byte, BPB, BSIZE in *.
  rewrite byte_insert by (rewrite Hl; apply Nat2Z.inj_lt; rewrite Z2Nat.id by (apply Z.div_pos; lia); apply Z.div_lt_upper_bound; lia).
  pose proof (Z.div_pos bi 8). pose proof (Z.div_pos bj 8). destruct (decide (bj / 8 = bi / 8)) as [->|Hne]; [by rewrite decide_True|].
  rewrite decide_False; [done|]. intros E. apply Hne. apply Z2Nat.inj in E; lia.
Qed.

Section Layout.
Context (sb : superblock).

Definition datastart : Z := sb_bmapstart sb + sb_size sb / BPB + 1.
Record layout : Prop := {
  ly_inode : 1 < sb_inodestart sb;
  ly_ninodes : 1 < sb_ninodes sb;
  ly_bmap : sb_inodestart sb + (sb_ninodes sb - 1) / IPB < sb_bmapstart sb;
  ly_size : datastart <= sb_size sb < 2 ^ 31
}.

Definition used (v : Z -> block) (b : Z) : bool := Z.testbit (map_byte (v (BBLOCK b sb)) (b mod BPB)) (b mod 8).
Definition set_bit (b : Z) (v : Z -> block) : Z -> block :=
  let x := v (BBLOCK b sb) in
  vput (BBLOCK b sb) (set_map_byte x (b mod BPB) (Z.lor (map_byte x (b mod BPB)) (bit_mask (b mod BPB)))) v.
Definition clear_bit (b : Z) (v : Z -> block) : Z -> block :=
  let x := v (BBLOCK b sb) in
  vput (BBLOCK b sb) (set_map_byte x (b mod BPB) (Z.land (map_byte x (b mod BPB)) (Z.lnot (bit_mask (b mod BPB))))) v.

Lemma mod_BPB_8 b : b mod BPB mod 8 = b mod 8.
Proof. unfold BPB. Z.to_euclidean_division_equations. lia. Qed.
(** The position of a bit determines the block. *)
Lemma bit_position b c : BBLOCK b sb = BBLOCK c sb -> b mod BPB / 8 = c mod BPB / 8 -> b mod 8 = c mod 8 -> b = c.
Proof. unfold BBLOCK, BPB. intros H1 H2 H3. assert (b / 4096 = c / 4096) by lia. clear H1. Z.to_euclidean_division_equations. lia. Qed.

Lemma used_update f b v c : 0 <= b -> 0 <= c -> length (v (BBLOCK b sb)) = BSIZE ->
  used (vput (BBLOCK b sb) (set_map_byte (v (BBLOCK b sb)) (b mod BPB) f) v) c =
  if decide (BBLOCK c sb = BBLOCK b sb /\ c mod BPB / 8 = b mod BPB / 8) then Z.testbit f (c mod 8) else used v c.
Proof.
  intros Hb Hc Hl. unfold used, vput. pose proof (Z.mod_pos_bound c 8). pose proof (Z.mod_pos_bound b BPB). pose proof (Z.mod_pos_bound c BPB).
  destruct (Z.eqb_spec (BBLOCK c sb) (BBLOCK b sb)) as [E|E]; [|by rewrite decide_False by tauto].
  rewrite map_byte_set by (unfold BPB in *; lia || done). destruct (decide (c mod BPB / 8 = b mod BPB / 8)) as [E'|E'].
  - rewrite decide_True by done. apply u8_testbit. lia.
  - by rewrite decide_False, E by tauto.
Qed.
Lemma used_set_bit b v c : 0 <= b -> 0 <= c -> length (v (BBLOCK b sb)) = BSIZE ->
  used (set_bit b v) c = if decide (c = b) then true else used v c.
Proof.
  intros Hb Hc Hl. unfold set_bit. rewrite used_update by done. pose proof (Z.mod_pos_bound c 8). destruct (decide (_ /\ _)) as [[E1 E2]|E].
  - rewrite Z.lor_spec, mask_testbit, mod_BPB_8 by lia. destruct (decide (c = b)) as [->|Hne].
    + rewrite bool_decide_true by done. apply orb_true_r.
    + rewrite bool_decide_false; [|intros E3; apply Hne; by apply bit_position]. rewrite orb_false_r. unfold used. unfold map_byte. by rewrite E1, E2.
  - destruct (decide (c = b)) as [->|]; [tauto|done].
Qed.
Lemma used_clear_bit b v c : 0 <= b -> 0 <= c -> length (v (BBLOCK b sb)) = BSIZE ->
  used (clear_bit b v) c = if decide (c = b) then false else used v c.
Proof.
  intros Hb Hc Hl. unfold clear_bit. rewrite used_update by done. pose proof (Z.mod_pos_bound c 8). destruct (decide (_ /\ _)) as [[E1 E2]|E].
  - rewrite Z.land_spec, Z.lnot_spec, mask_testbit, mod_BPB_8 by lia. destruct (decide (c = b)) as [->|Hne].
    + rewrite bool_decide_true by done. apply andb_false_r.
    + rewrite bool_decide_false; [|intros E3; apply Hne; by apply bit_position]. rewrite andb_true_r. unfold used. unfold map_byte. by rewrite E1, E2.
  - destruct (decide (c = b)) as [->|]; [tauto|done].
Qed.

(** ** The inode table *)

Definition dino (v : Z -> block) (i : Z) : dinode := get_dinode (v (IBLOCK i sb)) (slot i).
Definition put_dino (i : Z) (d : dinode) (v : Z -> block) : Z -> block :=
  vput (IBLOCK i sb) (put_dinode (slot i) d (v (IBLOCK i sb))) v.

Lemma slot_bound i : (slot i + 64 <= BSIZE)%nat.
Proof. unfold slot, BSIZE, sizeof_dinode, IPB. pose proof (Z.mod_pos_bound i 8). lia. Qed.
Lemma slot_disjoint i j : 0 <= i -> 0 <= j -> IBLOCK i sb = IBLOCK j sb -> i <> j -> (slot i + 64 <= slot j \/ slot j + 64 <= slot i)%nat.
Proof.
  unfold slot, sizeof_dinode, IBLOCK, IPB. intros Hi Hj E Hne. assert (i / 8 = j / 8) by lia. clear E.
  assert (i mod 8 <> j mod 8) by (Z.to_euclidean_division_equations; lia). pose proof (Z.mod_pos_bound i 8). pose proof (Z.mod_pos_bound j 8).
  assert (Z.to_nat (i mod 8) <> Z.to_nat (j mod 8)) by lia. lia.
Qed.
Lemma dino_update i j x v : 0 <= i -> 0 <= j -> j <> i -> eqoff (slot i) 64 (v (IBLOCK i sb)) x -> dino (vput (IBLOCK i sb) x v) j = dino v j.
Proof.
  intros Hi Hj Hne Hx. unfold dino, vput. destruct (Z.eqb_spec (IBLOCK j sb) (IBLOCK i sb)) as [E|]; [|done]. rewrite E.
  eapply get_dinode_eqoff; [done|]. destruct (slot_disjoint i j); [done..| |]; lia.
Qed.
Lemma dino_put i d v j : 0 <= i -> 0 <= j -> dinode_ok d -> length (v (IBLOCK i sb)) = BSIZE ->
  dino (put_dino i d v) j = if decide (j = i) then d else dino v j.
Proof.
  intros Hi Hj Hd Hl. pose proof (slot_bound i). destruct (decide (j = i)) as [->|Hne].
  - unfold dino, put_dino. rewrite vput_eq. apply get_put_dinode; [lia|done].
  - apply dino_update; [done..|]. apply eqoff_put_dinode; [lia|apply Hd].
Qed.
Lemma dino_vput n x v i : n <> IBLOCK i sb -> dino (vput n x v) i = dino v i.
Proof. intros Hn. unfold dino. by rewrite vput_ne. Qed.
End Layout.

(** ** The blocks and bytes of an inode *)

Definition addr (d : dinode) (k : nat) : Z := nth k (d_addrs d) 0.
(** The number of the [n]th block of the file. *)
Definition fblk (v : Z -> block) (d : dinode) (n : nat) : Z :=
  if (n <? NDIRECT)%nat then addr d n else if addr d NDIRECT =? 0 then 0 else word (v (addr d NDIRECT)) (4 * (n - NDIRECT)).
Definition nblocks (sz : Z) : nat := Z.to_nat ((sz + 511) / 512).
(** All blocks of an inode: those of the file and the indirect block. *)
Definition ptrs (v : Z -> block) (d : dinode) : list Z :=
  map (fblk v d) (seq 0 (nblocks (d_size d))) ++ (if (NDIRECT <? nblocks (d_size d))%nat then [addr d NDIRECT] else []).
Definition fbyte (v : Z -> block) (d : dinode) (k : nat) : Z := byte_at (v (fblk v d (k / 512))) (k mod 512).
Definition content (v : Z -> block) (d : dinode) : list Z := map (fbyte v d) (seq 0 (Z.to_nat (d_size d))).

Record dwf (v : Z -> block) (d : dinode) : Prop := {
  dw_ok : dinode_ok d;
  dw_size : (nblocks (d_size d) <= NDIRECT + NINDIRECT)%nat;
  dw_free : forall n, (nblocks (d_size d) <= n < NDIRECT + NINDIRECT)%nat -> fblk v d n = 0;
  dw_indirect : (nblocks (d_size d) <= NDIRECT)%nat -> addr d NDIRECT = 0
}.

Lemma nblocks_spec sz n : 0 <= sz -> (n < nblocks sz)%nat <-> 512 * Z.of_nat n < sz.
Proof. intros Hs. unfold nblocks. Z.to_euclidean_division_equations. lia. Qed.
Lemma elem_of_ptrs v d b : b ∈ ptrs v d <->
  (exists n, (n < nblocks (d_size d))%nat /\ b = fblk v d n) \/ ((NDIRECT < nblocks (d_size d))%nat /\ b = addr d NDIRECT).
Proof.
  unfold ptrs. rewrite elem_of_app, list_elem_of_fmap. split.
  - intros [(n & -> & Hn%elem_of_seq)|H]; [left; exists n; split; [lia|done]|right]. destruct (Nat.ltb_spec NDIRECT (nblocks (d_size d))).
    + by apply list_elem_of_singleton in H.
    + by apply not_elem_of_nil in H.
  - intros [(n & Hn & ->)|[H ->]]; [left; exists n; split; [done|apply elem_of_seq; lia]|right].
    destruct (Nat.ltb_spec NDIRECT (nblocks (d_size d))); [by apply list_elem_of_singleton|lia].
Qed.
Lemma length_ptrs v d : length (ptrs v d) = (nblocks (d_size d) + if (NDIRECT <? nblocks (d_size d))%nat then 1 else 0)%nat.
Proof. unfold ptrs. rewrite length_app, length_map, length_seq. by destruct (NDIRECT <? _)%nat. Qed.

(** Only the indirect block matters for the pointers, and only the blocks of
    the file for its contents. *)
Lemma fblk_ext v v' d n : (NDIRECT <= n)%nat -> v' (addr d NDIRECT) = v (addr d NDIRECT) -> fblk v' d n = fblk v d n.
Proof. intros Hn E. unfold fblk. by rewrite E. Qed.
Lemma fblk_same v v' d n : ((NDIRECT < nblocks (d_size d))%nat -> v' (addr d NDIRECT) = v (addr d NDIRECT)) ->
  ((nblocks (d_size d) <= NDIRECT)%nat -> addr d NDIRECT = 0) -> fblk v' d n = fblk v d n.
Proof.
  intros H1 H2. unfold fblk. destruct (n <? NDIRECT)%nat; [done|]. destruct (decide (NDIRECT < nblocks (d_size d))%nat).
  - by rewrite H1.
  - by rewrite H2 by lia.
Qed.
Lemma ptrs_same v v' d : ((NDIRECT < nblocks (d_size d))%nat -> v' (addr d NDIRECT) = v (addr d NDIRECT)) ->
  ((nblocks (d_size d) <= NDIRECT)%nat -> addr d NDIRECT = 0) -> ptrs v' d = ptrs v d.
Proof. intros H1 H2. unfold ptrs. f_equal. apply list_fmap_ext. intros n x _. by apply fblk_same. Qed.
Lemma dwf_same v v' d : ((NDIRECT < nblocks (d_size d))%nat -> v' (addr d NDIRECT) = v (addr d NDIRECT)) -> dwf v d -> dwf v' d.
Proof. intros H1 [H2 H3 H4 H5]. split; [done..| |done]. intros n Hn. rewrite (fblk_same v); auto. Qed.
Lemma content_same v v' d : dwf v d -> (forall b, b ∈ ptrs v d -> v' b = v b) -> content v' d = content v d.
Proof.
  intros Hw H. pose proof (dw_ok _ _ Hw) as (_ & [Hs _] & _). unfold content. apply list_fmap_ext. intros k x Hx. apply lookup_seq in Hx as [-> Hx]. unfold fbyte.
  rewrite (fblk_same v v'); [|intros Hn; apply H, elem_of_ptrs; by right|apply Hw]. rewrite H; [done|]. apply elem_of_ptrs. left. eexists. split; [|done].
  apply nblocks_spec; [done|]. rewrite Nat2Z.inj_div. cbn [Nat.add]. Z.to_euclidean_division_equations. lia.
Qed.
