(* ===== verification/FsInv.v ===== *)
(** * The invariant of the file system

    [D i] is inode [i] as the kernel sees it.  The blocks in use are exactly
    those of the inodes and the ones on their way in or out ([P]); no block
    has two owners. *)

From stdpp Require Import base gmap list strings.
From Stdlib Require Import ZArith Lia.
From S2P Require Import Prelude CString CacheSpec Log Fs FsLayout.
Local Open Scope Z_scope.

Definition fset (i : Z) (d : dinode) (D : Z -> dinode) : Z -> dinode := fun j => if j =? i then d else D j.
Lemma fset_eq i d D : fset i d D i = d.
Proof. unfold fset. by rewrite Z.eqb_refl. Qed.
Lemma fset_ne i d D j : j <> i -> fset i d D j = D j.
Proof. unfold fset. by destruct (Z.eqb_spec j i). Qed.
Lemma fset_fset i d d' D : forall j, fset i d (fset i d' D) j = fset i d D j.
Proof. intros j. unfold fset. by destruct (j =? i). Qed.

(** Lists of owned things: what changes when one owner changes. *)
Lemma concat_split {A B} (f g : A -> list B) (l : list A) x : x ∈ l -> NoDup l -> (forall y, y ∈ l -> y <> x -> g y = f y) ->
  exists r, concat (map f l) ≡ₚ f x ++ r /\ concat (map g l) ≡ₚ g x ++ r.
Proof.
  induction l as [|y l IH]; intros Hx Hnd Hg; [by apply not_elem_of_nil in Hx|]. apply NoDup_cons in Hnd as [Hy Hnd]. simpl.
  apply elem_of_cons in Hx as [<-|Hx].
  - exists (concat (map f l)). split; [done|]. replace (map g l) with (map f l); [done|]. apply map_ext_in. intros z Hz.
    apply list_elem_of_In in Hz. symmetry. apply Hg; [by right|]. by intros ->.
  - destruct IH as (r & H1 & H2); [done..|intros z Hz; apply Hg; by right|]. exists (f y ++ r).
    rewrite H1, H2, Hg by (by left || by intros ->). split; solve_Permutation.
Qed.
Lemma concat_same {A B} (f g : A -> list B) (l : list A) : (forall y, y ∈ l -> g y = f y) -> concat (map g l) = concat (map f l).
Proof. intros H. f_equal. apply map_ext_in. intros y Hy. by apply H, list_elem_of_In. Qed.

Lemma filter_ext_elem {A} (P Q : A -> Prop) `{!forall x, Decision (P x)} `{!forall x, Decision (Q x)} (l : list A) :
  (forall x, x ∈ l -> P x <-> Q x) -> filter P l = filter Q l.
Proof.
  induction l as [|x l IH]; intros Hl; [done|]. rewrite !filter_cons. pose proof (Hl x ltac:(by left)) as Hx.
  rewrite IH by (intros y Hy; apply Hl; by right). by destruct (decide (P x)), (decide (Q x)); try tauto.
Qed.

Section Inv.
Context (sb : superblock) (Hly : layout sb).

Definition inums : list Z := seqZ 0 (sb_ninodes sb).
Definition owned (v : Z -> block) (D : Z -> dinode) : list Z := concat (map (fun i => ptrs v (D i)) inums).
Definition data_blocks : list Z := seqZ (datastart sb) (sb_size sb - datastart sb).
Definition in_use (v : Z -> block) : list Z := filter (fun b => used sb v b = true) data_blocks.
Definition fs_block (n : Z) : Prop := n = 1 \/ sb_inodestart sb <= n < sb_size sb.

Record inv (v : Z -> block) (D : Z -> dinode) (P : list Z) : Prop := {
  iv_super : read_superblock (v 1) = sb;
  iv_len : forall n, fs_block n -> length (v n) = BSIZE;
  iv_own : owned v D ++ P ≡ₚ in_use v;
  iv_meta : forall b, 0 <= b < datastart sb -> used sb v b = true;
  iv_wf : forall i, 0 <= i < sb_ninodes sb -> dwf v (D i)
}.

Lemma elem_of_inums i : i ∈ inums <-> 0 <= i < sb_ninodes sb.
Proof. unfold inums. rewrite elem_of_seqZ. lia. Qed.
Lemma elem_of_in_use v b : b ∈ in_use v <-> datastart sb <= b < sb_size sb /\ used sb v b = true.
Proof. unfold in_use, data_blocks. rewrite list_elem_of_filter, elem_of_seqZ. split; intros [? ?]; split; done || lia. Qed.
Lemma elem_of_owned v D b : b ∈ owned v D <-> exists i, 0 <= i < sb_ninodes sb /\ b ∈ ptrs v (D i).
Proof.
  unfold owned. rewrite list_elem_of_In, in_concat. split.
  - intros (l & (i & <- & Hi)%in_map_iff & Hb). exists i. split; [by apply elem_of_inums, list_elem_of_In|by apply list_elem_of_In].
  - intros (i & Hi & Hb). exists (ptrs v (D i)). split; [apply in_map_iff; exists i; split; [done|]; by apply list_elem_of_In, elem_of_inums|by apply list_elem_of_In].
Qed.
Lemma NoDup_in_use v : NoDup (in_use v).
Proof. apply NoDup_filter, NoDup_seqZ. Qed.
Lemma NoDup_inums : NoDup inums.
Proof. apply NoDup_seqZ. Qed.

(** ** Where things are *)

Lemma BBLOCK_range b : 0 <= b < sb_size sb -> sb_bmapstart sb <= BBLOCK b sb < datastart sb.
Proof. intros Hb. unfold BBLOCK, datastart, BPB. split; [pose proof (Z.div_pos b 4096); lia|]. pose proof (Z.div_le_mono b (sb_size sb) 4096). lia. Qed.
Lemma IBLOCK_range i : 0 <= i < sb_ninodes sb -> sb_inodestart sb <= IBLOCK i sb < sb_bmapstart sb.
Proof.
  intros Hi. pose proof (ly_bmap _ Hly). unfold IBLOCK, IPB in *. split; [pose proof (Z.div_pos i 8); lia|].
  pose proof (Z.div_le_mono i (sb_ninodes sb - 1) 8). lia.
Qed.
Lemma start_order : 1 < sb_inodestart sb < sb_bmapstart sb /\ sb_bmapstart sb < datastart sb <= sb_size sb.
Proof.
  destruct Hly as [H1 H2 H3 H4]. pose proof (Z.div_pos (sb_ninodes sb - 1) IPB). unfold IPB in *. split; [lia|]. split; [|lia].
  unfold datastart, BPB in *. Z.to_euclidean_division_equations. lia.
Qed.
Lemma BBLOCK_fs b : 0 <= b < sb_size sb -> fs_block (BBLOCK b sb).
Proof. intros Hb. pose proof (BBLOCK_range b Hb). pose proof start_order. right. lia. Qed.
Lemma IBLOCK_fs i : 0 <= i < sb_ninodes sb -> fs_block (IBLOCK i sb).
Proof. intros Hi. pose proof (IBLOCK_range i Hi). pose proof start_order. right. lia. Qed.
Lemma data_fs b : datastart sb <= b < sb_size sb -> fs_block b.
Proof. intros Hb. pose proof start_order. right. lia. Qed.

(** ** Consequences *)

Lemma inv_taken v D P b : inv v D P -> b ∈ owned v D \/ b ∈ P -> datastart sb <= b < sb_size sb /\ used sb v b = true.
Proof. intros I Hb. apply elem_of_in_use. rewrite <- (iv_own _ _ _ I). by apply elem_of_app. Qed.
Lemma inv_NoDup v D P : inv v D P -> NoDup (owned v D ++ P).
Proof. intros I. rewrite (iv_own _ _ _ I). apply NoDup_in_use. Qed.
Lemma inv_ptr v D P i b : inv v D P -> 0 <= i < sb_ninodes sb -> b ∈ ptrs v (D i) -> datastart sb <= b < sb_size sb /\ used sb v b = true /\ b ∈ owned v D.
Proof. intros I Hi Hb. assert (b ∈ owned v D) as Ho by (apply elem_of_owned; by exists i). destruct (inv_taken v D P b I); auto. Qed.

Lemma owned_split v D i : 0 <= i < sb_ninodes sb -> exists r, owned v D ≡ₚ ptrs v (D i) ++ r /\
  forall v' d', (forall j, 0 <= j < sb_ninodes sb -> j <> i -> ptrs v' (D j) = ptrs v (D j)) -> owned v' (fset i d' D) ≡ₚ ptrs v' d' ++ r.
Proof.
  intros Hi. apply elem_of_inums in Hi. unfold owned. destruct (concat_split (fun j => ptrs v (D j)) (fun j => if decide (j = i) then [] else ptrs v (D j)) inums i Hi NoDup_inums)
    as (r & H1 & H2); [intros y _ Hy; by rewrite decide_False|]. exists r. split; [done|]. intros v' d' Hj.
  destruct (concat_split (fun j => if decide (j = i) then [] else ptrs v (D j)) (fun j => ptrs v' (fset i d' D j)) inums i Hi NoDup_inums) as (r' & H3 & H4).
  { intros y Hy Hne. rewrite decide_False, fset_ne by done. apply Hj; [by apply elem_of_inums|done]. }
  rewrite H4, fset_eq. rewrite decide_True in H2, H3 by done. simpl in H2, H3. by rewrite <- H2, <- H3.
Qed.
Lemma ptrs_disjoint v D P i j b : inv v D P -> 0 <= i < sb_ninodes sb -> 0 <= j < sb_ninodes sb -> b ∈ ptrs v (D i) -> b ∈ ptrs v (D j) -> i = j.
Proof.
  intros I Hi Hj H1 H2. destruct (decide (j = i)) as [->|Hne]; [done|]. exfalso.
  destruct (owned_split v D i Hi) as (r & Hr & Hr').
  assert (b ∈ r) as Hb.
  { specialize (Hr' v (mkDinode 0 0 0 0 0 []) (fun _ _ _ => eq_refl)). change (ptrs v (mkDinode 0 0 0 0 0 [])) with (@nil Z) in Hr'. simpl in Hr'.
    rewrite <- Hr'. apply elem_of_owned. exists j. split; [done|]. by rewrite fset_ne. }
  pose proof (inv_NoDup _ _ _ I) as Hnd. rewrite Hr in Hnd. apply NoDup_app in Hnd as [Hnd _]. apply NoDup_app in Hnd as (_ & Hd & _). by apply (Hd b).
Qed.
Lemma ptrs_NoDup v D P i : inv v D P -> 0 <= i < sb_ninodes sb -> NoDup (ptrs v (D i)).
Proof.
  intros I Hi. destruct (owned_split v D i Hi) as (r & Hr & _). pose proof (inv_NoDup _ _ _ I) as Hnd. rewrite Hr in Hnd.
  apply NoDup_app in Hnd as [Hnd _]. by apply NoDup_app in Hnd as [? _].
Qed.

(** ** Writing blocks *)

Lemma owned_same v v' D : (forall i, 0 <= i < sb_ninodes sb -> ptrs v' (D i) = ptrs v (D i)) -> owned v' D = owned v D.
Proof. intros H. apply concat_same. intros i Hi. by apply H, elem_of_inums. Qed.

(** What matters of the disk to the invariant. *)
Record agree (D : Z -> dinode) (v v' : Z -> block) : Prop := {
  ag_super : v' 1 = v 1;
  ag_len : forall n, fs_block n -> length (v' n) = length (v n);
  ag_indirect : forall i, 0 <= i < sb_ninodes sb -> (NDIRECT < nblocks (d_size (D i)))%nat -> v' (addr (D i) NDIRECT) = v (addr (D i) NDIRECT)
}.
Lemma agree_ptrs D v v' P i : inv v D P -> agree D v v' -> 0 <= i < sb_ninodes sb -> ptrs v' (D i) = ptrs v (D i) /\ dwf v' (D i).
Proof.
  intros I A Hi. pose proof (iv_wf _ _ _ I i Hi) as W. split.
  - apply ptrs_same; [by apply A|apply W].
  - apply (dwf_same v); [by apply A|done].
Qed.
Lemma inv_agree v v' D P P' : inv v D P -> agree D v v' -> (forall b, 0 <= b < datastart sb -> used sb v' b = true) ->
  owned v D ++ P' ≡ₚ in_use v' -> inv v' D P'.
Proof.
  intros I A Hm Hu. split.
  - rewrite (ag_super _ _ _ A). apply I.
  - intros n Hn. rewrite (ag_len _ _ _ A n Hn). by apply I.
  - rewrite (owned_same v); [done|]. intros i Hi. by eapply agree_ptrs.
  - done.
  - intros i Hi. by eapply agree_ptrs.
Qed.
Lemma in_use_same v v' : (forall b, 0 <= b < sb_size sb -> used sb v' b = used sb v b) -> in_use v' = in_use v.
Proof.
  intros H. apply filter_ext_elem. intros b Hb. unfold data_blocks in Hb. apply elem_of_seqZ in Hb. pose proof start_order. rewrite H by lia. done.
Qed.
Lemma inv_frame v v' D P : inv v D P -> agree D v v' -> (forall b, 0 <= b < sb_size sb -> used sb v' b = used sb v b) -> inv v' D P.
Proof.
  intros I A Hu. pose proof start_order. apply (inv_agree v v' D P P I A).
  - intros b Hb. rewrite Hu by lia. by apply I.
  - rewrite (in_use_same v) by done. apply I.
Qed.

Lemma indirect_owned v D P i : inv v D P -> 0 <= i < sb_ninodes sb -> (NDIRECT < nblocks (d_size (D i)))%nat -> addr (D i) NDIRECT ∈ owned v D.
Proof. intros I Hi Hn. apply elem_of_owned. exists i. split; [done|]. apply elem_of_ptrs. by right. Qed.
Lemma agree_vput v D n x : (forall k, fs_block k -> length (v k) = BSIZE) -> n <> 1 -> (fs_block n -> length x = BSIZE) ->
  (forall i, 0 <= i < sb_ninodes sb -> (NDIRECT < nblocks (d_size (D i)))%nat -> addr (D i) NDIRECT <> n) -> agree D v (vput n x v).
Proof.
  intros I Hn Hx Hi. split.
  - by rewrite vput_ne by lia.
  - intros k Hk. unfold vput. destruct (Z.eqb_spec k n) as [->|]; [|done]. rewrite I by done. auto.
  - intros i Hr Hb. rewrite vput_ne; [done|]. auto.
Qed.
Lemma agree_meta v D P n x : inv v D P -> 1 < n < datastart sb -> (fs_block n -> length x = BSIZE) -> agree D v (vput n x v).
Proof.
  intros I Hn Hx. eapply agree_vput; [apply I|lia|done|]. intros i Hi Hb. destruct (inv_taken v D P (addr (D i) NDIRECT) I); [left; by eapply indirect_owned|lia].
Qed.
Lemma agree_free v D P n x : inv v D P -> datastart sb <= n -> n ∉ owned v D -> length x = BSIZE -> agree D v (vput n x v).
Proof.
  intros I Hn Ho Hx. pose proof start_order. eapply agree_vput; [apply I|lia|done|]. intros i Hi Hb <-. apply Ho. by eapply indirect_owned.
Qed.

Lemma used_vput n x v b : n <> BBLOCK b sb -> used sb (vput n x v) b = used sb v b.
Proof. intros Hn. unfold used. by rewrite vput_ne. Qed.
Lemma length_set_map_byte x bi f : length (set_map_byte x bi f) = length x.
Proof. apply length_insert. Qed.

Lemma in_use_set b v : datastart sb <= b < sb_size sb -> used sb v b = false -> length (v (BBLOCK b sb)) = BSIZE -> in_use (set_bit sb b v) ≡ₚ b :: in_use v.
Proof.
  intros Hb Hu Hl. pose proof start_order. apply NoDup_Permutation; [apply NoDup_in_use|constructor; [|apply NoDup_in_use]|].
  - rewrite elem_of_in_use. intros [_ H1]. congruence.
  - intros c. rewrite elem_of_cons, !elem_of_in_use. split.
    + intros [Hc H1]. rewrite used_set_bit in H1 by (done || lia). destruct (decide (c = b)); auto.
    + intros [->|[Hc H1]]; rewrite used_set_bit by (done || lia); [by rewrite decide_True|]. split; [done|]. by destruct (decide (c = b)).
Qed.
Lemma in_use_clear b v : b ∈ in_use v -> length (v (BBLOCK b sb)) = BSIZE -> b :: in_use (clear_bit sb b v) ≡ₚ in_use v.
Proof.
  intros [Hb Hu]%elem_of_in_use Hl. pose proof start_order. apply NoDup_Permutation; [constructor; [|apply NoDup_in_use]|apply NoDup_in_use|].
  - rewrite elem_of_in_use, used_clear_bit, decide_True by (done || lia). by intros [_ ?].
  - intros c. rewrite elem_of_cons, !elem_of_in_use. split.
    + intros [->|[Hc H1]]; [done|]. rewrite used_clear_bit in H1 by (done || lia). by destruct (decide (c = b)).
    + intros [Hc H1]. destruct (decide (c = b)); [by left|right]. rewrite used_clear_bit, decide_False by (done || lia). done.
Qed.

(** [balloc] of a free block, and [bfree] of one that has no owner any more. *)
Definition zeros : block := replicate BSIZE 0.
Lemma inv_balloc v D P b : inv v D P -> 0 <= b < sb_size sb -> used sb v b = false ->
  datastart sb <= b /\ b ∉ owned v D /\ b ∉ P /\ inv (vput b zeros (set_bit sb b v)) D (b :: P).
Proof.
  intros I Hb Hu. assert (datastart sb <= b) as Hd.
  { destruct (Z.le_gt_cases (datastart sb) b); [done|]. rewrite (iv_meta _ _ _ I) in Hu by lia. done. }
  assert (b ∉ owned v D) as Ho by (intros Ho; destruct (inv_taken v D P b I); [by left|congruence]).
  assert (b ∉ P) as Hp by (intros Hp; destruct (inv_taken v D P b I); [by right|congruence]).
  pose proof (iv_len _ _ _ I _ (BBLOCK_fs b Hb)) as Hl. pose proof start_order. pose proof (BBLOCK_range b Hb). split_and!; [done..|].
  assert (inv (set_bit sb b v) D (b :: P)) as I1.
  { apply (inv_agree v _ D P).
    - done.
    - eapply agree_meta; [done|lia|]. intros _. by rewrite length_set_map_byte.
    - intros c Hc. rewrite used_set_bit by (done || lia). destruct (decide (c = b)); [done|]. by apply I.
    - rewrite in_use_set, <- (iv_own _ _ _ I) by (done || lia). solve_Permutation. }
  apply (inv_frame (set_bit sb b v)); [done| |].
  - eapply agree_free; [done..| |apply length_replicate]. intros Hin. pose proof (inv_NoDup _ _ _ I1) as Hnd. apply NoDup_app in Hnd as (_ & Hd' & _).
    apply (Hd' b Hin). by left.
  - intros c Hc. apply used_vput. pose proof (BBLOCK_range c Hc). lia.
Qed.
Lemma inv_bfree v D P b : inv v D (b :: P) -> inv (clear_bit sb b v) D P.
Proof.
  intros I. assert (b ∈ in_use v) as Hb by (rewrite <- (iv_own _ _ _ I); set_solver). pose proof Hb as [Hr Hu]%elem_of_in_use.
  pose proof start_order. pose proof (iv_len _ _ _ I _ (BBLOCK_fs b ltac:(lia))) as Hl. pose proof (BBLOCK_range b ltac:(lia)).
  apply (inv_agree v _ D (b :: P)); [done| | |].
  - eapply agree_meta; [done|lia|]. intros _. by rewrite length_set_map_byte.
  - intros c Hc. rewrite used_clear_bit, decide_False by (done || lia). by apply I.
  - apply (Permutation_cons_inv (a := b)). rewrite in_use_clear, <- (iv_own _ _ _ I) by done. solve_Permutation.
Qed.

(** ** Changing an inode *)

Definition no_inode : dinode := mkDinode 0 0 0 0 0 [].
(** The disk changes at most in the blocks of inode [i] and those without owner. *)
Notation agree_but i D := (agree (fset i no_inode D)).
Lemma inv_modify v D P i v' d' P' : inv v D P -> 0 <= i < sb_ninodes sb -> agree_but i D v v' ->
  (forall b, 0 <= b < sb_size sb -> used sb v' b = used sb v b) -> dwf v' d' -> ptrs v' d' ++ P' ≡ₚ ptrs v (D i) ++ P ->
  inv v' (fset i d' D) P'.
Proof.
  intros I Hi A Hu W Hp. pose proof start_order. assert (forall j, 0 <= j < sb_ninodes sb -> j <> i -> ptrs v' (D j) = ptrs v (D j) /\ dwf v' (D j)) as Hj.
  { intros j Hj Hne. pose proof (iv_wf _ _ _ I j Hj) as Wj. assert ((NDIRECT < nblocks (d_size (D j)))%nat -> v' (addr (D j) NDIRECT) = v (addr (D j) NDIRECT)) as He.
    { intros Hb. pose proof (ag_indirect _ _ _ A j Hj) as Ha. rewrite fset_ne in Ha by done. auto. }
    split; [apply ptrs_same; [done|apply Wj]|by apply (dwf_same v)]. }
  destruct (owned_split v D i Hi) as (r & Hr & Hr'). split.
  - rewrite (ag_super _ _ _ A). apply I.
  - intros n Hn. rewrite (ag_len _ _ _ A n Hn). by apply I.
  - rewrite (in_use_same v) by done. rewrite <- (iv_own _ _ _ I), Hr, (Hr' v' d') by (intros; by apply Hj).
    rewrite <- app_assoc, (Permutation_app_comm r P'), app_assoc, Hp. solve_Permutation.
  - intros b Hb. rewrite Hu by lia. by apply I.
  - intros j Hj'. unfold fset. destruct (Z.eqb_spec j i); [done|]. by apply Hj.
Qed.
Lemma agree_refl D v : agree D v v.
Proof. done. Qed.
Lemma inv_set v D P i d' : inv v D P -> 0 <= i < sb_ninodes sb -> dwf v d' -> ptrs v d' = ptrs v (D i) -> inv v (fset i d' D) P.
Proof. intros I Hi W Hp. eapply inv_modify; [done..|]. by rewrite Hp. Qed.
Lemma inv_perm v D P P' : inv v D P -> P ≡ₚ P' -> inv v D P'.
Proof. intros [H1 H2 H3 H4 H5] Hp. split; [done..| |done|done]. by rewrite <- Hp. Qed.
Lemma inv_ext v D D' P : inv v D P -> (forall i, 0 <= i < sb_ninodes sb -> D' i = D i) -> inv v D' P.
Proof.
  intros [H1 H2 H3 H4 H5] He. split; [done..| |done|]; [|intros i Hi; rewrite He by done; auto].
  replace (owned v D') with (owned v D); [done|]. apply concat_same. intros i Hi. by rewrite He by (by apply elem_of_inums).
Qed.
(** Inode [i] gives up its blocks. *)
Lemma inv_drop v D P i d' : inv v D P -> 0 <= i < sb_ninodes sb -> dwf v d' -> d_size d' = 0 -> inv v (fset i d' D) (ptrs v (D i) ++ P).
Proof. intros I Hi W Hz. eapply inv_modify; [done..|]. unfold ptrs at 1. by rewrite Hz. Qed.

Lemma inv_put_dino v D P i d : inv v D P -> 0 <= i < sb_ninodes sb -> inv (put_dino sb i d v) D P.
Proof.
  intros I Hi. pose proof (IBLOCK_range i Hi). pose proof start_order. pose proof (iv_len _ _ _ I _ (IBLOCK_fs i Hi)).
  apply (inv_frame v); [done| |].
  - eapply agree_meta; [done|lia|]. intros _. by rewrite length_put_dinode.
  - intros b Hb. apply used_vput. pose proof (BBLOCK_range b Hb). lia.
Qed.

(** The data blocks of an inode are not indirect blocks. *)
Lemma data_not_indirect v D P i n : inv v D P -> 0 <= i < sb_ninodes sb -> (n < nblocks (d_size (D i)))%nat ->
  forall j, 0 <= j < sb_ninodes sb -> (NDIRECT < nblocks (d_size (D j)))%nat -> addr (D j) NDIRECT <> fblk v (D i) n.
Proof.
  intros I Hi Hn j Hj Hb E. assert (fblk v (D i) n ∈ ptrs v (D i)) as H1 by (apply elem_of_ptrs; left; by exists n).
  assert (fblk v (D i) n ∈ ptrs v (D j)) as H2 by (rewrite <- E; apply elem_of_ptrs; by right).
  pose proof (ptrs_disjoint _ _ _ i j _ I Hi Hj H1 H2) as <-. pose proof (ptrs_NoDup _ _ _ i I Hi) as Hnd. unfold ptrs in Hnd.
  destruct (Nat.ltb_spec NDIRECT (nblocks (d_size (D i)))); [|lia]. apply NoDup_app in Hnd as (_ & Hd & _). apply (Hd (fblk v (D i) n)).
  - apply list_elem_of_fmap. exists n. split; [done|apply elem_of_seq; lia].
  - rewrite E. by apply list_elem_of_singleton.
Qed.
Lemma fblk_inj v D P i n m : inv v D P -> 0 <= i < sb_ninodes sb -> (n < nblocks (d_size (D i)))%nat -> (m < nblocks (d_size (D i)))%nat ->
  fblk v (D i) n = fblk v (D i) m -> n = m.
Proof.
  intros I Hi Hn Hm E. pose proof (ptrs_NoDup _ _ _ i I Hi) as Hnd. unfold ptrs in Hnd. apply NoDup_app in Hnd as (Hnd & _ & _).
  eapply (NoDup_lookup _ n m (fblk v (D i) n)); [exact Hnd|rewrite list_lookup_fmap, lookup_seq_lt by done; done|rewrite list_lookup_fmap, lookup_seq_lt by done; simpl; by rewrite E].
Qed.
Lemma fblk_data v D P i n : inv v D P -> 0 <= i < sb_ninodes sb -> (n < nblocks (d_size (D i)))%nat -> datastart sb <= fblk v (D i) n < sb_size sb.
Proof. intros I Hi Hn. destruct (inv_ptr v D P i (fblk v (D i) n) I Hi) as [? _]; [|done]. apply elem_of_ptrs. left. by exists n. Qed.

Lemma inv_write v D P i n x : inv v D P -> 0 <= i < sb_ninodes sb -> (n < nblocks (d_size (D i)))%nat -> length x = BSIZE ->
  inv (vput (fblk v (D i) n) x v) D P.
Proof.
  intros I Hi Hn Hx. pose proof (fblk_data _ _ _ _ _ I Hi Hn). pose proof start_order. apply (inv_frame v); [done| |].
  - eapply agree_vput; [apply I|lia|done|]. intros j Hj Hb. by eapply data_not_indirect.
  - intros b Hb. apply used_vput. pose proof (BBLOCK_range b Hb). lia.
Qed.

(** ** Files that grow by a block *)

Lemma ptrs_grow v v' d d' : nblocks (d_size d') = S (nblocks (d_size d)) ->
  (forall n, (n < nblocks (d_size d))%nat -> fblk v' d' n = fblk v d n) ->
  ((NDIRECT < nblocks (d_size d))%nat -> addr d' NDIRECT = addr d NDIRECT) ->
  ptrs v' d' ≡ₚ fblk v' d' (nblocks (d_size d)) :: (if decide (nblocks (d_size d) = NDIRECT) then [addr d' NDIRECT] else []) ++ ptrs v d.
Proof.
  intros Hn Hf Ha. unfold ptrs. rewrite Hn, seq_S, map_app. cbn [map Nat.add].
  replace (map (fblk v' d') (seq 0 (nblocks (d_size d)))) with (map (fblk v d) (seq 0 (nblocks (d_size d)))).
  2:{ apply map_ext_in. intros n Hin%in_seq. symmetry. apply Hf. lia. }
  destruct (decide (nblocks (d_size d) = NDIRECT)) as [E|E].
  - rewrite E. simpl. solve_Permutation.
  - destruct (Nat.ltb_spec NDIRECT (nblocks (d_size d))), (Nat.ltb_spec NDIRECT (S (nblocks (d_size d)))); try lia.
    + rewrite Ha by done. simpl. solve_Permutation.
    + simpl. solve_Permutation.
Qed.
Lemma addr_set_addr d k j b : (k < length (d_addrs d))%nat -> addr (set_addr k b d) j = if decide (j = k) then b else addr d j.
Proof. intros Hk. unfold addr, set_addr. cbn [d_addrs]. by apply byte_insert. Qed.
Lemma dinode_ok_set_addr d k b : dinode_ok d -> uint32 b -> dinode_ok (set_addr k b d).
Proof. intros (H1 & H2 & H3 & H4) Hb. split_and!; [done..| |]; cbn [set_addr d_addrs]; [by rewrite length_insert|by apply Forall_insert]. Qed.
Lemma dinode_ok_set_size d z : dinode_ok d -> uint32 z -> dinode_ok (set_size z d).
Proof. by intros (H1 & H2 & H3 & H4) Hz. Qed.
Lemma fblk_set_size v z d n : fblk v (set_size z d) n = fblk v d n.
Proof. done. Qed.
Lemma data_uint32 b : datastart sb <= b < sb_size sb -> uint32 b /\ b <> 0.
Proof. intros Hb. pose proof start_order. pose proof (ly_size _ Hly). unfold uint32. lia. Qed.

Section Grow.
Context (v : Z -> block) (D : Z -> dinode) (P : list Z) (i : Z) (Hi : 0 <= i < sb_ninodes sb) (sz : Z).
Notation k := (nblocks (d_size (D i))).
Hypothesis (Hsz : uint32 sz) (Hk : nblocks sz = S k).

Lemma pending b P' : inv v D (b :: P') -> datastart sb <= b < sb_size sb /\ b ∉ owned v D.
Proof.
  intros I. split; [eapply inv_taken; [done|right; by left]|]. intros Hb. pose proof (inv_NoDup _ _ _ I) as Hnd. apply NoDup_app in Hnd as (_ & Hd & _).
  apply (Hd b Hb). by left.
Qed.

Lemma inv_grow_direct b : inv v D (b :: P) -> (k < NDIRECT)%nat ->
  let d' := set_size sz (set_addr k b (D i)) in
  inv v (fset i d' D) P /\ (forall n, (n < k)%nat -> fblk v d' n = fblk v (D i) n) /\ fblk v d' k = b.
Proof.
  intros I Hlt d'. destruct (iv_wf _ _ _ I i Hi) as [Hok Hs Hf Hind]. destruct (pending _ _ I) as [Hb Hbo]. destruct (data_uint32 b Hb) as [Hb32 Hb0].
  assert (length (d_addrs (D i)) = 13%nat) as Hlen by apply Hok. unfold NDIRECT, NINDIRECT in *.
  assert (forall j, addr d' j = if decide (j = k) then b else addr (D i) j) as Ha by (intros j; unfold d'; apply (addr_set_addr (D i)); lia).
  assert (addr d' 12 = 0) as Ha12 by (rewrite Ha, decide_False by lia; apply Hind; lia).
  assert (forall n, fblk v d' n = if decide (n = k) then b else fblk v (D i) n) as Hfb.
  { intros n. unfold fblk, NDIRECT. rewrite Ha12, (Hind ltac:(lia)). destruct (Nat.ltb_spec n 12); [apply Ha|]. by rewrite decide_False by lia. }
  split_and!.
  - eapply inv_modify; [done..| |].
    + split; [apply dinode_ok_set_size; [by apply dinode_ok_set_addr|done]|unfold NDIRECT, NINDIRECT; simpl; lia| |done].
      cbn [d' set_size d_size]. unfold NDIRECT, NINDIRECT. intros n Hn. rewrite Hfb, decide_False by lia. apply Hf. lia.
    + rewrite (ptrs_grow v v (D i) d'); [|done|intros n Hn; rewrite Hfb; by rewrite decide_False by lia|unfold NDIRECT; lia].
      rewrite Hfb, decide_True by done. rewrite decide_False by (unfold NDIRECT; lia). simpl. solve_Permutation.
  - intros n Hn. by rewrite Hfb, decide_False by lia.
  - by rewrite Hfb, decide_True.
Qed.

Lemma inv_grow_first a b : inv v D (b :: a :: P) -> k = NDIRECT ->
  (forall n, (n < NINDIRECT)%nat -> word (v a) (4 * n) = if decide (n = 0%nat) then b else 0) ->
  let d' := set_size sz (set_addr NDIRECT a (D i)) in
  inv v (fset i d' D) P /\ (forall n, (n < k)%nat -> fblk v d' n = fblk v (D i) n) /\ fblk v d' k = b.
Proof.
  intros I Hlt Hw d'. destruct (iv_wf _ _ _ I i Hi) as [Hok Hs Hf Hind]. destruct (pending _ _ I) as [Hb Hbo]. destruct (data_uint32 b Hb) as [Hb32 Hb0].
  destruct (inv_taken v D _ a I) as [Ha _]; [right; by right; left|]. destruct (data_uint32 a Ha) as [Ha32 Ha0].
  assert (length (d_addrs (D i)) = 13%nat) as Hlen by apply Hok. unfold NDIRECT, NINDIRECT in *.
  assert (forall j, addr d' j = if decide (j = 12%nat) then a else addr (D i) j) as Had by (intros j; unfold d'; apply (addr_set_addr (D i)); lia).
  assert (forall n, (n < 12)%nat -> fblk v d' n = fblk v (D i) n) as Hlow.
  { intros n Hn. unfold fblk, NDIRECT. destruct (Nat.ltb_spec n 12); [|lia]. by rewrite Had, decide_False by lia. }
  assert (forall n, (12 <= n < 140)%nat -> fblk v d' n = if decide (n = 12%nat) then b else 0) as Hhigh.
  { intros n Hn. unfold fblk, NDIRECT. destruct (Nat.ltb_spec n 12); [lia|]. rewrite Had, decide_True by done. rewrite (proj2 (Z.eqb_neq a 0) Ha0), Hw by lia.
    destruct (decide (n = 12%nat)); [by rewrite decide_True by lia|by rewrite decide_False by lia]. }
  split_and!.
  - eapply inv_modify; [done..| |].
    + split; [apply dinode_ok_set_size; [by apply dinode_ok_set_addr|done]|unfold NDIRECT, NINDIRECT; simpl; lia| |unfold NDIRECT; cbn [d' set_size d_size]; lia].
      cbn [d' set_size d_size]. unfold NDIRECT, NINDIRECT. intros n Hn. rewrite Hhigh by lia. by rewrite decide_False by lia.
    + rewrite (ptrs_grow v v (D i) d'); [|done|intros n Hn; apply Hlow; lia|unfold NDIRECT; lia].
      rewrite decide_True by done. rewrite Hlt, Hhigh by lia. rewrite decide_True by done. unfold NDIRECT. rewrite Had, decide_True by done. simpl. solve_Permutation.
  - intros n Hn. apply Hlow. lia.
  - rewrite Hlt, Hhigh by lia. by rewrite decide_True.
Qed.

Lemma inv_grow_indirect b : inv v D (b :: P) -> (NDIRECT < k < NDIRECT + NINDIRECT)%nat ->
  let a := addr (D i) NDIRECT in
  let d' := set_size sz (D i) in
  let v' := vput a (put_word (4 * (k - NDIRECT)) b (v a)) v in
  inv v' (fset i d' D) P /\ (forall n, (n < k)%nat -> fblk v' d' n = fblk v (D i) n) /\ fblk v' d' k = b.
Proof.
  intros I Hlt a d' v'. destruct (iv_wf _ _ _ I i Hi) as [Hok Hs Hf Hind]. destruct (pending _ _ I) as [Hb Hbo]. destruct (data_uint32 b Hb) as [Hb32 Hb0].
  assert (a ∈ ptrs v (D i)) as Hap by (apply elem_of_ptrs; right; split; [lia|done]).
  destruct (inv_ptr v D _ i a I Hi Hap) as (Ha & _ & Hao). destruct (data_uint32 a Ha) as [Ha32 Ha0].
  pose proof (iv_len _ _ _ I a (data_fs a Ha)) as Hla. pose proof start_order. unfold NDIRECT, NINDIRECT, BSIZE in *.
  assert (forall n, (n < 140)%nat -> fblk v' d' n = if decide (n = k) then b else fblk v (D i) n) as Hfb.
  { intros n Hn. unfold fblk, NDIRECT. change (addr d' n) with (addr (D i) n). change (addr d' 12) with a. fold a.
    destruct (Nat.ltb_spec n 12); [by rewrite decide_False by lia|]. rewrite (proj2 (Z.eqb_neq a 0) Ha0). unfold v'. rewrite vput_eq.
    destruct (decide (n = k)) as [->|Hne]; [rewrite word_put_eq by lia; by apply u32_id|]. apply word_put_ne; lia. }
  split_and!.
  - eapply (inv_modify v D (b :: P)); [done..| | | |].
    + apply agree_vput; [apply I|lia|intros _; by rewrite length_put_word|]. intros j Hj Hn E. unfold fset in Hn, E.
      destruct (Z.eqb_spec j i) as [->|Hne]; [done|]. apply Hne. eapply (ptrs_disjoint v D (b :: P)); [done..| |exact Hap].
      apply elem_of_ptrs. right. split; [done|by rewrite E].
    + intros c Hc. apply used_vput. pose proof (BBLOCK_range c Hc). lia.
    + split; [by apply dinode_ok_set_size|cbn [d' set_size d_size]; unfold NDIRECT, NINDIRECT; lia| |cbn [d' set_size d_size]; unfold NDIRECT; lia].
      cbn [d' set_size d_size]. unfold NDIRECT, NINDIRECT. intros n Hn. rewrite Hfb, decide_False by lia. apply Hf. lia.
    + rewrite (ptrs_grow v v' (D i) d'); [|done|intros n Hn; rewrite Hfb by lia; by rewrite decide_False by lia|done].
      rewrite Hfb, decide_True by (done || lia). rewrite decide_False by (unfold NDIRECT; lia). simpl. solve_Permutation.
  - intros n Hn. rewrite Hfb by lia. by rewrite decide_False by lia.
  - rewrite Hfb by lia. by rewrite decide_True.
Qed.
End Grow.
End Inv.
