(* ===== verification/FsBlocks.v ===== *)
(** * Buffers, the free map and the inode table

    What the functions of fs.c that work on single blocks do, inside a
    transaction. *)

From stdpp Require Import base gmap list strings.
From Stdlib Require Import ZArith Lia.
From S2P Require Import Prelude CString Sync Sleeplock CacheSpec Log BlockSpec Fs FsLayout FsInv.
Local Open Scope Z_scope.

Lemma wp_step {S A B} (m : M S A) (f : A -> M S B) s a s' Post Left :
  m s = Ok a s' -> wp (f a) s' Post Left -> wp (bind m f) s Post Left.
Proof. intros Hm Hf. apply wp_bind. by eapply wp_Ok. Qed.
Lemma wp_returns {S A} (m : M S A) s Post : wp m s Post (fun _ => False) -> exists a s', m s = Ok a s' /\ Post a s'.
Proof. unfold wp. destruct (m s); try done. eauto. Qed.

Section Room.
Context {S : Type} `{HB : Blocks S} {o : bool}.
Implicit Types (g B : gset Z).

(** ** The space a transaction has left

    [room B k g]: a transaction is open, and besides the blocks [B] it can log
    [k] more. *)
Definition loggable (n : Z) g : Prop := o = true /\ (n ∈ g \/ (size g < bk_room)%nat).
Definition room B (k : nat) g : Prop := o = true /\ (size (g ∪ B) + k <= bk_room)%nat.
Lemma room_in B k g n : room B k g -> n ∈ B -> loggable n g /\ room B k ({[n]} ∪ g).
Proof.
  unfold room, loggable. intros [Ho Hr] Hn. split; [split; [done|]|by replace ({[n]} ∪ g ∪ B) with (g ∪ B) by set_solver].
  destruct (decide (n ∈ g)); [by left|right]. assert (size ({[n]} ∪ g) <= size (g ∪ B))%nat as Hle by (apply subseteq_size; set_solver).
  rewrite size_union, size_singleton in Hle by set_solver. lia.
Qed.
Lemma room_new B k g n : room B (Datatypes.S k) g -> loggable n g /\ room B k ({[n]} ∪ g).
Proof.
  unfold room, loggable. intros [Ho Hr]. split; [split; [done|]; right; assert (size g <= size (g ∪ B))%nat by (apply subseteq_size; set_solver); lia|split; [done|]].
  assert (size ({[n]} ∪ g ∪ B) <= Datatypes.S (size (g ∪ B)))%nat; [|lia]. replace ({[n]} ∪ g ∪ B) with ({[n]} ∪ (g ∪ B)) by set_solver.
  pose proof (size_union_alt {[n]} (g ∪ B)) as E. rewrite E, size_singleton. assert (size ((g ∪ B) ∖ {[n]}) <= size (g ∪ B))%nat by (apply subseteq_size; set_solver). lia.
Qed.
Lemma room_old B k g n : room B k g -> n ∈ g -> loggable n g /\ room B k ({[n]} ∪ g).
Proof. intros Hr Hn. replace ({[n]} ∪ g) with g by set_solver. split; [split; [apply Hr|by left]|done]. Qed.
Lemma room_less B k j g : room B k g -> (j <= k)%nat -> room B j g.
Proof. unfold room. intros [Ho Hr] Hj. split; [done|lia]. Qed.
Lemma room_size B k g : room B k g -> (size g + k <= bk_room)%nat.
Proof. intros [_ Hr]. assert (size g <= size (g ∪ B))%nat by (apply subseteq_size; set_solver). lia. Qed.
End Room.

Section FsBlocks.
Context {L S : Type} `{HL : Locks L} `{HB : Blocks S} {o : bool} (sb : superblock) (Hly : layout sb) (Hfs : forall n, fs_block sb n -> bk_fs n).
Notation fs := (fs (L := L) (S := S)).
Notation mkTxn := (mkTxn o).
Notation room := (room (o := o)).
Notation loggable := (loggable (o := o)).
Implicit Types (v : Z -> block) (dk : history) (g B : gset Z) (h : list (nat * Z)) (ic : list inode) (s : fs).

Record R ic (t : txn) s : Prop := {
  r_locks : lk_owned [] (f_locks s);
  r_blocks : bk_repr (f_blocks s) t;
  r_sb : f_sb s = sb;
  r_ic : icache s = ic
}.

Lemma on_blocks_Ok {A} (m : M S A) ic t s x c' t' : R ic t s -> m (f_blocks s) = Ok x c' -> bk_repr c' t' ->
  exists s', on_blocks m s = Ok x s' /\ R ic t' s'.
Proof. intros [H1 H2 H3 H4] Hm Hr. eexists. split; [unfold on_blocks; by erewrite zoom_Ok by exact Hm|]. split; done. Qed.

Lemma bread_R ic v dk g h s n : R ic (mkTxn v dk g h) s -> fs_block sb n -> n ∉ h.*2 -> (length h <= 2)%nat ->
  exists bp s', bread 1 n s = Ok bp s' /\ R ic (mkTxn v dk g ((bp, n) :: h)) s' /\ (n ∈ g \/ v n = dk n).
Proof.
  intros HR Hn Hh Hl. pose proof (r_blocks _ _ _ HR) as Hb. destruct (bk_read_ok _ _ n Hb (Hfs n Hn) Hh Hl) as (bp & c & Hr & _ & Hb').
  destruct (on_blocks_Ok _ _ _ _ _ _ _ HR Hr Hb') as (s' & Hs & HR'). exists bp, s'. split_and!; [done|done|].
  destruct (decide (n ∈ g)); [by left|right]. by apply (bk_clean _ _ n Hb (Hfs n Hn)).
Qed.
Lemma data_R ic v dk g h s bp n : R ic (mkTxn v dk g h) s -> (bp, n) ∈ h -> data bp s = Ok (v n) s.
Proof.
  intros [_ Hb _ _] Hh. pose proof (bk_data_ok _ _ bp n Hb Hh) as Hd. unfold data, on_blocks. erewrite zoom_Ok by exact Hd. by destruct s.
Qed.
Lemma set_data_R ic v dk g h s bp n x : R ic (mkTxn v dk g h) s -> (bp, n) ∈ h -> length x = BSIZE ->
  exists s', set_data bp x s = Ok tt s' /\ R ic (mkTxn (vput n x v) dk g h) s'.
Proof.
  intros HR Hh Hx. destruct (bk_set_ok _ _ bp n x (r_blocks _ _ _ HR) Hh Hx) as (c & Hr & Hb). by apply (on_blocks_Ok _ _ _ _ _ _ _ HR Hr).
Qed.
Lemma log_write_R ic v dk g h s bp n : R ic (mkTxn v dk g h) s -> (bp, n) ∈ h -> loggable n g ->
  exists s', log_write bp s = Ok tt s' /\ R ic (mkTxn v dk ({[n]} ∪ g) h) s'.
Proof.
  intros HR Hh [Ho Hl]. destruct (bk_log_ok _ _ bp n (r_blocks _ _ _ HR) Hh Hl Ho) as (c & Hr & Hb). by apply (on_blocks_Ok _ _ _ _ _ _ _ HR Hr).
Qed.
Lemma brelse_R ic v dk g h s bp n : R ic (mkTxn v dk g ((bp, n) :: h)) s -> n ∈ g \/ v n = dk n ->
  exists s', brelse bp s = Ok tt s' /\ R ic (mkTxn v dk g h) s'.
Proof.
  intros HR Hc. destruct (bk_held _ _ (r_blocks _ _ _ HR)) as [Hnd _]. apply NoDup_cons in Hnd as [Hbp _].
  destruct (bk_relse_ok _ _ bp n (r_blocks _ _ _ HR)) as (c & Hr & Hb); [by left|done|].
  apply (on_blocks_Ok _ _ _ _ _ _ _ HR Hr). unfold t_with_held in Hb. cbn [t_held] in Hb. by rewrite unhold_cons in Hb.
Qed.
(** [bp->data] is replaced, logged and the buffer released. *)
Lemma update_R ic v dk g h s bp n x : R ic (mkTxn v dk g ((bp, n) :: h)) s -> length x = BSIZE -> loggable n g ->
  exists s1 s2 s3, set_data bp x s = Ok tt s1 /\ log_write bp s1 = Ok tt s2 /\ brelse bp s2 = Ok tt s3 /\ R ic (mkTxn (vput n x v) dk ({[n]} ∪ g) h) s3.
Proof.
  intros HR Hx Hl. destruct (set_data_R _ _ _ _ _ _ bp n x HR) as (s1 & E1 & R1); [by left|done|].
  destruct (log_write_R _ _ _ _ _ _ bp n R1) as (s2 & E2 & R2); [by left|done|].
  destruct (brelse_R _ _ _ _ _ _ _ _ R2) as (s3 & E3 & R3); [left; by apply elem_of_union_l, elem_of_singleton|]. by exists s1, s2, s3.
Qed.
Lemma geti_R ic t s ip x : R ic t s -> ic !! ip = Some x -> geti ip s = Ok x s.
Proof. intros [_ _ _ H] Hx. unfold geti. rewrite bind_gets, H, Hx. done. Qed.
Lemma updi_R ic t s ip x f : R ic t s -> ic !! ip = Some x -> exists s', updi ip f s = Ok tt s' /\ R (<[ip := f x]> ic) t s'.
Proof.
  intros HR Hx. unfold updi. erewrite bind_Ok by (by eapply geti_R). eexists. split; [reflexivity|]. destruct HR as [H1 H2 H3 H4]. split; [done..|]. simpl. by rewrite H4.
Qed.

(** ** Blocks *)

Lemma readsb_R ic v dk g h s : R ic (mkTxn v dk g h) s -> read_superblock (v 1) = sb -> 1 ∉ h.*2 -> (length h <= 2)%nat ->
  exists s', readsb 1 s = Ok tt s' /\ R ic (mkTxn v dk g h) s'.
Proof.
  intros HR Hv Hh Hl. destruct (bread_R _ _ _ _ _ _ 1 HR) as (bp & s1 & E1 & R1 & Hc); [by left|done|done|].
  set (s2 := put_sb (read_superblock (v 1)) s1). assert (R ic (mkTxn v dk g ((bp, 1) :: h)) s2) as R2 by (destruct R1; by split).
  destruct (brelse_R _ _ _ _ _ _ _ _ R2 Hc) as (s3 & E3 & R3). exists s3. split; [|done]. unfold readsb.
  erewrite bind_Ok by exact E1. erewrite bind_Ok by (eapply data_R; [exact R1|by left]). rewrite bind_modify. exact E3.
Qed.
Lemma splice_all x b : length x = length b -> splice 0 x b = x.
Proof. intros H. unfold splice. rewrite drop_ge by lia. simpl. by rewrite app_nil_r. Qed.

Lemma bzero_R ic v dk g h s n : R ic (mkTxn v dk g h) s -> fs_block sb n -> n ∉ h.*2 -> (length h <= 2)%nat -> length (v n) = BSIZE -> loggable n g ->
  exists s', bzero 1 n s = Ok tt s' /\ R ic (mkTxn (vput n zeros v) dk ({[n]} ∪ g) h) s'.
Proof.
  intros HR Hn Hh Hl Hv Hg. destruct (bread_R _ _ _ _ _ _ n HR) as (bp & s1 & E1 & R1 & _); [done..|].
  destruct (update_R _ _ _ _ _ _ _ _ zeros R1) as (s2 & s3 & s4 & E2 & E3 & E4 & R4); [apply length_replicate|done|].
  exists s4. split; [|done]. unfold bzero. erewrite bind_Ok by exact E1. erewrite bind_Ok by (eapply data_R; [exact R1|by left]).
  rewrite splice_all by (rewrite length_replicate; done). erewrite bind_Ok by exact E2. by erewrite bind_Ok by exact E3.
Qed.

Lemma BBLOCK_at k i : 0 <= i < BPB -> BBLOCK (k * BPB + i) sb = BBLOCK (k * BPB) sb /\ (k * BPB + i) mod BPB = i.
Proof. intros Hi. unfold BBLOCK, BPB in *. rewrite Z.div_add_l, Z.div_mul by lia. rewrite Z.div_small by lia. split; [lia|]. rewrite Z.add_comm, Z.mod_add by lia. apply Z.mod_small. lia. Qed.

(** The buffers the callers hold are of data blocks in use. *)
Definition held_data v h : Prop := (length h <= 1)%nat /\ forall n, n ∈ h.*2 -> datastart sb <= n < sb_size sb /\ used sb v n = true.
Lemma held_not_meta v h n : held_data v h -> n < datastart sb -> n ∉ h.*2.
Proof. intros [_ Hh] Hn Hin. specialize (Hh n Hin). lia. Qed.

Definition allocated v dk g h (b : Z) : txn := mkTxn (vput b zeros (set_bit sb b v)) dk ({[b]} ∪ ({[BBLOCK b sb]} ∪ g)) h.

(** One block of the bitmap. *)
Lemma balloc_block ic v D P dk g h s B k m bp : inv sb v D P -> held_data v h -> (forall b, 0 <= b < sb_size sb -> BBLOCK b sb ∈ B) -> room B (Datatypes.S k) g ->
  let n := Z.of_nat m * BPB in 0 <= n < sb_size sb -> R ic (mkTxn v dk g ((bp, BBLOCK n sb) :: h)) s ->
  wp (scan (seq 0 (Z.to_nat (Z.min BPB (sb_size sb - n)))) (fun i =>
      let bi := Z.of_nat i in
      let m := bit_mask bi in
      let! x := data bp in
      if Z.land (map_byte x bi) m =? 0 then
        set_data bp (set_map_byte x bi (Z.lor (map_byte x bi) m)) ;;;
        log_write bp ;;;
        brelse bp ;;;
        bzero 1 (n + bi) ;;;
        ret (Some (n + bi))
      else ret None)) s
    (fun r s' => match r with
       | Some b => 0 <= b < sb_size sb /\ used sb v b = false /\ R ic (allocated v dk g h b) s'
       | None => R ic (mkTxn v dk g ((bp, BBLOCK n sb) :: h)) s' /\ forall b, n <= b < n + BPB -> b < sb_size sb -> used sb v b = true
       end) (fun _ => False).
Proof.
  intros I Hh HB' Hroom n Hn HR.
  apply (wp_scan_seq (fun i s => R ic (mkTxn v dk g ((bp, BBLOCK n sb) :: h)) s /\ forall b, n <= b < n + Z.of_nat i -> b < sb_size sb -> used sb v b = true)).
  { split; [done|]. intros b Hb. lia. }
  { cbn beta. intros s1 [H1 H2]. split; [done|]. intros b Hb Hs. apply H2; [|done]. unfold BPB in *. lia. }
  intros i s1 Hi [R1 Hused]. assert (0 <= Z.of_nat i < BPB /\ n + Z.of_nat i < sb_size sb) as [Hi1 Hi2] by (unfold BPB in *; lia).
  set (b := n + Z.of_nat i). destruct (BBLOCK_at (Z.of_nat m) (Z.of_nat i) Hi1) as [Eb Em]. fold n b in Eb, Em.
  assert (0 <= b < sb_size sb) as Hb by (unfold b; lia). pose proof (iv_len _ _ _ _ I _ (BBLOCK_fs sb Hly b Hb)) as Hlen.
  cbv zeta. eapply wp_step; [eapply data_R; [exact R1|by left]|]. rewrite mask_test, <- Eb.
  assert (Z.testbit (map_byte (v (BBLOCK b sb)) (Z.of_nat i)) (Z.of_nat i mod 8) = used sb v b) as Hu.
  { unfold used. rewrite Em, <- (mod_BPB_8 b), Em. done. }
  rewrite Hu. destruct (used sb v b) eqn:E; simpl.
  - split; [by rewrite Eb|]. intros c Hc Hc'. destruct (decide (c = b)) as [->|]; [done|]. apply Hused; [unfold b in *; lia|done].
  - rewrite <- Eb in R1. destruct (room_in _ _ _ (BBLOCK b sb) Hroom) as [Hl1 Hroom1]; [by apply HB'|].
    destruct (update_R _ _ _ _ _ _ _ _ (set_map_byte (v (BBLOCK b sb)) (Z.of_nat i) (Z.lor (map_byte (v (BBLOCK b sb)) (Z.of_nat i)) (bit_mask (Z.of_nat i)))) R1)
      as (s2 & s3 & s4 & E2 & E3 & E4 & R4); [by rewrite length_set_map_byte|done|].
    destruct (inv_balloc sb Hly v D P b I Hb E) as (Hd & _). destruct (room_new _ _ _ b Hroom1) as [Hl2 _].
    destruct (bzero_R _ _ _ _ _ _ b R4) as (s5 & E5 & R5); [apply data_fs; [done|lia]| |destruct Hh; lia| |done|].
    { intros Hin. destruct Hh as [_ Hh]. destruct (Hh b Hin). congruence. }
    { rewrite vput_ne; [by apply I, data_fs; [|lia]|]. pose proof (BBLOCK_range sb b Hb). lia. }
    eapply wp_step; [exact E2|]. eapply wp_step; [exact E3|]. eapply wp_step; [exact E4|]. eapply wp_step; [exact E5|]. split_and!; [lia|lia|done|].
    fold b. unfold allocated, set_bit. rewrite Em. exact R5.
Qed.

Lemma balloc_scan ic v D P dk g h s B k : inv sb v D P -> held_data v h -> (forall b, 0 <= b < sb_size sb -> BBLOCK b sb ∈ B) -> room B (Datatypes.S k) g ->
  R ic (mkTxn v dk g h) s -> exists r s', balloc 1 s = (match r with Some b => ret b | None => panic "balloc: out of blocks" end) s' /\
    match r with
    | Some b => 0 <= b < sb_size sb /\ used sb v b = false /\ R ic (allocated v dk g h b) s'
    | None => forall b, 0 <= b < sb_size sb -> used sb v b = true
    end.
Proof.
  intros I Hh HB' Hroom HR. unfold balloc. rewrite bind_gets, (r_sb _ _ _ HR).
  edestruct @wp_returns as (r & s' & Hr & HP); [|exists r, s'; split; [by erewrite bind_Ok by exact Hr|exact HP]].
  apply (wp_scan_seq (fun k s => R ic (mkTxn v dk g h) s /\ forall b, 0 <= b < Z.of_nat k * BPB -> b < sb_size sb -> used sb v b = true)).
  - split; [done|]. intros b Hb. lia.
  - cbn beta. intros s1 [_ H2] b Hb. apply H2; [|lia]. unfold BPB in *. Z.to_euclidean_division_equations. lia.
  - intros m s1 Hm [R1 Hused]. set (n := Z.of_nat m * BPB). assert (0 <= n < sb_size sb) as Hn.
    { unfold n, BPB in *. Z.to_euclidean_division_equations. lia. }
    pose proof (BBLOCK_range sb n Hn) as Hbb. destruct (bread_R _ _ _ _ _ _ (BBLOCK n sb) R1) as (bp & s2 & E2 & R2 & Hc);
      [by apply BBLOCK_fs|apply (held_not_meta v); [done|lia]|destruct Hh; lia|].
    eapply wp_step; [exact E2|]. apply wp_bind. eapply wp_mono; [eapply balloc_block; done| |done].
    intros [b|] s3; [done|]. intros [R3 H3]. destruct (brelse_R _ _ _ _ _ _ _ _ R3 Hc) as (s4 & E4 & R4). eapply wp_step; [exact E4|]. split; [done|].
    intros b Hb Hs. destruct (Z.le_gt_cases n b); [apply H3; unfold n in *; lia|apply Hused; unfold n in *; lia].
Qed.
Lemma balloc_R ic v D P dk g h s B k : inv sb v D P -> held_data v h -> (forall b, 0 <= b < sb_size sb -> BBLOCK b sb ∈ B) -> room B (Datatypes.S k) g ->
  R ic (mkTxn v dk g h) s -> (exists b, 0 <= b < sb_size sb /\ used sb v b = false) ->
  exists b s', balloc 1 s = Ok b s' /\ 0 <= b < sb_size sb /\ used sb v b = false /\ R ic (allocated v dk g h b) s'.
Proof.
  intros I Hh HB' Hroom HR (b0 & Hb0 & Hu0). edestruct balloc_scan as ([b|] & s' & Hr & HP); [exact I|exact Hh|exact HB'|exact Hroom|exact HR|by exists b, s'|].
  rewrite HP in Hu0; done.
Qed.
Lemma balloc_full ic v D P dk g h s B k : inv sb v D P -> held_data v h -> (forall b, 0 <= b < sb_size sb -> BBLOCK b sb ∈ B) -> room B (Datatypes.S k) g ->
  R ic (mkTxn v dk g h) s -> (forall b, 0 <= b < sb_size sb -> used sb v b = true) -> balloc 1 s = Panic "balloc: out of blocks".
Proof.
  intros I Hh HB' Hroom HR Hu. edestruct balloc_scan as ([b|] & s' & Hr & HP); [exact I|exact Hh|exact HB'|exact Hroom|exact HR| |done].
  destruct HP as (Hb & Hf & _). rewrite Hu in Hf; done.
Qed.

Lemma bfree_R ic v D P dk g h s b : inv sb v D (b :: P) -> held_data v h -> loggable (BBLOCK b sb) g -> R ic (mkTxn v dk g h) s ->
  exists s', bfree 1 b s = Ok tt s' /\ R ic (mkTxn (clear_bit sb b v) dk ({[BBLOCK b sb]} ∪ g) h) s'.
Proof.
  intros I Hh Hg HR. destruct (inv_taken sb v D _ b I) as [Hb Hu]; [right; by left|]. pose proof (start_order sb Hly).
  assert (0 <= b < sb_size sb) as Hb' by lia. pose proof (BBLOCK_range sb b Hb').
  destruct (readsb_R _ _ _ _ _ _ HR) as (s1 & E1 & R1); [apply I|apply (held_not_meta v); [done|lia]|destruct Hh; lia|].
  destruct (bread_R _ _ _ _ _ _ (BBLOCK b sb) R1) as (bp & s2 & E2 & R2 & _); [by apply BBLOCK_fs|apply (held_not_meta v); [done|lia]|destruct Hh; lia|].
  edestruct (update_R _ _ _ _ _ _ _ _ (set_map_byte (v (BBLOCK b sb)) (b mod BPB) (Z.land (map_byte (v (BBLOCK b sb)) (b mod BPB)) (Z.lnot (bit_mask (b mod BPB))))) R2)
    as (s3 & s4 & s5 & E3 & E4 & E5 & R5); [rewrite length_set_map_byte; by apply I, BBLOCK_fs|done|].
  exists s5. split; [|exact R5]. unfold bfree. erewrite bind_Ok by exact E1. rewrite bind_gets, (r_sb _ _ _ R1). erewrite bind_Ok by exact E2.
  erewrite bind_Ok by (eapply data_R; [exact R2|by left]). rewrite mask_test, mod_BPB_8. fold (used sb v b). rewrite Hu. cbn [negb].
  erewrite bind_Ok by exact E3. by erewrite bind_Ok by exact E4.
Qed.

(** ** The inode table *)

Lemma iupdate_R ic v dk g h s ip x : R ic (mkTxn v dk g h) s -> ic !! ip = Some x -> i_dev x = 1 -> 0 <= i_inum x < sb_ninodes sb ->
  IBLOCK (i_inum x) sb ∉ h.*2 -> (length h <= 2)%nat -> length (v (IBLOCK (i_inum x) sb)) = BSIZE -> loggable (IBLOCK (i_inum x) sb) g ->
  exists s', iupdate ip s = Ok tt s' /\ R ic (mkTxn (put_dino sb (i_inum x) (i_d x) v) dk ({[IBLOCK (i_inum x) sb]} ∪ g) h) s'.
Proof.
  intros HR Hx Hd Hi Hh Hl Hlen Hg. destruct (bread_R _ _ _ _ _ _ (IBLOCK (i_inum x) sb) HR) as (bp & s1 & E1 & R1 & _); [by apply IBLOCK_fs|done..|].
  edestruct (update_R _ _ _ _ _ _ _ _ (put_dinode (slot (i_inum x)) (i_d x) (v (IBLOCK (i_inum x) sb))) R1) as (s2 & s3 & s4 & E2 & E3 & E4 & R4);
    [by rewrite length_put_dinode|done|]. exists s4. split; [|exact R4]. unfold iupdate. erewrite bind_Ok by (by eapply geti_R). rewrite bind_gets, (r_sb _ _ _ HR), Hd.
  erewrite bind_Ok by exact E1. erewrite bind_Ok by (eapply data_R; [exact R1|by left]). erewrite bind_Ok by exact E2. by erewrite bind_Ok by exact E3.
Qed.
End FsBlocks.
