(* ===== verification/FsFile.v ===== *)
(** * The contents of inodes: bmap, readi, writei

    The calling process has locked the inode; [D] is the inode table as the
    kernel sees it.  While a file is being extended the size in [D] is ahead of
    the one in the inode cache. *)

From stdpp Require Import base gmap list strings.
From Stdlib Require Import ZArith Lia.
From S2P Require Import Prelude CString Sync Sleeplock CacheSpec Log BlockSpec Fs FsLayout FsInv FsBlocks.
Local Open Scope Z_scope.

Lemma filter_all {A} (P : A -> Prop) `{!forall x, Decision (P x)} (l : list A) : Forall P l -> filter P l = l.
Proof. induction 1; [done|]. rewrite filter_cons_True by done. by f_equal. Qed.

Section FsFile.
Context {L S : Type} `{HL : Locks L} `{HB : Blocks S} {o : bool} (sb : superblock) (Hly : layout sb) (Hfs : forall n, fs_block sb n -> bk_fs n).
Notation fs := (fs (L := L) (S := S)).
Notation mkTxn := (mkTxn o).
Notation room := (room (o := o)).
Notation loggable := (loggable (o := o)).
Implicit Types (v : Z -> block) (dk : history) (g B : gset Z) (h : list (nat * Z)) (ic : list inode) (s : fs) (D : Z -> dinode).
Notation R := (R sb).
Notation inv := (inv sb).

(** ** Free space *)

Definition space v : nat := (length (data_blocks sb) - length (in_use sb v))%nat.
Lemma space_free v : (0 < space v)%nat -> exists b, 0 <= b < sb_size sb /\ used sb v b = false.
Proof.
  intros Hs. destruct (decide (Forall (fun b => used sb v b = true) (data_blocks sb))) as [Hall|Hnot].
  - unfold space, in_use in Hs. rewrite filter_all in Hs by done. lia.
  - apply not_Forall_Exists in Hnot; [|apply _]. apply Exists_exists in Hnot as (b & Hb & Hu). exists b. split; [|by apply not_true_is_false].
    unfold data_blocks in Hb. apply elem_of_seqZ in Hb. pose proof (start_order sb Hly). lia.
Qed.
Lemma in_use_balloc v D P b : inv v D P -> 0 <= b < sb_size sb -> used sb v b = false -> in_use sb (vput b zeros (set_bit sb b v)) ≡ₚ b :: in_use sb v.
Proof.
  intros I Hb Hu. destruct (inv_balloc sb Hly v D P b I Hb Hu) as (Hd & _). rewrite (in_use_same sb Hly (set_bit sb b v)).
  - apply in_use_set; [done|lia|done|]. by apply I, BBLOCK_fs.
  - intros c Hc. apply used_vput. pose proof (BBLOCK_range sb c Hc). lia.
Qed.
Lemma space_balloc v D P b : inv v D P -> 0 <= b < sb_size sb -> used sb v b = false ->
  space v = Datatypes.S (space (vput b zeros (set_bit sb b v))).
Proof.
  intros I Hb Hu. pose proof (in_use_balloc _ _ _ _ I Hb Hu) as Hp. apply Permutation_length in Hp. simpl in Hp.
  assert (length (in_use sb (vput b zeros (set_bit sb b v))) <= length (data_blocks sb))%nat by apply length_filter. unfold space. lia.
Qed.

(** ** Which block holds which part of the file *)

(** The inode in the cache is [D i], but for the size. *)
Definition near (x : inode) (d : dinode) : Prop := d_addrs (i_d x) = d_addrs d.
(** [ip] points to the cache entry [x] of inode [i]. *)
Record entry ic (ip : nat) (x : inode) (i : Z) : Prop := {
  en_at : ic !! ip = Some x;
  en_dev : i_dev x = 1;
  en_inum : i_inum x = i;
  en_range : 0 <= i < sb_ninodes sb
}.

Lemma addr_lookup d k : dinode_ok d -> (k <= NDIRECT)%nat -> d_addrs d !! k = Some (addr d k).
Proof.
  intros (_ & _ & Hl & _) Hk. unfold addr, NDIRECT in *. rewrite nth_lookup. by destruct (lookup_lt_is_Some_2 (d_addrs d) k) as [a ->]; [lia|].
Qed.
Lemma near_lookup x v d k : near x d -> dwf v d -> (k <= NDIRECT)%nat -> d_addrs (i_d x) !! k = Some (addr d k).
Proof. intros Hn W Hk. rewrite Hn. by apply addr_lookup; [apply W|]. Qed.

Lemma bmap_old ic v D P dk g s ip x i n : inv v D P -> R ic (mkTxn v dk g []) s -> entry ic ip x i -> near x (D i) -> (n < nblocks (d_size (D i)))%nat ->
  exists s', bmap ip (Z.of_nat n) s = Ok (fblk v (D i) n) s' /\ R ic (mkTxn v dk g []) s'.
Proof.
  intros I HR [Hx Hdev Hinum Hi] Hnear Hn. pose proof (iv_wf _ _ _ _ I i Hi) as W. pose proof (dw_size _ _ W) as Hmax.
  pose proof (fblk_data sb v D P i n I Hi Hn) as Hb. destruct (data_uint32 sb Hly _ Hb) as [_ Hb0]. unfold bmap. erewrite bind_Ok by (by eapply geti_R).
  unfold fblk in *. destruct (Nat.ltb_spec n NDIRECT) as [Hlt|Hge].
  - replace (Z.of_nat n <? Z.of_nat NDIRECT) with true by lia. rewrite (deref_Some _ (addr (D i) n)); [|rewrite Nat2Z.id; eapply near_lookup; [done..|lia]].
    replace (addr (D i) n =? 0) with false by lia. by exists s.
  - replace (Z.of_nat n <? Z.of_nat NDIRECT) with false by lia. replace (Z.of_nat n - Z.of_nat NDIRECT <? Z.of_nat NINDIRECT) with true by lia.
    assert (addr (D i) NDIRECT ∈ ptrs v (D i)) as Ha by (apply elem_of_ptrs; right; split; [lia|done]).
    destruct (inv_ptr sb v D P i _ I Hi Ha) as (Har & _). destruct (data_uint32 sb Hly _ Har) as [_ Ha0].
    rewrite (deref_Some _ (addr (D i) NDIRECT)) by (eapply near_lookup; [done..|lia]). rewrite (proj2 (Z.eqb_neq _ 0) Ha0) in *. rewrite bind_ret, Hdev.
    destruct (bread_R sb Hfs _ _ _ _ _ _ (addr (D i) NDIRECT) HR) as (bp & s1 & E1 & R1 & Hc); [by apply data_fs|apply not_elem_of_nil|simpl; lia|].
    destruct (brelse_R sb _ _ _ _ _ _ _ _ R1 Hc) as (s2 & E2 & R2). exists s2. split; [|done]. erewrite bind_Ok by exact E1.
    erewrite bind_Ok by (eapply data_R; [exact R1|by left]). replace (Z.to_nat (Z.of_nat n - Z.of_nat NDIRECT)) with (n - NDIRECT)%nat by lia.
    rewrite (proj2 (Z.eqb_neq _ 0) Hb0), bind_ret. by erewrite bind_Ok by exact E2.
Qed.

(** ** Extending a file by a block *)

Definition set_addrs (l : list Z) (d : dinode) : dinode := mkDinode (d_type d) (d_major d) (d_minor d) (d_nlink d) (d_size d) l.
(** The cache entry once it has the block numbers of [d]. *)
Definition follow (x : inode) (d : dinode) : inode := set_id (set_addrs (d_addrs d) (i_d x)) x.

(** Inode [i] has got block number [k], of zeros; nothing else has changed. *)
Record grown (i : Z) (k : nat) (sz : Z) v D v' D' : Prop := {
  gr_others : forall j, j <> i -> D' j = D j;
  gr_inode : D' i = set_size sz (set_addrs (d_addrs (D' i)) (D i));
  gr_stable : forall j b, 0 <= j < sb_ninodes sb -> j <> i -> b ∈ ptrs v (D j) -> v' b = v b;
  gr_old : forall m, (m < k)%nat -> fblk v' (D' i) m = fblk v (D i) m /\ v' (fblk v (D i) m) = v (fblk v (D i) m);
  gr_new : v' (fblk v' (D' i) k) = zeros;
  gr_table : forall n, sb_inodestart sb <= n < sb_bmapstart sb -> v' n = v n
}.

(** Block [b] has been allocated. *)
Record fresh v D (P : list Z) g B (r : nat) (b : Z) v' g' : Prop := {
  fr_inv : inv v' D (b :: P);
  fr_range : datastart sb <= b < sb_size sb;
  fr_owned : b ∉ owned sb v D;
  fr_pending : b ∉ P;
  fr_zero : v' b = zeros;
  fr_keeps : forall n, n <> b -> ~ (sb_bmapstart sb <= n < datastart sb) -> v' n = v n;
  fr_taken : forall n, n ∈ owned sb v D \/ n ∈ P -> v' n = v n;
  fr_same : owned sb v' D = owned sb v D;
  fr_room : room B r g';
  fr_logged : {[b]} ∪ g ⊆ g';
  fr_space : space v = Datatypes.S (space v')
}.
Arguments fr_inv {v D P g B r b v' g'}.
Arguments fr_range {v D P g B r b v' g'}.
Arguments fr_owned {v D P g B r b v' g'}.
Arguments fr_pending {v D P g B r b v' g'}.
Arguments fr_zero {v D P g B r b v' g'}.
Arguments fr_keeps {v D P g B r b v' g'}.
Arguments fr_taken {v D P g B r b v' g'}.
Arguments fr_same {v D P g B r b v' g'}.
Arguments fr_room {v D P g B r b v' g'}.
Arguments fr_logged {v D P g B r b v' g'}.
Arguments fr_space {v D P g B r b v' g'}.
Lemma balloc_step ic v D P dk g h s B r : inv v D P -> held_data sb v h -> (forall b, 0 <= b < sb_size sb -> BBLOCK b sb ∈ B) -> room B (1 + r) g ->
  R ic (mkTxn v dk g h) s -> (0 < space v)%nat ->
  exists b s' v' g', balloc 1 s = Ok b s' /\ R ic (mkTxn v' dk g' h) s' /\ fresh v D P g B r b v' g'.
Proof.
  intros I Hh HBB Hroom HR Hsp. destruct (balloc_R sb Hly Hfs ic v D P dk g h s B r I Hh HBB Hroom HR (space_free _ Hsp)) as (b & s1 & E1 & Hb & Hu & R1).
  destruct (inv_balloc sb Hly v D P b I Hb Hu) as (Hd & Ho & Hp & I1). pose proof (start_order sb Hly). pose proof (BBLOCK_range sb b Hb).
  destruct (room_in _ _ _ (BBLOCK b sb) Hroom) as [_ Hroom1]; [by apply HBB|]. destruct (room_new _ _ _ b Hroom1) as [_ Hroom2].
  assert (forall n, n <> b -> ~ (sb_bmapstart sb <= n < datastart sb) -> vput b zeros (set_bit sb b v) n = v n) as Hkeeps.
  { intros n Hn Hm. rewrite vput_ne by done. unfold set_bit. by rewrite vput_ne by lia. }
  assert (forall n, n ∈ owned sb v D \/ n ∈ P -> vput b zeros (set_bit sb b v) n = v n) as Htaken.
  { intros n Hn. destruct (inv_taken sb v D P n I Hn) as [Hr Hun]. apply Hkeeps; [|lia]. intros ->. congruence. }
  eexists b, s1, _, _. split_and!; [done|exact R1|]. split; [done|lia|done|done|apply vput_eq|done|done| |done|set_solver|by eapply space_balloc].
  apply owned_same. intros j Hj. apply ptrs_same; [|apply (iv_wf _ _ _ _ I j Hj)]. intros Hn. apply Htaken. left. by eapply indirect_owned.
Qed.
Lemma ptrs_owned v D j b : 0 <= j < sb_ninodes sb -> b ∈ ptrs v (D j) -> b ∈ owned sb v D.
Proof. intros Hj Hb. apply elem_of_owned. by exists j. Qed.
Lemma fblk_owned v D i m : 0 <= i < sb_ninodes sb -> (m < nblocks (d_size (D i)))%nat -> fblk v (D i) m ∈ owned sb v D.
Proof. intros Hi Hm. apply (ptrs_owned v D i); [done|]. apply elem_of_ptrs. left. by exists m. Qed.

Lemma length_zeros : length zeros = BSIZE.
Proof. apply length_replicate. Qed.
Lemma word_zeros j : word zeros j = 0.
Proof.
  assert (forall m, byte_at zeros m = 0) as H; [|unfold word; by rewrite !H]. intros m. unfold byte_at, zeros. rewrite nth_lookup.
  destruct (replicate BSIZE 0 !! m) eqn:Em; [|done]. by apply lookup_replicate in Em as [-> _].
Qed.
Lemma inv_block v0 D0 P0 n y : inv v0 D0 P0 -> datastart sb <= n < sb_size sb -> n ∉ owned sb v0 D0 -> length y = BSIZE -> inv (vput n y v0) D0 P0.
Proof.
  intros I0 Hn Ho Hy. apply (inv_frame sb Hly v0); [done|eapply agree_free; [done..|lia|done|done]|]. intros c Hc. apply used_vput. pose proof (BBLOCK_range sb c Hc). lia.
Qed.
Lemma space_block v0 n y : datastart sb <= n -> space (vput n y v0) = space v0.
Proof. intros Hn. unfold space. rewrite (in_use_same sb Hly v0); [done|]. intros c Hc. apply used_vput. pose proof (BBLOCK_range sb c Hc). lia. Qed.

Section Grow.
Context ic v D dk g (ip : nat) (x : inode) (i sz : Z) B (r : nat).
Context (I : inv v D []) (E : entry ic ip x i) (N : near x (D i)) (HBB : forall b, 0 <= b < sb_size sb -> BBLOCK b sb ∈ B).
Notation k := (nblocks (d_size (D i))).
Context (Hsz : uint32 sz) (Hk : nblocks sz = Datatypes.S k).

Lemma grown_intro v' d' : d' = set_size sz (set_addrs (d_addrs d') (D i)) -> (forall n, n ∈ owned sb v D -> v' n = v n) ->
  (forall m, (m < k)%nat -> fblk v' d' m = fblk v (D i) m) -> v' (fblk v' d' k) = zeros ->
  (forall n, sb_inodestart sb <= n < sb_bmapstart sb -> v' n = v n) -> grown i k sz v D v' (fset i d' D).
Proof.
  intros Hd Hkeep Hold Hnew Htab. pose proof (en_range _ _ _ _ E). split; rewrite ?fset_eq; try done.
  - intros j Hj. by rewrite fset_ne.
  - intros j c Hj Hj' Hc. by eapply Hkeep, ptrs_owned.
  - intros m Hm. split; [by apply Hold|by apply Hkeep, fblk_owned].
Qed.

(** What [bmap] leaves behind. *)
Definition extended (b : Z) s : Prop := exists v' D' g',
  b = fblk v' (D' i) k /\ R (<[ip := follow x (D' i)]> ic) (mkTxn v' dk g' []) s /\ inv v' D' [] /\ grown i k sz v D v' D' /\
  room B r g' /\ g ⊆ g' /\ ((NDIRECT <= k)%nat -> addr (D' i) NDIRECT ∈ B ∪ g') /\ b ∈ g' /\
  space v = (space v' + if decide (k = NDIRECT) then 2 else 1)%nat.

Lemma held_nil u : held_data sb u [].
Proof. split; [simpl; lia|]. intros n []%not_elem_of_nil. Qed.

Lemma bmap_direct s : R ic (mkTxn v dk g []) s -> (k < NDIRECT)%nat -> room B (1 + r) g -> (1 <= space v)%nat ->
  exists b s', bmap ip (Z.of_nat k) s = Ok b s' /\ extended b s'.
Proof.
  intros HR Hlt Hroom Hsp. destruct E as [Hx Hdev Hinum Hi]. pose proof (iv_wf _ _ _ _ I i Hi) as W.
  destruct (balloc_step ic v D [] dk g [] s B r I (held_nil v) HBB Hroom HR Hsp) as (b & s1 & v1 & g1 & E1 & R1 & F).
  destruct (updi_R sb _ _ _ ip x (fun y => set_id (set_addr k b (i_d y)) y) R1 Hx) as (s2 & E2 & R2).
  destruct (inv_grow_direct sb Hly v1 D [] i Hi sz Hsz Hk b (fr_inv F) Hlt) as (I2 & Hold & Hnew). set (d' := set_size sz (set_addr k b (D i))) in *.
  exists b, s2. split.
  - unfold bmap. erewrite bind_Ok by (by eapply geti_R). replace (Z.of_nat k <? Z.of_nat NDIRECT) with true by lia. rewrite Nat2Z.id.
    assert (addr (D i) k = 0) as Hz by (pose proof (dw_free _ _ W k) as Hf; unfold fblk in Hf; destruct (Nat.ltb_spec k NDIRECT); [apply Hf; lia|lia]).
    rewrite (deref_Some _ (addr (D i) k)) by (eapply near_lookup; [done..|lia]). rewrite Hz. simpl. rewrite Hdev. erewrite bind_Ok by exact E1. by erewrite bind_Ok by exact E2.
  - exists v1, (fset i d' D), g1. rewrite fset_eq. pose proof (fr_logged F). pose proof (fr_space F).
    split_and!; [done| |done| |apply (fr_room F)|set_solver|lia|set_solver|rewrite decide_False by lia; lia].
    + unfold follow, d'. cbn [d_addrs set_size set_addr]. rewrite <- N. exact R2.
    + apply grown_intro; [done|intros n Hn; apply (fr_taken F); by left|intros m Hm; rewrite Hold by done; unfold fblk; destruct (Nat.ltb_spec m NDIRECT); [done|lia]|rewrite Hnew; apply (fr_zero F)|].
      intros n Hn. pose proof (start_order sb Hly). pose proof (fr_range F). apply (fr_keeps F); lia.
Qed.

Lemma bmap_first s : R ic (mkTxn v dk g []) s -> k = NDIRECT -> room B (2 + r) g -> (2 <= space v)%nat ->
  exists b s', bmap ip (Z.of_nat k) s = Ok b s' /\ extended b s'.
Proof.
  intros HR Hlt Hroom Hsp. destruct E as [Hx Hdev Hinum Hi]. pose proof (iv_wf _ _ _ _ I i Hi) as W. pose proof (start_order sb Hly) as Hord.
  destruct (balloc_step ic v D [] dk g [] s B (1 + r) I (held_nil v) HBB Hroom HR ltac:(lia)) as (a & s1 & v1 & g1 & E1 & R1 & F1).
  pose proof (fr_range F1). pose proof (fr_space F1). pose proof (fr_logged F1). pose proof (fr_range F1) as Ha.
  destruct (updi_R sb _ _ _ ip x (fun y => set_id (set_addr NDIRECT a (i_d y)) y) R1 Hx) as (s2 & E2 & R2).
  destruct (bread_R sb Hfs _ _ _ _ _ _ a R2) as (bp & s3 & E3 & R3 & _); [by apply data_fs|apply not_elem_of_nil|simpl; lia|].
  assert (held_data sb v1 [(bp, a)]) as Hh1.
  { split; [simpl; lia|]. intros n Hn. csimpl in Hn. apply list_elem_of_singleton in Hn as ->. eapply inv_taken; [apply (fr_inv F1)|]. right. by left. }
  destruct (balloc_step _ v1 D [a] dk g1 [(bp, a)] s3 B r (fr_inv F1) Hh1 HBB (fr_room F1) R3 ltac:(lia)) as (b & s4 & v2 & g2 & E4 & R4 & F2).
  pose proof (fr_range F2). pose proof (fr_space F2). pose proof (fr_logged F2). assert (v2 a = zeros) as Hva by (rewrite (fr_taken F2) by (right; by left); apply (fr_zero F1)).
  assert (b <> a) as Hne by (intros ->; apply (fr_pending F2); by left).
  destruct (update_R sb _ _ _ _ _ _ _ _ (put_word 0 b zeros) R4) as (s5 & s6 & s7 & E5 & E6 & E7 & R7); [by rewrite length_put_word|apply (room_old _ _ _ a (fr_room F2)); set_solver|].
  assert (inv (vput a (put_word 0 b zeros) v2) D [b; a]) as I3.
  { apply inv_block; [apply (fr_inv F2)|done| |by rewrite length_put_word]. intros Hin. pose proof (inv_NoDup _ _ _ _ (fr_inv F2)) as Hnd.
    apply NoDup_app in Hnd as (_ & Hd & _). apply (Hd a Hin). by right; left. }
  destruct (inv_grow_first sb Hly _ D [] i Hi sz Hsz Hk a b I3 Hlt) as (I4 & Hold & Hnew).
  { intros n Hn. rewrite vput_eq. destruct (decide (n = 0%nat)) as [->|].
    - rewrite word_put_eq by (rewrite length_zeros; unfold BSIZE; lia). apply u32_id. by destruct (data_uint32 sb Hly b) as [? _].
    - rewrite word_put_ne by (rewrite ?length_zeros; unfold BSIZE; lia). apply word_zeros. }
  exists b, s7. split.
  - unfold bmap. erewrite bind_Ok by (by eapply geti_R). rewrite Hlt, Z.ltb_irrefl, Z.sub_diag. simpl Z.to_nat.
    replace (0 <? Z.of_nat NINDIRECT) with true by done. rewrite (deref_Some _ (addr (D i) NDIRECT)) by (eapply near_lookup; [done..|lia]).
    rewrite (dw_indirect _ _ W) by lia. rewrite Z.eqb_refl, Hdev, !bind_assoc. erewrite bind_Ok by exact E1. rewrite bind_assoc. erewrite bind_Ok by exact E2. rewrite bind_ret.
    erewrite bind_Ok by exact E3. erewrite bind_Ok by (eapply data_R; [exact R3|by left]). rewrite (fr_zero F1), word_zeros, Z.eqb_refl.
    rewrite !bind_assoc. erewrite bind_Ok by exact E4. rewrite bind_assoc. erewrite bind_Ok by (eapply data_R; [exact R4|by left]). rewrite Hva, bind_assoc.
    erewrite bind_Ok by exact E5. rewrite bind_assoc. erewrite bind_Ok by exact E6. rewrite bind_ret. by erewrite bind_Ok by exact E7.
  - exists (vput a (put_word 0 b zeros) v2), (fset i (set_size sz (set_addr NDIRECT a (D i))) D), ({[a]} ∪ g2). rewrite fset_eq.
    split_and!; [by rewrite Hnew| |exact I4| | |set_solver| |set_solver|].
    + unfold follow. cbn [d_addrs set_size set_addr]. rewrite <- N. exact R7.
    + apply grown_intro; [done| | |rewrite Hnew, vput_ne by done; apply (fr_zero F2)|].
      * intros n Hn. rewrite vput_ne by (intros ->; by apply (fr_owned F1)). rewrite (fr_taken F2); [apply (fr_taken F1)|rewrite (fr_same F1)]; by left.
      * intros m Hm. rewrite Hold by done. unfold fblk. destruct (Nat.ltb_spec m NDIRECT); [done|lia].
      * intros n Hn. rewrite vput_ne by lia. rewrite (fr_keeps F2) by lia. apply (fr_keeps F1); lia.
    + destruct (room_old _ _ _ a (fr_room F2)) as [_ ?]; [set_solver|done].
    + intros _. assert (addr (set_size sz (set_addr NDIRECT a (D i))) NDIRECT = a) as ->; [|set_solver].
      etrans; [apply (addr_set_addr (D i)); destruct (dw_ok _ _ W) as (_ & _ & -> & _); unfold NDIRECT; lia|]. by rewrite decide_True.
    + rewrite decide_True by done. rewrite space_block by lia. lia.
Qed.

Lemma bmap_indirect s : R ic (mkTxn v dk g []) s -> (NDIRECT < k < NDIRECT + NINDIRECT)%nat -> addr (D i) NDIRECT ∈ B ∪ g -> room B (1 + r) g -> (1 <= space v)%nat ->
  exists b s', bmap ip (Z.of_nat k) s = Ok b s' /\ extended b s'.
Proof.
  intros HR Hlt Hlog Hroom Hsp. destruct E as [Hx Hdev Hinum Hi]. pose proof (iv_wf _ _ _ _ I i Hi) as W. pose proof (start_order sb Hly) as Hord.
  set (a := addr (D i) NDIRECT) in *. assert (a ∈ ptrs v (D i)) as Hap by (apply elem_of_ptrs; right; split; [lia|done]).
  destruct (inv_ptr sb v D [] i a I Hi Hap) as (Ha & Hua & Hao). destruct (data_uint32 sb Hly a Ha) as [_ Ha0].
  destruct (bread_R sb Hfs _ _ _ _ _ _ a HR) as (bp & s3 & E3 & R3 & _); [by apply data_fs|apply not_elem_of_nil|simpl; lia|].
  assert (held_data sb v [(bp, a)]) as Hh1.
  { split; [simpl; lia|]. intros n Hn. csimpl in Hn. by apply list_elem_of_singleton in Hn as ->. }
  destruct (balloc_step _ v D [] dk g [(bp, a)] s3 B r I Hh1 HBB Hroom R3 ltac:(lia)) as (b & s4 & v2 & g2 & E4 & R4 & F).
  pose proof (fr_range F). pose proof (fr_space F). pose proof (fr_logged F). assert (v2 a = v a) as Hva by (apply (fr_taken F); by left).
  assert (b <> a) as Hne by (intros ->; by apply (fr_owned F)). pose proof (iv_len _ _ _ _ I a (data_fs sb Hly a Ha)) as Hla.
  assert (loggable a g2 /\ room B r ({[a]} ∪ g2)) as [Hlg Hroom2].
  { apply elem_of_union in Hlog as [HaB|Hag]; [by apply room_in; [apply (fr_room F)|]|apply room_old; [apply (fr_room F)|set_solver]]. }
  destruct (update_R sb _ _ _ _ _ _ _ _ (put_word (4 * (k - NDIRECT)) b (v2 a)) R4) as (s5 & s6 & s7 & E5 & E6 & E7 & R7); [by rewrite length_put_word, Hva|done|].
  destruct (inv_grow_indirect sb Hly v2 D [] i Hi sz Hsz Hk b (fr_inv F) Hlt) as (I4 & Hold & Hnew). fold a in I4, Hold, Hnew.
  exists b, s7. split.
  - assert (word (v a) (4 * (k - NDIRECT)) = 0) as Hw.
    { pose proof (dw_free _ _ W k) as Hf. unfold fblk in Hf. destruct (Nat.ltb_spec k NDIRECT); [lia|]. fold a in Hf. rewrite (proj2 (Z.eqb_neq _ 0) Ha0) in Hf. apply Hf. lia. }
    unfold bmap. erewrite bind_Ok by (by eapply geti_R). replace (Z.of_nat k <? Z.of_nat NDIRECT) with false by lia.
    replace (Z.of_nat k - Z.of_nat NDIRECT <? Z.of_nat NINDIRECT) with true by lia. replace (Z.to_nat (Z.of_nat k - Z.of_nat NDIRECT)) with (k - NDIRECT)%nat by lia.
    rewrite (deref_Some _ a) by (eapply near_lookup; [done..|lia]). rewrite (proj2 (Z.eqb_neq _ 0) Ha0), bind_ret, Hdev.
    erewrite bind_Ok by exact E3. erewrite bind_Ok by (eapply data_R; [exact R3|by left]). rewrite Hw, Z.eqb_refl.
    rewrite !bind_assoc. erewrite bind_Ok by exact E4. rewrite bind_assoc. erewrite bind_Ok by (eapply data_R; [exact R4|by left]). rewrite bind_assoc.
    erewrite bind_Ok by exact E5. rewrite bind_assoc. erewrite bind_Ok by exact E6. rewrite bind_ret. by erewrite bind_Ok by exact E7.
  - exists (vput a (put_word (4 * (k - NDIRECT)) b (v2 a)) v2), (fset i (set_size sz (D i)) D), ({[a]} ∪ g2). rewrite fset_eq.
    split_and!; [by rewrite Hnew| |exact I4| |done|set_solver|intros _; change (addr (set_size sz (D i)) NDIRECT) with a; set_solver|set_solver|].
    + unfold follow. cbn [d_addrs set_size]. rewrite <- N. rewrite list_insert_id; [exact R7|]. rewrite Hx. by destruct x as [? ? ? ? ? []].
    + split; rewrite ?fset_eq; try done.
      * intros j Hj. by rewrite fset_ne.
      * intros j c Hj Hj' Hc. rewrite vput_ne; [apply (fr_taken F); left; by eapply ptrs_owned|]. intros ->. by apply Hj', (ptrs_disjoint sb v D [] j i a).
      * intros m Hm. rewrite Hold by done. split; [unfold fblk; fold a; by rewrite Hva|].
        rewrite vput_ne; [apply (fr_taken F); left; by apply fblk_owned|]. intros E'. by eapply (data_not_indirect sb v D [] i m I Hi Hm i Hi); [lia|].
      * rewrite Hnew, vput_ne by done. apply (fr_zero F).
      * intros n Hn. rewrite vput_ne by lia. apply (fr_keeps F); lia.
    + rewrite decide_False by lia. rewrite space_block by lia. lia.
Qed.
End Grow.

(** The blocks a file of [n] blocks takes, and those its [bmap] allocates for
    one more. *)
Definition nptrs (n : nat) : nat := (n + if (NDIRECT <? n)%nat then 1 else 0)%nat.
Definition grow_cost (k : nat) : nat := if decide (k = NDIRECT) then 2 else 1.
Lemma nptrs_S k : nptrs (Datatypes.S k) = (nptrs k + grow_cost k)%nat.
Proof. unfold nptrs, grow_cost, NDIRECT. destruct (decide _) as [->|]; [done|]. destruct (Nat.ltb_spec 12 k), (Nat.ltb_spec 12 (Datatypes.S k)); lia. Qed.

Lemma bmap_new ic v D dk g ip x i sz B r s : inv v D [] -> entry ic ip x i -> near x (D i) -> (forall b, 0 <= b < sb_size sb -> BBLOCK b sb ∈ B) ->
  uint32 sz -> nblocks sz = Datatypes.S (nblocks (d_size (D i))) -> (nblocks sz <= NDIRECT + NINDIRECT)%nat -> R ic (mkTxn v dk g []) s ->
  ((NDIRECT < nblocks (d_size (D i)))%nat -> addr (D i) NDIRECT ∈ B ∪ g) -> room B (grow_cost (nblocks (d_size (D i))) + r) g -> (grow_cost (nblocks (d_size (D i))) <= space v)%nat ->
  exists b s', bmap ip (Z.of_nat (nblocks (d_size (D i)))) s = Ok b s' /\ extended ic v D dk g ip x i sz B r b s'.
Proof.
  intros I E N HBB Hsz Hk Hmax HR Ha Hroom Hsp. unfold grow_cost in *. destruct (decide (nblocks (d_size (D i)) = NDIRECT)) as [E12|E12]; [by apply bmap_first|].
  destruct (decide (nblocks (d_size (D i)) < NDIRECT)%nat); [by apply bmap_direct|]. apply bmap_indirect; try done; [lia|apply Ha; lia].
Qed.

(** ** Bytes *)

Lemma fbyte_index d k : 0 <= d_size d -> (k < Z.to_nat (d_size d))%nat -> (k / 512 < nblocks (d_size d))%nat.
Proof. intros Hs Hk. apply nblocks_spec; [done|]. rewrite Nat2Z.inj_div. change (Z.of_nat 512) with 512. Z.to_euclidean_division_equations. lia. Qed.
Lemma length_content v d : length (content v d) = Z.to_nat (d_size d).
Proof. unfold content. by rewrite length_map, length_seq. Qed.
Lemma content_slice v d a m : (a + m <= Z.to_nat (d_size d))%nat -> map (fbyte v d) (seq a m) = take m (drop a (content v d)).
Proof.
  intros H. apply list_eq. intros j. rewrite list_lookup_fmap. destruct (decide (j < m)%nat) as [Hj|Hj].
  - rewrite lookup_take_lt, lookup_drop by done. unfold content. rewrite list_lookup_fmap, !lookup_seq_lt by lia. done.
  - rewrite lookup_seq_ge, lookup_take_ge by lia. done.
Qed.
Lemma block_slice v d a m : length (v (fblk v d (a / 512))) = BSIZE -> (a mod 512 + m <= 512)%nat ->
  take m (drop (a mod 512) (v (fblk v d (a / 512)))) = map (fbyte v d) (seq a m).
Proof.
  intros Hl Hm. apply list_eq. intros j. rewrite list_lookup_fmap. destruct (decide (j < m)%nat) as [Hj|Hj]; [|by rewrite lookup_seq_ge, lookup_take_ge by lia].
  rewrite lookup_take_lt, lookup_drop, lookup_seq_lt by done. cbn [fmap option_fmap option_map]. unfold fbyte, byte_at.
  assert ((a + j) / 512 = a / 512 /\ (a + j) mod 512 = a mod 512 + j)%nat as [-> ->].
  { pose proof (Nat.div_mod a 512 ltac:(done)). split; [symmetry; apply (Nat.div_unique _ _ _ (a mod 512 + j)); lia|symmetry; apply (Nat.mod_unique _ _ (a / 512)); lia]. }
  rewrite nth_lookup. unfold BSIZE in Hl. by destruct (lookup_lt_is_Some_2 (v (fblk v d (a / 512))) (a mod 512 + j)) as [y ->]; [lia|].
Qed.

(** The number of blocks that [n] bytes from [off] lie in. *)
Definition spans (off n : Z) : nat := if n <=? 0 then 0%nat else Z.to_nat ((off mod 512 + n + 511) / 512).
Definition chunk (off n : Z) : Z := Z.min n (512 - off mod 512).
Lemma spans_step off n : 0 <= off -> 0 < n -> spans off n = Datatypes.S (spans (off + chunk off n) (n - chunk off n)).
Proof.
  intros Ho Hn. unfold spans, chunk. destruct (Z.leb_spec n 0); [lia|]. destruct (Z.min_spec n (512 - off mod 512)) as [[Hm ->]|[Hm ->]].
  - rewrite Z.sub_diag. simpl. Z.to_euclidean_division_equations. lia.
  - destruct (Z.leb_spec (n - (512 - off mod 512)) 0); Z.to_euclidean_division_equations; lia.
Qed.
Lemma chunk_pos off n : 0 <= off -> 0 < n -> 0 < chunk off n <= n /\ off mod 512 + chunk off n <= 512.
Proof. intros Ho Hn. unfold chunk. pose proof (Z.mod_pos_bound off 512). lia. Qed.
Lemma spans_fuel off n : 0 <= off -> 0 <= n -> (spans off n < rw_fuel n)%nat.
Proof. intros Ho Hn. unfold spans, rw_fuel, BSIZE. change (Z.of_nat 512) with 512. destruct (Z.leb_spec n 0); Z.to_euclidean_division_equations; lia. Qed.

(** ** Reading *)

Lemma readi_loop_R ic v D P dk g ip x i : inv v D P -> entry ic ip x i -> near x (D i) -> forall fuel tot n off s, R ic (mkTxn v dk g []) s ->
  0 <= off -> 0 <= tot <= n -> off + (n - tot) <= d_size (D i) -> (spans off (n - tot) < fuel)%nat ->
  exists s', readi_loop fuel ip tot n off s = Ok (map (fbyte v (D i)) (seq (Z.to_nat off) (Z.to_nat (n - tot)))) s' /\ R ic (mkTxn v dk g []) s'.
Proof.
  intros I E N. induction fuel as [|fuel IH]; intros tot n off s HR Ho Ht Hs Hf; [lia|]. cbn [readi_loop]. destruct (Z.ltb_spec tot n) as [Hlt|Hge].
  2:{ replace (n - tot) with 0 by lia. by exists s. }
  pose proof E as [Hx Hdev Hinum Hi]. destruct (chunk_pos off (n - tot)) as [Hc1 Hc2]; [done|lia|]. rewrite spans_step in Hf by lia. set (m := chunk off (n - tot)) in *.
  pose proof (iv_wf _ _ _ _ I i Hi) as W. assert (Z.to_nat off / 512 < nblocks (d_size (D i)))%nat as Hb by (apply fbyte_index; lia).
  destruct (bmap_old ic v D P dk g s ip x i _ I HR E N Hb) as (s1 & E1 & R1). pose proof (fblk_data sb v D P i _ I Hi Hb) as Hd.
  destruct (bread_R sb Hfs _ _ _ _ _ _ (fblk v (D i) (Z.to_nat off / 512)) R1) as (bp & s2 & E2 & R2 & Hc); [by apply data_fs|apply not_elem_of_nil|simpl; lia|].
  destruct (brelse_R sb _ _ _ _ _ _ _ _ R2 Hc) as (s3 & E3 & R3). destruct (IH (tot + m) n (off + m) s3 R3) as (s4 & E4 & R4); [lia..|by replace (n - (tot + m)) with (n - tot - m) by lia; lia|].
  exists s4. split; [|done]. erewrite bind_Ok by (by eapply geti_R). unfold BSIZE. change (Z.of_nat 512) with 512.
  replace (off / 512) with (Z.of_nat (Z.to_nat off / 512)) by (rewrite Nat2Z.inj_div, Z2Nat.id by done; done). erewrite bind_Ok by exact E1. rewrite Hdev.
  erewrite bind_Ok by exact E2. erewrite bind_Ok by (eapply data_R; [exact R2|by left]). erewrite bind_Ok by exact E3. fold (chunk off (n - tot)). fold m.
  erewrite bind_Ok by exact E4. unfold ret. f_equal.
  replace (Z.to_nat (n - tot)) with (Z.to_nat m + Z.to_nat (n - (tot + m)))%nat by lia. rewrite seq_app, map_app. f_equal.
  - replace (Z.to_nat (off mod 512)) with (Z.to_nat off mod 512)%nat by (rewrite Z2Nat.inj_mod by lia; done). apply block_slice; [by apply I, data_fs|].
    apply Nat2Z.inj_le. rewrite Nat2Z.inj_add, Nat2Z.inj_mod, !Z2Nat.id by lia. change (Z.of_nat 512) with 512. lia.
  - by replace (Z.to_nat off + Z.to_nat m)%nat with (Z.to_nat (off + m)) by lia.
Qed.
End FsFile.
