(* ===== verification/FsRw.v ===== *)
(** * Reading and writing files

    [readi] returns the part of the file asked for, and [writei] replaces it,
    extending the file as needed; no other file changes. *)

From stdpp Require Import base gmap list strings.
From Stdlib Require Import ZArith Lia.
From S2P Require Import Prelude CString Sync Sleeplock CacheSpec Log BlockSpec Fs FsLayout FsInv FsBlocks FsFile.
Local Open Scope Z_scope.

(** What a read of [n] bytes at [off] of a file with contents [l] returns. *)
Definition read_result (l : list Z) (off n : Z) : Z * list Z :=
  if (Z.of_nat (length l) <? off) || (2 ^ 32 <=? off + n) then (-1, []) else
  let r := take (Z.to_nat n) (drop (Z.to_nat off) l) in (Z.of_nat (length r), r).

Lemma u32_wraps off n : uint32 off -> uint32 n -> (u32 (off + n) <? off) = (2 ^ 32 <=? off + n).
Proof. unfold uint32, u32. intros Ho Hn. destruct (Z.leb_spec (2 ^ 32) (off + n)); Z.to_euclidean_division_equations; lia. Qed.

Lemma nblocks_mono a b : a <= b -> (nblocks a <= nblocks b)%nat.
Proof. intros Hab. unfold nblocks. pose proof (Z.div_le_mono (a + 511) (b + 511) 512). lia. Qed.

Section FsRw.
Context {L S : Type} `{HL : Locks L} `{HB : Blocks S} {o : bool} (sb : superblock) (Hly : layout sb) (Hfs : forall n, fs_block sb n -> bk_fs n).
Notation fs := (fs (L := L) (S := S)).
Notation mkTxn := (mkTxn o).
Notation room := (room (o := o)).
Notation loggable := (loggable (o := o)).
Context (devsw_read : Z -> option (nat -> Z -> M fs (Z * list Z))) (devsw_write : Z -> option (nat -> list Z -> M fs Z)).
Implicit Types (v : Z -> block) (dk : history) (g B : gset Z) (h : list (nat * Z)) (ic : list inode) (s : fs) (D : Z -> dinode).
Notation R := (R sb).
Notation inv := (inv sb).
Notation entry := (entry sb).
Notation space := (space sb).

Lemma readi_R ic v D P dk g ip x i off n s : inv v D P -> entry ic ip x i -> i_d x = D i -> d_type (D i) <> T_DEV -> R ic (mkTxn v dk g []) s ->
  uint32 off -> uint32 n -> exists s', readi devsw_read ip off n s = Ok (read_result (content v (D i)) off n) s' /\ R ic (mkTxn v dk g []) s'.
Proof.
  intros I E Hd Ht HR Ho Hn. pose proof E as [Hx Hdev Hinum Hi]. destruct (dw_ok _ _ (iv_wf _ _ _ _ I i Hi)) as (_ & [Hs _] & _). unfold readi.
  erewrite bind_Ok by (by eapply geti_R). rewrite Hd, (proj2 (Z.eqb_neq _ _) Ht), u32_wraps by done. unfold read_result. rewrite length_content, Z2Nat.id by done.
  destruct (Z.ltb_spec (d_size (D i)) off); simpl; [by exists s|]. destruct (Z.leb_spec (2 ^ 32) (off + n)); [by exists s|]. unfold uint32 in *.
  set (n' := if d_size (D i) <? off + n then d_size (D i) - off else n). assert (0 <= n' <= n /\ off + n' <= d_size (D i)) as [Hn1 Hn2].
  { unfold n'. destruct (Z.ltb_spec (d_size (D i)) (off + n)); lia. }
  destruct (readi_loop_R sb Hly Hfs ic v D P dk g ip x i I E ltac:(unfold near; by rewrite Hd) (rw_fuel n') 0 n' off s HR) as (s' & E1 & R1);
    [lia..|rewrite Z.sub_0_r; apply spans_fuel; lia|]. exists s'. split; [|done]. erewrite bind_Ok by exact E1. unfold ret. do 2 f_equal; rewrite Z.sub_0_r in *.
  - rewrite length_take, length_drop, length_content. unfold n'. destruct (Z.ltb_spec (d_size (D i)) (off + n)); lia.
  - rewrite content_slice by lia. unfold n'. destruct (Z.ltb_spec (d_size (D i)) (off + n)); [|done].
    rewrite !take_ge; [done|rewrite length_drop, length_content; lia..].
Qed.

(** ** Writing *)

(** [l] has been written at [off] of inode [i], and nothing else. *)
Record wrote (i off : Z) (l : list Z) v D v' D' : Prop := {
  wr_others : forall j, j <> i -> D' j = D j;
  wr_inode : D' i = set_size (Z.max (d_size (D i)) (off + Z.of_nat (length l))) (set_addrs (d_addrs (D' i)) (D i));
  wr_stable : forall j b, 0 <= j < sb_ninodes sb -> j <> i -> b ∈ ptrs v (D j) -> v' b = v b;
  wr_table : forall n, sb_inodestart sb <= n < sb_bmapstart sb -> v' n = v n;
  wr_same : nblocks (d_size (D' i)) = nblocks (d_size (D i)) -> d_addrs (D' i) = d_addrs (D i);
  wr_bytes : forall k, (k < Z.to_nat (d_size (D' i)))%nat -> fbyte v' (D' i) k =
    if decide (Z.to_nat off <= k < Z.to_nat off + length l)%nat then nth (k - Z.to_nat off) l 0 else fbyte v (D i) k
}.

Lemma wrote_nil i off v D : 0 <= off <= d_size (D i) -> wrote i off [] v D v D.
Proof.
  intros Ho. split; try done.
  - simpl. rewrite Z.max_l by lia. by destruct (D i).
  - intros k Hk. by rewrite decide_False by (simpl; lia).
Qed.
Lemma stable_ptrs i v D P v' D' j : inv v D P -> (forall j b, 0 <= j < sb_ninodes sb -> j <> i -> b ∈ ptrs v (D j) -> v' b = v b) ->
  0 <= j < sb_ninodes sb -> j <> i -> D' j = D j -> ptrs v' (D' j) = ptrs v (D j).
Proof.
  intros I Hs Hj Hne HD. rewrite HD. apply ptrs_same; [|apply (iv_wf _ _ _ _ I j Hj)]. intros Hn. apply (Hs j); [done..|]. apply elem_of_ptrs. by right.
Qed.
Lemma wrote_app i off l1 l2 v0 D0 v1 D1 v2 D2 P : inv v0 D0 P -> 0 <= off <= d_size (D0 i) -> wrote i off l1 v0 D0 v1 D1 ->
  wrote i (off + Z.of_nat (length l1)) l2 v1 D1 v2 D2 -> wrote i off (l1 ++ l2) v0 D0 v2 D2.
Proof.
  intros I Ho [A1 A2 A3 A4 A6 A5] [B1 B2 B3 B4 B6 B5]. assert (d_size (D1 i) = Z.max (d_size (D0 i)) (off + Z.of_nat (length l1))) as Hs1 by (by rewrite A2).
  assert (d_size (D2 i) = Z.max (d_size (D1 i)) (off + Z.of_nat (length l1) + Z.of_nat (length l2))) as Hs2 by (by rewrite B2). split.
  - intros j Hj. by rewrite B1, A1.
  - rewrite B2 at 1. unfold set_size, set_addrs. cbn [d_type d_major d_minor d_nlink d_size d_addrs].
    f_equal; [by rewrite A2..|]. rewrite Hs1, length_app. lia.
  - intros j b Hj Hne Hb. rewrite (B3 j), (A3 j); [done..|]. by rewrite (stable_ptrs i v0 D0 P) by auto.
  - intros n Hn. by rewrite B4, A4.
  - intros Hnb. assert (nblocks (d_size (D0 i)) <= nblocks (d_size (D1 i)) <= nblocks (d_size (D2 i)))%nat by (split; apply nblocks_mono; lia).
    rewrite B6, A6 by lia. done.
  - intros k Hk. rewrite B5 by done. rewrite length_app. destruct (decide (Z.to_nat (off + Z.of_nat (length l1)) <= k < _)%nat) as [H1|H1].
    + rewrite decide_True by lia. rewrite app_nth2 by lia. f_equal. lia.
    + rewrite A5 by lia. destruct (decide (Z.to_nat off <= k < Z.to_nat off + length l1)%nat).
      * rewrite decide_True by lia. by rewrite app_nth1 by lia.
      * by rewrite decide_False by lia.
Qed.

Lemma fbyte_write v D P i n y k : inv v D P -> 0 <= i < sb_ninodes sb -> (n < nblocks (d_size (D i)))%nat -> (k / 512 < nblocks (d_size (D i)))%nat ->
  fbyte (vput (fblk v (D i) n) y v) (D i) k = if decide (k / 512 = n)%nat then byte_at y (k mod 512) else fbyte v (D i) k.
Proof.
  intros I Hi Hn Hk. unfold fbyte. rewrite (fblk_same v (vput (fblk v (D i) n) y v)).
  - destruct (decide (k / 512 = n)%nat) as [->|Hne]; [by rewrite vput_eq|]. rewrite vput_ne; [done|]. intros Eq. apply Hne. by eapply fblk_inj.
  - intros Hind. rewrite vput_ne; [done|]. by eapply data_not_indirect.
  - apply (iv_wf _ _ _ _ I i Hi).
Qed.

(** Log entries set aside for the indirect block of a file that may get one. *)
Definition x12 (k : nat) : nat := if (NDIRECT <? k)%nat then 0%nat else 1%nat.
Lemma grow_cost_x12 k : (grow_cost k + x12 (Datatypes.S k) = 1 + x12 k)%nat.
Proof. unfold grow_cost, x12, NDIRECT. destruct (decide _) as [->|]; [done|]. destruct (Nat.ltb_spec 12 k), (Nat.ltb_spec 12 (Datatypes.S k)); lia. Qed.

Section Write.
Context ic dk (ip : nat) (x : inode) (i : Z) B (E : entry ic ip x i) (HBB : forall b, 0 <= b < sb_size sb -> BBLOCK b sb ∈ B).

(** The state of a write in progress: the size in [D] is that of what has
    been written so far. *)
Record writing (r : nat) v D g s : Prop := {
  wg_R : R (<[ip := follow x (D i)]> ic) (mkTxn v dk g []) s;
  wg_inv : inv v D [];
  wg_room : room B (x12 (nblocks (d_size (D i))) + r) g;
  wg_indirect : (NDIRECT < nblocks (d_size (D i)))%nat -> addr (D i) NDIRECT ∈ B ∪ g
}.
Arguments wg_R {r v D g s}.
Arguments wg_inv {r v D g s}.
Arguments wg_room {r v D g s}.
Arguments wg_indirect {r v D g s}.

Lemma writing_entry d : entry (<[ip := follow x d]> ic) ip (follow x d) i.
Proof. destruct E as [H1 H2 H3 H4]. split; [|done..]. apply list_lookup_insert_eq. by eapply lookup_lt_Some. Qed.
Lemma follow_follow d d' : <[ip := follow (follow x d) d']> (<[ip := follow x d]> ic) = <[ip := follow x d']> ic.
Proof. by rewrite list_insert_insert_eq. Qed.
Lemma near_follow d : near (follow x d) d.
Proof. done. Qed.

(** The file has the blocks for a size of [e]. *)
Record prepared (e : Z) v D v' D' : Prop := {
  pr_others : forall j, j <> i -> D' j = D j;
  pr_inode : D' i = set_size e (set_addrs (d_addrs (D' i)) (D i));
  pr_stable : forall j b, 0 <= j < sb_ninodes sb -> j <> i -> b ∈ ptrs v (D j) -> v' b = v b;
  pr_table : forall n, sb_inodestart sb <= n < sb_bmapstart sb -> v' n = v n;
  pr_same : nblocks e = nblocks (d_size (D i)) -> d_addrs (D' i) = d_addrs (D i);
  pr_bytes : forall k, (k < Z.to_nat (d_size (D i)))%nat -> fbyte v' (D' i) k = fbyte v (D i) k
}.
Lemma grown_prepared e v D v' D' : 0 <= d_size (D i) -> nblocks e <> nblocks (d_size (D i)) -> grown sb i (nblocks (d_size (D i))) e v D v' D' -> prepared e v D v' D'.
Proof.
  intros Hs Hne [A1 A2 A3 A4 A5 A6]. split; [done..|]. intros k Hk. destruct (A4 (k / 512)%nat) as [H1 H2]; [by apply fbyte_index|].
  unfold fbyte. by rewrite H1, H2.
Qed.

(** What is left once [b], block number [n], has been found for a write that
    ends at [e]. *)
Definition block_for (r n : nat) (e : Z) v D g b s : Prop := exists v' D' g',
  b = fblk v' (D' i) n /\ R (<[ip := follow x (D' i)]> ic) (mkTxn v' dk g' []) s /\ inv v' D' [] /\ prepared e v D v' D' /\
  loggable b g' /\ room B (x12 (nblocks e) + r) ({[b]} ∪ g') /\ ((NDIRECT < nblocks e)%nat -> addr (D' i) NDIRECT ∈ B ∪ g') /\
  (space v = space v' + (nptrs (nblocks e) - nptrs (nblocks (d_size (D i)))))%nat.

Lemma dwf_set_size v d e : dwf v d -> nblocks e = nblocks (d_size d) -> uint32 e -> dwf v (set_size e d) /\ ptrs v (set_size e d) = ptrs v d.
Proof.
  intros [H1 H2 H3 H4] He Hu. split; [|unfold ptrs; cbn [set_size d_size]; by rewrite He].
  split; cbn [set_size d_size]; rewrite ?He; [by apply dinode_ok_set_size|done..].
Qed.

Lemma bmap_inside r v D g s n e : writing (1 + r) v D g s -> (n < nblocks (d_size (D i)))%nat -> nblocks e = nblocks (d_size (D i)) -> uint32 e ->
  exists b s', bmap ip (Z.of_nat n) s = Ok b s' /\ block_for r n e v D g b s'.
Proof.
  intros Hw Hn He Hu. pose proof (wg_inv Hw) as I. pose proof (en_range _ _ _ _ _ E) as Hi.
  destruct (bmap_old sb Hly Hfs _ v D [] dk g s ip _ i n I (wg_R Hw) (writing_entry _) (near_follow _) Hn) as (s1 & E1 & R1).
  destruct (dwf_set_size v (D i) e (iv_wf _ _ _ _ I i Hi) He Hu) as [W Hp]. eexists _, s1. split; [exact E1|].
  exists v, (fset i (set_size e (D i)) D), g. rewrite fset_eq. pose proof (wg_room Hw) as Hr. rewrite <- He in Hr.
  assert (room B (Datatypes.S (x12 (nblocks e) + r)) g) as Hr' by (eapply room_less; [exact Hr|lia]). destruct (room_new _ _ _ (fblk v (D i) n) Hr') as [Hl Hr2].
  split_and!; [done|exact R1|by apply inv_set| |done|done|rewrite He; apply (wg_indirect Hw)|rewrite He; lia].
  split; rewrite ?fset_eq; try done. intros j Hj. by rewrite fset_ne.
Qed.

Lemma bmap_extend r v D g s e : writing (1 + r) v D g s -> nblocks e = Datatypes.S (nblocks (d_size (D i))) -> (nblocks e <= NDIRECT + NINDIRECT)%nat -> uint32 e ->
  (nptrs (nblocks e) - nptrs (nblocks (d_size (D i))) <= space v)%nat ->
  exists b s', bmap ip (Z.of_nat (nblocks (d_size (D i)))) s = Ok b s' /\ block_for r (nblocks (d_size (D i))) e v D g b s'.
Proof.
  intros Hw He Hm Hu Hs. pose proof (wg_inv Hw) as I. pose proof (en_range _ _ _ _ _ E) as Hi. pose proof (grow_cost_x12 (nblocks (d_size (D i)))) as Hx.
  rewrite He, nptrs_S in Hs. destruct (dw_ok _ _ (iv_wf _ _ _ _ I i Hi)) as (_ & [Hs0 _] & _).
  destruct (bmap_new sb Hly Hfs _ v D dk g ip _ i e B (x12 (nblocks e) + r) s I (writing_entry _) (near_follow _) HBB Hu He Hm (wg_R Hw) (wg_indirect Hw))
    as (b & s1 & E1 & v' & D' & g' & -> & R1 & I1 & G & Hr & Hg & Ha & Hb & Hsp); [|lia|].
  { eapply room_less; [apply (wg_room Hw)|]. rewrite He. lia. }
  eexists _, s1. split; [exact E1|]. exists v', D', g'. rewrite follow_follow in R1. destruct (room_old _ _ _ _ Hr Hb) as [Hl Hr2].
  split_and!; [done|done|done|apply grown_prepared; [done|lia|done]|done|done|intros Hn; apply Ha; lia|]. rewrite Hsp, He, nptrs_S. unfold grow_cost. lia.
Qed.

Lemma bmap_write r v D g s off m : writing (1 + r) v D g s -> 0 <= off <= d_size (D i) -> 0 < m -> off mod 512 + m <= 512 -> off + m <= MAXFILE * 512 ->
  let e := Z.max (d_size (D i)) (off + m) in (nptrs (nblocks e) - nptrs (nblocks (d_size (D i))) <= space v)%nat ->
  exists b s', bmap ip (off / 512) s = Ok b s' /\ block_for r (Z.to_nat (off / 512)) e v D g b s' /\ (Z.to_nat (off / 512) < nblocks e)%nat.
Proof.
  intros Hw Ho Hm Hc Hmax e Hs. pose proof (en_range _ _ _ _ _ E) as Hi. pose proof (iv_wf _ _ _ _ (wg_inv Hw) i Hi) as W. pose proof (dw_size _ _ W) as Hds.
  destruct (dw_ok _ _ W) as (_ & Hu0 & _). unfold MAXFILE, NDIRECT, NINDIRECT in *. simpl in Hmax. assert (0 <= off / 512) as Hn by (apply Z.div_pos; lia).
  assert (Z.to_nat (off / 512) < nblocks e)%nat as Hlt by (apply nblocks_spec; [lia|]; rewrite Z2Nat.id by done; Z.to_euclidean_division_equations; lia).
  assert (nblocks (d_size (D i)) <= 140)%nat as Hd140 by exact Hds. assert (uint32 e) as Hue by (unfold uint32, e in *; lia).
  remember (Z.to_nat (off / 512)) as n eqn:Hoff. replace (off / 512) with (Z.of_nat n) by lia. destruct (decide (n < nblocks (d_size (D i)))%nat) as [Hin|Hout].
  - destruct (bmap_inside r v D g s n e) as (b & s' & H1 & H2); [done..| |done|by exists b, s'].
    unfold e, nblocks in *. Z.to_euclidean_division_equations. lia.
  - assert (n = nblocks (d_size (D i)) /\ nblocks e = Datatypes.S (nblocks (d_size (D i)))) as [En Ee].
    { unfold e, nblocks in *. Z.to_euclidean_division_equations. lia. }
    destruct (bmap_extend r v D g s e Hw Ee) as (b & s' & H1 & H2); [|done|done|rewrite <- En in *; by exists b, s'].
    unfold NDIRECT, NINDIRECT. unfold e, nblocks in *. Z.to_euclidean_division_equations. lia.
Qed.

(** Bytes [l] written at offset [o] of block [n]. *)
Lemma prepared_wrote off l v D v' D' n : 0 <= off <= d_size (D i) -> l <> [] -> off mod 512 + Z.of_nat (length l) <= 512 -> n = Z.to_nat (off / 512) ->
  let e := Z.max (d_size (D i)) (off + Z.of_nat (length l)) in let b := fblk v' (D' i) n in
  inv v D [] -> inv v' D' [] -> prepared e v D v' D' -> (n < nblocks e)%nat ->
  wrote i off l v D (vput b (splice (Z.to_nat (off mod 512)) l (v' b)) v') D'.
Proof.
  intros Ho Hl Hc Hn e b I I' [A1 A2 A3 A4 A6 A5] Hlt. pose proof (en_range _ _ _ _ _ E) as Hi. pose proof (start_order sb Hly).
  assert (d_size (D' i) = e) as Hs by (by rewrite A2). rewrite <- Hs in Hlt. pose proof (fblk_data sb v' D' [] i n I' Hi Hlt) as Hb. fold b in Hb.
  pose proof (iv_len _ _ _ _ I' b (data_fs sb Hly b Hb)) as Hlen. unfold BSIZE in Hlen. pose proof (Z.mod_pos_bound off 512). unfold b in *. clear b. split; [done|done| | |by rewrite Hs|].
  - intros j c Hj Hne Hcj. rewrite vput_ne; [by apply (A3 j)|]. intros ->. apply Hne. eapply (ptrs_disjoint sb v' D' []); [done..| |apply elem_of_ptrs; left; by exists n].
    by rewrite (stable_ptrs i v D []) by auto.
  - intros m Hm. rewrite vput_ne by lia. by apply A4.
  - intros k Hk. rewrite (fbyte_write v' D' []); [|done..|by apply fbyte_index; [unfold e in *; lia|]]. rewrite Hs in Hk.
    assert (Z.to_nat (off mod 512) = Z.to_nat off mod 512)%nat as -> by (rewrite Z2Nat.inj_mod by lia; done). assert (n = Z.to_nat off / 512)%nat as -> by (rewrite Hn, Z2Nat.inj_div by lia; done).
    assert (Z.to_nat off mod 512 + length l <= 512)%nat as Hc' by (apply Nat2Z.inj_le; rewrite Nat2Z.inj_add, Nat2Z.inj_mod, Z2Nat.id by lia; change (Z.of_nat 512) with 512; lia).
    pose proof (Nat.div_mod k 512 ltac:(done)) as Hk2. pose proof (Nat.div_mod (Z.to_nat off) 512 ltac:(done)) as Ho2. pose proof (Nat.mod_upper_bound k 512 ltac:(done)).
    destruct (decide (Z.to_nat off <= k < Z.to_nat off + length l)%nat) as [Hin|Hout].
    + assert (k / 512 = Z.to_nat off / 512)%nat as Eq by nia. rewrite decide_True by done. rewrite byte_splice by lia. rewrite decide_True by lia. f_equal. lia.
    + assert (k < Z.to_nat (d_size (D i)))%nat as Hkd by (unfold e in *; lia). rewrite <- (A5 k Hkd). destruct (decide (k / 512 = Z.to_nat off / 512)%nat) as [Eq|]; [|done].
      rewrite byte_splice by lia. rewrite decide_False by lia. unfold fbyte. by rewrite Eq.
Qed.

Lemma write_chunk r v D g s off l : writing (1 + r) v D g s -> 0 <= off <= d_size (D i) -> l <> [] -> off mod 512 + Z.of_nat (length l) <= 512 -> off + Z.of_nat (length l) <= MAXFILE * 512 ->
  let e := Z.max (d_size (D i)) (off + Z.of_nat (length l)) in (nptrs (nblocks e) - nptrs (nblocks (d_size (D i))) <= space v)%nat ->
  exists b bp blk s1 s2 s3 s4 s5 v' D' g', bmap ip (off / 512) s = Ok b s1 /\ bread 1 b s1 = Ok bp s2 /\ data bp s2 = Ok blk s2 /\
    set_data bp (splice (Z.to_nat (off mod 512)) l blk) s2 = Ok tt s3 /\ log_write bp s3 = Ok tt s4 /\ brelse bp s4 = Ok tt s5 /\
    writing r v' D' g' s5 /\ wrote i off l v D v' D' /\ (space v = space v' + (nptrs (nblocks e) - nptrs (nblocks (d_size (D i)))))%nat.
Proof.
  intros Hw Ho Hl Hc Hmax e Hs. pose proof (en_range _ _ _ _ _ E) as Hi. destruct (bmap_write r v D g s off (Z.of_nat (length l)) Hw Ho) as (b & s1 & E1 & HF & Hlt); [destruct l; simpl; [done|lia]|done..|].
  destruct HF as (v1 & D1 & g1 & Hb & R1 & I1 & Hp & Hlog & Hr & Ha & Hsp). assert (d_size (D1 i) = e) as Hs1 by (by rewrite (pr_inode _ _ _ _ _ Hp)). fold e in Hlt. rewrite <- Hs1 in Hlt.
  pose proof (fblk_data sb v1 D1 [] i _ I1 Hi Hlt) as Hbr. rewrite <- Hb in Hbr. pose proof (iv_len _ _ _ _ I1 b (data_fs sb Hly b Hbr)) as Hlen. pose proof (Z.mod_pos_bound off 512).
  destruct (bread_R sb Hfs _ _ _ _ _ _ b R1) as (bp & s2 & E2 & R2 & _); [by apply data_fs|apply not_elem_of_nil|simpl; lia|].
  assert (length (splice (Z.to_nat (off mod 512)) l (v1 b)) = BSIZE) as Hls by (rewrite length_splice; [done|rewrite Hlen; unfold BSIZE; lia]).
  destruct (update_R sb _ _ _ _ _ _ _ _ (splice (Z.to_nat (off mod 512)) l (v1 b)) R2 Hls Hlog) as (s3 & s4 & s5 & E3 & E4 & E5 & R5).
  exists b, bp, (v1 b), s1, s2, s3, s4, s5. eexists _, D1, _. split_and!; [done..|eapply data_R; [exact R2|by left]|done|done|done| | |].
  - split; [exact R5|rewrite Hb; apply inv_write; [done..|by rewrite <- Hb]|by rewrite Hs1|]. rewrite Hs1. intros Hn. specialize (Ha Hn). set_solver.
  - rewrite Hb. rewrite Hs1 in Hlt. eapply prepared_wrote; [done..|apply (wg_inv Hw)|done|done|done].
  - rewrite (space_block sb Hly) by lia. exact Hsp.
Qed.

Lemma nptrs_mono a b : (a <= b)%nat -> (nptrs a <= nptrs b)%nat.
Proof. unfold nptrs, NDIRECT. destruct (Nat.ltb_spec 12 a), (Nat.ltb_spec 12 b); lia. Qed.

Lemma writei_loop_R r : forall fuel v D g s tot n off src, writing (spans off (n - tot) + r) v D g s -> 0 <= off <= d_size (D i) -> 0 <= tot <= n ->
  Z.of_nat (length src) = n - tot -> off + (n - tot) <= MAXFILE * 512 -> (spans off (n - tot) < fuel)%nat ->
  let e := Z.max (d_size (D i)) (off + (n - tot)) in (nptrs (nblocks e) - nptrs (nblocks (d_size (D i))) <= space v)%nat ->
  exists s' v' D' g', writei_loop fuel ip tot n off src s = Ok (off + (n - tot)) s' /\ writing r v' D' g' s' /\ wrote i off src v D v' D' /\
    (space v = space v' + (nptrs (nblocks e) - nptrs (nblocks (d_size (D i)))))%nat.
Proof.
  induction fuel as [|fuel IH]; intros v D g s tot n off src Hw Ho Ht Hl Hmax Hf e Hs; [lia|]. cbn [writei_loop]. destruct (Z.ltb_spec tot n) as [Hlt|Hge].
  2:{ assert (n - tot = 0) as Hz by lia. rewrite Hz in *. destruct src; [|simpl in Hl; lia]. exists s, v, D, g. rewrite Z.add_0_r in *.
      split_and!; [done|exact Hw|by apply wrote_nil|]. unfold e. rewrite ?Z.add_0_r, Z.max_l by lia. lia. }
  destruct (chunk_pos off (n - tot)) as [Hc1 Hc2]; [lia..|]. rewrite spans_step in Hf, Hw by lia. set (m := chunk off (n - tot)) in *.
  assert (length (take (Z.to_nat m) src) = Z.to_nat m) as Hlm by (rewrite length_take; lia). set (l := take (Z.to_nat m) src) in *.
  set (e1 := Z.max (d_size (D i)) (off + m)). assert (nblocks (d_size (D i)) <= nblocks e1 <= nblocks e)%nat as Hnb by (split; apply nblocks_mono; unfold e, e1; lia).
  pose proof (nptrs_mono _ _ (proj1 Hnb)) as Hp1. pose proof (nptrs_mono _ _ (proj2 Hnb)) as Hp2.
  destruct (write_chunk (spans (off + m) (n - tot - m) + r) v D g s off l) as (b & bp & blk & s1 & s2 & s3 & s4 & s5 & v1 & D1 & g1 & E1 & E2 & E3 & E4 & E5 & E6 & Hw1 & HW1 & Hsp1);
    [exact Hw|done|intros Hnil; rewrite Hnil in Hlm; simpl in Hlm; lia|lia|lia|rewrite Hlm, Z2Nat.id by lia; fold e1; lia|].
  rewrite Hlm, Z2Nat.id in Hsp1 by lia. fold e1 in Hsp1. assert (d_size (D1 i) = e1) as Hd1 by (rewrite (wr_inode _ _ _ _ _ _ _ HW1); cbn [set_size d_size]; unfold e1; lia).
  destruct (IH v1 D1 g1 s5 (tot + m) n (off + m) (drop (Z.to_nat m) src)) as (s' & v' & D' & g' & E7 & Hw2 & HW2 & Hsp2).
  { replace (n - (tot + m)) with (n - tot - m) by lia. exact Hw1. }
  1-5: rewrite ?length_drop; replace (n - (tot + m)) with (n - tot - m) by lia; unfold e1 in *; lia.
  { replace (Z.max (d_size (D1 i)) (off + m + (n - (tot + m)))) with e by (unfold e, e1 in *; lia). rewrite Hd1. lia. }
  exists s', v', D', g'. split_and!; [|done| |].
  - erewrite bind_Ok by (eapply geti_R; [apply (wg_R Hw)|apply writing_entry]). unfold BSIZE. change (Z.of_nat 512) with 512. erewrite bind_Ok by exact E1.
    change (i_dev (follow x (D i))) with (i_dev x). rewrite (en_dev _ _ _ _ _ E). erewrite bind_Ok by exact E2. erewrite bind_Ok by exact E3. fold (chunk off (n - tot)). fold m. fold l.
    erewrite bind_Ok by exact E4. erewrite bind_Ok by exact E5. erewrite bind_Ok by exact E6. rewrite E7. f_equal. lia.
  - rewrite <- (take_drop (Z.to_nat m) src). eapply wrote_app; [apply (wg_inv Hw)|done|exact HW1|]. fold l. rewrite Hlm, Z2Nat.id by lia. exact HW2.
  - replace (Z.max (d_size (D1 i)) (off + m + (n - (tot + m)))) with e in Hsp2 by (unfold e, e1 in *; lia). rewrite Hd1 in Hsp2. lia.
Qed.
End Write.

(** ** The whole of writei *)

Definition write_at (a : nat) (l c : list Z) : list Z := take a c ++ l ++ drop (a + length l) c.

(** Inode [i] has the contents [l] now; the table on the disk has its new
    description and the other files are as before. *)
Record updated (i : Z) (l : list Z) v D v' D' : Prop := {
  up_others : forall j, j <> i -> D' j = D j;
  up_inode : D' i = set_size (Z.of_nat (length l)) (set_addrs (d_addrs (D' i)) (D i));
  up_content : content v' (D' i) = l;
  up_files : forall j, 0 <= j < sb_ninodes sb -> j <> i -> content v' (D' j) = content v (D j);
  up_table : forall j, 0 <= j < sb_ninodes sb -> dino sb v' j = if decide (j = i) then D' i else dino sb v j
}.

Lemma wrote_content i off l v D v' D' : 0 <= off <= d_size (D i) -> wrote i off l v D v' D' -> content v' (D' i) = write_at (Z.to_nat off) l (content v (D i)).
Proof.
  intros Ho HW. assert (d_size (D' i) = Z.max (d_size (D i)) (off + Z.of_nat (length l))) as Hs by (by rewrite (wr_inode _ _ _ _ _ _ _ HW)).
  apply list_eq. intros k. unfold write_at. destruct (decide (k < Z.to_nat (d_size (D' i)))%nat) as [Hk|Hk].
  - unfold content at 1. rewrite list_lookup_fmap, lookup_seq_lt by done. cbn [fmap option_fmap option_map]. rewrite Nat.add_0_l, (wr_bytes _ _ _ _ _ _ _ HW) by done.
    assert (length (take (Z.to_nat off) (content v (D i))) = Z.to_nat off) as Ht by (rewrite length_take, length_content; lia). destruct (decide (k < Z.to_nat off)%nat).
    + rewrite decide_False by lia. rewrite lookup_app_l, lookup_take_lt by lia. unfold content. rewrite list_lookup_fmap, lookup_seq_lt by lia. done.
    + rewrite lookup_app_r, Ht by lia. destruct (decide (Z.to_nat off <= k < Z.to_nat off + length l)%nat).
      * rewrite lookup_app_l by lia. rewrite nth_lookup. by destruct (lookup_lt_is_Some_2 l (k - Z.to_nat off)) as [y ->]; [lia|].
      * rewrite lookup_app_r, lookup_drop by lia. unfold content. rewrite list_lookup_fmap, lookup_seq_lt by lia. cbn [fmap option_fmap option_map]. do 2 f_equal. lia.
  - trans (@None Z); [|symmetry]; apply lookup_ge_None_2; rewrite ?length_app, ?length_take, ?length_drop, !length_content; lia.
Qed.
Lemma length_write_at a l c : (a <= length c)%nat -> length (write_at a l c) = Nat.max (length c) (a + length l).
Proof. intros Ha. unfold write_at. rewrite !length_app, length_take, length_drop. lia. Qed.
Lemma content_put_dino v D P i d j : inv v D P -> 0 <= i < sb_ninodes sb -> 0 <= j < sb_ninodes sb -> content (put_dino sb i d v) (D j) = content v (D j).
Proof.
  intros I Hi Hj. apply content_same; [by apply I|]. intros b Hb. destruct (inv_ptr sb v D P j b I Hj Hb) as (Hr & _).
  pose proof (IBLOCK_range sb Hly i Hi). pose proof (start_order sb Hly). apply vput_ne. lia.
Qed.
Lemma wrote_files i off l v D v' D' j : inv v D [] -> wrote i off l v D v' D' -> 0 <= j < sb_ninodes sb -> j <> i -> content v' (D' j) = content v (D j).
Proof. intros I HW Hj Hne. rewrite (wr_others _ _ _ _ _ _ _ HW) by done. apply content_same; [by apply I|]. intros b Hb. by apply (wr_stable _ _ _ _ _ _ _ HW j). Qed.
Lemma wrote_inode i off l v D v' D' : 0 <= off <= d_size (D i) -> wrote i off l v D v' D' ->
  D' i = set_size (Z.of_nat (length (write_at (Z.to_nat off) l (content v (D i))))) (set_addrs (d_addrs (D' i)) (D i)).
Proof.
  intros Ho HW. rewrite (wr_inode _ _ _ _ _ _ _ HW) at 1. f_equal. rewrite length_write_at; rewrite length_content; lia.
Qed.
Lemma wrote_table i off l v D v' D' j : wrote i off l v D v' D' -> 0 <= j < sb_ninodes sb -> dino sb v' j = dino sb v j.
Proof. intros HW Hj. unfold dino. rewrite (wr_table _ _ _ _ _ _ _ HW); [done|]. by apply IBLOCK_range. Qed.
Lemma wrote_same i off l v D v' D' : 0 <= off -> off + Z.of_nat (length l) <= d_size (D i) -> wrote i off l v D v' D' -> D' i = D i.
Proof.
  intros Ho Hle HW. assert (d_addrs (D' i) = d_addrs (D i)) as Ha.
  { apply (wr_same _ _ _ _ _ _ _ HW). rewrite (wr_inode _ _ _ _ _ _ _ HW). cbn [set_size d_size]. f_equal. lia. }
  rewrite (wr_inode _ _ _ _ _ _ _ HW), Ha, Z.max_l by lia. by destruct (D i).
Qed.
(** Without and with [iupdate]. *)
Lemma updated_inside i off l v D v' D' : inv v D [] -> 0 <= i < sb_ninodes sb -> 0 <= off -> off + Z.of_nat (length l) <= d_size (D i) -> wrote i off l v D v' D' -> dino sb v i = D i ->
  updated i (write_at (Z.to_nat off) l (content v (D i))) v D v' D'.
Proof.
  intros I Hi Ho Hle HW Hd. split; [apply HW|eapply wrote_inode; [lia|done]|eapply wrote_content; [lia|done]|by intros; eapply wrote_files|].
  intros j Hj. rewrite (wrote_table i off l v D v' D' j HW Hj). destruct (decide (j = i)) as [->|]; [|done]. rewrite Hd. symmetry. by eapply wrote_same.
Qed.
Lemma updated_extended i off l v D v' D' : inv v D [] -> inv v' D' [] -> 0 <= i < sb_ninodes sb -> 0 <= off <= d_size (D i) -> wrote i off l v D v' D' ->
  updated i (write_at (Z.to_nat off) l (content v (D i))) v D (put_dino sb i (D' i) v') D'.
Proof.
  intros I I' Hi Ho HW. split; [apply HW|by eapply wrote_inode| | |].
  - rewrite (content_put_dino v' D' []) by done. by eapply wrote_content.
  - intros j Hj Hne. rewrite (content_put_dino v' D' []) by done. by eapply wrote_files.
  - intros j Hj. rewrite dino_put; [|lia|lia|by apply (iv_wf _ _ _ _ I' i Hi)|by apply I', IBLOCK_fs]. destruct (decide (j = i)); [done|]. by eapply wrote_table.
Qed.

Lemma writei_R ic v D dk g ip x i B r off src s : inv v D [] -> entry ic ip x i -> i_d x = D i -> dino sb v i = D i -> d_type (D i) <> T_DEV -> R ic (mkTxn v dk g []) s ->
  (forall b, 0 <= b < sb_size sb -> BBLOCK b sb ∈ B) -> IBLOCK i sb ∈ B -> ((NDIRECT < nblocks (d_size (D i)))%nat -> addr (D i) NDIRECT ∈ B) ->
  let n := Z.of_nat (length src) in
  0 <= off <= d_size (D i) -> off + n <= MAXFILE * 512 -> room B (x12 (nblocks (d_size (D i))) + spans off n + r) g ->
  let e := Z.max (d_size (D i)) (off + n) in (nptrs (nblocks e) - nptrs (nblocks (d_size (D i))) <= space v)%nat ->
  exists s' v' D' g', writei devsw_write ip src off n s = Ok n s' /\ R (<[ip := set_id (D' i) x]> ic) (mkTxn v' dk g' []) s' /\ inv v' D' [] /\
    updated i (write_at (Z.to_nat off) src (content v (D i))) v D v' D' /\ room B r g' /\
    (space v = space v' + (nptrs (nblocks e) - nptrs (nblocks (d_size (D i)))))%nat.
Proof.
  intros I E Hd Hdi Ht HR HBB HIB Hind n Ho Hmax Hroom e Hs. pose proof (en_range _ _ _ _ _ E) as Hi. pose proof (en_at _ _ _ _ _ E) as Hx.
  assert (follow x (D i) = x) as Hfx by (unfold follow; rewrite <- Hd; by destruct x as [? ? ? ? ? []]).
  assert (writing ic dk ip x i B (spans off n + r) v D g s) as Hw.
  { split; [by rewrite Hfx, list_insert_id|done|eapply room_less; [exact Hroom|lia]|intros Hn; apply elem_of_union_l; auto]. }
  destruct (writei_loop_R ic dk ip x i B E HBB r (rw_fuel n) v D g s 0 n off src) as (s1 & v1 & D1 & g1 & E1 & Hw1 & HW & Hsp); rewrite ?Z.sub_0_r; [done|done|lia|done|done|apply spans_fuel; lia|done|].
  rewrite Z.sub_0_r in *. fold e in Hsp. assert (d_size (D1 i) = e) as Hd1 by (by rewrite (wr_inode _ _ _ _ _ _ _ HW)).
  assert (R (<[ip := follow x (D1 i)]> ic) (mkTxn v1 dk g1 []) s1) as R1 by apply Hw1. assert (inv v1 D1 []) as I1 by apply Hw1.
  assert (room B r g1) as Hr1 by (eapply room_less; [apply Hw1|lia]). pose proof (writing_entry ic ip x i E (D1 i)) as E2. pose proof (en_at _ _ _ _ _ E2) as Hx1.
  unfold writei. erewrite bind_Ok by (by eapply geti_R). rewrite Hd, (proj2 (Z.eqb_neq _ _) Ht). replace (d_size (D i) <? off) with false by lia.
  pose proof (iv_wf _ _ _ _ I i Hi) as W. assert (d_size (D i) <= 512 * 140) as Hsz.
  { pose proof (dw_size _ _ W) as H0. unfold NDIRECT, NINDIRECT, nblocks in H0. destruct (dw_ok _ _ W) as (_ & [? _] & _). Z.to_euclidean_division_equations. lia. }
  unfold MAXFILE, NDIRECT, NINDIRECT in Hmax. simpl in Hmax. rewrite u32_wraps by (unfold uint32; lia). replace (2 ^ 32 <=? off + n) with false by lia. cbn [orb].
  replace (MAXFILE * Z.of_nat BSIZE <? off + n) with false by (symmetry; apply Z.ltb_ge; unfold MAXFILE, NDIRECT, NINDIRECT, BSIZE; lia). erewrite bind_Ok by exact E1.
  erewrite bind_Ok by (eapply geti_R; [exact R1|exact Hx1]). change (d_size (i_d (follow x (D1 i)))) with (d_size (i_d x)). rewrite Hd.
  destruct (Z.ltb_spec (d_size (D i)) (off + n)) as [Hgt|Hle].
  - replace (0 <? n) with true by lia. simpl. destruct (updi_R sb _ _ _ ip _ (fun y => set_id (set_size (off + n) (i_d y)) y) R1 Hx1) as (s2 & E3 & R2).
    rewrite list_insert_insert_eq in R2. assert (set_id (set_size (off + n) (i_d (follow x (D1 i)))) (follow x (D1 i)) = set_id (D1 i) x) as Hxx.
    { unfold follow. cbn [set_id i_d i_dev i_inum i_ref i_lock i_valid]. unfold set_id. f_equal. rewrite (wr_inode _ _ _ _ _ _ _ HW) at 2. rewrite Hd. fold n. rewrite Z.max_r by lia. done. }
    rewrite Hxx in R2. destruct (room_in _ _ _ (IBLOCK i sb) Hr1 HIB) as [Hlog Hr2].
    destruct (iupdate_R sb Hly Hfs _ v1 dk g1 [] s2 ip (set_id (D1 i) x) R2) as (s3 & E4 & R3); cbn [set_id i_dev i_inum i_d]; rewrite ?(en_inum _ _ _ _ _ E);
      [apply list_lookup_insert_eq; by eapply lookup_lt_Some|apply E|done|apply not_elem_of_nil|simpl; lia|by apply I1, IBLOCK_fs|done|].
    cbn [set_id i_dev i_inum i_d] in R3. rewrite (en_inum _ _ _ _ _ E) in R3. eexists s3, _, D1, _. split_and!; [|exact R3|by apply inv_put_dino|by apply updated_extended|done|].
    + rewrite bind_assoc. unfold updd. erewrite bind_Ok by exact E3. by erewrite bind_Ok by exact E4.
    + rewrite Hsp. f_equal. unfold FsFile.space. rewrite (in_use_same sb Hly v1 (put_dino sb i (D1 i) v1)); [done|]. intros c Hc. apply used_vput.
      pose proof (BBLOCK_range sb c Hc). pose proof (IBLOCK_range sb Hly i Hi). lia.
  - rewrite andb_false_r, bind_ret. assert (D1 i = D i) as HD by (eapply wrote_same; [..|exact HW]; lia). exists s1, v1, D1, g1.
    split_and!; [done| |done|apply updated_inside; [done|done|lia|fold n; lia|done|done]|done|done]. rewrite HD, Hfx in R1. rewrite HD, <- Hd. by replace (set_id (i_d x) x) with x by (by destruct x).
Qed.
End FsRw.
