(* ===== verification/FsInode.v ===== *)
(** * The inode cache

    References to inodes, their locks, and what happens to an inode when it is
    allocated and when the last reference goes. *)

From stdpp Require Import base gmap list strings.
From Stdlib Require Import ZArith Lia.
From S2P Require Import Prelude CString Sync Sleeplock CacheSpec Log BlockSpec Fs FsLayout FsInv FsBlocks FsFile FsRw.
Local Open Scope Z_scope.

Section FsInode.
Context {L S : Type} `{HL : Locks L} `{HB : Blocks S} {o : bool} (me : Z) (sb : superblock) (Hly : layout sb) (Hfs : forall n, fs_block sb n -> bk_fs n)
  (Hlk : (NINODE < lk_count)%nat).
Notation fs := (fs (L := L) (S := S)).
Notation mkTxn := (mkTxn o).
Notation room := (room (o := o)).
Notation loggable := (loggable (o := o)).
Implicit Types (v : Z -> block) (dk : history) (g B : gset Z) (h : list (nat * Z)) (ic : list inode) (s : fs) (D : Z -> dinode).
Notation R := (R sb).
Notation inv := (inv sb).
Notation entry := (entry sb).
Notation space := (space sb).

(** ** Locks *)

Definition locked_by (p : Z) (l : sleeplock) : sleeplock := mkSleeplock true (sname l) p (waiting l).
Definition unlocked (l : sleeplock) : sleeplock := mkSleeplock false (sname l) 0 0.

Lemma on_ilock_R {A} ic t s ip x (m : M (L * sleeplock) A) l' a : R ic t s -> ic !! ip = Some x ->
  (forall y, lk_owned [] y -> exists y', m (y, i_lock x) = Ok a (y', l') /\ lk_owned [] y') ->
  exists s', on_ilock ip m s = Ok a s' /\ R (<[ip := set_ilock l' x]> ic) t s'.
Proof.
  intros HR Hx Hm. destruct (Hm _ (r_locks _ _ _ _ HR)) as (y' & E & Hy). unfold on_ilock. erewrite bind_Ok by (by eapply geti_R).
  eexists. split; [by erewrite zoom_Ok by exact E|]. destruct HR as [H1 H2 H3 H4]. split; [done..|]. simpl. by rewrite H4.
Qed.
Lemma acquire_inode_R ic t s ip x : R ic t s -> ic !! ip = Some x -> length ic = NINODE -> slocked (i_lock x) = false ->
  exists s', acquire_inode me ip s = Ok tt s' /\ R (<[ip := set_ilock (locked_by me (i_lock x)) x]> ic) t s'.
Proof.
  intros HR Hx Hl Hf. eapply on_ilock_R; [done..|]. intros y Hy. apply lookup_lt_Some in Hx.
  destruct (acquiresleep_Ok (Datatypes.S ip) me (y, i_lock x)) as (y' & E & Hy'); [split; [done|lia]|done|]. by exists y'.
Qed.
Lemma release_inode_R ic t s ip x : R ic t s -> ic !! ip = Some x -> length ic = NINODE ->
  exists s', release_inode ip s = Ok tt s' /\ R (<[ip := set_ilock (unlocked (i_lock x)) x]> ic) t s'.
Proof.
  intros HR Hx Hl. eapply on_ilock_R; [done..|]. intros y Hy. apply lookup_lt_Some in Hx.
  destruct (releasesleep_Ok (Datatypes.S ip) (y, i_lock x)) as (y' & E & Hy'); [split; [done|lia]|]. by exists y'.
Qed.
Lemma holding_inode_R ic t s ip x : R ic t s -> ic !! ip = Some x -> length ic = NINODE ->
  exists s', holding_inode me ip s = Ok (slocked (i_lock x) && (spid (i_lock x) =? me)) s' /\ R ic t s'.
Proof.
  intros HR Hx Hl. destruct (on_ilock_R ic t s ip x (holdingsleep (Datatypes.S ip) me) (i_lock x) (slocked (i_lock x) && (spid (i_lock x) =? me)) HR Hx) as (s' & E & R').
  - intros y Hy. pose proof (lookup_lt_Some _ _ _ Hx). destruct (holdingsleep_Ok (Datatypes.S ip) me (y, i_lock x)) as (y' & E & Hy'); [split; [done|lia]|]. by exists y'.
  - exists s'. split; [done|]. rewrite list_insert_id in R'; [done|]. rewrite Hx. by destruct x.
Qed.

(** A change of the cache under [icache.lock]. *)
Lemma i_acquire_R ic t s : R ic t s -> exists s', i_acquire s = Ok tt s' /\ icache s' = ic /\
  forall ic', exists s'', i_release (put_icache ic' s') = Ok tt s'' /\ R ic' t s''.
Proof.
  intros [H1 H2 H3 H4]. destruct (lock_n_ok 0 [] (f_locks s) H1) as (l1 & E1 & Ho1); [lia|apply not_elem_of_nil|]. destruct (unlock_n_ok 0 [] l1 Ho1) as (l2 & E2 & Ho2).
  exists (put_flocks l1 s). split_and!; [unfold i_acquire; by erewrite zoom_Ok by exact E1|done|]. intros ic'. eexists. split; [unfold i_release; by erewrite zoom_Ok by exact E2|]. by split.
Qed.
Lemma cache_update_R ic t s ip x f : R ic t s -> ic !! ip = Some x ->
  exists s1 s2 s3, i_acquire s = Ok tt s1 /\ icache s1 = ic /\ updi ip f s1 = Ok tt s2 /\ i_release s2 = Ok tt s3 /\ R (<[ip := f x]> ic) t s3.
Proof.
  intros HR Hx. destruct (i_acquire_R ic t s HR) as (s1 & E1 & Hic & Hrel). destruct (Hrel (<[ip := f x]> ic)) as (s3 & E3 & R3).
  exists s1, (put_icache (<[ip := f x]> ic) s1), s3. split_and!; [done|done| |done|done].
  unfold updi, geti. rewrite bind_assoc, bind_gets, Hic, Hx. cbn. unfold modify. by rewrite Hic.
Qed.

(** ** Finding an entry *)

Definition is_for (inum : Z) (x : inode) : Prop := 0 < i_ref x /\ i_dev x = 1 /\ i_inum x = inum.
Definition is_free (x : inode) : Prop := i_ref x = 0.

Definition iget_found ic (inum : Z) (lo : nat) (r : nat + option nat) : Prop :=
  match r with
  | inl ip => exists x, ic !! ip = Some x /\ is_for inum x
  | inr e => (forall ip x, (lo <= ip)%nat -> ic !! ip = Some x -> ~ is_for inum x) /\
      match e with
      | Some ip => exists x, ic !! ip = Some x /\ is_free x
      | None => forall ip x, (lo <= ip)%nat -> ic !! ip = Some x -> ~ is_free x
      end
  end.
Lemma iget_loop_R ic inum s : icache s = ic -> forall n lo e, (lo + n = length ic)%nat ->
  (match e with Some ip => exists x, ic !! ip = Some x /\ is_free x | None => True end) ->
  exists r, iget_loop (seq lo n) 1 inum e s = Ok r s /\ iget_found ic inum lo r /\ (e <> None -> r <> inr None).
Proof.
  intros Hic. induction n as [|n IH]; intros lo e Hn He; cbn [seq iget_loop].
  - exists (inr e). split; [done|]. split; [|congruence]. assert (forall ip x, (lo <= ip)%nat -> ic !! ip = Some x -> False) as Hno by (intros ip x Hip Hx; apply lookup_lt_Some in Hx; lia).
    split; [intros ip x Hip Hx; by destruct (Hno ip x)|]. destruct e; [done|]. intros ip x Hip Hx. by destruct (Hno ip x).
  - destruct (lookup_lt_is_Some_2 ic lo) as [x Hx]; [lia|]. unfold geti. rewrite bind_assoc, bind_gets, Hic, Hx. unfold deref. rewrite bind_ret.
    destruct ((0 <? i_ref x) && (i_dev x =? 1) && (i_inum x =? inum)) eqn:Ef.
    { exists (inl lo). split; [done|]. split; [|done]. exists x. split; [done|]. apply andb_prop in Ef as [[? ?]%andb_prop ?]. unfold is_for. lia. }
    assert (~ is_for inum x) as Hnf by (intros (? & ? & ?); apply andb_false_iff in Ef as [[?|?]%andb_false_iff|?]; lia).
    destruct (IH (Datatypes.S lo) (match e with None => if i_ref x =? 0 then Some lo else None | Some _ => e end)) as (r & E & Hr & Hne); [lia| |].
    { destruct e; [done|]. destruct (Z.eqb_spec (i_ref x) 0); [|done]. by exists x. }
    exists r. split; [done|]. split; [|intros He'; apply Hne; by destruct e]. destruct r as [ip|e']; [done|]. destruct Hr as [H1 H2]. split.
    + intros ip y Hip Hy. destruct (decide (ip = lo)) as [->|]; [by simplify_eq|]. eapply H1; [|exact Hy]. lia.
    + destruct e' as [ip|]; [done|]. intros ip y Hip Hy. destruct (decide (ip = lo)) as [->|]; [|eapply H2; [|exact Hy]; lia]. simplify_eq. intros Hfr.
      apply Hne; [|done]. unfold is_free in Hfr. rewrite Hfr. by destruct e.
Qed.
Lemma iget_R ic t s inum : R ic t s -> length ic = NINODE -> (exists ip x, ic !! ip = Some x /\ (is_for inum x \/ is_free x)) ->
  exists ip s' x x', iget 1 inum s = Ok ip s' /\ ic !! ip = Some x /\ R (<[ip := x']> ic) t s' /\
    (is_for inum x /\ x' = set_iref (i_ref x + 1) x \/ is_free x /\ x' = set_iident 1 inum 1 x /\ forall ip x, ic !! ip = Some x -> ~ is_for inum x).
Proof.
  intros HR Hl (ip0 & x0 & Hx0 & Hex). destruct (i_acquire_R ic t s HR) as (s1 & E1 & Hic & Hrel).
  destruct (iget_loop_R ic inum s1 Hic NINODE 0 None) as (r & E2 & Hr & _); [by rewrite Hl|done|]. unfold iget. erewrite bind_Ok by exact E1. erewrite bind_Ok by exact E2.
  assert (forall ip x f, ic !! ip = Some x -> exists s', (updi ip f ;;; i_release ;;; ret ip) s1 = Ok ip s' /\ R (<[ip := f x]> ic) t s') as Hupd.
  { intros ip x f Hx. destruct (Hrel (<[ip := f x]> ic)) as (s3 & E3 & R3). exists s3. split; [|done]. unfold updi, geti. rewrite !bind_assoc, bind_gets, Hic, Hx.
    unfold deref. rewrite bind_ret, bind_modify, Hic. by erewrite bind_Ok by exact E3. }
  destruct r as [ip|[ip|]]; cbn [iget_found] in Hr.
  - destruct Hr as (x & Hx & Hf). destruct (Hupd ip x (fun x => set_iref (i_ref x + 1) x) Hx) as (s3 & E3 & R3). exists ip, s3, x. eexists. split_and!; [exact E3|done|exact R3|by left].
  - destruct Hr as (Hno & x & Hx & Hf). destruct (Hupd ip x (set_iident 1 inum 1) Hx) as (s3 & E3 & R3). exists ip, s3, x. eexists. split_and!; [exact E3|done|exact R3|right].
    split_and!; [done|done|]. intros ip' x' Hx'. apply (Hno ip'); [lia|done].
  - destruct Hr as (Hno & Hfull). exfalso. destruct Hex as [Hf|Hf]; [eapply Hno|eapply Hfull]; [|exact Hx0|exact Hf| |exact Hx0|exact Hf]; lia.
Qed.
Lemma iget_full ic t s inum : R ic t s -> length ic = NINODE -> (forall ip x, ic !! ip = Some x -> ~ is_for inum x /\ ~ is_free x) -> iget 1 inum s = Panic "iget: no inodes".
Proof.
  intros HR Hl Hno. destruct (i_acquire_R ic t s HR) as (s1 & E1 & Hic & Hrel). destruct (iget_loop_R ic inum s1 Hic NINODE 0 None) as (r & E2 & Hr & _); [by rewrite Hl|done|].
  unfold iget. erewrite bind_Ok by exact E1. erewrite bind_Ok by exact E2. destruct r as [ip|[ip|]]; cbn [iget_found] in Hr; [|  |done].
  - destruct Hr as (x & Hx & Hf). by destruct (Hno ip x Hx) as [? _].
  - destruct Hr as (_ & x & Hx & Hf). by destruct (Hno ip x Hx) as [_ ?].
Qed.
Lemma idup_R ic t s ip x : R ic t s -> ic !! ip = Some x -> exists s', idup ip s = Ok ip s' /\ R (<[ip := set_iref (i_ref x + 1) x]> ic) t s'.
Proof.
  intros HR Hx. destruct (cache_update_R ic t s ip x (fun x => set_iref (i_ref x + 1) x) HR Hx) as (s1 & s2 & s3 & E1 & _ & E2 & E3 & R3). exists s3. split; [|done].
  unfold idup. erewrite bind_Ok by exact E1. erewrite bind_Ok by exact E2. by erewrite bind_Ok by exact E3.
Qed.

(** ** Locking *)

Definition entry_of (l : sleeplock) (d : dinode) (x : inode) : inode := mkInode (i_dev x) (i_inum x) (i_ref x) l true d.

Lemma ilock_R ic v D P dk g s ip x i : R ic (mkTxn v dk g []) s -> inv v D P -> length ic = NINODE -> entry ic ip x i -> 1 <= i_ref x -> slocked (i_lock x) = false ->
  let d := if i_valid x then i_d x else dino sb v i in d_type d <> 0 ->
  exists s', ilock me ip s = Ok tt s' /\ R (<[ip := entry_of (locked_by me (i_lock x)) d x]> ic) (mkTxn v dk g []) s'.
Proof.
  intros HR I Hl [Hx Hdev Hinum Hi] Href Hun d Hd. destruct (acquire_inode_R _ _ _ _ _ HR Hx Hl Hun) as (s1 & E1 & R1). pose proof (lookup_lt_Some _ _ _ Hx) as Hlt.
  assert (forall y, (<[ip := y]> ic) !! ip = Some y) as Hat by (intros y; by apply list_lookup_insert_eq).
  unfold ilock. erewrite bind_Ok by (by eapply geti_R). replace (i_ref x <? 1) with false by lia. erewrite bind_Ok by exact E1. erewrite bind_Ok by (eapply geti_R; [exact R1|apply Hat]).
  cbn [set_ilock i_valid i_dev i_inum]. unfold d in *. destruct (i_valid x) eqn:Ev; cbn [negb].
  - exists s1. split; [done|]. unfold entry_of, set_ilock in *. by rewrite Ev in R1.
  - rewrite bind_gets, (r_sb _ _ _ _ R1), Hdev, Hinum.
    destruct (bread_R sb Hfs _ _ _ _ _ _ (IBLOCK i sb) R1) as (bp & s2 & E2 & R2 & Hc); [by apply IBLOCK_fs|apply not_elem_of_nil|simpl; lia|].
    destruct (updi_R sb _ _ _ ip _ (set_id (dino sb v i)) R2 (Hat _)) as (s3 & E3 & R3). rewrite list_insert_insert_eq in R3.
    destruct (brelse_R sb _ _ _ _ _ _ _ _ R3 Hc) as (s4 & E4 & R4). destruct (updi_R sb _ _ _ ip _ (set_ivalid true) R4 (Hat _)) as (s5 & E5 & R5). rewrite list_insert_insert_eq in R5.
    exists s5. split; [|exact R5]. erewrite bind_Ok by exact E2. erewrite bind_Ok by (eapply data_R; [exact R2|by left]). erewrite bind_Ok by exact E3. erewrite bind_Ok by exact E4.
    erewrite bind_Ok by exact E5. erewrite bind_Ok by (eapply geti_R; [exact R5|apply Hat]). cbn [set_ivalid set_id i_d]. by rewrite (proj2 (Z.eqb_neq _ _) Hd).
Qed.
Lemma iunlock_R ic t s ip x : R ic t s -> length ic = NINODE -> ic !! ip = Some x -> 1 <= i_ref x -> slocked (i_lock x) = true -> spid (i_lock x) = me ->
  exists s', iunlock me ip s = Ok tt s' /\ R (<[ip := set_ilock (unlocked (i_lock x)) x]> ic) t s'.
Proof.
  intros HR Hl Hx Href Hs Hp. destruct (holding_inode_R ic t s ip x HR Hx Hl) as (s1 & E1 & R1). destruct (release_inode_R ic t s1 ip x R1 Hx Hl) as (s2 & E2 & R2). exists s2. split; [|done].
  unfold iunlock. erewrite bind_Ok by exact E1. erewrite bind_Ok by (by eapply geti_R). rewrite Hs, Hp, Z.eqb_refl. replace (i_ref x <? 1) with false by lia. done.
Qed.

(** ** Truncation *)

Definition emptied (d : dinode) : dinode := set_size 0 (set_addrs (replicate (NDIRECT + 1) 0) d).
(** The disk has changed in the bitmap only. *)
Definition vsame v v' : Prop := forall n, ~ (sb_bmapstart sb <= n < datastart sb) -> v' n = v n.

Lemma emptied_wf v d : dinode_ok d -> dwf v (emptied d).
Proof.
  intros (H1 & H2 & H3 & H4). assert (forall n, addr (emptied d) n = 0) as Ha.
  { intros n. unfold addr, emptied. cbn [set_size set_addrs d_addrs]. rewrite nth_lookup. destruct (_ !! n) eqn:En; [|done]. by apply lookup_replicate in En as [-> _]. }
  split; [|change (0 <= NDIRECT + NINDIRECT)%nat; lia| |intros _; apply Ha].
  - split_and!; [done|unfold uint32; simpl; lia|apply length_replicate|]. apply Forall_replicate. unfold uint32. lia.
  - intros n _. unfold fblk. rewrite !Ha. by destruct (n <? NDIRECT)%nat.
Qed.

Section Trunc.
Context ic v D dk g (ip : nat) (x : inode) (i : Z) B (r : nat) (I : inv v D []) (E : entry ic ip x i) (HBB : forall b, 0 <= b < sb_size sb -> BBLOCK b sb ∈ B).
Notation d := (D i).
Notation nb := (nblocks (d_size d)).

(** The block numbers [l] are left in the cache entry, and the blocks [P] in
    use; buffers [h] are held. *)
Definition truncating g0 (l P : list Z) h s : Prop := exists v' g',
  R (<[ip := set_id (set_addrs l d) x]> ic) (mkTxn v' dk g' h) s /\ inv v' (fset i (emptied d) D) P /\ vsame v v' /\ room B r g' /\ g0 ⊆ g'.

Lemma bfree_step g0 l b P h s : truncating g0 l (b :: P) h s -> (length h <= 1)%nat -> (forall n, n ∈ h.*2 -> n ∈ P) ->
  exists s', bfree 1 b s = Ok tt s' /\ truncating g0 l P h s'.
Proof.
  intros (v1 & g1 & R1 & I1 & Hv & Hr & Hg) Hl Hh. destruct (inv_taken sb v1 _ _ b I1) as [Hb _]; [right; by left|]. pose proof (start_order sb Hly).
  destruct (room_in _ _ _ (BBLOCK b sb) Hr) as [Hlog Hr2]; [apply HBB; lia|].
  destruct (bfree_R (o := o) sb Hly Hfs (<[ip := set_id (set_addrs l d) x]> ic) v1 _ P dk g1 h s b I1) as (s' & E1 & R2); [|done|done|].
  { split; [done|]. intros n Hn. eapply inv_taken; [exact I1|]. right. right. auto. }
  exists s'. split; [done|]. eexists _, _. split_and!; [exact R2|by apply inv_bfree| |done|set_solver]. intros n Hn. rewrite <- Hv by done. unfold clear_bit. apply vput_ne.
  pose proof (BBLOCK_range sb b ltac:(lia)). lia.
Qed.

(** The blocks of the file from number [k] on, and the indirect block. *)
Definition left_from (k : nat) : list Z := map (fblk v d) (seq k (nb - k)) ++ (if (NDIRECT <? nb)%nat then [addr d NDIRECT] else []).
Lemma left_step k : (k < nb)%nat -> left_from k = fblk v d k :: left_from (Datatypes.S k).
Proof. intros Hk. unfold left_from. replace (nb - k)%nat with (Datatypes.S (nb - Datatypes.S k)) by lia. done. Qed.
Lemma left_done k : (nb <= k)%nat -> left_from k = left_from (Datatypes.S k).
Proof. intros Hk. unfold left_from. by replace (nb - k)%nat with 0%nat by lia; replace (nb - Datatypes.S k)%nat with 0%nat by lia. Qed.
Lemma left_all : left_from 0 = ptrs v d.
Proof. unfold left_from, ptrs. by rewrite Nat.sub_0_r. Qed.

Definition cleared (k : nat) : list Z := replicate k 0 ++ drop k (d_addrs d).
Lemma cleared_step k : (k <= NDIRECT)%nat -> cleared k !! k = Some (addr d k) /\ <[k := 0]> (cleared k) = cleared (Datatypes.S k).
Proof.
  intros Hk. destruct (dw_ok _ _ (iv_wf _ _ _ _ I i (en_range _ _ _ _ _ E))) as (_ & _ & Hl & _). unfold cleared.
  pose proof (drop_S (d_addrs d) (addr d k) k) as Hdr. rewrite Hdr by (apply addr_lookup; [apply (iv_wf _ _ _ _ I i (en_range _ _ _ _ _ E))|done]). split.
  - rewrite lookup_app_r, length_replicate by (rewrite length_replicate; lia). by rewrite Nat.sub_diag.
  - rewrite insert_app_r_alt by (rewrite length_replicate; lia). rewrite length_replicate, Nat.sub_diag. cbn [insert list_insert]. by rewrite replicate_S_end, <- app_assoc.
Qed.
Lemma cleared_zero k : (k <= NDIRECT)%nat -> addr d k = 0 -> cleared k = cleared (Datatypes.S k).
Proof. intros Hk Hz. destruct (cleared_step k Hk) as [H1 H2]. rewrite <- H2. rewrite Hz in H1. by rewrite list_insert_id. Qed.

Lemma trunc_entry l : (<[ip := set_id (set_addrs l d) x]> ic) !! ip = Some (set_id (set_addrs l d) x).
Proof. apply list_lookup_insert_eq. by eapply lookup_lt_Some, (en_at _ _ _ _ _ E). Qed.
Lemma updd_step g0 l P h s f l' : truncating g0 l P h s -> f (set_addrs l d) = set_addrs l' d -> exists s', updd ip f s = Ok tt s' /\ truncating g0 l' P h s'.
Proof.
  intros (v1 & g1 & R1 & H1) Hf. destruct (updi_R sb _ _ _ ip _ (fun y => set_id (f (i_d y)) y) R1 (trunc_entry l)) as (s' & E1 & R2). exists s'. split; [done|].
  exists v1, g1. split; [|done]. rewrite list_insert_insert_eq in R2. cbn [set_id i_d i_dev i_inum i_ref i_lock i_valid] in R2. by rewrite Hf in R2.
Qed.
Lemma addr_direct k : (k < NDIRECT)%nat -> addr d k = fblk v d k.
Proof. intros Hk. unfold fblk. destruct (Nat.ltb_spec k NDIRECT); [done|lia]. Qed.
Lemma ptr_nonzero k : (k < nb)%nat -> fblk v d k <> 0.
Proof. intros Hk. destruct (data_uint32 sb Hly (fblk v d k)) as [_ ?]; [|done]. eapply fblk_data; [done|apply E|done]. Qed.

Lemma trunc_direct g0 s : truncating g0 (cleared 0) (ptrs v d) [] s ->
  exists s', foreach (seq 0 NDIRECT) (itrunc_direct ip) s = Ok tt s' /\ truncating g0 (cleared NDIRECT) (left_from NDIRECT) [] s'.
Proof.
  intros H0. rewrite <- left_all in H0. assert (wp (foreach (seq 0 NDIRECT) (itrunc_direct ip)) s (fun _ => truncating g0 (cleared NDIRECT) (left_from NDIRECT) []) (fun _ => False)) as Hwp;
    [|destruct (wp_returns _ _ _ Hwp) as ([] & s' & E1 & H1); by exists s'].
  apply (wp_foreach_seq (fun k => truncating g0 (cleared k) (left_from k) []) NDIRECT 0 (itrunc_direct ip) s (fun _ => False)); [exact H0|].
  intros k s1 Hk Ht. destruct (cleared_step k) as [Hc1 Hc2]; [lia|]. pose proof Ht as (v1 & g1 & R1 & _).
  unfold itrunc_direct. eapply wp_step; [eapply geti_R; [exact R1|apply trunc_entry]|]. cbn [set_id i_d set_addrs d_addrs i_dev].
  eapply wp_step; [unfold deref; rewrite Hc1; reflexivity|]. rewrite (en_dev _ _ _ _ _ E). destruct (decide (k < nb)%nat) as [Hlt|Hge].
  - pose proof (ptr_nonzero k Hlt) as Hnz. rewrite <- addr_direct in Hnz by lia. rewrite (proj2 (Z.eqb_neq _ _) Hnz). cbn [negb]. rewrite left_step, <- addr_direct in Ht by lia.
    destruct (bfree_step g0 _ _ _ _ _ Ht) as (s2 & E2 & H2); [simpl; lia|intros n []%not_elem_of_nil|].
    destruct (updd_step g0 _ _ _ _ (set_addr k 0) (cleared (Datatypes.S k)) H2) as (s3 & E3 & H3); [unfold set_addr; cbn [set_addrs d_addrs]; by rewrite Hc2|].
    eapply wp_step; [exact E2|]. eapply wp_Ok; [exact E3|done].
  - assert (addr d k = 0) as Hz by (rewrite addr_direct by lia; apply (iv_wf _ _ _ _ I i (en_range _ _ _ _ _ E)); lia).
    rewrite Hz. simpl. rewrite <- cleared_zero, <- left_done by (done || lia). done.
Qed.

Lemma trunc_indirect g0 bp s : (NDIRECT < nb)%nat -> truncating g0 (cleared NDIRECT) (left_from NDIRECT) [(bp, addr d NDIRECT)] s ->
  exists s', foreach (seq 0 NINDIRECT) (itrunc_indirect 1 bp) s = Ok tt s' /\ truncating g0 (cleared NDIRECT) [addr d NDIRECT] [(bp, addr d NDIRECT)] s'.
Proof.
  intros Hnb H0. pose proof (en_range _ _ _ _ _ E) as Hi. pose proof (iv_wf _ _ _ _ I i Hi) as W. pose proof (dw_size _ _ W) as Hmax. set (a := addr d NDIRECT) in *.
  assert (a ∈ ptrs v d) as Hap by (apply elem_of_ptrs; by right). destruct (inv_ptr sb v D [] i a I Hi Hap) as (Har & _). destruct (data_uint32 sb Hly a Har) as [_ Ha0].
  assert (left_from (NDIRECT + NINDIRECT) = [a]) as Hend.
  { unfold left_from. replace (nb - (NDIRECT + NINDIRECT))%nat with 0%nat by lia. by destruct (Nat.ltb_spec NDIRECT nb); [|lia]. }
  assert (wp (foreach (seq 0 NINDIRECT) (itrunc_indirect 1 bp)) s (fun _ => truncating g0 (cleared NDIRECT) (left_from (NDIRECT + (0 + NINDIRECT))) [(bp, a)]) (fun _ => False)) as Hwp;
    [|destruct (wp_returns _ _ _ Hwp) as ([] & s' & E1 & H1); exists s'; rewrite Nat.add_0_l, Hend in H1; done].
  apply (wp_foreach_seq (fun j => truncating g0 (cleared NDIRECT) (left_from (NDIRECT + j)) [(bp, a)]) NINDIRECT 0 (itrunc_indirect 1 bp) s (fun _ => False)); [by rewrite Nat.add_0_r|].
  intros j s1 Hj Ht. pose proof Ht as (v1 & g1 & R1 & _ & Hv & _). assert (v1 a = v a) as Hva by (apply Hv; lia).
  unfold itrunc_indirect. eapply wp_step; [eapply data_R; [exact R1|by left]|]. rewrite Hva.
  assert (word (v a) (4 * j) = fblk v d (NDIRECT + j)) as ->.
  { unfold fblk. destruct (Nat.ltb_spec (NDIRECT + j) NDIRECT); [lia|]. fold a. rewrite (proj2 (Z.eqb_neq _ _) Ha0). do 2 f_equal. lia. }
  rewrite Nat.add_succ_r. destruct (decide (NDIRECT + j < nb)%nat) as [Hlt|Hge].
  - rewrite (proj2 (Z.eqb_neq _ _) (ptr_nonzero _ Hlt)). cbn [negb]. rewrite left_step in Ht by done.
    destruct (bfree_step g0 _ _ _ _ _ Ht) as (s2 & E2 & H2); [simpl; lia| |by eapply wp_Ok; [exact E2|]].
    intros n Hn. csimpl in Hn. apply list_elem_of_singleton in Hn as ->. unfold left_from. apply elem_of_app. right. destruct (Nat.ltb_spec NDIRECT nb); [by apply list_elem_of_singleton|lia].
  - rewrite (dw_free _ _ W) by lia. rewrite Z.eqb_refl. cbn [negb]. rewrite <- left_done by lia. exact Ht.
Qed.

Lemma cleared_all : cleared (Datatypes.S NDIRECT) = replicate (NDIRECT + 1) 0.
Proof.
  destruct (dw_ok _ _ (iv_wf _ _ _ _ I i (en_range _ _ _ _ _ E))) as (_ & _ & Hl & _). unfold cleared. rewrite drop_ge by (rewrite Hl; lia). rewrite app_nil_r. f_equal.
Qed.
(** [if(ip->addrs[NDIRECT]) ...] *)
Lemma trunc_rest g0 s : truncating g0 (cleared NDIRECT) (left_from NDIRECT) [] s ->
  exists s', (if negb (addr d NDIRECT =? 0) then
     let! bp := bread 1 (addr d NDIRECT) in
     foreach (seq 0 NINDIRECT) (itrunc_indirect 1 bp) ;;;
     brelse bp ;;;
     bfree 1 (addr d NDIRECT) ;;;
     updd ip (set_addr NDIRECT 0)
   else ret tt) s = Ok tt s' /\ truncating g0 (replicate (NDIRECT + 1) 0) [] [] s'.
Proof.
  intros Ht. pose proof (en_range _ _ _ _ _ E) as Hi. pose proof (iv_wf _ _ _ _ I i Hi) as W. destruct (decide (NDIRECT < nb)%nat) as [Hgt|Hle].
  - set (a := addr d NDIRECT). assert (a ∈ ptrs v d) as Hap by (apply elem_of_ptrs; by right). destruct (inv_ptr sb v D [] i a I Hi Hap) as (Har & _).
    destruct (data_uint32 sb Hly a Har) as [_ Ha0]. rewrite (proj2 (Z.eqb_neq _ _) Ha0). cbn [negb]. destruct Ht as (v1 & g1 & R1 & I1 & Hv & Hr & Hg).
    destruct (bread_R sb Hfs _ _ _ _ _ _ a R1) as (bp & s2 & E2 & R2 & Hc); [by apply data_fs|apply not_elem_of_nil|simpl; lia|].
    destruct (trunc_indirect g1 bp s2 Hgt) as (s3 & E3 & H3); [exists v1, g1; by split_and!|]. destruct H3 as (v3 & g3 & R3 & I3 & Hv3 & Hr3 & Hg3).
    destruct (brelse_R sb _ _ _ _ _ _ _ _ R3) as (s4 & E4 & R4).
    { destruct Hc as [Hc|Hc]; [left; by apply Hg3|right]. fold a. rewrite <- Hc, Hv3, Hv by lia. done. }
    destruct (bfree_step g0 (cleared NDIRECT) a [] [] s4) as (s5 & E5 & H5); [exists v3, g3; split_and!; [done..|by etrans]|simpl; lia|intros n []%not_elem_of_nil|].
    destruct (updd_step g0 _ _ _ _ (set_addr NDIRECT 0) (replicate (NDIRECT + 1) 0) H5) as (s6 & E6 & H6).
    { unfold set_addr. cbn [set_addrs d_addrs]. destruct (cleared_step NDIRECT) as [_ ->]; [done|]. by rewrite cleared_all. }
    exists s6. split; [|done]. erewrite bind_Ok by exact E2. erewrite bind_Ok by exact E3. erewrite bind_Ok by exact E4. by erewrite bind_Ok by exact E5.
  - rewrite (dw_indirect _ _ W) by lia. simpl. exists s. split; [done|]. rewrite (cleared_zero NDIRECT), cleared_all in Ht by (done || apply W; lia).
    unfold left_from in Ht. replace (nb - NDIRECT)%nat with 0%nat in Ht by lia. by destruct (Nat.ltb_spec NDIRECT nb); [lia|].
Qed.

Lemma itrunc_R s : R ic (mkTxn v dk g []) s -> i_d x = d -> IBLOCK i sb ∈ B -> room B r g ->
  exists s' v' g', itrunc ip s = Ok tt s' /\ R (<[ip := set_id (emptied d) x]> ic) (mkTxn (put_dino sb i (emptied d) v') dk g' []) s' /\
    inv v' (fset i (emptied d) D) [] /\ vsame v v' /\ room B r g'.
Proof.
  intros HR Hd HIB Hr. pose proof (en_range _ _ _ _ _ E) as Hi. pose proof (en_at _ _ _ _ _ E) as Hx. pose proof (iv_wf _ _ _ _ I i Hi) as W.
  assert (truncating g (cleared 0) (ptrs v d) [] s) as H0.
  { exists v, g. split_and!; [|rewrite <- (app_nil_r (ptrs v d)); apply inv_drop; [done|done|done|by apply emptied_wf, W|done]|done|done|done].
    rewrite list_insert_id; [done|]. rewrite Hx. f_equal. unfold cleared. simpl. rewrite drop_0, <- Hd. by destruct x as [? ? ? ? ? []]. }
  destruct (trunc_direct g s H0) as (s1 & E1 & H1). destruct (trunc_rest g s1 H1) as (s2 & E2 & v2 & g2 & R2 & I2 & Hv2 & Hr2 & _). destruct H1 as (v1 & g1 & R1 & _).
  destruct (updi_R sb _ _ _ ip _ (fun y => set_id (set_size 0 (i_d y)) y) R2 (trunc_entry _)) as (s3 & E3 & R3). rewrite list_insert_insert_eq in R3.
  cbn [set_id i_d i_dev i_inum i_ref i_lock i_valid] in R3. fold (emptied d) in R3. destruct (room_in _ _ _ (IBLOCK i sb) Hr2 HIB) as [Hlog Hr3].
  destruct (iupdate_R sb Hly Hfs _ v2 dk g2 [] s3 ip (set_id (emptied d) x) R3) as (s4 & E4 & R4); cbn [set_id i_dev i_inum i_d]; rewrite ?(en_inum _ _ _ _ _ E);
    [apply list_lookup_insert_eq; by eapply lookup_lt_Some|apply E|done|apply not_elem_of_nil|simpl; lia|by apply I2, IBLOCK_fs|done|].
  cbn [set_id i_dev i_inum i_d] in R4. rewrite (en_inum _ _ _ _ _ E) in R4. eexists s4, v2, _. split_and!; [|exact R4|done|done|done].
  unfold itrunc. erewrite bind_Ok by exact E1. erewrite bind_Ok by (eapply geti_R; [exact R1|apply trunc_entry]). cbn [set_id i_d set_addrs d_addrs i_dev].
  rewrite (deref_Some _ (addr d NDIRECT)) by (apply cleared_step; done). rewrite (en_dev _ _ _ _ _ E). erewrite bind_Ok by exact E2. unfold updd. by erewrite bind_Ok by exact E3.
Qed.
End Trunc.

(** ** Dropping a reference *)

Definition freed (d : dinode) : dinode := set_type 0 (emptied d).
Definition put_entry (x : inode) : inode := set_iref (i_ref x - 1) (set_ilock (unlocked (i_lock x)) x).

Lemma iput_tail ic t s ip x : R ic t s -> ic !! ip = Some x -> length ic = NINODE ->
  exists s', (release_inode ip ;;; i_acquire ;;; updi ip (fun x => set_iref (i_ref x - 1) x) ;;; i_release) s = Ok tt s' /\ R (<[ip := put_entry x]> ic) t s'.
Proof.
  intros HR Hx Hl. pose proof (lookup_lt_Some _ _ _ Hx) as Hlt. destruct (release_inode_R ic t s ip x HR Hx Hl) as (s1 & E1 & R1).
  destruct (cache_update_R _ t s1 ip _ (fun x => set_iref (i_ref x - 1) x) R1 (list_lookup_insert_eq _ _ _ Hlt)) as (s2 & s3 & s4 & E2 & _ & E3 & E4 & R4).
  rewrite list_insert_insert_eq in R4. exists s4. split; [|exact R4]. erewrite bind_Ok by exact E1. erewrite bind_Ok by exact E2. by erewrite bind_Ok by exact E3.
Qed.

(** The inode stays. *)
Lemma iput_keep ic t s ip x : R ic t s -> ic !! ip = Some x -> length ic = NINODE -> slocked (i_lock x) = false ->
  (i_valid x = true -> d_nlink (i_d x) = 0 -> i_ref x <> 1) ->
  exists s', iput me ip s = Ok tt s' /\ R (<[ip := put_entry x]> ic) t s'.
Proof.
  intros HR Hx Hl Hun Hk. pose proof (lookup_lt_Some _ _ _ Hx) as Hlt. destruct (acquire_inode_R _ _ _ _ _ HR Hx Hl Hun) as (s1 & E1 & R1).
  assert (forall y, (<[ip := y]> ic) !! ip = Some y) as Hat by (intros y; by apply list_lookup_insert_eq). unfold iput. erewrite bind_Ok by exact E1.
  erewrite bind_Ok by (eapply geti_R; [exact R1|apply Hat]). cbn [set_ilock i_valid i_d].
  assert (exists s2, (if i_valid x && (d_nlink (i_d x) =? 0) then
     i_acquire ;;;
     let! x := geti ip in
     let r := i_ref x in
     i_release ;;;
     (if r =? 1 then itrunc ip ;;; updd ip (set_type 0) ;;; iupdate ip ;;; updi ip (set_ivalid false) else ret tt)
     else ret tt) s1 = Ok tt s2 /\ R (<[ip := set_ilock (locked_by me (i_lock x)) x]> ic) t s2) as (s2 & E2 & R2).
  { destruct (i_valid x) eqn:Ev; simpl; [|by exists s1]. destruct (Z.eqb_spec (d_nlink (i_d x)) 0) as [Hn|]; [|by exists s1].
    destruct (i_acquire_R _ t s1 R1) as (s2 & E2 & Hic & Hrel). destruct (Hrel (icache s2)) as (s3 & E3 & R3). exists s3. split; [|by rewrite <- Hic].
    erewrite bind_Ok by exact E2. unfold geti. rewrite bind_assoc, bind_gets, Hic, Hat. unfold deref. rewrite bind_ret. cbn [set_ilock i_ref].
    replace (put_icache (icache s2) s2) with s2 in E3 by (by destruct s2). erewrite bind_Ok by exact E3. rewrite (proj2 (Z.eqb_neq _ _) (Hk eq_refl Hn)). done. }
  destruct (iput_tail _ t s2 ip _ R2 (Hat _)) as (s3 & E3 & R3); [by rewrite length_insert|]. rewrite list_insert_insert_eq in R3. exists s3.
  split; [|exact R3]. erewrite bind_Ok by exact E2. exact E3.
Qed.

(** The last reference to an inode without links: it is freed. *)
Lemma iput_free ic v D dk g ip x i B r s : inv v D [] -> entry ic ip x i -> (forall b, 0 <= b < sb_size sb -> BBLOCK b sb ∈ B) -> R ic (mkTxn v dk g []) s -> length ic = NINODE ->
  slocked (i_lock x) = false -> i_valid x = true -> i_d x = D i -> d_nlink (D i) = 0 -> i_ref x = 1 -> IBLOCK i sb ∈ B -> room B r g ->
  exists s' v' g', iput me ip s = Ok tt s' /\ R (<[ip := put_entry (set_ivalid false (set_id (freed (D i)) x))]> ic) (mkTxn (put_dino sb i (freed (D i)) (put_dino sb i (emptied (D i)) v')) dk g' []) s' /\
    inv v' (fset i (emptied (D i)) D) [] /\ vsame v v' /\ room B r g'.
Proof.
  intros I E HBB HR Hl Hun Hv Hd Hn Href HIB Hr. pose proof E as [Hx Hdev Hinum Hi]. pose proof (lookup_lt_Some _ _ _ Hx) as Hlt.
  assert (forall y, (<[ip := y]> ic) !! ip = Some y) as Hat by (intros y; by apply list_lookup_insert_eq).
  destruct (acquire_inode_R _ _ _ _ _ HR Hx Hl Hun) as (s1 & E1 & R1). set (x1 := set_ilock (locked_by me (i_lock x)) x) in *.
  assert (entry (<[ip := x1]> ic) ip x1 i) as En1 by (by split).
  destruct (i_acquire_R _ _ s1 R1) as (s2 & E2 & Hic & Hrel). destruct (Hrel (icache s2)) as (s3 & E3 & R3). rewrite Hic in R3.
  replace (put_icache (icache s2) s2) with s2 in E3 by (by destruct s2).
  destruct (itrunc_R _ v D dk g ip x1 i B r I En1 HBB s3 R3 Hd HIB Hr) as (s4 & v4 & g4 & E4 & R4 & I4 & Hv4 & Hr4). rewrite list_insert_insert_eq in R4.
  destruct (updi_R sb _ _ _ ip _ (fun y => set_id (set_type 0 (i_d y)) y) R4 (Hat _)) as (s5 & E5 & R5). rewrite list_insert_insert_eq in R5. cbn [set_id i_d i_dev i_inum i_ref i_lock i_valid] in R5.
  fold (freed (D i)) in R5. destruct (room_in _ _ _ (IBLOCK i sb) Hr4 HIB) as [Hlog Hr5].
  destruct (iupdate_R sb Hly Hfs _ _ dk g4 [] s5 ip (set_id (freed (D i)) x1) R5) as (s6 & E6 & R6); cbn [x1 set_id set_ilock i_dev i_inum i_d]; rewrite ?Hinum;
    [apply Hat|done|done|apply not_elem_of_nil|simpl; lia|by apply (inv_put_dino sb Hly v4 (fset i (emptied (D i)) D) [] i), IBLOCK_fs|done|].
  cbn [x1 set_id set_ilock i_dev i_inum i_d] in R6. rewrite Hinum in R6. destruct (updi_R sb _ _ _ ip _ (set_ivalid false) R6 (Hat _)) as (s7 & E7 & R7). rewrite list_insert_insert_eq in R7.
  destruct (iput_tail _ _ s7 ip _ R7 (Hat _)) as (s8 & E8 & R8); [by rewrite length_insert|]. rewrite list_insert_insert_eq in R8.
  eexists s8, v4, _. split_and!; [|exact R8|done|done|done]. unfold iput. erewrite bind_Ok by exact E1. erewrite bind_Ok by (eapply geti_R; [exact R1|apply Hat]).
  change (i_valid x1) with (i_valid x). change (d_nlink (i_d x1)) with (d_nlink (i_d x)). rewrite Hv, Hd, Hn. simpl. rewrite !bind_assoc. erewrite bind_Ok by exact E2.
  rewrite bind_assoc. unfold geti. rewrite bind_assoc, bind_gets, Hic, Hat. unfold deref. rewrite bind_ret. change (i_ref x1) with (i_ref x). rewrite bind_assoc. erewrite bind_Ok by exact E3.
  rewrite Href. simpl. rewrite !bind_assoc. erewrite bind_Ok by exact E4. rewrite bind_assoc. unfold updd. erewrite bind_Ok by exact E5. rewrite bind_assoc. erewrite bind_Ok by exact E6.
  erewrite bind_Ok by exact E7. exact E8.
Qed.

(** ** Allocating an inode *)

Definition new_dinode (type : Z) : dinode := mkDinode type 0 0 0 0 (replicate (NDIRECT + 1) 0).

Lemma get_new_dinode k type b : (k + 64 <= length b)%nat -> - 2 ^ 15 <= type < 2 ^ 15 -> get_dinode (put_half k type (splice k (replicate sizeof_dinode 0) b)) k = new_dinode type.
Proof.
  intros Hk Ht. set (b0 := splice k (replicate sizeof_dinode 0) b). assert (length b0 = length b) as Hl by (apply length_splice; rewrite length_replicate; unfold sizeof_dinode; lia).
  assert (forall j, (k <= j < k + 64)%nat -> byte_at b0 j = 0) as Hz.
  { intros j Hj. unfold b0. rewrite byte_splice by (rewrite length_replicate; unfold sizeof_dinode; lia). rewrite length_replicate, decide_True by (unfold sizeof_dinode; lia).
    rewrite nth_lookup. destruct (_ !! _) eqn:En; [|done]. by apply lookup_replicate in En as [-> _]. }
  assert (eqoff k 2 b0 (put_half k type b0)) as He by (apply eqoff_put_half; lia).
  assert (forall j, (k + 2 <= j)%nat -> (j + 2 <= k + 64)%nat -> half (put_half k type b0) j = 0) as Hh by (intros j H1 H2; rewrite (half_eqoff k 2 b0) by (done || lia); unfold half; by rewrite !Hz by lia).
  assert (forall j, (k + 2 <= j)%nat -> (j + 4 <= k + 64)%nat -> word (put_half k type b0) j = 0) as Hw by (intros j H1 H2; rewrite (word_eqoff k 2 b0) by (done || lia); unfold word; by rewrite !Hz by lia).
  unfold get_dinode, new_dinode. rewrite half_put_eq, s16_u16, s16_id by (done || lia). rewrite !Hh, Hw by lia. f_equal.
  unfold get_addrs, NDIRECT. simpl. rewrite !Hw by lia. done.
Qed.
Lemma eqoff_new_dinode k type b : (k + 64 <= length b)%nat -> eqoff k 64 b (put_half k type (splice k (replicate sizeof_dinode 0) b)).
Proof.
  intros Hk. eapply eqoff_trans; [apply (eqoff_splice k (replicate sizeof_dinode 0)); rewrite length_replicate; unfold sizeof_dinode; lia|].
  apply (eqoff_weaken k 2); [lia..|]. apply eqoff_put_half. rewrite length_splice; rewrite ?length_replicate; unfold sizeof_dinode; lia.
Qed.

(** The table with inode [i] allocated. *)
Definition alloc_dino (i type : Z) v : Z -> block :=
  vput (IBLOCK i sb) (put_half (slot i) type (splice (slot i) (replicate sizeof_dinode 0) (v (IBLOCK i sb)))) v.
Lemma dino_alloc i type v j : 0 <= i -> 0 <= j -> length (v (IBLOCK i sb)) = BSIZE -> - 2 ^ 15 <= type < 2 ^ 15 ->
  dino sb (alloc_dino i type v) j = if decide (j = i) then new_dinode type else dino sb v j.
Proof.
  intros Hi Hj Hl Ht. pose proof (slot_bound i) as Hsl. unfold alloc_dino. destruct (decide (j = i)) as [->|Hne].
  - unfold dino. rewrite vput_eq. apply get_new_dinode; [lia|done].
  - apply dino_update; [done..|]. apply eqoff_new_dinode. lia.
Qed.
Lemma inv_alloc v D P i type : inv v D P -> 0 <= i < sb_ninodes sb -> inv (alloc_dino i type v) D P.
Proof.
  intros I Hi. pose proof (IBLOCK_range sb Hly i Hi). pose proof (start_order sb Hly). pose proof (iv_len _ _ _ _ I _ (IBLOCK_fs sb Hly i Hi)) as Hl. pose proof (slot_bound i).
  apply (inv_frame sb Hly v); [done| |].
  - eapply agree_meta; [done..|lia|]. intros _. destruct (eqoff_new_dinode (slot i) type (v (IBLOCK i sb))) as [-> _]; [lia|done].
  - intros b Hb. apply used_vput. pose proof (BBLOCK_range sb b Hb). lia.
Qed.

Lemma ialloc_R ic v D dk g B r type s : inv v D [] -> R ic (mkTxn v dk g []) s -> length ic = NINODE -> room B (1 + r) g ->
  (exists i, 0 < i < sb_ninodes sb /\ d_type (dino sb v i) = 0) -> (exists ip x, ic !! ip = Some x /\ is_free x) ->
  exists ip s' i g' x x', ialloc 1 type s = Ok ip s' /\ 0 < i < sb_ninodes sb /\ d_type (dino sb v i) = 0 /\ ic !! ip = Some x /\ R (<[ip := x']> ic) (mkTxn (alloc_dino i type v) dk g' []) s' /\ room B r g' /\
    (is_for i x /\ x' = set_iref (i_ref x + 1) x \/ is_free x /\ x' = set_iident 1 i 1 x /\ forall ip x, ic !! ip = Some x -> ~ is_for i x).
Proof.
  intros I HR Hl Hr (i0 & Hi0 & Hf0) (ip0 & x0 & Hx0 & Hfr0). unfold ialloc. rewrite bind_gets, (r_sb _ _ _ _ HR).
  set (Q := fun ip s' => exists i g' x x', 0 < i < sb_ninodes sb /\ d_type (dino sb v i) = 0 /\ ic !! ip = Some x /\ R (<[ip := x']> ic) (mkTxn (alloc_dino i type v) dk g' []) s' /\ room B r g' /\
    (is_for i x /\ x' = set_iref (i_ref x + 1) x \/ is_free x /\ x' = set_iident 1 i 1 x /\ forall ip x, ic !! ip = Some x -> ~ is_for i x)).
  match goal with |- context [bind ?m _] => assert (wp m s (fun r s' => match r with Some ip => Q ip s' | None => False end) (fun _ => False)) as Hwp end.
  { apply (wp_scan_seq (fun k s => R ic (mkTxn v dk g []) s /\ forall j, 0 < j < Z.of_nat k -> d_type (dino sb v j) <> 0)).
    - split; [done|]. intros j Hj. lia.
    - cbn beta. intros s1 [_ Hall]. apply (Hall i0); [lia|done].
    - intros k s1 Hk [R1 Hall]. assert (0 <= Z.of_nat k < sb_ninodes sb) as Hkr by lia. pose proof (slot_bound (Z.of_nat k)). pose proof (iv_len _ _ _ _ I _ (IBLOCK_fs sb Hly _ Hkr)) as Hlen.
      destruct (bread_R sb Hfs _ _ _ _ _ _ (IBLOCK (Z.of_nat k) sb) R1) as (bp & s2 & E2 & R2 & Hc); [by apply IBLOCK_fs|apply not_elem_of_nil|simpl; lia|].
      eapply wp_step; [exact E2|]. eapply wp_step; [eapply data_R; [exact R2|by left]|]. fold (dino sb v (Z.of_nat k)). destruct (Z.eqb_spec (d_type (dino sb v (Z.of_nat k))) 0) as [Hf|Hnf].
      + destruct (room_new _ _ _ (IBLOCK (Z.of_nat k) sb) Hr) as [Hlog Hr2].
        destruct (update_R sb _ _ _ _ _ _ _ _ (put_half (slot (Z.of_nat k)) type (splice (slot (Z.of_nat k)) (replicate sizeof_dinode 0) (v (IBLOCK (Z.of_nat k) sb)))) R2)
          as (s3 & s4 & s5 & E3 & E4 & E5 & R5); [destruct (eqoff_new_dinode (slot (Z.of_nat k)) type (v (IBLOCK (Z.of_nat k) sb))) as [-> _]; [lia|done]|done|].
        destruct (iget_R ic _ s5 (Z.of_nat k) R5 Hl) as (ip & s6 & x & x' & E6 & Hx & R6 & Hcase); [exists ip0, x0; auto|].
        eapply wp_step; [exact E3|]. eapply wp_step; [exact E4|]. eapply wp_step; [exact E5|]. eapply wp_step; [exact E6|]. eexists (Z.of_nat k), _, x, x'. split_and!; [lia|lia|done|done|exact R6|done|done].
      + destruct (brelse_R sb _ _ _ _ _ _ _ _ R2 Hc) as (s3 & E3 & R3). eapply wp_step; [exact E3|]. split; [done|]. intros j Hj. destruct (decide (j = Z.of_nat k)) as [->|]; [done|]. apply Hall. lia. }
  destruct (wp_returns _ _ _ Hwp) as ([ip|] & s' & E1 & HQ); [|done]. destruct HQ as (i & g' & x & x' & H). exists ip, s', i, g', x, x'. split; [|exact H]. by erewrite bind_Ok by exact E1.
Qed.
End FsInode.
