(* ===== verification/FsCorrect.v ===== *)
(** * Files

    The inodes of a file system are files with bytes, a type and a number of
    links; a program refers to them through handles, which it locks to read
    and write.  Any sequence of calls of the inode functions does what it
    should to these files. *)

From stdpp Require Import base gmap list strings.
From Stdlib Require Import ZArith Lia.
From S2P Require Import Prelude CString Sync Sleeplock CacheSpec Log BlockSpec Fs FsLayout FsInv FsBlocks FsFile FsRw FsInode.
Local Open Scope Z_scope.

(** ** Abstract files *)

Record file := mkFile { f_type : Z; f_major : Z; f_minor : Z; f_nlink : Z; f_data : list Z }.
Definition with_data (l : list Z) (f : file) : file := mkFile (f_type f) (f_major f) (f_minor f) (f_nlink f) l.
Definition with_nlink (n : Z) (f : file) : file := mkFile (f_type f) (f_major f) (f_minor f) n (f_data f).
(** A pointer into the inode cache: the inode, how many references there are,
    and whether it has been read from the disk. *)
Record handle := mkHandle { h_inum : Z; h_count : Z; h_loaded : bool }.
Record afs := mkAfs { a_files : gmap Z file; a_handles : gmap nat handle; a_locked : gset nat }.

Inductive iop :=
| IGet (i : Z) | IDup (p : nat) | ILock (p : nat) | IUnlock (p : nat) | IPut (p : nat)
| IRead (p : nat) (off n : Z) | IWrite (p : nat) (off : Z) (l : list Z) | IAlloc (type : Z) | ILink (p : nat) (n : Z).
Inductive ires := RHandle (p : nat) | RDone | RRead (r : Z * list Z) | RCount (n : Z).

Definition fits (off : Z) (l data : list Z) : Prop :=
  0 <= off <= Z.of_nat (length data) /\ off + Z.of_nat (length l) <= MAXFILE * 512.

Inductive astep (ninodes : Z) : afs -> iop -> ires -> afs -> Prop :=
| AGet F H lk i p c b : H !! p = Some (mkHandle i c b) ->
    astep ninodes (mkAfs F H lk) (IGet i) (RHandle p) (mkAfs F (<[p := mkHandle i (c + 1) b]> H) lk)
| AGetNew F H lk i p : H !! p = None -> (forall q h, H !! q = Some h -> h_inum h <> i) ->
    astep ninodes (mkAfs F H lk) (IGet i) (RHandle p) (mkAfs F (<[p := mkHandle i 1 false]> H) lk)
| ADup F H lk i p c b : H !! p = Some (mkHandle i c b) ->
    astep ninodes (mkAfs F H lk) (IDup p) (RHandle p) (mkAfs F (<[p := mkHandle i (c + 1) b]> H) lk)
| ALock F H lk i p c b : H !! p = Some (mkHandle i c b) ->
    astep ninodes (mkAfs F H lk) (ILock p) RDone (mkAfs F (<[p := mkHandle i c true]> H) ({[p]} ∪ lk))
| AUnlock F H lk p : astep ninodes (mkAfs F H lk) (IUnlock p) RDone (mkAfs F H (lk ∖ {[p]}))
| APut F H lk i p c b f : H !! p = Some (mkHandle i c b) -> F !! i = Some f -> (b = true -> f_nlink f = 0 -> c <> 1) ->
    astep ninodes (mkAfs F H lk) (IPut p) RDone (mkAfs F (if decide (c = 1) then delete p H else <[p := mkHandle i (c - 1) b]> H) lk)
| APutLast F H lk i p f : H !! p = Some (mkHandle i 1 true) -> F !! i = Some f -> f_nlink f = 0 ->
    astep ninodes (mkAfs F H lk) (IPut p) RDone (mkAfs (delete i F) (delete p H) lk)
| ARead F H lk i p c b f off n : H !! p = Some (mkHandle i c b) -> F !! i = Some f ->
    astep ninodes (mkAfs F H lk) (IRead p off n) (RRead (read_result (f_data f) off n)) (mkAfs F H lk)
| AWrite F H lk i p c b f off l : H !! p = Some (mkHandle i c b) -> F !! i = Some f -> fits off l (f_data f) ->
    astep ninodes (mkAfs F H lk) (IWrite p off l) (RCount (Z.of_nat (length l)))
      (mkAfs (<[i := with_data (write_at (Z.to_nat off) l (f_data f)) f]> F) H lk)
| AWriteErr F H lk i p c b f off l : H !! p = Some (mkHandle i c b) -> F !! i = Some f -> ~ fits off l (f_data f) ->
    astep ninodes (mkAfs F H lk) (IWrite p off l) (RCount (-1)) (mkAfs F H lk)
| AAlloc F H lk i p type : 0 < i < ninodes -> F !! i = None -> H !! p = None ->
    astep ninodes (mkAfs F H lk) (IAlloc type) (RHandle p) (mkAfs (<[i := mkFile type 0 0 0 []]> F) (<[p := mkHandle i 1 false]> H) lk)
| ALink F H lk i p c b f n : H !! p = Some (mkHandle i c b) -> F !! i = Some f ->
    astep ninodes (mkAfs F H lk) (ILink p n) RDone (mkAfs (<[i := with_nlink n f]> F) H lk).

Section FsCorrect.
Context {L S : Type} `{HL : Locks L} `{HB : Blocks S} (me : Z) (sb : superblock) (Hly : layout sb) (Hfs : forall n, fs_block sb n -> bk_fs n)
  (Hlk : (NINODE < lk_count)%nat).
Notation fs := (fs (L := L) (S := S)).
Context (devsw_read : Z -> option (nat -> Z -> M fs (Z * list Z))) (devsw_write : Z -> option (nat -> list Z -> M fs Z)).
Implicit Types (v : Z -> block) (dk : history) (g B : gset Z) (h : list (nat * Z)) (ic : list inode) (s : fs) (D : Z -> dinode).
Notation R := (R sb).
Notation inv := (inv sb).
Notation entry := (entry sb).
Notation space := (space sb).

(** The calls themselves. *)
Definition iop_code (o : iop) : M fs ires :=
  match o with
  | IGet i => let! p := iget 1 i in ret (RHandle p)
  | IDup p => let! p := idup p in ret (RHandle p)
  | ILock p => ilock me p ;;; ret RDone
  | IUnlock p => iunlock me p ;;; ret RDone
  | IPut p => iput me p ;;; ret RDone
  | IRead p off n => let! r := readi devsw_read p off n in ret (RRead r)
  | IWrite p off l => let! n := writei devsw_write p l off (Z.of_nat (length l)) in ret (RCount n)
  | IAlloc type => let! p := ialloc 1 type in ret (RHandle p)
  | ILink p n => updd p (set_nlink n) ;;; iupdate p ;;; ret RDone
  end.

(** ** The relation between the two *)

Definition file_of v (d : dinode) : file := mkFile (d_type d) (d_major d) (d_minor d) (d_nlink d) (content v d).
Definition file_at v D (i : Z) : option file :=
  if decide (0 <= i < sb_ninodes sb /\ d_type (D i) <> 0) then Some (file_of v (D i)) else None.
Definition handle_of (x : inode) : option handle :=
  if decide (0 < i_ref x) then Some (mkHandle (i_inum x) (i_ref x) (i_valid x)) else None.
Record cache_ok (lk : gset nat) D (p : nat) (x : inode) : Prop := {
  co_ref : 0 <= i_ref x;
  co_lock : slocked (i_lock x) = bool_decide (p ∈ lk);
  co_locked : p ∈ lk -> spid (i_lock x) = me /\ 0 < i_ref x /\ i_valid x = true;
  co_inode : 0 < i_ref x -> i_dev x = 1 /\ 0 <= i_inum x < sb_ninodes sb /\ d_type (D (i_inum x)) <> 0 /\ (i_valid x = true -> i_d x = D (i_inum x))
}.
Record good (A : afs) ic v D : Prop := {
  gd_inv : inv v D [];
  gd_sync : forall i, 0 <= i < sb_ninodes sb -> dino sb v i = D i;
  gd_free : forall i, 0 <= i < sb_ninodes sb -> d_type (D i) = 0 -> d_size (D i) = 0;
  gd_files : forall i, a_files A !! i = file_at v D i;
  gd_len : length ic = NINODE;
  gd_cache : forall p x, ic !! p = Some x -> cache_ok (a_locked A) D p x;
  gd_handles : forall p, a_handles A !! p = ic !! p ≫= handle_of;
  gd_unique : forall p q x y, ic !! p = Some x -> ic !! q = Some y -> 0 < i_ref x -> 0 < i_ref y -> i_inum x = i_inum y -> p = q
}.

(** Inside a transaction that has logged the blocks [g]. *)
Definition inside (t : bool) (A : afs) dk g s : Prop := exists ic v D, R ic (mkTxn t v dk g []) s /\ good A ic v D.

Lemma file_at_Some v D i f : file_at v D i = Some f <-> 0 <= i < sb_ninodes sb /\ d_type (D i) <> 0 /\ f = file_of v (D i).
Proof.
  unfold file_at. destruct (decide _) as [[H1 H2]|Hn]; [split; [by intros [= <-]|by intros (_ & _ & ->)]|]. split; [done|]. intros (H1 & H2 & _). by destruct Hn.
Qed.

Lemma good_handle A ic v D p i c b : good A ic v D -> a_handles A !! p = Some (mkHandle i c b) ->
  exists x, entry ic p x i /\ i_ref x = c /\ i_valid x = b /\ 0 < c /\ d_type (D i) <> 0 /\ a_files A !! i = Some (file_of v (D i)) /\ (b = true -> i_d x = D i) /\ cache_ok (a_locked A) D p x.
Proof.
  intros G Hp. rewrite (gd_handles _ _ _ _ G) in Hp. apply bind_Some in Hp as (x & Hx & Hh). unfold handle_of in Hh. destruct (decide (0 < i_ref x)) as [Hr|]; [|done].
  injection Hh as <- <- <-. pose proof (gd_cache _ _ _ _ G p x Hx) as C. destruct (co_inode _ _ _ _ C Hr) as (H1 & H2 & H3 & H4). exists x.
  split_and!; [by split|done|done|done|done| |done|done]. rewrite (gd_files _ _ _ _ G). by apply file_at_Some.
Qed.
Lemma good_no_handle A ic v D p : good A ic v D -> (p < NINODE)%nat -> a_handles A !! p = None -> exists x, ic !! p = Some x /\ is_free x.
Proof.
  intros G Hp Hh. rewrite (gd_handles _ _ _ _ G) in Hh. destruct (lookup_lt_is_Some_2 ic p) as [x Hx]; [by rewrite (gd_len _ _ _ _ G)|]. exists x. split; [done|].
  rewrite Hx in Hh. simpl in Hh. unfold handle_of in Hh. destruct (decide (0 < i_ref x)); [done|]. pose proof (co_ref _ _ _ _ (gd_cache _ _ _ _ G p x Hx)). unfold is_free. lia.
Qed.
Lemma good_free_entry A ic v D p x : good A ic v D -> ic !! p = Some x -> is_free x -> a_handles A !! p = None /\ p ∉ a_locked A.
Proof.
  intros G Hx Hf. unfold is_free in Hf. rewrite (gd_handles _ _ _ _ G), Hx. simpl. unfold handle_of. rewrite decide_False by lia. split; [done|]. intros Hl.
  destruct (co_locked _ _ _ _ (gd_cache _ _ _ _ G p x Hx) Hl) as (_ & ? & _). lia.
Qed.
Lemma good_for A ic v D p x i : good A ic v D -> ic !! p = Some x -> is_for i x -> a_handles A !! p = Some (mkHandle i (i_ref x) (i_valid x)).
Proof. intros G Hx (Hr & _ & <-). rewrite (gd_handles _ _ _ _ G), Hx. simpl. unfold handle_of. by rewrite decide_True. Qed.

(** One cache entry changes; the files do not. *)
Lemma good_entry F H lk lk' ic v D p x x' : good (mkAfs F H lk) ic v D -> ic !! p = Some x -> cache_ok lk' D p x' -> (forall q, q <> p -> q ∈ lk' <-> q ∈ lk) ->
  (0 < i_ref x' -> forall q y, q <> p -> ic !! q = Some y -> 0 < i_ref y -> i_inum y <> i_inum x') ->
  good (mkAfs F (partial_alter (fun _ => handle_of x') p H) lk') (<[p := x']> ic) v D.
Proof.
  intros [G1 G2 G3 G4 G5 G6 G7 G8] Hx C Hlk' Hu. pose proof (lookup_lt_Some _ _ _ Hx) as Hlt. simpl in *. split; simpl; try done.
  - by rewrite length_insert.
  - intros q y Hy. destruct (decide (q = p)) as [->|Hne]; [rewrite list_lookup_insert_eq in Hy by done; by simplify_eq|].
    rewrite list_lookup_insert_ne in Hy by done. destruct (G6 q y Hy) as [C1 C2 C3 C4]. specialize (Hlk' q Hne). split; [done| |naive_solver|done].
    rewrite C2. by apply bool_decide_ext.
  - intros q. destruct (decide (q = p)) as [->|Hne].
    + by rewrite lookup_partial_alter_eq, list_lookup_insert_eq.
    + rewrite lookup_partial_alter_ne, list_lookup_insert_ne by done. apply G7.
  - intros q q' y y' Hy Hy' Hr Hr' Hi. destruct (decide (q = p)) as [->|Hq], (decide (q' = p)) as [->|Hq']; [done| | |].
    + rewrite list_lookup_insert_eq in Hy by done. rewrite list_lookup_insert_ne in Hy' by done. simplify_eq. by destruct (Hu Hr q' y' Hq').
    + rewrite list_lookup_insert_eq in Hy' by done. rewrite list_lookup_insert_ne in Hy by done. simplify_eq. by destruct (Hu Hr' q y Hq).
    + rewrite !list_lookup_insert_ne in Hy, Hy' by done. by eapply G8.
Qed.
Lemma good_others A ic v D p x : good A ic v D -> ic !! p = Some x -> 0 < i_ref x -> forall q y, q <> p -> ic !! q = Some y -> 0 < i_ref y -> i_inum y <> i_inum x.
Proof. intros G Hx Hr q y Hq Hy Hr' Hi. apply Hq. by eapply (gd_unique _ _ _ _ G). Qed.

(** Inode [i] changes, and the cache entry [p] that may be for it. *)
Lemma good_change F H lk ic v D p x x' i v' D' : good (mkAfs F H lk) ic v D -> ic !! p = Some x -> 0 <= i < sb_ninodes sb ->
  (forall q y, q <> p -> ic !! q = Some y -> 0 < i_ref y -> i_inum y <> i) -> (0 < i_ref x' -> i_inum x' = i) -> cache_ok lk D' p x' ->
  inv v' D' [] -> (forall j, 0 <= j < sb_ninodes sb -> dino sb v' j = D' j) -> (d_type (D' i) = 0 -> d_size (D' i) = 0) ->
  (forall j, j <> i -> D' j = D j) -> (forall j, 0 <= j < sb_ninodes sb -> j <> i -> content v' (D j) = content v (D j)) ->
  good (mkAfs (partial_alter (fun _ => file_at v' D' i) i F) (partial_alter (fun _ => handle_of x') p H) lk) (<[p := x']> ic) v' D'.
Proof.
  intros [G1 G2 G3 G4 G5 G6 G7 G8] Hx Hi Hoth Hx' C I' Hs' Hf' HD Hc. pose proof (lookup_lt_Some _ _ _ Hx) as Hlt. simpl in *. split; simpl.
  - done.
  - done.
  - intros j Hj. destruct (decide (j = i)) as [->|Hne]; [done|]. rewrite HD by done. auto.
  - intros j. destruct (decide (j = i)) as [->|Hne]; [by rewrite lookup_partial_alter_eq|]. rewrite lookup_partial_alter_ne, G4 by done. unfold file_at. rewrite HD by done.
    destruct (decide (0 <= j < sb_ninodes sb /\ d_type (D j) <> 0)) as [[Hj Ht]|]; [|done]. unfold file_of. by rewrite Hc.
  - by rewrite length_insert.
  - intros q y Hy. destruct (decide (q = p)) as [->|Hne]; [rewrite list_lookup_insert_eq in Hy by done; by simplify_eq|].
    rewrite list_lookup_insert_ne in Hy by done. destruct (G6 q y Hy) as [C1 C2 C3 C4]. split; [done..|]. intros Hr. rewrite (HD (i_inum y)) by (by eapply Hoth). auto.
  - intros q. destruct (decide (q = p)) as [->|Hne].
    + by rewrite lookup_partial_alter_eq, list_lookup_insert_eq.
    + rewrite lookup_partial_alter_ne, list_lookup_insert_ne by done. apply G7.
  - intros q q' y y' Hy Hy' Hr Hr' Hin. destruct (decide (q = p)) as [->|Hq], (decide (q' = p)) as [->|Hq']; [done| | |].
    + rewrite list_lookup_insert_eq in Hy by done. rewrite list_lookup_insert_ne in Hy' by done. simplify_eq. rewrite (Hx' Hr) in Hin. by destruct (Hoth q' y' Hq' Hy' Hr').
    + rewrite list_lookup_insert_eq in Hy' by done. rewrite list_lookup_insert_ne in Hy by done. simplify_eq. rewrite (Hx' Hr') in Hin. by destruct (Hoth q y Hq Hy Hr).
    + rewrite !list_lookup_insert_ne in Hy, Hy' by done. by eapply G8.
Qed.

(** The blocks a call may log. *)
Definition nbitmap : nat := Z.to_nat (sb_size sb / BPB + 1).
Definition cost (o : iop) : nat :=
  match o with
  | IPut _ => nbitmap + 2
  | IWrite _ off l => nbitmap + 3 + spans off (Z.of_nat (length l))
  | IAlloc _ | ILink _ _ => 1
  | _ => 0
  end.

(** ** The calls that leave the files alone *)

Definition does (t : bool) (A : afs) dk g s (o : iop) : Prop :=
  exists r s' A' g', iop_code o s = Ok r s' /\ inside t A' dk g' s' /\ astep (sb_ninodes sb) A o r A' /\ (size g' <= size g + cost o)%nat.

Lemma partial_alter_same {K V : Type} `{Countable K} (m : gmap K V) k o : m !! k = o -> partial_alter (fun _ => o) k m = m.
Proof. intros <-. by apply partial_alter_self. Qed.

Lemma does_get t A dk g s i : inside t A dk g s -> is_Some (a_files A !! i) -> (exists p, (p < NINODE)%nat /\ a_handles A !! p = None) \/ (exists p k, a_handles A !! p = Some k /\ h_inum k = i) ->
  does t A dk g s (IGet i).
Proof.
  destruct A as [F H lk]. intros (ic & v & D & HR & G) [f Hf] Hex. simpl in *. rewrite (gd_files _ _ _ _ G) in Hf. apply file_at_Some in Hf as (Hi & Ht & ->).
  destruct (iget_R sb Hlk ic _ s i HR (gd_len _ _ _ _ G)) as (p & s' & x & x' & E1 & Hx & R1 & Hcase).
  { destruct Hex as [(p & Hp & Hn)|(p & [j c b] & Hp & Hj)].
    - destruct (good_no_handle _ _ _ _ p G Hp Hn) as (x & Hx & Hfr). exists p, x. auto.
    - destruct (good_handle _ _ _ _ p j c b G Hp) as (x & En & Hc & _ & Hc0 & _). simpl in Hj. subst. exists p, x. split; [apply En|]. left. split_and!; [lia|apply En|apply En]. }
  pose proof (gd_cache _ _ _ _ G p x Hx) as C. exists (RHandle p), s'. destruct Hcase as [[Hfor ->]|(Hfree & -> & Hno)].
  - pose proof (good_for _ _ _ _ _ _ _ G Hx Hfor) as Hh. pose proof Hfor as (Hr & Hd & Hin). exists (mkAfs F (<[p := mkHandle i (i_ref x + 1) (i_valid x)]> H) lk), g.
    split_and!; [cbn [iop_code]; by erewrite bind_Ok by exact E1| |by econstructor|simpl; lia]. eexists _, v, D. split; [exact R1|].
    pose proof (good_entry F H lk lk ic v D p x (set_iref (i_ref x + 1) x) G Hx) as G'. unfold handle_of in G'. cbn [set_iref i_ref i_inum i_valid] in G'. rewrite decide_True, Hin in G' by lia.
    apply G'; [|done|intros _ q y Hq Hy Hr'; rewrite <- Hin; by eapply good_others]. destruct C as [C1 C2 C3 C4]. split; cbn [set_iref i_ref i_lock i_valid i_dev i_inum i_d]; [lia|done| |intros _; by apply C4].
    intros Hl. destruct (C3 Hl) as (? & ? & ?). split_and!; [done|lia|done].
  - destruct (good_free_entry _ _ _ _ _ _ G Hx Hfree) as [Hh Hnl]. exists (mkAfs F (<[p := mkHandle i 1 false]> H) lk), g.
    split_and!; [cbn [iop_code]; by erewrite bind_Ok by exact E1| | |simpl; lia].
    + eexists _, v, D. split; [exact R1|]. apply (good_entry F H lk lk ic v D p x (set_iident 1 i 1 x) G Hx); [|done|].
      * destruct C as [C1 C2 C3 C4]. split; cbn [set_iident i_ref i_lock i_valid i_dev i_inum i_d]; [lia|done|done|]. intros _. split_and!; [done|lia|lia|done|done].
      * intros _ q y Hq Hy Hr Hin. apply (Hno q y Hy). destruct (co_inode _ _ _ _ (gd_cache _ _ _ _ G q y Hy) Hr) as (Hd & _). by split_and!.
    + constructor; [done|]. intros q [j c b] Hq Hj. simpl in Hj. subst. destruct (good_handle _ _ _ _ q i c b G Hq) as (y & En & Hc & _ & Hc0 & _).
      apply (Hno q y); [apply En|]. split_and!; [lia|apply En|apply En].
Qed.

Lemma does_dup t A dk g s p : inside t A dk g s -> is_Some (a_handles A !! p) -> does t A dk g s (IDup p).
Proof.
  destruct A as [F H lk]. intros (ic & v & D & HR & G) [[i c b] Hp]. simpl in *. destruct (good_handle _ _ _ _ p i c b G Hp) as (x & En & Hc & Hb & Hc0 & Ht & _ & Hd & C).
  pose proof En as [Hx Hdev Hinum Hi]. destruct (idup_R sb Hlk ic _ s p x HR Hx) as (s' & E1 & R1). exists (RHandle p), s', (mkAfs F (<[p := mkHandle i (c + 1) b]> H) lk), g.
  split_and!; [cbn [iop_code]; by erewrite bind_Ok by exact E1| |by econstructor|simpl; lia]. eexists _, v, D. split; [exact R1|].
  pose proof (good_entry F H lk lk ic v D p x (set_iref (i_ref x + 1) x) G Hx) as G'. unfold handle_of in G'. cbn [set_iref i_ref i_inum i_valid] in G'. rewrite decide_True, Hinum, Hc, Hb in G' by lia.
  rewrite Hc. apply G'; [|done|intros _ q y Hq Hy Hr'; rewrite <- Hinum; eapply good_others; [done..|lia|done|done|done]]. destruct C as [C1 C2 C3 C4].
  split; cbn [set_iref i_ref i_lock i_valid i_dev i_inum i_d]; [lia|done| |intros _; apply C4; lia]. intros Hl. destruct (C3 Hl) as (? & ? & ?). split_and!; [done|lia|done].
Qed.

Lemma does_lock t A dk g s p : inside t A dk g s -> is_Some (a_handles A !! p) -> p ∉ a_locked A -> does t A dk g s (ILock p).
Proof.
  destruct A as [F H lk]. intros (ic & v & D & HR & G) [[i c b] Hp] Hl. simpl in *. destruct (good_handle _ _ _ _ p i c b G Hp) as (x & En & Hc & Hb & Hc0 & Ht & _ & Hd & C).
  pose proof En as [Hx Hdev Hinum Hi]. assert ((if i_valid x then i_d x else dino sb v i) = D i) as Hdd.
  { rewrite Hb. destruct b; [by apply Hd|by apply (gd_sync _ _ _ _ G)]. }
  destruct (ilock_R me sb Hly Hfs Hlk ic v D [] dk g s p x i HR (gd_inv _ _ _ _ G) (gd_len _ _ _ _ G) En) as (s' & E1 & R1); [lia|rewrite (co_lock _ _ _ _ C); by apply bool_decide_false|by rewrite Hdd|].
  rewrite Hdd in R1. exists RDone, s', (mkAfs F (<[p := mkHandle i c true]> H) ({[p]} ∪ lk)), g. split_and!; [cbn [iop_code]; by erewrite bind_Ok by exact E1| |by econstructor|simpl; lia].
  eexists _, v, D. split; [exact R1|]. pose proof (good_entry F H lk ({[p]} ∪ lk) ic v D p x (entry_of (locked_by me (i_lock x)) (D i) x) G Hx) as G'.
  unfold handle_of in G'. cbn [entry_of i_ref i_inum i_valid] in G'. rewrite decide_True, Hinum, Hc in G' by lia.
  apply G'; [|set_solver|intros _ q y Hq Hy Hr'; rewrite <- Hinum; eapply good_others; [done..|lia|done|done|done]].
  split; cbn [entry_of i_ref i_lock i_valid i_dev i_inum i_d locked_by slocked spid]; [lia|rewrite bool_decide_true by set_solver; done|intros _; split_and!; [done|lia|done]|].
  intros _. rewrite Hinum. by split_and!; [|lia|lia| |].
Qed.

Lemma does_unlock t A dk g s p : inside t A dk g s -> p ∈ a_locked A -> is_Some (a_handles A !! p) -> does t A dk g s (IUnlock p).
Proof.
  destruct A as [F H lk]. intros (ic & v & D & HR & G) Hl [[i c b] Hp]. simpl in *. destruct (good_handle _ _ _ _ p i c b G Hp) as (x & En & Hc & Hb & Hc0 & Ht & _ & Hd & C).
  pose proof En as [Hx Hdev Hinum Hi]. destruct (co_locked _ _ _ _ C Hl) as (Hpid & Hr & Hv).
  destruct (iunlock_R me sb Hlk ic _ s p x HR (gd_len _ _ _ _ G) Hx) as (s' & E1 & R1); [lia|rewrite (co_lock _ _ _ _ C); by apply bool_decide_true|done|].
  exists RDone, s', (mkAfs F H (lk ∖ {[p]})), g. split_and!; [cbn [iop_code]; by erewrite bind_Ok by exact E1| |by econstructor|simpl; lia]. eexists _, v, D. split; [exact R1|].
  pose proof (good_entry F H lk (lk ∖ {[p]}) ic v D p x (set_ilock (unlocked (i_lock x)) x) G Hx) as G'. unfold handle_of in G'. cbn [set_ilock i_ref i_inum i_valid] in G'.
  rewrite decide_True, Hinum, Hc, Hb in G' by lia. rewrite (partial_alter_same H p (Some (mkHandle i c b))) in G' by done.
  apply G'; [|set_solver|intros _ q y Hq Hy Hr'; rewrite <- Hinum; eapply good_others; [done..|lia|done|done|done]]. destruct C as [C1 C2 C3 C4].
  split; cbn [set_ilock i_ref i_lock i_valid i_dev i_inum i_d unlocked slocked]; [lia|rewrite bool_decide_false by set_solver; done|set_solver|intros _; apply C4; lia].
Qed.

Lemma does_read t A dk g s p i c b f off n : inside t A dk g s -> p ∈ a_locked A -> a_handles A !! p = Some (mkHandle i c b) -> a_files A !! i = Some f -> f_type f <> T_DEV -> uint32 off -> uint32 n ->
  does t A dk g s (IRead p off n).
Proof.
  destruct A as [F H lk]. intros (ic & v & D & HR & G) Hl Hp Hf Ht Ho Hn. simpl in *. destruct (good_handle _ _ _ _ p i c b G Hp) as (x & En & Hc & Hb & Hc0 & _ & Hf' & Hd & C).
  destruct (co_locked _ _ _ _ C Hl) as (_ & _ & Hv). simpl in Hf'. rewrite Hf in Hf'. injection Hf' as ->.
  destruct (readi_R (o := t) sb Hly Hfs devsw_read ic v D [] dk g p x i off n s (gd_inv _ _ _ _ G) En) as (s' & E1 & R1); [apply Hd; congruence|done..|].
  eexists (RRead _), s', (mkAfs F H lk), g. split_and!; [cbn [iop_code]; by erewrite bind_Ok by exact E1|by exists ic, v, D| |simpl; lia]. by apply (ARead _ F H lk i p c b (file_of v (D i))).
Qed.

(** ** The calls that change files *)

Definition bitmap : gset Z := list_to_set (seqZ (sb_bmapstart sb) (sb_size sb / BPB + 1)).
(** The blocks besides data that writing inode [i] touches. *)
Definition meta (i : Z) (d : dinode) : gset Z := {[IBLOCK i sb]} ∪ ({[addr d NDIRECT]} ∪ bitmap).
Lemma elem_of_bitmap b : 0 <= b < sb_size sb -> BBLOCK b sb ∈ bitmap.
Proof.
  intros Hb. unfold bitmap. apply elem_of_list_to_set, elem_of_seqZ. pose proof (BBLOCK_range sb b Hb) as Hr. unfold datastart in Hr. lia.
Qed.
Lemma room_of i d k g : (size g + nbitmap + 2 + k <= bk_room)%nat -> room (o := true) (meta i d) k g.
Proof.
  unfold room. intros Hr. assert (size (g ∪ meta i d) <= size g + (nbitmap + 2))%nat; [|lia].
  assert (size bitmap = nbitmap) as Hb.
  { unfold bitmap, nbitmap. rewrite size_list_to_set by apply NoDup_seqZ. apply length_seqZ. }
  assert (forall X Y : gset Z, size (X ∪ Y) <= size X + size Y)%nat as Hu.
  { intros X Y. rewrite size_union_alt. assert (size (Y ∖ X) <= size Y)%nat by (apply subseteq_size; apply subseteq_difference_l; done). lia. }
  etrans; [apply Hu|]. unfold meta. pose proof (Hu {[IBLOCK i sb]} ({[addr d NDIRECT]} ∪ bitmap)) as H1. pose proof (Hu {[addr d NDIRECT]} bitmap) as H2. rewrite size_singleton in H1, H2. lia.
Qed.
Lemma meta_bitmap i d b : 0 <= b < sb_size sb -> BBLOCK b sb ∈ meta i d.
Proof. intros Hb. unfold meta. apply elem_of_union_r, elem_of_union_r. by apply elem_of_bitmap. Qed.
Lemma meta_inode i d : IBLOCK i sb ∈ meta i d.
Proof. unfold meta. by apply elem_of_union_l, elem_of_singleton. Qed.
Lemma meta_indirect i d : addr d NDIRECT ∈ meta i d.
Proof. unfold meta. by apply elem_of_union_r, elem_of_union_l, elem_of_singleton. Qed.

Lemma ptrs_empty v d : d_size d = 0 -> ptrs v d = [].
Proof. intros Hs. unfold ptrs. by rewrite Hs. Qed.
Lemma content_empty v d : d_size d = 0 -> content v d = [].
Proof. intros Hs. unfold content. by rewrite Hs. Qed.

Lemma does_put_last A dk g s p i f : inside true A dk g s -> a_handles A !! p = Some (mkHandle i 1 true) -> p ∉ a_locked A -> a_files A !! i = Some f -> f_nlink f = 0 ->
  (size g + cost (IPut p) <= bk_room)%nat -> does true A dk g s (IPut p).
Proof.
  destruct A as [F H lk]. intros (ic & v & D & HR & G) Hp Hl Hf Hn Hroom. simpl in *. destruct (good_handle _ _ _ _ p i 1 true G Hp) as (x & En & Hc & Hb & _ & Ht & Hf' & Hd & C).
  simpl in Hf'. rewrite Hf in Hf'. injection Hf' as ->. pose proof En as [Hx Hdev Hinum Hi]. simpl in Hn. pose proof (gd_inv _ _ _ _ G) as I. pose proof (iv_wf _ _ _ _ I i Hi) as W.
  destruct (iput_free (o := true) me sb Hly Hfs Hlk ic v D dk g p x i (meta i (D i)) (bk_room - (size g + nbitmap + 2)) s I En (meta_bitmap i (D i)) HR (gd_len _ _ _ _ G)) as (s' & v4 & g' & E1 & R1 & I4 & Hv4 & Hr4);
    [rewrite (co_lock _ _ _ _ C); by apply bool_decide_false|done|by apply Hd|done|done|apply meta_inode|apply room_of; lia|].
  set (d0 := emptied (D i)) in *. set (d1 := freed (D i)) in *. set (v' := put_dino sb i d1 (put_dino sb i d0 v4)) in *.
  exists RDone, s', (mkAfs (delete i F) (delete p H) lk), g'. split_and!; [cbn [iop_code]; by erewrite bind_Ok by exact E1| |by apply (APutLast _ F H lk i p (file_of v (D i)))|apply room_size in Hr4; simpl; lia].
  assert (inv v' (fset i d0 D) []) as I5 by (apply inv_put_dino; [done|by apply inv_put_dino|done]). assert (dinode_ok (set_type 0 (D i))) as Hok1.
  { destruct (dw_ok _ _ W) as (Hs & H2). split; [|done]. apply Forall_cons in Hs as [_ Hs]. simpl. constructor; [lia|done]. }
  assert (inv v' (fset i d1 D) []) as I6.
  { apply (inv_ext sb v' (fset i d1 (fset i d0 D))); [|intros j _; symmetry; apply fset_fset]. apply (inv_set sb Hly); [done|done|apply (emptied_wf Hlk v' (set_type 0 (D i)) Hok1)|].
    rewrite fset_eq. by rewrite !ptrs_empty. }
  assert (forall j, 0 <= j < sb_ninodes sb -> j <> i -> content v4 (D j) = content v (D j)) as Hcont.
  { intros j Hj Hne. apply content_same; [by apply I|]. intros b' Hb'. destruct (inv_ptr sb v D [] j b' I Hj Hb') as (Hr & _). apply Hv4. lia. }
  exists (<[p := put_entry (set_ivalid false (set_id d1 x))]> ic), v', (fset i d1 D). split; [exact R1|].
  pose proof (good_change F H lk ic v D p x (put_entry (set_ivalid false (set_id d1 x))) i v' (fset i d1 D) G Hx Hi) as G'.
  unfold file_at in G'. rewrite fset_eq, decide_False in G' by (intros [_ Hz]; by apply Hz). unfold handle_of in G'. cbn [put_entry set_iref i_ref set_ilock set_ivalid set_id] in G'.
  rewrite Hc in G'. simpl in G'. apply G'; clear G'.
  - intros q y Hq Hy Hr. rewrite <- Hinum. eapply good_others; [done..|lia|done|done|done].
  - lia.
  - split; cbn [put_entry set_iref i_ref set_ilock set_ivalid set_id i_lock unlocked slocked]; [lia|by rewrite bool_decide_false|done|lia].
  - done.
  - intros j Hj. unfold v'. rewrite dino_put; [|lia|lia|apply (emptied_wf Hlk v' (set_type 0 (D i)) Hok1)|by apply (inv_put_dino sb Hly v4 (fset i d0 D) [] i), IBLOCK_fs].
    destruct (decide (j = i)) as [->|Hne]; [by rewrite fset_eq|]. rewrite dino_put; [|lia|lia|apply (emptied_wf Hlk v' (D i)), W|by apply I4, IBLOCK_fs].
    rewrite decide_False, fset_ne by done. rewrite <- (gd_sync _ _ _ _ G) by done. unfold dino. rewrite Hv4; [done|]. pose proof (IBLOCK_range sb Hly j Hj). lia.
  - done.
  - intros j Hne. by rewrite fset_ne.
  - intros j Hj Hne. rewrite <- (Hcont j Hj Hne). rewrite <- (fset_ne i d0 D j Hne). unfold v'. rewrite (content_put_dino sb Hly _ (fset i d0 D) []); [|by apply inv_put_dino|done|done].
    by apply (content_put_dino sb Hly _ (fset i d0 D) []).
Qed.

Lemma put_keep t F H lk dk g s p i c b f : inside t (mkAfs F H lk) dk g s -> H !! p = Some (mkHandle i c b) -> p ∉ lk -> F !! i = Some f -> (b = true -> f_nlink f = 0 -> c <> 1) ->
  exists s', iput me p s = Ok tt s' /\ inside t (mkAfs F (if decide (c = 1) then delete p H else <[p := mkHandle i (c - 1) b]> H) lk) dk g s'.
Proof.
  intros (ic & v & D & HR & G) Hp Hl Hf Hkeep. destruct (good_handle _ _ _ _ p i c b G Hp) as (x & En & Hc & Hb & Hc0 & Ht & Hf' & Hd & C).
  simpl in Hf', C. rewrite Hf in Hf'. injection Hf' as ->. pose proof En as [Hx Hdev Hinum Hi].
  destruct (iput_keep me sb Hlk ic _ s p x HR Hx (gd_len _ _ _ _ G)) as (s' & E1 & R1); [rewrite (co_lock _ _ _ _ C); by apply bool_decide_false| |].
  { intros Hv Hn Hr. rewrite Hb in Hv. rewrite Hd in Hn by done. apply Hkeep; [done|done|lia]. }
  exists s'. split; [done|].
  eexists _, v, D. split; [exact R1|]. pose proof (good_entry F H lk lk ic v D p x (put_entry x) G Hx) as G'. unfold handle_of in G'. cbn [put_entry set_iref set_ilock i_ref i_inum i_valid] in G'.
  rewrite Hc, Hb, Hinum in G'. assert (partial_alter (fun _ => if decide (0 < c - 1) then Some (mkHandle i (c - 1) b) else None) p H = (if decide (c = 1) then delete p H else <[p := mkHandle i (c - 1) b]> H)) as HH.
  { destruct (decide (c = 1)) as [->|]; [by rewrite decide_False by lia|by rewrite decide_True by lia]. }
  rewrite HH in G'. apply G'; [|done|intros _ q y Hq Hy Hr'; rewrite <- Hinum; eapply good_others; [done..|lia|done|done|done]].
  destruct C as [C1 C2 C3 C4]. split; cbn [put_entry set_iref set_ilock i_ref i_lock i_valid i_dev i_inum i_d unlocked slocked]; [lia|by rewrite bool_decide_false|done|]. intros _. apply C4. lia.
Qed.
Lemma does_put A dk g s p : inside true A dk g s -> is_Some (a_handles A !! p) -> p ∉ a_locked A -> (size g + cost (IPut p) <= bk_room)%nat -> does true A dk g s (IPut p).
Proof.
  destruct A as [F H lk]. intros HI [[i c b] Hp] Hl Hroom. pose proof HI as (ic & v & D & HR & G). destruct (good_handle _ _ _ _ p i c b G Hp) as (_ & _ & _ & _ & _ & _ & Hf & _). simpl in *.
  destruct (decide (b = true /\ d_nlink (D i) = 0 /\ c = 1)) as [(-> & Hn & ->)|Hkeep]; [by eapply does_put_last|].
  assert (b = true -> f_nlink (file_of v (D i)) = 0 -> c <> 1) as Hk by (intros -> Hn Hc1; by apply Hkeep). destruct (put_keep true F H lk dk g s p i c b _ HI Hp Hl Hf Hk) as (s' & E1 & I1).
  eexists RDone, s', _, g. split_and!; [cbn [iop_code]; by erewrite bind_Ok by exact E1|exact I1| |simpl; lia]. by eapply APut.
Qed.

Lemma does_alloc A dk g s type : inside true A dk g s -> type <> 0 -> - 2 ^ 15 <= type < 2 ^ 15 -> (exists i, 0 < i < sb_ninodes sb /\ a_files A !! i = None) ->
  (exists p, (p < NINODE)%nat /\ a_handles A !! p = None) -> (size g + cost (IAlloc type) <= bk_room)%nat -> does true A dk g s (IAlloc type).
Proof.
  destruct A as [F H lk]. intros (ic & v & D & HR & G) Ht0 Ht (i0 & Hi0 & Hf0) (p0 & Hp0 & Hh0) Hroom. simpl in *. pose proof (gd_inv _ _ _ _ G) as I.
  assert (forall i, 0 <= i < sb_ninodes sb -> d_type (D i) = 0 <-> F !! i = None) as Hfree.
  { intros i Hi. pose proof (gd_files _ _ _ _ G i) as E. simpl in E. rewrite E. unfold file_at.
    destruct (decide (0 <= i < sb_ninodes sb /\ d_type (D i) <> 0)) as [[_ Hz]|Hn]; [by split|]. split; [done|]. intros _. destruct (decide (d_type (D i) = 0)); [done|]. by destruct Hn. }
  destruct (good_no_handle _ _ _ _ p0 G Hp0 Hh0) as (x0 & Hx0 & Hfr0).
  destruct (ialloc_R sb Hly Hfs Hlk ic v D dk g ∅ (bk_room - (size g + 1)) type s I HR (gd_len _ _ _ _ G)) as (p & s' & i & g' & x & x' & E1 & Hi & Hdt & Hx & R1 & Hr1 & Hcase);
    [split; [done|]; rewrite (union_empty_r_L g); lia|exists i0; split; [done|rewrite (gd_sync _ _ _ _ G) by lia; apply Hfree; [lia|done]]|by exists p0, x0|]. assert (0 <= i < sb_ninodes sb) as Hir by lia. rewrite (gd_sync _ _ _ _ G) in Hdt by done.
  destruct Hcase as [[(Hr & Hd & Hin) _]|(Hfr & -> & Hno)]; [destruct (co_inode _ _ _ _ (gd_cache _ _ _ _ G p x Hx) Hr) as (_ & _ & Hz & _); by rewrite Hin in Hz|].
  destruct (good_free_entry _ _ _ _ _ _ G Hx Hfr) as [Hh Hnl]. pose proof (iv_len _ _ _ _ I _ (IBLOCK_fs sb Hly i Hir)) as Hlen. simpl in *.
  set (v' := alloc_dino sb i type v) in *. set (d1 := new_dinode type) in *. assert (dinode_ok d1) as Hok by (split_and!; [repeat constructor; simpl; lia|unfold uint32; simpl; lia|done|repeat constructor; unfold uint32; lia]).
  assert (inv v' D []) as I1 by (by apply inv_alloc). assert (inv v' (fset i d1 D) []) as I2.
  { apply (inv_set sb Hly); [done|done|apply (emptied_wf Hlk v' d1 Hok)|]. rewrite !ptrs_empty; [done|by apply (gd_free _ _ _ _ G)|done]. }
  exists (RHandle p), s', (mkAfs (<[i := mkFile type 0 0 0 []]> F) (<[p := mkHandle i 1 false]> H) lk), g'. split_and!; [cbn [iop_code]; by erewrite bind_Ok by exact E1| | |apply room_size in Hr1; simpl; lia].
  2:{ constructor; [done| |done]. by apply Hfree. }
  exists (<[p := set_iident 1 i 1 x]> ic), v', (fset i d1 D). split; [exact R1|].
  pose proof (good_change F H lk ic v D p x (set_iident 1 i 1 x) i v' (fset i d1 D) G Hx Hir) as G'. unfold file_at in G'. rewrite fset_eq, decide_True in G' by done.
  unfold file_of in G'. rewrite (content_empty v' d1) in G' by done. apply G'; clear G'.
  - intros q y Hq Hy Hr Hin. apply (Hno q y Hy). destruct (co_inode _ _ _ _ (gd_cache _ _ _ _ G q y Hy) Hr) as (Hd & _). by split_and!.
  - done.
  - destruct (gd_cache _ _ _ _ G p x Hx) as [C1 C2 C3 C4]. split; cbn [set_iident i_ref i_lock i_valid i_dev i_inum i_d]; [lia|done|done|]. intros _. rewrite fset_eq. by split_and!; [|lia|lia| |].
  - done.
  - intros j Hj. unfold v'. rewrite (dino_alloc sb Hlk i type v j) by (done || lia). unfold fset. destruct (decide (j = i)) as [->|Hne]; [by rewrite Z.eqb_refl|].
    destruct (Z.eqb_spec j i); [done|]. by apply (gd_sync _ _ _ _ G).
  - done.
  - intros j Hne. by rewrite fset_ne.
  - intros j Hj Hne. apply content_same; [by apply I|]. intros b Hb. destruct (inv_ptr sb v D [] j b I Hj Hb) as (Hr & _). apply vput_ne.
    pose proof (IBLOCK_range sb Hly i Hir). pose proof (start_order sb Hly). lia.
Qed.

(** [h] changes the numbers of an inode, and [iupdate] writes them. *)
Lemma set_meta F H lk dk g s p i c b f (h : dinode -> dinode) M m n : inside true (mkAfs F H lk) dk g s -> p ∈ lk -> H !! p = Some (mkHandle i c b) -> F !! i = Some f ->
  Forall (fun z => - 2 ^ 15 <= z < 2 ^ 15) [M; m; n] ->
  (forall d, d_major d = f_major f -> d_minor d = f_minor f -> d_nlink d = f_nlink f -> h d = mkDinode (d_type d) M m n (d_size d) (d_addrs d)) -> (size g + 1 <= bk_room)%nat ->
  exists s' g', (updd p h ;;; iupdate p) s = Ok tt s' /\ inside true (mkAfs (<[i := mkFile (f_type f) M m n (f_data f)]> F) H lk) dk g' s' /\ (size g' <= size g + 1)%nat.
Proof.
  intros (ic & v & D & HR & G) Hl Hp Hf Hn Hh Hroom. destruct (good_handle _ _ _ _ p i c b G Hp) as (x & En & Hc & Hb & Hc0 & Ht & Hf' & Hd & C).
  simpl in Hf'. rewrite Hf in Hf'. injection Hf' as ->. pose proof En as [Hx Hdev Hinum Hi]. destruct (co_locked _ _ _ _ C Hl) as (_ & _ & Hv). rewrite Hb in Hv. specialize (Hd Hv).
  pose proof (gd_inv _ _ _ _ G) as I. pose proof (iv_wf _ _ _ _ I i Hi) as W. pose proof (lookup_lt_Some _ _ _ Hx) as Hlt.
  set (d1 := mkDinode (d_type (D i)) M m n (d_size (D i)) (d_addrs (D i))). assert (h (D i) = d1) as Hd1 by (by apply Hh).
  assert (dinode_ok d1) as Hok1. { destruct (dw_ok _ _ W) as (Hs & H2). split; [|done]. apply Forall_cons in Hs as [? _]. by constructor. }
  destruct (updi_R sb _ _ _ p x (fun y => set_id (h (i_d y)) y) HR Hx) as (s1 & E1 & R1). rewrite Hd, Hd1 in R1.
  assert (loggable (o := true) (IBLOCK i sb) g) as Hlog by (split; [done|right; lia]).
  destruct (iupdate_R sb Hly Hfs _ v dk g [] s1 p (set_id d1 x) R1) as (s2 & E2 & R2); cbn [set_id i_dev i_inum i_d]; rewrite ?Hinum;
    [by apply list_lookup_insert_eq|done|done|apply not_elem_of_nil|simpl; lia|by apply I, IBLOCK_fs|done|]. cbn [set_id i_dev i_inum i_d] in R2. rewrite Hinum in R2.
  set (v' := put_dino sb i d1 v) in *. assert (dwf v' d1 /\ ptrs v' d1 = ptrs v' (D i)) as [W1 Hp1].
  { pose proof (iv_wf _ _ _ _ (inv_put_dino sb Hly v D [] i d1 I Hi) i Hi) as [W2 W3 W4 W5]. by split. }
  exists s2, ({[IBLOCK i sb]} ∪ g). split_and!; [unfold updd; by erewrite bind_Ok by exact E1|exists (<[p := set_id d1 x]> ic), v', (fset i d1 D); split; [exact R2|]|rewrite size_union_alt, size_singleton; assert (size (g ∖ {[IBLOCK i sb]}) <= size g)%nat by (apply subseteq_size, subseteq_difference_l; done); lia].
  pose proof (good_change F H lk ic v D p x (set_id d1 x) i v' (fset i d1 D) G Hx Hi) as G'. unfold file_at in G'. rewrite fset_eq, decide_True in G' by done.
  unfold handle_of in G'. cbn [set_id i_ref i_inum i_valid] in G'. rewrite decide_True, Hinum, Hc, Hb in G' by lia. rewrite (partial_alter_same H p (Some (mkHandle i c b))) in G' by done.
  assert (file_of v' d1 = mkFile (f_type (file_of v (D i))) M m n (f_data (file_of v (D i)))) as Hfile. { unfold file_of. cbn [f_type f_data d1 d_type d_major d_minor d_nlink]. f_equal. apply (content_put_dino sb Hly v D [] i d1 i); done. }
  rewrite Hfile in G'. apply G'; clear G'.
  - intros q y Hq Hy Hr. rewrite <- Hinum. eapply good_others; [done..|lia|done|done|done].
  - done.
  - destruct C as [C1 C2 C3 C4]. split; cbn [set_id i_ref i_lock i_valid i_dev i_inum i_d]; [done..|]. intros _. rewrite Hinum, fset_eq. by split_and!; [|lia|lia| |].
  - by apply (inv_set sb Hly); [by apply inv_put_dino|..].
  - intros j Hj. unfold v'. rewrite dino_put; [|lia|lia|done|by apply I, IBLOCK_fs]. unfold fset. destruct (decide (j = i)) as [->|Hne]; [by rewrite Z.eqb_refl|].
    destruct (Z.eqb_spec j i); [done|]. by apply (gd_sync _ _ _ _ G).
  - intros Hz. by apply (gd_free _ _ _ _ G).
  - intros j Hne. by rewrite fset_ne.
  - intros j Hj Hne. by apply (content_put_dino sb Hly v D []).
Qed.
Lemma file_shorts t A dk g s i f : inside t A dk g s -> a_files A !! i = Some f -> Forall (fun z => - 2 ^ 15 <= z < 2 ^ 15) [f_type f; f_major f; f_minor f; f_nlink f].
Proof.
  intros (ic & v & D & HR & G) Hf. rewrite (gd_files _ _ _ _ G) in Hf. apply file_at_Some in Hf as (Hi & _ & ->). by destruct (dw_ok _ _ (iv_wf _ _ _ _ (gd_inv _ _ _ _ G) i Hi)) as (Hs & _).
Qed.
Lemma does_link A dk g s p i c b f n : inside true A dk g s -> p ∈ a_locked A -> a_handles A !! p = Some (mkHandle i c b) -> a_files A !! i = Some f -> - 2 ^ 15 <= n < 2 ^ 15 ->
  (size g + cost (ILink p n) <= bk_room)%nat -> does true A dk g s (ILink p n).
Proof.
  destruct A as [F H lk]. intros HI Hl Hp Hf Hn Hroom. simpl in *. pose proof (file_shorts _ _ _ _ _ _ _ HI Hf) as Hs. rewrite !Forall_cons in Hs. destruct Hs as (_ & ? & ? & _).
  destruct (set_meta F H lk dk g s p i c b f (set_nlink n) (f_major f) (f_minor f) n HI Hl Hp Hf) as (s' & g' & E & I' & Hg); [by do 3 (apply Forall_cons_2; [done|])|by intros d <- <- _|lia|].
  exists RDone, s', (mkAfs (<[i := with_nlink n f]> F) H lk), g'. split_and!; [|done|by econstructor|simpl; lia]. cbn [iop_code]. rewrite <- bind_assoc. by erewrite bind_Ok by exact E.
Qed.

(** The blocks a file of [f_data] takes, with the indirect block. *)
Definition blocks_for (f : file) : nat := nptrs (nblocks (Z.of_nat (length (f_data f)))).
Definition usage (F : gmap Z file) : nat := sum_list (map (fun i => from_option blocks_for 0%nat (F !! i)) (inums sb)).

Lemma blocks_for_ptrs v d : 0 <= d_size d -> blocks_for (file_of v d) = length (ptrs v d).
Proof. intros Hs. unfold blocks_for, nptrs. cbn [file_of f_data]. rewrite length_content, Z2Nat.id by done. by rewrite length_ptrs. Qed.
Lemma usage_owned A ic v D : good A ic v D -> usage (a_files A) = length (owned sb v D).
Proof.
  intros G. unfold usage, owned. rewrite length_concat. f_equal. change (@fmap list list_fmap) with (fun A B => @map A B). cbn beta. rewrite map_map. apply map_ext_in. intros i Hi%list_elem_of_In.
  apply elem_of_seqZ in Hi. rewrite (gd_files _ _ _ _ G). unfold file_at. pose proof (iv_wf _ _ _ _ (gd_inv _ _ _ _ G) i ltac:(lia)) as W. destruct (decide _) as [_|Hn]; simpl.
  - apply blocks_for_ptrs. apply (dw_ok _ _ W).
  - rewrite ptrs_empty; [done|]. apply (gd_free _ _ _ _ G); [lia|]. destruct (decide (d_type (D i) = 0)); [done|]. destruct Hn. split; [lia|done].
Qed.
Lemma good_space A ic v D : good A ic v D -> space v = (length (data_blocks sb) - usage (a_files A))%nat.
Proof. intros G. unfold space. by rewrite (usage_owned _ _ _ _ G), <- (iv_own _ _ _ _ (gd_inv _ _ _ _ G)), app_nil_r. Qed.

Lemma writei_misfit t A ic v D dk g s p x i off l : good A ic v D -> entry ic p x i -> i_d x = D i -> R ic (mkTxn t v dk g []) s -> d_type (D i) <> T_DEV -> uint32 off -> uint32 (Z.of_nat (length l)) ->
  ~ fits off l (content v (D i)) -> writei devsw_write p l off (Z.of_nat (length l)) s = Ok (-1) s.
Proof.
  intros G En Hd HR Ht Ho Hl Hn. pose proof (dw_ok _ _ (iv_wf _ _ _ _ (gd_inv _ _ _ _ G) i (en_range _ _ _ _ _ En))) as (_ & Hs & _).
  unfold writei. erewrite bind_Ok by exact (geti_R sb _ _ _ _ _ HR (en_at _ _ _ _ _ En)). rewrite Hd. destruct (Z.eqb_spec (d_type (D i)) T_DEV); [done|].
  destruct ((d_size (D i) <? off) || (u32 (off + Z.of_nat (length l)) <? off)) eqn:E1; [done|]. apply orb_false_iff in E1 as [E1%Z.ltb_ge E2%Z.ltb_ge].
  destruct (Z.ltb_spec (MAXFILE * Z.of_nat BSIZE) (off + Z.of_nat (length l))) as [|E3]; [done|]. destruct Hn. change (Z.of_nat BSIZE) with 512 in E3. unfold fits, uint32 in *. rewrite length_content. lia.
Qed.

Lemma does_write A dk g s p i c b f off l : inside true A dk g s -> p ∈ a_locked A -> a_handles A !! p = Some (mkHandle i c b) -> a_files A !! i = Some f -> f_type f <> T_DEV ->
  uint32 off -> uint32 (Z.of_nat (length l)) ->
  (fits off l (f_data f) -> usage (a_files A) + (blocks_for (with_data (write_at (Z.to_nat off) l (f_data f)) f) - blocks_for f) <= length (data_blocks sb))%nat ->
  (size g + cost (IWrite p off l) <= bk_room)%nat -> does true A dk g s (IWrite p off l).
Proof.
  destruct A as [F H lk]. intros (ic & v & D & HR & G) Hl Hp Hf Ht Ho Hn Husage Hroom. simpl in *. destruct (good_handle _ _ _ _ p i c b G Hp) as (x & En & Hc & Hb & Hc0 & Ht0 & Hf' & Hd & C).
  simpl in Hf'. rewrite Hf in Hf'. injection Hf' as ->. pose proof En as [Hx Hdev Hinum Hi]. destruct (co_locked _ _ _ _ C Hl) as (_ & _ & Hv). rewrite Hb in Hv. specialize (Hd Hv).
  destruct (decide (fits off l (content v (D i)))) as [Hfit|Hmis].
  2:{ exists (RCount (-1)), s, (mkAfs F H lk), g. split_and!; [cbn [iop_code]; by erewrite bind_Ok by (by eapply writei_misfit)|by exists ic, v, D| |simpl; lia]. by eapply AWriteErr. }
  pose proof (gd_inv _ _ _ _ G) as I. pose proof (iv_wf _ _ _ _ I i Hi) as W. pose proof (dw_ok _ _ W) as (_ & Hs & _). specialize (Husage Hfit). pose proof (good_space _ _ _ _ G) as Hsp. simpl in Hsp.
  pose proof Hfit as [Hof Hmx]. rewrite length_content in Hof. unfold uint32 in Hs. set (l' := write_at (Z.to_nat off) l (content v (D i))) in *.
  assert (Z.of_nat (length l') = Z.max (d_size (D i)) (off + Z.of_nat (length l))) as Hl'.
  { unfold l', write_at. rewrite !length_app, length_take, length_drop, length_content. lia. }
  destruct (writei_R (o := true) sb Hly Hfs devsw_read devsw_write ic v D dk g p x i (meta i (D i)) (bk_room - (size g + (nbitmap + 3 + spans off (Z.of_nat (length l))))) off l s I En Hd (gd_sync _ _ _ _ G i Hi) Ht HR (meta_bitmap i (D i)) (meta_inode i (D i))) as (s' & v' & D' & g' & E1 & R1 & I1 & U & Hr1 & _);
    [intros _; apply meta_indirect|lia|lia|apply room_of; unfold x12; destruct (_ <? _)%nat; lia| |].
  { revert Husage. unfold blocks_for. cbn [file_of with_data f_data]. fold l'. rewrite Hl', length_content, Z2Nat.id by lia. lia. }
  exists (RCount (Z.of_nat (length l))), s', (mkAfs (<[i := with_data l' (file_of v (D i))]> F) H lk), g'. split_and!; [cbn [iop_code]; by erewrite bind_Ok by exact E1| |by econstructor|apply room_size in Hr1; simpl; lia].
  exists (<[p := set_id (D' i) x]> ic), v', D'. split; [exact R1|]. destruct U as [U1 U2 U3 U4 U5].
  assert (d_type (D' i) = d_type (D i)) as Ht' by (by rewrite U2).
  assert (file_of v' (D' i) = with_data l' (file_of v (D i))) as Hfile. { unfold file_of, with_data. rewrite U3, U2. done. }
  pose proof (good_change F H lk ic v D p x (set_id (D' i) x) i v' D' G Hx Hi) as G'. unfold file_at in G'. rewrite decide_True, Hfile in G' by (by rewrite Ht').
  unfold handle_of in G'. cbn [set_id i_ref i_inum i_valid] in G'. rewrite decide_True, Hinum, Hc, Hb in G' by lia. rewrite (partial_alter_same H p (Some (mkHandle i c b))) in G' by done.
  apply G'; clear G'.
  - intros q y Hq Hy Hr. rewrite <- Hinum. eapply good_others; [done..|lia|done|done|done].
  - done.
  - destruct C as [C1 C2 C3 C4]. split; cbn [set_id i_ref i_lock i_valid i_dev i_inum i_d]; [done..|]. intros _. rewrite Hinum, Ht'. by split_and!; [|lia|lia| |].
  - done.
  - intros j Hj. rewrite U5 by done. destruct (decide (j = i)) as [->|Hne]; [done|]. rewrite U1 by done. by apply (gd_sync _ _ _ _ G).
  - rewrite Ht'. done.
  - done.
  - intros j Hj Hne. rewrite <- (U4 j Hj Hne). by rewrite U1.
Qed.

(** ** Any call, and programs of calls *)

Definition file_for (A : afs) (p : nat) (f : file) : Prop := exists i c b, a_handles A !! p = Some (mkHandle i c b) /\ a_files A !! i = Some f.
Definition free_handle (A : afs) : Prop := exists p, (p < NINODE)%nat /\ a_handles A !! p = None.
(** What a caller owes: a reference to the inode, its lock where the call needs
    it, a free cache entry, inode or blocks where the call takes one. *)
Definition allowed (A : afs) (o : iop) : Prop :=
  match o with
  | IGet i => is_Some (a_files A !! i) /\ (free_handle A \/ exists p k, a_handles A !! p = Some k /\ h_inum k = i)
  | IDup p => is_Some (a_handles A !! p)
  | ILock p | IPut p => is_Some (a_handles A !! p) /\ p ∉ a_locked A
  | IUnlock p => p ∈ a_locked A /\ is_Some (a_handles A !! p)
  | IRead p off n => p ∈ a_locked A /\ uint32 off /\ uint32 n /\ exists f, file_for A p f /\ f_type f <> T_DEV
  | IWrite p off l => p ∈ a_locked A /\ uint32 off /\ uint32 (Z.of_nat (length l)) /\ exists f, file_for A p f /\ f_type f <> T_DEV /\
      (fits off l (f_data f) -> usage (a_files A) + (blocks_for (with_data (write_at (Z.to_nat off) l (f_data f)) f) - blocks_for f) <= length (data_blocks sb))%nat
  | IAlloc type => type <> 0 /\ - 2 ^ 15 <= type < 2 ^ 15 /\ free_handle A /\ exists i, 0 < i < sb_ninodes sb /\ a_files A !! i = None
  | ILink p n => p ∈ a_locked A /\ - 2 ^ 15 <= n < 2 ^ 15 /\ exists f, file_for A p f
  end.
(** Calls that write nothing can be made outside a transaction. *)
Definition reads (o : iop) : bool := match o with IPut _ | IWrite _ _ _ | IAlloc _ | ILink _ _ => false | _ => true end.

Lemma does_call t A dk g s o : inside t A dk g s -> allowed A o -> t || reads o = true -> (size g + cost o <= bk_room)%nat -> does t A dk g s o.
Proof.
  intros HI Ha Ht Hc. destruct o as [i|p|p|p|p|p off n|p off l|type|p n]; cbn [reads] in Ht; rewrite ?orb_false_r in Ht; subst; cbn [allowed] in Ha.
  - destruct Ha. by apply does_get.
  - by apply does_dup.
  - destruct Ha. by apply does_lock.
  - destruct Ha. by apply does_unlock.
  - destruct Ha. by apply does_put.
  - destruct Ha as (Hl & Ho & Hn & f & (i & c & b & Hh & Hf) & Hd). by eapply does_read.
  - destruct Ha as (Hl & Ho & Hn & f & (i & c & b & Hh & Hf) & Hd & Hu). by eapply does_write.
  - destruct Ha as (H0 & Hr & Hp & Hi). by apply does_alloc.
  - destruct Ha as (Hl & Hn & f & i & c & b & Hh & Hf). by eapply does_link.
Qed.

(** A program that makes calls and looks at what they return. *)
Inductive prog := Done | Call (o : iop) (k : ires -> prog).
Fixpoint run (c : prog) : M fs (list ires) :=
  match c with
  | Done => ret []
  | Call o k => let! r := iop_code o in let! rs := run (k r) in ret (r :: rs)
  end.
Inductive arun : afs -> prog -> list ires -> afs -> Prop :=
| ADone A : arun A Done [] A
| ACall A o k r A1 rs A2 : astep (sb_ninodes sb) A o r A1 -> arun A1 (k r) rs A2 -> arun A (Call o k) (r :: rs) A2.
(** The program owes nothing whatever the calls return, when its transaction
    ([t]) has logged [n] blocks. *)
Fixpoint safe (t : bool) (n : nat) (A : afs) (c : prog) : Prop :=
  match c with
  | Done => True
  | Call o k => allowed A o /\ t || reads o = true /\ (n + cost o <= bk_room)%nat /\
      forall r A', astep (sb_ninodes sb) A o r A' -> safe t (n + cost o) A' (k r)
  end.

Lemma run_ok t c : forall n A dk g s, inside t A dk g s -> (size g <= n)%nat -> safe t n A c ->
  exists rs s' A' g', run c s = Ok rs s' /\ inside t A' dk g' s' /\ arun A c rs A' /\ (t = false -> size g' <= size g)%nat.
Proof.
  induction c as [|o k IH]; intros n A dk g s HI Hg; cbn [safe run]; [intros _; exists [], s, A, g; split_and!; [done..|constructor|done]|].
  intros (Ha & Ht & Hc & Hk). destruct (does_call t A dk g s o HI Ha Ht ltac:(lia)) as (r & s1 & A1 & g1 & E1 & I1 & S1 & Hs1).
  destruct (IH r (n + cost o)%nat A1 dk g1 s1 I1 ltac:(lia) (Hk _ _ S1)) as (rs & s2 & A2 & g2 & E2 & I2 & S2 & Hs2).
  exists (r :: rs), s2, A2, g2. split_and!; [|done|by econstructor|].
  - erewrite bind_Ok by exact E1. by erewrite bind_Ok by exact E2.
  - intros ->. specialize (Hs2 eq_refl). destruct o; try done; simpl in Hs1; lia.
Qed.

(** Between transactions. *)
Definition holds (A : afs) s : Prop := exists d, inside false A d ∅ s.
(** The files on a disk. *)
Definition stored (F : gmap Z file) (d : Z -> block) : Prop :=
  exists D, inv d D [] /\ (forall i, 0 <= i < sb_ninodes sb -> dino sb d i = D i) /\ (forall i, 0 <= i < sb_ninodes sb -> d_type (D i) = 0 -> d_size (D i) = 0) /\
    forall i, F !! i = file_at d D i.
Lemma good_stored A ic v D : good A ic v D -> stored (a_files A) v.
Proof. intros [G1 G2 G3 G4 _ _ _ _]. by exists D. Qed.
(** A transaction, or calls outside of one. *)
Definition op (t : bool) (c : prog) : M fs (list ires) :=
  if t then on_blocks bk_begin ;;; let! rs := run c in on_blocks bk_end ;;; ret rs else run c.

Lemma begin_inside A d s : inside false A d ∅ s -> exists s', on_blocks bk_begin s = Ok tt s' /\ inside true A d ∅ s'.
Proof.
  intros (ic & v & D & HR & G). destruct (bk_begin_ok _ _ _ (r_blocks _ _ _ _ HR)) as (c & E & Hb).
  destruct (on_blocks_Ok sb _ _ _ _ _ _ _ HR E Hb) as (s' & E' & R'). exists s'. split; [done|]. by exists ic, v, D.
Qed.
Lemma end_inside A d g s : inside true A d g s -> exists s' ws v, on_blocks bk_end s = Ok tt s' /\ inside false A (then_writes d ws) ∅ s' /\ stored (a_files A) v /\
  forall i, (forall y, (forall n, bk_fs n -> y n = d n) -> bk_recovers (disk_after d (take i ws)) y) \/ bk_recovers (disk_after d (take i ws)) v.
Proof.
  intros (ic & v & D & HR & G). destruct (bk_end_ok _ _ _ _ (r_blocks _ _ _ _ HR)) as (c & ws & E & Hb & Hcr).
  destruct (on_blocks_Ok sb _ _ _ _ _ _ _ HR E Hb) as (s' & E' & R'). exists s', ws, v. split_and!; [done|by exists ic, v, D|by eapply good_stored|done].
Qed.
(** A crash at any point of a transaction leaves the files of before or those
    of after it. *)
Definition crash_safe (d : history) (ws : list (Z * block)) (A A' : afs) : Prop :=
  forall i, exists y, bk_recovers (disk_after d (take i ws)) y /\ (stored (a_files A) y \/ stored (a_files A') y).
Lemma op_ok t c A d s : inside false A d ∅ s -> safe t 0 A c ->
  exists rs s' A' ws, op t c s = Ok rs s' /\ inside false A' (then_writes d ws) ∅ s' /\ arun A c rs A' /\ (t = true -> crash_safe d ws A A').
Proof.
  intros HI Hc. unfold op. destruct t.
  - pose proof HI as (ic & v & D & HR & G). destruct (begin_inside _ _ _ HI) as (s1 & E1 & I1). destruct (run_ok true c 0 A d ∅ s1 I1 (Nat.le_refl _) Hc) as (rs & s2 & A' & g & E2 & I2 & S2 & _).
    destruct (end_inside _ _ _ _ I2) as (s3 & ws & v' & E3 & I3 & Hst & Hcr). exists rs, s3, A', ws. split_and!; [|done..|].
    + erewrite bind_Ok by exact E1. erewrite bind_Ok by exact E2. by erewrite bind_Ok by exact E3.
    + intros _ i. destruct (Hcr i) as [Hold|Hnew]; [|by exists v'; auto]. exists v. split; [|left; by eapply good_stored]. apply Hold. intros n Hn.
      apply (bk_clean _ _ n (r_blocks _ _ _ _ HR) Hn); apply not_elem_of_empty || apply not_elem_of_nil.
  - destruct (run_ok false c 0 A d ∅ s HI (Nat.le_refl _) Hc) as (rs & s2 & A' & g & E2 & I2 & S2 & Hg). exists rs, s2, A', []. split_and!; [done| |done|done].
    assert (g = ∅) as ->; [apply leibniz_equiv, size_empty_iff; specialize (Hg eq_refl); rewrite size_empty in Hg; lia|].
    unfold then_writes. rewrite app_nil_r. by destruct d.
Qed.

(** Any number of these, each depending on what the ones before returned. *)
Inductive session := Stop | Then (t : bool) (c : prog) (k : list ires -> session).
Fixpoint exec (c : session) : M fs (list (list ires)) :=
  match c with
  | Stop => ret []
  | Then t c k => let! rs := op t c in let! rss := exec (k rs) in ret (rs :: rss)
  end.
Inductive aexec : afs -> session -> list (list ires) -> afs -> Prop :=
| AStop A : aexec A Stop [] A
| AThen A t c k rs A1 rss A2 : arun A c rs A1 -> aexec A1 (k rs) rss A2 -> aexec A (Then t c k) (rs :: rss) A2.
Fixpoint safe_session (A : afs) (c : session) : Prop :=
  match c with
  | Stop => True
  | Then t c k => safe t 0 A c /\ forall rs A', arun A c rs A' -> safe_session A' (k rs)
  end.
Lemma exec_ok c : forall A s, holds A s -> safe_session A c -> exists rss s' A', exec c s = Ok rss s' /\ holds A' s' /\ aexec A c rss A'.
Proof.
  induction c as [|t c k IH]; intros A s HI; cbn [safe_session exec]; [intros _; exists [], s, A; split_and!; [done..|constructor]|].
  intros [Hc Hk]. destruct HI as [d HI]. destruct (op_ok t c A d s HI Hc) as (rs & s1 & A1 & ws & E1 & I1 & S1 & _). destruct (IH rs A1 s1 (ex_intro (fun d => inside false A1 d ∅ s1) _ I1) (Hk _ _ S1)) as (rss & s2 & A2 & E2 & I2 & S2).
  exists (rs :: rss), s2, A2. split_and!; [|done|by econstructor]. erewrite bind_Ok by exact E1. by erewrite bind_Ok by exact E2.
Qed.
End FsCorrect.
