(* ===== verification/FsNames.v ===== *)
(** * Names, paths and directories as data

    What [namecmp], [skipelem] and the entries of a directory mean. *)

From stdpp Require Import base gmap list strings.
From Stdlib Require Import ZArith Lia.
From S2P Require Import Prelude CString CacheSpec Log Fs FsLayout FsRw.
Local Open Scope Z_scope.

(** ** Names: at most [n] characters, up to the first NUL *)

Fixpoint cname (n : nat) (l : list Z) : list Z :=
  match n, l with
  | S k, c :: l' => if c =? 0 then [] else c :: cname k l'
  | _, _ => []
  end.

Lemma cname_app n e r : Forall (fun c => c <> 0) e -> (length e <= n)%nat -> cname n (e ++ r) = e ++ cname (n - length e) r.
Proof.
  revert n. induction e as [|c e IH]; intros n He Hn; [by rewrite Nat.sub_0_r|]. apply Forall_cons in He as [Hc He]. destruct n as [|n]; simpl in *; [lia|].
  destruct (Z.eqb_spec c 0); [done|]. by rewrite IH by (done || lia).
Qed.
Lemma cname_zero n r : cname n (0 :: r) = [].
Proof. by destruct n. Qed.

Lemma strncmp_cname n : forall s t (m : mem) p q, (forall i, (i < n)%nat -> m (p + Z.of_nat i) = nth i s 0) -> (forall i, (i < n)%nat -> m (q + Z.of_nat i) = nth i t 0) ->
  exists r, strncmp p q n m = Ok r m /\ (r = 0 <-> cname n s = cname n t).
Proof.
  induction n as [|n IH]; intros s t m p q Hs Ht; simpl; [by exists 0|]. unfold load. rewrite !bind_gets.
  pose proof (Hs 0%nat ltac:(lia)) as Hs0. pose proof (Ht 0%nat ltac:(lia)) as Ht0. rewrite Z.add_0_r in Hs0, Ht0. rewrite Hs0, Ht0.
  assert (forall l a, (forall i, (i < S n)%nat -> m (a + Z.of_nat i) = nth i l 0) -> forall i, (i < n)%nat -> m (a + 1 + Z.of_nat i) = nth i (tail l) 0) as Htl.
  { intros l a Hl i Hi. replace (a + 1 + Z.of_nat i) with (a + Z.of_nat (S i)) by lia. rewrite Hl by lia. destruct l; [by destruct i|done]. }
  destruct (IH (tail s) (tail t) m (p + 1) (q + 1) (Htl s p Hs) (Htl t q Ht)) as (r & Hr & Hiff).
  destruct s as [|a s], t as [|b t]; simpl in *.
  - by exists 0.
  - exists (0 - b). split; [done|]. destruct (Z.eqb_spec b 0); split; try done; lia.
  - exists (a - 0). destruct (Z.eqb_spec a 0) as [->|]; [done|]. split; [|split; [lia|done]]. simpl. done.
  - destruct (Z.eqb_spec a 0) as [->|Ha]; simpl.
    + exists (0 - b). split; [done|]. destruct (Z.eqb_spec b 0); split; try done; lia.
    + destruct (Z.eqb_spec a b) as [->|Hab]; [exists r; split; [done|]; destruct (Z.eqb_spec b 0); [done|]; rewrite Hiff; split; [by intros ->|by intros [= ->]]|].
      exists (a - b). split; [done|]. split; [lia|]. destruct (Z.eqb_spec b 0); [done|]. by intros [= ->].
Qed.
Lemma namecmp_spec s t : namecmp s t = 0 <-> cname DIRSIZ s = cname DIRSIZ t.
Proof.
  unfold namecmp. destruct (strncmp_cname DIRSIZ s t (strings s t) 0 (2 ^ 10)) as (r & -> & Hr); [..|done]; unfold DIRSIZ; intros i Hi; unfold strings.
  - replace (_ <? _) with true by lia. f_equal. lia.
  - replace (_ <? _) with false by lia. f_equal. lia.
Qed.

(** [strncpy] fills the field with NULs. *)
Definition padded (n : nat) (l : list Z) : list Z := cname n l ++ replicate (n - length (cname n l)) 0.
Lemma length_cname n l : (length (cname n l) <= n)%nat.
Proof. revert l. induction n as [|n IH]; intros [|c l]; simpl; try lia. destruct (c =? 0); simpl; [lia|]. specialize (IH l). lia. Qed.
Lemma cname_nonzero n l : Forall (fun c => c <> 0) (cname n l).
Proof. revert l. induction n as [|n IH]; intros [|c l]; simpl; try constructor. destruct (Z.eqb_spec c 0); by constructor. Qed.
Lemma length_padded n l : length (padded n l) = n.
Proof. unfold padded. rewrite length_app, length_replicate. pose proof (length_cname n l). lia. Qed.
Lemma cname_padded n l : cname n (padded n l) = cname n l.
Proof.
  unfold padded. rewrite cname_app by (apply cname_nonzero || apply length_cname). destruct (n - length (cname n l))%nat eqn:E; simpl; [apply app_nil_r|]. by rewrite app_nil_r.
Qed.

Lemma strncpy_cname n : forall s t l m, mem_ok m -> (forall i, (i < n)%nat -> m (t + Z.of_nat i) = nth i l 0) -> s + Z.of_nat n <= t ->
  exists m', (let! r := strncpy_loop s t n in stosb r.1 0 r.2) m = Ok tt m' /\ mem_ok m' /\ (forall x, ~ (s <= x < s + Z.of_nat n) -> m' x = m x) /\
    forall i, (i < n)%nat -> m' (s + Z.of_nat i) = nth i (padded n l) 0.
Proof.
  induction n as [|n IH]; intros s t l m Hm Hl Hst; simpl; [exists m; split_and!; [done..|lia]|]. unfold load, store. rewrite !bind_assoc, bind_gets, bind_assoc, bind_modify.
  pose proof (Hl 0%nat ltac:(lia)) as Hl0. rewrite Z.add_0_r in Hl0. pose proof (Hm t) as Hb. rewrite Hl0 in *. set (m1 := upd m s (u8 (nth 0 l 0))).
  assert (mem_ok m1) as Hm1 by (unfold m1; auto with kernel). assert (m1 s = nth 0 l 0) as Hms by (unfold m1, upd; rewrite Z.eqb_refl; unfold u8, byte in *; rewrite Z.mod_small; lia).
  assert (forall x, x <> s -> m1 x = m x) as Hmo by (intros x Hx; unfold m1, upd; destruct (Z.eqb_spec x s); [done|done]).
  destruct (Z.eqb_spec (nth 0 l 0) 0) as [Hz|Hz].
  - rewrite bind_ret. cbn [fst snd]. destruct (stosb_Ok n (s + 1) 0 m1 Hm1) as (m' & E & [Hf Ho] & Hm'). exists m'. split_and!; [done|done| |].
    + intros x Hx. rewrite Ho by lia. apply Hmo. lia.
    + assert (padded (S n) l = replicate (S n) 0) as ->. { unfold padded. destruct l as [|c l]; simpl in *; [done|]. by rewrite Hz. }
      intros i Hi. rewrite nth_lookup, lookup_replicate_2 by done. cbn [default]. destruct i as [|i]; [rewrite Z.add_0_r, Ho, Hms by lia; by rewrite Hz|]. by rewrite Hf by lia.
  - destruct (IH (s + 1) (t + 1) (tail l) m1 Hm1) as (m' & E & Hm' & Ho & Hv); [|lia|].
    { intros i Hi. rewrite Hmo by lia. replace (t + 1 + Z.of_nat i) with (t + Z.of_nat (S i)) by lia. rewrite Hl by lia. destruct l; [by destruct i|done]. }
    exists m'. split_and!; [exact E|done|intros x Hx; rewrite Ho by lia; apply Hmo; lia|].
    assert (padded (S n) l = nth 0 l 0 :: padded n (tail l)) as ->. { unfold padded. destruct l as [|c l]; simpl in *; [done|]. by destruct (Z.eqb_spec c 0). }
    intros i Hi. destruct i as [|i]; [rewrite Z.add_0_r, Ho by lia; done|]. replace (s + Z.of_nat (S i)) with (s + 1 + Z.of_nat i) by lia. rewrite Hv by lia. done.
Qed.
Lemma name_field_spec name : Forall byte name -> name_field name = padded DIRSIZ name.
Proof.
  intros Hn. unfold name_field, strncpy. change (Z.to_nat (Z.of_nat DIRSIZ)) with DIRSIZ.
  destruct (strncpy_cname DIRSIZ 0 (2 ^ 10) name (strings [] name)) as (m' & E & _ & _ & Hv).
  - intros a. unfold strings. assert (byte 0) by (unfold byte; lia). destruct (a <? 2 ^ 10); [by destruct (Z.to_nat a)|].
    rewrite nth_lookup. destruct (name !! _) eqn:El; [|done]. rewrite Forall_lookup in Hn. by eapply Hn.
  - intros i Hi. unfold strings. replace (_ <? _) with false by (unfold DIRSIZ in Hi; lia). f_equal. lia.
  - unfold DIRSIZ. lia.
  - rewrite <- bind_assoc. erewrite bind_Ok by exact E. cbn [ret]. apply (list_eq_same_length _ _ DIRSIZ); [by rewrite length_padded|by rewrite length_map, length_seq|].
    intros i x y Hi Hx Hy. rewrite list_lookup_fmap, lookup_seq_lt in Hx by done. simpl in Hx. injection Hx as <-. rewrite (Hv i Hi : m' (Z.of_nat i) = _). by apply nth_lookup_Some.
Qed.

(** ** Paths: the elements between slashes *)

Definition flush (cur : list Z) : list (list Z) := match cur with [] => [] | _ => [cur] end.
Fixpoint elems_from (cur p : list Z) : list (list Z) :=
  match p with
  | [] => flush cur
  | c :: p' => if c =? 0 then flush cur else if c =? 47 then flush cur ++ elems_from [] p' else elems_from (cur ++ [c]) p'
  end.
Definition elems (p : list Z) : list (list Z) := elems_from [] p.

Lemma elems_skip p : elems (skip_slashes p) = elems p.
Proof. unfold elems. induction p as [|c p IH]; [done|]. simpl. destruct (Z.eqb_spec c 47) as [->|Hc]; [exact IH|simpl; by rewrite (proj2 (Z.eqb_neq c 47) Hc)]. Qed.
Lemma skip_length p : (length (skip_slashes p) <= length p)%nat.
Proof. induction p as [|c p IH]; simpl; [lia|]. destruct (c =? 47); simpl; lia. Qed.
Lemma skip_peek p : peek (skip_slashes p) <> 47.
Proof. induction p as [|c p IH]; [done|]. simpl. destruct (Z.eqb_spec c 47) as [_|Hc]; [exact IH|exact Hc]. Qed.
Lemma peek_elems p : peek p <> 47 -> peek p = 0 <-> elems p = [].
Proof.
  unfold elems. destruct p as [|c p]; [done|]. simpl. intros Hc. destruct (Z.eqb_spec c 0); [done|]. destruct (Z.eqb_spec c 47); [done|]. split; [done|].
  assert (forall p cur, cur <> [] -> elems_from cur p <> []) as H; [|by intros ?%H].
  clear. induction p as [|c p IH]; intros cur Hc; simpl; [by destruct cur|]. destruct (c =? 0); [by destruct cur|]. destruct (c =? 47); [by destruct cur|]. apply IH. by destruct cur.
Qed.
Lemma element_spec p : let (e, r) := element p in
  Forall (fun c => c <> 0) e /\ (length e + length r = length p)%nat /\ (peek r = 0 \/ peek r = 47) /\ (peek p <> 0 -> peek p <> 47 -> e <> []) /\
  forall cur, elems_from cur p = elems_from (cur ++ e) r.
Proof.
  induction p as [|c p IH]; [split_and!; auto; intros cur; by rewrite app_nil_r|]. cbn [element].
  destruct (Z.eqb_spec c 47) as [->|H47]; [cbn [orb]; split_and!; [constructor|done|auto|done|intros cur; by rewrite app_nil_r]|].
  destruct (Z.eqb_spec c 0) as [->|H0]; cbn [orb]; [split_and!; [constructor|done|auto|done|intros cur; by rewrite app_nil_r]|].
  destruct (element p) as [e r]. destruct IH as (I1 & I2 & I3 & _ & I5). split_and!; [by constructor|simpl; lia|done|done|]. intros cur. cbn [elems_from].
  destruct (Z.eqb_spec c 0); [done|]. destruct (Z.eqb_spec c 47); [done|]. by rewrite I5, <- app_assoc.
Qed.
Lemma elems_end cur r : cur <> [] -> peek r = 0 \/ peek r = 47 -> elems_from cur r = cur :: elems r.
Proof.
  intros Hc Hr. destruct cur as [|c0 cur]; [done|]. destruct r as [|c r]; [done|]. unfold elems, peek in *. cbn [nth] in Hr. by destruct Hr as [->| ->].
Qed.

Lemma cname_copied n e (name : list Z) : length name = n -> Forall (fun c => c <> 0) e ->
  cname n (if (n <=? length e)%nat then splice 0 (take n e) name else <[length e := 0]> (splice 0 e name)) = take n e.
Proof.
  intros Hn He. unfold splice. rewrite !take_0, !Nat.add_0_l. cbn [app]. destruct (Nat.leb_spec n (length e)) as [Hl|Hl].
  - rewrite cname_app by first [by apply Forall_take|rewrite length_take; lia]. rewrite length_take, Nat.min_l, Nat.sub_diag by done. by rewrite app_nil_r.
  - rewrite insert_app_r_alt, Nat.sub_diag by lia. rewrite cname_app by (done || lia). rewrite take_ge by lia.
    destruct (drop (length e) name) as [|b l] eqn:E; [apply (f_equal length) in E; rewrite length_drop in E; simpl in E; lia|]. cbn [insert list_insert]. by rewrite cname_zero, app_nil_r.
Qed.

(** [skipelem] takes the first element off the path. *)
Lemma skipelem_spec path name : length name = DIRSIZ ->
  match skipelem path name with
  | None => elems path = []
  | Some (r, name') => exists e, elems path = e :: elems r /\ cname DIRSIZ name' = take DIRSIZ e /\ length name' = DIRSIZ /\
      (length r < length path)%nat /\ (peek r = 0 <-> elems r = [])
  end.
Proof.
  intros Hn. unfold skipelem. pose proof (skip_peek path) as Hp. pose proof (skip_length path) as Hl. rewrite <- (elems_skip path). destruct (Z.eqb_spec (peek (skip_slashes path)) 0) as [Hz|Hz]; [by apply peek_elems|].
  pose proof (element_spec (skip_slashes path)) as He. destruct (element (skip_slashes path)) as [e r]. destruct He as (H1 & H2 & H3 & H4 & H5). specialize (H4 Hz Hp). exists e.
  pose proof (skip_length r). assert (0 < length e)%nat by (destruct e; simpl; [done|lia]). split_and!.
  - unfold elems at 1. rewrite H5, elems_skip. by apply elems_end.
  - by apply cname_copied.
  - destruct (Nat.leb_spec DIRSIZ (length e)); rewrite ?length_insert; unfold splice; rewrite !length_app, ?length_take, !length_drop, ?length_take; lia.
  - lia.
  - apply peek_elems, skip_peek.
Qed.

Lemma skip_bytes p : Forall byte p -> Forall byte (skip_slashes p).
Proof. induction 1 as [|c p Hc Hp IH]; simpl; [constructor|]. destruct (c =? 47); [done|by constructor]. Qed.
Lemma element_app p : let (e, r) := element p in p = e ++ r.
Proof. induction p as [|c p IH]; [done|]. cbn [element]. destruct ((c =? 47) || (c =? 0)); [done|]. destruct (element p) as [e r]. simpl. by f_equal. Qed.
Lemma skipelem_bytes path name r name' : Forall byte path -> Forall byte name -> skipelem path name = Some (r, name') -> Forall byte r /\ Forall byte name'.
Proof.
  intros Hp Hn. unfold skipelem. destruct (peek (skip_slashes path) =? 0); [done|]. pose proof (element_app (skip_slashes path)) as E. pose proof (skip_bytes path Hp) as Hs.
  destruct (element (skip_slashes path)) as [e r']. rewrite E in Hs. apply Forall_app in Hs as [He Hr]. intros [= <- <-]. split; [by apply skip_bytes|].
  assert (forall l, Forall byte l -> Forall byte (splice 0 l name)) as Hsp by (intros l Hl; unfold splice; rewrite !Forall_app; split_and!; [by apply Forall_take|done|by apply Forall_drop]).
  case_match; [by apply Hsp, Forall_take|]. apply Forall_insert; [by apply Hsp|]. unfold byte. lia.
Qed.

(** ** Directories: entries of 16 bytes *)

Fixpoint find_from (f : nat -> bool) (k n : nat) : option nat :=
  match n with O => None | S n' => if f k then Some k else find_from f (S k) n' end.
Lemma find_from_Some f n : forall k j, find_from f k n = Some j <-> (k <= j < k + n)%nat /\ f j = true /\ forall i, (k <= i < j)%nat -> f i = false.
Proof.
  induction n as [|n IH]; intros k j; simpl; [split; [done|lia]|]. destruct (f k) eqn:E.
  - split; [intros [= <-]; split_and!; [lia..|done|intros i Hi; lia]|]. intros (Hj & Hf & Hall). destruct (decide (j = k)) as [->|]; [done|]. rewrite Hall in E by lia. done.
  - rewrite IH. split; intros (Hj & Hf & Hall).
    + split_and!; [lia..|done|]. intros i Hi. destruct (decide (i = k)) as [->|]; [done|]. apply Hall. lia.
    + split_and!; [|lia|done|intros i Hi; apply Hall; lia]. destruct (decide (j = k)) as [->|]; [congruence|lia].
Qed.
Lemma find_from_None f n : forall k, find_from f k n = None <-> forall i, (k <= i < k + n)%nat -> f i = false.
Proof.
  induction n as [|n IH]; intros k; simpl; [split; [lia|done]|]. destruct (f k) eqn:E.
  - split; [done|]. intros Hall. rewrite Hall in E by lia. done.
  - rewrite IH. split; intros Hall i Hi; [|apply Hall; lia]. destruct (decide (i = k)) as [->|]; [done|]. apply Hall. lia.
Qed.

Definition ent (data : list Z) (k : nat) : list Z := take 16 (drop (16 * k) data).
Definition nent (data : list Z) : nat := (length data / 16)%nat.
Definition dir_ok (data : list Z) : Prop := length data = (16 * nent data)%nat.
Definition names (data nm : list Z) (k : nat) : bool := negb (de_inum (ent data k) =? 0) && bool_decide (cname DIRSIZ (de_name (ent data k)) = nm).
(** The entry for a name: its number and the inode. *)
Definition dir_find (data nm : list Z) : option (nat * Z) := k ← find_from (names data nm) 0 (nent data); Some (k, de_inum (ent data k)).
(** The first unused entry, or the one after the last. *)
Definition dir_free (data : list Z) : nat := default (nent data) (find_from (fun k => de_inum (ent data k) =? 0) 0 (nent data)).

Lemma dir_find_Some data nm k i : dir_find data nm = Some (k, i) <-> find_from (names data nm) 0 (nent data) = Some k /\ i = de_inum (ent data k).
Proof. unfold dir_find. destruct (find_from _ _ _) as [j|]; simpl; naive_solver. Qed.
Lemma dir_find_None data nm : dir_find data nm = None <-> forall k, (k < nent data)%nat -> names data nm k = false.
Proof.
  unfold dir_find. destruct (find_from _ _ _) as [j|] eqn:E; simpl.
  - apply find_from_Some in E as (Hj & Hf & _). split; [done|]. intros Hall. rewrite Hall in Hf by lia. done.
  - split; [|done]. intros _ k Hk. rewrite find_from_None in E. apply E. lia.
Qed.

Lemma length_mk_dirent i name : Forall byte name -> length (mk_dirent i (name_field name)) = 16%nat.
Proof. intros Hn. unfold mk_dirent. rewrite length_app, name_field_spec, length_padded by done. done. Qed.
Lemma mk_dirent_spec i name : Forall byte name -> 0 <= i < 2 ^ 16 ->
  de_inum (mk_dirent i (name_field name)) = i /\ cname DIRSIZ (de_name (mk_dirent i (name_field name))) = cname DIRSIZ name.
Proof.
  intros Hn Hi. split; [unfold de_inum, half, mk_dirent, byte_at; simpl; Z.to_euclidean_division_equations; lia|]. change (de_name (mk_dirent i (name_field name))) with (name_field name). by rewrite name_field_spec, cname_padded.
Qed.

Section Insert.
Context (data e : list Z) (k : nat) (Hok : dir_ok data) (He : length e = 16%nat) (Hk : (k <= nent data)%nat).
Notation data' := (write_at (16 * k) e data).
Lemma insert_length : length data' = (16 * Nat.max (nent data) (k + 1))%nat.
Proof. unfold write_at. rewrite !length_app, length_take, length_drop, He. unfold dir_ok in Hok. lia. Qed.
Lemma insert_nent : nent data' = Nat.max (nent data) (k + 1).
Proof. unfold nent at 1. rewrite insert_length, Nat.mul_comm. by apply Nat.div_mul. Qed.
Lemma insert_ok : dir_ok data'.
Proof. unfold dir_ok. by rewrite insert_nent, insert_length. Qed.
Lemma insert_ent j : (j < Nat.max (nent data) (k + 1))%nat -> ent data' j = if decide (j = k) then e else ent data j.
Proof.
  intros Hj. unfold dir_ok in Hok. unfold ent, write_at. assert (length (take (16 * k) data) = (16 * k)%nat) as Hl by (rewrite length_take; lia). destruct (decide (j = k)) as [->|Hne].
  - rewrite drop_app_length' by done. rewrite take_app_length' by done. done.
  - destruct (decide (j < k)%nat) as [Hlt|Hge].
    + rewrite drop_app_le by lia. rewrite take_app_le by (rewrite length_drop; lia). rewrite skipn_firstn_comm, take_take. f_equal. lia.
    + rewrite app_assoc, drop_app_ge by (rewrite length_app, Hl; lia). rewrite length_app, Hl, He, drop_drop. do 2 f_equal. lia.
Qed.
End Insert.

(** A new entry is found under its name; the other names are not disturbed. *)
Lemma dir_find_insert data name i : dir_ok data -> Forall byte name -> 0 < i < 2 ^ 16 -> dir_find data (cname DIRSIZ name) = None ->
  let k := dir_free data in let data' := write_at (16 * k) (mk_dirent i (name_field name)) data in
  forall nm, dir_find data' nm = if decide (nm = cname DIRSIZ name) then Some (k, i) else dir_find data nm.
Proof.
  intros Hok Hn Hi Hnone k data' nm. destruct (mk_dirent_spec i name Hn ltac:(lia)) as [Ei En]. pose proof (length_mk_dirent i name Hn) as He.
  assert ((k <= nent data)%nat /\ ((k < nent data)%nat -> de_inum (ent data k) = 0)) as [Hk Hfree].
  { unfold k, dir_free. destruct (find_from _ 0 (nent data)) as [j|] eqn:E; simpl; [|split; lia]. apply find_from_Some in E as (Hj & Hf & _). split; [lia|]. by intros _; apply Z.eqb_eq. }
  pose proof (insert_nent data _ k Hok He Hk) as Hnent. pose proof (insert_ent data _ k Hok He Hk) as Hent. fold data' in Hnent, Hent.
  assert (forall j, (j < nent data')%nat -> names data' nm j = if decide (j = k) then bool_decide (cname DIRSIZ name = nm) else names data nm j) as Hnames.
  { intros j Hj. unfold names. rewrite Hent by lia. destruct (decide (j = k)) as [->|]; [|done]. rewrite Ei, En. by replace (i =? 0) with false by lia. }
  destruct (decide (nm = cname DIRSIZ name)) as [->|Hne].
  - apply dir_find_Some. rewrite Hent, decide_True, Ei by lia. split; [|done]. apply find_from_Some. split_and!; [lia..| |].
    + rewrite Hnames, decide_True by lia. by apply bool_decide_true.
    + intros j Hj. rewrite Hnames, decide_False by lia. rewrite dir_find_None in Hnone. apply Hnone. lia.
  - assert (forall j, (j < nent data)%nat -> names data' nm j = names data nm j) as Hsame.
    { intros j Hj. rewrite Hnames by lia. destruct (decide (j = k)) as [->|]; [|done]. rewrite bool_decide_false by done. unfold names. by rewrite Hfree. }
    destruct (dir_find data nm) as [[j x]|] eqn:E.
    + apply dir_find_Some in E as [E ->]. apply find_from_Some in E as (Hj & Hf & Hall). assert (j <> k) as Hjk.
      { intros ->. unfold names in Hf. rewrite Hfree in Hf by lia. done. }
      apply dir_find_Some. rewrite Hent, decide_False by lia. split; [|done]. apply find_from_Some. split_and!; [lia..|by rewrite Hsame by lia|]. intros l Hl. rewrite Hsame by lia. apply Hall. lia.
    + rewrite dir_find_None in E. apply dir_find_None. intros j Hj. rewrite Hnames by done. destruct (decide (j = k)) as [->|]; [by apply bool_decide_false|]. apply E. lia.
Qed.
