(* ===== verification/FsDir.v ===== *)
(** * Directories

    A directory is a file of entries; [dirlookup] finds the inode for a name,
    [dirlink] adds an entry. *)

From stdpp Require Import base gmap list strings.
From Stdlib Require Import ZArith Lia.
From S2P Require Import Prelude CString Sync Sleeplock CacheSpec Log BlockSpec Fs FsLayout FsInv FsBlocks FsFile FsRw FsInode FsCorrect FsNames.
Local Open Scope Z_scope.

Section FsDir.
Context {L S : Type} `{HL : Locks L} `{HB : Blocks S} (me : Z) (sb : superblock) (Hly : layout sb) (Hfs : forall n, fs_block sb n -> bk_fs n)
  (Hlk : (NINODE < lk_count)%nat).
Notation fs := (fs (L := L) (S := S)).
Context (devsw_read : Z -> option (nat -> Z -> M fs (Z * list Z))) (devsw_write : Z -> option (nat -> list Z -> M fs Z)).
Implicit Types (v : Z -> block) (dk : history) (g : gset Z) (ic : list inode) (s : fs) (A : afs).
Notation inside := (inside me sb).
Notation astep := (astep (sb_ninodes sb)).
Notation readi := (readi devsw_read).
Notation writei := (writei devsw_write).
Notation dirlookup_loop := (dirlookup_loop devsw_read).
Notation dirlookup := (dirlookup devsw_read).
Notation free_entry := (free_entry devsw_read).
Notation dirlink := (dirlink me devsw_read devsw_write).

(** The file [f] is locked through [p]. *)
Record opened A (p : nat) (i : Z) (f : file) : Prop := {
  op_locked : p ∈ a_locked A;
  op_handle : exists c b, a_handles A !! p = Some (mkHandle i c b);
  op_file : a_files A !! i = Some f
}.

Lemma inode_seen t A dk g s p i f : inside t A dk g s -> opened A p i f ->
  exists x, geti p s = Ok x s /\ i_dev x = 1 /\ i_inum x = i /\ d_type (i_d x) = f_type f /\ d_nlink (i_d x) = f_nlink f /\ d_size (i_d x) = Z.of_nat (length (f_data f)) /\
    Z.of_nat (length (f_data f)) <= MAXFILE * 512.
Proof.
  intros (ic & v & D & HR & G) [Hl (c & b & Hp) Hf]. destruct (good_handle me sb A ic v D p i c b G Hp) as (x & En & Hc & Hb & _ & _ & Hf' & Hd & C).
  rewrite Hf in Hf'. injection Hf' as ->. destruct (co_locked _ _ _ _ _ _ C Hl) as (_ & _ & Hv). rewrite Hb in Hv. specialize (Hd Hv).
  pose proof (iv_wf _ _ _ _ (gd_inv _ _ _ _ _ _ G) i (en_range _ _ _ _ _ En)) as W. pose proof (dw_ok _ _ W) as (_ & Hs & _). unfold uint32 in Hs. pose proof (dw_size _ _ W) as Hn.
  exists x. rewrite Hd. cbn [file_of f_type f_data f_nlink]. rewrite length_content, Z2Nat.id by lia. split_and!; try done; [eapply geti_R; [done|apply En]|apply En|apply En|].
  unfold MAXFILE, nblocks, NDIRECT, NINDIRECT in *. Z.to_euclidean_division_equations. lia.
Qed.

Lemma read_ok t A dk g s p i f off n : inside t A dk g s -> opened A p i f -> f_type f <> T_DEV -> uint32 off -> uint32 n ->
  exists s' g', readi p off n s = Ok (read_result (f_data f) off n) s' /\ inside t A dk g' s' /\ (size g' <= size g)%nat.
Proof.
  intros HI [Hl (c & b & Hp) Hf] Ht Ho Hn. destruct (does_read me sb Hly Hfs Hlk devsw_read devsw_write t A dk g s p i c b f off n HI Hl Hp Hf Ht Ho Hn) as (r & s' & A' & g' & E & I' & Hst & Hg).
  inversion Hst as [| | | | | | |F H lk i' p' c' b' f' off' n' Hp' Hf' E1 E2 E3 E4| | | |]; subst. simpl in *. rewrite Hp in Hp'. injection Hp' as <- <- <-. rewrite Hf in Hf'. injection Hf' as <-.
  exists s', g'. split_and!; [|done|lia]. cbn [iop_code] in E. unfold bind in E. destruct (readi p off n s); try done. injection E as -> ->. done.
Qed.

(** Reading an entry. *)
Lemma read_ent data k : dir_ok data -> (k < nent data)%nat -> Z.of_nat (length data) <= MAXFILE * 512 -> read_result data (16 * Z.of_nat k) sizeof_dirent = (16, ent data k).
Proof.
  unfold dir_ok, MAXFILE, NDIRECT, NINDIRECT, sizeof_dirent. intros Hok Hk Hm. unfold read_result. replace (_ || _) with false by (symmetry; apply orb_false_iff; lia).
  replace (Z.to_nat (16 * Z.of_nat k)) with (16 * k)%nat by lia. change (Z.to_nat 16) with 16%nat. fold (ent data k). f_equal. unfold ent. rewrite length_take, length_drop. lia.
Qed.

Section Dir.
Context (t : bool) A dk (p : nat) (i : Z) (f : file) (HO : opened A p i f) (Ht : f_type f = T_DIR) (Hok : dir_ok (f_data f)).
Notation data := (f_data f).

Lemma entry_ok g s k : inside t A dk g s -> (k < nent data)%nat ->
  exists s' g', readi p (16 * Z.of_nat k) sizeof_dirent s = Ok (16, ent data k) s' /\ inside t A dk g' s' /\ (size g' <= size g)%nat.
Proof.
  intros HI Hk. destruct (inode_seen t A dk g s p i f HI HO) as (x & _ & _ & _ & _ & _ & _ & Hm). rewrite <- (read_ent data k) by done.
  apply (read_ok t A dk g s p i f); [done|done|by rewrite Ht|unfold dir_ok, uint32, MAXFILE, NDIRECT, NINDIRECT in *; lia|unfold uint32, sizeof_dirent; lia].
Qed.

Lemma dirlookup_loop_ok name : forall fuel k g s, (nent data - k < fuel)%nat -> (k <= nent data)%nat -> inside t A dk g s ->
  exists s' g', inside t A dk g' s' /\ (size g' <= size g)%nat /\
    dirlookup_loop fuel p name (16 * Z.of_nat k) s =
      match find_from (names data (cname DIRSIZ name)) k (nent data - k) with
      | Some j => (let! q := iget 1 (de_inum (ent data j)) in ret (Some (q, 16 * Z.of_nat j))) s'
      | None => Ok None s'
      end.
Proof.
  intros fuel. induction fuel as [|fuel IH]; intros k g s Hf Hk HI; [lia|]. destruct (inode_seen t A dk g s p i f HI HO) as (x & E0 & Hdev & _ & _ & _ & Hsz & Hm).
  cbn [Fs.dirlookup_loop]. erewrite bind_Ok by exact E0. rewrite Hsz. unfold dir_ok in Hok. destruct (Z.ltb_spec (16 * Z.of_nat k) (Z.of_nat (length data))) as [Hlt|Hge].
  2:{ exists s, g. split_and!; [done|lia|]. by replace (nent data - k)%nat with 0%nat by lia. }
  destruct (entry_ok g s k HI ltac:(lia)) as (s1 & g1 & E1 & I1 & Hg1). erewrite bind_Ok by exact E1. cbn [fst snd]. change (negb (16 =? sizeof_dirent)) with false. cbv iota zeta.
  destruct (IH (Datatypes.S k) g1 s1 ltac:(lia) ltac:(lia) I1) as (s2 & g2 & I2 & Hg2 & E2). replace (16 * Z.of_nat (Datatypes.S k)) with (16 * Z.of_nat k + sizeof_dirent) in E2 by (unfold sizeof_dirent; lia).
  replace (nent data - k)%nat with (Datatypes.S (nent data - Datatypes.S k)) by lia. cbn [find_from]. unfold names at 1.
  destruct (Z.eqb_spec (de_inum (ent data k)) 0) as [Hz|Hz]; cbn [negb andb]; [exists s2, g2; split_and!; [done|lia|exact E2]|].
  destruct (Z.eqb_spec (namecmp name (de_name (ent data k))) 0) as [Hn|Hn].
  - rewrite namecmp_spec in Hn. rewrite bool_decide_true by done. exists s1, g1. split_and!; [done|lia|]. by rewrite Hdev.
  - rewrite bool_decide_false by (intros E'; apply Hn, namecmp_spec; done). exists s2, g2. split_and!; [done|lia|exact E2].
Qed.

Lemma dir_fuel_enough : (nent data < dir_fuel (Z.of_nat (length data)))%nat.
Proof. unfold dir_fuel, sizeof_dirent. unfold dir_ok in Hok. rewrite Hok. replace (Z.of_nat (16 * nent data) / 16) with (Z.of_nat (nent data)) by (Z.to_euclidean_division_equations; lia). lia. Qed.

Lemma dirlookup_ok name g s : inside t A dk g s ->
  exists s' g', inside t A dk g' s' /\ (size g' <= size g)%nat /\
    dirlookup p name s =
      match dir_find data (cname DIRSIZ name) with
      | Some (k, j) => (let! q := iget 1 j in ret (Some (q, 16 * Z.of_nat k))) s'
      | None => Ok None s'
      end.
Proof.
  intros HI. destruct (inode_seen t A dk g s p i f HI HO) as (x & E0 & Hdev & _ & Hty & _ & Hsz & Hm). pose proof dir_fuel_enough.
  destruct (dirlookup_loop_ok name (dir_fuel (d_size (i_d x))) 0 g s) as (s' & g' & I' & Hg & E); [rewrite Hsz; lia|lia|done|]. exists s', g'. split_and!; [done|done|].
  unfold Fs.dirlookup. erewrite bind_Ok by exact E0. rewrite Hty, Ht. cbn [negb]. change (negb (T_DIR =? T_DIR)) with false. cbv iota. rewrite Nat.sub_0_r in E. etrans; [exact E|].
  unfold dir_find. by destruct (find_from _ _ _).
Qed.

Lemma free_entry_ok : forall fuel k g s, (nent data - k < fuel)%nat -> (k <= nent data)%nat -> inside t A dk g s ->
  exists s' g', inside t A dk g' s' /\ (size g' <= size g)%nat /\
    free_entry fuel p (16 * Z.of_nat k) s = Ok (16 * Z.of_nat (default (nent data) (find_from (fun k => de_inum (ent data k) =? 0) k (nent data - k)))) s'.
Proof.
  intros fuel. induction fuel as [|fuel IH]; intros k g s Hf Hk HI; [lia|]. destruct (inode_seen t A dk g s p i f HI HO) as (x & E0 & Hdev & _ & _ & _ & Hsz & Hm).
  cbn [Fs.free_entry]. erewrite bind_Ok by exact E0. rewrite Hsz. unfold dir_ok in Hok. destruct (Z.ltb_spec (16 * Z.of_nat k) (Z.of_nat (length data))) as [Hlt|Hge].
  2:{ exists s, g. split_and!; [done|lia|]. replace (nent data - k)%nat with 0%nat by lia. cbn [find_from default]. by replace k with (nent data) by lia. }
  destruct (entry_ok g s k HI ltac:(lia)) as (s1 & g1 & E1 & I1 & Hg1). erewrite bind_Ok by exact E1. cbn [fst snd]. change (negb (16 =? sizeof_dirent)) with false. cbv iota zeta.
  replace (nent data - k)%nat with (Datatypes.S (nent data - Datatypes.S k)) by lia. cbn [find_from]. destruct (Z.eqb_spec (de_inum (ent data k)) 0) as [Hz|Hz]; [by exists s1, g1|].
  destruct (IH (Datatypes.S k) g1 s1 ltac:(lia) ltac:(lia) I1) as (s2 & g2 & I2 & Hg2 & E2). replace (16 * Z.of_nat (Datatypes.S k)) with (16 * Z.of_nat k + sizeof_dirent) in E2 by (unfold sizeof_dirent; lia).
  exists s2, g2. split_and!; [done|lia|exact E2].
Qed.
End Dir.

(** [iget] takes a reference, [iput] gives it back. *)
Inductive got (H : gmap nat handle) (i : Z) (q : nat) : gmap nat handle -> Prop :=
| Got_old c b : 0 < c -> H !! q = Some (mkHandle i c b) -> got H i q (<[q := mkHandle i (c + 1) b]> H)
| Got_new : H !! q = None -> (forall p k, H !! p = Some k -> h_inum k <> i) -> got H i q (<[q := mkHandle i 1 false]> H).

Lemma iop_Ok {X} (m : M fs X) (k : X -> ires) s r s' : (let! x := m in ret (k x)) s = Ok r s' -> exists x, m s = Ok x s' /\ r = k x.
Proof. unfold bind. destruct (m s); try done. intros [= <- <-]. eauto. Qed.

Lemma get_ok t F H lk dk g s i f : inside t (mkAfs F H lk) dk g s -> F !! i = Some f -> (exists p, (p < NINODE)%nat /\ H !! p = None) ->
  exists q s' g' H', iget 1 i s = Ok q s' /\ inside t (mkAfs F H' lk) dk g' s' /\ (size g' <= size g)%nat /\ got H i q H'.
Proof.
  intros HI Hf Hp. destruct (does_get me sb Hlk devsw_read devsw_write t _ dk g s i HI) as (r & s' & A' & g' & E & I' & Hst & Hg); [by exists f|by left|].
  cbn [iop_code] in E. apply (iop_Ok _ RHandle) in E as (q & E & ->). pose proof HI as (ic & v & D & HR & G).
  inversion Hst as [F0 H0 lk0 i0 p0 c b Hh E1 E2 E3|F0 H0 lk0 i0 p0 Hh Hno E1 E2 E3| | | | | | | | | |]; subst; exists q, s', g'; eexists; (split_and!; [exact E|exact I'|simpl in Hg; lia|]).
  - destruct (good_handle me sb _ ic v D q i c b G Hh) as (_ & _ & _ & _ & Hc & _). by constructor.
  - by constructor.
Qed.
Lemma put_got t F H H' lk dk g s i q f : inside t (mkAfs F H' lk) dk g s -> got H i q H' -> F !! i = Some f -> q ∉ lk -> exists s', iput me q s = Ok tt s' /\ inside t (mkAfs F H lk) dk g s'.
Proof.
  intros HI Hg Hf Hl. destruct Hg as [c b Hc Hh|Hh Hno].
  - destruct (put_keep me sb Hlk devsw_read devsw_write t F _ lk dk g s q i (c + 1) b f HI) as (s' & E & I'); [by rewrite lookup_insert_eq|done|done|lia|].
    rewrite decide_False, Z.add_simpl_r, insert_insert_eq, insert_id in I' by (done || lia). by exists s'.
  - destruct (put_keep me sb Hlk devsw_read devsw_write t F _ lk dk g s q i 1 false f HI) as (s' & E & I'); [by rewrite lookup_insert_eq|done|done|done|].
    rewrite decide_True, delete_insert_id in I' by done. by exists s'.
Qed.

Lemma write_ok F H lk dk g s p i f off l : inside true (mkAfs F H lk) dk g s -> opened (mkAfs F H lk) p i f -> f_type f <> T_DEV -> uint32 off -> uint32 (Z.of_nat (length l)) -> fits off l (f_data f) ->
  (usage sb F + (blocks_for (with_data (write_at (Z.to_nat off) l (f_data f)) f) - blocks_for f) <= length (data_blocks sb))%nat -> (size g + cost sb (IWrite p off l) <= bk_room)%nat ->
  exists s' g', writei p l off (Z.of_nat (length l)) s = Ok (Z.of_nat (length l)) s' /\
    inside true (mkAfs (<[i := with_data (write_at (Z.to_nat off) l (f_data f)) f]> F) H lk) dk g' s' /\ (size g' <= size g + cost sb (IWrite p off l))%nat.
Proof.
  intros HI [Hl (c & b & Hp) Hf] Ht Ho Hn Hfit Hu Hroom. destruct (does_write me sb Hly Hfs Hlk devsw_read devsw_write (mkAfs F H lk) dk g s p i c b f off l HI Hl Hp Hf Ht Ho Hn) as (r & s' & A' & g' & E & I' & Hst & Hg); [done..|].
  cbn [iop_code] in E. apply (iop_Ok _ RCount) in E as (n & E & ->). simpl in *.
  inversion Hst as [| | | | | | | |F0 H0 lk0 i' p' c' b' f' off' l' Hp' Hf' Hfit' E1 E2 E3 E4|F0 H0 lk0 i' p' c' b' f' off' l' Hp' Hf' Hfit' E1 E2 E3 E4| |]; subst;
    rewrite Hp in Hp'; injection Hp' as <- <- <-; rewrite Hf in Hf'; injection Hf' as <-; [|done]. by exists s', g'.
Qed.

Lemma write_err F H lk dk g s p i f off l : inside true (mkAfs F H lk) dk g s -> opened (mkAfs F H lk) p i f -> f_type f <> T_DEV -> uint32 off -> uint32 (Z.of_nat (length l)) -> ~ fits off l (f_data f) ->
  (size g + cost sb (IWrite p off l) <= bk_room)%nat ->
  exists s' g', writei p l off (Z.of_nat (length l)) s = Ok (-1) s' /\ inside true (mkAfs F H lk) dk g' s' /\ (size g' <= size g + cost sb (IWrite p off l))%nat.
Proof.
  intros HI [Hl (c & b & Hp) Hf] Ht Ho Hn Hmis Hroom. destruct (does_write me sb Hly Hfs Hlk devsw_read devsw_write (mkAfs F H lk) dk g s p i c b f off l HI Hl Hp Hf Ht Ho Hn) as (r & s' & A' & g' & E & I' & Hst & Hg); [done..|].
  cbn [iop_code] in E. apply (iop_Ok _ RCount) in E as (n & E & ->). simpl in *.
  inversion Hst as [| | | | | | | |F0 H0 lk0 i' p' c' b' f' off' l' Hp' Hf' Hfit' E1 E2 E3 E4|F0 H0 lk0 i' p' c' b' f' off' l' Hp' Hf' Hfit' E1 E2 E3 E4| |]; subst;
    rewrite Hp in Hp'; injection Hp' as <- <- <-; rewrite Hf in Hf'; injection Hf' as <-; [done|]. by exists s', g'.
Qed.

Lemma got_unlocked t t' F H H' lk dk dk' g g' s s' i q : inside t (mkAfs F H lk) dk g s -> inside t' (mkAfs F H' lk) dk' g' s' -> got H i q H' ->
  (forall q c b, H !! q = Some (mkHandle i c b) -> q ∉ lk) -> q ∉ lk.
Proof.
  intros (ic & v & D & HR & G) (ic' & v' & D' & HR' & G') Hgot Hl. inversion Hgot as [c b Hc Hh|Hh Hno]; subst; [by eapply Hl|]. intros Hin.
  pose proof (gd_handles _ _ _ _ _ _ G' q) as Hq'. simpl in Hq'. rewrite lookup_insert_eq in Hq'. destruct (ic' !! q) as [x'|] eqn:Hx'; [|done].
  assert (q < NINODE)%nat as Hq by (apply lookup_lt_Some in Hx'; by rewrite (gd_len _ _ _ _ _ _ G') in Hx'). destruct (lookup_lt_is_Some_2 ic q) as [x Hx]; [by rewrite (gd_len _ _ _ _ _ _ G)|].
  destruct (co_locked _ _ _ _ _ _ (gd_cache _ _ _ _ _ _ G q x Hx) Hin) as (_ & Hr & _). pose proof (gd_handles _ _ _ _ _ _ G q) as Hhq. simpl in Hhq. rewrite Hh, Hx in Hhq. simpl in Hhq.
  unfold handle_of in Hhq. by rewrite decide_True in Hhq.
Qed.

(** [dirlink] refuses a name that is there, and adds one that is not. *)
Lemma dirlink_present F H lk dk g s p i f name inum k j h : inside true (mkAfs F H lk) dk g s -> opened (mkAfs F H lk) p i f -> f_type f = T_DIR -> dir_ok (f_data f) ->
  dir_find (f_data f) (cname DIRSIZ name) = Some (k, j) -> F !! j = Some h -> (exists q, (q < NINODE)%nat /\ H !! q = None) -> (forall q c b, H !! q = Some (mkHandle j c b) -> q ∉ lk) ->
  exists s' g', dirlink p name inum s = Ok (-1) s' /\ inside true (mkAfs F H lk) dk g' s' /\ (size g' <= size g)%nat.
Proof.
  intros HI HO Ht Hok Hfind Hj Hfree Hnl. destruct (dirlookup_ok true _ dk p i f HO Ht Hok name g s HI) as (s1 & g1 & I1 & Hg1 & E1). rewrite Hfind in E1.
  destruct (get_ok true F H lk dk g1 s1 j h I1 Hj Hfree) as (q & s2 & g2 & H2 & E2 & I2 & Hg2 & Hgot).
  assert (q ∉ lk) as Hql by (by eapply (got_unlocked true true F H H2 lk)).
  destruct (put_got true F H H2 lk dk g2 s2 j q h I2 Hgot Hj Hql) as (s3 & E3 & I3). exists s3, g2. split_and!; [|done|lia]. unfold Fs.dirlink.
  rewrite (bind_Ok _ _ s (Some (q, 16 * Z.of_nat k)) s2) by (rewrite E1; by erewrite bind_Ok by exact E2). cbv iota beta. by erewrite bind_Ok by exact E3.
Qed.

Lemma dirlink_new F H lk dk g s p i f name inum : inside true (mkAfs F H lk) dk g s -> opened (mkAfs F H lk) p i f -> f_type f = T_DIR -> dir_ok (f_data f) -> Forall byte name ->
  dir_find (f_data f) (cname DIRSIZ name) = None -> let off := 16 * Z.of_nat (dir_free (f_data f)) in let l := mk_dirent inum (name_field name) in
  let f' := with_data (write_at (Z.to_nat off) l (f_data f)) f in
  off + 16 <= MAXFILE * 512 -> (usage sb F + (blocks_for f' - blocks_for f) <= length (data_blocks sb))%nat -> (size g + cost sb (IWrite p off l) <= bk_room)%nat ->
  exists s' g', dirlink p name inum s = Ok 0 s' /\ inside true (mkAfs (<[i := f']> F) H lk) dk g' s' /\ (size g' <= size g + cost sb (IWrite p off l))%nat.
Proof.
  intros HI HO Ht Hok Hn Hfind off l f' Hmax Hu Hroom. destruct (dirlookup_ok true _ dk p i f HO Ht Hok name g s HI) as (s1 & g1 & I1 & Hg1 & E1). rewrite Hfind in E1.
  destruct (inode_seen true _ dk g1 s1 p i f I1 HO) as (x & E2 & _ & _ & _ & _ & Hsz & Hm). pose proof (dir_fuel_enough f Hok).
  destruct (free_entry_ok true _ dk p i f HO Ht Hok (dir_fuel (d_size (i_d x))) 0 g1 s1) as (s3 & g3 & I3 & Hg3 & E3); [rewrite Hsz; lia|lia|done|]. rewrite Nat.sub_0_r in E3. fold (dir_free (f_data f)) in E3. fold off in E3.
  assert (length l = 16%nat) as Hl by (by apply length_mk_dirent). assert (dir_free (f_data f) <= nent (f_data f))%nat as Hk.
  { unfold dir_free. destruct (find_from _ _ _) as [k|] eqn:Ef; simpl; [|lia]. apply find_from_Some in Ef. lia. }
  destruct (write_ok F H lk dk g3 s3 p i f off l I3 HO) as (s4 & g4 & E4 & I4 & Hg4); [by rewrite Ht|unfold uint32, dir_ok, MAXFILE, NDIRECT, NINDIRECT in *; lia|rewrite Hl; done| |done|lia|].
  { unfold fits. rewrite Hl. unfold dir_ok in Hok. lia. }
  exists s4, g4. split_and!; [|done|lia]. rewrite Hl in E4. unfold Fs.dirlink. erewrite bind_Ok by exact E1. cbv iota beta. erewrite bind_Ok by exact E2. erewrite bind_Ok by exact E3. by erewrite bind_Ok by exact E4.
Qed.
End FsDir.
