(* ===== verification/FsPath.v ===== *)
(** * Path names

    [namei] and [nameiparent] walk the tree of directories. *)

From stdpp Require Import base gmap list strings.
From Stdlib Require Import ZArith Lia.
From S2P Require Import Prelude CString Sync Sleeplock CacheSpec Log BlockSpec Fs FsLayout FsInv FsBlocks FsFile FsRw FsInode FsCorrect FsNames FsDir.
Local Open Scope Z_scope.

(** ** The tree *)

(** Where a path leads from inode [i]; with [parent], to the directory of its
    last element. *)
Fixpoint walk (parent : bool) (F : gmap Z file) (i : Z) (es : list (list Z)) : option Z :=
  match es with
  | [] => if parent then None else Some i
  | e :: es' =>
      f ← F !! i;
      if negb (f_type f =? T_DIR) then None else
      if parent && bool_decide (es' = []) then Some i else
      e ← dir_find (f_data f) (take DIRSIZ e); walk parent F e.2 es'
  end.

(** Directories in the tree have whole entries, and lead to inodes with
    links. *)
Definition tree (F : gmap Z file) : Prop := forall i f, F !! i = Some f -> f_type f = T_DIR -> f_nlink f <> 0 ->
  dir_ok (f_data f) /\ forall nm k j, dir_find (f_data f) nm = Some (k, j) -> exists h, F !! j = Some h /\ f_nlink h <> 0.

(** ** References, without what is loaded *)

Definition refs (H : gmap nat handle) : gmap nat (Z * Z) := (fun k => (h_inum k, h_count k)) <$> H.
Implicit Types R : gmap nat (Z * Z).
Inductive ref_got R (i : Z) (q : nat) : gmap nat (Z * Z) -> Prop :=
| Ref_old c : 0 < c -> R !! q = Some (i, c) -> ref_got R i q (<[q := (i, c + 1)]> R)
| Ref_new : R !! q = None -> (forall p x, R !! p = Some x -> x.1 <> i) -> ref_got R i q (<[q := (i, 1)]> R).
Definition ref_put (q : nat) (i c : Z) R : gmap nat (Z * Z) := if decide (c = 1) then delete q R else <[q := (i, c - 1)]> R.

Lemma refs_lookup H p x : refs H !! p = Some x <-> exists b, H !! p = Some (mkHandle x.1 x.2 b).
Proof.
  unfold refs. rewrite lookup_fmap, fmap_Some. destruct x as [i c]. split; [intros ([i' c' b] & Hp & [= -> ->]); by exists b|]. intros [b Hp]. by eexists.
Qed.
Lemma refs_None H p : refs H !! p = None <-> H !! p = None.
Proof. unfold refs. by rewrite lookup_fmap, fmap_None. Qed.
Lemma refs_insert H p i c b : refs (<[p := mkHandle i c b]> H) = <[p := (i, c)]> (refs H).
Proof. unfold refs. by rewrite fmap_insert. Qed.
Lemma refs_got H i q H' : got H i q H' -> ref_got (refs H) i q (refs H').
Proof.
  intros [c b Hc Hh|Hh Hno]; rewrite refs_insert; constructor; [done|apply refs_lookup; eauto|by apply refs_None|]. intros p x (b & Hp)%refs_lookup. by apply (Hno p (mkHandle x.1 x.2 b)).
Qed.
Lemma refs_put H q i c b : refs (if decide (c = 1) then delete q H else <[q := mkHandle i (c - 1) b]> H) = ref_put q i c (refs H).
Proof. unfold ref_put. destruct (decide (c = 1)); [unfold refs; by rewrite fmap_delete|apply refs_insert]. Qed.

Lemma ref_got_at R i q R' : ref_got R i q R' -> exists c, R' !! q = Some (i, c) /\ 0 < c /\ (c = 1 -> R !! q = None) /\ ref_put q i c R' = R.
Proof.
  intros [c Hc Hq|Hq Hno]; rewrite lookup_insert_eq; eexists; (split_and!; [done|lia| |]).
  - intros ?; lia.
  - unfold ref_put. rewrite decide_False, insert_insert_eq, Z.add_simpl_r by lia. by rewrite insert_id.
  - done.
  - unfold ref_put. by rewrite decide_True, delete_insert_id.
Qed.
(** The next inode is taken before the last one is given back. *)
Lemma ref_got_next R i q R1 j q' R2 : ref_got R i q R1 -> ref_got R1 j q' R2 ->
  exists c, R2 !! q = Some (i, c) /\ 0 < c /\ (c = 1 -> R !! q = None) /\ ref_got R j q' (ref_put q i c R2).
Proof.
  intros G1 G2. destruct (ref_got_at _ _ _ _ G1) as (c & Hq & Hc & Hn & Hp). destruct (decide (q' = q)) as [->|Hne].
  - destruct G2 as [c2 Hc2 Hq2|Hq2 _]; [|congruence]. rewrite Hq in Hq2. injection Hq2 as <- <-. exists (c + 1). rewrite lookup_insert_eq. split_and!; [done|lia|intros ?; lia|].
    assert (ref_put q i (c + 1) (<[q := (i, c + 1)]> R1) = R1) as ->; [|done].
    unfold ref_put. by rewrite decide_False, insert_insert_eq, Z.add_simpl_r, insert_id by (done || lia).
  - assert (forall y, ref_put q i c (<[q' := y]> R1) = <[q' := y]> R) as Hcomm.
    { intros y. rewrite <- Hp. unfold ref_put. destruct (decide (c = 1)); [by rewrite delete_insert_ne|by rewrite insert_insert_ne]. }
    assert (R !! q' = R1 !! q') as Hq'. { rewrite <- Hp. unfold ref_put. destruct (decide (c = 1)); [by rewrite lookup_delete_ne|by rewrite lookup_insert_ne]. }
    exists c. destruct G2 as [c2 Hc2 Hq2|Hq2 Hno]; rewrite Hcomm, lookup_insert_ne by done; (split_and!; [done..|]); constructor; [done|congruence|congruence|].
    intros p x Hx. destruct (decide (p = q)) as [->|Hpq].
    + specialize (Hno q (i, c) Hq). destruct G1 as [c1 Hc1 Hq1|Hq1 _]; [|congruence]. rewrite Hq1 in Hx. by injection Hx as <-.
    + apply (Hno p). destruct G1; by rewrite lookup_insert_ne.
Qed.

(** A file without links is only reached through a handle that has it loaded;
    otherwise [iput] would not free it. *)
Definition pinned (F : gmap Z file) (H : gmap nat handle) : Prop := forall p i c b f, H !! p = Some (mkHandle i c b) -> F !! i = Some f -> f_nlink f = 0 -> b = true.
Lemma pinned_insert F H p i c b : pinned F H -> (forall f, F !! i = Some f -> f_nlink f = 0 -> b = true) -> pinned F (<[p := mkHandle i c b]> H).
Proof. intros HP Hb q j c' b' f [[-> [= <- <- <-]]|[_ Hq]]%lookup_insert_Some Hf Hn; [by eapply Hb|by eapply HP]. Qed.
Lemma pinned_delete F H p : pinned F H -> pinned F (delete p H).
Proof. intros HP q j c' b' f [_ Hq]%lookup_delete_Some Hf Hn. by eapply HP. Qed.
Lemma pinned_put F H p i c b : pinned F H -> H !! p = Some (mkHandle i c b) -> pinned F (if decide (c = 1) then delete p H else <[p := mkHandle i (c - 1) b]> H).
Proof. intros HP Hp. destruct (decide (c = 1)); [by apply pinned_delete|]. apply pinned_insert; [done|]. intros f. by eapply HP. Qed.
Lemma pinned_got F H i q H' f : pinned F H -> got H i q H' -> F !! i = Some f -> f_nlink f <> 0 -> pinned F H'.
Proof. intros HP [c b Hc Hh|Hh Hno] Hf Hn; apply pinned_insert; try done; intros f' Hf'; [by eapply HP|congruence]. Qed.

Section FsPath.
Context {L S : Type} `{HL : Locks L} `{HB : Blocks S} (me : Z) (sb : superblock) (Hly : layout sb) (Hfs : forall n, fs_block sb n -> bk_fs n)
  (Hlk : (NINODE < lk_count)%nat).
Notation fs := (fs (L := L) (S := S)).
Context (devsw_read : Z -> option (nat -> Z -> M fs (Z * list Z))) (devsw_write : Z -> option (nat -> list Z -> M fs Z)).
Implicit Types (v : Z -> block) (dk : history) (g : gset Z) (ic : list inode) (s : fs) (A : afs).
Notation inside := (inside me sb).
Notation dirlookup := (dirlookup devsw_read).
Notation namex_loop := (namex_loop me devsw_read).
Notation namex := (namex me devsw_read).

Lemma lock_ok t F H dk g s q i c b : inside t (mkAfs F H ∅) dk g s -> H !! q = Some (mkHandle i c b) ->
  exists s' g', ilock me q s = Ok tt s' /\ inside t (mkAfs F (<[q := mkHandle i c true]> H) {[q]}) dk g' s' /\ (size g' <= size g)%nat.
Proof.
  intros HI Hq. destruct (does_lock me sb Hly Hfs Hlk devsw_read devsw_write t _ dk g s q HI) as (r & s' & A' & g' & E & I' & Hst & Hg); [by eexists|apply not_elem_of_empty|].
  cbn [iop_code] in E. apply (iop_Ok _ (fun _ => RDone)) in E as ([] & E & ->). inversion Hst as [| | |F0 H0 lk0 i0 p0 c0 b0 Hh E1 E2 E3| | | | | | | |]; subst. rewrite Hq in Hh. injection Hh as <- <- <-.
  rewrite union_empty_r_L in I'. exists s', g'. split_and!; [done|done|simpl in Hg; lia].
Qed.
Lemma unlock_ok t F H dk g s q : inside t (mkAfs F H {[q]}) dk g s -> is_Some (H !! q) ->
  exists s' g', iunlock me q s = Ok tt s' /\ inside t (mkAfs F H ∅) dk g' s' /\ (size g' <= size g)%nat.
Proof.
  intros HI Hq. destruct (does_unlock me sb Hly Hfs Hlk devsw_read devsw_write t _ dk g s q HI) as (r & s' & A' & g' & E & I' & Hst & Hg); [cbn [a_locked]; by apply elem_of_singleton|done|].
  cbn [iop_code] in E. apply (iop_Ok _ (fun _ => RDone)) in E as ([] & E & ->). inversion Hst as [| | | |F0 H0 lk0 p0 E1 E2 E3| | | | | | |]; subst.
  rewrite difference_diag_L in I'. exists s', g'. split_and!; [done|done|simpl in Hg; lia].
Qed.
Lemma unlockput_ok t F H dk g s q i c b f : inside t (mkAfs F H {[q]}) dk g s -> H !! q = Some (mkHandle i c b) -> F !! i = Some f -> (f_nlink f = 0 -> c <> 1) ->
  exists s' g' H', iunlockput me q s = Ok tt s' /\ inside t (mkAfs F H' ∅) dk g' s' /\ (size g' <= size g)%nat /\ refs H' = ref_put q i c (refs H) /\ (pinned F H -> pinned F H').
Proof.
  intros HI Hq Hf Hk. destruct (unlock_ok t F H dk g s q HI) as (s1 & g1 & E1 & I1 & Hg1); [by eexists|].
  destruct (put_keep me sb Hlk devsw_read devsw_write t F H ∅ dk g1 s1 q i c b f I1 Hq) as (s2 & E2 & I2); [apply not_elem_of_empty|done|auto|].
  exists s2, g1. eexists. split_and!; [|exact I2|done|apply refs_put|intros HP; by apply pinned_put]. unfold iunlockput. by erewrite bind_Ok by exact E1.
Qed.

(** What a walk ends with: a reference to the inode it leads to, or none. *)
Definition arrived (R : gmap nat (Z * Z)) (o : option Z) (r : option nat) (R' : gmap nat (Z * Z)) : Prop :=
  match o, r with
  | Some j, Some q => ref_got R j q R'
  | None, None => R' = R
  | _, _ => False
  end.

Section Walk.
Context (F : gmap Z file) (HF : tree F) (R : gmap nat (Z * Z)) (Hfree : exists p1 p2, p1 <> p2 /\ (p1 < NINODE)%nat /\ (p2 < NINODE)%nat /\ R !! p1 = None /\ R !! p2 = None).

Lemma still_free i q H1 : ref_got R i q (refs H1) -> exists p, (p < NINODE)%nat /\ H1 !! p = None.
Proof.
  intros G. destruct Hfree as (p1 & p2 & Hne & H1' & H2' & N1 & N2). assert (forall p, p <> q -> refs H1 !! p = R !! p) as Ho by (intros p Hp; inversion G; subst; by rewrite lookup_insert_ne).
  destruct (decide (p1 = q)) as [->|Hp1]; [exists p2|exists p1]; (split; [done|]); apply refs_None; by rewrite Ho.
Qed.

Lemma walk_ok parent dk : forall fuel path name i q f H1 g s, (length path < fuel)%nat -> length name = DIRSIZ -> inside true (mkAfs F H1 ∅) dk g s -> ref_got R i q (refs H1) ->
  F !! i = Some f -> f_nlink f <> 0 -> pinned F H1 ->
  exists r name' s' g' H', namex_loop fuel q path parent name s = Ok (r, name') s' /\ inside true (mkAfs F H' ∅) dk g' s' /\ (size g' <= size g)%nat /\ pinned F H' /\
    arrived R (walk parent F i (elems path)) r (refs H') /\ length name' = DIRSIZ /\ (parent = true -> is_Some r -> cname DIRSIZ name' = take DIRSIZ (List.last (elems path) [])) /\ (Forall byte path -> Forall byte name -> Forall byte name').
Proof.
  intros fuel. induction fuel as [|fuel IH]; intros path name i q f H1 g s Hfu Hn HI G Hf Hkeep HP; [lia|]. cbn [Fs.namex_loop]. pose proof (skipelem_spec path name Hn) as Hsk. pose proof (skipelem_bytes path name) as Hby.
  destruct (ref_got_at _ _ _ _ G) as (c & Hq & Hc & Hc1 & Hput). pose proof Hq as [b Hh]%refs_lookup. cbn [fst snd] in Hh.
  destruct (skipelem path name) as [[path' name']|]; [specialize (Hby path' name')|clear Hby].
  2:{ rewrite Hsk. destruct parent; cbn [walk].
    - destruct (put_keep me sb Hlk devsw_read devsw_write true F H1 ∅ dk g s q i c b f HI Hh) as (s1 & E1 & I1); [apply not_elem_of_empty|done|auto|].
      eexists None, name, s1, g, _. split_and!; [by erewrite bind_Ok by exact E1|exact I1|done|by apply pinned_put| |done|by intros _ [? ?]|naive_solver]. cbn [arrived]. rewrite refs_put. done.
    - exists (Some q), name, s, g, H1. split_and!; done. }
  destruct Hsk as (e & He & Hne & Hnl & Hlen & Hpk). rewrite He. destruct (lock_ok true F H1 dk g s q i c b HI Hh) as (s1 & g1 & E1 & I1 & Hg1). set (H2 := <[q := mkHandle i c true]> H1) in *.
  assert (pinned F H2) as HP2 by (by apply pinned_insert). assert (refs H2 = refs H1) as HR2 by (unfold H2; rewrite refs_insert; by apply insert_id). assert (H2 !! q = Some (mkHandle i c true)) as Hh2 by apply lookup_insert_eq.
  assert (opened (mkAfs F H2 {[q]}) q i f) as HO by (split; [cbn [a_locked]; by apply elem_of_singleton|by exists c, true|done]).
  destruct (inode_seen me sb Hlk devsw_read devsw_write true _ dk g1 s1 q i f I1 HO) as (x & E2 & _ & _ & Hty & _). erewrite bind_Ok by exact E1. erewrite bind_Ok by exact E2. rewrite Hty. cbn [walk]. rewrite Hf. cbn [mbind option_bind].
  destruct (Z.eqb_spec (f_type f) T_DIR) as [Hd|Hd]; cbn [negb].
  2:{ destruct (unlockput_ok true F H2 dk g1 s1 q i c true f I1 Hh2 Hf ltac:(done)) as (s3 & g3 & H3 & E3 & I3 & Hg3 & HR3 & HP3). exists None, name', s3, g3, H3.
    split_and!; [by erewrite bind_Ok by exact E3|done|lia|auto| |done|by intros _ [? ?]|naive_solver]. cbn [arrived]. by rewrite HR3, HR2. }
  destruct (parent && (peek path' =? 0)) eqn:Epar.
  { apply andb_true_iff in Epar as [-> Hp0%Z.eqb_eq]. rewrite Hpk in Hp0. rewrite Hp0. cbn [andb]. rewrite bool_decide_true by done.
    destruct (unlock_ok true F H2 dk g1 s1 q I1) as (s3 & g3 & E3 & I3 & Hg3); [by eexists|]. exists (Some q), name', s3, g3, H2. split_and!; [by erewrite bind_Ok by exact E3|done|lia|done| |done|done|naive_solver]. cbn [arrived]. by rewrite HR2. }
  assert (parent && bool_decide (elems path' = []) = false) as ->.
  { destruct parent; [|done]. cbn [andb] in *. apply bool_decide_false. rewrite <- Hpk. by apply Z.eqb_neq. }
  destruct (HF i f Hf Hd Hkeep) as [Hok Hent]. destruct (dirlookup_ok me sb Hly Hfs Hlk devsw_read devsw_write true _ dk q i f HO Hd Hok name' g1 s1 I1) as (s3 & g3 & I3 & Hg3 & E3). rewrite Hne in E3.
  destruct (dir_find (f_data f) (take DIRSIZ e)) as [[k j]|] eqn:Efind; cbn [mbind option_bind snd].
  2:{ destruct (unlockput_ok true F H2 dk g3 s3 q i c true f I3 Hh2 Hf ltac:(done)) as (s4 & g4 & H4 & E4 & I4 & Hg4 & HR4 & HP4). exists None, name', s4, g4, H4.
    split_and!; [erewrite bind_Ok by exact E3; cbv iota beta; by erewrite bind_Ok by exact E4|done|lia|auto| |done|by intros _ [? ?]|naive_solver]. cbn [arrived]. by rewrite HR4, HR2. }
  destruct (Hent _ _ _ Efind) as (h & Hj & Hnl0). rewrite <- HR2 in G. destruct (get_ok me sb Hlk devsw_read devsw_write true F H2 {[q]} dk g3 s3 j h I3 Hj (still_free i q H2 G)) as (q' & s4 & g4 & H4 & E4 & I4 & Hg4 & Hgot).
  destruct (ref_got_next _ _ _ _ _ _ _ G (refs_got _ _ _ _ Hgot)) as (c4 & Hq4 & Hc4 & Hc41 & G4). pose proof Hq4 as [b4 Hh4]%refs_lookup. cbn [fst snd] in Hh4.
  destruct (unlockput_ok true F H4 dk g4 s4 q i c4 b4 f I4 Hh4 Hf ltac:(done)) as (s5 & g5 & H5 & E5 & I5 & Hg5 & HR5 & HP5). rewrite <- HR5 in G4.
  assert (pinned F H4) as HP4 by (by eapply pinned_got).
  destruct (IH path' name' j q' h H5 g5 s5 ltac:(lia) Hnl I5 G4 Hj Hnl0 (HP5 HP4)) as (r & name2 & s6 & g6 & H6 & E6 & I6 & Hg6 & HP6 & Ha & Hl6 & Hname & Hby6). exists r, name2, s6, g6, H6.
  split_and!; [|done|lia|done|exact Ha|done| |naive_solver].
  - assert (dirlookup q name' s1 = Ok (Some (q', 16 * Z.of_nat k)) s4) as E34 by (rewrite E3; by erewrite bind_Ok by exact E4). erewrite bind_Ok by exact E34. cbv iota beta. by erewrite bind_Ok by exact E5.
  - intros -> Hr. rewrite Hname by done. destruct (elems path') as [|e' es'] eqn:Ee; [|done]. exfalso. cbn [walk arrived] in Ha. destruct Hr as [? ->]. done.
Qed.
End Walk.

Lemma namex_ok parent F H dk g s cwd ci c b root path name : inside true (mkAfs F H ∅) dk g s -> tree F -> F !! ROOTINO = Some root -> f_nlink root <> 0 ->
  H !! cwd = Some (mkHandle ci c b) -> (forall f, F !! ci = Some f -> f_nlink f <> 0) -> pinned F H -> (exists p1 p2, p1 <> p2 /\ (p1 < NINODE)%nat /\ (p2 < NINODE)%nat /\ H !! p1 = None /\ H !! p2 = None) -> length name = DIRSIZ ->
  exists r name' s' g' H', namex cwd path parent name s = Ok (r, name') s' /\ inside true (mkAfs F H' ∅) dk g' s' /\ (size g' <= size g)%nat /\ pinned F H' /\
    arrived (refs H) (walk parent F (if peek path =? 47 then ROOTINO else ci) (elems path)) r (refs H') /\ length name' = DIRSIZ /\
    (parent = true -> is_Some r -> cname DIRSIZ name' = take DIRSIZ (List.last (elems path) [])) /\ (Forall byte path -> Forall byte name -> Forall byte name').
Proof.
  intros HI HF Hroot Hnl Hcwd Hlive HP (p1 & p2 & Hne & Hp1 & Hp2 & N1 & N2) Hn. assert (exists p1 p2, p1 <> p2 /\ (p1 < NINODE)%nat /\ (p2 < NINODE)%nat /\ refs H !! p1 = None /\ refs H !! p2 = None) as Hfree.
  { exists p1, p2. by rewrite !refs_None. }
  assert (exists q s1 g1 H1 f, (if peek path =? 47 then iget ROOTDEV ROOTINO else idup cwd) s = Ok q s1 /\ inside true (mkAfs F H1 ∅) dk g1 s1 /\ (size g1 <= size g)%nat /\
    ref_got (refs H) (if peek path =? 47 then ROOTINO else ci) q (refs H1) /\ F !! (if peek path =? 47 then ROOTINO else ci) = Some f /\ f_nlink f <> 0 /\ pinned F H1) as (q & s1 & g1 & H1 & f & E1 & I1 & Hg1 & G & Hf & Hk & HP1).
  { destruct (peek path =? 47).
    - destruct (get_ok me sb Hlk devsw_read devsw_write true F H ∅ dk g s ROOTINO root HI Hroot) as (q & s1 & g1 & H1 & E1 & I1 & Hg1 & Hgot); [by exists p1|].
      exists q, s1, g1, H1, root. split_and!; [done|done|done|by apply refs_got|done|done|by eapply pinned_got].
    - pose proof HI as (ic & v & D & HR & Gd). destruct (good_handle me sb _ ic v D cwd ci c b Gd Hcwd) as (_ & _ & _ & _ & Hc & _ & Hf & _).
      destruct (does_dup me sb Hlk devsw_read devsw_write true _ dk g s cwd HI) as (r & s1 & A' & g1 & E & I' & Hst & Hg); [by eexists|]. cbn [iop_code] in E. apply (iop_Ok _ RHandle) in E as (q & E & ->).
      inversion Hst as [| |F0 H0 lk0 i0 p0 c0 b0 Hh E1 E2 E3| | | | | | | | |]; subst. rewrite Hcwd in Hh. injection Hh as <- <- <-.
      eexists q, s1, g1, _, _. split_and!; [done|exact I'|simpl in Hg; lia| |exact Hf|by apply Hlive|apply pinned_insert; [done|]; intros f'; by eapply HP].
      rewrite refs_insert. constructor; [done|]. apply refs_lookup. by exists b. }
  destruct (walk_ok F HF (refs H) Hfree parent dk (Datatypes.S (length path)) path name _ q f H1 g1 s1 ltac:(lia) Hn I1 G Hf Hk HP1) as (r & name' & s2 & g2 & H2 & E2 & I2 & Hg2 & HP2 & Ha & Hl2 & Hname).
  exists r, name', s2, g2, H2. split_and!; [|done|lia|done|done|done|apply Hname|apply Hname]. unfold Fs.namex. by erewrite bind_Ok by exact E1.
Qed.
End FsPath.
