(* ===== verification/FsLog.v ===== *)
(** * The log keeps its promises to the file system

    [Log] on any buffer cache is an instance of [Blocks]: a transaction may
    log two blocks fewer than the log has, and three fewer than the cache. *)

From stdpp Require Import base gmap list strings.
From Stdlib Require Import ZArith Lia.
From S2P Require Import Prelude Spinlock Sync CacheSpec Log LogRefine LogTxn BlockSpec.
Local Open Scope Z_scope.

Section FsLog.
Context {K S : Type} `{HK : Lock K} `{HC : Cache S}.
Notation fs_state := (fs_state (K := K) (S := S)).
Context (st sz : Z) (Hst : 0 <= st) (Hsz : st + sz <= cache_size) (Hz : 1 < sz <= 30) (Hcap : sz <= Z.of_nat cache_cap)
  (Hcap3 : (3 <= cache_cap)%nat) (Hdisk : cache_size <= 2 ^ 31).
Notation home := (home st sz).
Notation in_area := (in_area st sz).
Notation log_mem := (log_mem st sz).
Implicit Types (s : fs_state) (t : txn) (a : acache).

Definition log_room : nat := Nat.min (Z.to_nat sz - 2) (cache_cap - 3).

Record logged_as s t (a : acache) (bl : list Z) : Prop := {
  ls_lock : lk_free (l_lock s);
  ls_cache : crepr (l_cache s) a;
  ls_mem : log_mem (lg s) bl;
  ls_size : lsize (lg s) = sz;
  ls_out : outstanding (lg s) = if t_open t then 1 else 0;
  ls_com : committing (lg s) = false;
  ls_nodup : NoDup bl;
  ls_pinned : forall n, n ∈ a_pinned a <-> n ∈ bl;
  ls_logged : t_logged t = list_to_set bl;
  ls_room : (length bl <= log_room)%nat;
  ls_len : forall n, length (a_view a n) = BSIZE;
  ls_held : a_held a = t_held t;
  ls_home : forall n, n ∈ (t_held t).*2 -> home n;
  ls_closed : t_open t = false -> bl = [];
  ls_head : hd_n (a_view a st) = 0;
  ls_view : forall n, home n -> a_view a n = t_view t n;
  ls_ok : log_ok st sz (a_disk a);
  ls_disk : a_image a = hs_image (t_disk t) /\ a_writes a = hs_writes (t_disk t)
}.
Definition lrepr s t : Prop := exists a bl, logged_as s t a bl.

Lemma ls_a_disk s t a bl n : logged_as s t a bl -> a_disk a n = t_disk t n.
Proof. intros H. destruct (ls_disk _ _ _ _ H) as [Hi Hw]. unfold a_disk, disk_of. by rewrite Hi, Hw. Qed.
Lemma st_not_home : ~ home st.
Proof. intros [_ H]. apply H. unfold LogRefine.in_area. lia. Qed.
Lemma ls_size_logged s t a bl : logged_as s t a bl -> size (t_logged t) = length bl.
Proof. intros H. rewrite (ls_logged _ _ _ _ H). apply size_list_to_set, H. Qed.
Lemma ls_pinned_length s t a bl : logged_as s t a bl -> length (a_pinned a) = length bl.
Proof. intros H. apply pinned_length; [apply (crepr_wf _ _ (ls_cache _ _ _ _ H))|apply H|apply H]. Qed.

(** The log on the disk [x] is in order and gives the contents [y]. *)
Definition recovers (x y : Z -> block) : Prop := log_ok st sz x /\ forall n, home n -> contents st x n = y n.
Lemma recovers_ext x x' y : (forall n, x' n = x n) -> recovers x y -> recovers x' y.
Proof. intros He [Hok Hy]. split; [by eapply log_ok_ext|]. intros n Hn. rewrite (contents_ext st _ _ He). by apply Hy. Qed.

(** A machine that starts on [x], after any number of recoveries that did not
    finish, recovers and finds [y]. *)
Definition boots (x y : Z -> block) : Prop := forall x' k0 l0 c0,
  crashes st x x' -> crepr c0 (clean x') -> log_for st l0 ->
  exists l1 c1 a1, recover_from_log (mkFs (K := K) k0 l0 c0) = Ok tt (mkFs k0 l1 c1) /\ crepr c1 a1 /\ forall n, home n -> a_disk a1 n = y n.
Lemma recovers_boots x y : recovers x y -> boots x y.
Proof.
  intros [Hok Hy] x' k0 l0 c0 Hx R0 Hl0. destruct (crashes_ok st sz Hz _ _ Hok Hx) as [Hokd Hcd].
  destruct (reboot_ok st sz Hst Hsz Hz Hcap k0 l0 c0 x' R0 Hl0 Hokd) as (l1 & c1 & a1 & E1 & R1 & Hd1). exists l1, c1, a1. split_and!; [done..|].
  intros n Hn. pose proof Hn as [_ Ha]. rewrite Hd1, Hcd by done. by apply Hy.
Qed.

(** ** The operations *)

Lemma log_size s t : lrepr s t -> (size (t_logged t) <= log_room)%nat.
Proof. intros (a & bl & H). rewrite (ls_size_logged _ _ _ _ H). apply H. Qed.
Lemma log_held s t : lrepr s t -> NoDup (t_held t).*1 /\ NoDup (t_held t).*2.
Proof. intros (a & bl & H). rewrite <- (ls_held _ _ _ _ H). pose proof (crepr_wf _ _ (ls_cache _ _ _ _ H)) as W. split; apply W. Qed.
Lemma log_len s t n : lrepr s t -> home n -> length (t_view t n) = BSIZE.
Proof. intros (a & bl & H) Hn. rewrite <- (ls_view _ _ _ _ H) by done. apply H. Qed.
Lemma log_clean s t n : lrepr s t -> home n -> n ∉ t_logged t -> n ∉ (t_held t).*2 -> t_view t n = t_disk t n.
Proof.
  intros (a & bl & H) Hn Hl Hh. rewrite <- (ls_view _ _ _ _ H), <- (ls_a_disk _ _ _ _ _ H) by done. apply (crepr_wf _ _ (ls_cache _ _ _ _ H)).
  - rewrite (ls_pinned _ _ _ _ H). intros Hb. apply Hl. rewrite (ls_logged _ _ _ _ H). by apply elem_of_list_to_set.
  - by rewrite (ls_held _ _ _ _ H).
Qed.

(** Only the buffers change. *)
Lemma logged_held k l c c' t a bl h : logged_as (mkFs k l c) t a bl -> crepr c' (with_held h a) -> (forall n, n ∈ h.*2 -> home n) ->
  logged_as (mkFs k l c') (t_with_held h t) (with_held h a) bl.
Proof. intros [] Hc Hh. split; simpl in *; done. Qed.

Lemma log_read s t n : lrepr s t -> home n -> n ∉ (t_held t).*2 -> (length (t_held t) <= 2)%nat ->
  exists i s', on_cache (cread 1 n) s = Ok i s' /\ i ∉ (t_held t).*1 /\ lrepr s' (t_with_held ((i, n) :: t_held t) t).
Proof.
  destruct s as [k l c]. intros (a & bl & H) Hn Hh Hl. pose proof (ls_held _ _ _ _ H) as Eh. pose proof (ls_room _ _ _ _ H) as Hr. unfold log_room in Hr. simpl in *.
  destruct (cread_ok c a n (ls_cache _ _ _ _ H)) as (i & c' & E & Hi & R'); [apply Hn|by rewrite Eh|right; rewrite Eh, (ls_pinned_length _ _ _ _ H); lia|].
  rewrite Eh in Hi, R'. exists i, (mkFs k l c'). split_and!; [by apply on_cache_Ok|done|]. exists (with_held ((i, n) :: t_held t) a), bl. eapply logged_held; [done..|].
  intros m Hm. csimpl in Hm. apply elem_of_cons in Hm as [->|Hm]; [done|]. by apply H.
Qed.
Lemma log_relse s t i n : lrepr s t -> (i, n) ∈ t_held t -> (n ∈ t_logged t \/ t_view t n = t_disk t n) ->
  exists s', on_cache (crelse i) s = Ok tt s' /\ lrepr s' (t_with_held (unhold i (t_held t)) t).
Proof.
  destruct s as [k l c]. intros (a & bl & H) Hi Hn. pose proof (ls_held _ _ _ _ H) as Eh. assert (home n) as Hm by (eapply H, held_blocks, Hi).
  destruct (crelse_ok c a i n (ls_cache _ _ _ _ H)) as (c' & E & R'); [by rewrite Eh| |].
  { destruct Hn as [Hn|Hn]; [left; apply (ls_pinned _ _ _ _ H); rewrite (ls_logged _ _ _ _ H) in Hn; by apply elem_of_list_to_set in Hn|right].
    by rewrite (ls_view _ _ _ _ H), (ls_a_disk _ _ _ _ _ H). }
  rewrite Eh in R'. exists (mkFs k l c'). split; [by apply on_cache_Ok|]. exists (with_held (unhold i (t_held t)) a), bl. eapply logged_held; [done..|].
  intros m Hm'. apply (ls_home _ _ _ _ H). apply list_elem_of_fmap in Hm' as ([j q] & -> & Hj). apply elem_of_unhold in Hj as [_ Hj]. by eapply held_blocks.
Qed.
Lemma log_data s t i n : lrepr s t -> (i, n) ∈ t_held t -> on_cache (cget i) s = Ok (t_view t n) s.
Proof.
  destruct s as [k l c]. intros (a & bl & H) Hi. assert (home n) as Hm by (eapply H, held_blocks, Hi).
  rewrite <- (ls_view _ _ _ _ H) by done. apply on_cache_Ok. apply (cget_ok c a i n (ls_cache _ _ _ _ H)). by rewrite (ls_held _ _ _ _ H).
Qed.
Lemma log_set s t i n x : lrepr s t -> (i, n) ∈ t_held t -> length x = BSIZE -> exists s', on_cache (cset i x) s = Ok tt s' /\ lrepr s' (t_with_view (vput n x (t_view t)) t).
Proof.
  destruct s as [k l c]. intros (a & bl & H) Hi Hx. assert (home n) as Hm by (eapply H, held_blocks, Hi).
  destruct (cset_ok c a i n x (ls_cache _ _ _ _ H)) as (c' & E & R'); [by rewrite (ls_held _ _ _ _ H)|]. exists (mkFs k l c'). split; [by apply on_cache_Ok|].
  exists (with_view (vput n x (a_view a)) a), bl. destruct H. split; simpl in *; try done.
  - intros m. unfold vput. destruct (m =? n); [done|auto].
  - rewrite vput_ne; [done|]. intros <-. by apply st_not_home.
  - intros m Hm'. unfold vput. destruct (m =? n); [done|auto].
Qed.
Lemma log_log s t i n : lrepr s t -> (i, n) ∈ t_held t -> (n ∈ t_logged t \/ (size (t_logged t) < log_room)%nat) -> t_open t = true ->
  exists s', log_write i s = Ok tt s' /\ lrepr s' (t_with_logged ({[n]} ∪ t_logged t) t).
Proof.
  destruct s as [k l c]. intros (a & bl & H) Hi Hn Ho. assert (home n) as Hm by (eapply H, held_blocks, Hi). pose proof (ls_room _ _ _ _ H) as Hr. pose proof Hr as Hr'. unfold log_room in Hr'.
  pose proof (ls_out _ _ _ _ H) as Hout. rewrite Ho in Hout. simpl in Hout. rewrite (ls_size_logged _ _ _ _ H), (ls_logged _ _ _ _ H), elem_of_list_to_set in Hn.
  destruct (log_write_ok st sz Hz k l c a i n bl) as (k' & c' & E & Hk' & R'); [apply H|apply H|apply H|lia|apply H|lia|apply H|by rewrite (ls_held _ _ _ _ H)|done|].
  exists (mkFs k' (relogged n l) c'). split; [done|]. destruct (relogged_same n l) as (S1 & S2 & S3). exists (with_pinned (pin n (a_pinned a)) a), (logged n bl).
  destruct H. split; simpl in *; try done; try congruence.
  - by apply relogged_mem; [..|lia].
  - by apply NoDup_logged.
  - intros m. by rewrite elem_of_pin, (elem_of_logged sz Hz), ls_pinned0.
  - rewrite ls_logged0. apply set_eq. intros m. rewrite elem_of_union, elem_of_singleton, !elem_of_list_to_set, (elem_of_logged sz Hz). done.
  - unfold logged. destruct (decide (n ∈ bl)); [done|]. rewrite length_app. simpl. destruct Hn; [done|lia].
Qed.

Lemma logged_between s t a bl : logged_as s t a bl -> t_held t = [] -> between st sz a.
Proof.
  intros H Hh. pose proof (ls_room _ _ _ _ H) as Hr. unfold log_room in Hr. split; [by rewrite (ls_held _ _ _ _ H)|apply H| |rewrite (ls_pinned_length _ _ _ _ H); lia].
  intros n Hn%H. pose proof (lm_home _ _ _ _ (ls_mem _ _ _ _ H)) as F. rewrite Forall_forall in F. by apply F.
Qed.
Lemma log_begin s v d : lrepr s (mkTxn false v d ∅ []) -> exists s', begin_op s = Ok tt s' /\ lrepr s' (mkTxn true v d ∅ []).
Proof.
  destruct s as [k l c]. intros (a & bl & H). pose proof (ls_closed _ _ _ _ H eq_refl) as ->. destruct (begin_op_ok st sz k l c a) as (k' & E & Hk' & Hop); [apply H|apply H| |].
  { split; [apply H|apply H|apply H|apply H|by eapply logged_between| |apply H]. apply elem_of_nil_inv. intros n Hn%H. by apply not_elem_of_nil in Hn. }
  exists (mkFs k' (set_outstanding 1 l) c). split; [done|]. exists a, []. destruct H. split; simpl in *; try done. apply Hop.
Qed.
Lemma log_end s v d g : lrepr s (mkTxn true v d g []) ->
  exists s' ws, end_op s = Ok tt s' /\ lrepr s' (mkTxn false v (then_writes d ws) ∅ []) /\
    forall i, (forall y, (forall n, home n -> y n = d n) -> recovers (disk_after d (take i ws)) y) \/ recovers (disk_after d (take i ws)) v.
Proof.
  destruct s as [k l c]. intros (a & bl & H). pose proof (logged_between _ _ _ _ H eq_refl) as Hb. assert (in_op st sz a bl l a) as Hop.
  { pose proof (ls_out _ _ _ _ H) as Ho. simpl in Ho. split; try apply H; [lia|done|done|done]. }
  destruct (end_op_ok st sz Hst Hsz Hz k l c a a bl) as (k' & l' & c' & a' & E & Hk' & R' & Hq & Hi & Hw & Hv); [apply H|apply H|done|apply H|apply H|].
  assert (forall n, a_disk a n = d n) as Hd by (intros n; exact (ls_a_disk _ _ _ _ n H)).
  exists (mkFs k' l' c'), (final_writes st a bl). split_and!; [done| |].
  - exists a', []. pose proof Hq as [Q1 Q2 Q3 Q4 Q5 Q6 Q7]. split; simpl; try done.
    + constructor.
    + intros n. by rewrite Q6.
    + lia.
    + apply Q5.
    + apply Q5.
    + intros n []%not_elem_of_nil.
    + intros n Hn. rewrite Hv by apply Hn. by apply (ls_view _ _ _ _ H).
    + eapply log_ok_ext; [|eapply (quiet_log_ok st sz Hz); [exact R'|exact Hq]]. intros n. symmetry. apply (view_clean st sz _ _ _ R' Q5). rewrite Q6. apply not_elem_of_nil.
    + rewrite Hi, Hw. destruct (ls_disk _ _ _ _ H) as [-> ->]. done.
  - intros i. destruct (final_writes_crash st sz Hz Hdisk l c a a bl i (ls_cache _ _ _ _ H) Hop (ls_head _ _ _ _ H) (ls_ok _ _ _ _ H)) as [Hok Hcr].
    assert (forall n, disk_after d (take i (final_writes st a bl)) n = disk_after (a_disk a) (take i (final_writes st a bl)) n) as Hex by (intros n; by apply disk_after_ext).
    assert (log_ok st sz (disk_after d (take i (final_writes st a bl)))) as Hok' by (by eapply log_ok_ext).
    destruct Hcr as [Hold|Hnew]; [left; intros y Hy|right]; split; try done; intros n Hn; rewrite (contents_ext st _ _ Hex).
    + rewrite Hold by apply Hn. rewrite Hd, Hy by done. done.
    + rewrite Hnew by apply Hn. by apply (ls_view _ _ _ _ H).
Qed.

Definition blocks_of_log : Blocks fs_state := {|
  bk_room := log_room; bk_fs := home;
  bk_read dev n := on_cache (cread dev n); bk_relse i := on_cache (crelse i); bk_data i := on_cache (cget i); bk_set i x := on_cache (cset i x);
  bk_log := log_write; bk_begin := begin_op; bk_end := end_op; bk_repr := lrepr; bk_recovers := recovers; bk_recovers_ext := recovers_ext;
  bk_size := log_size; bk_held := log_held; bk_len := log_len; bk_clean := log_clean; bk_read_ok := log_read; bk_relse_ok := log_relse;
  bk_data_ok := log_data; bk_set_ok := log_set; bk_log_ok := log_log; bk_begin_ok := log_begin; bk_end_ok := log_end
|}.
End FsLog.
