(* ===== verification/FsTheorems.v ===== *)
(** * The file system as a whole

    Inodes are files, directories are maps from names, paths lead where their
    elements say, and a crash leaves a transaction done or not begun.
    The small disk of the witnesses has the layout of mkfs and a root directory
    that holds its two entries. *)

From stdpp Require Import base gmap list strings.
From Stdlib Require Import ZArith Lia.
From S2P Require Import Prelude Spinlock CString Sync Sleeplock CacheSpec Log LogRefine LogTxn Bio BioRefine BlockSpec Fs FsLayout FsInv FsBlocks FsFile FsRw FsInode FsCorrect FsNames FsDir FsPath FsLog.
Local Open Scope Z_scope.

#[export] Instance bio_locks : Locks (machine * list spinlock) := spin_locks 31.
Lemma bio_enough : (NBUF < lk_count)%nat.
Proof. by apply Nat.ltb_lt. Qed.
#[export] Instance bio : Cache (bcache (L := machine * list spinlock)) := bio_cache 1000 1 bio_enough.
Lemma demo_log_fits : 2 + 30 <= cache_size.
Proof. vm_compute. discriminate. Qed.
Lemma demo_log_buffers : 30 <= Z.of_nat cache_cap.
Proof. vm_compute. discriminate. Qed.
Lemma demo_buffers : (3 <= cache_cap)%nat.
Proof. by apply Nat.leb_le. Qed.
Lemma demo_disk_size : cache_size <= 2 ^ 31.
Proof. vm_compute. discriminate. Qed.
#[export] Instance demo_blocks : Blocks (fs_state (K := machine * spinlock) (S := bcache (L := machine * list spinlock))) :=
  blocks_of_log 2 30 ltac:(lia) demo_log_fits ltac:(lia) demo_buffers demo_disk_size.

Definition demo_sb : superblock := mkSuperblock 1000 941 200 30 2 32 58.
Definition root_entries : list Z := mk_dirent 1 ([46] ++ replicate 13 0) ++ mk_dirent 1 ([46; 46] ++ replicate 12 0).
Definition root_inode : dinode := mkDinode T_DIR 0 0 1 32 (59 :: replicate 12 0).
Definition demo_image (n : Z) : block :=
  if n =? 1 then put_words 0 [1000; 941; 200; 30; 2; 32; 58] zeros
  else if n =? 32 then put_dinode 64 root_inode zeros
  else if n =? 58 then splice 0 (replicate 7 255 ++ [15]) zeros
  else if n =? 59 then splice 0 root_entries zeros
  else zeros.
Definition demo_root : file := mkFile T_DIR 0 0 1 root_entries.
Definition demo_files : gmap Z file := {[1 := demo_root]}.
Definition demo_icache : list inode := replicate NINODE (mkInode 0 0 0 (mkSleeplock false "inode" 0 0) false no_inode).

Lemma demo_layout : layout demo_sb.
Proof. split; vm_compute; [done|done|done|]. split; [discriminate|done]. Qed.
Lemma demo_length n : length (demo_image n) = BSIZE.
Proof. unfold demo_image. by repeat (destruct (_ =? _); [done|]). Qed.
Lemma demo_home n : fs_block demo_sb n -> bk_fs n.
Proof.
  change (bk_fs n) with (home 2 30 n). intros Hn. unfold fs_block, demo_sb in Hn. simpl in Hn. change (0 <= n < 1000 /\ ~ (2 <= n < 2 + 30)). lia.
Qed.
Lemma forall_inodes (P : Z -> bool) : forallb P (seqZ 0 200) = true -> forall i, 0 <= i < 200 -> P i = true.
Proof. intros H i Hi. rewrite forallb_forall in H. apply H, list_elem_of_In, elem_of_seqZ. lia. Qed.

Definition no_dinode : dinode := mkDinode 0 0 0 0 0 (replicate 13 0).
#[export] Instance dinode_eq_dec : EqDecision dinode.
Proof. solve_decision. Defined.
Lemma demo_dino i : 0 <= i < 200 -> dino demo_sb demo_image i = if decide (i = 1) then root_inode else no_dinode.
Proof.
  intros Hi. refine (bool_decide_eq_true_1 _ (forall_inodes (fun i => bool_decide (dino demo_sb demo_image i = if decide (i = 1) then root_inode else no_dinode)) _ i Hi)).
  vm_compute. reflexivity.
Qed.

Lemma nth_zeros n m : nth n (replicate m 0) 0 = 0.
Proof. revert n. induction m as [|m IH]; intros [|n]; simpl; try done. Qed.
Lemma demo_dwf i : 0 <= i < 200 -> dwf demo_image (dino demo_sb demo_image i).
Proof.
  intros Hi. rewrite demo_dino by done. destruct (decide (i = 1)) as [_|_].
  - split; [split_and!; [repeat constructor; simpl; unfold T_DIR; lia|unfold uint32; simpl; lia|done|repeat constructor; unfold uint32; lia]|by apply Nat.leb_le| |done].
    intros n Hn. unfold fblk. destruct (n <? NDIRECT)%nat; [|done]. unfold addr. change (nblocks (d_size root_inode)) with 1%nat in Hn. destruct n as [|n]; [lia|]. apply (nth_zeros n 12).
  - split; [split_and!; [repeat constructor; simpl; lia|unfold uint32; simpl; lia|done|repeat constructor; unfold uint32; lia]|by apply Nat.leb_le| |done].
    intros n Hn. unfold fblk. destruct (n <? NDIRECT)%nat; [|done]. apply (nth_zeros n 13).
Qed.
Lemma demo_used b : 0 <= b < 1000 -> used demo_sb demo_image b = (b <? 60).
Proof.
  intros Hb. apply (eqb_prop). revert b Hb. assert (forallb (fun b => eqb (used demo_sb demo_image b) (b <? 60)) (seqZ 0 1000) = true) as H by (vm_compute; reflexivity).
  intros b Hb. rewrite forallb_forall in H. apply H, list_elem_of_In, elem_of_seqZ. lia.
Qed.
Lemma demo_owned : owned demo_sb demo_image (dino demo_sb demo_image) = [59].
Proof. vm_compute. reflexivity. Qed.
Lemma demo_in_use : in_use demo_sb demo_image = [59].
Proof. vm_compute. reflexivity. Qed.
Lemma demo_content : content demo_image root_inode = root_entries.
Proof. vm_compute. reflexivity. Qed.

Lemma demo_inv : inv demo_sb demo_image (dino demo_sb demo_image) [].
Proof.
  split.
  - vm_compute. reflexivity.
  - intros n _. apply demo_length.
  - by rewrite demo_owned, demo_in_use.
  - intros b Hb. change (datastart demo_sb) with 59 in Hb. rewrite demo_used by lia. lia.
  - exact demo_dwf.
Qed.
Lemma demo_good me : good me demo_sb (mkAfs demo_files ∅ ∅) demo_icache demo_image (dino demo_sb demo_image).
Proof.
  assert (forall p x, demo_icache !! p = Some x -> i_ref x = 0) as H0 by (intros p x [-> _]%lookup_replicate; done). split.
  - exact demo_inv.
  - done.
  - intros i Hi. rewrite demo_dino by done. by destruct (decide (i = 1)).
  - intros i. unfold file_at. cbn [a_files]. unfold demo_files. destruct (decide (0 <= i < sb_ninodes demo_sb /\ d_type (dino demo_sb demo_image i) <> 0)) as [[Hi Ht]|Hn].
    + rewrite demo_dino in * by done. destruct (decide (i = 1)) as [->|]; [|done]. rewrite lookup_singleton_eq. unfold file_of. by rewrite demo_content.
    + rewrite lookup_singleton_ne; [done|]. intros <-. apply Hn. split; [simpl; lia|]. by rewrite demo_dino.
  - done.
  - intros p x Hx. pose proof (H0 p x Hx). apply lookup_replicate in Hx as [-> _]. split; simpl; [lia|by rewrite bool_decide_false|by intros []%not_elem_of_empty|lia].
  - intros p. cbn [a_handles]. rewrite lookup_empty. destruct (demo_icache !! p) as [x|] eqn:E; [|done]. simpl. unfold handle_of. rewrite decide_False; [done|]. rewrite (H0 p x E). lia.
  - intros p q x y Hx Hy Hr. rewrite (H0 p x Hx) in Hr. lia.
Qed.

(** The lock of the inode cache and those of its 50 inodes. *)
Definition fs_locks : Locks (machine * list spinlock) := spin_locks 51.
Section Demo.
#[local] Existing Instance fs_locks.
Lemma fs_enough : (NINODE < lk_count)%nat.
Proof. by apply Nat.ltb_lt. Qed.

(** The file system just started on this disk. *)
Lemma demo_start me : exists s, inside me demo_sb false (mkAfs demo_files ∅ ∅) (mkHistory demo_image []) ∅ s.
Proof.
  assert (lk_owned (Locks := bio_locks) [] (demo_locks 31)) as Ho by (apply demo_locks_owned; lia).
  destruct (binit_ok (HL := bio_locks) 1000 1 (demo_locks 31) demo_image Ho) as (c & _ & R).
  exists (mkFsys (demo_locks 51) (mkFs (demo_lock_state "log") mkfs_log c) demo_sb demo_icache), demo_icache, demo_image, (dino demo_sb demo_image). split; [|apply demo_good].
  split; [apply demo_locks_owned; lia| |done|done]. exists (clean demo_image), []. split; simpl; try done.
  - apply demo_lock_free.
  - constructor.
  - lia.
  - apply demo_length.
  - intros n []%not_elem_of_nil.
  - split; [vm_compute; split; [discriminate|reflexivity]|constructor|intros n; apply demo_length].
Qed.
End Demo.

(** * The file system as a whole *)

Section FsTheorems.
Context {L S : Type} `{HL : Locks L} `{HB : Blocks S} (me : Z) (sb : superblock) (Hly : layout sb) (Hfs : forall n, fs_block sb n -> bk_fs n)
  (Hlk : (NINODE < lk_count)%nat).
Notation fs := (fs (L := L) (S := S)).
Context (devsw_read : Z -> option (nat -> Z -> M fs (Z * list Z))) (devsw_write : Z -> option (nat -> list Z -> M fs Z)).
Implicit Types (dk : history) (g : gset Z) (s : fs) (A : afs).

(** C3 Inodes are files.  Any session of transactions of inode calls ([iget],
    [idup], [ilock], [iunlock], [iput], [readi], [writei], [ialloc], and
    [iupdate] of the link count), with reading calls between them, each call
    depending on what the ones before returned, does to the disk, the bitmap
    and the inode cache what the same calls do to a set of files with bytes,
    links and handles. *)
Theorem files_refined (c : session) A s :
  holds me sb A s -> safe_session sb A c ->
  exists rss s' A', exec me devsw_read devsw_write c s = Ok rss s' /\ holds me sb A' s' /\ aexec sb A c rss A'.
Proof. by apply exec_ok. Qed.

(** C15 Paths lead where their elements say: from the root or from a current
    directory that is still linked, [namex] looks each element up in the directory before it and
    returns a new reference to the inode it ends at - the last one, or the
    directory of the last element with that element in [name] - and null, with
    no reference taken, when an element is missing or not a directory. *)
Theorem namex_resolves parent F H dk g s cwd ci c b root path name :
  inside me sb true (mkAfs F H ∅) dk g s -> tree F -> F !! ROOTINO = Some root -> f_nlink root <> 0 ->
  H !! cwd = Some (mkHandle ci c b) -> (forall f, F !! ci = Some f -> f_nlink f <> 0) -> pinned F H ->
  (exists p1 p2, p1 <> p2 /\ (p1 < NINODE)%nat /\ (p2 < NINODE)%nat /\ H !! p1 = None /\ H !! p2 = None) ->
  length name = DIRSIZ ->
  exists r name' s' g' H', namex me devsw_read cwd path parent name s = Ok (r, name') s' /\
    inside me sb true (mkAfs F H' ∅) dk g' s' /\ (size g' <= size g)%nat /\ pinned F H' /\
    arrived (refs H) (walk parent F (if peek path =? 47 then ROOTINO else ci) (elems path)) r (refs H') /\
    (parent = true -> is_Some r -> cname DIRSIZ name' = take DIRSIZ (List.last (elems path) [])).
Proof.
  intros HI HF Hroot Hnl Hcwd Hlive HP Hfree Hn.
  destruct (namex_ok me sb Hly Hfs Hlk devsw_read devsw_write parent F H dk g s cwd ci c b root path name HI HF Hroot Hnl Hcwd Hlive HP Hfree Hn)
    as (r & name' & s' & g' & H' & H1 & H2 & H3 & H4 & H5 & _ & H6 & _).
  by exists r, name', s', g', H'.
Qed.

(** C16 A directory is a map from names: [dirlink] of a name it does not have
    adds an entry, after which [dirlookup] finds the new inode under that name
    and under every other name what it found before. *)
Theorem dirlink_dirlookup F H lk dk g s p i f name inum :
  inside me sb true (mkAfs F H lk) dk g s -> opened (mkAfs F H lk) p i f -> f_type f = T_DIR -> dir_ok (f_data f) ->
  Forall byte name -> 0 < inum < 2 ^ 16 -> dir_find (f_data f) (cname DIRSIZ name) = None ->
  let k := dir_free (f_data f) in let off := 16 * Z.of_nat k in let l := mk_dirent inum (name_field name) in
  let f' := with_data (write_at (Z.to_nat off) l (f_data f)) f in
  off + 16 <= MAXFILE * 512 -> (usage sb F + (blocks_for f' - blocks_for f) <= length (data_blocks sb))%nat ->
  (size g + cost sb (IWrite p off l) <= bk_room)%nat ->
  exists s' g', dirlink me devsw_read devsw_write p name inum s = Ok 0 s' /\
    inside me sb true (mkAfs (<[i := f']> F) H lk) dk g' s' /\
    forall other, exists s2 g2, inside me sb true (mkAfs (<[i := f']> F) H lk) dk g2 s2 /\
      dirlookup devsw_read p other s' =
        match (if decide (cname DIRSIZ other = cname DIRSIZ name) then Some (k, inum) else dir_find (f_data f) (cname DIRSIZ other)) with
        | Some (j, n) => (let! q := iget 1 n in ret (Some (q, 16 * Z.of_nat j))) s2
        | None => Ok None s2
        end.
Proof.
  intros HI HO Ht Hok Hn Hi Hnone k off l f' Hmax Hu Hroom. destruct (dirlink_new me sb Hly Hfs Hlk devsw_read devsw_write F H lk dk g s p i f name inum HI HO Ht Hok Hn Hnone Hmax Hu Hroom) as (s' & g' & E & I' & _).
  exists s', g'. split_and!; [done|done|]. intros other. assert (opened (mkAfs (<[i := f']> F) H lk) p i f') as HO' by (destruct HO as [H1 H2 H3]; split; [done|done|apply lookup_insert_eq]).
  assert (Z.to_nat off = (16 * k)%nat) as Hoff by (unfold off; lia). assert (dir_ok (f_data f')) as Hok'.
  { unfold f'. cbn [with_data f_data]. rewrite Hoff. apply insert_ok; [done|by apply length_mk_dirent|]. unfold k, dir_free. destruct (find_from _ _ _) as [j|] eqn:Ef; simpl; [|lia]. apply find_from_Some in Ef. lia. }
  destruct (dirlookup_ok me sb Hly Hfs Hlk devsw_read devsw_write true _ dk p i f' HO' Ht Hok' other g' s' I') as (s2 & g2 & I2 & _ & E2). exists s2, g2. split; [done|]. rewrite E2. unfold f'. cbn [with_data f_data]. rewrite Hoff.
  by rewrite (dir_find_insert (f_data f) name inum Hok Hn Hi Hnone).
Qed.
End FsTheorems.

Section Crash.
Context {L K C : Type} `{HL : Locks L} `{HK : Lock K} `{HC : Cache C}.
Context (st sz : Z) (Hst : 0 <= st) (Hsz : st + sz <= cache_size) (Hz : 1 < sz <= 30) (Hcap : sz <= Z.of_nat cache_cap)
  (Hcap3 : (3 <= cache_cap)%nat) (Hdisk : cache_size <= 2 ^ 31).
#[local] Instance the_log : Blocks (fs_state (K := K) (S := C)) := blocks_of_log st sz Hst Hsz Hz Hcap3 Hdisk.
Context (me : Z) (sb : superblock) (Hly : layout sb) (Hfs : forall n, fs_block sb n -> home st sz n) (Hlk : (NINODE < lk_count)%nat).
Notation fs := (fs (L := L) (S := fs_state (K := K) (S := C))).
Context (devsw_read : Z -> option (nat -> Z -> M fs (Z * list Z))) (devsw_write : Z -> option (nat -> list Z -> M fs Z)).

(** C4 Files survive crashes.  A transaction of inode calls on the log and any
    buffer cache does what it should to the files.  If the machine crashes
    after any of the disk writes it makes, and then during any number of
    recoveries, the machine that starts next recovers and has on its disk the
    files of before the transaction or those of after it, with the bitmap and
    the inodes in order. *)
Theorem files_survive_crashes (c : prog) (A : afs) (d : history) (s : fs) :
  inside me sb false A d ∅ s -> safe sb true 0 A c ->
  exists rs s' A' ws, op me devsw_read devsw_write true c s = Ok rs s' /\ inside me sb false A' (then_writes d ws) ∅ s' /\ arun sb A c rs A' /\
    forall i, exists y, boots (K := K) st sz (disk_after d (take i ws)) y /\ (stored sb (a_files A) y \/ stored sb (a_files A') y).
Proof.
  intros HI Hc. destruct (op_ok (HB := the_log) me sb Hly Hfs Hlk devsw_read devsw_write true c A d s HI Hc) as (rs & s' & A' & ws & E & I' & Hr & Hcr). exists rs, s', A', ws. split_and!; [done..|]. intros i. destruct (Hcr eq_refl i) as (y & Hy & Hs). exists y. split; [by apply (recovers_boots st sz Hst Hsz Hz Hcap)|done].
Qed.
End Crash.

(** ** On the small disk *)

Section Demo.
#[local] Existing Instance fs_locks.
Notation dfs := (fs (L := machine * list spinlock) (S := fs_state (K := machine * spinlock) (S := bcache (L := machine * list spinlock)))).
Definition no_read : Z -> option (nat -> Z -> M dfs (Z * list Z)) := fun _ => None.
Definition no_write : Z -> option (nat -> list Z -> M dfs Z) := fun _ => None.

(** Add three bytes to the root directory, and read them back. *)
Definition demo_prog : prog :=
  Call (IGet 1) (fun r => match r with RHandle p => Call (ILock p) (fun _ => Call (IWrite p 32 [7; 8; 9]) (fun _ => Done)) | _ => Done end).
Definition demo_session : session :=
  Then true demo_prog (fun rs => match rs with RHandle p :: _ => Then false (Call (IRead p 32 3) (fun _ => Done)) (fun _ => Stop) | _ => Stop end).

Lemma demo_room n : (n <=? 27)%nat = true -> (n <= bk_room)%nat.
Proof. intros H%Nat.leb_le. exact H. Qed.
Lemma demo_safe : safe demo_sb true 0 (mkAfs demo_files ∅ ∅) demo_prog.
Proof.
  split_and!; [split; [exists demo_root; reflexivity|left; exists 0%nat; split; [by apply Nat.ltb_lt|reflexivity]]|done|by apply demo_room|]. intros r A1 S1. inversion S1 as [? ? ? ? ? ? ? Hh| | | | | | | | | | |]; subst; [by rewrite lookup_empty in Hh|].
  split_and!; [split; [eexists; apply lookup_insert_eq|apply not_elem_of_empty]|done|by apply demo_room|]. intros r A2 S2. inversion S2 as [| | |? ? ? ? ? ? ? Hh| | | | | | | |]; subst. simpl in Hh. rewrite lookup_insert_eq in Hh. injection Hh as <- <- <-.
  split_and!; [|done|by apply demo_room|done]. split_and!; [simpl; set_solver|done|done|]. exists demo_root. split_and!; [|done|intros _; by apply Nat.leb_le].
  exists 1, 1, true. split; [apply lookup_insert_eq|done].
Qed.

Lemma files_refined_witness : exists s rss s' A', holds 3 demo_sb (mkAfs demo_files ∅ ∅) s /\
  exec 3 no_read no_write demo_session s = Ok rss s' /\ holds 3 demo_sb A' s' /\ aexec demo_sb (mkAfs demo_files ∅ ∅) demo_session rss A'.
Proof.
  destruct (demo_start 3) as [s Hs]. destruct (files_refined 3 demo_sb demo_layout demo_home fs_enough no_read no_write demo_session (mkAfs demo_files ∅ ∅) s) as (rss & s' & A' & H1 & H2 & H3).
  - by exists (mkHistory demo_image []).
  - split; [exact demo_safe|]. intros rs A' Hr. inversion Hr as [|? ? ? r A1 rs1 A2 S1 Hr1]; subst. inversion S1 as [? ? ? ? ? ? ? Hh| | | | | | | | | | |]; subst; [by rewrite lookup_empty in Hh|].
    inversion Hr1 as [|? ? ? r A1 rs2 A2 S2 Hr2]; subst. inversion S2 as [| | |? ? ? ? ? ? ? Hh| | | | | | | |]; subst. rewrite lookup_insert_eq in Hh. injection Hh as <- <- <-.
    inversion Hr2 as [|? ? ? r A1 rs3 A2 S3 Hr3]; subst. inversion Hr3; subst.
    inversion S3 as [| | | | | | | |? ? ? ? ? ? ? ? ? ? Hh Hf|? ? ? ? ? ? ? ? ? ? Hh Hf Hfit| |]; subst; rewrite lookup_insert_eq in Hh; injection Hh as <- <- <-; injection Hf as <-; [|by destruct Hfit].
    split; [|done]. split_and!; [|done|by apply demo_room|done]. split_and!; [simpl; set_solver|done|done|]. eexists. split; [exists 1, 1, true; split; [apply lookup_insert_eq|reflexivity]|done].
  - exists s, rss, s', A'. split_and!; [by exists (mkHistory demo_image [])|exact H1|exact H2|exact H3].
Defined.

Lemma files_survive_crashes_witness : exists s rs s' A' ws, op 3 no_read no_write true demo_prog s = Ok rs s' /\ arun demo_sb (mkAfs demo_files ∅ ∅) demo_prog rs A' /\
  exists y, boots (K := machine * spinlock) 2 30 (disk_after demo_image (take 1 ws)) y /\ (stored demo_sb demo_files y \/ stored demo_sb (a_files A') y).
Proof.
  destruct (demo_start 3) as [s Hs].
  destruct (files_survive_crashes 2 30 ltac:(lia) demo_log_fits ltac:(lia) demo_log_buffers demo_buffers demo_disk_size 3 demo_sb demo_layout demo_home fs_enough no_read no_write demo_prog
    (mkAfs demo_files ∅ ∅) (mkHistory demo_image []) s Hs demo_safe) as (rs & s' & A' & ws & H1 & _ & H3 & H4).
  exists s, rs, s', A', ws. split_and!; [exact H1|exact H3|exact (H4 1%nat)].
Defined.

Lemma demo_tree : tree demo_files.
Proof.
  intros i f Hf Ht _. unfold demo_files in Hf. apply lookup_singleton_Some in Hf as [<- <-]. split; [by vm_compute|]. intros nm k j [E ->]%dir_find_Some. exists demo_root. split; [|done].
  apply find_from_Some in E as (Hk & _). change (nent (f_data demo_root)) with 2%nat in Hk. by destruct k as [|[|k]]; [..|lia].
Qed.
(** A transaction has a reference to the root directory. *)
Lemma demo_root_handle : exists s g q, inside 3 demo_sb true (mkAfs demo_files {[q := mkHandle 1 1 false]} ∅) (mkHistory demo_image []) g s /\ (size g <= 0)%nat.
Proof.
  destruct (demo_start 3) as [s Hs]. destruct (begin_inside 3 demo_sb _ _ s Hs) as (s1 & _ & I1).
  destruct (get_ok 3 demo_sb fs_enough no_read no_write true demo_files ∅ ∅ _ _ s1 1 demo_root I1 eq_refl) as (q & s2 & g & H & _ & I2 & Hg & Hgot); [exists 0%nat; split; [by apply Nat.ltb_lt|done]|].
  exists s2, g, q. split; [|done]. inversion Hgot as [c b _ Hh|_ _]; subst; [by rewrite lookup_empty in Hh|]. by rewrite insert_empty in I2.
Qed.

Lemma namex_resolves_witness : exists s s' r name' q H', namex 3 no_read q [47; 46; 46; 47; 47; 46] false (replicate 14 0) s = Ok (r, name') s' /\
  walk false demo_files 1 [[46; 46]; [46]] = Some 1 /\ arrived {[q := (1, 1)]} (Some 1) r (refs H').
Proof.
  destruct demo_root_handle as (s & g & q & HI & _). destruct (namex_resolves 3 demo_sb demo_layout demo_home fs_enough no_read no_write false demo_files {[q := mkHandle 1 1 false]} (mkHistory demo_image []) g s q 1 1 false demo_root
    [47; 46; 46; 47; 47; 46] (replicate 14 0) HI demo_tree eq_refl ltac:(done) (lookup_singleton_eq q _)) as (r & name' & s' & g' & H' & H1 & _ & _ & _ & H4 & _).
  - intros f. change (demo_files !! 1) with (Some demo_root). by intros [= <-].
  - intros p i c b f _ Hf. unfold demo_files in Hf. by apply lookup_singleton_Some in Hf as [_ <-].
  - assert (forall p, p <> q -> ({[q := mkHandle 1 1 false]} : gmap nat handle) !! p = None) as Hn by (intros p Hp; by apply lookup_singleton_ne).
    destruct q as [|[|q]]; [exists 1%nat, 2%nat|exists 0%nat, 2%nat|exists 0%nat, 1%nat]; (split_and!; [done|by apply Nat.ltb_lt|by apply Nat.ltb_lt|by apply Hn|by apply Hn]).
  - reflexivity.
  - exists s, s', r, name', q, H'. split_and!; [exact H1|vm_compute; reflexivity|]. unfold refs at 1 in H4. rewrite map_fmap_singleton in H4. exact H4.
Defined.

Lemma dirlink_dirlookup_witness : exists s s' p s2, dirlink 3 no_read no_write p [97] 2 s = Ok 0 s' /\
  dirlookup no_read p [97] s' = (let! q := iget 1 2 in ret (Some (q, 32))) s2.
Proof.
  destruct demo_root_handle as (s & g & q & HI & Hg). destruct (lock_ok 3 demo_sb demo_layout demo_home fs_enough no_read no_write true _ _ _ _ s q 1 1 false HI (lookup_singleton_eq q _)) as (s1 & g1 & _ & I1 & Hg1).
  assert (opened (mkAfs demo_files (<[q := mkHandle 1 1 true]> {[q := mkHandle 1 1 false]}) {[q]}) q 1 demo_root) as HO by (split; [cbn [a_locked]; by apply elem_of_singleton|exists 1, true; apply lookup_insert_eq|reflexivity]).
  destruct (dirlink_dirlookup 3 demo_sb demo_layout demo_home fs_enough no_read no_write demo_files _ _ _ g1 s1 q 1 demo_root [97] 2 I1 HO eq_refl) as (s' & g' & H1 & _ & H3).
  - vm_compute. reflexivity.
  - repeat constructor; unfold byte; lia.
  - lia.
  - vm_compute. reflexivity.
  - vm_compute. discriminate.
  - by apply Nat.leb_le.
  - etrans; [|apply (demo_room 10); reflexivity]. assert (size g1 = 0)%nat as -> by lia. by apply Nat.leb_le.
  - destruct (H3 [97]) as (s2 & g2 & _ & E). exists s1, s', q, s2. split; [exact H1|]. rewrite decide_True in E by reflexivity. exact E.
Defined.
End Demo.
