(* ===== verification/File.v ===== *)
(** * Open files: file.c, and [pipealloc] of pipe.c

    The table of open files over the inodes of [Fs].  Pipes are behind the
    class [Pipes]. *)

From stdpp Require Import base gmap list strings.
From Stdlib Require Import ZArith Lia.
From S2P Require Import Prelude CString Sync Sleeplock CacheSpec Log BlockSpec Fs.
Local Open Scope Z_scope.

Definition NFILE : nat := 100.

(** What file.c uses of pipe.c: the page and its initialisation in
    [pipealloc], and the calls on a pipe.  A call that sleeps is [Blocked]. *)
Class Pipes (P : Type) := {
  pipe_page : M P (option nat);
  pipe_read : nat -> Z -> M P (Z * list Z);
  pipe_write : nat -> list Z -> Z -> M P Z;
  pipe_close : nat -> bool -> M P unit
}.

Inductive fdtype := FD_NONE | FD_PIPE | FD_INODE.
#[export] Instance fdtype_eq_dec : EqDecision fdtype.
Proof. solve_decision. Defined.
Record file := mkFile {
  fd_type : fdtype; fd_ref : Z; fd_readable : bool; fd_writable : bool;
  fd_pipe : nat; fd_ip : nat; fd_off : Z
}.
Definition set_ref (r : Z) (f : file) : file :=
  mkFile (fd_type f) r (fd_readable f) (fd_writable f) (fd_pipe f) (fd_ip f) (fd_off f).
Definition set_ftype (t : fdtype) (f : file) : file :=
  mkFile t (fd_ref f) (fd_readable f) (fd_writable f) (fd_pipe f) (fd_ip f) (fd_off f).
Definition set_off (o : Z) (f : file) : file :=
  mkFile (fd_type f) (fd_ref f) (fd_readable f) (fd_writable f) (fd_pipe f) (fd_ip f) o.
(** The fields [sys_open] and [pipealloc] set. *)
Definition as_inode (ip : nat) (r w : bool) (f : file) : file := mkFile FD_INODE (fd_ref f) r w (fd_pipe f) ip 0.
Definition as_pipe (p : nat) (r w : bool) (f : file) : file := mkFile FD_PIPE (fd_ref f) r w p (fd_ip f) (fd_off f).

Section File.
Context {L S K P : Type} `{HL : Locks L} `{HB : Blocks S} `{HK : Lock K} `{HP : Pipes P} (me : Z).
Notation fs := (fs (L := L) (S := S)).
Context (devsw_read : Z -> option (nat -> Z -> M fs (Z * list Z))) (devsw_write : Z -> option (nat -> list Z -> M fs Z)).

Record files := mkFiles {
  ft_lock : K;
  ftable : list file;        (** [NFILE] entries *)
  ft_fs : fs;
  ft_pipes : P
}.
Definition put_ftlock (x : K) (s : files) : files := mkFiles x (ftable s) (ft_fs s) (ft_pipes s).
Definition put_ftable (x : list file) (s : files) : files := mkFiles (ft_lock s) x (ft_fs s) (ft_pipes s).
Definition put_ftfs (x : fs) (s : files) : files := mkFiles (ft_lock s) (ftable s) x (ft_pipes s).
Definition put_ftpipes (x : P) (s : files) : files := mkFiles (ft_lock s) (ftable s) (ft_fs s) x.

Definition f_acquire : M files unit := zoom ft_lock put_ftlock lk_acquire.
Definition f_release : M files unit := zoom ft_lock put_ftlock lk_release.
Definition in_fs {A : Type} (m : M fs A) : M files A := zoom ft_fs put_ftfs m.
Definition in_pipes {A : Type} (m : M P A) : M files A := zoom ft_pipes put_ftpipes m.
Definition getf (f : nat) : M files file :=
  let! t := gets ftable in
  deref (t !! f).
Definition updf (f : nat) (g : file -> file) : M files unit :=
  let! x := getf f in
  modify (fun s => put_ftable (<[f := g x]> (ftable s)) s).
Definition fs_begin : M files unit := in_fs (on_blocks bk_begin).
Definition fs_end : M files unit := in_fs (on_blocks bk_end).

Definition filealloc : M files (option nat) :=
  f_acquire ;;;
  let! r := scan (seq 0 NFILE) (fun f =>
    let! x := getf f in
    if fd_ref x =? 0 then
      updf f (set_ref 1) ;;;
      ret (Some f)
    else ret None) in
  f_release ;;;
  ret r.

Definition filedup (f : nat) : M files nat :=
  f_acquire ;;;
  let! x := getf f in
  if fd_ref x <? 1 then panic "filedup" else
  updf f (set_ref (fd_ref x + 1)) ;;;
  f_release ;;;
  ret f.

Definition fileclose (f : nat) : M files unit :=
  f_acquire ;;;
  let! x := getf f in
  if fd_ref x <? 1 then panic "fileclose" else
  updf f (set_ref (fd_ref x - 1)) ;;;
  if 0 <? fd_ref x - 1 then f_release else
  let! ff := getf f in
  updf f (fun x => set_ftype FD_NONE (set_ref 0 x)) ;;;
  f_release ;;;
  match fd_type ff with
  | FD_PIPE => in_pipes (pipe_close (fd_pipe ff) (fd_writable ff))
  | FD_INODE =>
      fs_begin ;;;
      in_fs (iput me (fd_ip ff)) ;;;
      fs_end
  | FD_NONE => ret tt
  end.

(** [Some] the contents of [*st] when it returns 0. *)
Definition filestat (f : nat) : M files (option stat) :=
  let! x := getf f in
  match fd_type x with
  | FD_INODE =>
      in_fs (ilock me (fd_ip x)) ;;;
      let! st := in_fs (stati (fd_ip x)) in
      in_fs (iunlock me (fd_ip x)) ;;;
      ret (Some st)
  | _ => ret None
  end.

(** The result and the bytes at [addr]. *)
Definition fileread (f : nat) (n : Z) : M files (Z * list Z) :=
  let! x := getf f in
  if negb (fd_readable x) then ret (-1, []) else
  match fd_type x with
  | FD_PIPE => in_pipes (pipe_read (fd_pipe x) n)
  | FD_INODE =>
      in_fs (ilock me (fd_ip x)) ;;;
      let! r := in_fs (readi devsw_read (fd_ip x) (fd_off x) n) in
      (if 0 <? r.1 then updf f (fun x => set_off (u32 (fd_off x + r.1)) x) else ret tt) ;;;
      in_fs (iunlock me (fd_ip x)) ;;;
      ret r
  | FD_NONE => panic "fileread"
  end.

Definition MAXWRITE : Z := (MAXOPBLOCKS - 1 - 1 - 2) / 2 * 512.
(** The loop of [filewrite]: [i] when it ends. *)
Fixpoint filewrite_loop (fuel f : nat) (src : list Z) (i n : Z) : M files Z :=
  match fuel with
  | O => nofuel
  | Datatypes.S k =>
      if i <? n then
        let n1 := if MAXWRITE <? n - i then MAXWRITE else n - i in
        fs_begin ;;;
        let! x := getf f in
        in_fs (ilock me (fd_ip x)) ;;;
        let! r := in_fs (writei devsw_write (fd_ip x) (take (Z.to_nat n1) (drop (Z.to_nat i) src)) (fd_off x) n1) in
        (if 0 <? r then updf f (fun x => set_off (u32 (fd_off x + r)) x) else ret tt) ;;;
        in_fs (iunlock me (fd_ip x)) ;;;
        fs_end ;;;
        if r <? 0 then ret i else
        if negb (r =? n1) then panic "short filewrite" else
        filewrite_loop k f src (i + r) n
      else ret i
  end.
(** [src] is the memory at [addr]. *)
Definition filewrite (f : nat) (src : list Z) (n : Z) : M files Z :=
  let! x := getf f in
  if negb (fd_writable x) then ret (-1) else
  match fd_type x with
  | FD_PIPE => in_pipes (pipe_write (fd_pipe x) src n)
  | FD_INODE =>
      let! i := filewrite_loop (Datatypes.S (Z.to_nat n)) f src 0 n in
      ret (if i =? n then n else -1)
  | FD_NONE => panic "filewrite"
  end.

(** [*f0] and [*f1] when it returns 0. *)
Definition pipealloc : M files (option (nat * nat)) :=
  let! f0 := filealloc in
  let! f1 := match f0 with Some _ => filealloc | None => ret None end in
  let! p := match f1 with Some _ => in_pipes pipe_page | None => ret None end in
  match f0, f1, p with
  | Some r, Some w, Some p =>
      updf r (as_pipe p true false) ;;;
      updf w (as_pipe p false true) ;;;
      ret (Some (r, w))
  | _, _, _ =>
      match f0 with Some f => fileclose f | None => ret tt end ;;;
      match f1 with Some f => fileclose f | None => ret tt end ;;;
      ret None
  end.
End File.
