(* ===== verification/Syscall.v ===== *)
(** * System call arguments and dispatch: syscall.c

    The arguments of a call are on the user stack of the process; the kernel
    reads them through the process's memory after checking that they lie below
    its size. *)

From stdpp Require Import base list strings.
From Stdlib Require Import ZArith Lia.
From S2P Require Import Prelude CString.
Local Open Scope Z_scope.

(** What the functions use of the process: [sz], [tf->esp] and its memory. *)
Record uproc := mkUproc { u_sz : Z; u_esp : Z; u_mem : mem }.

Definition fetchint (u : uproc) (addr : Z) : option Z :=
  if (u_sz u <=? addr) || (u_sz u <? u32 (addr + 4)) then None
  else Some (s32 (word_at (u_mem u) addr)).

(** The length of the string; it starts at [addr]. *)
Fixpoint fetchstr_loop (fuel : nat) (u : uproc) (s : Z) (n : Z) : option Z :=
  match fuel with
  | O => None
  | S k => if u_mem u s =? 0 then Some n else fetchstr_loop k u (s + 1) (n + 1)
  end.
Definition fetchstr (u : uproc) (addr : Z) : option Z :=
  if u_sz u <=? addr then None
  else fetchstr_loop (Z.to_nat (u_sz u - addr)) u addr 0.

Definition argint (u : uproc) (n : Z) : option Z := fetchint u (u32 (u_esp u + 4 + 4 * n)).

Definition argptr (u : uproc) (n size : Z) : option Z :=
  match argint u n with
  | None => None
  | Some i => if (size <? 0) || (u_sz u <=? u32 i) || (u_sz u <? u32 (u32 i + size)) then None else Some (u32 i)
  end.

(** The string itself, without its NUL. *)
Definition bytes_of (m : mem) (a n : Z) : list Z := map (fun i => m (a + Z.of_nat i)) (seq 0 (Z.to_nat n)).
Definition argstr (u : uproc) (n : Z) : option (list Z) :=
  match argint u n with
  | None => None
  | Some addr =>
      match fetchstr u (u32 addr) with
      | None => None
      | Some len => Some (bytes_of (u_mem u) (u32 addr) len)
      end
  end.

(** ** Dispatch *)

(** The table [syscalls], by the numbers of syscall.h. *)
Inductive sysname :=
| SYS_fork | SYS_exit | SYS_wait | SYS_pipe | SYS_read | SYS_kill | SYS_exec | SYS_fstat | SYS_chdir | SYS_dup | SYS_getpid | SYS_sbrk
| SYS_sleep | SYS_uptime | SYS_open | SYS_write | SYS_mknod | SYS_unlink | SYS_link | SYS_mkdir | SYS_close | SYS_detach | SYS_priority.
Definition syscalls (num : Z) : option sysname :=
  match num with
  | 1 => Some SYS_fork | 2 => Some SYS_exit | 3 => Some SYS_wait | 4 => Some SYS_pipe | 5 => Some SYS_read | 6 => Some SYS_kill | 7 => Some SYS_exec
  | 8 => Some SYS_fstat | 9 => Some SYS_chdir | 10 => Some SYS_dup | 11 => Some SYS_getpid | 12 => Some SYS_sbrk | 13 => Some SYS_sleep
  | 14 => Some SYS_uptime | 15 => Some SYS_open | 16 => Some SYS_write | 17 => Some SYS_mknod | 18 => Some SYS_unlink | 19 => Some SYS_link
  | 20 => Some SYS_mkdir | 21 => Some SYS_close | 22 => Some SYS_detach | 23 => Some SYS_priority
  | _ => None
  end.
(** What [tf->eax] is afterwards; [handler] runs the function of the table. *)
Definition syscall {S : Type} (handler : sysname -> M S Z) (eax : Z) : M S Z :=
  match syscalls eax with
  | Some f => handler f
  | None => ret (-1)
  end.

(** * Arguments of system calls lie in the process *)

Section Args.
Context (u : uproc).
Implicit Types (a n k : Z).

Lemma fetchstr_loop_spec fuel s n r : fetchstr_loop fuel u s n = Some r <-> n <= r < n + Z.of_nat fuel /\ u_mem u (s + (r - n)) = 0 /\ forall k, 0 <= k < r - n -> u_mem u (s + k) <> 0.
Proof.
  revert s n. induction fuel as [|fuel IH]; intros s n; cbn [fetchstr_loop]; [split; [done|lia]|]. destruct (Z.eqb_spec (u_mem u s) 0) as [Hz|Hz].
  - split; [intros [= <-]; rewrite Z.sub_diag, Z.add_0_r; split_and!; [lia|lia|done|lia]|]. intros (Hr & _ & Hk). f_equal. destruct (decide (r = n)) as [->|Hne]; [done|]. destruct (Hk 0); [lia|]. by rewrite Z.add_0_r.
  - rewrite IH. replace (s + 1 + (r - (n + 1))) with (s + (r - n)) by lia. split; intros (Hr & H0 & Hk).
    + split_and!; [lia|lia|done|]. intros k Hkr. destruct (decide (k = 0)) as [->|Hk0]; [by rewrite Z.add_0_r|]. replace (s + k) with (s + 1 + (k - 1)) by lia. apply Hk. lia.
    + assert (r <> n) by (intros ->; rewrite Z.sub_diag, Z.add_0_r in H0; done). split_and!; [lia|lia|done|]. intros k Hkr. replace (s + 1 + k) with (s + (k + 1)) by lia. apply Hk. lia.
Qed.
(** [fetchstr] finds the first NUL below the size of the process. *)
Lemma fetchstr_spec a n : fetchstr u a = Some n <-> 0 <= n /\ a + n < u_sz u /\ u_mem u (a + n) = 0 /\ forall k, 0 <= k < n -> u_mem u (a + k) <> 0.
Proof.
  unfold fetchstr. destruct (Z.leb_spec (u_sz u) a) as [Hle|Hlt]; [split; [done|lia]|]. rewrite fetchstr_loop_spec, Z.sub_0_r. split; intros (H1 & H2 & H3); [split_and!; [lia|lia|done|done]|]. destruct H3. split_and!; [lia|lia|done|done].
Qed.
Lemma argptr_spec n size p : u_sz u <= 2 ^ 31 -> - 2 ^ 31 <= size < 2 ^ 31 ->
  argptr u n size = Some p <-> exists i, argint u n = Some i /\ p = u32 i /\ 0 <= size /\ p < u_sz u /\ p + size <= u_sz u.
Proof.
  intros Hsz Hsize. unfold argptr. destruct (argint u n) as [i|]; [|split; [done|intros (? & ? & _); done]]. pose proof (Z.mod_pos_bound i (2 ^ 32) ltac:(lia)) as Hi. fold (u32 i) in Hi.
  assert (u32 i < u_sz u -> 0 <= size -> u32 (u32 i + size) = u32 i + size) as Hno by (intros; apply Z.mod_small; lia).
  destruct (Z.ltb_spec size 0), (Z.leb_spec (u_sz u) (u32 i)); cbn [orb]; [split; [done|intros (? & [= <-] & -> & ?); lia]..|]. rewrite Hno by lia.
  destruct (Z.ltb_spec (u_sz u) (u32 i + size)); split; [done|intros (? & [= <-] & -> & ?); lia| |intros (? & [= <-] & -> & _); done]. intros [= <-]. exists i. split_and!; [done|done|lia|lia|lia].
Qed.
Lemma length_bytes_of m a n : 0 <= n -> Z.of_nat (length (bytes_of m a n)) = n.
Proof. intros Hn. unfold bytes_of. rewrite length_map, length_seq. lia. Qed.
Lemma argstr_spec n l : argstr u n = Some l <-> exists i, argint u n = Some i /\ u32 i + Z.of_nat (length l) < u_sz u /\ u_mem u (u32 i + Z.of_nat (length l)) = 0 /\ Forall (fun c => c <> 0) l /\ l = bytes_of (u_mem u) (u32 i) (Z.of_nat (length l)).
Proof.
  unfold argstr. destruct (argint u n) as [i|]; [|split; [done|intros (? & ? & _); done]]. split.
  - destruct (fetchstr u (u32 i)) as [len|] eqn:E; [|done]. intros [= <-]. apply fetchstr_spec in E as (H1 & H2 & H3 & H4). exists i. rewrite length_bytes_of by done. split_and!; [done|done|done| |done]. unfold bytes_of. apply Forall_map, Forall_forall. intros k Hk%elem_of_seq. apply H4. lia.
  - intros (? & [= <-] & H1 & H2 & H3 & H4). assert (fetchstr u (u32 i) = Some (Z.of_nat (length l))) as ->; [|by rewrite <- H4]. apply fetchstr_spec. split_and!; [lia|done|done|]. intros k Hk. rewrite H4 in H3. unfold bytes_of in H3. rewrite Forall_map, Forall_forall in H3. replace k with (Z.of_nat (Z.to_nat k)) by lia. apply H3, elem_of_seq. lia.
Qed.
End Args.
