(* ===== verification/Sysfile.v ===== *)
(** * File system calls: sysfile.c

    Descriptors of the running process, and the calls on paths. *)

From stdpp Require Import base gmap list strings.
From Stdlib Require Import ZArith Lia.
From S2P Require Import Prelude CString Sync Sleeplock CacheSpec Log BlockSpec Fs File Syscall.
Local Open Scope Z_scope.

Definition NOFILE : nat := 16.

(** [struct stat] in user memory; the padding keeps its bytes. *)
Definition sizeof_stat : Z := 20.
Definition store_stat (m : mem) (a : Z) (st : stat) : mem :=
  store_bytes (store_bytes (store_bytes (store_bytes (store_bytes m
    a (half_bytes (st_type st))) (a + 4) (word_bytes (st_dev st))) (a + 8) (word_bytes (st_ino st)))
    (a + 12) (half_bytes (st_nlink st))) (a + 16) (word_bytes (st_size st)).

Section Sysfile.
Context {L S K P : Type} `{HL : Locks L} `{HB : Blocks S} `{HK : Lock K} `{HP : Pipes P} (me : Z).
Notation fs := (fs (L := L) (S := S)).
Notation files := (files (L := L) (S := S) (K := K) (P := P)).
Context (devsw_read : Z -> option (nat -> Z -> M fs (Z * list Z))) (devsw_write : Z -> option (nat -> list Z -> M fs Z)).

(** The running process and the open files. *)
Record sysfiles := mkSys {
  sf_files : files;
  ofile : list (option nat);      (** [NOFILE] entries *)
  cwd : nat;
  user : uproc;
  name_junk : list Z              (** what is on the stack where [name] will be *)
}.
Definition put_files (x : files) (s : sysfiles) : sysfiles := mkSys x (ofile s) (cwd s) (user s) (name_junk s).
Definition put_ofile (x : list (option nat)) (s : sysfiles) : sysfiles := mkSys (sf_files s) x (cwd s) (user s) (name_junk s).
Definition put_cwd (x : nat) (s : sysfiles) : sysfiles := mkSys (sf_files s) (ofile s) x (user s) (name_junk s).
Definition put_umem (x : mem) (s : sysfiles) : sysfiles :=
  mkSys (sf_files s) (ofile s) (cwd s) (mkUproc (u_sz (user s)) (u_esp (user s)) x) (name_junk s).

Definition on_files {A : Type} (m : M files A) : M sysfiles A := zoom sf_files put_files m.
Definition on_fs {A : Type} (m : M fs A) : M sysfiles A := on_files (in_fs m).
Definition op_begin : M sysfiles unit := on_files fs_begin.
Definition op_end : M sysfiles unit := on_files fs_end.
Definition getu (n : Z) : M sysfiles (option Z) := gets (fun s => argint (user s) n).
Definition getptr (n size : Z) : M sysfiles (option Z) := gets (fun s => argptr (user s) n size).
Definition getstr (n : Z) : M sysfiles (option (list Z)) := gets (fun s => argstr (user s) n).
Definition seti (ip : nat) (g : dinode -> dinode) : M sysfiles unit := on_fs (updd ip g).

(** ** Descriptors *)

Definition argfd (n : Z) : M sysfiles (option (nat * nat)) :=
  let! a := getu n in
  match a with
  | None => ret None
  | Some fd =>
      if (fd <? 0) || (Z.of_nat NOFILE <=? fd) then ret None else
      let! o := gets ofile in
      let! f := deref (o !! Z.to_nat fd) in
      match f with
      | None => ret None
      | Some f => ret (Some (Z.to_nat fd, f))
      end
  end.
Definition set_fd (fd : nat) (f : option nat) : M sysfiles unit := modify (fun s => put_ofile (<[fd := f]> (ofile s)) s).
Definition fdalloc (f : nat) : M sysfiles (option nat) :=
  scan (seq 0 NOFILE) (fun fd =>
    let! o := gets ofile in
    let! x := deref (o !! fd) in
    match x with
    | None =>
        set_fd fd (Some f) ;;;
        ret (Some fd)
    | Some _ => ret None
    end).

Definition sys_dup : M sysfiles Z :=
  let! a := argfd 0 in
  match a with
  | None => ret (-1)
  | Some (_, f) =>
      let! r := fdalloc f in
      match r with
      | None => ret (-1)
      | Some fd =>
          on_files (filedup f) ;;;
          ret (Z.of_nat fd)
      end
  end.

Definition sys_read : M sysfiles Z :=
  let! a := argfd 0 in
  let! n := getu 2 in
  match a, n with
  | Some (_, f), Some n =>
      let! p := getptr 1 n in
      match p with
      | None => ret (-1)
      | Some p =>
          let! r := on_files (fileread me devsw_read f n) in
          modify (fun s => put_umem (store_bytes (u_mem (user s)) p r.2) s) ;;;
          ret r.1
      end
  | _, _ => ret (-1)
  end.

Definition sys_write : M sysfiles Z :=
  let! a := argfd 0 in
  let! n := getu 2 in
  match a, n with
  | Some (_, f), Some n =>
      let! p := getptr 1 n in
      match p with
      | None => ret (-1)
      | Some p =>
          let! src := gets (fun s => bytes_of (u_mem (user s)) p n) in
          on_files (filewrite me devsw_write f src n)
      end
  | _, _ => ret (-1)
  end.

Definition sys_close : M sysfiles Z :=
  let! a := argfd 0 in
  match a with
  | None => ret (-1)
  | Some (fd, f) =>
      set_fd fd None ;;;
      on_files (fileclose me f) ;;;
      ret 0
  end.

Definition sys_fstat : M sysfiles Z :=
  let! a := argfd 0 in
  let! p := getptr 1 sizeof_stat in
  match a, p with
  | Some (_, f), Some p =>
      let! r := on_files (filestat me f) in
      match r with
      | None => ret (-1)
      | Some st =>
          modify (fun s => put_umem (store_stat (u_mem (user s)) p st) s) ;;;
          ret 0
      end
  | _, _ => ret (-1)
  end.

(** ** Links *)

Definition path_inode (path : list Z) : M sysfiles (option nat) :=
  let! s := gets id in
  on_fs (namei me devsw_read (cwd s) path (name_junk s)).
Definition path_parent (path : list Z) : M sysfiles (option nat * list Z) :=
  let! s := gets id in
  on_fs (nameiparent me devsw_read (cwd s) path (name_junk s)).

Definition sys_link : M sysfiles Z :=
  let! old := getstr 0 in
  let! new := getstr 1 in
  match old, new with
  | Some old, Some new =>
      op_begin ;;;
      let! r := path_inode old in
      match r with
      | None => op_end ;;; ret (-1)
      | Some ip =>
          on_fs (ilock me ip) ;;;
          let! x := on_fs (geti ip) in
          if d_type (i_d x) =? T_DIR then
            on_fs (iunlockput me ip) ;;;
            op_end ;;;
            ret (-1)
          else
            seti ip (fun d => set_nlink (s16 (d_nlink d + 1)) d) ;;;
            on_fs (iupdate ip) ;;;
            on_fs (iunlock me ip) ;;;
            let bad :=
              on_fs (ilock me ip) ;;;
              seti ip (fun d => set_nlink (s16 (d_nlink d - 1)) d) ;;;
              on_fs (iupdate ip) ;;;
              on_fs (iunlockput me ip) ;;;
              op_end ;;;
              ret (-1) in
            let! r := path_parent new in
            match r.1 with
            | None => bad
            | Some dp =>
                on_fs (ilock me dp) ;;;
                let! y := on_fs (geti dp) in
                let! x := on_fs (geti ip) in
                let! n := if negb (i_dev y =? i_dev x) then ret (-1)
                          else on_fs (dirlink me devsw_read devsw_write dp r.2 (i_inum x)) in
                if n <? 0 then
                  on_fs (iunlockput me dp) ;;;
                  bad
                else
                  on_fs (iunlockput me dp) ;;;
                  on_fs (iput me ip) ;;;
                  op_end ;;;
                  ret 0
            end
      end
  | _, _ => ret (-1)
  end.

(** [off] starts after the first two entries. *)
Fixpoint isdirempty_loop (fuel dp : nat) (off : Z) : M fs bool :=
  match fuel with
  | O => nofuel
  | Datatypes.S f =>
      let! x := geti dp in
      if off <? d_size (i_d x) then
        let! r := readi devsw_read dp off sizeof_dirent in
        if negb (r.1 =? sizeof_dirent) then panic "isdirempty: readi" else
        if negb (de_inum r.2 =? 0) then ret false else isdirempty_loop f dp (off + sizeof_dirent)
      else ret true
  end.
Definition isdirempty (dp : nat) : M fs bool :=
  let! x := geti dp in
  isdirempty_loop (dir_fuel (d_size (i_d x))) dp (2 * sizeof_dirent).

Definition sys_unlink : M sysfiles Z :=
  let! path := getstr 0 in
  match path with
  | None => ret (-1)
  | Some path =>
      op_begin ;;;
      let! r := path_parent path in
      match r.1 with
      | None => op_end ;;; ret (-1)
      | Some dp =>
          let name := r.2 in
          let bad := on_fs (iunlockput me dp) ;;; op_end ;;; ret (-1) in
          on_fs (ilock me dp) ;;;
          if (namecmp name [46] =? 0) || (namecmp name [46; 46] =? 0) then bad else
          let! l := on_fs (dirlookup devsw_read dp name) in
          match l with
          | None => bad
          | Some (ip, off) =>
              on_fs (ilock me ip) ;;;
              let! x := on_fs (geti ip) in
              if d_nlink (i_d x) <? 1 then panic "unlink: nlink < 1" else
              let! busy := if d_type (i_d x) =? T_DIR
                           then let! e := on_fs (isdirempty ip) in ret (negb e)
                           else ret false in
              if (busy : bool) then on_fs (iunlockput me ip) ;;; bad else
              let! n := on_fs (writei devsw_write dp (replicate 16 0) off sizeof_dirent) in
              if negb (n =? sizeof_dirent) then panic "unlink: writei" else
              let! x := on_fs (geti ip) in
              (if d_type (i_d x) =? T_DIR then
                 seti dp (fun d => set_nlink (s16 (d_nlink d - 1)) d) ;;;
                 on_fs (iupdate dp)
               else ret tt) ;;;
              on_fs (iunlockput me dp) ;;;
              seti ip (fun d => set_nlink (s16 (d_nlink d - 1)) d) ;;;
              on_fs (iupdate ip) ;;;
              on_fs (iunlockput me ip) ;;;
              op_end ;;;
              ret 0
          end
      end
  end.

(** ** Creating and opening *)

Definition set_dev (major minor : Z) (d : dinode) : dinode := mkDinode (d_type d) major minor (d_nlink d) (d_size d) (d_addrs d).
Definition create (path : list Z) (type major minor : Z) : M sysfiles (option nat) :=
  let! r := path_parent path in
  match r.1 with
  | None => ret None
  | Some dp =>
      let name := r.2 in
      on_fs (ilock me dp) ;;;
      let! l := on_fs (dirlookup devsw_read dp name) in
      match l with
      | Some (ip, _) =>
          on_fs (iunlockput me dp) ;;;
          on_fs (ilock me ip) ;;;
          let! x := on_fs (geti ip) in
          if (type =? T_FILE) && (d_type (i_d x) =? T_FILE) then ret (Some ip)
          else
            on_fs (iunlockput me ip) ;;;
            ret None
      | None =>
          let! y := on_fs (geti dp) in
          let! ip := on_fs (ialloc (i_dev y) type) in
          on_fs (ilock me ip) ;;;
          seti ip (fun d => set_nlink 1 (set_dev major minor d)) ;;;
          on_fs (iupdate ip) ;;;
          let! x := on_fs (geti ip) in
          (if type =? T_DIR then
             seti dp (fun d => set_nlink (s16 (d_nlink d + 1)) d) ;;;
             on_fs (iupdate dp) ;;;
             let! a := on_fs (dirlink me devsw_read devsw_write ip [46] (i_inum x)) in
             if a <? 0 then panic "create dots" else
             let! b := on_fs (dirlink me devsw_read devsw_write ip [46; 46] (i_inum y)) in
             if b <? 0 then panic "create dots" else ret tt
           else ret tt) ;;;
          let! n := on_fs (dirlink me devsw_read devsw_write dp name (i_inum x)) in
          if n <? 0 then panic "create: dirlink" else
          on_fs (iunlockput me dp) ;;;
          ret (Some ip)
      end
  end.

(** The inode, locked, or null after [end_op]. *)
Definition open_inode (path : list Z) (omode : Z) : M sysfiles (option nat) :=
  if negb (Z.land omode O_CREATE =? 0) then
    let! r := create path T_FILE 0 0 in
    match r with
    | None => op_end ;;; ret None
    | Some ip => ret (Some ip)
    end
  else
    let! r := path_inode path in
    match r with
    | None => op_end ;;; ret None
    | Some ip =>
        on_fs (ilock me ip) ;;;
        let! x := on_fs (geti ip) in
        if (d_type (i_d x) =? T_DIR) && negb (omode =? O_RDONLY) then
          on_fs (iunlockput me ip) ;;;
          op_end ;;;
          ret None
        else ret (Some ip)
    end.
Definition sys_open : M sysfiles Z :=
  let! path := getstr 0 in
  let! omode := getu 1 in
  match path, omode with
  | Some path, Some omode =>
      op_begin ;;;
      let! r := open_inode path omode in
      match r with
      | None => ret (-1)
      | Some ip =>
          let! f := on_files filealloc in
          let! fd := match f with Some f => fdalloc f | None => ret None end in
          match f, fd with
          | Some f, Some fd =>
              on_fs (iunlock me ip) ;;;
              op_end ;;;
              on_files (updf f (as_inode ip (Z.land omode O_WRONLY =? 0) (negb (Z.land omode O_WRONLY =? 0) || negb (Z.land omode O_RDWR =? 0)))) ;;;
              ret (Z.of_nat fd)
          | _, _ =>
              match f with Some f => on_files (fileclose me f) | None => ret tt end ;;;
              on_fs (iunlockput me ip) ;;;
              op_end ;;;
              ret (-1)
          end
      end
  | _, _ => ret (-1)
  end.

(** [sys_mkdir] and [sys_mknod] after their arguments. *)
Definition create_node (path : option (list Z)) (type major minor : Z) : M sysfiles Z :=
  let! r := match path with Some path => create path type major minor | None => ret None end in
  match r with
  | None => op_end ;;; ret (-1)
  | Some ip =>
      on_fs (iunlockput me ip) ;;;
      op_end ;;;
      ret 0
  end.
Definition sys_mkdir : M sysfiles Z :=
  op_begin ;;;
  let! path := getstr 0 in
  create_node path T_DIR 0 0.
Definition sys_mknod : M sysfiles Z :=
  op_begin ;;;
  let! path := getstr 0 in
  let! major := getu 1 in
  let! minor := getu 2 in
  match major, minor with
  | Some major, Some minor => create_node path T_DEV (s16 major) (s16 minor)
  | _, _ => create_node None T_DEV 0 0
  end.

Definition sys_chdir : M sysfiles Z :=
  op_begin ;;;
  let! path := getstr 0 in
  let! r := match path with Some path => path_inode path | None => ret None end in
  match r with
  | None => op_end ;;; ret (-1)
  | Some ip =>
      on_fs (ilock me ip) ;;;
      let! x := on_fs (geti ip) in
      if negb (d_type (i_d x) =? T_DIR) then
        on_fs (iunlockput me ip) ;;;
        op_end ;;;
        ret (-1)
      else
        on_fs (iunlock me ip) ;;;
        let! s := gets id in
        on_fs (iput me (cwd s)) ;;;
        op_end ;;;
        modify (put_cwd ip) ;;;
        ret 0
  end.

(** ** Programs and pipes *)

(** The strings of [argv]; [None] is an error. *)
Fixpoint fetch_args (k : nat) (u : uproc) (a : Z) : option (list (list Z)) :=
  match k with
  | O => None
  | Datatypes.S k =>
      match fetchint u a with
      | None => None
      | Some p =>
          if u32 p =? 0 then Some [] else
          match fetchstr u (u32 p) with
          | None => None
          | Some n =>
              match fetch_args k u (u32 (a + 4)) with
              | None => None
              | Some l => Some (bytes_of (u_mem u) (u32 p) n :: l)
              end
          end
      end
  end.
(** [exec] is the function of exec.c. *)
Definition sys_exec (exec : list Z -> list (list Z) -> M sysfiles Z) : M sysfiles Z :=
  let! path := getstr 0 in
  let! uargv := getu 1 in
  match path, uargv with
  | Some path, Some uargv =>
      let! u := gets user in
      match fetch_args MAXARG u (u32 uargv) with
      | None => ret (-1)
      | Some argv => exec path argv
      end
  | _, _ => ret (-1)
  end.

Definition sys_pipe : M sysfiles Z :=
  let! p := getptr 0 8 in
  match p with
  | None => ret (-1)
  | Some p =>
      let! r := on_files (pipealloc me) in
      match r with
      | None => ret (-1)
      | Some (rf, wf) =>
          let! fd0 := fdalloc rf in
          let! fd1 := match fd0 with Some _ => fdalloc wf | None => ret None end in
          match fd0, fd1 with
          | Some fd0, Some fd1 =>
              modify (fun s => put_umem (store_bytes (store_bytes (u_mem (user s)) p (word_bytes (Z.of_nat fd0))) (p + 4) (word_bytes (Z.of_nat fd1))) s) ;;;
              ret 0
          | _, _ =>
              match fd0 with Some fd0 => set_fd fd0 None | None => ret tt end ;;;
              on_files (fileclose me rf) ;;;
              on_files (fileclose me wf) ;;;
              ret (-1)
          end
      end
  end.
End Sysfile.
