(* ===== verification/FsTriple.v ===== *)
(** * Reasoning about calls on files

    [triple] relates a call to what it does to a description of the state, its
    world.  The rules of this file give the world of the file system after
    each function of fs.c that the system calls use. *)

From stdpp Require Import base gmap list strings.
From Stdlib Require Import ZArith Lia.
From S2P Require Import Prelude CString Sync Sleeplock CacheSpec Log BlockSpec Fs FsLayout FsInv FsBlocks FsFile FsRw FsInode FsCorrect FsNames FsDir FsPath.
Local Open Scope Z_scope.

(** ** Triples *)

Section Triple.
Context {W S : Type} (rep : W -> S -> Prop).
Definition triple {X : Type} (w : W) (m : M S X) (Q : X -> W -> Prop) : Prop :=
  forall s, rep w s -> exists x s' w', m s = Ok x s' /\ rep w' s' /\ Q x w'.
(** The call returns [a] and leaves [w']. *)
Definition returns {X : Type} (w : W) (m : M S X) (a : X) (w' : W) : Prop := triple w m (fun x y => x = a /\ y = w').

Lemma triple_ret {X} w (x : X) (Q : X -> W -> Prop) : Q x w -> triple w (ret x) Q.
Proof. intros HQ s Hs. by exists x, s, w. Qed.
Lemma triple_bind {X Y} w (m : M S X) (k : X -> M S Y) Q1 Q2 : triple w m Q1 -> (forall x w', Q1 x w' -> triple w' (k x) Q2) -> triple w (bind m k) Q2.
Proof. intros Hm Hk s Hs. destruct (Hm s Hs) as (x & s1 & w1 & E1 & R1 & HQ). destruct (Hk x w1 HQ s1 R1) as (y & s2 & w2 & E2 & R2 & HQ2). exists y, s2, w2. by erewrite bind_Ok by exact E1. Qed.
Lemma triple_step {X Y} w w1 (m : M S X) a (k : X -> M S Y) Q : returns w m a w1 -> triple w1 (k a) Q -> triple w (bind m k) Q.
Proof. intros Hm Hk. eapply triple_bind; [exact Hm|]. by intros x w' [-> ->]. Qed.
Lemma triple_mono {X} w (m : M S X) (Q1 Q2 : X -> W -> Prop) : triple w m Q1 -> (forall x w', Q1 x w' -> Q2 x w') -> triple w m Q2.
Proof. intros Hm HQ s Hs. destruct (Hm s Hs) as (x & s1 & w1 & E1 & R1 & HQ1). exists x, s1, w1. auto. Qed.
Lemma triple_gets {X} w (f : S -> X) (Q : X -> W -> Prop) : (forall s, rep w s -> Q (f s) w) -> triple w (gets f) Q.
Proof. intros HQ s Hs. exists (f s), s, w. auto. Qed.
Lemma triple_eq {X} w (m m' : M S X) Q : (forall s, m s = m' s) -> triple w m' Q -> triple w m Q.
Proof. intros E Hm s Hs. rewrite E. by apply Hm. Qed.
Lemma triple_assoc {X Y Z} w (m : M S X) (f : X -> M S Y) (k : Y -> M S Z) Q : triple w (bind m (fun x => bind (f x) k)) Q -> triple w (bind (bind m f) k) Q.
Proof. apply triple_eq. intros s. apply bind_assoc. Qed.

(** The call sleeps and does not come back. *)
Definition waits {X : Type} (w : W) (m : M S X) : Prop := forall s, rep w s -> exists s', m s = Blocked s'.
Lemma waits_now {X Y} w (m : M S X) (k : X -> M S Y) : waits w m -> waits w (bind m k).
Proof. intros Hm s Hs. destruct (Hm s Hs) as (s' & E). exists s'. unfold bind. by rewrite E. Qed.
Lemma waits_bind {X Y} w (m : M S X) (k : X -> M S Y) Q : triple w m Q -> (forall x w', Q x w' -> waits w' (k x)) -> waits w (bind m k).
Proof. intros Hm Hk s Hs. destruct (Hm s Hs) as (x & s1 & w1 & E1 & R1 & HQ). destruct (Hk x w1 HQ s1 R1) as (s2 & E2). exists s2. by erewrite bind_Ok by exact E1. Qed.
Lemma waits_from {X Y} w (m : M S X) (k : X -> M S Y) Q : triple w (let! x := m in ret x) Q -> (forall x w', Q x w' -> waits w' (k x)) -> waits w (bind m k).
Proof. intros Hm. apply waits_bind. eapply triple_eq; [|exact Hm]. intros s. unfold bind. by destruct (m s). Qed.
End Triple.
(** A call on a part of the state. *)
Lemma triple_zoom {W S V T X : Type} (rep : W -> S -> Prop) (rep' : V -> T -> Prop) (get : T -> S) (set : S -> T -> T) (m : M S X) w v (Q : X -> W -> Prop) (Q' : X -> V -> Prop) :
  (forall s, rep' v s -> rep w (get s)) -> (forall s u x w', rep' v s -> rep w' u -> Q x w' -> exists v', rep' v' (set u s) /\ Q' x v') -> triple rep w m Q -> triple rep' v (zoom get set m) Q'.
Proof.
  intros Hget Hset Hm s Hs. destruct (Hm (get s) (Hget s Hs)) as (x & u & w' & E & R' & HQ). destruct (Hset s u x w' Hs R' HQ) as (v' & Rv & HQ'). exists x, (set u s), v'. by rewrite (zoom_Ok _ _ _ _ _ _ E).
Qed.

(** ** Free entries of the inode cache *)

Lemma free_one {X} (m : gmap nat X) (N : nat) : (size m < N)%nat -> exists p, (p < N)%nat /\ m !! p = None.
Proof.
  intros Hs. destruct (decide (Exists (fun p => m !! p = None) (seq 0 N))) as [He|Hn].
  - apply Exists_exists in He as (p & Hp%elem_of_seq & Hm). exists p. split; [lia|done].
  - exfalso. assert (list_to_set (seq 0 N) ⊆ dom m) as Hsub.
    { intros p Hp%elem_of_list_to_set. apply elem_of_dom. destruct (m !! p) eqn:E; [done|]. exfalso. apply Hn, Exists_exists. eauto. }
    apply subseteq_size in Hsub. rewrite size_list_to_set, length_seq, size_dom in Hsub by apply NoDup_seq. lia.
Qed.
Lemma free_two {X} (m : gmap nat X) (N : nat) : (size m + 2 <= N)%nat -> exists p1 p2, p1 <> p2 /\ (p1 < N)%nat /\ (p2 < N)%nat /\ m !! p1 = None /\ m !! p2 = None.
Proof.
  intros Hs. destruct (free_one m N) as (p1 & H1 & N1); [lia|]. destruct (decide (size m = 0)%nat) as [Hz|Hz].
  - apply map_size_empty_inv in Hz as ->. rewrite map_size_empty in Hs. destruct p1 as [|p1]; [exists 0%nat, 1%nat|exists (Datatypes.S p1), 0%nat]; (split_and!; [done|lia|lia|apply lookup_empty..]).
  - destruct (map_choose m) as (q & x & Hx); [intros ->; by rewrite map_size_empty in Hz|]. destruct (free_one (<[p1 := x]> m) N) as (p2 & H2 & N2).
    { rewrite map_size_insert_None by done. lia. }
    apply lookup_insert_None in N2 as [N2 Hne]. by exists p1, p2.
Qed.
Lemma ref_got_size R i q R' : ref_got R i q R' -> (size R' <= size R + 1)%nat.
Proof. intros [c Hc Hq|Hq _]; rewrite map_size_insert; rewrite Hq; simpl; lia. Qed.

(** ** Entries of directories *)

(** The entry for [i] under the name [nm], and a directory with it. *)
Definition dirent (i : Z) (nm : list Z) : list Z := mk_dirent i (nm ++ replicate (DIRSIZ - length nm) 0).
Definition add_entry (i : Z) (nm : list Z) (f : file) : file := with_data (write_at (16 * dir_free (f_data f)) (dirent i nm) (f_data f)) f.

(** ** The world of the file system *)

Record fworld := mkFw { fw_txn : bool; fw_disk : history; fw_logged : nat; fw_files : gmap Z file; fw_refs : gmap nat (Z * Z); fw_lock : gset nat }.

Section FsTriple.
Context {L S : Type} `{HL : Locks L} `{HB : Blocks S} (me : Z) (sb : superblock) (Hly : layout sb) (Hfs : forall n, fs_block sb n -> bk_fs n)
  (Hlk : (NINODE < lk_count)%nat).
Notation fs := (fs (L := L) (S := S)).
Context (devsw_read : Z -> option (nat -> Z -> M fs (Z * list Z))) (devsw_write : Z -> option (nat -> list Z -> M fs Z)).
Implicit Types (t : bool) (n : nat) (F : gmap Z file) (R : gmap nat (Z * Z)) (lk : gset nat) (dk : history) (g : gset Z) (s : fs).
Notation inside := (inside me sb).

Definition frep (w : fworld) s : Prop := exists H g, inside (fw_txn w) (mkAfs (fw_files w) H (fw_lock w)) (fw_disk w) g s /\ (size g <= fw_logged w)%nat /\ refs H = fw_refs w /\ pinned (fw_files w) H.
Notation triple := (triple frep).
Notation returns := (returns frep).

Lemma frep_refs t dk n F R lk s : frep (mkFw t dk n F R lk) s -> exists H g, inside t (mkAfs F H lk) dk g s /\ (size g <= n)%nat /\ refs H = R /\ pinned F H /\
  (forall p i c, R !! p = Some (i, c) -> exists b, H !! p = Some (mkHandle i c b)).
Proof using. intros (H & g & HI & Hg & HR & HP). exists H, g. split_and!; [done..|]. intros p i c Hp. simpl in HR. rewrite <- HR in Hp. by apply refs_lookup in Hp. Qed.
Lemma frep_file t dk n F R lk s p i c : frep (mkFw t dk n F R lk) s -> R !! p = Some (i, c) -> exists f, F !! i = Some f.
Proof using.
  intros (H & g & (ic & v & D & HR & G) & _ & Hr & _)%frep_refs Hp. rewrite <- Hr in Hp. apply refs_lookup in Hp as [b Hp]. destruct (good_handle me sb _ ic v D p i c b G Hp) as (_ & _ & _ & _ & _ & _ & Hf & _). eauto.
Qed.

Lemma file_bound t A dk g u i fl : inside t A dk g u -> a_files A !! i = Some fl -> 0 <= i < sb_ninodes sb /\ Z.of_nat (length (f_data fl)) <= MAXFILE * 512.
Proof using. clear Hlk devsw_read devsw_write.
  intros (ic & v & D & HR & G) Hf. rewrite (gd_files _ _ _ _ _ _ G) in Hf. apply file_at_Some in Hf as (Hi & _ & ->). split; [done|]. cbn [file_of f_data]. rewrite length_content.
  pose proof (iv_wf _ _ _ _ (gd_inv _ _ _ _ _ _ G) i Hi) as W. pose proof (dw_ok _ _ W) as (_ & Hs & _). unfold uint32 in Hs. pose proof (dw_size _ _ W) as Hn.
  unfold MAXFILE, nblocks, NDIRECT, NINDIRECT in *. Z.to_euclidean_division_equations. lia.
Qed.
Lemma frep_bound t dk n F R lk s i f : frep (mkFw t dk n F R lk) s -> F !! i = Some f -> 0 <= i < sb_ninodes sb /\ Z.of_nat (length (f_data f)) <= MAXFILE * 512.
Proof using. intros (H & g & HI & _)%frep_refs Hf. by eapply (file_bound _ (mkAfs F H lk)). Qed.

(** *** Locks and references *)

Lemma tr_lock t dk n F R lk p i c : R !! p = Some (i, c) -> p ∉ lk -> returns (mkFw t dk n F R lk) (ilock me p) tt (mkFw t dk n F R ({[p]} ∪ lk)).
Proof.
  intros Hp Hl s (H & g & HI & Hg & HR & HP & Hh)%frep_refs. destruct (Hh _ _ _ Hp) as [b Hb].
  destruct (does_lock me sb Hly Hfs Hlk devsw_read devsw_write t _ dk g s p HI) as (r & s' & A' & g' & E & I' & Hst & Hg'); [by eexists|done|].
  cbn [iop_code] in E. apply (iop_Ok _ (fun _ => RDone)) in E as ([] & E & ->). inversion Hst as [| | |F0 H0 lk0 i0 p0 c0 b0 Hh0 E1 E2 E3| | | | | | | |]; subst. rewrite Hb in Hh0. injection Hh0 as <- <- <-.
  exists tt, s'. eexists. split_and!; [done| |done|reflexivity]. eexists _, g'. split_and!; [exact I'|simpl in *; lia| |by apply pinned_insert].
  rewrite refs_insert. by apply insert_id.
Qed.
Lemma tr_unlock t dk n F R lk p x : R !! p = Some x -> p ∈ lk -> returns (mkFw t dk n F R lk) (iunlock me p) tt (mkFw t dk n F R (lk ∖ {[p]})).
Proof.
  destruct x as [i c]. intros Hp Hl s (H & g & HI & Hg & HR & HP & Hh)%frep_refs. destruct (Hh _ _ _ Hp) as [b Hb].
  destruct (does_unlock me sb Hly Hfs Hlk devsw_read devsw_write t _ dk g s p HI) as (r & s' & A' & g' & E & I' & Hst & Hg'); [done|by eexists|].
  cbn [iop_code] in E. apply (iop_Ok _ (fun _ => RDone)) in E as ([] & E & ->). inversion Hst as [| | | |F0 H0 lk0 p0 E1 E2 E3| | | | | | |]; subst.
  exists tt, s'. eexists. split_and!; [done| |done|reflexivity]. exists H, g'. split_and!; [exact I'|simpl in *; lia|done|done].
Qed.
Lemma tr_put t dk n F R lk p i c f : R !! p = Some (i, c) -> p ∉ lk -> F !! i = Some f -> (f_nlink f = 0 -> c <> 1) ->
  returns (mkFw t dk n F R lk) (iput me p) tt (mkFw t dk n F (ref_put p i c R) lk).
Proof.
  intros Hp Hl Hf Hk s (H & g & HI & Hg & HR & HP & Hh)%frep_refs. destruct (Hh _ _ _ Hp) as [b Hb].
  destruct (put_keep me sb Hlk devsw_read devsw_write t F H lk dk g s p i c b f HI Hb Hl Hf) as (s' & E & I'); [auto|].
  exists tt, s'. eexists. split_and!; [done| |done|reflexivity]. eexists _, g. split_and!; [exact I'|done|rewrite refs_put; by rewrite HR|by apply pinned_put].
Qed.
(** The last reference to a file without links frees it. *)
Lemma tr_put_last dk n F R lk p i f : R !! p = Some (i, 1) -> p ∉ lk -> F !! i = Some f -> f_nlink f = 0 -> (n + (nbitmap sb + 2) <= bk_room)%nat ->
  returns (mkFw true dk n F R lk) (iput me p) tt (mkFw true dk (n + (nbitmap sb + 2)) (delete i F) (delete p R) lk).
Proof.
  intros Hp Hl Hf Hn Hroom s (H & g & HI & Hg & HR & HP & Hh)%frep_refs. destruct (Hh _ _ _ Hp) as [b Hb]. assert (b = true) as -> by (by eapply HP).
  destruct (does_put_last me sb Hly Hfs Hlk devsw_read devsw_write _ dk g s p i f HI Hb Hl Hf Hn) as (r & s' & A' & g' & E & I' & Hst & Hg'); [simpl; lia|].
  cbn [iop_code] in E. apply (iop_Ok _ (fun _ => RDone)) in E as ([] & E & ->).
  inversion Hst as [| | | | |F0 H0 lk0 i0 p0 c0 b0 f0 Hh0 Hf0 Hk E1 E2 E3|F0 H0 lk0 i0 p0 f0 Hh0 Hf0 Hk E1 E2 E3| | | | |]; subst; rewrite Hb in Hh0; injection Hh0; intros; subst; [rewrite Hf in Hf0; injection Hf0 as <-; by destruct Hk|].
  exists tt, s'. eexists. split_and!; [done| |done|reflexivity]. eexists _, g'. split_and!; [exact I'|simpl in *; lia|unfold refs; by rewrite fmap_delete|].
  cbn [fw_files]. intros q j c b f' [_ Hq]%lookup_delete_Some [_ Hj]%lookup_delete_Some. by eapply HP.
Qed.

Lemma tr_unlockput t dk n F R lk p i c f : R !! p = Some (i, c) -> p ∈ lk -> F !! i = Some f -> (f_nlink f = 0 -> c <> 1) ->
  returns (mkFw t dk n F R lk) (iunlockput me p) tt (mkFw t dk n F (ref_put p i c R) (lk ∖ {[p]})).
Proof. intros Hp Hl Hf Hk. unfold iunlockput. eapply triple_step; [by eapply tr_unlock|]. eapply tr_put; [done| |done|done]. intros [_ []]%elem_of_difference. by apply elem_of_singleton. Qed.
Lemma tr_unlockput_last dk n F R lk p i f : R !! p = Some (i, 1) -> p ∈ lk -> F !! i = Some f -> f_nlink f = 0 -> (n + (nbitmap sb + 2) <= bk_room)%nat ->
  returns (mkFw true dk n F R lk) (iunlockput me p) tt (mkFw true dk (n + (nbitmap sb + 2)) (delete i F) (delete p R) (lk ∖ {[p]})).
Proof. intros Hp Hl Hf Hk Hroom. unfold iunlockput. eapply triple_step; [by eapply tr_unlock|]. eapply tr_put_last; [done| |done|done|done]. intros [_ []]%elem_of_difference. by apply elem_of_singleton. Qed.

(** *** Reading inodes *)

(** What a call sees of an inode it has locked. *)
Definition seen (i : Z) (f : file) (x : inode) : Prop :=
  i_dev x = 1 /\ i_inum x = i /\ d_type (i_d x) = f_type f /\ d_nlink (i_d x) = f_nlink f /\ d_size (i_d x) = Z.of_nat (length (f_data f)) /\ Z.of_nat (length (f_data f)) <= MAXFILE * 512.
Lemma frep_opened F H R lk p i c f : refs H = R -> p ∈ lk -> R !! p = Some (i, c) -> F !! i = Some f -> opened (mkAfs F H lk) p i f.
Proof using. intros <- Hl [b Hp]%refs_lookup Hf. split; [done|by exists c, b|done]. Qed.
Lemma tr_seen t dk n F R lk p i c f : R !! p = Some (i, c) -> p ∈ lk -> F !! i = Some f -> triple (mkFw t dk n F R lk) (geti p) (fun x w' => seen i f x /\ w' = mkFw t dk n F R lk).
Proof.
  intros Hp Hl Hf s Hs. pose proof Hs as (H & g & HI & Hg & HR & HP & Hh)%frep_refs. destruct (inode_seen me sb Hlk devsw_read devsw_write t _ dk g s p i f HI) as (x & E & Hx); [by eapply frep_opened|].
  exists x, s. eexists. split_and!; [done|done|by unfold seen|done].
Qed.
(** Without the lock, the device and the number. *)
Lemma tr_ident t dk n F R lk p i c : R !! p = Some (i, c) -> triple (mkFw t dk n F R lk) (geti p) (fun x w' => i_dev x = 1 /\ i_inum x = i /\ w' = mkFw t dk n F R lk).
Proof.
  intros Hp s Hs. pose proof Hs as (H & g & (ic & v & D & HR & G) & Hg & Hr & HP & Hh)%frep_refs. destruct (Hh _ _ _ Hp) as [b Hb].
  destruct (good_handle me sb _ ic v D p i c b G Hb) as (x & En & _). pose proof En as [Hx Hdev Hin _]. exists x, s. eexists. split_and!; [by eapply geti_R|done|done|done|reflexivity].
Qed.

(** *** Directories *)

Lemma tr_lookup_none t dk n F R lk p i c f name : R !! p = Some (i, c) -> p ∈ lk -> F !! i = Some f -> f_type f = T_DIR -> dir_ok (f_data f) -> dir_find (f_data f) (cname DIRSIZ name) = None ->
  returns (mkFw t dk n F R lk) (dirlookup devsw_read p name) None (mkFw t dk n F R lk).
Proof.
  intros Hp Hl Hf Ht Hok Hfind s (H & g & HI & Hg & HR & HP & Hh)%frep_refs. destruct (dirlookup_ok me sb Hly Hfs Hlk devsw_read devsw_write t _ dk p i f (frep_opened F H R lk p i c f HR Hl Hp Hf) Ht Hok name g s HI) as (s' & g' & I' & Hg' & E).
  rewrite Hfind in E. exists None, s'. eexists. split_and!; [done| |done|reflexivity]. exists H, g'. split_and!; [done|simpl; lia|done|done].
Qed.
Lemma tr_lookup t dk n F R lk p i c f name k j h : R !! p = Some (i, c) -> p ∈ lk -> F !! i = Some f -> f_type f = T_DIR -> dir_ok (f_data f) -> dir_find (f_data f) (cname DIRSIZ name) = Some (k, j) ->
  F !! j = Some h -> f_nlink h <> 0 -> (size R < NINODE)%nat ->
  triple (mkFw t dk n F R lk) (dirlookup devsw_read p name) (fun x w' => exists q R', x = Some (q, 16 * Z.of_nat k) /\ ref_got R j q R' /\ (q ∈ lk -> exists c, R !! q = Some (j, c)) /\ w' = mkFw t dk n F R' lk).
Proof.
  intros Hp Hl Hf Ht Hok Hfind Hj Hn Hsz s (H & g & HI & Hg & HR & HP & Hh)%frep_refs. destruct (dirlookup_ok me sb Hly Hfs Hlk devsw_read devsw_write t _ dk p i f (frep_opened F H R lk p i c f HR Hl Hp Hf) Ht Hok name g s HI) as (s1 & g1 & I1 & Hg1 & E1).
  rewrite Hfind in E1. destruct (free_one R NINODE Hsz) as (p0 & Hp0 & N0). rewrite <- HR in N0. apply refs_None in N0.
  destruct (get_ok me sb Hlk devsw_read devsw_write t F H lk dk g1 s1 j h I1 Hj) as (q & s2 & g2 & H2 & E2 & I2 & Hg2 & Hgot); [by exists p0|].
  exists (Some (q, 16 * Z.of_nat k)), s2. eexists. split_and!; [rewrite E1; by erewrite bind_Ok by exact E2| |exists q, (refs H2); split_and!; [done|rewrite <- HR; by apply refs_got| |reflexivity]].
  - exists H2, g2. split_and!; [done|simpl; lia|done|by eapply pinned_got].
  - intros Hq. destruct (decide (exists c', H !! q = Some c')) as [[[j' c' b'] Hq']|Hno].
    + exists c'. rewrite <- HR. apply refs_lookup. exists b'. inversion Hgot as [c0 b0 _ Hq0|Hq0 _]; subst; cbn [fst snd]; congruence.
    + exfalso. eapply (got_unlocked me sb t t F H H2 lk dk dk g1 g2 s1 s2 j q I1 I2 Hgot); [|done]. intros q' c' b' Hq'. destruct (decide (q' = q)) as [->|Hne]; [exfalso; eauto|].
      inversion Hgot as [c0 b0 _ Hq0|Hq0 Hnone]; subst; [exfalso; eauto|]. by destruct (Hnone _ _ Hq').
Qed.
Lemma tr_read t dk n F R lk p i c f off k : R !! p = Some (i, c) -> p ∈ lk -> F !! i = Some f -> f_type f <> T_DEV -> uint32 off -> uint32 k ->
  returns (mkFw t dk n F R lk) (readi devsw_read p off k) (read_result (f_data f) off k) (mkFw t dk n F R lk).
Proof.
  intros Hp Hl Hf Ht Ho Hk s (H & g & HI & Hg & HR & HP & Hh)%frep_refs. destruct (read_ok me sb Hly Hfs Hlk devsw_read devsw_write t _ dk g s p i f off k HI) as (s' & g' & E & I' & Hg'); [by eapply frep_opened|done..|].
  eexists _, s'. eexists. split_and!; [done| |done|reflexivity]. exists H, g'. split_and!; [done|simpl; lia|done|done].
Qed.

(** *** Changing files *)

Lemma locked_loaded t F H lk dk g s p i c b : inside t (mkAfs F H lk) dk g s -> p ∈ lk -> H !! p = Some (mkHandle i c b) -> b = true /\ forall q c' b', H !! q = Some (mkHandle i c' b') -> q = p.
Proof using. clear Hlk.
  intros (ic & v & D & HR & G) Hl Hp. destruct (good_handle me sb _ ic v D p i c b G Hp) as (x & [Hx _ Hin _] & _ & Hb & _ & _ & _ & _ & C). destruct (co_locked _ _ _ _ _ _ C Hl) as (_ & Hr & Hv). split; [congruence|].
  intros q c' b' Hq. destruct (good_handle me sb _ ic v D q i c' b' G Hq) as (y & [Hy _ Hiny _] & Hc & _ & Hc0 & _). apply (gd_unique _ _ _ _ _ _ G q p y x Hy Hx); [lia|done|congruence].
Qed.
Lemma pinned_file F H i f f' : pinned F H -> F !! i = Some f -> (f_nlink f' = 0 -> f_nlink f = 0) -> pinned (<[i := f']> F) H.
Proof using. intros HP Hf Hn q j c b h Hq [[<- <-]|[_ Hj]]%lookup_insert_Some Hz; [|by eapply HP]. eapply HP; [done|done|auto]. Qed.

Lemma tr_write dk n F R lk p i c f off l : R !! p = Some (i, c) -> p ∈ lk -> F !! i = Some f -> f_type f <> T_DEV -> uint32 off -> uint32 (Z.of_nat (length l)) -> fits off l (f_data f) ->
  (usage sb F + (blocks_for (with_data (write_at (Z.to_nat off) l (f_data f)) f) - blocks_for f) <= length (data_blocks sb))%nat -> (n + cost sb (IWrite p off l) <= bk_room)%nat ->
  returns (mkFw true dk n F R lk) (writei devsw_write p l off (Z.of_nat (length l))) (Z.of_nat (length l))
    (mkFw true dk (n + cost sb (IWrite p off l)) (<[i := with_data (write_at (Z.to_nat off) l (f_data f)) f]> F) R lk).
Proof.
  intros Hp Hl Hf Ht Ho Hll Hfit Hu Hroom s (H & g & HI & Hg & HR & HP & Hh)%frep_refs.
  destruct (write_ok me sb Hly Hfs Hlk devsw_read devsw_write F H lk dk g s p i f off l HI) as (s' & g' & E & I' & Hg'); [by eapply frep_opened|done..|lia|].
  eexists _, s'. eexists. split_and!; [done| |done|reflexivity]. exists H, g'. split_and!; [done|cbn [fw_logged]; lia|done|by eapply pinned_file].
Qed.
Lemma tr_dirlink dk n F R lk p i c f name inum : R !! p = Some (i, c) -> p ∈ lk -> F !! i = Some f -> f_type f = T_DIR -> dir_ok (f_data f) -> Forall byte name ->
  dir_find (f_data f) (cname DIRSIZ name) = None -> 16 * Z.of_nat (dir_free (f_data f)) + 16 <= MAXFILE * 512 ->
  let f' := add_entry inum (cname DIRSIZ name) f in (usage sb F + (blocks_for f' - blocks_for f) <= length (data_blocks sb))%nat -> (n + (nbitmap sb + 4) <= bk_room)%nat ->
  returns (mkFw true dk n F R lk) (dirlink me devsw_read devsw_write p name inum) 0 (mkFw true dk (n + (nbitmap sb + 4)) (<[i := f']> F) R lk).
Proof.
  intros Hp Hl Hf Ht Hok Hb Hfind Hmax f' Hu Hroom s (H & g & HI & Hg & HR & HP & Hh)%frep_refs. pose proof (length_mk_dirent inum name Hb) as Hlen.
  assert (Z.to_nat (16 * Z.of_nat (dir_free (f_data f))) = 16 * dir_free (f_data f))%nat as Hoff by lia.
  assert (cost sb (IWrite p (16 * Z.of_nat (dir_free (f_data f))) (mk_dirent inum (name_field name))) = nbitmap sb + 4)%nat as Hcost.
  { cbn [cost]. rewrite Hlen. unfold spans. change (Z.of_nat 16 <=? 0) with false. cbv iota. change (Z.of_nat 16) with 16. Z.to_euclidean_division_equations. lia. }
  assert (with_data (write_at (16 * dir_free (f_data f)) (mk_dirent inum (name_field name)) (f_data f)) f = f') as Hf' by (unfold f', add_entry, dirent; by rewrite name_field_spec).
  destruct (dirlink_new me sb Hly Hfs Hlk devsw_read devsw_write F H lk dk g s p i f name inum HI) as (s' & g' & E & I' & Hg'); [by eapply frep_opened|done..|by rewrite Hoff, Hf'|rewrite Hcost; lia|].
  rewrite Hcost in Hg'. rewrite Hoff, Hf' in I'. exists 0, s'. eexists. split_and!; [done| |done|reflexivity]. exists H, g'. split_and!; [done|cbn [fw_logged]; lia|done|by eapply pinned_file].
Qed.
Lemma tr_dirlink_present dk n F R lk p i c f name inum k j h : R !! p = Some (i, c) -> p ∈ lk -> F !! i = Some f -> f_type f = T_DIR -> dir_ok (f_data f) ->
  dir_find (f_data f) (cname DIRSIZ name) = Some (k, j) -> F !! j = Some h -> (size R < NINODE)%nat -> (forall q c, R !! q = Some (j, c) -> q ∉ lk) ->
  returns (mkFw true dk n F R lk) (dirlink me devsw_read devsw_write p name inum) (-1) (mkFw true dk n F R lk).
Proof.
  intros Hp Hl Hf Ht Hok Hfind Hj Hsz Hnl s (H & g & HI & Hg & HR & HP & Hh)%frep_refs. destruct (free_one R NINODE Hsz) as (p0 & Hp0 & N0). rewrite <- HR in N0. apply refs_None in N0.
  destruct (dirlink_present me sb Hly Hfs Hlk devsw_read devsw_write F H lk dk g s p i f name inum k j h HI) as (s' & g' & E & I' & Hg'); [by eapply frep_opened|done..|by exists p0| |].
  { intros q c' b Hq. apply (Hnl q c'). rewrite <- HR. apply refs_lookup. by exists b. }
  exists (-1), s'. eexists. split_and!; [done| |done|reflexivity]. exists H, g'. split_and!; [done|simpl; lia|done|done].
Qed.
(** [iput] of an inode that the process has locked itself. *)
Lemma put_waits t dk n F R lk p x : R !! p = Some x -> p ∈ lk -> waits frep (mkFw t dk n F R lk) (iput me p).
Proof.
  destruct x as [i c]. intros Hp Hl s (H & g & (ic & v & D & HR & G) & Hg & Hr & HP & Hh)%frep_refs. destruct (Hh _ _ _ Hp) as [b Hb]. destruct (good_handle me sb _ ic v D p i c b G Hb) as (y & [Hy _ _ _] & _ & _ & _ & _ & _ & _ & C).
  pose proof (co_lock _ _ _ _ _ _ C) as Hlock. rewrite bool_decide_true in Hlock by done. pose proof (lookup_lt_Some _ _ _ Hy) as Hlt. rewrite (gd_len _ _ _ _ _ _ G) in Hlt.
  destruct (acquiresleep_waits (Datatypes.S p) me (f_locks s, i_lock y)) as (l & E & _); [split; [apply HR|lia]|done|]. eexists. unfold iput, acquire_inode, on_ilock. unfold bind at 1. rewrite (bind_Ok _ _ s y s) by (by eapply geti_R).
  unfold zoom. rewrite E. reflexivity.
Qed.
(** A name that leads back to the directory: [dirlink] waits for its own
    lock. *)
Lemma dirlink_waits dk n F R lk p i c f name inum k : R !! p = Some (i, c) -> p ∈ lk -> F !! i = Some f -> f_type f = T_DIR -> dir_ok (f_data f) -> f_nlink f <> 0 ->
  dir_find (f_data f) (cname DIRSIZ name) = Some (k, i) -> (size R < NINODE)%nat -> waits frep (mkFw true dk n F R lk) (dirlink me devsw_read devsw_write p name inum).
Proof.
  intros Hp Hl Hf Ht Hok Hn Hfind Hsz. unfold dirlink. intros s Hs. assert (forall q c', R !! q = Some (i, c') -> q = p) as Huniq.
  { pose proof Hs as (H & g & HI & _ & _ & _ & Hh)%frep_refs. destruct (Hh _ _ _ Hp) as [b Hb]. destruct (locked_loaded true F H lk dk g s p i c b HI Hl Hb) as [_ Hu]. intros q c' Hq. destruct (Hh _ _ _ Hq) as [b' Hb']. by eapply Hu. }
  eapply waits_bind; [by eapply tr_lookup| |exact Hs]. intros x w' (q & R' & -> & Hgot & _ & ->). cbv iota beta. inversion Hgot as [c' Hc' Hq|Hq Hno]; subst.
  - pose proof (Huniq q c' Hq) as ->. apply waits_now. eapply put_waits; [apply lookup_insert_eq|done].
  - by destruct (Hno p (i, c) Hp).
Qed.
Lemma tr_meta dk n F R lk p i c f (h : dinode -> dinode) M m k : R !! p = Some (i, c) -> p ∈ lk -> F !! i = Some f -> Forall (fun z => - 2 ^ 15 <= z < 2 ^ 15) [M; m; k] ->
  (forall d, d_major d = f_major f -> d_minor d = f_minor f -> d_nlink d = f_nlink f -> h d = mkDinode (d_type d) M m k (d_size d) (d_addrs d)) -> (n + 1 <= bk_room)%nat ->
  returns (mkFw true dk n F R lk) (updd p h ;;; iupdate p) tt (mkFw true dk (n + 1) (<[i := mkFile (f_type f) M m k (f_data f)]> F) R lk).
Proof.
  intros Hp Hl Hf Hs Hd Hroom s (H & g & HI & Hg & HR & HP & Hh)%frep_refs. destruct (Hh _ _ _ Hp) as [b Hb].
  destruct (set_meta me sb Hly Hfs Hlk F H lk dk g s p i c b f h M m k HI Hl Hb Hf Hs Hd) as (s' & g' & E & I' & Hg'); [lia|].
  exists tt, s'. eexists. split_and!; [done| |done|reflexivity]. exists H, g'. split_and!; [done|cbn [fw_logged]; lia|done|]. destruct (locked_loaded true F H lk dk g s p i c b HI Hl Hb) as [-> Hu].
  cbn [fw_files]. intros q j c' b' h' Hq [[<- <-]|[_ Hj]]%lookup_insert_Some Hz; [|by eapply HP]. pose proof (Hu q c' b' Hq) as ->. congruence.
Qed.
Lemma short_forall (a b c : Z) : - 2 ^ 15 <= a < 2 ^ 15 -> - 2 ^ 15 <= b < 2 ^ 15 -> - 2 ^ 15 <= c < 2 ^ 15 -> Forall (fun z => - 2 ^ 15 <= z < 2 ^ 15) [a; b; c].
Proof using. intros. by do 3 (apply Forall_cons_2; [done|]). Qed.
(** One link more or less. *)
Lemma tr_nlink dk n F R lk p i c f z : R !! p = Some (i, c) -> p ∈ lk -> F !! i = Some f -> - 2 ^ 15 <= f_nlink f + z < 2 ^ 15 -> (n + 1 <= bk_room)%nat ->
  returns (mkFw true dk n F R lk) (updd p (fun d => set_nlink (s16 (d_nlink d + z)) d) ;;; iupdate p) tt (mkFw true dk (n + 1) (<[i := with_nlink (f_nlink f + z) f]> F) R lk).
Proof.
  intros Hp Hl Hf Hz Hroom s Hs. pose proof Hs as (H & g & HI & _)%frep_refs. pose proof (file_shorts me sb _ _ _ _ _ _ _ HI Hf) as Hsh. rewrite !Forall_cons in Hsh. destruct Hsh as (_ & Ha & Hb & _).
  revert s Hs HI. intros s Hs _. eapply tr_meta; [done|done|done|by apply short_forall| |done|done]. intros d <- <- Hn. by rewrite Hn, s16_id.
Qed.
(** [ialloc] and the [ilock] after it. *)
Lemma alloc_lock dk n F R lk type s : frep (mkFw true dk n F R lk) s -> type <> 0 -> - 2 ^ 15 <= type < 2 ^ 15 -> (exists i, 0 < i < sb_ninodes sb /\ F !! i = None) -> (size R < NINODE)%nat -> (n + 1 <= bk_room)%nat ->
  exists p i s1 s2, ialloc 1 type s = Ok p s1 /\ ilock me p s1 = Ok tt s2 /\ 0 < i < sb_ninodes sb /\ F !! i = None /\ ref_got R i p (<[p := (i, 1)]> R) /\ p ∉ lk /\
    frep (mkFw true dk (n + 1) (<[i := mkFile type 0 0 0 []]> F) (<[p := (i, 1)]> R) ({[p]} ∪ lk)) s2.
Proof.
  intros Hs. assert (forall p i c, R !! p = Some (i, c) -> exists f, F !! i = Some f) as Hno by (intros p i c; by eapply frep_file). revert Hs. intros (H & g & HI & Hg & HR & HP & Hh)%frep_refs Ht0 Ht Hi Hsz Hroom. destruct (free_one R NINODE Hsz) as (p0 & Hp0 & N0). rewrite <- HR in N0. apply refs_None in N0.
  destruct (does_alloc me sb Hly Hfs Hlk devsw_read devsw_write _ dk g s type HI Ht0 Ht Hi) as (r & s1 & A' & g1 & E & I1 & Hst & Hg1); [by exists p0|simpl; lia|].
  cbn [iop_code] in E. apply (iop_Ok _ RHandle) in E as (p & E & ->). inversion Hst as [| | | | | | | | | |F0 H0 lk0 i p1 type0 Hi0 Hf0 Hh0 E1 E2 E3|]; subst.
  assert (p ∉ lk) as Hnl.
  { pose proof HI as (ic & v & D & HR' & G). intros Hl. pose proof I1 as (ic1 & v1 & D1 & HR1 & G1). destruct (good_handle me sb _ ic1 v1 D1 p i 1 false G1) as (x & [Hx _ _ _] & _ & Hb & _ & _ & _ & _ & C); [apply lookup_insert_eq|].
    destruct (co_locked _ _ _ _ _ _ C Hl) as (_ & _ & Hv). congruence. }
  destruct (does_lock me sb Hly Hfs Hlk devsw_read devsw_write true _ dk g1 s1 p I1) as (r & s2 & A' & g2 & E2 & I2 & Hst2 & Hg2); [cbn [a_handles]; rewrite lookup_insert_eq; by eexists|done|].
  cbn [iop_code] in E2. apply (iop_Ok _ (fun _ => RDone)) in E2 as ([] & E2 & ->). inversion Hst2 as [| | |F0 H0 lk0 i0 p0' c0 b0 Hh0' E1' E2' E3'| | | | | | | |]; subst. rewrite lookup_insert_eq in Hh0'. injection Hh0' as <- <- <-.
  exists p, i, s1, s2. split_and!; [done|done|lia|lia|done|constructor; [by apply refs_None|]|done|]; [intros q [j c] Hq Hji; simpl in Hji; subst j; destruct (Hno _ _ _ Hq); congruence|]. eexists _, g2. split_and!; [exact I2|simpl in *; lia| |].
  - rewrite !refs_insert, insert_insert_eq. done.
  - rewrite insert_insert_eq. apply pinned_insert; [|done]. cbn [fw_files]. intros q j c b f Hq [[<- <-]|[_ Hj]]%lookup_insert_Some Hz; [|by eapply HP].
    pose proof HI as (ic & v & D & HR' & G). destruct (good_handle me sb _ ic v D q i c b G Hq) as (_ & _ & _ & _ & _ & _ & Hf & _). simpl in Hf. congruence.
Qed.

(** *** Transactions *)

(** The disk holds the files [F] when the kernel starts on it. *)
Definition committed dk F : Prop := exists y, stored sb F y /\ forall z, bk_fs z -> y z = dk z.
(** A crash during the writes [ws] leaves the files [F] or the files [F']. *)
Definition either dk (ws : list (Z * block)) F F' : Prop := forall i, exists y, bk_recovers (disk_after dk (take i ws)) y /\ (stored sb F y \/ stored sb F' y).

Lemma frep_committed dk F R lk s : frep (mkFw false dk 0 F R lk) s -> committed dk F.
Proof using. clear Hlk.
  intros (H & g & (ic & v & D & HR & G) & Hg & _ & _)%frep_refs. assert (g = ∅) as -> by (apply leibniz_equiv, size_empty_iff; lia). exists v. split; [change F with (a_files (mkAfs F H lk)); by eapply good_stored|].
  intros n Hn. apply (bk_clean _ _ n (r_blocks _ _ _ _ HR) Hn); apply not_elem_of_empty || apply not_elem_of_nil.
Qed.
Lemma tr_begin dk F R lk : returns (mkFw false dk 0 F R lk) (on_blocks bk_begin) tt (mkFw true dk 0 F R lk).
Proof using. clear Hlk.
  intros s (H & g & HI & Hg & HR & HP & Hh)%frep_refs. assert (g = ∅) as -> by (apply leibniz_equiv, size_empty_iff; lia). destruct (begin_inside me sb _ _ s HI) as (s' & E & I').
  exists tt, s'. eexists. split_and!; [done| |done|reflexivity]. by exists H, ∅.
Qed.
Lemma tr_end dk n F R lk : triple (mkFw true dk n F R lk) (on_blocks bk_end) (fun _ w' => exists ws, w' = mkFw false (then_writes dk ws) 0 F R lk /\ forall F0, committed dk F0 -> either dk ws F0 F).
Proof using. clear Hlk.
  intros s (H & g & HI & Hg & HR & HP & Hh)%frep_refs. destruct (end_inside me sb _ _ _ s HI) as (s' & ws & v & E & I' & Hst & Hcr).
  exists tt, s'. eexists. split_and!; [done| |exists ws; split; [reflexivity|]]; [by exists H, ∅|]. intros F0 (y & Hy & Hd) i. destruct (Hcr i) as [Hold|Hnew]; [exists y|exists v]; auto.
Qed.

(** *** Paths *)

(** What a call needs of the files to walk: a tree with a root. *)
Record rooted F : Prop := { rt_tree : tree F; rt_root : exists r, F !! ROOTINO = Some r /\ f_nlink r <> 0 }.
Lemma tr_namex parent dk n F R cwd ci c path name : rooted F -> R !! cwd = Some (ci, c) -> (forall f, F !! ci = Some f -> f_nlink f <> 0) -> (size R + 2 <= NINODE)%nat -> length name = DIRSIZ ->
  triple (mkFw true dk n F R ∅) (namex me devsw_read cwd path parent name) (fun x w' => exists R', w' = mkFw true dk n F R' ∅ /\
    arrived R (walk parent F (if peek path =? 47 then ROOTINO else ci) (elems path)) x.1 R' /\ length x.2 = DIRSIZ /\
    (parent = true -> is_Some x.1 -> cname DIRSIZ x.2 = take DIRSIZ (List.last (elems path) [])) /\ (Forall byte path -> Forall byte name -> Forall byte x.2)).
Proof.
  intros [HT (r & Hr & Hr0)] Hc Hlive Hsz Hn s (H & g & HI & Hg & HR & HP & Hh)%frep_refs. destruct (Hh _ _ _ Hc) as [b Hb].
  assert (exists p1 p2, p1 <> p2 /\ (p1 < NINODE)%nat /\ (p2 < NINODE)%nat /\ H !! p1 = None /\ H !! p2 = None) as Hfree.
  { destruct (free_two R NINODE Hsz) as (p1 & p2 & Hne & H1 & H2 & N1 & N2). exists p1, p2. rewrite <- HR in N1, N2. by rewrite <- !refs_None. }
  destruct (namex_ok me sb Hly Hfs Hlk devsw_read devsw_write parent F H dk g s cwd ci c b r path name HI HT Hr Hr0 Hb Hlive HP Hfree Hn) as (x & name' & s' & g' & H' & E & I' & Hg' & HP' & Ha & Hl & Hnm & Hby).
  exists (x, name'), s', (mkFw true dk n F (refs H') ∅). split_and!; [done| |exists (refs H'); rewrite <- HR; by split_and!]. exists H', g'. split_and!; [done|simpl; lia|done|done].
Qed.
End FsTriple.
