(* ===== verification/FsTree.v ===== *)
(** * The tree of directories

    What creating, linking and unlinking do to the files, the space they take,
    and the consistency of directories and link counts. *)

From stdpp Require Import base gmap list strings.
From Stdlib Require Import ZArith Lia.
From S2P Require Import Prelude CString Sync Log BlockSpec Fs FsLayout FsInv FsFile FsRw FsCorrect FsNames FsDir FsPath FsTriple.
Local Open Scope Z_scope.
Implicit Types (F : gmap Z file) (f : file).

(** ** Walks *)

Definition live F (i : Z) : Prop := exists f, F !! i = Some f /\ f_nlink f <> 0.
Lemma walk_live b F es : tree F -> forall i d, live F i -> walk b F i es = Some d -> live F d.
Proof.
  intros HT. induction es as [|e es IH]; intros i d Hi; cbn [walk]; [destruct b; [done|by intros [= <-]]|]. destruct Hi as (f & Hf & Hn). rewrite Hf. cbn [mbind option_bind].
  destruct (Z.eqb_spec (f_type f) T_DIR) as [Hd|]; cbn [negb]; [|done]. destruct (b && bool_decide (es = [])); [intros [= <-]; by exists f|].
  destruct (dir_find (f_data f) (take DIRSIZ e)) as [[k j]|] eqn:E; cbn [mbind option_bind snd]; [|done]. apply IH. destruct (HT i f Hf Hd Hn) as [_ Hent]. by apply Hent in E.
Qed.
Lemma walk_parent F es : forall i d, walk true F i es = Some d -> exists f, F !! d = Some f /\ f_type f = T_DIR.
Proof.
  induction es as [|e es IH]; intros i d; cbn [walk]; [done|]. destruct (F !! i) as [f|] eqn:Hf; [|done]. cbn [mbind option_bind]. destruct (Z.eqb_spec (f_type f) T_DIR) as [Hd|]; cbn [negb]; [|done].
  destruct (true && bool_decide (es = [])); [intros [= <-]; by exists f|]. destruct (dir_find (f_data f) (take DIRSIZ e)) as [[k j]|]; cbn [mbind option_bind snd]; [apply IH|done].
Qed.
(** A walk depends on the types and the contents. *)
Lemma walk_ext b F F' es : (forall j, (fun f => (f_type f, f_data f)) <$> F' !! j = (fun f => (f_type f, f_data f)) <$> F !! j) -> forall i, walk b F' i es = walk b F i es.
Proof.
  intros HF. induction es as [|e es IH]; intros i; cbn [walk]; [done|]. specialize (HF i). destruct (F' !! i) as [f'|], (F !! i) as [f|]; [|done..]. simpl in *. injection HF as -> ->.
  destruct (negb _); [done|]. destruct (b && _); [done|]. destruct (dir_find _ _) as [[k j]|]; simpl; [apply IH|done].
Qed.

(** ** Space *)

Section Usage.
Context (sb : superblock).
Lemma usage_alter F i f' : 0 <= i < sb_ninodes sb -> (usage sb (<[i := f']> F) + from_option blocks_for 0 (F !! i) = usage sb F + blocks_for f')%nat.
Proof.
  intros Hi. unfold usage. assert (i ∈ inums sb) as Hin by (apply elem_of_seqZ; lia). assert (NoDup (inums sb)) as Hnd by apply NoDup_seqZ.
  induction (inums sb) as [|j l IH]; [by apply not_elem_of_nil in Hin|]. apply NoDup_cons in Hnd as [Hj Hnd]. apply elem_of_cons in Hin as [<-|Hin].
  - assert (map (fun k => from_option blocks_for 0%nat (<[i := f']> F !! k)) l = map (fun k => from_option blocks_for 0%nat (F !! k)) l) as E.
    { apply map_ext_in. intros k Hk%list_elem_of_In. rewrite lookup_insert_ne; [done|]. by intros ->. }
    simpl. rewrite E, lookup_insert_eq. simpl. lia.
  - assert (i <> j) as Hne by (by intros ->). simpl. rewrite (lookup_insert_ne F i j) by done. specialize (IH Hin Hnd). lia.
Qed.
Lemma usage_insert F i f f' : 0 <= i < sb_ninodes sb -> F !! i = Some f -> (usage sb (<[i := f']> F) + blocks_for f = usage sb F + blocks_for f')%nat.
Proof. intros Hi Hf. pose proof (usage_alter F i f' Hi) as H. by rewrite Hf in H. Qed.
Lemma usage_fresh F i f' : 0 <= i < sb_ninodes sb -> F !! i = None -> usage sb (<[i := f']> F) = (usage sb F + blocks_for f')%nat.
Proof. intros Hi Hf. pose proof (usage_alter F i f' Hi) as H. rewrite Hf in H. simpl in H. lia. Qed.
End Usage.
Lemma blocks_for_mono f f' : (length (f_data f) <= length (f_data f'))%nat -> (blocks_for f <= blocks_for f')%nat.
Proof.
  intros Hl. unfold blocks_for. assert (nblocks (Z.of_nat (length (f_data f))) <= nblocks (Z.of_nat (length (f_data f'))))%nat as Hb.
  { unfold nblocks. apply Z2Nat.inj_le; [apply Z.div_pos; lia..|]. apply Z.div_le_mono; lia. }
  unfold nptrs. destruct (Nat.ltb_spec NDIRECT (nblocks (Z.of_nat (length (f_data f))))), (Nat.ltb_spec NDIRECT (nblocks (Z.of_nat (length (f_data f'))))); lia.
Qed.
Lemma dir_free_le data : (dir_free data <= nent data)%nat.
Proof. unfold dir_free. destruct (find_from _ _ _) as [k|] eqn:E; simpl; [|lia]. apply find_from_Some in E. lia. Qed.
Lemma length_dirent i nm : (length nm <= DIRSIZ)%nat -> length (dirent i nm) = 16%nat.
Proof. intros Hn. unfold dirent, mk_dirent. rewrite length_app, length_app, length_replicate. unfold DIRSIZ in *. simpl. lia. Qed.
(** An entry takes a block and perhaps the block of pointers. *)
Lemma add_entry_blocks i nm f : dir_ok (f_data f) -> (length nm <= DIRSIZ)%nat -> (blocks_for (add_entry i nm f) <= blocks_for f + 2)%nat.
Proof.
  intros Hok Hn. pose proof (dir_free_le (f_data f)) as Hk. pose proof (length_dirent i nm Hn) as He. pose proof (insert_length _ _ _ Hok He Hk) as Hl. unfold blocks_for, add_entry. cbn [with_data f_data]. rewrite Hl.
  unfold dir_ok in Hok. rewrite Hok. unfold nptrs, nblocks, NDIRECT. destruct (Nat.ltb_spec 12 (Z.to_nat ((Z.of_nat (16 * Nat.max (nent (f_data f)) (dir_free (f_data f) + 1)) + 511) / 512))), (Nat.ltb_spec 12 (Z.to_nat ((Z.of_nat (16 * nent (f_data f)) + 511) / 512)));
    Z.to_euclidean_division_equations; lia.
Qed.

(** ** Creating *)

(** The contents of a new directory [i] in [d], and the files with a new inode
    [i] under the name [nm] in the directory [d]. *)
Definition dotted (i d : Z) (f : file) : file := add_entry d [46; 46] (add_entry i [46] f).
Definition made F (d : Z) (fd : file) (nm : list Z) (type M m i : Z) : gmap Z file :=
  if type =? T_DIR then <[d := add_entry i nm (with_nlink (f_nlink fd + 1) fd)]> (<[i := dotted i d (mkFile type M m 1 [])]> F)
  else <[d := add_entry i nm fd]> (<[i := mkFile type M m 1 []]> F).

(** What a creating call finds and does in the directory that its path leads
    to: a file that is there, a name that is taken, or a new inode. *)
Inductive created (ninodes : Z) F (R : gmap nat (Z * Z)) (o : option Z) (nm : list Z) (type M m : Z) : option nat -> gmap Z file -> gmap nat (Z * Z) -> gset nat -> Prop :=
| Cr_nowhere : o = None -> created ninodes F R o nm type M m None F R ∅
| Cr_found d fd k j h q R' : o = Some d -> F !! d = Some fd -> dir_find (f_data fd) nm = Some (k, j) -> F !! j = Some h -> type = T_FILE -> f_type h = T_FILE -> ref_got R j q R' ->
    created ninodes F R o nm type M m (Some q) F R' {[q]}
| Cr_taken d fd k j h : o = Some d -> F !! d = Some fd -> dir_find (f_data fd) nm = Some (k, j) -> F !! j = Some h -> ~ (type = T_FILE /\ f_type h = T_FILE) ->
    created ninodes F R o nm type M m None F R ∅
| Cr_made d fd i q R' : o = Some d -> F !! d = Some fd -> f_type fd = T_DIR -> dir_find (f_data fd) nm = None -> 0 < i < ninodes -> F !! i = None -> ref_got R i q R' ->
    created ninodes F R o nm type M m (Some q) (made F d fd nm type M m i) R' {[q]}.

(** What must be left for a call that may create something. *)
Record resources (sb : superblock) F (R : gmap nat (Z * Z)) : Prop := {
  rs_blocks : (usage sb F + 6 <= length (data_blocks sb))%nat;
  rs_cache : (size R + 3 <= NINODE)%nat;
  rs_inode : exists i, 0 < i < sb_ninodes sb /\ F !! i = None;
  rs_dirs : forall d f, F !! d = Some f -> f_type f = T_DIR -> 0 <= d < sb_ninodes sb /\ 0 <= f_nlink f < 2 ^ 15 - 1 /\ (nent (f_data f) < 4480)%nat
}.

(** ** Linking and unlinking *)

Definition dir_empty (data : list Z) : bool := forallb (fun k => de_inum (ent data k) =? 0) (seq 2 (nent data - 2)).
Definition clear_entry (k : nat) (f : file) : file := with_data (write_at (16 * k) (replicate 16 0) (f_data f)) f.
(** Some handle refers to inode [j]. *)
Definition held (R : gmap nat (Z * Z)) (j : Z) : Prop := exists q c, R !! q = Some (j, c).
(** The files when entry [k] of [d], for [j], is removed. *)
Definition less F (d : Z) (fd : file) (k : nat) (j : Z) (h : file) : gmap Z file :=
  <[j := with_nlink (f_nlink h - 1) h]> (<[d := clear_entry k (if f_type h =? T_DIR then with_nlink (f_nlink fd - 1) fd else fd)]> F).
Inductive unlinks F (R : gmap nat (Z * Z)) (o : option Z) (nm : list Z) : Z -> gmap Z file -> Prop :=
| Un_nowhere : o = None -> unlinks F R o nm (-1) F
| Un_dot d : o = Some d -> nm = [46] \/ nm = [46; 46] -> unlinks F R o nm (-1) F
| Un_missing d fd : o = Some d -> F !! d = Some fd -> dir_find (f_data fd) nm = None -> unlinks F R o nm (-1) F
| Un_busy d fd k j h : o = Some d -> F !! d = Some fd -> dir_find (f_data fd) nm = Some (k, j) -> F !! j = Some h -> f_type h = T_DIR -> dir_empty (f_data h) = false -> unlinks F R o nm (-1) F
| Un_kept d fd k j h : o = Some d -> nm <> [46] -> nm <> [46; 46] -> F !! d = Some fd -> dir_find (f_data fd) nm = Some (k, j) -> F !! j = Some h -> (f_type h = T_DIR -> dir_empty (f_data h) = true) ->
    (f_nlink h = 1 -> held R j) -> unlinks F R o nm 0 (less F d fd k j h)
| Un_freed d fd k j h : o = Some d -> nm <> [46] -> nm <> [46; 46] -> F !! d = Some fd -> dir_find (f_data fd) nm = Some (k, j) -> F !! j = Some h -> (f_type h = T_DIR -> dir_empty (f_data h) = true) ->
    f_nlink h = 1 -> ~ held R j -> unlinks F R o nm 0 (delete j (less F d fd k j h)).
(** The files when [d] gets an entry for [i]. *)
Definition more F (d : Z) (fd : file) (nm : list Z) (i : Z) (f : file) : gmap Z file := <[d := add_entry i nm fd]> (<[i := with_nlink (f_nlink f + 1) f]> F).
Inductive links_to F (i d : option Z) (nm : list Z) : Z -> gmap Z file -> Prop :=
| Li_nowhere : i = None -> links_to F i d nm (-1) F
| Li_dir i' f : i = Some i' -> F !! i' = Some f -> f_type f = T_DIR -> links_to F i d nm (-1) F
| Li_parent i' : i = Some i' -> d = None -> links_to F i d nm (-1) F
| Li_taken i' d' fd e : i = Some i' -> d = Some d' -> F !! d' = Some fd -> dir_find (f_data fd) nm = Some e -> links_to F i d nm (-1) F
| Li_done i' f d' fd : i = Some i' -> F !! i' = Some f -> f_type f <> T_DIR -> d = Some d' -> F !! d' = Some fd -> f_type fd = T_DIR -> dir_find (f_data fd) nm = None -> links_to F i d nm 0 (more F d' fd nm i' f).

(** Links are counted from zero, only the dots of a directory lead back to it,
    and it counts the directories in it. *)
Record sane F : Prop := {
  sn_nlink : forall i f, F !! i = Some f -> 0 <= f_nlink f < 2 ^ 15;
  sn_self : forall d fd nm k, F !! d = Some fd -> f_type fd = T_DIR -> f_nlink fd <> 0 -> dir_find (f_data fd) nm = Some (k, d) -> nm = [46] \/ nm = [46; 46];
  sn_parent : forall d fd nm k j h, F !! d = Some fd -> f_type fd = T_DIR -> f_nlink fd <> 0 -> dir_find (f_data fd) nm = Some (k, j) -> nm <> [46] -> nm <> [46; 46] ->
    F !! j = Some h -> f_type h = T_DIR -> 1 < f_nlink fd
}.
