(* ===== verification/FileCorrect.v ===== *)
(** * Reading and writing open files

    [fileread] and [filewrite] on an inode read and write the bytes at the
    offset of the open file; [filewrite] does it in several transactions. *)

From stdpp Require Import base gmap list strings.
From Stdlib Require Import ZArith Lia.
From S2P Require Import Prelude CString Sync Sleeplock CacheSpec Log BlockSpec Fs File FsLayout FsInv FsBlocks FsFile FsRw FsInode FsCorrect FsNames FsDir FsPath FsTriple FsTree.
Local Open Scope Z_scope.

(** ** Writing in pieces *)

Lemma write_at_app a l1 l2 c : (a <= length c)%nat -> write_at (a + length l1) l2 (write_at a l1 c) = write_at a (l1 ++ l2) c.
Proof.
  intros Ha. unfold write_at. assert (length (take a c) = a) as Hl by (rewrite length_take; lia). rewrite (app_assoc (take a c)).
  rewrite take_app_length' by (rewrite length_app; lia). rewrite drop_app_ge by (rewrite length_app; lia). rewrite length_app, Hl, drop_drop, !length_app, <- !app_assoc. do 3 f_equal. f_equal. lia.
Qed.
Lemma write_at_nil a c : write_at a [] c = c.
Proof. unfold write_at. rewrite Nat.add_0_r. apply take_drop. Qed.
Lemma with_data_id f : with_data (f_data f) f = f.
Proof. by destruct f. Qed.

(** What was written is read back. *)
Lemma read_written off l c : fits off l c -> read_result (write_at (Z.to_nat off) l c) off (Z.of_nat (length l)) = (Z.of_nat (length l), l).
Proof.
  intros [Ho Hm]. unfold read_result. rewrite length_write_at by lia. unfold MAXFILE, NDIRECT, NINDIRECT in Hm. replace (_ || _) with false by (symmetry; apply orb_false_iff; split; [apply Z.ltb_ge|apply Z.leb_gt]; lia). cbv zeta.
  rewrite Nat2Z.id. unfold write_at. rewrite drop_app_ge by (rewrite length_take; lia).
  assert (Z.to_nat off - length (take (Z.to_nat off) c) = 0)%nat as -> by (rewrite length_take; lia). change (drop 0 ?x) with x. by rewrite take_app_length.
Qed.

Section FileCorrect.
Context {L S K P : Type} `{HL : Locks L} `{HB : Blocks S} `{HK : Lock K} `{HP : Pipes P} (me : Z) (sb : superblock) (Hly : layout sb) (Hfs : forall n, fs_block sb n -> bk_fs n)
  (Hlk : (NINODE < lk_count)%nat).
Notation fs := (fs (L := L) (S := S)).
Notation files := (files (L := L) (S := S) (K := K) (P := P)).
Context (devsw_read : Z -> option (nat -> Z -> M fs (Z * list Z))) (devsw_write : Z -> option (nat -> list Z -> M fs Z)).
Implicit Types (dk : history) (g : gset Z) (A : afs) (s : files).
Notation inside := (inside me sb).
Notation fileread := (fileread me devsw_read).
Notation filewrite_loop := (filewrite_loop me devsw_write).
Notation filewrite := (filewrite me devsw_write).

(** The table and the file system, in a transaction ([t]) or not. *)
Record frepr (t : bool) A dk g (tbl : list File.file) s : Prop := {
  fr_lock : lk_free (ft_lock s);
  fr_table : ftable s = tbl;
  fr_files : length tbl = NFILE;
  fr_inside : inside t A dk g (ft_fs s)
}.
Lemma in_fs_Ok {X} (m : M fs X) t A dk g tbl s x u t' A' dk' g' : frepr t A dk g tbl s -> m (ft_fs s) = Ok x u -> inside t' A' dk' g' u ->
  exists s', in_fs m s = Ok x s' /\ frepr t' A' dk' g' tbl s'.
Proof. intros [H1 H2 H3 H4] Hm HI. eexists. split; [unfold in_fs; by erewrite zoom_Ok by exact Hm|]. by split. Qed.
Lemma getf_Ok t A dk g tbl s f x : frepr t A dk g tbl s -> tbl !! f = Some x -> getf f s = Ok x s.
Proof. intros [_ H2 _ _] Hx. unfold getf. rewrite bind_gets, H2, Hx. done. Qed.
Lemma updf_Ok t A dk g tbl s f x h : frepr t A dk g tbl s -> tbl !! f = Some x -> exists s', updf f h s = Ok tt s' /\ frepr t A dk g (<[f := h x]> tbl) s'.
Proof.
  intros HR Hx. unfold updf. erewrite bind_Ok by (by eapply getf_Ok). eexists. split; [reflexivity|]. destruct HR as [H1 H2 H3 H4]. split; simpl; [done|by rewrite H2|by rewrite length_insert|done].
Qed.

(** The file behind an open file. *)
Record at_inode (F : gmap Z file) (H : gmap nat handle) (x : File.file) (p : nat) (i c : Z) (fl : file) : Prop := {
  ai_type : fd_type x = FD_INODE;
  ai_ip : fd_ip x = p;
  ai_off : uint32 (fd_off x);
  ai_handle : exists b, H !! p = Some (mkHandle i c b);
  ai_file : F !! i = Some fl;
  ai_dev : f_type fl <> T_DEV
}.
Definition loaded (H : gmap nat handle) (p : nat) (i c : Z) : gmap nat handle := <[p := mkHandle i c true]> H.

Lemma fileread_ok F H dk tbl s f x p i c fl n : frepr false (mkAfs F H ∅) dk ∅ tbl s -> tbl !! f = Some x -> at_inode F H x p i c fl -> fd_readable x = true -> uint32 n ->
  let r := read_result (f_data fl) (fd_off x) n in
  exists s', fileread f n s = Ok r s' /\ frepr false (mkAfs F (loaded H p i c) ∅) dk ∅ (if 0 <? r.1 then <[f := set_off (fd_off x + r.1) x]> tbl else tbl) s'.
Proof.
  intros HR Hx [H1 H2 H3 [b H4] H5 H6] Hrd Hn r. pose proof (getf_Ok _ _ _ _ _ _ _ _ HR Hx) as E0.
  destruct (lock_ok me sb Hly Hfs Hlk devsw_read devsw_write false F H dk ∅ (ft_fs s) p i c b (fr_inside _ _ _ _ _ _ HR) H4) as (u1 & g1 & E1 & I1 & Hg1).
  destruct (in_fs_Ok _ _ _ _ _ _ _ _ _ _ _ _ _ HR E1 I1) as (s1 & F1 & R1).
  assert (opened (mkAfs F (loaded H p i c) {[p]}) p i fl) as HO by (split; [cbn [a_locked]; by apply elem_of_singleton|exists c, true; apply lookup_insert_eq|done]).
  destruct (read_ok me sb Hly Hfs Hlk devsw_read devsw_write false _ dk g1 (ft_fs s1) p i fl (fd_off x) n (fr_inside _ _ _ _ _ _ R1) HO H6 H3 Hn) as (u2 & g2 & E2 & I2 & Hg2).
  destruct (in_fs_Ok _ _ _ _ _ _ _ _ _ _ _ _ _ R1 E2 I2) as (s2 & F2 & R2). fold r in F2.
  set (tbl' := if 0 <? r.1 then <[f := set_off (fd_off x + r.1) x]> tbl else tbl).
  assert (exists s3, (if 0 <? r.1 then updf f (fun x => set_off (u32 (fd_off x + r.1)) x) else ret tt) s2 = Ok tt s3 /\ frepr false (mkAfs F (loaded H p i c) {[p]}) dk g2 tbl' s3) as (s3 & F3 & R3).
  { unfold tbl'. destruct (Z.ltb_spec 0 r.1) as [Hp|_]; [|by exists s2]. destruct (updf_Ok _ _ _ _ _ _ f x (fun x => set_off (u32 (fd_off x + r.1)) x) R2 Hx) as (s3 & F3 & R3). exists s3. split; [done|].
    rewrite u32_small in R3; [done|]. unfold r, read_result, uint32 in *. destruct (_ || _) eqn:E; simpl in *; [lia|]. apply orb_false_iff in E as [E1' E2'%Z.leb_gt]. rewrite length_take, length_drop. lia. }
  destruct (unlock_ok me sb Hly Hfs Hlk devsw_read devsw_write false F _ dk g2 (ft_fs s3) p (fr_inside _ _ _ _ _ _ R3)) as (u4 & g4 & E4 & I4 & Hg4); [eexists; apply lookup_insert_eq|].
  assert (g4 = ∅) as ->. { apply leibniz_equiv, size_empty_iff. rewrite size_empty in Hg1. lia. }
  destruct (in_fs_Ok _ _ _ _ _ _ _ _ _ _ _ _ _ R3 E4 I4) as (s4 & F4 & R4). exists s4. split; [|done].
  unfold File.fileread. erewrite bind_Ok by exact E0. rewrite Hrd, H1, H2. cbn [negb]. erewrite bind_Ok by exact F1. erewrite bind_Ok by exact F2. erewrite bind_Ok by exact F3. by erewrite bind_Ok by exact F4.
Qed.

(** ** One transaction of [filewrite] *)

Definition grown_by F (i : Z) (fl : file) (off : Z) (l : list Z) : gmap Z file :=
  if decide (fits off l (f_data fl)) then <[i := with_data (write_at (Z.to_nat off) l (f_data fl)) fl]> F else F.
Definition count_of (fl : file) (off : Z) (l : list Z) : Z := if decide (fits off l (f_data fl)) then Z.of_nat (length l) else -1.
Definition moved (fl : file) (off : Z) (l : list Z) (x : File.file) : File.file := if decide (fits off l (f_data fl)) then set_off (off + Z.of_nat (length l)) x else x.

Lemma spans_piece off n : 0 <= off -> n <= MAXWRITE -> (spans off n <= 4)%nat.
Proof. intros Ho Hn. unfold spans. change MAXWRITE with 1536 in Hn. destruct (n <=? 0); [lia|]. Z.to_euclidean_division_equations. lia. Qed.

Lemma write_any F H lk dk g u p i fl off l : inside true (mkAfs F H lk) dk g u -> opened (mkAfs F H lk) p i fl -> f_type fl <> T_DEV -> uint32 off -> uint32 (Z.of_nat (length l)) ->
  (fits off l (f_data fl) -> usage sb F + (blocks_for (with_data (write_at (Z.to_nat off) l (f_data fl)) fl) - blocks_for fl) <= length (data_blocks sb))%nat -> (size g + cost sb (IWrite p off l) <= bk_room)%nat ->
  exists u' g', writei devsw_write p l off (Z.of_nat (length l)) u = Ok (count_of fl off l) u' /\ inside true (mkAfs (grown_by F i fl off l) H lk) dk g' u'.
Proof.
  intros HI HO Ht Ho Hl Hu Hr. unfold count_of, grown_by. destruct (decide (fits off l (f_data fl))) as [Hf|Hf].
  - destruct (write_ok me sb Hly Hfs Hlk devsw_read devsw_write F H lk dk g u p i fl off l HI HO Ht Ho Hl Hf (Hu Hf) Hr) as (u' & g' & E & I' & _). by exists u', g'.
  - destruct (write_err me sb Hly Hfs Hlk devsw_read devsw_write F H lk dk g u p i fl off l HI HO Ht Ho Hl Hf Hr) as (u' & g' & E & I' & _). by exists u', g'.
Qed.

Lemma piece_ok F H dk tbl s f x p i c fl l : frepr false (mkAfs F H ∅) dk ∅ tbl s -> tbl !! f = Some x -> at_inode F H x p i c fl ->
  0 < Z.of_nat (length l) <= MAXWRITE -> (nbitmap sb + 7 <= bk_room)%nat ->
  (fits (fd_off x) l (f_data fl) -> usage sb F + (blocks_for (with_data (write_at (Z.to_nat (fd_off x)) l (f_data fl)) fl) - blocks_for fl) <= length (data_blocks sb))%nat ->
  exists s' ws, (forall X (k : Z -> M files X),
      (fs_begin ;;; let! x := getf f in in_fs (ilock me (fd_ip x)) ;;; let! r := in_fs (writei devsw_write (fd_ip x) l (fd_off x) (Z.of_nat (length l))) in
       (if 0 <? r then updf f (fun x => set_off (u32 (fd_off x + r)) x) else ret tt) ;;; in_fs (iunlock me (fd_ip x)) ;;; fs_end ;;; k r) s = k (count_of fl (fd_off x) l) s') /\
    frepr false (mkAfs (grown_by F i fl (fd_off x) l) (loaded H p i c) ∅) (then_writes dk ws) ∅ (<[f := moved fl (fd_off x) l x]> tbl) s' /\
    forall k, exists y, bk_recovers (disk_after dk (take k ws)) y /\ (stored sb F y \/ stored sb (grown_by F i fl (fd_off x) l) y).
Proof.
  intros HR Hx AI Hl Hroom Hu. pose proof AI as [H1 H2 H3 [b H4] H5 H6]. change MAXWRITE with 1536 in Hl. destruct (begin_inside me sb _ _ (ft_fs s) (fr_inside _ _ _ _ _ _ HR)) as (u0 & E0 & I0).
  destruct (in_fs_Ok _ _ _ _ _ _ _ _ _ _ _ _ _ HR E0 I0) as (s0 & F0 & R0). pose proof (getf_Ok _ _ _ _ _ _ _ _ R0 Hx) as G0.
  destruct (lock_ok me sb Hly Hfs Hlk devsw_read devsw_write true F H dk ∅ (ft_fs s0) p i c b (fr_inside _ _ _ _ _ _ R0) H4) as (u1 & g1 & E1 & I1 & Hg1). rewrite size_empty in Hg1.
  destruct (in_fs_Ok _ _ _ _ _ _ _ _ _ _ _ _ _ R0 E1 I1) as (s1 & F1 & R1).
  assert (opened (mkAfs F (loaded H p i c) {[p]}) p i fl) as HO by (split; [cbn [a_locked]; by apply elem_of_singleton|exists c, true; apply lookup_insert_eq|done]).
  pose proof (spans_piece (fd_off x) (Z.of_nat (length l)) ltac:(apply H3) ltac:(change MAXWRITE with 1536; lia)) as Hsp.
  destruct (write_any F _ _ dk g1 (ft_fs s1) p i fl (fd_off x) l (fr_inside _ _ _ _ _ _ R1) HO H6 H3) as (u2 & g2 & E2 & I2); [unfold uint32; lia|done|cbn [cost]; lia|].
  destruct (in_fs_Ok _ _ _ _ _ _ _ _ _ _ _ _ _ R1 E2 I2) as (s2 & F2 & R2). set (r := count_of fl (fd_off x) l) in *.
  assert (exists s3, (if 0 <? r then updf f (fun x => set_off (u32 (fd_off x + r)) x) else ret tt) s2 = Ok tt s3 /\ frepr true (mkAfs (grown_by F i fl (fd_off x) l) (loaded H p i c) {[p]}) dk g2 (<[f := moved fl (fd_off x) l x]> tbl) s3) as (s3 & F3 & R3).
  { unfold r, count_of, moved. destruct (decide (fits (fd_off x) l (f_data fl))) as [[Hf1 Hf2]|]; [|exists s2; rewrite list_insert_id by done; done].
    replace (0 <? Z.of_nat (length l)) with true by lia. destruct (updf_Ok _ _ _ _ _ _ f x (fun x => set_off (u32 (fd_off x + Z.of_nat (length l))) x) R2 Hx) as (s3 & F3 & R3). exists s3. split; [done|].
    rewrite u32_small in R3; [done|]. unfold MAXFILE, NDIRECT, NINDIRECT in Hf2. unfold uint32 in H3. lia. }
  destruct (unlock_ok me sb Hly Hfs Hlk devsw_read devsw_write true _ _ dk g2 (ft_fs s3) p (fr_inside _ _ _ _ _ _ R3)) as (u4 & g4 & E4 & I4 & _); [eexists; apply lookup_insert_eq|].
  destruct (in_fs_Ok _ _ _ _ _ _ _ _ _ _ _ _ _ R3 E4 I4) as (s4 & F4 & R4). destruct (end_inside me sb _ _ _ (ft_fs s4) (fr_inside _ _ _ _ _ _ R4)) as (u5 & ws & v & E5 & I5 & Hst & Hcr).
  destruct (in_fs_Ok _ _ _ _ _ _ _ _ _ _ _ _ _ R4 E5 I5) as (s5 & F5 & R5). exists s5, ws. split_and!; [|done|].
  - intros X k. erewrite bind_Ok by exact F0. erewrite bind_Ok by exact G0. rewrite H2. erewrite bind_Ok by exact F1. erewrite bind_Ok by exact F2. erewrite bind_Ok by exact F3. erewrite bind_Ok by exact F4. by erewrite bind_Ok by exact F5.
  - intros k. destruct (Hcr k) as [Hold|Hnew]; [|by exists v; auto]. pose proof (fr_inside _ _ _ _ _ _ HR) as (ic & v0 & D & HR0 & G). exists v0. split; [|left; change F with (a_files (mkAfs F H ∅)); by eapply good_stored].
    apply Hold. intros n Hn. apply (bk_clean _ _ n (r_blocks _ _ _ _ HR0) Hn); apply not_elem_of_empty || apply not_elem_of_nil.
Qed.

(** ** The whole write *)

Section Write.
Context (F : gmap Z file) (tbl : list File.file) (f : nat) (x : File.file) (p : nat) (i c : Z) (fl : file) (src : list Z).
Context (Hx : tbl !! f = Some x) (Hty : fd_type x = FD_INODE) (Hip : fd_ip x = p) (Hoff : uint32 (fd_off x)) (Hfl : F !! i = Some fl) (Hdev : f_type fl <> T_DEV) (Hi : 0 <= i < sb_ninodes sb)
  (Hroom : (nbitmap sb + 7 <= bk_room)%nat) (Hle : fd_off x <= Z.of_nat (length (f_data fl))).
Notation off := (fd_off x).
Notation n := (length src).
(** The file when [m] bytes are written. *)
Definition upto (m : nat) : file := with_data (write_at (Z.to_nat off) (take m src) (f_data fl)) fl.
Definition files_upto (m : nat) : gmap Z file := <[i := upto m]> F.
Context (Hspace : (usage sb F + (blocks_for (upto n) - blocks_for fl) <= length (data_blocks sb))%nat).

Lemma upto_0 : upto 0 = fl.
Proof using. unfold upto. rewrite take_0, write_at_nil. apply with_data_id. Qed.
Lemma files_upto_0 : files_upto 0 = F.
Proof using Hfl. unfold files_upto. rewrite upto_0. by apply insert_id. Qed.
Lemma upto_length m : (m <= n)%nat -> length (f_data (upto m)) = Nat.max (length (f_data fl)) (Z.to_nat off + m).
Proof. intros Hm. unfold upto. cbn [with_data f_data]. unfold uint32 in Hoff. rewrite length_write_at by lia. rewrite length_take. lia. Qed.
Lemma upto_more j k : (j + k <= n)%nat -> with_data (write_at (Z.to_nat (off + Z.of_nat j)) (take k (drop j src)) (f_data (upto j))) (upto j) = upto (j + k).
Proof.
  intros Hjk. unfold upto. cbn [with_data f_data f_type f_major f_minor f_nlink]. unfold with_data. cbn [f_type f_major f_minor f_nlink]. f_equal. unfold uint32 in Hoff.
  replace (Z.to_nat (off + Z.of_nat j)) with (Z.to_nat off + length (take j src))%nat by (rewrite length_take; lia). rewrite write_at_app by lia. f_equal.
  rewrite <- (take_drop j (take (j + k) src)). rewrite take_take, Nat.min_l by lia. f_equal. rewrite skipn_firstn_comm. f_equal. lia.
Qed.
Lemma files_more j k : <[i := upto k]> (files_upto j) = files_upto k.
Proof. unfold files_upto. by rewrite insert_insert_eq. Qed.
Lemma space_more j k : (j + k <= n)%nat -> (usage sb (files_upto j) + (blocks_for (upto (j + k)) - blocks_for (upto j)) <= length (data_blocks sb))%nat.
Proof.
  intros Hjk. pose proof (usage_insert sb F i fl (upto j) Hi Hfl) as Hu. fold (files_upto j) in Hu.
  assert (blocks_for (upto (j + k)) <= blocks_for (upto n))%nat by (apply blocks_for_mono; pose proof (upto_length (j + k) Hjk); pose proof (upto_length n (Nat.le_refl _)); unfold upto in *; cbn [with_data f_data] in *; lia).
  assert (blocks_for (upto j) <= blocks_for (upto (j + k)))%nat by (apply blocks_for_mono; pose proof (upto_length (j + k) Hjk); pose proof (upto_length j ltac:(lia)); unfold upto in *; cbn [with_data f_data] in *; lia).
  assert (blocks_for fl <= blocks_for (upto j))%nat; [|lia]. rewrite <- upto_0 at 1. apply blocks_for_mono. pose proof (upto_length 0 ltac:(lia)). pose proof (upto_length j ltac:(lia)). unfold upto in *. cbn [with_data f_data] in *. lia.
Qed.
Lemma fits_more j k : (j + k <= n)%nat -> fits (off + Z.of_nat j) (take k (drop j src)) (f_data (upto j)) <-> off + Z.of_nat (j + k) <= MAXFILE * 512.
Proof. intros Hjk. unfold fits. rewrite upto_length, length_take, length_drop by lia. unfold uint32 in Hoff. split; [intros [_ H]|intros H; split]; lia. Qed.

Definition prefix_stored (lo hi : nat) (d : history) (ws : list (Z * block)) : Prop :=
  forall k, exists y m, (lo <= m <= hi)%nat /\ bk_recovers (disk_after d (take k ws)) y /\ stored sb (files_upto m) y.

Lemma prefix_app lo mid hi d ws1 ws2 : (lo <= mid <= hi)%nat -> prefix_stored lo mid d ws1 -> (ws2 = [] \/ prefix_stored mid hi (then_writes d ws1) ws2) -> prefix_stored lo hi d (ws1 ++ ws2).
Proof.
  intros Hm H1 H2 k. destruct (decide (k <= length ws1)%nat) as [Hk|Hk].
  - destruct (H1 k) as (y & m & Hy & Hr & Hs). exists y, m. rewrite take_app_le by done. split_and!; [lia|lia|done|done].
  - destruct H2 as [->|H2].
    + destruct (H1 (length ws1)) as (y & m & Hy & Hr & Hs). exists y, m. rewrite app_nil_r, take_ge by lia. rewrite take_ge in Hr by lia. split_and!; [lia|lia|done|done].
    + destruct (H2 (k - length ws1)%nat) as (y & m & Hy & Hr & Hs). exists y, m. split_and!; [lia|lia| |done]. rewrite take_app_ge by lia.
      eapply bk_recovers_ext; [|exact Hr]. intros b. rewrite disk_after_app. apply disk_after_ext. unfold disk_of, then_writes. cbn [hs_image hs_writes]. by rewrite disk_after_app.
Qed.

Lemma write_loop_ok : forall fuel j d H s, (j <= n)%nat -> (n - j < fuel)%nat -> frepr false (mkAfs (files_upto j) H ∅) d ∅ (<[f := set_off (off + Z.of_nat j) x]> tbl) s -> (exists b, H !! p = Some (mkHandle i c b)) ->
  exists m s' ws H', filewrite_loop fuel f src (Z.of_nat j) (Z.of_nat n) s = Ok (Z.of_nat m) s' /\ (j <= m <= n)%nat /\ (m = n <-> j = n \/ off + Z.of_nat n <= MAXFILE * 512) /\
    frepr false (mkAfs (files_upto m) H' ∅) (then_writes d ws) ∅ (<[f := set_off (off + Z.of_nat m) x]> tbl) s' /\ refs H' = refs H /\ (ws = [] \/ prefix_stored j m d ws) /\ ((j < n)%nat -> prefix_stored j m d ws).
Proof.
  intros fuel. induction fuel as [|fuel IH]; intros j d H s Hj Hf HR Hh; [lia|]. cbn [File.filewrite_loop]. destruct (Z.ltb_spec (Z.of_nat j) (Z.of_nat n)) as [Hlt|Hge].
  2:{ assert (j = n) as -> by lia. exists n, s, [], H. split_and!; [done|lia|lia|tauto| |done|by left|lia]. unfold then_writes. rewrite app_nil_r. by destruct d. }
  assert (exists k, (if MAXWRITE <? Z.of_nat n - Z.of_nat j then MAXWRITE else Z.of_nat n - Z.of_nat j) = Z.of_nat k /\ (0 < k <= 1536)%nat /\ (j + k <= n)%nat) as (k & -> & Hk & Hjk).
  { change MAXWRITE with 1536. destruct (Z.ltb_spec 1536 (Z.of_nat n - Z.of_nat j)); [exists 1536%nat|exists (n - j)%nat]; split_and!; lia. }
  cbv zeta. rewrite !Nat2Z.id. set (l := take k (drop j src)). assert (length l = k) as Hlen by (unfold l; rewrite length_take, length_drop; lia).
  set (xj := set_off (off + Z.of_nat j) x). assert (<[f := xj]> tbl !! f = Some xj) as Hxj by (apply list_lookup_insert_eq; by eapply lookup_lt_Some). destruct Hh as [b Hh].
  destruct (file_bound me sb _ _ _ _ _ i (upto j) (fr_inside _ _ _ _ _ _ HR)) as [_ Hbd]; [apply lookup_insert_eq|]. rewrite upto_length in Hbd by done.
  assert (at_inode (files_upto j) H xj p i c (upto j)) as AI by (split; [done|done|cbn [xj set_off fd_off]; unfold uint32, MAXFILE, NDIRECT, NINDIRECT in *; lia|by exists b|apply lookup_insert_eq|done]).
  destruct (piece_ok (files_upto j) H d _ s f xj p i c (upto j) l HR Hxj AI) as (s1 & ws1 & E1 & R1 & Hcr1); [change MAXWRITE with 1536; lia|done|intros _; unfold l; cbn [xj set_off fd_off]; rewrite upto_more by lia; apply space_more; lia|].
  rewrite Hlen in E1. rewrite E1. cbn [xj set_off fd_off] in *. unfold count_of, grown_by, moved in *. fold l.
  destruct (decide (fits (off + Z.of_nat j) l (f_data (upto j)))) as [Hfit|Hmis].
  2:{ unfold l in Hmis. rewrite fits_more in Hmis by lia. exists j, s1, ws1, (loaded H p i c). rewrite list_insert_insert_eq in R1. split_and!; [done|lia|lia|split; lia|done| | |].
    - unfold loaded. rewrite refs_insert. apply insert_id. apply refs_lookup. by exists b.
    - right. intros k0. destruct (Hcr1 k0) as (y & Hy & Hs). exists y, j. split_and!; [lia|lia|done|by destruct Hs].
    - intros _ k0. destruct (Hcr1 k0) as (y & Hy & Hs). exists y, j. split_and!; [lia|lia|done|by destruct Hs]. }
  unfold l in Hfit. rewrite fits_more in Hfit by lia. rewrite Hlen in *. unfold l in R1, Hcr1. rewrite (upto_more j k Hjk) in R1, Hcr1. rewrite files_more in R1, Hcr1. rewrite list_insert_insert_eq in R1.
  replace (Z.of_nat k <? 0) with false by lia. rewrite Z.eqb_refl. cbn [negb]. rewrite <- Nat2Z.inj_add.
  assert (set_off (off + Z.of_nat j + Z.of_nat k) xj = set_off (off + Z.of_nat (j + k)) x) as Exj by (unfold xj, set_off; cbn; rewrite Nat2Z.inj_add, Z.add_assoc; done). rewrite Exj in R1.
  assert (prefix_stored j (j + k) d ws1) as Hp1 by (intros k0; destruct (Hcr1 k0) as (y & Hy & [Hs|Hs]); exists y; [exists j|exists (j + k)%nat]; (split_and!; [lia|lia|done|done])).
  destruct (IH (j + k)%nat _ _ s1 ltac:(lia) ltac:(lia) R1) as (m & s2 & ws2 & H2 & E2 & Hm & Hiff & R2 & Hrefs & Hws & _); [exists true; apply lookup_insert_eq|].
  exists m, s2, (ws1 ++ ws2), H2. assert (prefix_stored j m d (ws1 ++ ws2)) as Hp by (apply (prefix_app j (j + k) m); [lia|done|done]). split_and!; [exact E2|lia|lia| | | |by right|done].
  - rewrite Hiff. split; [intros [Hn|Hn]|intros [Hn|Hn]]; lia.
  - unfold then_writes in *. cbn [hs_image hs_writes] in R2. by rewrite <- app_assoc in R2.
  - rewrite Hrefs. unfold loaded. rewrite refs_insert. apply insert_id. apply refs_lookup. by exists b.
Qed.

End Write.

(** [filewrite] writes all of [src] and returns its length when it fits into
    the file; otherwise it writes a part and returns -1.  A crash leaves what
    some of its transactions had written. *)
Lemma filewrite_ok F H dk tbl s f x p i c fl src : frepr false (mkAfs F H ∅) dk ∅ tbl s -> tbl !! f = Some x -> at_inode F H x p i c fl -> fd_writable x = true -> (nbitmap sb + 7 <= bk_room)%nat ->
  (usage sb F + (blocks_for (upto x fl src (length src)) - blocks_for fl) <= length (data_blocks sb))%nat ->
  exists m s' ws H', filewrite f src (Z.of_nat (length src)) s = Ok (if decide (m = length src) then Z.of_nat (length src) else -1) s' /\
    (m <= length src)%nat /\ (m = length src <-> src = [] \/ fits (fd_off x) src (f_data fl)) /\ frepr false (mkAfs (files_upto F x i fl src m) H' ∅) (then_writes dk ws) ∅ (<[f := set_off (fd_off x + Z.of_nat m) x]> tbl) s' /\
    refs H' = refs H /\ (src <> [] -> prefix_stored F x i fl src 0 m dk ws).
Proof.
  intros HR Hx AI Hw Hroom Hsp. pose proof AI as [H1 H2 H3 [b H4] H5 H6]. pose proof (getf_Ok _ _ _ _ _ _ _ _ HR Hx) as E0. destruct (file_bound me sb _ _ _ _ _ i fl (fr_inside _ _ _ _ _ _ HR) H5) as [Hi Hbd].
  assert (src = [] <-> length src = 0%nat) as Hnil by (by destruct src). assert (exists m s' ws H', filewrite_loop (Datatypes.S (Z.to_nat (Z.of_nat (length src)))) f src 0 (Z.of_nat (length src)) s = Ok (Z.of_nat m) s' /\
    (m <= length src)%nat /\ (m = length src <-> src = [] \/ fits (fd_off x) src (f_data fl)) /\ frepr false (mkAfs (files_upto F x i fl src m) H' ∅) (then_writes dk ws) ∅ (<[f := set_off (fd_off x + Z.of_nat m) x]> tbl) s' /\
    refs H' = refs H /\ (src <> [] -> prefix_stored F x i fl src 0 m dk ws)) as (m & s' & ws & H' & E & Hm & Hiff & R' & Hrefs & Hcr).
  2:{ exists m, s', ws, H'. split_and!; [|done..]. unfold File.filewrite. erewrite bind_Ok by exact E0. rewrite Hw, H1. cbn [negb]. erewrite bind_Ok by exact E.
    destruct (decide (m = length src)) as [->|Hne]; [by rewrite Z.eqb_refl|]. by replace (Z.of_nat m =? Z.of_nat (length src)) with false by lia. }
  rewrite Nat2Z.id. assert (set_off (fd_off x + Z.of_nat 0) x = x) as Hx0 by (unfold set_off; rewrite Z.add_0_r; by destruct x). destruct (decide (fd_off x <= Z.of_nat (length (f_data fl)))) as [Hle|Hgt].
  - destruct (write_loop_ok F tbl f x p i c fl src Hx H1 H2 H3 H5 H6 Hi Hroom Hle Hsp (Datatypes.S (length src)) 0 dk H s) as (m & s' & ws & H' & E & Hm & Hiff & R' & Hrefs & _ & Hcr); [lia|lia| |by exists b|].
    { rewrite files_upto_0, Hx0, list_insert_id by done. done. }
    exists m, s', ws, H'. split_and!; [exact E|lia| |done|done|].
    + rewrite Hiff, Hnil. unfold fits. unfold uint32 in H3. lia.
    + intros Hne. apply Hcr. destruct src; simpl; [done|lia].
  - assert (~ fits (fd_off x) src (f_data fl)) as Hmis by (unfold fits; lia). destruct (decide (src = [])) as [->|Hne].
    + exists 0%nat, s, [], H. split_and!; [done|simpl; lia|split; auto| |done|done]. rewrite files_upto_0 by done. rewrite Hx0, list_insert_id by done. unfold then_writes. rewrite app_nil_r. by destruct dk.
    + cbn [File.filewrite_loop]. assert (0 < length src)%nat by (destruct src; simpl; [done|lia]). replace (0 <? Z.of_nat (length src)) with true by lia. rewrite Z.sub_0_r.
      assert (exists k, (if MAXWRITE <? Z.of_nat (length src) then MAXWRITE else Z.of_nat (length src)) = Z.of_nat k /\ (0 < k <= 1536)%nat /\ (k <= length src)%nat) as (k & -> & Hk & Hkn).
      { change MAXWRITE with 1536. destruct (Z.ltb_spec 1536 (Z.of_nat (length src))); [exists 1536%nat|exists (length src)]; split_and!; lia. }
      cbv zeta. rewrite Nat2Z.id. change (Z.to_nat 0) with 0%nat. rewrite drop_0. assert (length (take k src) = k) as Hlen by (rewrite length_take; lia).
      destruct (piece_ok F H dk tbl s f x p i c fl (take k src) HR Hx AI) as (s1 & ws & E1 & R1 & Hcr1); [rewrite Hlen; change MAXWRITE with 1536; lia|done|unfold fits; lia|].
      rewrite Hlen in E1. rewrite E1. unfold count_of, grown_by, moved in *. destruct (decide (fits (fd_off x) (take k src) (f_data fl))) as [Hf|_]; [exfalso; unfold fits in Hf; lia|]. exists 0%nat, s1, ws, (loaded H p i c).
      split_and!; [done|lia|split; [lia|]; intros [?|?]; [done|done]| | |].
      * rewrite files_upto_0, Hx0 by done. exact R1.
      * unfold loaded. rewrite refs_insert. apply insert_id. apply refs_lookup. by exists b.
      * intros _ k0. destruct (Hcr1 k0) as (y & Hy & Hs). exists y, 0%nat. rewrite files_upto_0 by done. split_and!; [lia|lia|done|by destruct Hs].
Qed.
(** Another open file on the inode, at the same offset, reads what was
    written. *)
Lemma write_then_read F H dk tbl s f f2 x y p i c fl src : frepr false (mkAfs F H ∅) dk ∅ tbl s -> f <> f2 -> tbl !! f = Some x -> tbl !! f2 = Some y -> at_inode F H x p i c fl -> at_inode F H y p i c fl ->
  fd_writable x = true -> fd_readable y = true -> fd_off y = fd_off x -> fits (fd_off x) src (f_data fl) -> (nbitmap sb + 7 <= bk_room)%nat ->
  (usage sb F + (blocks_for (upto x fl src (length src)) - blocks_for fl) <= length (data_blocks sb))%nat ->
  exists s1 s2, filewrite f src (Z.of_nat (length src)) s = Ok (Z.of_nat (length src)) s1 /\ fileread f2 (Z.of_nat (length src)) s1 = Ok (Z.of_nat (length src), src) s2.
Proof.
  intros HR Hfg Hx Hy AX AY Hw Hrd Hoff Hfit Hroom Hsp. destruct (filewrite_ok F H dk tbl s f x p i c fl src HR Hx AX Hw Hroom Hsp) as (m & s1 & ws & H' & E1 & _ & Hm & R1 & Hrefs & _).
  assert (m = length src) as -> by (apply Hm; by right). rewrite decide_True in E1 by done. pose proof AX as [A1 A2 A3 [b A4] A5 A6]. pose proof AY as [B1 B2 B3 _ _ _].
  assert (exists b', H' !! p = Some (mkHandle i c b')) as [b' Hb']. { apply (refs_lookup H' p (i, c)). rewrite Hrefs. apply refs_lookup. by exists b. }
  destruct (fileread_ok (files_upto F x i fl src (length src)) H' _ _ s1 f2 y p i c (upto x fl src (length src)) (Z.of_nat (length src)) R1) as (s2 & E2 & _).
  - by rewrite list_lookup_insert_ne.
  - split; [done|done|done|by exists b'|apply lookup_insert_eq|done].
  - done.
  - destruct Hfit as [Ho Hm']. unfold MAXFILE, NDIRECT, NINDIRECT in Hm'. unfold uint32. lia.
  - exists s1, s2. split; [exact E1|]. rewrite E2, Hoff. unfold upto. cbn [with_data f_data]. by rewrite firstn_all, read_written.
Qed.
End FileCorrect.
