(* ===== verification/SysTriple.v ===== *)
(** * The world of a system call

    What a process sees: the files, the table of open files, its descriptors,
    its current directory and its memory.  Rules for the calls on the file system,
    the table and the descriptors. *)

From stdpp Require Import base gmap list strings.
From Stdlib Require Import ZArith Lia.
From S2P Require Import Prelude CString Sync Sleeplock CacheSpec Log BlockSpec Fs File Syscall Sysfile FsLayout FsInv FsCorrect FsNames FsDir FsPath FsTriple FsTree.
Local Open Scope Z_scope.

Record world := mkWorld { w_fs : fworld; w_table : list File.file; w_ofile : list (option nat); w_cwd : nat; w_user : uproc }.

Section SysTriple.
Context {L S K P : Type} `{HL : Locks L} `{HB : Blocks S} `{HK : Lock K} `{HP : Pipes P} (me : Z) (sb : superblock) (Hly : layout sb) (Hfs : forall n, fs_block sb n -> bk_fs n)
  (Hlk : (NINODE < lk_count)%nat).
Notation fs := (fs (L := L) (S := S)).
Notation files := (files (L := L) (S := S) (K := K) (P := P)).
Notation sysfiles := (sysfiles (L := L) (S := S) (K := K) (P := P)).
Context (devsw_read : Z -> option (nat -> Z -> M fs (Z * list Z))) (devsw_write : Z -> option (nat -> list Z -> M fs Z)).
Implicit Types (n : nat) (F : gmap Z file) (R : gmap nat (Z * Z)) (lk : gset nat) (dk : history) (tbl : list File.file) (o : list (option nat)) (u : uproc) (w : world).
Notation frep := (frep me sb).

Record srep w (s : sysfiles) : Prop := {
  sr_lock : lk_free (ft_lock (sf_files s));
  sr_table : ftable (sf_files s) = w_table w;
  sr_files : length (w_table w) = NFILE;
  sr_fs : frep (w_fs w) (ft_fs (sf_files s));
  sr_ofile : ofile s = w_ofile w;
  sr_fds : length (w_ofile w) = NOFILE;
  sr_cwd : cwd s = w_cwd w;
  sr_user : user s = w_user w;
  sr_junk : length (name_junk s) = DIRSIZ /\ Forall byte (name_junk s)
}.
Notation triple := (triple srep).
Notation returns := (returns srep).

(** ** Calls on the file system *)

Lemma sys_fs {X} v tbl o cw u (m : M fs X) (Q : X -> world -> Prop) :
  FsTriple.triple frep v m (fun x v' => Q x (mkWorld v' tbl o cw u)) -> triple (mkWorld v tbl o cw u) (on_fs m) Q.
Proof.
  intros Hm s [H1 H2 H3 H4 H5 H6 H7 H8 H9]. destruct (Hm _ H4) as (x & y & v' & E & Hr & HQ). exists x. eexists. exists (mkWorld v' tbl o cw u).
  split_and!; [unfold on_fs, on_files, in_fs; erewrite zoom_Ok; [reflexivity|]; by erewrite zoom_Ok by exact E| |done]. by split.
Qed.
Lemma sys_fs_bind {X Y} v tbl o cw u (m : M fs X) Q1 (k : X -> M sysfiles Y) Q :
  FsTriple.triple frep v m Q1 -> (forall x v', Q1 x v' -> triple (mkWorld v' tbl o cw u) (k x) Q) -> triple (mkWorld v tbl o cw u) (let! x := on_fs m in k x) Q.
Proof.
  intros Hm Hk. apply triple_bind with (fun x w' => exists v', w' = mkWorld v' tbl o cw u /\ Q1 x v'); [|intros x w' (v' & -> & HQ); by apply Hk].
  apply sys_fs. eapply triple_mono; [exact Hm|]. eauto.
Qed.
Lemma sys_fs_step {X Y} v v' tbl o cw u (m : M fs X) a (k : X -> M sysfiles Y) Q :
  FsTriple.returns frep v m a v' -> triple (mkWorld v' tbl o cw u) (k a) Q -> triple (mkWorld v tbl o cw u) (let! x := on_fs m in k x) Q.
Proof. intros Hm Hk. eapply sys_fs_bind; [exact Hm|]. by intros x v1 [-> ->]. Qed.
Lemma sys_fs_waits {X} v tbl o cw u (m : M fs X) : waits frep v m -> waits srep (mkWorld v tbl o cw u) (on_fs m).
Proof. intros Hm s Hs. destruct (Hm _ (sr_fs _ _ Hs)) as (y & E). unfold on_fs, on_files, in_fs, zoom. cbv beta. rewrite E. by eexists. Qed.
Lemma sys_waits_bind {X Y} v tbl o cw u (m : M fs X) Q1 (k : X -> M sysfiles Y) :
  FsTriple.triple frep v m Q1 -> (forall x v', Q1 x v' -> waits srep (mkWorld v' tbl o cw u) (k x)) -> waits srep (mkWorld v tbl o cw u) (let! x := on_fs m in k x).
Proof.
  intros Hm Hk. apply (waits_bind srep _ _ _ (fun x w' => exists v', w' = mkWorld v' tbl o cw u /\ Q1 x v')); [|intros x w' (v' & -> & HQ); by apply Hk]. apply sys_fs. eapply triple_mono; [exact Hm|]. eauto.
Qed.
Lemma sys_waits_step {X Y} v v' tbl o cw u (m : M fs X) a (k : X -> M sysfiles Y) : FsTriple.returns frep v m a v' -> waits srep (mkWorld v' tbl o cw u) (k a) -> waits srep (mkWorld v tbl o cw u) (let! x := on_fs m in k x).
Proof. intros Hm Hk. eapply sys_waits_bind; [exact Hm|]. by intros x w' [-> ->]. Qed.
(** The numbers of an inode, and [iupdate]. *)
Lemma sys_meta {Y} v v' tbl o cw u p h (k : M sysfiles Y) Q :
  FsTriple.returns frep v (updd p h ;;; iupdate p) tt v' -> triple (mkWorld v' tbl o cw u) k Q -> triple (mkWorld v tbl o cw u) (seti p h ;;; on_fs (iupdate p) ;;; k) Q.
Proof.
  intros Hm Hk s Hs. pose proof Hs as [H1 H2 H3 H4 H5 H6 H7 H8 H9]. destruct (Hm _ H4) as (x & y & v1 & E & Hr & -> & ->). apply bind_inv in E as ([] & y1 & E1 & E2).
  edestruct (Hk (put_files (put_ftfs y (sf_files s)) s)) as (z & s' & w' & E' & R' & HQ); [by split|]. exists z, s', w'. split_and!; [|done|done]. rewrite <- E'.
  unfold seti, on_fs, on_files, in_fs. erewrite bind_Ok by (erewrite zoom_Ok; [reflexivity|]; by erewrite zoom_Ok by exact E1). by erewrite bind_Ok by (erewrite zoom_Ok; [reflexivity|]; by erewrite zoom_Ok by exact E2).
Qed.
Lemma sys_meta_last v v' tbl o cw u p h (Q : unit -> world -> Prop) :
  FsTriple.returns frep v (updd p h ;;; iupdate p) tt v' -> Q tt (mkWorld v' tbl o cw u) -> triple (mkWorld v tbl o cw u) (seti p h ;;; on_fs (iupdate p)) Q.
Proof.
  intros Hm HQ. apply triple_eq with (seti p h ;;; on_fs (iupdate p) ;;; ret tt); [|eapply sys_meta; [exact Hm|by apply triple_ret]].
  intros s. unfold bind. destruct (seti p h s) as [x s'| | | |]; try done. by destruct (on_fs (iupdate p) s') as [[]| | | |].
Qed.
Lemma sys_waits_meta {Y} v v' tbl o cw u p h (k : M sysfiles Y) :
  FsTriple.returns frep v (updd p h ;;; iupdate p) tt v' -> waits srep (mkWorld v' tbl o cw u) k -> waits srep (mkWorld v tbl o cw u) (seti p h ;;; on_fs (iupdate p) ;;; k).
Proof.
  intros Hm Hk s Hs. destruct (sys_meta_last v v' tbl o cw u p h (fun _ w' => w' = mkWorld v' tbl o cw u) Hm eq_refl s Hs) as (x & s1 & w1 & E & R1 & ->). destruct (Hk s1 R1) as (s2 & E2). exists s2. rewrite <- E2.
  rewrite <- bind_assoc. by erewrite bind_Ok by exact E.
Qed.
Lemma sys_alloc {Y} dk n F R lk tbl o cw u type (k : nat -> M sysfiles Y) Q : type <> 0 -> - 2 ^ 15 <= type < 2 ^ 15 -> (exists i, 0 < i < sb_ninodes sb /\ F !! i = None) -> (size R < NINODE)%nat -> (n + 1 <= bk_room)%nat ->
  (forall p i, 0 < i < sb_ninodes sb -> F !! i = None -> ref_got R i p (<[p := (i, 1)]> R) -> p ∉ lk ->
    triple (mkWorld (mkFw true dk (n + 1) (<[i := mkFile type 0 0 0 []]> F) (<[p := (i, 1)]> R) ({[p]} ∪ lk)) tbl o cw u) (k p) Q) ->
  triple (mkWorld (mkFw true dk n F R lk) tbl o cw u) (let! ip := on_fs (ialloc 1 type) in on_fs (ilock me ip) ;;; k ip) Q.
Proof.
  intros Ht0 Ht Hi Hsz Hroom Hk s Hs. pose proof Hs as [H1 H2 H3 H4 H5 H6 H7 H8 H9]. destruct (alloc_lock me sb Hly Hfs Hlk devsw_read devsw_write dk n F R lk type _ H4 Ht0 Ht Hi Hsz Hroom) as (p & i & y1 & y2 & E1 & E2 & Hi1 & Hf & Hp & Hl & Hr).
  edestruct (Hk p i Hi1 Hf Hp Hl (put_files (put_ftfs y2 (sf_files s)) s)) as (z & s' & w' & E' & R' & HQ); [by split|]. exists z, s', w'. split_and!; [|done|done]. rewrite <- E'.
  unfold on_fs, on_files, in_fs. erewrite bind_Ok by (erewrite zoom_Ok; [reflexivity|]; by erewrite zoom_Ok by exact E1). by erewrite bind_Ok by (erewrite zoom_Ok; [reflexivity|]; by erewrite zoom_Ok by exact E2).
Qed.

(** ** Transactions, arguments and paths *)

Lemma sys_begin {Y} dk F R lk tbl o cw u (k : M sysfiles Y) Q : triple (mkWorld (mkFw true dk 0 F R lk) tbl o cw u) k Q -> triple (mkWorld (mkFw false dk 0 F R lk) tbl o cw u) (op_begin ;;; k) Q.
Proof. intros Hk. eapply sys_fs_step; [by apply tr_begin|done]. Qed.
(** [end_op]: the files of the transaction, or the committed ones if the
    machine stops. *)
Definition closed dk F R tbl o cw u (F0 : gmap Z file) (w' : world) : Prop := exists ws, w' = mkWorld (mkFw false (then_writes dk ws) 0 F R ∅) tbl o cw u /\ either sb dk ws F0 F.
Lemma sys_end {Y} dk n F R tbl o cw u F0 (a : Y) (Q : Y -> world -> Prop) : committed sb dk F0 -> (forall w', closed dk F R tbl o cw u F0 w' -> Q a w') ->
  triple (mkWorld (mkFw true dk n F R ∅) tbl o cw u) (op_end ;;; ret a) Q.
Proof.
  intros H0 HQ. unfold op_end, on_files, fs_end. eapply sys_fs_bind; [apply tr_end|]. intros x v' (ws & -> & He). apply triple_ret, HQ. exists ws. split; [done|]. by apply He.
Qed.
Lemma sys_arg {X Y} w (g : uproc -> X) (k : X -> M sysfiles Y) Q : triple w (k (g (w_user w))) Q -> triple w (let! x := gets (fun s => g (user s)) in k x) Q.
Proof. intros Hk s Hs. rewrite bind_gets, (sr_user _ _ Hs). by apply Hk. Qed.

Definition start (ci : Z) (path : list Z) : Z := if peek path =? 47 then ROOTINO else ci.
(** What a call on a path needs: the files are a tree, and the current
    directory is in it. *)
Record walkable F R (cw : nat) (ci : Z) : Prop := {
  wk_rooted : rooted F;
  wk_cwd : exists c, R !! cw = Some (ci, c);
  wk_live : live F ci;
  wk_room : (size R + 2 <= NINODE)%nat
}.
Lemma walkable_live b F R cw ci path d : walkable F R cw ci -> walk b F (start ci path) (elems path) = Some d -> live F d.
Proof. intros [[W1 W2] _ W3 _]. apply walk_live; [done|]. unfold start. by destruct (peek path =? 47). Qed.
Lemma live_all F i : live F i -> forall f, F !! i = Some f -> f_nlink f <> 0.
Proof. intros (f & Hf & Hn) f' Hf'. congruence. Qed.
Lemma sys_namei {Y} dk n F R tbl o cw ci u path (k : option nat -> M sysfiles Y) Q : walkable F R cw ci ->
  (forall x R', arrived R (walk false F (start ci path) (elems path)) x R' -> triple (mkWorld (mkFw true dk n F R' ∅) tbl o cw u) (k x) Q) ->
  triple (mkWorld (mkFw true dk n F R ∅) tbl o cw u) (let! x := path_inode me devsw_read path in k x) Q.
Proof.
  intros [W1 [c W2] W3 W4] Hk. apply triple_assoc. intros s Hs. rewrite bind_gets. unfold id. rewrite (sr_cwd _ _ Hs). destruct (sr_junk _ _ Hs) as [Hj _].
  apply (sys_fs_bind (mkFw true dk n F R ∅) tbl o cw u _ (fun x v' => exists R', v' = mkFw true dk n F R' ∅ /\ arrived R (walk false F (start ci path) (elems path)) x R')); [|intros x v' (R' & -> & Ha); by apply Hk|exact Hs].
  eapply triple_bind; [eapply (tr_namex me sb Hly Hfs Hlk devsw_read devsw_write); try done; by apply live_all|]. intros [x nm] w' (R' & -> & Ha & _). apply triple_ret. by exists R'.
Qed.
Lemma sys_parent {Y} dk n F R tbl o cw ci u path (k : option nat * list Z -> M sysfiles Y) Q : walkable F R cw ci ->
  (forall x nm R', arrived R (walk true F (start ci path) (elems path)) x R' -> length nm = DIRSIZ -> (is_Some x -> cname DIRSIZ nm = take DIRSIZ (List.last (elems path) [])) -> (Forall byte path -> Forall byte nm) ->
    triple (mkWorld (mkFw true dk n F R' ∅) tbl o cw u) (k (x, nm)) Q) ->
  triple (mkWorld (mkFw true dk n F R ∅) tbl o cw u) (let! x := path_parent me devsw_read path in k x) Q.
Proof.
  intros [W1 [c W2] W3 W4] Hk. apply triple_assoc. intros s Hs. rewrite bind_gets. unfold id. rewrite (sr_cwd _ _ Hs). destruct (sr_junk _ _ Hs) as [Hj Hb].
  eapply sys_fs_bind; [eapply (tr_namex me sb Hly Hfs Hlk devsw_read devsw_write); try done; by apply live_all| |exact Hs]. intros [x nm] v' (R' & -> & Ha & Hl & Hn & Hby). apply Hk; auto.
Qed.
End SysTriple.

(** * The table of open files and the descriptors *)

(** A [scan] whose body only acts when it returns. *)
Lemma scan_find {S : Type} (body : nat -> M S (option nat)) (p : nat -> bool) (act : nat -> M S unit) s : forall n k,
  (forall j, (k <= j < k + n)%nat -> body j s = if p j then (act j ;;; ret (Some j)) s else Ok None s) ->
  scan (seq k n) body s = match find_from p k n with Some j => (act j ;;; ret (Some j)) s | None => Ok None s end.
Proof.
  induction n as [|n IH]; intros k Hb; [done|]. cbn [seq scan find_from]. unfold bind at 1. rewrite Hb by lia. destruct (p k); [unfold bind; by destruct (act k s)|]. apply IH. intros j Hj. apply Hb. lia.
Qed.

Definition unused (x : File.file) : bool := fd_ref x =? 0.
Definition free_file (tbl : list File.file) : option nat := find_from (fun f => from_option unused false (tbl !! f)) 0 NFILE.
Definition free_fd (o : list (option nat)) : option nat := find_from (fun fd => bool_decide (o !! fd = Some None)) 0 NOFILE.
Lemma free_file_Some tbl f : free_file tbl = Some f -> exists x, tbl !! f = Some x /\ fd_ref x = 0.
Proof. intros (_ & Hf & _)%find_from_Some. destruct (tbl !! f) as [x|]; [|done]. exists x. split; [done|]. by apply Z.eqb_eq. Qed.
Lemma free_fd_Some o fd : free_fd o = Some fd -> o !! fd = Some None /\ (fd < NOFILE)%nat.
Proof. intros (Hk & Hf & _)%find_from_Some. split; [by apply bool_decide_eq_true in Hf|lia]. Qed.

Section FileTable.
Context {L S K P : Type} `{HL : Locks L} `{HB : Blocks S} `{HK : Lock K} `{HP : Pipes P} (me : Z) (sb : superblock).
Notation fs := (fs (L := L) (S := S)).
Notation files := (files (L := L) (S := S) (K := K) (P := P)).
Notation sysfiles := (sysfiles (L := L) (S := S) (K := K) (P := P)).
Implicit Types (F : gmap Z file) (R : gmap nat (Z * Z)) (dk : history) (tbl : list File.file) (o : list (option nat)) (u : uproc) (w : world) (s : files).
Notation frep := (frep me sb).
Notation srep := (srep (K := K) (P := P) me sb).
Notation triple := (triple srep).
Notation returns := (returns srep).
Notation sfiles := (sf_files (L := L) (S := S) (K := K) (P := P)).

Lemma acquired s : lk_free (ft_lock s) -> exists l, f_acquire s = Ok tt (put_ftlock l s) /\ lk_held l.
Proof. intros Hl. destruct (lk_acquire_ok _ Hl) as (l & E & Hh). exists l. split; [|done]. unfold f_acquire. by rewrite (zoom_Ok _ _ _ _ _ _ E). Qed.
Lemma released s : lk_held (ft_lock s) -> exists l, f_release s = Ok tt (put_ftlock l s) /\ lk_free l.
Proof. intros Hl. destruct (lk_release_ok _ Hl) as (l & E & Hh). exists l. split; [|done]. unfold f_release. by rewrite (zoom_Ok _ _ _ _ _ _ E). Qed.
Lemma get_at s f x : ftable s !! f = Some x -> getf f s = Ok x s.
Proof. intros Hx. unfold getf. by rewrite bind_gets, Hx. Qed.
Lemma upd_at s f x h : ftable s !! f = Some x -> updf f h s = Ok tt (put_ftable (<[f := h x]> (ftable s)) s).
Proof. intros Hx. unfold updf. by erewrite bind_Ok by (by apply get_at). Qed.

(** A call that only changes the table. *)
Lemma sys_table {X} v tbl tbl' o cw u (m : M files X) a : length tbl' = length tbl ->
  (forall s, lk_free (ft_lock s) -> ftable s = tbl -> exists l, m s = Ok a (put_ftlock l (put_ftable tbl' s)) /\ lk_free l) ->
  returns (mkWorld v tbl o cw u) (on_files m) a (mkWorld v tbl' o cw u).
Proof.
  intros Hlen Hm s [H1 H2 H3 H4 H5 H6 H7 H8 H9]. destruct (Hm _ H1 H2) as (l & E & Hl). exists a. eexists _, _. split_and!; [unfold on_files; by rewrite (zoom_Ok _ _ _ _ _ _ E)| |done|reflexivity]. split; simpl; try done. simpl in H3. congruence.
Qed.
Lemma sys_updf v tbl o cw u f x h : tbl !! f = Some x -> returns (mkWorld v tbl o cw u) (on_files (updf f h)) tt (mkWorld v (<[f := h x]> tbl) o cw u).
Proof.
  intros Hx. apply sys_table; [apply length_insert|]. intros s Hl <-. exists (ft_lock s). split; [|done]. rewrite (upd_at s f x h Hx). by destruct s.
Qed.
Definition taken (tbl : list File.file) : list File.file :=
  match free_file tbl with Some f => match tbl !! f with Some x => <[f := set_ref 1 x]> tbl | None => tbl end | None => tbl end.
Lemma sys_filealloc v tbl o cw u : length tbl = NFILE -> returns (mkWorld v tbl o cw u) (on_files filealloc) (free_file tbl) (mkWorld v (taken tbl) o cw u).
Proof.
  intros Hlen. apply sys_table; [unfold taken; repeat case_match; rewrite ?length_insert; done|]. intros s Hl Ht. unfold filealloc. destruct (acquired s Hl) as (l & E & Hh). erewrite bind_Ok by exact E.
  set (s1 := put_ftlock l s). assert (ftable s1 = tbl) as Ht1 by done.
  rewrite (bind_Ok _ _ s1 (free_file tbl) (put_ftable (taken tbl) s1)).
  - destruct (released (put_ftable (taken tbl) s1)) as (l2 & E2 & Hl2); [done|]. exists l2. split; [|done]. by erewrite bind_Ok by exact E2.
  - rewrite (scan_find _ (fun f => from_option unused false (tbl !! f)) (fun f => updf f (set_ref 1))).
    + fold (free_file tbl). unfold taken. destruct (free_file tbl) as [f|] eqn:Ef; [|rewrite <- Ht1; by destruct s1]. destruct (free_file_Some _ _ Ef) as (x & Hx & _). rewrite Hx. erewrite bind_Ok by (apply upd_at; by rewrite Ht1). by rewrite Ht1.
    + intros j Hj. destruct (lookup_lt_is_Some_2 tbl j ltac:(lia)) as [x Hx]. rewrite Hx. simpl. erewrite bind_Ok by (apply get_at; by rewrite Ht1). unfold unused. by destruct (fd_ref x =? 0).
Qed.
Lemma sys_filedup v tbl o cw u f x : tbl !! f = Some x -> 1 <= fd_ref x -> returns (mkWorld v tbl o cw u) (on_files (filedup f)) f (mkWorld v (<[f := set_ref (fd_ref x + 1) x]> tbl) o cw u).
Proof.
  intros Hx Hr. apply sys_table; [apply length_insert|]. intros s Hl Ht. unfold filedup. destruct (acquired s Hl) as (l & E & Hh). erewrite bind_Ok by exact E. set (s1 := put_ftlock l s). assert (ftable s1 !! f = Some x) as Hx1 by (by rewrite <- Ht in Hx).
  erewrite bind_Ok by (by apply get_at). replace (fd_ref x <? 1) with false by lia. erewrite bind_Ok by (by apply upd_at). set (s2 := put_ftable _ s1). destruct (released s2) as (l2 & E2 & Hl2); [done|]. erewrite bind_Ok by exact E2. exists l2. split; [|done]. unfold ret, s2, s1. simpl. by rewrite Ht.
Qed.
(** A reference that is not the last one. *)
Lemma sys_fileclose v tbl o cw u f x : tbl !! f = Some x -> 1 < fd_ref x -> returns (mkWorld v tbl o cw u) (on_files (fileclose me f)) tt (mkWorld v (<[f := set_ref (fd_ref x - 1) x]> tbl) o cw u).
Proof.
  intros Hx Hr. apply sys_table; [apply length_insert|]. intros s Hl Ht. unfold fileclose. destruct (acquired s Hl) as (l & E & Hh). erewrite bind_Ok by exact E. set (s1 := put_ftlock l s). assert (ftable s1 !! f = Some x) as Hx1 by (by rewrite <- Ht in Hx).
  erewrite bind_Ok by (by apply get_at). replace (fd_ref x <? 1) with false by lia. erewrite bind_Ok by (by apply upd_at). replace (0 <? fd_ref x - 1) with true by lia. set (s2 := put_ftable _ s1). destruct (released s2) as (l2 & E2 & Hl2); [done|]. exists l2. split; [|done]. rewrite E2. unfold s2, s1. simpl. by rewrite Ht.
Qed.
(** The last reference: the entry is free, and then the pipe or the inode is
    let go. *)
Definition let_go (x : File.file) : M files unit :=
  match fd_type x with FD_PIPE => in_pipes (pipe_close (fd_pipe x) (fd_writable x)) | FD_INODE => fs_begin ;;; in_fs (iput me (fd_ip x)) ;;; fs_end | FD_NONE => ret tt end.
Definition closed_file (x : File.file) : File.file := set_ftype FD_NONE (set_ref 0 x).
Lemma fileclose_last s f x : lk_free (ft_lock s) -> ftable s !! f = Some x -> fd_ref x = 1 ->
  exists l, fileclose me f s = let_go x (put_ftlock l (put_ftable (<[f := closed_file x]> (ftable s)) s)) /\ lk_free l.
Proof.
  intros Hl Hx Hr. unfold fileclose. destruct (acquired s Hl) as (l & E & Hh). erewrite bind_Ok by exact E. set (s1 := put_ftlock l s). assert (ftable s1 !! f = Some x) as Hx1 by done. pose proof (lookup_lt_Some _ _ _ Hx) as Hlt.
  erewrite bind_Ok by (by apply get_at). replace (fd_ref x <? 1) with false by lia. erewrite bind_Ok by (by apply upd_at). replace (0 <? fd_ref x - 1) with false by lia. set (s2 := put_ftable _ s1). assert (ftable s2 !! f = Some (set_ref (fd_ref x - 1) x)) as Hx2 by (by apply list_lookup_insert_eq).
  erewrite bind_Ok by (by apply get_at). erewrite bind_Ok by (by apply upd_at). set (s3 := put_ftable _ s2). destruct (released s3) as (l2 & E2 & Hl2); [done|]. erewrite bind_Ok by exact E2. exists l2. split; [|done]. unfold let_go. simpl. unfold s3, s2, s1. simpl. by rewrite list_insert_insert_eq.
Qed.
Lemma sys_closes_last {Q} v tbl o cw u f x : tbl !! f = Some x -> fd_ref x = 1 -> triple (mkWorld v (<[f := closed_file x]> tbl) o cw u) (on_files (let_go x)) Q -> triple (mkWorld v tbl o cw u) (on_files (fileclose me f)) Q.
Proof.
  intros Hx Hr Hgo s [H1 H2 H3 H4 H5 H6 H7 H8 H9]. simpl in *. destruct (fileclose_last (sf_files s) f x H1) as (l & E & Hl); [by rewrite H2|done|]. rewrite H2 in E.
  destruct (Hgo (put_files (put_ftlock l (put_ftable (<[f := closed_file x]> tbl) (sf_files s))) s)) as (y & s' & w' & E' & R' & HQ); [split; simpl; rewrite ?length_insert; done|]. exists y, s', w'. split_and!; [|done|done]. rewrite <- E'. unfold on_files, zoom. simpl. by rewrite E.
Qed.
Lemma sys_fdalloc v tbl o cw u f : length o = NOFILE -> returns (mkWorld v tbl o cw u) (fdalloc f) (free_fd o) (mkWorld v tbl (match free_fd o with Some fd => <[fd := Some f]> o | None => o end) cw u).
Proof.
  intros Hlen s [H1 H2 H3 H4 H5 H6 H7 H8 H9]. simpl in *. unfold fdalloc. rewrite (scan_find _ (fun fd => bool_decide (o !! fd = Some None)) (fun fd => set_fd fd (Some f))).
  - fold (free_fd o). destruct (free_fd o) as [fd|]; eexists _, _, _; (split_and!; [reflexivity| |done|reflexivity]); [|by split]. split; simpl; rewrite ?length_insert; try done. by rewrite H5.
  - intros j Hj. rewrite bind_gets, H5. destruct (lookup_lt_is_Some_2 o j ltac:(lia)) as [x Hx]. rewrite Hx. unfold deref. rewrite bind_ret. by destruct x.
Qed.
Lemma sys_set_fd v tbl o cw u fd x : returns (mkWorld v tbl o cw u) (set_fd fd x) tt (mkWorld v tbl (<[fd := x]> o) cw u).
Proof. intros s [H1 H2 H3 H4 H5 H6 H7 H8 H9]. eexists _, _, _. split_and!; [reflexivity| |done|reflexivity]. split; simpl in *; rewrite ?length_insert; try done. by rewrite H5. Qed.
(** The descriptor argument [n] names, and its entry of the table. *)
Definition fd_arg u o (n : Z) : option (nat * nat) :=
  match argint u n with
  | Some fd => if (fd <? 0) || (Z.of_nat NOFILE <=? fd) then None else match o !! Z.to_nat fd with Some (Some f) => Some (Z.to_nat fd, f) | _ => None end
  | None => None
  end.
Lemma fd_arg_at u o n fd f : fd_arg u o n = Some (fd, f) -> o !! fd = Some (Some f).
Proof. unfold fd_arg. intros H. repeat case_match; simplify_eq. done. Qed.
Lemma sys_argfd v tbl o cw u n : length o = NOFILE ->
  returns (mkWorld v tbl o cw u) (argfd n) (fd_arg u o n) (mkWorld v tbl o cw u).
Proof.
  intros Hlen. unfold argfd, fd_arg, getu. apply (sys_arg me sb _ (fun u => argint u n)). cbn [w_user]. destruct (argint u n) as [fd|]; [|by apply triple_ret]. destruct ((fd <? 0) || (Z.of_nat NOFILE <=? fd)) eqn:Efd; [by apply triple_ret|].
  apply triple_bind with (fun y w' => y = o /\ w' = mkWorld v tbl o cw u); [apply triple_gets; intros s Hs; split; [apply Hs|done]|]. intros y w' [-> ->]. apply orb_false_iff in Efd as [E1%Z.ltb_ge E2%Z.leb_gt].
  destruct (lookup_lt_is_Some_2 o (Z.to_nat fd) ltac:(lia)) as [x Hx]. rewrite Hx. unfold deref. eapply triple_step; [by apply triple_ret|]. destruct x; by apply triple_ret.
Qed.

Lemma on_files_bind {X Y} (m : M files X) (k : X -> M files Y) (s : sysfiles) : on_files (bind m k) s = bind (on_files m) (fun x => on_files (k x)) s.
Proof. unfold on_files, zoom, bind. destruct (m (sf_files s)); try done. Qed.
End FileTable.
