(* ===== verification/SysNames.v ===== *)
(** * Calls on names: [create], [sys_link] and [sys_unlink] *)

From stdpp Require Import base gmap list strings.
From Stdlib Require Import ZArith Lia.
From S2P Require Import Prelude CString Sync Sleeplock CacheSpec Log BlockSpec Fs File Syscall Sysfile FsLayout FsInv FsFile FsRw FsCorrect FsNames FsDir FsPath FsTriple FsTree SysTriple.
Local Open Scope Z_scope.

Section SysCreate.
Context {L S K P : Type} `{HL : Locks L} `{HB : Blocks S} `{HK : Lock K} `{HP : Pipes P} (me : Z) (sb : superblock) (Hly : layout sb) (Hfs : forall n, fs_block sb n -> bk_fs n)
  (Hlk : (NINODE < lk_count)%nat).
Notation fs := (fs (L := L) (S := S)).
Notation sysfiles := (sysfiles (L := L) (S := S) (K := K) (P := P)).
Context (devsw_read : Z -> option (nat -> Z -> M fs (Z * list Z))) (devsw_write : Z -> option (nat -> list Z -> M fs Z)).
Implicit Types (n : nat) (F : gmap Z file) (R : gmap nat (Z * Z)) (lk : gset nat) (dk : history) (tbl : list File.file) (o : list (option nat)) (u : uproc) (w : world).
Notation frep := (frep me sb).
Notation srep := (srep (K := K) (P := P) me sb).
Notation triple := (triple srep).
Notation dirlink := (dirlink me devsw_read devsw_write).

(** The two entries of a new directory. *)
Lemma dots_ok dk n F R lk tbl o cw u ip i c d f : R !! ip = Some (i, c) -> ip ∈ lk -> F !! i = Some f -> f_type f = T_DIR -> f_data f = [] -> 0 <= i < sb_ninodes sb ->
  (usage sb F + 4 <= length (data_blocks sb))%nat -> (n + 2 * (nbitmap sb + 4) <= bk_room)%nat -> 0 < i < 2 ^ 16 ->
  triple (mkWorld (mkFw true dk n F R lk) tbl o cw u)
    (let! a := on_fs (dirlink ip [46] i) in if a <? 0 then panic "create dots" else let! b := on_fs (dirlink ip [46; 46] d) in if b <? 0 then panic "create dots" else ret tt)
    (fun _ w' => w' = mkWorld (mkFw true dk (n + 2 * (nbitmap sb + 4)) (<[i := dotted i d f]> F) R lk) tbl o cw u).
Proof.
  intros Hp Hl Hf Ht Hd Hi Hu Hroom Hi16. assert (dir_ok (f_data f)) as Hok by (by rewrite Hd). assert (Forall byte [46]) as Hb1 by (repeat constructor; unfold byte; lia). assert (Forall byte [46; 46]) as Hb2 by (repeat constructor; unfold byte; lia).
  set (f1 := add_entry i [46] f). pose proof (add_entry_blocks i [46] f Hok ltac:(by apply Nat.leb_le)) as Hb. fold f1 in Hb. assert (blocks_for f = 0)%nat as Hb0 by (unfold blocks_for; by rewrite Hd).
  eapply sys_fs_step; [eapply (tr_dirlink me sb Hly Hfs Hlk devsw_read devsw_write dk n F R lk ip i c f [46] i); try done; [by rewrite Hd|by rewrite Hd|change (cname DIRSIZ [46]) with [46]; fold f1; lia|lia]|].
  change (cname DIRSIZ [46]) with [46]. fold f1. cbn [Z.ltb]. change (0 <? 0) with false. cbv iota.
  assert (length (dirent i [46]) = 16%nat) as He by (by apply length_dirent, Nat.leb_le). assert (dir_free (f_data f) = 0%nat /\ nent (f_data f) = 0%nat) as [Hfr Hne] by (by rewrite Hd).
  assert (nent (f_data f1) = 1%nat /\ ent (f_data f1) 0 = dirent i [46]) as [Hn1 He1].
  { unfold f1, add_entry. cbn [with_data f_data]. rewrite insert_nent, insert_ent by (done || lia). rewrite Hfr, Hne. done. }
  assert (dir_ok (f_data f1)) as Hok1 by (unfold f1, add_entry; cbn [with_data f_data]; apply insert_ok; [done|done|lia]).
  assert (usage sb (<[i := f1]> F) + blocks_for f = usage sb F + blocks_for f1)%nat as Hu1 by (by apply usage_insert).
  assert (de_inum (dirent i [46]) = i /\ cname DIRSIZ (de_name (dirent i [46])) = [46]) as [Hde1 Hde2] by (apply (mk_dirent_spec i [46]); [done|lia]).
  eapply sys_fs_step; [eapply (tr_dirlink me sb Hly Hfs Hlk devsw_read devsw_write dk _ (<[i := f1]> F) R lk ip i c f1 [46; 46] d); try done|].
  - by rewrite lookup_insert_eq.
  - apply dir_find_None. rewrite Hn1. intros k Hk. assert (k = 0%nat) as -> by lia. unfold names. by rewrite He1, Hde2, andb_false_r.
  - pose proof (dir_free_le (f_data f1)). unfold MAXFILE, NDIRECT, NINDIRECT. lia.
  - pose proof (add_entry_blocks d (cname DIRSIZ [46; 46]) f1 Hok1 ltac:(by apply Nat.leb_le)). lia.
  - lia.
  - change (0 <? 0) with false. cbv iota. apply triple_ret. rewrite insert_insert_eq. do 2 f_equal. lia.
Qed.

Section Create.
Context (F : gmap Z file) (R : gmap nat (Z * Z)) (dk : history) (tbl : list File.file) (o : list (option nat)) (cw : nat) (ci : Z) (u : uproc) (path : list Z) (type M m : Z).
Context (Hwalk : walkable F R cw ci) (Hres : resources sb F R) (Hpath : Forall byte path) (Ht0 : type <> 0) (Ht : - 2 ^ 15 <= type < 2 ^ 15) (HM : - 2 ^ 15 <= M < 2 ^ 15) (Hm : - 2 ^ 15 <= m < 2 ^ 15)
  (Hnum : sb_ninodes sb <= 2 ^ 16) (Hroom : (3 * (nbitmap sb + 4) + 3 <= bk_room)%nat).
Notation ended := (walk true F (start ci path) (elems path)).
Notation nm := (take DIRSIZ (List.last (elems path) [])).
Definition creates (x : option nat) (w' : world) : Prop :=
  exists n F' R' lk, (n <= 3 * (nbitmap sb + 4) + 3)%nat /\ created (sb_ninodes sb) F R ended nm type M m x F' R' lk /\ w' = mkWorld (mkFw true dk n F' R' lk) tbl o cw u.
(** The directory, and a reference to it. *)
Context (d : Z) (fd : file) (dp : nat) (R1 : gmap nat (Z * Z)) (Hend : ended = Some d) (Hgot : ref_got R d dp R1) (Hfd : F !! d = Some fd) (Hdir : f_type fd = T_DIR) (Hlive : f_nlink fd <> 0)
  (Hok : dir_ok (f_data fd)) (Hent : forall nm k j, dir_find (f_data fd) nm = Some (k, j) -> exists h, F !! j = Some h /\ f_nlink h <> 0)
  (name : list Z) (Hname : cname DIRSIZ name = nm) (Hbyte : Forall byte name).

Lemma create_found k j c (none : Prelude.M sysfiles (option nat)) : dir_find (f_data fd) nm = Some (k, j) -> R1 !! dp = Some (d, c) ->
  triple (mkWorld (mkFw true dk 0 F R1 {[dp]}) tbl o cw u)
    (let! l := on_fs (dirlookup devsw_read dp name) in
     match l with
     | Some (ip, _) => on_fs (iunlockput me dp) ;;; on_fs (ilock me ip) ;;; let! x := on_fs (geti ip) in
         if (type =? T_FILE) && (d_type (i_d x) =? T_FILE) then ret (Some ip) else on_fs (iunlockput me ip) ;;; ret None
     | None => none
     end) creates.
Proof.
  intros Hfind Hc. destruct (Hent _ _ _ Hfind) as (h & Hj & Hh). pose proof (ref_got_size _ _ _ _ Hgot). pose proof (rs_cache _ _ _ Hres).
  eapply sys_fs_bind; [eapply (tr_lookup me sb Hly Hfs Hlk devsw_read devsw_write true dk 0 F R1 {[dp]} dp d c fd name k j h); try done; [by apply elem_of_singleton|by rewrite Hname|lia]|].
  intros x v' (q & R2 & -> & Hgot2 & _ & ->). destruct (ref_got_next _ _ _ _ _ _ _ Hgot Hgot2) as (c2 & Hc2 & _ & _ & Hgot3). cbv iota beta.
  eapply sys_fs_step; [eapply (tr_unlockput me sb Hly Hfs Hlk devsw_read devsw_write); [exact Hc2|by apply elem_of_singleton|done|done]|]. rewrite difference_diag_L.
  destruct (ref_got_at _ _ _ _ Hgot3) as (c3 & Hc3 & _ & _ & Hput). set (R3 := ref_put dp d c2 R2) in *.
  eapply sys_fs_step; [eapply (tr_lock me sb Hly Hfs Hlk devsw_read devsw_write); [exact Hc3|apply not_elem_of_empty]|]. rewrite union_empty_r_L.
  eapply sys_fs_bind; [eapply (tr_seen me sb Hlk devsw_read devsw_write); [exact Hc3|by apply elem_of_singleton|done]|]. intros x v' ((_ & _ & Hty & _) & ->). rewrite Hty.
  destruct (Z.eqb_spec type T_FILE) as [E1|E1], (Z.eqb_spec (f_type h) T_FILE) as [E2|E2]; cbn [andb].
  1:{ apply triple_ret. exists 0%nat, F, R3, {[q]}. split_and!; [lia|by eapply Cr_found|done]. }
  all: (eapply sys_fs_step; [eapply (tr_unlockput me sb Hly Hfs Hlk devsw_read devsw_write); [exact Hc3|by apply elem_of_singleton|done|done]|]); rewrite difference_diag_L, Hput; apply triple_ret;
    exists 0%nat, F, R, ∅; (split_and!; [lia|eapply Cr_taken; [done..|tauto]|done]).
Qed.

Definition grown : file := if type =? T_DIR then with_nlink (f_nlink fd + 1) fd else fd.
Lemma grown_facts : f_type grown = T_DIR /\ f_data grown = f_data fd /\ f_nlink grown <> 0 /\ blocks_for grown = blocks_for fd.
Proof. destruct (rs_dirs _ _ _ Hres d fd Hfd Hdir) as (_ & Hn & _). unfold grown. destruct (type =? T_DIR); cbn [with_nlink f_type f_data f_nlink]; split_and!; done || lia. Qed.
(** The files before the entry is written. *)
Definition node (i : Z) : file := if type =? T_DIR then dotted i d (mkFile type M m 1 []) else mkFile type M m 1 [].
Definition noded (i : Z) : gmap Z file := <[d := grown]> (<[i := node i]> F).
Lemma made_noded i : <[d := add_entry i nm grown]> (noded i) = made F d fd nm type M m i.
Proof. unfold noded, node, made, grown. rewrite insert_insert_eq. by destruct (type =? T_DIR). Qed.
Lemma node_space i f : 0 <= i < sb_ninodes sb -> F !! i = None -> f_data f = [] -> usage sb (<[i := f]> F) = usage sb F.
Proof. intros Hi HF Hf. rewrite usage_fresh by done. unfold blocks_for. rewrite Hf. apply Nat.add_0_r. Qed.

(** A directory gets its two entries and counts in its parent. *)
Lemma node_ok i ip c : type = T_DIR -> 0 < i < sb_ninodes sb -> F !! i = None -> ip <> dp -> R1 !! dp = Some (d, c) ->
  triple (mkWorld (mkFw true dk 2 (<[i := mkFile type M m 1 []]> F) (<[ip := (i, 1)]> R1) ({[ip]} ∪ {[dp]})) tbl o cw u)
    (seti dp (fun d => set_nlink (s16 (d_nlink d + 1)) d) ;;; on_fs (iupdate dp) ;;;
     let! a := on_fs (dirlink ip [46] i) in if a <? 0 then panic "create dots" else let! b := on_fs (dirlink ip [46; 46] d) in if b <? 0 then panic "create dots" else ret tt)
    (fun _ w' => w' = mkWorld (mkFw true dk (3 + 2 * (nbitmap sb + 4)) (noded i) (<[ip := (i, 1)]> R1) ({[ip]} ∪ {[dp]})) tbl o cw u).
Proof.
  intros Hty Hi HF Hne Hc. destruct (rs_dirs _ _ _ Hres d fd Hfd Hdir) as (Hd & Hn & _). pose proof (rs_blocks _ _ _ Hres) as Hb. assert (i <> d) as Hid by (intros ->; congruence). set (f0 := mkFile type M m 1 []).
  eapply sys_meta; [eapply (tr_nlink me sb Hly Hfs Hlk _ _ _ _ _ dp d c fd 1); [by rewrite lookup_insert_ne|set_solver|by rewrite lookup_insert_ne|lia|lia]|].
  set (fd' := with_nlink (f_nlink fd + 1) fd). assert (usage sb (<[d := fd']> (<[i := f0]> F)) = usage sb F) as Hu.
  { pose proof (usage_insert sb (<[i := f0]> F) d fd fd' Hd) as Hi'. rewrite lookup_insert_ne in Hi' by done. specialize (Hi' Hfd). rewrite (node_space i f0) in Hi' by (done || lia). change (blocks_for fd') with (blocks_for fd) in Hi'. lia. }
  eapply triple_mono; [eapply (dots_ok dk (2 + 1) _ _ _ tbl o cw u ip i 1 d f0); try done; [by rewrite lookup_insert_eq|set_solver|by rewrite lookup_insert_ne, lookup_insert_eq|lia|lia|lia|lia]|].
  intros _ w' ->. unfold noded, node, grown. rewrite (proj2 (Z.eqb_eq _ _) Hty). do 2 f_equal. rewrite insert_insert_ne by done. f_equal. by rewrite insert_insert_eq.
Qed.
Lemma create_new c : dir_find (f_data fd) nm = None -> R1 !! dp = Some (d, c) ->
  triple (mkWorld (mkFw true dk 0 F R1 {[dp]}) tbl o cw u)
    (let! y := on_fs (geti dp) in let! ip := on_fs (ialloc (i_dev y) type) in on_fs (ilock me ip) ;;;
     seti ip (fun d => set_nlink 1 (set_dev M m d)) ;;; on_fs (iupdate ip) ;;; let! x := on_fs (geti ip) in
     (if type =? T_DIR then
        seti dp (fun d => set_nlink (s16 (d_nlink d + 1)) d) ;;; on_fs (iupdate dp) ;;;
        let! a := on_fs (dirlink ip [46] (i_inum x)) in if a <? 0 then panic "create dots" else
        let! b := on_fs (dirlink ip [46; 46] (i_inum y)) in if b <? 0 then panic "create dots" else ret tt
      else ret tt) ;;;
     let! r := on_fs (dirlink dp name (i_inum x)) in if r <? 0 then panic "create: dirlink" else on_fs (iunlockput me dp) ;;; ret (Some ip)) creates.
Proof.
  intros Hfind Hc. destruct (rs_dirs _ _ _ Hres d fd Hfd Hdir) as (Hd & Hn & Hsz). pose proof (rs_blocks _ _ _ Hres) as Hb. pose proof (rs_cache _ _ _ Hres). pose proof (ref_got_size _ _ _ _ Hgot). destruct grown_facts as (Hg1 & Hg2 & Hg3 & Hg4).
  eapply sys_fs_bind; [eapply (tr_seen me sb Hlk devsw_read devsw_write); [exact Hc|by apply elem_of_singleton|done]|]. intros y v' ((-> & Hy & _) & ->). rewrite Hy. clear Hy.
  apply (sys_alloc me sb Hly Hfs Hlk devsw_read devsw_write); [done|done|by eapply rs_inode|lia|lia|]. intros ip i Hi HF Hgi Hne. apply not_elem_of_singleton in Hne. assert (i <> d) as Hid by (intros ->; congruence).
  eapply sys_meta; [eapply (tr_meta me sb Hly Hfs Hlk _ _ _ _ _ ip i 1 _ _ M m 1); [by rewrite lookup_insert_eq|set_solver|by rewrite lookup_insert_eq|by apply short_forall|done|lia]|]. rewrite insert_insert_eq. cbn [f_type f_data].
  eapply sys_fs_bind; [eapply (tr_seen me sb Hlk devsw_read devsw_write _ _ _ _ _ _ ip); [by rewrite lookup_insert_eq|set_solver|by rewrite lookup_insert_eq]|]. intros x v' ((_ & -> & _) & ->).
  apply triple_bind with (fun _ w' => exists n, (n <= 3 + 2 * (nbitmap sb + 4))%nat /\ w' = mkWorld (mkFw true dk n (noded i) (<[ip := (i, 1)]> R1) ({[ip]} ∪ {[dp]})) tbl o cw u).
  { destruct (Z.eqb_spec type T_DIR) as [Hty|Hty]; [eapply triple_mono; [by eapply (node_ok i ip c)|]; intros _ w' ->; eauto|]. apply triple_ret. exists 2%nat. split; [lia|]. do 2 f_equal.
    unfold noded, node, grown. rewrite (proj2 (Z.eqb_neq _ _) Hty). symmetry. apply insert_id. by rewrite lookup_insert_ne. }
  intros _ w' (n & Hn' & ->). assert (length nm <= DIRSIZ)%nat as Hnml by (rewrite length_take; lia).
  assert (usage sb (noded i) <= usage sb F + 4)%nat as Hu.
  { pose proof (usage_insert sb (<[i := node i]> F) d fd grown Hd) as Hi'. rewrite lookup_insert_ne in Hi' by done. specialize (Hi' Hfd). rewrite (usage_fresh sb F i) in Hi' by (done || lia). fold (noded i) in Hi'.
    assert (blocks_for (node i) <= 4)%nat; [|lia]. unfold node. destruct (type =? T_DIR); [|apply Nat.leb_le; done].
    unfold dotted. etrans; [apply add_entry_blocks; [|by apply Nat.leb_le]|]; [apply insert_ok; [done|by apply length_dirent, Nat.leb_le|by apply Nat.leb_le]|]. etrans; [apply Nat.add_le_mono_r, add_entry_blocks; [done|by apply Nat.leb_le]|]. by apply Nat.leb_le. }
  pose proof (add_entry_blocks i nm grown ltac:(by rewrite Hg2) Hnml) as Hbe. pose proof (dir_free_le (f_data fd)) as Hfree.
  eapply sys_fs_step; [eapply (tr_dirlink me sb Hly Hfs Hlk devsw_read devsw_write dk n (noded i) _ _ dp d c grown name i); [by rewrite lookup_insert_ne|set_solver|apply lookup_insert_eq|done|by rewrite Hg2|done|by rewrite Hg2, Hname| | |]|].
  { rewrite Hg2. unfold MAXFILE, NDIRECT, NINDIRECT. lia. }
  { rewrite Hname. lia. }
  { lia. }
  change (0 <? 0) with false. cbv iota. rewrite Hname, made_noded. destruct (ref_got_next _ _ _ _ _ _ _ Hgot Hgi) as (c2 & Hc2 & _ & _ & Hgot3).
  eapply sys_fs_step; [eapply (tr_unlockput me sb Hly Hfs Hlk devsw_read devsw_write _ _ _ _ _ _ dp d c2 (add_entry i nm grown)); [done|set_solver|rewrite <- made_noded; apply lookup_insert_eq|done]|].
  replace (({[ip]} ∪ {[dp]}) ∖ {[dp]}) with ({[ip]} : gset nat) by set_solver. apply triple_ret. eexists _, _, _, {[ip]}. split_and!; [|by eapply Cr_made|reflexivity]. lia.
Qed.
End Create.

(** [create] makes the new file, finds the file that is there, or refuses. *)
Lemma create_ok F R dk tbl o cw ci u path type M m : walkable F R cw ci -> resources sb F R -> Forall byte path -> type <> 0 -> - 2 ^ 15 <= type < 2 ^ 15 -> - 2 ^ 15 <= M < 2 ^ 15 -> - 2 ^ 15 <= m < 2 ^ 15 ->
  sb_ninodes sb <= 2 ^ 16 -> (3 * (nbitmap sb + 4) + 3 <= bk_room)%nat ->
  triple (mkWorld (mkFw true dk 0 F R ∅) tbl o cw u) (create me devsw_read devsw_write path type M m) (creates F R dk tbl o cw ci u path type M m).
Proof.
  intros Hw Hres Hby Ht0 Ht HM Hm Hnum Hroom. unfold create. eapply (sys_parent me sb Hly Hfs Hlk devsw_read devsw_write); [exact Hw|]. intros x name R1 Ha Hlen Hname Hbyte. cbn [fst snd].
  destruct (walk true F (start ci path) (elems path)) as [d|] eqn:Ew, x as [dp|]; try done; cbn [arrived] in Ha.
  2:{ subst R1. apply triple_ret. exists 0%nat, F, R, ∅. split_and!; [lia|by constructor|done]. }
  destruct (walk_parent _ _ _ _ Ew) as (fd & Hfd & Hdir). destruct (ref_got_at _ _ _ _ Ha) as (c & Hc & _). pose proof (live_all _ _ (walkable_live _ _ _ _ _ _ _ Hw Ew) _ Hfd) as Hlive.
  destruct (rt_tree _ (wk_rooted _ _ _ _ Hw) d fd Hfd Hdir Hlive) as [Hok Hent]. specialize (Hname ltac:(by eexists)).
  eapply sys_fs_step; [eapply (tr_lock me sb Hly Hfs Hlk devsw_read devsw_write); [exact Hc|apply not_elem_of_empty]|]. rewrite union_empty_r_L.
  destruct (dir_find (f_data fd) (take DIRSIZ (List.last (elems path) []))) as [[k j]|] eqn:Efind.
  - by eapply create_found.
  - eapply sys_fs_step; [eapply (tr_lookup_none me sb Hly Hfs Hlk devsw_read devsw_write); try done; [by apply elem_of_singleton|by rewrite Hname]|]. cbv iota beta. eapply create_new; try done; auto.
Qed.
End SysCreate.

(** * Links: [sys_link] and [sys_unlink] *)

Section SysLink.
Context {L S K P : Type} `{HL : Locks L} `{HB : Blocks S} `{HK : Lock K} `{HP : Pipes P} (me : Z) (sb : superblock) (Hly : layout sb) (Hfs : forall n, fs_block sb n -> bk_fs n)
  (Hlk : (NINODE < lk_count)%nat).
Notation fs := (fs (L := L) (S := S)).
Notation sysfiles := (sysfiles (L := L) (S := S) (K := K) (P := P)).
Context (devsw_read : Z -> option (nat -> Z -> M fs (Z * list Z))) (devsw_write : Z -> option (nat -> list Z -> M fs Z)).
Implicit Types (F : gmap Z file) (R : gmap nat (Z * Z)) (lk : gset nat) (dk : history) (tbl : list File.file) (o : list (option nat)) (u : uproc) (w : world).
Notation frep := (frep me sb).
Notation srep := (srep (K := K) (P := P) me sb).
Notation triple := (triple srep).
Notation isdirempty_loop := (isdirempty_loop devsw_read).
Notation isdirempty := (isdirempty devsw_read).

(** ** Empty directories *)

Lemma isdirempty_loop_ok t dk n F R lk p i c f : R !! p = Some (i, c) -> p ∈ lk -> F !! i = Some f -> f_type f = T_DIR -> dir_ok (f_data f) -> forall fuel k, (nent (f_data f) - k < fuel)%nat ->
  FsTriple.returns frep (mkFw t dk n F R lk) (isdirempty_loop fuel p (16 * Z.of_nat k)) (forallb (fun k => de_inum (ent (f_data f) k) =? 0) (seq k (nent (f_data f) - k))) (mkFw t dk n F R lk).
Proof.
  intros Hp Hl Hf Ht Hok fuel. induction fuel as [|fuel IH]; intros k Hk; [lia|]. cbn [Sysfile.isdirempty_loop]. eapply triple_bind; [by eapply (tr_seen me sb Hlk devsw_read devsw_write)|].
  intros x w' ((_ & _ & _ & _ & Hsz & Hmax) & ->). rewrite Hsz. unfold dir_ok in Hok. destruct (Z.ltb_spec (16 * Z.of_nat k) (Z.of_nat (length (f_data f)))) as [Hlt|Hge].
  2:{ replace (nent (f_data f) - k)%nat with 0%nat by lia. by apply triple_ret. }
  replace (nent (f_data f) - k)%nat with (Datatypes.S (nent (f_data f) - Datatypes.S k)) by lia. cbn [seq forallb].
  eapply triple_step; [eapply (tr_read me sb Hly Hfs Hlk devsw_read devsw_write _ _ _ _ _ _ p i c f); [done|done|done|by rewrite Ht|unfold uint32, MAXFILE, NDIRECT, NINDIRECT in *; lia|done]|].
  rewrite read_ent by (done || lia). cbn [fst snd]. change (negb (16 =? sizeof_dirent)) with false. cbv iota. destruct (de_inum (ent (f_data f) k) =? 0); cbn [negb andb]; [|by apply triple_ret].
  replace (16 * Z.of_nat k + sizeof_dirent) with (16 * Z.of_nat (Datatypes.S k)) by (unfold sizeof_dirent; lia). apply IH. lia.
Qed.
Lemma isdirempty_ok t dk n F R lk p i c f : R !! p = Some (i, c) -> p ∈ lk -> F !! i = Some f -> f_type f = T_DIR -> dir_ok (f_data f) ->
  FsTriple.returns frep (mkFw t dk n F R lk) (isdirempty p) (dir_empty (f_data f)) (mkFw t dk n F R lk).
Proof.
  intros Hp Hl Hf Ht Hok. unfold Sysfile.isdirempty. eapply triple_bind; [by eapply (tr_seen me sb Hlk devsw_read devsw_write)|]. intros x w' ((_ & _ & _ & _ & Hsz & Hmax) & ->).
  change (2 * sizeof_dirent) with (16 * Z.of_nat 2). pose proof (dir_fuel_enough Hlk devsw_read devsw_write f Hok). eapply isdirempty_loop_ok; [done..|]. rewrite Hsz. lia.
Qed.

(** ** Removing an entry *)

Lemma clear_blocks k f : dir_ok (f_data f) -> (k < nent (f_data f))%nat -> blocks_for (clear_entry k f) = blocks_for f.
Proof. intros Hok Hk. unfold blocks_for, clear_entry. cbn [with_data f_data]. rewrite insert_length by (done || lia). unfold dir_ok in Hok. rewrite Hok. do 4 f_equal. lia. Qed.
Lemma tr_clear dk n F R lk p i c f k : R !! p = Some (i, c) -> p ∈ lk -> F !! i = Some f -> f_type f = T_DIR -> dir_ok (f_data f) -> (k < nent (f_data f))%nat -> Z.of_nat (length (f_data f)) <= MAXFILE * 512 ->
  (usage sb F <= length (data_blocks sb))%nat -> (n + (nbitmap sb + 4) <= bk_room)%nat ->
  FsTriple.returns frep (mkFw true dk n F R lk) (writei devsw_write p (replicate 16 0) (16 * Z.of_nat k) sizeof_dirent) 16 (mkFw true dk (n + (nbitmap sb + 4)) (<[i := clear_entry k f]> F) R lk).
Proof.
  intros Hp Hl Hf Ht Hok Hk Hmax Hu Hroom. assert (cost sb (IWrite p (16 * Z.of_nat k)%Z (replicate 16 0%Z)) = nbitmap sb + 4)%nat as Hcost.
  { cbn [cost]. change (Z.of_nat (length (replicate 16 0))) with 16. unfold spans. change (16 <=? 0) with false. cbv iota. Z.to_euclidean_division_equations. lia. }
  pose proof (tr_write me sb Hly Hfs Hlk devsw_read devsw_write dk n F R lk p i c f (16 * Z.of_nat k) (replicate 16 0) Hp Hl Hf) as Hw. rewrite Hcost in Hw. replace (Z.to_nat (16 * Z.of_nat k)) with (16 * k)%nat in Hw by lia.
  fold (clear_entry k f) in Hw. apply Hw; [by rewrite Ht|unfold uint32, dir_ok, MAXFILE, NDIRECT, NINDIRECT in *; lia|done| |rewrite clear_blocks by done; lia|done].
  unfold fits. change (Z.of_nat (length (replicate 16 0))) with 16. unfold dir_ok in Hok. lia.
Qed.

Section Unlink.
Context (F : gmap Z file) (R : gmap nat (Z * Z)) (dk : history) (tbl : list File.file) (o : list (option nat)) (cw : nat) (ci : Z) (u : uproc) (path : list Z).
Context (Hwalk : walkable F R cw ci) (Hsane : sane F) (Hcache : (size R + 3 <= NINODE)%nat) (Huse : (usage sb F <= length (data_blocks sb))%nat)
  (Hroom : (2 * nbitmap sb + 8 <= bk_room)%nat) (Hcom : committed sb dk F).
Notation ended := (walk true F (start ci path) (elems path)).
Notation nm := (take DIRSIZ (List.last (elems path) [])).
Definition unlinked (r : Z) (w' : world) : Prop := exists F', unlinks F R ended nm r F' /\ closed sb dk F' R tbl o cw u F w'.
Context (d : Z) (fd : file) (dp : nat) (R1 : gmap nat (Z * Z)) (Hend : ended = Some d) (Hgot : ref_got R d dp R1) (Hfd : F !! d = Some fd) (Hdir : f_type fd = T_DIR) (Hlive : f_nlink fd <> 0)
  (Hok : dir_ok (f_data fd)) (k : nat) (j : Z) (h : file) (Hfind : dir_find (f_data fd) nm = Some (k, j)) (Hj : F !! j = Some h) (Hjl : f_nlink h <> 0) (Hn1 : nm <> [46]) (Hn2 : nm <> [46; 46])
  (Hmax : Z.of_nat (length (f_data fd)) <= MAXFILE * 512).
Context (ip : nat) (R2 : gmap nat (Z * Z)) (Hgot2 : ref_got R1 j ip R2).

(** The rest of the call, when both inodes are locked and the entry may go. *)
Lemma unlink_done : (f_type h = T_DIR -> dir_empty (f_data h) = true) ->
  triple (mkWorld (mkFw true dk 0 F R2 ({[ip]} ∪ {[dp]})) tbl o cw u)
    (let! n := on_fs (writei devsw_write dp (replicate 16 0) (16 * Z.of_nat k) sizeof_dirent) in
     if negb (n =? sizeof_dirent) then panic "unlink: writei" else
     let! x := on_fs (geti ip) in
     (if d_type (i_d x) =? T_DIR then seti dp (fun d => set_nlink (s16 (d_nlink d - 1)) d) ;;; on_fs (iupdate dp) else ret tt) ;;;
     on_fs (iunlockput me dp) ;;;
     seti ip (fun d => set_nlink (s16 (d_nlink d - 1)) d) ;;; on_fs (iupdate ip) ;;;
     on_fs (iunlockput me ip) ;;; op_end ;;; ret 0) unlinked.
Proof.
  intros Hemp. assert (d <> j) as Hdj by (intros ->; by destruct (sn_self _ Hsane j fd nm k Hfd Hdir Hlive Hfind)). assert (k < nent (f_data fd))%nat as Hk by (apply dir_find_Some in Hfind as [Hk%find_from_Some _]; lia).
  destruct (ref_got_at _ _ _ _ Hgot2) as (c2 & Hc2 & _). destruct (ref_got_next _ _ _ _ _ _ _ Hgot Hgot2) as (c1 & Hc1 & _ & _ & Hgot3). assert (ip <> dp) as Hne by (intros ->; congruence).
  pose proof (sn_nlink _ Hsane j h Hj) as Hh0. pose proof (sn_nlink _ Hsane d fd Hfd) as Hd0.
  eapply sys_fs_step; [eapply (tr_clear dk 0 F R2 _ dp d c1 fd k); try done; [set_solver|lia]|]. change (negb (16 =? sizeof_dirent)) with false. cbv iota.
  eapply sys_fs_bind; [eapply (tr_seen me sb Hlk devsw_read devsw_write _ _ _ _ _ _ ip j c2 h); [done|set_solver|by rewrite lookup_insert_ne]|]. intros x v' ((_ & _ & Hty & _) & ->). rewrite Hty. clear x Hty.
  set (fd2 := clear_entry k (if f_type h =? T_DIR then with_nlink (f_nlink fd - 1) fd else fd)).
  apply triple_bind with (fun _ w' => exists n, (n <= nbitmap sb + 5)%nat /\ w' = mkWorld (mkFw true dk n (<[d := fd2]> F) R2 ({[ip]} ∪ {[dp]})) tbl o cw u).
  { unfold fd2. destruct (Z.eqb_spec (f_type h) T_DIR) as [E|E]; [|apply triple_ret; exists (0 + (nbitmap sb + 4))%nat; split; [lia|done]].
    pose proof (sn_parent _ Hsane d fd nm k j h Hfd Hdir Hlive Hfind Hn1 Hn2 Hj E) as Hp2.
    eapply sys_meta_last; [eapply (tr_nlink me sb Hly Hfs Hlk _ _ _ _ _ dp d c1 _ (-1)); [done|set_solver|apply lookup_insert_eq|cbn [clear_entry with_data f_nlink]; lia|lia]|].
    exists (0 + (nbitmap sb + 4) + 1)%nat. split; [lia|]. by rewrite insert_insert_eq. }
  intros _ w' (n & Hn & ->). assert (f_nlink fd2 <> 0) as Hfd2.
  { unfold fd2. destruct (Z.eqb_spec (f_type h) T_DIR) as [E|E]; cbn [clear_entry with_data with_nlink f_nlink]; [|done]. pose proof (sn_parent _ Hsane d fd nm k j h Hfd Hdir Hlive Hfind Hn1 Hn2 Hj E). lia. }
  eapply sys_fs_step; [eapply (tr_unlockput me sb Hly Hfs Hlk devsw_read devsw_write _ _ _ _ _ _ dp d c1 fd2); [done|set_solver|apply lookup_insert_eq|done]|].
  replace (({[ip]} ∪ {[dp]}) ∖ {[dp]}) with ({[ip]} : gset nat) by set_solver. destruct (ref_got_at _ _ _ _ Hgot3) as (c3 & Hc3 & _ & _ & Hput). set (R3 := ref_put dp d c1 R2) in *.
  eapply sys_meta; [eapply (tr_nlink me sb Hly Hfs Hlk _ _ _ _ _ ip j c3 h (-1)); [done|by apply elem_of_singleton|by rewrite lookup_insert_ne|lia|lia]|].
  fold (less F d fd k j h). assert (less F d fd k j h !! j = Some (with_nlink (f_nlink h - 1) h)) as Hlj by apply lookup_insert_eq.
  destruct (decide (f_nlink h = 1 /\ c3 = 1)) as [[Hn1' ->]|Hkeep].
  - eapply sys_fs_step; [eapply (tr_unlockput_last me sb Hly Hfs Hlk devsw_read devsw_write _ _ _ _ _ ip j); [done|by apply elem_of_singleton|done|cbn [with_nlink f_nlink]; lia|lia]|].
    rewrite difference_diag_L. apply (sys_end me sb _ _ _ _ _ _ _ _ F); [done|]. intros w' Hw'. eexists. split; [|rewrite <- Hput; exact Hw']. eapply Un_freed; try done.
    intros (q & c & Hq). inversion Hgot3 as [c0 Hc0 Hq0 E|Hq0 Hno E]; [rewrite <- E, lookup_insert_eq in Hc3; injection Hc3; lia|]. by destruct (Hno _ _ Hq).
  - eapply sys_fs_step; [eapply (tr_unlockput me sb Hly Hfs Hlk devsw_read devsw_write _ _ _ _ _ _ ip j c3); [done|by apply elem_of_singleton|done|cbn [with_nlink f_nlink]; intros ? ->; apply Hkeep; lia]|].
    rewrite difference_diag_L, Hput. apply (sys_end me sb _ _ _ _ _ _ _ _ F); [done|]. intros w' Hw'. eexists. split; [|exact Hw']. eapply Un_kept; try done.
    intros H1. inversion Hgot3 as [c0 Hc0 Hq0 E|Hq0 Hno E]; [by exists ip, c0|]. rewrite <- E, lookup_insert_eq in Hc3. injection Hc3 as <-. by destruct Hkeep.
Qed.
End Unlink.

(** [sys_unlink]: the entry goes, and the file with its last link and
    reference. *)
Lemma unlink_ok F R dk tbl o cw ci u path : argstr u 0 = Some path -> walkable F R cw ci -> sane F -> (size R + 3 <= NINODE)%nat -> (usage sb F <= length (data_blocks sb))%nat -> (2 * nbitmap sb + 8 <= bk_room)%nat ->
  triple (mkWorld (mkFw false dk 0 F R ∅) tbl o cw u) (sys_unlink me devsw_read devsw_write) (unlinked F R dk tbl o cw ci u path).
Proof.
  intros Harg Hw Hsane Hcache Huse Hroom s Hs. pose proof (frep_committed me sb _ _ _ _ _ (sr_fs _ _ _ _ Hs)) as Hcom. pose proof (fun i f => frep_bound me sb _ _ _ _ _ _ _ i f (sr_fs _ _ _ _ Hs)) as Hbnd. revert s Hs.
  change (triple (mkWorld (mkFw false dk 0 F R ∅) tbl o cw u) (sys_unlink me devsw_read devsw_write) (unlinked F R dk tbl o cw ci u path)).
  unfold sys_unlink, getstr. apply (sys_arg me sb _ (fun u => argstr u 0)). cbn [w_user]. rewrite Harg. apply sys_begin. eapply (sys_parent me sb Hly Hfs Hlk devsw_read devsw_write); [exact Hw|]. intros x name R1 Ha Hlen Hname _. cbn [fst snd]. cbv zeta.
  destruct (walk true F (start ci path) (elems path)) as [d|] eqn:Ew, x as [dp|]; try done; cbn [arrived] in Ha.
  2:{ subst R1. apply (sys_end me sb _ _ _ _ _ _ _ _ F); [done|]. intros w' Hw'. exists F. split; [by constructor|done]. }
  destruct (walk_parent _ _ _ _ Ew) as (fd & Hfd & Hdir). destruct (ref_got_at _ _ _ _ Ha) as (c & Hc & _ & _ & Hput). pose proof (live_all _ _ (walkable_live _ _ _ _ _ _ _ Hw Ew) _ Hfd) as Hlive.
  destruct (rt_tree _ (wk_rooted _ _ _ _ Hw) d fd Hfd Hdir Hlive) as [Hok Hent]. specialize (Hname ltac:(by eexists)). set (nm := take DIRSIZ (List.last (elems path) [])) in *.
  eapply sys_fs_step; [eapply (tr_lock me sb Hly Hfs Hlk devsw_read devsw_write); [exact Hc|apply not_elem_of_empty]|]. rewrite union_empty_r_L.
  assert (unlinks F R (Some d) nm (-1) F -> triple (mkWorld (mkFw true dk 0 F R1 {[dp]}) tbl o cw u) (on_fs (iunlockput me dp) ;;; op_end ;;; ret (-1)) (unlinked F R dk tbl o cw ci u path)) as Hbad.
  { intros Hun. eapply sys_fs_step; [eapply (tr_unlockput me sb Hly Hfs Hlk devsw_read devsw_write); [exact Hc|by apply elem_of_singleton|done|done]|]. rewrite difference_diag_L, Hput.
    apply (sys_end me sb _ _ _ _ _ _ _ _ F); [done|]. intros w' Hw'. exists F. split; [by rewrite Ew|done]. }
  destruct ((namecmp name [46] =? 0) || (namecmp name [46; 46] =? 0)) eqn:Edot.
  { apply Hbad. eapply Un_dot; [done|]. apply orb_true_iff in Edot as [E%Z.eqb_eq%namecmp_spec|E%Z.eqb_eq%namecmp_spec]; rewrite <- Hname; [by left|by right]. }
  apply orb_false_iff in Edot as [Hn1%Z.eqb_neq Hn2%Z.eqb_neq]. rewrite namecmp_spec in Hn1, Hn2. rewrite Hname in Hn1, Hn2. change (cname DIRSIZ [46]) with [46] in Hn1. change (cname DIRSIZ [46; 46]) with [46; 46] in Hn2.
  destruct (dir_find (f_data fd) nm) as [[k j]|] eqn:Efind.
  2:{ eapply sys_fs_step; [eapply (tr_lookup_none me sb Hly Hfs Hlk devsw_read devsw_write); try done; [by apply elem_of_singleton|by rewrite Hname]|]. cbv iota beta. apply Hbad. by eapply Un_missing. }
  destruct (Hent _ _ _ Efind) as (h & Hj & Hjl). pose proof (ref_got_size _ _ _ _ Ha).
  eapply sys_fs_bind; [eapply (tr_lookup me sb Hly Hfs Hlk devsw_read devsw_write true dk 0 F R1 {[dp]} dp d c fd name k j h); try done; [by apply elem_of_singleton|by rewrite Hname|lia]|].
  intros x v' (ip & R2 & -> & Hgot2 & Hq & ->). cbv iota beta. destruct (ref_got_at _ _ _ _ Hgot2) as (c2 & Hc2 & _ & _ & Hput2).
  assert (ip <> dp) as Hne. { intros ->. destruct (Hq ltac:(by apply elem_of_singleton)) as [c' Hc']. rewrite Hc in Hc'. injection Hc' as <- _. by destruct (sn_self _ Hsane d fd nm k Hfd Hdir Hlive Efind). }
  eapply sys_fs_step; [eapply (tr_lock me sb Hly Hfs Hlk devsw_read devsw_write); [exact Hc2|by apply not_elem_of_singleton]|].
  eapply sys_fs_bind; [eapply (tr_seen me sb Hlk devsw_read devsw_write _ _ _ _ _ _ ip j c2 h); [done|set_solver|done]|]. intros x v' ((_ & _ & Hty & Hnl & _) & ->). rewrite Hty, Hnl. pose proof (sn_nlink _ Hsane j h Hj). replace (f_nlink h <? 1) with false by lia.
  apply triple_bind with (fun r w' => r = (f_type h =? T_DIR) && negb (dir_empty (f_data h)) /\ w' = mkWorld (mkFw true dk 0 F R2 ({[ip]} ∪ {[dp]})) tbl o cw u).
  { destruct (Z.eqb_spec (f_type h) T_DIR) as [E|E]; [|by apply triple_ret]. eapply sys_fs_step; [eapply isdirempty_ok; [done|set_solver|done|done|]|by apply triple_ret]. by destruct (rt_tree _ (wk_rooted _ _ _ _ Hw) j h Hj E Hjl). }
  intros busy w' [-> ->]. destruct ((f_type h =? T_DIR) && negb (dir_empty (f_data h))) eqn:Ebusy.
  - apply andb_true_iff in Ebusy as [E1%Z.eqb_eq E2%negb_true_iff]. eapply sys_fs_step; [eapply (tr_unlockput me sb Hly Hfs Hlk devsw_read devsw_write _ _ _ _ _ _ ip j c2); [done|set_solver|done|done]|].
    replace (({[ip]} ∪ {[dp]}) ∖ {[ip]}) with ({[dp]} : gset nat) by set_solver. rewrite Hput2. apply Hbad. by eapply Un_busy.
  - destruct (Hbnd d fd Hfd) as [_ Hmax]. eapply unlink_done; try done. intros E. rewrite (proj2 (Z.eqb_eq _ _) E) in Ebusy. by apply negb_false_iff in Ebusy.
Qed.

(** ** Adding an entry *)

Lemma with_nlink_id f : with_nlink (f_nlink f) f = f.
Proof. by destruct f. Qed.
Lemma rooted_nlink F i f n : rooted F -> F !! i = Some f -> f_nlink f <> 0 -> n <> 0 -> rooted (<[i := with_nlink n f]> F).
Proof.
  intros [HT (r & Hr & Hr0)] Hf Hn0 Hn. assert (forall j h, F !! j = Some h -> f_nlink h <> 0 -> exists h', <[i := with_nlink n f]> F !! j = Some h' /\ f_nlink h' <> 0) as Hup.
  { intros j h Hj Hh. destruct (decide (j = i)) as [->|Hne]; [rewrite lookup_insert_eq; by eexists|rewrite lookup_insert_ne by done; eauto]. }
  split; [|by apply (Hup _ r)]. intros j g [[<- <-]|[_ Hj]]%lookup_insert_Some Ht Hg.
  - destruct (HT i f Hf Ht Hn0) as [Hok Hent]. split; [done|]. intros nm k z Hz. destruct (Hent nm k z Hz) as (h & Hh & Hh0). by eapply Hup.
  - destruct (HT j g Hj Ht Hg) as [Hok Hent]. split; [done|]. intros nm k z Hz. destruct (Hent nm k z Hz) as (h & Hh & Hh0). by eapply Hup.
Qed.
Lemma walk_nlink b F i f n es x : F !! i = Some f -> walk b (<[i := with_nlink n f]> F) x es = walk b F x es.
Proof. intros Hf. apply walk_ext. intros j. destruct (decide (j = i)) as [->|Hne]; [by rewrite lookup_insert_eq, Hf|by rewrite lookup_insert_ne]. Qed.

Lemma walkable_linked F R cw ci i f ip R1 : walkable F R cw ci -> ref_got R i ip R1 -> F !! i = Some f -> f_nlink f <> 0 -> 0 <= f_nlink f -> (size R + 3 <= NINODE)%nat ->
  walkable (<[i := with_nlink (f_nlink f + 1) f]> F) R1 cw ci.
Proof.
  intros [W1 [cc W2] W3 _] Hgot Hf Hfn H0 Hsz. pose proof (ref_got_size _ _ _ _ Hgot). split; [by apply rooted_nlink; [..|lia]| | |lia].
  - inversion Hgot; subst; destruct (decide (cw = ip)) as [->|]; rewrite ?lookup_insert_eq, ?lookup_insert_ne by done; simplify_eq; eauto.
  - destruct W3 as (g & Hg & Hg0). destruct (decide (ci = i)) as [->|]; [exists (with_nlink (f_nlink f + 1) f); rewrite lookup_insert_eq; split; [done|simpl; lia]|exists g; by rewrite lookup_insert_ne].
Qed.

Section Link.
Context (F : gmap Z file) (R : gmap nat (Z * Z)) (dk : history) (tbl : list File.file) (o : list (option nat)) (cw : nat) (ci : Z) (u : uproc) (old new : list Z).
Context (Hwalk : walkable F R cw ci) (Hsane : sane F) (Hres : resources sb F R) (Hby : Forall byte new) (Hroom : (nbitmap sb + 6 <= bk_room)%nat) (Hcom : committed sb dk F)
  (Hbound : forall i f, F !! i = Some f -> 0 <= i < sb_ninodes sb /\ Z.of_nat (length (f_data f)) <= MAXFILE * 512).
Notation target := (walk false F (start ci old) (elems old)).
Notation ended := (walk true F (start ci new) (elems new)).
Notation nm := (take DIRSIZ (List.last (elems new) [])).
Context (Hn1 : nm <> [46]) (Hn2 : nm <> [46; 46]).
Definition linked (r : Z) (w' : world) : Prop := exists F', links_to F target ended nm r F' /\ closed sb dk F' R tbl o cw u F w'.
Context (i : Z) (f : file) (ip : nat) (R1 : gmap nat (Z * Z)) (Htarget : target = Some i) (Hgot : ref_got R i ip R1) (Hf : F !! i = Some f) (Hfn : f_nlink f <> 0) (Hft : f_type f <> T_DIR) (Hmax : f_nlink f < 2 ^ 15 - 1).
Notation F1 := (<[i := with_nlink (f_nlink f + 1) f]> F).

(** The label [bad]: the link is taken back. *)
Lemma link_bad n : (n + 1 <= bk_room)%nat -> links_to F target ended nm (-1) F ->
  triple (mkWorld (mkFw true dk n F1 R1 ∅) tbl o cw u)
    (on_fs (ilock me ip) ;;; seti ip (fun d => set_nlink (s16 (d_nlink d - 1)) d) ;;; on_fs (iupdate ip) ;;; on_fs (iunlockput me ip) ;;; op_end ;;; ret (-1)) linked.
Proof.
  intros Hn Hli. destruct (ref_got_at _ _ _ _ Hgot) as (c & Hc & _ & _ & Hput). pose proof (sn_nlink _ Hsane i f Hf).
  eapply sys_fs_step; [eapply (tr_lock me sb Hly Hfs Hlk devsw_read devsw_write); [exact Hc|apply not_elem_of_empty]|]. rewrite union_empty_r_L.
  eapply sys_meta; [eapply (tr_nlink me sb Hly Hfs Hlk _ _ _ _ _ ip i c _ (-1)); [done|by apply elem_of_singleton|apply lookup_insert_eq|cbn [with_nlink f_nlink]; lia|lia]|].
  rewrite insert_insert_eq. change (with_nlink (f_nlink (with_nlink (f_nlink f + 1) f) + -1) (with_nlink (f_nlink f + 1) f)) with (with_nlink (f_nlink f + 1 + -1) f).
  replace (f_nlink f + 1 + -1) with (f_nlink f) by lia. rewrite with_nlink_id, insert_id by done.
  eapply sys_fs_step; [eapply (tr_unlockput me sb Hly Hfs Hlk devsw_read devsw_write); [exact Hc|by apply elem_of_singleton|done|done]|]. rewrite difference_diag_L, Hput.
  apply (sys_end me sb _ _ _ _ _ _ _ _ F); [done|]. intros w' Hw'. by exists F.
Qed.

Lemma link_new : triple (mkWorld (mkFw true dk 1 F1 R1 ∅) tbl o cw u)
  (let! r := path_parent me devsw_read new in
   match r.1 with
   | None => on_fs (ilock me ip) ;;; seti ip (fun d => set_nlink (s16 (d_nlink d - 1)) d) ;;; on_fs (iupdate ip) ;;; on_fs (iunlockput me ip) ;;; op_end ;;; ret (-1)
   | Some dp =>
       on_fs (ilock me dp) ;;; let! y := on_fs (geti dp) in let! x := on_fs (geti ip) in
       let! n := if negb (i_dev y =? i_dev x) then ret (-1) else on_fs (dirlink me devsw_read devsw_write dp r.2 (i_inum x)) in
       if n <? 0 then
         on_fs (iunlockput me dp) ;;; on_fs (ilock me ip) ;;; seti ip (fun d => set_nlink (s16 (d_nlink d - 1)) d) ;;; on_fs (iupdate ip) ;;; on_fs (iunlockput me ip) ;;; op_end ;;; ret (-1)
       else on_fs (iunlockput me dp) ;;; on_fs (iput me ip) ;;; op_end ;;; ret 0
   end) linked.
Proof.
  pose proof Hwalk as [W1 [cc W2] W3 _]. pose proof (rs_cache _ _ _ Hres). pose proof (rs_blocks _ _ _ Hres) as Hblk. pose proof (ref_got_size _ _ _ _ Hgot). destruct (ref_got_at _ _ _ _ Hgot) as (c & Hc & _ & _ & Hput). pose proof (sn_nlink _ Hsane i f Hf).
  pose proof (walkable_linked F R cw ci i f ip R1 Hwalk Hgot Hf Hfn ltac:(lia) ltac:(lia)) as Hw1.
  eapply (sys_parent me sb Hly Hfs Hlk devsw_read devsw_write); [exact Hw1|]. intros x name R2 Ha Hlen Hname Hbyte. cbn [fst snd]. rewrite walk_nlink in Ha by done.
  destruct ended as [d|] eqn:Ew, x as [dp|]; try done; cbn [arrived] in Ha; [|subst R2; apply link_bad; [lia|rewrite Ew; by eapply Li_parent]].
  destruct (walk_parent _ _ _ _ Ew) as (fd & Hfd & Hdir). assert (i <> d) as Hid by (intros ->; congruence). destruct (ref_got_at _ _ _ _ Ha) as (c2 & Hc2 & _ & _ & Hput2). pose proof (live_all _ _ (walkable_live _ _ _ _ _ _ _ Hwalk Ew) _ Hfd) as Hlive.
  destruct (rt_tree _ W1 d fd Hfd Hdir Hlive) as [Hok Hent]. specialize (Hname ltac:(by eexists)). assert (F1 !! d = Some fd) as Hfd1 by (by rewrite lookup_insert_ne). pose proof (ref_got_size _ _ _ _ Ha).
  destruct (rs_dirs _ _ _ Hres d fd Hfd Hdir) as (Hd & _ & Hsz). destruct (ref_got_next _ _ _ _ _ _ _ Hgot Ha) as (c3 & Hc3 & _).
  eapply sys_fs_step; [eapply (tr_lock me sb Hly Hfs Hlk devsw_read devsw_write); [exact Hc2|apply not_elem_of_empty]|]. rewrite union_empty_r_L.
  eapply sys_fs_bind; [eapply (tr_seen me sb Hlk devsw_read devsw_write); [exact Hc2|by apply elem_of_singleton|done]|]. intros y v' ((-> & _) & ->).
  eapply sys_fs_bind; [eapply (tr_ident me sb); exact Hc3|]. intros x v' (-> & -> & ->). change (negb (1 =? 1)) with false. cbv iota.
  destruct (dir_find (f_data fd) nm) as [[k j]|] eqn:Efind.
  - destruct (rt_tree _ (wk_rooted _ _ _ _ Hw1) d fd Hfd1 Hdir Hlive) as [_ Hent1]. destruct (Hent1 _ _ _ Efind) as (h & Hj & _). assert (j <> d) as Hjd by (intros ->; by destruct (sn_self _ Hsane d fd nm k Hfd Hdir Hlive Efind)).
    eapply sys_fs_step; [eapply (tr_dirlink_present me sb Hly Hfs Hlk devsw_read devsw_write); try done; [by apply elem_of_singleton|by rewrite Hname|lia|]|].
    { intros q cq Hq ->%elem_of_singleton. congruence. }
    change (-1 <? 0) with true. cbv iota. eapply sys_fs_step; [eapply (tr_unlockput me sb Hly Hfs Hlk devsw_read devsw_write); [exact Hc2|by apply elem_of_singleton|done|done]|]. rewrite difference_diag_L, Hput2.
    apply link_bad; [lia|]. by eapply Li_taken.
  - pose proof (add_entry_blocks i nm fd Hok) as Hb. rewrite length_take in Hb. specialize (Hb ltac:(lia)). pose proof (dir_free_le (f_data fd)).
    assert (usage sb F1 = usage sb F) as Hu1. { destruct (Hbound i f Hf) as [Hi _]. pose proof (usage_insert sb F i f (with_nlink (f_nlink f + 1) f) Hi Hf) as Hu. change (blocks_for (with_nlink (f_nlink f + 1) f)) with (blocks_for f) in Hu. lia. }
    eapply sys_fs_step; [eapply (tr_dirlink me sb Hly Hfs Hlk devsw_read devsw_write dk 1 F1 R2 _ dp d c2 fd name i); try done; [by apply elem_of_singleton|auto|by rewrite Hname|unfold MAXFILE, NDIRECT, NINDIRECT; lia|rewrite Hname; lia|lia]|].
    change (0 <? 0) with false. cbv iota. rewrite Hname. fold (more F d fd nm i f).
    eapply sys_fs_step; [eapply (tr_unlockput me sb Hly Hfs Hlk devsw_read devsw_write); [exact Hc2|by apply elem_of_singleton|apply lookup_insert_eq|done]|]. rewrite difference_diag_L, Hput2.
    eapply sys_fs_step; [eapply (tr_put me sb Hlk devsw_read devsw_write _ _ _ _ _ _ ip i c (with_nlink (f_nlink f + 1) f)); [done|apply not_elem_of_empty|unfold more; rewrite lookup_insert_ne by done; apply lookup_insert_eq|cbn [with_nlink f_nlink]; lia]|]. rewrite Hput.
    apply (sys_end me sb _ _ _ _ _ _ _ _ F); [done|]. intros w' Hw'. eexists. split; [by eapply Li_done|done].
Qed.
End Link.

(** [sys_link]: the file gets a name more; a name that is taken, a missing
    directory or a directory to link leave the files as they were. *)
Lemma link_ok F R dk tbl o cw ci u old new : argstr u 0 = Some old -> argstr u 1 = Some new -> walkable F R cw ci -> sane F -> resources sb F R -> Forall byte new -> (nbitmap sb + 6 <= bk_room)%nat ->
  take DIRSIZ (List.last (elems new) []) <> [46] -> take DIRSIZ (List.last (elems new) []) <> [46; 46] -> (forall i f, F !! i = Some f -> f_nlink f < 2 ^ 15 - 1) ->
  triple (mkWorld (mkFw false dk 0 F R ∅) tbl o cw u) (sys_link me devsw_read devsw_write) (linked F R dk tbl o cw ci u old new).
Proof.
  intros Ha0 Ha1 Hw Hsane Hres Hby Hroom Hn1 Hn2 Hmax s Hs. pose proof (frep_committed me sb _ _ _ _ _ (sr_fs _ _ _ _ Hs)) as Hcom. pose proof (fun i f => frep_bound me sb _ _ _ _ _ _ _ i f (sr_fs _ _ _ _ Hs)) as Hbnd. revert s Hs.
  change (triple (mkWorld (mkFw false dk 0 F R ∅) tbl o cw u) (sys_link me devsw_read devsw_write) (linked F R dk tbl o cw ci u old new)).
  unfold sys_link, getstr. apply (sys_arg me sb _ (fun u => argstr u 0)), (sys_arg me sb _ (fun u => argstr u 1)). cbn [w_user]. rewrite Ha0, Ha1. apply sys_begin.
  eapply (sys_namei me sb Hly Hfs Hlk devsw_read devsw_write); [exact Hw|]. intros x R1 Ha.
  destruct (walk false F (start ci old) (elems old)) as [i|] eqn:Ew, x as [ip|]; try done; cbn [arrived] in Ha.
  2:{ subst R1. apply (sys_end me sb _ _ _ _ _ _ _ _ F); [done|]. intros w' Hw'. exists F. split; [by constructor|done]. }
  destruct (walkable_live _ _ _ _ _ _ _ Hw Ew) as (f & Hf & Hfn). destruct (ref_got_at _ _ _ _ Ha) as (c & Hc & _ & _ & Hput).
  eapply sys_fs_step; [eapply (tr_lock me sb Hly Hfs Hlk devsw_read devsw_write); [exact Hc|apply not_elem_of_empty]|]. rewrite union_empty_r_L.
  eapply sys_fs_bind; [eapply (tr_seen me sb Hlk devsw_read devsw_write); [exact Hc|by apply elem_of_singleton|done]|]. intros x v' ((_ & _ & Hty & _) & ->). rewrite Hty.
  destruct (Z.eqb_spec (f_type f) T_DIR) as [Ht|Ht].
  - eapply sys_fs_step; [eapply (tr_unlockput me sb Hly Hfs Hlk devsw_read devsw_write); [exact Hc|by apply elem_of_singleton|done|done]|]. rewrite difference_diag_L, Hput.
    apply (sys_end me sb _ _ _ _ _ _ _ _ F); [done|]. intros w' Hw'. exists F. split; [by eapply Li_dir|done].
  - pose proof (sn_nlink _ Hsane i f Hf). pose proof (Hmax i f Hf).
    eapply sys_meta; [eapply (tr_nlink me sb Hly Hfs Hlk _ _ _ _ _ ip i c f 1); [done|by apply elem_of_singleton|done|lia|lia]|].
    eapply sys_fs_step; [eapply (tr_unlock me sb Hly Hfs Hlk devsw_read devsw_write); [exact Hc|by apply elem_of_singleton]|]. rewrite difference_diag_L. cbv zeta. by apply (link_new F R dk tbl o cw ci u old new).
Qed.
(** A new name that leads back to its directory, such as the dot: [sys_link]
    waits for a lock it holds itself. *)
Lemma link_waits F R dk tbl o cw ci u old new i f d fd k : argstr u 0 = Some old -> argstr u 1 = Some new -> walkable F R cw ci -> (size R + 3 < NINODE)%nat -> (1 <= bk_room)%nat ->
  walk false F (start ci old) (elems old) = Some i -> F !! i = Some f -> f_type f <> T_DIR -> 0 <= f_nlink f < 2 ^ 15 - 1 ->
  walk true F (start ci new) (elems new) = Some d -> F !! d = Some fd -> dir_find (f_data fd) (take DIRSIZ (List.last (elems new) [])) = Some (k, d) ->
  waits srep (mkWorld (mkFw false dk 0 F R ∅) tbl o cw u) (sys_link me devsw_read devsw_write).
Proof.
  intros Ha0 Ha1 Hw Hsz Hroom Ew Hf Ht Hn Ew2 Hfd Hfind. unfold sys_link, getstr.
  apply (waits_from srep _ _ _ (fun x w' => x = Some old /\ w' = mkWorld (mkFw false dk 0 F R ∅) tbl o cw u)); [apply (sys_arg me sb _ (fun u => argstr u 0)); by apply triple_ret|]. intros ? ? [-> ->].
  apply (waits_from srep _ _ _ (fun x w' => x = Some new /\ w' = mkWorld (mkFw false dk 0 F R ∅) tbl o cw u)); [apply (sys_arg me sb _ (fun u => argstr u 1)); by apply triple_ret|]. intros ? ? [-> ->].
  eapply sys_waits_step; [apply tr_begin|].
  apply (waits_from srep _ _ _ (fun x w' => exists R1, w' = mkWorld (mkFw true dk 0 F R1 ∅) tbl o cw u /\ arrived R (Some i) x R1)).
  { eapply (sys_namei me sb Hly Hfs Hlk devsw_read devsw_write); [exact Hw|]. intros x R1 Ha. rewrite Ew in Ha. apply triple_ret. eauto. }
  intros x w' (R1 & -> & Ha). destruct x as [ip|]; [|done]. cbn [arrived] in Ha. destruct (ref_got_at _ _ _ _ Ha) as (c & Hc & _). pose proof (ref_got_size _ _ _ _ Ha). destruct (walkable_live _ _ _ _ _ _ _ Hw Ew) as (f' & Hf' & Hfn). rewrite Hf in Hf'. injection Hf' as <-.
  eapply sys_waits_step; [eapply (tr_lock me sb Hly Hfs Hlk devsw_read devsw_write); [exact Hc|apply not_elem_of_empty]|]. rewrite union_empty_r_L.
  eapply sys_waits_bind; [eapply (tr_seen me sb Hlk devsw_read devsw_write); [exact Hc|by apply elem_of_singleton|exact Hf]|]. intros x v ((_ & _ & Hty & _) & ->). rewrite Hty, (proj2 (Z.eqb_neq _ _) Ht). clear x Hty.
  eapply sys_waits_meta; [eapply (tr_nlink me sb Hly Hfs Hlk _ _ _ _ _ ip i c f 1); [done|by apply elem_of_singleton|done|lia|lia]|].
  eapply sys_waits_step; [eapply (tr_unlock me sb Hly Hfs Hlk devsw_read devsw_write); [exact Hc|by apply elem_of_singleton]|]. rewrite difference_diag_L. cbv zeta.
  pose proof (walkable_linked F R cw ci i f ip R1 Hw Ha Hf Hfn ltac:(lia) ltac:(lia)) as Hw1.
  apply (waits_from srep _ _ _ (fun x w' => exists R2, w' = mkWorld (mkFw true dk 1 (<[i := with_nlink (f_nlink f + 1) f]> F) R2 ∅) tbl o cw u /\ arrived R1 (Some d) x.1 R2 /\ (is_Some x.1 -> cname DIRSIZ x.2 = take DIRSIZ (List.last (elems new) [])))).
  { eapply (sys_parent me sb Hly Hfs Hlk devsw_read devsw_write); [exact Hw1|]. intros x nm R2 Ha2 _ Hnm _. rewrite walk_nlink, Ew2 in Ha2 by done. apply triple_ret. by exists R2. }
  intros [x nm] w' (R2 & -> & Ha2 & Hnm). cbn [fst snd] in *. destruct x as [dp|]; [|done]. cbn [arrived] in Ha2. specialize (Hnm ltac:(by eexists)). destruct (ref_got_at _ _ _ _ Ha2) as (c2 & Hc2 & _). pose proof (ref_got_size _ _ _ _ Ha2). destruct (ref_got_next _ _ _ _ _ _ _ Ha Ha2) as (c3 & Hc3 & _).
  destruct (walk_parent _ _ _ _ Ew2) as (fd' & Hfd' & Hdir). rewrite Hfd in Hfd'. injection Hfd' as <-. pose proof (live_all _ _ (walkable_live _ _ _ _ _ _ _ Hw Ew2) _ Hfd) as Hlive. assert (i <> d) as Hid by (intros ->; congruence).
  assert (<[i := with_nlink (f_nlink f + 1) f]> F !! d = Some fd) as Hfd1 by (by rewrite lookup_insert_ne). destruct (rt_tree _ (wk_rooted _ _ _ _ Hw) d fd Hfd Hdir Hlive) as [Hok _].
  eapply sys_waits_step; [eapply (tr_lock me sb Hly Hfs Hlk devsw_read devsw_write); [exact Hc2|apply not_elem_of_empty]|]. rewrite union_empty_r_L.
  eapply sys_waits_bind; [eapply (tr_seen me sb Hlk devsw_read devsw_write); [exact Hc2|by apply elem_of_singleton|done]|]. intros y v' ((-> & _) & ->).
  eapply sys_waits_bind; [eapply (tr_ident me sb); exact Hc3|]. intros z v' (-> & -> & ->). change (negb (1 =? 1)) with false. cbv iota.
  apply waits_now, sys_fs_waits. eapply (dirlink_waits me sb Hly Hfs Hlk devsw_read devsw_write); [exact Hc2|by apply elem_of_singleton|done..|by rewrite Hnm|lia].
Qed.
End SysLink.
