(* ===== verification/FsConsistent.v ===== *)
(** * Consistent file systems

    Every directory of the tree has its two dots, every other entry leads to a
    file that exists, a directory has one name, and the links of a file are
    the entries that lead to it.  Creating, linking and unlinking keep this. *)

From stdpp Require Import base gmap list strings.
From Stdlib Require Import ZArith Lia.
From S2P Require Import Prelude CString Sync Log BlockSpec Fs FsLayout FsInv FsFile FsRw FsCorrect FsNames FsDir FsPath FsTriple FsTree.
Local Open Scope Z_scope.
Implicit Types (F : gmap Z file) (f fd h : file).

(** ** Counting *)

Fixpoint cnt (p : nat -> bool) (n : nat) : nat := match n with O => 0%nat | Datatypes.S n => (Nat.b2n (p n) + cnt p n)%nat end.
Lemma cnt_ext p q n : (forall k, (k < n)%nat -> p k = q k) -> cnt p n = cnt q n.
Proof. induction n as [|n IH]; intros H; [done|]. simpl. rewrite H by lia. f_equal. apply IH. intros k Hk. apply H. lia. Qed.
Lemma cnt_change p q n k : (k < n)%nat -> (forall j, (j < n)%nat -> j <> k -> p j = q j) -> (cnt p n + Nat.b2n (q k) = cnt q n + Nat.b2n (p k))%nat.
Proof.
  induction n as [|n IH]; intros Hk H; [lia|]. simpl. destruct (decide (k = n)) as [->|Hne]; [rewrite (cnt_ext p q n); [lia|]; intros j Hj; apply H; lia|].
  rewrite (H n) by lia. specialize (IH ltac:(lia) ltac:(intros j Hj; apply H; lia)). lia.
Qed.
Lemma cnt_pos p n : (0 < cnt p n)%nat <-> exists k, (k < n)%nat /\ p k = true.
Proof.
  induction n as [|n IH]; simpl; [split; [lia|intros (k & ? & _); lia]|]. destruct (p n) eqn:E; simpl.
  - split; [|lia]. intros _. exists n. split; [lia|done].
  - rewrite IH. split; intros (k & Hk & Hp); exists k; (split; [|done]); [lia|]. destruct (decide (k = n)) as [->|]; [congruence|lia].
Qed.
Lemma cnt_zero p n : (forall k, (k < n)%nat -> p k = false) -> cnt p n = 0%nat.
Proof. intros H. destruct (cnt p n) eqn:E; [done|]. destruct (proj1 (cnt_pos p n) ltac:(lia)) as (k & Hk & Hp). by rewrite H in Hp. Qed.
Lemma cnt_one p n k : (k < n)%nat -> p k = true -> (forall j, (j < n)%nat -> p j = true -> j = k) -> cnt p n = 1%nat.
Proof.
  intros Hk Hp Hu. pose proof (cnt_change p (fun _ => false) n k Hk) as H. rewrite Hp, (cnt_zero (fun _ => false)) in H by done. simpl in H. rewrite Nat.add_0_r in H. apply H. intros j Hj Hne. destruct (p j) eqn:E; [|done]. by destruct Hne; apply Hu.
Qed.

(** The sum of a quantity over the files. *)
Definition msum (g : file -> nat) F : nat := sum_list ((fun x => g x.2) <$> map_to_list F).
Lemma msum_perm g (l1 l2 : list (Z * file)) : l1 ≡ₚ l2 -> sum_list ((fun x => g x.2) <$> l1) = sum_list ((fun x => g x.2) <$> l2).
Proof. induction 1; csimpl; lia. Qed.
Lemma msum_None g F i f : F !! i = None -> msum g (<[i := f]> F) = (g f + msum g F)%nat.
Proof. intros Hi. unfold msum. rewrite (msum_perm g _ _ (map_to_list_insert F i f Hi)). done. Qed.
Lemma msum_delete g F i f : F !! i = Some f -> msum g F = (g f + msum g (delete i F))%nat.
Proof. intros Hi. rewrite <- (insert_delete_id F i f Hi) at 1. apply msum_None, lookup_delete_eq. Qed.
Lemma msum_update g F i f f' : F !! i = Some f -> (msum g (<[i := f']> F) + g f = msum g F + g f')%nat.
Proof. intros Hi. rewrite <- insert_delete_eq, msum_None by apply lookup_delete_eq. rewrite (msum_delete g F i f Hi). lia. Qed.
Lemma msum_ge g F i f : F !! i = Some f -> (g f <= msum g F)%nat.
Proof. intros Hi. rewrite (msum_delete g F i f Hi). lia. Qed.
Lemma msum_pos g F : (0 < msum g F)%nat -> exists i f, F !! i = Some f /\ (0 < g f)%nat.
Proof.
  unfold msum. intros H. assert (exists x, x ∈ map_to_list F /\ (0 < g x.2)%nat) as ([i f] & Hx & Hg).
  { induction (map_to_list F) as [|x l IH]; csimpl in *; [lia|]. destruct (decide (0 < g x.2)%nat) as [Hp|Hp]; [exists x; split; [by left|done]|]. destruct IH as (y & Hy & Hg); [lia|]. exists y. split; [by right|done]. }
  apply elem_of_map_to_list in Hx. by exists i, f.
Qed.

(** ** Entries and links *)

Definition inum_at f (k : nat) : Z := de_inum (ent (f_data f) k).
Definition name_at f (k : nat) : list Z := cname DIRSIZ (de_name (ent (f_data f) k)).
Definition size_of f : nat := nent (f_data f).
(** Entry [k] leads to [i], and is not the dot that every directory has. *)
Definition leads f (i : Z) (k : nat) : bool := negb (inum_at f k =? 0) && (inum_at f k =? i) && negb (bool_decide (name_at f k = [46])).
Definition in_tree f : bool := (f_type f =? T_DIR) && negb (f_nlink f =? 0).
Definition links_of (i : Z) f : nat := if in_tree f then cnt (leads f i) (size_of f) else 0%nat.
Definition links F (i : Z) : nat := msum (links_of i) F.
Definition dir_at F (d : Z) fd : Prop := F !! d = Some fd /\ f_type fd = T_DIR /\ f_nlink fd <> 0.
Definition plain (nm : list Z) : Prop := nm <> [46] /\ nm <> [46; 46].

Record dir_good F (d : Z) fd : Prop := {
  dg_ok : dir_ok (f_data fd);
  dg_two : (2 <= size_of fd)%nat;
  dg_dot : inum_at fd 0 = d /\ name_at fd 0 = [46];
  dg_dotdot : name_at fd 1 = [46; 46] /\ exists pd, dir_at F (inum_at fd 1) pd;
  dg_entry : forall k, (2 <= k < size_of fd)%nat -> inum_at fd k <> 0 -> plain (name_at fd k) /\ inum_at fd k <> d /\ inum_at fd k <> ROOTINO /\
    exists h, F !! inum_at fd k = Some h /\ (f_type h = T_DIR -> inum_at h 1 = d);
  dg_names : forall k k', (k < size_of fd)%nat -> (k' < size_of fd)%nat -> inum_at fd k <> 0 -> inum_at fd k' <> 0 -> name_at fd k = name_at fd k' -> k = k';
  dg_once : forall k k' h, (2 <= k < size_of fd)%nat -> (2 <= k' < size_of fd)%nat -> inum_at fd k <> 0 -> inum_at fd k = inum_at fd k' -> F !! inum_at fd k = Some h -> f_type h = T_DIR -> k = k';
  dg_parent : d <> ROOTINO -> forall pd, dir_at F (inum_at fd 1) pd -> exists k, (2 <= k < size_of pd)%nat /\ inum_at pd k = d
}.
Record consistent F : Prop := {
  cs_root : exists r, dir_at F ROOTINO r /\ inum_at r 1 = ROOTINO;
  cs_zero : F !! 0 = None;
  cs_good : forall d fd, dir_at F d fd -> dir_good F d fd;
  cs_links : forall i f, F !! i = Some f -> f_nlink f = Z.of_nat (links F i)
}.

Lemma in_tree_iff f : in_tree f = true <-> f_type f = T_DIR /\ f_nlink f <> 0.
Proof. unfold in_tree. rewrite andb_true_iff, negb_true_iff, Z.eqb_eq, Z.eqb_neq. done. Qed.
Lemma leads_iff f i k : leads f i k = true <-> inum_at f k <> 0 /\ inum_at f k = i /\ name_at f k <> [46].
Proof. unfold leads. rewrite !andb_true_iff, !negb_true_iff, Z.eqb_eq, Z.eqb_neq, bool_decide_eq_false. tauto. Qed.
Lemma links_pos F i : (0 < links F i)%nat <-> exists d fd k, dir_at F d fd /\ (k < size_of fd)%nat /\ inum_at fd k <> 0 /\ inum_at fd k = i /\ name_at fd k <> [46].
Proof.
  split.
  - intros (d & fd & Hd & Hp)%msum_pos. unfold links_of in Hp. destruct (in_tree fd) eqn:E; [|lia]. apply in_tree_iff in E. apply cnt_pos in Hp as (k & Hk & Hl%leads_iff). exists d, fd, k. unfold dir_at. naive_solver.
  - intros (d & fd & k & (Hd & Ht & Hn) & Hk & Hl). unfold links. eapply Nat.lt_le_trans; [|by apply (msum_ge _ _ d fd)]. unfold links_of. rewrite (proj2 (in_tree_iff fd)) by done. apply cnt_pos. exists k. split; [done|]. by apply leads_iff.
Qed.

(** What a lookup says of the entries. *)
Lemma find_at f nm k j : dir_find (f_data f) nm = Some (k, j) -> (k < size_of f)%nat /\ inum_at f k = j /\ j <> 0 /\ name_at f k = nm.
Proof.
  intros [(Hk & Hn & _)%find_from_Some ->]%dir_find_Some. unfold names in Hn. apply andb_true_iff in Hn as [H1%negb_true_iff%Z.eqb_neq H2%bool_decide_eq_true]. unfold size_of. split_and!; [lia|done..].
Qed.
Lemma find_none f nm k : dir_find (f_data f) nm = None -> (k < size_of f)%nat -> inum_at f k <> 0 -> name_at f k <> nm.
Proof. intros H Hk Hi. rewrite dir_find_None in H. specialize (H k Hk). unfold names in H. fold (inum_at f k) in H. rewrite (proj2 (Z.eqb_neq _ _) Hi) in H. by apply bool_decide_eq_false in H. Qed.

(** ** Changing entries *)

Definition good_name (nm : list Z) : Prop := Forall (fun c => c <> 0) nm /\ (length nm <= DIRSIZ)%nat.
Lemma dirent_at i nm : good_name nm -> 0 < i < 2 ^ 16 -> length (dirent i nm) = 16%nat /\ de_inum (dirent i nm) = i /\ cname DIRSIZ (de_name (dirent i nm)) = nm.
Proof.
  intros [Hn Hl] Hi. split_and!; [by apply length_dirent|unfold dirent, mk_dirent, de_inum, half, byte_at; simpl; Z.to_euclidean_division_equations; lia|].
  change (de_name (dirent i nm)) with (nm ++ replicate (DIRSIZ - length nm) 0). rewrite cname_app by done. destruct (DIRSIZ - length nm)%nat; [by rewrite app_nil_r|]. simpl. by rewrite app_nil_r.
Qed.
(** [f'] is [f] with the entry [k] set to [i] under [nm]. *)
Record set_at f f' (k : nat) (i : Z) (nm : list Z) : Prop := {
  sa_size : size_of f' = Nat.max (size_of f) (k + 1);
  sa_ok : dir_ok (f_data f');
  sa_inum : forall j, (j < size_of f')%nat -> inum_at f' j = if decide (j = k) then i else inum_at f j;
  sa_name : forall j, (j < size_of f')%nat -> j <> k -> name_at f' j = name_at f j;
  sa_this : i <> 0 -> name_at f' k = nm;
  sa_type : f_type f' = f_type f
}.
Lemma set_at_write f k e i nm : dir_ok (f_data f) -> (k <= size_of f)%nat -> length e = 16%nat -> de_inum e = i -> (i <> 0 -> cname DIRSIZ (de_name e) = nm) -> set_at f (with_data (write_at (16 * k) e (f_data f)) f) k i nm.
Proof.
  intros Hok Hk He Hi Hn. unfold size_of in *. assert (forall j, (j < nent (write_at (16 * k) e (f_data f)))%nat -> ent (write_at (16 * k) e (f_data f)) j = if decide (j = k) then e else ent (f_data f) j) as Hent.
  { intros j Hj. rewrite insert_nent in Hj by done. by apply insert_ent. }
  split; unfold inum_at, name_at, size_of; cbn [with_data f_data f_type]; [by apply insert_nent|by apply insert_ok| | |intros Hi0; rewrite Hent, decide_True by (done || rewrite insert_nent by done; lia); auto|done].
  - intros j Hj. rewrite Hent by done. by destruct (decide (j = k)) as [->|].
  - intros j Hj Hne. by rewrite Hent, decide_False by done.
Qed.
Lemma add_set f i nm : dir_ok (f_data f) -> good_name nm -> 0 < i < 2 ^ 16 -> set_at f (add_entry i nm f) (dir_free (f_data f)) i nm.
Proof. intros Hok Hn Hi. destruct (dirent_at i nm Hn Hi) as (H1 & H2 & H3). apply set_at_write; [done|apply dir_free_le|done|done|done]. Qed.
Lemma clear_set f k : dir_ok (f_data f) -> (k < size_of f)%nat -> set_at f (clear_entry k f) k 0 [].
Proof. intros Hok Hk. apply set_at_write; [done|lia|done|done|done]. Qed.
Lemma free_zero f : (dir_free (f_data f) < size_of f)%nat -> inum_at f (dir_free (f_data f)) = 0.
Proof. unfold dir_free, size_of. destruct (find_from _ _ _) as [k|] eqn:E; simpl; [|lia]. apply find_from_Some in E as (_ & H%Z.eqb_eq & _). done. Qed.

(** The links an entry adds or takes away. *)
Lemma links_set f f' k i nm x : set_at f f' k i nm -> (k <= size_of f)%nat -> f_nlink f <> 0 -> f_nlink f' <> 0 ->
  (links_of x f' + Nat.b2n (in_tree f && bool_decide (k < size_of f)%nat && leads f x k) = links_of x f + Nat.b2n (in_tree f && leads f' x k))%nat.
Proof.
  intros [S1 S2 S3 S4 S5 S6] Hk Hn Hn'. unfold links_of. assert (in_tree f' = in_tree f) as ->. { unfold in_tree. by rewrite S6, (proj2 (Z.eqb_neq _ _) Hn), (proj2 (Z.eqb_neq _ _) Hn'). }
  destruct (in_tree f); [|done]. cbn [andb]. assert (forall j, (j < size_of f')%nat -> j <> k -> leads f' x j = leads f x j) as Hl. { intros j Hj Hne. unfold leads. by rewrite S3, decide_False, S4 by done. }
  destruct (decide (k < size_of f)%nat) as [Hlt|Hge].
  - rewrite bool_decide_true by done. rewrite S1, Nat.max_l in * by lia. apply cnt_change; [done|]. intros j Hj Hne. by apply Hl.
  - rewrite bool_decide_false by done. assert (k = size_of f) as -> by lia. rewrite S1, Nat.max_r, Nat.add_1_r in * by lia. simpl. rewrite (cnt_ext (leads f' x) (leads f x) (size_of f)); [lia|]. intros j Hj. apply Hl; lia.
Qed.

(** ** Directories that stay good *)

(** A file stays, with its type and, for a directory, its parent; so do the
    files that a directory leads to. *)
Definition stays F F' (x : Z) : Prop := forall h, F !! x = Some h -> exists h', F' !! x = Some h' /\ f_type h' = f_type h /\ (f_type h = T_DIR -> inum_at h' 1 = inum_at h 1).
Definition keeps F F' fd : Prop := forall k, (2 <= k < size_of fd)%nat -> inum_at fd k <> 0 -> stays F F' (inum_at fd k).
(** The parent of a directory is still there, and still has it. *)
Record family F F' (d : Z) fd : Prop := {
  fm_parent : exists pd, dir_at F' (inum_at fd 1) pd;
  fm_child : d <> ROOTINO -> forall pd, dir_at F' (inum_at fd 1) pd -> exists k, (2 <= k < size_of pd)%nat /\ inum_at pd k = d
}.
Lemma good_keep F F' d fd : dir_good F d fd -> keeps F F' fd -> family F F' d fd -> dir_good F' d fd.
Proof.
  intros [G1 G2 G3 G4 G5 G6 G7 G8] HK [M1 M2]. split; [done..| | |done| |done].
  - split; [apply G4|done].
  - intros k Hk Hi. destruct (G5 k Hk Hi) as (E1 & E2 & E3 & h & Hh & Hd). destruct (HK k Hk Hi h Hh) as (h' & Hh' & Ht & Hp). split_and!; [done..|]. exists h'. split; [done|]. rewrite Ht. intros E. rewrite Hp by done. auto.
  - intros k k' h' Hk Hk' Hi He Hh' Ht'. destruct (G5 k Hk Hi) as (_ & _ & _ & h & Hh & _). destruct (HK k Hk Hi h Hh) as (h2 & Hh2 & Ht & _). rewrite Hh' in Hh2. injection Hh2 as <-. eapply G7; [done..|congruence].
Qed.
Lemma good_set F F' d fd fd' k i nm : dir_good F d fd -> keeps F F' fd -> family F F' d fd -> set_at fd fd' k i nm -> (2 <= k <= size_of fd)%nat ->
  (i <> 0 -> plain nm /\ i <> d /\ i <> ROOTINO /\ (exists h, F' !! i = Some h /\ (f_type h = T_DIR -> inum_at h 1 = d)) /\ (forall k', (k' < size_of fd)%nat -> inum_at fd k' <> 0 -> name_at fd k' <> nm) /\
     (forall h, F' !! i = Some h -> f_type h = T_DIR -> forall k', (2 <= k' < size_of fd)%nat -> inum_at fd k' <> i)) -> dir_good F' d fd'.
Proof.
  intros G HK HM [S1 S2 S3 S4 S5 S6] Hk Hnew. destruct (good_keep _ _ _ _ G HK HM) as [G1 G2 G3 G4 G5 G6 G7 G8]. assert (forall j, (j < size_of fd')%nat -> j <> k -> (j < size_of fd)%nat) as Hin by (intros j Hj Hne; lia).
  assert (inum_at fd' 0 = inum_at fd 0 /\ inum_at fd' 1 = inum_at fd 1) as [H0 H1] by (split; rewrite S3, decide_False by lia; done).
  split; [done|lia|rewrite H0, S4 by lia; done|rewrite H1, S4 by lia; done| | | |by rewrite H1].
  - intros j Hj Hi. rewrite S3 in Hi |- * by lia. destruct (decide (j = k)) as [->|Hne]; [rewrite S5 by done; destruct (Hnew Hi) as (? & ? & ? & ? & _); split_and!; [done..|naive_solver]|]. rewrite S4 by lia. apply G5; [|done]. split; [lia|apply Hin; [lia|done]].
  - intros j j' Hj Hj' Hi Hi' He. rewrite S3 in Hi, Hi' by done. destruct (decide (j = k)) as [->|Hne], (decide (j' = k)) as [->|Hne']; [done| | |].
    + rewrite S5, S4 in He by done. destruct (Hnew Hi) as (_ & _ & _ & _ & Hfr & _). by destruct (Hfr j' (Hin _ Hj' Hne') Hi').
    + rewrite (S4 j) in He by done. rewrite S5 in He by done. destruct (Hnew Hi') as (_ & _ & _ & _ & Hfr & _). by destruct (Hfr j (Hin _ Hj Hne) Hi).
    + rewrite !S4 in He by done. apply G6; auto.
  - intros j j' h Hj Hj' Hi He Hh Ht. rewrite S3 in Hi, He by lia. rewrite S3 in He, Hh by lia. destruct (decide (j = k)) as [->|Hne], (decide (j' = k)) as [->|Hne']; [done| | |].
    + destruct (Hnew Hi) as (_ & _ & _ & _ & _ & Hfr). exfalso. eapply (Hfr h Hh Ht j'); [|done]. split; [lia|apply Hin; [lia|done]].
    + rewrite He in Hi, Hh. destruct (Hnew Hi) as (_ & _ & _ & _ & _ & Hfr). exfalso. eapply (Hfr h Hh Ht j); [|done]. split; [lia|apply Hin; [lia|done]].
    + eapply G7; [split; [lia|apply Hin; [lia|done]]|split; [lia|apply Hin; [lia|done]]|done..].
Qed.

(** ** What consistency gives *)

Section Consistent.
Context F (HC : consistent F).
Lemma some_nonzero i f : F !! i = Some f -> i <> 0.
Proof. intros H ->. by rewrite (cs_zero _ HC) in H. Qed.
Lemma entry_links d fd k : dir_at F d fd -> (2 <= k < size_of fd)%nat -> inum_at fd k <> 0 -> exists h, F !! inum_at fd k = Some h /\ f_nlink h <> 0 /\ (f_type h = T_DIR -> inum_at h 1 = d).
Proof.
  intros Hd Hk Hi. destruct (dg_entry _ _ _ (cs_good _ HC d fd Hd) k Hk Hi) as ([Hp _] & _ & _ & h & Hh & Ht). exists h. split_and!; [done| |done]. rewrite (cs_links _ HC _ h Hh).
  assert (0 < links F (inum_at fd k))%nat; [|lia]. apply links_pos. exists d, fd, k. split_and!; [done|lia|done..].
Qed.
Lemma parent_nonzero d fd : dir_at F d fd -> inum_at fd 0 <> 0 /\ inum_at fd 1 <> 0.
Proof.
  intros Hd. pose proof (some_nonzero d fd (proj1 Hd)) as Hd0. pose proof (cs_good _ HC d fd Hd) as G. destruct (dg_dot _ _ _ G) as [-> _]. destruct (dg_dotdot _ _ _ G) as [_ [pd Hpd]]. split; [done|]. by apply (some_nonzero _ pd), Hpd.
Qed.
Lemma free_two_up d fd : dir_at F d fd -> (2 <= dir_free (f_data fd) <= size_of fd)%nat.
Proof.
  intros Hd. pose proof (dir_free_le (f_data fd)) as Hle. destruct (parent_nonzero d fd Hd) as [H0 H1]. pose proof (dg_two _ _ _ (cs_good _ HC d fd Hd)). unfold size_of in *. pose proof (free_zero fd) as Hz. unfold size_of in Hz.
  destruct (dir_free (f_data fd)) as [|[|k]]; [by rewrite Hz in H0 by lia|by rewrite Hz in H1 by lia|lia].
Qed.
Lemma entry_two_up d fd nm k j : dir_at F d fd -> dir_find (f_data fd) nm = Some (k, j) -> plain nm -> (2 <= k < size_of fd)%nat /\ inum_at fd k = j /\ j <> 0 /\ name_at fd k = nm.
Proof.
  intros Hd (Hk & Hi & Hj & Hn)%find_at [P1 P2]. pose proof (cs_good _ HC d fd Hd) as G. split_and!; [|done..]. destruct k as [|[|k]]; [|  |lia].
  - destruct (dg_dot _ _ _ G). congruence.
  - destruct (dg_dotdot _ _ _ G). congruence.
Qed.
(** A name that is not there is not one of the dots. *)
Lemma missing_plain d fd nm : dir_at F d fd -> dir_find (f_data fd) nm = None -> plain nm.
Proof.
  intros Hd Hn. pose proof (cs_good _ HC d fd Hd) as G. destruct (parent_nonzero d fd Hd) as [H0 H1]. pose proof (dg_two _ _ _ G). destruct (dg_dot _ _ _ G) as [_ N0], (dg_dotdot _ _ _ G) as [N1 _].
  split; intros ->; [by apply (find_none fd _ 0 Hn ltac:(lia) H0)|by apply (find_none fd _ 1 Hn ltac:(lia) H1)].
Qed.
Lemma consistent_rooted : rooted F.
Proof.
  split; [|destruct (cs_root _ HC) as (r & (Hr & _ & Hn) & _); by exists r]. intros d fd Hfd Ht Hn. assert (dir_at F d fd) as Hd by done. pose proof (cs_good _ HC d fd Hd) as G. split; [apply G|]. intros nm k j (Hk & Hi & Hj & _)%find_at.
  destruct k as [|[|k]].
  - destruct (dg_dot _ _ _ G) as [E _]. rewrite E in Hi. subst j. by exists fd.
  - destruct (dg_dotdot _ _ _ G) as [_ (pd & Hpd & _ & Hpn)]. rewrite Hi in Hpd. by exists pd.
  - destruct (entry_links d fd (Datatypes.S (Datatypes.S k)) Hd ltac:(lia) ltac:(congruence)) as (h & Hh & Hhn & _). rewrite Hi in Hh. by exists h.
Qed.
(** A name that does not exist leads nowhere. *)
Lemma links_none i : F !! i = None -> links F i = 0%nat.
Proof.
  intros Hi. destruct (links F i) eqn:E; [done|]. destruct (proj1 (links_pos F i) ltac:(lia)) as (d & fd & k & Hd & Hk & H0 & Hik & _). pose proof (cs_good _ HC d fd Hd) as G. exfalso. destruct k as [|[|k]].
  - destruct (dg_dot _ _ _ G) as [E0 _], Hd as [Hd _]. congruence.
  - destruct (dg_dotdot _ _ _ G) as [_ (pd & Hpd & _)]. congruence.
  - destruct (entry_links d fd (Datatypes.S (Datatypes.S k)) Hd ltac:(lia) H0) as (h & Hh & _). congruence.
Qed.

Lemma msum_ge2 g i f j h : F !! i = Some f -> F !! j = Some h -> i <> j -> (g f + g h <= msum g F)%nat.
Proof using. intros Hi Hj Hne. rewrite (msum_delete g F i f Hi). apply Nat.add_le_mono_l, (msum_ge g _ j). by rewrite lookup_delete_ne. Qed.
Lemma links_of_pos d fd x k : dir_at F d fd -> (k < size_of fd)%nat -> inum_at fd k <> 0 -> inum_at fd k = x -> name_at fd k <> [46] -> (1 <= links_of x fd)%nat.
Proof using. intros (_ & Ht & Hn) Hk H0 Hx Hnm. unfold links_of. rewrite (proj2 (in_tree_iff fd)) by done. apply cnt_pos. exists k. split; [done|]. by apply leads_iff. Qed.
(** A directory with a directory in it has two links. *)
Lemma parent_links d fd k h : dir_at F d fd -> (2 <= k < size_of fd)%nat -> inum_at fd k <> 0 -> F !! inum_at fd k = Some h -> f_type h = T_DIR -> 1 < f_nlink fd.
Proof.
  intros Hd Hk Hi Hh Ht. pose proof (cs_good _ HC d fd Hd) as G. destruct (entry_links d fd k Hd Hk Hi) as (h' & Hh' & Hhn & Hp). rewrite Hh in Hh'. injection Hh' as <-. specialize (Hp Ht). set (j := inum_at fd k) in *.
  assert (dir_at F j h) as Hj by done. pose proof (cs_good _ HC j h Hj) as Gj. pose proof (dg_two _ _ _ Gj). pose proof (dg_two _ _ _ G). destruct (dg_dotdot _ _ _ Gj) as [Nj _]. pose proof (some_nonzero d fd (proj1 Hd)) as Hd0.
  assert (1 <= links_of d h)%nat as Lj by (eapply (links_of_pos j h d 1); [done|lia|by rewrite Hp|done|by rewrite Nj]).
  rewrite (cs_links _ HC d fd (proj1 Hd)). enough (2 <= links F d)%nat by lia. destruct (decide (d = ROOTINO)) as [->|Hr].
  - destruct (cs_root _ HC) as (r & (Hr & _) & Hr1). destruct Hd as (Hd & Hd'). rewrite Hd in Hr. injection Hr as <-. destruct (dg_dotdot _ _ _ G) as [N1 _].
    assert (1 <= links_of ROOTINO fd)%nat as Ld by (eapply (links_of_pos ROOTINO fd ROOTINO 1); [done|lia|by rewrite Hr1|done|by rewrite N1]).
    pose proof (dg_entry _ _ _ G k Hk Hi) as (_ & Hne & _). pose proof (msum_ge2 (links_of ROOTINO) ROOTINO fd j h Hd Hh) as H2. unfold links. specialize (H2 ltac:(done)). lia.
  - destruct (dg_dotdot _ _ _ G) as [_ [pd Hpd]]. destruct (dg_parent _ _ _ G Hr pd Hpd) as (k' & Hk' & Hkd). pose proof (cs_good _ HC _ _ Hpd) as Gp. destruct (dg_entry _ _ _ Gp k' Hk' ltac:(congruence)) as ([Pn _] & _).
    destruct (decide (inum_at fd 1 = j)) as [E|E].
    + rewrite E in Hpd. assert (pd = h) as -> by (destruct Hpd; congruence). assert (2 <= links_of d h)%nat as L2; [|pose proof (msum_ge (links_of d) F j h Hh); unfold links; lia].
      unfold links_of. rewrite (proj2 (in_tree_iff h)) by done. pose proof (cnt_change (fun x => leads h d x) (fun x => leads h d x && negb (x =? 1)%nat) (size_of h) 1 ltac:(lia)) as HH.
      assert (leads h d 1 = true) as L1 by (apply leads_iff; rewrite Hp, Nj; done). cbv beta in HH. rewrite L1 in HH. simpl in HH. assert (0 < cnt (fun x => leads h d x && negb (x =? 1)%nat) (size_of h))%nat.
      { apply cnt_pos. exists k'. split; [lia|]. apply andb_true_iff. split; [apply leads_iff; split_and!; [congruence|done|done]|]. destruct k' as [|[|k']]; [lia..|done]. }
      enough (cnt (leads h d) (size_of h) + 0 = cnt (fun x => leads h d x && negb (x =? 1)%nat) (size_of h) + 1)%nat by lia. apply HH. intros x Hx Hx1. rewrite (proj2 (Nat.eqb_neq _ _) Hx1). by rewrite andb_true_r.
    + assert (1 <= links_of d pd)%nat by (eapply (links_of_pos (inum_at fd 1) pd d k'); [done|lia|congruence|done|done]). pose proof (msum_ge2 (links_of d) (inum_at fd 1) pd j h (proj1 Hpd) Hh E). unfold links. lia.
Qed.
Lemma consistent_sane : (forall i f, F !! i = Some f -> f_nlink f < 2 ^ 15) -> sane F.
Proof.
  intros Hb. split.
  - intros i f Hf. pose proof (Hb i f Hf). rewrite (cs_links _ HC i f Hf) in *. lia.
  - intros d fd nm k Hfd Ht Hn Hfind. destruct (decide (nm = [46])); [by left|]. destruct (decide (nm = [46; 46])); [by right|]. exfalso. assert (dir_at F d fd) as Hd by done.
    destruct (entry_two_up d fd nm k d Hd Hfind) as (Hk & Hi & H0 & _); [done|]. destruct (dg_entry _ _ _ (cs_good _ HC d fd Hd) k Hk) as (_ & Hne & _); congruence.
  - intros d fd nm k j h Hfd Ht Hn Hfind N1 N2 Hj Hht. assert (dir_at F d fd) as Hd by done. destruct (entry_two_up d fd nm k j Hd Hfind) as (Hk & Hi & H0 & _); [done|]. eapply parent_links; [done..|by rewrite Hi|by rewrite Hi|done].
Qed.
End Consistent.
