(* ===== verification/FsPreserve.v ===== *)
(** * Creating, linking and unlinking

    They keep a file system consistent; names lead to what they have made and
    not to what they have removed. *)

From stdpp Require Import base gmap list strings.
From Stdlib Require Import ZArith Lia.
From S2P Require Import Prelude CString Sync Log BlockSpec Fs FsLayout FsInv FsFile FsRw FsCorrect FsNames FsDir FsPath FsTriple FsTree FsConsistent.
Local Open Scope Z_scope.

Implicit Types (F : gmap Z file) (f fd h : file).

(** ** Adding an entry *)

Section Add.
Context F (HC : consistent F) (d i : Z) (fd fd' fi : file) (nm : list Z) (Hd : dir_at F d fd) (Hid : i <> d) (Hi0 : i <> 0) (Hfind : dir_find (f_data fd) nm = None).
Notation k := (dir_free (f_data fd)).
Context (Hset : set_at fd fd' k i nm) (Hcount : f_nlink fd' = f_nlink fd + (if f_type fi =? T_DIR then 1 else 0)).
(** The inode is new, or a file that gets another link. *)
Context (Hnode : (F !! i = None /\ f_nlink fi = 1) \/ (exists f, F !! i = Some f /\ f_type f <> T_DIR /\ f_type fi = f_type f /\ f_nlink fi = f_nlink f + 1)).
(** A new directory has its dots. *)
Context (Hdots : f_type fi = T_DIR -> dir_ok (f_data fi) /\ size_of fi = 2%nat /\ inum_at fi 0 = i /\ name_at fi 0 = [46] /\ inum_at fi 1 = d /\ name_at fi 1 = [46; 46]).
Notation F' := (<[d := fd']> (<[i := fi]> F)).

Lemma add_nlink : f_nlink fd' <> 0.
Proof. pose proof (cs_links _ HC d fd (proj1 Hd)). destruct Hd as (_ & _ & Hn). rewrite Hcount. destruct (f_type fi =? T_DIR); lia. Qed.
Lemma add_dir : f_type fi = T_DIR -> F !! i = None.
Proof. intros Ht. destruct Hnode as [[? _]|(f & _ & Hf & Hfi & _)]; [done|congruence]. Qed.
Lemma add_parent_at : inum_at fd' 1 = inum_at fd 1.
Proof. pose proof (free_two_up F HC d fd Hd). rewrite (sa_inum _ _ _ _ _ Hset), decide_False; [done|lia|]. rewrite (sa_size _ _ _ _ _ Hset). lia. Qed.
Lemma add_dir_at : dir_at F' d fd'.
Proof. split_and!; [apply lookup_insert_eq|rewrite (sa_type _ _ _ _ _ Hset); apply Hd|apply add_nlink]. Qed.
Lemma add_stays x : stays F F' x.
Proof.
  intros h Hh. destruct (decide (x = d)) as [->|Hxd]; [exists fd'; rewrite lookup_insert_eq; destruct Hd as [Hd1 _]; rewrite Hd1 in Hh; injection Hh as <-; split_and!; [done|apply Hset|intros _; apply add_parent_at]|].
  rewrite lookup_insert_ne by done. destruct (decide (x = i)) as [->|Hxi]; [|rewrite lookup_insert_ne by done; eauto]. rewrite lookup_insert_eq. exists fi. destruct Hnode as [[? _]|(f & Hf & Hft & Hfi & _)]; [congruence|]. rewrite Hf in Hh. injection Hh as <-. split_and!; [done|done|by intros ?].
Qed.
(** A directory that was there keeps its parent and its place. *)
Lemma add_family x fx : dir_at F x fx -> family F F' x fx.
Proof.
  intros Hx. pose proof (cs_good _ HC x fx Hx) as G. destruct (dg_dotdot _ _ _ G) as [_ [pd Hpd]]. pose proof (some_nonzero F HC x fx (proj1 Hx)) as Hx0. destruct (decide (inum_at fx 1 = d)) as [E|E].
  - rewrite E in *. split; [rewrite E; exists fd'; apply add_dir_at|]. rewrite E. intros Hr pd' (Hpd' & _). rewrite lookup_insert_eq in Hpd'. injection Hpd' as <-. destruct (dg_parent _ _ _ G Hr fd) as (k' & Hk' & Hkx); [by rewrite E|]. pose proof (free_zero fd) as Hz.
    exists k'. rewrite (sa_size _ _ _ _ _ Hset). split; [lia|]. rewrite (sa_inum _ _ _ _ _ Hset), decide_False; [done| |rewrite (sa_size _ _ _ _ _ Hset); lia]. intros ->. rewrite Hz in Hkx by lia. done.
  - assert (inum_at fx 1 <> i) as Ei. { intros Ei. rewrite Ei in Hpd. destruct Hpd as (Hpd & Hpt & _). destruct Hnode as [[? _]|(f & Hf & Hft & _)]; congruence. }
    assert (forall pd', dir_at F' (inum_at fx 1) pd' <-> dir_at F (inum_at fx 1) pd') as Hiff by (intros pd'; unfold dir_at; by rewrite !lookup_insert_ne by done).
    split; [exists pd; by apply Hiff|]. intros Hr pd' Hpd'%Hiff. by apply (dg_parent _ _ _ G Hr).
Qed.
Lemma add_links x : links F' x = (links F x + Nat.b2n (x =? i)%Z + Nat.b2n ((f_type fi =? T_DIR) && (x =? d))%Z)%nat.
Proof.
  pose proof (free_two_up F HC d fd Hd) as Hk2. pose proof (free_zero fd) as Hz. destruct Hd as (Hfd & Ht & Hn).
  assert (links_of x fi = Nat.b2n ((f_type fi =? T_DIR) && (x =? d))) as Lfi.
  { unfold links_of. destruct (Z.eqb_spec (f_type fi) T_DIR) as [E|E]; [|replace (in_tree fi) with false; [done|]; symmetry; unfold in_tree; by rewrite (proj2 (Z.eqb_neq _ _) E)].
    destruct (Hdots E) as (_ & -> & Hd0 & Hn0 & Hd1 & Hn1). rewrite (proj2 (in_tree_iff fi)); [|split; [done|]; destruct Hnode as [[_ ->]|(f & _ & Hf & Hfi & _)]; [done|congruence]].
    cbn [cnt]. unfold leads. rewrite Hd0, Hn0, Hd1, Hn1. pose proof (some_nonzero F HC d fd Hfd) as Hd0'. rewrite (proj2 (Z.eqb_neq d 0) Hd0'), !andb_false_r, Z.eqb_sym. cbn [negb andb]. rewrite andb_true_r. cbn. lia. }
  assert (links (<[i := fi]> F) x = links F x + links_of x fi)%nat as L1.
  { unfold links. destruct Hnode as [[HN _]|(f & Hf & Hft & Hfi & _)]; [rewrite msum_None by done; lia|]. pose proof (msum_update (links_of x) F i f fi Hf) as HU. unfold links_of in *. unfold in_tree in *. rewrite Hfi, (proj2 (Z.eqb_neq _ _) Hft) in *. cbn [andb] in *. lia. }
  pose proof (msum_update (links_of x) (<[i := fi]> F) d fd fd') as L2. rewrite lookup_insert_ne in L2 by done. specialize (L2 Hfd). pose proof (links_set fd fd' k i nm x Hset ltac:(lia) Hn add_nlink) as L3.
  assert (in_tree fd = true) as Et by (by apply in_tree_iff). rewrite Et in L3. cbn [andb] in L3. assert (bool_decide (k < size_of fd)%nat && leads fd x k = false) as E0.
  { destruct (decide (k < size_of fd)%nat) as [Hlt|Hge]; [|by rewrite bool_decide_false]. unfold leads. rewrite Hz by done. by rewrite andb_false_r. }
  assert (leads fd' x k = (x =? i)) as E1.
  { unfold leads. rewrite (sa_this _ _ _ _ _ Hset Hi0). rewrite (sa_inum _ _ _ _ _ Hset), decide_True by (rewrite ?(sa_size _ _ _ _ _ Hset); lia || done). rewrite (proj2 (Z.eqb_neq i 0) Hi0). destruct (missing_plain F HC d fd nm ltac:(done) Hfind) as [P1 _]. rewrite bool_decide_false by done. cbn [negb andb]. rewrite andb_true_r. apply Z.eqb_sym. }
  rewrite E0, E1 in L3. simpl in L3. unfold links in *. lia.
Qed.
Lemma consistent_add : consistent F'.
Proof.
  pose proof Hd as (Hfd & Ht & Hn). pose proof (free_two_up F HC d fd Hd) as Hk2. destruct (cs_root _ HC) as (r & Hr & Hr1). split.
  - destruct (decide (ROOTINO = d)) as [E|E]; [exists fd'; rewrite E; split; [apply add_dir_at|]; rewrite add_parent_at; destruct Hr as [Hr _]; rewrite E, Hfd in Hr; injection Hr as <-; congruence|].
    exists r. split; [|done]. unfold dir_at. rewrite lookup_insert_ne by done. destruct (decide (ROOTINO = i)) as [Ei|Ei]; [|by rewrite lookup_insert_ne]. exfalso. rewrite Ei in Hr. destruct Hr as (Hr & Hrt & _). destruct Hnode as [[? _]|(f & Hf & Hft & _)]; congruence.
  - pose proof (some_nonzero F HC d fd Hfd). rewrite !lookup_insert_ne by done. apply HC.
  - intros x fx Hx. destruct (decide (x = d)) as [->|Hxd].
    { destruct Hx as (Hx & _). rewrite lookup_insert_eq in Hx. injection Hx as <-. pose proof (cs_good _ HC d fd Hd) as G. apply (good_set F _ d fd fd' k i nm); [done|intros ? ? ?; apply add_stays|by apply add_family|done|done|].
      intros _. split_and!; [by eapply (missing_plain F HC d fd)|done| |exists fi; rewrite lookup_insert_ne, lookup_insert_eq by done; split; [done|]; intros E; by apply Hdots|intros k' Hk' Hi'; by apply find_none|].
      - intros ->. destruct Hr as (Hr & Hrt & _). destruct Hnode as [[? _]|(f & Hf & Hft & _)]; congruence.
      - intros h. rewrite lookup_insert_ne, lookup_insert_eq by done. intros [= <-] Hdir k' Hk' E. destruct (entry_links F HC d fd k' Hd Hk') as (h & Hh & _); [congruence|]. rewrite E, (add_dir Hdir) in Hh. done. }
    destruct (decide (x = i)) as [->|Hxi].
    { destruct Hx as (Hx & Hxt & _). rewrite lookup_insert_ne, lookup_insert_eq in Hx by done. injection Hx as <-. destruct (Hdots Hxt) as (D1 & D2 & D3 & D4 & D5 & D6). split; rewrite ?D2, ?D5; [done|lia|done| | | | |].
      - split; [done|]. exists fd'. apply add_dir_at.
      - intros k' Hk'. lia.
      - intros a b Ha Hb _ _ E. assert (a = 0 \/ a = 1)%nat as [->| ->] by lia; assert (b = 0 \/ b = 1)%nat as [->| ->] by lia; congruence.
      - intros a b h Ha. lia.
      - intros _ pd [Hpd _]. rewrite lookup_insert_eq in Hpd. injection Hpd as <-. exists k. rewrite (sa_inum _ _ _ _ _ Hset), decide_True by (rewrite ?(sa_size _ _ _ _ _ Hset); lia || done). rewrite (sa_size _ _ _ _ _ Hset). lia. }
    assert (dir_at F x fx) as Hx' by (unfold dir_at in *; by rewrite !lookup_insert_ne in Hx by done). pose proof (cs_good _ HC x fx Hx') as G. apply (good_keep F); [done|intros ? ? ?; apply add_stays|by apply add_family].
  - intros x fx Hx. rewrite add_links. destruct (decide (x = d)) as [->|Hxd].
    { rewrite lookup_insert_eq in Hx. injection Hx as <-. rewrite Hcount, (cs_links _ HC d fd Hfd), Z.eqb_refl, andb_true_r, (proj2 (Z.eqb_neq d i)) by done. destruct (f_type fi =? T_DIR); simpl; lia. }
    rewrite lookup_insert_ne in Hx by done. rewrite (proj2 (Z.eqb_neq x d) Hxd), andb_false_r. destruct (decide (x = i)) as [->|Hxi].
    { rewrite lookup_insert_eq in Hx. injection Hx as <-. rewrite Z.eqb_refl. destruct Hnode as [[HN ->]|(f & Hf & _ & _ & ->)]; [rewrite (links_none F HC i HN); simpl; lia|rewrite (cs_links _ HC i f Hf); simpl; lia]. }
    rewrite lookup_insert_ne in Hx by done. rewrite (cs_links _ HC x fx Hx), (proj2 (Z.eqb_neq x i) Hxi). simpl. lia.
Qed.
End Add.

Lemma set_at_nlink f f' n k i nm : set_at (with_nlink n f) f' k i nm -> set_at f f' k i nm.
Proof. intros [S1 S2 S3 S4 S5 S6]. by split. Qed.
Lemma dotted_at i d f : f_data f = [] -> 0 < i < 2 ^ 16 -> 0 < d < 2 ^ 16 ->
  dir_ok (f_data (dotted i d f)) /\ size_of (dotted i d f) = 2%nat /\ inum_at (dotted i d f) 0 = i /\ name_at (dotted i d f) 0 = [46] /\ inum_at (dotted i d f) 1 = d /\ name_at (dotted i d f) 1 = [46; 46] /\
  f_type (dotted i d f) = f_type f /\ f_nlink (dotted i d f) = f_nlink f.
Proof.
  intros Hf Hi Hd. assert (good_name [46]) as G1 by (split; [by repeat constructor|by apply Nat.leb_le]). assert (good_name [46; 46]) as G2 by (split; [by repeat constructor|by apply Nat.leb_le]).
  pose proof (add_set f i [46] ltac:(by rewrite Hf) G1 Hi) as A. set (f1 := add_entry i [46] f) in *. assert (dir_free (f_data f) = 0%nat /\ size_of f = 0%nat) as [E0 E1] by (unfold size_of; by rewrite Hf). rewrite E0 in A.
  pose proof (sa_size _ _ _ _ _ A) as Z1. rewrite E1 in Z1. simpl in Z1. pose proof (add_set f1 d [46; 46] (sa_ok _ _ _ _ _ A) G2 Hd) as B. fold (dotted i d f) in B. pose proof (dir_free_le (f_data f1)) as Hle. fold (size_of f1) in Hle.
  pose proof (sa_inum _ _ _ _ _ A 0 ltac:(lia)) as I0. rewrite decide_True in I0 by done. assert (dir_free (f_data f1) = 1%nat) as K1. { destruct (decide (dir_free (f_data f1) = 1%nat)); [done|]. assert (dir_free (f_data f1) = 0%nat) as E by lia. pose proof (free_zero f1) as Hz. rewrite E in Hz. rewrite Hz in I0 by lia. lia. }
  rewrite K1 in B. pose proof (sa_size _ _ _ _ _ B) as Z2. rewrite Z1 in Z2. simpl in Z2. split_and!; [apply B|done|by rewrite (sa_inum _ _ _ _ _ B), decide_False by (lia || done)| |by rewrite (sa_inum _ _ _ _ _ B), decide_True by (lia || done)|apply B; lia|done|done].
  rewrite (sa_name _ _ _ _ _ B) by lia. apply A. lia.
Qed.

(** A new file or directory under a name that was not there. *)
Lemma made_consistent F d fd nm type M m i : consistent F -> dir_at F d fd -> dir_find (f_data fd) nm = None -> good_name nm -> 0 < i < 2 ^ 16 -> 0 < d < 2 ^ 16 -> F !! i = None -> consistent (made F d fd nm type M m i).
Proof.
  intros HC Hd Hfind Hnm Hi Hd16 HN. assert (i <> d) as Hid by (intros ->; destruct Hd; congruence). pose proof (dg_ok _ _ _ (cs_good _ HC d fd Hd)) as Hok. unfold made. destruct (Z.eqb_spec type T_DIR) as [Ht|Ht].
  - destruct (dotted_at i d (mkFile type M m 1 []) eq_refl Hi Hd16) as (D1 & D2 & D3 & D4 & D5 & D6 & D7 & D8). apply (consistent_add F HC d i fd _ _ nm Hd Hid ltac:(lia) Hfind).
    + apply set_at_nlink with (f_nlink fd + 1). by apply (add_set (with_nlink (f_nlink fd + 1) fd)).
    + rewrite D7. cbn [f_type]. by rewrite (proj2 (Z.eqb_eq _ _) Ht).
    + left. by rewrite D8.
    + done.
  - apply (consistent_add F HC d i fd _ _ nm Hd Hid ltac:(lia) Hfind).
    + by apply add_set.
    + cbn [f_type]. rewrite (proj2 (Z.eqb_neq _ _) Ht). cbn. lia.
    + by left.
    + done.
Qed.
(** Another link to a file. *)
Lemma more_consistent F d fd nm i f : consistent F -> dir_at F d fd -> dir_find (f_data fd) nm = None -> good_name nm -> 0 < i < 2 ^ 16 -> F !! i = Some f -> f_type f <> T_DIR -> consistent (more F d fd nm i f).
Proof.
  intros HC Hd Hfind Hnm Hi Hf Ht. assert (i <> d) as Hid by (intros ->; destruct Hd as (? & ? & _); congruence). pose proof (dg_ok _ _ _ (cs_good _ HC d fd Hd)) as Hok.
  apply (consistent_add F HC d i fd _ _ nm Hd Hid ltac:(lia) Hfind).
  - by apply add_set.
  - cbn [with_nlink f_type]. rewrite (proj2 (Z.eqb_neq _ _) Ht). cbn. lia.
  - right. by exists f.
  - done.
Qed.

(** ** Removing an entry *)

Section Remove.
Context F (HC : consistent F) (d j : Z) (fd h : file) (k : nat) (nm : list Z) (Hd : dir_at F d fd) (Hfind : dir_find (f_data fd) nm = Some (k, j)) (Hnm : plain nm) (Hh : F !! j = Some h)
  (Hemp : f_type h = T_DIR -> dir_empty (f_data h) = true).
Notation fd' := (clear_entry k (if f_type h =? T_DIR then with_nlink (f_nlink fd - 1) fd else fd)).
Notation h' := (with_nlink (f_nlink h - 1) h).
Notation F' := (<[j := h']> (<[d := fd']> F)).

Lemma rem_entry : (2 <= k < size_of fd)%nat /\ inum_at fd k = j /\ j <> 0 /\ name_at fd k = nm.
Proof. by apply (entry_two_up F HC d). Qed.
Lemma rem_facts : j <> d /\ j <> ROOTINO /\ f_nlink h <> 0 /\ (f_type h = T_DIR -> inum_at h 1 = d).
Proof.
  destruct rem_entry as (Hk & Hi & H0 & _). destruct (dg_entry _ _ _ (cs_good _ HC d fd Hd) k Hk ltac:(congruence)) as (_ & Hne & Hr & _). destruct (entry_links F HC d fd k Hd Hk ltac:(congruence)) as (h2 & Hh2 & Hn & Hp).
  rewrite Hi in *. rewrite Hh in Hh2. injection Hh2 as <-. done.
Qed.
Lemma rem_set : set_at fd fd' k 0 [].
Proof.
  destruct rem_entry as (Hk & _). pose proof (dg_ok _ _ _ (cs_good _ HC d fd Hd)) as Hok. destruct (f_type h =? T_DIR); [|apply clear_set; [done|lia]]. apply set_at_nlink with (f_nlink fd - 1). apply clear_set; [done|unfold size_of in *; cbn [with_nlink f_data]; lia].
Qed.
Lemma rem_nlink : f_nlink fd' <> 0.
Proof.
  destruct rem_entry as (Hk & Hi & H0 & _). destruct Hd as (_ & _ & Hn). destruct (Z.eqb_spec (f_type h) T_DIR) as [Ht|Ht]; cbn [clear_entry with_data with_nlink f_nlink]; [|done].
  pose proof (parent_links F HC d fd k h Hd Hk ltac:(congruence) ltac:(congruence) Ht). lia.
Qed.
Lemma rem_dir_at : dir_at F' d fd'.
Proof. destruct rem_facts as (Hjd & _). split_and!; [by rewrite lookup_insert_ne, lookup_insert_eq|rewrite (sa_type _ _ _ _ _ rem_set); apply Hd|apply rem_nlink]. Qed.
Lemma rem_parent_at : inum_at fd' 1 = inum_at fd 1.
Proof. destruct rem_entry as (Hk & _). rewrite (sa_inum _ _ _ _ _ rem_set), decide_False; [done|lia|]. rewrite (sa_size _ _ _ _ _ rem_set). lia. Qed.
(** The entries of an empty directory. *)
Lemma rem_empty a : f_type h = T_DIR -> (2 <= a < size_of h)%nat -> inum_at h a = 0.
Proof. intros Ht Ha. specialize (Hemp Ht). unfold dir_empty in Hemp. rewrite forallb_forall in Hemp. apply Z.eqb_eq, Hemp, in_seq. unfold size_of in Ha. lia. Qed.
Lemma rem_childless x fx : f_type h = T_DIR -> dir_at F x fx -> inum_at fx 1 <> j.
Proof.
  intros Ht Hx E. destruct rem_facts as (_ & Hjr & Hn & _). pose proof (cs_good _ HC x fx Hx) as G. destruct (decide (x = ROOTINO)) as [->|Hr].
  - destruct (cs_root _ HC) as (r & [Hr _] & Hr1). destruct Hx as [Hx _]. congruence.
  - destruct (dg_parent _ _ _ G Hr h) as (a & Ha & Hax); [by rewrite E|]. rewrite rem_empty in Hax by done. pose proof (some_nonzero F HC x fx (proj1 Hx)). congruence.
Qed.
Lemma rem_stays x : stays F F' x.
Proof.
  destruct rem_facts as (Hjd & _). intros g Hg. destruct (decide (x = j)) as [->|Hxj]; [rewrite lookup_insert_eq; exists h'; rewrite Hh in Hg; by injection Hg as <-|]. rewrite lookup_insert_ne by done.
  destruct (decide (x = d)) as [->|Hxd]; [|rewrite lookup_insert_ne by done; eauto]. rewrite lookup_insert_eq. exists fd'. destruct Hd as [Hd1 _]. rewrite Hd1 in Hg. injection Hg as <-. split_and!; [done|apply rem_set|intros _; apply rem_parent_at].
Qed.
(** A directory has one name. *)
Lemma rem_once : f_type h = T_DIR -> links F j = 1%nat.
Proof.
  intros Ht. destruct rem_facts as (Hjd & Hjr & Hhn & Hp). destruct rem_entry as (Hk & Hi & H0 & Hnk). unfold links. rewrite (msum_delete _ F d fd (proj1 Hd)). assert (msum (links_of j) (delete d F) = 0%nat) as ->.
  { destruct (msum (links_of j) (delete d F)) eqn:E; [done|]. destruct (msum_pos (links_of j) (delete d F) ltac:(lia)) as (y & g & [Hyd Hy]%lookup_delete_Some & Hp2). exfalso. unfold links_of in Hp2. destruct (in_tree g) eqn:Eg; [|lia]. apply in_tree_iff in Eg. apply cnt_pos in Hp2 as (a & Ha & (La & Lb & Lc)%leads_iff).
    assert (dir_at F y g) as Hyg by done. pose proof (cs_good _ HC y g Hyg) as G. destruct a as [|[|a]]; [by destruct (dg_dot _ _ _ G)|by apply (rem_childless y g Ht Hyg)|]. destruct (entry_links F HC y g (Datatypes.S (Datatypes.S a)) Hyg ltac:(lia) La) as (g2 & Hg2 & _ & Hgp). rewrite Lb, Hh in Hg2. injection Hg2 as <-. specialize (Hgp Ht). specialize (Hp Ht). congruence. }
  rewrite Nat.add_0_r. unfold links_of. rewrite (proj2 (in_tree_iff fd)) by apply Hd. apply (cnt_one _ _ k); [lia|apply leads_iff; split_and!; [congruence|done|rewrite Hnk; apply Hnm]|]. intros a Ha (La & Lb & Lc)%leads_iff. pose proof (cs_good _ HC d fd Hd) as G.
  destruct a as [|[|a]]; [by destruct (dg_dot _ _ _ G)|by destruct (rem_childless d fd Ht Hd)|]. eapply (dg_once _ _ _ G _ _ h); [lia|lia|done|congruence|by rewrite Lb|done].
Qed.
Lemma rem_gone x fx : dir_at F' x fx -> x = d \/ (dir_at F x fx /\ x <> j).
Proof.
  intros (Hx & Ht & Hn). destruct (decide (x = j)) as [->|Hxj].
  - exfalso. rewrite lookup_insert_eq in Hx. injection Hx as <-. cbn [with_nlink f_type f_nlink] in *. apply Hn. rewrite (cs_links _ HC j h Hh), rem_once by done. done.
  - destruct (decide (x = d)) as [->|Hxd]; [by left|]. right. split; [|done]. rewrite !lookup_insert_ne in Hx by done. done.
Qed.
Lemma rem_family x fx : dir_at F x fx -> x <> j -> family F F' x fx.
Proof.
  intros Hx Hxj. destruct rem_facts as (Hjd & _). destruct rem_entry as (Hk & Hi & _). pose proof (cs_good _ HC x fx Hx) as G. destruct (dg_dotdot _ _ _ G) as [_ [pd Hpd]].
  assert (inum_at fx 1 <> j) as Ej. { destruct (decide (f_type h = T_DIR)) as [Ht|Ht]; [by eapply rem_childless|]. intros E. rewrite E in Hpd. destruct Hpd as (? & ? & _). congruence. }
  destruct (decide (inum_at fx 1 = d)) as [E|E].
  - rewrite E in *. split; [rewrite E; exists fd'; apply rem_dir_at|]. rewrite E. intros Hr pd' (Hpd' & _). rewrite lookup_insert_ne, lookup_insert_eq in Hpd' by done. injection Hpd' as <-. destruct (dg_parent _ _ _ G Hr fd) as (a & Ha & Hax); [by rewrite E|].
    exists a. rewrite (sa_size _ _ _ _ _ rem_set). split; [lia|]. rewrite (sa_inum _ _ _ _ _ rem_set), decide_False; [done|congruence|rewrite (sa_size _ _ _ _ _ rem_set); lia].
  - assert (forall pd', dir_at F' (inum_at fx 1) pd' <-> dir_at F (inum_at fx 1) pd') as Hiff by (intros pd'; unfold dir_at; by rewrite !lookup_insert_ne by done).
    split; [exists pd; by apply Hiff|]. intros Hr pd' Hpd'%Hiff. by apply (dg_parent _ _ _ G Hr).
Qed.
Lemma rem_links x : (links F' x + Nat.b2n (x =? j)%Z + Nat.b2n ((f_type h =? T_DIR) && (x =? d))%Z = links F x)%nat.
Proof.
  destruct rem_facts as (Hjd & Hjr & Hhn & Hp). destruct rem_entry as (Hk & Hi & H0 & Hnk). pose proof Hd as (Hfd & Ht & Hn). pose proof (links_set fd fd' k 0 [] x rem_set ltac:(lia) Hn rem_nlink) as L1.
  rewrite (proj2 (in_tree_iff fd)), bool_decide_true in L1 by (done || lia). cbn [andb] in L1. assert (leads fd x k = (x =? j)) as E1. { unfold leads. rewrite Hi, Hnk, (proj2 (Z.eqb_neq j 0) H0), bool_decide_false by apply Hnm. cbn [negb andb]. rewrite andb_true_r. apply Z.eqb_sym. }
  assert (leads fd' x k = false) as E2. { unfold leads. rewrite (sa_inum _ _ _ _ _ rem_set), decide_True by (rewrite ?(sa_size _ _ _ _ _ rem_set); lia || done). done. }
  rewrite E1, E2 in L1. simpl in L1. pose proof (msum_update (links_of x) F d fd fd' Hfd) as L2. pose proof (msum_update (links_of x) (<[d := fd']> F) j h h') as L3. rewrite lookup_insert_ne in L3 by done. specialize (L3 Hh).
  assert (links_of x h = links_of x h' + Nat.b2n ((f_type h =? T_DIR) && (x =? d))%Z)%nat as L4; [|unfold links; lia].
  unfold links_of. destruct (Z.eqb_spec (f_type h) T_DIR) as [Hht|Hht]; cycle 1.
  { assert (in_tree h = false) as -> by (unfold in_tree; by rewrite (proj2 (Z.eqb_neq _ _) Hht)). assert (in_tree h' = false) as -> by (unfold in_tree; cbn [with_nlink f_type]; by rewrite (proj2 (Z.eqb_neq _ _) Hht)). done. }
  assert (in_tree h' = false) as ->. { unfold in_tree. cbn [with_nlink f_type f_nlink]. rewrite (cs_links _ HC j h Hh), rem_once by done. apply andb_false_r. }
  rewrite (proj2 (in_tree_iff h)) by done. pose proof (cs_good _ HC j h ltac:(done)) as Gj. pose proof (dg_two _ _ _ Gj). destruct (dg_dotdot _ _ _ Gj) as [N1 _]. destruct (dg_dot _ _ _ Gj) as [_ N0]. specialize (Hp Hht). pose proof (some_nonzero F HC d fd (proj1 Hd)) as Hd0.
  pose proof (cnt_change (leads h x) (fun _ => false) (size_of h) 1 ltac:(lia)) as C. rewrite (cnt_zero (fun _ => false)) in C by done. simpl in C. rewrite Nat.add_0_r in C. cbn [andb]. rewrite Nat.add_0_l, C.
  - unfold leads. rewrite Hp, N1, (proj2 (Z.eqb_neq d 0) Hd0). cbn. by rewrite andb_true_r, Z.eqb_sym.
  - intros a Ha Ha1. unfold leads. destruct a as [|[|a]]; [rewrite N0; by rewrite andb_false_r|done|]. by rewrite rem_empty by (done || lia).
Qed.
Lemma consistent_remove : consistent F'.
Proof.
  destruct rem_facts as (Hjd & Hjr & Hhn & Hp). destruct rem_entry as (Hk & Hi & H0 & Hnk). pose proof Hd as (Hfd & Ht & Hn). destruct (cs_root _ HC) as (r & Hr & Hr1). split.
  - destruct (decide (ROOTINO = d)) as [E|E]; [exists fd'; rewrite E; split; [apply rem_dir_at|]; rewrite rem_parent_at; destruct Hr as [Hr _]; rewrite E, Hfd in Hr; injection Hr as <-; congruence|].
    exists r. split; [|done]. unfold dir_at. by rewrite !lookup_insert_ne by done.
  - pose proof (some_nonzero F HC d fd Hfd). rewrite !lookup_insert_ne by done. apply HC.
  - intros x fx Hx. destruct (rem_gone x fx Hx) as [->|[Hx' Hxj]].
    + destruct Hx as (Hx & _). rewrite lookup_insert_ne, lookup_insert_eq in Hx by done. injection Hx as <-. pose proof (cs_good _ HC d fd Hd) as G.
      apply (good_set F _ d fd fd' k 0 []); [done|intros ? ? ?; apply rem_stays|by apply rem_family|apply rem_set|lia|done].
    + destruct (decide (x = d)) as [->|Hxd]; [destruct Hx as (Hx & _); rewrite lookup_insert_ne, lookup_insert_eq in Hx by done|].
      { injection Hx as <-. pose proof (cs_good _ HC d fd Hd) as G. apply (good_set F _ d fd fd' k 0 []); [done|intros ? ? ?; apply rem_stays|by apply rem_family|apply rem_set|lia|done]. }
      pose proof (cs_good _ HC x fx Hx') as G. apply (good_keep F); [done|intros ? ? ?; apply rem_stays|by apply rem_family].
  - intros x fx Hx. pose proof (rem_links x) as L. destruct (decide (x = j)) as [->|Hxj].
    { rewrite lookup_insert_eq in Hx. injection Hx as <-. change (f_nlink h') with (f_nlink h - 1). pose proof (cs_links _ HC j h Hh). rewrite Z.eqb_refl, (proj2 (Z.eqb_neq j d) Hjd), andb_false_r in L. cbn [Nat.b2n] in L. lia. }
    rewrite lookup_insert_ne in Hx by done. rewrite (proj2 (Z.eqb_neq x j) Hxj) in L. destruct (decide (x = d)) as [->|Hxd].
    { rewrite lookup_insert_eq in Hx. injection Hx as <-. rewrite Z.eqb_refl, andb_true_r in L. pose proof (cs_links _ HC d fd Hfd). assert (f_nlink fd' = f_nlink fd - Z.of_nat (Nat.b2n (f_type h =? T_DIR))) as -> by (destruct (f_type h =? T_DIR); cbn; lia). cbn [Nat.b2n] in L. lia. }
    rewrite lookup_insert_ne in Hx by done. rewrite (proj2 (Z.eqb_neq x d) Hxd), andb_false_r in L. rewrite (cs_links _ HC x fx Hx). simpl in L. lia.
Qed.
End Remove.

(** Freeing a file without links. *)
Lemma delete_consistent F j h : consistent F -> F !! j = Some h -> f_nlink h = 0 -> consistent (delete j F).
Proof.
  intros HC Hh Hn. assert (forall x fx, dir_at (delete j F) x fx <-> dir_at F x fx) as Hiff.
  { intros x fx. unfold dir_at. destruct (decide (x = j)) as [->|Hne]; [|by rewrite lookup_delete_ne]. rewrite lookup_delete_eq. split; [by intros [? _]|]. intros (? & _ & ?). congruence. }
  assert (forall x, links (delete j F) x = links F x) as Hl. { intros x. unfold links. rewrite (msum_delete (links_of x) F j h Hh). unfold links_of at 2. unfold in_tree. by rewrite Hn, andb_false_r. }
  split.
  - destruct (cs_root _ HC) as (r & Hr & Hr1). exists r. by rewrite Hiff.
  - rewrite lookup_delete_ne; [apply HC|]. by apply (some_nonzero F HC j h).
  - intros x fx Hx%Hiff. pose proof (cs_good _ HC x fx Hx) as G. apply (good_keep F); [done| |].
    + intros k Hk Hi g Hg. destruct (entry_links F HC x fx k Hx Hk Hi) as (g' & Hg' & Hgn & _). exists g. rewrite lookup_delete_ne; [done|]. intros E. congruence.
    + destruct (dg_dotdot _ _ _ G) as [_ [pd Hpd]]. split; [exists pd; by apply Hiff|]. intros Hr pd' Hpd'%Hiff. by apply (dg_parent _ _ _ G Hr).
  - intros x fx [_ Hx]%lookup_delete_Some. rewrite Hl. by apply HC.
Qed.
(** The contents of files that are not directories do not matter. *)
Lemma data_consistent F i f l : consistent F -> F !! i = Some f -> f_type f <> T_DIR -> consistent (<[i := with_data l f]> F).
Proof.
  intros HC Hf Ht. set (f' := with_data l f). assert (forall x fx, dir_at (<[i := f']> F) x fx <-> dir_at F x fx) as Hiff.
  { intros x fx. unfold dir_at. destruct (decide (x = i)) as [->|Hne]; [|by rewrite lookup_insert_ne]. rewrite lookup_insert_eq. split; [by intros ([= <-] & ? & _)|]. intros (? & ? & _). congruence. }
  assert (forall x, links (<[i := f']> F) x = links F x) as Hl. { intros x. pose proof (msum_update (links_of x) F i f f' Hf) as HU. unfold links, links_of, in_tree in *. cbn [f' with_data f_type] in HU. rewrite (proj2 (Z.eqb_neq _ _) Ht) in HU. cbn [andb] in HU. lia. }
  split.
  - destruct (cs_root _ HC) as (r & Hr & Hr1). exists r. by rewrite Hiff.
  - rewrite lookup_insert_ne; [apply HC|]. by apply (some_nonzero F HC i f).
  - intros x fx Hx%Hiff. pose proof (cs_good _ HC x fx Hx) as G. apply (good_keep F); [done| |].
    + intros k Hk Hi g Hg. destruct (decide (inum_at fx k = i)) as [E|E]; [|exists g; by rewrite lookup_insert_ne]. rewrite E in *. exists f'. rewrite lookup_insert_eq. rewrite Hf in Hg. injection Hg as <-. done.
    + destruct (dg_dotdot _ _ _ G) as [_ [pd Hpd]]. split; [exists pd; by apply Hiff|]. intros Hr pd' Hpd'%Hiff. by apply (dg_parent _ _ _ G Hr).
  - intros x fx Hx. rewrite Hl. destruct (decide (x = i)) as [->|Hne]; [rewrite lookup_insert_eq in Hx; injection Hx as <-; by apply (HC.(cs_links _) i f)|]. rewrite lookup_insert_ne in Hx by done. by apply HC.
Qed.

(** * Names lead to what the calls have made, and not to what they have removed *)

(** An entry of a directory in the tree is found under its name. *)
Lemma find_entry F d fd k : dir_good F d fd -> (k < size_of fd)%nat -> inum_at fd k <> 0 -> dir_find (f_data fd) (name_at fd k) = Some (k, inum_at fd k).
Proof.
  intros G Hk Hi. destruct (dir_find (f_data fd) (name_at fd k)) as [[k' j]|] eqn:E; [|by destruct (find_none _ _ _ E Hk Hi)]. destruct (find_at _ _ _ _ E) as (Hk' & Hj & H0 & Hn).
  assert (k' = k) as ->; [|by rewrite Hj]. apply (dg_names _ _ _ G); [done|done|congruence|done|done].
Qed.

(** ** Walks when entries are added *)

Definition extends F F' : Prop := forall x f, dir_at F x f -> exists f', F' !! x = Some f' /\ f_type f' = T_DIR /\ forall nm e, dir_find (f_data f) nm = Some e -> dir_find (f_data f') nm = Some e.
Lemma walk_extends b F F' es : tree F -> extends F F' -> forall i d, live F i -> walk b F i es = Some d -> walk b F' i es = Some d.
Proof.
  intros HT HX. induction es as [|e es IH]; intros i d Hi; cbn [walk]; [done|]. destruct Hi as (f & Hf & Hn). rewrite Hf. cbn [mbind option_bind]. destruct (Z.eqb_spec (f_type f) T_DIR) as [Hd|]; cbn [negb]; [|done].
  destruct (HX i f) as (f' & Hf' & Ht' & Hfind); [done|]. rewrite Hf'. cbn [mbind option_bind]. rewrite (proj2 (Z.eqb_eq _ _) Ht'). cbn [negb]. destruct (b && bool_decide (es = [])); [done|].
  destruct (dir_find (f_data f) (take DIRSIZ e)) as [[k j]|] eqn:E; cbn [mbind option_bind snd]; [|done]. rewrite (Hfind _ _ E). cbn [mbind option_bind snd]. apply IH. destruct (HT i f Hf Hd Hn) as [_ Hent]. by apply Hent in E.
Qed.
(** The last step of a walk. *)
Lemma walk_step F es : forall i d fd, walk true F i es = Some d -> F !! d = Some fd -> walk false F i es = snd <$> dir_find (f_data fd) (take DIRSIZ (List.last es [])).
Proof.
  induction es as [|e es IH]; intros i d fd; cbn [walk]; [done|]. destruct (F !! i) as [f|] eqn:Hf; [|done]. cbn [mbind option_bind]. destruct (negb (f_type f =? T_DIR)); [done|]. cbn [andb].
  destruct (bool_decide_reflect (es = [])) as [->|Hne].
  - intros [= <-] Hfd. rewrite Hf in Hfd. injection Hfd as <-. cbn [List.last]. by destruct (dir_find _ _).
  - destruct (dir_find (f_data f) (take DIRSIZ e)) as [[k j]|]; cbn [mbind option_bind snd]; [|done]. intros Hw Hfd. rewrite (IH _ _ _ Hw Hfd). by destruct es.
Qed.
(** A walk to the last name goes through its directory. *)
Lemma walk_through F es : es <> [] -> forall i j, walk false F i es = Some j -> exists d, walk true F i es = Some d.
Proof.
  induction es as [|e es IH]; intros Hes i j; [done|]. cbn [walk]. destruct (F !! i) as [f|]; [|done]. cbn [mbind option_bind]. destruct (negb (f_type f =? T_DIR)); [done|]. cbn [andb].
  destruct (bool_decide_reflect (es = [])) as [->|Hne]; [eauto|]. destruct (dir_find (f_data f) (take DIRSIZ e)) as [[k j']|]; cbn [mbind option_bind snd]; [|done]. by apply IH.
Qed.

Section Added.
Context F F' (HC : consistent F) (HC' : consistent F') (d i : Z) (fd fd' : file) (nm : list Z) (Hd : dir_at F d fd) (Hd' : dir_at F' d fd') (Hi : i <> 0)
  (Hset : set_at fd fd' (dir_free (f_data fd)) i nm) (Hother : forall x f, x <> d -> dir_at F x f -> F' !! x = Some f).
Lemma added_found : dir_find (f_data fd') nm = Some (dir_free (f_data fd), i).
Proof.
  set (k := dir_free (f_data fd)) in *. assert (k < size_of fd')%nat as Hk by (rewrite (sa_size _ _ _ _ _ Hset); lia). assert (inum_at fd' k = i) as Ei by (rewrite (sa_inum _ _ _ _ _ Hset) by done; by rewrite decide_True).
  rewrite <- (sa_this _ _ _ _ _ Hset Hi), <- Ei at 1. rewrite (find_entry F' d fd' k); [by rewrite Ei|by apply HC'|done|congruence].
Qed.
Lemma added_extends : extends F F'.
Proof.
  intros x f Hx. destruct (decide (x = d)) as [->|Hne]; [|exists f; split_and!; [by apply Hother|apply Hx|done]]. assert (f = fd) as -> by (destruct Hx, Hd; congruence). exists fd'. split_and!; [apply Hd'|apply Hd'|].
  intros nm' [k j] E. destruct (find_at _ _ _ _ E) as (Hk & Hj & H0 & Hn). assert (k <> dir_free (f_data fd)) as Hne. { intros ->. by rewrite (free_zero fd Hk) in Hj. }
  assert (k < size_of fd')%nat as Hk' by (rewrite (sa_size _ _ _ _ _ Hset); lia). assert (inum_at fd' k = j) as Ei by (rewrite (sa_inum _ _ _ _ _ Hset) by done; by rewrite decide_False).
  rewrite <- Hn, <- (sa_name _ _ _ _ _ Hset k Hk' Hne), <- Ei at 1. rewrite (find_entry F' d fd' k); [by rewrite Ei|by apply HC'|done|congruence].
Qed.
Lemma added_walk s es : live F s -> walk true F s es = Some d -> nm = take DIRSIZ (List.last es []) -> walk false F' s es = Some i.
Proof.
  intros Hs Hw Hnm. rewrite (walk_step F' es s d fd'); [by rewrite <- Hnm, added_found| |apply Hd']. eapply walk_extends; [|apply added_extends|done|done]. by apply consistent_rooted.
Qed.
End Added.

(** What [create] has made is there under its path. *)
Lemma made_found F d fd type M m i s es : let nm := take DIRSIZ (List.last es []) in
  consistent F -> dir_at F d fd -> dir_find (f_data fd) nm = None -> good_name nm -> 0 < i < 2 ^ 16 -> 0 < d < 2 ^ 16 -> F !! i = None -> live F s -> walk true F s es = Some d ->
  walk false (made F d fd nm type M m i) s es = Some i.
Proof.
  intros nm HC Hd Hfind Hnm Hi Hd16 HN Hs Hw. pose proof (made_consistent F d fd nm type M m i HC Hd Hfind Hnm Hi Hd16 HN) as HC'. pose proof (dg_ok _ _ _ (cs_good _ HC d fd Hd)) as Hok. pose proof (cs_links _ HC d fd (proj1 Hd)) as Hl. destruct Hd as (Hfd & Ht & Hn).
  assert (forall fd' fi, F !! i = None -> forall x f, x <> d -> dir_at F x f -> <[d := fd']> (<[i := fi]> F) !! x = Some f) as Hoth. { intros fd' fi _ x f Hx (Hf & _). rewrite !lookup_insert_ne; [done|congruence|done]. }
  unfold made in *. destruct (type =? T_DIR); (eapply added_walk; [exact HC|exact HC'|exact (conj Hfd (conj Ht Hn))|split_and!; [apply lookup_insert_eq|done|cbn; lia]|lia| |by apply Hoth|done|done|done]).
  - apply set_at_nlink with (f_nlink fd + 1). by apply (add_set (with_nlink (f_nlink fd + 1) fd)).
  - by apply add_set.
Qed.
(** And a new link is. *)
Lemma more_found F d fd i f s es : let nm := take DIRSIZ (List.last es []) in
  consistent F -> dir_at F d fd -> dir_find (f_data fd) nm = None -> good_name nm -> 0 < i < 2 ^ 16 -> F !! i = Some f -> f_type f <> T_DIR -> live F s -> walk true F s es = Some d ->
  walk false (more F d fd nm i f) s es = Some i.
Proof.
  intros nm HC Hd Hfind Hnm Hi Hf Hft Hs Hw. pose proof (more_consistent F d fd nm i f HC Hd Hfind Hnm Hi Hf Hft) as HC'. pose proof (dg_ok _ _ _ (cs_good _ HC d fd Hd)) as Hok. destruct Hd as (Hfd & Ht & Hn).
  unfold more in *. eapply added_walk; [exact HC|exact HC'|exact (conj Hfd (conj Ht Hn))|split_and!; [apply lookup_insert_eq|done|done]|lia|by apply add_set| |done|done|done].
  intros x g Hx (Hg & Hgt & _). rewrite !lookup_insert_ne; [done|congruence|done].
Qed.

(** ** Walks when an entry is removed *)

(** Every entry of [F'] was in [F]. *)
Definition within F F' : Prop := forall x f', F' !! x = Some f' -> f_type f' = T_DIR -> exists f, F !! x = Some f /\ f_type f = T_DIR /\ forall nm k j, dir_find (f_data f') nm = Some (k, j) -> exists k0, dir_find (f_data f) nm = Some (k0, j).
Lemma walk_within F F' es : within F F' -> forall i d, walk true F' i es = Some d -> walk true F i es = Some d.
Proof.
  intros HX. induction es as [|e es IH]; intros i d; cbn [walk]; [done|]. destruct (F' !! i) as [f'|] eqn:Hf'; [|done]. cbn [mbind option_bind]. destruct (Z.eqb_spec (f_type f') T_DIR) as [Ht|]; cbn [negb]; [|done].
  destruct (HX i f' Hf' Ht) as (f & Hf & Hft & Hfind). rewrite Hf. cbn [mbind option_bind]. rewrite (proj2 (Z.eqb_eq _ _) Hft). cbn [negb]. destruct (true && bool_decide (es = [])); [done|].
  destruct (dir_find (f_data f') (take DIRSIZ e)) as [[k j]|] eqn:E; cbn [mbind option_bind snd]; [|done]. destruct (Hfind _ _ _ E) as (k0 & ->). cbn [mbind option_bind snd]. apply IH.
Qed.

Section Removed.
Context F (HC : consistent F) (d j : Z) (fd h : file) (k : nat) (nm : list Z) (Hd : dir_at F d fd) (Hfind : dir_find (f_data fd) nm = Some (k, j)) (Hnm : plain nm) (Hh : F !! j = Some h)
  (Hemp : f_type h = T_DIR -> dir_empty (f_data h) = true).
Notation fd' := (clear_entry k (if f_type h =? T_DIR then with_nlink (f_nlink fd - 1) fd else fd)).
Lemma removed_set : set_at fd fd' k 0 [].
Proof. by eapply (rem_set F HC d j fd h k nm). Qed.
(** No entry of the directory has the name. *)
Lemma removed_missing : dir_find (f_data fd') nm = None.
Proof.
  destruct (rem_entry F HC d j fd k nm Hd Hfind Hnm) as (Hk & Hi & H0 & Hn). pose proof removed_set as HS. destruct (dir_find (f_data fd') nm) as [[k' j']|] eqn:E; [|done]. destruct (find_at _ _ _ _ E) as (Hk' & Hj' & Hj0 & Hn').
  pose proof (sa_size _ _ _ _ _ HS) as Hsz. rewrite (sa_inum _ _ _ _ _ HS) in Hj' by done. destruct (decide (k' = k)) as [->|Hne]; [congruence|]. rewrite (sa_name _ _ _ _ _ HS) in Hn' by done.
  destruct Hne. apply (dg_names _ _ _ (cs_good _ HC d fd Hd)); [lia|lia|congruence|congruence|congruence].
Qed.
Lemma removed_within : within F (less F d fd k j h).
Proof.
  destruct (rem_entry F HC d j fd k nm Hd Hfind Hnm) as (Hk & Hi & H0 & Hn). pose proof removed_set as HS. destruct (rem_facts F HC d j fd h k nm Hd Hfind Hnm Hh) as (Hjd & _). intros x f' Hx Ht. unfold less in Hx.
  destruct (decide (x = j)) as [->|Hxj]; [rewrite lookup_insert_eq in Hx; injection Hx as <-; exists h; split_and!; [done|done|]; intros nm' k' j' E; by exists k'|]. rewrite lookup_insert_ne in Hx by done.
  destruct (decide (x = d)) as [->|Hxd]; [|rewrite lookup_insert_ne in Hx by done; exists f'; split_and!; [done|done|]; intros nm' k' j' E; by exists k']. rewrite lookup_insert_eq in Hx. injection Hx as <-. exists fd. split_and!; [apply Hd|apply Hd|].
  intros nm' k' j' E. exists k'. destruct (find_at _ _ _ _ E) as (Hk' & Hj' & Hj0 & Hn'). pose proof (sa_size _ _ _ _ _ HS) as Hsz. rewrite (sa_inum _ _ _ _ _ HS) in Hj' by done. destruct (decide (k' = k)) as [->|Hne]; [congruence|].
  rewrite (sa_name _ _ _ _ _ HS) in Hn' by done. rewrite <- Hn', <- Hj'. apply (find_entry F d); [by apply HC|lia|congruence].
Qed.
(** A walk to the name, on any path, ends nowhere. *)
Lemma removed_walk F' s es : (forall x f, F' !! x = Some f -> less F d fd k j h !! x = Some f) -> walk true F s es = Some d -> nm = take DIRSIZ (List.last es []) -> walk false F' s es = None.
Proof.
  intros Hsub Hw Hlast. destruct (walk false F' s es) as [y|] eqn:E; [|done]. exfalso. destruct (walk_through F' es) with s y as [d' Hw']; [by intros ->|done|]. destruct (rem_facts F HC d j fd h k nm Hd Hfind Hnm Hh) as (Hjd & _).
  assert (walk true F s es = Some d') as Hwd. { eapply walk_within; [|exact Hw']. intros x f' Hx. apply removed_within. by apply Hsub. } rewrite Hw in Hwd. injection Hwd as <-.
  destruct (walk_parent _ _ _ _ Hw') as (g & Hg & _). rewrite (walk_step F' es s d g Hw' Hg) in E. apply Hsub in Hg. unfold less in Hg. rewrite lookup_insert_ne, lookup_insert_eq in Hg by done. injection Hg as <-. by rewrite <- Hlast, removed_missing in E.
Qed.
End Removed.
