(* ===== verification/SysCalls.v ===== *)
(** * Calls that make, open and close files *)

From stdpp Require Import base gmap list strings.
From Stdlib Require Import ZArith Lia.
From S2P Require Import Prelude CString Sync Sleeplock CacheSpec Log BlockSpec Fs File Syscall Sysfile FsLayout FsInv FsFile FsRw FsCorrect FsNames FsDir FsPath FsTriple FsTree SysTriple SysNames FsConsistent FsPreserve.
Local Open Scope Z_scope.

(** The name a path ends with. *)
Definition last_name (path : list Z) : list Z := take DIRSIZ (List.last (elems path) []).
Lemma elems_from_nonzero p : forall cur, Forall (fun c => c <> 0) cur -> Forall (Forall (fun c => c <> 0)) (elems_from cur p).
Proof.
  assert (forall cur, Forall (fun c => c <> 0) cur -> Forall (Forall (fun c => c <> 0)) (flush cur)) as Hfl. { intros [|c cur] Hc; [apply Forall_nil_2|]. apply Forall_cons_2; [done|apply Forall_nil_2]. }
  induction p as [|c p IH]; intros cur Hc; cbn [elems_from]; [by apply Hfl|]. destruct (Z.eqb_spec c 0) as [->|H0]; [by apply Hfl|].
  destruct (c =? 47); [apply Forall_app; split; [by apply Hfl|apply IH, Forall_nil_2]|]. apply IH, Forall_app. split; [done|]. apply Forall_cons_2; [done|apply Forall_nil_2].
Qed.
Lemma last_name_good path : good_name (last_name path).
Proof.
  split; [|unfold last_name; rewrite length_take; lia]. apply Forall_take. pose proof (elems_from_nonzero path [] (Forall_nil_2 _)) as H. fold (elems path) in H. induction H as [|e es He Hes IH]; [constructor|]. destruct es; [done|]. exact IH.
Qed.

(** ** The calls keep the files consistent *)

Section Keep.
Context (ninodes : Z) (F : gmap Z file) (R : gmap nat (Z * Z)) (o : option Z) (nm : list Z) (HC : consistent F) (Hnum : ninodes <= 2 ^ 16) (Hbound : forall i f, F !! i = Some f -> 0 <= i < ninodes)
  (Ho : forall d fd, o = Some d -> F !! d = Some fd -> dir_at F d fd) (Hnm : good_name nm).
Lemma dir_number d fd : dir_at F d fd -> 0 < d < 2 ^ 16.
Proof. intros Hd. pose proof (some_nonzero F HC d fd (proj1 Hd)). pose proof (Hbound d fd (proj1 Hd)). lia. Qed.
Lemma created_consistent type M m x F' R' lk : created ninodes F R o nm type M m x F' R' lk -> consistent F'.
Proof.
  intros [ | | |d fd i q R2 E1 Hfd Ht Hfind Hi HN]; [done..|]. assert (dir_at F d fd) as Hd by auto. apply made_consistent; [done..|lia|by eapply dir_number|done].
Qed.
Lemma unlinks_consistent r F' : unlinks F R o nm r F' -> consistent F'.
Proof.
  intros [ | | | |d fd k j h E1 N1 N2 Hfd Hfind Hj Hemp _|d fd k j h E1 N1 N2 Hfd Hfind Hj Hemp H1 _]; [done..| |].
  - by eapply (consistent_remove F HC d j fd h k nm); auto.
  - eapply delete_consistent; [by eapply (consistent_remove F HC d j fd h k nm); auto|apply lookup_insert_eq|]. cbn [with_nlink f_nlink]. lia.
Qed.
Lemma links_to_consistent i r F' : links_to F i o nm r F' -> consistent F'.
Proof.
  intros [ | | | |i' f d fd E1 Hf Ht E2 Hfd Hdt Hfind]; [done..|]. assert (dir_at F d fd) as Hd by auto. apply more_consistent; [done..| |done|done]. pose proof (Hbound i' f Hf).
  pose proof (some_nonzero F HC i' f Hf). lia.
Qed.
End Keep.

(** ** mkdir, mknod and chdir *)

(** What [mkdir] and [mknod] return and leave. *)
Inductive makes (ninodes : Z) (F : gmap Z file) (o : option Z) (nm : list Z) (type M m : Z) : Z -> gmap Z file -> Prop :=
| Mk_nowhere : o = None -> makes ninodes F o nm type M m (-1) F
| Mk_taken d fd e : o = Some d -> F !! d = Some fd -> dir_find (f_data fd) nm = Some e -> makes ninodes F o nm type M m (-1) F
| Mk_made d fd i : o = Some d -> F !! d = Some fd -> f_type fd = T_DIR -> dir_find (f_data fd) nm = None -> 0 < i < ninodes -> F !! i = None ->
    makes ninodes F o nm type M m 0 (made F d fd nm type M m i).
Inductive changes_dir (F : gmap Z file) (R : gmap nat (Z * Z)) (cw : nat) (ci : Z) (o : option Z) : Z -> nat -> gmap nat (Z * Z) -> Prop :=
| Cd_nowhere : o = None -> changes_dir F R cw ci o (-1) cw R
| Cd_file i f : o = Some i -> F !! i = Some f -> f_type f <> T_DIR -> changes_dir F R cw ci o (-1) cw R
| Cd_done i f q c R1 : o = Some i -> F !! i = Some f -> f_type f = T_DIR -> ref_got R i q R1 -> R1 !! cw = Some (ci, c) -> changes_dir F R cw ci o 0 q (ref_put cw ci c R1).

Lemma made_at F d fd nm type M m i : i <> d -> exists f, made F d fd nm type M m i !! i = Some f /\ f_nlink f = 1.
Proof. intros Hne. unfold made. destruct (type =? T_DIR); rewrite lookup_insert_ne, lookup_insert_eq by done; by eexists. Qed.

(** Where a process stands: consistent files, a current directory among
    them. *)
Record stands (F : gmap Z file) (R : gmap nat (Z * Z)) (cw : nat) (ci : Z) : Prop := {
  st_files : consistent F;
  st_cwd : exists c, R !! cw = Some (ci, c);
  st_live : live F ci
}.
Lemma stands_walkable F R cw ci : stands F R cw ci -> (size R + 2 <= NINODE)%nat -> walkable F R cw ci.
Proof. intros [H1 H2 H3] H4. split; [by apply consistent_rooted|done|done|done]. Qed.
Lemma ended_dir F R cw ci path d fd : walkable F R cw ci -> walk true F (start ci path) (elems path) = Some d -> F !! d = Some fd -> dir_at F d fd.
Proof. intros Hw Ew Hfd. destruct (walk_parent _ _ _ _ Ew) as (fd' & Hfd' & Ht). rewrite Hfd in Hfd'. injection Hfd' as <-. split_and!; [done|done|]. by eapply live_all, Hfd; eapply walkable_live. Qed.

Section SysCalls.
Context {L S K P : Type} `{HL : Locks L} `{HB : Blocks S} `{HK : Lock K} `{HP : Pipes P} (me : Z) (sb : superblock) (Hly : layout sb) (Hfs : forall n, fs_block sb n -> bk_fs n)
  (Hlk : (NINODE < lk_count)%nat).
Notation fs := (fs (L := L) (S := S)).
Notation sysfiles := (sysfiles (L := L) (S := S) (K := K) (P := P)).
Context (devsw_read : Z -> option (nat -> Z -> M fs (Z * list Z))) (devsw_write : Z -> option (nat -> list Z -> M fs Z)).
Implicit Types (F : gmap Z file) (R : gmap nat (Z * Z)) (lk : gset nat) (dk : history) (tbl : list File.file) (o : list (option nat)) (u : uproc) (w : world).
Notation frep := (frep me sb).
Notation srep := (srep (K := K) (P := P) me sb).
Notation triple := (triple srep).

Definition made_call F R dk tbl o cw ci u (path : list Z) (type M m r : Z) (w' : world) : Prop :=
  exists F', makes (sb_ninodes sb) F (walk true F (start ci path) (elems path)) (last_name path) type M m r F' /\ closed sb dk F' R tbl o cw u F w'.
Lemma create_node_ok F R dk tbl o cw ci u path type M m : walkable F R cw ci -> resources sb F R -> Forall byte path -> committed sb dk F -> type <> 0 -> type <> T_FILE -> - 2 ^ 15 <= type < 2 ^ 15 -> - 2 ^ 15 <= M < 2 ^ 15 -> - 2 ^ 15 <= m < 2 ^ 15 ->
  sb_ninodes sb <= 2 ^ 16 -> (3 * (nbitmap sb + 4) + 3 <= bk_room)%nat ->
  triple (mkWorld (mkFw true dk 0 F R ∅) tbl o cw u) (create_node me devsw_read devsw_write (Some path) type M m) (made_call F R dk tbl o cw ci u path type M m).
Proof.
  intros Hw Hres Hby Hcom Ht0 Htf Ht HM Hm Hnum Hroom. unfold create_node. eapply triple_bind; [by eapply (create_ok me sb Hly Hfs Hlk devsw_read devsw_write)|].
  intros x w' (n & F' & R' & lk & Hn & Hcr & ->). fold (last_name path) in Hcr. inversion Hcr as [E1 E2 E3 E4 E5|d fd k j h q R2 E1 Hfd Hfind Hj Et _ _ E2 E3 E4 E5|d fd k j h E1 Hfd Hfind Hj Hno E2 E3 E4 E5|d fd i q R2 E1 Hfd Hdt Hfind Hi HN Hgot E2 E3 E4 E5]; subst; [|done| |].
  - apply (sys_end me sb _ _ _ _ _ _ _ _ F'); [done|]. intros w' Hw'. exists F'. split; [by constructor|done].
  - apply (sys_end me sb _ _ _ _ _ _ _ _ F'); [done|]. intros w' Hw'. exists F'. split; [by eapply Mk_taken|done].
  - destruct (ref_got_at _ _ _ _ Hgot) as (c & Hc & _ & _ & Hput). destruct (made_at F d fd (last_name path) type M m i) as (f & Hf & Hf1); [intros ->; congruence|].
    eapply sys_fs_step; [eapply (tr_unlockput me sb Hly Hfs Hlk devsw_read devsw_write); [exact Hc|by apply elem_of_singleton|exact Hf|by rewrite Hf1]|]. rewrite difference_diag_L, Hput.
    apply (sys_end me sb _ _ _ _ _ _ _ _ F); [done|]. intros w' Hw'. eexists. split; [by eapply Mk_made|done].
Qed.
Lemma mkdir_ok F R dk tbl o cw ci u path : argstr u 0 = Some path -> walkable F R cw ci -> resources sb F R -> Forall byte path -> sb_ninodes sb <= 2 ^ 16 -> (3 * (nbitmap sb + 4) + 3 <= bk_room)%nat ->
  triple (mkWorld (mkFw false dk 0 F R ∅) tbl o cw u) (sys_mkdir me devsw_read devsw_write) (made_call F R dk tbl o cw ci u path T_DIR 0 0).
Proof.
  intros Harg Hw Hres Hby Hnum Hroom s Hs. pose proof (frep_committed me sb _ _ _ _ _ (sr_fs _ _ _ _ Hs)) as Hcom. revert s Hs.
  change (triple (mkWorld (mkFw false dk 0 F R ∅) tbl o cw u) (sys_mkdir me devsw_read devsw_write) (made_call F R dk tbl o cw ci u path T_DIR 0 0)).
  unfold sys_mkdir, getstr. apply sys_begin, (sys_arg me sb _ (fun u => argstr u 0)). cbn [w_user]. rewrite Harg. by apply create_node_ok.
Qed.
Lemma mknod_ok F R dk tbl o cw ci u path M m : argstr u 0 = Some path -> argint u 1 = Some M -> argint u 2 = Some m -> walkable F R cw ci -> resources sb F R -> Forall byte path -> sb_ninodes sb <= 2 ^ 16 -> (3 * (nbitmap sb + 4) + 3 <= bk_room)%nat ->
  triple (mkWorld (mkFw false dk 0 F R ∅) tbl o cw u) (sys_mknod me devsw_read devsw_write) (made_call F R dk tbl o cw ci u path T_DEV (s16 M) (s16 m)).
Proof.
  intros Harg HaM Ham Hw Hres Hby Hnum Hroom s Hs. pose proof (frep_committed me sb _ _ _ _ _ (sr_fs _ _ _ _ Hs)) as Hcom. revert s Hs.
  change (triple (mkWorld (mkFw false dk 0 F R ∅) tbl o cw u) (sys_mknod me devsw_read devsw_write) (made_call F R dk tbl o cw ci u path T_DEV (s16 M) (s16 m))).
  unfold sys_mknod, getstr, getu. apply sys_begin, (sys_arg me sb _ (fun u => argstr u 0)), (sys_arg me sb _ (fun u => argint u 1)), (sys_arg me sb _ (fun u => argint u 2)). cbn [w_user]. rewrite Harg, HaM, Ham.
  apply create_node_ok; try done; apply s16_range.
Qed.
Definition moved_dir F R dk tbl o cw ci u (path : list Z) (r : Z) (w' : world) : Prop :=
  exists cw' R', changes_dir F R cw ci (walk false F (start ci path) (elems path)) r cw' R' /\ closed sb dk F R' tbl o cw' u F w'.
Lemma chdir_ok F R dk tbl o cw ci u path : argstr u 0 = Some path -> walkable F R cw ci ->
  triple (mkWorld (mkFw false dk 0 F R ∅) tbl o cw u) (sys_chdir me devsw_read) (moved_dir F R dk tbl o cw ci u path).
Proof.
  intros Harg Hw s Hs. pose proof (frep_committed me sb _ _ _ _ _ (sr_fs _ _ _ _ Hs)) as Hcom. revert s Hs.
  change (triple (mkWorld (mkFw false dk 0 F R ∅) tbl o cw u) (sys_chdir me devsw_read) (moved_dir F R dk tbl o cw ci u path)).
  unfold sys_chdir, getstr. apply sys_begin, (sys_arg me sb _ (fun u => argstr u 0)). cbn [w_user]. rewrite Harg. eapply (sys_namei me sb Hly Hfs Hlk devsw_read devsw_write); [exact Hw|]. intros x R1 Ha.
  destruct (walk false F (start ci path) (elems path)) as [i|] eqn:Ew, x as [ip|]; try done; cbn [arrived] in Ha.
  2:{ subst R1. apply (sys_end me sb _ _ _ _ _ _ _ _ F); [done|]. intros w' Hw'. exists cw, R. split; [rewrite Ew; by constructor|done]. }
  destruct (walkable_live _ _ _ _ _ _ _ Hw Ew) as (f & Hf & Hfn). destruct (ref_got_at _ _ _ _ Ha) as (c & Hc & _ & _ & Hput).
  eapply sys_fs_step; [eapply (tr_lock me sb Hly Hfs Hlk devsw_read devsw_write); [exact Hc|apply not_elem_of_empty]|]. rewrite union_empty_r_L.
  eapply sys_fs_bind; [eapply (tr_seen me sb Hlk devsw_read devsw_write); [exact Hc|by apply elem_of_singleton|done]|]. intros x v' ((_ & _ & Hty & _) & ->). rewrite Hty.
  destruct (Z.eqb_spec (f_type f) T_DIR) as [Ht|Ht]; cbn [negb]; cycle 1.
  - eapply sys_fs_step; [eapply (tr_unlockput me sb Hly Hfs Hlk devsw_read devsw_write); [exact Hc|by apply elem_of_singleton|done|done]|]. rewrite difference_diag_L, Hput.
    apply (sys_end me sb _ _ _ _ _ _ _ _ F); [done|]. intros w' Hw'. exists cw, R. split; [rewrite Ew; by eapply Cd_file|done].
  - eapply sys_fs_step; [eapply (tr_unlock me sb Hly Hfs Hlk devsw_read devsw_write); [exact Hc|by apply elem_of_singleton]|]. rewrite difference_diag_L.
    destruct Hw as [_ [cc Hcc] (fc & Hfc & Hfcn) _]. assert (exists c', R1 !! cw = Some (ci, c')) as [c' Hc'] by (inversion Ha; subst; destruct (decide (cw = ip)) as [->|]; rewrite ?lookup_insert_eq, ?lookup_insert_ne by done; simplify_eq; eauto).
    apply triple_bind with (fun y w' => cwd y = cw /\ w' = mkWorld (mkFw true dk 0 F R1 ∅) tbl o cw u); [apply triple_gets; intros s Hs; split; [apply Hs|done]|]. intros y w' [-> ->].
    eapply sys_fs_step; [eapply (tr_put me sb Hlk devsw_read devsw_write); [exact Hc'|apply not_elem_of_empty|exact Hfc|done]|].
    eapply sys_fs_bind; [apply tr_end|]. intros [] v' (ws & -> & He). intros s Hs. exists 0, (put_cwd ip s), (mkWorld (mkFw false (then_writes dk ws) 0 F (ref_put cw ci c' R1) ∅) tbl o ip u). split_and!; [done|destruct Hs; by split|].
    exists ip, (ref_put cw ci c' R1). split; [rewrite Ew; by eapply Cd_done|]. exists ws. split; [done|]. by apply He.
Qed.
End SysCalls.

(** * Opening, duplicating and closing *)

(** ** Counting references *)

Definition lsum {X : Type} (g : X -> nat) (l : list X) : nat := sum_list (g <$> l).
Lemma lsum_cons {X} (g : X -> nat) x l : lsum g (x :: l) = (g x + lsum g l)%nat.
Proof. done. Qed.
Lemma lsum_insert {X} (g : X -> nat) l i x y : l !! i = Some x -> (lsum g (<[i := y]> l) + g x = lsum g l + g y)%nat.
Proof.
  revert i. induction l as [|z l IH]; intros [|i] Hi; [done..| |]; [injection Hi as ->; change (<[0%nat := y]> (x :: l)) with (y :: l); rewrite !lsum_cons; lia|].
  specialize (IH i Hi). change (<[Datatypes.S i := y]> (z :: l)) with (z :: <[i := y]> l). rewrite !lsum_cons. lia.
Qed.
Lemma lsum_ge {X} (g : X -> nat) l i x : l !! i = Some x -> (g x <= lsum g l)%nat.
Proof. revert i. induction l as [|z l IH]; intros [|i] Hi; [done..| |]; rewrite lsum_cons; [injection Hi as ->; lia|]. specialize (IH i Hi). lia. Qed.
Lemma lsum_pos {X} (g : X -> nat) l : (0 < lsum g l)%nat -> exists i x, l !! i = Some x /\ (0 < g x)%nat.
Proof.
  induction l as [|z l IH]; [unfold lsum; simpl; lia|]. rewrite lsum_cons. intros H. destruct (decide (0 < g z)%nat) as [Hz|Hz]; [by exists 0%nat, z|]. destruct IH as (i & x & Hi & Hx); [lia|]. by exists (Datatypes.S i), x.
Qed.

(** An open file that refers to the inode cache entry [p]. *)
Definition use (p : nat) (x : File.file) : nat := if bool_decide (fd_ref x <> 0 /\ fd_type x = FD_INODE /\ fd_ip x = p) then 1 else 0.
Definition uses (tbl : list File.file) (cw p : nat) : nat := (lsum (use p) tbl + Nat.b2n (bool_decide (cw = p)))%nat.
Definition names_of (f : nat) (x : option nat) : nat := Nat.b2n (bool_decide (x = Some f)).
Definition count (R : gmap nat (Z * Z)) (p : nat) : Z := match R !! p with Some (_, c) => c | None => 0 end.
(** Every descriptor counts in its open file, every open file and the current
    directory in the inode cache, and entries of the table without references
    are free. *)
Record table_ok (R : gmap nat (Z * Z)) (tbl : list File.file) (o : list (option nat)) (cw : nat) : Prop := {
  tk_size : length tbl = NFILE /\ length o = NOFILE;
  tk_free : forall f x, tbl !! f = Some x -> 0 <= fd_ref x /\ (fd_ref x = 0 <-> fd_type x = FD_NONE);
  tk_fds : forall fd f, o !! fd = Some (Some f) -> exists x, tbl !! f = Some x /\ Z.of_nat (lsum (names_of f) o) <= fd_ref x;
  tk_uses : forall p, Z.of_nat (uses tbl cw p) <= count R p
}.

Lemma count_got R i q R' p : ref_got R i q R' -> count R' p = count R p + (if decide (p = q) then 1 else 0).
Proof.
  intros [c Hc Hq|Hq _]; unfold count; (destruct (decide (p = q)) as [->|Hne]; [rewrite lookup_insert_eq, Hq; lia|rewrite lookup_insert_ne by done; lia]).
Qed.
Lemma count_put R q i c p : R !! q = Some (i, c) -> count (ref_put q i c R) p = count R p - (if decide (p = q) then 1 else 0).
Proof.
  intros Hq. unfold count, ref_put. destruct (decide (c = 1)) as [->|Hc]; (destruct (decide (p = q)) as [->|Hne]; [rewrite ?lookup_delete_eq, ?lookup_insert_eq, Hq; lia|rewrite ?lookup_delete_ne, ?lookup_insert_ne by done; lia]).
Qed.
Lemma table_entry R tbl o cw f x x' : table_ok R tbl o cw -> tbl !! f = Some x -> 0 <= fd_ref x' -> (fd_ref x' = 0 <-> fd_type x' = FD_NONE) ->
  forall g y, <[f := x']> tbl !! g = Some y -> 0 <= fd_ref y /\ (fd_ref y = 0 <-> fd_type y = FD_NONE).
Proof. intros [_ T _ _] Hx H1 H2 g y [(-> & <- & _)|(_ & Hy)]%list_lookup_insert_Some; [done|by eapply T]. Qed.
Lemma uses_entry tbl cw f x x' p : tbl !! f = Some x -> (uses (<[f := x']> tbl) cw p + use p x = uses tbl cw p + use p x')%nat.
Proof. intros Hx. pose proof (lsum_insert (use p) tbl f x x' Hx). unfold uses. lia. Qed.
Lemma use_free p x : fd_ref x = 0 -> use p x = 0%nat.
Proof. intros H. unfold use. by rewrite bool_decide_false by (intros (? & _); done). Qed.

(** ** What the calls do to the table *)

(** [fd] becomes a name of the free entry [f], now for the inode in [q]. *)
Lemma table_open R tbl o cw i q R' f x x' fd : table_ok R tbl o cw -> ref_got R i q R' -> tbl !! f = Some x -> fd_ref x = 0 -> fd_ref x' = 1 -> fd_type x' = FD_INODE -> fd_ip x' = q -> o !! fd = Some None ->
  table_ok R' (<[f := x']> tbl) (<[fd := Some f]> o) cw.
Proof.
  intros HT Hgot Hx Hr Hr' Ht' Hq Hfd. pose proof HT as [[T1 T1'] T2 T3 T4]. split.
  - by rewrite !length_insert.
  - eapply table_entry; [done|done|lia|]. rewrite Hr', Ht'. done.
  - assert (lsum (names_of f) o = 0%nat) as Hz. { destruct (lsum (names_of f) o) eqn:E; [done|]. destruct (lsum_pos (names_of f) o ltac:(lia)) as (k & y0 & Hk & Hy0). unfold names_of in Hy0. destruct (bool_decide (y0 = Some f)) eqn:Ey; [|simpl in Hy0; lia]. apply bool_decide_eq_true in Ey as ->.
      destruct (T3 k f Hk) as (y & Hy & Hle). rewrite Hx in Hy. injection Hy as <-. lia. }
    intros k g Hk. pose proof (lsum_insert (names_of g) o fd None (Some f) Hfd) as HL. unfold names_of in HL at 2 4. rewrite (bool_decide_false (None = Some g)) in HL by done. apply list_lookup_insert_Some in Hk as [(-> & [= <-] & _)|(Hne & Hk)].
    + exists x'. rewrite list_lookup_insert_eq by (by eapply lookup_lt_Some). split; [done|]. rewrite bool_decide_true in HL by done. simpl in HL. lia.
    + destruct (decide (g = f)) as [->|Hgf]; [|destruct (T3 k g Hk) as (y & Hy & Hle); exists y; rewrite list_lookup_insert_ne by done; split; [done|]; rewrite bool_decide_false in HL by (intros [= ?]; done); simpl in HL; lia].
      exists x'. rewrite list_lookup_insert_eq by (by eapply lookup_lt_Some). split; [done|]. rewrite bool_decide_true in HL by done. simpl in HL. lia.
  - intros p. pose proof (uses_entry tbl cw f x x' p Hx) as HU. rewrite (use_free p x Hr) in HU. rewrite (count_got R i q R' p Hgot). specialize (T4 p). unfold use in HU. destruct (decide (p = q)) as [->|Hne].
    + rewrite bool_decide_true in HU by (split_and!; [lia|done|done]). lia.
    + rewrite bool_decide_false in HU by (intros (_ & _ & ?); congruence). lia.
Qed.
Lemma names_change o fd f0 y g : o !! fd = Some f0 -> (lsum (names_of g) (<[fd := y]> o) + Nat.b2n (bool_decide (f0 = Some g)) = lsum (names_of g) o + Nat.b2n (bool_decide (y = Some g)))%nat.
Proof. intros H. exact (lsum_insert (names_of g) o fd f0 y H). Qed.
(** Another descriptor for [f]. *)
Lemma table_dup R tbl o cw f x fd : table_ok R tbl o cw -> tbl !! f = Some x -> 1 <= fd_ref x -> Z.of_nat (lsum (names_of f) o) <= fd_ref x -> o !! fd = Some None -> table_ok R (<[f := set_ref (fd_ref x + 1) x]> tbl) (<[fd := Some f]> o) cw.
Proof.
  intros HT Hx Hr Hle Hfd. pose proof HT as [[T1 T1'] T2 T3 T4]. destruct (T2 f x Hx) as [_ Hty]. split.
  - by rewrite !length_insert.
  - eapply table_entry; [done|done|cbn; lia|]. cbn. split; [lia|]. intros E. apply Hty in E. lia.
  - intros k g Hk. pose proof (names_change o fd None (Some f) g Hfd) as HL. rewrite (bool_decide_false (None = Some g)) in HL by done. destruct (decide (g = f)) as [->|Hgf].
    + eexists. rewrite list_lookup_insert_eq by (by eapply lookup_lt_Some). split; [done|]. rewrite bool_decide_true in HL by done. cbn in *. lia.
    + apply list_lookup_insert_Some in Hk as [(-> & [= <-] & _)|(Hne & Hk)]; [done|]. destruct (T3 k g Hk) as (y & Hy & Hle'). exists y. rewrite list_lookup_insert_ne by done. split; [done|]. rewrite bool_decide_false in HL by (intros [= ?]; done). cbn in HL. lia.
  - intros p. pose proof (uses_entry tbl cw f x (set_ref (fd_ref x + 1) x) p Hx) as HU. specialize (T4 p). assert (use p (set_ref (fd_ref x + 1) x) = use p x) as E; [|lia]. unfold use. rewrite (bool_decide_ext _ (fd_ref x <> 0 /\ fd_type x = FD_INODE /\ fd_ip x = p)); [done|]. cbn. split; intros (? & ? & ?); (split_and!; [lia|done|done]).
Qed.
(** A descriptor less; [x'] is the entry without its reference. *)
Lemma table_close R R' tbl o cw f x x' fd : table_ok R tbl o cw -> o !! fd = Some (Some f) -> tbl !! f = Some x -> fd_ref x' = fd_ref x - 1 -> (fd_ref x' = 0 <-> fd_type x' = FD_NONE) ->
  (forall p, count R p + Z.of_nat (use p x') <= count R' p + Z.of_nat (use p x)) -> table_ok R' (<[f := x']> tbl) (<[fd := None]> o) cw.
Proof.
  intros HT Hfd Hx Hr' Hty Hc. pose proof HT as [[T1 T1'] T2 T3 T4]. destruct (T3 fd f Hfd) as (x0 & Hx0 & Hle). rewrite Hx in Hx0. injection Hx0 as <-. pose proof (lsum_ge (names_of f) o fd _ Hfd) as H1. unfold names_of in H1 at 1. rewrite bool_decide_true in H1 by done. cbn in H1. split.
  - by rewrite !length_insert.
  - eapply table_entry; [done|done|lia|done].
  - intros k g Hk. pose proof (names_change o fd (Some f) None g Hfd) as HL. rewrite (bool_decide_false (None = Some g)) in HL by done. apply list_lookup_insert_Some in Hk as [(-> & ? & _)|(Hne & Hk)]; [done|]. destruct (T3 k g Hk) as (y & Hy & Hle'). destruct (decide (g = f)) as [->|Hgf].
    + exists x'. rewrite list_lookup_insert_eq by (by eapply lookup_lt_Some). split; [done|]. rewrite bool_decide_true in HL by done. cbn in HL. lia.
    + exists y. rewrite list_lookup_insert_ne by done. split; [done|]. rewrite bool_decide_false in HL by (intros [= ?]; done). cbn in HL. lia.
  - intros p. pose proof (uses_entry tbl cw f x x' p Hx) as HU. specialize (T4 p). specialize (Hc p). lia.
Qed.
(** Another current directory. *)
Lemma table_chdir R tbl o cw ci q i c R1 : table_ok R tbl o cw -> ref_got R i q R1 -> R1 !! cw = Some (ci, c) -> table_ok (ref_put cw ci c R1) tbl o q.
Proof.
  intros [T1 T2 T3 T4] Hgot Hcw. split; [done..|]. intros p. rewrite (count_put R1 cw ci c p Hcw), (count_got R i q R1 p Hgot). specialize (T4 p). unfold uses in *.
  destruct (decide (p = cw)) as [->|H1], (decide (_ = q)) as [E|H2]; rewrite ?bool_decide_true, ?bool_decide_false in * by congruence; cbn in *; lia.
Qed.

(** ** The calls *)

(** The inode [sys_open] opens: found, or made when [omode] says so. *)
Inductive picks (ninodes : Z) (F : gmap Z file) (R : gmap nat (Z * Z)) (ci : Z) (path : list Z) (omode : Z) : option nat -> gmap Z file -> gmap nat (Z * Z) -> Prop :=
| Pk_create x F' R' lk : Z.land omode O_CREATE <> 0 -> created ninodes F R (walk true F (start ci path) (elems path)) (last_name path) T_FILE 0 0 x F' R' lk -> picks ninodes F R ci path omode x F' R'
| Pk_nowhere : Z.land omode O_CREATE = 0 -> walk false F (start ci path) (elems path) = None -> picks ninodes F R ci path omode None F R
| Pk_dir i f : Z.land omode O_CREATE = 0 -> walk false F (start ci path) (elems path) = Some i -> F !! i = Some f -> f_type f = T_DIR -> omode <> O_RDONLY -> picks ninodes F R ci path omode None F R
| Pk_found i f q R' : Z.land omode O_CREATE = 0 -> walk false F (start ci path) (elems path) = Some i -> F !! i = Some f -> (f_type f = T_DIR -> omode = O_RDONLY) -> ref_got R i q R' ->
    picks ninodes F R ci path omode (Some q) F R'.
Definition open_entry (q : nat) (omode : Z) (x : File.file) : File.file :=
  as_inode q (Z.land omode O_WRONLY =? 0) (negb (Z.land omode O_WRONLY =? 0) || negb (Z.land omode O_RDWR =? 0)) (set_ref 1 x).
Inductive opens (ninodes : Z) (F : gmap Z file) (R : gmap nat (Z * Z)) (tbl : list File.file) (o : list (option nat)) (ci : Z) (path : list Z) (omode : Z) : Z -> gmap Z file -> gmap nat (Z * Z) -> list File.file -> list (option nat) -> Prop :=
| Op_none F' R' : picks ninodes F R ci path omode None F' R' -> opens ninodes F R tbl o ci path omode (-1) F' R' tbl o
| Op_full q F' R' : picks ninodes F R ci path omode (Some q) F' R' -> free_file tbl = None \/ free_fd o = None -> opens ninodes F R tbl o ci path omode (-1) F' R tbl o
| Op_done q F' R' f x fd : picks ninodes F R ci path omode (Some q) F' R' -> free_file tbl = Some f -> tbl !! f = Some x -> free_fd o = Some fd ->
    opens ninodes F R tbl o ci path omode (Z.of_nat fd) F' R' (<[f := open_entry q omode x]> tbl) (<[fd := Some f]> o).

(** The inode picked has links. *)
Lemma picks_live ninodes F R ci cw path omode q F' R' : walkable F R cw ci -> picks ninodes F R ci path omode (Some q) F' R' -> exists i f, ref_got R i q R' /\ F' !! i = Some f /\ f_nlink f <> 0.
Proof.
  intros Hw HP. inversion HP as [x F1 R1 lk Hc Hcr| | |i f q' R1 Hc Ew Hf Hd Hgot]; subst.
  - inversion Hcr as [|d fd k j h q' R2 Ew Hfd Hfind Hj _ _ Hgot| |d fd i q' R2 Ew Hfd Hdt Hfind Hi HN Hgot]; subst.
    + exists j, h. split_and!; [done|done|]. pose proof (ended_dir F' R cw ci path d fd Hw Ew Hfd) as (_ & Ht & Hn). destruct (rt_tree _ (wk_rooted _ _ _ _ Hw) d fd Hfd Ht Hn) as [_ Hent]. destruct (Hent _ _ _ Hfind) as (h' & Hh' & Hn'). congruence.
    + destruct (made_at F d fd (last_name path) T_FILE 0 0 i) as (f & Hf & Hf1); [intros ->; congruence|]. exists i, f. split_and!; [done|done|lia].
  - destruct (walkable_live _ _ _ _ _ _ _ Hw Ew) as (f' & Hf' & Hn). exists i, f'. done.
Qed.

Lemma fd_open R tbl o cw fd f : table_ok R tbl o cw -> o !! fd = Some (Some f) -> exists x, tbl !! f = Some x /\ 1 <= fd_ref x /\ Z.of_nat (lsum (names_of f) o) <= fd_ref x.
Proof.
  intros [_ _ T3 _] Hfd. destruct (T3 _ _ Hfd) as (x & Hx & Hle). exists x. pose proof (lsum_ge (names_of f) o fd _ Hfd) as H1. unfold names_of in H1 at 1. rewrite bool_decide_true in H1 by done. cbn in H1. split_and!; [done|lia|done].
Qed.

Section SysOpen.
Context {L S K P : Type} `{HL : Locks L} `{HB : Blocks S} `{HK : Lock K} `{HP : Pipes P} (me : Z) (sb : superblock) (Hly : layout sb) (Hfs : forall n, fs_block sb n -> bk_fs n)
  (Hlk : (NINODE < lk_count)%nat).
Notation fs := (fs (L := L) (S := S)).
Notation files := (files (L := L) (S := S) (K := K) (P := P)).
Notation sysfiles := (sysfiles (L := L) (S := S) (K := K) (P := P)).
Context (devsw_read : Z -> option (nat -> Z -> M fs (Z * list Z))) (devsw_write : Z -> option (nat -> list Z -> M fs Z)).
Implicit Types (F : gmap Z file) (R : gmap nat (Z * Z)) (dk : history) (tbl : list File.file) (o : list (option nat)) (u : uproc) (w : world).
Notation frep := (frep me sb).
Notation srep := (srep (K := K) (P := P) me sb).
Notation triple := (triple srep).

Definition open_call F R dk tbl o cw ci u (path : list Z) (omode r : Z) (w' : world) : Prop :=
  exists F' R' tbl' o', opens (sb_ninodes sb) F R tbl o ci path omode r F' R' tbl' o' /\ closed sb dk F' R' tbl' o' cw u F w'.

(** The inode, locked, in the transaction. *)
Lemma open_inode_ok F R dk tbl o cw ci u path omode : walkable F R cw ci -> resources sb F R -> Forall byte path -> committed sb dk F -> sb_ninodes sb <= 2 ^ 16 -> (3 * (nbitmap sb + 4) + 3 <= bk_room)%nat ->
  triple (mkWorld (mkFw true dk 0 F R ∅) tbl o cw u) (open_inode me devsw_read devsw_write path omode) (fun x w' =>
    match x with
    | None => open_call F R dk tbl o cw ci u path omode (-1) w'
    | Some q => exists n F' R', picks (sb_ninodes sb) F R ci path omode (Some q) F' R' /\ w' = mkWorld (mkFw true dk n F' R' {[q]}) tbl o cw u
    end).
Proof.
  intros Hw Hres Hby Hcom Hnum Hroom. unfold open_inode. destruct (Z.eqb_spec (Z.land omode O_CREATE) 0) as [Hc|Hc]; cbn [negb].
  - eapply (sys_namei me sb Hly Hfs Hlk devsw_read devsw_write); [exact Hw|]. intros x R1 Ha. destruct (walk false F (start ci path) (elems path)) as [i|] eqn:Ew, x as [ip|]; try done; cbn [arrived] in Ha.
    2:{ subst R1. apply (sys_end me sb _ _ _ _ _ _ _ _ F); [done|]. intros w' Hw'. exists F, R, tbl, o. split; [apply Op_none; by apply Pk_nowhere|done]. }
    destruct (walkable_live _ _ _ _ _ _ _ Hw Ew) as (f & Hf & Hfn). destruct (ref_got_at _ _ _ _ Ha) as (c & Hcc & _ & _ & Hput).
    eapply sys_fs_step; [eapply (tr_lock me sb Hly Hfs Hlk devsw_read devsw_write); [exact Hcc|apply not_elem_of_empty]|]. rewrite union_empty_r_L.
    eapply sys_fs_bind; [eapply (tr_seen me sb Hlk devsw_read devsw_write); [exact Hcc|by apply elem_of_singleton|done]|]. intros x v' ((_ & _ & Hty & _) & ->). rewrite Hty.
    destruct (Z.eqb_spec (f_type f) T_DIR) as [Ht|Ht], (Z.eqb_spec omode O_RDONLY) as [Hm|Hm]; cbn [negb andb].
    2:{ eapply sys_fs_step; [eapply (tr_unlockput me sb Hly Hfs Hlk devsw_read devsw_write); [exact Hcc|by apply elem_of_singleton|done|done]|]. rewrite difference_diag_L, Hput.
      apply (sys_end me sb _ _ _ _ _ _ _ _ F); [done|]. intros w' Hw'. exists F, R, tbl, o. split; [apply Op_none; by eapply Pk_dir|done]. }
    all: apply triple_ret; exists 0%nat, F, R1; (split; [eapply Pk_found; try done|done]).
  - eapply triple_bind; [by eapply (create_ok me sb Hly Hfs Hlk devsw_read devsw_write)|]. intros x w' (n & F' & R' & lk & Hn & Hcr & ->). fold (last_name path) in Hcr. destruct x as [q|].
    + apply triple_ret. assert (lk = {[q]}) as -> by (by inversion Hcr). exists n, F', R'. split; [by eapply Pk_create|done].
    + assert (lk = ∅ /\ F' = F) as [-> ->] by (by inversion Hcr). apply (sys_end me sb _ _ _ _ _ _ _ _ F); [done|]. intros w' Hw'. exists F, R', tbl, o. split; [by eapply Op_none, Pk_create|done].
Qed.
Lemma open_ok F R dk tbl o cw ci u path omode : argstr u 0 = Some path -> argint u 1 = Some omode -> walkable F R cw ci -> table_ok R tbl o cw -> resources sb F R -> Forall byte path -> sb_ninodes sb <= 2 ^ 16 -> (3 * (nbitmap sb + 4) + 3 <= bk_room)%nat ->
  triple (mkWorld (mkFw false dk 0 F R ∅) tbl o cw u) (sys_open me devsw_read devsw_write) (open_call F R dk tbl o cw ci u path omode).
Proof.
  intros Ha0 Ha1 Hw HT Hres Hby Hnum Hroom s Hs. pose proof (frep_committed me sb _ _ _ _ _ (sr_fs _ _ _ _ Hs)) as Hcom. revert s Hs. pose proof HT as [[T1 T1'] T2 _ _].
  change (triple (mkWorld (mkFw false dk 0 F R ∅) tbl o cw u) (sys_open me devsw_read devsw_write) (open_call F R dk tbl o cw ci u path omode)).
  unfold sys_open, getstr, getu. apply (sys_arg me sb _ (fun u => argstr u 0)), (sys_arg me sb _ (fun u => argint u 1)). cbn [w_user]. rewrite Ha0, Ha1. apply sys_begin. eapply triple_bind; [by eapply open_inode_ok|].
  intros [q|] w'; [|intros Hw'; by apply triple_ret]. intros (n & F' & R' & Hpk & ->). destruct (picks_live _ _ _ _ _ _ _ _ _ _ Hw Hpk) as (i & f & Hgot & Hf & Hfn). destruct (ref_got_at _ _ _ _ Hgot) as (c & Hc & _ & _ & Hput).
  eapply triple_step; [by apply sys_filealloc|]. unfold taken.
  assert (free_file tbl = None \/ free_fd o = None -> triple (mkWorld (mkFw true dk n F' R' {[q]}) tbl o cw u) (on_fs (iunlockput me q) ;;; op_end ;;; ret (-1)) (open_call F R dk tbl o cw ci u path omode)) as Hbad.
  { intros Hfull. eapply sys_fs_step; [eapply (tr_unlockput me sb Hly Hfs Hlk devsw_read devsw_write); [exact Hc|by apply elem_of_singleton|done|done]|]. rewrite difference_diag_L, Hput. apply (sys_end me sb _ _ _ _ _ _ _ _ F); [done|]. intros w' Hw'. exists F', R, tbl, o. split; [by eapply Op_full|done]. }
  destruct (free_file tbl) as [fi|] eqn:Efi; [|eapply triple_step; [by apply triple_ret|]; cbv iota; eapply triple_step; [by apply triple_ret|]; apply Hbad; by left].
  destruct (free_file_Some _ _ Efi) as (x & Hx & Hr). rewrite Hx. destruct (T2 fi x Hx) as [_ Hty]. eapply triple_step; [by apply sys_fdalloc|]. assert (<[fi := set_ref 1 x]> tbl !! fi = Some (set_ref 1 x)) as Hx1 by (apply list_lookup_insert_eq; by eapply lookup_lt_Some).
  destruct (free_fd o) as [fd|] eqn:Efd.
  - eapply sys_fs_step; [eapply (tr_unlock me sb Hly Hfs Hlk devsw_read devsw_write); [exact Hc|by apply elem_of_singleton]|]. rewrite difference_diag_L. eapply sys_fs_bind; [apply tr_end|]. intros [] v' (ws & -> & He).
    eapply triple_step; [by eapply sys_updf|]. apply triple_ret. rewrite list_insert_insert_eq. exists F', R', (<[fi := open_entry q omode x]> tbl), (<[fd := Some fi]> o). split; [by eapply Op_done|]. exists ws. split; [done|]. by apply He.
  - eapply triple_step.
    { eapply sys_closes_last; [exact Hx1|done|]. unfold let_go. assert (fd_type (set_ref 1 x) = FD_NONE) as -> by (by apply Hty). apply (triple_eq _ _ _ (ret tt)); [by intros []|]. apply triple_ret. split; [done|reflexivity]. }
    assert (closed_file (set_ref 1 x) = x) as ->. { unfold closed_file, set_ftype, set_ref. cbn. destruct x as [ty rf rd wr pp ip off]. cbn in *. by rewrite Hr, (proj1 Hty Hr). }
    rewrite list_insert_insert_eq, list_insert_id by done. apply Hbad. by right.
Qed.
(** *** dup and close *)

Inductive dups tbl o u : Z -> list File.file -> list (option nat) -> Prop :=
| Du_bad : fd_arg u o 0 = None \/ free_fd o = None -> dups tbl o u (-1) tbl o
| Du_done fd f x fd' : fd_arg u o 0 = Some (fd, f) -> tbl !! f = Some x -> free_fd o = Some fd' -> dups tbl o u (Z.of_nat fd') (<[f := set_ref (fd_ref x + 1) x]> tbl) (<[fd' := Some f]> o).
Lemma dup_ok v R tbl o cw u : table_ok R tbl o cw -> triple (mkWorld v tbl o cw u) sys_dup (fun r w' => exists tbl' o', dups tbl o u r tbl' o' /\ w' = mkWorld v tbl' o' cw u).
Proof.
  intros HT. pose proof HT as [[_ T1'] _ _ _]. unfold sys_dup. eapply triple_step; [by apply sys_argfd|]. destruct (fd_arg u o 0) as [[fd f]|] eqn:Ea; cbv iota beta; [|apply triple_ret; exists tbl, o; split; [apply Du_bad; by left|done]].
  destruct (fd_open _ _ _ _ _ _ HT (fd_arg_at _ _ _ _ _ Ea)) as (x & Hx & Hr & _). eapply triple_step; [by apply sys_fdalloc|]. destruct (free_fd o) as [fd'|] eqn:Ef; [|apply triple_ret; exists tbl, o; split; [apply Du_bad; by right|done]].
  eapply triple_step; [by eapply sys_filedup|]. apply triple_ret. eexists _, _. split; [by eapply Du_done|done].
Qed.

(** [c] references to the inode of the entry, the last of which frees a file
    without links. *)
Inductive closes F R tbl o u : Z -> gmap Z file -> gmap nat (Z * Z) -> list File.file -> list (option nat) -> Prop :=
| Cl_bad : fd_arg u o 0 = None -> closes F R tbl o u (-1) F R tbl o
| Cl_shared fd f x : fd_arg u o 0 = Some (fd, f) -> tbl !! f = Some x -> 1 < fd_ref x -> closes F R tbl o u 0 F R (<[f := set_ref (fd_ref x - 1) x]> tbl) (<[fd := None]> o)
| Cl_last fd f x i c h : fd_arg u o 0 = Some (fd, f) -> tbl !! f = Some x -> fd_ref x = 1 -> fd_type x = FD_INODE -> R !! fd_ip x = Some (i, c) -> F !! i = Some h -> (f_nlink h = 0 -> c <> 1) ->
    closes F R tbl o u 0 F (ref_put (fd_ip x) i c R) (<[f := closed_file x]> tbl) (<[fd := None]> o)
| Cl_freed fd f x i h : fd_arg u o 0 = Some (fd, f) -> tbl !! f = Some x -> fd_ref x = 1 -> fd_type x = FD_INODE -> R !! fd_ip x = Some (i, 1) -> F !! i = Some h -> f_nlink h = 0 ->
    closes F R tbl o u 0 (delete i F) (ref_put (fd_ip x) i 1 R) (<[f := closed_file x]> tbl) (<[fd := None]> o).
Definition close_call F R dk tbl o cw u (r : Z) (w' : world) : Prop :=
  exists F' R' tbl' o', closes F R tbl o u r F' R' tbl' o' /\ (closed sb dk F' R' tbl' o' cw u F w' \/ F' = F /\ w' = mkWorld (mkFw false dk 0 F R' ∅) tbl' o' cw u).
Lemma frep_inode dk n F R s p i c : frep (mkFw false dk n F R ∅) s -> R !! p = Some (i, c) -> exists h, F !! i = Some h.
Proof. intros Hs Hp. by eapply (frep_file me sb); [exact Hs|]. Qed.
Lemma let_go_ok F R dk tbl o cw u x i c h : fd_type x = FD_INODE -> R !! fd_ip x = Some (i, c) -> F !! i = Some h -> committed sb dk F -> (nbitmap sb + 2 <= bk_room)%nat ->
  triple (mkWorld (mkFw false dk 0 F R ∅) tbl o cw u) (on_files (let_go me x)) (fun _ w' => closed sb dk (if decide (f_nlink h = 0 /\ c = 1) then delete i F else F) (ref_put (fd_ip x) i c R) tbl o cw u F w').
Proof.
  intros Ht Hp Hh Hcom Hroom. unfold let_go. rewrite Ht. apply (triple_eq _ _ _ (op_begin ;;; on_files (in_fs (iput me (fd_ip x)) ;;; fs_end))); [intros s; apply on_files_bind|]. apply sys_begin.
  apply (triple_eq _ _ _ (on_fs (iput me (fd_ip x)) ;;; on_files fs_end)); [intros s; apply on_files_bind|].
  assert (forall n F', triple (mkWorld (mkFw true dk n F' (ref_put (fd_ip x) i c R) ∅) tbl o cw u) (on_files fs_end) (fun _ w' => closed sb dk F' (ref_put (fd_ip x) i c R) tbl o cw u F w')) as Hend.
  { intros n F'. apply sys_fs. eapply triple_mono; [apply tr_end|]. intros [] v' (ws & -> & He). exists ws. split; [done|by apply He]. }
  destruct (decide (f_nlink h = 0 /\ c = 1)) as [[Hn ->]|Hno].
  - eapply sys_fs_step; [eapply (tr_put_last me sb Hly Hfs Hlk devsw_read devsw_write); [exact Hp|apply not_elem_of_empty|exact Hh|done|lia]|]. apply (Hend _ (delete i F)).
  - eapply sys_fs_step; [eapply (tr_put me sb Hlk devsw_read devsw_write); [exact Hp|apply not_elem_of_empty|exact Hh|tauto]|]. apply Hend.
Qed.
Lemma close_ok F R dk tbl o cw u : table_ok R tbl o cw -> (forall fd f x, fd_arg u o 0 = Some (fd, f) -> tbl !! f = Some x -> fd_type x <> FD_PIPE) -> (nbitmap sb + 2 <= bk_room)%nat ->
  triple (mkWorld (mkFw false dk 0 F R ∅) tbl o cw u) (sys_close me) (close_call F R dk tbl o cw u).
Proof.
  intros HT Hnp Hroom s Hs. pose proof (sr_fs _ _ _ _ Hs) as Hf. pose proof (frep_committed me sb _ _ _ _ _ Hf) as Hcom.
  assert (forall p i c, R !! p = Some (i, c) -> exists h, F !! i = Some h) as Hfile by (intros p i c; exact (frep_inode _ _ _ _ _ _ _ _ Hf)). clear Hf. revert s Hs.
  change (triple (mkWorld (mkFw false dk 0 F R ∅) tbl o cw u) (sys_close me) (close_call F R dk tbl o cw u)).
  pose proof HT as [[_ T1'] T2 _ T4]. unfold sys_close. eapply triple_step; [by apply sys_argfd|]. destruct (fd_arg u o 0) as [[fd f]|] eqn:Ea; cbv iota beta; [|apply triple_ret; exists F, R, tbl, o; split; [by apply Cl_bad|by right]].
  destruct (fd_open _ _ _ _ _ _ HT (fd_arg_at _ _ _ _ _ Ea)) as (x & Hx & Hr & _). eapply triple_step; [by apply sys_set_fd|]. destruct (decide (1 < fd_ref x)) as [H1|H1].
  { eapply triple_step; [by eapply sys_fileclose|]. apply triple_ret. eexists _, _, _, _. split; [by eapply Cl_shared|by right]. }
  assert (fd_ref x = 1) as Hr1 by lia. assert (fd_type x = FD_INODE) as Ht. { destruct (T2 f x Hx) as [_ Hty]. destruct (fd_type x) eqn:E; [assert (fd_ref x = 0) by (by apply Hty); lia|by destruct (Hnp fd f x eq_refl Hx)|done]. }
  assert (exists i c, R !! fd_ip x = Some (i, c)) as (i & c & Hp). { specialize (T4 (fd_ip x)). pose proof (lsum_ge (use (fd_ip x)) tbl f x Hx) as HU. unfold use in HU at 1. rewrite bool_decide_true in HU by (split_and!; [lia|done|done]). unfold count, uses in T4. destruct (R !! fd_ip x) as [[i c]|]; [eauto|lia]. }
  destruct (Hfile _ _ _ Hp) as [h Hh]. eapply triple_bind; [eapply sys_closes_last; [exact Hx|done|]; by eapply let_go_ok|]. intros [] w' Hw'. apply triple_ret. eexists _, _, _, _. split; [|left; exact Hw'].
  destruct (decide (f_nlink h = 0 /\ c = 1)) as [[Hn ->]|Hno]; [by eapply Cl_freed|]. eapply Cl_last; try done. tauto.
Qed.
End SysOpen.
