(* ===== verification/SysInv.v ===== *)
(** * The file system calls keep the invariants

    [sound] is what holds between calls: the files form a tree in which every
    inode counts its links, and the descriptors, open files and inode references
    of the process count one another.  Every call of sysfile.c on names and
    descriptors returns, and leaves a sound state; a crash leaves the files from
    before the call or those from after it. *)

From stdpp Require Import base gmap list strings.
From Stdlib Require Import ZArith Lia.
From S2P Require Import Prelude CString Sync Sleeplock CacheSpec Log BlockSpec Fs File Syscall Sysfile FsLayout FsInv FsFile FsRw FsCorrect FsNames FsDir FsPath FsTriple FsTree SysTriple SysNames FsConsistent FsPreserve SysCalls.
Local Open Scope Z_scope.

Record sound (F : gmap Z file) (R : gmap nat (Z * Z)) (tbl : list File.file) (o : list (option nat)) (cw : nat) : Prop := {
  so_files : consistent F;
  so_table : table_ok R tbl o cw
}.

(** The calls, by their numbers. *)
Inductive name_call : sysname -> Prop :=
| Nc_open : name_call SYS_open | Nc_close : name_call SYS_close | Nc_dup : name_call SYS_dup | Nc_mkdir : name_call SYS_mkdir
| Nc_mknod : name_call SYS_mknod | Nc_chdir : name_call SYS_chdir | Nc_link : name_call SYS_link | Nc_unlink : name_call SYS_unlink.
(** What a call must not ask for: a link on a directory's own dots, and to close
    a pipe (which file.c leaves to pipe.c). *)
Definition asks (c : sysname) (u : uproc) (tbl : list File.file) (o : list (option nat)) : Prop :=
  match c with
  | SYS_link => forall new, argstr u 1 = Some new -> plain (last_name new)
  | SYS_close => forall fd f x, fd_arg u o 0 = Some (fd, f) -> tbl !! f = Some x -> fd_type x <> FD_PIPE
  | _ => True
  end.

Lemma argstr_bytes u n path : (forall a, byte (u_mem u a)) -> argstr u n = Some path -> Forall byte path.
Proof. intros Hm H. unfold argstr in H. repeat case_match; simplify_eq. unfold bytes_of. apply Forall_map, Forall_forall. intros x _. apply Hm. Qed.

(** ** The abstract effects keep the invariants *)

Section Effects.
Context (ninodes : Z) (F : gmap Z file) (R : gmap nat (Z * Z)) (tbl : list File.file) (o : list (option nat)) (cw : nat) (ci : Z) (HS : sound F R tbl o cw) (Hw : walkable F R cw ci)
  (Hnum : ninodes <= 2 ^ 16) (Hbound : forall i f, F !! i = Some f -> 0 <= i < ninodes).
Lemma end_dir path d fd : walk true F (start ci path) (elems path) = Some d -> F !! d = Some fd -> dir_at F d fd.
Proof. by eapply ended_dir. Qed.
Lemma picks_consistent path omode x F' R' : picks ninodes F R ci path omode x F' R' -> consistent F'.
Proof.
  intros [y F1 R1 lk _ Hcr| | |]; [|apply HS..]. eapply created_consistent; [apply HS|exact Hnum|exact Hbound| |apply last_name_good|exact Hcr]. intros d fd. apply end_dir.
Qed.
Lemma opens_sound path omode r F' R' tbl' o' : opens ninodes F R tbl o ci path omode r F' R' tbl' o' -> sound F' R' tbl' o' cw.
Proof.
  intros [F1 R1 Hp|q F1 R1 Hp _|q F1 R1 f x fd Hp Hf Hx Hfd]; (split; [by eapply picks_consistent|]); [|apply HS|].
  - assert (R1 = R) as ->; [|apply HS]. inversion Hp as [y F2 R2 lk _ Hcr| | |]; [|done..]. by inversion Hcr.
  - destruct (picks_live _ _ _ _ _ _ _ _ _ _ Hw Hp) as (i & _ & Hgot & _). destruct (free_file_Some _ _ Hf) as (x' & Hx' & Hr). rewrite Hx in Hx'. injection Hx' as <-. eapply table_open; [apply HS|done..|]. by apply free_fd_Some.
Qed.
Lemma dups_sound u r tbl' o' : dups tbl o u r tbl' o' -> sound F R tbl' o' cw.
Proof.
  intros [_|fd f x fd' Ha Hx Hf]; [done|]. destruct HS as [HC HT]. split; [done|]. destruct (fd_open _ _ _ _ _ _ HT (fd_arg_at _ _ _ _ _ Ha)) as (y & Hy & H1 & H2). rewrite Hx in Hy. injection Hy as <-. apply table_dup; [done..|]. by apply free_fd_Some.
Qed.
Lemma use_one x : fd_ref x = 1 -> fd_type x = FD_INODE -> forall p, use p x = if decide (p = fd_ip x) then 1%nat else 0%nat.
Proof. intros Hr Ht p. unfold use. destruct (decide (p = fd_ip x)) as [->|Hne]; [rewrite bool_decide_true; [done|]; split_and!; [lia|done|done]|]. rewrite bool_decide_false; [done|]. intros (_ & _ & ?). congruence. Qed.
Lemma table_last fd f x i c : o !! fd = Some (Some f) -> tbl !! f = Some x -> fd_ref x = 1 -> fd_type x = FD_INODE -> R !! fd_ip x = Some (i, c) ->
  table_ok (ref_put (fd_ip x) i c R) (<[f := closed_file x]> tbl) (<[fd := None]> o) cw.
Proof.
  intros Ho Hx Hr Ht Hp. eapply table_close; [apply HS|exact Ho|exact Hx|cbn; lia|done|].
  intros p. rewrite (use_free p (closed_file x)) by done. rewrite (use_one x Hr Ht p), (count_put R _ _ _ p Hp). destruct (decide (p = fd_ip x)); lia.
Qed.
Lemma closes_sound u r F' R' tbl' o' : closes F R tbl o u r F' R' tbl' o' -> sound F' R' tbl' o' cw.
Proof.
  intros [_|fd f x Ha Hx H1|fd f x i c h Ha Hx H1 Ht Hp Hh Hk|fd f x i h Ha Hx H1 Ht Hp Hh Hk]; [done|..]; pose proof (fd_arg_at _ _ _ _ _ Ha) as Ho; destruct HS as [HC HT].
  - split; [done|]. pose proof (tk_free _ _ _ _ HT f x Hx) as [_ Hty]. eapply table_close; [exact HT|exact Ho|exact Hx|done|cbn; split; [lia|intros E; apply Hty in E; lia]|]. intros p.
    assert (use p (set_ref (fd_ref x - 1) x) = use p x) as ->; [|lia]. unfold use. rewrite (bool_decide_ext _ (fd_ref x <> 0 /\ fd_type x = FD_INODE /\ fd_ip x = p)); [done|]. cbn. split; intros (? & ? & ?); (split_and!; [lia|done|done]).
  - split; [done|]. apply table_last; auto.
  - split; [by eapply delete_consistent|]. apply table_last; auto.
Qed.
Lemma makes_sound path type M m r F' : makes ninodes F (walk true F (start ci path) (elems path)) (last_name path) type M m r F' -> sound F' R tbl o cw.
Proof.
  intros [ | |d fd i E1 Hfd Ht Hfind Hi HN]; [done..|]. destruct HS as [HC HT]. split; [|done]. assert (dir_at F d fd) as Hd by (by eapply end_dir). pose proof (dir_number ninodes F HC Hnum Hbound d fd Hd). apply made_consistent; try done; [apply last_name_good|lia].
Qed.
Lemma unlinks_sound path r F' : unlinks F R (walk true F (start ci path) (elems path)) (last_name path) r F' -> sound F' R tbl o cw.
Proof. intros HU. destruct HS as [HC HT]. split; [|done]. eapply (unlinks_consistent F R _ _ HC); [|exact HU]. intros d fd. apply end_dir. Qed.
Lemma links_to_sound i path r F' : links_to F i (walk true F (start ci path) (elems path)) (last_name path) r F' -> sound F' R tbl o cw.
Proof. intros HU. destruct HS as [HC HT]. split; [|done]. eapply links_to_consistent; [done|exact Hnum|done| |apply last_name_good|exact HU]. intros d fd. apply end_dir. Qed.
Lemma changes_dir_sound i r cw' R' : changes_dir F R cw ci i r cw' R' -> sound F R' tbl o cw'.
Proof. intros [ | |j f q c R1 E Hf Ht Hgot Hcw]; [done..|]. split; [apply HS|]. by eapply table_chdir; [apply HS| |]. Qed.
End Effects.

Section SysInv.
Context {L S K P : Type} `{HL : Locks L} `{HB : Blocks S} `{HK : Lock K} `{HP : Pipes P} (me : Z) (sb : superblock) (Hly : layout sb) (Hfs : forall n, fs_block sb n -> bk_fs n)
  (Hlk : (NINODE < lk_count)%nat).
Notation fs := (fs (L := L) (S := S)).
Notation sysfiles := (sysfiles (L := L) (S := S) (K := K) (P := P)).
Context (devsw_read : Z -> option (nat -> Z -> M fs (Z * list Z))) (devsw_write : Z -> option (nat -> list Z -> M fs Z)).
Implicit Types (F : gmap Z file) (R : gmap nat (Z * Z)) (dk : history) (tbl : list File.file) (o : list (option nat)) (u : uproc) (w : world).
Notation srep := (srep (K := K) (P := P) me sb).
Notation triple := (triple srep).

Definition name_calls (c : sysname) : M sysfiles Z :=
  match c with
  | SYS_open => sys_open me devsw_read devsw_write
  | SYS_close => sys_close me
  | SYS_dup => sys_dup
  | SYS_mkdir => sys_mkdir me devsw_read devsw_write
  | SYS_mknod => sys_mknod me devsw_read devsw_write
  | SYS_chdir => sys_chdir me devsw_read
  | SYS_link => sys_link me devsw_read devsw_write
  | SYS_unlink => sys_unlink me devsw_read devsw_write
  | _ => ret (-1)
  end.
(** A sound state after the call; the transaction of the call, if it had one,
    is on the disk whole or not at all. *)
Definition sound_after F dk u (w' : world) : Prop :=
  exists F' R' tbl' o' cw', sound F' R' tbl' o' cw' /\ (closed sb dk F' R' tbl' o' cw' u F w' \/ F' = F /\ w' = mkWorld (mkFw false dk 0 F R' ∅) tbl' o' cw' u).

(** What a call needs: space for what it makes. *)
Record enough F R : Prop := {
  en_resources : resources sb F R;
  en_links : forall i f, F !! i = Some f -> f_nlink f < 2 ^ 15 - 1
}.

Section Call.
Context F R dk tbl o (cw : nat) (ci : Z) u (HS : sound F R tbl o cw) (Hw : walkable F R cw ci) (Hen : enough F R) (Hmem : forall a, byte (u_mem u a)) (Hnum : sb_ninodes sb <= 2 ^ 16)
  (Hroom : (3 * (nbitmap sb + 4) + 3 <= bk_room)%nat) (Hbound : forall i f, F !! i = Some f -> 0 <= i < sb_ninodes sb) (Hcom : committed sb dk F).
Notation w0 := (mkWorld (mkFw false dk 0 F R ∅) tbl o cw u).
Lemma unchanged (r : Z) : triple w0 (ret r) (fun _ w' => sound_after F dk u w').
Proof. apply triple_ret. exists F, R, tbl, o, cw. split; [done|by right]. Qed.
Lemma nothing_done (r : Z) : triple (mkWorld (mkFw true dk 0 F R ∅) tbl o cw u) (op_end ;;; ret r) (fun _ w' => sound_after F dk u w').
Proof. apply (sys_end me sb _ _ _ _ _ _ _ _ F); [done|]. intros w' Hw'. exists F, R, tbl, o, cw. split; [done|by left]. Qed.
Lemma open_sound : triple w0 (name_calls SYS_open) (fun _ w' => sound_after F dk u w').
Proof.
  cbn [name_calls]. destruct (argstr u 0) as [path|] eqn:E0, (argint u 1) as [omode|] eqn:E1.
  1: eapply triple_mono; [eapply (open_ok me sb Hly Hfs Hlk devsw_read devsw_write); try done; [apply HS|apply Hen|by eapply argstr_bytes]|]; intros r w' (F' & R' & tbl' & o' & Hop & Hcl); exists F', R', tbl', o', cw; (split; [by eapply opens_sound|by left]).
  all: unfold sys_open, getstr, getu; apply (sys_arg me sb _ (fun u => argstr u 0)), (sys_arg me sb _ (fun u => argint u 1)); cbn [w_user]; rewrite E0, ?E1; apply unchanged.
Qed.
Lemma close_sound : asks SYS_close u tbl o -> triple w0 (name_calls SYS_close) (fun _ w' => sound_after F dk u w').
Proof.
  intros Ha. eapply triple_mono; [eapply (close_ok me sb Hly Hfs Hlk devsw_read devsw_write); [apply HS|exact Ha|lia]|]. intros r w' (F' & R' & tbl' & o' & Hc & Hcl). exists F', R', tbl', o', cw. split; [by eapply closes_sound|].
  destruct Hcl as [Hcl|[-> Hcl]]; [by left|by right].
Qed.
Lemma dup_sound : triple w0 (name_calls SYS_dup) (fun _ w' => sound_after F dk u w').
Proof. eapply triple_mono; [eapply dup_ok; apply HS|]. intros r w' (tbl' & o' & Hd & ->). exists F, R, tbl', o', cw. split; [by eapply dups_sound|by right]. Qed.
Lemma made_sound path type M m r w' : made_call sb F R dk tbl o cw ci u path type M m r w' -> sound_after F dk u w'.
Proof. intros (F' & Hmk & Hcl). exists F', R, tbl, o, cw. split; [by eapply makes_sound|by left]. Qed.
Lemma mkdir_sound : triple w0 (name_calls SYS_mkdir) (fun _ w' => sound_after F dk u w').
Proof.
  cbn [name_calls]. destruct (argstr u 0) as [path|] eqn:E0.
  - eapply triple_mono; [eapply (mkdir_ok me sb Hly Hfs Hlk devsw_read devsw_write); try done; [apply Hen|by eapply argstr_bytes]|]. intros r w' H. by eapply made_sound.
  - unfold sys_mkdir, getstr. apply sys_begin, (sys_arg me sb _ (fun u => argstr u 0)). cbn [w_user]. rewrite E0. unfold create_node. eapply triple_step; [by apply triple_ret|]. apply nothing_done.
Qed.
Lemma mknod_sound : triple w0 (name_calls SYS_mknod) (fun _ w' => sound_after F dk u w').
Proof.
  cbn [name_calls]. destruct (argstr u 0) as [path|] eqn:E0, (argint u 1) as [M|] eqn:E1, (argint u 2) as [m|] eqn:E2.
  1: eapply triple_mono; [eapply (mknod_ok me sb Hly Hfs Hlk devsw_read devsw_write); try done; [apply Hen|by eapply argstr_bytes]|]; intros r w' H; by eapply made_sound.
  all: unfold sys_mknod, getstr, getu; apply sys_begin, (sys_arg me sb _ (fun u => argstr u 0)), (sys_arg me sb _ (fun u => argint u 1)), (sys_arg me sb _ (fun u => argint u 2)); cbn [w_user]; rewrite ?E0, ?E1, ?E2;
    unfold create_node; (eapply triple_step; [by apply triple_ret|]); apply nothing_done.
Qed.
Lemma chdir_sound : triple w0 (name_calls SYS_chdir) (fun _ w' => sound_after F dk u w').
Proof.
  cbn [name_calls]. destruct (argstr u 0) as [path|] eqn:E0.
  - eapply triple_mono; [by eapply (chdir_ok me sb Hly Hfs Hlk devsw_read devsw_write)|]. intros r w' (cw' & R' & Hc & Hcl). exists F, R', tbl, o, cw'. split; [by eapply changes_dir_sound|by left].
  - unfold sys_chdir, getstr. apply sys_begin, (sys_arg me sb _ (fun u => argstr u 0)). cbn [w_user]. rewrite E0. eapply triple_step; [by apply triple_ret|]. apply nothing_done.
Qed.
Lemma files_sane : sane F.
Proof. apply consistent_sane; [apply HS|]. intros i f Hf. pose proof (en_links _ _ Hen i f Hf). lia. Qed.
Lemma link_sound : asks SYS_link u tbl o -> triple w0 (name_calls SYS_link) (fun _ w' => sound_after F dk u w').
Proof.
  intros Ha. cbn [name_calls]. destruct (argstr u 0) as [old|] eqn:E0, (argstr u 1) as [new|] eqn:E1.
  1: destruct (Ha new E1) as [Hn1 Hn2]; eapply triple_mono; [eapply (link_ok me sb Hly Hfs Hlk devsw_read devsw_write); try done; [apply files_sane|apply Hen|by eapply argstr_bytes|lia|apply Hen]|];
    intros r w' (F' & Hli & Hcl); exists F', R, tbl, o, cw; (split; [by eapply (links_to_sound (sb_ninodes sb))|by left]).
  all: unfold sys_link, getstr; apply (sys_arg me sb _ (fun u => argstr u 0)), (sys_arg me sb _ (fun u => argstr u 1)); cbn [w_user]; rewrite E0, ?E1; apply unchanged.
Qed.
Lemma unlink_sound : triple w0 (name_calls SYS_unlink) (fun _ w' => sound_after F dk u w').
Proof.
  cbn [name_calls]. destruct (argstr u 0) as [path|] eqn:E0.
  - pose proof (en_resources _ _ Hen) as [Hb Hc _ _]. eapply triple_mono; [eapply (unlink_ok me sb Hly Hfs Hlk devsw_read devsw_write); try done; [apply files_sane|lia|lia]|]. intros r w' (F' & Hu & Hcl). exists F', R, tbl, o, cw. split; [by eapply unlinks_sound|by left].
  - unfold sys_unlink, getstr. apply (sys_arg me sb _ (fun u => argstr u 0)). cbn [w_user]. rewrite E0. apply unchanged.
Qed.
End Call.
End SysInv.
