(* ===== verification/SysTheorems.v ===== *)
(** * The file system calls as a whole

    The calls of sysfile.c on names, descriptors and bytes: what they return and
    leave on the disk, on every path, and what a crash during them leaves.
    The witnesses are about a process on the small disk of [FsTheorems], whose
    current directory is the root and which never uses pipes. *)

From stdpp Require Import base gmap list strings.
From Stdlib Require Import ZArith Lia.
From S2P Require Import Prelude Spinlock CString Sync Sleeplock CacheSpec Bio BioRefine Log LogRefine LogTxn BlockSpec Fs File Syscall Sysfile FsLayout FsInv FsBlocks FsFile FsRw FsInode FsCorrect FsNames FsDir FsPath FsLog FsTheorems FsTriple FsTree FileCorrect SysTriple SysNames FsConsistent FsPreserve SysCalls SysInv.
Local Open Scope Z_scope.

#[export] Instance no_pipes : Pipes unit := {|
  pipe_page := ret None;
  pipe_read := fun _ _ => ret (-1, []);
  pipe_write := fun _ _ _ => ret (-1);
  pipe_close := fun _ _ => ret tt
|}.
Definition unused_file : File.file := File.mkFile FD_NONE 0 false false 0 0 0.
Definition empty_table : list File.file := replicate NFILE unused_file.
Definition no_fds : list (option nat) := replicate NOFILE None.
(** A process with 4096 bytes that start with [l]; the stack pointer is 0. *)
Definition demo_user (l : list Z) : uproc := mkUproc 4096 0 (fun a => nth (Z.to_nat a) l 0).
(** open("a", O_CREATE | O_RDWR), which is also mkdir("a") and unlink("a");
    link("a", "."); link("a", "b"). *)
Definition open_a : uproc := demo_user [0; 0; 0; 0; 16; 0; 0; 0; 2; 2; 0; 0; 0; 0; 0; 0; 97; 0].
Definition link_dot : uproc := demo_user [0; 0; 0; 0; 16; 0; 0; 0; 18; 0; 0; 0; 0; 0; 0; 0; 97; 0; 46; 0].
Definition link_b : uproc := demo_user [0; 0; 0; 0; 16; 0; 0; 0; 18; 0; 0; 0; 0; 0; 0; 0; 97; 0; 98; 0].
Lemma demo_bytes l : Forall byte l -> forall a, byte (u_mem (demo_user l) a).
Proof. intros Hl a. cbn. destruct (nth_in_or_default (Z.to_nat a) l 0) as [Hi| ->]; [|unfold byte; lia]. rewrite Forall_forall in Hl. by apply Hl, list_elem_of_In. Qed.
Lemma open_a_bytes a : byte (u_mem open_a a).
Proof. apply demo_bytes. do 18 (apply Forall_cons_2; [unfold byte; lia|]). apply Forall_nil_2. Qed.

Lemma demo_consistent : consistent demo_files.
Proof.
  split.
  - exists demo_root. by split_and!.
  - done.
  - intros d fd (Hd & _). unfold demo_files in Hd. apply lookup_singleton_Some in Hd as [<- <-]. split; try done.
    + split; [done|]. by exists demo_root.
    + intros k Hk. change (size_of demo_root) with 2%nat in Hk. lia.
    + intros k k' Hk Hk'. change (size_of demo_root) with 2%nat in Hk, Hk'. destruct k as [|[|]], k' as [|[|]]; done || lia.
    + intros k k' h Hk. change (size_of demo_root) with 2%nat in Hk. lia.
  - intros i f Hf. unfold demo_files in Hf. by apply lookup_singleton_Some in Hf as [<- <-].
Qed.
Lemma demo_table R q : (exists i c, R !! q = Some (i, c) /\ 1 <= c) -> (forall p i c, R !! p = Some (i, c) -> 0 <= c) -> table_ok R empty_table no_fds q.
Proof.
  intros (i & c & Hq & Hc) Hpos. split.
  - done.
  - intros f x [-> _]%lookup_replicate. done.
  - intros fd f [? _]%lookup_replicate. done.
  - intros p. assert (lsum (use p) empty_table = 0%nat) as Hz. { destruct (lsum (use p) empty_table) eqn:E; [done|]. destruct (lsum_pos (use p) empty_table ltac:(lia)) as (k & x & [-> _]%lookup_replicate & Hu). unfold use in Hu. rewrite bool_decide_false in Hu by (intros (? & _); done). lia. }
    unfold uses, count. rewrite Hz. destruct (bool_decide_reflect (q = p)) as [->|]; [rewrite Hq; cbn; lia|]. destruct (R !! p) as [[j e]|] eqn:E; cbn; [by eapply Hpos|lia].
Qed.

Section Demo.
#[local] Existing Instance fs_locks.
Notation dfs := (fs (L := machine * list spinlock) (S := fs_state (K := machine * spinlock) (S := bcache (L := machine * list spinlock)))).
Notation demo_rep := (srep (K := machine * spinlock) (P := unit) 3 demo_sb).

(** The process starts in the root directory. *)
Lemma demo_process u : exists q s, demo_rep (mkWorld (mkFw false (mkHistory demo_image []) 0 demo_files {[q := (1, 1)]} ∅) empty_table no_fds q u) s.
Proof.
  destruct (demo_start 3) as [s Hs].
  destruct (get_ok 3 demo_sb fs_enough no_read no_write false demo_files ∅ ∅ _ _ s 1 demo_root Hs eq_refl) as (q & s2 & g & H & _ & I2 & Hg & Hgot); [exists 0%nat; split; [by apply Nat.ltb_lt|done]|].
  inversion Hgot as [c b _ Hh|_ _]; subst; [by rewrite lookup_empty in Hh|]. rewrite insert_empty in I2.
  exists q, (mkSys (mkFiles (demo_lock_state "ftable") empty_table s2 tt) no_fds q u (replicate DIRSIZ 0)). split; cbn; try done; [apply demo_lock_free| |split; [done|change (Forall byte (replicate DIRSIZ 0)); apply Forall_replicate; unfold byte; lia]].
  eexists _, g. split_and!; [exact I2|exact Hg|unfold refs; by rewrite map_fmap_singleton|]. intros p i c b f _ Hf. cbn in Hf. unfold demo_files in Hf. by apply lookup_singleton_Some in Hf as [_ <-].
Qed.
Lemma demo_set_user v tbl o cw u u' (s : Sysfile.sysfiles) : demo_rep (mkWorld v tbl o cw u) s -> demo_rep (mkWorld v tbl o cw u') (mkSys (sf_files s) (ofile s) (cwd s) u' (name_junk s)).
Proof. intros [H1 H2 H3 H4 H5 H6 H7 H8 H9]. by split. Qed.
Lemma demo_walkable q : walkable demo_files {[q := (1, 1)]} q 1.
Proof. split; [apply consistent_rooted, demo_consistent|exists 1; apply lookup_singleton_eq|by exists demo_root|rewrite map_size_singleton; by apply Nat.leb_le]. Qed.
Lemma demo_sound q : sound demo_files {[q := (1, 1)]} empty_table no_fds q.
Proof.
  split; [apply demo_consistent|]. apply demo_table; [exists 1, 1; split; [apply lookup_singleton_eq|done]|]. intros p i c [_ [= _ <-]]%lookup_singleton_Some. done.
Qed.
Lemma demo_resources q : resources demo_sb demo_files {[q := (1, 1)]}.
Proof.
  split; [by apply Nat.leb_le; vm_compute|rewrite map_size_singleton; by apply Nat.leb_le|exists 2; split; [cbn; lia|done]|].
  intros d f Hf _. unfold demo_files in Hf. apply lookup_singleton_Some in Hf as [<- <-]. cbn. split_and!; try lia.
Qed.
Lemma demo_enough q : enough demo_sb demo_files {[q := (1, 1)]}.
Proof. split; [apply demo_resources|]. intros i f Hf. unfold demo_files in Hf. by apply lookup_singleton_Some in Hf as [_ <-]. Qed.

(** *** With a file

    The process has made and opened the file "a". *)
Definition with_a (i : Z) : gmap Z file := made demo_files 1 demo_root [97] T_FILE 0 0 i.
Lemma with_a_at i : 1 < i -> with_a i !! i = Some (mkFile T_FILE 0 0 1 []) /\ with_a i !! 1 = Some (add_entry i [97] demo_root) /\ forall x, x <> 1 -> x <> i -> with_a i !! x = None.
Proof.
  intros Hi. unfold with_a, made. cbn [Z.eqb T_FILE T_DIR Pos.eqb]. rewrite lookup_insert_ne, lookup_insert_eq, lookup_insert_eq by lia. split_and!; [done|done|]. intros x H1 H2. rewrite !lookup_insert_ne by done. unfold demo_files. by apply lookup_singleton_ne.
Qed.
Lemma with_a_consistent i : 1 < i < 200 -> consistent (with_a i).
Proof.
  intros Hi. apply made_consistent; [apply demo_consistent|by split_and!|by vm_compute| |lia|lia|unfold demo_files; apply lookup_singleton_ne; lia]. split; [by apply Forall_cons_2|by apply Nat.leb_le].
Qed.
Lemma with_a_usage i : 1 < i < 200 -> (usage demo_sb (with_a i) <= 3)%nat.
Proof.
  intros Hi. unfold with_a, made. cbn [Z.eqb T_FILE T_DIR Pos.eqb]. pose proof (usage_fresh demo_sb demo_files i (mkFile T_FILE 0 0 1 []) ltac:(cbn; lia) ltac:(unfold demo_files; apply lookup_singleton_ne; lia)) as H1.
  pose proof (usage_insert demo_sb (<[i := mkFile T_FILE 0 0 1 []]> demo_files) 1 demo_root (add_entry i [97] demo_root) ltac:(cbn; lia) ltac:(rewrite lookup_insert_ne by lia; reflexivity)) as H2.
  pose proof (add_entry_blocks i [97] demo_root ltac:(by vm_compute) ltac:(by apply Nat.leb_le)) as H3. assert (blocks_for demo_root = 1%nat) as E1 by (by vm_compute). assert (usage demo_sb demo_files = 1%nat) as E2 by (by vm_compute).
  change (blocks_for (mkFile T_FILE 0 0 1 [])) with 0%nat in H1. lia.
Qed.
Lemma with_a_entry i : 1 < i < 200 -> set_at demo_root (add_entry i [97] demo_root) 2 i [97].
Proof. intros Hi. apply (add_set demo_root i [97]); [by vm_compute| |lia]. split; [by apply Forall_cons_2|by apply Nat.leb_le]. Qed.
Lemma with_a_enough i R : 1 < i < 200 -> (size R <= 2)%nat -> enough demo_sb (with_a i) R.
Proof.
  intros Hi HR. destruct (with_a_at i ltac:(lia)) as (A1 & A2 & A3). assert (forall x f, with_a i !! x = Some f -> 0 <= x < 200 /\ f_nlink f = 1) as Hall.
  { intros x f Hf. destruct (decide (x = 1)) as [->|H1]; [rewrite A2 in Hf; injection Hf as <-; split; [lia|done]|]. destruct (decide (x = i)) as [->|H2]; [rewrite A1 in Hf; injection Hf as <-; split; [lia|done]|]. by rewrite A3 in Hf. }
  split; [split|].
  - pose proof (with_a_usage i Hi). assert (100 <= length (data_blocks demo_sb))%nat by (by apply Nat.leb_le; vm_compute). lia.
  - change NINODE with 50%nat. lia.
  - destruct (decide (i = 2)) as [->|]; [exists 3|exists 2]; (split; [cbn; lia|apply A3; lia]).
  - intros d f Hf Ht. destruct (Hall d f Hf) as [H1 ->]. split_and!; [apply H1|apply H1|lia|lia|]. destruct (decide (d = 1)) as [->|Hd]; [|destruct (decide (d = i)) as [->|]; [rewrite A1 in Hf; by injection Hf as <-|by rewrite A3 in Hf]].
    rewrite A2 in Hf. injection Hf as <-. fold (size_of (add_entry i [97] demo_root)). rewrite (sa_size _ _ _ _ _ (with_a_entry i Hi)). by apply Nat.ltb_lt.
  - intros x f Hf. destruct (Hall x f Hf) as [_ ->]. lia.
Qed.
Lemma demo_opened u : exists i q R tbl o dk s, 1 < i < 200 /\ (size R <= 2)%nat /\ sound (with_a i) R tbl o q /\ walkable (with_a i) R q 1 /\ (exists p c, R !! p = Some (i, c)) /\
  demo_rep (mkWorld (mkFw false dk 0 (with_a i) R ∅) tbl o q u) s.
Proof.
  destruct (demo_process open_a) as (q & s0 & H0).
  destruct (open_ok 3 demo_sb demo_layout demo_home fs_enough no_read no_write demo_files {[q := (1, 1)]} (mkHistory demo_image []) empty_table no_fds q 1 open_a [97] 514) with s0 as (r & s1 & w' & _ & H1 & F' & R' & tbl' & o' & Hop & ws & -> & _).
  { by vm_compute. } { by vm_compute. } { apply demo_walkable. } { apply demo_sound. } { apply demo_resources. } { by apply Forall_cons_2; [unfold byte; lia|]. } { cbn; lia. } { by apply demo_room. } { exact H0. }
  assert (sound F' R' tbl' o' q) as HS. { eapply (opens_sound 200); [apply demo_sound|apply demo_walkable|lia| |exact Hop]. intros i f Hf. unfold demo_files in Hf. apply lookup_singleton_Some in Hf as [<- _]. lia. }
  assert (forall x F2 R2, picks (sb_ninodes demo_sb) demo_files {[q := (1, 1)]} 1 [97] 514 x F2 R2 -> exists i qa, 1 < i < 200 /\ ref_got {[q := (1, 1)]} i qa R2 /\ F2 = with_a i /\ x = Some qa) as Hpk.
  { intros x F2 R2 Hp. inversion Hp as [y F3 R3 lk Hc Hcr|Hc _|i f Hc|i f qq R3 Hc]; [|by vm_compute in Hc..]. subst. change (walk true demo_files (start 1 [97]) (elems [97])) with (Some 1) in Hcr. change (last_name [97]) with [97] in Hcr.
    inversion Hcr as [E|d fd k j h qq R3 E Hfd Hfind|d fd k j h E Hfd Hfind|d fd i qa R3 E Hfd Hdt Hfind Hi HN Hgot]; [done|..]; subst; injection E as <-; change (demo_files !! 1) with (Some demo_root) in Hfd; injection Hfd as <-; [by vm_compute in Hfind..|].
    exists i, qa. split_and!; [|cbn in Hi; lia|done|done|done]. destruct (decide (i = 1)) as [->|]; [done|lia]. }
  inversion Hop as [F2 R2 Hp|qa F2 R2 Hp Hfull|qa F2 R2 f x fd Hp Hf Hx Hfd]; subst; destruct (Hpk _ _ _ Hp) as (i & qb & Hi & Hgot & -> & Hq); [done|by destruct Hfull as [E|E]; vm_compute in E|]. injection Hq as ->.
  exists i, q, R', (<[f := open_entry qb 514 x]> empty_table), (<[fd := Some f]> no_fds). eexists _, _. pose proof (ref_got_size _ _ _ _ Hgot) as Hsz. rewrite map_size_singleton in Hsz. split_and!; [lia|lia|lia|done| |destruct (ref_got_at _ _ _ _ Hgot) as (c & Hc & _); by exists qb, c|by eapply demo_set_user].
  split; [by apply consistent_rooted, with_a_consistent| |by eexists; split; [apply with_a_at; lia|]|change NINODE with 50%nat; lia].
  inversion Hgot; subst; (destruct (decide (q = qb)) as [->|Hne]; [rewrite lookup_insert_eq|rewrite lookup_insert_ne, lookup_singleton_eq by done]); try (by eexists); simplify_map_eq; by eexists.
Qed.
(** A state of the small system with the file "a" in inode [i]. *)
Definition demo_rep_a (i : Z) (s : Sysfile.sysfiles) : Prop := exists q R tbl o dk u, demo_rep (mkWorld (mkFw false dk 0 (with_a i) R ∅) tbl o q u) s.
Lemma with_a_dot i : 1 < i < 200 -> dir_find (f_data (add_entry i [97] demo_root)) [46] = Some (0%nat, 1).
Proof.
  intros Hi. pose proof (with_a_entry i Hi) as HS. destruct (with_a_at i ltac:(lia)) as (_ & A2 & _). pose proof (cs_good _ (with_a_consistent i Hi) 1 (add_entry i [97] demo_root)) as G. destruct (dg_dot _ _ _ (G ltac:(by split_and!))) as [E1 E2].
  rewrite <- E2. rewrite (find_entry (with_a i) 1); [by rewrite E1|apply G; by split_and!|rewrite (sa_size _ _ _ _ _ HS); lia|lia].
Qed.
Lemma with_a_found i : 1 < i < 200 -> walk false (with_a i) 1 [[97]] = Some i.
Proof.
  intros Hi. apply (made_found demo_files 1 demo_root T_FILE 0 0 i 1 [[97]]); [apply demo_consistent|by split_and!|by vm_compute|split; [by apply Forall_cons_2|by apply Nat.leb_le]|lia|lia|unfold demo_files; apply lookup_singleton_ne; lia|by exists demo_root|reflexivity].
Qed.
Lemma with_a_dir i : 1 < i < 200 -> walk true (with_a i) 1 [[46]] = Some 1.
Proof. intros Hi. destruct (with_a_at i ltac:(lia)) as (_ & A2 & _). cbn [walk]. by rewrite A2. Qed.

(** Two open files on "a". *)
Definition rw_file (p : nat) : File.file := File.mkFile FD_INODE 1 true true 0 p 0.
Definition two_files (p : nat) : list File.file := rw_file p :: rw_file p :: replicate (NFILE - 2) unused_file.
Lemma demo_two_open : exists i p c F H dk (s : File.files (K := machine * spinlock) (P := unit)), frepr 3 demo_sb false (mkAfs F H ∅) dk ∅ (two_files p) s /\
  at_inode F H (rw_file p) p i c (mkFile T_FILE 0 0 1 []) /\ at_inode F H (rw_file p) p i c (mkFile T_FILE 0 0 1 []) /\
  (usage demo_sb F + (blocks_for (upto (rw_file p) (mkFile T_FILE 0 0 1 []) [7; 8; 9]%Z 3) - blocks_for (mkFile T_FILE 0 0 1 [])) <= length (data_blocks demo_sb))%nat.
Proof.
  destruct (demo_opened open_a) as (i & q & R & tbl & o & dk & s & Hi & _ & _ & _ & (p & c & Hp) & [H1 _ _ (H & g & HI & Hg & HR & _) _ _ _ _ _]). cbn in HI, Hg, HR. assert (g = ∅) as -> by (apply leibniz_equiv, size_empty_iff; lia).
  destruct (with_a_at i ltac:(lia)) as (A1 & _). assert (exists b, H !! p = Some (mkHandle i c b)) as Hb by (apply (refs_lookup H p (i, c)); by rewrite HR).
  exists i, p, c, (with_a i), H, dk, (put_ftable (two_files p) (sf_files s)). assert (at_inode (with_a i) H (rw_file p) p i c (mkFile T_FILE 0 0 1 [])) as AI by (split; try done; unfold uint32; cbn; lia).
  split_and!; [by split|done|done|]. pose proof (with_a_usage i Hi). assert (100 <= length (data_blocks demo_sb))%nat by (by apply Nat.leb_le; vm_compute). change (blocks_for (mkFile T_FILE 0 0 1 [])) with 0%nat.
  assert (blocks_for (upto (rw_file p) (mkFile T_FILE 0 0 1 []) [7; 8; 9]%Z 3) = 1%nat) as -> by (by vm_compute). lia.
Qed.
End Demo.

(** * The file system calls as a whole *)

Section SysTheorems.
Context {L S K P : Type} `{HL : Locks L} `{HB : Blocks S} `{HK : Lock K} `{HP : Pipes P} (me : Z) (sb : superblock) (Hly : layout sb) (Hfs : forall n, fs_block sb n -> bk_fs n)
  (Hlk : (NINODE < lk_count)%nat).
Notation fs := (fs (L := L) (S := S)).
Notation files := (files (L := L) (S := S) (K := K) (P := P)).
Context (devsw_read : Z -> option (nat -> Z -> M fs (Z * list Z))) (devsw_write : Z -> option (nat -> list Z -> M fs Z)).
Implicit Types (F : gmap Z file) (R : gmap nat (Z * Z)) (dk : history) (tbl : list File.file) (o : list (option nat)) (u : uproc).
Notation srep := (srep (K := K) (P := P) me sb).
Notation triple := (triple srep).
Notation idle F R dk tbl o cw u := (mkWorld (mkFw false dk 0 F R ∅) tbl o cw u).

(** The numbers of the files are those of inodes. *)
Lemma srep_bound {X} F R dk tbl o cw u (m : M _ X) Q : ((forall i f, F !! i = Some f -> 0 <= i < sb_ninodes sb) -> committed sb dk F -> triple (idle F R dk tbl o cw u) m Q) -> triple (idle F R dk tbl o cw u) m Q.
Proof.
  intros Hm s Hs. pose proof (sr_fs _ _ _ _ Hs) as Hf. refine (Hm _ _ s Hs).
  - intros i f Hi. by eapply (frep_bound me sb); [exact Hf|].
  - exact (frep_committed me sb _ _ _ _ _ Hf).
Qed.


(** C17 [mkdir] makes a directory that its path leads to.  It returns -1 and
    changes nothing when the path leads nowhere or the name is taken; otherwise
    it returns 0, and the path leads to a new inode, an empty directory with its
    dots. *)
Theorem mkdir_makes F R dk tbl o cw ci u path :
  argstr u 0 = Some path -> Forall byte path -> consistent F -> walkable F R cw ci -> resources sb F R -> sb_ninodes sb <= 2 ^ 16 -> (3 * (nbitmap sb + 4) + 3 <= bk_room)%nat ->
  triple (idle F R dk tbl o cw u) (sys_mkdir me devsw_read devsw_write) (fun r w' => exists F', closed sb dk F' R tbl o cw u F w' /\ consistent F' /\
    makes (sb_ninodes sb) F (walk true F (start ci path) (elems path)) (last_name path) T_DIR 0 0 r F' /\
    (r = 0 -> exists i d, F !! i = None /\ walk true F (start ci path) (elems path) = Some d /\ walk false F' (start ci path) (elems path) = Some i /\ F' !! i = Some (dotted i d (mkFile T_DIR 0 0 1 [])))).
Proof.
  intros Ha Hby HC Hw Hres Hnum Hroom. apply srep_bound. intros Hbd Hcom. eapply triple_mono; [by eapply (mkdir_ok me sb Hly Hfs Hlk devsw_read devsw_write)|]. intros r w' (F' & Hmk & Hcl). exists F'.
  inversion Hmk as [ | |d fd i E1 Hfd Ht Hfind Hi HN]; subst; [by split_and!..|]. assert (dir_at F d fd) as Hd by (by eapply ended_dir). pose proof (dir_number (sb_ninodes sb) F HC Hnum Hbd d fd Hd) as Hd16.
  split_and!; [done|apply made_consistent; try done; [apply last_name_good|lia]|done|]. intros _. exists i, d. split_and!; [done|done| |].
  - apply made_found; try done; [apply last_name_good|lia|]. unfold start. destruct Hw as [Hroot _ Hlive _]. destruct (peek path =? 47); [apply Hroot|done].
  - unfold made. rewrite Z.eqb_refl, lookup_insert_ne, lookup_insert_eq; [done|]. intros ->. destruct Hd. congruence.
Qed.

(** C11 [unlink] removes a name.  It returns -1 and changes nothing for a path
    that leads nowhere, the dots, and a directory that is not empty; otherwise
    it returns 0, its path leads nowhere, the links are counted right, and an
    inode without links is freed unless something still refers to it. *)
Theorem unlink_removes F R dk tbl o cw ci u path :
  argstr u 0 = Some path -> consistent F -> walkable F R cw ci -> enough sb F R -> sb_ninodes sb <= 2 ^ 16 -> (2 * nbitmap sb + 8 <= bk_room)%nat ->
  triple (idle F R dk tbl o cw u) (sys_unlink me devsw_read devsw_write) (fun r w' => exists F', closed sb dk F' R tbl o cw u F w' /\ consistent F' /\
    unlinks F R (walk true F (start ci path) (elems path)) (last_name path) r F' /\ (r = 0 -> walk false F' (start ci path) (elems path) = None)).
Proof.
  intros Ha HC Hw [[Hb Hc _ _] Hmax] Hnum Hroom. apply srep_bound. intros Hbd Hcom. assert (sane F) as Hsane by (apply consistent_sane; [done|]; intros i f Hf; pose proof (Hmax i f Hf); lia).
  eapply triple_mono; [eapply (unlink_ok me sb Hly Hfs Hlk devsw_read devsw_write); try done; lia|]. intros r w' (F' & Hun & Hcl). fold (last_name path) in Hun. exists F'. split_and!; [done| |done|].
  - eapply (unlinks_consistent F R _ _ HC); [|exact Hun]. intros d fd. by eapply ended_dir.
  - inversion Hun as [ | | | |d fd k j h E1 N1 N2 Hfd Hfind Hj Hemp _ Er EF|d fd k j h E1 N1 N2 Hfd Hfind Hj Hemp _ _ Er EF]; [by subst..| |]; intros _; (eapply (removed_walk F HC d j fd h k (last_name path)); [by eapply ended_dir|done|by split|done| |done|done]).
    + done.
    + intros x f [_ Hx]%lookup_delete_Some. done.
Qed.



(** C19 [open] and [close].  [open] returns the lowest free descriptor, for the
    lowest free entry of the table, on the inode its path leads to or that it
    made, with the access its mode says; and -1, with every reference given
    back, when there is none or no entry is free. *)
Theorem open_opens F R dk tbl o cw ci u path omode :
  argstr u 0 = Some path -> argint u 1 = Some omode -> Forall byte path -> sound F R tbl o cw -> walkable F R cw ci -> resources sb F R -> sb_ninodes sb <= 2 ^ 16 -> (3 * (nbitmap sb + 4) + 3 <= bk_room)%nat ->
  triple (idle F R dk tbl o cw u) (sys_open me devsw_read devsw_write) (fun r w' => exists F' R' tbl' o', closed sb dk F' R' tbl' o' cw u F w' /\
    opens (sb_ninodes sb) F R tbl o ci path omode r F' R' tbl' o' /\ sound F' R' tbl' o' cw).
Proof.
  intros Ha0 Ha1 Hby HS Hw Hres Hnum Hroom. apply srep_bound. intros Hbd Hcom. eapply triple_mono; [eapply (open_ok me sb Hly Hfs Hlk devsw_read devsw_write); try done; apply HS|].
  intros r w' (F' & R' & tbl' & o' & Hop & Hcl). exists F', R', tbl', o'. split_and!; [done|done|]. by eapply opens_sound.
Qed.

(** C12 [write] to a file is one write.  [filewrite] splits it into transactions
    of at most 1536 bytes; the bytes land where they should, and it returns
    their number exactly when they fit into the file - otherwise -1, after
    writing the pieces before the first one that does not fit.  A crash leaves
    the file with the bytes of a prefix. *)
Theorem write_whole F H dk tbl (s : files) f x p i c fl src :
  frepr me sb false (mkAfs F H ∅) dk ∅ tbl s -> tbl !! f = Some x -> at_inode F H x p i c fl -> fd_writable x = true -> (nbitmap sb + 7 <= bk_room)%nat ->
  (usage sb F + (blocks_for (upto x fl src (length src)) - blocks_for fl) <= length (data_blocks sb))%nat ->
  exists m s' ws H', filewrite me devsw_write f src (Z.of_nat (length src)) s = Ok (if decide (m = length src) then Z.of_nat (length src) else -1) s' /\
    (m <= length src)%nat /\ (m = length src <-> src = [] \/ fits (fd_off x) src (f_data fl)) /\
    frepr me sb false (mkAfs (<[i := with_data (write_at (Z.to_nat (fd_off x)) (take m src) (f_data fl)) fl]> F) H' ∅) (then_writes dk ws) ∅ (<[f := set_off (fd_off x + Z.of_nat m) x]> tbl) s' /\
    (src <> [] -> forall k, exists y n, (n <= m)%nat /\ bk_recovers (disk_after dk (take k ws)) y /\ stored sb (<[i := with_data (write_at (Z.to_nat (fd_off x)) (take n src) (f_data fl)) fl]> F) y).
Proof.
  intros HR Hx AI Hw Hroom Hsp. destruct (filewrite_ok me sb Hly Hfs Hlk devsw_read devsw_write F H dk tbl s f x p i c fl src HR Hx AI Hw Hroom Hsp) as (m & s' & ws & H' & E & Hm & Hiff & R' & _ & Hcr).
  exists m, s', ws, H'. split_and!; [done..|]. intros Hne k. destruct (Hcr Hne k) as (y & n & [_ Hn] & Hy & Hst). by exists y, n.
Qed.

(** C25 What is written can be read.  When bytes that fit are written through
    one open file, a read through another one at the same offset of the same
    inode returns them. *)
Theorem write_read F H dk tbl (s : files) f f2 x y p i c fl src :
  frepr me sb false (mkAfs F H ∅) dk ∅ tbl s -> f <> f2 -> tbl !! f = Some x -> tbl !! f2 = Some y -> at_inode F H x p i c fl -> at_inode F H y p i c fl ->
  fd_writable x = true -> fd_readable y = true -> fd_off y = fd_off x -> fits (fd_off x) src (f_data fl) -> (nbitmap sb + 7 <= bk_room)%nat ->
  (usage sb F + (blocks_for (upto x fl src (length src)) - blocks_for fl) <= length (data_blocks sb))%nat ->
  exists s1 s2, filewrite me devsw_write f src (Z.of_nat (length src)) s = Ok (Z.of_nat (length src)) s1 /\ fileread me devsw_read f2 (Z.of_nat (length src)) s1 = Ok (Z.of_nat (length src), src) s2.
Proof. by apply write_then_read. Qed.
End SysTheorems.

(** C35 Arguments lie in the process.  [argptr] accepts exactly the pointers
    whose [size] bytes lie below the size of the process, without wrapping
    around, and [argstr] returns exactly the strings that end below it. *)
Theorem args_inside u n : u_sz u <= 2 ^ 31 ->
  (forall size p, - 2 ^ 31 <= size < 2 ^ 31 -> argptr u n size = Some p <-> exists i, argint u n = Some i /\ p = u32 i /\ 0 <= size /\ p < u_sz u /\ p + size <= u_sz u) /\
  (forall l, argstr u n = Some l <-> exists i, argint u n = Some i /\ u32 i + Z.of_nat (length l) < u_sz u /\ u_mem u (u32 i + Z.of_nat (length l)) = 0 /\
    Forall (fun c => c <> 0) l /\ l = bytes_of (u_mem u) (u32 i) (Z.of_nat (length l))).
Proof. intros Hsz. split; [intros size p; by apply argptr_spec|apply argstr_spec]. Qed.

(** ** On the small disk *)

Section Demo.
#[local] Existing Instance fs_locks.
Notation demo_rep := (srep (K := machine * spinlock) (P := unit) 3 demo_sb).
Notation demo_sys := (Sysfile.sysfiles (L := machine * list spinlock) (S := fs_state (K := machine * spinlock) (S := bcache (L := machine * list spinlock))) (K := machine * spinlock) (P := unit)).
Notation demo_ftable := (File.files (L := machine * list spinlock) (S := fs_state (K := machine * spinlock) (S := bcache (L := machine * list spinlock))) (K := machine * spinlock) (P := unit)).


Lemma mkdir_makes_witness : exists (s s' : demo_sys) F', sys_mkdir 3 no_read no_write s = Ok 0 s' /\ consistent F' /\ exists i, demo_files !! i = None /\ walk false F' 1 [[97]] = Some i.
Proof.
  destruct (demo_process open_a) as (q & s & Hs). destruct (mkdir_makes (K := machine * spinlock) (P := unit) 3 demo_sb demo_layout demo_home fs_enough no_read no_write demo_files {[q := (1, 1)]} (mkHistory demo_image []) empty_table no_fds q 1 open_a [97]) with s as (r & s' & w' & H1 & _ & F' & _ & H3 & H4 & H5).
  - by vm_compute.
  - by apply Forall_cons_2; [unfold byte; lia|].
  - apply demo_consistent.
  - apply demo_walkable.
  - apply demo_resources.
  - cbn. lia.
  - by apply demo_room.
  - exact Hs.
  - exists s, s', F'. assert (r = 0) as ->. { inversion H4 as [E|d fd e E Hfd Hfind|]; [by vm_compute in E| |done]. vm_compute in E. injection E as <-. change (demo_files !! 1) with (Some demo_root) in Hfd. injection Hfd as <-. by vm_compute in Hfind. }
    split_and!; [exact H1|exact H3|]. destruct (H5 eq_refl) as (i & d & HN & _ & Hw & _). by exists i.
Defined.

Lemma unlink_removes_witness : exists i s s' F' r, demo_rep_a i s /\ sys_unlink 3 no_read no_write s = Ok r s' /\ consistent F' /\ (r = 0 -> walk false F' 1 [[97]] = None).
Proof.
  destruct (demo_opened open_a) as (i & q & R & tbl & o & dk & s & Hi & HR & HS & Hw & Hheld & Hs). destruct (unlink_removes (K := machine * spinlock) (P := unit) 3 demo_sb demo_layout demo_home fs_enough no_read no_write (with_a i) R dk tbl o q 1 open_a [97]) with s as (r & s' & w' & H1 & _ & F' & _ & H3 & _ & H5).
  - by vm_compute.
  - by apply with_a_consistent.
  - exact Hw.
  - by apply with_a_enough.
  - cbn. lia.
  - by apply demo_room.
  - exact Hs.
  - exists i, s, s', F', r. split_and!; [by exists q, R, tbl, o, dk, open_a|exact H1|exact H3|exact H5].
Defined.



Lemma open_opens_witness : exists (s : demo_sys) r s' F' R' tbl' o', sys_open 3 no_read no_write s = Ok r s' /\ exists q, opens 200 demo_files {[q := (1, 1)]} empty_table no_fds 1 [97] 514 r F' R' tbl' o' /\ sound F' R' tbl' o' q.
Proof.
  destruct (demo_process open_a) as (q & s & Hs). destruct (open_opens (K := machine * spinlock) (P := unit) 3 demo_sb demo_layout demo_home fs_enough no_read no_write demo_files {[q := (1, 1)]} (mkHistory demo_image []) empty_table no_fds q 1 open_a [97] 514) with s as (r & s' & w' & H1 & _ & F' & R' & tbl' & o' & _ & H3 & H4).
  - by vm_compute.
  - by vm_compute.
  - by apply Forall_cons_2; [unfold byte; lia|].
  - apply demo_sound.
  - apply demo_walkable.
  - apply demo_resources.
  - cbn. lia.
  - by apply demo_room.
  - exact Hs.
  - exists s, r, s', F', R', tbl', o'. split; [exact H1|]. by exists q.
Defined.

(** Three bytes are written to "a", and read. *)
Lemma write_whole_witness : exists (s s' : demo_ftable) m, filewrite 3 no_write 0 [7; 8; 9] 3 s = Ok (if decide (m = 3%nat) then 3 else -1) s' /\ (m = 3%nat <-> [7; 8; 9] = [] \/ fits 0 [7; 8; 9] []).
Proof.
  destruct demo_two_open as (i & p & c & F & H & dk & s & HR & A1 & A2 & Hsp). destruct (write_whole (K := machine * spinlock) (P := unit) 3 demo_sb demo_layout demo_home fs_enough no_read no_write F H dk (two_files p) s 0 (rw_file p) p i c (mkFile T_FILE 0 0 1 []) [7; 8; 9]) as (m & s' & ws & H' & E & _ & Hm & _).
  - exact HR.
  - reflexivity.
  - exact A1.
  - reflexivity.
  - by apply demo_room.
  - exact Hsp.
  - exists s, s', m. split; [exact E|exact Hm].
Defined.
Lemma write_read_witness : exists (s s1 s2 : demo_ftable), filewrite 3 no_write 0 [7; 8; 9] 3 s = Ok 3 s1 /\ fileread 3 no_read 1 3 s1 = Ok (3, [7; 8; 9]) s2.
Proof.
  destruct demo_two_open as (i & p & c & F & H & dk & s & HR & A1 & A2 & Hsp).
  destruct (write_read (K := machine * spinlock) (P := unit) 3 demo_sb demo_layout demo_home fs_enough no_read no_write F H dk (two_files p) s 0 1 (rw_file p) (rw_file p) p i c (mkFile T_FILE 0 0 1 []) [7; 8; 9]) as (s1 & s2 & E1 & E2); try done.
  - by apply demo_room.
  - exists s, s1, s2. split; [exact E1|exact E2].
Defined.
End Demo.

Lemma args_inside_witness : u_sz open_a <= 2 ^ 31 /\ argstr open_a 0 = Some [97] /\ argptr open_a 0 2 = Some 16 /\ argptr open_a 0 4081 = None /\ exists i, argint open_a 0 = Some i /\ u32 i + 1 < 4096.
Proof.
  assert (u_sz open_a <= 2 ^ 31) as Hsz by (cbn; lia). destruct (args_inside open_a 0 Hsz) as [_ H2]. assert (argstr open_a 0 = Some [97]) as E by (by vm_compute).
  split_and!; [exact Hsz|exact E|by vm_compute|by vm_compute|]. destruct (proj1 (H2 [97]) E) as (i & E1 & E2 & _). by exists i.
Defined.
