(* ===== verification/Console.v ===== *)
(** * The console: console.c, with the output of uart.c

    The screen is the cells of the CGA memory and the two cursor registers;
    the serial port is the bytes sent.  The input is a ring of [INPUT_BUF]
    characters with the indices [r], [w] and [e]; [readers] counts the processes
    asleep on [&input.r].  The inode lock that [consoleread] and [consolewrite]
    let go of meanwhile belongs to the caller's state. *)

From stdpp Require Import base list strings.
From Stdlib Require Import ZArith Lia.
From S2P Require Import Prelude Spinlock Sync CString Printf.
Local Open Scope Z_scope.

Definition BACKSPACE : Z := 0x100.
Definition INPUT_BUF : Z := 128.
Definition Ctl (x : Z) : Z := x - 64.      (** [C(x)], [x - '@'] *)

Record input := mkInput {
  inbuf : list Z;
  in_r : Z;
  in_w : Z;
  in_e : Z;
  readers : nat
}.

Section Console.
Context {L : Type} `{HL : Lock L}.

Record console := mkConsole {
  cons_lock : L;
  locking : bool;
  panicked : bool;
  uart : bool;
  serial : list Z;
  crtc14 : Z;                 (** cursor registers *)
  crtc15 : Z;
  crt : Z -> Z;
  inp : input
}.
Definition put_cons_lock (x : L) (s : console) : console :=
  mkConsole x (locking s) (panicked s) (uart s) (serial s) (crtc14 s) (crtc15 s) (crt s) (inp s).
Definition put_locking (x : bool) (s : console) : console :=
  mkConsole (cons_lock s) x (panicked s) (uart s) (serial s) (crtc14 s) (crtc15 s) (crt s) (inp s).
Definition put_panicked (x : bool) (s : console) : console :=
  mkConsole (cons_lock s) (locking s) x (uart s) (serial s) (crtc14 s) (crtc15 s) (crt s) (inp s).
Definition put_serial (x : list Z) (s : console) : console :=
  mkConsole (cons_lock s) (locking s) (panicked s) (uart s) x (crtc14 s) (crtc15 s) (crt s) (inp s).
Definition put_cursor (hi lo : Z) (s : console) : console :=
  mkConsole (cons_lock s) (locking s) (panicked s) (uart s) (serial s) hi lo (crt s) (inp s).
Definition put_crt (x : Z -> Z) (s : console) : console :=
  mkConsole (cons_lock s) (locking s) (panicked s) (uart s) (serial s) (crtc14 s) (crtc15 s) x (inp s).
Definition put_inp (x : input) (s : console) : console :=
  mkConsole (cons_lock s) (locking s) (panicked s) (uart s) (serial s) (crtc14 s) (crtc15 s) (crt s) x.

Definition cons_acquire : M console unit := zoom cons_lock put_cons_lock lk_acquire.
Definition cons_release : M console unit := zoom cons_lock put_cons_lock lk_release.

(** ** Output *)

(** The wait for the transmitter only delays. *)
Definition uartputc (c : Z) : M console unit :=
  let! u := gets uart in
  if negb u then ret tt else modify (fun s => put_serial (serial s ++ [u8 c]) s).

Definition set_cell (i v : Z) : M console unit :=
  modify (fun s => put_crt (fun k => if k =? i then v else crt s k) s).

Definition cgaputc (c : Z) : M console unit :=
  let! hi := gets crtc14 in
  let! lo := gets crtc15 in
  let pos := Z.lor (Z.shiftl hi 8) lo in
  let! pos :=
    (if c =? 10 then ret (pos + (80 - pos mod 80))
     else if c =? BACKSPACE then ret (if 0 <? pos then pos - 1 else pos)
     else set_cell pos (Z.lor (Z.land c 0xff) 0x0700) ;;; ret (pos + 1)) in
  if (pos <? 0) || (25 * 80 <? pos) then panic "pos under/overflow" else
  let! pos :=
    (if 24 <=? pos / 80 then
       modify (fun s => put_crt (fun k => if (0 <=? k) && (k <? 23 * 80) then crt s (k + 80) else crt s k) s) ;;;
       let pos := pos - 80 in
       modify (fun s => put_crt (fun k => if (pos <=? k) && (k <? 24 * 80) then 0 else crt s k) s) ;;;
       ret pos
     else ret pos) in
  modify (fun s => put_cursor (u8 (Z.shiftr pos 8)) (u8 pos) s) ;;;
  set_cell pos (Z.lor 32 0x0700).

(** After a panic every other CPU stays in here. *)
Definition consputc (c : Z) : M console unit :=
  let! p := gets panicked in
  if p then nofuel else
  (if c =? BACKSPACE then uartputc 8 ;;; uartputc 32 ;;; uartputc 8 else uartputc c) ;;;
  cgaputc c.

Definition cons_printint (xx base : Z) (sgn : bool) : M console unit :=
  let neg := sgn && (xx <? 0) in
  let x := if neg then u32 (- xx) else u32 xx in
  let! r := digit_loop 33 lower_digits x base (replicate 16 0) 0 in
  let! b := (if neg then let! b := set_buf r.1 r.2 45 in ret (b, S r.2) else ret r) in
  put_reverse consputc b.1 b.2.

(** The characters of a string. *)
Fixpoint cons_puts (fuel : nat) (m : mem) (s : Z) : M console unit :=
  match fuel with
  | O => nofuel
  | S f => if m s =? 0 then ret tt else consputc (m s) ;;; cons_puts f m (s + 1)
  end.

(** The format is the bytes before its terminating zero. *)
Fixpoint cprintf_loop (fuel : nat) (m : mem) (fmt : list Z) (ap : list Z) : M console unit :=
  match fmt with
  | [] => ret tt
  | c :: rest =>
      if negb (c =? 37) then consputc c ;;; cprintf_loop fuel m rest ap else
      match rest with
      | [] => ret tt
      | c :: rest =>
          if c =? 100 then
            let! a := deref (head ap) in
            cons_printint (s32 a) 10 true ;;; cprintf_loop fuel m rest (tail ap)
          else if (c =? 120) || (c =? 112) then
            let! a := deref (head ap) in
            cons_printint (s32 a) 16 false ;;; cprintf_loop fuel m rest (tail ap)
          else if c =? 115 then
            let! s := deref (head ap) in
            (if s =? 0 then put_all consputc (chars "(null)") else cons_puts fuel m s) ;;;
            cprintf_loop fuel m rest (tail ap)
          else if c =? 37 then consputc 37 ;;; cprintf_loop fuel m rest ap
          else consputc 37 ;;; consputc c ;;; cprintf_loop fuel m rest ap
      end
  end.

Definition cprintf (fuel : nat) (m : mem) (fmt : option (list Z)) (ap : list Z) : M console unit :=
  let! l := gets locking in
  (if l then cons_acquire else ret tt) ;;;
  (match fmt with None => panic "null fmt" | Some f => cprintf_loop fuel m f ap end) ;;;
  (if l then cons_release else ret tt).

(** Up to the loop that keeps the CPU; [cli] is the machine's.  The message is
    itself a format. *)
Definition kpanic (fuel : nat) (m : mem) (lapicid : Z) (s : list Z) (pcs : list Z) : M console unit :=
  modify (put_locking false) ;;;
  cprintf fuel m (Some (chars "lapicid %d: panic: ")) [lapicid] ;;;
  cprintf fuel m (Some s) [] ;;;
  cprintf fuel m (Some [10]) [] ;;;
  put_all (fun pc => cprintf fuel m (Some (chars " %p")) [pc]) pcs ;;;
  modify (put_panicked true).

(** ** Input *)

Definition get_inp {A : Type} (f : input -> A) : M console A := gets (fun s => f (inp s)).
Definition upd_inp (f : input -> input) : M console unit := modify (fun s => put_inp (f (inp s)) s).
Definition set_r (x : Z) (i : input) : input := mkInput (inbuf i) x (in_w i) (in_e i) (readers i).
Definition set_w (x : Z) (i : input) : input := mkInput (inbuf i) (in_r i) x (in_e i) (readers i).
Definition set_e (x : Z) (i : input) : input := mkInput (inbuf i) (in_r i) (in_w i) x (readers i).
Definition set_inbuf (x : list Z) (i : input) : input := mkInput x (in_r i) (in_w i) (in_e i) (readers i).
Definition set_readers (x : nat) (i : input) : input := mkInput (inbuf i) (in_r i) (in_w i) (in_e i) x.

Definition slot (x : Z) : nat := Z.to_nat (x mod INPUT_BUF).

(** [while(input.e != input.w && input.buf[(input.e-1) % INPUT_BUF] != '\n')] *)
Fixpoint kill_line (fuel : nat) : M console unit :=
  match fuel with
  | O => nofuel
  | S f =>
      let! i := get_inp id in
      if in_e i =? in_w i then ret tt else
      let! b := deref (inbuf i !! slot (u32 (in_e i - 1))) in
      if b =? 10 then ret tt else
      upd_inp (set_e (u32 (in_e i - 1))) ;;;
      consputc BACKSPACE ;;;
      kill_line f
  end.

(** One character; says whether a process listing is asked for. *)
Definition console_key (c : Z) : M console bool :=
  if c =? Ctl 80 then ret true else
  if c =? Ctl 85 then kill_line 129 ;;; ret false else
  if (c =? Ctl 72) || (c =? 127) then
    let! i := get_inp id in
    (if negb (in_e i =? in_w i) then
       upd_inp (set_e (u32 (in_e i - 1))) ;;;
       consputc BACKSPACE
     else ret tt) ;;;
    ret false
  else
    let! i := get_inp id in
    (if negb (c =? 0) && (u32 (in_e i - in_r i) <? INPUT_BUF) then
       let c := if c =? 13 then 10 else c in
       upd_inp (fun i => set_e (u32 (in_e i + 1)) (set_inbuf (<[slot (in_e i) := u8 c]> (inbuf i)) i)) ;;;
       consputc c ;;;
       let! i := get_inp id in
       if (c =? 10) || (c =? Ctl 68) || (in_e i =? u32 (in_r i + INPUT_BUF)) then
         upd_inp (fun i => set_readers 0 (set_w (in_e i) i))
       else ret tt
     else ret tt) ;;;
    ret false.

(** What [getc] returns, call after call. *)
Fixpoint console_keys (cs : list Z) (dump : bool) : M console bool :=
  match cs with
  | [] => ret dump
  | c :: cs' =>
      if c <? 0 then ret dump else
      let! d := console_key c in
      console_keys cs' (dump || d)
  end.

(** Returns whether [procdump] follows, without the lock. *)
Definition consoleintr (cs : list Z) : M console bool :=
  cons_acquire ;;;
  let! d := console_keys cs false in
  cons_release ;;;
  ret d.

(** How a call ends: with these characters, killed, or asleep having copied
    these. *)
Inductive cread_end := CRead (l : list Z) | CKilled | CSleeps (l : list Z).

Definition ccons (c : Z) (e : cread_end) : cread_end :=
  match e with CRead l => CRead (c :: l) | CKilled => CKilled | CSleeps l => CSleeps (c :: l) end.

(** The loop with [n] to go; [fresh] is [n == target]. *)
Fixpoint consoleread_loop (killed fresh : bool) (n : nat) : M console cread_end :=
  match n with
  | O => cons_release ;;; ret (CRead [])
  | S n' =>
      let! i := get_inp id in
      if in_r i =? in_w i then
        if killed then cons_release ;;; ret CKilled
        else upd_inp (set_readers (S (readers i))) ;;; cons_release ;;; ret (CSleeps [])
      else
        let! c := deref (inbuf i !! slot (in_r i)) in
        upd_inp (set_r (u32 (in_r i + 1))) ;;;
        if c =? Ctl 68 then
          (if negb fresh then upd_inp (fun i => set_r (u32 (in_r i - 1)) i) else ret tt) ;;;
          cons_release ;;;
          ret (CRead [])
        else if c =? 10 then cons_release ;;; ret (CRead [c])
        else
          let! e := consoleread_loop killed false n' in
          ret (ccons c e)
  end.

(** A call that has to wait is continued, once woken up, with [fresh] and [n]
    as they were. *)
Definition consoleread (killed fresh : bool) (n : nat) : M console cread_end :=
  cons_acquire ;;;
  consoleread_loop killed fresh n.

Definition consolewrite (buf : list Z) : M console nat :=
  cons_acquire ;;;
  put_all (fun c => consputc (Z.land c 0xff)) buf ;;;
  cons_release ;;;
  ret (length buf).
End Console.
