(* ===== verification/ConsoleCorrect.v ===== *)
(** * What the console promises

    The cursor never leaves the screen, and the input is a line discipline:
    an edited line and a queue of the characters committed so far. *)

From stdpp Require Import base list strings.
From Stdlib Require Import ZArith Lia.
From S2P Require Import Prelude Spinlock Sync CString Printf Console.
Local Open Scope Z_scope.

Lemma lor_bytes a b : 0 <= b < 256 -> Z.lor (Z.shiftl a 8) b = a * 256 + b.
Proof.
  intros Hb. rewrite Z.shiftl_mul_pow2 by lia. change 256 with (2 ^ 8). rewrite Z.add_nocarry_lxor, Z.lxor_lor; [done| |].
  all: apply Z.bits_inj'; intros n Hn; rewrite Z.land_spec, Z.bits_0; destruct (Z.lt_ge_cases n 8);
    [rewrite Z.mul_pow2_bits_low by lia; done|].
  all: replace (Z.testbit b n) with false; [by rewrite andb_false_r|]; symmetry; rewrite Z.testbit_false by lia;
    rewrite Z.div_small; [done|]; split; [lia|]; apply Z.lt_le_trans with (2 ^ 8); [lia|apply Z.pow_le_mono_r; lia].
Qed.

Section Correct.
Context {L : Type} `{HL : Lock L}.
Notation console := (console (L := L)).
Implicit Types s : console.

(** ** Output *)

Definition pos s : Z := crtc14 s * 256 + crtc15 s.
Definition on_screen s : Prop := 0 <= crtc14 s < 256 /\ 0 <= crtc15 s < 256 /\ pos s < 24 * 80.

(** What output leaves alone; the cells past the 24 rows are never written. *)
Record echo s s' : Prop := {
  ec_lock : cons_lock s' = cons_lock s;
  ec_locking : locking s' = locking s;
  ec_panicked : panicked s' = panicked s;
  ec_uart : uart s' = uart s;
  ec_inp : inp s' = inp s;
  ec_crt : forall k, ~ (0 <= k < 24 * 80) -> crt s' k = crt s k;
  ec_screen : on_screen s'
}.
Lemma echo_refl s : on_screen s -> echo s s.
Proof. by split. Qed.
Lemma echo_trans s1 s2 s3 : echo s1 s2 -> echo s2 s3 -> echo s1 s3.
Proof. intros [] []. split; try congruence. intros k Hk. rewrite ec_crt1 by done. by apply ec_crt0. Qed.

Lemma uartputc_Ok c s : on_screen s -> exists s', uartputc c s = Ok tt s' /\ echo s s' /\
  serial s' = serial s ++ (if uart s then [u8 c] else []).
Proof.
  intros Hs. unfold uartputc. rewrite bind_gets. destruct (uart s) eqn:Hu; simpl.
  - eexists. split; [reflexivity|]. by split; [split|].
  - exists s. rewrite app_nil_r. split_and!; [done|by apply echo_refl|done].
Qed.

Lemma on_screen_cursor p s : 0 <= p < 24 * 80 -> on_screen (put_cursor (u8 (Z.shiftr p 8)) (u8 p) s).
Proof.
  intros Hp. unfold on_screen, pos. simpl. rewrite Z.shiftr_div_pow2 by lia. unfold u8. Z.to_euclidean_division_equations. lia.
Qed.

(** The cursor after a character. *)
Definition moved (c p : Z) : Z :=
  if c =? 10 then p + (80 - p mod 80) else if c =? BACKSPACE then (if 0 <? p then p - 1 else p) else p + 1.

Lemma cgaputc_Ok c s : on_screen s -> exists s', cgaputc c s = Ok tt s' /\ echo s s' /\ serial s' = serial s /\
  pos s' = (let p := moved c (pos s) in if 24 * 80 <=? p then p - 80 else p).
Proof.
  intros (H1 & H2 & H3). unfold cgaputc. rewrite !bind_gets. rewrite lor_bytes by done. fold (pos s).
  assert (0 <= pos s) as H0 by (unfold pos; lia).
  assert (0 <= moved c (pos s) <= 24 * 80) as Hm.
  { unfold moved. destruct (c =? 10); [Z.to_euclidean_division_equations; lia|]. destruct (c =? BACKSPACE); [|lia].
    destruct (Z.ltb_spec 0 (pos s)); lia. }
  set (crt1 := if (c =? 10) || (c =? BACKSPACE) then crt s else fun k => if k =? pos s then Z.lor (Z.land c 0xff) 0x0700 else crt s k).
  assert (forall k, ~ (0 <= k < 24 * 80) -> crt1 k = crt s k) as Hc1.
  { intros k Hk. unfold crt1. destruct (_ || _); [done|]. destruct (Z.eqb_spec k (pos s)); [lia|done]. }
  match goal with |- context [bind ?m _] => assert (m s = Ok (moved c (pos s)) (put_crt crt1 s)) as E end.
  { unfold moved, crt1. destruct (c =? 10); [by destruct s|]. destruct (c =? BACKSPACE); [by destruct s|]. done. }
  erewrite bind_Ok by exact E. clear E. set (p := moved c (pos s)) in *. cbv zeta.
  replace ((p <? 0) || (25 * 80 <? p)) with false by (symmetry; apply orb_false_iff; lia).
  destruct (Z.leb_spec 24 (p / 80)) as [Hd|Hd], (Z.leb_spec (24 * 80) p) as [Hp|Hp];
    try (exfalso; Z.to_euclidean_division_equations; lia).
  - rewrite bind_assoc, bind_modify, bind_assoc, bind_modify. rewrite bind_ret, bind_modify. eexists. split; [reflexivity|].
    split_and!; [|done|unfold pos; simpl; rewrite Z.shiftr_div_pow2 by lia; unfold u8; Z.to_euclidean_division_equations; lia].
    split; try done; [|apply (on_screen_cursor (p - 80) s); lia]. simpl. intros k Hk.
    destruct (Z.eqb_spec k (p - 80)); [lia|]. destruct (Z.leb_spec (p - 80) k), (Z.ltb_spec k (24 * 80)); simpl; try lia;
    destruct (Z.leb_spec 0 k), (Z.ltb_spec k (23 * 80)); simpl; try lia; by apply Hc1.
  - rewrite bind_ret, bind_modify. eexists. split; [reflexivity|].
    split_and!; [|done|unfold pos; simpl; rewrite Z.shiftr_div_pow2 by lia; unfold u8; Z.to_euclidean_division_equations; lia].
    split; try done; [|apply (on_screen_cursor p s); lia]. simpl. intros k Hk.
    destruct (Z.eqb_spec k p); [lia|]. by apply Hc1.
Qed.

Definition sent (c : Z) : list Z := if c =? BACKSPACE then [8; 32; 8] else [u8 c].

Lemma consputc_Ok c s : on_screen s -> panicked s = false -> exists s', consputc c s = Ok tt s' /\ echo s s' /\
  serial s' = serial s ++ (if uart s then sent c else []).
Proof.
  intros Hs Hp. unfold consputc. rewrite bind_gets, Hp. unfold sent. destruct (c =? BACKSPACE).
  - destruct (uartputc_Ok 8 s Hs) as (s1 & E1 & H1 & S1). destruct (uartputc_Ok 32 s1 (ec_screen _ _ H1)) as (s2 & E2 & H2 & S2).
    destruct (uartputc_Ok 8 s2 (ec_screen _ _ H2)) as (s3 & E3 & H3 & S3).
    destruct (cgaputc_Ok c s3 (ec_screen _ _ H3)) as (s4 & E4 & H4 & S4 & _).
    exists s4. rewrite !bind_assoc. erewrite bind_Ok by exact E1. rewrite bind_assoc. erewrite bind_Ok by exact E2.
    erewrite bind_Ok by exact E3. split_and!; [exact E4|exact (echo_trans _ _ _ H1 (echo_trans _ _ _ H2 (echo_trans _ _ _ H3 H4)))|].
    rewrite S4, S3, S2, S1, (ec_uart _ _ H2), (ec_uart _ _ H1). destruct (uart s); [by rewrite <- !app_assoc|by rewrite !app_nil_r].
  - destruct (uartputc_Ok c s Hs) as (s1 & E1 & H1 & S1). destruct (cgaputc_Ok c s1 (ec_screen _ _ H1)) as (s2 & E2 & H2 & S2 & _).
    exists s2. erewrite bind_Ok by exact E1. split_and!; [exact E2|by eapply echo_trans|]. by rewrite S2, S1.
Qed.

(** ** Input

    The characters a reader may take, and those of the line still edited. *)
Record line := mkLine { ready : list Z; editing : list Z }.

Record ring (i : input) (rd ed : list Z) : Prop := {
  rg_len : length (inbuf i) = 128%nat;
  rg_r : 0 <= in_r i < 2 ^ 32;
  rg_w : in_w i = u32 (in_r i + Z.of_nat (length rd));
  rg_e : in_e i = u32 (in_r i + Z.of_nat (length (rd ++ ed)));
  rg_fits : (length (rd ++ ed) <= 128)%nat;
  rg_chars : forall j c, (rd ++ ed) !! j = Some c -> inbuf i !! slot (in_r i + Z.of_nat j) = Some c
}.
Record lines (i : input) (a : line) : Prop := {
  ln_ring : ring i (ready a) (editing a);
  ln_edit : Forall (fun c => c <> 10) (editing a);
  ln_sleep : (0 < readers i)%nat -> ready a = []
}.

Lemma slot_u32 x : slot (u32 x) = slot x.
Proof. unfold slot, u32, INPUT_BUF. f_equal. Z.to_euclidean_division_equations. lia. Qed.
Lemma slot_lt x : (slot x < 128)%nat.
Proof. unfold slot, INPUT_BUF. Z.to_euclidean_division_equations. lia. Qed.
Lemma slot_inj x y : 0 <= y - x < 128 -> slot x = slot y -> x = y.
Proof. unfold slot, INPUT_BUF. intros H E. Z.to_euclidean_division_equations. lia. Qed.

Lemma edit_empty i rd ed : ring i rd ed -> (in_e i =? in_w i) = match ed with [] => true | _ => false end.
Proof.
  intros [_ Hr Hw He Hf _]. rewrite Hw, He. rewrite length_app in *. unfold u32.
  destruct ed as [|c ed]; simpl in *; [rewrite Nat.add_0_r; apply Z.eqb_refl|].
  apply Z.eqb_neq. Z.to_euclidean_division_equations. lia.
Qed.
Lemma ready_empty i rd ed : ring i rd ed -> (in_r i =? in_w i) = match rd with [] => true | _ => false end.
Proof.
  intros [_ Hr Hw _ Hf _]. rewrite Hw. rewrite length_app in *. unfold u32. destruct rd as [|c rd]; simpl in *.
  - apply Z.eqb_eq. Z.to_euclidean_division_equations. lia.
  - apply Z.eqb_neq. Z.to_euclidean_division_equations. lia.
Qed.
Lemma ring_used i rd ed : ring i rd ed -> u32 (in_e i - in_r i) = Z.of_nat (length (rd ++ ed)).
Proof. intros [_ Hr _ He Hf _]. rewrite He. unfold u32. Z.to_euclidean_division_equations. lia. Qed.
Lemma ring_full i rd ed : ring i rd ed -> (in_e i =? u32 (in_r i + INPUT_BUF)) = (length (rd ++ ed) =? 128)%nat.
Proof.
  intros [_ Hr _ He Hf _]. rewrite He. unfold u32, INPUT_BUF. destruct (Nat.eqb_spec (length (rd ++ ed)) 128) as [->|Hne].
  - apply Z.eqb_refl.
  - apply Z.eqb_neq. Z.to_euclidean_division_equations. lia.
Qed.

Lemma ring_push i rd ed c : ring i rd ed -> (length (rd ++ ed) < 128)%nat ->
  ring (set_e (u32 (in_e i + 1)) (set_inbuf (<[slot (in_e i) := c]> (inbuf i)) i)) rd (ed ++ [c]).
Proof.
  intros [Hl Hr Hw He Hf Hc] Hlt. split; simpl; rewrite ?app_assoc, ?length_app in *; simpl; try done.
  - by rewrite length_insert.
  - rewrite He. unfold u32. Z.to_euclidean_division_equations. lia.
  - lia.
  - intros j x Hj. rewrite He, slot_u32. destruct (decide (j < length (rd ++ ed))%nat) as [Hjl|Hjl].
    + rewrite lookup_app_l in Hj by done. rewrite list_lookup_insert_ne; [by apply Hc|]. rewrite length_app in Hjl.
      intros E. symmetry in E. apply slot_inj in E; lia.
    + rewrite length_app in Hjl. rewrite lookup_app_r in Hj by (rewrite length_app; lia). apply list_lookup_singleton_Some in Hj as [Hj <-].
      rewrite length_app in Hj. replace j with (length rd + length ed)%nat by lia. apply list_lookup_insert_eq. rewrite Hl. apply slot_lt.
Qed.

Lemma ring_pop i rd ed c : ring i rd (ed ++ [c]) ->
  ring (set_e (u32 (in_e i - 1)) i) rd ed /\ inbuf i !! slot (u32 (in_e i - 1)) = Some c.
Proof.
  intros [Hl Hr Hw He Hf Hc]. rewrite app_assoc, length_app in *. cbn [length] in *.
  assert (u32 (in_e i - 1) = u32 (in_r i + Z.of_nat (length (rd ++ ed)))) as E.
  { rewrite He. unfold u32. Z.to_euclidean_division_equations. lia. }
  rewrite E. split.
  - split; simpl; try done; [lia|]. intros j x Hj. apply Hc. by apply lookup_app_l_Some.
  - rewrite slot_u32. apply Hc. apply list_lookup_middle. done.
Qed.

Lemma ring_commit i rd ed k : ring i rd ed -> ring (set_readers k (set_w (in_e i) i)) (rd ++ ed) [].
Proof. intros [Hl Hr Hw He Hf Hc]. split; simpl; rewrite ?app_nil_r; done. Qed.

Lemma ring_take i c rd ed : ring i (c :: rd) ed ->
  inbuf i !! slot (in_r i) = Some c /\ ring (set_r (u32 (in_r i + 1)) i) rd ed.
Proof.
  intros [Hl Hr Hw He Hf Hc]. split.
  - specialize (Hc 0%nat c eq_refl). by rewrite Z.add_0_r in Hc.
  - split; simpl in *; rewrite ?length_app in *; try done.
    + unfold u32. apply Z.mod_pos_bound. lia.
    + rewrite Hw. unfold u32. Z.to_euclidean_division_equations. lia.
    + rewrite He. unfold u32. Z.to_euclidean_division_equations. lia.
    + lia.
    + intros j x Hj. specialize (Hc (S j) x Hj). rewrite <- (slot_u32 (u32 _ + _)).
      replace (u32 (u32 (in_r i + 1) + Z.of_nat j)) with (u32 (in_r i + Z.of_nat (S j))); [by rewrite slot_u32|].
      unfold u32. Z.to_euclidean_division_equations. lia.
Qed.
Lemma ring_untake i c rd ed : ring i (c :: rd) ed -> u32 (u32 (in_r i + 1) - 1) = in_r i.
Proof. intros [_ Hr _ _ _ _]. unfold u32. Z.to_euclidean_division_equations. lia. Qed.

(** ** The line discipline *)

Definition key_char (c : Z) : Z := u8 (if c =? 13 then 10 else c).

Definition abs_key (c : Z) (a : line) : line :=
  if c =? Ctl 80 then a else
  if c =? Ctl 85 then mkLine (ready a) [] else
  if (c =? Ctl 72) || (c =? 127) then mkLine (ready a) (removelast (editing a)) else
  if (c =? 0) || (128 <=? length (ready a ++ editing a))%nat then a else
  let ed := editing a ++ [key_char c] in
  if (key_char c =? 10) || (key_char c =? Ctl 68) || (length (ready a ++ ed) =? 128)%nat
  then mkLine (ready a ++ ed) [] else mkLine (ready a) ed.

Definition calm s : Prop := on_screen s /\ panicked s = false.

(** A step of the input that echoes: [i] is the new input. *)
Lemma echo_step s i c : calm s -> exists s', consputc c (put_inp i s) = Ok tt s' /\ inp s' = i /\ cons_lock s' = cons_lock s /\ calm s'.
Proof.
  intros [Hs Hp]. destruct (consputc_Ok c (put_inp i s)) as (s' & E & [H1 _ H3 _ H5 _ H7] & _); [done|done|].
  exists s'. split_and!; [done|done|done|]. split; [done|]. by rewrite H3.
Qed.

Lemma kill_line_Ok rd ed : forall fuel s, calm s -> ring (inp s) rd ed -> Forall (fun c => c <> 10) ed -> (length ed < fuel)%nat ->
  exists s', kill_line fuel s = Ok tt s' /\ ring (inp s') rd [] /\ readers (inp s') = readers (inp s) /\
    cons_lock s' = cons_lock s /\ calm s'.
Proof.
  induction ed as [|c ed IH] using rev_ind; intros fuel s Hs Hr Hn Hf; (destruct fuel as [|fuel]; [simpl in Hf; lia|]);
    cbn [kill_line]; unfold get_inp; rewrite bind_gets; unfold id; rewrite (edit_empty _ _ _ Hr).
  - exists s. done.
  - destruct (ring_pop _ _ _ _ Hr) as [Hr' Hc]. apply Forall_app in Hn as [Hn Hcn]. apply Forall_cons in Hcn as [Hcn _].
    replace (match ed ++ [c] with [] => true | _ => false end) with false by (by destruct ed).
    rewrite deref_Some with (a := c) by exact Hc. destruct (Z.eqb_spec c 10); [done|]. unfold upd_inp. rewrite bind_modify.
    destruct (echo_step s (set_e (u32 (in_e (inp s) - 1)) (inp s)) BACKSPACE Hs) as (s1 & E1 & Hi1 & Hl1 & Hs1).
    erewrite bind_Ok by exact E1. rewrite length_app in Hf. simpl in Hf. rewrite <- Hi1 in Hr'.
    destruct (IH fuel s1 Hs1 Hr' Hn) as (s2 & E2 & Hr2 & Hrd2 & Hl2 & Hs2); [lia|]. exists s2.
    split_and!; [done|done|by rewrite Hrd2, Hi1|congruence|done].
Qed.

Lemma console_key_Ok c s a : calm s -> lines (inp s) a -> 0 <= c < 256 ->
  exists s', console_key c s = Ok (c =? Ctl 80) s' /\ lines (inp s') (abs_key c a) /\ cons_lock s' = cons_lock s /\ calm s'.
Proof.
  intros Hs [Hr Hn Hsl] Hc. unfold console_key, abs_key. destruct (Z.eqb_spec c (Ctl 80)) as [->|Hp]; [by exists s|].
  destruct (Z.eqb_spec c (Ctl 85)) as [->|Hu].
  { pose proof (rg_fits _ _ _ Hr) as Hf. rewrite length_app in Hf.
    destruct (kill_line_Ok _ _ 129 s Hs Hr Hn) as (s' & E & Hr' & Hrd & Hl & Hs'); [lia|]. exists s'.
    erewrite bind_Ok by exact E. split_and!; [done| |done|done]. split; simpl; [done|constructor|by rewrite Hrd]. }
  destruct ((c =? Ctl 72) || (c =? 127)).
  { unfold get_inp. rewrite bind_gets. unfold id. rewrite (edit_empty _ _ _ Hr).
    destruct (editing a) as [|x ed] eqn:Hed using rev_ind; [|clear IHed].
    - exists s. split_and!; [done| |done|done]. split; simpl; by rewrite ?Hed.
    - destruct (ring_pop _ _ _ _ Hr) as [Hr' Hx]. replace (match ed ++ [x] with [] => true | _ => false end) with false by (by destruct ed).
      cbn [negb]. unfold upd_inp. rewrite bind_assoc, bind_modify.
      destruct (echo_step s (set_e (u32 (in_e (inp s) - 1)) (inp s)) BACKSPACE Hs) as (s1 & E1 & Hi1 & Hl1 & Hs1).
      exists s1. erewrite bind_Ok by exact E1. split_and!; [done| |done|done]. rewrite Hi1, removelast_last.
      apply Forall_app in Hn as [Hn _]. by split. }
  unfold get_inp. rewrite bind_gets. unfold id. rewrite (ring_used _ _ _ Hr).
  destruct (Z.eqb_spec c 0) as [->|H0]; [exists s; by split_and!|]. cbn [negb andb orb].
  destruct (Nat.leb_spec 128 (length (ready a ++ editing a))) as [Hfull|Hfull].
  { exists s. replace (_ <? INPUT_BUF) with false by (unfold INPUT_BUF; lia). by split_and!. }
  replace (_ <? INPUT_BUF) with true by (unfold INPUT_BUF; lia). cbv zeta. set (c' := if c =? 13 then 10 else c).
  assert (u8 c' = c') as Hu8 by (unfold u8, c'; destruct (c =? 13); [done|apply Z.mod_small; lia]).
  assert (key_char c = c') as Hk by (unfold key_char; fold c'; done). rewrite Hk.
  unfold upd_inp. rewrite bind_assoc, bind_modify.
  destruct (echo_step s (set_e (u32 (in_e (inp s) + 1)) (set_inbuf (<[slot (in_e (inp s)) := u8 c']> (inbuf (inp s))) (inp s))) c' Hs) as (s1 & E1 & Hi1 & Hl1 & Hs1).
  rewrite bind_assoc. erewrite bind_Ok by exact E1. rewrite bind_assoc, bind_gets. unfold id.
  pose proof (ring_push _ _ _ c' Hr Hfull) as Hr1. rewrite Hu8 in Hi1. rewrite <- Hi1 in Hr1. rewrite (ring_full _ _ _ Hr1).
  destruct ((c' =? 10) || (c' =? Ctl 68) || (length (ready a ++ editing a ++ [c']) =? 128)%nat) eqn:Hcom.
  - rewrite bind_modify. eexists. split_and!; [reflexivity| |exact Hl1|exact Hs1].
    split; simpl; [by apply ring_commit|constructor|lia].
  - exists s1. split_and!; [done| |done|done]. split; simpl; [done| |by rewrite Hi1].
    apply Forall_app. split; [done|]. constructor; [|constructor]. apply orb_false_iff in Hcom as [[?%Z.eqb_neq _]%orb_false_iff _]. done.
Qed.

(** What [getc] delivers up to the first negative value. *)
Fixpoint typed (cs : list Z) : list Z :=
  match cs with [] => [] | c :: cs' => if c <? 0 then [] else c :: typed cs' end.

Lemma console_keys_Ok cs : forall s a d, calm s -> lines (inp s) a -> Forall (fun c => c < 256) cs ->
  exists s', console_keys cs d s = Ok (d || existsb (fun c => c =? Ctl 80) (typed cs)) s' /\
    lines (inp s') (foldl (fun a c => abs_key c a) a (typed cs)) /\ cons_lock s' = cons_lock s /\ calm s'.
Proof.
  induction cs as [|c cs IH]; intros s a d Hs Ha Hcs; simpl.
  - exists s. by rewrite orb_false_r.
  - apply Forall_cons in Hcs as [Hc Hcs]. destruct (Z.ltb_spec c 0) as [Hn|Hn].
    + exists s. by rewrite orb_false_r.
    + destruct (console_key_Ok c s a Hs Ha) as (s1 & E1 & H1 & Hl1 & Hs1); [lia|].
      destruct (IH s1 (abs_key c a) (d || (c =? Ctl 80)) Hs1 H1 Hcs) as (s2 & E2 & H2 & Hl2 & Hs2). exists s2.
      erewrite bind_Ok by exact E1. simpl. rewrite orb_assoc. split_and!; [done|done|congruence|done].
Qed.

Lemma cons_acquire_Ok s : lk_free (cons_lock s) -> exists l, cons_acquire s = Ok tt (put_cons_lock l s) /\ lk_held l.
Proof. intros H. destruct (lk_acquire_ok _ H) as (l & E & Hl). exists l. split; [by apply zoom_Ok|done]. Qed.
Lemma cons_release_Ok s : lk_held (cons_lock s) -> exists l, cons_release s = Ok tt (put_cons_lock l s) /\ lk_free l.
Proof. intros H. destruct (lk_release_ok _ H) as (l & E & Hl). exists l. split; [by apply zoom_Ok|done]. Qed.

Lemma consoleintr_Ok cs s a : lk_free (cons_lock s) -> calm s -> lines (inp s) a -> Forall (fun c => c < 256) cs ->
  exists s', consoleintr cs s = Ok (existsb (fun c => c =? Ctl 80) (typed cs)) s' /\
    lines (inp s') (foldl (fun a c => abs_key c a) a (typed cs)) /\ lk_free (cons_lock s') /\ calm s'.
Proof.
  intros Hl Hs Ha Hcs. destruct (cons_acquire_Ok s Hl) as (l1 & E1 & Hl1).
  destruct (console_keys_Ok cs (put_cons_lock l1 s) a false Hs Ha Hcs) as (s2 & E2 & H2 & Hl2 & Hs2).
  destruct (cons_release_Ok s2) as (l3 & E3 & Hl3); [by rewrite Hl2|]. exists (put_cons_lock l3 s2).
  unfold consoleintr. erewrite bind_Ok by exact E1. erewrite bind_Ok by exact E2. erewrite bind_Ok by exact E3. done.
Qed.

(** A read takes at most a line; a control-D ends it, and is left for the next
    one unless nothing came before it. *)
Fixpoint abs_read (killed fresh : bool) (n : nat) (rd : list Z) : cread_end * list Z :=
  match n with
  | O => (CRead [], rd)
  | S n' =>
      match rd with
      | [] => (if killed then CKilled else CSleeps [], [])
      | c :: rest =>
          if c =? Ctl 68 then (CRead [], if fresh then rest else c :: rest)
          else if c =? 10 then (CRead [c], rest)
          else let (e, r) := abs_read killed false n' rest in (ccons c e, r)
      end
  end.

Lemma consoleread_loop_Ok killed ed n : forall fresh rd s, lk_held (cons_lock s) -> ring (inp s) rd ed ->
  ((0 < readers (inp s))%nat -> rd = []) -> calm s ->
  exists s', consoleread_loop killed fresh n s = Ok (abs_read killed fresh n rd).1 s' /\
    ring (inp s') (abs_read killed fresh n rd).2 ed /\ ((0 < readers (inp s'))%nat -> (abs_read killed fresh n rd).2 = []) /\
    lk_free (cons_lock s') /\ calm s'.
Proof.
  induction n as [|n IH]; intros fresh rd s Hl Hr Hsl Hs; cbn [consoleread_loop abs_read].
  - destruct (cons_release_Ok s Hl) as (l & E & Hl'). exists (put_cons_lock l s). by erewrite bind_Ok by exact E.
  - unfold get_inp. rewrite bind_gets. unfold id. rewrite (ready_empty _ _ _ Hr). destruct rd as [|c rd].
    + destruct killed.
      * destruct (cons_release_Ok s Hl) as (l & E & Hl'). exists (put_cons_lock l s). by erewrite bind_Ok by exact E.
      * unfold upd_inp. rewrite bind_modify.
        destruct (cons_release_Ok (put_inp (set_readers (S (readers (inp s))) (inp s)) s) Hl) as (l & E & Hl').
        eexists. erewrite bind_Ok by exact E. split_and!; [reflexivity|by destruct Hr|done|done|done].
    + destruct (ring_take _ _ _ _ Hr) as [Hc Hr']. rewrite deref_Some with (a := c) by exact Hc.
      assert (readers (inp s) = 0)%nat as Hz by (destruct (readers (inp s)); [done|by specialize (Hsl ltac:(lia))]).
      unfold upd_inp. rewrite bind_modify. cbn [inp put_inp]. set (i1 := set_r (u32 (in_r (inp s) + 1)) (inp s)) in *.
      destruct (Z.eqb_spec c (Ctl 68)) as [Hd|Hd].
      * rewrite bind_assoc || idtac. destruct fresh; cbn [negb].
        -- destruct (cons_release_Ok (put_inp i1 s) Hl) as (l & E & Hl'). rewrite bind_ret. eexists. erewrite bind_Ok by exact E.
           split_and!; [reflexivity|exact Hr'|simpl; lia|done|done].
        -- rewrite bind_modify. destruct (cons_release_Ok (put_inp (set_r (u32 (in_r i1 - 1)) i1) s) Hl) as (l & E & Hl').
           eexists. erewrite bind_Ok by exact E. split_and!; [reflexivity| |simpl; lia|done|done].
           simpl. rewrite (ring_untake _ _ _ _ Hr). by destruct (inp s).
      * destruct (Z.eqb_spec c 10) as [->|Hn].
        -- destruct (cons_release_Ok (put_inp i1 s) Hl) as (l & E & Hl'). eexists. erewrite bind_Ok by exact E.
           split_and!; [reflexivity|exact Hr'|simpl; lia|done|done].
        -- destruct (IH false rd (put_inp i1 s) Hl Hr') as (s' & E & H1 & H2 & H3 & H4); [simpl; lia|done|].
           exists s'. erewrite bind_Ok by exact E. by destruct (abs_read killed false n rd).
Qed.

Lemma consoleread_Ok killed fresh n s a : lk_free (cons_lock s) -> calm s -> lines (inp s) a ->
  exists s', consoleread killed fresh n s = Ok (abs_read killed fresh n (ready a)).1 s' /\
    lines (inp s') (mkLine (abs_read killed fresh n (ready a)).2 (editing a)) /\ lk_free (cons_lock s') /\ calm s'.
Proof.
  intros Hl Hs [Hr Hn Hsl]. destruct (cons_acquire_Ok s Hl) as (l1 & E1 & Hl1).
  destruct (consoleread_loop_Ok killed (editing a) n fresh (ready a) (put_cons_lock l1 s) Hl1 Hr Hsl Hs) as (s' & E & H1 & H2 & H3 & H4).
  exists s'. unfold consoleread. erewrite bind_Ok by exact E1. split_and!; [done|by split|done|done].
Qed.

(** ** Interrupts and reads in any order *)

Inductive cons_event := Typed (cs : list Z) | Reads (killed fresh : bool) (n : nat).
Inductive cons_result := Dump (d : bool) | Got (e : cread_end).

Definition cons_exec (e : cons_event) : M console cons_result :=
  match e with
  | Typed cs => let! d := consoleintr cs in ret (Dump d)
  | Reads killed fresh n => let! r := consoleread killed fresh n in ret (Got r)
  end.
Fixpoint cons_run (es : list cons_event) : M console (list cons_result) :=
  match es with
  | [] => ret []
  | e :: es' => let! r := cons_exec e in let! rs := cons_run es' in ret (r :: rs)
  end.

Definition abs_exec (e : cons_event) (a : line) : cons_result * line :=
  match e with
  | Typed cs => (Dump (existsb (fun c => c =? Ctl 80) (typed cs)), foldl (fun a c => abs_key c a) a (typed cs))
  | Reads killed fresh n => let (r, rd) := abs_read killed fresh n (ready a) in (Got r, mkLine rd (editing a))
  end.
Fixpoint abs_run (es : list cons_event) (a : line) : list cons_result * line :=
  match es with
  | [] => ([], a)
  | e :: es' => let (r, a1) := abs_exec e a in let (rs, a2) := abs_run es' a1 in (r :: rs, a2)
  end.

Definition typed_ok (e : cons_event) : Prop := match e with Typed cs => Forall (fun c => c < 256) cs | _ => True end.

Lemma cons_run_Ok es : forall s a, lk_free (cons_lock s) -> calm s -> lines (inp s) a -> Forall typed_ok es ->
  exists s', cons_run es s = Ok (abs_run es a).1 s' /\ lines (inp s') (abs_run es a).2 /\ lk_free (cons_lock s') /\ calm s'.
Proof.
  induction es as [|e es IH]; intros s a Hl Hs Ha He; simpl; [by exists s|]. apply Forall_cons in He as [He Hes].
  assert (exists s1, cons_exec e s = Ok (abs_exec e a).1 s1 /\ lines (inp s1) (abs_exec e a).2 /\ lk_free (cons_lock s1) /\ calm s1)
    as (s1 & E1 & H1 & Hl1 & Hs1).
  { destruct e as [cs|killed fresh n]; simpl.
    - destruct (consoleintr_Ok cs s a Hl Hs Ha He) as (s1 & E1 & ?). exists s1. by erewrite bind_Ok by exact E1.
    - destruct (consoleread_Ok killed fresh n s a Hl Hs Ha) as (s1 & E1 & ?). exists s1. erewrite bind_Ok by exact E1.
      by destruct (abs_read killed fresh n (ready a)). }
  destruct (abs_exec e a) as [r a1]. simpl in *. destruct (IH s1 a1 Hl1 Hs1 H1 Hes) as (s2 & E2 & ?).
  exists s2. erewrite bind_Ok by exact E1. erewrite bind_Ok by exact E2. by destruct (abs_run es a1).
Qed.

(** C23 The console input is a line discipline: any sequence of interrupts and
    reads returns what an edited line and a queue of committed characters give,
    also when the 32-bit indices wrap around, and no reader is left asleep
    while there are committed characters. *)
Theorem console_lines s a es :
  lk_free (cons_lock s) -> calm s -> lines (inp s) a -> Forall typed_ok es ->
  exists s', cons_run es s = Ok (abs_run es a).1 s' /\ lines (inp s') (abs_run es a).2 /\
    ((0 < readers (inp s'))%nat -> in_r (inp s') = in_w (inp s')).
Proof.
  intros Hl Hs Ha He. destruct (cons_run_Ok es s a Hl Hs Ha He) as (s' & E & [Hr Hn Hsl] & _). exists s'.
  split_and!; [done|by split|]. intros Hrd. apply Z.eqb_eq. rewrite (ready_empty _ _ _ Hr). by rewrite (Hsl Hrd).
Qed.

(** C34 Output to the console never panics: whatever is written, the cursor
    stays on the first 24 rows, no cell past them is written, and the serial
    port gets every character, a backspace as three. *)
Theorem console_output s cs : on_screen s -> panicked s = false ->
  exists s', put_all consputc cs s = Ok tt s' /\ on_screen s' /\
    (forall k, ~ (0 <= k < 24 * 80) -> crt s' k = crt s k) /\
    serial s' = serial s ++ (if uart s then concat (map sent cs) else []).
Proof.
  revert s. induction cs as [|c cs IH]; intros s Hs Hp; simpl.
  - exists s. split_and!; [done..|]. destruct (uart s); by rewrite app_nil_r.
  - destruct (consputc_Ok c s Hs Hp) as (s1 & E1 & H1 & S1).
    destruct (IH s1) as (s2 & E2 & H2 & Hc2 & S2); [apply H1|by rewrite (ec_panicked _ _ H1)|].
    exists s2. erewrite bind_Ok by exact E1. split_and!; [done|done| |].
    + intros k Hk. rewrite Hc2 by done. by apply H1.
    + rewrite S2, S1, (ec_uart _ _ H1). by destruct (uart s); rewrite <- app_assoc, ?app_nil_r.
Qed.
End Correct.

Definition demo_console (r : Z) : console :=
  mkConsole (demo_lock_state "console") true false true [] 7 0x7f (fun _ => 0) (mkInput (replicate 128 0) r r r 0).
Definition demo_typing : list cons_event :=
  [Reads false true 10; Typed (chars "lx"); Typed [8; 115; 13]; Typed (chars "abc" ++ [21; 120; 4; -1; 122]);
   Reads false true 10; Reads false true 10; Reads false true 10].

Lemma console_lines_witness : exists s', cons_run demo_typing (demo_console (2 ^ 32 - 2)) =
    Ok [Got (CSleeps []); Dump false; Dump false; Dump false; Got (CRead [108; 115; 10]); Got (CRead [120]); Got (CRead [])] s' /\
  ((0 < readers (inp s'))%nat -> in_r (inp s') = in_w (inp s')).
Proof.
  destruct (console_lines (demo_console (2 ^ 32 - 2)) (mkLine [] []) demo_typing) as (s' & E & H & Hz).
  - apply demo_lock_free.
  - split; [|reflexivity]. unfold on_screen, pos. simpl. lia.
  - split; simpl; [|constructor|done]. split; simpl; try reflexivity; try lia. intros j c Hj. by rewrite lookup_nil in Hj.
  - repeat (constructor; [by simpl; repeat constructor; lia|]). constructor.
  - exists s'. split; [exact E|exact Hz].
Defined.

Lemma console_output_witness : exists s', put_all consputc (replicate 200 65 ++ [10; BACKSPACE; 66]) (demo_console 0) = Ok tt s' /\
  on_screen s' /\ length (serial s') = 205%nat.
Proof.
  destruct (console_output (demo_console 0) (replicate 200 65 ++ [10; BACKSPACE; 66])) as (s' & E & H & _ & S).
  - unfold on_screen, pos. simpl. lia.
  - reflexivity.
  - exists s'. split_and!; [exact E|exact H|]. by rewrite S.
Defined.
