(* ===== verification/Grep.v ===== *)
(** * grep: grep.c

    The pattern matcher and the filter around it.  Strings are the bytes before
    their terminating zero; [read] delivers the file in the pieces [inp], at
    most as much as is asked for at a time. *)

From stdpp Require Import base list strings.
From Stdlib Require Import ZArith Lia.
From S2P Require Import Prelude.
Local Open Scope Z_scope.

Definition c_star : Z := 42.
Definition c_dot : Z := 46.
Definition c_hat : Z := 94.
Definition c_dollar : Z := 36.
Definition c_nl : Z := 10.

(** [do { if(here(text)) return 1; } while( *text != 0 && ( *text++ == c || c == '.')); return 0] *)
Fixpoint matchstar_loop (here : list Z -> bool) (c : Z) (text : list Z) : bool :=
  here text ||
  match text with
  | [] => false
  | x :: text' => ((x =? c) || (c =? c_dot)) && matchstar_loop here c text'
  end.

Fixpoint matchhere (re text : list Z) : bool :=
  match re with
  | [] => true
  | c :: re' =>
      let next :=
        if (c =? c_dollar) && match re' with [] => true | _ => false end
        then match text with [] => true | _ => false end
        else match text with
             | [] => false
             | x :: text' => ((c =? c_dot) || (c =? x)) && matchhere re' text'
             end in
      match re' with
      | c' :: re'' => if c' =? c_star then matchstar_loop (matchhere re'') c text else next
      | [] => next
      end
  end.
Definition matchstar (c : Z) (re text : list Z) : bool := matchstar_loop (matchhere re) c text.

Fixpoint match_loop (re text : list Z) : bool :=
  matchhere re text || match text with [] => false | _ :: text' => match_loop re text' end.
Definition grep_match (re text : list Z) : bool :=
  match re with
  | c :: re' => if c =? c_hat then matchhere re' text else match_loop re text
  | [] => match_loop re text
  end.

(** [strchr(p, '\n')]: the line before it and what follows. *)
Fixpoint cut_line (p : list Z) : option (list Z * list Z) :=
  match p with
  | [] => None
  | c :: p' =>
      if c =? 0 then None
      else if c =? c_nl then Some ([], p')
      else match cut_line p' with Some (l, r) => Some (c :: l, r) | None => None end
  end.

(** The lines of the buffer: what is written, and [p] at the end. *)
Fixpoint grep_lines (fuel : nat) (pattern p : list Z) : list (list Z) * list Z :=
  match fuel with
  | O => ([], p)
  | S f =>
      match cut_line p with
      | Some (l, r) =>
          let (out, p') := grep_lines f pattern r in
          (if grep_match pattern l then (l ++ [c_nl]) :: out else out, p')
      | None => ([], p)
      end
  end.

(** [read(fd, buf, k)]: part of the next piece, the rest of it stays. *)
Definition read_piece (k : nat) (inp : list (list Z)) : list Z * list (list Z) :=
  match inp with
  | [] => ([], [])
  | x :: inp' => (take k x, if (length x <=? k)%nat then inp' else drop k x :: inp')
  end.

(** [buf] holds the [m] bytes left over. *)
Fixpoint grep (fuel : nat) (pattern buf : list Z) (inp : list (list Z)) : option (list (list Z)) :=
  match fuel with
  | O => None
  | S f =>
      let (x, inp') := read_piece (1024 - length buf - 1) inp in
      match x with
      | [] => Some []
      | _ =>
          let b := buf ++ x in
          let (out, p) := grep_lines (S (length b)) pattern b in
          let rest := if (length p =? length b)%nat then [] else p in
          match grep f pattern rest inp' with Some o => Some (out ++ o) | None => None end
      end
  end.

(** ** What a pattern means *)

Inductive item := Lit (c : Z) | Dot | Star (c : Z) | Eol.

Fixpoint items (re : list Z) : list item :=
  match re with
  | [] => []
  | c :: re' =>
      let one := if c =? c_dot then Dot else Lit c in
      match re' with
      | [] => if c =? c_dollar then [Eol] else [one]
      | c' :: re'' => if c' =? c_star then Star c :: items re'' else one :: items re'
      end
  end.

(** The items match at the start of the text. *)
Fixpoint at_start (l : list item) (t : list Z) : Prop :=
  match l with
  | [] => True
  | Lit c :: l' => exists t', t = c :: t' /\ at_start l' t'
  | Dot :: l' => exists x t', t = x :: t' /\ at_start l' t'
  | Star c :: l' => exists w t', t = w ++ t' /\ Forall (fun x => x = c \/ c = c_dot) w /\ at_start l' t'
  | Eol :: l' => t = [] /\ at_start l' t
  end.

Definition means (re text : list Z) : Prop :=
  match re with
  | c :: re' => if c =? c_hat then at_start (items re') text else exists w t, text = w ++ t /\ at_start (items re) t
  | [] => True
  end.

Lemma matchstar_spec here c l : (forall t, here t = true <-> at_start l t) -> forall t,
  matchstar_loop here c t = true <-> at_start (Star c :: l) t.
Proof.
  intros Hh. induction t as [|x t IH]; cbn [matchstar_loop]; rewrite orb_true_iff, Hh.
  - split.
    + intros [H|]; [|done]. by exists [], [].
    + intros (w & t' & E & _ & H). left. symmetry in E. apply app_eq_nil in E as [_ ->]. done.
  - rewrite andb_true_iff, IH, orb_true_iff, !Z.eqb_eq. split.
    + intros [H|[Hx (w & t' & -> & Hw & H)]]; [by exists [], (x :: t)|]. exists (x :: w), t'. split; [done|]. split; [|done]. by constructor.
    + intros (w & t' & E & Hw & H). destruct w as [|y w]; simpl in E; [left; by rewrite E|]. injection E as <- ->.
      apply Forall_cons in Hw as [Hx Hw]. right. split; [done|]. by exists w, t'.
Qed.

Lemma matchhere_two c c' re t : matchhere (c :: c' :: re) t =
  if c' =? c_star then matchstar_loop (matchhere re) c t
  else match t with [] => false | x :: t' => ((c =? c_dot) || (c =? x)) && matchhere (c' :: re) t' end.
Proof. cbn [matchhere]. rewrite andb_false_r. done. Qed.
Lemma items_two c c' re : items (c :: c' :: re) =
  if c' =? c_star then Star c :: items re else (if c =? c_dot then Dot else Lit c) :: items (c' :: re).
Proof. done. Qed.

(** The induction follows [items]: one or two characters at a time. *)
Lemma matchhere_spec re : forall t, matchhere re t = true <-> at_start (items re) t.
Proof.
  induction re as [re IH] using (well_founded_induction (Wf_nat.well_founded_ltof _ (@length Z))). intros t.
  destruct re as [|c [|c' re]]; [done| |].
  - simpl. rewrite andb_true_r. destruct (Z.eqb_spec c c_dollar) as [->|Hd].
    + simpl. destruct t; naive_solver.
    + destruct (Z.eqb_spec c c_dot) as [->|Hdot]; simpl.
      * destruct t as [|x t]; [naive_solver|]. split; [|done]. intros _. by exists x, t.
      * destruct t as [|x t]; [naive_solver|]. rewrite andb_true_r, Z.eqb_eq. naive_solver.
  - rewrite matchhere_two, items_two. destruct (Z.eqb_spec c' c_star) as [->|Hs].
    + apply matchstar_spec. intros t'. apply IH. unfold ltof. simpl. lia.
    + assert (forall t', matchhere (c' :: re) t' = true <-> at_start (items (c' :: re)) t') as IH'.
      { intros t'. apply IH. unfold ltof. simpl. lia. }
      destruct (Z.eqb_spec c c_dot) as [->|Hdot]; cbn [at_start].
      * destruct t as [|x t]; [naive_solver|]. simpl orb. rewrite andb_true_l, IH'. naive_solver.
      * destruct t as [|x t]; [naive_solver|]. rewrite andb_true_iff, IH'. cbn [orb]. rewrite Z.eqb_eq. naive_solver.
Qed.

Lemma match_loop_spec re t : match_loop re t = true <-> exists w t', t = w ++ t' /\ at_start (items re) t'.
Proof.
  induction t as [|x t IH]; cbn [match_loop]; rewrite orb_true_iff, matchhere_spec.
  - split.
    + intros [H|]; [|done]. by exists [], [].
    + intros (w & t' & E & H). left. symmetry in E. by apply app_eq_nil in E as [_ ->].
  - rewrite IH. split.
    + intros [H|(w & t' & -> & H)]; [by exists [], (x :: t)|by exists (x :: w), t'].
    + intros (w & t' & E & H). destruct w as [|y w]; simpl in E; [left; by rewrite E|]. injection E as <- ->. right. by exists w, t'.
Qed.

(** C36 The matcher of grep decides the meaning of its patterns: characters,
    [.], starred characters, and the two anchors, anywhere in the line. *)
Theorem grep_match_spec re text : grep_match re text = true <-> means re text.
Proof.
  unfold grep_match, means. destruct re as [|c re]; [|destruct (c =? c_hat)].
  - rewrite match_loop_spec. split; [done|]. intros _. by exists [], text.
  - apply matchhere_spec.
  - apply match_loop_spec.
Qed.

(** ** The filter *)

(** The complete lines of a text that starts with [cur], and the unfinished one. *)
Fixpoint complete (cur t : list Z) : list (list Z) * list Z :=
  match t with
  | [] => ([], cur)
  | c :: t' => if c =? c_nl then let (ls, r) := complete [] t' in (cur :: ls, r) else complete (cur ++ [c]) t'
  end.

Definition selected (pattern : list Z) (ls : list (list Z)) : list (list Z) :=
  (fun l => l ++ [c_nl]) <$> filter (fun l => grep_match pattern l = true) ls.

Lemma complete_app t2 t1 : forall cur, complete cur (t1 ++ t2) =
  let (l1, r1) := complete cur t1 in let (l2, r2) := complete r1 t2 in (l1 ++ l2, r2).
Proof.
  induction t1 as [|c t1 IH]; intros cur; simpl; [by destruct (complete cur t2)|]. destruct (c =? c_nl); [|apply IH].
  rewrite IH. destruct (complete [] t1) as [l1 r1]. by destruct (complete r1 t2).
Qed.

Lemma complete_cut p : 0 ∉ p -> forall cur, complete cur p =
  match cut_line p with
  | Some (l, r) => ((cur ++ l) :: (complete [] r).1, (complete [] r).2)
  | None => ([], cur ++ p)
  end.
Proof.
  induction p as [|c p IH]; intros H0 cur; simpl; [by rewrite app_nil_r|]. apply not_elem_of_cons in H0 as [Hc H0].
  destruct (Z.eqb_spec c 0); [done|]. destruct (Z.eqb_spec c c_nl) as [->|Hn].
  - rewrite app_nil_r. by destruct (complete [] p).
  - rewrite IH by done. destruct (cut_line p) as [[l r]|]; by rewrite <- app_assoc.
Qed.

Lemma cut_line_split p l r : cut_line p = Some (l, r) -> p = l ++ c_nl :: r.
Proof.
  revert l. induction p as [|c p IH]; intros l; simpl; [done|]. destruct (c =? 0); [done|].
  destruct (Z.eqb_spec c c_nl) as [->|Hn]; [by intros [= <- <-]|]. destruct (cut_line p) as [[l' r']|]; [|done].
  intros [= <- ->]. simpl. f_equal. by apply IH.
Qed.

Lemma grep_lines_spec pattern : forall fuel p, 0 ∉ p -> (length p < fuel)%nat ->
  grep_lines fuel pattern p = (selected pattern (complete [] p).1, (complete [] p).2).
Proof.
  induction fuel as [|f IH]; intros p H0 Hf; [lia|]. simpl. rewrite (complete_cut p H0).
  destruct (cut_line p) as [[l r]|] eqn:E; [|done]. apply cut_line_split in E as ->.
  rewrite length_app in Hf. simpl in Hf. apply not_elem_of_app in H0 as [_ [_ H0]%not_elem_of_cons].
  rewrite IH by (done || lia). simpl. unfold selected. rewrite filter_cons.
  destruct (grep_match pattern l) eqn:E; [by rewrite decide_True by done|by rewrite decide_False by done].
Qed.

Lemma complete_rest p : c_nl ∈ p -> forall cur, (length (complete cur p).2 < length p)%nat.
Proof.
  assert (forall t cur, length (complete cur t).2 <= length cur + length t)%nat as Hle.
  { induction t as [|c t IH]; intros cur; simpl; [lia|]. destruct (c =? c_nl).
    - specialize (IH []). destruct (complete [] t). simpl in *. lia.
    - etrans; [apply IH|]. rewrite length_app. simpl. lia. }
  induction p as [|c p IH]; intros Hp cur; [by apply not_elem_of_nil in Hp|]. simpl. destruct (Z.eqb_spec c c_nl) as [->|Hn].
  - pose proof (Hle p []). destruct (complete [] p). simpl in *. lia.
  - apply elem_of_cons in Hp as [?|Hp]; [done|]. specialize (IH Hp (cur ++ [c])). lia.
Qed.

Definition piece_ok (x : list Z) : Prop := c_nl ∈ x /\ 0 ∉ x /\ (length x <= 512)%nat.

Lemma complete_zero p cur : 0 ∉ cur -> 0 ∉ p -> 0 ∉ (complete cur p).2.
Proof.
  revert cur. induction p as [|c p IH]; intros cur Hc Hp; simpl; [done|]. apply not_elem_of_cons in Hp as [Hcp Hp].
  destruct (c =? c_nl).
  - specialize (IH [] (not_elem_of_nil 0) Hp). by destruct (complete [] p).
  - apply IH; [|done]. apply not_elem_of_app. split; [done|]. apply not_elem_of_cons. split; [done|apply not_elem_of_nil].
Qed.

Lemma complete_pre p : c_nl ∉ p -> complete [] p = ([], p).
Proof.
  assert (forall t cur, c_nl ∉ t -> complete cur t = ([], cur ++ t)) as H; [|by apply H].
  induction t as [|c t IH]; intros cur Ht; simpl; [by rewrite app_nil_r|]. apply not_elem_of_cons in Ht as [Hc Ht].
  destruct (Z.eqb_spec c c_nl); [congruence|]. rewrite IH by done. by rewrite <- app_assoc.
Qed.
Lemma complete_no_nl p cur : c_nl ∉ cur -> c_nl ∉ (complete cur p).2.
Proof.
  revert cur. induction p as [|c p IH]; intros cur Hc; simpl; [done|]. destruct (Z.eqb_spec c c_nl).
  - specialize (IH [] (not_elem_of_nil _)). by destruct (complete [] p).
  - apply IH. apply not_elem_of_app. split; [done|]. apply not_elem_of_cons. split; [congruence|apply not_elem_of_nil].
Qed.

Lemma grep_Ok pattern : forall inp buf, Forall piece_ok inp -> c_nl ∉ buf -> 0 ∉ buf -> (length buf < 512)%nat ->
  grep (S (length inp)) pattern buf inp = Some (selected pattern (complete buf (concat inp)).1).
Proof.
  induction inp as [|x inp IH]; intros buf Hin Hnl H0 Hl; [done|]. apply Forall_cons in Hin as [(Hx & Hx0 & Hxl) Hin].
  cbn [length]. remember (S (length inp)) as f eqn:Hfu. cbn [grep read_piece concat]. rewrite take_ge by lia. replace (length x <=? 1024 - length buf - 1)%nat with true by (symmetry; apply Nat.leb_le; lia).
  destruct x as [|c x']; [by apply not_elem_of_nil in Hx|]. set (x := c :: x') in *.
  assert (0 ∉ buf ++ x) as Hb0 by (by apply not_elem_of_app).
  rewrite grep_lines_spec by (done || lia). rewrite (complete_app (concat inp) x buf), (complete_app x buf []), (complete_pre buf Hnl).
  destruct (complete buf x) as [ls r] eqn:E.
  assert (length r < length x)%nat as Hr by (pose proof (complete_rest x Hx buf) as H; by rewrite E in H).
  assert (c_nl ∉ r) as Hrn by (pose proof (complete_no_nl x buf Hnl) as H; by rewrite E in H).
  assert (0 ∉ r) as Hr0 by (pose proof (complete_zero x buf H0 Hx0) as H; by rewrite E in H).
  cbn [fst snd app]. replace (length r =? length (buf ++ x))%nat with false by (symmetry; apply Nat.eqb_neq; rewrite length_app; lia).
  subst f. rewrite (IH r Hin Hrn Hr0) by lia. destruct (complete r (concat inp)) as [l2 r2]. simpl. f_equal.
  unfold selected. by rewrite filter_app, fmap_app.
Qed.

(** grep prints exactly the lines that match, in order, as long as every
    piece that [read] delivers has a newline in it: lines may still be spread
    over two pieces. *)
Theorem grep_filters pattern inp : Forall piece_ok inp ->
  grep (S (length inp)) pattern [] inp = Some (selected pattern (complete [] (concat inp)).1).
Proof. intros Hin. apply grep_Ok; [done|apply not_elem_of_nil..|simpl; lia]. Qed.

Lemma grep_filters_witness :
  grep 3 [97] [] [[97; 98; 10; 99]; [97; 10; 98; 10]] = Some [[97; 98; 10]; [99; 97; 10]].
Proof.
  etrans; [apply (grep_filters [97] [[97; 98; 10; 99]; [97; 10; 98; 10]])|reflexivity].
  assert (forall x, bool_decide (c_nl ∈ x /\ 0 ∉ x /\ (length x <= 512)%nat) = true -> piece_ok x) as H
    by (intros x Hx; by apply bool_decide_eq_true in Hx).
  repeat (apply Forall_cons_2; [by apply H|]). apply Forall_nil_2.
Defined.

(** A piece without a newline is dropped: the matching line [ab] that arrives
    as [a] and [b] is not found by the pattern [a]. *)
Lemma grep_drops_partial : grep 5 [97] [] [[97]; [98; 10]] = Some [].
Proof. reflexivity. Qed.
