(* ===== verification/Shell.v ===== *)
(** * The command parser of the shell: sh.c

    A [char*] into the line is its offset; [ps], which every function moves
    forward, is the state.  The structures of a command form a tree.  The
    allocations of the constructors succeed. *)

From stdpp Require Import base list strings.
From Stdlib Require Import ZArith Lia.
From S2P Require Import Prelude Printf.
Local Open Scope Z_scope.

Definition MAXARGS : nat := 10.

(** Strings are the offsets of their start and end, [argv] and [eargv]. *)
Inductive cmd :=
| Exec (argv : list (nat * nat))
| Redir (c : cmd) (file efile : nat) (mode fd : Z)
| PipeC (left right : cmd)
| ListC (left right : cmd)
| Back (c : cmd).

Definition whitespace : list Z := [32; 9; 13; 10; 11].
Definition symbols : list Z := chars "<|>&;()".
Definition isin (c : Z) (l : list Z) : bool := existsb (Z.eqb c) l.

Section Parser.
Context (line : list Z).       (** the line up to its terminating zero *)

Definition es : nat := length line.
Definition char_at (s : nat) : Z := nth s line 0.

(** [while(s < es && strchr(whitespace, *s)) s++] *)
Fixpoint count_ws (l : list Z) : nat :=
  match l with c :: l' => if isin c whitespace then S (count_ws l') else 0 | [] => 0 end.
Definition skip_ws (s : nat) : nat := s + count_ws (drop s line).

(** [while(s < es && !strchr(whitespace, *s) && !strchr(symbols, *s)) s++] *)
Fixpoint count_word (l : list Z) : nat :=
  match l with
  | c :: l' => if negb (isin c whitespace) && negb (isin c symbols) then S (count_word l') else 0
  | [] => 0
  end.

(** The token, [*q] and [*eq]. *)
Definition gettoken : M nat (Z * nat * nat) :=
  let! s := gets skip_ws in
  let q := s in
  let c := char_at s in
  let '(r, s) :=
    (if c =? 0 then (0, s)
     else if isin c (chars "|();&<") then (c, S s)
     else if c =? 62 then (if char_at (S s) =? 62 then (43, S (S s)) else (c, S s))
     else (97, (s + count_word (drop s line))%nat)) in
  modify (fun _ => skip_ws s) ;;;
  ret (r, q, s).

Definition peek (toks : list Z) : M nat bool :=
  let! s := gets skip_ws in
  modify (fun _ => s) ;;;
  ret (negb (char_at s =? 0) && isin (char_at s) toks).

(** The redirections met, first to last: file, its end, mode and descriptor. *)
Definition redir : Type := nat * nat * Z * Z.
Definition redircmd (c : cmd) (r : redir) : cmd := let '(q, eq, mode, fd) := r in Redir c q eq mode fd.

Fixpoint parseredirs (fuel : nat) : M nat (list redir) :=
  match fuel with
  | O => nofuel
  | S f =>
      let! p := peek (chars "<>") in
      if negb p then ret [] else
      let! t := gettoken in
      let! w := gettoken in
      let '(tok, q, eq) := w in
      if negb (tok =? 97) then panic "missing file for redirection" else
      let! rs := parseredirs f in
      let tok := t.1.1 in
      ret (if tok =? 60 then (q, eq, O_RDONLY, 0) :: rs
           else if (tok =? 62) || (tok =? 43) then (q, eq, Z.lor O_WRONLY O_CREATE, 1) :: rs
           else rs)
  end.

(** The loop of [parseexec]: the arguments and the redirections, which wrap the
    command whatever is added to its arguments later. *)
Fixpoint parseargs (fuel argc : nat) : M nat (list (nat * nat) * list redir) :=
  match fuel with
  | O => nofuel
  | S f =>
      let! p := peek (chars "|)&;") in
      if p then ret ([], []) else
      let! w := gettoken in
      let '(tok, q, eq) := w in
      if tok =? 0 then ret ([], []) else
      if negb (tok =? 97) then panic "syntax" else
      if (MAXARGS <=? S argc)%nat then panic "too many args" else
      let! rs := parseredirs f in
      let! x := parseargs f (S argc) in
      ret ((q, eq) :: x.1, rs ++ x.2)
  end.

(** [while(peek(ps, es, "&")) cmd = backcmd(cmd)] *)
Fixpoint parsebacks (fuel : nat) (c : cmd) : M nat cmd :=
  match fuel with
  | O => nofuel
  | S f =>
      let! p := peek (chars "&") in
      if negb p then ret c else
      gettoken ;;;
      parsebacks f (Back c)
  end.

Fixpoint parseline (fuel : nat) : M nat cmd :=
  match fuel with
  | O => nofuel
  | S f =>
      let! c := parsepipe f in
      let! c := parsebacks f c in
      let! p := peek (chars ";") in
      if p then
        gettoken ;;;
        let! r := parseline f in
        ret (ListC c r)
      else ret c
  end
with parsepipe (fuel : nat) : M nat cmd :=
  match fuel with
  | O => nofuel
  | S f =>
      let! c := parseexec f in
      let! p := peek (chars "|") in
      if p then
        gettoken ;;;
        let! r := parsepipe f in
        ret (PipeC c r)
      else ret c
  end
with parseexec (fuel : nat) : M nat cmd :=
  match fuel with
  | O => nofuel
  | S f =>
      let! p := peek (chars "(") in
      if p then parseblock f else
      let! rs := parseredirs f in
      let! x := parseargs f 0 in
      ret (foldl redircmd (Exec x.1) (rs ++ x.2))
  end
with parseblock (fuel : nat) : M nat cmd :=
  match fuel with
  | O => nofuel
  | S f =>
      let! p := peek (chars "(") in
      if negb p then panic "parseblock" else
      gettoken ;;;
      let! c := parseline f in
      let! p := peek (chars ")") in
      if negb p then panic "syntax - missing )" else
      gettoken ;;;
      let! rs := parseredirs f in
      ret (foldl redircmd c rs)
  end.
End Parser.

(** [*ecmd->eargv[i] = 0] and [*rcmd->efile = 0]. *)
Fixpoint nulterminate (c : cmd) (buf : list Z) : list Z :=
  match c with
  | Exec argv => foldl (fun b x => <[x.2 := 0]> b) buf argv
  | Redir c _ efile _ _ => <[efile := 0]> (nulterminate c buf)
  | PipeC l r => nulterminate r (nulterminate l buf)
  | ListC l r => nulterminate r (nulterminate l buf)
  | Back c => nulterminate c buf
  end.

(** The command and the line with its strings terminated. *)
Definition parsecmd (line : list Z) : M nat (cmd * list Z) :=
  modify (fun _ => 0%nat) ;;;
  let! c := parseline line (4 * es line + 5) in
  peek line [] ;;;
  let! s := gets id in
  if negb (s =? es line)%nat then panic "syntax" else
  ret (c, nulterminate c (line ++ [0])).
