(* ===== verification/ShellPrint.v ===== *)
(** * Printing commands and reading them back

    [pr] writes a command with parentheses where the grammar needs them; every
    token is followed by a blank. *)

From stdpp Require Import base list strings.
From Stdlib Require Import ZArith Lia.
From S2P Require Import Prelude Printf Shell ShellCorrect.
Local Open Scope Z_scope.

(** Commands with their strings. *)
Inductive tree :=
| TExec (args : list (list Z))
| TRedir (t : tree) (file : list Z) (out : bool)
| TPipe (l r : tree)
| TList (l r : tree)
| TBack (t : tree).

Definition tok (c : Z) : list Z := [c; 32].
Definition predir (r : list Z * bool) : list Z := tok (if r.2 then 62 else 60) ++ r.1 ++ [32].
Definition pwords (ws : list (list Z)) : list Z := concat ((fun w => w ++ [32]) <$> ws).
Definition predirs (rs : list (list Z * bool)) : list Z := concat (predir <$> rs).
Definition paren (b : bool) (x : list Z) : list Z := if b then tok 40 ++ x ++ tok 41 else x.

(** Level 0 is a line, 1 a command with [&], 2 a pipeline, 3 a single one. *)
Fixpoint pr (k : nat) (t : tree) : list Z :=
  match t with
  | TExec args => pwords args
  | TRedir t file out => pr 3 t ++ predir (file, out)
  | TPipe l r => paren (3 <=? k)%nat (pr 3 l ++ tok 124 ++ pr 2 r)
  | TBack t => paren (2 <=? k)%nat (pr 1 t ++ tok 38)
  | TList l r => paren (1 <=? k)%nat (pr 1 l ++ tok 59 ++ pr 0 r)
  end.

Lemma predirs_cons r rs : predirs (r :: rs) = predir r ++ predirs rs.
Proof. done. Qed.
Lemma pwords_cons w ws : pwords (w :: ws) = w ++ 32 :: pwords ws.
Proof. unfold pwords. cbn [fmap list_fmap concat]. by rewrite <- app_assoc. Qed.

Definition wordchar (c : Z) : Prop := c <> 0 /\ negb (isin c whitespace) && negb (isin c symbols) = true.
Definition good_word (w : list Z) : Prop := w <> [] /\ Forall wordchar w.
Fixpoint tree_ok (t : tree) : Prop :=
  match t with
  | TExec args => Forall good_word args /\ (length args < MAXARGS)%nat
  | TRedir t file _ => tree_ok t /\ good_word file
  | TPipe l r | TList l r => tree_ok l /\ tree_ok r
  | TBack t => tree_ok t
  end.

Definition tight (u : list Z) : Prop := match u with [] => True | c :: _ => isin c whitespace = false end.
Definition first_in (l u : list Z) : Prop := match u with [] => True | c :: _ => isin c l = true end.

Lemma wordchar_facts c : wordchar c -> c <> 0 /\ isin c whitespace = false /\ isin c symbols = false.
Proof. intros [H0 H]. apply andb_prop in H as [H1%negb_true_iff H2%negb_true_iff]. done. Qed.
Lemma symbols_in c l : (forall x, isin x l = true -> isin x symbols = true) -> isin c symbols = false -> isin c l = false.
Proof. intros H Hc. destruct (isin c l) eqn:E; [|done]. rewrite (H c E) in Hc. done. Qed.

(** The sets the parser asks about are symbols. *)
Lemma isin_chars c x : isin c x = true -> c ∈ x.
Proof. unfold isin. intros (y & Hy & ->%Z.eqb_eq)%existsb_exists. by apply list_elem_of_In. Qed.
Ltac sym := intros ? ?%isin_chars; repeat (match goal with H : _ ∈ _ |- _ => apply elem_of_cons in H as [->|H]; [reflexivity|] end);
  match goal with H : _ ∈ _ |- _ => by apply not_elem_of_nil in H end.

Section Print.
Context (line : list Z).

Lemma skip_tight s u : drop s line = u -> tight u -> skip_ws line s = s.
Proof. intros E Hu. unfold skip_ws. rewrite E. destruct u as [|c u]; [simpl; lia|]. cbn [count_ws]. rewrite (Hu : isin c whitespace = false). lia. Qed.
Lemma skip_blank s u : drop s line = 32 :: u -> tight u -> skip_ws line s = S s.
Proof.
  intros E Hu. unfold skip_ws. rewrite E. cbn [count_ws]. change (isin 32 whitespace) with true. cbv iota.
  destruct u as [|c u]; [simpl; lia|]. cbn [count_ws]. rewrite (Hu : isin c whitespace = false). lia.
Qed.
Lemma char_at_drop s u : drop s line = u -> char_at line s = match u with [] => 0 | c :: _ => c end.
Proof.
  intros <-. unfold char_at. destruct (decide (s < length line)%nat) as [Hs|Hs].
  - by rewrite (drop_nth line s Hs).
  - by rewrite drop_ge, nth_overflow by lia.
Qed.
Lemma drop_adv s a b : drop s line = a ++ b -> drop (s + length a) line = b.
Proof. intros E. by rewrite <- drop_drop, E, drop_app_length. Qed.
Lemma drop_next s c b : drop s line = c :: b -> drop (S s) line = b.
Proof. intros E. replace (S s) with (s + length [c])%nat by (simpl; lia). by apply drop_adv. Qed.

Lemma peek_ok toks s u : drop s line = u -> tight u ->
  peek line toks s = Ok (match u with [] => false | c :: _ => negb (c =? 0) && isin c toks end) s.
Proof.
  intros E Hu. unfold peek. rewrite bind_gets, (skip_tight s u E Hu), bind_modify. unfold ret.
  rewrite (char_at_drop s u E). by destruct u.
Qed.

Lemma gettoken_sym s c u : drop s line = c :: 32 :: u -> isin c (chars "|();&<") = true \/ c = 62 -> tight u ->
  gettoken line s = Ok (c, s, S s) (S (S s)).
Proof.
  intros E Hc Hu. assert (isin c whitespace = false /\ c <> 0) as [Hw H0].
  { destruct Hc as [Hc%isin_chars| ->]; [|done].
    repeat (apply elem_of_cons in Hc as [->|Hc]; [done|]). by apply not_elem_of_nil in Hc. }
  unfold gettoken. rewrite bind_gets, (skip_tight s _ E Hw), (char_at_drop s _ E). cbv zeta.
  destruct (Z.eqb_spec c 0); [done|]. pose proof (drop_next _ _ _ E) as E1. pose proof (skip_blank _ _ E1 Hu) as Hs.
  destruct (isin c (chars "|();&<")) eqn:Hi.
  - rewrite bind_modify. unfold ret. by rewrite Hs.
  - destruct Hc as [?| ->]; [done|]. rewrite (char_at_drop _ _ E1), Z.eqb_refl.
    change (32 =? 62) with false. cbv iota. rewrite bind_modify. unfold ret. by rewrite Hs.
Qed.

Lemma count_word_app w u : Forall wordchar w -> count_word (w ++ 32 :: u) = length w.
Proof. induction 1 as [|c w [_ Hc] Hw IH]; [done|]. cbn [app count_word length]. by rewrite Hc, IH. Qed.

Lemma gettoken_word s w u : drop s line = w ++ 32 :: u -> good_word w -> tight u ->
  gettoken line s = Ok (97, s, (s + length w)%nat) (S (s + length w)).
Proof.
  intros E [Hne Hw] Hu. destruct w as [|c w]; [done|]. pose proof Hw as Hwc. apply Forall_cons in Hwc as [Hc _].
  destruct (wordchar_facts c Hc) as (H0 & H1 & H2).
  unfold gettoken. rewrite bind_gets, (skip_tight s _ E H1), (char_at_drop s _ E). cbv zeta. cbn [app].
  destruct (Z.eqb_spec c 0); [done|]. rewrite (symbols_in c (chars "|();&<")) by (done || sym).
  destruct (Z.eqb_spec c 62) as [->|]; [done|]. rewrite E, count_word_app by done. rewrite bind_modify. unfold ret.
  rewrite (skip_blank (s + length (c :: w)) u); [done| |done]. by apply drop_adv.
Qed.

Lemma gettoken_end s : drop s line = [] -> exists q e, gettoken line s = Ok (0, q, e) s.
Proof.
  intros E. unfold gettoken. rewrite bind_gets, (skip_tight s [] E I), (char_at_drop s _ E). cbv zeta.
  rewrite Z.eqb_refl, bind_modify. unfold ret. rewrite (skip_tight s [] E I). by eexists _, _.
Qed.

(** ** Tokens of the line *)

Definition slice (q e : nat) (w : list Z) : Prop :=
  good_word w /\ exists u, drop q line = w ++ 32 :: u /\ e = (q + length w)%nat.

Definition redir_mode (out : bool) : Z * Z := if out then (Z.lor O_WRONLY O_CREATE, 1) else (O_RDONLY, 0).
Definition redir_is (r : redir) (x : list Z * bool) : Prop :=
  let '(q, e, mode, fd) := r in slice q e x.1 /\ (mode, fd) = redir_mode x.2.

Fixpoint denotes (c : cmd) (t : tree) : Prop :=
  match c, t with
  | Exec argv, TExec args => Forall2 (fun x w => slice x.1 x.2 w) argv args
  | Redir c q e mode fd, TRedir t file out => denotes c t /\ slice q e file /\ (mode, fd) = redir_mode out
  | PipeC l r, TPipe tl tr => denotes l tl /\ denotes r tr
  | ListC l r, TList tl tr => denotes l tl /\ denotes r tr
  | Back c, TBack t => denotes c t
  | _, _ => False
  end.

(** ** What may follow *)

Lemma tight_first l u : first_in l u -> (forall x, isin x l = true -> isin x symbols = true) -> tight u.
Proof.
  destruct u as [|c u]; [done|]. intros Hc Hl. apply Hl in Hc. apply isin_chars in Hc. unfold symbols, tight in *.
  repeat (apply elem_of_cons in Hc as [->|Hc]; [reflexivity|]). by apply not_elem_of_nil in Hc.
Qed.
Lemma tight_word w u : good_word w -> tight (w ++ u).
Proof. intros [Hne Hw]. destruct w as [|c w]; [done|]. apply Forall_cons in Hw as [Hc _]. by apply wordchar_facts in Hc as (_ & ? & _). Qed.
Lemma tight_predir r u : tight (predir r ++ u).
Proof. unfold predir. by destruct r.2. Qed.
Lemma tight_predirs rs u : tight u -> tight (predirs rs ++ u).
Proof. destruct rs as [|r rs]; [done|]. intros _. rewrite predirs_cons, <- app_assoc. apply tight_predir. Qed.
Lemma tight_pwords ws u : Forall good_word ws -> tight u -> tight (pwords ws ++ u).
Proof.
  destruct ws as [|w ws]; [done|]. intros Hw _. apply Forall_cons in Hw as [Hw _]. rewrite pwords_cons, <- app_assoc.
  by apply tight_word.
Qed.

(** [peek] for symbols that do not come. *)
Lemma peek_word toks s w u : drop s line = w ++ u -> good_word w -> (forall x, isin x toks = true -> isin x symbols = true) ->
  peek line toks s = Ok false s.
Proof.
  intros E Hw Ht. rewrite (peek_ok toks s _ E) by (by apply tight_word). destruct Hw as [Hne Hw]. destruct w as [|c w]; [done|].
  apply Forall_cons in Hw as [Hc _]. apply wordchar_facts in Hc as (_ & _ & Hs). cbn [app]. by rewrite (symbols_in c toks Ht Hs), andb_false_r.
Qed.
Lemma peek_first toks l s u : drop s line = u -> first_in l u -> (forall x, isin x l = true -> isin x symbols = true) ->
  (forall x, isin x l = true -> isin x toks = false) -> peek line toks s = Ok false s.
Proof.
  intros E Hu Hl Hd. rewrite (peek_ok toks s _ E) by (by eapply tight_first). destruct u as [|c u]; [done|].
  simpl in Hu. by rewrite (Hd c Hu), andb_false_r.
Qed.
Lemma peek_sym toks s c u : drop s line = c :: u -> isin c symbols = true -> isin c toks = true -> peek line toks s = Ok true s.
Proof.
  intros E Hs Ht. assert (first_in symbols (c :: u)) as Hf by exact Hs.
  rewrite (peek_ok toks s _ E) by (by eapply tight_first). rewrite Ht. apply isin_chars in Hs. unfold symbols in Hs.
  repeat (apply elem_of_cons in Hs as [->|Hs]; [reflexivity|]). by apply not_elem_of_nil in Hs.
Qed.

(** ** Redirections and arguments *)

Lemma redirs_none f s u : drop s line = u -> peek line (chars "<>") s = Ok false s -> (0 < f)%nat -> parseredirs line f s = Ok [] s.
Proof. intros E Hp Hf. destruct f; [lia|]. cbn [parseredirs]. by erewrite bind_Ok by exact Hp. Qed.

Lemma redirs_ok u : tight u -> (forall s, drop s line = u -> peek line (chars "<>") s = Ok false s) ->
  forall rs s f, drop s line = predirs rs ++ u -> Forall (fun r => good_word r.1) rs -> (length rs < f)%nat ->
  exists rs', parseredirs line f s = Ok rs' (s + length (predirs rs))%nat /\ Forall2 redir_is rs' rs.
Proof.
  intros Hu Hp. induction rs as [|[file out] rs IH]; intros s f E Hrs Hf.
  - exists []. split; [|constructor]. rewrite Nat.add_0_r. eapply redirs_none; [exact E|by apply Hp|lia].
  - apply Forall_cons in Hrs as [Hw Hrs]. simpl in Hw. destruct f as [|f]; [lia|]. set (c := if out then 62 else 60).
    assert (predirs ((file, out) :: rs) = c :: 32 :: file ++ 32 :: predirs rs) as Epr.
    { rewrite predirs_cons. unfold predir, tok. cbn [fst snd]. fold c. cbn [app]. by rewrite <- app_assoc. }
    rewrite Epr in E |- *. cbn [app] in E. rewrite <- app_assoc in E. cbn [app] in E.
    assert (isin c symbols = true /\ isin c (chars "<>") = true) as [Hc1 Hc2] by (unfold c; by destruct out).
    pose proof (drop_next _ _ _ (drop_next _ _ _ E)) as E2. pose proof (tight_predirs rs u Hu) as Ht.
    destruct (IH (S (S (S s) + length file)) f) as (rs' & Er & Hr).
    { eapply drop_next. eapply drop_adv. exact E2. } { done. } { simpl in Hf; lia. }
    exists ((S (S s), (S (S s) + length file)%nat, (redir_mode out).1, (redir_mode out).2) :: rs'). split.
    + cbn [parseredirs]. erewrite bind_Ok by (eapply peek_sym; [exact E|done..]). cbn [negb].
      erewrite bind_Ok by (eapply gettoken_sym; [exact E|unfold c; destruct out; [by right|by left]|by apply tight_word]).
      erewrite bind_Ok by (eapply gettoken_word; [exact E2|done|done]). cbn [Z.eqb Pos.eqb negb].
      erewrite bind_Ok by exact Er. cbn [fst]. cbn [length]. rewrite length_app. cbn [length].
      replace (s + S (S (length file + S (length (predirs rs)))))%nat with (S (S (S s) + length file) + length (predirs rs))%nat by lia.
      unfold c. by destruct out.
    + constructor; [|done]. split; [|by destruct out]. split; [done|]. by eexists.
Qed.

(** The words of a command, its redirections after the last of them. *)
Lemma args_ok u : first_in (chars "|)&;") u -> forall ws rs s f argc, drop s line = pwords ws ++ (match ws with [] => [] | _ => predirs rs end) ++ u ->
  Forall good_word ws -> Forall (fun r => good_word r.1) rs -> (argc + length ws < MAXARGS)%nat -> (length ws + length rs + 1 < f)%nat ->
  exists av rs', parseargs line f argc s = Ok (av, rs') (s + length (pwords ws ++ match ws with [] => [] | _ => predirs rs end))%nat /\
    Forall2 (fun x w => slice x.1 x.2 w) av ws /\ Forall2 redir_is rs' (match ws with [] => [] | _ => rs end).
Proof.
  intros Hu. assert (tight u) as Htu by (eapply tight_first; [exact Hu|sym]).
  assert (forall s, drop s line = u -> peek line (chars "<>") s = Ok false s) as Hpu.
  { intros s E. eapply peek_first; [exact E|exact Hu|sym|sym]. }
  induction ws as [|w ws IH]; intros rs s f argc E Hws Hrs Hmax Hf; (destruct f as [|f]; [lia|]).
  - exists [], []. cbn [pwords concat fmap list_fmap app length] in *. rewrite Nat.add_0_r. split_and!; [|constructor..].
    cbn [parseargs]. destruct u as [|c u].
    + erewrite bind_Ok by (eapply peek_ok; [exact E|done]). cbv iota beta. destruct (gettoken_end s E) as (q & e & Eg).
      erewrite bind_Ok by exact Eg. done.
    + erewrite bind_Ok by (eapply peek_sym; [exact E| |exact Hu]; revert c Hu E Htu Hpu; sym). done.
  - apply Forall_cons in Hws as [Hw Hws]. rewrite pwords_cons in E |- *. rewrite <- !app_assoc in E. cbn [app] in E.
    set (rest := match ws with [] => [] | _ :: _ => predirs rs end).
    assert (tight (pwords ws ++ predirs rs ++ u)) as Ht by (apply tight_pwords; [done|by apply tight_predirs]).
    pose proof (gettoken_word s w _ E Hw Ht) as Eg. pose proof (drop_next _ _ _ (drop_adv _ _ _ E)) as E1.
    cbn [parseargs]. erewrite bind_Ok by (eapply peek_word; [exact E|done|sym]). cbv iota beta. erewrite bind_Ok by exact Eg. cbn [Z.eqb Pos.eqb negb].
    simpl in Hmax. replace (MAXARGS <=? S argc)%nat with false by (symmetry; apply Nat.leb_gt; lia).
    set (s1 := S (s + length w)) in *. destruct ws as [|w2 ws].
    + cbn [pwords concat fmap list_fmap app] in E1. destruct (redirs_ok u Htu Hpu rs s1 f E1 Hrs) as (rs' & Er & Hr); [simpl in Hf; lia|].
      erewrite bind_Ok by exact Er. pose proof (drop_adv _ _ _ E1) as E2.
      destruct (IH [] _ f (S argc) E2 Hws) as (av & rs2 & Ea & Hav & Hrs2); [constructor|simpl; lia|simpl in *; lia|].
      erewrite bind_Ok by exact Ea. inversion Hav. inversion Hrs2. subst. exists [(s, (s + length w)%nat)], rs'. cbn [fst snd]. rewrite app_nil_r.
      split_and!; [|constructor; [split; [done|by eexists]|constructor]|done].
      unfold ret. f_equal. unfold s1. rewrite !length_app. simpl. lia.
    + erewrite bind_Ok by (eapply redirs_none; [exact E1| |simpl in Hf; lia]; eapply peek_word; [|by apply Forall_cons in Hws as [? _]|sym];
        rewrite E1, pwords_cons, <- app_assoc; reflexivity).
      destruct (IH rs s1 f (S argc) E1 Hws Hrs) as (av & rs2 & Ea & Hav & Hrs2); [simpl in *; lia|simpl in *; lia|].
      erewrite bind_Ok by exact Ea. exists ((s, (s + length w)%nat) :: av), rs2. cbn [fst snd app].
      split_and!; [|constructor; [split; [done|by eexists]|done]|done].
      unfold ret. f_equal. unfold s1. rewrite !length_app. cbn [length]. lia.
Qed.

(** ** The levels of the grammar *)

Definition parses {A} (m : M nat A) (s : nat) (txt : list Z) (Q : A -> Prop) : Prop :=
  exists a, m s = Ok a (s + length txt)%nat /\ Q a.

Notation room s := (length (drop s line)).

Definition exec_ok (t : tree) : Prop := forall s f rest, drop s line = pr 3 t ++ rest -> first_in (chars "|)&;") rest ->
  (4 * room s + 3 <= f)%nat -> parses (parseexec line f) s (pr 3 t) (fun c => denotes c t).
Definition pipe_ok (t : tree) : Prop := forall s f rest, drop s line = pr 2 t ++ rest -> first_in (chars ")&;") rest ->
  (4 * room s + 4 <= f)%nat -> parses (parsepipe line f) s (pr 2 t) (fun c => denotes c t).
(** [parseline] up to the semicolon, with [k] more [&] to come. *)
Definition amps (k : nat) : list Z := concat (replicate k (tok 38)).
Definition back_ok (t : tree) : Prop := forall k s f rest, drop s line = pr 1 t ++ amps k ++ rest -> first_in (chars ");") rest ->
  (4 * room s + 4 <= f)%nat ->
  parses (let! c := parsepipe line f in parsebacks line f c) s (pr 1 t ++ amps k)
    (fun c => exists c0, c = Nat.iter k Back c0 /\ denotes c0 t).
Definition line_ok (t : tree) : Prop := forall s f rest, drop s line = pr 0 t ++ rest -> first_in (chars ")") rest ->
  (4 * room s + 5 <= f)%nat -> parses (parseline line f) s (pr 0 t) (fun c => denotes c t).

Fixpoint unred (t : tree) : tree * list (list Z * bool) :=
  match t with TRedir t file out => let (b, rs) := unred t in (b, rs ++ [(file, out)]) | _ => (t, []) end.
Definition plain (t : tree) : Prop := match t with TRedir _ _ _ => False | _ => True end.

Lemma unred_spec t : let (b, rs) := unred t in plain b /\ pr 3 t = pr 3 b ++ predirs rs /\
  (tree_ok t -> tree_ok b /\ Forall (fun r => good_word r.1) rs) /\
  forall c rs', denotes c b -> Forall2 redir_is rs' rs -> denotes (foldl redircmd c rs') t.
Proof.
  induction t as [args|t IH file out|l _ r _|l _ r _|t _]; simpl unred;
    try (split_and!; [done|by rewrite app_nil_r|by split|]; intros c rs' Hc Hr; by inversion Hr).
  destruct (unred t) as [b rs]. destruct IH as (Hb & Hp & Hok & Hd). split_and!; [done| | |].
  - simpl. rewrite Hp. unfold predirs. rewrite fmap_app, concat_app. cbn [fmap list_fmap concat]. by rewrite app_nil_r, app_assoc.
  - intros [Ht Hf]. destruct (Hok Ht) as [? ?]. split; [done|]. apply Forall_app. split; [done|]. by constructor.
  - intros c rs' Hc Hr. apply Forall2_app_inv_r in Hr as (r1 & r2 & H1 & H2 & ->). inversion H2 as [|[[[q e] mode] fd] ? ? ? [Hs Hm] Hnil]; subst.
    inversion Hnil; subst. rewrite foldl_app. simpl. split; [by apply Hd|done].
Qed.

Lemma room_app s a b : drop s line = a ++ b -> room s = (length a + room (s + length a))%nat.
Proof. intros E. rewrite (drop_adv _ _ _ E), E. apply length_app. Qed.

(** A parenthesised line. *)
Lemma block_ok t rs s f rest : line_ok t -> drop s line = tok 40 ++ pr 0 t ++ tok 41 ++ predirs rs ++ rest ->
  tight (pr 0 t ++ tok 41) ->
  Forall (fun r => good_word r.1) rs -> first_in (chars "|)&;") rest -> (4 * room s + 3 <= f)%nat ->
  exists c rs', parseexec line f s = Ok (foldl redircmd c rs') (s + length (tok 40 ++ pr 0 t ++ tok 41 ++ predirs rs))%nat /\
    denotes c t /\ Forall2 redir_is rs' rs.
Proof.
  intros Ht E Htt Hrs Hrest Hf. destruct f as [|[|f]]; [lia|lia|].
  assert (tight rest) as Htr by (eapply tight_first; [exact Hrest|sym]).
  assert (room s = 2 + room (s + 2))%nat as Hr1 by (exact (room_app _ _ _ E)).
  pose proof (drop_adv _ _ _ E) as E1. change (length (tok 40)) with 2%nat in E1.
  pose proof (peek_sym (chars "(") s 40 _ E eq_refl eq_refl) as Ep.
  cbn [parseexec]. erewrite bind_Ok by exact Ep. cbv iota. cbn [parseblock]. erewrite bind_Ok by exact Ep. cbn [negb].
  erewrite bind_Ok by (eapply gettoken_sym; [exact E|by left|]; rewrite app_assoc in E1 |- *; destruct (pr 0 t ++ tok 41) eqn:E2; [by destruct (pr 0 t)|done]).
  replace (S (S s)) with (s + 2)%nat by lia.
  destruct (Ht (s + 2)%nat f _ E1) as (c & El & Hc); [done|lia|]. erewrite bind_Ok by exact El.
  pose proof (drop_adv _ _ _ E1) as E3. set (s2 := (s + 2 + length (pr 0 t))%nat) in *.
  pose proof (room_app _ _ _ E1) as Hr2. fold s2 in Hr2.
  erewrite bind_Ok by (eapply (peek_sym (chars ")") s2 41); [exact E3|done|done]). cbn [negb].
  erewrite bind_Ok by (eapply gettoken_sym; [exact E3|by left|by apply tight_predirs]).
  pose proof (drop_next _ _ _ (drop_next _ _ _ E3)) as E4. cbn [tok app] in E4.
  assert (length rs < f)%nat as Hfr.
  { assert (length rs <= length (predirs rs))%nat as Hle.
    { clear. induction rs as [|r rs IH]; [done|]. rewrite predirs_cons, length_app. unfold predir. rewrite length_app. simpl. lia. }
    assert (room s2 = length (tok 41 ++ predirs rs ++ rest)) as Hr3 by (by rewrite E3). rewrite !length_app in Hr3. lia. }
  destruct (redirs_ok rest Htr) with (rs := rs) (s := S (S s2)) (f := f) as (rs' & Er & Hrs'); [|done..|].
  { intros s3 E5. eapply peek_first; [exact E5|exact Hrest|sym|sym]. }
  erewrite bind_Ok by exact Er. exists c, rs'. split_and!; [|done|done]. unfold ret. f_equal. unfold s2. rewrite !length_app. simpl. lia.
Qed.

Lemma tight_pr t : tree_ok t -> forall k u, tight u -> tight (pr k t ++ u).
Proof.
  induction t as [args|t IH file out|l IHl r IHr|l IHl r IHr|t IH]; intros Hok k u Hu; cbn [pr].
  - by apply tight_pwords; [apply Hok|].
  - destruct Hok as [Hok Hw]. rewrite <- app_assoc. apply IH; [done|]. apply tight_predir.
  - destruct Hok as [Hl _]. unfold paren. destruct (3 <=? k)%nat; [done|]. rewrite <- app_assoc. by apply IHl.
  - destruct Hok as [Hl _]. unfold paren. destruct (1 <=? k)%nat; [done|]. rewrite <- app_assoc. by apply IHl.
  - unfold paren. destruct (2 <=? k)%nat; [done|]. rewrite <- app_assoc. by apply IH.
Qed.

Lemma first_sub (l1 l2 u : list Z) : (forall x, isin x l1 = true -> isin x l2 = true) -> first_in l1 u -> first_in l2 u.
Proof. intros H. destruct u; [done|]. apply H. Qed.

Lemma pwords_length ws : (length ws <= length (pwords ws))%nat.
Proof. induction ws as [|w ws IH]; [done|]. rewrite pwords_cons, length_app. simpl. lia. Qed.
Lemma predirs_length rs : (length rs <= length (predirs rs))%nat.
Proof. induction rs as [|r rs IH]; [done|]. rewrite predirs_cons, length_app. unfold predir. rewrite length_app. simpl. lia. Qed.

(** A simple command: redirections come after the last word. *)
Lemma simple_ok args rs s f rest : drop s line = pwords args ++ predirs rs ++ rest -> Forall good_word args ->
  (length args < MAXARGS)%nat -> Forall (fun r => good_word r.1) rs -> first_in (chars "|)&;") rest -> (4 * room s + 3 <= f)%nat ->
  exists av rs', parseexec line f s = Ok (foldl redircmd (Exec av) rs') (s + length (pwords args ++ predirs rs))%nat /\
    Forall2 (fun x w => slice x.1 x.2 w) av args /\ Forall2 redir_is rs' rs.
Proof.
  intros E Ha Hmax Hrs Hrest Hf. destruct f as [|f]; [lia|].
  assert (room s = length (pwords args) + length (predirs rs) + length rest)%nat as Hroom by (rewrite E, !length_app; lia).
  pose proof (pwords_length args). pose proof (predirs_length rs).
  assert (tight rest) as Htr by (eapply tight_first; [exact Hrest|sym]).
  assert (forall s', drop s' line = rest -> peek line (chars "<>") s' = Ok false s') as Hp.
  { intros s' E'. eapply peek_first; [exact E'|exact Hrest|sym|sym]. }
  cbn [parseexec]. destruct args as [|w args].
  - assert (peek line (chars "(") s = Ok false s) as Ep.
    { destruct rs as [|[file out] rs]; [by eapply peek_first; [exact E|exact Hrest|sym|sym]|].
      eapply (peek_first _ (chars "<>")); [exact E| |sym|sym]. by destruct out. }
    erewrite bind_Ok by exact Ep. cbv iota. destruct (redirs_ok rest Htr Hp rs s f E Hrs) as (rs' & Er & Hr); [lia|].
    erewrite bind_Ok by exact Er. pose proof (drop_adv s (predirs rs) rest E) as E2.
    destruct (args_ok rest Hrest [] [] (s + length (predirs rs)) f 0 E2) as (av & rs2 & Ea & Hav & Hr2); [constructor|constructor|done|simpl; lia|].
    erewrite bind_Ok by exact Ea. inversion Hav. inversion Hr2. subst. exists [], rs'. simpl. rewrite app_nil_r, Nat.add_0_r. done.
  - erewrite bind_Ok by (eapply peek_word; [rewrite E, pwords_cons, <- app_assoc; reflexivity|by apply Forall_cons in Ha as [? _]|sym]). cbv iota.
    erewrite bind_Ok by (eapply redirs_none; [exact E| |lia]; eapply peek_word;
      [rewrite E, pwords_cons, <- app_assoc; reflexivity|by apply Forall_cons in Ha as [? _]|sym]).
    destruct (args_ok rest Hrest (w :: args) rs s f 0 E Ha Hrs) as (av & rs2 & Ea & Hav & Hr2); [done|lia|].
    erewrite bind_Ok by exact Ea. by exists av, rs2.
Qed.

Definition is_exec (t : tree) : bool := match t with TExec _ => true | _ => false end.

Lemma exec_of t : tree_ok t -> (is_exec (unred t).1 = false -> line_ok (unred t).1) -> exec_ok t.
Proof.
  intros Hok Hline s f rest E Hrest Hf. pose proof (unred_spec t) as Hun. destruct (unred t) as [b rs]. destruct Hun as (Hpl & Hpr & Hgood & Hden).
  destruct (Hgood Hok) as [Hb Hrs]. rewrite Hpr in *. rewrite <- app_assoc in E. unfold parses. destruct (is_exec b) eqn:Hx.
  - destruct b as [args| | | |]; try done. destruct Hb as [Ha Hmax].
    destruct (simple_ok args rs s f rest E Ha Hmax Hrs Hrest Hf) as (av & rs' & Ep & Hav & Hr). eexists. split; [exact Ep|]. by apply Hden.
  - specialize (Hline Hx). simpl in Hline. assert (pr 3 b = tok 40 ++ pr 0 b ++ tok 41) as E3 by (by destruct b).
    rewrite E3, <- !app_assoc in E. destruct (block_ok b rs s f rest Hline E) as (c & rs' & Ep & Hc & Hr); [by apply tight_pr|done..|].
    rewrite E3, <- !app_assoc. eexists. split; [exact Ep|]. by apply Hden.
Qed.

Lemma pipe_of t : (forall l r, t <> TPipe l r) -> exec_ok t -> pipe_ok t.
Proof.
  intros Hne He s f rest E Hrest Hf. assert (pr 2 t = pr 3 t) as Ek by (destruct t; try done; by destruct (Hne t1 t2)).
  rewrite Ek in *. destruct f as [|f]; [lia|].
  destruct (He s f rest E) as (c & Ec & Hc); [eapply first_sub; [|exact Hrest]; sym|lia|]. exists c. split; [|done].
  cbn [parsepipe]. erewrite bind_Ok by exact Ec. erewrite bind_Ok by (eapply peek_first; [by eapply drop_adv|exact Hrest|sym|sym]). done.
Qed.
Lemma pipe_pipe l r : tree_ok r -> exec_ok l -> pipe_ok r -> pipe_ok (TPipe l r).
Proof.
  intros Hr Hl Hpr s f rest E Hrest Hf. simpl pr in *. unfold paren in *. cbn [Nat.leb] in *. rewrite <- !app_assoc in E. destruct f as [|f]; [lia|].
  assert (tight rest) as Ht by (eapply tight_first; [exact Hrest|sym]).
  destruct (Hl s f _ E) as (c & Ec & Hc); [done|lia|]. pose proof (drop_adv _ _ _ E) as E1. pose proof (room_app _ _ _ E) as R1.
  set (s1 := (s + length (pr 3 l))%nat) in *. pose proof (drop_adv s1 (tok 124) (pr 2 r ++ rest) E1) as E2.
  pose proof (room_app s1 (tok 124) (pr 2 r ++ rest) E1) as R2.
  change (length (tok 124)) with 2%nat in *.
  destruct (Hpr (s1 + 2)%nat f _ E2 Hrest) as (d & Ed & Hd); [lia|]. exists (PipeC c d). split; [|done].
  cbn [parsepipe]. erewrite bind_Ok by exact Ec. erewrite bind_Ok by (eapply peek_sym; [exact E1|done|done]). cbv iota.
  erewrite bind_Ok by (eapply gettoken_sym; [exact E1|by left|by apply tight_pr]). replace (S (S s1)) with (s1 + 2)%nat by lia.
  erewrite bind_Ok by exact Ed. unfold ret. f_equal. unfold s1. rewrite !length_app. simpl. lia.
Qed.

Lemma amps_length k : length (amps k) = (2 * k)%nat.
Proof. induction k as [|k IH]; [done|]. unfold amps in *. simpl. rewrite IH. lia. Qed.
Lemma backs_ok rest k : first_in (chars ");") rest -> forall c s f, drop s line = amps k ++ rest -> (k < f)%nat ->
  parsebacks line f c s = Ok (Nat.iter k Back c) (s + length (amps k))%nat.
Proof.
  intros Hrest. induction k as [|k IH]; intros c s f E Hf; (destruct f as [|f]; [lia|]); cbn [parsebacks].
  - erewrite bind_Ok by (eapply peek_first; [exact E|exact Hrest|sym|sym]). simpl. by rewrite Nat.add_0_r.
  - erewrite bind_Ok by (eapply peek_sym; [exact E|done|done]). cbn [negb].
    assert (tight (amps k ++ rest)) as Ht by (destruct k; [by eapply tight_first; [exact Hrest|sym]|done]).
    erewrite bind_Ok by (eapply gettoken_sym; [exact E|by left|exact Ht]).
    pose proof (drop_next _ _ _ (drop_next _ _ _ E)) as E2. rewrite (IH (Back c) _ f E2) by lia. rewrite Nat.iter_succ_r. f_equal. rewrite !amps_length. lia.
Qed.

Lemma back_of t : (forall c, t <> TBack c) -> pipe_ok t -> back_ok t.
Proof.
  intros Hne Hp k s f rest E Hrest Hf. assert (pr 1 t = pr 2 t) as Ek by (destruct t; try done; by destruct (Hne t)).
  rewrite Ek in *. destruct (Hp s f _ E) as (c & Ec & Hc); [|lia|].
  { destruct k; [by eapply first_sub; [|exact Hrest]; sym|done]. }
  eexists. split; [|by exists c]. erewrite bind_Ok by exact Ec. pose proof (room_app _ _ _ E) as R1. pose proof (drop_adv _ _ _ E) as E1.
  assert (room (s + length (pr 2 t)) = length (amps k) + length rest)%nat as R2 by (rewrite E1; apply length_app). rewrite amps_length in R2.
  rewrite (backs_ok rest k Hrest c _ f E1) by lia. f_equal. rewrite length_app. lia.
Qed.
Lemma back_back t : back_ok t -> back_ok (TBack t).
Proof.
  intros Hb k s f rest E Hrest Hf. assert (pr 1 (TBack t) ++ amps k = pr 1 t ++ amps (S k)) as Ek.
  { simpl. unfold amps. cbn [replicate concat]. by rewrite <- app_assoc. }
  rewrite app_assoc, Ek, <- app_assoc in E. rewrite Ek.
  destruct (Hb (S k) s f rest E Hrest Hf) as (c & Ec & c0 & -> & Hc). eexists. split; [exact Ec|]. exists (Back c0). split; [by rewrite Nat.iter_succ_r|done].
Qed.

Lemma line_of t : (forall l r, t <> TList l r) -> back_ok t -> line_ok t.
Proof.
  intros Hne Hb s f rest E Hrest Hf. assert (pr 0 t = pr 1 t) as Ek by (destruct t; try done; by destruct (Hne t1 t2)).
  rewrite Ek in *. destruct f as [|f]; [lia|]. destruct (Hb 0%nat s f rest E) as (c & Ec & c0 & -> & Hc); [eapply first_sub; [|exact Hrest]; sym|lia|].
  simpl in Ec. rewrite app_nil_r in Ec. exists c0. split; [|done]. cbn [parseline]. rewrite <- bind_assoc. erewrite bind_Ok by exact Ec.
  erewrite bind_Ok by (eapply peek_first; [by eapply drop_adv|exact Hrest|sym|sym]). done.
Qed.
Lemma line_list l r : tree_ok r -> back_ok l -> line_ok r -> line_ok (TList l r).
Proof.
  intros Hr Hl Hlr s f rest E Hrest Hf. simpl pr in *. unfold paren in *. cbn [Nat.leb] in *. rewrite <- !app_assoc in E. destruct f as [|f]; [lia|].
  assert (tight rest) as Ht by (eapply tight_first; [exact Hrest|sym]).
  destruct (Hl 0%nat s f _ E) as (c & Ec & c0 & -> & Hc); [done|lia|]. simpl in Ec. rewrite app_nil_r in Ec.
  pose proof (drop_adv _ _ _ E) as E1. pose proof (room_app _ _ _ E) as R1.
  set (s1 := (s + length (pr 1 l))%nat) in *. pose proof (drop_adv s1 (tok 59) (pr 0 r ++ rest) E1) as E2.
  pose proof (room_app s1 (tok 59) (pr 0 r ++ rest) E1) as R2.
  change (length (tok 59)) with 2%nat in *.
  destruct (Hlr (s1 + 2)%nat f _ E2 Hrest) as (d & Ed & Hd); [lia|]. exists (ListC c0 d). split; [|done].
  cbn [parseline]. rewrite <- bind_assoc. erewrite bind_Ok by exact Ec. erewrite bind_Ok by (eapply peek_sym; [exact E1|done|done]). cbv iota.
  erewrite bind_Ok by (eapply gettoken_sym; [exact E1|by left|by apply tight_pr]). replace (S (S s1)) with (s1 + 2)%nat by lia.
  erewrite bind_Ok by exact Ed. unfold ret. f_equal. unfold s1. rewrite !length_app. simpl. lia.
Qed.

Lemma levels_ok t : tree_ok t -> (is_exec (unred t).1 = false -> line_ok (unred t).1) /\ exec_ok t /\ pipe_ok t /\ back_ok t /\ line_ok t.
Proof.
  induction t as [args|t IH file out|l IHl r IHr|l IHl r IHr|t IH]; intros Hok.
  - assert (exec_ok (TExec args)) as He by (by apply exec_of). assert (pipe_ok (TExec args)) as Hp by (by apply pipe_of).
    assert (back_ok (TExec args)) as Hb by (by apply back_of). split_and!; [done..|]. by apply line_of.
  - destruct (IH (proj1 Hok)) as (Hu & _). assert ((unred (TRedir t file out)).1 = (unred t).1) as Eu by (simpl; by destruct (unred t)).
    assert (exec_ok (TRedir t file out)) as He by (apply exec_of; [done|by rewrite Eu]).
    assert (pipe_ok (TRedir t file out)) as Hp by (by apply pipe_of). assert (back_ok (TRedir t file out)) as Hb by (by apply back_of).
    split_and!; [by rewrite Eu|done..|]. by apply line_of.
  - destruct Hok as [Hl Hr]. destruct (IHl Hl) as (_ & Hle & _). destruct (IHr Hr) as (_ & _ & Hrp & _).
    assert (pipe_ok (TPipe l r)) as Hp by (by apply pipe_pipe). assert (back_ok (TPipe l r)) as Hb by (by apply back_of).
    assert (line_ok (TPipe l r)) as Hli by (by apply line_of). split_and!; [done|by apply exec_of|done..].
  - destruct Hok as [Hl Hr]. destruct (IHl Hl) as (_ & _ & _ & Hlb & _). destruct (IHr Hr) as (_ & _ & _ & _ & Hrl).
    assert (line_ok (TList l r)) as Hli by (by apply line_list). assert (exec_ok (TList l r)) as He by (by apply exec_of).
    assert (pipe_ok (TList l r)) as Hp by (by apply pipe_of). split_and!; [done..|by apply back_of|done].
  - destruct (IH Hok) as (_ & _ & _ & Hb & _). assert (back_ok (TBack t)) as Hbb by (by apply back_back).
    assert (line_ok (TBack t)) as Hli by (by apply line_of). assert (exec_ok (TBack t)) as He by (by apply exec_of).
    split_and!; [done|done|by apply pipe_of|done..].
Qed.

(** ** The terminated strings *)

Fixpoint ends (c : cmd) : list nat :=
  match c with
  | Exec argv => argv.*2
  | Redir c _ e _ _ => e :: ends c
  | PipeC l r | ListC l r => ends l ++ ends r
  | Back c => ends c
  end.

Lemma nul_other c : forall buf p, p ∉ ends c -> nulterminate c buf !! p = buf !! p.
Proof.
  induction c as [argv|c IH q e mode fd|l IHl r IHr|l IHl r IHr|c IH]; intros buf p Hp; simpl in *.
  - revert buf Hp. induction argv as [|[q e] argv IH]; intros buf Hp; [done|]. csimpl in *. apply not_elem_of_cons in Hp as [He Hp].
    rewrite IH by done. by rewrite list_lookup_insert_ne.
  - apply not_elem_of_cons in Hp as [He Hp]. rewrite list_lookup_insert_ne by done. by apply IH.
  - apply not_elem_of_app in Hp as [H1 H2]. by rewrite IHr, IHl.
  - apply not_elem_of_app in Hp as [H1 H2]. by rewrite IHr, IHl.
  - by apply IH.
Qed.
Lemma nul_length c : forall buf, length (nulterminate c buf) = length buf.
Proof.
  induction c as [argv|c IH q e mode fd|l IHl r IHr|l IHl r IHr|c IH]; intros b; simpl; rewrite ?length_insert, ?IHr, ?IHl, ?IH; try done.
  revert b. induction argv as [|x argv IHa]; intros b; [done|]. simpl. by rewrite IHa, length_insert.
Qed.
Lemma nul_end c : forall buf p, p ∈ ends c -> (p < length buf)%nat -> nulterminate c buf !! p = Some 0.
Proof.
  induction c as [argv|c IH q e mode fd|l IHl r IHr|l IHl r IHr|c IH]; intros buf p Hp Hl; simpl in *.
  - revert buf Hp Hl. induction argv as [|[q e] argv IH]; intros buf Hp Hl; [by apply not_elem_of_nil in Hp|]. csimpl in *.
    destruct (decide (p ∈ argv.*2)) as [Hin|Hin]; [apply IH; [done|by rewrite length_insert]|].
    apply elem_of_cons in Hp as [->|?]; [|done]. pose proof (nul_other (Exec argv) (<[e := 0]> buf) e Hin) as H. simpl in H. rewrite H.
    by apply list_lookup_insert_eq.
  - apply elem_of_cons in Hp as [->|Hp]; [apply list_lookup_insert_eq; by rewrite nul_length|].
    destruct (decide (p = e)) as [->|]; [apply list_lookup_insert_eq; by rewrite nul_length|]. rewrite list_lookup_insert_ne by done. by apply IH.
  - destruct (decide (p ∈ ends r)) as [Hr|Hr]; [apply IHr; [done|by rewrite nul_length]|]. apply elem_of_app in Hp as [Hp|?]; [|done].
    rewrite nul_other by done. by apply IHl.
  - destruct (decide (p ∈ ends r)) as [Hr|Hr]; [apply IHr; [done|by rewrite nul_length]|]. apply elem_of_app in Hp as [Hp|?]; [|done].
    rewrite nul_other by done. by apply IHl.
  - by apply IH.
Qed.
End Print.

(** The string at an offset of the terminated line. *)
Fixpoint until0 (l : list Z) : list Z :=
  match l with c :: l' => if c =? 0 then [] else c :: until0 l' | [] => [] end.
Definition cstring (buf : list Z) (q : nat) : list Z := until0 (drop q buf).

(** What [runcmd] finds in the structures and strings. *)
Fixpoint resolve (buf : list Z) (c : cmd) : tree :=
  match c with
  | Exec argv => TExec ((fun x => cstring buf x.1) <$> argv)
  | Redir c q _ mode fd => TRedir (resolve buf c) (cstring buf q) (fd =? 1)
  | PipeC l r => TPipe (resolve buf l) (resolve buf r)
  | ListC l r => TList (resolve buf l) (resolve buf r)
  | Back c => TBack (resolve buf c)
  end.

Lemma until0_spec w : forall l q, (forall i c, w !! i = Some c -> l !! (q + i)%nat = Some c) -> Forall (fun c => c <> 0) w ->
  l !! (q + length w)%nat = Some 0 -> until0 (drop q l) = w.
Proof.
  induction w as [|c w IH]; intros l q Hw Hn He.
  - simpl in He. rewrite Nat.add_0_r in He. by rewrite (drop_S _ 0 q He).
  - apply Forall_cons in Hn as [Hc Hn]. pose proof (Hw 0%nat c eq_refl) as Hq. rewrite Nat.add_0_r in Hq.
    rewrite (drop_S _ c q Hq). simpl. destruct (Z.eqb_spec c 0); [done|]. f_equal. apply IH; [|done|].
    + intros i x Hi. replace (S q + i)%nat with (q + S i)%nat by lia. by apply Hw.
    + replace (S q + length w)%nat with (q + length (c :: w))%nat by (simpl; lia). done.
Qed.

Lemma slice_lookup line q e w i c : slice line q e w -> w !! i = Some c -> line !! (q + i)%nat = Some c /\ wordchar c.
Proof.
  intros [[_ Hw] (u & E & _)] Hi. split; [|by eapply Forall_lookup_1]. rewrite <- lookup_drop, E. by apply lookup_app_l_Some.
Qed.
Lemma slice_end line q e w : slice line q e w -> line !! e = Some 32.
Proof. intros [_ (u & E & ->)]. rewrite <- lookup_drop, E. by apply list_lookup_middle. Qed.

Lemma ends_blank line c : forall t e, denotes line c t -> e ∈ ends c -> line !! e = Some 32.
Proof.
  induction c as [argv|c IH q e0 mode fd|l IHl r IHr|l IHl r IHr|c IH]; intros t e Hd He; destruct t as [args|t file out|tl tr|tl tr|t]; try done; simpl in *.
  - apply list_elem_of_fmap in He as (x & -> & Hx). apply list_elem_of_lookup in Hx as [i Hi].
    destruct (Forall2_lookup_l _ _ _ _ _ Hd Hi) as (w & _ & Hs). by eapply slice_end.
  - destruct Hd as (Hd & Hs & _). apply elem_of_cons in He as [->|He]; [by eapply slice_end|by eapply IH].
  - destruct Hd. apply elem_of_app in He as [He|He]; eauto.
  - destruct Hd. apply elem_of_app in He as [He|He]; eauto.
  - eauto.
Qed.

(** A token of the line is a terminated string once every end is zero. *)
Lemma slice_string line c0 t0 q e w : denotes line c0 t0 -> slice line q e w -> e ∈ ends c0 ->
  cstring (nulterminate c0 (line ++ [0])) q = w.
Proof.
  intros Hd Hs He. pose proof (slice_end _ _ _ _ Hs) as Hle. pose proof (lookup_lt_Some _ _ _ Hle) as Hlt.
  apply until0_spec.
  - intros i c Hi. destruct (slice_lookup _ _ _ _ _ _ Hs Hi) as [Hl [_ Hc]].
    rewrite nul_other; [by apply lookup_app_l_Some|]. intros Hin. rewrite (ends_blank _ _ _ _ Hd Hin) in Hl. injection Hl as <-. done.
  - destruct Hs as [[_ Hw] _]. eapply Forall_impl; [exact Hw|]. by intros c [? _].
  - destruct Hs as [_ (u & _ & E)]. rewrite <- E. apply nul_end; [done|]. rewrite length_app. simpl. lia.
Qed.

Lemma resolve_ok line c0 t0 : denotes line c0 t0 -> forall c t, denotes line c t -> (forall e, e ∈ ends c -> e ∈ ends c0) ->
  resolve (nulterminate c0 (line ++ [0])) c = t.
Proof.
  intros H0. induction c as [argv|c IH q e mode fd|l IHl r IHr|l IHl r IHr|c IH]; intros t Hd Hsub; destruct t as [args|t file out|tl tr|tl tr|t]; try done; simpl in *.
  - f_equal. revert Hsub. induction Hd as [|[q e] w argv args Hs Hd IH]; intros Hsub; [done|]. csimpl. f_equal.
    + eapply slice_string; [exact H0|exact Hs|]. apply Hsub. csimpl. by left.
    + apply IH. intros x Hx. apply Hsub. csimpl. by right.
  - destruct Hd as (Hd & Hs & Hm). f_equal.
    + apply IH; [done|]. intros x Hx. apply Hsub. by right.
    + eapply slice_string; [exact H0|exact Hs|]. apply Hsub. by left.
    + destruct out; by injection Hm as _ ->.
  - destruct Hd. f_equal; [apply IHl|apply IHr]; try done; intros x Hx; apply Hsub, elem_of_app; auto.
  - destruct Hd. f_equal; [apply IHl|apply IHr]; try done; intros x Hx; apply Hsub, elem_of_app; auto.
  - f_equal. by apply IH.
Qed.

(** C24 Parsing inverts printing: every command whose words are free of blanks
    and symbols, with fewer than [MAXARGS] words each, written with parentheses
    where needed, is parsed back to the same structure, and its strings in the
    terminated line are the ones printed. *)
Theorem parse_print t s : tree_ok t ->
  exists c buf, parsecmd (pr 0 t) s = Ok (c, buf) (length (pr 0 t)) /\ resolve buf c = t.
Proof.
  intros Hok. set (line := pr 0 t). destruct (levels_ok line t Hok) as (_ & _ & _ & _ & Hl).
  destruct (Hl 0%nat (4 * es line + 5)%nat []) as (c & Ec & Hd); [by rewrite app_nil_r|done|rewrite drop_0; unfold es; lia|].
  exists c, (nulterminate c (line ++ [0])). split; [|by eapply resolve_ok].
  unfold parsecmd. rewrite bind_modify. erewrite bind_Ok by exact Ec.
  erewrite bind_Ok by (eapply peek_ok; [apply drop_ge; done|done]). rewrite bind_gets. unfold id, es. simpl. by rewrite Nat.eqb_refl.
Qed.

Definition demo_tree : tree :=
  TList (TBack (TPipe (TRedir (TExec [chars "ls"; chars "-l"]) (chars "in") false) (TList (TExec [chars "a"]) (TExec []))))
    (TRedir (TPipe (TExec [chars "x"]) (TExec [chars "y"])) (chars "out") true).
Lemma parse_print_witness : exists c buf, parsecmd (pr 0 demo_tree) 0%nat = Ok (c, buf) (length (pr 0 demo_tree)) /\ resolve buf c = demo_tree.
Proof. apply parse_print. repeat split; try (repeat constructor; done). Defined.
