(* ===== verification/Umalloc.v ===== *)
(** * The user's memory allocator: umalloc.c

    Addresses count headers (eight bytes); every unit of memory holds a header,
    also inside blocks, where the program keeps its data.  [sbrk] hands out
    the memory between the break and the limit the kernel will give. *)

From stdpp Require Import base list strings.
From Stdlib Require Import ZArith Lia.
From S2P Require Import Prelude.
Local Open Scope Z_scope.

Definition sizeof_Header : Z := 8.

Record header := mkHeader { h_ptr : Z; h_size : Z }.

Record heap := mkHeap {
  units : Z -> header;
  freep : Z;
  brk : Z;
  limit : Z
}.
Definition put_units (x : Z -> header) (s : heap) : heap := mkHeap x (freep s) (brk s) (limit s).
Definition put_freep (x : Z) (s : heap) : heap := mkHeap (units s) x (brk s) (limit s).
Definition put_brk (x : Z) (s : heap) : heap := mkHeap (units s) (freep s) x (limit s).

Definition setu (m : Z -> header) (a : Z) (h : header) : Z -> header := fun k => if k =? a then h else m k.
Definition ptr (p : Z) : M heap Z := gets (fun s => h_ptr (units s p)).
Definition size (p : Z) : M heap Z := gets (fun s => h_size (units s p)).
Definition set_ptr (p v : Z) : M heap unit :=
  modify (fun s => put_units (setu (units s) p (mkHeader v (h_size (units s p)))) s).
Definition set_size (p v : Z) : M heap unit :=
  modify (fun s => put_units (setu (units s) p (mkHeader (h_ptr (units s p)) v)) s).

(** [sys_sbrk] over [growproc]: a negative request shrinks the process, which
    [deallocuvm] refuses by keeping the size when the new one would be below
    zero.  [None] is [(char* )-1]. *)
Definition sbrk (bytes : Z) : M heap (option Z) :=
  let! s := gets id in
  let n := s32 bytes / sizeof_Header in
  if n <? 0 then
    if brk s + n <? 0 then ret (Some (brk s)) else
    if brk s + n =? 0 then ret None else
    modify (put_brk (brk s + n)) ;;; ret (Some (brk s))
  else if brk s + n <=? limit s then modify (put_brk (brk s + n)) ;;; ret (Some (brk s)) else ret None.

Section Umalloc.
Context (base : Z).           (** the address of [base] *)

(** [for(p = freep; !(bp > p && bp < p->s.ptr); p = p->s.ptr) if(...) break] *)
Fixpoint free_loop (fuel : nat) (bp p : Z) : M heap Z :=
  match fuel with
  | O => nofuel
  | S f =>
      let! n := ptr p in
      if (p <? bp) && (bp <? n) then ret p else
      if (n <=? p) && ((p <? bp) || (bp <? n)) then ret p else
      free_loop f bp n
  end.

Definition free (fuel : nat) (ap : Z) : M heap unit :=
  let bp := ap - 1 in
  let! fp := gets freep in
  let! p := free_loop fuel bp fp in
  let! n := ptr p in
  let! sz := size bp in
  (if bp + sz =? n then
     let! nsz := size n in
     set_size bp (u32 (sz + nsz)) ;;;
     let! nn := ptr n in
     set_ptr bp nn
   else set_ptr bp n) ;;;
  let! psz := size p in
  (if p + psz =? bp then
     let! bsz := size bp in
     set_size p (u32 (psz + bsz)) ;;;
     let! bn := ptr bp in
     set_ptr p bn
   else set_ptr p bp) ;;;
  modify (put_freep p).

Definition morecore (fuel : nat) (nu : Z) : M heap Z :=
  let nu := if nu <? 4096 then 4096 else nu in
  let! r := sbrk (u32 (nu * sizeof_Header)) in
  match r with
  | None => ret 0
  | Some hp =>
      set_size hp nu ;;;
      free fuel (hp + 1) ;;;
      gets freep
  end.

Fixpoint malloc_loop (fuel : nat) (nunits prevp p : Z) : M heap Z :=
  match fuel with
  | O => nofuel
  | S f =>
      let! sz := size p in
      if nunits <=? sz then
        let! r :=
          (if sz =? nunits then
             let! n := ptr p in
             set_ptr prevp n ;;;
             ret p
           else
             set_size p (sz - nunits) ;;;
             let p := p + (sz - nunits) in
             set_size p nunits ;;;
             ret p) in
        modify (put_freep prevp) ;;;
        ret (r + 1)
      else
        let! fp := gets freep in
        if p =? fp then
          let! p := morecore f nunits in
          if p =? 0 then ret 0 else
          let! n := ptr p in
          malloc_loop f nunits p n
        else
          let! n := ptr p in
          malloc_loop f nunits p n
  end.

Definition malloc (fuel : nat) (nbytes : Z) : M heap Z :=
  let nunits := u32 (nbytes + sizeof_Header - 1) / sizeof_Header + 1 in
  let! fp := gets freep in
  let! prevp :=
    (if fp =? 0 then
       modify (put_freep base) ;;;
       set_ptr base base ;;;
       set_size base 0 ;;;
       ret base
     else ret fp) in
  let! p := ptr prevp in
  malloc_loop fuel nunits prevp p.
End Umalloc.
