(* ===== verification/UmallocCorrect.v ===== *)
(** * malloc and free keep blocks apart

    The free list is the ring of headers from [base] in the order of their
    addresses, no two of them adjacent. *)

From stdpp Require Import base sets list list_numbers strings.
From Stdlib Require Import ZArith Lia.
From S2P Require Import Prelude Umalloc.
Local Open Scope Z_scope.

(** ** Rings *)

Definition hd_addr (l : list (Z * Z)) (d : Z) : Z := match l with (b, _) :: _ => b | [] => d end.
Fixpoint linked (m : Z -> header) (l : list (Z * Z)) (last : Z) : Prop :=
  match l with [] => True | (a, s) :: l' => m a = mkHeader (hd_addr l' last) s /\ linked m l' last end.
Definition ring (m : Z -> header) (l : list (Z * Z)) : Prop := linked m l (hd_addr l 0).

Lemma hd_addr_app x y d : hd_addr (x ++ y) d = hd_addr x (hd_addr y d).
Proof. by destruct x as [|[]]. Qed.
Lemma linked_app m x y last : linked m (x ++ y) last <-> linked m x (hd_addr y last) /\ linked m y last.
Proof. induction x as [|[a s] x IH]; simpl; [tauto|]. rewrite IH, hd_addr_app. tauto. Qed.
Lemma linked_frame m m' l last : (forall a, a ∈ l.*1 -> m' a = m a) -> linked m l last -> linked m' l last.
Proof.
  induction l as [|[a s] l IH]; simpl; [done|]. intros H [H1 H2]. split; [rewrite H by left; done|]. apply IH; [|done].
  intros b Hb. apply H. by right.
Qed.
Lemma ring_rotate m x y : ring m (x ++ y) -> ring m (y ++ x).
Proof.
  unfold ring. rewrite !linked_app, !hd_addr_app. intros [Hx Hy]. destruct x as [|[a s] x]; simpl in *; [|by destruct y as [|[b t] y]].
  destruct y as [|[b t] y]; simpl in *; tauto.
Qed.

(** Increasing addresses with a gap after each block. *)
Fixpoint gaps (l : list (Z * Z)) : Prop :=
  match l with [] => True | (a, s) :: l' => Forall (fun y => a + s < y.1) l' /\ gaps l' end.
Lemma gaps_app x y : gaps (x ++ y) <-> gaps x /\ gaps y /\ Forall (fun u => Forall (fun v => u.1 + u.2 < v.1) y) x.
Proof.
  induction x as [|[a s] x IH]; simpl.
  - split; [|tauto]. intros H. split_and!; [done..|constructor].
  - rewrite Forall_app, IH, Forall_cons. simpl. tauto.
Qed.
Lemma gaps_nodup l : gaps l -> Forall (fun u => 0 <= u.2) l -> NoDup l.*1.
Proof.
  induction l as [|[a s] l IH]; intros Hg Hs; simpl; [constructor|]. destruct Hg as [Ha Hg]. apply Forall_cons in Hs as [H0 Hs]. simpl in H0.
  constructor; [|by apply IH]. intros (y & E & Hy)%list_elem_of_fmap. rewrite Forall_forall in Ha. specialize (Ha y Hy). lia.
Qed.

(** Adding the block [(h, n)] after [(p, ps)], joined with its neighbours. *)
Definition join_right (h n : Z) (l : list (Z * Z)) : list (Z * Z) :=
  match l with (b, t) :: l' => if h + n =? b then (h, n + t) :: l' else (h, n) :: l | [] => [(h, n)] end.
Definition join_left (p ps : Z) (l : list (Z * Z)) : list (Z * Z) :=
  match l with (h, n) :: l' => if p + ps =? h then (p, ps + n) :: l' else (p, ps) :: l | [] => [(p, ps)] end.

Definition before (e : Z) (l : list (Z * Z)) : Prop := Forall (fun v => e < v.1) l.

Lemma join_right_gaps h n l : gaps l -> Forall (fun v => h + n <= v.1) l -> Forall (fun u => 0 <= u.2) l -> 0 <= n ->
  gaps (join_right h n l) /\ forall e, e < h -> before e (join_right h n l).
Proof.
  intros Hg Hb Hs Hn. destruct l as [|[b t] l]; simpl; [split; [done|]; intros e He; by repeat constructor|].
  destruct Hg as [H1 Hg]. apply Forall_cons in Hb as [Hb Hbs]. apply Forall_cons in Hs as [Ht Hs]. simpl in *.
  assert (Forall (fun v => h + n < v.1) l) as Hlt by (eapply Forall_impl; [exact H1|]; intros v; simpl; lia).
  destruct (Z.eqb_spec (h + n) b) as [<-|Hne].
  - split; [split; [|done]|].
    + eapply Forall_impl; [exact H1|]. intros v. simpl. lia.
    + intros e He. constructor; [done|]. eapply Forall_impl; [exact Hlt|]. intros v. simpl. lia.
  - split; [split; [constructor; [simpl; lia|done]|by split]|].
    intros e He. constructor; [done|]. constructor; [simpl; lia|]. eapply Forall_impl; [exact Hlt|]. intros v. simpl. lia.
Qed.
Lemma join_left_gaps p ps l : gaps l -> Forall (fun v => p + ps <= v.1) l -> Forall (fun u => 0 < u.2) l -> 0 <= ps ->
  gaps (join_left p ps l).
Proof.
  intros Hg Hb Hs Hp. destruct l as [|[h n] l]; simpl; [done|]. destruct Hg as [H1 Hg]. apply Forall_cons in Hb as [Hb _].
  apply Forall_cons in Hs as [Hn _]. simpl in *. destruct (Z.eqb_spec (p + ps) h) as [<-|Hne].
  - split; [|done]. eapply Forall_impl; [exact H1|]. intros v. simpl. lia.
  - split; [|by split]. constructor; [simpl; lia|]. eapply Forall_impl; [exact H1|]. intros v. simpl. lia.
Qed.

(** ** The search of free *)

Definition stops (bp a n : Z) : bool := ((a <? bp) && (bp <? n)) || ((n <=? a) && ((a <? bp) || (bp <? n))).

Lemma free_loop_Ok bp p ps t last : forall q fuel s, linked (units s) (q ++ (p, ps) :: t) last ->
  Forall (fun u => stops bp u.1 (h_ptr (units s u.1)) = false) q -> stops bp p (h_ptr (units s p)) = true -> (length q < fuel)%nat ->
  free_loop fuel bp (hd_addr (q ++ (p, ps) :: t) last) s = Ok p s.
Proof.
  induction q as [|[a sz] q IH]; intros fuel s Hl Hq Hp Hf; (destruct fuel as [|f]; [simpl in Hf; lia|]).
  - simpl. unfold ptr. rewrite bind_gets. unfold stops in Hp. destruct ((p <? bp) && _); [done|]. simpl in Hp. by rewrite Hp.
  - cbn [app hd_addr free_loop]. destruct Hl as [Ha Hl]. apply Forall_cons in Hq as [Hqa Hq]. unfold stops in Hqa. simpl in Hqa.
    apply orb_false_iff in Hqa as [H1 H2]. unfold ptr. rewrite bind_gets, H1, H2. rewrite Ha. simpl. apply IH; [done..|simpl in Hf; lia].
Qed.

(** The last block below an address. *)
Lemma split_below h : forall l b t, gaps ((b, t) :: l) -> b < h -> Forall (fun u => u.1 <> h) l -> Forall (fun u => 0 <= u.2) ((b, t) :: l) ->
  exists x p ps y, (b, t) :: l = x ++ (p, ps) :: y /\ p < h /\ before h y.
Proof.
  induction l as [|[c u] l IH]; intros b t Hg Hb Hne Hs; [exists [], b, t, []; by repeat constructor|].
  destruct Hg as [H1 Hg]. apply Forall_cons in Hs as [_ Hs]. apply Forall_cons in Hne as [Hc Hne]. simpl in Hc. destruct (Z.lt_ge_cases c h) as [Hlt|Hge].
  - destruct (IH c u Hg Hlt Hne Hs) as (x & p & ps & y & -> & Hp & Hy). by exists ((b, t) :: x), p, ps, y.
  - exists [], b, t, ((c, u) :: l). split_and!; [done..|]. destruct Hg as [H2 _]. apply Forall_cons in Hs as [Hu _]. simpl in Hu.
    constructor; [simpl; lia|]. eapply Forall_impl; [exact H2|]. intros v. simpl. lia.
Qed.

Section ring_of_blocks.
Context (base : Z) (m : Z -> header) (l : list (Z * Z)).
Local Notation N := ((base, 0) :: l).
Hypothesis (Hring : ring m N) (Hgaps : gaps N) (Hpos : Forall (fun u => 0 < u.2) l).

Lemma ring_sizes : Forall (fun u => 0 <= u.2) N.
Proof. constructor; [done|]. eapply Forall_impl; [exact Hpos|]. intros u. simpl. lia. Qed.
Lemma ring_base_le u : u ∈ N -> base <= u.1.
Proof.
  intros [->|Hu]%elem_of_cons; [done|]. destruct Hgaps as [H _]. rewrite Forall_forall in H. specialize (H u Hu). lia.
Qed.
Lemma ring_node x a s y : N = x ++ (a, s) :: y -> m a = mkHeader (hd_addr y base) s.
Proof. intros E. pose proof Hring as H. unfold ring in H. rewrite E in H at 1. by apply linked_app in H as [_ [H _]]. Qed.
Lemma ring_node_in a s : (a, s) ∈ N -> exists x y, N = x ++ (a, s) :: y /\ m a = mkHeader (hd_addr y base) s.
Proof. intros (x & y & E)%list_elem_of_split. exists x, y. split; [done|]. by eapply ring_node. Qed.
Lemma ring_size_of a s : (a, s) ∈ N -> m a = mkHeader (h_ptr (m a)) s.
Proof. intros (x & y & _ & ->)%ring_node_in. done. Qed.

Context (x : list (Z * Z)) (p ps : Z) (y : list (Z * Z)) (h : Z).
Hypothesis (Hsplit : N = x ++ (p, ps) :: y) (Hp : p < h) (Hy : before h y).

Lemma ring_below u : u ∈ N -> u.1 <= p \/ h < u.1.
Proof.
  intros Hu. pose proof Hgaps as G. pose proof ring_sizes as Hs. rewrite Forall_forall in Hs. specialize (Hs u Hu). rewrite Hsplit in G, Hu.
  apply gaps_app in G as (_ & _ & G). rewrite Forall_forall in G. unfold before in Hy. rewrite Forall_forall in Hy.
  apply elem_of_app in Hu as [Hu|[->|Hu]%elem_of_cons]; [|by left|by right; apply Hy].
  left. specialize (G u Hu). apply Forall_cons in G as [G _]. simpl in G. lia.
Qed.
Lemma stops_here : stops h p (h_ptr (m p)) = true.
Proof.
  rewrite (ring_node _ _ _ _ Hsplit). unfold stops. simpl. assert (base <= p) by (apply (ring_base_le (p, ps)); rewrite Hsplit; set_solver).
  destruct y as [|[b t] y']; simpl.
  - destruct (Z.ltb_spec p h); [|lia]. destruct (Z.leb_spec base p); [|lia]. simpl. by rewrite orb_true_r.
  - apply Forall_cons in Hy as [Hb _]. simpl in Hb. destruct (Z.ltb_spec p h); [|lia]. by destruct (Z.ltb_spec h b); [|lia].
Qed.
Lemma stops_only_here u : u ∈ N -> u.1 <> p -> stops h u.1 (h_ptr (m u.1)) = false.
Proof.
  destruct u as [q qs]. simpl. intros Hu Hne. pose proof (ring_below _ Hu) as Hq. pose proof (ring_base_le _ Hu) as Hb0. pose proof ring_sizes as Hs.
  rewrite Forall_forall in Hs. pose proof (Hs _ Hu) as Hqs. simpl in Hq, Hb0, Hqs.
  assert ((p, ps) ∈ N) as Hpin by (rewrite Hsplit; set_solver). pose proof (ring_base_le _ Hpin) as Hbp. pose proof (Hs _ Hpin) as Hps. simpl in Hbp, Hps.
  destruct (ring_node_in _ _ Hu) as (x' & y' & E & ->). unfold stops. simpl. pose proof Hgaps as G. rewrite E in G.
  assert (p < q \/ (p, ps) ∈ y') as Hwhere.
  { rewrite E in Hpin. apply elem_of_app in Hpin as [Hpin|[Hpin|Hpin]%elem_of_cons]; [left|congruence|by right].
    apply gaps_app in G as (_ & _ & G). rewrite Forall_forall in G. specialize (G _ Hpin). apply Forall_cons in G as [G _]. simpl in G. lia. }
  apply gaps_app in G as (_ & [G1 G2] & _). destruct y' as [|[b t] y']; simpl in *.
  - destruct Hwhere as [Hpq|Hin]; [|by apply elem_of_nil in Hin]. lia.
  - assert ((b, t) ∈ N) as Hbin by (rewrite E; set_solver). pose proof (ring_below _ Hbin) as Hbb. pose proof (Hs _ Hbin) as Ht. simpl in Hbb, Ht.
    apply Forall_cons in G1 as [G1 _]. simpl in G1. destruct G2 as [G2 _].
    destruct Hwhere as [Hpq|[Hin|Hin]%elem_of_cons]; [lia|simplify_eq; lia|]. rewrite Forall_forall in G2. specialize (G2 _ Hin). simpl in G2. lia.
Qed.
End ring_of_blocks.

(** ** free *)

Lemma setu_same m a h : setu m a h a = h.
Proof. unfold setu. by rewrite Z.eqb_refl. Qed.
Lemma setu_other m a h k : k <> a -> setu m a h k = m k.
Proof. unfold setu. by destruct (Z.eqb_spec k a). Qed.

(** The writes of [free] once the predecessor [p] is known: the header it
    leaves in the block and the header it leaves in [p]. *)
Definition right_header (m : Z -> header) (h n q : Z) : header :=
  if h + n =? q then mkHeader (h_ptr (m q)) (u32 (n + h_size (m q))) else mkHeader q n.
Definition left_header (p ps h : Z) (r : header) : header :=
  if p + ps =? h then mkHeader (h_ptr r) (u32 (ps + h_size r)) else mkHeader h ps.

Lemma free_writes fuel s h n p q ps : free_loop fuel h (freep s) s = Ok p s -> units s p = mkHeader q ps ->
  h_size (units s h) = n -> p <> h -> q <> h ->
  exists s', free fuel (h + 1) s = Ok tt s' /\ freep s' = p /\ brk s' = brk s /\ limit s' = limit s /\
    units s' h = right_header (units s) h n q /\ units s' p = left_header p ps h (units s' h) /\
    (forall k, k <> h -> k <> p -> units s' k = units s k).
Proof.
  intros Hloop Hp Hh Hph Hqh. unfold free. rewrite bind_gets. replace (h + 1 - 1) with h by lia. erewrite bind_Ok by exact Hloop.
  assert ((p =? h) = false /\ (h =? p) = false /\ (q =? h) = false) as (E1 & E2 & E3) by (split_and!; apply Z.eqb_neq; lia).
  unfold ptr, size, set_ptr, set_size. rewrite !bind_gets, Hp, Hh. cbn [h_ptr h_size].
  destruct (h + n =? q) eqn:E; repeat (rewrite ?bind_gets, ?bind_assoc, ?bind_modify; cbn [units put_units h_ptr h_size]);
    unfold setu; rewrite ?Z.eqb_refl, ?E1, ?E2, ?E3, Hp; cbn [h_ptr h_size];
    destruct (p + ps =? h) eqn:E'; repeat (rewrite ?bind_gets, ?bind_assoc, ?bind_modify; cbn [units put_units h_ptr h_size]);
    (eexists; split; [reflexivity|]); cbn [units put_units put_freep freep brk limit];
    unfold right_header, left_header, setu; rewrite E, E', ?Z.eqb_refl, ?E1, ?E2, ?Z.eqb_refl, ?Hp, ?Hh; cbn [h_ptr h_size];
    rewrite ?Z.eqb_refl, ?E1, ?E2; (split_and!; [done..|]); intros k Hk1%Z.eqb_neq Hk2%Z.eqb_neq; by rewrite ?Hk1, ?Hk2.
Qed.

Definition blocks_le (w : Z) (l : list (Z * Z)) : Prop := Forall (fun u => 0 <= u.2 <= w) l.

Lemma ring_replace m m' x y z p : ring m (x ++ y) -> hd_addr y 0 = p -> y <> [] -> hd_addr z 0 = p -> z <> [] ->
  (forall a, a ∈ x.*1 -> m' a = m a) -> linked m' z (hd_addr (x ++ y) 0) -> ring m' (x ++ z).
Proof.
  unfold ring. rewrite !linked_app, !hd_addr_app. destruct y as [|[a s] y]; [done|]. destruct z as [|[b t] z]; [done|].
  simpl. intros [Hx _] -> _ -> _ Hm Hz. split; [|done]. by eapply linked_frame.
Qed.

(** The ring after the writes of [free]. *)
Lemma free_ring m m' x p ps y h n last : linked m ((p, ps) :: y) last -> last <> h + n ->
  0 <= n < 2 ^ 28 -> blocks_le (2 ^ 28) ((p, ps) :: y) -> h ∉ y.*1 -> p ∉ y.*1 ->
  m' h = right_header m h n (hd_addr y last) -> m' p = left_header p ps h (m' h) ->
  (forall k, k <> h -> k <> p -> m' k = m k) -> x = join_left p ps (join_right h n y) -> linked m' x last.
Proof.
  intros [Hp Hy] Hlast Hn [[H0 H1] Hs]%Forall_cons Hhy Hpy Eh Ep Hm ->. simpl in H0, H1.
  assert (linked m' y last) as Hy' by (eapply linked_frame; [|exact Hy]; intros a Ha; apply Hm; set_solver).
  unfold right_header in Eh. unfold left_header in Ep. destruct y as [|[b t] y]; cbn [join_right hd_addr] in *.
  - destruct (Z.eqb_spec (h + n) last); [congruence|]. rewrite Eh in Ep. cbn [join_left]. cbn [h_ptr h_size] in Ep.
    destruct (p + ps =? h) eqn:E; cbn [linked hd_addr]; [rewrite Ep, u32_id by (unfold uint32; lia); done|by rewrite Ep, Eh].
  - apply Forall_cons in Hs as [Ht _]. simpl in Ht. destruct Hy as [Hb Hy]. destruct (h + n =? b) eqn:E1; rewrite Eh in Ep; cbn [join_left h_ptr h_size] in *.
    + rewrite Hb in Eh, Ep. cbn [h_ptr h_size] in Eh, Ep. rewrite (u32_id (n + t)) in Eh, Ep by (unfold uint32; lia).
      destruct (p + ps =? h) eqn:E2; cbn [linked hd_addr]; [rewrite Ep, u32_id by (unfold uint32; lia)|rewrite Ep, Eh]; by destruct Hy'.
    + destruct (p + ps =? h) eqn:E2; cbn [linked hd_addr]; [rewrite Ep, u32_id by (unfold uint32; lia)|rewrite Ep, Eh]; done.
Qed.

(** ** The heap invariant *)

Definition spans (l : list (Z * Z)) : list Z := flat_map (fun u => seqZ u.1 u.2) l.
Lemma spans_app x y : spans (x ++ y) = spans x ++ spans y.
Proof. apply flat_map_app. Qed.
Lemma spans_cons a s l : spans ((a, s) :: l) = seqZ a s ++ spans l.
Proof. done. Qed.
#[global] Instance spans_perm : Proper (Permutation ==> Permutation) spans.
Proof. intros x y H. by apply Permutation_flat_map. Qed.
Lemma elem_of_spans k l : k ∈ spans l <-> exists a s, (a, s) ∈ l /\ a <= k < a + s.
Proof.
  unfold spans. rewrite list_elem_of_In, in_flat_map. split.
  - intros ([a s] & Hl & Hk). exists a, s. rewrite <- list_elem_of_In in Hl. rewrite <- list_elem_of_In in Hk. apply elem_of_seqZ in Hk. split; [done|]. simpl in Hk. lia.
  - intros (a & s & Hl & Hk). exists (a, s). rewrite <- !list_elem_of_In. split; [done|]. apply elem_of_seqZ. simpl. lia.
Qed.
Lemma spans_join_right h n l : 0 <= n -> blocks_le (2 ^ 28) l -> spans (join_right h n l) = spans ((h, n) :: l).
Proof.
  intros Hn Hl. destruct l as [|[b t] l]; [done|]. apply Forall_cons in Hl as [Ht _]. simpl in Ht. cbn [join_right].
  destruct (Z.eqb_spec (h + n) b) as [<-|]; [|done]. cbn [spans flat_map]. simpl. by rewrite seqZ_app, app_assoc by lia.
Qed.
Lemma spans_join_left p ps l : 0 <= ps -> Forall (fun u => 0 <= u.2) l -> spans (join_left p ps l) = spans ((p, ps) :: l).
Proof.
  intros Hn Hl. destruct l as [|[b t] l]; [done|]. apply Forall_cons in Hl as [Ht _]. simpl in Ht. cbn [join_left].
  destruct (Z.eqb_spec (p + ps) b) as [<-|]; [|done]. cbn [spans flat_map]. simpl. by rewrite seqZ_app, app_assoc by lia.
Qed.

Record inv (base : Z) (l live : list (Z * Z)) (s : heap) : Prop := {
  iv_ring : ring (units s) ((base, 0) :: l);
  iv_gaps : gaps ((base, 0) :: l);
  iv_pos : Forall (fun u => 0 < u.2) l;
  iv_freep : freep s ∈ base :: l.*1;
  iv_live : Forall (fun u => h_size (units s u.1) = u.2 /\ 0 < u.2) live;
  iv_nodup : NoDup (spans (l ++ live));
  iv_range : forall k, k ∈ spans (l ++ live) -> base < k < brk s;
  iv_lim : 0 < base < brk s /\ brk s <= limit s < 2 ^ 28 }.

Lemma spans_apart h n l : forall a s, NoDup (spans ((h, n) :: l)) -> (a, s) ∈ l -> 0 < n -> 0 < s -> a + s <= h \/ h + n <= a.
Proof.
  intros a s [H1 [H2 _]]%NoDup_app Hin Hn Hs. destruct (Z.le_gt_cases (a + s) h); [by left|]. destruct (Z.le_gt_cases (h + n) a); [by right|].
  exfalso. apply (H2 (Z.max a h)); [apply elem_of_seqZ; simpl; lia|]. apply elem_of_spans. exists a, s. split; [done|lia].
Qed.

Section heap.
Context (base : Z).

Lemma live_perm l x y s : x ≡ₚ y -> inv base l x s -> inv base l y s.
Proof.
  intros E []. assert (spans (l ++ x) ≡ₚ spans (l ++ y)) as Es by (apply spans_perm; by rewrite E).
  constructor; [done..|by rewrite <- E|by rewrite <- Es|intros k; rewrite <- Es; auto|done].
Qed.

(** Blocks are below the break, so their sizes fit. *)
Lemma inv_sizes l live s : inv base l live s -> blocks_le (2 ^ 28) ((base, 0) :: l).
Proof.
  intros I. constructor; [done|]. apply Forall_forall. intros [a n] Hin. pose proof (iv_pos _ _ _ _ I) as Hp. rewrite Forall_forall in Hp.
  specialize (Hp _ Hin). simpl in *. assert (base < a + n - 1 < brk s) as H1 by (apply (iv_range _ _ _ _ I), elem_of_spans; exists a, n; set_solver by lia).
  assert (base < a < brk s) as H2 by (apply (iv_range _ _ _ _ I), elem_of_spans; exists a, n; set_solver by lia). destruct (iv_lim _ _ _ _ I). lia.
Qed.
Lemma inv_live_bounds l live s h n : inv base l live s -> (h, n) ∈ live -> base < h /\ h + n <= brk s /\ 0 < n < 2 ^ 28.
Proof.
  intros I Hin. pose proof (iv_live _ _ _ _ I) as Hp. rewrite Forall_forall in Hp. destruct (Hp _ Hin) as [_ Hn]. simpl in *.
  assert (base < h + n - 1 < brk s) as H1 by (apply (iv_range _ _ _ _ I), elem_of_spans; exists h, n; set_solver by lia).
  assert (base < h < brk s) as H2 by (apply (iv_range _ _ _ _ I), elem_of_spans; exists h, n; set_solver by lia). destruct (iv_lim _ _ _ _ I). lia.
Qed.
Lemma inv_apart l h n live s a t : inv base l ((h, n) :: live) s -> (a, t) ∈ l ++ live -> a + t <= h \/ h + n <= a.
Proof.
  intros I Hin. assert (spans (l ++ (h, n) :: live) ≡ₚ spans ((h, n) :: l ++ live)) as E by (apply spans_perm; by rewrite Permutation_middle).
  pose proof (iv_nodup _ _ _ _ I) as Hd. rewrite E in Hd. pose proof (iv_pos _ _ _ _ I) as Hp. pose proof (iv_live _ _ _ _ I) as [[_ Hn] Hl]%Forall_cons.
  eapply spans_apart; [exact Hd|done|done|]. rewrite Forall_forall in Hp, Hl. apply elem_of_app in Hin as [Hin|Hin]; [by apply (Hp (a, t))|by apply (Hl (a, t))].
Qed.
Lemma inv_free_live l live s a n k : inv base l live s -> (a, n) ∈ (base, 0) :: l -> k ∈ spans live -> k <> a.
Proof.
  intros I [E|Hin]%elem_of_cons Hk ->.
  - simplify_eq. pose proof (iv_range _ _ _ _ I base). rewrite spans_app, elem_of_app in H. specialize (H (or_intror Hk)). lia.
  - pose proof (iv_nodup _ _ _ _ I) as Hd. rewrite spans_app in Hd. apply NoDup_app in Hd as (_ & Hd & _). apply (Hd a); [|done].
    apply elem_of_spans. exists a, n. split; [done|]. pose proof (iv_pos _ _ _ _ I) as Hp. rewrite Forall_forall in Hp. specialize (Hp _ Hin). simpl in Hp. lia.
Qed.

Lemma inv_freep_in l live s : inv base l live s -> exists c, (freep s, c) ∈ (base, 0) :: l.
Proof.
  intros I. pose proof (iv_freep _ _ _ _ I) as Hfp. change (base :: l.*1) with (((base, 0) :: l).*1) in Hfp.
  apply list_elem_of_fmap in Hfp as ([f c] & -> & Hin). by exists c.
Qed.

Lemma free_loop_finds l h n live s fuel : inv base l ((h, n) :: live) s -> (length l < fuel)%nat ->
  exists x p ps y, (base, 0) :: l = x ++ (p, ps) :: y /\ p < h /\ before h y /\ free_loop fuel h (freep s) s = Ok p s.
Proof.
  intros I Hf. pose proof (inv_live_bounds _ _ _ h n I ltac:(left)) as (Hb & _ & Hn). pose proof (ring_sizes base l (iv_pos _ _ _ _ I)) as Hs.
  destruct (split_below h l base 0 (iv_gaps _ _ _ _ I) Hb) as (x & p & ps & y & E & Hp & Hy); [|done|].
  { apply Forall_forall. intros [a t] Hin. simpl. pose proof (inv_apart _ _ _ _ _ a t I ltac:(set_solver)). pose proof (iv_pos _ _ _ _ I) as Hps.
    rewrite Forall_forall in Hps. specialize (Hps _ Hin). simpl in Hps. lia. }
  exists x, p, ps, y. split_and!; [done..|].
  destruct (inv_freep_in _ _ _ I) as [c (u & v & Euv)%list_elem_of_split].
  pose proof (iv_ring _ _ _ _ I) as Hr. rewrite Euv in Hr. apply ring_rotate in Hr.
  assert ((p, ps) ∈ ((freep s, c) :: v) ++ u) as Hpin by (assert ((p, ps) ∈ (base, 0) :: l) as Hp' by (rewrite E; set_solver); rewrite Euv in Hp'; set_solver).
  assert (((freep s, c) :: v) ++ u ≡ₚ (base, 0) :: l) as Eperm by (rewrite Euv; apply Permutation_app_comm).
  assert (NoDup (((freep s, c) :: v) ++ u).*1) as Hnd by (rewrite Eperm; apply gaps_nodup; [apply (iv_gaps _ _ _ _ I)|done]).
  apply list_elem_of_split in Hpin as (q & t & Eq). rewrite Eq in Hr, Hnd. unfold ring in Hr.
  replace (freep s) with (hd_addr (q ++ (p, ps) :: t) (hd_addr (q ++ (p, ps) :: t) 0)) by (by rewrite <- Eq).
  eapply free_loop_Ok; [exact Hr| | |].
  - apply Forall_forall. intros w Hw. apply (stops_only_here base (units s) l (iv_ring _ _ _ _ I) (iv_gaps _ _ _ _ I) (iv_pos _ _ _ _ I) x p ps y h E Hp Hy).
    + rewrite <- Eperm, Eq. set_solver.
    + intros Ew. rewrite fmap_app in Hnd. apply NoDup_app in Hnd as (_ & Hnd & _). apply (Hnd p); [|left]. rewrite <- Ew. by apply list_elem_of_fmap_2.
  - apply (stops_here base (units s) l (iv_ring _ _ _ _ I) (iv_gaps _ _ _ _ I) (iv_pos _ _ _ _ I) x p ps y h E Hp Hy).
  - apply Permutation_length in Eperm. rewrite Eq, length_app in Eperm. simpl in Eperm. lia.
Qed.

(** The list after the insertion. *)
Definition inserted (x : list (Z * Z)) (p ps : Z) (y : list (Z * Z)) (h n : Z) : list (Z * Z) :=
  x ++ join_left p ps (join_right h n y).

Lemma join_right_pos h n y : 0 < n -> Forall (fun u => 0 < u.2) y -> Forall (fun u => 0 < u.2) (join_right h n y).
Proof.
  intros Hn Hy. destruct y as [|[b t] y]; cbn [join_right]; [by repeat constructor|]. pose proof Hy as [Ht Hy']%Forall_cons. simpl in Ht.
  destruct (_ =? _); constructor; simpl; [lia|done..].
Qed.
Lemma join_right_hd h n y d : hd_addr (join_right h n y) d = h.
Proof. destruct y as [|[b t] y]; cbn [join_right]; [done|]. by destruct (_ =? _). Qed.
Lemma join_left_hd p ps y d : hd_addr (join_left p ps y) d = p.
Proof. destruct y as [|[b t] y]; cbn [join_left]; [done|]. by destruct (_ =? _). Qed.
Lemma join_left_tail p ps y : Forall (fun u => 0 < u.2) y -> 0 < ps -> Forall (fun u => 0 < u.2) (join_left p ps y).
Proof.
  intros Hy Hp. destruct y as [|[b t] y]; cbn [join_left]; [by repeat constructor|]. pose proof Hy as [Ht Hy']%Forall_cons. simpl in Ht.
  destruct (_ =? _); constructor; simpl; [lia|done..].
Qed.
Lemma join_big p ps h n y : 0 <= ps -> 0 <= n -> Forall (fun u => 0 < u.2) y ->
  exists a t, (a, t) ∈ join_left p ps (join_right h n y) /\ n <= t.
Proof.
  intros Hp Hn Hy. assert (exists t y', join_right h n y = (h, t) :: y' /\ n <= t) as (t & y' & -> & Ht).
  { destruct y as [|[b t] y]; cbn [join_right]; [by eexists _, _|]. apply Forall_cons in Hy as [Ht _]. simpl in Ht.
    destruct (_ =? _); eexists _, _; (split; [done|lia]). }
  cbn [join_left]. destruct (_ =? _); [exists p, (ps + t)|exists h, t]; (split; [set_solver|lia]).
Qed.
Lemma join_length p ps h n y : (length (join_left p ps (join_right h n y)) <= S (S (length y)))%nat.
Proof.
  destruct y as [|[b t] y]; cbn [join_right]; [|destruct (_ =? _)]; cbn [join_left]; destruct (_ =? _); simpl; lia.
Qed.

(** The list around the insertion is a list of positive blocks after [base]. *)
Lemma inserted_base l x p ps y h n : (base, 0) :: l = x ++ (p, ps) :: y -> p < h -> 0 < n -> Forall (fun u => 0 < u.2) l ->
  exists l', inserted x p ps y h n = (base, 0) :: l' /\ Forall (fun u => 0 < u.2) l'.
Proof.
  intros E Hp Hn Hl. unfold inserted. destruct x as [|u x]; simplify_eq/=.
  - pose proof (join_right_hd h n y 0) as Hh. pose proof (join_right_pos h n y Hn Hl) as Hj. destruct (join_right h n y) as [|[b t] z].
    + simpl. by exists [].
    + simpl in Hh. subst b. cbn [join_left]. destruct (Z.eqb_spec (p + 0) h); [lia|]. by eexists.
  - apply Forall_app in Hl as [Hx [H0 Hy]%Forall_cons]. eexists. split; [reflexivity|]. apply Forall_app. split; [done|].
    apply join_left_tail; [|done]. by apply join_right_pos.
Qed.

Lemma gaps_hd_le a z u : gaps z -> Forall (fun u => 0 <= u.2) z -> hd_addr z 0 = a -> u ∈ z -> a <= u.1.
Proof.
  destruct z as [|[b t] z]; [set_solver|]. intros [H _] [Ht _]%Forall_cons <- [->|Hu]%elem_of_cons; [done|]. simpl in *.
  rewrite Forall_forall in H. specialize (H u Hu). lia.
Qed.
Lemma inserted_gaps x p ps y h n : gaps (x ++ (p, ps) :: y) -> 0 <= ps -> Forall (fun u => 0 < u.2) y -> 0 < n ->
  p + ps <= h -> Forall (fun v => h + n <= v.1) y -> gaps (inserted x p ps y h n).
Proof.
  intros (Hx & [_ Hy] & Hxy)%gaps_app Hps Hpos Hn Hph Hhy. unfold inserted. pose proof (join_right_pos h n y Hn Hpos) as Hjp.
  assert (Forall (fun u => 0 <= u.2) y) as Hpos' by (eapply Forall_impl; [exact Hpos|]; intros u; simpl; lia).
  destruct (join_right_gaps h n y Hy Hhy Hpos' ltac:(lia)) as [Hg _].
  assert (Forall (fun u => 0 <= u.2) (join_right h n y)) as Hjp' by (eapply Forall_impl; [exact Hjp|]; intros u; simpl; lia).
  assert (gaps (join_left p ps (join_right h n y))) as Hgl.
  { apply join_left_gaps; [done| |done..]. apply Forall_forall. intros u Hu. pose proof (gaps_hd_le h _ u Hg Hjp' (join_right_hd _ _ _ _) Hu). lia. }
  apply gaps_app. split_and!; [done..|]. apply Forall_forall. intros u Hu. rewrite Forall_forall in Hxy. specialize (Hxy u Hu).
  apply Forall_cons in Hxy as [Hup _]. simpl in Hup. apply Forall_forall. intros v Hv.
  assert (p <= v.1); [|lia]. apply (gaps_hd_le p _ v Hgl); [|apply join_left_hd|done].
  destruct (join_right h n y) as [|[b t] z]; cbn [join_left]; [by repeat constructor|]. pose proof Hjp' as [Hb Hz]%Forall_cons. simpl in Hb.
  destruct (_ =? _); constructor; simpl; [lia|done..].
Qed.
Lemma inserted_spans x p ps y h n : 0 <= ps -> Forall (fun u => 0 < u.2) y -> 0 < n -> blocks_le (2 ^ 28) y ->
  spans (inserted x p ps y h n) ≡ₚ spans ((h, n) :: x ++ (p, ps) :: y).
Proof.
  intros Hps Hy Hn Hle. unfold inserted. rewrite spans_app, spans_join_left.
  - rewrite !spans_cons, spans_app, spans_join_right, !spans_cons by (done || lia). rewrite !app_assoc. f_equiv. rewrite <- (app_assoc (seqZ h n)).
    apply Permutation_app_comm.
  - done.
  - eapply Forall_impl; [by apply join_right_pos|]. intros u. simpl. lia.
Qed.

Lemma split_tail l x (p ps : Z) y : (base, 0) :: l = x ++ (p, ps) :: y -> forall u, u ∈ y -> u ∈ l.
Proof. intros E u Hu. destruct x as [|v x]; simplify_eq/=; set_solver. Qed.

(** What surrounds the block being freed. *)
Lemma inv_around l h n live s x p ps y : inv base l ((h, n) :: live) s -> (base, 0) :: l = x ++ (p, ps) :: y -> p < h -> before h y ->
  0 <= ps /\ p + ps <= h /\ Forall (fun u => 0 < u.2) y /\ Forall (fun v => h + n <= v.1) y /\ blocks_le (2 ^ 28) ((p, ps) :: y).
Proof.
  intros I E Hp Hy. pose proof (split_tail _ _ _ _ _ E) as Hyl. assert ((p, ps) ∈ (base, 0) :: l) as Hpin by (rewrite E; set_solver).
  pose proof (inv_sizes _ _ _ I) as Hs. pose proof (iv_pos _ _ _ _ I) as Hpos. rewrite Forall_forall in Hpos.
  pose proof (inv_live_bounds _ _ _ h n I ltac:(left)) as Hb. split_and!.
  - unfold blocks_le in Hs. rewrite Forall_forall in Hs. by apply (Hs (p, ps)).
  - apply elem_of_cons in Hpin as [?|Hpin]; [simplify_eq; lia|]. pose proof (inv_apart _ _ _ _ _ p ps I ltac:(set_solver)). lia.
  - apply Forall_forall. auto.
  - apply Forall_forall. intros [a t] Hu. unfold before in Hy. rewrite Forall_forall in Hy. specialize (Hy _ Hu). specialize (Hpos _ (Hyl _ Hu)).
    pose proof (inv_apart _ _ _ _ _ a t I ltac:(set_solver)). simpl in *. lia.
  - rewrite E in Hs. by apply Forall_app in Hs as [_ Hs].
Qed.

Lemma inserted_ring m m' x p ps y h n : ring m (x ++ (p, ps) :: y) -> hd_addr (x ++ (p, ps) :: y) 0 < h -> 0 < n < 2 ^ 28 ->
  blocks_le (2 ^ 28) ((p, ps) :: y) -> NoDup (x ++ (p, ps) :: y).*1 -> h ∉ (x ++ (p, ps) :: y).*1 ->
  m' h = right_header m h n (hd_addr y (hd_addr (x ++ (p, ps) :: y) 0)) -> m' p = left_header p ps h (m' h) ->
  (forall k, k <> h -> k <> p -> m' k = m k) -> ring m' (inserted x p ps y h n).
Proof.
  intros Hr Hlast Hn Hle Hnd Hh Hmh Hmp Hm. rewrite fmap_app in Hnd, Hh. apply NoDup_app in Hnd as (_ & Hxp & [Hpy _]%NoDup_cons).
  apply ring_replace with m ((p, ps) :: y) p; [done..|apply join_left_hd| | |].
  - intros Ej. pose proof (join_left_hd p ps (join_right h n y) (p + 1)) as Hj. rewrite Ej in Hj. simpl in Hj. lia.
  - intros a Ha. apply Hm; [set_solver|]. intros ->. apply (Hxp p Ha). left.
  - unfold ring in Hr. apply linked_app in Hr as [_ Hr]. apply (free_ring m m' _ p ps y h n _ Hr); [lia|lia|done|set_solver|done..].
Qed.

Lemma free_ok l h n live s fuel : inv base l ((h, n) :: live) s -> (length l < fuel)%nat ->
  exists l' s', free fuel (h + 1) s = Ok tt s' /\ inv base l' live s' /\ brk s' = brk s /\ limit s' = limit s /\
    (forall k, k ∈ spans live -> units s' k = units s k) /\ (length l' <= S (length l))%nat /\ exists a t, (a, t) ∈ l' /\ n <= t.
Proof.
  intros I Hf. destruct (free_loop_finds _ _ _ _ _ _ I Hf) as (x & p & ps & y & E & Hp & Hy & Hloop).
  destruct (inv_around _ _ _ _ _ _ _ _ _ I E Hp Hy) as (Hps & Hph & Hypos & Hhy & Hle).
  pose proof (inv_live_bounds _ _ _ h n I ltac:(left)) as (Hbh & Hhb & Hn). pose proof (iv_live _ _ _ _ I) as [[Hsz _] Hlive]%Forall_cons.
  pose proof (ring_node base (units s) l (iv_ring _ _ _ _ I) x p ps y E) as Hpm.
  assert (base <= p) as Hbp by (apply (ring_base_le base l (iv_gaps _ _ _ _ I) (p, ps)); rewrite E; set_solver).
  assert (hd_addr y base <> h) as Hqh by (destruct y as [|[b t] y]; simpl; [lia|apply Forall_cons in Hhy as [Hb _]; simpl in Hb; lia]).
  destruct (free_writes fuel s h n p _ ps Hloop Hpm Hsz ltac:(lia) Hqh) as (s' & Hrun & Hfp & Hbrk & Hlim & Hmh & Hmp & Hm).
  destruct (inserted_base l x p ps y h n E Hp ltac:(lia) (iv_pos _ _ _ _ I)) as (l' & El' & Hpos').
  assert (ring (units s') ((base, 0) :: l')) as Hring'.
  { rewrite <- El'. eapply inserted_ring; try done; [by rewrite <- E; apply (iv_ring _ _ _ _ I)|..].
    - rewrite <- E. simpl. lia.
    - rewrite <- E. apply gaps_nodup; [apply (iv_gaps _ _ _ _ I)|apply ring_sizes, (iv_pos _ _ _ _ I)].
    - rewrite <- E. intros (u & -> & Hu)%list_elem_of_fmap. pose proof (ring_below base l (iv_gaps _ _ _ _ I) (iv_pos _ _ _ _ I) x p ps y u.1 E Hy u Hu). lia.
    - by rewrite <- E. }
  assert (Hsp : spans (l' ++ live) ≡ₚ spans (l ++ (h, n) :: live)).
  { change (spans (l' ++ live)) with (spans (((base, 0) :: l') ++ live)). rewrite <- El', spans_app, inserted_spans, <- E; [|done|done|lia|by apply Forall_cons in Hle as [_ ?]].
    rewrite <- Permutation_middle, !spans_cons, !spans_app. by rewrite <- !app_assoc. }
  assert (forall k, k ∈ spans live -> units s' k = units s k) as Hframe.
  { intros k Hk. apply Hm; [|apply (inv_free_live _ _ _ p ps k I); [rewrite E; set_solver|rewrite spans_cons; set_solver]].
    intros ->. apply elem_of_spans in Hk as (a & t & Hat & Hk). pose proof (inv_apart _ _ _ _ _ a t I ltac:(set_solver)). lia. }
  exists l', s'. split_and!; try done.
  - constructor; [done| |done| | | | |].
    + rewrite <- El'. apply inserted_gaps; [rewrite <- E; apply (iv_gaps _ _ _ _ I)|done|done|lia|done..].
    + change (freep s' ∈ ((base, 0) :: l').*1). rewrite Hfp, <- El'. unfold inserted. rewrite fmap_app. apply elem_of_app. right.
      pose proof (join_left_hd p ps (join_right h n y) (p + 1)) as Hj. destruct (join_left _ _ _) as [|[b t] z]; simpl in Hj; [lia|subst; left].
    + apply Forall_forall. intros u Hu. rewrite Forall_forall in Hlive. destruct (Hlive u Hu) as [H1 H2]. split; [|done].
      rewrite Hframe; [done|]. apply elem_of_spans. exists u.1, u.2. split; [by destruct u|lia].
    + rewrite Hsp. apply (iv_nodup _ _ _ _ I).
    + intros k. rewrite Hsp, Hbrk. apply (iv_range _ _ _ _ I).
    + rewrite Hbrk, Hlim. apply (iv_lim _ _ _ _ I).
  - apply (f_equal length) in E, El'. unfold inserted in El'. rewrite length_app in E, El'. pose proof (join_length p ps h n y). simpl in *. lia.
  - destruct (join_big p ps h n y Hps ltac:(lia) Hypos) as (a & t & Hin & Ht). exists a, t. split; [|done].
    assert ((a, t) ∈ (base, 0) :: l') as [?|?]%elem_of_cons by (rewrite <- El'; unfold inserted; set_solver); [simplify_eq; lia|done].
Qed.

(** ** malloc *)

Lemma inv_nodup_addr l live s : inv base l live s -> NoDup ((base, 0) :: l).*1.
Proof. intros I. apply gaps_nodup; [apply (iv_gaps _ _ _ _ I)|apply ring_sizes, (iv_pos _ _ _ _ I)]. Qed.

(** The loop passes over blocks that are too small. *)
Lemma malloc_loop_walk nu s p sz t last : forall q prev, linked (units s) (q ++ (p, sz) :: t) last ->
  Forall (fun u => u.2 < nu /\ u.1 <> freep s) q -> h_ptr (units s prev) = hd_addr (q ++ (p, sz) :: t) last ->
  exists prev', (prev' = prev \/ prev' ∈ q.*1) /\ h_ptr (units s prev') = p /\
    forall fuel, malloc_loop (length q + fuel) nu prev (hd_addr (q ++ (p, sz) :: t) last) s = malloc_loop fuel nu prev' p s.
Proof.
  induction q as [|[a c] q IH]; intros prev Hl Hq Hprev; [exists prev; by split_and!; [left|..]|].
  destruct Hl as [Ha Hl]. apply Forall_cons in Hq as [[Hc Hf] Hq]. simpl in Hc, Hf. destruct (IH a Hl Hq) as (prev' & Hin & Hp & Hrun); [by rewrite Ha|].
  exists prev'. split; [destruct Hin; set_solver|]. split; [done|]. intros fuel. rewrite <- Hrun. cbn [length Nat.add malloc_loop app hd_addr].
  unfold size, ptr. rewrite !bind_gets, Ha. cbn [h_size h_ptr]. destruct (Z.leb_spec nu c); [lia|].
  rewrite bind_gets. apply Z.eqb_neq in Hf. by rewrite Hf, bind_gets, Ha.
Qed.

(** A list as seen from [prev], its node before the block [p]. *)
Lemma inv_pred l live s prev p sz : inv base l live s -> prev ∈ ((base, 0) :: l).*1 -> h_ptr (units s prev) = p -> (p, sz) ∈ l ->
  exists x ps y, (base, 0) :: l = x ++ (prev, ps) :: (p, sz) :: y.
Proof.
  intros I ([a ps] & -> & Hin)%list_elem_of_fmap Hptr Hp. simpl in *.
  destruct (ring_node_in base (units s) l (iv_ring _ _ _ _ I) _ _ Hin) as (x & y & E & Hm). rewrite Hm in Hptr. simpl in Hptr.
  pose proof (iv_gaps _ _ _ _ I) as [Hb _]. rewrite Forall_forall in Hb. specialize (Hb _ Hp). simpl in Hb.
  destruct y as [|[b t] y]; simpl in Hptr; [lia|]. subst b. exists x, ps, y. rewrite E. repeat f_equal.
  pose proof (ring_size_of base (units s) l (iv_ring _ _ _ _ I) p sz ltac:(set_solver)) as H1.
  pose proof (ring_size_of base (units s) l (iv_ring _ _ _ _ I) p t ltac:(rewrite E; set_solver)) as H2. congruence.
Qed.

(** Replacing the blocks after [(q, qs)] in the ring. *)
Lemma ring_after m m' x q qs qs' y z : ring m (x ++ (q, qs) :: y) -> (forall a, a ∈ x.*1 -> m' a = m a) ->
  linked m' ((q, qs') :: z) (hd_addr (x ++ (q, qs) :: y) 0) -> ring m' (x ++ (q, qs') :: z).
Proof. intros H Hx Hz. by apply ring_replace with m ((q, qs) :: y) q. Qed.

(** What the list of blocks and the live blocks need to keep the invariant. *)
Lemma inv_change l live s l' live' s' : inv base l live s -> ring (units s') ((base, 0) :: l') -> gaps ((base, 0) :: l') ->
  Forall (fun u => 0 < u.2) l' -> freep s' ∈ ((base, 0) :: l').*1 -> Forall (fun u => h_size (units s' u.1) = u.2 /\ 0 < u.2) live' ->
  spans (l' ++ live') ≡ₚ spans (l ++ live) -> brk s' = brk s -> limit s' = limit s -> inv base l' live' s'.
Proof.
  intros I H1 H2 H3 H4 H5 Hsp Hb Hl. constructor; [done..| | |].
  - rewrite Hsp. apply (iv_nodup _ _ _ _ I).
  - intros k. rewrite Hsp, Hb. apply (iv_range _ _ _ _ I).
  - rewrite Hb, Hl. apply (iv_lim _ _ _ _ I).
Qed.

Lemma live_frame l live s m' : inv base l live s -> (forall k, k ∈ spans live -> m' k = units s k) ->
  Forall (fun u => h_size (m' u.1) = u.2 /\ 0 < u.2) live.
Proof.
  intros I Hm. pose proof (iv_live _ _ _ _ I) as Hl. rewrite Forall_forall in Hl. apply Forall_forall. intros u Hu. destruct (Hl u Hu). split; [|done].
  rewrite Hm; [done|]. apply elem_of_spans. exists u.1, u.2. split; [by destruct u|lia].
Qed.

(** Taking a whole block out of the list. *)
Lemma take_whole l live s x q qs p sz y s' : inv base l live s -> (base, 0) :: l = x ++ (q, qs) :: (p, sz) :: y ->
  s' = put_freep q (put_units (setu (units s) q (mkHeader (h_ptr (units s p)) (h_size (units s q)))) s) ->
  exists l', inv base l' ((p, sz) :: live) s' /\ forall k, k ∈ spans live -> units s' k = units s k.
Proof.
  intros I E ->. pose proof (iv_ring _ _ _ _ I) as Hr. pose proof (iv_gaps _ _ _ _ I) as Hg. pose proof (inv_nodup_addr _ _ _ I) as Hnd.
  assert (forall k, k <> q -> setu (units s) q (mkHeader (h_ptr (units s p)) (h_size (units s q))) k = units s k) as Hm by (intros; by apply setu_other).
  pose proof (ring_node base (units s) l Hr x q qs ((p, sz) :: y) E) as Hq.
  pose proof (ring_node base (units s) l Hr (x ++ [(q, qs)]) p sz y ltac:(by rewrite E, <- app_assoc)) as Hp.
  assert (exists l', x ++ (q, qs) :: y = (base, 0) :: l' /\ (p, sz) :: l' ≡ₚ l) as (l' & E' & El').
  { destruct x as [|v x]; simplify_eq/=; eexists; (split; [reflexivity|]); [done|]. rewrite Permutation_middle. f_equiv. constructor. }
  rewrite E in Hr, Hg, Hnd. rewrite fmap_app, !fmap_cons in Hnd. apply NoDup_app in Hnd as (_ & Hxq & [Hqp [Hpy Hnd]%NoDup_cons]%NoDup_cons).
  apply gaps_app in Hg as (Hg1 & [Hg2 [Hg3 Hg4]] & Hg5). assert (q <> p) as Hqp' by set_solver.
  assert (forall k, k ∈ spans live -> k <> q) as Hk by (intros k Hk; apply (inv_free_live l live s q qs k I); [rewrite E; set_solver|done]).
  pose proof (iv_pos _ _ _ _ I) as Hpos. rewrite <- El' in Hpos. apply Forall_cons in Hpos as [Hsz Hpos].
  exists l'. split; [|intros k Hkin; apply Hm; auto]. apply (inv_change l live s); try done; rewrite <- ?E'; cbn [units put_units put_freep].
  - eapply ring_after; [exact Hr|intros a Ha; apply Hm; set_solver|]. rewrite <- E. cbn [linked hd_addr].
    split; [by rewrite setu_same, Hp, Hq|]. unfold ring in Hr. rewrite <- E in Hr at 2. apply linked_app in Hr as [_ (_ & _ & Hr)].
    eapply linked_frame; [|exact Hr]. intros a Ha. apply Hm. set_solver.
  - apply gaps_app. split_and!; [done|split; [by apply Forall_cons in Hg2 as [_ ?]|done]|]. eapply Forall_impl; [exact Hg5|].
    intros u. rewrite !Forall_cons. tauto.
  - rewrite fmap_app. set_solver.
  - constructor; [|by eapply live_frame; [exact I|intros k Hkin; apply Hm; auto]]. simpl. rewrite Hm by done. by rewrite Hp.
  - rewrite <- El'. rewrite <- Permutation_middle. done.
Qed.

(** Taking the end of a larger block. *)
Lemma take_end l live s x q p sz nu y r s' m' : inv base l live s -> (base, 0) :: l = x ++ (p, sz) :: y -> q ∈ x.*1 -> 0 < nu < sz ->
  r = p + (sz - nu) -> h_size (m' r) = nu -> m' p = mkHeader (h_ptr (units s p)) (sz - nu) -> (forall k, k <> p -> k <> r -> m' k = units s k) ->
  s' = put_freep q (put_units m' s) ->
  exists l', inv base l' ((r, nu) :: live) s' /\ forall k, k ∈ spans live -> units s' k = units s k.
Proof.
  intros I E Hqx Hnu Hr Hmr Hmp Hm ->. pose proof (iv_ring _ _ _ _ I) as Hring. pose proof (iv_gaps _ _ _ _ I) as Hg. pose proof (inv_nodup_addr _ _ _ I) as Hnd.
  pose proof (ring_node base (units s) l Hring x p sz y E) as Hp. pose proof (iv_pos _ _ _ _ I) as Hpos.
  assert (exists x', x = (base, 0) :: x' /\ l = x' ++ (p, sz) :: y) as (x' & Ex & El) by (destruct x as [|v x]; simplify_eq/=; [set_solver|by eexists]).
  assert (spans ((x' ++ (p, sz - nu) :: y) ++ (r, nu) :: live) ≡ₚ spans (l ++ live)) as Hsp.
  { rewrite El, !spans_app, !spans_cons. replace (seqZ p sz) with (seqZ p (sz - nu) ++ seqZ r nu) by (rewrite Hr, <- seqZ_app by lia; f_equal; lia).
    rewrite <- !app_assoc. do 2 f_equiv. apply Permutation_app_swap_app. }
  assert (forall u, u ∈ x ++ y -> u.1 <> p /\ u.1 <> r) as Hother.
  { intros u Hu. rewrite E in Hg. apply gaps_app in Hg as (_ & [Hg2 _] & Hg3). rewrite Forall_forall in Hg2, Hg3.
    assert (0 <= u.2) as H0 by (pose proof (ring_sizes base l Hpos) as Hs; rewrite Forall_forall in Hs; apply Hs; rewrite E; set_solver).
    apply elem_of_app in Hu as [Hu|Hu]; [specialize (Hg3 u Hu); apply Forall_cons in Hg3 as [Hg3 _]; simpl in Hg3|specialize (Hg2 u Hu)]; lia. }
  assert (forall k, k ∈ spans live -> m' k = units s k) as Hlive.
  { intros k Hk. apply Hm; [apply (inv_free_live l live s p sz k I); [rewrite E; set_solver|done]|]. intros ->.
    pose proof (iv_nodup _ _ _ _ I) as Hd. rewrite spans_app in Hd. apply NoDup_app in Hd as (_ & Hd & _). apply (Hd r); [|done].
    apply elem_of_spans. exists p, sz. split; [set_solver|lia]. }
  exists (x' ++ (p, sz - nu) :: y). split; [|done].
  apply (inv_change l live s); try done; change ((base, 0) :: x' ++ (p, sz - nu) :: y) with (((base, 0) :: x') ++ (p, sz - nu) :: y); rewrite <- ?Ex; cbn [units put_units put_freep freep].
  - rewrite E in Hring. eapply ring_after; [exact Hring| |].
    + intros a (u & -> & Hu)%list_elem_of_fmap. apply Hm; apply Hother; set_solver.
    + rewrite <- E. cbn [linked hd_addr]. split; [by rewrite Hmp, Hp|]. unfold ring in Hring. rewrite <- E in Hring at 2.
      apply linked_app in Hring as [_ [_ Hring]]. eapply linked_frame; [|exact Hring]. intros a (u & -> & Hu)%list_elem_of_fmap. apply Hm; apply Hother; set_solver.
  - rewrite E in Hg. apply gaps_app in Hg as (Hg1 & [Hg2 Hg3] & Hg4). apply gaps_app. split_and!; [done|split; [|done]|].
    + eapply Forall_impl; [exact Hg2|]. intros u. simpl. lia.
    + eapply Forall_impl; [exact Hg4|]. intros u. rewrite !Forall_cons. done.
  - rewrite El in Hpos. rewrite Forall_app, Forall_cons in Hpos |- *. simpl. split_and!; [apply Hpos|lia|apply Hpos].
  - rewrite fmap_app. set_solver.
  - constructor; [simpl; lia|by eapply live_frame].
Qed.

(** The result of a search that reaches a large enough block. *)
Lemma malloc_found l live s prev p sz nu fuel : inv base l live s -> prev ∈ ((base, 0) :: l).*1 -> h_ptr (units s prev) = p -> (p, sz) ∈ l ->
  0 < nu <= sz -> exists r l' s', malloc_loop (S fuel) nu prev p s = Ok (r + 1) s' /\ inv base l' ((r, nu) :: live) s' /\
    limit s' = limit s /\ brk s' = brk s /\ forall k, k ∈ spans live -> units s' k = units s k.
Proof.
  intros I Hprev Hptr Hp Hnu. destruct (inv_pred _ _ _ _ _ _ I Hprev Hptr Hp) as (x & ps & y & E).
  pose proof (ring_size_of base (units s) l (iv_ring _ _ _ _ I) p sz ltac:(set_solver)) as Hm. cbn [malloc_loop].
  unfold size, ptr, set_ptr, set_size. rewrite bind_gets, Hm. cbn [h_size]. destruct (Z.leb_spec nu sz); [|lia].
  destruct (Z.eqb_spec sz nu) as [->|Hne]; rewrite ?bind_assoc, ?bind_gets; repeat rewrite ?bind_assoc, ?bind_modify, ?bind_ret.
  - destruct (take_whole _ _ _ _ _ _ _ _ _ _ I E eq_refl) as (l' & I' & Hf). exists p, l'. eexists. split; [reflexivity|]. by split_and!.
  - edestruct (take_end l live s (x ++ [(prev, ps)]) prev p sz nu y (p + (sz - nu))) as (l' & I' & Hf);
      [exact I|by rewrite E, <- app_assoc|rewrite fmap_app; set_solver|lia|done| | | |reflexivity|].
    4: { exists (p + (sz - nu)), l'. eexists. split; [reflexivity|]. by split_and!. }
    + cbn [units put_units]. by rewrite setu_same.
    + cbn [units put_units]. rewrite setu_other by lia. by rewrite setu_same.
    + intros k Hk1 Hk2. cbn [units put_units]. by rewrite !setu_other.
Qed.

(** From [freep] the search sees the whole list and comes back to [freep]. *)
Lemma ring_from_freep l live s : inv base l live s ->
  exists w c, (base, 0) :: l ≡ₚ w ++ [(freep s, c)] /\ linked (units s) (w ++ [(freep s, c)]) (hd_addr (w ++ [(freep s, c)]) 0) /\
    h_ptr (units s (freep s)) = hd_addr (w ++ [(freep s, c)]) 0 /\ Forall (fun u => u.1 <> freep s) w.
Proof.
  intros I. destruct (inv_freep_in _ _ _ I) as [c (u & v & E)%list_elem_of_split].
  pose proof (iv_ring _ _ _ _ I) as Hr. pose proof (inv_nodup_addr _ _ _ I) as Hnd. rewrite E in Hr, Hnd.
  replace (u ++ (freep s, c) :: v) with ((u ++ [(freep s, c)]) ++ v) in Hr by (by rewrite <- app_assoc).
  apply ring_rotate in Hr. rewrite app_assoc in Hr. exists (v ++ u), c.
  split; [rewrite E, <- Permutation_middle, (Permutation_app_comm u v); apply Permutation_cons_append|]. split; [exact Hr|]. split.
  - unfold ring in Hr. apply linked_app in Hr as [_ [Hr _]]. by rewrite Hr.
  - apply Forall_forall. intros w Hw Ew. rewrite fmap_app in Hnd. apply NoDup_app in Hnd as (_ & H1 & [H2 _]%NoDup_cons).
    apply elem_of_app in Hw as [Hw|Hw]; apply (list_elem_of_fmap_2 fst) in Hw; rewrite Ew in Hw; [done|]. apply (H1 _ Hw). left.
Qed.

Lemma first_large nu (l : list (Z * Z)) : Forall (fun u => u.2 < nu) l \/
  exists q p sz t, l = q ++ (p, sz) :: t /\ nu <= sz /\ Forall (fun u => u.2 < nu) q.
Proof.
  induction l as [|[a s] l [IH|(q & p & sz & t & -> & Hsz & Hq)]]; [by left|..]; (destruct (Z.lt_ge_cases s nu); [|right; eexists [], a, s, _; by repeat constructor]).
  - left. by constructor.
  - right. exists ((a, s) :: q), p, sz, t. split_and!; [done..|by constructor].
Qed.

(** A search from [freep]: it takes a large enough block if there is one, and
    otherwise arrives back at [freep]. *)
Lemma search l live s nu : inv base l live s -> 0 < nu ->
  (Forall (fun u => u.2 < nu) l /\ exists prev, forall fuel,
     malloc_loop (length l + fuel) nu (freep s) (h_ptr (units s (freep s))) s = malloc_loop fuel nu prev (freep s) s) \/
  ((exists a t, (a, t) ∈ l /\ nu <= t) /\ forall fuel, (length l < fuel)%nat -> exists r l' s',
     malloc_loop fuel nu (freep s) (h_ptr (units s (freep s))) s = Ok (r + 1) s' /\ inv base l' ((r, nu) :: live) s' /\
     limit s' = limit s /\ brk s' = brk s /\ forall k, k ∈ spans live -> units s' k = units s k).
Proof.
  intros I Hnu. destruct (ring_from_freep _ _ _ I) as (w & c & Ew & Hl & Hptr & Hne). pose proof (Permutation_length Ew) as Hlen.
  rewrite length_app in Hlen. simpl in Hlen. destruct (first_large nu (w ++ [(freep s, c)])) as [Hs|(q & p & sz & t & Eq & Hsz & Hq)].
  - left. rewrite <- Ew in Hs. pose proof Hs as [_ Hsl]%Forall_cons. split; [done|]. rewrite Ew in Hs. apply Forall_app in Hs as [Hs _].
    replace (length l) with (length w) by lia. rewrite Hptr.
    destruct (malloc_loop_walk nu s (freep s) c [] _ w (freep s) Hl) as (prev & _ & _ & Hrun); [by apply Forall_and|by rewrite Hptr; destruct w as [|[]]|].
    exists prev. intros fuel. rewrite <- Hrun. by destruct w as [|[]].
  - right. assert ((p, sz) ∈ l) as Hp.
    { assert ((p, sz) ∈ (base, 0) :: l) as [?|?]%elem_of_cons by (rewrite Ew, Eq; set_solver); [simplify_eq; lia|done]. }
    split; [by exists p, sz|]. intros fuel Hf. assert (length q <= length l)%nat as Hql by (apply (f_equal length) in Eq; rewrite !length_app in Eq; simpl in Eq; lia).
    assert (Forall (fun u => u.2 < nu /\ u.1 <> freep s) q) as Hq'.
    { apply Forall_and. split; [done|]. destruct t as [|v t' _] using rev_ind.
      - apply app_inj_tail in Eq as [-> _]. done.
      - rewrite app_comm_cons, app_assoc in Eq. apply app_inj_tail in Eq as [-> _]. by apply Forall_app in Hne as [? _]. }
    rewrite Eq in Hl, Hptr. destruct (malloc_loop_walk nu s p sz t _ q (freep s) Hl Hq') as (prev & Hprev & Hpp & Hrun);
      [by rewrite Hptr; destruct q as [|[]]|].
    assert (h_ptr (units s (freep s)) = hd_addr (q ++ (p, sz) :: t) (hd_addr (q ++ (p, sz) :: t) 0)) as -> by (by rewrite Hptr; destruct q as [|[]]).
    replace fuel with (length q + S (fuel - length q - 1))%nat by lia. rewrite Hrun. apply (malloc_found l live s prev p sz); [done| |done..|lia].
    destruct Hprev as [->|Hprev]; [apply (iv_freep _ _ _ _ I)|]. rewrite Ew, Eq, fmap_app. set_solver.
Qed.

(** ** morecore *)

Definition core_units (nu : Z) : Z := if nu <? 4096 then 4096 else nu.

(** Memory above the break becomes a live block. *)
Lemma inv_grow l live s n m' : inv base l live s -> 0 < n -> brk s + n <= limit s -> h_size (m' (brk s)) = n ->
  (forall k, k <> brk s -> m' k = units s k) -> inv base l ((brk s, n) :: live) (put_units m' (put_brk (brk s + n) s)).
Proof.
  intros I Hn Hlim Hsz Hm. pose proof (iv_range _ _ _ _ I) as Hrange. destruct (iv_lim _ _ _ _ I) as [Hb Hl].
  assert (forall k, k ∈ spans live -> m' k = units s k) as Hlive.
  { intros k Hk. apply Hm. assert (base < k < brk s); [|lia]. apply Hrange. rewrite spans_app. set_solver. }
  assert (spans (l ++ (brk s, n) :: live) ≡ₚ seqZ (brk s) n ++ spans (l ++ live)) as Hsp by (rewrite <- Permutation_middle; done).
  constructor; cbn [units put_units put_brk brk limit freep]; try apply I.
  - eapply linked_frame; [|apply (iv_ring _ _ _ _ I)]. intros a ([b t] & -> & Hin)%list_elem_of_fmap. apply Hm. simpl.
    apply elem_of_cons in Hin as [?|Hin]; [simplify_eq; lia|]. assert (base < b < brk s); [|lia]. apply Hrange, elem_of_spans. exists b, t.
    split; [set_solver|]. pose proof (iv_pos _ _ _ _ I) as Hp. rewrite Forall_forall in Hp. specialize (Hp _ Hin). simpl in Hp. lia.
  - constructor; [done|]. by eapply live_frame.
  - rewrite Hsp. apply NoDup_app. split_and!; [apply NoDup_seqZ| |apply (iv_nodup _ _ _ _ I)].
    intros k Hk Hk'. apply elem_of_seqZ in Hk. specialize (Hrange k Hk'). lia.
  - intros k. rewrite Hsp. intros [Hk%elem_of_seqZ|Hk%Hrange]%elem_of_app; lia.
  - lia.
Qed.

Lemma core_units_range nu : nu < 2 ^ 28 -> 0 < core_units nu < 2 ^ 28 /\ nu <= core_units nu.
Proof. unfold core_units. destruct (Z.ltb_spec nu 4096); lia. Qed.

Lemma sbrk_units n s : 0 < n < 2 ^ 28 ->
  sbrk (u32 (n * sizeof_Header)) s = if brk s + n <=? limit s then Ok (Some (brk s)) (put_brk (brk s + n) s) else Ok None s.
Proof.
  intros Hn. unfold sbrk, sizeof_Header. rewrite bind_gets. unfold id. rewrite u32_id, s32_id, Z.div_mul by (unfold uint32, int32; lia || done).
  destruct (Z.ltb_spec n 0); [lia|]. by destruct (_ <=? _).
Qed.

Lemma morecore_ok l live s nu fuel : inv base l live s -> nu < 2 ^ 28 -> (length l < fuel)%nat ->
  if brk s + core_units nu <=? limit s
  then exists l' s', morecore fuel nu s = Ok (freep s') s' /\ inv base l' live s' /\ limit s' = limit s /\
    (forall k, k ∈ spans live -> units s' k = units s k) /\ (length l' <= S (length l))%nat /\ exists a t, (a, t) ∈ l' /\ nu <= t
  else morecore fuel nu s = Ok 0 s.
Proof.
  intros I Hnu Hf. destruct (core_units_range nu Hnu) as [Hc Hle]. unfold morecore. fold (core_units nu).
  pose proof (sbrk_units (core_units nu) s Hc) as Hs. destruct (Z.leb_spec (brk s + core_units nu) (limit s)) as [Hlim|Hlim]; erewrite bind_Ok by exact Hs; [|done].
  unfold set_size. rewrite bind_modify. cbn [units put_brk]. 
  pose proof (inv_grow l live s (core_units nu) (setu (units s) (brk s) (mkHeader (h_ptr (units s (brk s))) (core_units nu))) I ltac:(lia) Hlim) as I1.
  specialize (I1 ltac:(by rewrite setu_same) ltac:(intros; by apply setu_other)).
  destruct (free_ok _ _ _ _ _ _ I1 Hf) as (l' & s' & Hfree & I' & _ & Hl' & Hfr & Hlen & a & t & Hat & Ht). exists l', s'.
  erewrite bind_Ok by exact Hfree. split_and!; try done; [|exists a, t; split; [done|lia]]. intros k Hk. rewrite Hfr by done. apply setu_other.
  pose proof (iv_range _ _ _ _ I k ltac:(rewrite spans_app; set_solver)). lia.
Qed.

Definition malloc_units (nbytes : Z) : Z := u32 (nbytes + sizeof_Header - 1) / sizeof_Header + 1.
Definition refused (l : list (Z * Z)) (s : heap) (nu : Z) : Prop :=
  Forall (fun u => u.2 < nu) l /\ limit s < brk s + core_units nu.

(** Whatever the list holds, the search returns: with a new block, or with 0
    when no block is large enough and the kernel refuses more memory. *)
Lemma malloc_search l live s nu fuel : inv base l live s -> 0 < nu < 2 ^ 28 -> (2 * length l + 3 < fuel)%nat ->
  (refused l s nu /\ malloc_loop fuel nu (freep s) (h_ptr (units s (freep s))) s = Ok 0 s) \/
  (~ refused l s nu /\ exists r l' s', malloc_loop fuel nu (freep s) (h_ptr (units s (freep s))) s = Ok (r + 1) s' /\
    inv base l' ((r, nu) :: live) s' /\ limit s' = limit s /\ forall k, k ∈ spans live -> units s' k = units s k).
Proof.
  intros I Hnu Hf. destruct (search l live s nu I ltac:(lia)) as [[Hs (prev & Hrun)]|[(a & t & Hat & Ht) Hfound]].
  2: { right. split; [intros [Hr _]; rewrite Forall_forall in Hr; specialize (Hr _ Hat); simpl in Hr; lia|].
       destruct (Hfound fuel ltac:(lia)) as (r & l' & s' & H1 & H2 & H3 & _ & H4). by exists r, l', s'. }
  pose proof (Hrun (S (fuel - length l - 1))) as E. replace (length l + S (fuel - length l - 1))%nat with fuel in E by lia. rewrite E. clear E.
  remember (fuel - length l - 1)%nat as f eqn:Ef. destruct (inv_freep_in _ _ _ I) as [c Hc].
  pose proof (ring_size_of base (units s) l (iv_ring _ _ _ _ I) _ _ Hc) as Hm.
  assert (c < nu) as Hcnu by (apply elem_of_cons in Hc as [?|Hc]; [simplify_eq; lia|rewrite Forall_forall in Hs; apply (Hs _ Hc)]).
  cbn [malloc_loop]. unfold size. rewrite bind_gets, Hm. cbn [h_size]. destruct (Z.leb_spec nu c); [lia|]. rewrite bind_gets, Z.eqb_refl.
  pose proof (morecore_ok l live s nu f I ltac:(lia) ltac:(lia)) as Hmore. unfold refused.
  destruct (Z.leb_spec (brk s + core_units nu) (limit s)); [|left; split; [split; [done|lia]|by erewrite bind_Ok by exact Hmore]].
  right. split; [lia|]. destruct Hmore as (l1 & s1 & Hmore & I1 & Hl1 & Hfr1 & Hlen & Hbig). erewrite bind_Ok by exact Hmore.
  assert (freep s1 <> 0) as Hf0.
  { destruct (inv_freep_in _ _ _ I1) as [c1 Hc1]. pose proof (ring_base_le base l1 (iv_gaps _ _ _ _ I1) _ Hc1) as Hb. simpl in Hb. destruct (iv_lim _ _ _ _ I1). lia. }
  apply Z.eqb_neq in Hf0. rewrite Hf0. unfold ptr. rewrite bind_gets.
  destruct (search l1 live s1 nu I1 ltac:(lia)) as [[Hs1 _]|[_ Hfound]].
  - destruct Hbig as (a & t & Hat & Ht). rewrite Forall_forall in Hs1. specialize (Hs1 _ Hat). simpl in Hs1. lia.
  - destruct (Hfound f ltac:(lia)) as (r & l' & s' & H1 & H2 & H3 & _ & H4). exists r, l', s'. split_and!; [done..|congruence|].
    intros k Hk. rewrite H4 by done. by apply Hfr1.
Qed.

(** A heap before its first [malloc]. *)
Definition fresh (s : heap) : Prop := freep s = 0 /\ 0 < base < brk s /\ brk s <= limit s < 2 ^ 28.
(** A heap with live blocks, before or after the first [malloc]. *)
Definition ready (live : list (Z * Z)) (s : heap) : Prop := (fresh s /\ live = []) \/ exists l, inv base l live s.

Lemma inv_length l live s : inv base l live s -> (length l <= Z.to_nat (limit s))%nat.
Proof.
  intros I. assert (length l.*1 <= length (seqZ 0 (limit s)))%nat as H; [|by rewrite length_fmap, length_seqZ in H].
  pose proof (inv_nodup_addr _ _ _ I) as [_ Hnd]%NoDup_cons. apply submseteq_length, NoDup_submseteq; [done|].
  intros a ([b t] & -> & Hin)%list_elem_of_fmap. apply elem_of_seqZ. simpl. assert (base < b < brk s); [|destruct (iv_lim _ _ _ _ I); lia].
  apply (iv_range _ _ _ _ I), elem_of_spans. exists b, t. split; [set_solver|]. pose proof (iv_pos _ _ _ _ I) as Hp. rewrite Forall_forall in Hp.
  specialize (Hp _ Hin). simpl in Hp. lia.
Qed.
End heap.
