(* ===== verification/UmallocClient.v ===== *)
(** * What malloc and free promise to a program

    A program that allocates, writes to its blocks and frees them finds in
    every block what it last wrote there. *)

From stdpp Require Import base sets list list_numbers strings.
From Stdlib Require Import ZArith Lia.
From S2P Require Import Prelude Umalloc UmallocCorrect.
Local Open Scope Z_scope.

Section Client.
Context (base : Z).

(** A block of the program: the pointer it was given, what it wrote there, and
    the block of the allocator it lies in. *)
Definition payload : Type := Z * list header.
Definition block_of (b : payload) : Z * Z := (b.1 - 1, Z.of_nat (length b.2) + 1).
Definition holds (s : heap) (b : payload) : Prop := forall j v, b.2 !! j = Some v -> units s (b.1 + Z.of_nat j) = v.

Lemma malloc_units_payload nbytes : 0 <= nbytes < 2 ^ 31 - 16 ->
  malloc_units nbytes = (nbytes + 7) / 8 + 1 /\ 0 <= (nbytes + 7) / 8 < 2 ^ 28 - 1.
Proof.
  intros Hn. unfold malloc_units, sizeof_Header. rewrite u32_id by (unfold uint32; lia). replace (nbytes + 8 - 1) with (nbytes + 7) by lia.
  split_and!; [done|apply Z.div_pos; lia|apply Z.div_lt_upper_bound; lia].
Qed.

(** [malloc] once the list exists. *)
Lemma malloc_inv l live s nbytes fuel : inv base l live s -> 0 <= nbytes < 2 ^ 31 - 16 -> (2 * Z.to_nat (limit s) + 3 < fuel)%nat ->
  exists r s', malloc base fuel nbytes s = Ok r s' /\ limit s' = limit s /\ (forall k, k ∈ spans live -> units s' k = units s k) /\
    if r =? 0 then ready base live s' /\ refused l s (malloc_units nbytes) else ready base ((r - 1, malloc_units nbytes) :: live) s'.
Proof.
  intros I Hn Hf. destruct (malloc_units_payload _ Hn) as [Eu Hp]. pose proof (inv_length _ _ _ _ I) as Hlen. destruct (iv_lim _ _ _ _ I) as [Hb _].
  assert (malloc base fuel nbytes s = malloc_loop fuel (malloc_units nbytes) (freep s) (h_ptr (units s (freep s))) s) as ->.
  { destruct (inv_freep_in _ _ _ _ I) as [c Hc]. pose proof (ring_base_le base l (iv_gaps _ _ _ _ I) _ Hc) as Hbc. simpl in Hbc.
    assert (freep s <> 0) as Hf0%Z.eqb_neq by lia. unfold malloc. rewrite bind_gets, Hf0, bind_ret. unfold ptr. by rewrite bind_gets. }
  destruct (malloc_search base l live s (malloc_units nbytes) fuel I ltac:(lia) ltac:(lia)) as [[Href Hrun]|[_ (r & l' & s' & Hrun & I' & Hl' & Hfr')]].
  - exists 0, s. split_and!; [done..|]. split; [right; by exists l|done].
  - exists (r + 1), s'. split_and!; [done..|]. pose proof (inv_live_bounds _ _ _ _ r (malloc_units nbytes) I' ltac:(left)).
    destruct (Z.eqb_spec (r + 1) 0); [lia|]. right. exists l'. by replace (r + 1 - 1) with r by lia.
Qed.

(** The first [malloc] makes the list that holds only [base]. *)
Lemma malloc_first s nbytes fuel : fresh base s ->
  exists s0, inv base [] [] s0 /\ limit s0 = limit s /\ brk s0 = brk s /\ malloc base fuel nbytes s = malloc base fuel nbytes s0.
Proof.
  intros [H0 Hlim]. assert (base <> 0) as Hb0%Z.eqb_neq by lia. pose (m := setu (units s) base (mkHeader base (h_size (units s base)))).
  exists (put_units (setu m base (mkHeader (h_ptr (m base)) 0)) (put_freep base s)). split_and!; [|done|done|].
  - constructor; cbn; try done; [|by left|constructor|by intros k Hk%elem_of_nil]. split; [|done]. subst m. by rewrite !setu_same.
  - unfold malloc. rewrite !bind_gets. cbn [freep put_units put_freep]. rewrite H0, Hb0. cbn [Z.eqb]. unfold set_ptr, set_size.
    by repeat rewrite ?bind_assoc, ?bind_modify, ?bind_ret.
Qed.

Lemma malloc_ok live s nbytes fuel : ready base live s -> 0 <= nbytes < 2 ^ 31 - 16 -> (2 * Z.to_nat (limit s) + 3 < fuel)%nat ->
  exists r s', malloc base fuel nbytes s = Ok r s' /\ limit s' = limit s /\ (forall k, k ∈ spans live -> units s' k = units s k) /\
    if r =? 0 then ready base live s' /\ limit s < brk s + core_units (malloc_units nbytes)
    else ready base ((r - 1, malloc_units nbytes) :: live) s'.
Proof.
  intros [[Hs ->]|[l I]] Hn Hf.
  - destruct (malloc_first s nbytes fuel Hs) as (s0 & I & Hl & Hb & ->). rewrite <- Hl in Hf.
    destruct (malloc_inv _ _ _ _ _ I Hn Hf) as (r & s' & Hrun & Hl' & _ & Hres). exists r, s'. rewrite <- Hl, <- Hb. split_and!; [done..|by intros k Hk%elem_of_nil|].
    destruct (r =? 0); [|done]. destruct Hres as [Hr [_ Href]]. done.
  - destruct (malloc_inv _ _ _ _ _ I Hn Hf) as (r & s' & Hrun & Hl' & Hfr & Hres). exists r, s'. split_and!; [done..|].
    destruct (r =? 0); [|done]. destruct Hres as [Hr [_ Href]]. done.
Qed.

Lemma free_ready live s h n fuel : ready base ((h, n) :: live) s -> (Z.to_nat (limit s) < fuel)%nat ->
  exists s', free fuel (h + 1) s = Ok tt s' /\ ready base live s' /\ limit s' = limit s /\ forall k, k ∈ spans live -> units s' k = units s k.
Proof.
  intros [[_ ?]|[l I]] Hf; [done|]. pose proof (inv_length _ _ _ _ I).
  destruct (free_ok base l h n live s fuel I ltac:(lia)) as (l' & s' & Hrun & I' & _ & Hl & Hfr & _). exists s'. split_and!; [done| |done..]. right. by exists l'.
Qed.

(** Writing inside a live block, past its header. *)
Lemma store_ready h n live s k v : ready base ((h, n) :: live) s -> h < k < h + n ->
  ready base ((h, n) :: live) (put_units (setu (units s) k v) s).
Proof.
  intros [[_ ?]|[l I]] Hk; [done|]. right. exists l. assert (k ∈ spans ((h, n) :: live)) as Hin by (apply elem_of_spans; exists h, n; split; [left|lia]).
  constructor; try apply I.
  - eapply linked_frame; [|apply (iv_ring _ _ _ _ I)]. intros a ([b t] & -> & Hb)%list_elem_of_fmap. apply setu_other.
    simpl. intros Hbk. by apply (inv_free_live base l _ s b t k I Hb).
  - pose proof (iv_live _ _ _ _ I) as Hl. rewrite Forall_forall in Hl. apply Forall_forall. intros [a t] Hat. destruct (Hl _ Hat) as [H1 H2]. split; [|done].
    cbn [units put_units]. simpl in *. rewrite setu_other; [done|]. intros ->. apply elem_of_cons in Hat as [?|Hat]; [simplify_eq; lia|].
    pose proof (inv_apart base l h n live s k t I ltac:(set_solver)). lia.
Qed.

Lemma ready_perm x y s : x ≡ₚ y -> ready base x s -> ready base y s.
Proof.
  intros E [[Hf ->]|[l I]]; [left; split; [done|by apply Permutation_nil_l in E]|]. right. exists l. by eapply live_perm.
Qed.

(** The blocks of a heap do not overlap and lie below the break. *)
Lemma ready_blocks live s : ready base live s -> NoDup (spans live) /\ forall k, k ∈ spans live -> base < k < brk s.
Proof.
  intros [[_ ->]|[l I]]; [split; [constructor|by intros k Hk%elem_of_nil]|]. pose proof (iv_nodup _ _ _ _ I) as Hd. rewrite spans_app in Hd.
  apply NoDup_app in Hd as (_ & _ & Hd). split; [done|]. intros k Hk. apply (iv_range _ _ _ _ I). rewrite spans_app. set_solver.
Qed.

(** ** Programs *)

Inductive request := Malloc (nbytes : Z) | Store (i j : nat) (v : header) | Free (i : nat).

Definition serve (fuel : nat) (o : request) (live : list payload) : M heap (list payload) :=
  match o with
  | Malloc nbytes =>
      let! p := malloc base fuel nbytes in
      if p =? 0 then ret live else
      let! s := gets id in
      ret ((p, map (units s) (seqZ p ((nbytes + 7) / 8))) :: live)
  | Store i j v =>
      match live !! i with
      | Some (p, c) =>
          if (j <? length c)%nat
          then modify (fun s => put_units (setu (units s) (p + Z.of_nat j) v) s) ;;; ret (<[i := (p, <[j := v]> c)]> live)
          else ret live
      | None => ret live
      end
  | Free i => match live !! i with Some (p, _) => free fuel p ;;; ret (delete i live) | None => ret live end
  end.
Fixpoint serve_all (fuel : nat) (l : list request) (live : list payload) : M heap (list payload) :=
  match l with [] => ret live | o :: l' => let! live := serve fuel o live in serve_all fuel l' live end.

Definition reasonable (o : request) : Prop := match o with Malloc nbytes => 0 <= nbytes < 2 ^ 31 - 16 | _ => True end.

Definition good (live : list payload) (s : heap) : Prop := ready base (block_of <$> live) s /\ Forall (holds s) live.

Lemma holds_frame s s' live : (forall k, k ∈ spans (block_of <$> live) -> units s' k = units s k) -> Forall (holds s) live -> Forall (holds s') live.
Proof.
  intros Hf H. rewrite Forall_forall in H. apply Forall_forall. intros [p c] Hb j v Hj. rewrite Hf; [by apply (H (p, c) Hb)|].
  apply lookup_lt_Some in Hj as Hlt. apply elem_of_spans. exists (p - 1), (Z.of_nat (length c) + 1). split; [|simpl in *; lia].
  change (block_of (p, c) ∈ block_of <$> live). by apply list_elem_of_fmap_2.
Qed.

Lemma serve_malloc nbytes live s fuel : good live s -> 0 <= nbytes < 2 ^ 31 - 16 -> (2 * Z.to_nat (limit s) + 3 < fuel)%nat ->
  exists live' s', serve fuel (Malloc nbytes) live s = Ok live' s' /\ good live' s' /\ limit s' = limit s.
Proof.
  intros [Hr Hh] Hn Hf. destruct (malloc_ok _ _ _ _ Hr Hn Hf) as (r & s' & Hrun & Hl & Hfr & Hres). cbn [serve]. erewrite bind_Ok by exact Hrun.
  pose proof (holds_frame _ _ _ Hfr Hh) as Hh'. destruct (Z.eqb_spec r 0) as [->|Hr0]; [exists live, s'; by split_and!; [|split; [apply Hres|]|]|].
  rewrite bind_gets. unfold id. eexists _, s'. split; [reflexivity|]. split; [|done]. destruct (malloc_units_payload _ Hn) as [Eu H0].
  assert (block_of (r, map (units s') (seqZ r ((nbytes + 7) / 8))) = (r - 1, malloc_units nbytes)) as Eb.
  { unfold block_of. simpl. rewrite length_map, length_seqZ, Z2Nat.id by lia. by rewrite Eu. }
  split; [rewrite fmap_cons, Eb; done|]. constructor; [|done]. intros j v. simpl. change (map (units s')) with (fmap (M := list) (units s')).
  rewrite list_lookup_fmap. destruct (seqZ r ((nbytes + 7) / 8) !! j) as [k|] eqn:E; [|done]. apply lookup_seqZ in E as [-> _]. simpl. congruence.
Qed.

Lemma serve_free i live s fuel : good live s -> (2 * Z.to_nat (limit s) + 3 < fuel)%nat ->
  exists live' s', serve fuel (Free i) live s = Ok live' s' /\ good live' s' /\ limit s' = limit s.
Proof.
  intros [Hr Hh] Hf. cbn [serve]. destruct (live !! i) as [[p c]|] eqn:E; [|by exists live, s]. pose proof (delete_Permutation _ _ _ E) as Ep.
  apply (ready_perm _ (block_of (p, c) :: (block_of <$> delete i live))) in Hr; [|by rewrite Ep at 1]. rewrite Ep in Hh. apply Forall_cons in Hh as [_ Hh].
  destruct (free_ready (block_of <$> delete i live) s (p - 1) (Z.of_nat (length c) + 1) fuel Hr ltac:(lia)) as (s' & Hrun & Hr' & Hl & Hfr).
  replace (p - 1 + 1) with p in Hrun by lia. erewrite bind_Ok by exact Hrun. exists (delete i live), s'. split_and!; [done|split; [done|]|done]. by eapply holds_frame.
Qed.

Lemma serve_store i j v live s fuel : good live s ->
  exists live' s', serve fuel (Store i j v) live s = Ok live' s' /\ good live' s' /\ limit s' = limit s.
Proof.
  intros [Hr Hh]. cbn [serve]. destruct (live !! i) as [[p c]|] eqn:E; [|by exists live, s]. destruct (Nat.ltb_spec j (length c)) as [Hj|Hj]; [|by exists live, s].
  rewrite bind_modify. eexists _, _. split; [reflexivity|]. split; [|done].
  apply list_elem_of_split_length in E as (x & y & -> & ->). rewrite insert_app_r_alt, Nat.sub_diag by done. cbn [list_insert insert].
  assert (block_of (p, <[j := v]> c) = block_of (p, c)) as Eb by (unfold block_of; simpl; by rewrite length_insert).
  assert (block_of <$> x ++ (p, c) :: y ≡ₚ block_of (p, c) :: (block_of <$> x ++ y)) as Ep by (by rewrite <- Permutation_middle).
  pose proof (ready_perm _ _ _ Ep Hr) as Hr1. pose proof (store_ready (p - 1) (Z.of_nat (length c) + 1) _ _ (p + Z.of_nat j) v Hr1 ltac:(lia)) as Hr2. split.
  - change (p - 1, Z.of_nat (length c) + 1) with (block_of (p, c)) in Hr2. eapply ready_perm; [|exact Hr2]. by rewrite <- Eb, <- Permutation_middle.
  - rewrite <- Permutation_middle in Hh |- *. apply Forall_cons in Hh as [Hc Hh]. constructor.
    + intros k w. cbn [units put_units]. simpl. intros [(-> & -> & _)|[Hne Hk]]%list_lookup_insert_Some; [by rewrite setu_same|].
      rewrite setu_other by lia. by apply Hc.
    + eapply holds_frame; [|exact Hh]. intros k Hk. cbn [units put_units]. apply setu_other. intros ->.
      apply ready_blocks in Hr1 as [Hd _]. unfold block_of at 1 in Hd. rewrite spans_cons in Hd. apply NoDup_app in Hd as (_ & Hd & _).
      eapply Hd; [|exact Hk]. apply elem_of_seqZ. simpl. lia.
Qed.

Lemma serve_all_good fuel : forall ops live s, Forall reasonable ops -> good live s -> (2 * Z.to_nat (limit s) + 3 < fuel)%nat ->
  exists live' s', serve_all fuel ops live s = Ok live' s' /\ good live' s' /\ limit s' = limit s.
Proof.
  induction ops as [|o ops IH]; intros live s Hops Hg Hf; [by exists live, s|]. apply Forall_cons in Hops as [Ho Hops].
  assert (exists live' s', serve fuel o live s = Ok live' s' /\ good live' s' /\ limit s' = limit s) as (l1 & s1 & Hrun & Hg1 & Hl1)
    by (destruct o; [by apply serve_malloc|by apply serve_store|by apply serve_free]).
  cbn [serve_all]. erewrite bind_Ok by exact Hrun. destruct (IH l1 s1 Hops Hg1) as (l2 & s2 & ? & ? & ?); [lia|]. exists l2, s2. by split_and!; [..|congruence].
Qed.

(** ** When malloc succeeds *)

Lemma malloc_room live s nbytes fuel : good live s -> (2 * Z.to_nat (limit s) + 3 < fuel)%nat -> 0 <= nbytes < 2 ^ 31 - 16 ->
  brk s + Z.max 4096 ((nbytes + 7) / 8 + 1) <= limit s -> exists p s', malloc base fuel nbytes s = Ok p s' /\ p <> 0.
Proof.
  intros [Hr _] Hf Hn Hroom. destruct (malloc_units_payload _ Hn) as [Eu Hp]. destruct (malloc_ok _ _ _ _ Hr Hn Hf) as (r & s' & Hrun & _ & _ & Hres).
  exists r, s'. split; [done|]. destruct (Z.eqb_spec r 0); [|done]. destruct Hres as [_ Hres]. unfold core_units in Hres. rewrite Eu in Hres.
  destruct (Z.ltb_spec ((nbytes + 7) / 8 + 1) 4096); lia.
Qed.

Lemma malloc_reuse live s i p c nbytes fuel : good live s -> (2 * Z.to_nat (limit s) + 3 < fuel)%nat -> live !! i = Some (p, c) ->
  0 <= nbytes <= 8 * Z.of_nat (length c) ->
  exists s1 p2 s2, free fuel p s = Ok tt s1 /\ malloc base fuel nbytes s1 = Ok p2 s2 /\ p2 <> 0.
Proof.
  intros [Hr _] Hf Hi Hn. pose proof (delete_Permutation _ _ _ Hi) as Ep.
  apply (ready_perm _ (block_of (p, c) :: (block_of <$> delete i live))) in Hr; [|by rewrite Ep at 1]. destruct Hr as [[_ ?]|[l I]]; [done|].
  pose proof (inv_length _ _ _ _ I) as Hlen. pose proof (inv_live_bounds _ _ _ _ _ _ I ltac:(left)) as Hb. destruct (iv_lim _ _ _ _ I) as [Hb0 Hlim].
  destruct (free_ok base l _ _ _ s fuel I ltac:(lia)) as (l' & s1 & Hrun & I' & _ & Hl1 & _ & _ & a & t & Hat & Ht).
  cbn [fst snd] in Hb, Hrun, Ht. replace (p - 1 + 1) with p in Hrun by lia. rewrite <- Hl1 in Hf. assert (0 <= nbytes < 2 ^ 31 - 16) as Hn' by lia.
  destruct (malloc_units_payload _ Hn') as [Eu Hp]. destruct (malloc_inv _ _ _ _ _ I' Hn' Hf) as (r & s2 & Hm & _ & _ & Hres).
  exists s1, r, s2. split_and!; [done..|]. destruct (Z.eqb_spec r 0); [|done]. destruct Hres as [_ [Hres _]]. rewrite Forall_forall in Hres.
  specialize (Hres _ Hat). simpl in Hres. assert ((nbytes + 7) / 8 < Z.of_nat (length c) + 1) by (apply Z.div_lt_upper_bound; lia). lia.
Qed.
End Client.

(** C26 A program that starts with an untouched heap and makes any sequence of
    requests - allocations below two gigabytes, writes inside its blocks,
    releases of its blocks - runs to the end.  At the end the blocks it
    holds, headers included, lie between [base] and the break without
    overlapping, and each of them contains exactly what the program last
    wrote there: malloc, free and morecore never touch a live block, whatever
    splitting and joining they did.  A further malloc succeeds whenever the
    kernel still has the memory to give, and, even when it has not, whenever
    the program has just freed a block of that size. *)
Theorem malloc_safe (base : Z) (fuel : nat) (ops : list request) (s : heap) :
  fresh base s -> Forall reasonable ops -> (2 * Z.to_nat (limit s) + 3 < fuel)%nat ->
  exists live s', serve_all base fuel ops [] s = Ok live s' /\ NoDup (spans (block_of <$> live)) /\
    (forall k, k ∈ spans (block_of <$> live) -> base < k < brk s') /\ Forall (holds s') live /\
    (forall nbytes, 0 <= nbytes < 2 ^ 31 - 16 -> brk s' + Z.max 4096 ((nbytes + 7) / 8 + 1) <= limit s' ->
       exists p s'', malloc base fuel nbytes s' = Ok p s'' /\ p <> 0) /\
    (forall i p c nbytes, live !! i = Some (p, c) -> 0 <= nbytes <= 8 * Z.of_nat (length c) ->
       exists s1 p2 s2, free fuel p s' = Ok tt s1 /\ malloc base fuel nbytes s1 = Ok p2 s2 /\ p2 <> 0).
Proof.
  intros Hs Hops Hf. destruct (serve_all_good base fuel ops [] s Hops) as (live & s' & Hrun & Hg & Hl); [split; [by left|constructor]|done|].
  pose proof Hg as [Hr Hh]. rewrite <- Hl in Hf. exists live, s'. pose proof (ready_blocks _ _ _ Hr) as [Hd Hb]. split_and!; [done..| |].
  - intros nbytes Hn Hroom. by eapply malloc_room.
  - intros i p c nbytes Hi Hn. by eapply malloc_reuse.
Qed.

(** A run that splits a block, writes, frees and allocates again. *)
Lemma malloc_safe_witness : exists live s',
  serve_all 1 (Z.to_nat 20000) [Malloc 20; Store 0 1 (mkHeader 7 8); Malloc 100; Free 1; Malloc 8] [] (mkHeap (fun _ => mkHeader 0 0) 0 2 9000) = Ok live s' /\
  NoDup (spans (block_of <$> live)) /\ Forall (holds s') live.
Proof.
  destruct (malloc_safe 1 (Z.to_nat 20000) [Malloc 20; Store 0 1 (mkHeader 7 8); Malloc 100; Free 1; Malloc 8] (mkHeap (fun _ => mkHeader 0 0) 0 2 9000))
    as (live & s' & H1 & H2 & _ & H3 & _); [split; [reflexivity|simpl; lia]|repeat constructor; simpl; lia|simpl limit; lia|].
  exists live, s'. split; [exact H1|]. split; [exact H2|exact H3].
Defined.

(** The size computation is done in 32 bits, so the largest requests wrap
    around: [malloc(0xffffffff)] returns a block without any room. *)
Example malloc_wraps : exists s',
  malloc 1 (Z.to_nat 100) 4294967295 (mkHeap (fun _ => mkHeader 0 0) 0 2 9000) = Ok 4098 s' /\ h_size (units s' 4097) = 1 /\ brk s' = 4098.
Proof. eexists. split; [vm_compute; reflexivity|]. split; reflexivity. Qed.
