(* ===== verification/Vm.v ===== *)
(** * Page tables: vm.c

    The functions work on physical memory through kernel addresses, with
    [kalloc] and [kfree] for pages.  A page directory and its tables are
    words in that memory.  The state also has the messages printed, the
    kernel's own page directory and the page table register. *)

From stdpp Require Import base list strings.
From Stdlib Require Import ZArith Lia.
From S2P Require Import Prelude Spinlock CString Sync Kalloc.
Local Open Scope Z_scope.

(** ** mmu.h, memlayout.h *)

Definition PDX (va : Z) : Z := Z.land (Z.shiftr va 22) 0x3FF.
Definition PTX (va : Z) : Z := Z.land (Z.shiftr va 12) 0x3FF.
Definition PGADDR (d t o : Z) : Z := u32 (Z.lor (Z.lor (Z.shiftl d 22) (Z.shiftl t 12)) o).
Definition PGROUNDDOWN (a : Z) : Z := Z.land a (Z.lnot (PGSIZE - 1)).
Definition PTE_P : Z := 0x001.
Definition PTE_W : Z := 0x002.
Definition PTE_U : Z := 0x004.
Definition PTE_ADDR (pte : Z) : Z := Z.land pte (Z.lnot 0xFFF).
Definition PTE_FLAGS (pte : Z) : Z := Z.land pte 0xFFF.
Definition NPDENTRIES : nat := 1024.
Definition EXTMEM : Z := 0x100000.
Definition DEVSPACE : Z := 0xFE000000.
Definition KERNLINK : Z := KERNBASE + EXTMEM.
Definition P2V (a : Z) : Z := u32 (a + KERNBASE).

Section Vm.
Context {L : Type} `{Lock L} (kend data : Z).

Record vm := mkVm {
  v_kmem : kmem (L := L);
  v_log : list string;
  kpgdir : Z;
  cr3 : Z
}.
Definition put_vkmem (x : kmem) (s : vm) : vm := mkVm x (v_log s) (kpgdir s) (cr3 s).
Definition put_vlog (x : list string) (s : vm) : vm := mkVm (v_kmem s) x (kpgdir s) (cr3 s).
Definition put_kpgdir (x : Z) (s : vm) : vm := mkVm (v_kmem s) (v_log s) x (cr3 s).
Definition put_cr3 (x : Z) (s : vm) : vm := mkVm (v_kmem s) (v_log s) (kpgdir s) x.

Definition phys {A : Type} (m : M kmem A) : M vm A := zoom v_kmem put_vkmem m.
Definition say (x : string) : M vm unit := modify (fun s => put_vlog (x :: v_log s) s).
Definition get_word (a : Z) : M vm Z := phys (in_mem (load4 a)).
Definition set_word (a v : Z) : M vm unit := phys (in_mem (store4 a v)).

Definition walkpgdir (pgdir va : Z) (alloc : bool) : M vm Z :=
  let pde := pgdir + 4 * PDX va in
  let! e := get_word pde in
  if negb (Z.land e PTE_P =? 0) then ret (P2V (PTE_ADDR e) + 4 * PTX va) else
  if negb alloc then ret 0 else
  let! pgtab := phys kalloc in
  if pgtab =? 0 then ret 0 else
  phys (in_mem (memset pgtab 0 PGSIZE)) ;;;
  set_word pde (Z.lor (Z.lor (Z.lor (V2P pgtab) PTE_P) PTE_W) PTE_U) ;;;
  ret (pgtab + 4 * PTX va).

Fixpoint mappages_loop (fuel : nat) (pgdir a last pa perm : Z) : M vm Z :=
  match fuel with
  | O => nofuel
  | S f =>
      let! pte := walkpgdir pgdir a true in
      if pte =? 0 then ret (-1) else
      let! e := get_word pte in
      if negb (Z.land e PTE_P =? 0) then panic "remap" else
      set_word pte (Z.lor (Z.lor pa perm) PTE_P) ;;;
      if a =? last then ret 0 else
      mappages_loop f pgdir (u32 (a + PGSIZE)) last (u32 (pa + PGSIZE)) perm
  end.
(** One round per page between the first and the last. *)
Definition mappages (pgdir va size pa perm : Z) : M vm Z :=
  let a := PGROUNDDOWN va in
  let last := PGROUNDDOWN (u32 (va + size - 1)) in
  mappages_loop (S (Z.to_nat (u32 (last - a) / PGSIZE))) pgdir a last pa perm.

(** [a] goes up by at least a page a round. *)
Fixpoint deallocuvm_loop (fuel : nat) (pgdir a oldsz : Z) : M vm unit :=
  match fuel with
  | O => nofuel
  | S f =>
      if oldsz <=? a then ret tt else
      let! pte := walkpgdir pgdir a false in
      if pte =? 0 then deallocuvm_loop f pgdir (u32 (u32 (PGADDR (PDX a + 1) 0 0 - PGSIZE) + PGSIZE)) oldsz else
      let! e := get_word pte in
      (if negb (Z.land e PTE_P =? 0) then
         let pa := PTE_ADDR e in
         if pa =? 0 then panic "kfree" else
         phys (kfree kend (P2V pa)) ;;;
         set_word pte 0
       else ret tt) ;;;
      deallocuvm_loop f pgdir (u32 (a + PGSIZE)) oldsz
  end.
Definition deallocuvm (pgdir oldsz newsz : Z) : M vm Z :=
  if oldsz <=? newsz then ret oldsz else
  deallocuvm_loop (S (Z.to_nat (oldsz / PGSIZE + 1))) pgdir (PGROUNDUP newsz) oldsz ;;;
  ret newsz.

Definition free_table (pgdir : Z) (i : nat) : M vm unit :=
  let! e := get_word (pgdir + 4 * Z.of_nat i) in
  if negb (Z.land e PTE_P =? 0) then phys (kfree kend (P2V (PTE_ADDR e))) else ret tt.
Definition freevm (pgdir : Z) : M vm unit :=
  if pgdir =? 0 then panic "freevm: no pgdir" else
  deallocuvm pgdir KERNBASE 0 ;;;
  foreach (seq 0 NPDENTRIES) (free_table pgdir) ;;;
  phys (kfree kend pgdir).

Record kmap_entry := mkKmap { km_virt : Z; km_start : Z; km_end : Z; km_perm : Z }.
Definition kmap : list kmap_entry := [
  mkKmap KERNBASE 0 EXTMEM PTE_W;
  mkKmap KERNLINK (V2P KERNLINK) (V2P data) 0;
  mkKmap data (V2P data) PHYSTOP PTE_W;
  mkKmap DEVSPACE DEVSPACE 0 PTE_W].

Fixpoint map_kernel (pgdir : Z) (l : list kmap_entry) : M vm Z :=
  match l with
  | [] => ret pgdir
  | k :: l' =>
      let! r := mappages pgdir (km_virt k) (u32 (km_end k - km_start k)) (km_start k) (km_perm k) in
      if r <? 0 then freevm pgdir ;;; ret 0 else map_kernel pgdir l'
  end.
Definition setupkvm : M vm Z :=
  let! pgdir := phys kalloc in
  if pgdir =? 0 then ret 0 else
  phys (in_mem (memset pgdir 0 PGSIZE)) ;;;
  if DEVSPACE <? P2V PHYSTOP then panic "PHYSTOP too high" else
  map_kernel pgdir kmap.

Definition switchkvm : M vm unit := modify (fun s => put_cr3 (V2P (kpgdir s)) s).
Definition kvmalloc : M vm unit :=
  let! d := setupkvm in
  modify (put_kpgdir d) ;;;
  switchkvm.

(** The result of [kalloc] is not checked: [memset] faults on a null page. *)
Definition inituvm (pgdir init sz : Z) : M vm unit :=
  if PGSIZE <=? sz then panic "inituvm: more than a page" else
  let! p := phys kalloc in
  if p =? 0 then fault else
  phys (in_mem (memset p 0 PGSIZE)) ;;;
  mappages pgdir 0 PGSIZE (V2P p) (Z.lor PTE_W PTE_U) ;;;
  phys (in_mem (memmove p init sz)) ;;;
  ret tt.

Fixpoint allocuvm_loop (fuel : nat) (pgdir a oldsz newsz : Z) : M vm Z :=
  match fuel with
  | O => nofuel
  | S f =>
      if newsz <=? a then ret newsz else
      let! p := phys kalloc in
      if p =? 0 then
        say "allocuvm out of memory" ;;;
        deallocuvm pgdir newsz oldsz ;;;
        ret 0
      else
      phys (in_mem (memset p 0 PGSIZE)) ;;;
      let! r := mappages pgdir a PGSIZE (V2P p) (Z.lor PTE_W PTE_U) in
      if r <? 0 then
        say "allocuvm out of memory (2)" ;;;
        deallocuvm pgdir newsz oldsz ;;;
        phys (kfree kend p) ;;;
        ret 0
      else allocuvm_loop f pgdir (u32 (a + PGSIZE)) oldsz newsz
  end.
Definition allocuvm (pgdir oldsz newsz : Z) : M vm Z :=
  if KERNBASE <=? newsz then ret 0 else
  if newsz <? oldsz then ret oldsz else
  allocuvm_loop (S (Z.to_nat (newsz / PGSIZE + 1))) pgdir (PGROUNDUP oldsz) oldsz newsz.

Definition clearpteu (pgdir uva : Z) : M vm unit :=
  let! pte := walkpgdir pgdir uva false in
  if pte =? 0 then panic "clearpteu" else
  let! e := get_word pte in
  set_word pte (Z.land e (Z.lnot PTE_U)).

Fixpoint copyuvm_loop (fuel : nat) (pgdir d i sz : Z) : M vm Z :=
  match fuel with
  | O => nofuel
  | S f =>
      if sz <=? i then ret d else
      let! pte := walkpgdir pgdir i false in
      if pte =? 0 then panic "copyuvm: pte should exist" else
      let! e := get_word pte in
      if Z.land e PTE_P =? 0 then panic "copyuvm: page not present" else
      let pa := PTE_ADDR e in
      let flags := PTE_FLAGS e in
      let! p := phys kalloc in
      if p =? 0 then freevm d ;;; ret 0 else
      phys (in_mem (memmove p (P2V pa) PGSIZE)) ;;;
      let! r := mappages d i PGSIZE (V2P p) flags in
      if r <? 0 then phys (kfree kend p) ;;; freevm d ;;; ret 0
      else copyuvm_loop f pgdir d (u32 (i + PGSIZE)) sz
  end.
Definition copyuvm (pgdir sz : Z) : M vm Z :=
  let! d := setupkvm in
  if d =? 0 then ret 0 else
  copyuvm_loop (S (Z.to_nat (sz / PGSIZE + 1))) pgdir d 0 sz.

(** A null [pte] is dereferenced. *)
Definition uva2ka (pgdir uva : Z) : M vm Z :=
  let! pte := walkpgdir pgdir uva false in
  if pte =? 0 then fault else
  let! e := get_word pte in
  if Z.land e PTE_P =? 0 then ret 0 else
  if Z.land e PTE_U =? 0 then ret 0 else
  ret (P2V (PTE_ADDR e)).

(** Every round copies at least a byte. *)
Fixpoint copyout_loop (fuel : nat) (pgdir va buf len : Z) : M vm Z :=
  match fuel with
  | O => nofuel
  | S f =>
      if len <=? 0 then ret 0 else
      let va0 := PGROUNDDOWN va in
      let! pa0 := uva2ka pgdir va0 in
      if pa0 =? 0 then ret (-1) else
      let n := Z.min (PGSIZE - (va - va0)) len in
      phys (in_mem (memmove (pa0 + (va - va0)) buf n)) ;;;
      copyout_loop f pgdir (u32 (va0 + PGSIZE)) (buf + n) (len - n)
  end.
Definition copyout (pgdir va p len : Z) : M vm Z := copyout_loop (S (Z.to_nat len)) pgdir va p len.
End Vm.
