(* ===== verification/VmTable.v ===== *)
(** * Two-level page tables in memory

    A directory and its tables represent a function from page numbers to
    entries; [walkpgdir] and [mappages] read and change that function. *)

From stdpp Require Import base gmap list strings.
From Stdlib Require Import ZArith Lia.
From S2P Require Import Prelude Spinlock CString Sync Kalloc Vm.
Local Open Scope Z_scope.

(** ** Bits *)

Lemma land_low_high a f k : 0 <= k -> a mod 2 ^ k = 0 -> 0 <= f < 2 ^ k -> Z.land a f = 0.
Proof.
  intros Hk Ha Hf. apply Z.bits_inj'. intros i Hi. rewrite Z.land_spec, Z.bits_0. destruct (Z.lt_ge_cases i k) as [Hlt|Hge].
  - assert (Z.testbit a i = false) as ->; [|done]. rewrite <- (Z.mod_pow2_bits_low a k i), Ha by lia. apply Z.bits_0.
  - assert (Z.testbit f i = false) as ->; [|by rewrite andb_false_r]. rewrite <- (Z.mod_small f (2 ^ k)) by done. apply Z.mod_pow2_bits_high. lia.
Qed.
Lemma lor_flags a f : a mod 4096 = 0 -> 0 <= f < 4096 -> Z.lor a f = a + f.
Proof.
  intros Ha Hf. assert (Z.land a f = 0) as E by (by apply (land_low_high a f 12)). rewrite Z.add_nocarry_lxor by done. symmetry. by apply Z.lxor_lor.
Qed.
Lemma PTE_ADDR_eq a f : a mod 4096 = 0 -> 0 <= f < 4096 -> PTE_ADDR (a + f) = a.
Proof.
  intros Ha Hf. unfold PTE_ADDR. change 0xFFF with (Z.ones 12). rewrite <- Z.ldiff_land, Z.ldiff_ones_r by lia.
  rewrite Z.shiftl_mul_pow2, Z.shiftr_div_pow2 by lia. change (2 ^ 12) with 4096. Z.to_euclidean_division_equations. lia.
Qed.
Lemma PTE_FLAGS_eq a f : a mod 4096 = 0 -> 0 <= f < 4096 -> PTE_FLAGS (a + f) = f.
Proof.
  intros Ha Hf. unfold PTE_FLAGS. change 0xFFF with (Z.ones 12). rewrite Z.land_ones by lia. change (2 ^ 12) with 4096.
  Z.to_euclidean_division_equations. lia.
Qed.
Lemma PGROUNDDOWN_eq n o : 0 <= o < 4096 -> PGROUNDDOWN (4096 * n + o) = 4096 * n.
Proof.
  intros Ho. unfold PGROUNDDOWN, PGSIZE. apply (PTE_ADDR_eq (4096 * n) o); [|done]. rewrite Z.mul_comm. by apply Z.mod_mul.
Qed.
Lemma PGROUNDDOWN_page n : PGROUNDDOWN (4096 * n) = 4096 * n.
Proof. rewrite <- (Z.add_0_r (4096 * n)) at 1. by apply PGROUNDDOWN_eq. Qed.
Lemma PDX_eq n o : 0 <= n < 2 ^ 20 -> 0 <= o < 4096 -> PDX (4096 * n + o) = n / 1024.
Proof.
  intros Hn Ho. unfold PDX. change 0x3FF with (Z.ones 10). rewrite Z.land_ones, Z.shiftr_div_pow2 by lia.
  change (2 ^ 22) with 4194304. change (2 ^ 10) with 1024. Z.to_euclidean_division_equations. lia.
Qed.
Lemma PTX_eq n o : 0 <= n < 2 ^ 20 -> 0 <= o < 4096 -> PTX (4096 * n + o) = n mod 1024.
Proof.
  intros Hn Ho. unfold PTX. change 0x3FF with (Z.ones 10). rewrite Z.land_ones, Z.shiftr_div_pow2 by lia.
  change (2 ^ 12) with 4096. change (2 ^ 10) with 1024. Z.to_euclidean_division_equations. lia.
Qed.
Lemma land_PTE_P e : Z.land e PTE_P = e mod 2.
Proof. unfold PTE_P. change 1 with (Z.ones 1). by rewrite Z.land_ones by lia. Qed.

(** ** Pages of memory *)

Definition page_eq (m m' : CString.mem) (p : Z) : Prop := forall i, 0 <= i < PGSIZE -> m' (p + i) = m (p + i).
(** All pages but [ps] are as before. *)
Definition same_off (ps : list Z) (m m' : CString.mem) : Prop := forall p, p mod PGSIZE = 0 -> p ∉ ps -> page_eq m m' p.

Lemma page_eq_trans m1 m2 m3 p : page_eq m1 m2 p -> page_eq m2 m3 p -> page_eq m1 m3 p.
Proof. intros H1 H2 i Hi. by rewrite H2, H1. Qed.
Lemma same_off_refl ps m : same_off ps m m.
Proof. by intros p _ _ i _. Qed.
Lemma same_off_weaken ps qs m m' : same_off ps m m' -> (forall p, p ∈ ps -> p ∈ qs) -> same_off qs m m'.
Proof. intros H Hs p Hp Hq. apply H; auto. Qed.
Lemma same_off_trans ps m1 m2 m3 : same_off ps m1 m2 -> same_off ps m2 m3 -> same_off ps m1 m3.
Proof. intros H1 H2 p Hp Hq. eapply page_eq_trans; auto. Qed.

Lemma page_eq_word m m' p i : page_eq m m' p -> 0 <= i < 1024 -> word_at m' (p + 4 * i) = word_at m (p + 4 * i).
Proof. intros H Hi. unfold word_at. rewrite <- !Z.add_assoc. rewrite !H by (unfold PGSIZE; lia). done. Qed.
Lemma outside_off p n m m' q : p mod PGSIZE = 0 -> 0 <= q -> q + n <= PGSIZE -> same_outside (p + q) n m m' -> same_off [p] m m'.
Proof.
  intros Hp Hq Hn H r Hr Hne i Hi. apply H. intros Hx. apply (pages_apart r p (r + i)); [done..|set_solver|lia|lia].
Qed.

Section Table.
Context {L : Type} `{Lock L} (kend : Z) (Hkend : 0 < kend).
Local Notation page_ok := (page_ok kend).

Definition memv (s : vm (L := L)) : CString.mem := k_mem (v_kmem s).
Definition vinv (l : list Z) (s : vm (L := L)) : Prop := kinv kend l (v_kmem s).

Lemma page_ok_bounds p : page_ok p -> p mod 4096 = 0 /\ KERNBASE <= p < KERNBASE + PHYSTOP.
Proof. unfold Kalloc.page_ok, PGSIZE. lia. Qed.
Lemma page_ok_nz p : page_ok p -> p <> 0.
Proof. intros Hp%page_ok_bounds. unfold KERNBASE in Hp. lia. Qed.
Lemma V2P_eq p : page_ok p -> V2P p = p - KERNBASE /\ (p - KERNBASE) mod 4096 = 0 /\ 0 <= p - KERNBASE < PHYSTOP.
Proof.
  intros Hp%page_ok_bounds. unfold V2P. rewrite u32_id by (unfold uint32, KERNBASE, PHYSTOP in *; lia). split; [done|].
  unfold KERNBASE, PHYSTOP in *. Z.to_euclidean_division_equations. lia.
Qed.
Lemma P2V_V2P p : page_ok p -> P2V (V2P p) = p.
Proof.
  intros Hp. destruct (V2P_eq p Hp) as [-> _]. apply page_ok_bounds in Hp. unfold P2V. rewrite u32_id by (unfold uint32, KERNBASE, PHYSTOP in *; lia). lia.
Qed.

Lemma kinv_write l k m' ps : kinv kend l k -> mem_ok m' -> same_off ps (k_mem k) m' -> (forall p, p ∈ ps -> p ∉ l) -> kinv kend l (put_kmem m' k).
Proof.
  intros [Hc Hn Hp Hm Hl] Hm' Hs Hps. constructor; try done. simpl. eapply page_chain_frame; [exact Hc|]. intros v x Hv Hx.
  replace x with (v + (x - v)) by lia. rewrite Forall_forall in Hp. destruct (Hp _ Hv) as [Hmod _].
  apply Hs; [done|intros Hin; by apply (Hps v)|unfold PGSIZE; lia].
Qed.

Lemma kalloc_none s : vinv [] s -> exists s', phys kalloc s = Ok 0 s' /\ vinv [] s' /\ memv s' = memv s.
Proof.
  intros I. destruct (kalloc_Ok kend Hkend [] _ I) as (k & Hr & I' & Hm & _). exists (put_vkmem k s). split; [by apply zoom_Ok|]. done.
Qed.
Lemma kalloc_some p l s : vinv (p :: l) s ->
  exists s', phys kalloc s = Ok p s' /\ vinv l s' /\ memv s' = memv s /\ page_ok p /\ p ∉ l.
Proof.
  intros I. destruct (kalloc_Ok kend Hkend (p :: l) _ I) as (k & Hr & I' & Hm & _). exists (put_vkmem k s). split; [by apply zoom_Ok|].
  destruct I as [_ [Hn _]%NoDup_cons [Hp _]%Forall_cons _ _]. done.
Qed.
Lemma kfree_v p l s : vinv l s -> page_ok p -> p ∉ l ->
  exists s', phys (kfree kend p) s = Ok tt s' /\ vinv (p :: l) s' /\ same_off [p] (memv s) (memv s').
Proof.
  intros I Hp Hl. destruct (kfree_Ok kend l _ p I Hp Hl) as (k & Hr & I' & Hm & _). exists (put_vkmem k s). split; [by apply zoom_Ok|]. split; [done|].
  eapply (outside_off p PGSIZE _ _ 0); [apply Hp|done|done|]. by rewrite Z.add_0_r.
Qed.
Lemma memset_v p c l s : vinv l s -> page_ok p -> p ∉ l ->
  exists s', phys (in_mem (memset p c PGSIZE)) s = Ok p s' /\ vinv l s' /\ same_off [p] (memv s) (memv s') /\
    forall i, 0 <= i < PGSIZE -> memv s' (p + i) = u8 c.
Proof.
  intros I Hp Hl. destruct (memset_Ok p c PGSIZE (memv s) (kv_mem _ _ _ I) ltac:(done)) as (m' & Hr & [Hf Ho] & Hm).
  exists (put_vkmem (put_kmem m' (v_kmem s)) s). split; [by do 2 apply zoom_Ok|].
  assert (same_off [p] (memv s) m') as Hs by (eapply (outside_off p PGSIZE _ _ 0); [apply Hp|done|done|by rewrite Z.add_0_r]).
  split; [eapply kinv_write; [exact I|done|exact Hs|set_solver]|]. split; [exact Hs|]. intros i Hi. apply Hf. lia.
Qed.
Lemma set_word_v p i v l s : vinv l s -> page_ok p -> p ∉ l -> 0 <= i < 1024 -> 0 <= v < 2 ^ 32 ->
  exists s', set_word (p + 4 * i) v s = Ok tt s' /\ vinv l s' /\ same_off [p] (memv s) (memv s') /\
    word_at (memv s') (p + 4 * i) = v /\ forall j, 0 <= j < 1024 -> j <> i -> word_at (memv s') (p + 4 * j) = word_at (memv s) (p + 4 * j).
Proof.
  intros I Hp Hl Hi Hv. destruct (store4_Ok (p + 4 * i) v (memv s) (kv_mem _ _ _ I)) as (m' & Hr & H0 & H1 & H2 & H3 & Ho & Hm).
  exists (put_vkmem (put_kmem m' (v_kmem s)) s). split; [by do 2 apply zoom_Ok|].
  assert (same_off [p] (memv s) m') as Hs by (eapply (outside_off p 4 _ _ (4 * i)); [apply Hp|lia|unfold PGSIZE; lia|done]).
  split; [eapply kinv_write; [exact I|done|exact Hs|set_solver]|]. split; [exact Hs|]. split; [by apply word_store4|].
  intros j Hj Hne. unfold word_at. rewrite !Ho by lia. done.
Qed.
Lemma get_word_v a s : get_word a s = Ok (word_at (memv s) a) s.
Proof. unfold get_word, phys, in_mem, zoom, load4, gets. by destruct s as [[] ? ? ?]. Qed.

(** ** Tables *)

Definition tpages (d : Z) (T : gmap Z Z) : list Z := d :: (map_to_list T).*2.

Record table (m : CString.mem) (d : Z) (T : gmap Z Z) (E : Z -> Z) : Prop := {
  tb_dir : page_ok d;
  tb_dom : forall i t, T !! i = Some t -> 0 <= i < 1024 /\ page_ok t;
  tb_pde : forall i, 0 <= i < 1024 -> word_at m (d + 4 * i) = match T !! i with Some t => V2P t + 7 | None => 0 end;
  tb_pte : forall n, 0 <= n < 2 ^ 20 ->
    match T !! (n / 1024) with Some t => word_at m (t + 4 * (n mod 1024)) = E n | None => E n = 0 end;
  tb_nodup : NoDup (tpages d T) }.

Lemma tpages_tab d (T : gmap Z Z) i t : T !! i = Some t -> t ∈ tpages d T.
Proof. intros Hi. right. apply list_elem_of_fmap. exists (i, t). split; [done|]. by apply elem_of_map_to_list. Qed.
Lemma tpages_elem d (T : gmap Z Z) p : p ∈ tpages d T <-> p = d \/ exists i, T !! i = Some p.
Proof.
  unfold tpages. rewrite elem_of_cons, list_elem_of_fmap. split.
  - intros [->|([i t] & -> & Hi)]; [by left|]. right. exists i. by apply elem_of_map_to_list.
  - intros [->|[i Hi]]; [by left|right]. exists (i, p). split; [done|]. by apply elem_of_map_to_list.
Qed.
Lemma tpages_insert d (T : gmap Z Z) i t : T !! i = None -> tpages d (<[i := t]> T) ≡ₚ t :: tpages d T.
Proof. intros Hi. unfold tpages. rewrite map_to_list_insert by done. apply perm_swap. Qed.
Lemma table_pages_ok m d T E p : table m d T E -> p ∈ tpages d T -> page_ok p.
Proof. intros Ht [->|[i Hi]]%tpages_elem; [apply Ht|]. by apply (tb_dom _ _ _ _ Ht i). Qed.
Lemma table_tab_ne m d T E i t : table m d T E -> T !! i = Some t -> t <> d.
Proof. intros Ht Hi ->. pose proof (tb_nodup _ _ _ _ Ht) as [Hn _]%NoDup_cons. apply Hn. apply list_elem_of_fmap. exists (i, d). split; [done|]. by apply elem_of_map_to_list. Qed.
Lemma table_tab_inj m d T E i j t : table m d T E -> T !! i = Some t -> T !! j = Some t -> i = j.
Proof.
  intros Ht Hi Hj. pose proof (tb_nodup _ _ _ _ Ht) as [_ Hn]%NoDup_cons. apply elem_of_map_to_list in Hi, Hj.
  apply list_elem_of_lookup in Hi as [a Ha], Hj as [b Hb].
  assert (a = b) as -> by (eapply (NoDup_lookup _ _ _ t Hn); rewrite list_lookup_fmap; [by rewrite Ha|by rewrite Hb]). congruence.
Qed.

Lemma table_frame m m' d T E : (forall p, p ∈ tpages d T -> page_eq m m' p) -> table m d T E -> table m' d T E.
Proof.
  intros Hp Ht. destruct Ht as [H1 H2 H3 H4 H5]. constructor; [done|done| | |done].
  - intros i Hi. rewrite (page_eq_word m m' d i); [auto|apply Hp, tpages_elem; by left|done].
  - intros n Hn. specialize (H4 n Hn). destruct (T !! (n / 1024)) as [t|] eqn:E1; [|done].
    rewrite (page_eq_word m m' t); [done|apply Hp; by eapply tpages_tab|]. by apply Z.mod_pos_bound.
Qed.

(** Page numbers and offsets. *)
Lemma page_index n : 0 <= n < 2 ^ 20 -> 0 <= n / 1024 < 1024 /\ 0 <= n mod 1024 < 1024.
Proof. intros Hn. Z.to_euclidean_division_equations. lia. Qed.

Definition slot (T : gmap Z Z) (n : Z) : option Z := (fun t => t + 4 * (n mod 1024)) <$> T !! (n / 1024).

(** A directory entry as [walkpgdir] reads it. *)
Lemma pde_present t : page_ok t -> Z.land (V2P t + 7) PTE_P =? 0 = false /\ P2V (PTE_ADDR (V2P t + 7)) = t.
Proof.
  intros Ht. destruct (V2P_eq t Ht) as (E & Hm & Hb). split.
  - rewrite land_PTE_P, E. apply Z.eqb_neq. Z.to_euclidean_division_equations. lia.
  - rewrite PTE_ADDR_eq by (rewrite ?E; lia). by apply P2V_V2P.
Qed.

Lemma walk_present m d T E n o alloc s : memv s = m -> table m d T E -> 0 <= n < 2 ^ 20 -> 0 <= o < 4096 -> forall a, slot T n = Some a ->
  walkpgdir d (4096 * n + o) alloc s = Ok a s.
Proof.
  intros <- Ht Hn Ho a Ha. unfold walkpgdir. rewrite PDX_eq, PTX_eq by done. destruct (page_index n Hn) as [Hi Hj].
  erewrite bind_Ok by apply get_word_v. rewrite (tb_pde _ _ _ _ Ht _ Hi). unfold slot in Ha. destruct (T !! (n / 1024)) as [t|] eqn:E1; [|done].
  destruct (tb_dom _ _ _ _ Ht _ _ E1) as [_ Hok]. destruct (pde_present t Hok) as [-> ->]. simpl. by simplify_eq/=.
Qed.
Lemma walk_absent m d T E n o s : memv s = m -> table m d T E -> 0 <= n < 2 ^ 20 -> 0 <= o < 4096 -> slot T n = None ->
  walkpgdir d (4096 * n + o) false s = Ok 0 s.
Proof.
  intros <- Ht Hn Ho Ha. unfold walkpgdir. rewrite PDX_eq, PTX_eq by done. destruct (page_index n Hn) as [Hi Hj].
  erewrite bind_Ok by apply get_word_v. rewrite (tb_pde _ _ _ _ Ht _ Hi). unfold slot in Ha. by destruct (T !! (n / 1024)) as [t|] eqn:E1.
Qed.

Definition apart (l ps : list Z) : Prop := forall p, p ∈ ps -> p ∉ l.

Lemma fresh_table m m' d T E i t : table m d T E -> T !! i = None -> 0 <= i < 1024 -> page_ok t -> t ∉ tpages d T ->
  (forall j, 0 <= j < 1024 -> word_at m' (t + 4 * j) = 0) -> word_at m' (d + 4 * i) = V2P t + 7 ->
  (forall j, 0 <= j < 1024 -> j <> i -> word_at m' (d + 4 * j) = word_at m (d + 4 * j)) ->
  (forall j u, T !! j = Some u -> page_eq m m' u) -> table m' d (<[i := t]> T) E.
Proof.
  intros Ht Hi Hib Hok Htp Hz Hd Hdo Hu. constructor.
  - apply Ht.
  - intros j u [[<- <-]|[Hne Hj]]%lookup_insert_Some; [done|by apply (tb_dom _ _ _ _ Ht)].
  - intros j Hj. destruct (decide (j = i)) as [->|Hne]; [by rewrite lookup_insert_eq|]. rewrite lookup_insert_ne, Hdo by done. by apply Ht.
  - intros n Hn. pose proof (tb_pte _ _ _ _ Ht n Hn) as Hp. destruct (page_index n Hn) as [_ Hj]. destruct (decide (n / 1024 = i)) as [<-|Hne].
    + rewrite Hi in Hp. by rewrite lookup_insert_eq, Hp, Hz.
    + rewrite lookup_insert_ne by done. destruct (T !! (n / 1024)) as [u|] eqn:E1; [|done]. by rewrite (page_eq_word m m' u) by eauto.
  - rewrite tpages_insert by done. constructor; [done|apply Ht].
Qed.

Lemma walk_alloc d T E n o l s : vinv l s -> table (memv s) d T E -> apart l (tpages d T) -> 0 <= n < 2 ^ 20 -> 0 <= o < 4096 ->
  exists r s' l' T', walkpgdir d (4096 * n + o) true s = Ok r s' /\ vinv l' s' /\ table (memv s') d T' E /\
    l' ++ tpages d T' ≡ₚ l ++ tpages d T /\ T ⊆ T' /\ same_off (l ++ tpages d T) (memv s) (memv s') /\
    match slot T' n with Some a => r = a | None => r = 0 /\ l = [] /\ l' = [] /\ T' = T /\ memv s' = memv s end.
Proof.
  intros I Ht Hap Hn Ho. destruct (slot T n) as [a|] eqn:Ea.
  { exists a, s, l, T. rewrite (walk_present (memv s) d T E) with (a := a) by done. rewrite Ea. by split_and!. }
  destruct (page_index n Hn) as [Hi Hj]. unfold walkpgdir. rewrite PDX_eq, PTX_eq by done. erewrite bind_Ok by apply get_word_v.
  rewrite (tb_pde _ _ _ _ Ht _ Hi). unfold slot in Ea. destruct (T !! (n / 1024)) as [|] eqn:E1; [done|]. rewrite Z.land_0_l. cbn [negb Z.eqb].
  destruct l as [|t l].
  { destruct (kalloc_none s I) as (s1 & Hr1 & I1 & Hm1). erewrite bind_Ok by exact Hr1. exists 0, s1, [], T. rewrite Hm1. unfold slot. rewrite E1. by split_and!. }
  destruct (kalloc_some t l s I) as (s1 & Hr1 & I1 & Hm1 & Hok & Htl). erewrite bind_Ok by exact Hr1.
  pose proof (page_ok_nz t Hok) as Ht0%Z.eqb_neq. rewrite Ht0. assert (t ∉ tpages d T) as Htp by (intros Hin; apply (Hap t Hin); left).
  destruct (memset_v t 0 l s1 I1 Hok Htl) as (s2 & Hr2 & I2 & Hs2 & Hz). erewrite bind_Ok by exact Hr2.
  destruct (V2P_eq t Hok) as (Ev & Hvm & Hvb). replace (Z.lor _ PTE_U) with (V2P t + 7) by (rewrite <- !Z.lor_assoc, lor_flags; [done|by rewrite Ev|done]).
  destruct (set_word_v d (n / 1024) (V2P t + 7) l s2 I2 (tb_dir _ _ _ _ Ht)) as (s3 & Hr3 & I3 & Hs3 & Hw & Hwo); [|done|rewrite Ev; unfold PHYSTOP in *; lia|].
  { intros Hin. apply (Hap d); [left|by right]. }
  erewrite bind_Ok by exact Hr3. exists (t + 4 * (n mod 1024)), s3, l, (<[n / 1024 := t]> T). rewrite <- Hm1 in *.
  assert (same_off [t; d] (memv s1) (memv s3)) as Hs.
  { eapply same_off_trans; eapply same_off_weaken; [exact Hs2|set_solver|exact Hs3|set_solver]. }
  split_and!; [done|done| | | | |].
  - eapply (fresh_table (memv s1)); try done.
    + intros j Hjb. rewrite (page_eq_word (memv s2)); [|apply Hs3; [apply Hok|set_solver]|done]. unfold word_at. rewrite <- !Z.add_assoc. by rewrite !Hz by (unfold PGSIZE; lia).
    + intros j Hjb Hne. rewrite Hwo by done. apply page_eq_word; [|done]. apply Hs2; [apply Ht|]. apply not_elem_of_cons. split; [|set_solver]. intros ->. apply Htp. left.
    + intros j u Hu. apply Hs; [apply (tb_dom _ _ _ _ Ht _ _ Hu)|]. apply not_elem_of_cons. split; [intros ->; by eapply Htp, tpages_tab|].
      intros ->%list_elem_of_singleton. by eapply table_tab_ne.
  - rewrite tpages_insert by done. by rewrite <- Permutation_middle.
  - by apply insert_subseteq.
  - eapply same_off_weaken; [exact Hs|]. unfold tpages. set_solver.
  - unfold slot. by rewrite lookup_insert_eq.
Qed.

(** ** Changing entries *)

Definition fupd (E : Z -> Z) (n v : Z) : Z -> Z := fun k => if k =? n then v else E k.

Lemma slot_Some T n a : slot T n = Some a -> exists t, T !! (n / 1024) = Some t /\ a = t + 4 * (n mod 1024).
Proof. unfold slot. destruct (T !! (n / 1024)) as [t|]; [|done]. intros [= <-]. by exists t. Qed.
Lemma slot_word m d T E n a : table m d T E -> 0 <= n < 2 ^ 20 -> slot T n = Some a -> word_at m a = E n /\ a <> 0.
Proof.
  intros Ht Hn (t & HT & ->)%slot_Some. pose proof (tb_pte _ _ _ _ Ht n Hn) as Hp. rewrite HT in Hp. split; [done|].
  destruct (tb_dom _ _ _ _ Ht _ _ HT) as [_ Hok%page_ok_bounds]. destruct (page_index n Hn) as [_ Hj]. unfold KERNBASE in Hok. lia.
Qed.

Lemma set_pte d T E n v a l s : vinv l s -> table (memv s) d T E -> apart l (tpages d T) -> 0 <= n < 2 ^ 20 -> 0 <= v < 2 ^ 32 -> slot T n = Some a ->
  exists s', set_word a v s = Ok tt s' /\ vinv l s' /\ table (memv s') d T (fupd E n v) /\ same_off (tpages d T) (memv s) (memv s').
Proof.
  intros I Ht Hap Hn Hv (t & HT & ->)%slot_Some. destruct (tb_dom _ _ _ _ Ht _ _ HT) as [_ Hok]. destruct (page_index n Hn) as [Hi Hj].
  pose proof (tpages_tab d _ _ _ HT) as Htin.
  destruct (set_word_v t (n mod 1024) v l s I Hok (Hap t Htin) Hj Hv) as (s' & Hr & I' & Hs & Hw & Hwo).
  exists s'. split_and!; [done|done| |eapply same_off_weaken; [exact Hs|set_solver]].
  assert (forall p, p ∈ tpages d T -> p <> t -> page_eq (memv s) (memv s') p) as Hfr.
  { intros p Hp Hne. apply Hs; [by apply (table_pages_ok _ _ _ _ _ Ht)|]. by intros ->%list_elem_of_singleton. }
  constructor; try apply Ht.
  - intros i Hib. rewrite (page_eq_word (memv s)); [by apply Ht|apply Hfr; [left|]|done]. intros ->. by apply (table_tab_ne _ _ _ _ _ _ Ht HT).
  - intros k Hk. pose proof (tb_pte _ _ _ _ Ht k Hk) as Hp. unfold fupd. destruct (page_index k Hk) as [Hki Hkj]. destruct (Z.eqb_spec k n) as [->|Hne].
    + by rewrite HT.
    + destruct (T !! (k / 1024)) as [u|] eqn:Eu; [|done]. rewrite <- Hp. destruct (decide (u = t)) as [->|Hut].
      * apply Hwo; [done|]. pose proof (table_tab_inj _ _ _ _ _ _ _ Ht HT Eu). Z.to_euclidean_division_equations. lia.
      * apply page_eq_word; [|done]. apply Hfr; [by eapply tpages_tab|done].
Qed.

(** [k] pages from page [a] mapped to the physical memory at [pa]. *)
Definition fill (E : Z -> Z) (a : Z) (k : Z) (pa f : Z) : Z -> Z :=
  fun n => if (a <=? n) && (n <? a + k) then pa + 4096 * (n - a) + f else E n.

Lemma table_ext m d T E E' : (forall n, 0 <= n < 2 ^ 20 -> E' n = E n) -> table m d T E -> table m d T E'.
Proof. intros HE Ht. constructor; try apply Ht. intros n Hn. rewrite HE by done. by apply Ht. Qed.

Lemma apart_perm l l' ps qs : NoDup (l ++ ps) -> l' ++ qs ≡ₚ l ++ ps -> apart l' qs.
Proof. intros Hn E. rewrite <- E in Hn. apply NoDup_app in Hn as (_ & Hn & _). intros p Hp Hl. by apply (Hn p). Qed.

Lemma pte_value pa perm : pa mod 4096 = 0 -> 0 <= perm < 4096 -> Z.lor (Z.lor pa perm) PTE_P = pa + Z.lor perm 1 /\ 0 <= Z.lor perm 1 < 4096.
Proof.
  intros Hpa Hf. assert (0 <= Z.lor perm 1 < 4096) as Hb.
  { split; [apply Z.lor_nonneg; lia|]. change 4096 with (2 ^ 12). apply Z.log2_lt_cancel. rewrite Z.log2_pow2, Z.log2_lor by lia.
    change (Z.log2 1) with 0. pose proof (Z.log2_nonneg perm). apply Z.max_lub_lt; [|lia]. destruct (Z.eq_dec perm 0) as [->|]; [done|]. apply Z.log2_lt_pow2; lia. }
  split; [|done]. rewrite <- Z.lor_assoc. by apply lor_flags.
Qed.

Lemma slot_range m d T E n a : table m d T E -> slot T n = Some a -> 0 <= n < 2 ^ 20.
Proof. intros Ht (t & HT & _)%slot_Some. apply (tb_dom _ _ _ _ Ht) in HT as [Hi _]. Z.to_euclidean_division_equations. lia. Qed.

(** One round: the entry of page [a] is set, or there is no memory for its table. *)
Lemma map_one d pa perm a T E l s : vinv l s -> table (memv s) d T E -> NoDup (l ++ tpages d T) -> 0 <= a < 2 ^ 20 -> pa mod 4096 = 0 ->
  0 <= pa -> pa + 4096 <= 2 ^ 32 -> 0 <= perm < 4096 -> E a mod 2 = 0 ->
  (exists s', walkpgdir d (4096 * a) true s = Ok 0 s' /\ vinv [] s' /\ l = [] /\ memv s' = memv s) \/
  (exists pte s1 s' l' T', walkpgdir d (4096 * a) true s = Ok pte s1 /\ pte <> 0 /\ word_at (memv s1) pte mod 2 = 0 /\
    set_word pte (Z.lor (Z.lor pa perm) PTE_P) s1 = Ok tt s' /\ vinv l' s' /\ table (memv s') d T' (fupd E a (pa + Z.lor perm 1)) /\
    l' ++ tpages d T' ≡ₚ l ++ tpages d T /\ T ⊆ T' /\ same_off (l ++ tpages d T) (memv s) (memv s')).
Proof.
  intros I Ht Hnd Ha Hpm Hp0 Hp1 Hperm HE. destruct (pte_value pa perm Hpm Hperm) as [-> Hf].
  destruct (walk_alloc d T E a 0 l s I Ht) as (r & s1 & l1 & T1 & Hr & I1 & Ht1 & Hp & HT & Hs & Hres); [by eapply apart_perm|done..|]. rewrite Z.add_0_r in Hr.
  destruct (slot T1 a) as [pte|] eqn:Es.
  - subst r. right. destruct (slot_word _ _ _ _ _ _ Ht1 Ha Es) as [Hw Hnz].
    destruct (set_pte d T1 E a (pa + Z.lor perm 1) pte l1 s1 I1 Ht1) as (s2 & Hr2 & I2 & Ht2 & Hs2); [by eapply apart_perm|done|lia|done|].
    exists pte, s1, s2, l1, T1. split_and!; try done; [by rewrite Hw|]. eapply same_off_trans; [exact Hs|]. eapply same_off_weaken; [exact Hs2|].
    intros p Hpin. rewrite <- Hp. set_solver.
  - left. destruct Hres as (-> & -> & -> & -> & Hm). by exists s1.
Qed.

Lemma mappages_loop_Ok d perm : forall k a pa T E l s, vinv l s -> table (memv s) d T E -> NoDup (l ++ tpages d T) ->
  0 <= a -> a + Z.of_nat (S k) <= 2 ^ 20 -> pa mod 4096 = 0 -> 0 <= pa -> pa + 4096 * Z.of_nat (S k) <= 2 ^ 32 -> 0 <= perm < 4096 ->
  (forall n, a <= n < a + Z.of_nat (S k) -> E n mod 2 = 0) ->
  exists r s' l' T' j, mappages_loop (S k) d (4096 * a) (4096 * (a + Z.of_nat k)) pa perm s = Ok r s' /\ vinv l' s' /\
    table (memv s') d T' (fill E a j pa (Z.lor perm 1)) /\ l' ++ tpages d T' ≡ₚ l ++ tpages d T /\ T ⊆ T' /\
    same_off (l ++ tpages d T) (memv s) (memv s') /\ ((r = 0 /\ j = Z.of_nat (S k)) \/ (r = -1 /\ 0 <= j <= Z.of_nat k /\ l' = [])).
Proof.
  induction k as [|k IH]; intros a pa T E l s I Ht Hnd Ha Hak Hpm Hp0 Hp1 Hperm HE;
    (destruct (map_one d pa perm a T E l s I Ht Hnd) as [(s1 & Hr & I1 & -> & Hm)|(pte & s1 & s2 & l1 & T1 & Hr & Hnz & Hev & Hr2 & I2 & Ht2 & Hp & HT & Hs)];
      [lia|done|done|lia|done|apply HE; lia|..]).
  1,3: exists (-1), s1, [], T, 0; cbn [mappages_loop]; erewrite bind_Ok by exact Hr; rewrite Hm; split_and!; try done; [|right; split_and!; (done || lia)];
    eapply table_ext; [|exact Ht]; intros n _; unfold fill; destruct (Z.leb_spec a n), (Z.ltb_spec n (a + 0)); (done || lia).
  all: cbn [mappages_loop]; erewrite bind_Ok by exact Hr; apply Z.eqb_neq in Hnz; rewrite Hnz; erewrite bind_Ok by apply get_word_v;
    rewrite land_PTE_P, Hev; cbn [negb Z.eqb]; erewrite bind_Ok by exact Hr2.
  - rewrite Z.add_0_r, Z.eqb_refl. exists 0, s2, l1, T1, 1. split_and!; try done; [|by left].
    eapply table_ext; [|exact Ht2]. intros n _. unfold fill, fupd. destruct (Z.leb_spec a n), (Z.ltb_spec n (a + 1)), (Z.eqb_spec n a); simpl; lia.
  - destruct (Z.eqb_spec (4096 * a) (4096 * (a + Z.of_nat (S k)))) as [|_]; [lia|]. rewrite !u32_id by (unfold uint32, PGSIZE; lia).
    unfold PGSIZE. replace (4096 * a + 4096) with (4096 * (a + 1)) by lia. replace (a + Z.of_nat (S k)) with (a + 1 + Z.of_nat k) by lia.
    destruct (IH (a + 1) (pa + 4096) T1 (fupd E a (pa + Z.lor perm 1)) l1 s2 I2 Ht2) as (r & s3 & l3 & T3 & j & Hr3 & I3 & Ht3 & Hp3 & HT3 & Hs3 & Hres);
      [by rewrite Hp|lia|lia|by rewrite Zplus_mod, Hpm|lia|lia|done| |].
    { intros n Hn. unfold fupd. destruct (Z.eqb_spec n a); [lia|]. apply HE. lia. }
    assert (0 <= j) as Hj0 by (destruct Hres as [[_ ->]|(_ & ? & _)]; lia). exists r, s3, l3, T3, (j + 1). split_and!; [done|done| |by rewrite Hp3|by etrans| |].
    + eapply table_ext; [|exact Ht3]. intros n _. unfold fill, fupd.
      destruct (Z.leb_spec a n), (Z.ltb_spec n (a + (j + 1))), (Z.leb_spec (a + 1) n), (Z.ltb_spec n (a + 1 + j)), (Z.eqb_spec n a); simpl; lia.
    + eapply same_off_trans; [exact Hs|]. eapply same_off_weaken; [exact Hs3|]. intros p. by rewrite Hp.
    + destruct Hres as [[-> ->]|(-> & Hj & ->)]; [left|right]; (split_and!; (done || lia)).
Qed.

(** ** mappages *)

Lemma mappages_Ok d perm k a pa T E l s : vinv l s -> table (memv s) d T E -> NoDup (l ++ tpages d T) -> 0 <= a -> 0 < k -> a + k <= 2 ^ 20 ->
  pa mod 4096 = 0 -> 0 <= pa -> pa + 4096 * k <= 2 ^ 32 -> 0 <= perm < 4096 -> (forall n, a <= n < a + k -> E n mod 2 = 0) ->
  exists r s' l' T' j, mappages d (4096 * a) (4096 * k) pa perm s = Ok r s' /\ vinv l' s' /\
    table (memv s') d T' (fill E a j pa (Z.lor perm 1)) /\ l' ++ tpages d T' ≡ₚ l ++ tpages d T /\ T ⊆ T' /\
    same_off (l ++ tpages d T) (memv s) (memv s') /\ ((r = 0 /\ j = k) \/ (r = -1 /\ 0 <= j < k /\ l' = [])).
Proof.
  intros I Ht Hnd Ha Hk Hak Hpm Hp0 Hp1 Hperm HE. pose (k' := Z.to_nat (k - 1)). assert (k = Z.of_nat (S k')) as Ek by lia.
  destruct (mappages_loop_Ok d perm k' a pa T E l s I Ht Hnd) as (r & s' & l' & T' & j & Hr & I' & Ht' & Hp & HT & Hs & Hres);
    [done|lia|done|done|lia|done|intros n Hn; apply HE; lia|].
  exists r, s', l', T', j. split_and!; try done; [|destruct Hres as [[-> ->]|(-> & ? & ->)]; [by left|right; split_and!; (done || lia)]].
  rewrite <- Hr. unfold mappages. rewrite (u32_id (_ + _ - 1)) by (unfold uint32; lia).
  replace (4096 * a + 4096 * k - 1) with (4096 * (a + Z.of_nat k') + 4095) by lia. rewrite PGROUNDDOWN_eq by lia.
  rewrite PGROUNDDOWN_page.
  rewrite u32_id by (unfold uint32; lia). replace (4096 * (a + Z.of_nat k') - 4096 * a) with (Z.of_nat k' * 4096) by lia.
  unfold PGSIZE. by rewrite Z.div_mul, Nat2Z.id by done.
Qed.

(** One page, as [allocuvm], [copyuvm] and [inituvm] map it: all or nothing. *)
Lemma mappages_page d perm a pa T E l s : vinv l s -> table (memv s) d T E -> NoDup (l ++ tpages d T) -> 0 <= a < 2 ^ 20 ->
  pa mod 4096 = 0 -> 0 <= pa -> pa + 4096 <= 2 ^ 32 -> 0 <= perm < 4096 -> E a mod 2 = 0 ->
  exists r s' l' T', mappages d (4096 * a) PGSIZE pa perm s = Ok r s' /\ vinv l' s' /\
    table (memv s') d T' (if r =? 0 then fupd E a (pa + Z.lor perm 1) else E) /\ l' ++ tpages d T' ≡ₚ l ++ tpages d T /\ T ⊆ T' /\
    same_off (l ++ tpages d T) (memv s) (memv s') /\ (r = 0 \/ (r = -1 /\ l' = [])).
Proof.
  intros I Ht Hnd Ha Hpm Hp0 Hp1 Hperm HE.
  destruct (mappages_Ok d perm 1 a pa T E l s I Ht Hnd) as (r & s' & l' & T' & j & Hr & I' & Ht' & Hp & HT & Hs & Hres);
    [lia|done|lia|done|done|lia|done|intros n Hn; by replace n with a by lia|].
  exists r, s', l', T'. split_and!; try done; [|destruct Hres as [[-> _]|(-> & _ & ->)]; [by left|by right]].
  eapply table_ext; [|exact Ht']. intros n _. unfold fill, fupd. destruct Hres as [[-> ->]|(-> & Hj & ->)]; cbn [Z.eqb].
  - destruct (Z.leb_spec a n), (Z.ltb_spec n (a + 1)), (Z.eqb_spec n a); simpl; lia.
  - destruct (Z.leb_spec a n), (Z.ltb_spec n (a + j)); simpl; lia.
Qed.
End Table.
