(* ===== verification/VmSpace.v ===== *)
(** * Address spaces

    A space is a page table whose user half maps the pages of the process and
    whose other half is the kernel's; it owns its tables and user pages. *)

From stdpp Require Import base gmap list strings.
From Stdlib Require Import ZArith Lia.
From S2P Require Import Prelude Spinlock CString Sync Kalloc Vm VmTable.
Local Open Scope Z_scope.

Record space := mkSpace { sp_dir : Z; sp_tabs : gmap Z Z; sp_user : gmap Z (Z * Z) }.

(** The entries of a space: user pages below [KERNBASE], [K] above. *)
Definition user_pte (u : Z * Z) : Z := V2P u.1 + u.2.
Definition entries (K : Z -> Z) (U : gmap Z (Z * Z)) (n : Z) : Z :=
  if n <? 2 ^ 19 then match U !! n with Some u => user_pte u | None => 0 end else K n.

Definition upages (U : gmap Z (Z * Z)) : list Z := (map_to_list U).*2.*1.
Definition spages (sp : space) : list Z := tpages (sp_dir sp) (sp_tabs sp) ++ upages (sp_user sp).

Lemma upages_elem U p : p ∈ upages U <-> exists n f, U !! n = Some (p, f).
Proof.
  unfold upages. rewrite list_elem_of_fmap. split.
  - intros ([q f] & -> & ([n u] & E & Hn)%list_elem_of_fmap). simpl in *. subst u. exists n, f. by apply elem_of_map_to_list.
  - intros (n & f & Hn). exists (p, f). split; [done|]. apply list_elem_of_fmap. exists (n, (p, f)). split; [done|]. by apply elem_of_map_to_list.
Qed.
Lemma upages_insert (U : gmap Z (Z * Z)) n p f : U !! n = None -> upages (<[n := (p, f)]> U) ≡ₚ p :: upages U.
Proof. intros Hn. unfold upages. by rewrite map_to_list_insert. Qed.
Lemma upages_delete (U : gmap Z (Z * Z)) n p f : U !! n = Some (p, f) -> upages U ≡ₚ p :: upages (delete n U).
Proof. intros Hn. rewrite <- upages_insert with (n := n) (f := f) by apply lookup_delete_eq. by rewrite insert_delete_id. Qed.

Section Space.
Context {L : Type} `{Lock L} (kend : Z) (Hkend : KERNBASE < kend).
Local Notation page_ok := (page_ok kend).
Local Notation vinv := (vinv kend).
Local Notation table := (table kend).

Lemma Hkend0 : 0 < kend.
Proof. unfold KERNBASE in *. lia. Qed.

Record vspace (K : Z -> Z) (m : CString.mem) (sp : space) : Prop := {
  vs_table : table m (sp_dir sp) (sp_tabs sp) (entries K (sp_user sp));
  vs_user : forall n p f, sp_user sp !! n = Some (p, f) -> 0 <= n < 2 ^ 19 /\ page_ok p /\ 0 <= f < 4096 /\ f mod 2 = 1 }.

Lemma vspace_frame K m m' sp : (forall p, p ∈ tpages (sp_dir sp) (sp_tabs sp) -> page_eq m m' p) -> vspace K m sp -> vspace K m' sp.
Proof. intros Hp [Ht Hu]. split; [by eapply table_frame|done]. Qed.

Lemma vspace_pages_ok K m sp p : vspace K m sp -> p ∈ spages sp -> page_ok p.
Proof.
  intros [Ht Hu] [Hp|(n & f & Hp)%upages_elem]%elem_of_app; [by eapply table_pages_ok|]. by apply (Hu _ _ _ Hp).
Qed.

(** A user entry as the code reads it. *)
Lemma user_pte_bits p f : page_ok p -> 0 <= f < 4096 -> f mod 2 = 1 ->
  Z.land (user_pte (p, f)) PTE_P =? 0 = false /\ PTE_ADDR (user_pte (p, f)) = V2P p /\ PTE_FLAGS (user_pte (p, f)) = f /\
  P2V (V2P p) = p /\ V2P p <> 0.
Proof.
  intros Hp Hf Ho. unfold user_pte. destruct (V2P_eq kend p Hp) as (E & Hm & Hb). simpl. split_and!.
  - rewrite land_PTE_P, E. apply Z.eqb_neq. Z.to_euclidean_division_equations. lia.
  - apply PTE_ADDR_eq; [by rewrite E|done].
  - apply PTE_FLAGS_eq; [by rewrite E|done].
  - by eapply P2V_V2P.
  - rewrite E. destruct Hp as (_ & Hk & _). lia.
Qed.

Lemma entries_user K U n : 0 <= n < 2 ^ 19 -> entries K U n = match U !! n with Some u => user_pte u | None => 0 end.
Proof. intros Hn. unfold entries. by destruct (Z.ltb_spec n (2 ^ 19)); [|lia]. Qed.
Lemma entries_delete K U n k : 0 <= n < 2 ^ 19 -> entries K (delete n U) k = fupd (entries K U) n 0 k.
Proof.
  intros Hn. unfold entries, fupd. destruct (Z.eqb_spec k n) as [->|Hne].
  - destruct (Z.ltb_spec n (2 ^ 19)); [|lia]. by rewrite lookup_delete_eq.
  - by rewrite lookup_delete_ne by done.
Qed.
Lemma entries_insert K U n u k : 0 <= n < 2 ^ 19 -> entries K (<[n := u]> U) k = fupd (entries K U) n (user_pte u) k.
Proof.
  intros Hn. unfold entries, fupd. destruct (Z.eqb_spec k n) as [->|Hne].
  - destruct (Z.ltb_spec n (2 ^ 19)); [|lia]. by rewrite lookup_insert_eq.
  - by rewrite lookup_insert_ne by done.
Qed.

Lemma user_slot K m sp n u : vspace K m sp -> sp_user sp !! n = Some u -> exists a, slot (sp_tabs sp) n = Some a.
Proof.
  intros [Ht Hu] Hn. destruct u as [p f]. destruct (Hu _ _ _ Hn) as (Hb & Hp & Hf & Ho). pose proof (tb_pte _ _ _ _ _ Ht n ltac:(lia)) as He.
  unfold slot. destruct (sp_tabs sp !! (n / 1024)) as [t|]; [by eexists|]. rewrite entries_user, Hn in He by done.
  destruct (user_pte_bits p f Hp Hf Ho) as [Hbit _]. rewrite He in Hbit. done.
Qed.

Lemma walk_page d T E n alloc a s : table (memv s) d T E -> 0 <= n < 2 ^ 20 -> slot T n = Some a -> walkpgdir d (4096 * n) alloc s = Ok a s.
Proof. intros Ht Hn Ha. rewrite <- (Z.add_0_r (4096 * n)). by eapply walk_present. Qed.
Lemma walk_no_page d T E n s : table (memv s) d T E -> 0 <= n < 2 ^ 20 -> slot T n = None -> walkpgdir d (4096 * n) false s = Ok 0 s.
Proof. intros Ht Hn Ha. rewrite <- (Z.add_0_r (4096 * n)). by eapply walk_absent. Qed.

(** ** deallocuvm *)

Definition with_user (sp : space) (U : gmap Z (Z * Z)) : space := mkSpace (sp_dir sp) (sp_tabs sp) U.

Lemma with_user_id sp : with_user sp (sp_user sp) = sp.
Proof. by destruct sp. Qed.

(** Where a user page is not. *)
Lemma user_page_apart l sp n p f : NoDup (l ++ spages sp) -> sp_user sp !! n = Some (p, f) ->
  p ∉ l /\ p ∉ tpages (sp_dir sp) (sp_tabs sp) /\ p ∉ upages (delete n (sp_user sp)).
Proof.
  intros Hnd Hn. unfold spages in Hnd. rewrite (upages_delete _ _ _ _ Hn), !NoDup_app, NoDup_cons in Hnd. set_solver.
Qed.
Lemma apart_tables l sp : NoDup (l ++ spages sp) -> NoDup (l ++ tpages (sp_dir sp) (sp_tabs sp)).
Proof. unfold spages. rewrite app_assoc. by intros [? _]%NoDup_app. Qed.
Lemma apart_tables' l sp : NoDup (l ++ spages sp) -> apart l (tpages (sp_dir sp) (sp_tabs sp)).
Proof. intros Hnd%apart_tables. by eapply apart_perm. Qed.

Lemma free_user_page K sp n p f a l s : vinv l s -> vspace K (memv s) sp -> NoDup (l ++ spages sp) -> sp_user sp !! n = Some (p, f) ->
  slot (sp_tabs sp) n = Some a ->
  exists s1 s2, phys (kfree kend p) s = Ok tt s1 /\ set_word a 0 s1 = Ok tt s2 /\ vinv (p :: l) s2 /\
    vspace K (memv s2) (with_user sp (delete n (sp_user sp))) /\ same_off (p :: tpages (sp_dir sp) (sp_tabs sp)) (memv s) (memv s2).
Proof.
  intros I Hv Hnd Hn Ha. destruct (vs_user _ _ _ Hv _ _ _ Hn) as (Hb & Hp & Hf & Ho). destruct (user_page_apart _ _ _ _ _ Hnd Hn) as (Hpl & Hpt & Hpu).
  destruct (kfree_v kend p l s I Hp Hpl) as (s1 & Hr1 & I1 & Hs1).
  assert (table (memv s1) (sp_dir sp) (sp_tabs sp) (entries K (sp_user sp))) as Ht1.
  { eapply table_frame; [|apply Hv]. intros q Hq. apply Hs1; [by apply (table_pages_ok _ _ _ _ _ _ (vs_table _ _ _ Hv))|]. by intros ->%list_elem_of_singleton. }
  destruct (set_pte kend Hkend0 _ _ _ n 0 a (p :: l) s1 I1 Ht1) as (s2 & Hr2 & I2 & Ht2 & Hs2); [|lia|lia|done|].
  { intros q Hq [->|Hql]%elem_of_cons; [done|]. by apply (apart_tables' _ _ Hnd q). }
  exists s1, s2. split_and!; [done..| |].
  - split; [eapply table_ext; [|exact Ht2]; intros k Hk; by apply entries_delete|]. simpl. intros k q g [_ Hk]%lookup_delete_Some. by apply (vs_user _ _ _ Hv _ _ _ Hk).
  - eapply same_off_trans; eapply same_off_weaken; [exact Hs1|set_solver|exact Hs2|set_solver].
Qed.

Lemma spages_delete l sp n p f : sp_user sp !! n = Some (p, f) -> (p :: l) ++ spages (with_user sp (delete n (sp_user sp))) ≡ₚ l ++ spages sp.
Proof.
  intros Hn. unfold spages, with_user. cbn [sp_dir sp_tabs sp_user]. rewrite (upages_delete _ _ _ _ Hn). generalize (tpages (sp_dir sp) (sp_tabs sp)). intros ts.
  by rewrite <- (Permutation_middle ts), <- Permutation_middle.
Qed.

Definition drop_pages (a b : Z) (U U' : gmap Z (Z * Z)) : Prop := forall n, U' !! n = if (a <=? n) && (n <? b) then None else U !! n.

Lemma drop_pages_sub a b U U' : drop_pages a b U U' -> forall q, q ∈ upages U' -> q ∈ upages U.
Proof. intros Hd q (n & f & Hn)%upages_elem. apply upages_elem. exists n, f. rewrite (Hd n) in Hn. by destruct (_ && _). Qed.
Lemma upage_apart l sp q : NoDup (l ++ spages sp) -> q ∈ upages (sp_user sp) -> q ∉ l /\ q ∉ tpages (sp_dir sp) (sp_tabs sp).
Proof. unfold spages. rewrite !NoDup_app. set_solver. Qed.

Lemma next_table n : 0 <= n < 2 ^ 19 -> u32 (u32 (PGADDR (PDX (4096 * n) + 1) 0 0 - PGSIZE) + PGSIZE) = 4096 * (1024 * (n / 1024 + 1)).
Proof.
  intros Hn. rewrite <- (Z.add_0_r (4096 * n)), PDX_eq by lia. unfold PGADDR. rewrite Z.shiftl_0_l, !Z.lor_0_r, Z.shiftl_mul_pow2 by lia.
  change (2 ^ 22) with 4194304. unfold PGSIZE. assert (0 <= n / 1024 < 512) by (Z.to_euclidean_division_equations; lia).
  rewrite (u32_id (_ * _)), (u32_id (_ - _)), (u32_id (_ + 4096)) by (unfold uint32; lia). lia.
Qed.

Lemma absent_user K m sp n k : vspace K m sp -> slot (sp_tabs sp) n = None -> n / 1024 = k / 1024 -> sp_user sp !! k = None.
Proof.
  intros Hv Hs E. destruct (sp_user sp !! k) as [u|] eqn:Ek; [|done]. destruct (user_slot _ _ _ _ _ Hv Ek) as [a Ha]. unfold slot in Hs, Ha. rewrite E in Hs.
  by destruct (sp_tabs sp !! (k / 1024)).
Qed.

Lemma deallocuvm_loop_Ok K oldsz N : 4096 * (N - 1) < oldsz <= 4096 * N -> N <= 2 ^ 19 -> forall fuel a sp l s,
  vinv l s -> vspace K (memv s) sp -> NoDup (l ++ spages sp) -> 0 <= a -> Z.max 0 (N - a) < Z.of_nat fuel ->
  exists s' l' U', deallocuvm_loop kend fuel (sp_dir sp) (4096 * a) oldsz s = Ok tt s' /\ vinv l' s' /\ vspace K (memv s') (with_user sp U') /\
    l' ++ spages (with_user sp U') ≡ₚ l ++ spages sp /\ drop_pages a N (sp_user sp) U' /\ same_off (l ++ spages sp) (memv s) (memv s') /\
    forall p, p ∈ upages U' -> page_eq (memv s) (memv s') p.
Proof.
  intros HN HN2. induction fuel as [|fuel IH]; intros a sp l s I Hv Hnd Ha Hf; [lia|]. cbn [deallocuvm_loop].
  destruct (Z.leb_spec oldsz (4096 * a)) as [Hdone|Hmore].
  { exists s, l, (sp_user sp). rewrite with_user_id. split_and!; try done. intros n. destruct (Z.leb_spec a n), (Z.ltb_spec n N); (done || lia). }
  assert (0 <= a < N) as HaN by lia. destruct (slot (sp_tabs sp) a) as [pte|] eqn:Es.
  - erewrite bind_Ok by (eapply walk_page; [apply Hv|lia|exact Es]).
    destruct (slot_word _ _ _ _ _ a _ (vs_table _ _ _ Hv) ltac:(lia) Es) as [Hw Hnz%Z.eqb_neq]. rewrite Hnz. erewrite bind_Ok by apply get_word_v.
    rewrite Hw, entries_user by lia. rewrite (u32_id (_ + _)) by (unfold uint32, PGSIZE; lia). unfold PGSIZE. replace (4096 * a + 4096) with (4096 * (a + 1)) by lia.
    destruct (sp_user sp !! a) as [[p f]|] eqn:Eu.
    + destruct (vs_user _ _ _ Hv _ _ _ Eu) as (_ & Hp & Hfl & Ho). destruct (user_pte_bits p f Hp Hfl Ho) as (-> & -> & _ & -> & Hz%Z.eqb_neq). rewrite Hz. cbn [negb].
      destruct (free_user_page _ _ _ _ _ _ _ _ I Hv Hnd Eu Es) as (s1 & s2 & Hr1 & Hr2 & I2 & Hv2 & Hs2).
      rewrite bind_assoc. erewrite bind_Ok by exact Hr1. erewrite bind_Ok by exact Hr2.
      pose proof (spages_delete l sp a p f Eu) as Ep.
      destruct (IH (a + 1) (with_user sp (delete a (sp_user sp))) (p :: l) s2 I2 Hv2) as (s3 & l3 & U3 & Hr3 & I3 & Hv3 & Hp3 & Hd3 & Hs3 & Hk3);
        [by rewrite Ep|lia|lia|].
      exists s3, l3, U3. split_and!; [done|done|done|by rewrite Hp3| | |].
      * intros n. specialize (Hd3 n). simpl in Hd3. rewrite Hd3.
        destruct (decide (n = a)) as [->|Hne]; [rewrite lookup_delete_eq|rewrite lookup_delete_ne by done].
        -- destruct (Z.leb_spec a a), (Z.ltb_spec a N); (lia || by destruct (_ && _)).
        -- destruct (Z.leb_spec (a + 1) n), (Z.leb_spec a n); (lia || done).
      * eapply same_off_trans; [|eapply same_off_weaken; [exact Hs3|intros q; by rewrite Ep]]. eapply same_off_weaken; [exact Hs2|].
        intros q [->|Hq]%elem_of_cons; [|unfold spages; set_solver]. rewrite <- Ep. set_solver.
      * intros q Hq. eapply page_eq_trans; [|by apply Hk3]. pose proof (drop_pages_sub _ _ _ _ Hd3 _ Hq) as Hqu. simpl in Hqu.
        apply Hs2; [eapply vspace_pages_ok; [exact Hv2|]; unfold spages; set_solver|]. destruct (user_page_apart _ _ _ _ _ Hnd Eu) as (_ & _ & Hpu).
        rewrite <- Ep in Hnd. destruct (upage_apart _ _ _ Hnd Hqu). set_solver.
    + rewrite Z.land_0_l. cbn [negb Z.eqb]. rewrite bind_ret.
      destruct (IH (a + 1) sp l s I Hv Hnd) as (s3 & l3 & U3 & Hr3 & I3 & Hv3 & Hp3 & Hd3 & Hs3 & Hk3); [lia|lia|].
      exists s3, l3, U3. split_and!; try done. intros n. rewrite (Hd3 n). destruct (decide (n = a)) as [->|Hne]; [rewrite Eu; by repeat destruct (_ && _)|].
      destruct (Z.leb_spec (a + 1) n), (Z.leb_spec a n); (lia || done).
  - erewrite bind_Ok by (eapply walk_no_page; [apply Hv|lia|exact Es]). cbn [Z.eqb]. rewrite next_table by lia.
    destruct (IH (1024 * (a / 1024 + 1)) sp l s I Hv Hnd) as (s3 & l3 & U3 & Hr3 & I3 & Hv3 & Hp3 & Hd3 & Hs3 & Hk3); [Z.to_euclidean_division_equations; lia..|].
    exists s3, l3, U3. split_and!; try done. intros n. rewrite (Hd3 n). destruct (Z.leb_spec a n), (Z.leb_spec (1024 * (a / 1024 + 1)) n); simpl; try done.
    + rewrite (absent_user _ _ _ a n Hv Es); [by destruct (_ <? _)|]. Z.to_euclidean_division_equations; lia.
    + Z.to_euclidean_division_equations; lia.
Qed.

Definition npages (sz : Z) : Z := (sz + 4095) / 4096.
Lemma npages_bounds sz : 0 <= sz <= KERNBASE -> 4096 * (npages sz - 1) < sz <= 4096 * npages sz /\ 0 <= npages sz <= 2 ^ 19.
Proof. unfold KERNBASE, npages. intros Hs. Z.to_euclidean_division_equations. lia. Qed.
Lemma PGROUNDUP_npages sz : 0 <= sz <= KERNBASE -> PGROUNDUP sz = 4096 * npages sz.
Proof. unfold KERNBASE. intros Hs. rewrite PGROUNDUP_eq by (unfold PGSIZE; lia). unfold npages, PGSIZE. do 2 f_equal. lia. Qed.

Lemma deallocuvm_Ok K oldsz newsz sp l s : 0 <= newsz < oldsz -> oldsz <= KERNBASE -> vinv l s -> vspace K (memv s) sp -> NoDup (l ++ spages sp) ->
  exists s' l' U', deallocuvm kend (sp_dir sp) oldsz newsz s = Ok newsz s' /\ vinv l' s' /\ vspace K (memv s') (with_user sp U') /\
    l' ++ spages (with_user sp U') ≡ₚ l ++ spages sp /\ drop_pages (npages newsz) (npages oldsz) (sp_user sp) U' /\
    same_off (l ++ spages sp) (memv s) (memv s') /\ forall p, p ∈ upages U' -> page_eq (memv s) (memv s') p.
Proof.
  intros Hn Ho I Hv Hnd. destruct (npages_bounds oldsz) as [Hb1 Hb2]; [lia|]. destruct (npages_bounds newsz) as [Hb3 Hb4]; [lia|].
  unfold deallocuvm. destruct (Z.leb_spec oldsz newsz); [lia|]. rewrite PGROUNDUP_npages by lia.
  destruct (deallocuvm_loop_Ok K oldsz (npages oldsz) Hb1 ltac:(lia) (S (Z.to_nat (oldsz / PGSIZE + 1))) (npages newsz) sp l s I Hv Hnd)
    as (s' & l' & U' & Hr & Hrest); [lia|unfold PGSIZE; Z.to_euclidean_division_equations; lia|].
  erewrite bind_Ok by exact Hr. by exists s', l', U'.
Qed.

(** ** freevm *)

Definition tabs_of (T : gmap Z Z) (js : list nat) : list Z := omap (fun i => T !! Z.of_nat i) js.

Lemma free_tables d T E : forall js l s m0, vinv l s -> table m0 d T E -> page_eq m0 (memv s) d -> NoDup (l ++ d :: tabs_of T js) -> Forall (fun i => (i < 1024)%nat) js ->
  exists s' l', foreach js (free_table kend d) s = Ok tt s' /\ vinv l' s' /\ l' ≡ₚ l ++ tabs_of T js /\ page_eq m0 (memv s') d /\
    same_off (tabs_of T js) (memv s) (memv s').
Proof.
  induction js as [|i js IH]; intros l s m0 I Ht Hd Hnd Hi; [exists s, l; split_and!; try done; by rewrite app_nil_r|].
  apply Forall_cons in Hi as [Hi His]. cbn [foreach]. unfold free_table at 1. rewrite bind_assoc. erewrite bind_Ok by apply get_word_v.
  rewrite (page_eq_word m0) by (done || lia). rewrite (tb_pde _ _ _ _ _ Ht) by lia. cbn [tabs_of omap list_omap] in *. fold (tabs_of T js) in *.
  destruct (T !! Z.of_nat i) as [t|] eqn:Et.
  - destruct (tb_dom _ _ _ _ _ Ht _ _ Et) as [_ Hok]. destruct (pde_present kend t Hok) as [-> ->]. cbn [negb].
    assert (t ∉ l /\ t <> d) as [Htl Htd] by (rewrite NoDup_app, !NoDup_cons in Hnd; set_solver).
    destruct (kfree_v kend t l s I Hok Htl) as (s1 & Hr1 & I1 & Hs1). erewrite bind_Ok by exact Hr1.
    destruct (IH (t :: l) s1 m0 I1 Ht) as (s2 & l2 & Hr2 & I2 & Hp2 & Hd2 & Hs2); [|..|done|].
    + eapply page_eq_trans; [exact Hd|]. apply Hs1; [apply Ht|]. by intros ->%list_elem_of_singleton.
    + by rewrite (perm_swap t d), <- Permutation_middle in Hnd.
    + exists s2, l2. split_and!; [done|done|rewrite Hp2; by rewrite <- Permutation_middle|done|].
      eapply same_off_trans; eapply same_off_weaken; [exact Hs1|set_solver|exact Hs2|set_solver].
  - rewrite Z.land_0_l. cbn [negb Z.eqb]. rewrite bind_ret. by apply IH.
Qed.

Lemma tabs_of_all m d T E : table m d T E -> tabs_of T (seq 0 1024) ≡ₚ (map_to_list T).*2.
Proof.
  intros Ht. pose proof (tb_nodup _ _ _ _ _ Ht) as [_ Hnd]%NoDup_cons. apply NoDup_Permutation; [|done|].
  - assert (forall js, NoDup js -> NoDup (tabs_of T js)) as Hjs; [|apply Hjs, NoDup_seq]. induction js as [|i js IH]; intros Hn; [constructor|].
    apply NoDup_cons in Hn as [Hi Hn]. cbn [tabs_of omap list_omap]. fold (tabs_of T js). destruct (T !! Z.of_nat i) as [t|] eqn:Et; [|auto].
    constructor; [|auto]. unfold tabs_of. rewrite list_elem_of_omap. intros (j & Hj & Ej). pose proof (table_tab_inj _ _ _ _ _ _ _ _ Ht Et Ej). apply Hi.
    by replace i with j by lia.
  - intros t. unfold tabs_of. rewrite list_elem_of_omap, list_elem_of_fmap. split.
    + intros (i & _ & Hi). exists (Z.of_nat i, t). split; [done|]. by apply elem_of_map_to_list.
    + intros ([i u] & -> & Hi%elem_of_map_to_list). destruct (tb_dom _ _ _ _ _ Ht _ _ Hi) as [Hb _]. exists (Z.to_nat i). rewrite elem_of_seq, Z2Nat.id by lia.
      split; [lia|done].
Qed.

Lemma drop_all K m sp U' : vspace K m sp -> drop_pages 0 (2 ^ 19) (sp_user sp) U' -> U' = ∅.
Proof.
  intros Hv Hd. apply map_eq. intros n. rewrite (Hd n), lookup_empty. destruct (sp_user sp !! n) as [[p f]|] eqn:E; [|by destruct (_ && _)].
  destruct (vs_user _ _ _ Hv _ _ _ E) as [Hn _]. destruct (Z.leb_spec 0 n), (Z.ltb_spec n (2 ^ 19)); (done || lia).
Qed.

(** Everything a space owns goes back to the free list. *)
Lemma freevm_Ok K sp l s : vinv l s -> vspace K (memv s) sp -> NoDup (l ++ spages sp) ->
  exists s' l', freevm kend (sp_dir sp) s = Ok tt s' /\ vinv l' s' /\ l' ≡ₚ l ++ spages sp /\ same_off (l ++ spages sp) (memv s) (memv s').
Proof.
  intros I Hv Hnd. unfold freevm. pose proof (page_ok_nz kend _ (tb_dir _ _ _ _ _ (vs_table _ _ _ Hv))) as Hz%Z.eqb_neq. rewrite Hz.
  destruct (deallocuvm_Ok K KERNBASE 0 sp l s) as (s1 & l1 & U1 & Hr1 & I1 & Hv1 & Hp1 & Hd1 & Hs1 & _); [done..|].
  erewrite bind_Ok by exact Hr1. apply (drop_all _ _ _ _ Hv) in Hd1. subst U1. unfold spages in Hp1 at 1. cbn [sp_dir sp_tabs sp_user with_user] in Hp1.
  change (upages ∅) with (@nil Z) in Hp1. rewrite app_nil_r in Hp1. pose proof (vs_table _ _ _ Hv1) as Ht1. cbn [sp_dir sp_tabs sp_user with_user] in Ht1.
  pose proof (tabs_of_all _ _ _ _ Ht1) as Htabs. rewrite <- Hp1 in Hnd. unfold tpages in Hnd, Hp1. rewrite <- Htabs in Hnd, Hp1.
  destruct (free_tables (sp_dir sp) (sp_tabs sp) _ (seq 0 1024) l1 s1 (memv s1) I1 Ht1) as (s2 & l2 & Hr2 & I2 & Hp2 & _ & Hs2);
    [done|done|apply Forall_forall; intros i Hi%elem_of_seq; lia|].
  erewrite bind_Ok by exact Hr2. clear Hr2. set (ts := tabs_of _ _) in *. clearbody ts.
  destruct (kfree_v kend (sp_dir sp) l2 s2 I2) as (s3 & Hr3 & I3 & Hs3); [apply Hv|rewrite Hp2; rewrite !NoDup_app, NoDup_cons in Hnd; set_solver|].
  exists s3, (sp_dir sp :: l2). split_and!; [done|done|rewrite Hp2, <- Hp1; by rewrite <- Permutation_middle|].
  eapply same_off_trans; [exact Hs1|]. eapply same_off_trans; eapply same_off_weaken; [exact Hs2| |exact Hs3|]; intros p Hp; rewrite <- Hp1; set_solver.
Qed.
End Space.
