(* ===== verification/VmUser.v ===== *)
(** * Both halves of an address space: setupkvm and allocuvm *)

From stdpp Require Import base gmap list strings.
From Stdlib Require Import ZArith Lia.
From S2P Require Import Prelude Spinlock CString Sync Kalloc Vm VmTable VmSpace.
Local Open Scope Z_scope.

(** The entry of a kernel page, as the comment above [kmap] lays the space
    out; [dp] is the page number of [data]. *)
Definition kpte (dp n : Z) : Z :=
  if n <? 0x80100 then 4096 * (n - 0x80000) + 3 else
  if n <? dp then 4096 * (n - 0x80000) + 1 else
  if n <? 0x8e000 then 4096 * (n - 0x80000) + 3 else
  if n <? 0xfe000 then 0 else 4096 * n + 3.

Section Setup.
Context {L : Type} `{Lock L} (kend : Z) (Hkend : KERNBASE < kend).
Context (dp : Z) (Hdp : 0x80100 < dp < 0x8e000).
Local Notation data := (4096 * dp).
Local Notation page_ok := (page_ok kend).
Local Notation vinv := (vinv kend).
Local Notation table := (table kend).
Local Notation vspace := (vspace kend).

Lemma fill_entries K U a j pa f n : 2 ^ 19 <= a -> fill (entries K U) a j pa f n = entries (fill K a j pa f) U n.
Proof.
  intros Ha. unfold fill, entries. destruct (Z.ltb_spec n (2 ^ 19)); [|done]. destruct (Z.leb_spec a n); [lia|done].
Qed.

(** The pages a table can hold: at most 1024 tables. *)
Lemma tpages_length m d T E : table m d T E -> (length (tpages d T) <= 1025)%nat.
Proof.
  intros Ht. unfold tpages. simpl. rewrite <- (Permutation_length (tabs_of_all _ _ _ _ _ Ht)). unfold tabs_of.
  assert (forall js, length (omap (fun i => T !! Z.of_nat i) js) <= length js)%nat as Hj.
  { induction js as [|i js IH]; simpl; [done|]. change (list_omap nat Z) with (omap (M := list) (A := nat) (B := Z)). destruct (T !! Z.of_nat i); simpl; lia. }
  specialize (Hj (seq 0 1024)). rewrite length_seq in Hj. lia.
Qed.

Lemma map_kernel_step K sp l s a k pa perm : vinv l s -> vspace K (memv s) sp -> NoDup (l ++ spages sp) -> 2 ^ 19 <= a -> 0 < k -> a + k <= 2 ^ 20 ->
  pa mod 4096 = 0 -> 0 <= pa -> pa + 4096 * k <= 2 ^ 32 -> 0 <= perm < 4096 -> (forall n, a <= n < a + k -> K n mod 2 = 0) ->
  exists r s' l' T' j, mappages (sp_dir sp) (4096 * a) (4096 * k) pa perm s = Ok r s' /\ vinv l' s' /\
    vspace (fill K a j pa (Z.lor perm 1)) (memv s') (mkSpace (sp_dir sp) T' (sp_user sp)) /\
    l' ++ spages (mkSpace (sp_dir sp) T' (sp_user sp)) ≡ₚ l ++ spages sp /\
    same_off (l ++ spages sp) (memv s) (memv s') /\ ((r = 0 /\ j = k) \/ (r = -1 /\ l' = [])).
Proof.
  intros I Hv Hnd Ha Hk Hak Hpm Hp0 Hp1 Hperm HK.
  destruct (mappages_Ok kend (Hkend0 kend Hkend) (sp_dir sp) perm k a pa (sp_tabs sp) (entries K (sp_user sp)) l s I (vs_table _ _ _ _ Hv))
    as (r & s' & l' & T' & j & Hr & I' & Ht' & Hp & _ & Hs & Hres); [by apply apart_tables|lia|done..| |].
  { intros n Hn. unfold entries. destruct (Z.ltb_spec n (2 ^ 19)); [lia|]. by apply HK. }
  exists r, s', l', T', j. split_and!; [done|done| | | |].
  - split; [|apply (vs_user _ _ _ _ Hv)]. eapply table_ext; [|exact Ht']. intros n _. symmetry. by apply fill_entries.
  - unfold spages. cbn [sp_dir sp_tabs sp_user]. rewrite !app_assoc. by rewrite Hp.
  - eapply same_off_weaken; [exact Hs|]. unfold spages. set_solver.
  - destruct Hres as [?|(-> & _ & ->)]; [by left|by right].
Qed.

(** Entries that can be mapped one after the other, and what they add. *)
Inductive fits : (Z -> Z) -> list kmap_entry -> (Z -> Z) -> Prop :=
| fits_nil K : fits K [] K
| fits_cons K K' a k pa en perm es : u32 (en - pa) = 4096 * k -> 2 ^ 19 <= a -> 0 < k -> a + k <= 2 ^ 20 -> pa mod 4096 = 0 -> 0 <= pa ->
    pa + 4096 * k <= 2 ^ 32 -> 0 <= perm < 4096 -> (forall n, a <= n < a + k -> K n mod 2 = 0) ->
    fits (fill K a k pa (Z.lor perm 1)) es K' -> fits K (mkKmap (4096 * a) pa en perm :: es) K'.

Lemma map_kernel_Ok es K K' : fits K es K' -> forall sp l s, sp_user sp = ∅ -> vinv l s -> vspace K (memv s) sp -> NoDup (l ++ spages sp) ->
  exists r s' l', map_kernel kend (sp_dir sp) es s = Ok r s' /\ vinv l' s' /\ same_off (l ++ spages sp) (memv s) (memv s') /\
    ((r = 0 /\ l' ≡ₚ l ++ spages sp /\ (length (l ++ spages sp) <= 1025)%nat) \/
     (exists T', r = sp_dir sp /\ vspace K' (memv s') (mkSpace r T' ∅) /\ l' ++ spages (mkSpace r T' ∅) ≡ₚ l ++ spages sp)).
Proof.
  induction 1 as [K|K K' a k pa en perm es Esz Ha Hk Hak Hpm Hp0 Hp1 Hperm HK Hfit IH]; intros sp l s HU I Hv Hnd.
  - exists (sp_dir sp), s, l. split_and!; [done|done|by apply same_off_refl|]. right. exists (sp_tabs sp). destruct sp as [d T U]. simpl in *. by subst U.
  - cbn [map_kernel km_virt km_end km_start km_perm]. rewrite Esz.
    destruct (map_kernel_step K sp l s a k pa perm I Hv Hnd Ha Hk Hak Hpm Hp0 Hp1 Hperm HK) as (r & s1 & l1 & T1 & j & Hr1 & I1 & Hv1 & Hp & Hs1 & Hres).
    erewrite bind_Ok by exact Hr1. destruct Hres as [[-> ->]|[-> ->]].
    + destruct (IH (mkSpace (sp_dir sp) T1 (sp_user sp)) l1 s1 HU I1 Hv1) as (r & s2 & l2 & Hr2 & I2 & Hs2 & Hres); [by rewrite Hp|].
      exists r, s2, l2. split_and!; [done|done|eapply same_off_trans; [exact Hs1|]; eapply same_off_weaken; [exact Hs2|]; intros p; by rewrite Hp|].
      destruct Hres as [(-> & Hl & Hlen)|(T' & -> & Hv' & Hp')]; [left|right]; [by rewrite <- (Permutation_length Hp), <- Hp|].
      exists T'. by rewrite <- Hp.
    + destruct (freevm_Ok kend Hkend _ _ _ _ I1 Hv1) as (s2 & l2 & Hr2 & I2 & Hp2 & Hs2); [by rewrite Hp|]. cbn [Z.ltb Z.compare sp_dir] in *.
      erewrite bind_Ok by exact Hr2. exists 0, s2, l2. split_and!; [done|done|eapply same_off_trans; [exact Hs1|]; eapply same_off_weaken; [exact Hs2|]; intros p; by rewrite Hp|].
      left. split_and!; [done|by rewrite Hp2, Hp|]. rewrite <- (Permutation_length Hp). unfold spages. simpl. rewrite HU. change (upages ∅) with (@nil Z).
      rewrite app_nil_r. apply (tpages_length _ _ _ _ (vs_table _ _ _ _ Hv1)).
Qed.

Ltac destruct_ranges :=
  repeat match goal with
    | |- context [?a <=? ?b] => destruct (Z.leb_spec a b); try (exfalso; lia)
    | |- context [?a <? ?b] => destruct (Z.ltb_spec a b); try (exfalso; lia)
    end; cbn [andb]; try lia.

Lemma kmap_eq : kmap data = [
  mkKmap (4096 * 0x80000) 0 EXTMEM PTE_W; mkKmap (4096 * 0x80100) (4096 * 0x100) (4096 * (dp - 0x80000)) 0;
  mkKmap (4096 * dp) (4096 * (dp - 0x80000)) PHYSTOP PTE_W; mkKmap (4096 * 0xfe000) (4096 * 0xfe000) 0 PTE_W].
Proof. unfold kmap. assert (V2P data = 4096 * (dp - 0x80000)) as -> by (unfold V2P, KERNBASE; rewrite u32_id by (unfold uint32; lia); lia). done. Qed.

Definition kfilled : Z -> Z :=
  fill (fill (fill (fill (fun _ => 0) 0x80000 0x100 0 3) 0x80100 (dp - 0x80100) (4096 * 0x100) 1) dp (0x8e000 - dp) (4096 * (dp - 0x80000)) 3)
    0xfe000 0x2000 (4096 * 0xfe000) 3.

Lemma kfilled_kpte n : 2 ^ 19 <= n < 2 ^ 20 -> kfilled n = kpte dp n.
Proof.
  intros Hn. unfold kfilled, fill, kpte. destruct_ranges.
Qed.

Lemma kmap_fits : fits (fun _ => 0) (kmap data) kfilled.
Proof.
  rewrite kmap_eq. unfold kfilled.
  apply fits_cons with (k := 0x100); try (done || lia).
  apply fits_cons with (k := dp - 0x80100); try (done || lia); [rewrite u32_id by (unfold uint32; lia); lia|intros n Hn; unfold fill; destruct_ranges; done|].
  apply fits_cons with (k := 0x8e000 - dp); try (done || lia);
    [rewrite u32_id by (unfold uint32, PHYSTOP; lia); unfold PHYSTOP; lia|rewrite Z.mul_comm; by apply Z.mod_mul|intros n Hn; unfold fill; destruct_ranges; done|].
  apply fits_cons with (k := 0x2000); try (done || lia); [intros n Hn; unfold fill; destruct_ranges; done|]. constructor.
Qed.

(** A zeroed page is an empty directory. *)
Lemma empty_directory m d : page_ok d -> (forall i, 0 <= i < PGSIZE -> m (d + i) = 0) -> vspace (fun _ => 0) m (mkSpace d ∅ ∅).
Proof.
  intros Hd Hz. split; [|cbn [sp_user]; intros n p f Hn; by rewrite lookup_empty in Hn]. constructor; cbn [sp_dir sp_tabs sp_user].
  - done.
  - intros i t Hi. by rewrite lookup_empty in Hi.
  - intros i Hi. rewrite lookup_empty. unfold word_at. rewrite <- !Z.add_assoc. by rewrite !Hz by (unfold PGSIZE; lia).
  - intros n Hn. rewrite lookup_empty. unfold entries. destruct (_ <? _); [|done]. by rewrite lookup_empty.
  - unfold tpages. rewrite map_to_list_empty. apply NoDup_singleton.
Qed.

Lemma vspace_ext K K' m sp : (forall n, 2 ^ 19 <= n < 2 ^ 20 -> K' n = K n) -> vspace K m sp -> vspace K' m sp.
Proof.
  intros HK [Ht Hu]. split; [|done]. eapply table_ext; [|exact Ht]. intros n Hn. unfold entries. destruct (Z.ltb_spec n (2 ^ 19)); [done|]. apply HK. lia.
Qed.

Lemma setupkvm_Ok l s : vinv l s ->
  exists r s' l', setupkvm kend data s = Ok r s' /\ vinv l' s' /\ same_off l (memv s) (memv s') /\
    ((r = 0 /\ l' ≡ₚ l /\ (length l <= 1025)%nat) \/
     (exists T, r <> 0 /\ vspace (kpte dp) (memv s') (mkSpace r T ∅) /\ l' ++ spages (mkSpace r T ∅) ≡ₚ l)).
Proof.
  intros I. unfold setupkvm. destruct l as [|d l].
  { destruct (kalloc_none kend (Hkend0 kend Hkend) s I) as (s1 & Hr1 & I1 & Hm1). erewrite bind_Ok by exact Hr1. exists 0, s1, []. rewrite Hm1. split_and!; [done|done|apply same_off_refl|].
    left. simpl. split_and!; [done..|lia]. }
  destruct (kalloc_some kend (Hkend0 kend Hkend) d l s I) as (s1 & Hr1 & I1 & Hm1 & Hok & Hdl). erewrite bind_Ok by exact Hr1.
  pose proof (page_ok_nz kend d Hok) as Hd0. pose proof Hd0 as Hz%Z.eqb_neq. rewrite Hz.
  destruct (memset_v kend (Hkend0 kend Hkend) d 0 l s1 I1 Hok Hdl) as (s2 & Hr2 & I2 & Hs2 & Hf). erewrite bind_Ok by exact Hr2. change (DEVSPACE <? P2V PHYSTOP) with false. cbn [andb].
  pose (sp0 := mkSpace d ∅ ∅). assert (spages sp0 = [d]) as Esp by done.
  assert (NoDup (l ++ [d])) as Hnd by (pose proof (kv_nodup _ _ _ I) as Hnd; by rewrite Permutation_cons_append in Hnd).
  destruct (map_kernel_Ok _ _ _ kmap_fits sp0 l s2 eq_refl I2) as (r & s3 & l3 & Hr3 & I3 & Hs3 & Hres); [by apply empty_directory|exact Hnd|].
  rewrite Esp in Hres. pose proof (Permutation_cons_append l d) as Ed. exists r, s3, l3. split_and!; [done|done| |].
  - rewrite <- Hm1. eapply same_off_trans; eapply same_off_weaken; [exact Hs2|set_solver|exact Hs3|rewrite Esp; set_solver].
  - destruct Hres as [(-> & Hp & Hlen)|(T & -> & Hv & Hp)]; [left|right]; [split_and!; [done|by rewrite Hp, Ed|]|exists T; split_and!; [done| |by rewrite Ed]].
    + rewrite length_app in Hlen. simpl in *. lia.
    + eapply vspace_ext; [|exact Hv]. intros n Hn. symmetry. by apply kfilled_kpte.
Qed.
End Setup.

(** * The user's half of an address space: allocuvm *)

Lemma lor_1_odd f : Z.lor f 1 mod 2 = 1.
Proof. by rewrite Zmod_odd, <- Z.bit0_odd, Z.lor_spec, orb_true_r. Qed.

Section User.
Context {L : Type} `{Lock L} (kend : Z) (Hkend : KERNBASE < kend).
Local Notation page_ok := (page_ok kend).
Local Notation vinv := (vinv kend).
Local Notation table := (table kend).
Local Notation vspace := (vspace kend).

(** Mapping the page [p] at page number [a]. *)
Lemma map_user_page K sp l s p perm a : vinv l s -> vspace K (memv s) sp -> NoDup (l ++ spages sp) -> page_ok p -> sp_user sp !! a = None ->
  0 <= a < 2 ^ 19 -> 0 <= perm < 4096 ->
  exists r s' l' T', mappages (sp_dir sp) (4096 * a) PGSIZE (V2P p) perm s = Ok r s' /\ vinv l' s' /\
    vspace K (memv s') (mkSpace (sp_dir sp) T' (if r =? 0 then <[a := (p, Z.lor perm 1)]> (sp_user sp) else sp_user sp)) /\
    l' ++ tpages (sp_dir sp) T' ≡ₚ l ++ tpages (sp_dir sp) (sp_tabs sp) /\
    same_off (l ++ tpages (sp_dir sp) (sp_tabs sp)) (memv s) (memv s') /\ (r = 0 \/ (r = -1 /\ l' = [])).
Proof.
  intros I Hv Hnd Hp Ha Hab Hperm. destruct (V2P_eq kend p Hp) as (Ev & Hm & Hb). destruct (pte_value (V2P p) perm) as [_ Hf]; [by rewrite Ev|done|].
  destruct (mappages_page kend (Hkend0 kend Hkend) (sp_dir sp) perm a (V2P p) (sp_tabs sp) (entries K (sp_user sp)) l s I (vs_table _ _ _ _ Hv))
    as (r & s' & l' & T' & Hr & I' & Ht' & Hpp & _ & Hs & Hres); [by apply apart_tables|lia|by rewrite Ev|lia|unfold PHYSTOP in *; lia|done|by rewrite entries_user, Ha|].
  exists r, s', l', T'. split_and!; try done. split; cbn [sp_dir sp_tabs sp_user].
  - eapply table_ext; [|exact Ht']. intros n _. destruct (r =? 0); [|done]. by rewrite entries_insert.
  - intros n q g Hn. destruct (r =? 0); [|by apply (vs_user _ _ _ _ Hv _ _ _ Hn)].
    apply lookup_insert_Some in Hn as [[<- [= <- <-]]|[_ Hn]]; [|by apply (vs_user _ _ _ _ Hv _ _ _ Hn)]. split_and!; [lia..|done|lia|lia|].
    apply lor_1_odd.
Qed.

(** ** allocuvm *)

Definition zero_page (m : CString.mem) (p : Z) : Prop := forall i, 0 <= i < PGSIZE -> m (p + i) = 0.
(** Pages [a] to [b] are new: zero, writable and the user's. *)
Definition new_pages (a b : Z) (m : CString.mem) (U U' : gmap Z (Z * Z)) : Prop :=
  forall n, if (a <=? n) && (n <? b) then exists p, U' !! n = Some (p, 7) /\ zero_page m p else U' !! n = U !! n.

Lemma spages_insert l sp T' n p f l' : sp_user sp !! n = None -> l' ++ tpages (sp_dir sp) T' ≡ₚ l ++ tpages (sp_dir sp) (sp_tabs sp) ->
  l' ++ spages (mkSpace (sp_dir sp) T' (<[n := (p, f)]> (sp_user sp))) ≡ₚ (p :: l) ++ spages sp.
Proof.
  intros Hn Hp. unfold spages. cbn [sp_dir sp_tabs sp_user]. rewrite (upages_insert _ _ _ _ Hn), app_assoc, Hp. generalize (tpages (sp_dir sp) (sp_tabs sp)). intros ts.
  rewrite <- Permutation_middle. by rewrite <- app_assoc.
Qed.
Lemma spages_tabs l sp T' l' : l' ++ tpages (sp_dir sp) T' ≡ₚ l ++ tpages (sp_dir sp) (sp_tabs sp) ->
  l' ++ spages (mkSpace (sp_dir sp) T' (sp_user sp)) ≡ₚ l ++ spages sp.
Proof. intros Hp. unfold spages. cbn [sp_dir sp_tabs sp_user]. by rewrite app_assoc, Hp, <- app_assoc. Qed.

(** The user pages in both spaces have kept their contents. *)
Definition kept (m m' : CString.mem) (U U' : gmap Z (Z * Z)) : Prop := forall p, p ∈ upages U -> p ∈ upages U' -> page_eq m m' p.

Lemma say_v x s : exists s', say x s = Ok tt s' /\ memv s' = memv s /\ forall l, vinv l s -> vinv l s'.
Proof. eexists. split; [reflexivity|]. by split. Qed.

(** The two ways out of memory: no page, or no page for its table. *)
Lemma allocuvm_fail1 K oldsz newsz sp s : 0 <= oldsz < newsz -> newsz < KERNBASE -> vinv [] s -> vspace K (memv s) sp -> NoDup (spages sp) ->
  exists s' l' U', (say "allocuvm out of memory" ;;; deallocuvm kend (sp_dir sp) newsz oldsz ;;; ret 0) s = Ok 0 s' /\ vinv l' s' /\
    vspace K (memv s') (with_user sp U') /\ l' ++ spages (with_user sp U') ≡ₚ spages sp /\ drop_pages (npages oldsz) (npages newsz) (sp_user sp) U' /\
    same_off (spages sp) (memv s) (memv s') /\ kept (memv s) (memv s') (sp_user sp) U'.
Proof.
  intros Ho Hn I Hv Hnd. destruct (say_v "allocuvm out of memory" s) as (s1 & Hr1 & Hm1 & I1). erewrite bind_Ok by exact Hr1. rewrite <- Hm1 in Hv |- *.
  destruct (deallocuvm_Ok kend Hkend K newsz oldsz sp [] s1) as (s2 & l2 & U2 & Hr2 & I2 & Hv2 & Hp2 & Hd2 & Hs2 & Hk2); [done|lia|auto|done|done|].
  erewrite bind_Ok by exact Hr2. exists s2, l2, U2. split_and!; try done. intros p _ Hp. by apply Hk2.
Qed.
Lemma allocuvm_fail2 K oldsz newsz sp p s : 0 <= oldsz < newsz -> newsz < KERNBASE -> vinv [] s -> vspace K (memv s) sp -> NoDup (p :: spages sp) -> page_ok p ->
  exists s' l' U', (say "allocuvm out of memory (2)" ;;; deallocuvm kend (sp_dir sp) newsz oldsz ;;; phys (kfree kend p) ;;; ret 0) s = Ok 0 s' /\ vinv l' s' /\
    vspace K (memv s') (with_user sp U') /\ l' ++ spages (with_user sp U') ≡ₚ p :: spages sp /\ drop_pages (npages oldsz) (npages newsz) (sp_user sp) U' /\
    same_off (p :: spages sp) (memv s) (memv s') /\ kept (memv s) (memv s') (sp_user sp) U'.
Proof.
  intros Ho Hn I Hv [Hpn Hnd]%NoDup_cons Hp. destruct (say_v "allocuvm out of memory (2)" s) as (s1 & Hr1 & Hm1 & I1). erewrite bind_Ok by exact Hr1. rewrite <- Hm1 in Hv |- *.
  destruct (deallocuvm_Ok kend Hkend K newsz oldsz sp [] s1) as (s2 & l2 & U2 & Hr2 & I2 & Hv2 & Hp2 & Hd2 & Hs2 & Hk2); [done|lia|auto|done|done|].
  erewrite bind_Ok by exact Hr2. assert (p ∉ l2 /\ p ∉ spages (with_user sp U2)) as [Hpl Hps] by (simpl in Hp2; rewrite <- Hp2 in Hpn; set_solver).
  destruct (kfree_v kend p l2 s2 I2 Hp Hpl) as (s3 & Hr3 & I3 & Hs3). erewrite bind_Ok by exact Hr3. exists s3, (p :: l2), U2.
  assert (forall q, q ∈ spages (with_user sp U2) -> page_eq (memv s2) (memv s3) q) as Hq.
  { intros q Hq. apply Hs3; [by apply (vspace_pages_ok kend _ _ _ _ Hv2)|]. by intros ->%list_elem_of_singleton. }
  split_and!; [done|done| |by rewrite <- app_comm_cons, Hp2|done| |].
  - eapply vspace_frame; [|exact Hv2]. intros q Hqt. apply Hq. unfold spages. set_solver.
  - eapply same_off_trans; eapply same_off_weaken; [exact Hs2|set_solver|exact Hs3|set_solver].
  - intros q _ Hqu. eapply page_eq_trans; [by apply Hk2|]. apply Hq. unfold spages. set_solver.
Qed.

(** A fresh page with its contents set is mapped; [fillp] is [memset] or the
    copy of another page. *)
Lemma add_user_page K sp l s s1 p perm a : vinv (p :: l) s -> vinv l s1 -> same_off [p] (memv s) (memv s1) -> vspace K (memv s) sp -> NoDup ((p :: l) ++ spages sp) ->
  sp_user sp !! a = None -> 0 <= a < 2 ^ 19 -> 0 <= perm < 4096 ->
  exists r s' l' T', mappages (sp_dir sp) (4096 * a) PGSIZE (V2P p) perm s1 = Ok r s' /\ vinv l' s' /\
    vspace K (memv s') (mkSpace (sp_dir sp) T' (if r =? 0 then <[a := (p, Z.lor perm 1)]> (sp_user sp) else sp_user sp)) /\
    l' ++ tpages (sp_dir sp) T' ≡ₚ l ++ tpages (sp_dir sp) (sp_tabs sp) /\ same_off (p :: l ++ tpages (sp_dir sp) (sp_tabs sp)) (memv s) (memv s') /\
    page_eq (memv s1) (memv s') p /\ (r = 0 \/ (r = -1 /\ l' = [])).
Proof.
  intros I I1 Hs1 Hv Hnd Ha Hab Hperm. pose proof Hnd as [Hp Hnd1]%NoDup_cons. assert (page_ok p) as Hok by (by pose proof (kv_pages _ _ _ I) as [? _]%Forall_cons).
  assert (vspace K (memv s1) sp) as Hv1.
  { eapply vspace_frame; [|exact Hv]. intros q Hq. apply Hs1; [by apply (table_pages_ok _ _ _ _ _ _ (vs_table _ _ _ _ Hv))|]. intros ->%list_elem_of_singleton.
    apply Hp. unfold spages. set_solver. }
  destruct (map_user_page K sp l s1 p perm a I1 Hv1 Hnd1 Hok Ha Hab Hperm) as (r & s' & l' & T' & Hr & I' & Hv' & Hpp & Hs & Hres).
  exists r, s', l', T'. split_and!; try done.
  - eapply same_off_trans; eapply same_off_weaken; [exact Hs1|set_solver|exact Hs|set_solver].
  - apply Hs; [apply Hok|]. intros Hin. apply Hp. unfold spages. set_solver.
Qed.

Lemma kept_off l sp m m' U' : NoDup (l ++ spages sp) -> (forall p, p ∈ upages (sp_user sp) -> p mod PGSIZE = 0) ->
  same_off (l ++ tpages (sp_dir sp) (sp_tabs sp)) m m' -> kept m m' (sp_user sp) U'.
Proof.
  intros Hnd Hmod Hs p Hp _. destruct (upage_apart kend Hkend _ _ _ Hnd Hp). apply Hs; [auto|]. set_solver.
Qed.
Lemma upages_mod K m sp p : vspace K m sp -> p ∈ upages (sp_user sp) -> p mod PGSIZE = 0.
Proof. intros Hv Hp. eapply (vspace_pages_ok kend K m sp p Hv). unfold spages. set_solver. Qed.

Definition alloc_result (K : Z -> Z) (oldsz newsz a : Z) (sp : space) (l : list Z) (s : vm (L := L)) (r : Z) (s' : vm (L := L)) : Prop :=
  exists l' T' U', vinv l' s' /\ vspace K (memv s') (mkSpace (sp_dir sp) T' U') /\ l' ++ spages (mkSpace (sp_dir sp) T' U') ≡ₚ l ++ spages sp /\
    same_off (l ++ spages sp) (memv s) (memv s') /\ kept (memv s) (memv s') (sp_user sp) U' /\
    ((r = newsz /\ new_pages a (npages newsz) (memv s') (sp_user sp) U') \/
     (r = 0 /\ drop_pages (npages oldsz) (npages newsz) (sp_user sp) U' /\
      (length l + length (tpages (sp_dir sp) (sp_tabs sp)) <= 1025 + Z.to_nat (npages newsz - a))%nat)).

Lemma alloc_result_fail1 K oldsz newsz a sp s s1 : 0 <= oldsz < newsz -> newsz < KERNBASE -> vinv [] s1 -> memv s1 = memv s -> vspace K (memv s) sp -> NoDup (spages sp) ->
  exists s', (say "allocuvm out of memory" ;;; deallocuvm kend (sp_dir sp) newsz oldsz ;;; ret 0) s1 = Ok 0 s' /\ alloc_result K oldsz newsz a sp [] s 0 s'.
Proof.
  intros Ho Hn I Hm Hv Hnd. rewrite <- Hm in Hv. destruct (allocuvm_fail1 K oldsz newsz sp s1 Ho Hn I Hv Hnd) as (s' & l' & U' & Hr & I' & Hv' & Hp & Hd & Hs & Hk).
  exists s'. split; [done|]. exists l', (sp_tabs sp), U'. rewrite Hm in Hs, Hk. split_and!; try done. right. split_and!; [done..|].
  pose proof (tpages_length kend _ _ _ _ (vs_table _ _ _ _ Hv)). change (length (@nil Z)) with 0%nat. lia.
Qed.

(** After a round, the rest of the loop extends what the round did. *)
Lemma alloc_result_step K oldsz newsz a sp l s p l1 T1 s1 r s' : 0 <= a -> npages oldsz <= a < npages newsz -> vspace K (memv s) sp -> NoDup ((p :: l) ++ spages sp) ->
  sp_user sp !! a = None -> l1 ++ tpages (sp_dir sp) T1 ≡ₚ l ++ tpages (sp_dir sp) (sp_tabs sp) ->
  same_off (p :: l ++ tpages (sp_dir sp) (sp_tabs sp)) (memv s) (memv s1) -> zero_page (memv s1) p ->
  alloc_result K oldsz newsz (a + 1) (mkSpace (sp_dir sp) T1 (<[a := (p, 7)]> (sp_user sp))) l1 s1 r s' ->
  alloc_result K oldsz newsz a sp (p :: l) s r s'.
Proof.
  intros Ha Han Hv Hnd Hu Hp1 Hs1 Hz (l' & T' & U' & I' & Hv' & Hp' & Hs' & Hk' & Hres). cbn [sp_dir sp_tabs sp_user] in *.
  pose proof (spages_insert l sp T1 a p 7 l1 Hu Hp1) as Ep. exists l', T', U'. split_and!; [done|done|by rewrite Hp', Ep| | |].
  - eapply same_off_trans; eapply same_off_weaken; [exact Hs1| |exact Hs'|intros q; by rewrite Ep]. unfold spages. set_solver.
  - intros q Hq Hq'. eapply page_eq_trans; [|apply Hk'; [rewrite upages_insert by done; by right|done]].
    apply Hs1; [by eapply upages_mod|]. destruct (upage_apart kend Hkend _ _ _ Hnd Hq). set_solver.
  - destruct Hres as [[-> Hnew]|(-> & Hdrop & Hlen)]; [left|right]; (split; [done|]).
    + intros n. specialize (Hnew n). destruct (decide (n = a)) as [->|Hne].
      * destruct (Z.leb_spec (a + 1) a); [lia|]. destruct (Z.leb_spec a a), (Z.ltb_spec a (npages newsz)); try lia. cbn [andb] in *.
        rewrite lookup_insert_eq in Hnew. exists p. split; [done|]. intros i Hi. rewrite (Hk' p); [by apply Hz| | |done];
          apply upages_elem; exists a, 7; [apply lookup_insert_eq|done].
      * rewrite lookup_insert_ne in Hnew by done. destruct (Z.leb_spec (a + 1) n), (Z.leb_spec a n); try lia; done.
    + split.
      * intros n. rewrite (Hdrop n). destruct (decide (n = a)) as [->|Hne]; [|by rewrite lookup_insert_ne].
        destruct (Z.leb_spec (npages oldsz) a), (Z.ltb_spec a (npages newsz)); (done || lia).
      * apply Permutation_length in Hp1. rewrite !length_app in Hp1. cbn [length]. lia.
Qed.

Lemma alloc_result_fail2 K oldsz newsz a sp l s p T1 s1 : 0 <= oldsz < newsz -> newsz < KERNBASE -> a < npages newsz -> vspace K (memv s) sp ->
  NoDup ((p :: l) ++ spages sp) -> page_ok p -> vinv [] s1 -> vspace K (memv s1) (mkSpace (sp_dir sp) T1 (sp_user sp)) ->
  tpages (sp_dir sp) T1 ≡ₚ l ++ tpages (sp_dir sp) (sp_tabs sp) -> same_off (p :: l ++ tpages (sp_dir sp) (sp_tabs sp)) (memv s) (memv s1) ->
  exists s', (say "allocuvm out of memory (2)" ;;; deallocuvm kend (sp_dir sp) newsz oldsz ;;; phys (kfree kend p) ;;; ret 0) s1 = Ok 0 s' /\
    alloc_result K oldsz newsz a sp (p :: l) s 0 s'.
Proof.
  intros Ho Hn Ha Hv Hnd Hok I1 Hv1 Hp1 Hs1. pose proof (spages_tabs l sp T1 [] Hp1) as Ep. simpl in Ep.
  destruct (allocuvm_fail2 K oldsz newsz (mkSpace (sp_dir sp) T1 (sp_user sp)) p s1 Ho Hn I1 Hv1) as (s' & l' & U' & Hr & I' & Hv' & Hp & Hd & Hs & Hk);
    [by rewrite Ep|done|]. cbn [sp_dir sp_tabs sp_user with_user] in *.
  exists s'. split; [done|]. exists l', T1, U'. split_and!; [done|done|by rewrite Hp, Ep| | |].
  - eapply same_off_trans; eapply same_off_weaken; [exact Hs1| |exact Hs|intros q; by rewrite Ep]. unfold spages. set_solver.
  - intros q Hq Hq'. eapply page_eq_trans; [|by apply Hk]. apply Hs1; [by eapply upages_mod|]. destruct (upage_apart kend Hkend _ _ _ Hnd Hq). set_solver.
  - right. split_and!; [done..|]. pose proof (tpages_length kend _ _ _ _ (vs_table _ _ _ _ Hv1)) as Hlen. cbn [sp_dir sp_tabs] in Hlen.
    apply Permutation_length in Hp1. rewrite length_app in Hp1. cbn [length]. lia.
Qed.

Lemma allocuvm_loop_Ok K oldsz newsz : 0 <= oldsz <= newsz -> newsz < KERNBASE -> forall fuel a sp l s,
  vinv l s -> vspace K (memv s) sp -> NoDup (l ++ spages sp) -> npages oldsz <= a -> Z.max 0 (npages newsz - a) < Z.of_nat fuel ->
  (forall n, a <= n < npages newsz -> sp_user sp !! n = None) ->
  exists r s', allocuvm_loop kend fuel (sp_dir sp) (4096 * a) oldsz newsz s = Ok r s' /\ alloc_result K oldsz newsz a sp l s r s'.
Proof.
  intros Ho Hn. destruct (npages_bounds newsz) as [Hb1 Hb2]; [unfold KERNBASE in *; lia|]. destruct (npages_bounds oldsz) as [Hb3 Hb4]; [unfold KERNBASE in *; lia|].
  induction fuel as [|fuel IH]; intros a sp l s I Hv Hnd Ha Hf Hfree; [lia|]. cbn [allocuvm_loop]. destruct (Z.leb_spec newsz (4096 * a)) as [Hdone|Hmore].
  { exists newsz, s. split; [done|]. exists l, (sp_tabs sp), (sp_user sp). change (mkSpace (sp_dir sp) (sp_tabs sp) (sp_user sp)) with (with_user sp (sp_user sp)).
    rewrite with_user_id. split_and!; try done. left. split; [done|]. intros n. destruct (Z.leb_spec a n), (Z.ltb_spec n (npages newsz)); (done || lia). }
  assert (oldsz < newsz) as Hlt by lia. assert (a < npages newsz) as HaN by lia. destruct l as [|p l].
  { destruct (kalloc_none kend (Hkend0 kend Hkend) s I) as (s1 & Hr1 & I1 & Hm1). erewrite bind_Ok by exact Hr1. cbn [Z.eqb].
    destruct (alloc_result_fail1 K oldsz newsz a sp s s1) as (s' & Hr & Hres); [lia|done..|]. by exists 0, s'. }
  destruct (kalloc_some kend (Hkend0 kend Hkend) p l s I) as (s1 & Hr1 & I1 & Hm1 & Hok & Hpl). erewrite bind_Ok by exact Hr1.
  pose proof (page_ok_nz kend p Hok) as Hz%Z.eqb_neq. rewrite Hz.
  destruct (memset_v kend (Hkend0 kend Hkend) p 0 l s1 I1 Hok Hpl) as (s2 & Hr2 & I2 & Hs2 & Hzero). erewrite bind_Ok by exact Hr2. rewrite Hm1 in Hs2.
  destruct (add_user_page K sp l s s2 p (Z.lor PTE_W PTE_U) a I I2 Hs2 Hv Hnd) as (r & s3 & l3 & T3 & Hr3 & I3 & Hv3 & Hp3 & Hs3 & Hpe & Hres);
    [apply Hfree; lia|lia|done|].
  erewrite bind_Ok by exact Hr3. destruct Hres as [->|[-> ->]]; cbn [Z.eqb Z.ltb Z.compare] in *.
  - rewrite u32_id by (unfold uint32, PGSIZE; lia). unfold PGSIZE. replace (4096 * a + 4096) with (4096 * (a + 1)) by lia.
    destruct (IH (a + 1) (mkSpace (sp_dir sp) T3 (<[a := (p, 7)]> (sp_user sp))) l3 s3 I3 Hv3) as (r & s4 & Hr4 & Hres4);
      [rewrite spages_insert; [exact Hnd|apply Hfree; lia|done]|lia|lia| |].
    { cbn [sp_user]. intros n Hn'. rewrite lookup_insert_ne by lia. apply Hfree. lia. }
    exists r, s4. split; [done|]. eapply alloc_result_step; [lia|lia|exact Hv|exact Hnd|apply Hfree; lia|exact Hp3|exact Hs3| |exact Hres4].
    intros i Hi. rewrite Hpe by done. by apply Hzero.
  - destruct (alloc_result_fail2 K oldsz newsz a sp l s p T3 s3) as (s' & Hr & Hres'); [lia|done..|]. by exists 0, s'.
Qed.

Lemma allocuvm_Ok K oldsz newsz sp l s : 0 <= oldsz <= newsz -> newsz < KERNBASE -> vinv l s -> vspace K (memv s) sp -> NoDup (l ++ spages sp) ->
  (forall n, npages oldsz <= n < npages newsz -> sp_user sp !! n = None) ->
  exists r s', allocuvm kend (sp_dir sp) oldsz newsz s = Ok r s' /\ alloc_result K oldsz newsz (npages oldsz) sp l s r s'.
Proof.
  intros Ho Hn I Hv Hnd Hfree. unfold allocuvm. destruct (Z.leb_spec KERNBASE newsz); [lia|]. destruct (Z.ltb_spec newsz oldsz); [lia|].
  rewrite PGROUNDUP_npages by lia. apply allocuvm_loop_Ok; try done. pose proof (npages_bounds oldsz ltac:(lia)). unfold npages, PGSIZE in *. Z.to_euclidean_division_equations. lia.
Qed.
End User.
