(* ===== verification/VmCopy.v ===== *)
(** * Copying address spaces and writing into them: copyuvm, copyout *)

From stdpp Require Import base gmap list strings.
From Stdlib Require Import ZArith Lia.
From S2P Require Import Prelude Spinlock CString Sync Kalloc Vm VmTable VmSpace VmUser.
Local Open Scope Z_scope.

Section Copy.
Context {L : Type} `{Lock L} (kend : Z) (Hkend : KERNBASE < kend).
Local Notation page_ok := (page_ok kend).
Local Notation vinv := (vinv kend).
Local Notation table := (table kend).
Local Notation vspace := (vspace kend).

(** ** copyuvm *)

Lemma memmove_v p o src n l s : vinv l s -> page_ok p -> p ∉ l -> 0 <= o -> 0 <= n -> o + n <= PGSIZE ->
  exists s', phys (in_mem (memmove (p + o) src n)) s = Ok (p + o) s' /\ vinv l s' /\ same_off [p] (memv s) (memv s') /\
    (forall i, 0 <= i < n -> memv s' (p + o + i) = memv s (src + i)) /\
    (forall i, 0 <= i < PGSIZE -> ~ (o <= i < o + n) -> memv s' (p + i) = memv s (p + i)).
Proof.
  intros I Hp Hl Ho Hn Hon. destruct (memmove_Ok (p + o) src n (memv s) (kv_mem _ _ _ I) Hn) as (m' & Hr & [Hc Hout] & Hm).
  exists (put_vkmem (put_kmem m' (v_kmem s)) s). split; [by do 2 apply zoom_Ok|].
  assert (same_off [p] (memv s) m') as Hs by (eapply (outside_off p n _ _ o); [apply Hp|done|done|done]).
  split; [eapply kinv_write; [exact I|done|exact Hs|set_solver]|]. split_and!; [exact Hs|exact Hc|]. intros i Hi Hno. apply Hout. lia.
Qed.

Lemma lor_1_id f : f mod 2 = 1 -> Z.lor f 1 = f.
Proof.
  intros Hf. apply Z.bits_inj'. intros i Hi. rewrite Z.lor_spec. destruct (Z.eq_dec i 0) as [->|Hne].
  - rewrite Z.bit0_odd, orb_true_r. rewrite Zmod_odd in Hf. by destruct (Z.odd f).
  - change 1 with (Z.ones 1). rewrite Z.ones_spec_high by lia. by rewrite orb_false_r.
Qed.

(** The pages below [a] of the two spaces hold the same, in different frames. *)
Definition same_page (m m' : CString.mem) (p q : Z) : Prop := forall i, 0 <= i < PGSIZE -> m' (q + i) = m (p + i).
Definition copied_pages (a : Z) (m m' : CString.mem) (U U' : gmap Z (Z * Z)) : Prop :=
  forall n, if (0 <=? n) && (n <? a) then exists p q f, U !! n = Some (p, f) /\ U' !! n = Some (q, f) /\ same_page m m' p q else U' !! n = None.

Section copy.
Context (Kp K : Z -> Z) (sp : space) (m0 : CString.mem) (l0 : list Z) (sz : Z).
Hypothesis (Hsz : 0 <= sz <= KERNBASE) (Hsp : vspace Kp m0 sp) (Hnd0 : NoDup (l0 ++ spages sp)).
Hypothesis (Hmapped : forall n, 0 <= n < npages sz -> is_Some (sp_user sp !! n)).

(** What the loop has done when it is at page [a]. *)
Record copying (a : Z) (spc : space) (l : list Z) (s : vm (L := L)) : Prop := {
  cp_inv : vinv l s;
  cp_same : same_off l0 m0 (memv s);
  cp_space : vspace K (memv s) spc;
  cp_pages : l ++ spages spc ≡ₚ l0;
  cp_copied : copied_pages a m0 (memv s) (sp_user sp) (sp_user spc);
  cp_count : length (upages (sp_user spc)) = Z.to_nat a }.
Definition copy_result (d r : Z) (s' : vm (L := L)) : Prop :=
  (exists l', r = 0 /\ vinv l' s' /\ same_off l0 m0 (memv s') /\ l' ≡ₚ l0 /\ (length l0 <= 1026 + Z.to_nat (npages sz))%nat) \/
  (exists l' T U, r = d /\ copying (npages sz) (mkSpace d T U) l' s').

Lemma parent_kept m : same_off l0 m0 m -> vspace Kp m sp /\ forall p, p ∈ spages sp -> page_eq m0 m p.
Proof.
  intros Hs. assert (forall p, p ∈ spages sp -> page_eq m0 m p) as Hp.
  { intros p Hp. apply Hs; [by apply (vspace_pages_ok kend _ _ _ _ Hsp)|]. apply NoDup_app in Hnd0 as (_ & Hd & _). intros Hin. by apply (Hd p). }
  split; [|done]. eapply vspace_frame; [|exact Hsp]. intros p Hin. apply Hp. unfold spages. set_solver.
Qed.
Lemma copying_nodup a spc l s : copying a spc l s -> NoDup (l ++ spages spc).
Proof. intros C. rewrite (cp_pages _ _ _ _ C). by apply NoDup_app in Hnd0 as (? & _). Qed.
Lemma copying_none a spc l s : copying a spc l s -> 0 <= a -> sp_user spc !! a = None.
Proof. intros C Ha. pose proof (cp_copied _ _ _ _ C a) as Hc. destruct (Z.leb_spec 0 a), (Z.ltb_spec a a); (done || lia). Qed.

(** Giving up: the child's pages go back. *)
Lemma copy_give_up a spc l s : copying a spc l s -> a <= npages sz -> (length l <= 1)%nat ->
  exists s', (freevm kend (sp_dir spc) ;;; ret 0) s = Ok 0 s' /\ copy_result (sp_dir spc) 0 s'.
Proof.
  intros C Ha Hl. destruct (freevm_Ok kend Hkend K spc l s (cp_inv _ _ _ _ C) (cp_space _ _ _ _ C) (copying_nodup _ _ _ _ C)) as (s' & l' & Hr & I' & Hp & Hs).
  erewrite bind_Ok by exact Hr. exists s'. split; [done|]. left. exists l'. rewrite (cp_pages _ _ _ _ C) in Hp. split_and!; [done|done| |done|].
  - eapply same_off_trans; [apply C|]. eapply same_off_weaken; [exact Hs|]. intros q. by rewrite (cp_pages _ _ _ _ C).
  - rewrite <- (Permutation_length (cp_pages _ _ _ _ C)). unfold spages. rewrite !length_app, (cp_count _ _ _ _ C).
    pose proof (tpages_length kend _ _ _ _ (vs_table _ _ _ _ (cp_space _ _ _ _ C))). lia.
Qed.

Lemma copied_pages_kept a m m' U' : copied_pages a m0 m (sp_user sp) U' -> (forall q, q ∈ upages U' -> page_eq m m' q) -> copied_pages a m0 m' (sp_user sp) U'.
Proof.
  intros Hc Hk n. specialize (Hc n). destruct (_ && _); [|done]. destruct Hc as (p & q & f & E1 & E2 & E3). exists p, q, f. split_and!; [done..|].
  intros i Hi. rewrite <- E3 by done. apply Hk; [|done]. apply upages_elem. eauto.
Qed.

(** No memory for a table: the page is given back, the space has kept its pages. *)
Lemma copying_undo a spc q l s s' T' s1 : copying a spc (q :: l) s -> vinv [] s1 -> vspace K (memv s1) (mkSpace (sp_dir spc) T' (sp_user spc)) ->
  tpages (sp_dir spc) T' ≡ₚ l ++ tpages (sp_dir spc) (sp_tabs spc) -> same_off (q :: l ++ tpages (sp_dir spc) (sp_tabs spc)) (memv s) (memv s1) ->
  vinv [q] s' -> same_off [q] (memv s1) (memv s') -> copying a (mkSpace (sp_dir spc) T' (sp_user spc)) [q] s'.
Proof.
  intros C I1 Hv1 Hpp Hs1 I' Hs'. pose proof (copying_nodup _ _ _ _ C) as Hnd. pose proof (spages_tabs l spc T' [] Hpp) as Ep. simpl in Ep.
  assert (same_off (q :: l ++ tpages (sp_dir spc) (sp_tabs spc)) (memv s) (memv s')) as Hs.
  { eapply same_off_trans; [exact Hs1|]. eapply same_off_weaken; [exact Hs'|set_solver]. }
  assert (q ∉ spages (mkSpace (sp_dir spc) T' (sp_user spc))) as Hq by (rewrite Ep; by apply NoDup_cons in Hnd as [? _]).
  constructor; cbn [sp_dir sp_tabs sp_user]; [done| | | | |apply C].
  - eapply same_off_trans; [apply C|]. eapply same_off_weaken; [exact Hs|]. intros x Hx. rewrite <- (cp_pages _ _ _ _ C). unfold spages. set_solver.
  - eapply vspace_frame; [|exact Hv1]. intros x Hx. apply Hs'; [by apply (table_pages_ok _ _ _ _ _ _ (vs_table _ _ _ _ Hv1))|]. intros ->%list_elem_of_singleton.
    apply Hq. unfold spages. set_solver.
  - rewrite <- (cp_pages _ _ _ _ C). simpl. by rewrite Ep.
  - eapply copied_pages_kept; [apply C|]. intros x Hx. destruct (upage_apart kend Hkend _ _ _ Hnd Hx) as [Hq1 Hq2].
    apply Hs; [by apply (upages_mod kend Hkend _ _ _ _ (cp_space _ _ _ _ C))|set_solver].
Qed.

(** A page with the contents of the parent's has been mapped. *)
Lemma copying_next a spc l p q f s s' l' T' : copying a spc (q :: l) s -> 0 <= a -> sp_user sp !! a = Some (p, f) -> vinv l' s' ->
  vspace K (memv s') (mkSpace (sp_dir spc) T' (<[a := (q, f)]> (sp_user spc))) ->
  l' ++ tpages (sp_dir spc) T' ≡ₚ l ++ tpages (sp_dir spc) (sp_tabs spc) -> same_off (q :: l ++ tpages (sp_dir spc) (sp_tabs spc)) (memv s) (memv s') ->
  same_page (memv s) (memv s') p q -> copying (a + 1) (mkSpace (sp_dir spc) T' (<[a := (q, f)]> (sp_user spc))) l' s'.
Proof.
  intros C Ha Hp I' Hv' Hpp Hs Hq. pose proof (copying_none _ _ _ _ C Ha) as Hn. pose proof (copying_nodup _ _ _ _ C) as Hnd.
  assert (same_off l0 (memv s) (memv s')) as Hs0.
  { eapply same_off_weaken; [exact Hs|]. intros x Hx. rewrite <- (cp_pages _ _ _ _ C). unfold spages. set_solver. }
  assert (page_eq m0 (memv s) p) as Hpe.
  { apply (parent_kept (memv s) (cp_same _ _ _ _ C)). unfold spages. apply elem_of_app. right. apply upages_elem. eauto. }
  constructor; cbn [sp_dir sp_tabs sp_user]; [done|eapply same_off_trans; [apply C|done]|done| | |].
  - rewrite spages_insert by done. apply C.
  - intros n. pose proof (cp_copied _ _ _ _ C n) as Hc. destruct (decide (n = a)) as [->|Hne].
    + destruct (Z.leb_spec 0 a), (Z.ltb_spec a (a + 1)); try lia. cbn [andb]. exists p, q, f. rewrite lookup_insert_eq. split_and!; [done..|].
      intros i Hi. rewrite Hq by done. by apply Hpe.
    + rewrite lookup_insert_ne by done. assert (copied_pages a m0 (memv s') (sp_user sp) (sp_user spc)) as Hc'.
      { eapply copied_pages_kept; [apply C|]. intros x Hx. destruct (upage_apart kend Hkend _ _ _ Hnd Hx) as [Hq1 Hq2].
        apply Hs; [by apply (upages_mod kend Hkend _ _ _ _ (cp_space _ _ _ _ C))|set_solver]. }
      specialize (Hc' n). destruct (Z.leb_spec 0 n), (Z.ltb_spec n a), (Z.ltb_spec n (a + 1)); try lia; done.
  - rewrite upages_insert by done. cbn [length]. rewrite (cp_count _ _ _ _ C). lia.
Qed.
Lemma copyuvm_loop_Ok : forall fuel a spc l s, copying a spc l s -> 0 <= a <= npages sz -> npages sz - a < Z.of_nat fuel ->
  exists r s', copyuvm_loop kend fuel (sp_dir sp) (sp_dir spc) (4096 * a) sz s = Ok r s' /\ copy_result (sp_dir spc) r s'.
Proof.
  destruct (npages_bounds sz Hsz) as [Hb1 Hb2]. induction fuel as [|fuel IH]; intros a spc l s C Ha Hf; [lia|]. cbn [copyuvm_loop].
  destruct (Z.leb_spec sz (4096 * a)) as [Hdone|Hmore].
  { exists (sp_dir spc), s. split; [done|]. right. exists l, (sp_tabs spc), (sp_user spc). split; [done|]. replace (npages sz) with a by lia. by destruct spc. }
  destruct (Hmapped a ltac:(lia)) as [[p f] Hp]. destruct (parent_kept (memv s) (cp_same _ _ _ _ C)) as [Hv Hkeep].
  destruct (vs_user _ _ _ _ Hv _ _ _ Hp) as (_ & Hok & Hfl & Hodd). destruct (user_slot kend Hkend _ _ _ _ _ Hv Hp) as [pte Hs].
  erewrite bind_Ok by (eapply (walk_page kend); [apply Hv|lia|exact Hs]).
  destruct (slot_word _ _ _ _ _ a _ (vs_table _ _ _ _ Hv) ltac:(lia) Hs) as [Hw Hnz%Z.eqb_neq]. rewrite Hnz. erewrite bind_Ok by apply get_word_v.
  rewrite Hw, entries_user, Hp by lia. destruct (user_pte_bits kend Hkend p f Hok Hfl Hodd) as (-> & -> & -> & -> & _).
  destruct l as [|q l].
  { destruct (kalloc_none kend (Hkend0 kend Hkend) s (cp_inv _ _ _ _ C)) as (s1 & Hr1 & I1 & Hm1). erewrite bind_Ok by exact Hr1. cbn [Z.eqb].
    destruct (copy_give_up a spc [] s1) as (s' & Hr & Hres); [|lia|simpl; lia|by exists 0, s']. destruct C. constructor; try done; by rewrite Hm1. }
  destruct (kalloc_some kend (Hkend0 kend Hkend) q l s (cp_inv _ _ _ _ C)) as (s1 & Hr1 & I1 & Hm1 & Hqok & Hql). erewrite bind_Ok by exact Hr1.
  pose proof (page_ok_nz kend q Hqok) as Hqz%Z.eqb_neq. rewrite Hqz.
  destruct (memmove_v q 0 p PGSIZE l s1 I1 Hqok Hql) as (s2 & Hr2 & I2 & Hs2 & Hc2 & _); [done..|]. rewrite Z.add_0_r in Hr2, Hc2. erewrite bind_Ok by exact Hr2.
  rewrite Hm1 in Hs2, Hc2. pose proof (copying_nodup _ _ _ _ C) as Hnd. pose proof (copying_none _ _ _ _ C ltac:(lia)) as Hn.
  destruct (add_user_page kend Hkend K spc l s s2 q f a (cp_inv _ _ _ _ C) I2 Hs2 (cp_space _ _ _ _ C) Hnd Hn) as (r & s3 & l3 & T3 & Hr3 & I3 & Hv3 & Hp3 & Hs3 & Hpe & Hres);
    [lia|done|].
  erewrite bind_Ok by exact Hr3. destruct Hres as [->|[-> ->]]; cbn [Z.eqb Z.ltb Z.compare] in *.
  - rewrite u32_id by (unfold uint32, PGSIZE; lia). unfold PGSIZE. replace (4096 * a + 4096) with (4096 * (a + 1)) by lia. rewrite lor_1_id in Hv3 by done.
    assert (copying (a + 1) (mkSpace (sp_dir spc) T3 (<[a := (q, f)]> (sp_user spc))) l3 s3) as C3.
    { eapply copying_next; try done; [lia|]. intros i Hi. rewrite Hpe by done. by apply Hc2. }
    destruct (IH _ _ _ _ C3) as (r & s4 & Hr4 & Hres4); [lia|lia|]. by exists r, s4.
  - destruct (kfree_v kend q [] s3 I3 Hqok) as (s4 & Hr4 & I4 & Hs4); [set_solver|]. erewrite bind_Ok by exact Hr4.
    pose proof (copying_undo _ _ _ _ _ _ _ _ C I3 Hv3 Hp3 Hs3 I4 Hs4) as C4.
    destruct (copy_give_up _ _ _ _ C4) as (s' & Hr & Hres'); [lia|simpl; lia|]. by exists 0, s'.
Qed.
End copy.

Lemma copyuvm_Ok Kp dp sp l sz s : 0x80100 < dp < 0x8e000 -> 0 <= sz <= KERNBASE -> vinv l s -> vspace Kp (memv s) sp -> NoDup (l ++ spages sp) ->
  (forall n, 0 <= n < npages sz -> is_Some (sp_user sp !! n)) ->
  exists r s', copyuvm kend (4096 * dp) (sp_dir sp) sz s = Ok r s' /\
    ((exists l', r = 0 /\ vinv l' s' /\ same_off l (memv s) (memv s') /\ l' ≡ₚ l /\ (length l <= 1026 + Z.to_nat (npages sz))%nat) \/
     (exists l' T U, r <> 0 /\ copying (kpte dp) sp (memv s) l (npages sz) (mkSpace r T U) l' s')).
Proof.
  intros Hdp Hsz I Hv Hnd Hm. unfold copyuvm. destruct (npages_bounds sz Hsz) as [Hb1 Hb2].
  destruct (setupkvm_Ok kend Hkend dp Hdp l s I) as (d & s1 & l1 & Hr1 & I1 & Hs1 & Hres). erewrite bind_Ok by exact Hr1.
  destruct Hres as [(-> & Hp & Hlen)|(T & Hd & Hvc & Hp)].
  { exists 0, s1. split; [done|]. left. exists l1. split_and!; try done. lia. }
  pose proof Hd as Hz%Z.eqb_neq. rewrite Hz.
  assert (copying (kpte dp) sp (memv s) l 0 (mkSpace d T ∅) l1 s1) as C.
  { constructor; try done. intros n. cbn [sp_user]. rewrite lookup_empty. destruct (Z.leb_spec 0 n), (Z.ltb_spec n 0); (done || lia). }
  destruct (copyuvm_loop_Ok Kp (kpte dp) sp (memv s) l sz Hsz Hv Hnd Hm (S (Z.to_nat (sz / PGSIZE + 1))) 0 _ _ _ C) as (r & s2 & Hr2 & Hres);
    [lia|unfold npages, PGSIZE; Z.to_euclidean_division_equations; lia|].
  exists r, s2. split; [exact Hr2|]. cbn [sp_dir] in Hres. destruct Hres as [?|(l2 & T2 & U2 & -> & C2)]; [by left|right]. by exists l2, T2, U2.
Qed.

(** ** copyout *)

(** The byte at a user address. *)
Definition ubyte (m : CString.mem) (U : gmap Z (Z * Z)) (x : Z) : option Z :=
  match U !! (x / 4096) with Some (p, _) => Some (m (p + x mod 4096)) | None => None end.
Definition user_mapped (U : gmap Z (Z * Z)) (x : Z) : Prop := exists p f, U !! (x / 4096) = Some (p, f) /\ Z.land f PTE_U <> 0.

Lemma same_off_addr ps m m' x : same_off ps m m' -> (forall p, p ∈ ps -> ~ (p <= x < p + PGSIZE)) -> m' x = m x.
Proof.
  intros Hs Hx. replace x with (4096 * (x / 4096) + x mod 4096) by (symmetry; by apply Z.div_mod). apply Hs.
  - unfold PGSIZE. rewrite Z.mul_comm. by apply Z.mod_mul.
  - intros Hin. apply (Hx _ Hin). unfold PGSIZE. Z.to_euclidean_division_equations. lia.
  - by apply Z.mod_pos_bound.
Qed.

(** User pages at different numbers are different pages. *)
Lemma user_inj l sp n n' p f f' : NoDup (l ++ spages sp) -> sp_user sp !! n = Some (p, f) -> sp_user sp !! n' = Some (p, f') -> n = n'.
Proof.
  intros Hnd Hn Hn'. destruct (decide (n = n')) as [|Hne]; [done|]. destruct (user_page_apart kend Hkend _ _ _ _ _ Hnd Hn) as (_ & _ & Hp). destruct Hp.
  apply upages_elem. exists n', f'. by rewrite lookup_delete_ne.
Qed.

Lemma user_pte_U p f : page_ok p -> 0 <= f < 4096 -> Z.land (user_pte (p, f)) PTE_U = Z.land f PTE_U.
Proof.
  intros Hp Hf. unfold user_pte. destruct (V2P_eq kend p Hp) as (E & Hm & _). simpl. rewrite <- lor_flags by (rewrite ?E; done).
  rewrite Z.land_lor_distr_l, (land_low_high _ PTE_U 12) by (rewrite ?E; done). done.
Qed.
Lemma uva2ka_Ok K sp n p f s : vspace K (memv s) sp -> sp_user sp !! n = Some (p, f) ->
  uva2ka (sp_dir sp) (4096 * n) s = Ok (if Z.land f PTE_U =? 0 then 0 else p) s.
Proof.
  intros Hv Hn. destruct (vs_user _ _ _ _ Hv _ _ _ Hn) as (Hb & Hok & Hf & Hodd). destruct (user_slot kend Hkend _ _ _ _ _ Hv Hn) as [pte Hs]. unfold uva2ka.
  erewrite bind_Ok by (eapply (walk_page kend); [apply Hv|lia|exact Hs]).
  destruct (slot_word _ _ _ _ _ n _ (vs_table _ _ _ _ Hv) ltac:(lia) Hs) as [Hw Hnz%Z.eqb_neq]. rewrite Hnz. erewrite bind_Ok by apply get_word_v.
  rewrite Hw, entries_user, Hn by lia. destruct (user_pte_bits kend Hkend p f Hok Hf Hodd) as (-> & -> & _ & -> & _).
  rewrite user_pte_U by done. by destruct (Z.land f PTE_U =? 0).
Qed.

(** Kernel memory outside the user's pages, as a source. *)
Definition outside_user (U : gmap Z (Z * Z)) (buf len : Z) : Prop := forall p i, p ∈ upages U -> 0 <= i < len -> ~ (p <= buf + i < p + PGSIZE).

(** One round of copyout writes to one page. *)
Lemma copyout_page K sp n o p f buf k l s : vinv l s -> vspace K (memv s) sp -> NoDup (l ++ spages sp) -> sp_user sp !! n = Some (p, f) -> 0 <= o -> 0 <= k -> o + k <= 4096 ->
  exists s', phys (in_mem (memmove (p + o) buf k)) s = Ok (p + o) s' /\ vinv l s' /\ vspace K (memv s') sp /\ same_off (upages (sp_user sp)) (memv s) (memv s') /\
    (forall x, ubyte (memv s') (sp_user sp) x =
      if (4096 * n + o <=? x) && (x <? 4096 * n + o + k) then Some (memv s (buf + (x - (4096 * n + o)))) else ubyte (memv s) (sp_user sp) x).
Proof.
  intros I Hv Hnd Hn Ho Hk Hok. destruct (vs_user _ _ _ _ Hv _ _ _ Hn) as (Hb & Hp & _). destruct (user_page_apart kend Hkend _ _ _ _ _ Hnd Hn) as (Hpl & Hpt & _).
  destruct (memmove_v p o buf k l s I Hp Hpl Ho Hk) as (s' & Hr & I' & Hs & Hc & Hco); [done|]. exists s'. split_and!; [done|done| | |].
  - eapply vspace_frame; [|exact Hv]. intros q Hq. apply Hs; [by apply (table_pages_ok _ _ _ _ _ _ (vs_table _ _ _ _ Hv))|]. by intros ->%list_elem_of_singleton.
  - eapply same_off_weaken; [exact Hs|]. intros q ->%list_elem_of_singleton. apply upages_elem. eauto.
  - intros x. unfold ubyte. pose proof (Z.div_mod x 4096 ltac:(done)) as Hx. pose proof (Z.mod_pos_bound x 4096 ltac:(done)) as Hxm.
    destruct (decide (x / 4096 = n)) as [En|Hne].
    + rewrite En, Hn. destruct (Z.leb_spec (4096 * n + o) x), (Z.ltb_spec x (4096 * n + o + k)); cbn [andb]; f_equal.
      * rewrite <- Hc by lia. f_equal. lia.
      * apply Hco; unfold PGSIZE; lia.
      * apply Hco; unfold PGSIZE; lia.
      * apply Hco; unfold PGSIZE; lia.
    + assert ((4096 * n + o <=? x) && (x <? 4096 * n + o + k) = false) as -> by (destruct (Z.leb_spec (4096 * n + o) x), (Z.ltb_spec x (4096 * n + o + k)); (done || lia)).
      destruct (sp_user sp !! (x / 4096)) as [[q g]|] eqn:Eq; [|done]. f_equal. apply Hs; [apply (vs_user _ _ _ _ Hv _ _ _ Eq)| |done].
      intros ->%list_elem_of_singleton. apply Hne. by eapply user_inj.
Qed.

Lemma copyout_loop_Ok K sp : forall fuel va buf len l s, vinv l s -> vspace K (memv s) sp -> NoDup (l ++ spages sp) -> 0 <= va -> 0 <= len ->
  va + len <= KERNBASE -> len < Z.of_nat fuel -> outside_user (sp_user sp) buf len -> (forall x, va <= x < va + len -> user_mapped (sp_user sp) x) ->
  exists s', copyout_loop fuel (sp_dir sp) va buf len s = Ok 0 s' /\ vinv l s' /\ vspace K (memv s') sp /\ same_off (upages (sp_user sp)) (memv s) (memv s') /\
    (forall x, ubyte (memv s') (sp_user sp) x = if (va <=? x) && (x <? va + len) then Some (memv s (buf + (x - va))) else ubyte (memv s) (sp_user sp) x).
Proof.
  induction fuel as [|fuel IH]; intros va buf len l s I Hv Hnd Hva Hlen Hk Hf Hout Hm; [lia|]. cbn [copyout_loop]. destruct (Z.leb_spec len 0) as [Hz|Hz].
  { exists s. split_and!; try done. intros x. destruct (Z.leb_spec va x), (Z.ltb_spec x (va + len)); (done || lia). }
  set (n := va / 4096). set (o := va mod 4096). assert (va = 4096 * n + o) as Ev by (by apply Z.div_mod). assert (0 <= o < 4096) as Ho by (by apply Z.mod_pos_bound).
  clearbody n o. subst va. rewrite PGROUNDDOWN_eq by done. replace (4096 * n + o - 4096 * n) with o by lia.
  destruct (Hm (4096 * n + o)) as (p & f & Hn & Hu%Z.eqb_neq); [lia|]. replace ((4096 * n + o) / 4096) with n in Hn by (Z.to_euclidean_division_equations; lia).
  erewrite bind_Ok by (eapply uva2ka_Ok; done). rewrite Hu. destruct (vs_user _ _ _ _ Hv _ _ _ Hn) as (Hb & Hp & _).
  pose proof (page_ok_nz kend p Hp) as Hp0%Z.eqb_neq. rewrite Hp0. set (k := Z.min (PGSIZE - o) len). assert (0 < k <= len /\ o + k <= 4096 /\ (k = len \/ o + k = 4096)) as Hkk by (unfold k, PGSIZE; lia).
  clearbody k. destruct (copyout_page K sp n o p f buf k l s I Hv Hnd Hn) as (s1 & Hr1 & I1 & Hv1 & Hs1 & Hu1); [lia..|]. erewrite bind_Ok by exact Hr1.
  rewrite u32_id by (unfold uint32, PGSIZE; lia). unfold PGSIZE.
  destruct (IH (4096 * n + 4096) (buf + k) (len - k) l s1 I1 Hv1 Hnd) as (s2 & Hr2 & I2 & Hv2 & Hs2 & Hu2); [lia|lia|unfold KERNBASE in *; lia|lia| | |].
  { intros q i Hq Hi. rewrite <- Z.add_assoc. apply Hout; [done|lia]. }
  { intros x Hx. apply Hm. lia. }
  exists s2. split_and!; [done|done|done|by eapply same_off_trans|]. intros x. rewrite (Hu2 x), (Hu1 x).
  assert (forall i, k <= i < len -> memv s1 (buf + i) = memv s (buf + i)) as Hbuf.
  { intros i Hi. apply (same_off_addr _ _ _ _ Hs1). intros q Hq. apply Hout; [done|lia]. }
  destruct (Z.leb_spec (4096 * n + 4096) x), (Z.ltb_spec x (4096 * n + 4096 + (len - k))), (Z.leb_spec (4096 * n + o) x), (Z.ltb_spec x (4096 * n + o + k)),
    (Z.ltb_spec x (4096 * n + o + len)); cbn [andb]; try done; try lia.
  replace (buf + k + (x - (4096 * n + 4096))) with (buf + (x - (4096 * n + o))) by lia. rewrite Hbuf by lia. done.
Qed.

Lemma copyout_Ok K sp va buf len l s : vinv l s -> vspace K (memv s) sp -> NoDup (l ++ spages sp) -> 0 <= va -> 0 <= len ->
  va + len <= KERNBASE -> outside_user (sp_user sp) buf len -> (forall x, va <= x < va + len -> user_mapped (sp_user sp) x) ->
  exists s', copyout (sp_dir sp) va buf len s = Ok 0 s' /\ vinv l s' /\ vspace K (memv s') sp /\ same_off (upages (sp_user sp)) (memv s) (memv s') /\
    (forall x, ubyte (memv s') (sp_user sp) x = if (va <=? x) && (x <? va + len) then Some (memv s (buf + (x - va))) else ubyte (memv s) (sp_user sp) x).
Proof. intros. apply copyout_loop_Ok; try done. lia. Qed.

(** ** clearpteu *)

Lemma ldiff_id a b : Z.land a b = 0 -> Z.ldiff a b = a.
Proof.
  intros E. apply Z.bits_inj'. intros i Hi. apply (f_equal (fun z => Z.testbit z i)) in E. rewrite Z.land_spec, Z.bits_0 in E. rewrite Z.ldiff_spec.
  by destruct (Z.testbit a i), (Z.testbit b i).
Qed.
Lemma ldiff_le a b : 0 <= a -> Z.ldiff a b <= a.
Proof.
  intros Ha. assert (Z.ldiff a b = a - Z.land a b) as ->.
  - rewrite Z.sub_nocarry_ldiff; apply Z.bits_inj'; intros i Hi; rewrite ?Z.bits_0, !Z.ldiff_spec, Z.land_spec; by destruct (Z.testbit a i), (Z.testbit b i).
  - assert (0 <= Z.land a b) by (apply Z.land_nonneg; by left). lia.
Qed.
Lemma clear_U_flags f : 0 <= f < 4096 -> f mod 2 = 1 -> 0 <= Z.land f (Z.lnot PTE_U) < 4096 /\ Z.land f (Z.lnot PTE_U) mod 2 = 1.
Proof.
  intros Hf Ho. rewrite <- Z.ldiff_land. pose proof (ldiff_le f PTE_U ltac:(lia)) as Hle.
  assert (0 <= Z.ldiff f PTE_U) as H0 by (apply Z.ldiff_nonneg; lia). split; [lia|].
  rewrite Zmod_odd, <- Z.bit0_odd in *. rewrite Z.ldiff_spec. by destruct (Z.testbit f 0).
Qed.
Lemma clear_U_pte p f : page_ok p -> 0 <= f < 4096 -> f mod 2 = 1 -> Z.land (user_pte (p, f)) (Z.lnot PTE_U) = user_pte (p, Z.land f (Z.lnot PTE_U)).
Proof.
  intros Hp Hf Ho. unfold user_pte. destruct (V2P_eq kend p Hp) as (E & Hm & Hb). cbn [fst snd]. destruct (clear_U_flags f Hf Ho) as [Hf' _].
  rewrite <- !lor_flags by (rewrite ?E; done). rewrite Z.land_lor_distr_l. f_equal. rewrite <- Z.ldiff_land. apply ldiff_id.
  apply (land_low_high _ PTE_U 12); [done|by rewrite E|done].
Qed.

Lemma clearpteu_Ok K sp n o p f l s : vinv l s -> vspace K (memv s) sp -> NoDup (l ++ spages sp) -> sp_user sp !! n = Some (p, f) -> 0 <= o < 4096 ->
  exists s', clearpteu (sp_dir sp) (4096 * n + o) s = Ok tt s' /\ vinv l s' /\ vspace K (memv s') (with_user sp (<[n := (p, Z.land f (Z.lnot PTE_U))]> (sp_user sp))) /\
    same_off (tpages (sp_dir sp) (sp_tabs sp)) (memv s) (memv s').
Proof.
  intros I Hv Hnd Hn Ho. destruct (vs_user _ _ _ _ Hv _ _ _ Hn) as (Hb & Hok & Hf & Hodd). destruct (user_slot kend Hkend _ _ _ _ _ Hv Hn) as [pte Hs]. unfold clearpteu.
  erewrite bind_Ok by (eapply (walk_present kend); [done|apply Hv|lia|done|exact Hs]).
  destruct (slot_word _ _ _ _ _ n _ (vs_table _ _ _ _ Hv) ltac:(lia) Hs) as [Hw Hnz%Z.eqb_neq]. rewrite Hnz. erewrite bind_Ok by apply get_word_v.
  rewrite Hw, entries_user, Hn, clear_U_pte by (done || lia). destruct (clear_U_flags f Hf Hodd) as [Hf' Ho']. destruct (V2P_eq kend p Hok) as (E & Hm & Hvb).
  destruct (set_pte kend (Hkend0 kend Hkend) _ _ _ n (user_pte (p, Z.land f (Z.lnot PTE_U))) pte l s I (vs_table _ _ _ _ Hv)) as (s' & Hr & I' & Ht' & Hs');
    [by apply apart_tables'|lia|unfold user_pte; cbn [fst snd]; rewrite E; unfold PHYSTOP in *; lia|done|].
  exists s'. split_and!; [done|done| |done]. split; cbn [sp_dir sp_tabs sp_user with_user].
  - eapply table_ext; [|exact Ht']. intros k _. by apply entries_insert.
  - intros k q g [[<- [= <- <-]]|[_ Hk]]%lookup_insert_Some; [done|]. by apply (vs_user _ _ _ _ Hv _ _ _ Hk).
Qed.
End Copy.
