(* ===== verification/VmCorrect.v ===== *)
(** * Address spaces are private memories

    What a process sees of vm.c is a map from page numbers to flags and bytes.
    The functions of vm.c, working on page tables in shared physical memory,
    implement operations on a list of such maps. *)

From stdpp Require Import base gmap list list_numbers strings.
From Stdlib Require Import ZArith Lia.
From S2P Require Import Prelude Spinlock CString Sync Kalloc Vm VmTable VmSpace VmUser VmCopy.
Local Open Scope Z_scope.

(** ** The abstract memory of a process *)

Definition page_bytes (m : CString.mem) (p : Z) : list Z := (fun i => m (p + i)) <$> seqZ 0 PGSIZE.
Notation umem := (gmap Z (Z * list Z)) (only parsing).
Definition view (m : CString.mem) (U : gmap Z (Z * Z)) : umem := (fun u => (u.2, page_bytes m u.1)) <$> U.

Definition zero_bytes : list Z := replicate (Z.to_nat PGSIZE) 0.
(** Pages [a] to [b], zeroed, writable and the user's. *)
Definition fresh_pages (a b : Z) : umem := list_to_map ((fun n => (n, (7, zero_bytes))) <$> seqZ a (b - a)).
Definition first_pages (b : Z) (A : umem) : umem := filter (fun x => x.1 < b) A.
Definition clear_user (n : Z) (A : umem) : umem := alter (fun x => (Z.land x.1 (Z.lnot PTE_U), x.2)) n A.
(** The bytes [data] written from address [va] on. *)
Definition write_bytes (va : Z) (data : list Z) (n : Z) (bs : list Z) : list Z :=
  imap (fun i b => if decide (va <= 4096 * n + Z.of_nat i < va + Z.of_nat (length data)) then nth (Z.to_nat (4096 * n + Z.of_nat i - va)) data 0 else b) bs.
Definition write_user (va : Z) (data : list Z) (A : umem) : umem := map_imap (fun n x => Some (x.1, write_bytes va data n x.2)) A.

Lemma page_eq_bytes m m' p : page_eq m m' p -> page_bytes m' p = page_bytes m p.
Proof. intros Hp. apply list_fmap_ext. intros i x Hx. apply lookup_seqZ in Hx as [-> Hx]. apply Hp. unfold PGSIZE in *. lia. Qed.
Lemma zero_page_bytes m p : zero_page m p -> page_bytes m p = zero_bytes.
Proof.
  intros Hz. unfold page_bytes, zero_bytes. apply list_eq. intros i. rewrite list_lookup_fmap. destruct (decide (Z.of_nat i < PGSIZE)) as [Hi|Hi].
  - rewrite lookup_seqZ_lt, lookup_replicate_2 by lia. simpl. by rewrite Hz by lia.
  - rewrite lookup_seqZ_ge by lia. symmetry. apply lookup_ge_None. rewrite length_replicate. lia.
Qed.

Lemma view_lookup m U n : view m U !! n = (fun u => (u.2, page_bytes m u.1)) <$> U !! n.
Proof. apply lookup_fmap. Qed.
Lemma view_frame m m' U : (forall p, p ∈ upages U -> page_eq m m' p) -> view m' U = view m U.
Proof.
  intros Hp. apply map_eq. intros n. rewrite !view_lookup. destruct (U !! n) as [[p f]|] eqn:E; [|done]. simpl. do 2 f_equal.
  apply page_eq_bytes, Hp, upages_elem. eauto.
Qed.

(** ** What the functions do to the view *)

Lemma fresh_pages_lookup a b n : fresh_pages a b !! n = if (a <=? n) && (n <? b) then Some (7, zero_bytes) else None.
Proof.
  unfold fresh_pages. destruct ((a <=? n) && (n <? b)) eqn:E.
  - apply elem_of_list_to_map_1; [rewrite <- list_fmap_compose; unfold compose; simpl; rewrite list_fmap_id; apply NoDup_seqZ|].
    apply list_elem_of_fmap. exists n. split; [done|]. apply elem_of_seqZ. lia.
  - apply not_elem_of_list_to_map_1. rewrite <- list_fmap_compose. unfold compose. simpl. rewrite list_fmap_id. rewrite elem_of_seqZ. lia.
Qed.
Lemma first_pages_lookup b A n : first_pages b A !! n = if n <? b then A !! n else None.
Proof.
  unfold first_pages. destruct (Z.ltb_spec n b).
  - destruct (A !! n) as [x|] eqn:E; [by apply map_lookup_filter_Some|]. apply map_lookup_filter_None. by left.
  - apply map_lookup_filter_None. right. simpl. lia.
Qed.

Lemma view_new a b m m' U U' : new_pages a b m' U U' -> kept m m' U U' -> view m' U' = fresh_pages a b ∪ view m U.
Proof.
  intros Hn Hk. apply map_eq. intros n. rewrite lookup_union, fresh_pages_lookup, !view_lookup. specialize (Hn n). destruct ((a <=? n) && (n <? b)).
  - destruct Hn as (p & -> & Hz). simpl. rewrite zero_page_bytes by done. by destruct (U !! n).
  - rewrite Hn, (left_id_L None _). destruct (U !! n) as [[p f]|] eqn:E; [|done]. simpl. do 2 f_equal. apply page_eq_bytes, Hk; apply upages_elem; exists n, f; congruence.
Qed.
Lemma view_drop a b m m' U U' : drop_pages a b U U' -> (forall p, p ∈ upages U' -> page_eq m m' p) -> (forall n, is_Some (U !! n) -> n < b) ->
  view m' U' = first_pages a (view m U).
Proof.
  intros Hd Hk Hb. rewrite (view_frame m m') by done. apply map_eq. intros n. rewrite first_pages_lookup, !view_lookup, (Hd n).
  destruct (Z.leb_spec a n), (Z.ltb_spec n b), (Z.ltb_spec n a); cbn [andb]; try done; try lia. destruct (U !! n) eqn:E; [|done]. specialize (Hb n ltac:(eauto)). lia.
Qed.
Lemma view_copied N m m' U U' : copied_pages N m m' U U' -> (forall n, is_Some (U !! n) -> 0 <= n < N) -> view m' U' = view m U.
Proof.
  intros Hc Hb. apply map_eq. intros n. rewrite !view_lookup. specialize (Hc n). destruct ((0 <=? n) && (n <? N)) eqn:E.
  - destruct Hc as (p & q & f & -> & -> & Hs). simpl. do 2 f_equal. unfold page_bytes. apply list_fmap_ext. intros i x Hx. apply lookup_seqZ in Hx as [-> Hx].
    rewrite Hs by (unfold PGSIZE in *; lia). done.
  - rewrite Hc. destruct (U !! n) eqn:En; [|done]. specialize (Hb n ltac:(eauto)). lia.
Qed.
Lemma view_clear m U n p f : U !! n = Some (p, f) -> view m (<[n := (p, Z.land f (Z.lnot PTE_U))]> U) = clear_user n (view m U).
Proof.
  intros Hn. apply map_eq. intros k. unfold clear_user. destruct (decide (k = n)) as [->|Hne].
  - by rewrite lookup_alter_eq, !view_lookup, lookup_insert_eq, Hn.
  - by rewrite lookup_alter_ne, !view_lookup, lookup_insert_ne by done.
Qed.

(** Bytes that have changed in mapped pages. *)
Lemma view_put va m m' U data :
  (forall x, ubyte m' U x = if (va <=? x) && (x <? va + Z.of_nat (length data)) then (fun _ => nth (Z.to_nat (x - va)) data 0) <$> ubyte m U x else ubyte m U x) ->
  view m' U = write_user va data (view m U).
Proof.
  intros Hu. apply map_eq. intros n. unfold write_user. rewrite map_lookup_imap, !view_lookup. destruct (U !! n) as [[p f]|] eqn:E; [|done]. simpl. do 2 f_equal.
  unfold page_bytes, write_bytes. apply list_eq. intros i. rewrite list_lookup_imap, !list_lookup_fmap. destruct (decide (Z.of_nat i < PGSIZE)) as [Hi|Hi].
  2: { by rewrite lookup_seqZ_ge by lia. }
  rewrite lookup_seqZ_lt, Z.add_0_l by lia. simpl. unfold PGSIZE in Hi. f_equal. specialize (Hu (4096 * n + Z.of_nat i)). unfold ubyte in Hu.
  replace ((4096 * n + Z.of_nat i) / 4096) with n in Hu by (Z.to_euclidean_division_equations; lia).
  replace ((4096 * n + Z.of_nat i) mod 4096) with (Z.of_nat i) in Hu by (Z.to_euclidean_division_equations; lia). rewrite E in Hu. simpl.
  destruct (Z.leb_spec va (4096 * n + Z.of_nat i)), (Z.ltb_spec (4096 * n + Z.of_nat i) (va + Z.of_nat (length data))); cbn [andb fmap option_fmap option_map] in Hu; injection Hu as Hu;
    [by rewrite decide_True by lia|by rewrite decide_False by lia..].
Qed.
Definition source (m : CString.mem) (buf len : Z) : list Z := (fun i => m (buf + i)) <$> seqZ 0 len.
Lemma view_write va m m' U buf len : 0 <= len ->
  (forall x, va <= x < va + len -> user_mapped U x) ->
  (forall x, ubyte m' U x = if (va <=? x) && (x <? va + len) then Some (m (buf + (x - va))) else ubyte m U x) ->
  view m' U = write_user va (source m buf len) (view m U).
Proof.
  intros Hl Hm Hu. apply view_put. intros x. rewrite Hu. unfold source. rewrite length_fmap, length_seqZ, Z2Nat.id by done. destruct (Z.leb_spec va x), (Z.ltb_spec x (va + len)); cbn [andb]; try done.
  destruct (Hm x) as (p & f & Hp & _); [lia|]. unfold ubyte at 1. rewrite Hp. cbn. f_equal. rewrite nth_lookup, list_lookup_fmap, lookup_seqZ_lt by lia. cbn. f_equal. lia.
Qed.

(** ** What the hardware sees

    The walk of the memory management unit through the directory [d]: the entry
    of page [n], and the flags and bytes of the page if it is present. *)
Definition hw_pte (m : CString.mem) (d n : Z) : Z :=
  let pde := word_at m (d + 4 * (n / 1024)) in
  if Z.land pde PTE_P =? 0 then 0 else word_at m (P2V (PTE_ADDR pde) + 4 * (n mod 1024)).
Definition hw_page (m : CString.mem) (d n : Z) : option (Z * list Z) :=
  let pte := hw_pte m d n in
  if Z.land pte PTE_P =? 0 then None else Some (PTE_FLAGS pte, page_bytes m (P2V (PTE_ADDR pte))).

(** ** Operations on several address spaces

    A process is its page directory and its size, as in [struct proc]. *)
Inductive vop :=
| VSetup | VGrow (i : nat) (newsz : Z) | VShrink (i : nat) (newsz : Z) | VFork (i : nat)
| VGuard (i : nat) (va : Z) | VWrite (i : nat) (va buf len : Z) | VFree (i : nat).

Definition need (A : list (Z * umem)) : nat := sum_list_with (fun a => 1025 + Z.to_nat (npages a.1))%nat A.

(** The abstract operations, on sizes and memories.  An allocation may fail
    when [total] pages are too few for the processes there are and the new
    pages, counting the most page tables a space can have. *)
Inductive abs_step (total : nat) (m : CString.mem) : vop -> list (Z * umem) -> list (Z * umem) -> Prop :=
| abs_setup A : abs_step total m VSetup A (A ++ [(0, ∅)])
| abs_setup_fail A : (total <= 1026 + need A)%nat -> abs_step total m VSetup A A
| abs_grow A i sz M newsz : A !! i = Some (sz, M) -> sz <= newsz < KERNBASE ->
    abs_step total m (VGrow i newsz) A (<[i := (newsz, fresh_pages (npages sz) (npages newsz) ∪ M)]> A)
| abs_grow_fail A i sz M newsz : A !! i = Some (sz, M) -> sz <= newsz < KERNBASE ->
    (total <= 1026 + Z.to_nat (npages newsz - npages sz) + need A)%nat -> abs_step total m (VGrow i newsz) A A
| abs_grow_refused A i sz M newsz : A !! i = Some (sz, M) -> newsz < sz \/ KERNBASE <= newsz -> abs_step total m (VGrow i newsz) A A
| abs_shrink A i sz M newsz : A !! i = Some (sz, M) -> newsz < sz ->
    abs_step total m (VShrink i newsz) A (<[i := (newsz, first_pages (npages newsz) M)]> A)
| abs_shrink_refused A i sz M newsz : A !! i = Some (sz, M) -> sz <= newsz -> abs_step total m (VShrink i newsz) A A
| abs_fork A i sz M : A !! i = Some (sz, M) -> abs_step total m (VFork i) A (A ++ [(sz, M)])
| abs_fork_fail A i sz M : A !! i = Some (sz, M) -> (total <= 1026 + Z.to_nat (npages sz) + need A)%nat -> abs_step total m (VFork i) A A
| abs_guard A i sz M va : A !! i = Some (sz, M) -> abs_step total m (VGuard i va) A (<[i := (sz, clear_user (va / 4096) M)]> A)
| abs_write A i sz M va buf len : A !! i = Some (sz, M) ->
    abs_step total m (VWrite i va buf len) A (<[i := (sz, write_user va (source m buf len) M)]> A)
| abs_free A i a : A !! i = Some a -> abs_step total m (VFree i) A (delete i A).

(** What the callers guarantee: processes that exist, pages that are mapped;
    [copyout] copies from the kernel's own memory. *)
Definition vpre (kend : Z) (o : vop) (A : list (Z * umem)) : Prop :=
  match o with
  | VSetup => True
  | VGrow i newsz | VShrink i newsz => is_Some (A !! i) /\ 0 <= newsz < 2 ^ 32
  | VFork i | VFree i => is_Some (A !! i)
  | VGuard i va => exists sz M, A !! i = Some (sz, M) /\ is_Some (M !! (va / 4096)) /\ 0 <= va
  | VWrite i va buf len => 0 <= va /\ 0 <= len /\ va + len <= KERNBASE /\ buf + len <= kend /\ exists sz M, A !! i = Some (sz, M) /\
      forall x, va <= x < va + len -> exists f bs, M !! (x / 4096) = Some (f, bs) /\ Z.land f PTE_U <> 0
  end.

(** Sequences of operations, and those whose calls are all in order whatever
    allocations fail. *)
Inductive abs_run (total : nat) (m : CString.mem) : list vop -> list (Z * umem) -> list (Z * umem) -> Prop :=
| abs_run_nil A : abs_run total m [] A A
| abs_run_cons o os A A1 A2 : abs_step total m o A A1 -> abs_run total m os A1 A2 -> abs_run total m (o :: os) A A2.
Fixpoint valid (kend : Z) (total : nat) (m : CString.mem) (os : list vop) (A : list (Z * umem)) : Prop :=
  match os with [] => True | o :: os' => vpre kend o A /\ forall A', abs_step total m o A A' -> valid kend total m os' A' end.

Section Correct.
Context {L : Type} `{Lock L} (kend : Z) (Hkend : KERNBASE < kend).
Context (dp : Z) (Hdp : 0x80100 < dp < 0x8e000).
Local Notation page_ok := (page_ok kend).
Local Notation vinv := (vinv kend).
Local Notation vspace := (vspace kend).
Local Notation data := (4096 * dp).

Definition run_vop (o : vop) (ps : list (Z * Z)) : M (vm (L := L)) (list (Z * Z)) :=
  match o with
  | VSetup => let! d := setupkvm kend data in ret (if d =? 0 then ps else ps ++ [(d, 0)])
  | VGrow i newsz =>
      match ps !! i with
      | Some (d, sz) => let! r := allocuvm kend d sz newsz in ret (if r =? 0 then ps else <[i := (d, r)]> ps)
      | None => ret ps
      end
  | VShrink i newsz =>
      match ps !! i with
      | Some (d, sz) => let! r := deallocuvm kend d sz newsz in ret (<[i := (d, r)]> ps)
      | None => ret ps
      end
  | VFork i =>
      match ps !! i with
      | Some (d, sz) => let! r := copyuvm kend data d sz in ret (if r =? 0 then ps else ps ++ [(r, sz)])
      | None => ret ps
      end
  | VGuard i va => match ps !! i with Some (d, _) => clearpteu d va ;;; ret ps | None => ret ps end
  | VWrite i va buf len => match ps !! i with Some (d, _) => copyout d va buf len ;;; ret ps | None => ret ps end
  | VFree i => match ps !! i with Some (d, _) => freevm kend d ;;; ret (delete i ps) | None => ret ps end
  end.
Fixpoint run_vops (os : list vop) (ps : list (Z * Z)) : M vm (list (Z * Z)) :=
  match os with [] => ret ps | o :: os' => let! ps := run_vop o ps in run_vops os' ps end.

(** ** The relation between machine and abstraction *)

Definition abstracts (m : CString.mem) (sp : space) (p : Z * Z) (a : Z * umem) : Prop :=
  p = (sp_dir sp, a.1) /\ 0 <= a.1 <= KERNBASE /\ a.2 = view m (sp_user sp) /\ forall n, is_Some (sp_user sp !! n) <-> 0 <= n < npages a.1.

Record vrep (m0 : CString.mem) (P l : list Z) (sps : list space) (ps : list (Z * Z)) (A : list (Z * umem)) (s : vm (L := L)) : Prop := {
  vr_inv : vinv l s;
  vr_spaces : Forall (vspace (kpte dp) (memv s)) sps;
  vr_own : l ++ concat (spages <$> sps) ≡ₚ P;
  vr_nodup : NoDup P;
  vr_pages : Forall page_ok P;
  vr_abs : Forall3 (abstracts (memv s)) sps ps A;
  vr_low : forall x, x < kend -> memv s x = m0 x }.

Definition owned (sps : list space) : list Z := concat (spages <$> sps).
Lemma owned_app x y : owned (x ++ y) = owned x ++ owned y.
Proof. unfold owned. by rewrite fmap_app, concat_app. Qed.
Lemma owned_spec sps p : p ∈ owned sps <-> exists sp, sp ∈ sps /\ p ∈ spages sp.
Proof.
  induction sps as [|sp sps IH]; [set_solver|]. change (owned (sp :: sps)) with (spages sp ++ owned sps). rewrite elem_of_app, IH. split.
  - intros [Hp|(sp2 & H2 & Hp)]; [exists sp|exists sp2]; (split; [|done]); [left|by right].
  - intros (sp2 & [->|H2]%elem_of_cons & Hp); [by left|]. right. by exists sp2.
Qed.
Lemma owned_elem sp sps p : sp ∈ sps -> p ∈ spages sp -> p ∈ owned sps.
Proof. intros. apply owned_spec. eauto. Qed.

(** A space whose pages are as before looks as before. *)
Lemma vspace_kept m m' sp : (forall p, p ∈ spages sp -> page_eq m m' p) -> vspace (kpte dp) m sp -> vspace (kpte dp) m' sp.
Proof. intros Hp Hv. eapply vspace_frame; [|exact Hv]. intros p Hin. apply Hp. unfold spages. set_solver. Qed.
Lemma abstracts_kept m m' sp p a : (forall p, p ∈ spages sp -> page_eq m m' p) -> abstracts m sp p a -> abstracts m' sp p a.
Proof.
  intros Hp (H1 & H2 & H3 & H4). split_and!; try done; try apply H2. rewrite H3. symmetry. apply view_frame. intros q Hq. apply Hp. unfold spages. set_solver.
Qed.
Lemma Forall3_kept m m' (x : list space) ps A : (forall p, p ∈ owned x -> page_eq m m' p) -> Forall3 (abstracts m) x ps A -> Forall3 (abstracts m') x ps A.
Proof.
  intros Hp. induction 1 as [|sp p a x ps A Ha HA IH]; constructor.
  - eapply abstracts_kept; [|exact Ha]. intros q Hq. apply Hp. eapply owned_elem; [left|done].
  - apply IH. intros q Hq. apply Hp. change (owned (sp :: x)) with (spages sp ++ owned x). set_solver.
Qed.

(** The spaces [ws] and the free list have become [zs] and another free list. *)
Lemma vrep_replace m0 P l x ws y p1 p p2 A1 a A2 s l' zs q b s' : vrep m0 P l (x ++ ws ++ y) (p1 ++ p ++ p2) (A1 ++ a ++ A2) s ->
  Forall3 (abstracts (memv s)) x p1 A1 -> Forall3 (abstracts (memv s)) y p2 A2 ->
  vinv l' s' -> Forall (vspace (kpte dp) (memv s')) zs -> l' ++ owned zs ≡ₚ l ++ owned ws -> same_off (l ++ owned ws) (memv s) (memv s') ->
  Forall3 (abstracts (memv s')) zs q b -> vrep m0 P l' (x ++ zs ++ y) (p1 ++ q ++ p2) (A1 ++ b ++ A2) s'.
Proof.
  intros R H1 H2 I' Hz Hp Hs Hb. destruct R as [I Hsp Hown Hnd Hpg _ Hlow]. fold (owned (x ++ ws ++ y)) in Hown. rewrite !owned_app in Hown.
  assert (l ++ owned x ++ owned ws ++ owned y ≡ₚ (l ++ owned ws) ++ owned x ++ owned y) as E1.
  { rewrite <- app_assoc. f_equiv. rewrite !app_assoc. f_equiv. apply Permutation_app_comm. }
  assert (NoDup ((l ++ owned ws) ++ owned x ++ owned y)) as Hnd' by (by rewrite <- E1, Hown).
  assert (forall sp2, sp2 ∈ x ++ y -> forall p, p ∈ spages sp2 -> page_eq (memv s) (memv s') p) as Hk.
  { intros sp2 H3 p3 Hp3. apply NoDup_app in Hnd' as (_ & Hnd' & _). assert (p3 ∈ owned x ++ owned y) as Hin by (rewrite <- owned_app; by eapply owned_elem).
    apply Hs; [|intros Hl; by apply (Hnd' p3)]. rewrite Forall_forall in Hpg. apply Hpg. rewrite <- Hown. set_solver. }
  assert (forall sp2, sp2 ∈ x ++ y -> vspace (kpte dp) (memv s') sp2) as Hv.
  { intros sp2 H3. rewrite Forall_forall in Hsp. eapply vspace_kept; [by apply Hk|]. apply Hsp. set_solver. }
  constructor; try done.
  - rewrite !Forall_app. split_and!; [|done|]; apply Forall_forall; intros sp2 H3; apply Hv; set_solver.
  - fold (owned (x ++ zs ++ y)). rewrite !owned_app, <- Hown, E1, <- Hp. rewrite <- app_assoc. f_equiv. rewrite !app_assoc. f_equiv. apply Permutation_app_comm.
  - assert (forall z qs B, Forall3 (abstracts (memv s)) z qs B -> (forall sp2, sp2 ∈ z -> sp2 ∈ x ++ y) -> Forall3 (abstracts (memv s')) z qs B) as HF.
    { intros z qs B HB Hin. eapply Forall3_kept; [|exact HB]. intros p3 (sp3 & H3 & Hp3)%owned_spec. eapply Hk; [by apply Hin|done]. }
    apply Forall3_app; [apply HF; [done|set_solver]|]. apply Forall3_app; [done|]. apply HF; [done|set_solver].
  - intros z Hzk. rewrite <- Hlow by done. apply (same_off_addr _ _ _ _ Hs). intros p3 Hp3 Hz3. rewrite Forall_forall in Hpg.
    destruct (Hpg p3) as (_ & Hkp & _); [rewrite <- Hown, E1; set_solver|]. lia.
Qed.

Lemma insert_mid {B} (x : list B) a b y : <[length x := b]> (x ++ a :: y) = x ++ b :: y.
Proof. by rewrite insert_app_r_alt, Nat.sub_diag by done. Qed.

(** One process of the machine and what is known of its space. *)
Record focus (m0 : CString.mem) (P l : list Z) (ps : list (Z * Z)) (A : list (Z * umem)) (s : vm (L := L)) (i : nat) (sz : Z) (M : umem) (sp : space) : Prop := {
  fo_proc : ps !! i = Some (sp_dir sp, sz);
  fo_inv : vinv l s;
  fo_space : vspace (kpte dp) (memv s) sp;
  fo_nodup : NoDup (l ++ spages sp);
  fo_size : 0 <= sz <= KERNBASE;
  fo_view : M = view (memv s) (sp_user sp);
  fo_dom : forall n, is_Some (sp_user sp !! n) <-> 0 <= n < npages sz;
  (** it may become another space with a view of its own, *)
  fo_update : forall l' sp' sz' s', vinv l' s' -> vspace (kpte dp) (memv s') sp' -> sp_dir sp' = sp_dir sp -> l' ++ spages sp' ≡ₚ l ++ spages sp ->
    same_off (l ++ spages sp) (memv s) (memv s') -> 0 <= sz' <= KERNBASE -> (forall n, is_Some (sp_user sp' !! n) <-> 0 <= n < npages sz') ->
    exists sps', vrep m0 P l' sps' (<[i := (sp_dir sp, sz')]> ps) (<[i := (sz', view (memv s') (sp_user sp'))]> A) s';
  (** or go away. *)
  fo_remove : forall l' s', vinv l' s' -> l' ≡ₚ l ++ spages sp -> same_off (l ++ spages sp) (memv s) (memv s') ->
    exists sps', vrep m0 P l' sps' (delete i ps) (delete i A) s' }.

Lemma vrep_focus m0 P l sps ps A s i sz M : vrep m0 P l sps ps A s -> A !! i = Some (sz, M) -> exists sp, focus m0 P l ps A s i sz M sp.
Proof.
  intros R Hi. apply list_elem_of_split_length in Hi as (A1 & A2 & -> & ->). pose proof (vr_abs _ _ _ _ _ _ _ R) as HF.
  apply Forall3_app_inv_r in HF as (x & y0 & p1 & p20 & -> & -> & HF1 & HF2). apply Forall3_cons_inv_r in HF2 as (sp & y & p & p2 & -> & -> & Ha & HF2).
  destruct Ha as (-> & Hsz & HM & Hdom). cbn [fst snd] in *. exists sp.
  pose proof (vrep_replace m0 P l x [sp] y p1 [(sp_dir sp, sz)] p2 A1 [(sz, M)] A2 s) as Hrep. unfold owned in Hrep. cbn [fmap list_fmap concat] in Hrep. rewrite app_nil_r in Hrep.
  assert (length p1 = length A1) as Elen by (rewrite <- (Forall3_length_lm _ _ _ _ HF1); apply (Forall3_length_lr _ _ _ _ HF1)).
  constructor; try done.
  - rewrite <- Elen. by apply list_lookup_middle.
  - apply R.
  - pose proof (vr_spaces _ _ _ _ _ _ _ R) as Hv. rewrite Forall_forall in Hv. apply Hv. set_solver.
  - pose proof (vr_nodup _ _ _ _ _ _ _ R) as Hnd. rewrite <- (vr_own _ _ _ _ _ _ _ R) in Hnd. fold (owned (x ++ sp :: y)) in Hnd.
    rewrite owned_app in Hnd. change (owned (sp :: y)) with (spages sp ++ owned y) in Hnd. 
    assert (l ++ owned x ++ spages sp ++ owned y ≡ₚ (l ++ spages sp) ++ owned x ++ owned y) as E1.
    { rewrite <- app_assoc. f_equiv. rewrite !app_assoc. f_equiv. apply Permutation_app_comm. }
    rewrite E1 in Hnd. by apply NoDup_app in Hnd as [? _].
  - intros l' sp' sz' s' I' Hv' Hd' Hp' Hs' Hsz' Hdom'. exists (x ++ sp' :: y). rewrite insert_mid, <- Elen, insert_mid.
    apply (Hrep l' [sp'] [(sp_dir sp, sz')] [(sz', view (memv s') (sp_user sp'))] s'); try done; [by constructor|cbn [fmap list_fmap concat]; by rewrite app_nil_r|].
    constructor; [|constructor]. split_and!; [by rewrite Hd'|apply Hsz'|apply Hsz'|done|done].
  - intros l' s' I' Hp' Hs'. exists (x ++ y). rewrite delete_middle, <- Elen, delete_middle.
    apply (Hrep l' [] [] [] s'); try done; [cbn [fmap list_fmap concat]; by rewrite app_nil_r|constructor].
Qed.

Lemma vrep_add m0 P l sps ps A s l' sp sz s' : vrep m0 P l sps ps A s -> vinv l' s' -> vspace (kpte dp) (memv s') sp -> l' ++ spages sp ≡ₚ l ->
  same_off l (memv s) (memv s') -> 0 <= sz <= KERNBASE -> (forall n, is_Some (sp_user sp !! n) <-> 0 <= n < npages sz) ->
  exists sps', vrep m0 P l' sps' (ps ++ [(sp_dir sp, sz)]) (A ++ [(sz, view (memv s') (sp_user sp))]) s'.
Proof.
  intros R I' Hv Hp Hs Hsz Hdom. exists (sps ++ [sp]). pose proof (vr_abs _ _ _ _ _ _ _ R) as HF.
  pose proof (vrep_replace m0 P l sps [] [] ps [] [] A [] [] s l' [sp] [(sp_dir sp, sz)] [(sz, view (memv s') (sp_user sp))] s') as Hrep.
  rewrite !app_nil_r in Hrep. apply Hrep; try done; [constructor|by constructor|unfold owned; cbn [fmap list_fmap concat]; by rewrite app_nil_r|].
  constructor; [|constructor]. split_and!; try done; apply Hsz.
Qed.
Lemma vrep_same m0 P l sps ps A s l' s' : vrep m0 P l sps ps A s -> vinv l' s' -> l' ≡ₚ l -> same_off l (memv s) (memv s') -> vrep m0 P l' sps ps A s'.
Proof.
  intros R I' Hp Hs. pose proof (vr_abs _ _ _ _ _ _ _ R) as HF. pose proof (vrep_replace m0 P l sps [] [] ps [] [] A [] [] s l' [] [] [] s') as Hrep.
  rewrite !app_nil_r in Hrep. apply Hrep; try done; constructor.
Qed.

(** How many pages the processes have. *)
Lemma upages_count (U : gmap Z (Z * Z)) N : (forall n, is_Some (U !! n) -> 0 <= n < N) -> (length (upages U) <= Z.to_nat N)%nat.
Proof.
  intros Hd. unfold upages. rewrite !length_fmap, <- (length_fmap fst), <- (length_seqZ 0 N). apply submseteq_length, NoDup_submseteq; [apply NoDup_fst_map_to_list|].
  intros n ([k u] & -> & Hk%elem_of_map_to_list)%list_elem_of_fmap. apply elem_of_seqZ. simpl. specialize (Hd k ltac:(eauto)). lia.
Qed.
Lemma owned_count m sps ps A : Forall (vspace (kpte dp) m) sps -> Forall3 (abstracts m) sps ps A -> (length (owned sps) <= need A)%nat.
Proof.
  intros Hv. induction 1 as [|sp p a sps ps A Ha HA IH]; [done|]. apply Forall_cons in Hv as [Hv Hvs]. specialize (IH Hvs).
  change (owned (sp :: sps)) with (spages sp ++ owned sps). unfold need in *. cbn [sum_list_with]. rewrite length_app. unfold spages. rewrite length_app.
  pose proof (tpages_length kend _ _ _ _ (vs_table _ _ _ _ Hv)). destruct Ha as (_ & _ & _ & Hdom). pose proof (upages_count (sp_user sp) (npages a.1) (fun n => proj1 (Hdom n))). lia.
Qed.
Lemma vrep_total m0 P l sps ps A s : vrep m0 P l sps ps A s -> (length P <= length l + need A)%nat.
Proof.
  intros R. rewrite <- (Permutation_length (vr_own _ _ _ _ _ _ _ R)), length_app. pose proof (owned_count _ _ _ _ (vr_spaces _ _ _ _ _ _ _ R) (vr_abs _ _ _ _ _ _ _ R)).
  unfold owned in *. lia.
Qed.

(** ** Every operation is simulated *)

Definition simulated (m0 : CString.mem) (P : list Z) (o : vop) (ps : list (Z * Z)) (A : list (Z * umem)) (s : vm (L := L)) : Prop :=
  exists l' sps' ps' A' s', run_vop o ps s = Ok ps' s' /\ vrep m0 P l' sps' ps' A' s' /\ abs_step (length P) m0 o A A'.

(** A new address space, unless there are too few pages. *)
Lemma setup_ok m0 P l sps ps A s : vrep m0 P l sps ps A s -> exists d l' sps' s', setupkvm kend data s = Ok d s' /\
  (d <> 0 /\ vrep m0 P l' sps' (ps ++ [(d, 0)]) (A ++ [(0, ∅)]) s' \/ d = 0 /\ vrep m0 P l' sps' ps A s' /\ (length P <= 1026 + need A)%nat).
Proof.
  intros R. destruct (setupkvm_Ok kend Hkend dp Hdp l s (vr_inv _ _ _ _ _ _ _ R)) as (d & s1 & l1 & Hr & I1 & Hs & Hres). exists d, l1. destruct Hres as [(-> & Hp & Hlen)|(T & Hd & Hv & Hp)].
  - exists sps, s1. split; [done|]. right. split_and!; [done|by eapply vrep_same|]. pose proof (vrep_total _ _ _ _ _ _ _ R). lia.
  - destruct (vrep_add m0 P l sps ps A s l1 (mkSpace d T ∅) 0 s1 R I1 Hv Hp Hs) as (sps' & R'); [done| |].
    { intros n. cbn [sp_user]. rewrite lookup_empty. change (npages 0) with 0. split; [by intros [? ?]|lia]. }
    exists sps', s1. split; [done|]. left. split; [done|]. cbn [sp_user sp_dir] in R'. unfold view in R'. by rewrite fmap_empty in R'.
Qed.
Lemma sim_setup m0 P l sps ps A s : vrep m0 P l sps ps A s -> simulated m0 P VSetup ps A s.
Proof.
  intros R. destruct (setup_ok _ _ _ _ _ _ _ R) as (d & l1 & sps1 & s1 & Hr & Hres). unfold simulated. cbn [run_vop]. erewrite bind_Ok by exact Hr. destruct Hres as [[Hd%Z.eqb_neq R']|(-> & R' & Hlen)].
  - exists l1, sps1. eexists _, _, s1. rewrite Hd. split_and!; [reflexivity|exact R'|constructor].
  - exists l1, sps1, ps, A, s1. split_and!; [done|done|by constructor].
Qed.
Lemma sim_fork m0 P l sps ps A s i : vrep m0 P l sps ps A s -> vpre kend (VFork i) A -> simulated m0 P (VFork i) ps A s.
Proof.
  intros R [[sz M] Hi]. destruct (vrep_focus _ _ _ _ _ _ _ _ _ _ R Hi) as [sp F]. unfold simulated. cbn [run_vop]. rewrite (fo_proc _ _ _ _ _ _ _ _ _ _ F).
  destruct (copyuvm_Ok kend Hkend (kpte dp) dp sp l sz s Hdp (fo_size _ _ _ _ _ _ _ _ _ _ F) (fo_inv _ _ _ _ _ _ _ _ _ _ F) (fo_space _ _ _ _ _ _ _ _ _ _ F) (fo_nodup _ _ _ _ _ _ _ _ _ _ F))
    as (r & s1 & Hr & Hres); [intros n Hn; by apply (fo_dom _ _ _ _ _ _ _ _ _ _ F)|].
  erewrite bind_Ok by exact Hr. destruct Hres as [(l1 & -> & I1 & Hs & Hp & Hlen)|(l1 & T & U & Hd%Z.eqb_neq & C)].
  - exists l1, sps, ps, A, s1. split_and!; [done|by eapply vrep_same|]. eapply abs_fork_fail; [done|]. pose proof (vrep_total _ _ _ _ _ _ _ R). lia.
  - pose proof (cp_copied _ _ _ _ _ _ _ _ _ C) as Hc. cbn [sp_user] in Hc.
    destruct (vrep_add m0 P l sps ps A s l1 (mkSpace r T U) sz s1 R (cp_inv _ _ _ _ _ _ _ _ _ C) (cp_space _ _ _ _ _ _ _ _ _ C) (cp_pages _ _ _ _ _ _ _ _ _ C) (cp_same _ _ _ _ _ _ _ _ _ C)) as (sps' & R');
      [apply F| |].
    { intros n. cbn [sp_user]. specialize (Hc n). destruct (Z.leb_spec 0 n), (Z.ltb_spec n (npages sz)); cbn [andb] in Hc; try (rewrite Hc; split; [by intros [? ?]|lia]).
      destruct Hc as (p & q & f & _ & -> & _). split; [lia|eauto]. }
    exists l1, sps'. eexists _, _, s1. rewrite Hd. split_and!; [reflexivity|exact R'|]. cbn [sp_user].
    rewrite (view_copied (npages sz) (memv s) (memv s1) (sp_user sp) U Hc) by (intros n Hn; by apply (fo_dom _ _ _ _ _ _ _ _ _ _ F)).
    rewrite <- (fo_view _ _ _ _ _ _ _ _ _ _ F). by constructor.
Qed.

(** An operation that leaves the process as it is. *)
Lemma sim_idle m0 P l sps ps A s o : vrep m0 P l sps ps A s -> run_vop o ps s = Ok ps s -> abs_step (length P) m0 o A A -> simulated m0 P o ps A s.
Proof. intros R Hr Ha. by exists l, sps, ps, A, s. Qed.

Lemma npages_mono a b : a <= b -> npages a <= npages b.
Proof. intros Hab. unfold npages. apply Z.div_le_mono; lia. Qed.

(** A space grows, unless there are too few pages. *)
Lemma grow_ok m0 P l sps ps A s i d sz M newsz : vrep m0 P l sps ps A s -> A !! i = Some (sz, M) -> ps !! i = Some (d, sz) -> sz <= newsz < KERNBASE -> exists r l' sps' s', allocuvm kend d sz newsz s = Ok r s' /\
  (r = newsz /\ vrep m0 P l' sps' (<[i := (d, newsz)]> ps) (<[i := (newsz, fresh_pages (npages sz) (npages newsz) ∪ M)]> A) s' \/
   r = 0 /\ vrep m0 P l' sps' ps A s' /\ (length P <= 1026 + Z.to_nat (npages newsz - npages sz) + need A)%nat).
Proof.
  intros R Hi Hps Hge. destruct (vrep_focus _ _ _ _ _ _ _ _ _ _ R Hi) as [sp F]. pose proof (fo_size _ _ _ _ _ _ _ _ _ _ F) as Hsz. pose proof (fo_proc _ _ _ _ _ _ _ _ _ _ F) as Hps'. rewrite Hps in Hps'. injection Hps' as ->.
  pose proof (npages_mono _ _ (proj1 Hge)) as Hmono. pose proof (npages_bounds sz Hsz) as [_ Hnb].
  destruct (allocuvm_Ok kend Hkend (kpte dp) sz newsz sp l s) as (r & s1 & Hr & l1 & T & U & I1 & Hv & Hp & Hs & Hk & Hres); [lia|lia|apply F|apply F|apply F| |].
  { intros n Hnn. destruct (sp_user sp !! n) eqn:E; [|done]. pose proof (proj1 (fo_dom _ _ _ _ _ _ _ _ _ _ F n) ltac:(eauto)). lia. }
  exists r, l1. destruct Hres as [[-> Hnew]|(-> & Hdrop & Hlen)].
  - pose proof (view_new _ _ _ _ _ _ Hnew Hk) as Hview. rewrite <- (fo_view _ _ _ _ _ _ _ _ _ _ F) in Hview.
    destruct (fo_update _ _ _ _ _ _ _ _ _ _ F l1 (mkSpace (sp_dir sp) T U) newsz s1 I1 Hv eq_refl Hp Hs ltac:(lia)) as (sps' & R').
    { intros n. cbn [sp_user]. specialize (Hnew n). destruct (Z.leb_spec (npages sz) n), (Z.ltb_spec n (npages newsz)); cbn [andb] in Hnew;
        try (rewrite Hnew, (fo_dom _ _ _ _ _ _ _ _ _ _ F); lia). destruct Hnew as (p & -> & _). split; [lia|eauto]. }
    cbn [sp_user] in R'. rewrite Hview in R'. exists sps', s1. split; [done|]. by left.
  - assert (U = sp_user sp) as EU.
    { apply map_eq. intros n. rewrite (Hdrop n). destruct (Z.leb_spec (npages sz) n), (Z.ltb_spec n (npages newsz)); cbn [andb]; try done.
      destruct (sp_user sp !! n) eqn:E; [|done]. pose proof (proj1 (fo_dom _ _ _ _ _ _ _ _ _ _ F n) ltac:(eauto)). lia. }
    subst U. destruct (fo_update _ _ _ _ _ _ _ _ _ _ F l1 (mkSpace (sp_dir sp) T (sp_user sp)) sz s1 I1 Hv eq_refl Hp Hs Hsz) as (sps' & R'); [apply F|].
    cbn [sp_user] in R'. rewrite (view_frame (memv s) (memv s1)), <- (fo_view _ _ _ _ _ _ _ _ _ _ F), !list_insert_id in R' by (done || by intros p Hpu; apply Hk).
    exists sps', s1. split; [done|]. right. split_and!; [done|done|]. pose proof (vrep_total _ _ _ _ _ _ _ R). cbn [length tpages] in Hlen. lia.
Qed.
Lemma sim_grow m0 P l sps ps A s i newsz : vrep m0 P l sps ps A s -> vpre kend (VGrow i newsz) A -> simulated m0 P (VGrow i newsz) ps A s.
Proof.
  intros R [[[sz M] Hi] Hn]. destruct (vrep_focus _ _ _ _ _ _ _ _ _ _ R Hi) as [sp F]. pose proof (fo_size _ _ _ _ _ _ _ _ _ _ F) as Hsz. pose proof (fo_proc _ _ _ _ _ _ _ _ _ _ F) as Hps.
  destruct (Z.le_gt_cases KERNBASE newsz) as [Hbig|Hbig]; [|destruct (Z.lt_ge_cases newsz sz) as [Hlt|Hge]].
  - eapply sim_idle; [exact R| |by apply (abs_grow_refused _ _ A i sz M); [done|right]]. cbn [run_vop]. rewrite Hps. unfold allocuvm. by destruct (Z.leb_spec KERNBASE newsz); [|lia].
  - eapply sim_idle; [exact R| |by apply (abs_grow_refused _ _ A i sz M); [done|left]]. cbn [run_vop]. rewrite Hps. unfold allocuvm. destruct (Z.leb_spec KERNBASE newsz); [lia|].
    destruct (Z.ltb_spec newsz sz); [|lia]. rewrite bind_ret. destruct (Z.eqb_spec sz 0); [done|]. by rewrite list_insert_id.
  - destruct (grow_ok _ _ _ _ _ _ _ i _ sz M newsz R Hi Hps ltac:(lia)) as (r & l1 & sps1 & s1 & Hr & [[-> R']|(-> & R' & Hlen)]); exists l1, sps1; cbn [run_vop]; rewrite Hps; erewrite bind_Ok by exact Hr.
    + eexists _, _, s1. split; [|split; [exact R'|apply (abs_grow _ _ _ _ sz M); [done|lia]]]. unfold ret. f_equal. destruct (Z.eqb_spec newsz 0) as [->|]; [|done]. symmetry. apply list_insert_id. rewrite Hps. do 2 f_equal. lia.
    + exists ps, A, s1. split_and!; [done|done|]. apply (abs_grow_fail _ _ _ _ sz M); [done|lia|lia].
Qed.

Lemma sim_shrink m0 P l sps ps A s i newsz : vrep m0 P l sps ps A s -> vpre kend (VShrink i newsz) A -> simulated m0 P (VShrink i newsz) ps A s.
Proof.
  intros R [[[sz M] Hi] Hn]. destruct (vrep_focus _ _ _ _ _ _ _ _ _ _ R Hi) as [sp F]. pose proof (fo_size _ _ _ _ _ _ _ _ _ _ F) as Hsz. pose proof (fo_proc _ _ _ _ _ _ _ _ _ _ F) as Hps.
  destruct (Z.lt_ge_cases newsz sz) as [Hlt|Hge].
  - destruct (deallocuvm_Ok kend Hkend (kpte dp) sz newsz sp l s) as (s1 & l1 & U & Hr & I1 & Hv & Hp & Hdrop & Hs & Hk); [lia|lia|apply F|apply F|apply F|].
    destruct (fo_update _ _ _ _ _ _ _ _ _ _ F l1 (with_user sp U) newsz s1 I1 Hv eq_refl Hp Hs ltac:(lia)) as (sps' & R').
    { intros n. cbn [sp_user with_user]. rewrite (Hdrop n). pose proof (npages_mono newsz sz ltac:(lia)). pose proof (npages_bounds newsz ltac:(lia)).
      destruct (Z.leb_spec (npages newsz) n), (Z.ltb_spec n (npages sz)); cbn [andb]; [split; [by intros [? ?]|lia]|rewrite (fo_dom _ _ _ _ _ _ _ _ _ _ F n); lia..]. }
    cbn [sp_user with_user] in R'. rewrite (view_drop _ _ _ _ _ _ Hdrop Hk), <- (fo_view _ _ _ _ _ _ _ _ _ _ F) in R' by (intros n Hnn; by apply (fo_dom _ _ _ _ _ _ _ _ _ _ F)).
    exists l1, sps'. eexists _, _, s1. split; [|split; [exact R'|by apply (abs_shrink _ _ _ _ sz M)]]. cbn [run_vop]. rewrite Hps. by erewrite bind_Ok by exact Hr.
  - eapply sim_idle; [exact R| |by apply (abs_shrink_refused _ _ A i sz M)]. cbn [run_vop]. rewrite Hps. unfold deallocuvm. destruct (Z.leb_spec sz newsz); [|lia].
    rewrite bind_ret. by rewrite list_insert_id.
Qed.
Lemma sim_guard m0 P l sps ps A s i va : vrep m0 P l sps ps A s -> vpre kend (VGuard i va) A -> simulated m0 P (VGuard i va) ps A s.
Proof.
  intros R (sz & M & Hi & [x Hx] & Hva). destruct (vrep_focus _ _ _ _ _ _ _ _ _ _ R Hi) as [sp F]. pose proof (fo_proc _ _ _ _ _ _ _ _ _ _ F) as Hps.
  rewrite (fo_view _ _ _ _ _ _ _ _ _ _ F), view_lookup in Hx. destruct (sp_user sp !! (va / 4096)) as [[p f]|] eqn:E; [|done].
  destruct (clearpteu_Ok kend Hkend (kpte dp) sp (va / 4096) (va mod 4096) p f l s) as (s1 & Hr & I1 & Hv & Hs); [apply F|apply F|apply F|done|by apply Z.mod_pos_bound|].
  rewrite <- Z.div_mod in Hr by done. set (f' := Z.land f (Z.lnot PTE_U)) in *.
  assert (spages (with_user sp (<[va / 4096 := (p, f')]> (sp_user sp))) ≡ₚ spages sp) as Esp.
  { unfold spages, with_user. cbn [sp_dir sp_tabs sp_user]. f_equiv. rewrite (upages_delete _ _ _ _ E), <- insert_delete_eq. apply upages_insert. apply lookup_delete_eq. }
  destruct (fo_update _ _ _ _ _ _ _ _ _ _ F l (with_user sp (<[va / 4096 := (p, f')]> (sp_user sp))) sz s1 I1 Hv eq_refl) as (sps' & R').
  { by rewrite Esp. }
  { eapply same_off_weaken; [exact Hs|]. unfold spages. set_solver. }
  { apply F. }
  { intros n. cbn [sp_user with_user]. rewrite <- (fo_dom _ _ _ _ _ _ _ _ _ _ F n). destruct (decide (n = va / 4096)) as [->|Hne]; [|by rewrite lookup_insert_ne].
    rewrite lookup_insert_eq, E. split; eauto. }
  exists l, sps'. eexists _, _, s1. cbn [run_vop]. rewrite Hps. erewrite bind_Ok by exact Hr. split; [reflexivity|]. rewrite list_insert_id in R' by done. split; [exact R'|].
  cbn [sp_user with_user]. rewrite (view_frame (memv s) (memv s1)).
  - unfold f'. rewrite (view_clear _ _ _ _ _ E), <- (fo_view _ _ _ _ _ _ _ _ _ _ F). by constructor.
  - intros q Hq. assert (q ∈ upages (sp_user sp)) as Hqu.
    { apply upages_elem in Hq as (n & g & [[<- [= -> <-]]|[_ Hn]]%lookup_insert_Some); apply upages_elem; eauto. }
    destruct (upage_apart kend Hkend _ _ _ (fo_nodup _ _ _ _ _ _ _ _ _ _ F) Hqu). apply Hs; [|done].
    by apply (upages_mod kend Hkend _ _ _ _ (fo_space _ _ _ _ _ _ _ _ _ _ F)).
Qed.
Lemma sim_free m0 P l sps ps A s i : vrep m0 P l sps ps A s -> vpre kend (VFree i) A -> simulated m0 P (VFree i) ps A s.
Proof.
  intros R [[sz M] Hi]. destruct (vrep_focus _ _ _ _ _ _ _ _ _ _ R Hi) as [sp F].
  destruct (freevm_Ok kend Hkend (kpte dp) sp l s) as (s1 & l1 & Hr & I1 & Hp & Hs); [apply F|apply F|apply F|].
  destruct (fo_remove _ _ _ _ _ _ _ _ _ _ F l1 s1 I1 Hp Hs) as (sps' & R'). exists l1, sps'. eexists _, _, s1. cbn [run_vop]. rewrite (fo_proc _ _ _ _ _ _ _ _ _ _ F).
  erewrite bind_Ok by exact Hr. split_and!; [reflexivity|exact R'|by econstructor].
Qed.
Lemma sim_write m0 P l sps ps A s i va buf len : vrep m0 P l sps ps A s -> vpre kend (VWrite i va buf len) A -> simulated m0 P (VWrite i va buf len) ps A s.
Proof.
  intros R (Hva & Hlen & Hvl & Hbuf & sz & M & Hi & Hmap). destruct (vrep_focus _ _ _ _ _ _ _ _ _ _ R Hi) as [sp F]. pose proof (fo_proc _ _ _ _ _ _ _ _ _ _ F) as Hps.
  assert (forall x, va <= x < va + len -> user_mapped (sp_user sp) x) as Hum.
  { intros x Hx. destruct (Hmap x Hx) as (f & bs & Hf & Hfu). rewrite (fo_view _ _ _ _ _ _ _ _ _ _ F), view_lookup in Hf.
    destruct (sp_user sp !! (x / 4096)) as [[p g]|] eqn:E; [|done]. simplify_eq/=. by exists p, f. }
  destruct (copyout_Ok kend Hkend (kpte dp) sp va buf len l s) as (s1 & Hr & I1 & Hv & Hs & Hu); [apply F|apply F|apply F|done|done|done| |done|].
  { intros p k Hp Hk. assert (page_ok p) as (_ & Hkp & _); [|lia]. eapply vspace_pages_ok; [apply F|]. unfold spages. set_solver. }
  destruct (fo_update _ _ _ _ _ _ _ _ _ _ F l sp sz s1 I1 Hv eq_refl) as (sps' & R'); [done|eapply same_off_weaken; [exact Hs|]; unfold spages; set_solver|apply F|apply F|].
  exists l, sps'. eexists _, _, s1. cbn [run_vop]. rewrite Hps. erewrite bind_Ok by exact Hr. split; [reflexivity|]. rewrite list_insert_id in R' by done. split; [exact R'|].
  rewrite (view_write va (memv s) (memv s1) _ buf len Hlen Hum Hu), <- (fo_view _ _ _ _ _ _ _ _ _ _ F).
  replace (source (memv s) buf len) with (source m0 buf len); [by constructor|]. unfold source. apply list_fmap_ext. intros k z Hz. apply lookup_seqZ in Hz as [-> Hz].
  symmetry. apply (vr_low _ _ _ _ _ _ _ R). lia.
Qed.

Lemma vop_simulated m0 P l sps ps A s o : vrep m0 P l sps ps A s -> vpre kend o A -> simulated m0 P o ps A s.
Proof.
  intros R Hpre. destruct o; [by eapply sim_setup|by eapply sim_grow|by eapply sim_shrink|by eapply sim_fork|by eapply sim_guard|by eapply sim_write|by eapply sim_free].
Qed.
Lemma vops_simulated m0 P os : forall l sps ps A s, vrep m0 P l sps ps A s -> valid kend (length P) m0 os A ->
  exists l' sps' ps' A' s', run_vops os ps s = Ok ps' s' /\ vrep m0 P l' sps' ps' A' s' /\ abs_run (length P) m0 os A A'.
Proof.
  induction os as [|o os IH]; intros l sps ps A s R Hv.
  - exists l, sps, ps, A, s. split_and!; [done|done|constructor].
  - destruct Hv as [Hpre Hv]. destruct (vop_simulated _ _ _ _ _ _ _ _ R Hpre) as (l1 & sps1 & ps1 & A1 & s1 & Hr & R1 & Hs).
    destruct (IH _ _ _ _ _ R1 (Hv _ Hs)) as (l2 & sps2 & ps2 & A2 & s2 & Hr2 & R2 & Hs2). exists l2, sps2, ps2, A2, s2.
    split_and!; [cbn [run_vops]; by erewrite bind_Ok by exact Hr|done|by econstructor].
Qed.

(** The walk finds the entries of the space. *)
Lemma hw_pte_entries m sp n : vspace (kpte dp) m sp -> 0 <= n < 2 ^ 20 -> hw_pte m (sp_dir sp) n = entries (kpte dp) (sp_user sp) n.
Proof.
  intros Hv Hn. destruct (page_index n Hn) as [Hi Hj]. pose proof (vs_table _ _ _ _ Hv) as Ht. unfold hw_pte. rewrite (tb_pde _ _ _ _ _ Ht) by done.
  pose proof (tb_pte _ _ _ _ _ Ht n Hn) as Hp. destruct (sp_tabs sp !! (n / 1024)) as [t|] eqn:E; [|by rewrite Z.land_0_l].
  destruct (tb_dom _ _ _ _ _ Ht _ _ E) as [_ Hok]. by destruct (pde_present kend t Hok) as [-> ->].
Qed.
Lemma hw_page_view m sp n : vspace (kpte dp) m sp -> 0 <= n < 2 ^ 19 -> hw_page m (sp_dir sp) n = view m (sp_user sp) !! n.
Proof.
  intros Hv Hn. unfold hw_page. rewrite hw_pte_entries, entries_user, view_lookup by (done || lia). destruct (sp_user sp !! n) as [[p f]|] eqn:E; [|by rewrite Z.land_0_l].
  destruct (vs_user _ _ _ _ Hv _ _ _ E) as (_ & Hok & Hf & Ho). destruct (user_pte_bits kend Hkend p f Hok Hf Ho) as (-> & -> & -> & -> & _). done.
Qed.
Lemma Forall3_hw m sps ps A : Forall (vspace (kpte dp) m) sps -> Forall3 (abstracts m) sps ps A ->
  Forall2 (fun p a => p.2 = a.1 /\ (forall n, 0 <= n < 2 ^ 19 -> hw_page m p.1 n = a.2 !! n) /\ (forall n, 2 ^ 19 <= n < 2 ^ 20 -> hw_pte m p.1 n = kpte dp n)) ps A.
Proof.
  intros Hv. induction 1 as [|sp p a sps ps A (-> & _ & Ha & _) HA IH]; constructor; apply Forall_cons in Hv as [Hv Hvs]; [|auto]. cbn [fst snd]. split_and!; [done| |].
  - intros n Hn. rewrite Ha. by apply hw_page_view.
  - intros n Hn. rewrite hw_pte_entries by (done || lia). unfold entries. by destruct (Z.ltb_spec n (2 ^ 19)); [lia|].
Qed.
End Correct.

(** C13 Page tables give every process a private memory.  Starting from a free
    list of pages and no process, any sequence of calls of setupkvm, allocuvm,
    deallocuvm, copyuvm, clearpteu, copyout and freevm whose arguments are in
    order runs without a panic or a fault, and what the memory management unit
    finds through the page directories is what the abstract memories hold:
    new pages are zero, a copy has the same flags and bytes as its original
    and changes independently of it, copyout writes exactly its range, and
    the kernel's half is the same in every space.  Allocations fail only when
    memory is short and then change nothing.  Once all spaces are freed, the
    free list has all its pages again. *)
Theorem vm_refines {L : Type} `{Lock L} (kend dp : Z) (l : list Z) (s : vm (L := L)) (os : list vop) :
  KERNBASE < kend -> 0x80100 < dp < 0x8e000 -> vinv kend l s -> valid kend (length l) (memv s) os [] ->
  exists ps s' A l', run_vops kend dp os [] s = Ok ps s' /\ abs_run (length l) (memv s) os [] A /\ vinv kend l' s' /\ (A = [] -> l' ≡ₚ l) /\
    Forall2 (fun p a => p.2 = a.1 /\ (forall n, 0 <= n < 2 ^ 19 -> hw_page (memv s') p.1 n = a.2 !! n) /\
      (forall n, 2 ^ 19 <= n < 2 ^ 20 -> hw_pte (memv s') p.1 n = kpte dp n)) ps A.
Proof.
  intros Hkend Hdp I Hv. assert (vrep kend dp (memv s) l l [] [] [] s) as R.
  { constructor; [done|constructor|by rewrite app_nil_r|apply I|apply I|constructor|done]. }
  destruct (vops_simulated kend Hkend dp Hdp (memv s) l os l [] [] [] s R Hv) as (l' & sps & ps & A & s' & Hr & R' & Ha). exists ps, s', A, l'.
  split_and!; [done|done|apply R'| |]. 
  - intros ->. pose proof (vr_abs _ _ _ _ _ _ _ _ _ R') as HF. inversion HF; subst. pose proof (vr_own _ _ _ _ _ _ _ _ _ R') as Ho. cbn in Ho. by rewrite app_nil_r in Ho.
  - apply (Forall3_hw kend Hkend dp _ sps); apply R'.
Qed.

(** Four thousand free pages: a process is made, grown, copied, and the copy
    outlives it. *)
Lemma demo_pages : exists l s, vinv 0x80110000 l s /\ 4000 <= Z.of_nat (length l) /\
  kinit1 0x80110000 (demo_lock_state "kmem") 0x80400000 0x813a0000 demo_kmem = Ok tt (v_kmem s).
Proof.
  destruct (kinit1_Ok 0x80110000 (demo_lock_state "kmem") 0x80400000 0x813a0000 demo_kmem (demo_lock_free "kmem") ramp_ok eq_refl) as (k & l & Hr & Hk & Hl);
    [unfold KERNBASE, PHYSTOP, PGSIZE; lia..|].
  exists l, (mkVm k [] 0 0). split_and!; [done| |done].
  assert (length ((fun i : Z => (0x80400000 + 4096 * i)%Z) <$> seqZ 0 4000) <= length l)%nat as Hlen; [|rewrite length_fmap, length_seqZ in Hlen; lia].
  apply submseteq_length, NoDup_submseteq; [apply NoDup_fmap_2; [intros x y; lia|apply NoDup_seqZ]|]. intros v (i & -> & Hi%elem_of_seqZ)%list_elem_of_fmap.
  apply Hl. unfold PGSIZE. split_and!; [|lia|lia]. rewrite Z.add_mod, Z.mul_comm, Z.mod_mul by lia. done.
Qed.

Lemma demo_valid total m : 4000 <= Z.of_nat total -> valid 0x80110000 total m [VSetup; VGrow 0 8192; VFork 0; VFree 0] [].
Proof.
  intros Ht. split; [done|]. intros A Ha. inversion Ha as [A0|A0 Hf| | | | | | | | | |]; subst; [|unfold need in Hf; simpl in Hf; lia]. cbn [app].
  split; [split; [eauto|lia]|]. intros A1 Ha1. inversion Ha1; subst; simplify_eq/=; try (unfold need, npages, KERNBASE in *; simpl in *; lia).
  split; [simpl; eauto|]. intros A2 Ha2. inversion Ha2; subst; simplify_eq/=; (split; [simpl; eauto|done]).
Qed.

Lemma vm_refines_witness : exists (l : list Z) (s : vm (L := machine * spinlock)) ps s' A l',
  kinit1 0x80110000 (demo_lock_state "kmem") 0x80400000 0x813a0000 demo_kmem = Ok tt (v_kmem s) /\
  run_vops 0x80110000 0x80105 [VSetup; VGrow 0 8192; VFork 0; VFree 0] [] s = Ok ps s' /\
  abs_run (length l) (memv s) [VSetup; VGrow 0 8192; VFork 0; VFree 0] [] A /\ vinv 0x80110000 l' s'.
Proof.
  destruct demo_pages as (l & s & I & Hlen & Hk). exists l, s.
  destruct (vm_refines 0x80110000 0x80105 l s [VSetup; VGrow 0 8192; VFork 0; VFree 0]) as (ps & s' & A & l' & H1 & H2 & H3 & _);
    [reflexivity|lia|exact I|exact (demo_valid _ _ Hlen)|].
  exists ps, s', A, l'. split; [exact Hk|]. split; [exact H1|]. split; [exact H2|exact H3].
Defined.
