(* ===== verification/Mkfs.v ===== *)
(** * The image builder: mkfs.c

    The state is the image file, a sequence of sectors, and the two counters.
    The numbers of a [struct dinode] are kept as numbers: [xshort] and [xint]
    give the bytes of the disk their order, which is that of the kernel.  A
    failed assertion, and a failed call of the host (a message and
    [exit(1)]), is a [panic]; what the program prints is left out. *)

From stdpp Require Import base list strings.
From Stdlib Require Import ZArith Lia.
From S2P Require Import Prelude CacheSpec Log Fs.
Local Open Scope Z_scope.

Definition FSSIZE : Z := 1000.
Definition NINODES : Z := 200.
Definition nbitmap : Z := FSSIZE / (512 * 8) + 1.
Definition ninodeblocks : Z := NINODES / IPB + 1.
Definition nlog : Z := LOGSIZE.
Definition nmeta : Z := 2 + nlog + ninodeblocks + nbitmap.
Definition nblocks : Z := FSSIZE - nmeta.
Definition sb : superblock := mkSuperblock FSSIZE nblocks NINODES nlog 2 (2 + nlog) (2 + nlog + ninodeblocks).
Definition zeroes : block := replicate BSIZE 0.

Record mkfs := mkMkfs {
  fsfd : Z -> block;       (** sectors that were never written read as zero *)
  sectors : Z;             (** the length of the image *)
  freeinode : Z;
  freeblock : Z
}.
Definition put_freeinode (x : Z) (s : mkfs) : mkfs := mkMkfs (fsfd s) (sectors s) x (freeblock s).
Definition put_freeblock (x : Z) (s : mkfs) : mkfs := mkMkfs (fsfd s) (sectors s) (freeinode s) x.

Definition wsect (sec : Z) (buf : block) : M mkfs unit :=
  modify (fun s => mkMkfs (vput sec buf (fsfd s)) (Z.max (sectors s) (sec + 1)) (freeinode s) (freeblock s)).
Definition rsect (sec : Z) : M mkfs block :=
  let! s := gets id in
  if sec <? sectors s then ret (fsfd s sec) else panic "read".

Definition winode (inum : Z) (ip : dinode) : M mkfs unit :=
  let bn := IBLOCK inum sb in
  let! buf := rsect bn in
  wsect bn (put_dinode (slot inum) ip buf).
Definition rinode (inum : Z) : M mkfs dinode :=
  let bn := IBLOCK inum sb in
  let! buf := rsect bn in
  ret (get_dinode buf (slot inum)).

Definition ialloc (type : Z) : M mkfs Z :=
  let! inum := gets freeinode in
  modify (put_freeinode (inum + 1)) ;;;
  winode inum (mkDinode type 0 0 1 0 (replicate (NDIRECT + 1) 0)) ;;;
  ret inum.

(** The bytes of [buf] after the loop. *)
Definition mark (buf : block) (i : nat) : block :=
  <[(i / 8)%nat := u8 (Z.lor (byte_at buf (i / 8)) (Z.shiftl 1 (Z.of_nat (i mod 8))))]> buf.
Definition balloc_bits (used : nat) : block := foldl mark zeroes (seq 0 used).
Definition balloc (used : Z) : M mkfs unit :=
  if negb (used <? 512 * 8) then panic "assert" else
  wsect (sb_bmapstart sb) (balloc_bits (Z.to_nat used)).

(** [freeblock++]. *)
Definition next_block : M mkfs Z :=
  let! b := gets freeblock in
  modify (put_freeblock (b + 1)) ;;;
  ret b.

(** The block for byte [off]: the inode, and its number [x]. *)
Definition iappend_block (din : dinode) (fbn : nat) : M mkfs (dinode * Z) :=
  if (fbn <? NDIRECT)%nat then
    let! din := (if nth fbn (d_addrs din) 0 =? 0 then let! b := next_block in ret (set_addr fbn b din) else ret din) in
    ret (din, nth fbn (d_addrs din) 0)
  else
    let! din := (if nth NDIRECT (d_addrs din) 0 =? 0 then let! b := next_block in ret (set_addr NDIRECT b din) else ret din) in
    let ind := nth NDIRECT (d_addrs din) 0 in
    let! indirect := rsect ind in
    let k := (4 * (fbn - NDIRECT))%nat in
    let! indirect := (if word indirect k =? 0 then
                        let! b := next_block in
                        let indirect := put_word k b indirect in
                        wsect ind indirect ;;;
                        ret indirect
                      else ret indirect) in
    ret (din, word indirect k).

(** The loop of [iappend]; [p] is what is left to append. *)
Fixpoint iappend_loop (fuel : nat) (din : dinode) (off : Z) (p : list Z) : M mkfs (dinode * Z) :=
  match fuel with
  | O => nofuel
  | S fuel =>
      if (length p =? 0)%nat then ret (din, off) else
      let fbn := off / 512 in
      if negb (fbn <? MAXFILE) then panic "assert" else
      let! r := iappend_block din (Z.to_nat fbn) in
      let n1 := Z.to_nat (Z.min (Z.of_nat (length p)) ((fbn + 1) * 512 - off)) in
      let! buf := rsect r.2 in
      wsect r.2 (splice (Z.to_nat (off - fbn * 512)) (take n1 p) buf) ;;;
      iappend_loop fuel r.1 (off + Z.of_nat n1) (drop n1 p)
  end.
Definition iappend (inum : Z) (p : list Z) : M mkfs unit :=
  let! din := rinode inum in
  let! r := iappend_loop (S (length p)) din (d_size din) p in
  winode inum (set_size r.2 r.1).

(** The loop that clears the image, and the super block. *)
Definition clear : M mkfs unit := foreach (seq 0 (Z.to_nat FSSIZE)) (fun i => wsect (Z.of_nat i) zeroes).
Definition super : block :=
  put_words 0 [sb_size sb; sb_nblocks sb; sb_ninodes sb; sb_nlog sb; sb_logstart sb; sb_inodestart sb; sb_bmapstart sb] zeroes.

(** An argument: its name, and what the calls of [read] on it return, if it
    can be opened. *)
Record argument := mkArg { arg_name : list Z; arg_reads : option (list (list Z)) }.
Definition skip_underscore (name : list Z) : list Z :=
  match name with c :: name' => if c =? 95 then name' else name | [] => [] end.
Definition add_file (rootino : Z) (a : argument) : M mkfs unit :=
  if existsb (fun c => c =? 47) (arg_name a) then panic "assert" else
  match arg_reads a with
  | None => panic "open"
  | Some chunks =>
      let! inum := ialloc T_FILE in
      iappend rootino (mk_dirent inum (name_field (skip_underscore (arg_name a)))) ;;;
      foreach chunks (fun buf => iappend inum buf)
  end.

(** The entries are zero but for the number and the name. *)
Definition main (args : list argument) : M mkfs unit :=
  modify (put_freeblock nmeta) ;;;
  clear ;;;
  wsect 1 super ;;;
  let! rootino := ialloc T_DIR in
  if negb (rootino =? ROOTINO) then panic "assert" else
  iappend rootino (mk_dirent rootino (name_field [46])) ;;;
  iappend rootino (mk_dirent rootino (name_field [46; 46])) ;;;
  foreach args (add_file rootino) ;;;
  let! din := rinode rootino in
  let off := (d_size din / 512 + 1) * 512 in
  winode rootino (set_size off din) ;;;
  let! used := gets freeblock in
  balloc used.

(** The program starts with an empty image. *)
Definition start : mkfs := mkMkfs (fun _ => zeroes) 0 1 0.
