(* ===== verification/MkfsCorrect.v ===== *)
(** * mkfs writes a good file system

    The image always satisfies the invariant of the file system once the blocks
    below [freeblock] are marked as used, which the last step does.  Each
    [iappend] is a write at the end of a file. *)

From stdpp Require Import base gmap list strings.
From Stdlib Require Import ZArith Lia.
From S2P Require Import Prelude Spinlock CString Sync Sleeplock CacheSpec Log BlockSpec Fs Mkfs FsLayout FsInv FsBlocks FsFile FsRw FsCorrect FsNames FsDir FsPath FsTheorems FsTriple FsTree FsConsistent FsPreserve.
Local Open Scope Z_scope.
Implicit Types (v : Z -> block) (D T : Z -> dinode) (s : mkfs).

Lemma mkfs_layout : layout sb.
Proof. split; vm_compute; [done|done|done|]. split; [discriminate|done]. Qed.
Lemma sb_bitmap b : 0 <= b < 4096 -> BBLOCK b sb = 58.
Proof. intros Hb. unfold BBLOCK. rewrite Z.div_small by (unfold BPB; lia). done. Qed.

(** ** The bitmap *)

Definition marked v (fb : Z) : Z -> block := vput 58 (balloc_bits (Z.to_nat fb)) v.

Lemma length_bits n : length (balloc_bits n) = BSIZE.
Proof.
  unfold balloc_bits. induction n as [|n IH]; [apply length_replicate|]. rewrite seq_S, foldl_app. cbn [foldl]. unfold mark at 1. by rewrite length_insert.
Qed.
Lemma mark_bit n v : (n < 4096)%nat -> forall k, marked v (Z.of_nat n + 1) k = set_bit sb (Z.of_nat n) (marked v (Z.of_nat n)) k.
Proof.
  intros Hn k. unfold set_bit, marked. rewrite sb_bitmap by lia. rewrite vput_eq. destruct (decide (k = 58)) as [->|Hk]; [|by rewrite !vput_ne]. rewrite !vput_eq. rewrite Nat2Z.id.
  replace (Z.to_nat (Z.of_nat n + 1)) with (Datatypes.S n) by lia. unfold balloc_bits. rewrite seq_S, foldl_app. cbn [foldl Nat.add]. fold (balloc_bits n). unfold mark, set_map_byte, map_byte, bit_mask.
  rewrite (Z.mod_small (Z.of_nat n) BPB) by (unfold BPB; lia). assert (Z.to_nat (Z.of_nat n / 8) = (n / 8)%nat) as -> by (rewrite Z2Nat.inj_div, Nat2Z.id by lia; done). rewrite Nat2Z.inj_mod. done.
Qed.
Lemma mark_next fb v : 0 <= fb < 4096 -> forall k, marked v (fb + 1) k = set_bit sb fb (marked v fb) k.
Proof. intros Hfb. rewrite <- (Z2Nat.id fb) by lia. apply mark_bit. lia. Qed.
Lemma used_ext v v' b : v' (BBLOCK b sb) = v (BBLOCK b sb) -> used sb v' b = used sb v b.
Proof. intros E. unfold used. by rewrite E. Qed.
Lemma used_marked n v b : (n <= 4096)%nat -> 0 <= b < 4096 -> used sb (marked v (Z.of_nat n)) b = (b <? Z.of_nat n).
Proof.
  intros Hn Hb. induction n as [|n IH].
  - unfold used. rewrite sb_bitmap by done. unfold marked. rewrite vput_eq. unfold map_byte, byte_at. change (balloc_bits (Z.to_nat (Z.of_nat 0))) with (replicate BSIZE 0). rewrite nth_zeros, Z.testbit_0_l. symmetry. apply Z.ltb_ge. lia.
  - rewrite Nat2Z.inj_succ, <- Z.add_1_r. rewrite (used_ext (set_bit sb (Z.of_nat n) (marked v (Z.of_nat n)))) by (apply mark_bit; lia).
    rewrite used_set_bit; [|lia|lia|rewrite sb_bitmap by lia; unfold marked; rewrite vput_eq; apply length_bits]. rewrite IH by lia. destruct (decide (b = Z.of_nat n)) as [->|Hne]; [symmetry; apply Z.ltb_lt; lia|].
    destruct (Z.ltb_spec b (Z.of_nat n)), (Z.ltb_spec b (Z.of_nat n + 1)); lia.
Qed.
Lemma inv_pointwise v v' D P : (forall n, v' n = v n) -> inv sb v D P -> inv sb v' D P.
Proof.
  intros E I. apply (inv_frame sb mkfs_layout v); [done| |intros b _; by apply used_ext]. split; [by rewrite E|intros n _; by rewrite E|intros i _ _; by rewrite E].
Qed.
(** [freeblock++]. *)
Lemma inv_next v D P fb : inv sb (marked v fb) D P -> v fb = zeroes -> 59 <= fb < 1000 -> inv sb (marked v (fb + 1)) D (fb :: P) /\ fb ∉ owned sb (marked v fb) D /\ fb ∉ P.
Proof.
  intros I Hz Hfb. assert (used sb (marked v fb) fb = false) as Hu. { replace fb with (Z.of_nat (Z.to_nat fb)) by lia. rewrite used_marked by lia. apply Z.ltb_ge. lia. }
  destruct (inv_balloc sb mkfs_layout _ D P fb I ltac:(change (sb_size sb) with 1000; lia) Hu) as (_ & Ho & HP & I'). split_and!; [|done|done]. eapply inv_pointwise; [|exact I'].
  intros n. rewrite mark_next by lia. destruct (decide (n = fb)) as [->|Hne]; [|by rewrite vput_ne]. rewrite vput_eq. unfold set_bit. rewrite sb_bitmap by lia. rewrite vput_ne by lia. unfold marked. rewrite vput_ne by lia. exact Hz.
Qed.

Lemma ptr_below v D fb i b : inv sb (marked v fb) D [] -> 0 <= i < 200 -> 59 <= fb <= 1000 -> b ∈ ptrs (marked v fb) (D i) -> b < fb.
Proof.
  intros I Hi Hf Hb. destruct (inv_ptr sb _ D [] i b I Hi Hb) as (Hr & Hu & _). change (datastart sb) with 59 in Hr. change (sb_size sb) with 1000 in Hr.
  replace fb with (Z.of_nat (Z.to_nat fb)) in Hu by lia. rewrite used_marked in Hu by lia. apply Z.ltb_lt in Hu. lia.
Qed.

(** ** Appending to a file *)

Notation disk s := (marked (fsfd s) (freeblock s)).
(** The last block of a file is zero after its end. *)
Definition slack v (d : dinode) : Prop := forall k, (Z.to_nat (d_size d) <= k < 512 * nblocks (d_size d))%nat -> fbyte v d k = 0.
(** The image in the making: [D] are the inodes, [T] those on the disk. *)
Record building s D T : Prop := {
  bl_inv : inv sb (disk s) D [];
  bl_dino : forall j, 0 <= j < 200 -> dino sb (fsfd s) j = T j;
  bl_zero : forall b, freeblock s <= b < 1000 -> fsfd s b = zeroes;
  bl_block : 59 <= freeblock s;
  bl_sectors : sectors s = 1000;
  bl_slack : forall j, 0 <= j < 200 -> slack (disk s) (D j)
}.

Lemma marked_ne v fb n : n <> 58 -> marked v fb n = v n.
Proof. intros Hn. unfold marked. by apply vput_ne. Qed.
Lemma vput_marked n x v fb : n <> 58 -> forall k, marked (vput n x v) fb k = vput n x (marked v fb) k.
Proof.
  intros Hn k. unfold marked. destruct (decide (k = 58)) as [->|Hk]; [by rewrite vput_eq, vput_ne, vput_eq|]. rewrite vput_ne by done. destruct (decide (k = n)) as [->|Hkn]; [by rewrite !vput_eq|by rewrite !vput_ne].
Qed.
Lemma rsect_ok s n : n < sectors s -> rsect n s = Ok (fsfd s n) s.
Proof. intros Hn. unfold rsect. rewrite bind_gets. cbn [id]. by rewrite (proj2 (Z.ltb_lt _ _) Hn). Qed.

Lemma fblk_pointwise v v' d m : (forall n, v' n = v n) -> fblk v' d m = fblk v d m.
Proof. intros E. unfold fblk. by rewrite E. Qed.
Lemma grown_pointwise i k e v0 D v v' D' : (forall n, v' n = v n) -> grown sb i k e v0 D v D' -> grown sb i k e v0 D v' D'.
Proof.
  intros E [A1 A2 A3 A4 A5 A6]. split; try done; intros; rewrite ?(fblk_pointwise v v') by done; rewrite ?E; eauto.
Qed.

(** What [iappend_block] has done: the file has the blocks for a size of [e],
    zero from the old end on. *)
Record extended_to (i e : Z) s D s' D' : Prop := {
  ex_inv : inv sb (disk s') D' [];
  ex_prepared : prepared sb i e (disk s) D (disk s') D';
  ex_zero : forall b, freeblock s' <= b < 1000 -> fsfd s' b = zeroes;
  ex_table : forall n, 1 <= n < 58 -> fsfd s' n = fsfd s n;
  ex_sectors : sectors s' = sectors s;
  ex_inode : freeinode s' = freeinode s;
  ex_block : freeblock s' = freeblock s + Z.of_nat (nptrs (nblocks e) - nptrs (nblocks (d_size (D i))));
  ex_new : forall k, (Z.to_nat (d_size (D i)) <= k < 512 * nblocks e)%nat -> fbyte (disk s') (D' i) k = 0
}.

Section Append.
Context s D T (i : Z) (B : building s D T) (Hi : 0 <= i < 200) (z : Z).
Notation din := (set_size z (D i)).
Notation size := (d_size (D i)).
Notation u := (disk s).
Lemma app_ptr b : b ∈ ptrs u (D i) -> 59 <= b < 1000 /\ u b = fsfd s b.
Proof. intros Hb. destruct (inv_ptr sb u D [] i b (bl_inv _ _ _ B) Hi Hb) as (Hr & _). change (datastart sb) with 59 in Hr. change (sb_size sb) with 1000 in Hr. split; [done|]. apply marked_ne. lia. Qed.
Lemma app_size : 0 <= size.
Proof. destruct (iv_wf _ _ _ _ (bl_inv _ _ _ B) i Hi) as [(_ & [Hs _] & _) _ _ _]. done. Qed.
Lemma app_addr k : nth k (d_addrs din) 0 = addr (D i) k.
Proof. done. Qed.
Lemma app_indirect : (NDIRECT < nblocks size)%nat -> 59 <= addr (D i) NDIRECT < 1000 /\ u (addr (D i) NDIRECT) = fsfd s (addr (D i) NDIRECT).
Proof. intros Hn. apply app_ptr, elem_of_ptrs. by right. Qed.

Lemma app_below b : freeblock s <= 1000 -> b ∈ ptrs u (D i) -> b < freeblock s.
Proof. intros Hf. pose proof (bl_block _ _ _ B). eapply ptr_below; [apply B|done|lia]. Qed.
(** The block is there. *)
Lemma block_there fbn : (fbn < nblocks size)%nat -> iappend_block din fbn s = Ok (din, fblk u (D i) fbn) s.
Proof.
  intros Hn. assert (59 <= fblk u (D i) fbn) as Hb by (apply app_ptr, elem_of_ptrs; left; by exists fbn). unfold iappend_block, fblk in *. rewrite app_addr. destruct (Nat.ltb_spec fbn NDIRECT) as [Hlt|Hge].
  - rewrite (proj2 (Z.eqb_neq _ _)) by lia. rewrite bind_ret. unfold ret. by rewrite app_addr.
  - destruct app_indirect as [Ha Eu]; [lia|]. rewrite app_addr, (proj2 (Z.eqb_neq (addr (D i) NDIRECT) 0)) in * by lia. rewrite bind_ret. cbv zeta. rewrite app_addr. erewrite bind_Ok by (apply rsect_ok; rewrite (bl_sectors _ _ _ B); lia).
    rewrite Eu in Hb. rewrite (proj2 (Z.eqb_neq (word _ _) 0)) by lia. rewrite bind_ret, Eu. done.
Qed.
Lemma extend_inside e : nblocks e = nblocks size -> uint32 e -> extended_to i e s D s (fset i (set_size e (D i)) D).
Proof.
  intros He Hu. pose proof (iv_wf _ _ _ _ (bl_inv _ _ _ B) i Hi) as W. destruct (dwf_set_size u (D i) e W He Hu) as [W' Hp]. split; try done.
  - apply (inv_set sb mkfs_layout); [apply B|done|done|done].
  - split; rewrite ?fset_eq; try done. intros j Hj. by rewrite fset_ne.
  - apply B.
  - rewrite He, Nat.sub_diag. lia.
  - intros k Hk. rewrite He in Hk. rewrite fset_eq. by apply (bl_slack _ _ _ B i Hi k).
Qed.

(** A new block at the end. *)
Lemma extend_grown e s' D' : size mod 512 = 0 -> nblocks e = Datatypes.S (nblocks size) -> inv sb (disk s') D' [] -> grown sb i (nblocks size) e u D (disk s') D' ->
  (forall b, freeblock s' <= b < 1000 -> fsfd s' b = zeroes) -> (forall n, 1 <= n < 58 -> fsfd s' n = fsfd s n) -> sectors s' = sectors s -> freeinode s' = freeinode s ->
  freeblock s' = freeblock s + Z.of_nat (grow_cost (nblocks size)) -> extended_to i e s D s' D'.
Proof.
  intros Hm He I' G H1 H2 H3 H4 H5. pose proof app_size as Hs. split; try done.
  - apply grown_prepared; [done|lia|done].
  - rewrite He, nptrs_S, H5. lia.
  - intros k Hk. rewrite He in Hk. assert (k / 512 = nblocks size)%nat as Ek.
    { assert (512 * nblocks size = Z.to_nat size)%nat as Ez by (unfold nblocks; Z.to_euclidean_division_equations; lia). symmetry. apply (Nat.div_unique k 512 _ (k - 512 * nblocks size)); lia. }
    unfold fbyte. rewrite Ek, (gr_new _ _ _ _ _ _ _ _ G). unfold byte_at, FsInv.zeros. apply nth_zeros.
Qed.
Section New.
Context (e : Z) (Hm : size mod 512 = 0) (He : nblocks e = Datatypes.S (nblocks size)) (Hu : uint32 e) (Hk : (nblocks size < NDIRECT + NINDIRECT)%nat).
Notation k := (nblocks size).
Notation fb := (freeblock s).
Lemma app_zero b : fb <= b < 1000 -> fsfd s b = zeroes.
Proof. apply B. Qed.
Lemma app_others j b : 0 <= j < 200 -> b ∈ ptrs u (D j) -> 59 <= b < 1000.
Proof. intros Hj Hb. by destruct (inv_ptr sb u D [] j b (bl_inv _ _ _ B) Hj Hb) as (Hr & _). Qed.
Lemma next_block_ok (s0 : mkfs) : next_block s0 = Ok (freeblock s0) (put_freeblock (freeblock s0 + 1) s0).
Proof. done. Qed.
(** The invariant with a pending block at the end of what was used. *)
Lemma app_next : fb < 1000 -> inv sb (marked (fsfd s) (fb + 1)) D [fb] /\ fb ∉ owned sb u D.
Proof. intros Hfb. pose proof (bl_block _ _ _ B). destruct (inv_next (fsfd s) D [] fb (bl_inv _ _ _ B) (app_zero fb ltac:(lia))) as (I & Ho & _); [lia|done]. Qed.
(** A change of blocks that no file owns. *)
Lemma grown_from v' d' : d' = set_size e (set_addrs (d_addrs d') (D i)) -> (forall n, n ∈ owned sb u D -> v' n = u n) -> (forall m, (m < k)%nat -> fblk v' d' m = fblk u (D i) m) -> v' (fblk v' d' k) = zeroes ->
  (forall n, 32 <= n < 58 -> v' n = u n) -> grown sb i k e u D v' (fset i d' D).
Proof.
  intros Hd Hkeep Hold Hnew Htab. split; rewrite ?fset_eq; try done.
  - intros j Hj. by rewrite fset_ne.
  - intros j c Hj Hj' Hc. by eapply Hkeep, ptrs_owned.
  - intros m Hm'. split; [by apply Hold|by apply Hkeep, fblk_owned].
Qed.
Lemma owned_range n : n ∈ owned sb u D -> 59 <= n < 1000.
Proof. intros (j & Hj & Hn)%elem_of_owned. by eapply app_others. Qed.

Lemma block_direct : (k < NDIRECT)%nat -> fb < 1000 -> exists s' D', iappend_block din k s = Ok (set_size z (D' i), fblk (disk s') (D' i) k) s' /\ extended_to i e s D s' D'.
Proof.
  intros Hlt Hfb. destruct (app_next Hfb) as [I Ho]. pose proof (iv_wf _ _ _ _ (bl_inv _ _ _ B) i Hi) as [Hok _ Hf _]. assert (length (d_addrs (D i)) = 13%nat) as Hlen by apply Hok.
  destruct (inv_grow_direct sb mkfs_layout (marked (fsfd s) (fb + 1)) D [] i Hi e Hu He fb I Hlt) as (I' & Hold & Hnew). set (d' := set_size e (set_addr k fb (D i))) in *.
  exists (put_freeblock (fb + 1) s), (fset i d' D). assert (fblk (disk (put_freeblock (fb + 1) s)) (fset i d' D i) k = fb) as Hb by (rewrite fset_eq; exact Hnew).
  assert (addr (D i) k = 0) as Ha. { specialize (Hf k ltac:(lia)). unfold fblk in Hf. by rewrite (proj2 (Nat.ltb_lt _ _) Hlt) in Hf. } split.
  - rewrite Hb, fset_eq. unfold iappend_block. rewrite (proj2 (Nat.ltb_lt _ _) Hlt), app_addr, Ha. cbn [Z.eqb]. rewrite bind_assoc. erewrite bind_Ok by apply next_block_ok. rewrite bind_ret. unfold ret. do 2 f_equal. cbn [set_addr d_addrs set_size].
    rewrite nth_lookup, list_lookup_insert_eq by (rewrite Hlen; unfold NDIRECT in *; lia). done.
  - eapply extend_grown; [done|done|exact I'| |cbn; intros b Hb'; apply app_zero; lia|done|done|done|cbn; unfold grow_cost; rewrite decide_False by (unfold NDIRECT in *; lia); lia].
    apply grown_from; [done| | |rewrite <- (fset_eq i d' D), Hb; cbn; rewrite marked_ne by (pose proof (bl_block _ _ _ B); lia); apply app_zero; lia|].
    + intros n Hn%owned_range. cbn. by rewrite !marked_ne by lia.
    + intros m Hm'. cbn [fsfd freeblock put_freeblock]. rewrite (Hold m Hm'). apply fblk_same; [intros Hind; lia|]. intros _. apply (iv_wf _ _ _ _ (bl_inv _ _ _ B) i Hi). lia.
    + intros n Hn. cbn. by rewrite !marked_ne by lia.
Qed.

(** The indirect block and its first entry. *)
Lemma block_first : k = NDIRECT -> fb + 1 < 1000 -> exists s' D', iappend_block din k s = Ok (set_size z (D' i), fblk (disk s') (D' i) k) s' /\ extended_to i e s D s' D'.
Proof.
  intros Hlt Hfb. destruct (app_next ltac:(lia)) as [I1 Ho]. pose proof (bl_block _ _ _ B) as H59. pose proof (iv_wf _ _ _ _ (bl_inv _ _ _ B) i Hi) as [Hok _ Hf Hind]. assert (length (d_addrs (D i)) = 13%nat) as Hlen by apply Hok.
  destruct (inv_next (fsfd s) D [fb] (fb + 1) I1 (app_zero (fb + 1) ltac:(lia))) as (I2 & Ho2 & _); [lia|]. replace (fb + 1 + 1) with (fb + 2) in I2 by lia.
  set (a := fb) in *. set (b := fb + 1) in *. set (y := put_word 0 b zeroes). set (v2 := marked (fsfd s) (fb + 2)) in *.
  assert (inv sb (vput a y v2) D [b; a]) as I3.
  { apply (inv_block sb mkfs_layout); [done|change (datastart sb) with 59; change (sb_size sb) with 1000; lia| |unfold y; by rewrite length_put_word]. intros Hin. pose proof (inv_NoDup _ _ _ _ I2) as Hnd.
    apply NoDup_app in Hnd as (_ & Hd & _). apply (Hd a Hin). by right; left. }
  destruct (inv_grow_first sb mkfs_layout _ D [] i Hi e Hu He a b I3 Hlt) as (I4 & Hold & Hnew).
  { intros n Hn. rewrite vput_eq. unfold y. destruct (decide (n = 0%nat)) as [->|].
    - rewrite word_put_eq by (unfold zeroes; rewrite length_replicate; unfold BSIZE; lia). apply u32_id. unfold uint32. lia.
    - rewrite word_put_ne by (unfold zeroes; rewrite ?length_replicate; unfold BSIZE; lia). apply word_zeros. }
  set (d' := set_size e (set_addr NDIRECT a (D i))) in *. exists (mkMkfs (vput a y (fsfd s)) 1000 (freeinode s) (fb + 2)), (fset i d' D).
  assert (forall n, disk (mkMkfs (vput a y (fsfd s)) 1000 (freeinode s) (fb + 2)) n = vput a y v2 n) as Ed by (apply vput_marked; lia). split.
  - rewrite fset_eq, (fblk_pointwise _ _ d' k Ed), Hnew. unfold iappend_block. rewrite Hlt, Nat.ltb_irrefl, app_addr, Hind by lia. cbn [Z.eqb]. rewrite bind_assoc. erewrite bind_Ok by apply next_block_ok. rewrite bind_ret.
    cbn [set_addr d_addrs set_size]. rewrite nth_lookup, list_lookup_insert_eq by (rewrite Hlen; unfold NDIRECT in *; lia). cbn [default id]. erewrite bind_Ok by (apply rsect_ok; cbn; rewrite (bl_sectors _ _ _ B); lia).
    cbn [fsfd put_freeblock]. rewrite (app_zero fb) by lia. rewrite Nat.sub_diag, (word_zeros _ : word zeroes _ = 0). cbn [Z.eqb]. rewrite !bind_assoc. erewrite bind_Ok by apply next_block_ok. cbn [freeblock put_freeblock]. unfold wsect. rewrite bind_assoc, bind_modify, bind_ret. unfold ret. cbn [fsfd sectors freeinode freeblock put_freeblock].
    fold b y. change (4 * 0)%nat with 0%nat. assert (word y 0 = b) as Hy. { unfold y. rewrite word_put_eq by (unfold zeroes; rewrite length_replicate; unfold BSIZE; lia). apply u32_id. unfold uint32. lia. }
    fold y. rewrite Hy. rewrite Z.max_l by (rewrite (bl_sectors _ _ _ B); lia). rewrite (bl_sectors _ _ _ B). replace (b + 1) with (fb + 2) by lia. done.
  - eapply extend_grown; [done|done|by eapply inv_pointwise| | | |by cbn; rewrite (bl_sectors _ _ _ B)|done|cbn; unfold grow_cost; rewrite decide_True by done; lia].
    + eapply grown_pointwise; [exact Ed|]. apply grown_from; [done| | |rewrite Hnew, vput_ne by lia; unfold v2; rewrite marked_ne by lia; apply app_zero; lia|].
      * intros n Hn. rewrite vput_ne by (by intros ->). apply owned_range in Hn. unfold v2. by rewrite !marked_ne by lia.
      * intros m Hm'. rewrite Hold by done. unfold fblk. destruct (Nat.ltb_spec m NDIRECT); [done|lia].
      * intros n Hn. rewrite vput_ne by lia. unfold v2. by rewrite !marked_ne by lia.
    + cbn. intros c Hc. rewrite vput_ne by lia. apply app_zero. lia.
    + cbn. intros n Hn. by rewrite vput_ne by lia.
Qed.

(** A later entry of the indirect block. *)
Lemma block_indirect : (NDIRECT < k)%nat -> fb < 1000 -> exists s' D', iappend_block din k s = Ok (set_size z (D' i), fblk (disk s') (D' i) k) s' /\ extended_to i e s D s' D'.
Proof.
  intros Hlt Hfb. destruct (app_next Hfb) as [I1 Ho]. pose proof (bl_block _ _ _ B) as H59. pose proof (iv_wf _ _ _ _ (bl_inv _ _ _ B) i Hi) as [Hok _ Hf Hind]. destruct (app_indirect Hlt) as [Ha Eu]. pose proof (app_below (addr (D i) NDIRECT) ltac:(lia) ltac:(apply elem_of_ptrs; by right)) as Hbelow.
  destruct (inv_grow_indirect sb mkfs_layout _ D [] i Hi e Hu He fb I1 ltac:(lia)) as (I4 & Hold & Hnew). set (a := addr (D i) NDIRECT) in *.
  assert (marked (fsfd s) (fb + 1) a = fsfd s a) as Ea by (apply marked_ne; lia). rewrite Ea in I4, Hold, Hnew. set (w := (4 * (k - NDIRECT))%nat) in *. set (y := put_word w fb (fsfd s a)) in *.
  assert (length (fsfd s a) = BSIZE) as Hla. { rewrite <- Eu. apply (iv_len _ _ _ _ (bl_inv _ _ _ B)). unfold fs_block. change (sb_size sb) with 1000. change (sb_inodestart sb) with 32. lia. }
  assert (word (fsfd s a) w = 0) as Hw.
  { specialize (Hf k ltac:(lia)). unfold fblk in Hf. rewrite (proj2 (Nat.ltb_ge _ _)) in Hf by lia. fold a in Hf. rewrite (proj2 (Z.eqb_neq a 0)), Eu in Hf by lia. exact Hf. }
  assert (word y w = fb) as Hy. { unfold y. rewrite word_put_eq by (rewrite Hla; unfold w, BSIZE, NDIRECT, NINDIRECT in *; lia). apply u32_id. unfold uint32. lia. }
  set (d' := set_size e (D i)) in *. exists (mkMkfs (vput a y (fsfd s)) 1000 (freeinode s) (fb + 1)), (fset i d' D).
  assert (forall n, disk (mkMkfs (vput a y (fsfd s)) 1000 (freeinode s) (fb + 1)) n = vput a y (marked (fsfd s) (fb + 1)) n) as Ed by (apply vput_marked; lia). split.
  - rewrite fset_eq, (fblk_pointwise _ _ d' k Ed), Hnew. unfold iappend_block. rewrite (proj2 (Nat.ltb_ge _ _)), app_addr by lia. fold a. rewrite (proj2 (Z.eqb_neq a 0)) by lia. rewrite bind_ret, app_addr. fold a. cbv zeta.
    erewrite bind_Ok by (apply rsect_ok; rewrite (bl_sectors _ _ _ B); lia). fold w. rewrite Hw. cbn [Z.eqb]. rewrite !bind_assoc. erewrite bind_Ok by apply next_block_ok. unfold wsect. rewrite bind_assoc, bind_modify, bind_ret. unfold ret. cbn [fsfd sectors freeinode freeblock put_freeblock].
    fold y. rewrite Hy. rewrite Z.max_l by (rewrite (bl_sectors _ _ _ B); lia). rewrite (bl_sectors _ _ _ B). done.
  - eapply extend_grown; [done|done|by eapply inv_pointwise| | | |by cbn; rewrite (bl_sectors _ _ _ B)|done|cbn; unfold grow_cost; rewrite decide_False by lia; lia].
    + eapply grown_pointwise; [exact Ed|]. assert (forall n, 32 <= n -> n <> 58 -> n <> a -> vput a y (marked (fsfd s) (fb + 1)) n = u n) as Hkeep by (intros n ? ? ?; by rewrite vput_ne, !marked_ne by lia).
      split; rewrite ?fset_eq; try done.
      * intros j Hj. by rewrite fset_ne.
      * intros j c Hj Hj' Hc. pose proof (app_others j c Hj Hc). apply Hkeep; [lia..|]. intros ->. apply Hj', (ptrs_disjoint sb u D [] j i a); [apply B|done..|apply elem_of_ptrs; by right].
      * intros m Hm'. rewrite Hold by done. split; [unfold fblk; fold a; by rewrite Ea, Eu|].
        pose proof (fblk_owned sb u D i m Hi Hm') as Hr%owned_range. apply Hkeep; [lia..|]. intros E'. by eapply (data_not_indirect sb u D [] i m (bl_inv _ _ _ B) Hi Hm' i Hi); [lia|].
      * rewrite Hnew, vput_ne, marked_ne by lia. apply app_zero. lia.
      * intros n Hn. apply Hkeep; [change (sb_inodestart sb) with 32 in Hn; change (sb_bmapstart sb) with 58 in Hn; lia..].
    + cbn. intros c Hc. rewrite vput_ne by lia. apply app_zero. lia.
    + cbn. intros n Hn. by rewrite vput_ne by lia.
Qed.
Lemma block_new : fb + Z.of_nat (grow_cost k) <= 1000 -> exists s' D', iappend_block din k s = Ok (set_size z (D' i), fblk (disk s') (D' i) k) s' /\ extended_to i e s D s' D'.
Proof.
  unfold grow_cost. destruct (decide (k = NDIRECT)) as [E|Hne]; intros Hfb; [apply block_first; [done|lia]|]. destruct (decide (k < NDIRECT)%nat); [apply block_direct|apply block_indirect]; lia.
Qed.
End New.
End Append.

(** ** The loop *)

(** The bytes [l] have been appended to file [i]. *)
Record appended (i : Z) (l : list Z) s D T s' D' : Prop := {
  ad_building : building s' D' T;
  ad_wrote : wrote sb i (d_size (D i)) l (disk s) D (disk s') D';
  ad_low : forall n, 1 <= n < 58 -> fsfd s' n = fsfd s n;
  ad_inode : freeinode s' = freeinode s;
  ad_block : freeblock s' = freeblock s + Z.of_nat (nptrs (nblocks (d_size (D i) + Z.of_nat (length l))) - nptrs (nblocks (d_size (D i))))
}.
Lemma fbyte_pointwise v v' d k : (forall n, v' n = v n) -> fbyte v' d k = fbyte v d k.
Proof. intros E. unfold fbyte. by rewrite (fblk_pointwise v v'), E by done. Qed.
Lemma wrote_pointwise i off l v D v1 v2 D' : (forall n, v2 n = v1 n) -> wrote sb i off l v D v1 D' -> wrote sb i off l v D v2 D'.
Proof. intros E [A1 A2 A3 A4 A5 A6]. split; try done; intros; rewrite ?(fbyte_pointwise v1 v2) by done; rewrite ?E; eauto. Qed.
Lemma prepared_wrote_at i off l v D v' D' n : 0 <= i < 200 -> 0 <= off <= d_size (D i) -> l <> [] -> off mod 512 + Z.of_nat (length l) <= 512 -> n = Z.to_nat (off / 512) ->
  let e := Z.max (d_size (D i)) (off + Z.of_nat (length l)) in let b := fblk v' (D' i) n in
  inv sb v D [] -> inv sb v' D' [] -> prepared sb i e v D v' D' -> (n < nblocks e)%nat ->
  wrote sb i off l v D (vput b (splice (Z.to_nat (off mod 512)) l (v' b)) v') D'.
Proof. intros Hi. apply (prepared_wrote sb mkfs_layout [mkInode 1 i 0 (mkSleeplock false EmptyString 0 0) false (D i)] 0 (mkInode 1 i 0 (mkSleeplock false EmptyString 0 0) false (D i)) i). by split. Qed.
Lemma fbyte_stable v v' d k : dwf v d -> (forall b, b ∈ ptrs v d -> v' b = v b) -> (k / 512 < nblocks (d_size d))%nat -> fbyte v' d k = fbyte v d k.
Proof.
  intros Hw H Hk. unfold fbyte. rewrite (fblk_same v v'); [|intros Hn; apply H, elem_of_ptrs; by right|apply Hw]. rewrite H; [done|]. apply elem_of_ptrs. left. by eexists.
Qed.
Lemma slack_stable v v' d : dwf v d -> (forall b, b ∈ ptrs v d -> v' b = v b) -> slack v d -> slack v' d.
Proof. intros Hw H Hs k Hk. rewrite (fbyte_stable v) by (done || apply Nat.Div0.div_lt_upper_bound; lia). by apply Hs. Qed.

Section Chunk.
Context s D T (i z : Z) (l : list Z) (B : building s D T) (Hi : 0 <= i < 200) (Hl : l <> []).
Notation size := (d_size (D i)).
Notation e := (size + Z.of_nat (length l)).
Context (Hc : size mod 512 + Z.of_nat (length l) <= 512) (Hmax : e <= 71680) (Hfb : freeblock s + Z.of_nat (nptrs (nblocks e) - nptrs (nblocks size)) <= 1000).
Notation n := (Z.to_nat (size / 512)).

Lemma chunk_room : (0 < length l)%nat /\ 0 <= size /\ (n < nblocks e)%nat /\ (size mod 512 = 0 -> n = nblocks size /\ nblocks e = Datatypes.S (nblocks size)) /\ (size mod 512 <> 0 -> nblocks e = nblocks size).
Proof.
  pose proof (app_size s D T i B Hi). assert (0 < length l)%nat by (by destruct l; [|simpl; lia]). split_and!; [done|done|unfold nblocks; Z.to_euclidean_division_equations; lia| |unfold nblocks; Z.to_euclidean_division_equations; lia].
  intros Hm. unfold nblocks. split; Z.to_euclidean_division_equations; lia.
Qed.
Lemma chunk_block : exists s1 D1, iappend_block (set_size z (D i)) n s = Ok (set_size z (D1 i), fblk (disk s1) (D1 i) n) s1 /\ extended_to i e s D s1 D1.
Proof.
  destruct chunk_room as (Hl0 & Hs & Hn & Hnew & Hin). assert (uint32 e) by (unfold uint32; lia). destruct (decide (size mod 512 = 0)) as [Hm|Hm].
  - destruct (Hnew Hm) as [-> He]. apply block_new with (T := T); try done; [unfold NDIRECT, NINDIRECT, nblocks in *; Z.to_euclidean_division_equations; lia|]. rewrite He, nptrs_S in Hfb. lia.
  - specialize (Hin Hm). exists s, (fset i (set_size e (D i)) D). split; [|by apply (extend_inside s D T)]. rewrite fset_eq. rewrite (block_there s D T i B Hi z) by (by rewrite <- Hin). done.
Qed.
Lemma chunk_ok : exists b s1 s' D', iappend_block (set_size z (D i)) n s = Ok (set_size z (D' i), b) s1 /\
  b < sectors s1 /\ wsect b (splice (Z.to_nat (size - size / 512 * 512)) l (fsfd s1 b)) s1 = Ok tt s' /\ appended i l s D T s' D'.
Proof.
  destruct chunk_room as (Hl0 & Hs & Hn & _). destruct chunk_block as (s1 & D1 & E & [X1 X2 X3 X4 X5 X6 X7 X8]). set (b := fblk (disk s1) (D1 i) n) in *. replace (size - size / 512 * 512) with (size mod 512) by (Z.to_euclidean_division_equations; lia).
  assert (d_size (D1 i) = e) as Hsz by (by rewrite (pr_inode _ _ _ _ _ _ _ X2)). assert (b ∈ ptrs (disk s1) (D1 i)) as Hbp by (apply elem_of_ptrs; left; exists n; by rewrite Hsz). assert (59 <= b < 1000) as Hb.
  { by destruct (inv_ptr sb (disk s1) D1 [] i b X1 Hi Hbp) as (Hr & _). }
  pose proof (bl_sectors _ _ _ B) as Hsec. set (y := splice (Z.to_nat (size mod 512)) l (fsfd s1 b)). set (s' := mkMkfs (vput b y (fsfd s1)) 1000 (freeinode s1) (freeblock s1)).
  exists b, s1, s', D1. split_and!; [done|lia|unfold wsect, modify; by rewrite Z.max_l, X5, Hsec by lia|].
  assert (forall k, disk s' k = vput b y (disk s1) k) as Ed by (apply vput_marked; lia). assert (fsfd s1 b = disk s1 b) as Eb by (symmetry; apply marked_ne; lia).
  pose proof (prepared_wrote_at i size l (disk s) D (disk s1) D1 n Hi ltac:(lia) Hl Hc eq_refl) as W. cbv zeta in W. rewrite Z.max_r in W by lia. specialize (W (bl_inv _ _ _ B) X1 X2 Hn). fold b in W. rewrite <- Eb in W. fold y in W.
  assert (length (fsfd s1 b) = 512%nat) as Hlen. { rewrite Eb. apply (iv_len _ _ _ _ X1). unfold fs_block. change (sb_size sb) with 1000. change (sb_inodestart sb) with 32. lia. }
  split; [|by eapply wrote_pointwise|intros k Hk; cbn; rewrite vput_ne by lia; by apply X4|done|done]. split.
  - eapply inv_pointwise; [exact Ed|]. apply (inv_write sb mkfs_layout); [done|done|by rewrite Hsz|]. unfold y. rewrite length_splice; [done|]. pose proof (Z.mod_pos_bound size 512). lia.
  - intros j Hj. rewrite <- (bl_dino _ _ _ B j Hj). unfold dino. pose proof (IBLOCK_range sb mkfs_layout j Hj) as Hr. change (sb_inodestart sb) with 32 in Hr. change (sb_bmapstart sb) with 58 in Hr. cbn. rewrite vput_ne, X4 by lia. done.
  - cbn. intros c Hc'. rewrite vput_ne; [by apply X3|]. intros ->. pose proof (ptr_below (fsfd s1) D1 (freeblock s1) i b X1 Hi ltac:(pose proof (bl_block _ _ _ B); lia) Hbp). lia.
  - cbn. pose proof (bl_block _ _ _ B). lia.
  - done.
  - intros j Hj. destruct (decide (j = i)) as [->|Hne].
    + intros k Hk. rewrite Hsz in Hk. rewrite (fbyte_pointwise _ _ _ _ Ed). unfold b. rewrite (fbyte_write sb (disk s1) D1 [] i n y k X1 Hi) by (rewrite Hsz; done || apply Nat.Div0.div_lt_upper_bound; lia).
      specialize (X8 k ltac:(lia)). destruct (decide (k / 512 = n)%nat) as [En|]; [|done]. rewrite <- X8. unfold fbyte. rewrite En. fold b. rewrite <- Eb. unfold y. pose proof (Z.mod_pos_bound size 512).
      rewrite byte_splice, decide_False; [done| |lia]. pose proof (Nat.div_mod_eq k 512). Z.to_euclidean_division_equations. lia.
    + rewrite (pr_others _ _ _ _ _ _ _ X2) by done. apply (slack_stable (disk s)); [by apply B| |by apply (bl_slack _ _ _ B)].
      intros c Hcj. by apply (wr_stable _ _ _ _ _ _ _ _ (wrote_pointwise _ _ _ _ _ _ _ _ Ed W) j c).
Qed.
End Chunk.

Lemma need_mono a b : a <= b -> (nptrs (nblocks a) <= nptrs (nblocks b))%nat.
Proof. intros Hab. apply nptrs_mono. unfold nblocks. Z.to_euclidean_division_equations. lia. Qed.
Lemma appended_app i l1 l2 s D T s1 D1 s2 D2 : building s D T -> 0 <= i < 200 -> d_size (D1 i) = d_size (D i) + Z.of_nat (length l1) -> appended i l1 s D T s1 D1 -> appended i l2 s1 D1 T s2 D2 -> appended i (l1 ++ l2) s D T s2 D2.
Proof.
  intros B Hi Hs [A1 A2 A3 A4 A5] [B1 B2 B3 B4 B5]. pose proof (app_size s D T i B Hi). rewrite Hs in *. split; [done| |intros n Hn; by rewrite B3, A3|by rewrite B4|].
  - eapply wrote_app; [apply B|lia|exact A2|exact B2].
  - rewrite B5, A5, length_app, Nat2Z.inj_add, Z.add_assoc.
    pose proof (need_mono (d_size (D i)) (d_size (D i) + Z.of_nat (length l1)) ltac:(lia)). pose proof (need_mono (d_size (D i) + Z.of_nat (length l1)) (d_size (D i) + Z.of_nat (length l1) + Z.of_nat (length l2)) ltac:(lia)). lia.
Qed.
Lemma wrote_end i l v D v' D' : wrote sb i (d_size (D i)) l v D v' D' -> d_size (D' i) = d_size (D i) + Z.of_nat (length l).
Proof. intros W. rewrite (wr_inode _ _ _ _ _ _ _ _ W). cbn. lia. Qed.

Lemma iappend_loop_ok i z T : 0 <= i < 200 -> forall fuel p s D, building s D T -> (length p < fuel)%nat -> d_size (D i) + Z.of_nat (length p) <= 71680 ->
  freeblock s + Z.of_nat (nptrs (nblocks (d_size (D i) + Z.of_nat (length p))) - nptrs (nblocks (d_size (D i)))) <= 1000 ->
  exists s' D', iappend_loop fuel (set_size z (D i)) (d_size (D i)) p s = Ok (set_size z (D' i), d_size (D' i)) s' /\ appended i p s D T s' D'.
Proof.
  intros Hi. induction fuel as [|fuel IH]; intros p s D B Hf Hmax Hfb; [lia|]. cbn [iappend_loop]. pose proof (app_size s D T i B Hi) as Hs0. destruct (Nat.eqb_spec (length p) 0) as [E0|Hp].
  { apply nil_length_inv in E0 as ->. exists s, D. split; [done|]. split; [done|apply wrote_nil; lia|done|done|]. cbn [length]. rewrite Z.add_0_r, Nat.sub_diag. lia. }
  set (n1 := Z.to_nat (Z.min (Z.of_nat (length p)) ((d_size (D i) / 512 + 1) * 512 - d_size (D i)))). assert (1 <= n1 <= length p)%nat as Hn1 by (unfold n1; Z.to_euclidean_division_equations; lia).
  assert (length (take n1 p) = n1) as Hlt by (rewrite length_take; lia). rewrite (proj2 (Z.ltb_lt (d_size (D i) / 512) MAXFILE)) by (change MAXFILE with 140; Z.to_euclidean_division_equations; lia). cbn [negb].
  rewrite <- (take_drop n1 p) in Hfb, Hmax. rewrite length_app, Nat2Z.inj_add, Z.add_assoc in Hfb, Hmax. set (l1 := take n1 p) in *. set (l2 := drop n1 p) in *.
  pose proof (need_mono (d_size (D i)) (d_size (D i) + Z.of_nat (length l1)) ltac:(lia)). pose proof (need_mono (d_size (D i) + Z.of_nat (length l1)) (d_size (D i) + Z.of_nat (length l1) + Z.of_nat (length l2)) ltac:(lia)).
  destruct (chunk_ok s D T i z l1 B Hi) as (b & s1 & s' & D' & E1 & Hb & E2 & A); [intros E; rewrite E in Hlt; simpl in Hlt; lia|rewrite Hlt; unfold n1; Z.to_euclidean_division_equations; lia|lia|lia|].
  pose proof (wrote_end _ _ _ _ _ _ (ad_wrote _ _ _ _ _ _ _ A)) as Hs1. erewrite bind_Ok by exact E1. cbn [fst snd]. fold n1. erewrite bind_Ok by (by apply rsect_ok). fold l1 l2. erewrite bind_Ok by exact E2.
  rewrite <- Hlt, <- Hs1. destruct (IH l2 s' D') as (s2 & D2 & E3 & A2); [apply A|unfold l2; rewrite length_drop; lia|lia|rewrite (ad_block _ _ _ _ _ _ _ A), Hs1; lia|].
  exists s2, D2. split; [exact E3|]. rewrite <- (take_drop n1 p). by eapply appended_app.
Qed.

(** ** The table of inodes *)

Lemma iblock_low i : 0 <= i < 200 -> 32 <= IBLOCK i sb < 58.
Proof. apply (IBLOCK_range sb mkfs_layout). Qed.
Lemma iblock_fs i : 0 <= i < 200 -> fs_block sb (IBLOCK i sb).
Proof. intros Hi%iblock_low. unfold fs_block. change (sb_size sb) with 1000. change (sb_inodestart sb) with 32. lia. Qed.

Lemma winode_ok i d s D T : building s D T -> 0 <= i < 200 -> dinode_ok d -> exists s', winode i d s = Ok tt s' /\ building s' D (fset i d T) /\ (forall n, disk s' n = put_dino sb i d (disk s) n) /\
  freeblock s' = freeblock s /\ freeinode s' = freeinode s /\ forall n, 1 <= n < 32 -> fsfd s' n = fsfd s n.
Proof.
  intros B Hi Hd. pose proof (IBLOCK_range sb mkfs_layout i Hi) as Hr. change (sb_inodestart sb) with 32 in Hr. change (sb_bmapstart sb) with 58 in Hr. pose proof (bl_sectors _ _ _ B) as Hsec.
  set (bn := IBLOCK i sb) in *. assert (disk s bn = fsfd s bn) as Ebn by (apply marked_ne; lia).
  assert (forall n, marked (put_dino sb i d (fsfd s)) (freeblock s) n = put_dino sb i d (disk s) n) as Ed by (intros n; unfold put_dino; fold bn; rewrite Ebn; apply vput_marked; lia). exists (mkMkfs (put_dino sb i d (fsfd s)) 1000 (freeinode s) (freeblock s)). split_and!.
  - unfold winode. fold bn. erewrite bind_Ok by (apply rsect_ok; lia). unfold wsect, modify. by rewrite Z.max_l, Hsec by lia.
  - split; [eapply inv_pointwise; [exact Ed|]; apply (inv_put_dino sb mkfs_layout); [apply B|done]| | |apply B|done|].
    + intros j Hj. cbn. rewrite dino_put; [|lia|lia|done|fold bn; rewrite <- Ebn; apply (iv_len _ _ _ _ (bl_inv _ _ _ B)); unfold fs_block; change (sb_size sb) with 1000; change (sb_inodestart sb) with 32; lia].
      destruct (decide (j = i)) as [->|Hne]; [by rewrite fset_eq|]. rewrite fset_ne by done. by apply (bl_dino _ _ _ B).
    + cbn. intros b Hb. pose proof (bl_block _ _ _ B). unfold put_dino. fold bn. rewrite vput_ne by lia. by apply B.
    + intros j Hj. apply (slack_stable (disk s)); [by apply B| |by apply B]. intros b Hb. rewrite Ed. unfold put_dino. apply vput_ne. fold bn. pose proof (app_others s D T B j b Hj Hb). lia.
  - done.
  - done.
  - done.
  - intros n Hn. cbn. unfold put_dino. fold bn. apply vput_ne. lia.
Qed.
Lemma rinode_ok i s D T : building s D T -> 0 <= i < 200 -> rinode i s = Ok (T i) s.
Proof.
  intros B Hi. pose proof (IBLOCK_range sb mkfs_layout i Hi) as Hr. change (sb_bmapstart sb) with 58 in Hr. unfold rinode. erewrite bind_Ok by (apply rsect_ok; rewrite (bl_sectors _ _ _ B); lia). unfold ret. f_equal. by apply (bl_dino _ _ _ B).
Qed.

(** ** Files *)

Definition holds s (F : gmap Z file) : Prop := exists D, building s D D /\ (forall i, 0 <= i < 200 -> d_type (D i) = 0 -> d_size (D i) = 0) /\ forall i, F !! i = file_at sb (disk s) D i.
(** The blocks of a file of a size. *)
Definition need (size : nat) : Z := Z.of_nat (nptrs (nblocks (Z.of_nat size))).
Record step_ok s s' (k : Z) : Prop := {
  so_block : freeblock s' = freeblock s + k;
  so_low : forall n, 1 <= n < 32 -> fsfd s' n = fsfd s n
}.
Lemma content_pointwise v v' d : (forall n, v' n = v n) -> content v' d = content v d.
Proof. intros E. unfold content. apply map_ext. intros k. by apply fbyte_pointwise. Qed.
Lemma building_ext s D T T' : (forall j, T' j = T j) -> building s D T -> building s D T'.
Proof. intros E [A1 A2 A3 A4 A5 A6]. split; try done. intros j Hj. by rewrite E, A2. Qed.

Lemma iappend_ok i l s F f : holds s F -> F !! i = Some f -> Z.of_nat (length (f_data f) + length l) <= 71680 -> freeblock s + (need (length (f_data f) + length l) - need (length (f_data f))) <= 1000 ->
  exists s', iappend i l s = Ok tt s' /\ holds s' (<[i := with_data (f_data f ++ l) f]> F) /\ freeinode s' = freeinode s /\ step_ok s s' (need (length (f_data f) + length l) - need (length (f_data f))).
Proof.
  intros (D & B & Hfree & HF) Hf Hmax Hfb. rewrite HF in Hf. apply file_at_Some in Hf as (Hi & Ht & ->). change (sb_ninodes sb) with 200 in Hi. cbn [f_data file_of] in *. rewrite length_content in *.
  pose proof (app_size s D D i B Hi) as Hs0. unfold need in *. rewrite Nat2Z.inj_add, Z2Nat.id in * by done. pose proof (need_mono (d_size (D i)) (d_size (D i) + Z.of_nat (length l)) ltac:(lia)) as Hmono.
  unfold iappend. erewrite bind_Ok by (by eapply rinode_ok). destruct (iappend_loop_ok i (d_size (D i)) D Hi (Datatypes.S (length l)) l s D B ltac:(lia) Hmax ltac:(lia)) as (s1 & D1 & E1 & [A1 A2 A3 A4 A5]).
  assert (set_size (d_size (D i)) (D i) = D i) as Ed0 by (by destruct (D i)). rewrite Ed0 in E1. erewrite bind_Ok by exact E1. cbn [fst snd]. assert (set_size (d_size (D1 i)) (set_size (d_size (D i)) (D1 i)) = D1 i) as -> by (by destruct (D1 i)).
  destruct (winode_ok i (D1 i) s1 D1 D A1 Hi) as (s' & E2 & B2 & Ed & H1 & H2 & H3); [by apply (iv_wf _ _ _ _ (bl_inv _ _ _ A1))|]. exists s'. split_and!; [done| |by rewrite H2|split; [lia|intros n Hn; rewrite H3, A3 by lia; done]].
  pose proof (updated_extended sb mkfs_layout i (d_size (D i)) l (disk s) D (disk s1) D1 (bl_inv _ _ _ B) (bl_inv _ _ _ A1) Hi ltac:(lia) A2) as [U1 U2 U3 U4 U5].
  assert (write_at (Z.to_nat (d_size (D i))) l (content (disk s) (D i)) = content (disk s) (D i) ++ l) as Hw.
  { unfold write_at. rewrite <- (length_content (disk s)), take_ge, drop_ge by lia. by rewrite app_nil_r. }
  exists D1. split_and!.
  - eapply building_ext; [|exact B2]. intros j. destruct (decide (j = i)) as [->|]; [by rewrite fset_eq|]. rewrite fset_ne by done. by apply U1.
  - intros j Hj Hj0. destruct (decide (j = i)) as [->|Hne]; [by rewrite U2 in Hj0|]. rewrite U1 in * by done. by apply Hfree.
  - intros j. unfold file_at, file_of. rewrite (content_pointwise _ _ _ Ed). destruct (decide (j = i)) as [->|Hne].
    + rewrite lookup_insert_eq, U3, Hw. rewrite decide_True by (rewrite U2; done). by rewrite U2.
    + rewrite lookup_insert_ne, HF, U1 by done. unfold file_at, file_of. destruct (decide _) as [[Hj ?]|]; [|done]. specialize (U4 j Hj Hne). rewrite (U1 j Hne) in U4. by rewrite U4.
Qed.

(** [ialloc]: a new inode. *)
Definition fresh_inode (type : Z) : dinode := mkDinode type 0 0 1 0 (replicate (NDIRECT + 1) 0).
Lemma fresh_wf v type : 0 <= type < 32768 -> dwf v (fresh_inode type).
Proof.
  intros Ht. assert (forall m, addr (fresh_inode type) m = 0) as Ha by (intros m; apply nth_zeros). split; [|apply Nat.le_0_l| |intros _; apply Ha].
  - split_and!; [repeat constructor; cbn; lia|unfold uint32; cbn; lia|done|by apply Forall_replicate].
  - intros n _. unfold fblk. rewrite !Ha. by destruct (n <? NDIRECT)%nat.
Qed.
Lemma ialloc_ok type s F : holds s F -> 0 < type < 32768 -> 0 <= freeinode s < 200 -> F !! freeinode s = None ->
  exists s', ialloc type s = Ok (freeinode s) s' /\ holds s' (<[freeinode s := mkFile type 0 0 1 []]> F) /\ freeinode s' = freeinode s + 1 /\ step_ok s s' 0.
Proof.
  intros (D & B & Hfree & HF) Ht Hi Hn. set (i := freeinode s) in *. set (d := fresh_inode type). pose proof (fresh_wf (disk s) type ltac:(lia)) as W. fold d in W.
  assert (ptrs (disk s) (D i) = []) as Hp.
  { apply ptrs_empty, Hfree; [done|]. rewrite HF in Hn. unfold file_at in Hn. destruct (decide (d_type (D i) = 0)); [done|]. by rewrite decide_True in Hn. }
  set (s0 := put_freeinode (i + 1) s). assert (building s0 (fset i d D) D) as B0.
  { destruct B as [B1 B2 B3 B4 B5 B6]. split; try done; [apply (inv_set sb mkfs_layout); done|]. intros j Hj. destruct (decide (j = i)) as [->|Hne]; [rewrite fset_eq|rewrite fset_ne by done; by apply B6]. intros k Hk. change (nblocks (d_size d)) with 0%nat in Hk. lia. }
  destruct (winode_ok i d s0 (fset i d D) D B0 Hi) as (s' & E2 & B2 & Ed & H1 & H2 & H3); [apply W|]. exists s'. split_and!; [|exists (fset i d D)|done|split; [rewrite H1; cbn; lia|done]].
  { unfold ialloc. rewrite bind_gets. fold i. rewrite bind_modify. fold s0. by erewrite bind_Ok by exact E2. }
  split_and!; [done| |].
  - intros j Hj. destruct (decide (j = i)) as [->|Hne]; [by rewrite fset_eq|rewrite fset_ne by done; by apply Hfree].
  - intros j. unfold file_at, file_of. rewrite (content_pointwise _ _ _ Ed). destruct (decide (j = i)) as [->|Hne].
    + rewrite lookup_insert_eq, fset_eq. rewrite decide_True by (split; [done|cbn; lia]). done.
    + rewrite lookup_insert_ne, HF by done. unfold file_at, file_of. rewrite !(fset_ne _ _ _ j Hne). destruct (decide _) as [[Hj ?]|]; [|done].
      pose proof (content_put_dino sb mkfs_layout (disk s0) (fset i d D) [] i d j (bl_inv _ _ _ B0) Hi Hj) as Hc. rewrite (fset_ne _ _ _ j Hne) in Hc. by rewrite Hc.
Qed.

(** ** Directories *)

(** An unused entry at the end of a directory. *)
Section Blank.
Context (F : gmap Z file) (HC : consistent F) (d : Z) (fd : file) (Hd : dir_at F d fd).
Notation fd' := (with_data (f_data fd ++ replicate 16 0) fd).
Notation F' := (<[d := fd']> F).
Lemma blank_set : set_at fd fd' (size_of fd) 0 [].
Proof.
  pose proof (dg_ok _ _ _ (cs_good _ HC d fd Hd)) as Hok. assert (write_at (16 * size_of fd) (replicate 16 0) (f_data fd) = f_data fd ++ replicate 16 0) as <-.
  { unfold write_at, size_of. rewrite <- Hok, take_ge, drop_ge by lia. by rewrite app_nil_r. }
  by apply set_at_write.
Qed.
Lemma blank_parent : inum_at fd' 1 = inum_at fd 1.
Proof. pose proof (dg_two _ _ _ (cs_good _ HC d fd Hd)). rewrite (sa_inum _ _ _ _ _ blank_set), decide_False by (rewrite ?(sa_size _ _ _ _ _ blank_set); lia). done. Qed.
Lemma blank_stays x : stays F F' x.
Proof.
  intros h Hh. destruct (decide (x = d)) as [->|Hne]; [|exists h; by rewrite lookup_insert_ne]. exists fd'. rewrite lookup_insert_eq. destruct Hd as (Hf & _). rewrite Hf in Hh. injection Hh as <-. split_and!; [done|done|]. intros _. apply blank_parent.
Qed.
Lemma blank_dir x fx : dir_at F x fx -> exists fx', dir_at F' x fx' /\ (fx' = fx \/ fx' = fd' /\ fx = fd).
Proof.
  intros Hx. destruct (decide (x = d)) as [->|Hne]; [|exists fx; unfold dir_at; rewrite lookup_insert_ne by done; by split; [|left]]. exists fd'. unfold dir_at. rewrite lookup_insert_eq. destruct Hd as (Hf & ? & ?). split; [done|]. right. split; [done|]. destruct Hx as [Hx _]. congruence.
Qed.
Lemma blank_family x fx : dir_at F x fx -> family F F' x fx.
Proof.
  intros Hx. pose proof (cs_good _ HC x fx Hx) as G. destruct (dg_dotdot _ _ _ G) as [_ [pd Hpd]]. destruct (blank_dir _ _ Hpd) as (pd' & Hpd' & Hor). split; [by exists pd'|]. intros Hr p [Hp _].
  destruct Hpd' as [Hpd' _]. rewrite Hpd' in Hp. injection Hp as <-. destruct (dg_parent _ _ _ G Hr pd Hpd) as (k & Hk & Hi). exists k. destruct Hor as [->|[-> ->]]; [done|]. rewrite (sa_size _ _ _ _ _ blank_set), (sa_inum _ _ _ _ _ blank_set), decide_False by (rewrite ?(sa_size _ _ _ _ _ blank_set); lia). split; [lia|done].
Qed.
Lemma blank_links x : links F' x = links F x.
Proof.
  destruct Hd as (Hf & Ht & Hn). pose proof (msum_update (links_of x) F d fd fd' Hf) as H1. pose proof (links_set fd fd' (size_of fd) 0 [] x blank_set ltac:(lia) Hn Hn) as H2. assert (leads fd' x (size_of fd) = false) as Hl.
  { unfold leads. rewrite (sa_inum _ _ _ _ _ blank_set), decide_True by (rewrite ?(sa_size _ _ _ _ _ blank_set); lia || done). done. }
  rewrite Hl, (bool_decide_false (size_of fd < size_of fd)%nat) in H2 by lia. rewrite !andb_false_r in H2. cbn [andb Nat.b2n] in H2. unfold links. lia.
Qed.
Lemma blank_consistent : consistent F'.
Proof.
  destruct Hd as (Hf & Ht & Hn). split.
  - destruct (cs_root _ HC) as (r & Hr & Hr1). destruct (blank_dir _ _ Hr) as (r' & Hr' & Hor). exists r'. split; [done|]. destruct Hor as [->|[-> ->]]; [done|]. by rewrite blank_parent.
  - rewrite lookup_insert_ne; [apply HC|]. by apply (some_nonzero F HC d fd).
  - intros x fx Hx. destruct (decide (x = d)) as [->|Hne].
    + destruct Hx as (Hx & _). rewrite lookup_insert_eq in Hx. injection Hx as <-. pose proof (cs_good _ HC d fd Hd) as G. apply (good_set F _ d fd fd' (size_of fd) 0 []); [done|intros ? ? ?; apply blank_stays|by apply blank_family|apply blank_set| |done]. pose proof (dg_two _ _ _ G). lia.
    + assert (dir_at F x fx) as Hx' by (unfold dir_at in *; by rewrite lookup_insert_ne in Hx). apply (good_keep F); [by apply HC|intros ? ? ?; apply blank_stays|by apply blank_family].
  - intros x fx Hx. rewrite blank_links. destruct (decide (x = d)) as [->|Hne]; [rewrite lookup_insert_eq in Hx; injection Hx as <-; by apply (cs_links _ HC d fd)|]. rewrite lookup_insert_ne in Hx by done. by apply HC.
Qed.
End Blank.
Lemma blanks_consistent F d fd n : consistent F -> dir_at F d fd -> consistent (<[d := with_data (f_data fd ++ replicate (16 * n) 0) fd]> F).
Proof.
  intros HC Hd. induction n as [|n IH].
  - rewrite app_nil_r. destruct Hd as (Hf & _). rewrite insert_id; [done|]. by destruct fd.
  - pose proof (blank_consistent _ IH d (with_data (f_data fd ++ replicate (16 * n) 0) fd)) as H. rewrite insert_insert_eq in H. cbn [with_data f_type f_major f_minor f_nlink f_data] in H. rewrite <- app_assoc, <- replicate_add in H.
    replace (16 * Datatypes.S n)%nat with (16 * n + 16)%nat by lia. apply H. destruct Hd as (Hf & ? & ?). unfold dir_at. by rewrite lookup_insert_eq.
Qed.
Lemma ent_app data x k : dir_ok data -> (k < nent data)%nat -> ent (data ++ x) k = ent data k.
Proof. unfold dir_ok. intros Hok Hk. unfold ent. rewrite drop_app_le, take_app_le by (rewrite ?length_drop; lia). done. Qed.

(** ** The image of a list of files *)

Definition data_of (a : argument) : list Z := concat (default [] (arg_reads a)).
Definition file_name (a : argument) : list Z := cname DIRSIZ (skip_underscore (arg_name a)).
Record good_arg (a : argument) : Prop := {
  ga_byte : Forall byte (arg_name a);
  ga_slash : existsb (fun c => c =? 47) (arg_name a) = false;
  ga_open : is_Some (arg_reads a);
  ga_plain : plain (file_name a);
  ga_max : Z.of_nat (length (data_of a)) <= 71680
}.
(** The blocks in use when the files [args] are in the image. *)
Definition blocks_used (args : list argument) : Z := 59 + need (16 * (2 + length args)) + foldr (fun a n => need (length (data_of a)) + n) 0 args.
Record so_far (args : list argument) s (F : gmap Z file) (r : file) : Prop := {
  sf_holds : holds s F;
  sf_consistent : consistent F;
  sf_root : F !! 1 = Some r;
  sf_type : f_type r = T_DIR /\ f_nlink r = 1;
  sf_size : length (f_data r) = (16 * (2 + length args))%nat;
  sf_entry : forall k a, args !! k = Some a -> inum_at r (2 + k) = 2 + Z.of_nat k /\ name_at r (2 + k) = file_name a /\ F !! (2 + Z.of_nat k) = Some (mkFile T_FILE 0 0 1 (data_of a));
  sf_none : forall i, 2 + Z.of_nat (length args) <= i -> F !! i = None;
  sf_inode : freeinode s = 2 + Z.of_nat (length args);
  sf_block : freeblock s = blocks_used args;
  sf_log : forall n, 2 <= n < 32 -> fsfd s n = zeroes
}.

Lemma need_le a b : (a <= b)%nat -> need a <= need b.
Proof. intros Hab. unfold need. pose proof (need_mono (Z.of_nat a) (Z.of_nat b)). lia. Qed.
Lemma foreach_iappend i chunks : forall s F f, holds s F -> F !! i = Some f -> Z.of_nat (length (f_data f) + length (concat chunks)) <= 71680 ->
  freeblock s + (need (length (f_data f) + length (concat chunks)) - need (length (f_data f))) <= 1000 ->
  exists s', foreach chunks (fun buf => iappend i buf) s = Ok tt s' /\ holds s' (<[i := with_data (f_data f ++ concat chunks) f]> F) /\ freeinode s' = freeinode s /\ step_ok s s' (need (length (f_data f) + length (concat chunks)) - need (length (f_data f))).
Proof.
  induction chunks as [|l chunks IH]; intros s F f Hh Hf Hmax Hfb; cbn [foreach concat] in *.
  - exists s. rewrite app_nil_r, insert_id by (by destruct f). split_and!; [done..|]. cbn [length]. rewrite Nat.add_0_r. split; [lia|done].
  - rewrite length_app in *. pose proof (need_le (length (f_data f) + length l) (length (f_data f) + (length l + length (concat chunks)))). pose proof (need_le (length (f_data f)) (length (f_data f) + length l)).
    destruct (iappend_ok i l s F f Hh Hf) as (s1 & E1 & H1 & Hi1 & [A1 A2]); [lia|lia|]. erewrite bind_Ok by exact E1.
    destruct (IH s1 _ (with_data (f_data f ++ l) f) H1) as (s2 & E2 & H2 & Hi2 & [B1 B2]); cbn [with_data f_data] in *; rewrite ?length_app in *; [by rewrite lookup_insert_eq|lia|rewrite Nat.add_assoc in *; lia|].
    exists s2. split_and!; [done| |by rewrite Hi2|]. { rewrite insert_insert_eq, <- app_assoc in H2. exact H2. }
    split; [rewrite B1, A1; replace (length (f_data f) + length l + length (concat chunks))%nat with (length (f_data f) + (length l + length (concat chunks)))%nat by lia; lia|]. intros n Hn. by rewrite B2, A2.
Qed.

Lemma dir_find_fresh r nm : (forall k, (k < size_of r)%nat -> name_at r k <> nm) -> dir_find (f_data r) nm = None.
Proof. intros H. apply dir_find_None. intros k Hk. unfold names. apply andb_false_iff. right. apply bool_decide_eq_false. by apply H. Qed.
Lemma blocks_used_snoc args a : blocks_used (args ++ [a]) = blocks_used args + (need (16 * (2 + length args) + 16) - need (16 * (2 + length args))) + need (length (data_of a)).
Proof.
  unfold blocks_used. rewrite length_app. cbn [length]. replace (16 * (2 + (length args + 1)))%nat with (16 * (2 + length args) + 16)%nat by lia. rewrite foldr_app. cbn [foldr].
  assert (forall (l : list argument) z, foldr (fun a n => need (length (data_of a)) + n) z l = foldr (fun a n => need (length (data_of a)) + n) 0 l + z) as H by (intros l z; induction l as [|b l IH]; cbn [foldr]; lia). rewrite H. lia.
Qed.

Section AddFile.
Context (args : list argument) (a : argument) (s : mkfs) (F : gmap Z file) (r : file) (S0 : so_far args s F r) (Ha : good_arg a) (Hn : (length args < 198)%nat)
  (Hfresh : forall b, b ∈ args -> file_name b <> file_name a) (Hroom : blocks_used (args ++ [a]) <= 1000).
Notation n := (2 + Z.of_nat (length args)).
Notation k := (2 + length args)%nat.
Lemma root_dir : dir_at F 1 r /\ dir_ok (f_data r) /\ size_of r = k.
Proof using S0.
  destruct (sf_type _ _ _ _ S0) as [Ht Hl]. pose proof (sf_size _ _ _ _ S0) as Hs. assert (dir_at F 1 r) as Hd by (split_and!; [apply S0|done|by rewrite Hl]). split_and!; [done|by apply (dg_ok _ _ _ (cs_good _ (sf_consistent _ _ _ _ S0) 1 r Hd))|].
  unfold size_of, nent. rewrite Hs, Nat.mul_comm. by apply Nat.div_mul.
Qed.
Lemma root_full : dir_free (f_data r) = k /\ dir_find (f_data r) (file_name a) = None.
Proof.
  destruct root_dir as (Hd & Hok & Hsz). pose proof (cs_good _ (sf_consistent _ _ _ _ S0) 1 r Hd) as G. destruct (parent_nonzero F (sf_consistent _ _ _ _ S0) 1 r Hd) as [H0 H1].
  assert (forall j, (j < k)%nat -> j = 0%nat \/ j = 1%nat \/ exists m b, j = (2 + m)%nat /\ args !! m = Some b) as Hcase.
  { intros j Hj. destruct j as [|[|m]]; [by left|by right; left|]. right. right. destruct (lookup_lt_is_Some_2 args m ltac:(lia)) as [b Hb]. by exists m, b. }
  split.
  - pose proof (dir_free_le (f_data r)) as Hle. fold (size_of r) in Hle. destruct (decide (dir_free (f_data r) = k)) as [|Hne]; [done|]. pose proof (free_zero r ltac:(lia)) as Hz. exfalso.
    destruct (Hcase (dir_free (f_data r)) ltac:(lia)) as [E|[E|(m & b & E & Hb)]]; rewrite E in Hz; [done|done|]. destruct (sf_entry _ _ _ _ S0 m b Hb) as [Hi _]. lia.
  - apply dir_find_fresh. rewrite Hsz. intros j Hj. destruct (ga_plain _ Ha) as [P1 P2]. destruct (Hcase j Hj) as [->|[->|(m & b & -> & Hb)]]; [destruct (dg_dot _ _ _ G) as [_ ->]; congruence|destruct (dg_dotdot _ _ _ G) as [-> _]; congruence|].
    destruct (sf_entry _ _ _ _ S0 m b Hb) as (_ & -> & _). apply Hfresh. by eapply list_elem_of_lookup_2.
Qed.
Notation e := (mk_dirent n (name_field (skip_underscore (arg_name a)))).
Lemma root_entry : with_data (f_data r ++ e) r = add_entry n (file_name a) r /\ length e = 16%nat.
Proof.
  assert (Forall byte (skip_underscore (arg_name a))) as Hb. { pose proof (ga_byte _ Ha) as H. unfold skip_underscore. destruct (arg_name a) as [|c l]; [done|]. destruct (c =? 95); [by inversion H|done]. }
  destruct root_dir as (Hd & Hok & Hsz). split; [|by apply length_mk_dirent]. unfold add_entry, dirent. rewrite (proj1 root_full), name_field_spec by done. unfold write_at. rewrite <- (sf_size _ _ _ _ S0), take_ge, drop_ge by lia. by rewrite app_nil_r.
Qed.
Lemma add_file_ok : exists s' F' r', add_file 1 a s = Ok tt s' /\ so_far (args ++ [a]) s' F' r'.
Proof.
  destruct root_dir as (Hd & Hok & Hsz). destruct root_full as [Hfree Hfind]. destruct root_entry as [Er El]. pose proof (sf_inode _ _ _ _ S0) as Hi. pose proof (sf_size _ _ _ _ S0) as Hlen. pose proof (sf_block _ _ _ _ S0) as Hb. destruct (sf_type _ _ _ _ S0) as [Ht Hl].
  pose proof (sf_none _ _ _ _ S0 n ltac:(lia)) as HN. destruct (ga_open _ Ha) as [chunks Hch]. assert (data_of a = concat chunks) as Hda by (unfold data_of; by rewrite Hch). pose proof (ga_max _ Ha) as Hmax. rewrite Hda in Hmax.
  rewrite blocks_used_snoc, Hda in Hroom. pose proof (need_le (16 * k) (16 * k + 16) ltac:(lia)). pose proof (need_le 0 (length (concat chunks)) ltac:(lia)) as Hn0. change (need 0) with 0 in Hn0.
  destruct (ialloc_ok T_FILE s F (sf_holds _ _ _ _ S0)) as (s1 & E1 & H1 & I1 & [A1 A2]); [done|lia|by rewrite Hi|]. rewrite Hi in E1, H1, I1.
  destruct (iappend_ok 1 e s1 _ r H1) as (s2 & E2 & H2 & I2 & [B1 B2]); [rewrite lookup_insert_ne by lia; apply S0|rewrite Hlen, El; lia|rewrite Hlen, El; lia|]. rewrite Er in H2. rewrite Hlen, El in B1.
  assert (<[1 := add_entry n (file_name a) r]> (<[n := mkFile T_FILE 0 0 1 []]> F) !! n = Some (mkFile T_FILE 0 0 1 [])) as Hf by (rewrite lookup_insert_ne, lookup_insert_eq by lia; done).
  destruct (foreach_iappend n chunks s2 _ _ H2 Hf) as (s3 & E3 & H3 & I3 & [C1 C2]); cbn [f_data length] in *; rewrite ?Nat.add_0_l in *; [lia|change (need 0) with 0; lia|]. change (need 0) with 0 in C1.
  cbn [with_data f_type f_major f_minor f_nlink app] in H3. set (F2 := <[1 := add_entry n (file_name a) r]> (<[n := mkFile T_FILE 0 0 1 []]> F)) in *. exists s3, (<[n := mkFile T_FILE 0 0 1 (concat chunks)]> F2), (add_entry n (file_name a) r). split.
  { unfold add_file. rewrite (ga_slash _ Ha), Hch. erewrite bind_Ok by exact E1. erewrite bind_Ok by exact E2. exact E3. }
  assert (good_name (file_name a)) as Hgn by (split; [apply cname_nonzero|apply length_cname]). pose proof (add_set r n (file_name a) Hok Hgn ltac:(lia)) as Hset. rewrite Hfree in Hset. pose proof (sa_size _ _ _ _ _ Hset) as Hs'. rewrite Hsz in Hs'.
  assert (length (f_data (add_entry n (file_name a) r)) = (16 * k + 16)%nat) as Hl' by (rewrite <- Er; cbn [with_data f_data]; by rewrite length_app, Hlen, El).
  split; [done| | | | | | | | |].
  - apply (data_consistent F2 n (mkFile T_FILE 0 0 1 []) (concat chunks)); [|done|done]. apply (made_consistent F 1 r (file_name a) T_FILE 0 0 n); [apply S0|done|done|done|lia|lia|done].
  - rewrite lookup_insert_ne by lia. apply lookup_insert_eq.
  - done.
  - rewrite Hl', length_app. cbn [length]. lia.
  - intros j b Hj. destruct (decide (j < length args)%nat) as [Hlt|Hge].
    + rewrite lookup_app_l in Hj by done. destruct (sf_entry _ _ _ _ S0 j b Hj) as (X1 & X2 & X3). rewrite (sa_inum _ _ _ _ _ Hset), decide_False, (sa_name _ _ _ _ _ Hset) by lia. unfold F2. by rewrite !lookup_insert_ne by lia.
    + rewrite lookup_app_r in Hj by lia. apply list_lookup_singleton_Some in Hj as [Hj <-]. assert (j = length args) as -> by lia. rewrite (sa_inum _ _ _ _ _ Hset), decide_True, lookup_insert_eq, Hda by lia. split_and!; [done|by apply (sa_this _ _ _ _ _ Hset); lia|done].
  - intros i. rewrite length_app. cbn [length]. intros Hi'. unfold F2. rewrite !lookup_insert_ne by lia. apply S0. lia.
  - rewrite I3, I2, I1, length_app. cbn [length]. lia.
  - rewrite blocks_used_snoc, Hda. lia.
  - intros m Hm. rewrite C2, B2, A2 by lia. by apply S0.
Qed.
End AddFile.
Lemma foreach_add l : forall args s F r, so_far args s F r -> Forall good_arg l -> (length args + length l <= 198)%nat -> NoDup (file_name <$> args ++ l) -> blocks_used (args ++ l) <= 1000 ->
  exists s' F' r', foreach l (add_file 1) s = Ok tt s' /\ so_far (args ++ l) s' F' r'.
Proof.
  induction l as [|a l IH]; intros args s F r H0 Hg Hn Hnd Hb; cbn [foreach length] in *.
  - exists s, F, r. by rewrite app_nil_r.
  - apply Forall_cons in Hg as [Ha Hg]. rewrite (app_assoc args [a] l : args ++ a :: l = _) in Hnd, Hb. rewrite !fmap_app in Hnd. apply NoDup_app in Hnd as Hnd'. destruct Hnd' as (Hnd1 & _). apply NoDup_app in Hnd1 as (_ & Hdis & _).
    destruct (add_file_ok args a s F r H0 Ha) as (s1 & F1 & r1 & E1 & S1); [lia| | |].
    + intros b Hb' E. eapply Hdis; [by apply list_elem_of_fmap_2, Hb'|]. rewrite E. by left.
    + assert (forall x y, blocks_used x <= blocks_used (x ++ y)) as Hmono; [|pose proof (Hmono (args ++ [a]) l); lia]. intros x y. revert x. induction y as [|b y IHy]; intros x; [by rewrite app_nil_r|].
      rewrite (app_assoc x [b] y : x ++ b :: y = _). pose proof (IHy (x ++ [b])). rewrite blocks_used_snoc in *. pose proof (need_le (16 * (2 + length x)) (16 * (2 + length x) + 16) ltac:(lia)). pose proof (need_le 0 (length (data_of b)) ltac:(lia)). change (need 0) with 0 in *. lia.
    + erewrite bind_Ok by exact E1. destruct (IH (args ++ [a]) s1 F1 r1 S1 Hg) as (s2 & F2 & r2 & E2 & S2); [rewrite length_app; cbn [length]; lia|by rewrite !fmap_app|done|]. exists s2, F2, r2. split; [done|]. by rewrite (app_assoc args [a] l : args ++ a :: l = _).
Qed.

(** ** The empty image *)

Lemma clear_loop k : forall a s, sectors s = Z.of_nat a -> exists s', foreach (seq a k) (fun i => wsect (Z.of_nat i) zeroes) s = Ok tt s' /\ sectors s' = Z.of_nat (a + k) /\ freeinode s' = freeinode s /\ freeblock s' = freeblock s /\
  forall n, fsfd s' n = if decide (Z.of_nat a <= n < Z.of_nat (a + k)) then zeroes else fsfd s n.
Proof.
  induction k as [|k IH]; intros a s Hs; cbn [seq foreach].
  - exists s. split_and!; [done|rewrite Hs; lia|done|done|]. intros n. by rewrite decide_False by lia.
  - unfold wsect at 1. rewrite bind_modify. edestruct IH as (s' & E & H1 & H2 & H3 & H4); [|exists s'; split_and!; [exact E|rewrite H1; lia|exact H2|exact H3|]]; [cbn; lia|].
    intros n. rewrite H4. cbn [fsfd]. destruct (decide (n = Z.of_nat a)) as [->|Hne]; [rewrite vput_eq; by repeat destruct (decide _); try lia|]. rewrite vput_ne by done. destruct (decide _), (decide _); try done; lia.
Qed.
Definition no_inode : dinode := mkDinode 0 0 0 0 0 (replicate (NDIRECT + 1) 0).
Lemma no_inode_wf v : dwf v no_inode.
Proof.
  assert (forall m, addr no_inode m = 0) as Ha by (intros m; apply nth_zeros). split; [|apply Nat.le_0_l| |intros _; apply Ha].
  - split_and!; [repeat constructor; cbn; lia|unfold uint32; cbn; lia|done|by apply Forall_replicate].
  - intros n _. unfold fblk. rewrite !Ha. by destruct (n <? NDIRECT)%nat.
Qed.
Lemma get_zeroes k : get_dinode zeroes k = no_inode.
Proof.
  assert (forall m, byte_at zeroes m = 0) as Hb by (intros m; apply nth_zeros). assert (forall m, word zeroes m = 0) as Hw by (intros m; unfold word; by rewrite !Hb). assert (forall m, half zeroes m = 0) as Hh by (intros m; unfold half; by rewrite !Hb).
  unfold get_dinode, get_addrs. rewrite !Hh, !Hw. unfold no_inode. f_equal; try done. cbn [seq map NDIRECT Nat.add]. by rewrite !Hw.
Qed.
Lemma empty_ok s : (forall n, 0 <= n < 1000 -> n <> 1 -> fsfd s n = zeroes) -> fsfd s 1 = super -> sectors s = 1000 -> freeblock s = 59 -> holds s ∅.
Proof.
  intros Hz H1 Hs Hb. exists (fun _ => no_inode). split_and!; [|done|intros i; unfold file_at; rewrite decide_False; [done|intros [_ E]; done]].
  split; [|intros j Hj; unfold dino; rewrite Hz; [apply get_zeroes|..]; pose proof (IBLOCK_range sb mkfs_layout j Hj) as Hr; change (sb_inodestart sb) with 32 in Hr; change (sb_bmapstart sb) with 58 in Hr; lia|intros b ?; apply Hz; lia|lia|done|intros j Hj k Hk; change (nblocks (d_size no_inode)) with 0%nat in Hk; lia].
  rewrite Hb. split.
  - rewrite marked_ne, H1 by lia. by vm_compute.
  - intros n Hn. unfold fs_block in Hn. change (sb_inodestart sb) with 32 in Hn. change (sb_size sb) with 1000 in Hn. destruct (decide (n = 58)) as [->|]; [unfold marked; rewrite vput_eq; apply length_bits|]. rewrite marked_ne by done. destruct (decide (n = 1)) as [->|]; [by rewrite H1|]. by rewrite Hz by lia.
  - assert (owned sb (marked (fsfd s) 59) (fun _ => no_inode) = []) as ->. { unfold owned. induction (inums sb) as [|i l IH]; [done|]. cbn [map concat]. by rewrite IH. }
    assert (in_use sb (marked (fsfd s) 59) = []) as ->; [|done]. apply elem_of_nil_inv. intros b [Hr Hu]%elem_of_in_use. change (datastart sb) with 59 in Hr. change (sb_size sb) with 1000 in Hr. change 59 with (Z.of_nat 59) in Hu. rewrite used_marked in Hu by lia. apply Z.ltb_lt in Hu. lia.
  - intros b Hb'. change (datastart sb) with 59 in Hb'. change 59 with (Z.of_nat 59). rewrite used_marked by lia. apply Z.ltb_lt. lia.
  - intros i _. apply no_inode_wf.
Qed.

Definition first_entries : list Z := mk_dirent 1 (name_field [46]) ++ mk_dirent 1 (name_field [46; 46]).
Definition first_root : file := mkFile T_DIR 0 0 1 first_entries.
Lemma first_consistent : consistent {[1 := first_root]}.
Proof.
  assert (size_of first_root = 2%nat /\ inum_at first_root 0 = 1 /\ name_at first_root 0 = [46] /\ inum_at first_root 1 = 1 /\ name_at first_root 1 = [46; 46] /\ dir_ok (f_data first_root)) as (E1 & E2 & E3 & E4 & E5 & E6) by (by vm_compute).
  assert (forall x f, ({[1 := first_root]} : gmap Z file) !! x = Some f -> x = 1 /\ f = first_root) as Hx by (intros x f [? ?]%lookup_singleton_Some; done). assert (dir_at {[1 := first_root]} 1 first_root) as Hd by (split_and!; [apply lookup_singleton_eq|done|done]).
  split; [by exists first_root|done| |].
  - intros d fd (Hf & _). destruct (Hx _ _ Hf) as [-> ->]. split; rewrite ?E1, ?E4; [done|lia|done|split; [done|by eexists]| | | |done].
    + intros k Hk. lia.
    + intros k k' Hk Hk' _ _. assert (k = 0 \/ k = 1)%nat as [->| ->] by lia; assert (k' = 0 \/ k' = 1)%nat as [->| ->] by lia; rewrite ?E3, ?E5; done.
    + intros k k' h Hk. lia.
  - intros i f Hf. destruct (Hx _ _ Hf) as [-> ->]. by vm_compute.
Qed.

Lemma main_head (k : Z -> M mkfs unit) : exists s, so_far [] s {[1 := first_root]} first_root /\
  (modify (put_freeblock nmeta) ;;; clear ;;; wsect 1 super ;;; let! rootino := ialloc T_DIR in if negb (rootino =? ROOTINO) then panic "assert" else
   iappend rootino (mk_dirent rootino (name_field [46])) ;;; iappend rootino (mk_dirent rootino (name_field [46; 46])) ;;; k rootino) start = k 1 s.
Proof.
  rewrite bind_modify. destruct (clear_loop 1000 0 (put_freeblock nmeta start) eq_refl) as (s1 & E1 & H1 & H2 & H3 & H4). unfold clear. change (Z.to_nat FSSIZE) with 1000%nat. erewrite bind_Ok by exact E1. unfold wsect. rewrite bind_modify.
  set (s2 := mkMkfs (vput 1 super (fsfd s1)) (Z.max (sectors s1) (1 + 1)) (freeinode s1) (freeblock s1)). assert (sectors s2 = 1000) as Hsec by (unfold s2; cbn; lia).
  assert (holds s2 ∅) as G2. { apply empty_ok; [|apply vput_eq|done|by unfold s2; cbn; rewrite H3]. intros n Hn Hne. unfold s2. cbn [fsfd]. rewrite vput_ne, H4, decide_True by (done || lia). done. }
  destruct (ialloc_ok T_DIR s2 ∅ G2 ltac:(unfold T_DIR; lia)) as (s3 & E3 & G3 & I3 & [A1 A2]); [unfold s2; cbn; rewrite H2; cbn; lia|done|]. assert (freeinode s2 = 1) as Hi2 by (unfold s2; cbn; by rewrite H2). rewrite Hi2 in *.
  assert (freeblock s2 = 59) as Hb2 by (unfold s2; cbn; by rewrite H3). rewrite Hb2 in A1.
  destruct (iappend_ok 1 (mk_dirent 1 (name_field [46])) s3 _ _ G3 (lookup_insert_eq _ _ _)) as (s4 & E4 & G4 & I4 & [B1 B2]); [vm_compute; discriminate|rewrite A1; vm_compute; discriminate|].
  destruct (iappend_ok 1 (mk_dirent 1 (name_field [46; 46])) s4 _ _ G4 (lookup_insert_eq _ _ _)) as (s5 & E5 & G5 & I5 & [C1 C2]); [vm_compute; discriminate|rewrite B1, A1; vm_compute; discriminate|].
  rewrite !insert_insert_eq in G5. exists s5. split; [split|].
  - exact G5.
  - apply first_consistent.
  - apply lookup_singleton_eq.
  - done.
  - by vm_compute.
  - done.
  - intros i Hi. cbn in Hi. apply lookup_singleton_ne. lia.
  - rewrite I5, I4, I3. done.
  - rewrite C1, B1, A1. by vm_compute.
  - intros n Hn. rewrite C2, B2, A2 by lia. unfold s2. cbn [fsfd]. rewrite vput_ne, H4, decide_True by lia. done.
  - erewrite bind_Ok by exact E3. cbn [Z.eqb ROOTINO negb Pos.eqb]. erewrite bind_Ok by exact E4. by erewrite bind_Ok by exact E5.
Qed.

(** ** The end of the program *)

Definition finish : M mkfs unit :=
  let! din := rinode 1 in
  let off := (d_size din / 512 + 1) * 512 in
  winode 1 (set_size off din) ;;;
  let! used := gets freeblock in
  balloc used.
Lemma finish_ok s D : building s D D -> freeblock s <= 1000 -> d_size (D 1) <= 71680 -> let d := set_size ((d_size (D 1) / 512 + 1) * 512) (D 1) in
  exists s', finish s = Ok tt s' /\ (forall n, fsfd s' n = put_dino sb 1 d (disk s) n) /\ sectors s' = 1000 /\ dinode_ok d.
Proof.
  intros B Hb Hmax d. assert (0 <= 1 < 200) as Hi by lia. pose proof (app_size s D D 1 B Hi) as Hs. pose proof (iv_wf _ _ _ _ (bl_inv _ _ _ B) 1 Hi) as [(O1 & O2 & O3 & O4) _ _ _].
  assert (dinode_ok d) as Hok by (unfold d; split_and!; [done|unfold uint32; cbn; Z.to_euclidean_division_equations; lia|done|done]).
  destruct (winode_ok 1 d s D D B Hi Hok) as (s1 & E1 & B1 & Ed & H1 & H2 & H3). unfold finish. erewrite bind_Ok by (by eapply rinode_ok). cbv zeta. fold d. erewrite bind_Ok by exact E1. rewrite bind_gets. unfold balloc.
  rewrite (proj2 (Z.ltb_lt _ _)) by lia. cbn [negb]. eexists. split_and!; [reflexivity|exact Ed| |done]. cbn [sectors]. rewrite (bl_sectors _ _ _ B1). done.
Qed.
(** The zeros after the end become part of the directory. *)
Lemma content_grow v d e : 0 <= d_size d <= e -> nblocks e = nblocks (d_size d) -> slack v d -> content v (set_size e d) = content v d ++ replicate (Z.to_nat e - Z.to_nat (d_size d)) 0.
Proof.
  intros He Hn Hs. unfold content. cbn [set_size d_size]. replace (Z.to_nat e) with (Z.to_nat (d_size d) + (Z.to_nat e - Z.to_nat (d_size d)))%nat at 1 by lia. rewrite seq_app, map_app. f_equal.
  apply list_eq_same_length with (n := (Z.to_nat e - Z.to_nat (d_size d))%nat); rewrite ?length_map, ?length_seq, ?length_replicate; [done..|]. intros j x y Hj Hx Hy. apply lookup_replicate in Hy as [-> _]. rewrite list_lookup_fmap in Hx. apply fmap_Some in Hx as (m & Hm & ->). apply lookup_seq in Hm as [-> Hm].
  apply (Hs (0 + Z.to_nat (d_size d) + j)%nat). split; [lia|]. rewrite <- Hn. unfold nblocks. Z.to_euclidean_division_equations. lia.
Qed.
Lemma finish_stored args s F r : so_far args s F r -> blocks_used args <= 1000 -> (length args <= 198)%nat -> ((2 + length args) mod 32 <> 0)%nat ->
  exists s' n, finish s = Ok tt s' /\ stored sb (<[1 := with_data (f_data r ++ replicate (16 * n) 0) r]> F) (fsfd s') /\ sectors s' = 1000 /\ forall n, 2 <= n < 32 -> fsfd s' n = zeroes.
Proof.
  intros S0 Hb Hn Hm. pose proof (sf_block _ _ _ _ S0) as Hfb. pose proof (sf_size _ _ _ _ S0) as Hl. destruct (sf_holds _ _ _ _ S0) as (D & B & Hfree & HF). pose proof (sf_root _ _ _ _ S0) as Hr. rewrite HF in Hr. apply file_at_Some in Hr as (Hi & Ht & ->). cbn [f_data file_of] in *.
  rewrite length_content in Hl. pose proof (app_size s D D 1 B Hi) as Hs. set (off := (d_size (D 1) / 512 + 1) * 512). assert (d_size (D 1) = 16 * (2 + Z.of_nat (length args))) as Hsz by lia.
  assert (nblocks off = nblocks (d_size (D 1)) /\ d_size (D 1) <= off /\ uint32 off) as (Hnb & Hle & Hu).
  { assert (d_size (D 1) mod 512 <> 0) as Hm'. { rewrite Hsz. intros E. apply Hm, Nat2Z.inj. rewrite Nat2Z.inj_mod, Nat2Z.inj_add. change (Z.of_nat 2) with 2. change (Z.of_nat 32) with 32. Z.to_euclidean_division_equations. lia. } unfold off, nblocks, uint32. split_and!; Z.to_euclidean_division_equations; lia. }
  destruct (finish_ok s D B ltac:(lia) ltac:(lia)) as (s' & E & Ed & Hsec & Hok). fold off in Ed, Hok. pose proof (iv_wf _ _ _ _ (bl_inv _ _ _ B) 1 Hi) as W. destruct (dwf_set_size (disk s) (D 1) off W Hnb Hu) as [W' Hp].
  set (d := set_size off (D 1)) in *. pose proof (inv_set sb mkfs_layout (disk s) D [] 1 d (bl_inv _ _ _ B) Hi W' Hp) as I1. exists s', (Z.to_nat (off / 16) - (2 + length args))%nat.
  assert (16 * (Z.to_nat (off / 16) - (2 + length args)) = Z.to_nat off - Z.to_nat (d_size (D 1%Z)))%nat as Hpad by (rewrite Hl; unfold off; Z.to_euclidean_division_equations; lia).
  split_and!; [done| |done|].
  - exists (fset 1 d D). split_and!.
    + eapply inv_pointwise; [exact Ed|]. by apply (inv_put_dino sb mkfs_layout).
    + intros j Hj. unfold dino. rewrite Ed. change (get_dinode (put_dino sb 1 d (disk s) (IBLOCK j sb)) (slot j)) with (dino sb (put_dino sb 1 d (disk s)) j). pose proof (iblock_low j Hj).
      rewrite dino_put by (done || lia || apply (iv_len _ _ _ _ (bl_inv _ _ _ B)), iblock_fs, Hi). destruct (decide (j = 1)) as [->|Hne]; [by rewrite fset_eq|]. rewrite fset_ne by done. rewrite <- (bl_dino _ _ _ B j Hj). unfold dino. by rewrite marked_ne by lia.
    + intros j Hj Hj0. destruct (decide (j = 1)) as [->|Hne]; [rewrite fset_eq in Hj0; done|]. rewrite fset_ne in * by done. by apply Hfree.
    + intros j. unfold file_at, file_of. rewrite (content_pointwise _ _ _ Ed). destruct (decide (j = 1)) as [->|Hne].
      * pose proof (content_put_dino sb mkfs_layout (disk s) (fset 1 d D) [] 1 d 1 I1 Hi Hi) as Hc. rewrite fset_eq in Hc |- *. rewrite lookup_insert_eq, Hc, decide_True by done. unfold d at 5. rewrite content_grow by (done || lia || by apply B).
        cbn [with_data d set_size d_type d_major d_minor d_nlink f_type f_major f_minor f_nlink]. by rewrite Hpad.
      * rewrite lookup_insert_ne, HF, fset_ne by done. unfold file_at, file_of. destruct (decide _) as [[Hj ?]|]; [|done]. pose proof (content_put_dino sb mkfs_layout (disk s) (fset 1 d D) [] 1 d j I1 Hi Hj) as Hc. rewrite fset_ne in Hc by done. by rewrite Hc.
  - intros m Hm'. rewrite Ed. unfold put_dino. rewrite vput_ne, marked_ne by (try lia; destruct (iblock_low 1 Hi); lia). by apply S0.
Qed.

(** The root directory gets a block that it does not have when its entries fill
    their blocks. *)
Lemma finish_hole args s F r : so_far args s F r -> blocks_used args <= 1000 -> (length args <= 198)%nat -> ((2 + length args) mod 32 = 0)%nat ->
  exists s', finish s = Ok tt s' /\ let d := dino sb (fsfd s') 1 in let n := ((2 + length args) / 32)%nat in
    (n < nblocks (d_size d))%nat /\ fblk (fsfd s') d n = 0 /\ forall F', ~ stored sb F' (fsfd s').
Proof.
  intros S0 Hb Hn Hm. pose proof (sf_block _ _ _ _ S0) as Hfb. pose proof (sf_size _ _ _ _ S0) as Hl. destruct (sf_holds _ _ _ _ S0) as (D & B & Hfree & HF). pose proof (sf_root _ _ _ _ S0) as Hr. rewrite HF in Hr. apply file_at_Some in Hr as (Hi & Ht & ->). cbn [f_data file_of] in *.
  rewrite length_content in Hl. pose proof (app_size s D D 1 B Hi) as Hs. assert (d_size (D 1) = 512 * Z.of_nat ((2 + length args) / 32)) as Hsz by (pose proof (Nat.div_mod_eq (2 + length args) 32); lia). set (n := ((2 + length args) / 32)%nat) in *.
  assert (n <= 6)%nat as Hn6 by (unfold n; transitivity (200 / 32)%nat; [apply Nat.Div0.div_le_mono; lia|done]).
  destruct (finish_ok s D B ltac:(lia) ltac:(lia)) as (s' & E & Ed & Hsec & Hok). set (d := set_size _ (D 1)) in Ed, Hok. exists s'. split; [done|]. assert (dino sb (fsfd s') 1 = d) as ->.
  { unfold dino. rewrite Ed. change (get_dinode (put_dino sb 1 d (disk s) (IBLOCK 1 sb)) (slot 1)) with (dino sb (put_dino sb 1 d (disk s)) 1). rewrite dino_put by (done || apply (iv_len _ _ _ _ (bl_inv _ _ _ B)), iblock_fs, Hi). by rewrite decide_True. }
  assert (n < nblocks (d_size d))%nat as Hlt by (unfold d; cbn [set_size d_size]; rewrite Hsz; unfold nblocks; Z.to_euclidean_division_equations; lia).
  assert (fblk (fsfd s') d n = 0) as H0. { pose proof (dw_free _ _ (iv_wf _ _ _ _ (bl_inv _ _ _ B) 1 Hi) n) as Hz. unfold fblk in *. rewrite (proj2 (Nat.ltb_lt n NDIRECT)) in * by (unfold NDIRECT; lia). apply Hz. rewrite Hsz. unfold nblocks, NDIRECT, NINDIRECT. Z.to_euclidean_division_equations. lia. }
  split_and!; [done|done|]. intros F' (D' & I' & Hd' & _). pose proof (Hd' 1 Hi) as E1. assert (D' 1 = d) as E2.
  { rewrite <- E1. unfold dino. rewrite Ed. change (get_dinode (put_dino sb 1 d (disk s) (IBLOCK 1 sb)) (slot 1)) with (dino sb (put_dino sb 1 d (disk s)) 1). rewrite dino_put by (done || apply (iv_len _ _ _ _ (bl_inv _ _ _ B)), iblock_fs, Hi). by rewrite decide_True. }
  pose proof (fblk_data sb (fsfd s') D' [] 1 n I' Hi) as Hdata. rewrite E2, H0 in Hdata. change (datastart sb) with 59 in Hdata. specialize (Hdata Hlt). lia.
Qed.

(** ** The program *)

Record good_args (args : list argument) : Prop := {
  gas_good : Forall good_arg args;
  gas_count : (length args <= 198)%nat;
  gas_names : NoDup (file_name <$> args);
  gas_room : blocks_used args <= 1000
}.
Lemma main_runs args : good_args args -> exists s F r, so_far args s F r /\ main args start = finish s.
Proof.
  intros [G1 G2 G3 G4]. destruct (main_head (fun rootino => foreach args (add_file rootino) ;;; let! din := rinode rootino in let off := (d_size din / 512 + 1) * 512 in winode rootino (set_size off din) ;;; let! used := gets freeblock in balloc used)) as (s0 & S0 & E0).
  destruct (foreach_add args [] s0 _ _ S0 G1 ltac:(done) G3 G4) as (s & F & r & E & S1). exists s, F, r. split; [done|]. etransitivity; [exact E0|]. by erewrite bind_Ok by exact E.
Qed.

(** C14 The image that mkfs builds from its arguments is a file system: it holds
    a consistent set of files, in which the name of each argument (without its
    leading underscore, cut to fourteen bytes) leads from the root directory to
    a file with the contents of the argument, there are no other files, and the
    log is empty.  The arguments have distinct names without a slash, fit in the
    image, and do not fill the last block of the root directory. *)
Theorem mkfs_builds args : good_args args -> ((2 + length args) mod 32 <> 0)%nat ->
  exists s F r, main args start = Ok tt s /\ sectors s = FSSIZE /\ stored sb F (fsfd s) /\ consistent F /\ dir_at F ROOTINO r /\
    (forall k a, args !! k = Some a -> dir_find (f_data r) (file_name a) = Some ((2 + k)%nat, 2 + Z.of_nat k) /\ F !! (2 + Z.of_nat k) = Some (mkFile T_FILE 0 0 1 (data_of a))) /\
    (forall i, 2 + Z.of_nat (length args) <= i -> F !! i = None) /\ forall n, sb_logstart sb <= n < sb_inodestart sb -> fsfd s n = zeroes.
Proof.
  intros G Hm. destruct (main_runs args G) as (s & F & r & S0 & ->). destruct (finish_stored args s F r S0 (gas_room _ G) (gas_count _ G) Hm) as (s' & n & E & Hst & Hsec & Hlog). destruct (root_dir args s F r S0) as (Hd & Hok & Hsz).
  exists s', (<[1 := with_data (f_data r ++ replicate (16 * n) 0) r]> F), (with_data (f_data r ++ replicate (16 * n) 0) r). pose proof (blanks_consistent F 1 r n (sf_consistent _ _ _ _ S0) Hd) as HC.
  assert (dir_at (<[1 := with_data (f_data r ++ replicate (16 * n) 0) r]> F) 1 (with_data (f_data r ++ replicate (16 * n) 0) r)) as Hd' by (unfold dir_at in *; rewrite lookup_insert_eq; naive_solver).
  do 5 (split; [done|]). split; [|split; [intros i Hi; rewrite lookup_insert_ne by lia; by apply S0|done]]. intros k a Hk. destruct (sf_entry _ _ _ _ S0 k a Hk) as (H1 & H2 & H3). split; [|by rewrite lookup_insert_ne by lia]. pose proof (lookup_lt_Some _ _ _ Hk).
  assert (ent (f_data r ++ replicate (16 * n) 0) (2 + k) = ent (f_data r) (2 + k)) as He by (apply ent_app; [done|]; fold (size_of r); lia). set (r' := with_data _ r) in *. assert (inum_at r' (2 + k) = inum_at r (2 + k)) as E1 by (unfold inum_at; cbn [r' with_data f_data]; by rewrite He).
  assert (name_at r' (2 + k) = name_at r (2 + k)) as E2 by (unfold name_at; cbn [r' with_data f_data]; by rewrite He). rewrite <- H2, <- H1, <- E1, <- E2. apply (find_entry (<[1 := r']> F) 1 r'); [by apply HC| |rewrite E1, H1; lia].
  unfold size_of, nent. cbn [r' with_data f_data]. rewrite length_app, (sf_size _ _ _ _ S0). pose proof (Nat.Div0.div_le_mono (16 * (2 + length args)) (16 * (2 + length args) + length (replicate (16 * n) 0)) 16 ltac:(lia)) as Hmono. rewrite (Nat.mul_comm 16), Nat.div_mul in Hmono by lia. rewrite (Nat.mul_comm 16). lia.
Qed.
(** C39 When the entries of the root directory fill their blocks, the size that
    mkfs writes covers a block that the directory does not have: block zero of
    the disk, and the image is not a file system. *)
Theorem mkfs_hole args : good_args args -> ((2 + length args) mod 32 = 0)%nat ->
  exists s, main args start = Ok tt s /\ let d := dino sb (fsfd s) ROOTINO in let n := ((2 + length args) / 32)%nat in
    (n < nblocks (d_size d))%nat /\ fblk (fsfd s) d n = 0 /\ forall F, ~ stored sb F (fsfd s).
Proof. intros G Hm. destruct (main_runs args G) as (s & F & r & S0 & ->). apply (finish_hole args s F r); [done|apply G|apply G|done]. Qed.

(** ** Instances *)

(** "README", read in two pieces, and "_cat". *)
Definition two_files : list argument := [mkArg [82; 69; 65; 68; 77; 69] (Some [replicate 512 120; [121; 122]]); mkArg [95; 99; 97; 116] (Some [replicate 512 1; replicate 512 2])].
(** Thirty empty files with one-letter names. *)
Definition thirty_files : list argument := map (fun c => mkArg [c] (Some [])) (seqZ 65 30).
Lemma two_good : good_args two_files.
Proof.
  split; [|vm_compute; lia| |by vm_compute].
  - repeat constructor; vm_compute; done || lia || (split; discriminate) || (by eexists) || congruence.
  - apply (bool_decide_unpack _). by vm_compute.
Qed.
Lemma thirty_good : good_args thirty_files.
Proof.
  split; [|vm_compute; lia|apply (bool_decide_unpack _); by vm_compute|by vm_compute].
  apply Forall_fmap, Forall_forall. intros c Hc%elem_of_seqZ. split; cbn [arg_name arg_reads].
  - constructor; [unfold byte; lia|constructor].
  - cbn. rewrite (proj2 (Z.eqb_neq _ _)) by lia. done.
  - by eexists.
  - unfold file_name, plain. cbn [arg_name skip_underscore]. destruct (Z.eqb_spec c 95) as [->|]; [split; discriminate|]. cbn. rewrite (proj2 (Z.eqb_neq _ _)) by lia. split; [intros [= ->]; lia|discriminate].
  - cbn. lia.
Qed.
Lemma mkfs_builds_witness : exists s F r, main two_files start = Ok tt s /\ stored sb F (fsfd s) /\ consistent F /\ dir_at F ROOTINO r /\
  dir_find (f_data r) [99; 97; 116] = Some (3%nat, 3) /\ F !! 3 = Some (mkFile T_FILE 0 0 1 (replicate 512 1 ++ replicate 512 2)).
Proof.
  destruct (mkfs_builds two_files two_good ltac:(vm_compute; discriminate)) as (s & F & r & E & _ & H1 & H2 & H3 & H4 & _). destruct (H4 1%nat _ eq_refl) as [H5 H6]. exists s, F, r. split_and!; [exact E|exact H1|exact H2|exact H3|exact H5|exact H6].
Defined.
Lemma mkfs_hole_witness : exists s, main thirty_files start = Ok tt s /\ fblk (fsfd s) (dino sb (fsfd s) ROOTINO) 1 = 0 /\ forall F, ~ stored sb F (fsfd s).
Proof. destruct (mkfs_hole thirty_files thirty_good ltac:(by vm_compute)) as (s & E & _ & H1 & H2). exists s. split; [exact E|]. split; [exact H1|exact H2]. Defined.
